(* ===== verification/_CoqProject ===== *)
-Q . S2P
Prelude.v
Json.v
Text.v
JsonParse.v
Digest.v
CloudData.v
OsdeployData.v
TsData.v
Conditions.v
Tree.v
Sequences.v
Content.v
Runs.v
RunState.v
Progress.v
Engine.v
Scenarios.v
Generated.v
OsdeployRoles.v
OsdeployRuns.v
OsdeployPlan.v
OsdeployService.v
OsdeployInvariant.v
OsdeployTables.v
OsdeployTheorems.v
OsdeployComplete.v
OsdeployExamples.v
JobQueue.v
JobWorkers.v
ContentManifest.v
SequenceCompiler.v
Lifecycle.v
Dense.v
LegacyStore.v
LegacySequences.v
LegacySeeds.v
LegacyRuns.v
HashFiles.v
WinpeToken.v
WinpeProtocol.v
WinpeInvariant.v
WinpeAgent.v
WinpeExamples.v
Smbios.v
IpNetwork.v
ProxmoxSdn.v
LabData.v
LabStore.v
LabRecords.v
LabNetwork.v
LabReconciler.v
LabLogic.v
LabModel.v
LabInvariant.v
LabOps.v
LabPlan.v
LabSweep.v
LabExecute.v
LabCreate.v
LabService.v
LabConverge.v
LabExamples.v
LabTheorems.v
CloudNames.v
Bubbles.v
BubbleInvariant.v
CloudRuns.v
CloudScripts.v
CloudService.v
CloudInvariant.v
CloudJoin.v
CloudBatch.v
CloudReach.v
CloudComplete.v
CloudReader.v
CloudPasses.v
CloudReserve.v
CloudExamples.v
