(* ===== verification/Prelude.v ===== *)
(** * A verification of ProxmoxVEAutopilot

    The program provisions Windows and Ubuntu machines on Proxmox: operators author
    sequences of steps in a web application, the application plans runs of them, and
    agents on the machines fetch the steps, execute them and report results.  State lives
    in PostgreSQL.  This development models the Python of [src/autopilot-proxmox/web] that
    decides what happens: the tables, every operation on them, and the rules the agents
    are held to.

    ** Conventions

    A function that may raise returns an [outcome]; one that reads and writes shared state
    is an [eff S A], which keeps the state when it raises.  Where the code rolls a
    transaction back, the model does ([Engine.with_connection],
    [LegacyStore.transaction]).  A table is a finite map by its key (stdpp's [gmap]), with
    the constraints of the schema as conditions of its inserts; a [SELECT] is a selection
    with a stable sort by the [ORDER BY].  Clock and generated identifiers are read from
    the state, so that a function called twice sees two times.  Texts are sequences of
    code points below 256, but for the scripts that are sent to guests, which have all of
    Unicode ([CloudScripts.text]); integers are unbounded as in Python.  Third-party code is a
    class or a parameter: the cipher ([LegacyStore.Fernet]), Proxmox, the file system and the files of the
    OSD client ([WinpeProtocol.WinpeEnv]), the order of Python's sets
    ([OsdeployRoles.StrSet]), the draws of [secrets] ([OsdeployRuns.Secrets]), the text of a
    time ([CloudRuns.IsoTime]), what guests, the API of Proxmox and the clock answer
    ([CloudJoin.Guests], [CloudScripts.GuestApi]).  SHA-256, HMAC, base64, JSON, UTF-8,
    UTF-16 and CSV are written out.

    ** The files

    - Prelude (this file): outcomes and effects, Python's text functions, stable sorting,
      tables.  [Json], [JsonParse], [Text], [Digest]: JSON values, [json.dumps],
      [json.loads], [str.replace], XML escaping and reading, SHA-256 and HMAC.
    - Task sequence engine, [ts_engine_pg.py].  [TsData]: tables and constraints;
      [Conditions]: the condition dialect; [Tree]: [_flatten_steps]; [Sequences]: drafts,
      builder trees ([_normalize_builder_nodes] of [app.py]) and compiled versions;
      [Content]: the content catalogue and the manifest of a run; [Runs]: creating a run,
      claiming, results, reboots; [RunState], [Progress]: their theorems;
      [Engine]: all operations together as a transition system, with [db_pg.py];
      [Scenarios]: concrete runs, witnesses and what goes wrong.
    - OSDeploy, deployments of Windows servers.  [OsdeployData]: the tables;
      [OsdeployRoles]: [osdeploy_roles.py]; [OsdeployRuns]: [osdeploy_pg.py];
      [OsdeployService]: the handlers of [osdeploy_endpoints.py] and what
      [osd_v2_endpoints.py], [agent_v1_endpoints.py] and [builder.py] report;
      [OsdeployPlan]: the plan of a deployment; [OsdeployInvariant], [OsdeployTables]: what
      all requests keep; [OsdeployTheorems], [OsdeployComplete]: the properties, of heartbeats
      and of labs among them; [OsdeployExamples]: a small service.
    - CloudOSD, deployments of Windows clients, and lab bubbles.  [CloudData]: the tables;
      [CloudNames]: what [cloudosd_pg.py] computes on values; [CloudRuns]: its operations, and
      what creating a deployment leaves; [Bubbles]: [lab_bubbles_pg.py], the handlers of
      [app.py] under [/api/bubbles] and the reports of domain controllers; [CloudService]:
      the handlers of [cloudosd_endpoints.py]; [CloudScripts], [CloudJoin]: the scripts and
      the passes of [cloudosd_domain_join.py] with the tick of [monitor_main.py];
      [CloudBatch]: [cloudosd_sequence.py], and deployments in batches, of [app.py].
      [Generated]: the sequences both kinds of deployments write.  [CloudInvariant],
      [BubbleInvariant], [CloudReach]: what all requests keep; [CloudComplete],
      [CloudPasses], [CloudReserve], [CloudReader] (a reader of PowerShell): the properties;
      [CloudExamples]: a small cluster and a guest.
    - Job queue, [jobs_pg.py].  [JobQueue]: every operation; [JobWorkers]: the statements
      of a claim, interleaved between any number of workers with their locks.
    - [ContentManifest]: [content_manifest.py] and the manifest of the catalogue.
    - [SequenceCompiler]: [sequence_compiler.py], the fragments of the answer file, the
      commands, the precedence of variables, the WinPE phase.
    - [Lifecycle]: [machine_lifecycle_pg.py].
    - Legacy store, [sequences_pg.py] with [crypto.py] and handlers of [app.py].  [Dense]:
      tables with numbered rows; [LegacyStore]: tables and operations; [LegacySequences]:
      the handlers that edit sequences, the invariant; [LegacySeeds]: [seed_defaults];
      [LegacyRuns]: runs, steps, their order, the sweep.
    - Agents' protocol, [winpe_token.py] and [winpe_endpoints.py].  [WinpeToken]: tokens;
      [HashFiles]: files of captured hashes with [get_hash_files] of [app.py];
      [WinpeProtocol]: the handlers, requests and what a request may touch;
      [WinpeInvariant]: what all requests keep, and [post_osd_complete];
      [WinpeAgent]: an agent that does its work; [WinpeExamples]: concrete requests.
    - [Smbios]: the firmware file of [smbios_builder.py] and a reader of it.
    - Managed labs.  [IpNetwork]: what the code uses of Python's [ipaddress]; [ProxmoxSdn]:
      [proxmox_sdn.py]; [LabData]: tables and transactions, [LabStore],
      [LabRecords]: [managed_labs_pg.py]; [LabNetwork]: executing fix actions,
      [managed_labs_network.py]; [LabReconciler]: plans and sweeps with the handlers,
      [managed_labs_reconciler.py] and [managed_labs_endpoints.py].  [LabLogic]: rules for
      code on a connection; [LabModel], [LabInvariant], [LabOps]: what the operations keep;
      [LabPlan], [LabSweep], [LabExecute], [LabCreate]: what planning, executing and creating
      do; [LabService]: the requests and the states they lead to; [LabConverge]: carrying
      out plans; [LabExamples]: a small Proxmox; [LabTheorems]: the properties.

    ** How the parts interact

    [Engine] puts authoring, content and runs on one database and steps through any
    sequence of calls, whether they commit or raise.  [WinpeProtocol] does the same for the
    legacy store: a request of an agent goes through a token ([WinpeToken]) to the store
    ([LegacyRuns]), asks [SequenceCompiler] for the actions of WinPE, and completes jobs of
    [JobQueue].  What the store promises its clients is [LegacyStore.wf_store] and
    [LegacyStore.safe]: an operation that is safe keeps the invariant whether it returns
    or raises; clients are proved against that.

    OSDeploy shares the engine's database and its transactions ([TsData.db]): a deployment
    extends a run of the engine, the engine's agents carry out its plan, and reports move
    both.  [OsdeployInvariant.Statements] is the interface between them: an invariant that
    every statement of OSDeploy keeps is kept by every request, the engine's invariants
    among them.  [OsdeployService.serve_all] serves the requests of both.

    CloudOSD and the bubbles are on the same database.  [CloudInvariant.CloudStatements] and
    [BubbleInvariant.BubbleStatements] are their interfaces: an invariant that every
    statement of them keeps is kept by every handler, by batches and by the passes over the
    guests.  [CloudReach.system_step] is a request to any of the four, a batch or a tick of
    the monitor, each in a transaction of its own; the world the last two talk to may answer
    anything.  The engine's rule that a done run has nothing left to do does not survive
    deployments, which are done when their gate says so.

    The labs put their store, the reconciler and Proxmox together in [LabService]: every
    handler, in any order, with any change of Proxmox between two of them.  Proxmox is the
    class [ProxmoxSdn.Proxmox] of three handles that may answer anything; what convergence
    needs of it is the record [LabConverge.serves], and [LabExamples] has a Proxmox that
    meets it.

    ** The theorems

    - Claims of steps are sound, exclusive and complete; an agent that succeeds finishes a
      run; a failing step is tried [retry_count + 1] times; reboots survive late results;
      in every reachable state done runs have nothing left to do (deployments apart), attempts are bounded and
      everything stored is well-formed.
    - A deployment's plan is that of its role, a lab is deployed as a whole, in dependency
      order and with one domain; a heartbeat completes a plain server, a role needs
      evidence of its own; what is complete stays complete but for two requests; a bundle
      has the state its members call for; role options are accepted exactly when the
      catalogue's rules hold.
    - A deployment of a client plans what it needs to be complete, and a heartbeat completes
      it exactly when that is done and the machine is in its domain; guests are joined,
      restarted and their steps marked only on what they answered; no text without a
      typographic quote breaks out of the script that joins them, and the hash they print is
      read back; waiting for a guest ends; a batch takes the least numbers that no
      deployment has reserved and no machine that Proxmox lists has; passwords stay
      with their credential; all tables of the four parts are well-formed in every state.
    - Plans list exactly the steps of the tree, conditions mean what the dialect says,
      compiled versions are the draft, pins do not move.
    - Jobs run once, under their caps, for every interleaving of workers; a worker that is
      not disturbed does what [claim_next_job] says.
    - Manifests and their digests are canonical; scripts reach the machine verbatim;
      fragments of the answer file cannot be broken out of and are well-formed when their
      values have no forbidden control characters; the current row of a machine
      is the summary of its observations.
    - The legacy store keeps its numbering, references and single default through all
      requests of agents and controller; duplicating and seeding do what they say;
      reordering sorts a phase or changes nothing.
    - Tokens verify until they expire; an agent cannot act outside of its run and its machine; completion
      is granted exactly when all is done; a diligent agent is never refused and finishes.
    - A reader of the firmware file finds the texts that were given.
    - Labs whose networks are being built or ready have no address in common, in every
      state; creating a lab is all or nothing; a plan is the one the inventory calls for; an
      action is settled once and leaves alone what is there; plans that are carried out
      end with the lab ready.

    ** Fuel and bounds

    [Tree.flatten_steps] walks with fuel one more than the number of nodes, which
    [flatten_steps_spec] shows is enough for every tree; the cascade of deletions has fuel
    the number of rows, each round deleting at least one; [Conditions.eval_condition] has
    fuel the depth of the condition, shown enough; [OsdeployRoles.sanitize_role_options] has fuel the depth of the options, shown enough
    ([sanitize_fuel_enough]); [Progress] drives a run with as many rounds as there are
    unfinished steps; [CloudScripts.poll] waits with fuel half the seconds it is given plus
    two, shown enough when the clock goes on; [CloudBatch.vmids_fuel] is the numbers asked
    for plus those in use, shown enough ([vmids_fuel_enough]); [JsonParse] reads with fuel twice the length of the text plus two,
    shown enough for every printed value.  [HashFiles.field_limit] is the limit of
    Python's [csv]; tokens live one hour in WinPE and one day under Windows, as in the
    code.

    ** Not modelled

    HTML pages and JSON listings that only read; creating the tables; Proxmox, Ansible,
    UTM and Microsoft Graph calls; image building; the documents [get_unattend] and
    [get_autopilot_config] render; characters above 255 outside of the scripts for guests; concurrent
    transactions other than the workers of the job queue and the two results of
    [Scenarios]: handlers run one after the other.  Of the labs: identifiers of requests
    that are no canonical UUIDs, which PostgreSQL refuses; the order of the keys of a
    [jsonb] value; rows of an inventory that are no dictionaries, on which the code raises
    in places the model does not.  Of OSDeploy and CloudOSD: tokens, the checks
    of the preflight that ask Proxmox, packages for the preinstallation environment, media
    builds and caches, the pages about Autopilot uploads and that of the machines of a
    bubble.  SDN pages, devices, telemetry and deployment health read or mirror what other
    programs report, and are not modelled.

    ** This file

    Effects, the text functions of Python the code uses, stable sorting, and database
    tables. *)

From stdpp Require Import base gmap list strings pretty sorting.
From Stdlib Require Import ZArith Lia Ascii.

(** ** Exceptions and effects

    A Python function that reads and writes shared state and may raise is an
    [eff S A]: it takes the state to an outcome and a state.  The state is kept
    when the function raises, because a database connection keeps its
    uncommitted work until somebody rolls it back. *)

Inductive exc : Type :=
| ValueError (message : string)
| KeyError (key : string)
| TypeError
| AttributeError
| IntegrityError (constraint : string)
| CustomError (class message : string).

#[export] Instance exc_eq_dec : EqDecision exc.
Proof. solve_decision. Defined.

Inductive outcome (A : Type) : Type :=
| Ret (a : A)
| Exc (e : exc).
Arguments Ret {A} a.
Arguments Exc {A} e.

#[export] Instance outcome_eq_dec `{EqDecision A} : EqDecision (outcome A).
Proof. solve_decision. Defined.

#[export] Instance outcome_ret : MRet outcome := λ A a, Ret a.
#[export] Instance outcome_bind : MBind outcome := λ A B f m,
  match m with Ret a => f a | Exc e => Exc e end.
#[export] Instance outcome_fmap : FMap outcome := λ A B f m,
  match m with Ret a => Ret (f a) | Exc e => Exc e end.

Definition eff (S A : Type) : Type := S → outcome A * S.

#[export] Instance eff_ret S : MRet (eff S) := λ A a s, (Ret a, s).
#[export] Instance eff_bind S : MBind (eff S) := λ A B f m s,
  match m s with
  | (Ret a, s') => f a s'
  | (Exc e, s') => (Exc e, s')
  end.

Definition raise {S A} (e : exc) : eff S A := λ s, (Exc e, s).
Definition get_state {S} : eff S S := λ s, (Ret s, s).
Definition modify {S} (f : S → S) : eff S unit := λ s, (Ret tt, f s).
Definition lift_outcome {S A} (o : outcome A) : eff S A := λ s, (o, s).

(** [for x in l: body x] *)
Fixpoint for_each {S A} (l : list A) (body : A → eff S unit) : eff S unit :=
  match l with
  | [] => mret tt
  | x :: l => body x ;; for_each l body
  end.

(** A list comprehension whose element may raise. *)
Fixpoint omapM {A B} (f : A → outcome B) (l : list A) : outcome (list B) :=
  match l with
  | [] => Ret []
  | x :: l => y ← f x; ys ← omapM f l; Ret (y :: ys)
  end.

Section eff_laws.
Context {S : Type}.

Lemma run_bind {A B} (m : eff S A) (f : A → eff S B) s :
  (m ≫= f) s = match m s with
               | (Ret a, s') => f a s'
               | (Exc e, s') => (Exc e, s')
               end.
Proof. done. Qed.

Lemma run_ret {A} (a : A) (s : S) : (mret a : eff S A) s = (Ret a, s).
Proof. done. Qed.

Lemma run_raise {A} e (s : S) : (raise e : eff S A) s = (Exc e, s).
Proof. done. Qed.

Lemma run_get (s : S) : get_state s = (Ret s, s).
Proof. done. Qed.

Lemma run_modify (f : S → S) s : modify f s = (Ret tt, f s).
Proof. done. Qed.

(** A loop that never raises folds its body's state change. *)
Lemma run_for_each {A} (body : A → eff S unit) (g : A → S → S) l s :
  (∀ x s, x ∈ l → body x s = (Ret tt, g x s)) →
  for_each l body s = (Ret tt, foldl (λ s x, g x s) s l).
Proof.
  revert s. induction l as [|x l IH]; intros s Hb; [done|].
  simpl. rewrite run_bind, Hb by set_solver.
  apply IH. intros y s' ?. apply Hb. set_solver.
Qed.

(** A property of the state that the body preserves holds after the loop,
    whether or not it raises. *)
Lemma for_each_preserves {A} (body : A → eff S unit) (I : S → Prop) l s :
  I s → (∀ x s, x ∈ l → I s → I (body x s).2) → I (for_each l body s).2.
Proof.
  revert s. induction l as [|x l IH]; intros s Hs Hb; [done|].
  simpl. rewrite run_bind. pose proof (Hb x s ltac:(set_solver) Hs) as Hx.
  destruct (body x s) as [[[]|e] s']; simpl in *; [|done].
  apply IH; [done|]. intros y s'' ??. apply Hb; set_solver.
Qed.
End eff_laws.

Create Rewrite HintDb eff.
#[export] Hint Rewrite @run_bind @run_ret @run_raise @run_get @run_modify : eff.

Lemma omapM_Forall2 {A B} (f : A → outcome B) l ys :
  omapM f l = Ret ys ↔ Forall2 (λ x y, f x = Ret y) l ys.
Proof.
  split.
  - revert ys. induction l as [|x l IH]; simpl; intros ys H.
    { injection H as <-. constructor. }
    destruct (f x) eqn:E; [|discriminate]. simpl in H.
    destruct (omapM f l) eqn:E2; [|discriminate]. simpl in H.
    injection H as <-. constructor; eauto.
  - induction 1 as [|x y l ys Hx _ IH]; [done|]. simpl. by rewrite Hx; simpl; rewrite IH.
Qed.

(** ** Python text

    A string is read as the sequence of its code points below 256. *)

Module PyStr.
Definition code (c : ascii) : N := N_of_ascii c.

(** [str.isspace] on one character. *)
Definition is_space (c : ascii) : bool :=
  let n := code c in
  bool_decide ((9 ≤ n ≤ 13) ∨ (28 ≤ n ≤ 32) ∨ n = 133 ∨ n = 160)%N.

Fixpoint lstrip (s : string) : string :=
  match s with
  | String c s' => if is_space c then lstrip s' else s
  | EmptyString => s
  end.

Fixpoint rstrip (s : string) : string :=
  match s with
  | EmptyString => s
  | String c s' =>
      match rstrip s' with
      | EmptyString => if is_space c then EmptyString else String c EmptyString
      | t => String c t
      end
  end.

(** [str.strip()] *)
Definition strip (s : string) : string := lstrip (rstrip s).

Definition lower_char (c : ascii) : ascii :=
  let n := code c in
  if bool_decide ((65 ≤ n ≤ 90) ∨ ((192 ≤ n ≤ 222) ∧ n ≠ 215))%N
  then ascii_of_N (n + 32) else c.

(** [str.lower()] *)
Fixpoint lower (s : string) : string :=
  match s with
  | EmptyString => EmptyString
  | String c s' => String (lower_char c) (lower s')
  end.

(** [s.split(sep)] for a one-character separator: never the empty list. *)
Fixpoint split (sep : ascii) (s : string) : list string :=
  match s with
  | EmptyString => [EmptyString]
  | String c s' =>
      if decide (c = sep) then EmptyString :: split sep s'
      else match split sep s' with
           | [] => [String c EmptyString]
           | w :: ws => String c w :: ws
           end
  end.

(** [sep.join(parts)] *)
Fixpoint join (sep : string) (parts : list string) : string :=
  match parts with
  | [] => EmptyString
  | [w] => w
  | w :: ws => w +:+ sep +:+ join sep ws
  end.

(** [needle in s] *)
Fixpoint contains (needle s : string) : bool :=
  String.prefix needle s ||
  match s with EmptyString => false | String _ s' => contains needle s' end.

(** [value or default] for a string *)
Definition or_else (s d : string) : string :=
  match s with EmptyString => d | _ => s end.

Lemma split_not_nil sep s : split sep s ≠ [].
Proof. destruct s; simpl; repeat case_match; done. Qed.

Lemma lower_char_idem c : lower_char (lower_char c) = lower_char c.
Proof. by destruct c as [[] [] [] [] [] [] [] []]; vm_compute. Qed.

Lemma lower_idem s : lower (lower s) = lower s.
Proof. induction s; simpl; [done|]. by rewrite lower_char_idem, IHs. Qed.

Lemma lower_or_else s d : s ≠ EmptyString → lower (or_else s d) = lower s.
Proof. by destruct s. Qed.

Lemma rstrip_String c s :
  rstrip (String c s) =
  match rstrip s with
  | EmptyString => if is_space c then EmptyString else String c EmptyString
  | t => String c t
  end.
Proof. done. Qed.

Lemma rstrip_idem s : rstrip (rstrip s) = rstrip s.
Proof.
  induction s as [|c s IH]; [done|]. rewrite rstrip_String.
  destruct (rstrip s) as [|d t] eqn:E.
  - destruct (is_space c) eqn:Ec; [done|]. simpl. by rewrite Ec.
  - rewrite rstrip_String, IH. done.
Qed.

Lemma lstrip_idem s : lstrip (lstrip s) = lstrip s.
Proof.
  induction s as [|c s IH]; [done|]. simpl.
  destruct (is_space c) eqn:E; [done|]. simpl. by rewrite E.
Qed.

Lemma rstrip_lstrip_fixed s : rstrip s = s → rstrip (lstrip s) = lstrip s.
Proof.
  induction s as [|c s IH]; [done|]. intros H. rewrite rstrip_String in H.
  simpl lstrip. destruct (is_space c) eqn:Ec.
  - apply IH. destruct (rstrip s) eqn:E; congruence.
  - rewrite rstrip_String. destruct (rstrip s); [|congruence].
    by rewrite Ec.
Qed.

Lemma strip_idem s : strip (strip s) = strip s.
Proof.
  unfold strip. rewrite (rstrip_lstrip_fixed (rstrip s)) by apply rstrip_idem.
  apply lstrip_idem.
Qed.
End PyStr.

(** ** Comparators and stable sorting

    [ORDER BY k1, k2 DESC] and [sorted(key=...)] are described by a comparator
    built from the keys; [isort] sorts by it and keeps the order of equal
    elements, as Python's sort does. *)

Class OrdCmp {A} (c : A → A → comparison) : Prop := {
  cmp_refl x : c x x = Eq;
  cmp_opp x y : c y x = CompOpp (c x y);
  cmp_trans x y z : c x y ≠ Gt → c y z ≠ Gt → c x z ≠ Gt
}.

Definition cmp_Z : Z → Z → comparison := Z.compare.
Definition cmp_str : string → string → comparison := String.compare.
Definition cmp_on {A B} (f : A → B) (c : B → B → comparison) (x y : A) : comparison :=
  c (f x) (f y).
Definition cmp_then {A} (c1 c2 : A → A → comparison) (x y : A) : comparison :=
  match c1 x y with Eq => c2 x y | r => r end.
Definition cmp_desc {A} (c : A → A → comparison) (x y : A) : comparison := c y x.
(** [NULLS FIRST] *)
Definition cmp_nulls_first {A} (c : A → A → comparison) (x y : option A) : comparison :=
  match x, y with
  | None, None => Eq
  | None, Some _ => Lt
  | Some _, None => Gt
  | Some a, Some b => c a b
  end.

#[export] Typeclasses Opaque cmp_Z cmp_str cmp_on cmp_then cmp_desc cmp_nulls_first.

#[export] Instance OrdCmp_Z : OrdCmp cmp_Z.
Proof.
  split; unfold cmp_Z; intros; [apply Z.compare_refl|apply Z.compare_antisym|].
  rewrite Z.compare_le_iff in *. lia.
Qed.

#[export] Instance OrdCmp_str : OrdCmp cmp_str.
Proof.
  assert (∀ x y, cmp_str x y ≠ Gt ↔ String.le x y) as Hle.
  { intros x y. unfold cmp_str, String.le, String.leb.
    destruct (String.compare x y); simpl; naive_solver. }
  split.
  - intros x. unfold cmp_str. induction x as [|a x IH]; simpl; [done|].
    unfold Ascii.compare. by rewrite N.compare_refl.
  - intros x y. apply String.compare_antisym.
  - intros x y z. rewrite !Hle. by etrans.
Qed.

#[export] Instance OrdCmp_on {A B} (f : A → B) c `{!OrdCmp c} : OrdCmp (cmp_on f c).
Proof.
  split; unfold cmp_on; intros; [apply cmp_refl|apply cmp_opp|by eapply cmp_trans].
Qed.

#[export] Instance OrdCmp_desc {A} (c : A → A → comparison) `{!OrdCmp c} : OrdCmp (cmp_desc c).
Proof.
  split; unfold cmp_desc; intros; [apply cmp_refl|apply cmp_opp|by eapply cmp_trans].
Qed.

#[export] Instance OrdCmp_nulls_first {A} (c : A → A → comparison) `{!OrdCmp c} :
  OrdCmp (cmp_nulls_first c).
Proof.
  split; unfold cmp_nulls_first.
  - intros [x|]; [apply cmp_refl|done].
  - intros [x|] [y|]; [apply cmp_opp|done..].
  - intros [x|] [y|] [z|]; try done. apply cmp_trans.
Qed.

(** Equal keys are interchangeable. *)
Lemma cmp_eq_l {A} (c : A → A → comparison) `{!OrdCmp c} x y z :
  c x y = Eq → c x z = c y z.
Proof.
  intros Hxy.
  assert (c y x = Eq) as Hyx by (by rewrite (cmp_opp x y), Hxy).
  pose proof (cmp_trans x y z). pose proof (cmp_trans y x z).
  pose proof (cmp_trans z x y). pose proof (cmp_trans z y x).
  pose proof (cmp_opp x z). pose proof (cmp_opp y z).
  destruct (c x z), (c y z); simpl in *; naive_solver congruence.
Qed.

#[export] Instance OrdCmp_then {A} (c1 c2 : A → A → comparison) `{!OrdCmp c1, !OrdCmp c2} :
  OrdCmp (cmp_then c1 c2).
Proof.
  split; unfold cmp_then.
  - intros x. by rewrite !cmp_refl.
  - intros x y. rewrite (cmp_opp (c:=c1) x y), (cmp_opp (c:=c2) x y).
    by destruct (c1 x y).
  - intros x y z Hxy Hyz.
    pose proof (cmp_trans (c:=c1) x y z). pose proof (cmp_trans (c:=c2) x y z).
    destruct (c1 x y) eqn:E1; try done.
    + rewrite (cmp_eq_l c1 x y z) by done. destruct (c1 y z); naive_solver.
    + pose proof (cmp_trans (c:=c1) y z x). pose proof (cmp_trans (c:=c1) z x y).
      pose proof (cmp_opp (c:=c1) x y). pose proof (cmp_opp (c:=c1) x z).
      pose proof (cmp_opp (c:=c1) y z).
      rewrite E1 in *. destruct (c1 y z) eqn:E2, (c1 x z) eqn:E3; simpl in *;
        naive_solver congruence.
Qed.

Section sorting.
Context {A : Type} (c : A → A → comparison).

Definition cmp_le (x y : A) : bool := match c x y with Gt => false | _ => true end.

Fixpoint insert_sorted (x : A) (l : list A) : list A :=
  match l with
  | [] => [x]
  | y :: l' => if cmp_le x y then x :: l else y :: insert_sorted x l'
  end.

Definition isort (l : list A) : list A := foldr insert_sorted [] l.

Lemma insert_sorted_perm x l : insert_sorted x l ≡ₚ x :: l.
Proof.
  induction l as [|y l IH]; simpl; [done|]. destruct (cmp_le x y); [done|].
  rewrite IH. apply Permutation_swap.
Qed.

Lemma isort_perm l : isort l ≡ₚ l.
Proof. induction l as [|x l IH]; simpl; [done|]. by rewrite insert_sorted_perm, IH. Qed.

Lemma elem_of_isort x l : x ∈ isort l ↔ x ∈ l.
Proof. by rewrite isort_perm. Qed.

Lemma isort_length l : length (isort l) = length l.
Proof. by rewrite isort_perm. Qed.

Lemma NoDup_isort l : NoDup l → NoDup (isort l).
Proof. by rewrite isort_perm. Qed.

(** Sorting by a key that is already in order changes nothing. *)
Lemma isort_sorted_id l : Sorted (λ x y, c x y ≠ Gt) l → isort l = l.
Proof.
  induction 1 as [|x l Hs IH Hx]; [done|]. simpl. rewrite IH.
  destruct Hx as [|y l Hxy]; [done|]. simpl. unfold cmp_le.
  by destruct (c x y).
Qed.

Context `{!OrdCmp c}.

Lemma cmp_le_spec x y : cmp_le x y = true ↔ c x y ≠ Gt.
Proof. unfold cmp_le. destruct (c x y); naive_solver. Qed.

Lemma isort_StronglySorted l : StronglySorted (λ x y, c x y ≠ Gt) (isort l).
Proof.
  induction l as [|x l IH]; simpl; [constructor|].
  induction IH as [|y l' Hl' IH' Hy]; simpl; [by repeat constructor|].
  destruct (cmp_le x y) eqn:E.
  - apply cmp_le_spec in E. constructor; [by constructor|].
    constructor; [done|]. eapply Forall_impl; [done|]. intros z ?. by eapply cmp_trans.
  - assert (c y x ≠ Gt) as Hyx.
    { rewrite (cmp_opp x y). unfold cmp_le in E. by destruct (c x y). }
    constructor; [done|]. rewrite insert_sorted_perm. by constructor.
Qed.

Lemma isort_head_le x y l : head (isort l) = Some x → y ∈ l → c x y ≠ Gt.
Proof.
  intros Hx Hy. pose proof (isort_StronglySorted l) as Hs.
  rewrite <- elem_of_isort in Hy.
  destruct (isort l) as [|z l']; simplify_eq/=.
  apply StronglySorted_cons in Hs as [Hf _].
  apply elem_of_cons in Hy as [->|Hy]; [by rewrite cmp_refl|].
  rewrite Forall_forall in Hf. by apply Hf.
Qed.

Lemma isort_head_elem x l : head (isort l) = Some x → x ∈ l.
Proof.
  intros Hx. rewrite <- elem_of_isort. destruct (isort l); simplify_eq/=. set_solver.
Qed.

Lemma isort_head_None l : head (isort l) = None → l = [].
Proof.
  intros H. destruct (isort l) eqn:E; [|done].
  apply Permutation_nil_r. by rewrite <- E, isort_perm.
Qed.

(** The least element is the first one, when no other is equivalent to it. *)
Lemma isort_head_least x l :
  x ∈ l → (∀ y, y ∈ l → y = x ∨ c x y = Lt) → head (isort l) = Some x.
Proof.
  intros Hx Hl. destruct (head (isort l)) as [y|] eqn:E.
  - destruct (Hl y) as [->|Hlt]; [by apply isort_head_elem|done|].
    pose proof (isort_head_le y x l E Hx) as Hle.
    rewrite (cmp_opp x y), Hlt in Hle. done.
  - apply isort_head_None in E. subst. by apply not_elem_of_nil in Hx.
Qed.

(** When equivalent elements are equal, the result does not depend on the
    order of the input. *)
Lemma isort_perm_eq l1 l2 :
  l1 ≡ₚ l2 → (∀ x y, x ∈ l1 → y ∈ l1 → c x y = Eq → x = y) → isort l1 = isort l2.
Proof.
  intros Hp Huniq. apply (StronglySorted_unique_strong (λ x y, c x y ≠ Gt)).
  - intros x y Hx Hy Hxy Hyx. rewrite elem_of_isort in Hx, Hy.
    rewrite <- Hp in Hy. apply Huniq; [done..|].
    rewrite (cmp_opp x y) in Hyx. by destruct (c x y).
  - apply isort_StronglySorted.
  - apply isort_StronglySorted.
  - by rewrite !isort_perm.
Qed.
End sorting.

(** ** Database tables

    A table is a finite map from its primary key to the other columns. *)

Section tables.
Context `{Countable K} {R : Type}.
Implicit Types (t : gmap K R) (P : K * R → Prop).

(** [SELECT ... WHERE P] *)
Definition select_where P `{∀ x, Decision (P x)} t : list (K * R) :=
  filter P (map_to_list t).

(** [EXISTS (SELECT 1 ... WHERE P)] *)
Definition exists_where P `{∀ x, Decision (P x)} t : bool :=
  match select_where P t with [] => false | _ => true end.

(** [UPDATE ... SET f WHERE P] *)
Definition update_where P `{∀ x, Decision (P x)} (f : R → R) t : gmap K R :=
  map_imap (λ k r, Some (if decide (P (k, r)) then f r else r)) t.

Context P `{!∀ x, Decision (P x)}.

Lemma elem_of_select_where t k r : (k, r) ∈ select_where P t ↔ P (k, r) ∧ t !! k = Some r.
Proof. unfold select_where. by rewrite list_elem_of_filter, elem_of_map_to_list. Qed.

Lemma NoDup_select_where t : NoDup (select_where P t).
Proof. apply NoDup_filter, NoDup_map_to_list. Qed.

Lemma NoDup_select_where_fst t : NoDup (select_where P t).*1.
Proof.
  unfold select_where. pose proof (NoDup_fst_map_to_list t) as Hnd.
  induction (map_to_list t) as [|x l IH]; [done|].
  rewrite filter_cons. apply NoDup_cons in Hnd as [Hx Hnd].
  case_decide; [|by apply IH]. csimpl. apply NoDup_cons. split; [|by apply IH].
  intros (y & Hxy & Hy%list_elem_of_filter)%list_elem_of_fmap. apply Hx.
  apply list_elem_of_fmap. exists y. naive_solver.
Qed.

Lemma exists_where_true t : exists_where P t = true ↔ ∃ k r, t !! k = Some r ∧ P (k, r).
Proof.
  unfold exists_where. pose proof (elem_of_select_where t) as Hin.
  destruct (select_where P t) as [|[k r] l].
  - split; [done|]. intros (k & r & Hk & HP). specialize (Hin k r). set_solver.
  - split; [|done]. intros _. exists k, r. specialize (Hin k r). set_solver.
Qed.

Lemma exists_where_false t :
  exists_where P t = false ↔ ∀ k r, t !! k = Some r → ¬ P (k, r).
Proof.
  rewrite <- not_true_iff_false, exists_where_true. naive_solver.
Qed.

Lemma lookup_update_where f t k :
  update_where P f t !! k = (λ r, if decide (P (k, r)) then f r else r) <$> t !! k.
Proof. unfold update_where. rewrite map_lookup_imap. by destruct (t !! k). Qed.
End tables.

Lemma filter_all {A} (P : A → Prop) `{∀ x, Decision (P x)} (l : list A) :
  (∀ x, x ∈ l → P x) → filter P l = l.
Proof.
  induction l as [|x l IH]; intros Hl; [done|]. rewrite filter_cons, decide_True by set_solver.
  f_equal. apply IH. set_solver.
Qed.

(** [SELECT count( * ) ... WHERE P] *)
Definition count_where `{Countable K} {R} (P : K * R → Prop) `{∀ x, Decision (P x)} (t : gmap K R) :
    nat :=
  length (select_where P t).

(** A count only grows when some row starts to satisfy the condition. *)
Lemma count_where_mono `{Countable K} {R} (P P' : K * R → Prop)
    `{∀ x, Decision (P x), ∀ x, Decision (P' x)} (t t' : gmap K R) :
  (∀ k r, t' !! k = Some r → P' (k, r) → ∃ r0, t !! k = Some r0 ∧ P (k, r0)) →
  (count_where P' t' ≤ count_where P t)%nat.
Proof.
  intros Hsub. unfold count_where.
  rewrite <- (length_fmap fst (select_where P' t')), <- (length_fmap fst (select_where P t)).
  apply submseteq_length, NoDup_submseteq; [apply NoDup_select_where_fst|].
  intros k (x & -> & Hx)%list_elem_of_fmap. destruct x as [k r].
  apply elem_of_select_where in Hx as [HP Hk]. destruct (Hsub k r Hk HP) as (r0 & Hr0 & HP0).
  apply list_elem_of_fmap. exists (k, r0). by rewrite elem_of_select_where.
Qed.

(** Writing one row adds at most one to a count. *)
Lemma count_where_insert `{Countable K} {R} (P : K * R → Prop) `{∀ x, Decision (P x)} t k (r : R) :
  (count_where P (<[k := r]> t) ≤ S (count_where P t))%nat.
Proof.
  transitivity (S (count_where P (delete k t))).
  - unfold count_where, select_where. rewrite <- insert_delete_eq, map_to_list_insert by
      apply lookup_delete_eq. rewrite filter_cons. case_decide; simpl; lia.
  - apply le_n_S, count_where_mono. intros i r' [_ Hi]%lookup_delete_Some. eauto.
Qed.

(** A list is sorted when the order of its indices is the order of its elements. *)
Lemma StronglySorted_filter {A} (R : A → A → Prop) (P : A → Prop) `{∀ x, Decision (P x)} l :
  StronglySorted R l → StronglySorted R (filter P l).
Proof.
  induction 1 as [|x l Hl IH Hx]; [constructor|]. rewrite filter_cons. case_decide; [|done].
  constructor; [done|]. rewrite Forall_forall in *. intros y [_ Hy]%list_elem_of_filter. auto.
Qed.

Lemma elem_of_StronglySorted_indexed {A} (R : A → A → Prop) l :
  (∀ i j x y, (i < j)%nat → l !! i = Some x → l !! j = Some y → R x y) → StronglySorted R l.
Proof.
  induction l as [|a l IH]; intros Hl; constructor.
  - apply IH. intros i j x y Hij Hx Hy. apply (Hl (S i) (S j)); [lia|done|done].
  - apply Forall_lookup. intros i y Hy. apply (Hl 0%nat (S i)); [lia|done|done].
Qed.

(** What the body of a loop preserves holds at its end. *)
Lemma foldl_preserves {A B} (P : A → Prop) (f : A → B → A) l a :
  P a → (∀ a b, P a → P (f a b)) → P (foldl f a l).
Proof. intros Ha Hf. revert a Ha. induction l as [|b l IH]; simpl; auto. Qed.

(** A key that is distinct on a list identifies its elements. *)
Lemma NoDup_fmap_elem_inj {A B} (f : A → B) l x y :
  NoDup (f <$> l) → x ∈ l → y ∈ l → f x = f y → x = y.
Proof.
  intros Hnd [i Hi]%list_elem_of_lookup [j Hj]%list_elem_of_lookup Hf.
  assert (i = j) as ->; [|congruence].
  apply (NoDup_lookup (f <$> l) i j (f x)); [done|..]; rewrite list_lookup_fmap.
  - by rewrite Hi.
  - by rewrite Hj, Hf.
Qed.

Lemma dom_alter_eq `{Countable K} {R} (f : R → R) (t : gmap K R) k : dom (alter f k t) = dom t.
Proof. apply dom_alter_L. Qed.

(** [row.get(k) or d], [COALESCE(new, old)] *)
Definition coalesce {A} (new old : option A) : option A :=
  match new with Some _ => new | None => old end.

(** ** Tactics *)

(** Split every conjunction and existential of the context. *)
Ltac split_hyps :=
  repeat match goal with
    | H : _ ∧ _ |- _ => destruct H
    | H : ∃ _, _ |- _ => destruct H
    end.

(** Case analysis on every scrutinee of hypothesis [H], keeping the equations. *)
Ltac cases_in H :=
  repeat (match type of H with
          | context [match ?x with _ => _ end] => destruct x eqn:?
          end; simpl in H; try discriminate H; simplify_eq/=).

(** Run an effectful computation in hypothesis [H]. *)
Ltac run_in H := autorewrite with eff in H; simpl in H.
Ltac run := autorewrite with eff; simpl.
