(* ===== verification/Json.v ===== *)
(** * JSON values

    The values Python's [json] reads and PostgreSQL's [jsonb] columns hold, with
    the operations the code uses on them: truth value, equality, dictionary
    access, and the canonical text [json.dumps(v, sort_keys=True,
    separators=(",", ":"))] the content digests are taken of.  Numbers are
    integers of any size; floating-point numbers are not modelled. *)

From stdpp Require Import base gmap list strings pretty sorting.
From Stdlib Require Import ZArith Lia Ascii.
From S2P Require Import Prelude.

Inductive json : Type :=
| JNull
| JBool (b : bool)
| JInt (z : Z)
| JStr (s : string)
| JArr (l : list json)
| JObj (o : list (string * json)).

(** The induction principle that reaches the values inside lists and objects. *)
Section json_induction.
Variable P : json → Prop.
Hypothesis HNull : P JNull.
Hypothesis HBool : ∀ b, P (JBool b).
Hypothesis HInt : ∀ z, P (JInt z).
Hypothesis HStr : ∀ s, P (JStr s).
Hypothesis HArr : ∀ l, Forall P l → P (JArr l).
Hypothesis HObj : ∀ o, Forall (λ kv, P kv.2) o → P (JObj o).

Fixpoint json_nested_ind (j : json) : P j :=
  match j with
  | JNull => HNull
  | JBool b => HBool b
  | JInt z => HInt z
  | JStr s => HStr s
  | JArr l => HArr l
      ((fix go (l : list json) : Forall P l :=
          match l with
          | [] => List.Forall_nil _
          | x :: l => @List.Forall_cons _ _ x l (json_nested_ind x) (go l)
          end) l)
  | JObj o => HObj o
      ((fix go (o : list (string * json)) : Forall (λ kv, P kv.2) o :=
          match o with
          | [] => List.Forall_nil _
          | kv :: o => @List.Forall_cons _ _ kv o (json_nested_ind kv.2) (go o)
          end) o)
  end.
End json_induction.

#[export] Instance json_eq_dec : EqDecision json.
Proof.
  refine (fix go x y : Decision (x = y) :=
    match x, y with
    | JNull, JNull => left eq_refl
    | JBool a, JBool b => cast_if (decide (a = b))
    | JInt a, JInt b => cast_if (decide (a = b))
    | JStr a, JStr b => cast_if (decide (a = b))
    | JArr a, JArr b => cast_if (@list_eq_dec json go a b)
    | JObj a, JObj b => cast_if (@list_eq_dec (string * json)
        (@prod_eq_dec string _ json go) a b)
    | _, _ => right _
    end); clear go; abstract congruence.
Defined.

(** [o.get(k)] on the pairs of a dictionary: [None] when the key is absent. *)
Fixpoint assoc {A} (k : string) (o : list (string * A)) : option A :=
  match o with
  | [] => None
  | (k', v) :: o => if decide (k = k') then Some v else assoc k o
  end.

(** [bool(v)] *)
Definition truthy (j : json) : bool :=
  match j with
  | JNull => false
  | JBool b => b
  | JInt z => negb (Z.eqb z 0)
  | JStr s => bool_decide (s ≠ EmptyString)
  | JArr l => bool_decide (l ≠ [])
  | JObj o => bool_decide (o ≠ [])
  end.

(** [v.get(k)] for a dictionary [v], [None] being [JNull]. *)
Definition jget (k : string) (j : json) : json :=
  match j with
  | JObj o => default JNull (assoc k o)
  | _ => JNull
  end.

(** [v or default] *)
Definition jor (j d : json) : json := if truthy j then j else d.

Definition b2z (b : bool) : Z := if b then 1%Z else 0%Z.

(** Python's [==]: booleans are the integers 0 and 1, and dictionaries are
    equal when they have the same keys with equal values. *)
Fixpoint py_eq (a b : json) {struct a} : bool :=
  match a, b with
  | JNull, JNull => true
  | JBool x, JBool y => Bool.eqb x y
  | JBool x, JInt y => Z.eqb (b2z x) y
  | JInt x, JBool y => Z.eqb x (b2z y)
  | JInt x, JInt y => Z.eqb x y
  | JStr x, JStr y => bool_decide (x = y)
  | JArr l, JArr l' =>
      (fix go l l' :=
         match l, l' with
         | [], [] => true
         | x :: l, y :: l' => py_eq x y && go l l'
         | _, _ => false
         end) l l'
  | JObj o, JObj o' =>
      Nat.eqb (length o) (length o') &&
      (fix go o :=
         match o with
         | [] => true
         | kv :: o =>
             match assoc kv.1 o' with
             | Some w => py_eq kv.2 w && go o
             | None => false
             end
         end) o
  | _, _ => false
  end.

(** The values Python can build: no dictionary has a key twice. *)
Inductive wf_json : json → Prop :=
| wf_null : wf_json JNull
| wf_bool b : wf_json (JBool b)
| wf_int z : wf_json (JInt z)
| wf_str s : wf_json (JStr s)
| wf_arr l : Forall wf_json l → wf_json (JArr l)
| wf_obj o : NoDup o.*1 → Forall (λ kv, wf_json kv.2) o → wf_json (JObj o).

(** The same as a function. *)
Fixpoint wf_jsonb (j : json) : bool :=
  match j with
  | JArr l => forallb wf_jsonb l
  | JObj o => bool_decide (NoDup o.*1) && forallb (λ kv, wf_jsonb kv.2) o
  | _ => true
  end.

Lemma wf_jsonb_wf j : wf_jsonb j = true → wf_json j.
Proof.
  induction j as [|b|z|s|l IH|o IH] using json_nested_ind; simpl; intros Hw; try by constructor.
  - constructor. rewrite forallb_forall in Hw. rewrite Forall_forall in *.
    intros j Hj. apply IH; [done|]. by apply Hw, list_elem_of_In.
  - apply andb_true_iff in Hw as [Hnd Hw]. apply bool_decide_eq_true in Hnd. constructor; [done|].
    rewrite forallb_forall in Hw. rewrite Forall_forall in *.
    intros kv Hkv. apply IH; [done|]. by apply Hw, list_elem_of_In.
Qed.

Lemma assoc_elem {A} k (o : list (string * A)) v : assoc k o = Some v → (k, v) ∈ o.
Proof.
  induction o as [|[k' v'] o IH]; simpl; [done|].
  case_decide; intros; simplify_eq; set_solver.
Qed.

Lemma assoc_NoDup {A} k (o : list (string * A)) v :
  NoDup o.*1 → (k, v) ∈ o → assoc k o = Some v.
Proof.
  induction o as [|[k' v'] o IH]; csimpl; [set_solver|].
  intros [Hk Ho]%NoDup_cons [Heq|Hin]%elem_of_cons; [simplify_eq; by rewrite decide_True|].
  rewrite decide_False; [by apply IH|]. intros ->. apply Hk.
  apply list_elem_of_fmap. by exists (k', v).
Qed.

Lemma assoc_None {A} k (o : list (string * A)) : assoc k o = None ↔ k ∉ o.*1.
Proof.
  induction o as [|[k' v'] o IH]; csimpl; [set_solver|]. rewrite not_elem_of_cons, <- IH.
  case_decide; naive_solver.
Qed.

Lemma py_eq_refl j : wf_json j → py_eq j j = true.
Proof.
  induction j as [|b|z|s|l IH|o IH] using json_nested_ind; intros Hwf; simpl.
  - done.
  - by destruct b.
  - by apply Z.eqb_eq.
  - by apply bool_decide_eq_true.
  - inversion_clear Hwf as [| | | |? Hl|]. induction IH as [|x l Hx IH IHl]; [done|].
    inversion_clear Hl. rewrite Hx by done. by apply IHl.
  - inversion_clear Hwf as [| | | | |? Hnd Ho]. rewrite Nat.eqb_refl. simpl.
    assert (∀ o', o' ⊆ o → Forall (λ kv, wf_json kv.2 → py_eq kv.2 kv.2 = true) o' →
      (fix go o0 := match o0 with
         | [] => true
         | kv :: o1 => match assoc kv.1 o with
             | Some w => py_eq kv.2 w && go o1 | None => false end end) o' = true) as Hgo.
    { induction o' as [|[k v] o' IHo]; [done|]. intros Hsub Hf. inversion_clear Hf as [|?? Hv Hf'].
      simpl. rewrite (assoc_NoDup k o v) by (done || set_solver). simpl in Hv.
      rewrite Hv; [apply IHo; set_solver|].
      rewrite Forall_forall in Ho. apply (Ho (k, v)). set_solver. }
    by apply Hgo.
Qed.

(** ** [json.dumps(v, sort_keys=True, separators=(",", ":"))]

    Code points outside the printable ASCII range are escaped as [\uXXXX]. *)

Definition quote_mark : string := String (ascii_of_N 34) EmptyString.
Definition backslash (s : string) : string := String (ascii_of_N 92) s.

Definition hex_digit (n : N) : ascii :=
  if bool_decide (n < 10)%N then ascii_of_N (48 + n) else ascii_of_N (87 + n).

Definition escape_char (c : ascii) : string :=
  let n := N_of_ascii c in
  if bool_decide (n = 34 ∨ n = 92)%N then backslash (String c EmptyString)
  else if bool_decide (n = 8)%N then backslash "b"
  else if bool_decide (n = 9)%N then backslash "t"
  else if bool_decide (n = 10)%N then backslash "n"
  else if bool_decide (n = 12)%N then backslash "f"
  else if bool_decide (n = 13)%N then backslash "r"
  else if bool_decide (32 ≤ n ≤ 126)%N then String c EmptyString
  else backslash ("u00" +:+ String (hex_digit (n / 16)) (String (hex_digit (n mod 16)) EmptyString)).

Fixpoint escape (s : string) : string :=
  match s with
  | EmptyString => EmptyString
  | String c s => escape_char c +:+ escape s
  end.

Definition json_string (s : string) : string := quote_mark +:+ escape s +:+ quote_mark.

(** Python orders the keys of a dictionary by code point. *)
Definition key_order {A} : string * A → string * A → comparison := cmp_on fst cmp_str.

#[export] Instance key_order_ord {A} : OrdCmp (@key_order A).
Proof. unfold key_order. apply _. Qed.

Fixpoint json_dumps (j : json) : string :=
  match j with
  | JNull => "null"
  | JBool true => "true"
  | JBool false => "false"
  | JInt z => pretty z
  | JStr s => json_string s
  | JArr l => "[" +:+ PyStr.join "," (json_dumps <$> l) +:+ "]"
  | JObj o =>
      let items := (λ kv, (kv.1, json_dumps kv.2)) <$> o in
      "{" +:+ PyStr.join "," ((λ kv, json_string kv.1 +:+ ":" +:+ kv.2) <$> isort key_order items)
      +:+ "}"
  end.

Definition json_of_option {A} (f : A → json) (o : option A) : json :=
  match o with Some a => f a | None => JNull end.

Example json_dumps_example :
  json_dumps (JObj [("b", JArr [JInt (-12); JNull]); ("a", JStr (String (ascii_of_N 10) "x"))]) =
  "{" +:+ json_string "a" +:+ ":" +:+ quote_mark +:+ "\nx" +:+ quote_mark +:+ "," +:+
  json_string "b" +:+ ":[-12,null]}".
Proof. vm_compute. reflexivity. Qed.

(** ** The order of keys *)

(** Sorting by key commutes with changing the values. *)
Lemma isort_keys_fmap {A B} (f : A → B) (o : list (string * A)) :
  isort key_order ((λ kv, (kv.1, f kv.2)) <$> o) = (λ kv, (kv.1, f kv.2)) <$> isort key_order o.
Proof.
  induction o as [|kv o IH]; [done|]. rewrite fmap_cons. cbn [isort foldr].
  rewrite (IH : foldr _ _ _ = _). clear IH. fold (isort key_order o).
  induction (isort key_order o) as [|kv' l IHl]; [done|]. rewrite fmap_cons. cbn [insert_sorted].
  unfold cmp_le, key_order, cmp_on. cbn [fst]. destruct (cmp_str kv.1 kv'.1); [done|done|].
  rewrite fmap_cons. by f_equal.
Qed.

(** [json.loads(json.dumps(value, sort_keys=True))]: the same value with the keys of
    every object in order (the file JsonParse proves that reading the text gives it). *)
Fixpoint stable_json_value (j : json) : json :=
  match j with
  | JArr l => JArr (stable_json_value <$> l)
  | JObj o => JObj (isort key_order ((λ kv, (kv.1, stable_json_value kv.2)) <$> o))
  | _ => j
  end.

Lemma stable_json_idem j : stable_json_value (stable_json_value j) = stable_json_value j.
Proof.
  induction j as [|b|z|s|l IH|o IH] using json_nested_ind; simpl; try done; f_equal.
  - rewrite <- list_fmap_compose. by apply Forall_fmap_ext_1.
  - set (f := λ kv : string * json, (kv.1, stable_json_value kv.2)).
    assert (f <$> isort key_order (f <$> o) = isort key_order (f <$> o)) as ->.
    { rewrite <- (list_fmap_id (isort key_order (f <$> o))) at 2.
      apply list_fmap_ext. intros i x Hx%list_elem_of_lookup_2. rewrite elem_of_isort in Hx.
      apply list_elem_of_fmap in Hx as (y & -> & Hy). rewrite Forall_forall in IH.
      unfold f; simpl. by rewrite IH. }
    apply isort_sorted_id, StronglySorted_Sorted, isort_StronglySorted; apply _.
Qed.

(** Two values that differ in the order of the keys of their objects only. *)
Inductive same_json : json → json → Prop :=
| same_atom j : same_json j j
| same_arr l l' : Forall2 same_json l l' → same_json (JArr l) (JArr l')
| same_obj o p o' :
    o ≡ₚ p → Forall2 (λ a b, a.1 = b.1 ∧ same_json a.2 b.2) p o' → same_json (JObj o) (JObj o').

Lemma key_order_eq {A} (a b : string * A) : key_order a b = Eq → a.1 = b.1.
Proof. unfold key_order, cmp_on. apply String.compare_eq_iff. Qed.

Lemma isort_keys_perm {A} (o p : list (string * A)) :
  NoDup o.*1 → o ≡ₚ p → isort key_order o = isort key_order p.
Proof.
  intros Hnd Hp. apply isort_perm_eq; [apply _|done|].
  intros [k v] [k' v'] Hx Hy Hk%key_order_eq. simpl in Hk. subst k'.
  pose proof (assoc_NoDup _ _ _ Hnd Hx) as E. rewrite (assoc_NoDup _ _ _ Hnd Hy) in E. congruence.
Qed.

Lemma stable_same a b : wf_json a → same_json a b → stable_json_value a = stable_json_value b.
Proof.
  revert b. induction a as [|x|z|s|l IH|o IH] using json_nested_ind; intros b Hwf Hab;
    inversion Hab as [|? l' Hl|? p o' Hp Ho]; subst; try done; simpl; f_equal.
  - inversion_clear Hwf as [| | | |? Hf|]. clear Hab. induction Hl; [done|].
    inversion IH; inversion Hf; subst. simpl. f_equal; auto.
  - inversion_clear Hwf as [| | | | |? Hnd Hf]. rewrite Hp in IH, Hf.
    rewrite (isort_keys_perm _ ((λ kv, (kv.1, stable_json_value kv.2)) <$> p)).
    + f_equal. clear Hp Hnd Hab. induction Ho as [|[] [] ?? [Hk Hv]]; [done|].
      inversion IH; inversion Hf; subst; simpl in *. subst. f_equal; [f_equal|]; auto.
    + by rewrite <- list_fmap_compose.
    + by rewrite Hp.
Qed.

Lemma assoc_perm {A} (o p : list (string * A)) k : NoDup o.*1 → o ≡ₚ p → assoc k o = assoc k p.
Proof.
  intros Hnd Hp. destruct (assoc k p) as [v|] eqn:E.
  - apply assoc_NoDup; [done|]. rewrite Hp. by apply assoc_elem.
  - apply assoc_None. by rewrite Hp, <- assoc_None.
Qed.

Lemma assoc_fmap {A B} (f : A → B) (o : list (string * A)) k :
  assoc k ((λ kv, (kv.1, f kv.2)) <$> o) = f <$> assoc k o.
Proof. induction o as [|[k' v] o IH]; csimpl; [done|]. by case_decide. Qed.

(** Objects that are equal up to the order of keys have equal fields, up to the order. *)
Lemma stable_obj_assoc o o' k :
  NoDup o.*1 → NoDup o'.*1 → stable_json_value (JObj o) = stable_json_value (JObj o') →
  stable_json_value <$> assoc k o = stable_json_value <$> assoc k o'.
Proof.
  intros Hnd Hnd' [= E]. rewrite <- !assoc_fmap.
  set (f := λ kv : string * json, (kv.1, stable_json_value kv.2)) in *.
  assert (∀ o, NoDup o.*1 → NoDup (f <$> o).*1) as Hf by (intros; by rewrite <- list_fmap_compose).
  rewrite (assoc_perm (f <$> o) (isort key_order (f <$> o))) by (by rewrite ?isort_perm; auto).
  rewrite E. symmetry. apply assoc_perm; [auto|]. by rewrite isort_perm.
Qed.
