(* ===== verification/Text.v ===== *)
(** * Text encodings

    The text functions of Python's standard library that the compilers of artifacts
    use - [str.replace], [int], [xml.sax.saxutils.escape], UTF-16 and base64 - with
    the readers that undo them. *)

From stdpp Require Import base gmap list strings pretty sorting.
From Stdlib Require Import ZArith Lia Ascii.
From S2P Require Import Prelude Json.

#[local] Open Scope N_scope.

Lemma app_nil (s : string) : EmptyString +:+ s = s.
Proof. done. Qed.

Lemma app_cons (c : ascii) (s t : string) : String c s +:+ t = String c (s +:+ t).
Proof. done. Qed.

(** ** [str.replace] *)

(** [skip] characters of the occurrence just replaced are still to be dropped. *)
Fixpoint replace_from (old new : string) (skip : nat) (s : string) : string :=
  match s with
  | EmptyString => EmptyString
  | String c s' =>
      match skip with
      | S skip => replace_from old new skip s'
      | O => if String.prefix old s
             then new +:+ replace_from old new (String.length old - 1) s'
             else String c (replace_from old new 0 s')
      end
  end.

(** [s.replace(old, new)] for a non-empty [old]. *)
Definition replace (old new s : string) : string := replace_from old new 0 s.

Definition is_char (n : N) (c : ascii) : bool := bool_decide (N_of_ascii c = n).

Fixpoint has_char (n : N) (s : string) : bool :=
  match s with EmptyString => false | String c s => is_char n c || has_char n s end.

Lemma replace_char_cons (d c : ascii) new s :
  replace (String d EmptyString) new (String c s) =
  if decide (d = c) then new +:+ replace (String d EmptyString) new s
  else String c (replace (String d EmptyString) new s).
Proof.
  unfold replace. simpl. destruct (ascii_dec d c), (decide (d = c)); try done. by destruct s.
Qed.

(** ** [xml.sax.saxutils.escape] *)

Definition ch (n : N) : ascii := ascii_of_N n.

(** [s.replace("&", "&amp;").replace(">", "&gt;").replace("<", "&lt;")] *)
Definition xml_escape (s : string) : string :=
  replace "<" "&lt;" (replace ">" "&gt;" (replace "&" "&amp;" s)).

(** What one character becomes. *)
Definition xml_char (c : ascii) : string :=
  if decide (c = "&"%char) then "&amp;"
  else if decide (c = ">"%char) then "&gt;"
  else if decide (c = "<"%char) then "&lt;"
  else String c EmptyString.

Lemma replace_same (d : ascii) new s :
  replace (String d EmptyString) new (String d s) = new +:+ replace (String d EmptyString) new s.
Proof. by rewrite replace_char_cons, decide_True. Qed.

Lemma replace_other (d c : ascii) new s :
  d ≠ c → replace (String d EmptyString) new (String c s) =
          String c (replace (String d EmptyString) new s).
Proof. intros. by rewrite replace_char_cons, decide_False. Qed.

Lemma xml_escape_cons c s : xml_escape (String c s) = xml_char c +:+ xml_escape s.
Proof.
  unfold xml_escape, xml_char. destruct (decide (c = "&"%char)) as [->|].
  { by rewrite replace_same, !app_cons, !app_nil, !(replace_other ">"), !(replace_other "<"). }
  rewrite (replace_other "&") by congruence. destruct (decide (c = ">"%char)) as [->|].
  { by rewrite replace_same, !app_cons, !app_nil, !(replace_other "<"). }
  rewrite (replace_other ">") by congruence. destruct (decide (c = "<"%char)) as [->|].
  { by rewrite replace_same. }
  by rewrite (replace_other "<") by congruence.
Qed.

(** A reader of XML text and tags: text up to the next tag, with the predefined
    entities, and what is between the angle brackets of a tag. *)
Inductive token : Type :=
| TText (s : string)
| TTag (s : string).

#[export] Instance token_eq_dec : EqDecision token.
Proof. solve_decision. Defined.

(** The reader's state: in text, in a tag, or in an entity of a text. *)
Inductive lexer : Type :=
| InText (acc : string)
| InTag (acc : string)
| InEntity (acc name : string).

Definition entity (name : string) : option ascii :=
  if decide (name = "amp") then Some "&"%char
  else if decide (name = "lt") then Some "<"%char
  else if decide (name = "gt") then Some ">"%char
  else None.

Definition snoc (s : string) (c : ascii) : string := s +:+ String c EmptyString.

(** One character; [None] when it cannot be there. *)
Definition xml_step (st : lexer) (c : ascii) : option (list token * lexer) :=
  match st with
  | InText acc =>
      if decide (c = "<"%char) then Some ([TText acc], InTag EmptyString)
      else if decide (c = "&"%char) then Some ([], InEntity acc EmptyString)
      else if decide (c = ">"%char) then None
      else Some ([], InText (snoc acc c))
  | InTag acc =>
      if decide (c = ">"%char) then Some ([TTag acc], InText EmptyString)
      else if decide (c = "<"%char) then None
      else Some ([], InTag (snoc acc c))
  | InEntity acc name =>
      if decide (c = ";"%char) then (λ d, ([], InText (snoc acc d))) <$> entity name
      else Some ([], InEntity acc (snoc name c))
  end.

Fixpoint xml_feed (st : lexer) (s : string) : option (list token * lexer) :=
  match s with
  | EmptyString => Some ([], st)
  | String c s =>
      '(ts, st) ← xml_step st c;
      '(us, st) ← xml_feed st s;
      Some (ts ++ us, st)
  end.

(** The tokens of a text; [None] when it is malformed: an unknown entity, a tag that
    does not end, or an angle bracket out of place. *)
Definition xml_lex (s : string) : option (list token) :=
  match xml_feed (InText EmptyString) s with
  | Some (ts, InText acc) => Some (ts ++ [TText acc])
  | _ => None
  end.

Definition xml_tags (ts : list token) : list string :=
  omap (λ t, match t with TTag s => Some s | TText _ => None end) ts.

Lemma string_app_assoc (a b c : string) : (a +:+ b) +:+ c = a +:+ (b +:+ c).
Proof. induction a as [|x a IH]; [done|]. by rewrite !app_cons, IH. Qed.

Lemma string_app_nil_r (a : string) : a +:+ EmptyString = a.
Proof. induction a as [|x a IH]; [done|]. by rewrite app_cons, IH. Qed.

Lemma snoc_app acc c s : snoc acc c +:+ s = acc +:+ String c s.
Proof. unfold snoc. by rewrite string_app_assoc. Qed.

Lemma xml_feed_app st a b :
  xml_feed st (a +:+ b) =
  '(ts, st) ← xml_feed st a; '(us, st) ← xml_feed st b; Some (ts ++ us, st).
Proof.
  revert st. induction a as [|c a IH]; intros st.
  - rewrite app_nil. cbn. by destruct (xml_feed st b) as [[us st']|].
  - rewrite app_cons. cbn. destruct (xml_step st c) as [[ts st']|]; [|done]. cbn. rewrite IH.
    destruct (xml_feed st' a) as [[us st'']|]; [|done]. cbn.
    destruct (xml_feed st'' b) as [[vs st3]|]; [|done]. cbn. by rewrite (assoc_L (++)).
Qed.

Lemma xml_char_feed c acc : xml_feed (InText acc) (xml_char c) = Some ([], InText (snoc acc c)).
Proof.
  unfold xml_char. destruct (decide (c = "&"%char)) as [->|]; [done|].
  destruct (decide (c = ">"%char)) as [->|]; [done|].
  destruct (decide (c = "<"%char)) as [->|]; [done|].
  simpl. by rewrite !decide_False.
Qed.

(** Whatever the value, its escaped form is read back as text. *)
Lemma xml_escape_feed v acc :
  xml_feed (InText acc) (xml_escape v) = Some ([], InText (acc +:+ v)).
Proof.
  revert acc. induction v as [|c v IH]; intros acc; [by rewrite string_app_nil_r|].
  rewrite xml_escape_cons, xml_feed_app, xml_char_feed. cbn. rewrite IH. cbn.
  by rewrite snoc_app.
Qed.

(** Reads a text that is put together from constants and escaped values. *)
Ltac xml_read :=
  rewrite ?string_app_assoc;
  repeat match goal with
  | |- context [xml_feed ?st (xml_escape ?v)] => rewrite (xml_escape_feed v); cbn [mbind option_bind]
  | |- context [xml_feed ?st (?a +:+ ?b)] => rewrite (xml_feed_app st a b)
  | |- context [xml_feed ?st (String ?c ?s)] =>
      let r := eval vm_compute in (xml_feed st (String c s)) in
      change (xml_feed st (String c s)) with r; cbn [mbind option_bind]
  end.

(** *** Well-formed fragments *)

(** The characters that XML 1.0 allows: of the control characters below 32 only the tab and
    the ends of lines. *)
Definition xml_allowed (c : ascii) : bool :=
  let n := N_of_ascii c in bool_decide (32 ≤ n ∨ n = 9 ∨ n = 10 ∨ n = 13).

Fixpoint xml_text (s : string) : bool :=
  match s with EmptyString => true | String c s => xml_allowed c && xml_text s end.

(** The name of an element, without its attributes. *)
Fixpoint tag_name (tag : string) : string :=
  match tag with
  | EmptyString => EmptyString
  | String c tag => if is_char 32 c then EmptyString else String c (tag_name tag)
  end.

(** Every element is closed, and none before those that were opened inside of it. *)
Fixpoint nested (opened tags : list string) : bool :=
  match tags with
  | [] => bool_decide (opened = [])
  | tag :: tags =>
      match tag with
      | String c name =>
          if is_char 47 c then
            match opened with
            | o :: opened => bool_decide (o = name) && nested opened tags
            | [] => false
            end
          else nested (tag_name tag :: opened) tags
      | EmptyString => false
      end
  end.

(** The content of an XML element: allowed characters, with the markup and the entities in
    their place and the elements nested. *)
Definition well_formed (s : string) : bool :=
  xml_text s && match xml_lex s with Some ts => nested [] (xml_tags ts) | None => false end.

Lemma xml_text_app a b : xml_text (a +:+ b) = xml_text a && xml_text b.
Proof.
  induction a as [|c a IH]; [by rewrite app_nil|]. rewrite app_cons. cbn [xml_text]. by rewrite IH, andb_assoc.
Qed.

(** Escaping keeps the characters that are not allowed. *)
Lemma xml_text_escape v : xml_text (xml_escape v) = xml_text v.
Proof.
  induction v as [|c v IH]; [done|]. rewrite xml_escape_cons, xml_text_app, IH. cbn [xml_text]. f_equal.
  unfold xml_char. destruct (decide (c = "&"%char)) as [->|]; [done|].
  destruct (decide (c = ">"%char)) as [->|]; [done|]. destruct (decide (c = "<"%char)) as [->|]; [done|].
  cbn [xml_text]. by rewrite andb_true_r.
Qed.

(** Whether a text that is put together from constants and escaped values has allowed
    characters only, by its values. *)
Ltac xml_texts :=
  rewrite ?xml_text_app, ?xml_text_escape;
  repeat match goal with
  | |- context [xml_text (String ?c ?s)] =>
      let r := eval vm_compute in (xml_text (String c s)) in
      change (xml_text (String c s)) with r
  end; rewrite ?andb_true_l, ?andb_true_r.

(** ** PowerShell literals *)

(** [s.replace("'", "''")] *)
Definition ps_escape (s : string) : string := replace "'" "''" s.

(** The content of a single-quoted literal whose opening quote has been read, and what
    follows the closing one. *)
Fixpoint ps_literal (s : string) : option (string * string) :=
  match s with
  | EmptyString => None
  | String c s =>
      if decide (c = "'"%char) then
        match s with
        | String d s' =>
            if decide (d = "'"%char) then (λ r, (String c r.1, r.2)) <$> ps_literal s'
            else Some (EmptyString, s)
        | EmptyString => Some (EmptyString, EmptyString)
        end
      else (λ r, (String c r.1, r.2)) <$> ps_literal s
  end.

Lemma ps_escape_read v c s :
  c ≠ "'"%char → ps_literal (ps_escape v +:+ String "'" (String c s)) = Some (v, String c s).
Proof.
  intros Hc. unfold ps_escape. induction v as [|d v IH].
  - rewrite app_nil. cbn. rewrite decide_True by done. by rewrite decide_False.
  - destruct (decide (d = "'"%char)) as [->|Hd].
    + rewrite replace_same, string_app_assoc, !app_cons, !app_nil. cbn. by rewrite IH.
    + rewrite replace_other, app_cons by congruence. cbn. rewrite decide_False by done.
      by rewrite IH.
Qed.

(** ** UTF-16 *)

(** [s.encode("utf-16-le")] for code points below 256. *)
Fixpoint utf16le (s : string) : list N :=
  match s with
  | EmptyString => []
  | String c s => N_of_ascii c :: 0 :: utf16le s
  end.

Fixpoint utf16le_decode (bs : list N) : option string :=
  match bs with
  | [] => Some EmptyString
  | lo :: hi :: bs =>
      if bool_decide (hi = 0) then String (ch lo) <$> utf16le_decode bs else None
  | _ => None
  end.

Lemma utf16le_roundtrip s : utf16le_decode (utf16le s) = Some s.
Proof. induction s; simpl; [done|]. rewrite IHs. unfold ch. by rewrite ascii_N_embedding. Qed.

Lemma utf16le_bytes s : Forall (λ b, b < 256) (utf16le s).
Proof. induction s; simpl; repeat constructor; [apply N_ascii_bounded|done]. Qed.

(** ** Base64 *)

Definition base64_alphabet : string :=
  "ABCDEFGHIJKLMNOPQRSTUVWXYZabcdefghijklmnopqrstuvwxyz0123456789+/".

Definition base64_char (n : N) : ascii :=
  default "="%char (String.get (N.to_nat n) base64_alphabet).

Fixpoint index_of (c : ascii) (s : string) : option N :=
  match s with
  | EmptyString => None
  | String d s => if decide (c = d) then Some 0 else N.succ <$> index_of c s
  end.

Definition base64_value (c : ascii) : option N := index_of c base64_alphabet.

(** [base64.b64encode] *)
Fixpoint base64 (bs : list N) : string :=
  match bs with
  | [] => EmptyString
  | [a] => String (base64_char (a / 4)) (String (base64_char (a mod 4 * 16)) "==")
  | [a; b] =>
      String (base64_char (a / 4)) (String (base64_char (a mod 4 * 16 + b / 16))
        (String (base64_char (b mod 16 * 4)) "="))
  | a :: b :: c :: bs =>
      String (base64_char (a / 4)) (String (base64_char (a mod 4 * 16 + b / 16))
        (String (base64_char (b mod 16 * 4 + c / 64)) (String (base64_char (c mod 64)) (base64 bs))))
  end.

Fixpoint base64_decode (s : string) : option (list N) :=
  match s with
  | EmptyString => Some []
  | String p (String q (String r (String t s))) =>
      p ← base64_value p;
      q ← base64_value q;
      let a := p * 4 + q / 16 in
      if decide (r = "="%char) then Some [a]
      else
        r ← base64_value r;
        let b := q mod 16 * 16 + r / 4 in
        if decide (t = "="%char) then Some [a; b]
        else
          t ← base64_value t;
          bs ← base64_decode s;
          Some (a :: b :: (r mod 4 * 64 + t) :: bs)
  | _ => None
  end.

Lemma base64_char_spec n :
  n < 64 → base64_value (base64_char n) = Some n ∧ base64_char n ≠ "="%char.
Proof.
  intros Hn. assert (Forall (λ k, base64_value (base64_char (N.of_nat k)) = Some (N.of_nat k) ∧
    base64_char (N.of_nat k) ≠ "="%char) (seq 0 64)) as Hall.
  { repeat (constructor; [by vm_compute|]). constructor. }
  rewrite Forall_forall in Hall. specialize (Hall (N.to_nat n)).
  rewrite N2Nat.id in Hall. apply Hall. apply elem_of_seq. lia.
Qed.

(** The induction that takes three bytes at a time. *)
Lemma three_ind {A} (P : list A → Prop) :
  P [] → (∀ a, P [a]) → (∀ a b, P [a; b]) → (∀ a b c l, P l → P (a :: b :: c :: l)) → ∀ l, P l.
Proof.
  intros H0 H1 H2 H3. fix IH 1. intros [|a [|b [|c l]]]; [done..|]. apply H3, IH.
Qed.

#[local] Ltac Zify.zify_post_hook ::= Z.to_euclidean_division_equations.

Ltac base64_step :=
  match goal with
  | |- context [base64_value (base64_char ?n)] =>
      rewrite (proj1 (base64_char_spec n ltac:(lia)))
  | |- context [decide (base64_char ?n = "="%char)] =>
      rewrite (decide_False (P := base64_char n = "="%char))
        by (apply base64_char_spec; lia)
  end.

Lemma base64_roundtrip bs : Forall (λ b, b < 256) bs → base64_decode (base64 bs) = Some bs.
Proof.
  induction bs as [|a|a b|a b c bs IH] using three_ind; intros Hb;
    repeat match goal with H : Forall _ (_ :: _) |- _ => apply Forall_cons in H as [? H] end;
    simpl; [done|..]; repeat (base64_step; simpl); rewrite ?IH by done; simpl; repeat f_equal; lia.
Qed.

(** ** [int] *)

Definition digit_value (c : ascii) : option Z :=
  let n := N_of_ascii c in
  if bool_decide (48 ≤ n ≤ 57) then Some (Z.of_N n - 48)%Z else None.

(** Digits, with single underscores between them; [digit] when the last was a digit. *)
Fixpoint parse_digits (acc : Z) (digit : bool) (s : string) : option Z :=
  match s with
  | EmptyString => if digit then Some acc else None
  | String c s =>
      match digit_value c with
      | Some d => parse_digits (10 * acc + d)%Z true s
      | None => if is_char 95 c && digit then parse_digits acc false s else None
      end
  end.

Definition parse_int (s : string) : option Z :=
  match PyStr.strip s with
  | String "-" s => Z.opp <$> parse_digits 0 false s
  | String "+" s => parse_digits 0 false s
  | s => parse_digits 0 false s
  end.

(** [int(v)] *)
Definition py_int (v : json) : outcome Z :=
  match v with
  | JInt z => Ret z
  | JBool b => Ret (b2z b)
  | JStr s => match parse_int s with
              | Some z => Ret z
              | None => Exc (ValueError "invalid literal for int() with base 10")
              end
  | _ => Exc TypeError
  end.

(** ** [str] *)

(** [repr] of a text: in single quotes unless it holds one and no double quote. *)
Definition repr_char (q : N) (c : ascii) : string :=
  let n := N_of_ascii c in
  if bool_decide (n = 92 ∨ n = q) then backslash (String c EmptyString)
  else if bool_decide (n = 9) then backslash "t"
  else if bool_decide (n = 10) then backslash "n"
  else if bool_decide (n = 13) then backslash "r"
  else if bool_decide (32 ≤ n ≤ 126 ∨ (161 ≤ n ∧ n ≠ 173)) then String c EmptyString
  else backslash ("x" +:+ String (hex_digit (n / 16)) (String (hex_digit (n mod 16)) EmptyString)).

Fixpoint repr_chars (q : N) (s : string) : string :=
  match s with EmptyString => EmptyString | String c s => repr_char q c +:+ repr_chars q s end.

Definition repr_string (s : string) : string :=
  let q := if has_char 39 s && negb (has_char 34 s) then 34 else 39 in
  String (ch q) EmptyString +:+ repr_chars q s +:+ String (ch q) EmptyString.

Fixpoint py_repr (v : json) : string :=
  match v with
  | JNull => "None"
  | JBool b => if b then "True" else "False"
  | JInt z => pretty z
  | JStr s => repr_string s
  | JArr l => "[" +:+ PyStr.join ", " (py_repr <$> l) +:+ "]"
  | JObj o => "{" +:+ PyStr.join ", " ((λ kv, repr_string kv.1 +:+ ": " +:+ py_repr kv.2) <$> o) +:+ "}"
  end.

(** [str(v)] *)
Definition py_str (v : json) : string :=
  match v with JStr s => s | _ => py_repr v end.

Example py_str_example :
  py_str (JArr [JStr "it's"; JBool true; JObj [("k", JInt (-1))]]) =
  "[" +:+ quote_mark +:+ "it's" +:+ quote_mark +:+ ", True, {'k': -1}]".
Proof. by vm_compute. Qed.
