(* ===== verification/JsonParse.v ===== *)
(** * Reading JSON

    A reader for the texts [json.dumps] writes - Python's [json.loads] on values
    without floating-point numbers and with characters below 256 - and the proof that
    reading undoes writing: the value comes back with its keys in order.  So two
    values have the same canonical text exactly when they differ in the order of their
    keys only. *)

From stdpp Require Import base gmap list strings pretty sorting.
From Stdlib Require Import ZArith Lia Ascii.
From S2P Require Import Prelude Json Text.

(** The rest of a text that starts with a character. *)
Definition eat (n : N) (s : string) : option string :=
  match s with
  | String c s => if is_char n c then Some s else None
  | EmptyString => None
  end.

(** ** Numbers *)

Definition digit_N (c : ascii) : option N :=
  let n := N_of_ascii c in
  if bool_decide (48 ≤ n ≤ 57)%N then Some (n - 48)%N else None.

(** Reads on from [acc] while there are digits. *)
Fixpoint read_digits (acc : N) (s : string) : N * string :=
  match s with
  | EmptyString => (acc, s)
  | String c s' => match digit_N c with
                   | Some d => read_digits (10 * acc + d) s'
                   | None => (acc, s)
                   end
  end.

(** No number has a leading zero. *)
Definition read_nat (s : string) : option (N * string) :=
  match s with
  | EmptyString => None
  | String c s' => match digit_N c with
                   | Some 0%N => Some (0%N, s')
                   | Some d => Some (read_digits d s')
                   | None => None
                   end
  end.

(** What may follow a number that is not floating-point. *)
Definition after_number (s : string) : bool :=
  match s with
  | EmptyString => true
  | String c _ => match digit_N c with Some _ => false | None => bool_decide (c ∉ ["."; "e"; "E"]%char) end
  end.

Definition read_int (s : string) : option (Z * string) :=
  '(z, s) ← match eat 45 s with
            | Some s => '(n, s) ← read_nat s; Some (- Z.of_N n, s)%Z
            | None => '(n, s) ← read_nat s; Some (Z.of_N n, s)
            end;
  if after_number s then Some (z, s) else None.

(** ** Strings *)

Definition hex_value (c : ascii) : option N :=
  let n := N_of_ascii c in
  if bool_decide (48 ≤ n ≤ 57)%N then Some (n - 48)%N
  else if bool_decide (97 ≤ n ≤ 102)%N then Some (n - 87)%N
  else if bool_decide (65 ≤ n ≤ 70)%N then Some (n - 55)%N
  else None.

Definition unescape (c : ascii) : option ascii :=
  match N_of_ascii c with
  | 34 | 92 | 47 => Some c
  | 98 => Some (ch 8) | 102 => Some (ch 12) | 110 => Some (ch 10)
  | 114 => Some (ch 13) | 116 => Some (ch 9)
  | _ => None
  end%N.

Definition push (c : ascii) (r : option (string * string)) : option (string * string) :=
  (λ r, (String c r.1, r.2)) <$> r.

(** The string whose opening quote has been read, and what follows its closing one. *)
Fixpoint read_string (s : string) : option (string * string) :=
  match s with
  | EmptyString => None
  | String c s1 =>
      if is_char 34 c then Some (EmptyString, s1)
      else if is_char 92 c then
        match s1 with
        | EmptyString => None
        | String e s2 =>
            if is_char 117 e then
              match s2 with
              | String a (String b (String x (String y s3))) =>
                  match hex_value a, hex_value b, hex_value x, hex_value y with
                  | Some 0, Some 0, Some x, Some y => push (ch (16 * x + y)) (read_string s3)
                  | _, _, _, _ => None
                  end%N
              | _ => None
              end
            else match unescape e with Some d => push d (read_string s2) | None => None end
        end
      else if bool_decide (N_of_ascii c < 32)%N then None
      else push c (read_string s1)
  end.

(** ** Values *)

Definition json_space (c : ascii) : bool :=
  is_char 32 c || is_char 9 c || is_char 10 c || is_char 13 c.

Fixpoint skip_space (s : string) : string :=
  match s with
  | String c s' => if json_space c then skip_space s' else s
  | EmptyString => s
  end.

(** [d[k] = v]: the key keeps its place. *)
Fixpoint dict_set (k : string) (v : json) (o : list (string * json)) : list (string * json) :=
  match o with
  | [] => [(k, v)]
  | (k', v') :: o => if decide (k = k') then (k, v) :: o else (k', v') :: dict_set k v o
  end.

Fixpoint strip_prefix (p s : string) : option string :=
  match p with
  | EmptyString => Some s
  | String c p => match s with
                  | String d s => if decide (c = d) then strip_prefix p s else None
                  | EmptyString => None
                  end
  end.

Definition literal (p : string) (v : json) (s : string) : option (json * string) :=
  (λ s, (v, s)) <$> strip_prefix p s.

(** The recursion of the reader goes down the text: twice its length is enough. *)
Fixpoint read_value (n : nat) (s : string) : option (json * string) :=
  match n with
  | O => None
  | S n =>
      match s with
      | EmptyString => None
      | String c s' =>
          if is_char 34 c then '(t, r) ← read_string s'; Some (JStr t, r)
          else if is_char 91 c then
            match eat 93 (skip_space s') with
            | Some r => Some (JArr [], r)
            | None => '(l, r) ← read_items n (skip_space s'); Some (JArr l, r)
            end
          else if is_char 123 c then
            match eat 125 (skip_space s') with
            | Some r => Some (JObj [], r)
            | None => '(o, r) ← read_members n (skip_space s') []; Some (JObj o, r)
            end
          else if is_char 110 c then literal "null" JNull s
          else if is_char 116 c then literal "true" (JBool true) s
          else if is_char 102 c then literal "false" (JBool false) s
          else '(z, r) ← read_int s; Some (JInt z, r)
      end
  end

with read_items (n : nat) (s : string) : option (list json * string) :=
  match n with
  | O => None
  | S n =>
      '(v, s) ← read_value n s;
      match eat 93 (skip_space s) with
      | Some r => Some ([v], r)
      | None =>
          s ← eat 44 (skip_space s);
          '(l, r) ← read_items n (skip_space s);
          Some (v :: l, r)
      end
  end

with read_members (n : nat) (s : string) (o : list (string * json)) :
    option (list (string * json) * string) :=
  match n with
  | O => None
  | S n =>
      s ← eat 34 s;
      '(k, s) ← read_string s;
      s ← eat 58 (skip_space s);
      '(v, s) ← read_value n (skip_space s);
      match eat 125 (skip_space s) with
      | Some r => Some (dict_set k v o, r)
      | None =>
          s ← eat 44 (skip_space s);
          read_members n (skip_space s) (dict_set k v o)
      end
  end.

(** [json.loads]; [None] when it raises. *)
Definition json_loads (s : string) : option json :=
  '(v, r) ← read_value (2 * String.length s + 2) (skip_space s);
  if decide (skip_space r = EmptyString) then Some v else None.

Example json_loads_example :
  json_loads (" { " +:+ json_string "b" +:+ " : [-12, null] ," +:+ json_string "a" +:+ ":true} ") =
    Some (JObj [("b", JArr [JInt (-12); JNull]); ("a", JBool true)]) ∧
  json_loads "01" = None ∧ json_loads "[1,]" = None ∧ json_loads "1.5" = None.
Proof. by vm_compute. Qed.

(** ** Reading what was written *)

Lemma digit_N_range c d : digit_N c = Some d → (48 ≤ N_of_ascii c ≤ 57)%N ∧ d = (N_of_ascii c - 48)%N.
Proof. unfold digit_N. case_bool_decide; naive_solver. Qed.

Lemma digit_N_pretty x : (x < 10)%N → digit_N (pretty_N_char x) = Some x.
Proof.
  intros Hx. assert (x = 0 ∨ x = 1 ∨ x = 2 ∨ x = 3 ∨ x = 4 ∨ x = 5 ∨ x = 6 ∨ x = 7 ∨ x = 8 ∨ x = 9)%N
    as H by lia. naive_solver.
Qed.

Lemma pretty_go_app x s r : pretty_N_go x s +:+ r = pretty_N_go x (s +:+ r).
Proof.
  revert s. induction (N.lt_wf_0 x) as [x _ IH]; intros s.
  destruct (decide (x = 0)%N) as [->|Hx]; [done|].
  rewrite !(pretty_N_go_step x) by lia. rewrite IH by (apply N.div_lt; lia). done.
Qed.

Lemma read_digits_go x s : read_digits 0 (pretty_N_go x s) = read_digits x s.
Proof.
  revert s. induction (N.lt_wf_0 x) as [x _ IH]; intros s.
  destruct (decide (x = 0)%N) as [->|Hx]; [done|].
  rewrite pretty_N_go_step, IH by (lia || apply N.div_lt; lia). cbn [read_digits].
  rewrite digit_N_pretty by (apply N.mod_lt; lia). f_equal.
  rewrite <- N.div_mod by lia. done.
Qed.

Lemma pretty_go_head x s :
  (0 < x)%N → ∃ c t d, pretty_N_go x s = String c t ∧ digit_N c = Some d ∧ d ≠ 0%N.
Proof.
  revert s. induction (N.lt_wf_0 x) as [x _ IH]; intros s Hx. rewrite pretty_N_go_step by lia.
  destruct (decide (x < 10)%N) as [Hs|Hs].
  - rewrite N.div_small, N.mod_small by lia. rewrite pretty_N_go_0.
    exists (pretty_N_char x), s, x. split_and!; [done|by apply digit_N_pretty|lia].
  - apply IH; [apply N.div_lt; lia|]. apply N.div_str_pos. lia.
Qed.

Lemma read_nat_go x r : (0 < x)%N → read_nat (pretty_N_go x r) = Some (read_digits x r).
Proof.
  intros Hx. rewrite <- read_digits_go.
  destruct (pretty_go_head x r Hx) as (c & t & d & -> & Hd & Hd0). cbn. rewrite Hd.
  by destruct d.
Qed.

Lemma read_digits_stop x r : after_number r = true → read_digits x r = (x, r).
Proof. destruct r as [|c r]; [done|]. simpl. by destruct (digit_N c). Qed.

(** A digit is none of the characters that start another value. *)
Lemma digit_not_char c d n : digit_N c = Some d → (n < 48 ∨ 57 < n)%N → is_char n c = false.
Proof. intros [Hc _]%digit_N_range Hn. unfold is_char. apply bool_decide_eq_false. lia. Qed.

Lemma read_int_pretty z r : after_number r = true → read_int (pretty z +:+ r) = Some (z, r).
Proof.
  intros Hr. unfold read_int. destruct z as [|p|p].
  - change (pretty 0%Z) with "0"; rewrite app_cons, app_nil. cbn [eat].
    change (is_char 45 "0") with false. cbn -[after_number]. change (digit_N "0") with (Some 0%N).
    cbn -[after_number]. by rewrite Hr.
  - change (pretty (Z.pos p)) with (pretty_N_go (N.pos p) EmptyString).
    rewrite pretty_go_app, app_nil.
    pose proof (read_nat_go (N.pos p) r ltac:(lia)) as Hn.
    destruct (pretty_go_head (N.pos p) r ltac:(lia)) as (c & t & d & Hc & Hd & _).
    rewrite Hc in *. cbn [eat]. rewrite (digit_not_char c d) by (done || lia).
    rewrite Hn, read_digits_stop by done. cbn -[after_number]. by rewrite Hr.
  - change (pretty (Z.neg p)) with ("-" +:+ pretty_N_go (N.pos p) EmptyString).
    rewrite string_app_assoc, pretty_go_app, app_cons, !app_nil. cbn [eat].
    change (is_char 45 "-") with true. cbv iota. rewrite read_nat_go, read_digits_stop by (done || lia).
    cbn -[after_number]. by rewrite Hr.
Qed.

Lemma read_string_char c s : read_string (escape_char c +:+ s) = push c (read_string s).
Proof. by destruct c as [[] [] [] [] [] [] [] []]. Qed.

Lemma read_string_escape t r : read_string (escape t +:+ quote_mark +:+ r) = Some (t, r).
Proof.
  induction t as [|c t IH]; [done|]. simpl. rewrite string_app_assoc, read_string_char, IH. done.
Qed.

(** The first character of a printed value starts no white space and closes nothing. *)
Definition starts (s : string) : Prop :=
  ∃ c t, s = String c t ∧ json_space c = false ∧ is_char 93 c = false ∧ is_char 125 c = false.

Lemma starts_app s t : starts s → starts (s +:+ t).
Proof. intros (c & s' & -> & H). by exists c, (s' +:+ t). Qed.

Lemma digit_starts c d s : digit_N c = Some d → starts (String c s).
Proof.
  intros Hd. exists c, s. unfold json_space.
  rewrite !(digit_not_char c d) by (done || lia). done.
Qed.

Lemma dumps_starts j : starts (json_dumps j).
Proof.
  destruct j as [|[]|z|s|l|o]; try (eexists _, _; split; [reflexivity|by vm_compute]).
  simpl. destruct z as [|p|p].
  - eapply digit_starts. by vm_compute.
  - destruct (pretty_go_head (N.pos p) EmptyString ltac:(lia)) as (c & t & d & Hc & Hd & _).
    change (pretty (Z.pos p)) with (pretty_N_go (N.pos p) EmptyString). rewrite Hc.
    by eapply digit_starts.
  - by eexists _, _.
Qed.

Lemma skip_starts s : starts s → skip_space s = s.
Proof. intros (c & t & -> & Hs & _). simpl. by rewrite Hs. Qed.

Lemma eat_starts n s : starts s → n = 93%N ∨ n = 125%N → eat n s = None.
Proof. intros (c & t & -> & _ & H1 & H2) [->| ->]; simpl; by rewrite ?H1, ?H2. Qed.

(** The members of an object, printed. *)
Definition print_member (kv : string * json) : string :=
  json_string kv.1 +:+ ":" +:+ json_dumps kv.2.

Lemma json_dumps_obj o :
  json_dumps (JObj o) =
  "{" +:+ PyStr.join "," (print_member <$> isort key_order o) +:+ "}".
Proof.
  cbn [json_dumps]. cbv zeta. rewrite isort_keys_fmap. do 2 f_equal.
  by rewrite <- list_fmap_compose.
Qed.

Lemma dict_set_new k v o : k ∉ o.*1 → dict_set k v o = o ++ [(k, v)].
Proof.
  induction o as [|[k' v'] o IH]; csimpl; [done|]. rewrite not_elem_of_cons. intros [Hk Ho].
  rewrite decide_False by done. by rewrite IH.
Qed.

(** What may follow the value [j] is read back after it. *)
Definition reads_back (j : json) : Prop :=
  ∀ n r, wf_json j → after_number r = true → (2 * String.length (json_dumps j +:+ r) < n)%nat →
  read_value n (json_dumps j +:+ r) = Some (stable_json_value j, r).

Lemma length_app_string (a b : string) :
  String.length (a +:+ b) = (String.length a + String.length b)%nat.
Proof. induction a as [|c a IH]; [done|]. rewrite app_cons. cbn. by rewrite IH. Qed.

Lemma read_items_dumps l n r :
  l ≠ [] → Forall reads_back l → Forall wf_json l →
  (2 * String.length (PyStr.join "," (json_dumps <$> l) +:+ String "]" r) + 1 < n)%nat →
  read_items n (PyStr.join "," (json_dumps <$> l) +:+ String "]" r) =
    Some (stable_json_value <$> l, r).
Proof.
  intros Hne Hall Hwf. revert n. induction Hall as [|j l Hj Hl IH]; [done|]. intros n Hn.
  inversion_clear Hwf as [|?? Hwj Hwl]. destruct n as [|n]; [lia|]. cbn [read_items].
  destruct l as [|j' l].
  - cbn [fmap list_fmap PyStr.join] in *. rewrite Hj by (done || lia). done.
  - cbn [fmap list_fmap PyStr.join] in *. rewrite !string_app_assoc in *.
    rewrite Hj by (done || lia). cbn [mbind option_bind]. rewrite app_cons, app_nil.
    change (skip_space (String "," ?s)) with (String "," s).
    change (eat 93 (String "," ?s)) with (@None string).
    change (eat 44 (String "," ?s)) with (Some s). cbn [mbind option_bind].
    rewrite app_cons, app_nil in Hn.
    rewrite skip_starts; [|destruct l; cbn; rewrite ?string_app_assoc; apply starts_app, dumps_starts].
    rewrite IH; [done..|].
    rewrite length_app_string in Hn. cbn in Hn |- *. lia.
Qed.

Ltac member_length Hn :=
  unfold print_member in *; repeat (rewrite length_app_string in Hn || rewrite length_app_string);
  cbn in Hn |- *; repeat (rewrite length_app_string in Hn || rewrite length_app_string);
  cbn in Hn |- *; lia.

Lemma read_members_dumps o n r acc :
  o ≠ [] → Forall (λ kv, reads_back kv.2) o → Forall (λ kv, wf_json kv.2) o →
  NoDup (acc.*1 ++ o.*1) →
  (2 * String.length (PyStr.join "," (print_member <$> o) +:+ String "}" r) + 1 < n)%nat →
  read_members n (PyStr.join "," (print_member <$> o) +:+ String "}" r) acc =
    Some (acc ++ ((λ kv, (kv.1, stable_json_value kv.2)) <$> o), r).
Proof.
  intros Hne Hall. revert n acc. induction Hall as [|[k v] o Hv Ho IH]; [done|].
  intros n acc Hwf Hnd Hn. inversion_clear Hwf as [|?? Hwv Hwo]. cbn [snd] in *.
  destruct n as [|n]; [lia|]. cbn [read_members]. rewrite !fmap_cons in *. cbn [fst snd] in *.
  assert (k ∉ acc.*1) as Hk.
  { apply NoDup_app in Hnd as (_ & Hd & _). intros Hin. apply (Hd k Hin). by left. }
  assert (∀ t, eat 34 (print_member (k, v) +:+ t) =
    Some (escape k +:+ quote_mark +:+ ":" +:+ json_dumps v +:+ t)) as He.
  { intros t. unfold print_member, json_string. by rewrite !string_app_assoc. }
  destruct o as [|kv' o].
  - rewrite fmap_nil in *. cbn [PyStr.join] in *. rewrite He. cbn [mbind option_bind].
    rewrite read_string_escape. cbn [mbind option_bind]. rewrite app_cons, app_nil.
    change (skip_space (String ":" ?s)) with (String ":" s).
    change (eat 58 (String ":" ?s)) with (Some s). cbn [mbind option_bind].
    rewrite skip_starts by apply starts_app, dumps_starts.
    rewrite Hv; [|done..|].
    + cbn [mbind option_bind]. change (skip_space (String "}" r)) with (String "}" r).
      change (eat 125 (String "}" r)) with (Some r). cbn. by rewrite dict_set_new.
    + member_length Hn.
  - cbn [PyStr.join] in *. rewrite fmap_cons in *. rewrite !string_app_assoc in *.
    rewrite He. cbn [mbind option_bind].
    rewrite read_string_escape. cbn [mbind option_bind]. rewrite (app_cons ":"), app_nil.
    change (skip_space (String ":" ?s)) with (String ":" s).
    change (eat 58 (String ":" ?s)) with (Some s). cbn [mbind option_bind].
    rewrite skip_starts by apply starts_app, dumps_starts.
    rewrite Hv; [|done| |].
    + cbn [mbind option_bind]. rewrite (app_cons ","), app_nil.
      change (skip_space (String "," ?s)) with (String "," s).
      change (eat 125 (String "," ?s)) with (@None string).
      change (eat 44 (String "," ?s)) with (Some s). cbn [mbind option_bind].
      rewrite skip_starts.
      * rewrite <- fmap_cons, IH; [..|done|done| |].
        -- rewrite dict_set_new by done. by rewrite <- (assoc_L (++)).
        -- rewrite dict_set_new, fmap_app, <- (assoc_L (++)) by done. exact Hnd.
        -- member_length Hn.
      * destruct o; cbn; unfold print_member, json_string; rewrite ?string_app_assoc;
          by eexists _, _.
    + done.
    + member_length Hn.
Qed.

Lemma wf_isort_keys o :
  Forall (λ kv : string * json, wf_json kv.2) o →
  Forall (λ kv : string * json, wf_json kv.2) (isort key_order o).
Proof. rewrite !Forall_forall. intros H x. rewrite elem_of_isort. apply H. Qed.

Lemma json_reads_back j : reads_back j.
Proof.
  induction j as [|b|z|s|l IH|o IH] using json_nested_ind; intros n r Hwf Hr Hn;
    (destruct n as [|n]; [lia|]).
  - done.
  - by destruct b.
  - cbn [json_dumps] in *. change (stable_json_value (JInt z)) with (JInt z).
    assert (read_int (pretty z +:+ r) = Some (z, r)) as Hz by by apply read_int_pretty.
    assert (∃ c t, pretty z +:+ r = String c t ∧
      ∀ k, k ∈ [34; 91; 123; 110; 116; 102]%N → is_char k c = false) as (c & t & Hc & Hk).
    { assert (∀ c d, digit_N c = Some d → ∀ k, k ∈ [34; 91; 123; 110; 116; 102]%N →
        is_char k c = false) as Hd.
      { intros c d Hc k Hk. apply (digit_not_char c d); [done|].
        repeat (apply elem_of_cons in Hk as [->|Hk]; [lia|]). by apply not_elem_of_nil in Hk. }
      destruct z as [|p|p].
      - exists "0"%char, r. split; [done|]. by apply (Hd _ 0%N).
      - destruct (pretty_go_head (N.pos p) EmptyString ltac:(lia)) as (c & t & d & Hc & Hdc & _).
        change (pretty (Z.pos p)) with (pretty_N_go (N.pos p) EmptyString). rewrite Hc.
        exists c, (t +:+ r). split; [done|]. by apply (Hd _ d).
      - exists "-"%char, (pretty_N_go (N.pos p) EmptyString +:+ r). split; [done|].
        intros k Hk. repeat (apply elem_of_cons in Hk as [->|Hk]; [done|]).
        by apply not_elem_of_nil in Hk. }
    rewrite Hc in *. cbn [read_value]. rewrite !Hk by set_solver. by rewrite Hz.
  - cbn [json_dumps] in *. unfold json_string. rewrite !string_app_assoc.
    change (quote_mark +:+ ?x) with (String (ascii_of_N 34) x). cbn [read_value].
    change (is_char 34 (ascii_of_N 34)) with true. cbv iota.
    change (String (ascii_of_N 34) r) with (quote_mark +:+ r). by rewrite read_string_escape.
  - inversion_clear Hwf as [| | | |? Hf|]. cbn [json_dumps] in *.
    rewrite !string_app_assoc in *. rewrite (app_cons "["), (app_cons "]"), !app_nil in *.
    cbn [read_value]. change (is_char 34 "[") with false. change (is_char 91 "[") with true. cbv iota.
    destruct l as [|j l]; [done|].
    assert (starts (PyStr.join "," (json_dumps <$> j :: l) +:+ String "]" r)) as Hs.
    { destruct l; cbn; rewrite ?string_app_assoc; apply starts_app, dumps_starts. }
    rewrite skip_starts, eat_starts by (done || by left).
    rewrite read_items_dumps; [done..|]. cbn in Hn |- *. lia.
  - inversion_clear Hwf as [| | | | |? Hnd Hf]. rewrite json_dumps_obj in *.
    rewrite !string_app_assoc in *. rewrite (app_cons "{"), (app_cons "}"), !app_nil in *.
    cbn [read_value]. change (is_char 34 "{") with false. change (is_char 91 "{") with false.
    change (is_char 123 "{") with true. cbv iota.
    destruct o as [|kv o]; [done|]. set (os := isort key_order (kv :: o)) in *.
    assert (os ≡ₚ kv :: o) as Hp by apply isort_perm.
    assert (os ≠ []) as Hne by (intros E; rewrite E in Hp; by apply Permutation_nil_l in Hp).
    assert (starts (PyStr.join "," (print_member <$> os) +:+ String "}" r)) as Hs.
    { destruct os as [|? []]; [done|..]; cbn; unfold print_member, json_string;
        rewrite ?string_app_assoc; by eexists _, _. }
    rewrite skip_starts, eat_starts by (done || by right).
    assert (Forall (λ kv, reads_back kv.2) os) as IHs by by rewrite Hp.
    rewrite read_members_dumps; [|done|done|by rewrite Hp|by rewrite Hp|].
    + cbn [mbind option_bind stable_json_value]. by rewrite isort_keys_fmap.
    + cbn in Hn |- *. lia.
Qed.

(** Reading a printed value gives it back with its keys in order. *)
Lemma json_loads_dumps j : wf_json j → json_loads (json_dumps j) = Some (stable_json_value j).
Proof.
  intros Hwf. unfold json_loads. rewrite skip_starts by apply dumps_starts.
  rewrite <- (string_app_nil_r (json_dumps j)), json_reads_back; [done..|].
  rewrite !string_app_nil_r. lia.
Qed.

(** Equal texts are of values that differ in the order of keys only. *)
Lemma json_dumps_inj a b :
  wf_json a → wf_json b → json_dumps a = json_dumps b → stable_json_value a = stable_json_value b.
Proof.
  intros Ha Hb E. apply json_loads_dumps in Ha, Hb. rewrite E in Ha. congruence.
Qed.

Lemma json_dumps_stable j : json_dumps (stable_json_value j) = json_dumps j.
Proof.
  induction j as [|b|z|s|l IH|o IH] using json_nested_ind; try done.
  - cbn [stable_json_value json_dumps]. rewrite <- list_fmap_compose.
    do 3 f_equal. by apply Forall_fmap_ext_1.
  - cbn [stable_json_value]. rewrite !json_dumps_obj, isort_keys_fmap.
    rewrite isort_sorted_id.
    2:{ rewrite <- isort_keys_fmap. apply StronglySorted_Sorted, isort_StronglySorted. apply _. }
    rewrite <- list_fmap_compose. do 3 f_equal. apply list_fmap_ext.
    intros i [k v] Hi%list_elem_of_lookup_2. rewrite elem_of_isort in Hi.
    rewrite Forall_forall in IH. pose proof (IH (k, v) Hi) as E. cbn [snd] in E.
    change (print_member (k, stable_json_value v) = print_member (k, v)).
    unfold print_member. cbn [fst snd]. by rewrite E.
Qed.

(** The canonical texts of two values are equal exactly when the values are the same up to
    the order of keys. *)
Lemma json_dumps_canonical a b :
  wf_json a → wf_json b → json_dumps a = json_dumps b ↔ stable_json_value a = stable_json_value b.
Proof.
  intros Ha Hb. split; [by apply json_dumps_inj|]. intros E.
  by rewrite <- (json_dumps_stable a), <- (json_dumps_stable b), E.
Qed.
