(* ===== verification/Digest.v ===== *)
(** * SHA-256, HMAC and base64 for URLs

    What the source uses of [hashlib], [hmac] and [base64]: the digest of a message,
    the keyed digest of RFC 2104, and the URL-safe alphabet with Python's lenient
    decoder, which skips characters it does not know.  Bytes are numbers below 256. *)

From stdpp Require Import base list strings.
From Stdlib Require Import ZArith Lia Ascii.
From S2P Require Import Prelude Json Text.
#[local] Open Scope N_scope.

(** ** SHA-256 *)

Definition w32 (n : N) : N := N.land n 4294967295.
Definition add32 (a b : N) : N := w32 (a + b).
Definition rotr (k x : N) : N := N.lor (N.shiftr x k) (w32 (N.shiftl x (32 - k))).
Definition not32 (x : N) : N := N.lxor x 4294967295.

Definition sigma (a b c x : N) : N := N.lxor (rotr a x) (N.lxor (rotr b x) (rotr c x)).
Definition sigma' (a b c x : N) : N := N.lxor (rotr a x) (N.lxor (rotr b x) (N.shiftr x c)).

Definition round_constants : list N :=
  [1116352408; 1899447441; 3049323471; 3921009573; 961987163; 1508970993; 2453635748; 2870763221;
   3624381080; 310598401; 607225278; 1426881987; 1925078388; 2162078206; 2614888103; 3248222580;
   3835390401; 4022224774; 264347078; 604807628; 770255983; 1249150122; 1555081692; 1996064986;
   2554220882; 2821834349; 2952996808; 3210313671; 3336571891; 3584528711; 113926993; 338241895;
   666307205; 773529912; 1294757372; 1396182291; 1695183700; 1986661051; 2177026350; 2456956037;
   2730485921; 2820302411; 3259730800; 3345764771; 3516065817; 3600352804; 4094571909; 275423344;
   430227734; 506948616; 659060556; 883997877; 958139571; 1322822218; 1537002063; 1747873779;
   1955562222; 2024104815; 2227730452; 2361852424; 2428436474; 2756734187; 3204031479; 3329325298].

Definition initial_state : list N :=
  [1779033703; 3144134277; 1013904242; 2773480762; 1359893119; 2600822924; 528734635; 1541459225].

(** The number a list of bytes stands for, most significant first, and back. *)
Definition big_endian (bs : list N) : N := foldl (λ n b, n * 256 + b) 0 bs.

Fixpoint to_bytes (len : nat) (n : N) : list N :=
  match len with
  | O => []
  | S len => to_bytes len (n / 256) ++ [n mod 256]
  end.

Fixpoint chunks_fuel {A} (fuel k : nat) (l : list A) : list (list A) :=
  match fuel with
  | O => []
  | S fuel => match l with [] => [] | _ => take k l :: chunks_fuel fuel k (drop k l) end
  end.

Definition chunks {A} (k : nat) (l : list A) : list (list A) := chunks_fuel (length l) k l.

(** The message schedule, newest word first. *)
Fixpoint schedule (n : nat) (ws : list N) : list N :=
  match n with
  | O => ws
  | S n =>
      let at_ i := nth i ws 0 in
      schedule n (add32 (add32 (sigma' 17 19 10 (at_ 1%nat)) (at_ 6%nat))
                        (add32 (sigma' 7 18 3 (at_ 14%nat)) (at_ 15%nat)) :: ws)
  end.

Definition sha_round (st : list N) (kw : N * N) : list N :=
  match st with
  | [a; b; c; d; e; f; g; h] =>
      let t1 := add32 (add32 (add32 h (sigma 6 11 25 e))
                             (N.lxor (N.land e f) (N.land (not32 e) g))) (add32 kw.1 kw.2) in
      let t2 := add32 (sigma 2 13 22 a)
                      (N.lxor (N.land a b) (N.lxor (N.land a c) (N.land b c))) in
      [add32 t1 t2; a; b; c; add32 d t1; e; f; g]
  | _ => st
  end.

Definition sha_block (st : list N) (block : list N) : list N :=
  let ws := rev (schedule 48 (rev (big_endian <$> chunks 4 block))) in
  zip_with add32 st (foldl sha_round st (zip round_constants ws)).

Definition sha_pad (bs : list N) : list N :=
  let len := length bs in
  bs ++ 128 :: replicate (Nat.modulo (119 - Nat.modulo len 64) 64) 0 ++
    to_bytes 8 (8 * N.of_nat len).

(** [hashlib.sha256(bs).digest()] *)
Definition sha256 (bs : list N) : list N :=
  concat (to_bytes 4 <$> foldl sha_block initial_state (chunks 64 (sha_pad bs))).

(** [s.encode("utf-8")] *)
Fixpoint utf8 (s : string) : list N :=
  match s with
  | EmptyString => []
  | String c s =>
      let n := N_of_ascii c in
      if n <? 128 then n :: utf8 s else 192 + n / 64 :: 128 + n mod 64 :: utf8 s
  end.

Definition hex_text (bs : list N) : string :=
  foldr (λ b s, String (Json.hex_digit (b / 16)) (String (Json.hex_digit (b mod 16)) s)) EmptyString bs.

(** The vectors of FIPS 180-4. *)
Example digest_vectors :
  hex_text (sha256 (utf8 "abc")) =
    "ba7816bf8f01cfea414140de5dae2223b00361a396177a9cb410ff61f20015ad" ∧
  hex_text (sha256 []) =
    "e3b0c44298fc1c149afbf4c8996fb92427ae41e4649b934ca495991b7852b855" ∧
  hex_text (sha256 (utf8 "abcdbcdecdefdefgefghfghighijhijkijkljklmklmnlmnomnopnopq")) =
    "248d6a61d20638b8e5c026930c3e6039a33ce45964ff2167f6ecedd419db06c1".
Proof. by vm_compute. Qed.

(** [hashlib.sha256(text.encode("utf-8")).hexdigest()].  The theorems hold for any
    function in its place; the examples compute with the real one. *)
Class Sha256 : Type := sha256_hex : string → string.

Definition sha256_hexdigest : Sha256 := λ text, hex_text (sha256 (utf8 text)).

(** ** HMAC *)

(** [hmac.new(key, message, sha256).digest()] *)
Definition hmac_sha256 (key message : list N) : list N :=
  let k := if decide (64 < length key)%nat then sha256 key else key in
  let k := k ++ replicate (64 - length k) 0 in
  sha256 ((N.lxor 92 <$> k) ++ sha256 ((N.lxor 54 <$> k) ++ message)).

(** The first two vectors of RFC 4231, and one with a key longer than a block. *)
Example hmac_vectors :
  hex_text (hmac_sha256 (replicate 20 11) (utf8 "Hi There")) =
    "b0344c61d8db38535ca8afceaf0bf12b881dc200c9833da726e9376c2e32cff7" ∧
  hex_text (hmac_sha256 (utf8 "Jefe") (utf8 "what do ya want for nothing?")) =
    "5bdcc146bf60754e6a042426089575c75a003f089d2739839dec58b964ec3843" ∧
  hex_text (hmac_sha256 (replicate 131 170)
      (utf8 "Test Using Larger Than Block-Size Key - Hash Key First")) =
    "60e431591ee0b67f0d8a26aacbf5b77f8e0bc6213728c5140546040f0ee37f54".
Proof. by vm_compute. Qed.
