(* ===== verification/CloudData.v ===== *)
(** * Data of CloudOSD and of the lab bubbles

    The tables of [web/cloudosd_pg.py]: boot media, deployments of Windows clients with
    their events, what is known of their registration with Autopilot, and the pause Graph
    asked for; and those of [web/lab_bubbles_pg.py]: bubbles, the machines and services in
    them, and the audit trail.  Both are part of the one database ([TsData.db]). *)

From stdpp Require Import base gmap list strings.
From Stdlib Require Import ZArith.
From S2P Require Import Prelude Json.

(** ** CloudOSD *)

(** The values of [cloudosd_runs.state] that a statement writes. *)
Inductive cloud_state : Type :=
| CloudCreated | CloudAwaitingPe | CloudPeRegistered | WaitingDomainJoin | WaitingV2 | CloudComplete
| CloudFailed.

#[export] Instance cloud_state_eq_dec : EqDecision cloud_state.
Proof. solve_decision. Defined.

(** The text of the column. *)
Definition cloud_state_text (s : cloud_state) : string :=
  match s with
  | CloudCreated => "created" | CloudAwaitingPe => "awaiting_pe" | CloudPeRegistered => "pe_registered"
  | WaitingDomainJoin => "full_os_waiting_domain_join" | WaitingV2 => "full_os_waiting_v2"
  | CloudComplete => "complete" | CloudFailed => "failed"
  end.

Record cloud_artifact : Type := CloudArtifact {
  ca_architecture : string;
  ca_osdcloud_module_version : string;
  ca_build_sha : string;
  ca_iso_path : string;
  ca_wim_path : string;
  ca_manifest_path : string;
  ca_iso_sha256 : string;
  ca_wim_sha256 : string;
  ca_built_by_host : string;
  ca_built_at : Z;
  ca_proxmox_volid : option string;
  ca_build_job_id : option string;
  ca_publish_job_id : option string;
  ca_created_at : Z
}.

(** The columns of [cloudosd_runs] no statement updates. *)
Record cloud_request : Type := CloudRequest {
  cq_artifact_id : string;
  cq_workflow_name : string;
  cq_architecture : string;
  cq_os_version : string;
  cq_os_activation : string;
  cq_os_edition : string;
  cq_os_language : string;
  cq_vm_name : string;
  cq_requested_vm_name : option string;
  cq_expected_computer_name : option string;
  cq_requested_vmid : option Z;
  cq_iso_storage : option string;
  cq_storage : option string;
  cq_network_bridge : option string;
  cq_vm_cores : Z;
  cq_vm_memory_mb : Z;
  cq_vm_disk_size_gb : Z;
  cq_vm_group_tag : option string;
  cq_vm_oem_profile : option string;
  cq_chassis_type_override : option Z;
  cq_source_surface : option string;
  cq_source_sequence_id : option Z;
  cq_tpm_enabled : bool;
  cq_secure_boot : bool;
  cq_firmware_updates_enabled : bool;
  cq_driver_pack_policy : string;
  cq_analytics_enabled : bool;
  cq_outbound_policy : json;
  cq_domain_join : json;
  cq_local_admin : json;
  cq_created_at : Z
}.

Record cloud_run : Type := CloudRun {
  cr_request : cloud_request;
  cr_state : cloud_state;
  cr_node : option string;
  cr_pve_vm_name : option string;
  cr_vmid : option Z;
  cr_vm_uuid : option string;
  cr_mac : option string;
  cr_pe_registered_at : option Z;
  cr_osdcloud_started_at : option Z;
  cr_osdcloud_finished_at : option Z;
  cr_first_heartbeat_at : option Z;
  cr_archived_at : option Z;
  cr_archived_by : option string;
  cr_archive_reason : option string;
  cr_updated_at : Z
}.

(** The [id] of an event numbers the rows in the order of insertion, which is the order of
    the list; so does that of an upload attempt. *)
Record cloud_event : Type := CloudEvent {
  ce_run_id : string;
  ce_phase : string;
  ce_event_type : string;
  ce_severity : string;
  ce_message : option string;
  ce_data : json;
  ce_created_at : Z
}.

Record autopilot_readiness : Type := AutopilotReadiness {
  ap_state : string;
  ap_expected_group_tag : option string;
  ap_hash_status : option string;
  ap_hash_filename : option string;
  ap_hash_sha256 : option string;
  ap_hash_serial : option string;
  ap_upload_status : option string;
  ap_upload_job_id : option string;
  ap_upload_started_at : option Z;
  ap_upload_finished_at : option Z;
  ap_upload_error : option string;
  ap_autopilot_device_id : option string;
  ap_imported_serial : option string;
  ap_imported_group_tag : option string;
  ap_assignment_status : option string;
  ap_enrollment_status : option string;
  ap_contact_state : option string;
  ap_cache_status : option string;
  ap_cache_synced_at : option Z;
  ap_last_observed_at : option Z;
  ap_errors : list json;
  ap_updated_at : Z
}.

Record upload_attempt : Type := UploadAttempt {
  ua_run_id : string;
  ua_job_id : option string;
  ua_hash_filename : string;
  ua_expected_group_tag : option string;
  ua_status : string;
  ua_started_at : option Z;
  ua_finished_at : option Z;
  ua_error : option string;
  ua_stdout_tail : option string;
  ua_stderr_tail : option string;
  ua_created_at : Z
}.

Record graph_sync : Type := GraphSync {
  gs_retry_after_until : option Z;
  gs_backoff_attempts : Z;
  gs_last_error : option string;
  gs_updated_at : Z
}.

(** ** Lab bubbles *)

Record bubble : Type := Bubble {
  bb_name : string;
  bb_slug : string;
  bb_description : string;
  bb_lifecycle_state : string;
  bb_domain_name : string;
  bb_netbios_name : string;
  bb_cidr : string;
  bb_gateway_ip : string;
  bb_planned_bridge : string;
  bb_planned_vlan : option Z;
  bb_isolation_status : string;
  bb_dhcp_scope : string;
  bb_dhcp_pool_start : string;
  bb_dhcp_pool_end : string;
  bb_dhcp_owner_asset_id : option string;
  bb_dc_ready : bool;
  bb_dns_ready : bool;
  bb_dhcp_ready : bool;
  bb_workload_ready : bool;
  bb_allow_early_workgroup_launch : bool;
  bb_require_domain_ready : bool;
  bb_require_multi_domain_ready : bool;
  bb_created_at : Z;
  bb_updated_at : Z
}.

Record bubble_asset : Type := BubbleAsset {
  ba_bubble_id : string;
  ba_asset_type : string;
  ba_asset_role : string;
  ba_vmid : option Z;
  ba_vm_uuid : option string;
  ba_run_id : option string;
  ba_agent_id : option string;
  ba_service_id : option string;
  ba_membership_state : string;
  ba_evidence_state : string;
  ba_notes : string;
  ba_created_at : Z;
  ba_updated_at : Z
}.

Record bubble_service : Type := BubbleService {
  bs_bubble_id : string;
  bs_service_kind : string;
  bs_service_name : string;
  bs_scope : string;
  bs_provider_asset_id : option string;
  bs_consumer_refs : list json;
  bs_readiness_state : string;
  bs_last_evidence_at : option Z;
  bs_evidence_summary : json;
  bs_created_at : Z;
  bs_updated_at : Z
}.

(** What an audit event says of a row before and after a change. *)
Inductive audit_value : Type :=
| NoValue
| AuditAsset (id : string) (a : bubble_asset)
| AuditService (id : string) (v : bubble_service)
| AuditEvidence (evidence : json).

Record audit_event : Type := AuditEvent {
  au_bubble_id : string;
  au_asset_id : option string;
  au_actor : string;
  au_action : string;
  au_reason : string;
  au_old_values : audit_value;
  au_new_values : audit_value;
  au_created_at : Z
}.

(** ** The tables *)

Record bubble_tables : Type := BubbleTables {
  lab_bubbles : gmap string bubble;
  bubble_assets : gmap string bubble_asset;
  bubble_services : gmap string bubble_service;
  audit_events : list audit_event
}.

Definition set_lab_bubbles (f : gmap string bubble → gmap string bubble) (t : bubble_tables) :
    bubble_tables :=
  BubbleTables (f (lab_bubbles t)) (bubble_assets t) (bubble_services t) (audit_events t).
Definition set_bubble_assets (f : gmap string bubble_asset → gmap string bubble_asset)
    (t : bubble_tables) : bubble_tables :=
  BubbleTables (lab_bubbles t) (f (bubble_assets t)) (bubble_services t) (audit_events t).
Definition set_bubble_services (f : gmap string bubble_service → gmap string bubble_service)
    (t : bubble_tables) : bubble_tables :=
  BubbleTables (lab_bubbles t) (bubble_assets t) (f (bubble_services t)) (audit_events t).
Definition set_audit_events (f : list audit_event → list audit_event) (t : bubble_tables) :
    bubble_tables :=
  BubbleTables (lab_bubbles t) (bubble_assets t) (bubble_services t) (f (audit_events t)).

(** Readiness has the key of its run. *)
Record cloud_tables : Type := CloudTables {
  cloud_artifacts : gmap string cloud_artifact;
  cloud_runs : gmap string cloud_run;
  cloud_events : list cloud_event;
  autopilot : gmap string autopilot_readiness;
  upload_attempts : list upload_attempt;
  graph_sync_state : gmap string graph_sync;
  lab : bubble_tables
}.

Definition empty_cloud : cloud_tables := CloudTables ∅ ∅ [] ∅ [] ∅ (BubbleTables ∅ ∅ ∅ []).

Definition set_cloud_artifacts (f : gmap string cloud_artifact → gmap string cloud_artifact)
    (t : cloud_tables) : cloud_tables :=
  CloudTables (f (cloud_artifacts t)) (cloud_runs t) (cloud_events t) (autopilot t) (upload_attempts t)
    (graph_sync_state t) (lab t).
Definition set_cloud_runs (f : gmap string cloud_run → gmap string cloud_run) (t : cloud_tables) :
    cloud_tables :=
  CloudTables (cloud_artifacts t) (f (cloud_runs t)) (cloud_events t) (autopilot t) (upload_attempts t)
    (graph_sync_state t) (lab t).
Definition set_cloud_events (f : list cloud_event → list cloud_event) (t : cloud_tables) : cloud_tables :=
  CloudTables (cloud_artifacts t) (cloud_runs t) (f (cloud_events t)) (autopilot t) (upload_attempts t)
    (graph_sync_state t) (lab t).
Definition set_autopilot (f : gmap string autopilot_readiness → gmap string autopilot_readiness)
    (t : cloud_tables) : cloud_tables :=
  CloudTables (cloud_artifacts t) (cloud_runs t) (cloud_events t) (f (autopilot t)) (upload_attempts t)
    (graph_sync_state t) (lab t).
Definition set_upload_attempts (f : list upload_attempt → list upload_attempt) (t : cloud_tables) :
    cloud_tables :=
  CloudTables (cloud_artifacts t) (cloud_runs t) (cloud_events t) (autopilot t) (f (upload_attempts t))
    (graph_sync_state t) (lab t).
Definition set_graph_sync_state (f : gmap string graph_sync → gmap string graph_sync) (t : cloud_tables) :
    cloud_tables :=
  CloudTables (cloud_artifacts t) (cloud_runs t) (cloud_events t) (autopilot t) (upload_attempts t)
    (f (graph_sync_state t)) (lab t).
Definition set_lab (f : bubble_tables → bubble_tables) (t : cloud_tables) : cloud_tables :=
  CloudTables (cloud_artifacts t) (cloud_runs t) (cloud_events t) (autopilot t) (upload_attempts t)
    (graph_sync_state t) (f (lab t)).
