(* ===== verification/OsdeployData.v ===== *)
(** * Data of OSDeploy

    The tables of [web/osdeploy_pg.py]: artifacts (boot media that were built), runs of
    Windows servers, their events and readiness, and bundles of runs that make a lab.
    Each run extends a run of the task sequence engine, whose key it shares; the tables
    are part of the one database ([TsData.db]) and of its transactions, and with them are
    the tables of CloudOSD ([CloudData]). *)

From stdpp Require Import base gmap list strings.
From Stdlib Require Import ZArith.
From S2P Require Import Prelude Json CloudData.

(** The values of [osdeploy_runs.state]; no statement writes [canceled], which
    several read. *)
Inductive osd_state : Type :=
| Created | AwaitingPe | PeRegistered | RolePending | Complete | OsdFailed | OsdCanceled.

#[export] Instance osd_state_eq_dec : EqDecision osd_state.
Proof. solve_decision. Defined.

(** The text of the column. *)
Definition osd_state_text (s : osd_state) : string :=
  match s with
  | Created => "created" | AwaitingPe => "awaiting_pe" | PeRegistered => "pe_registered"
  | RolePending => "role_pending" | Complete => "complete" | OsdFailed => "failed"
  | OsdCanceled => "canceled"
  end.

Record artifact_row : Type := Artifact {
  ar_architecture : string;
  ar_osdeploy_module_version : string;
  ar_osdbuilder_module_version : string;
  ar_adk_version : string;
  ar_build_sha : string;
  ar_iso_path : string;
  ar_wim_path : string;
  ar_manifest_path : string;
  ar_iso_sha256 : string;
  ar_wim_sha256 : string;
  ar_source_media : string;
  ar_image_name : string;
  ar_image_index : Z;
  ar_os_version : string;
  ar_os_edition : string;
  ar_os_language : string;
  ar_built_by_host : string;
  ar_built_at : Z;
  ar_proxmox_volid : option string;
  ar_build_job_id : option string;
  ar_publish_job_id : option string;
  ar_created_at : Z
}.

(** The columns of [osdeploy_runs] no statement updates. *)
Record osd_request : Type := OsdRequest {
  oq_artifact_id : string;
  oq_workflow_name : string;
  oq_architecture : string;
  oq_server_role : string;
  oq_os_version : string;
  oq_os_edition : string;
  oq_os_language : string;
  oq_vm_name : string;
  oq_requested_vm_name : option string;
  oq_expected_computer_name : option string;
  oq_requested_vmid : option Z;
  oq_iso_storage : option string;
  oq_storage : option string;
  oq_network_bridge : option string;
  oq_vm_cores : Z;
  oq_vm_memory_mb : Z;
  oq_vm_disk_size_gb : Z;
  oq_secure_boot : bool;
  oq_outbound_policy : json;
  oq_role_options : json;
  oq_local_admin : json;
  oq_created_at : Z
}.

Record osd_run : Type := OsdRun {
  or_request : osd_request;
  or_state : osd_state;
  or_node : option string;
  or_pve_vm_name : option string;
  or_vmid : option Z;
  or_vm_uuid : option string;
  or_mac : option string;
  or_pe_registered_at : option Z;
  or_osdeploy_started_at : option Z;
  or_osdeploy_finished_at : option Z;
  or_first_heartbeat_at : option Z;
  or_archived_at : option Z;
  or_archived_by : option string;
  or_archive_reason : option string;
  or_updated_at : Z
}.

(** The [id] of an event numbers the rows in the order of insertion, which is the order
    of the list. *)
Record osd_event : Type := OsdEvent {
  oe_run_id : string;
  oe_phase : string;
  oe_event_type : string;
  oe_severity : string;
  oe_message : option string;
  oe_data : json;
  oe_created_at : Z
}.

Record osd_readiness : Type := OsdReadiness {
  rd_state : string;
  rd_qga_status : option string;
  rd_agent_status : option string;
  rd_heartbeat_at : option Z;
  rd_server_role_status : option string;
  rd_errors : list json;
  rd_updated_at : option Z
}.

Record osd_bundle : Type := OsdBundle {
  ob_state : string;
  ob_server_role : string;
  ob_bundle_name : string;
  ob_artifact_id : string;
  ob_role_options : json;
  ob_created_at : Z;
  ob_updated_at : Z
}.

Record osd_child : Type := OsdChild {
  oc_bundle_id : string;
  oc_dependency_order : Z;
  oc_server_role : string;
  oc_child_run_id : string;
  oc_created_at : Z
}.

(** Readiness has the key of its run. *)
Record osdeploy_tables : Type := OsdeployTables {
  artifacts : gmap string artifact_row;
  osd_runs : gmap string osd_run;
  osd_events : list osd_event;
  readiness : gmap string osd_readiness;
  bundles : gmap string osd_bundle;
  bundle_children : gmap string osd_child;
  cloud : cloud_tables
}.

Definition empty_osdeploy : osdeploy_tables := OsdeployTables ∅ ∅ [] ∅ ∅ ∅ empty_cloud.

Definition set_artifacts (f : gmap string artifact_row → gmap string artifact_row)
    (t : osdeploy_tables) : osdeploy_tables :=
  OsdeployTables (f (artifacts t)) (osd_runs t) (osd_events t) (readiness t) (bundles t)
    (bundle_children t) (cloud t).
Definition set_osd_runs (f : gmap string osd_run → gmap string osd_run)
    (t : osdeploy_tables) : osdeploy_tables :=
  OsdeployTables (artifacts t) (f (osd_runs t)) (osd_events t) (readiness t) (bundles t)
    (bundle_children t) (cloud t).
Definition set_osd_events (f : list osd_event → list osd_event)
    (t : osdeploy_tables) : osdeploy_tables :=
  OsdeployTables (artifacts t) (osd_runs t) (f (osd_events t)) (readiness t) (bundles t)
    (bundle_children t) (cloud t).
Definition set_readiness (f : gmap string osd_readiness → gmap string osd_readiness)
    (t : osdeploy_tables) : osdeploy_tables :=
  OsdeployTables (artifacts t) (osd_runs t) (osd_events t) (f (readiness t)) (bundles t)
    (bundle_children t) (cloud t).
Definition set_bundles (f : gmap string osd_bundle → gmap string osd_bundle)
    (t : osdeploy_tables) : osdeploy_tables :=
  OsdeployTables (artifacts t) (osd_runs t) (osd_events t) (readiness t) (f (bundles t))
    (bundle_children t) (cloud t).
Definition set_bundle_children (f : gmap string osd_child → gmap string osd_child)
    (t : osdeploy_tables) : osdeploy_tables :=
  OsdeployTables (artifacts t) (osd_runs t) (osd_events t) (readiness t) (bundles t)
    (f (bundle_children t)) (cloud t).
Definition set_cloud (f : cloud_tables → cloud_tables) (t : osdeploy_tables) : osdeploy_tables :=
  OsdeployTables (artifacts t) (osd_runs t) (osd_events t) (readiness t) (bundles t)
    (bundle_children t) (f (cloud t)).
