(* ===== verification/TsData.v ===== *)
(** * Data of the task sequence engine

    The tables of [web/ts_engine_pg.py], one record per table without its
    primary key, the database as one finite map per table with the tables of OSDeploy, and the connection:
    the database as the open transaction sees it, the committed one, and the
    clock and identifier generators the code reads.  The [insert_*] operations
    carry the constraints PostgreSQL checks (primary keys, foreign keys, UNIQUE
    and CHECK). *)

From stdpp Require Import base gmap list strings sorting.
From Stdlib Require Import ZArith Lia.
From S2P Require Import Prelude Json OsdeployData.

(** ** Values *)

Inductive step_state : Type :=
| Pending | Running | AwaitingReboot | Done | Failed | Skipped.

#[export] Instance step_state_eq_dec : EqDecision step_state.
Proof. solve_decision. Defined.

(** The text of the column [ts_run_plan_steps.state]. *)
Definition step_state_text (s : step_state) : string :=
  match s with
  | Pending => "pending" | Running => "running" | AwaitingReboot => "awaiting_reboot"
  | Done => "done" | Failed => "failed" | Skipped => "skipped"
  end.

(** [RunningIn p] is the text [running_] followed by the phase [p]; [RunNamed] is a state
    of its own that a deployment gives its run ([osdeploy_created], ...). *)
Inductive run_state : Type :=
| Queued | RunningIn (phase : string) | RunAwaitingReboot | RunDone | RunFailed | RunCanceled
| RunNamed (name : string).

#[export] Instance run_state_eq_dec : EqDecision run_state.
Proof. solve_decision. Defined.

Inductive node_type : Type := Group | Step.

#[export] Instance node_type_eq_dec : EqDecision node_type.
Proof. solve_decision. Defined.

(** ** Tables *)

Record sequence_row : Type := Sequence {
  sq_name : string;
  sq_description : option string;
  sq_target_os : string;
  sq_enabled : bool;
  sq_current_version_id : option string;
  sq_created_at : Z;
  sq_updated_at : Z;
  sq_created_by : option string;
  sq_updated_by : option string
}.

Record node_row : Type := Node {
  nd_sequence_id : string;
  nd_parent_id : option string;
  nd_position : Z;
  nd_node_type : node_type;
  nd_name : string;
  nd_description : option string;
  nd_kind : option string;
  nd_phase : string;
  nd_enabled : bool;
  nd_condition : json;
  nd_variables : json;
  nd_params : json;
  nd_content_refs : list string;
  nd_continue_on_error : bool;
  nd_retry_count : Z;
  nd_retry_delay_seconds : Z;
  nd_timeout_seconds : option Z;
  nd_reboot_behavior : string;
  nd_created_at : Z;
  nd_updated_at : Z
}.

(** One element of [compiled_tree_json]. *)
Record compiled_node : Type := CompiledNode {
  cn_id : string;
  cn_parent_id : option string;
  cn_position : Z;
  cn_node_type : node_type;
  cn_name : string;
  cn_kind : option string;
  cn_phase : string;
  cn_enabled : bool;
  cn_condition : json;
  cn_variables : json;
  cn_params : json;
  cn_content_refs : list string;
  cn_continue_on_error : bool;
  cn_retry_count : Z;
  cn_retry_delay_seconds : Z;
  cn_timeout_seconds : option Z;
  cn_reboot_behavior : string
}.

Record version_row : Type := Version {
  ver_sequence_id : string;
  ver_version : Z;
  ver_source_hash : string;
  ver_compiled_tree : list compiled_node;
  ver_compiled_at : Z;
  ver_compiled_by : option string
}.

Record run_row : Type := Run {
  rn_sequence_id : string;
  rn_sequence_version_id : string;
  rn_state : run_state;
  rn_phase : option string;
  rn_cursor_step_id : option string;
  rn_vmid : json;
  rn_vm_uuid : json;
  rn_computer_name : json;
  rn_serial_number : json;
  rn_deployment_target : json;
  rn_run_variables : json;
  rn_started_at : Z;
  rn_finished_at : option Z;
  rn_last_error : option string;
  rn_created_by : option string
}.

(** The columns of [ts_run_plan_steps] no statement ever updates. *)
Record plan_step : Type := PlanStep {
  ps_run_id : string;
  ps_source_node_id : string;
  ps_parent_source_node_id : option string;
  ps_ordinal : nat;
  ps_depth : nat;
  ps_path : string;
  ps_name : string;
  ps_kind : string;
  ps_phase : string;
  ps_condition : json;
  ps_condition_result : json;
  ps_variables : json;
  ps_params : json;
  ps_resolved_params : json;
  ps_content_refs : list string;
  ps_continue_on_error : bool;
  ps_retry_count : Z;
  ps_retry_delay_seconds : Z;
  ps_timeout_seconds : option Z;
  ps_reboot_behavior : string
}.

Record step_row : Type := StepRow {
  st_plan : plan_step;
  st_state : step_state;
  st_attempt : Z;
  st_claimed_by : option string;
  st_claimed_at : option Z;
  st_started_at : option Z;
  st_finished_at : option Z;
  st_last_error : option string
}.

Record event_row : Type := Event {
  ev_run_id : string;
  ev_step_id : option string;
  ev_event_type : string;
  ev_severity : string;
  ev_agent_id : option string;
  ev_phase : option string;
  ev_attempt : option Z;
  ev_message : option string;
  ev_data : json;
  ev_created_at : Z
}.

Record log_row : Type := Log {
  lg_run_id : string;
  lg_step_id : string;
  lg_agent_id : string;
  lg_stream : string;
  lg_content : string;
  lg_created_at : Z
}.

Record content_item_row : Type := ContentItem {
  ci_name : string;
  ci_content_type : string;
  ci_description : option string;
  ci_enabled : bool;
  ci_created_at : Z;
  ci_updated_at : Z
}.

Record content_version_row : Type := ContentVersion {
  cv_content_item_id : string;
  cv_version : string;
  cv_sha256 : string;
  cv_size_bytes : option Z;
  cv_source_uri : string;
  cv_architecture : string;
  cv_target_os : string;
  cv_reboot_behavior : string;
  cv_conditions : json;
  cv_metadata : json;
  cv_created_at : Z;
  cv_created_by : option string
}.

Record manifest_row : Type := Manifest {
  mf_run_id : string;
  mf_content_version_id : string;
  mf_logical_name : string;
  mf_content_type : string;
  mf_required_phase : string;
  mf_required : bool;
  mf_source_uri : string;
  mf_sha256 : string;
  mf_size_bytes : option Z;
  mf_staging_path : option string;
  mf_status : string;
  mf_staging_attempts : Z;
  mf_staged_by : option string;
  mf_staged_at : option Z;
  mf_last_error : option string;
  mf_metadata : json;
  mf_created_at : Z
}.

(** ** The database and the connection *)

Record db : Type := Db {
  sequences : gmap string sequence_row;
  nodes : gmap string node_row;
  versions : gmap string version_row;
  runs : gmap string run_row;
  steps : gmap string step_row;
  events : list event_row;
  logs : list log_row;
  content_items : gmap string content_item_row;
  content_versions : gmap string content_version_row;
  manifest : gmap string manifest_row;
  osdeploy : osdeploy_tables
}.

Definition empty_db : db := Db ∅ ∅ ∅ ∅ ∅ [] [] ∅ ∅ ∅ empty_osdeploy.

Definition set_sequences (f : gmap string sequence_row → gmap string sequence_row) (d : db) : db :=
  Db (f (sequences d)) (nodes d) (versions d) (runs d) (steps d) (events d) (logs d)
     (content_items d) (content_versions d) (manifest d) (osdeploy d).
Definition set_nodes (f : gmap string node_row → gmap string node_row) (d : db) : db :=
  Db (sequences d) (f (nodes d)) (versions d) (runs d) (steps d) (events d) (logs d)
     (content_items d) (content_versions d) (manifest d) (osdeploy d).
Definition set_versions (f : gmap string version_row → gmap string version_row) (d : db) : db :=
  Db (sequences d) (nodes d) (f (versions d)) (runs d) (steps d) (events d) (logs d)
     (content_items d) (content_versions d) (manifest d) (osdeploy d).
Definition set_runs (f : gmap string run_row → gmap string run_row) (d : db) : db :=
  Db (sequences d) (nodes d) (versions d) (f (runs d)) (steps d) (events d) (logs d)
     (content_items d) (content_versions d) (manifest d) (osdeploy d).
Definition set_steps (f : gmap string step_row → gmap string step_row) (d : db) : db :=
  Db (sequences d) (nodes d) (versions d) (runs d) (f (steps d)) (events d) (logs d)
     (content_items d) (content_versions d) (manifest d) (osdeploy d).
Definition set_events (f : list event_row → list event_row) (d : db) : db :=
  Db (sequences d) (nodes d) (versions d) (runs d) (steps d) (f (events d)) (logs d)
     (content_items d) (content_versions d) (manifest d) (osdeploy d).
Definition set_logs (f : list log_row → list log_row) (d : db) : db :=
  Db (sequences d) (nodes d) (versions d) (runs d) (steps d) (events d) (f (logs d))
     (content_items d) (content_versions d) (manifest d) (osdeploy d).
Definition set_content_items (f : gmap string content_item_row → gmap string content_item_row)
    (d : db) : db :=
  Db (sequences d) (nodes d) (versions d) (runs d) (steps d) (events d) (logs d)
     (f (content_items d)) (content_versions d) (manifest d) (osdeploy d).
Definition set_content_versions
    (f : gmap string content_version_row → gmap string content_version_row) (d : db) : db :=
  Db (sequences d) (nodes d) (versions d) (runs d) (steps d) (events d) (logs d)
     (content_items d) (f (content_versions d)) (manifest d) (osdeploy d).
Definition set_manifest (f : gmap string manifest_row → gmap string manifest_row) (d : db) : db :=
  Db (sequences d) (nodes d) (versions d) (runs d) (steps d) (events d) (logs d)
     (content_items d) (content_versions d) (f (manifest d)) (osdeploy d).
(** The tables of OSDeploy live in the same database. *)
Definition set_osdeploy (f : osdeploy_tables → osdeploy_tables) (d : db) : db :=
  Db (sequences d) (nodes d) (versions d) (runs d) (steps d) (events d) (logs d)
     (content_items d) (content_versions d) (manifest d) (f (osdeploy d)).

(** A connection inside its transaction.  [tick] and [issued] count the clock
    readings and the identifiers handed out so far. *)
Record session : Type := Session {
  cur : db;
  committed : db;
  tick : nat;
  issued : nat
}.

(** The clock ([datetime.now(timezone.utc)], in microseconds) and the random
    identifiers ([uuid.uuid4()]), as the sequences of values they return. *)
Class Env : Type := {
  clock : nat → Z;
  uuid4 : nat → string
}.

(** What the generators promise: time does not run backwards, and identifiers
    do not repeat. *)
Class EnvLaws (E : Env) : Prop := {
  clock_mono n m : (n ≤ m)%nat → (clock n ≤ clock m)%Z;
  uuid4_inj n m : uuid4 n = uuid4 m → n = m
}.

Section connection.
Context `{Env}.

Definition on_cur (f : db → db) (s : session) : session :=
  Session (f (cur s)) (committed s) (tick s) (issued s).

Definition query {A} (f : db → A) : eff session A := λ s, (Ret (f (cur s)), s).
Definition execute (f : db → db) : eff session unit := modify (on_cur f).

Definition now : eff session Z := λ s,
  (Ret (clock (tick s)), Session (cur s) (committed s) (S (tick s)) (issued s)).

Definition new_id : eff session string := λ s,
  (Ret (uuid4 (issued s)), Session (cur s) (committed s) (tick s) (S (issued s))).

(** [conn.commit()] and [conn.rollback()] *)
Definition commit : eff session unit := modify (λ s,
  Session (cur s) (cur s) (tick s) (issued s)).

Definition rollback : eff session unit := modify (λ s,
  Session (committed s) (committed s) (tick s) (issued s)).

(** A statement that PostgreSQL refuses when [ok] is false. *)
Definition checked (ok : bool) (constraint : string) (f : db → db) : eff session unit :=
  if ok then execute f else raise (IntegrityError constraint).

(** [try: m except Exception: conn.rollback(); raise] *)
Definition rollback_on_error {A} (m : eff session A) : eff session A := λ s,
  match m s with
  | (Exc e, s') => (rollback ;; raise e) s'
  | r => r
  end.
End connection.

Lemma run_query {A} (f : db → A) s : query f s = (Ret (f (cur s)), s).
Proof. done. Qed.
Lemma run_execute f s : execute f s = (Ret tt, on_cur f s).
Proof. done. Qed.
Lemma run_now `{Env} s :
  now s = (Ret (clock (tick s)), Session (cur s) (committed s) (S (tick s)) (issued s)).
Proof. done. Qed.
Lemma run_new_id `{Env} s :
  new_id s = (Ret (uuid4 (issued s)), Session (cur s) (committed s) (tick s) (S (issued s))).
Proof. done. Qed.
Lemma run_commit s : commit s = (Ret tt, Session (cur s) (cur s) (tick s) (issued s)).
Proof. done. Qed.
Lemma run_checked ok c f s :
  checked ok c f s = if ok then (Ret tt, on_cur f s) else (Exc (IntegrityError c), s).
Proof. by destruct ok. Qed.

#[export] Hint Rewrite @run_query run_execute @run_now @run_new_id run_commit run_checked : eff.

(** ** Invariants of the database

    [preserves I m]: whatever [m] returns or raises, [I] holds afterwards of the
    open transaction and of the committed database if it held before. *)

Definition holds_in (I : db → Prop) (s : session) : Prop := I (cur s) ∧ I (committed s).

Definition preserves (I : db → Prop) {A} (m : eff session A) : Prop :=
  ∀ s, holds_in I s → holds_in I (m s).2.

Section preserves.
Context `{Env} (I : db → Prop).

Lemma preserves_bind {A B} (m : eff session A) (f : A → eff session B) :
  preserves I m → (∀ a, preserves I (f a)) → preserves I (m ≫= f).
Proof.
  intros Hm Hf s Hs. rewrite run_bind. specialize (Hm s Hs).
  destruct (m s) as [[a|e] s']; [by apply Hf|done].
Qed.

Lemma preserves_ret {A} (a : A) : preserves I (mret a).
Proof. by intros s Hs. Qed.
Lemma preserves_raise {A} e : preserves I (raise (A:=A) e).
Proof. by intros s Hs. Qed.
Lemma preserves_lift {A} (o : outcome A) : preserves I (lift_outcome o).
Proof. by intros s Hs. Qed.
Lemma preserves_query {A} (f : db → A) : preserves I (query f).
Proof. by intros s Hs. Qed.
Lemma preserves_now : preserves I now.
Proof. by intros s Hs. Qed.
Lemma preserves_new_id : preserves I new_id.
Proof. by intros s Hs. Qed.
Lemma preserves_commit : preserves I commit.
Proof. by intros s [Hc _]. Qed.
Lemma preserves_rollback : preserves I rollback.
Proof. by intros s [_ Hc]. Qed.
Lemma preserves_execute f : (∀ d, I d → I (f d)) → preserves I (execute f).
Proof. intros Hf s [Hc Hm]. split; simpl; auto. Qed.
Lemma preserves_checked ok c f : (ok = true → ∀ d, I d → I (f d)) → preserves I (checked ok c f).
Proof. intros Hf. destruct ok; simpl; [by apply preserves_execute, Hf|apply preserves_raise]. Qed.
(** A checked statement whose check reads the database it changes. *)
Lemma preserves_query_checked ok c f :
  (∀ d, I d → ok d = true → I (f d)) →
  preserves I (d ← query (λ d, d); checked (ok d) c f).
Proof.
  intros Hf s [Hc Hm]. rewrite run_bind, run_query. cbn. rewrite run_checked.
  destruct (ok (cur s)) eqn:E; split; simpl; auto.
Qed.
Lemma preserves_rollback_on_error {A} (m : eff session A) :
  preserves I m → preserves I (rollback_on_error m).
Proof.
  intros Hm s Hs. unfold rollback_on_error. specialize (Hm s Hs).
  destruct (m s) as [[a|e] s']; [done|].
  rewrite run_bind. pose proof (preserves_rollback s' Hm). by simpl.
Qed.
Lemma preserves_for_each {A} (l : list A) (body : A → eff session unit) :
  (∀ x, x ∈ l → preserves I (body x)) → preserves I (for_each l body).
Proof.
  intros Hb. induction l as [|x l IH]; simpl; [apply preserves_ret|].
  apply preserves_bind; [apply Hb; set_solver|]. intros _. apply IH. set_solver.
Qed.
End preserves.

Create HintDb preserves.
#[export] Hint Resolve preserves_ret preserves_raise preserves_lift preserves_query preserves_now
  preserves_new_id preserves_commit preserves_rollback : preserves.

(** Break an operation into its statements. *)
Ltac preserves_step :=
  match goal with
  | |- preserves _ (mbind _ _) => apply preserves_bind; [|intros]
  | |- preserves _ (rollback_on_error _) => apply preserves_rollback_on_error
  | |- preserves _ (for_each _ _) => apply preserves_for_each; intros
  | |- preserves _ (match ?x with _ => _ end) => destruct x eqn:?
  | |- preserves _ (let _ := _ in _) => cbv zeta
  | |- preserves _ _ => solve [eauto with preserves]
  end.
Ltac preserves_solve := repeat preserves_step.

(** ** Work that is not committed

    [quiet m]: whatever [m] does, the committed database is the same afterwards. *)

Definition quiet {A} (m : eff session A) : Prop := ∀ s, committed (m s).2 = committed s.

Section quiet.
Context `{Env}.

Lemma quiet_bind {A B} (m : eff session A) (f : A → eff session B) :
  quiet m → (∀ a, quiet (f a)) → quiet (m ≫= f).
Proof.
  intros Hm Hf s. rewrite run_bind. specialize (Hm s).
  destruct (m s) as [[a|e] s']; [|done]. by rewrite Hf.
Qed.

Lemma quiet_ret {A} (a : A) : quiet (mret a).
Proof. done. Qed.
Lemma quiet_raise {A} e : quiet (raise (A:=A) e).
Proof. done. Qed.
Lemma quiet_lift {A} (o : outcome A) : quiet (lift_outcome o).
Proof. done. Qed.
Lemma quiet_query {A} (f : db → A) : quiet (query f).
Proof. done. Qed.
Lemma quiet_execute f : quiet (execute f).
Proof. done. Qed.
Lemma quiet_checked ok c f : quiet (checked ok c f).
Proof. by destruct ok. Qed.
Lemma quiet_now : quiet now.
Proof. done. Qed.
Lemma quiet_new_id : quiet new_id.
Proof. done. Qed.
Lemma quiet_for_each {A} (l : list A) (body : A → eff session unit) :
  (∀ x, quiet (body x)) → quiet (for_each l body).
Proof. intros Hb. induction l; simpl; [done|]. by apply quiet_bind. Qed.

(** [aborts_clean m]: when [m] raises, it has committed nothing. *)
Definition aborts_clean {A} (m : eff session A) : Prop :=
  ∀ s e s', m s = (Exc e, s') → committed s' = committed s.

Lemma aborts_clean_quiet {A} (m : eff session A) : quiet m → aborts_clean m.
Proof. intros Hm s e s' He. specialize (Hm s). by rewrite He in Hm. Qed.

Lemma aborts_clean_bind {A B} (m : eff session A) (f : A → eff session B) :
  quiet m → (∀ a, aborts_clean (f a)) → aborts_clean (m ≫= f).
Proof.
  intros Hm Hf s e s'. rewrite run_bind. specialize (Hm s).
  destruct (m s) as [[a|e'] s1]; simpl in Hm.
  - intros He. apply Hf in He. congruence.
  - by intros [= -> ->].
Qed.

Lemma aborts_clean_last {A B} (m : eff session A) (f : A → B) :
  aborts_clean m → aborts_clean (m ≫= λ a, mret (f a)).
Proof.
  intros Hm s e s'. rewrite run_bind. specialize (Hm s). destruct (m s) as [[a|e'] s1]; [done|].
  intros [= -> ->]. by eapply Hm.
Qed.

Lemma aborts_clean_commit : aborts_clean commit.
Proof. done. Qed.

Lemma aborts_clean_rollback {A} (m : eff session A) :
  aborts_clean m → aborts_clean (rollback_on_error m).
Proof.
  intros Hm s e s'. unfold rollback_on_error. specialize (Hm s).
  destruct (m s) as [[a|e'] s1]; [done|]. rewrite run_bind. intros [= _ <-]. simpl. by eapply Hm.
Qed.
End quiet.

Create HintDb quiet.
#[export] Hint Resolve quiet_ret quiet_raise quiet_lift quiet_query quiet_execute quiet_checked
  quiet_now quiet_new_id : quiet.

Ltac quiet_step :=
  match goal with
  | |- quiet (mbind _ _) => apply quiet_bind; [|intros]
  | |- quiet (for_each _ _) => apply quiet_for_each; intros
  | |- quiet (match ?x with _ => _ end) => destruct x eqn:?
  | |- quiet (let _ := _ in _) => cbv zeta
  | |- quiet _ => solve [eauto with quiet]
  end.
Ltac quiet_solve := repeat quiet_step.
