(* ===== verification/Conditions.v ===== *)
(** * Step conditions

    [evaluate_condition] and its helpers of [web/ts_engine_pg.py]: the
    conditions on steps, which decide when a run is created which of its steps
    are skipped.  A condition is any JSON value: what Python does with malformed
    ones (iterating a string, testing membership in a list, unpacking a pair) is
    modelled as it happens. *)

From stdpp Require Import base gmap list strings pretty sorting.
From Stdlib Require Import ZArith Lia Ascii.
From S2P Require Import Prelude Json.

(** ** What Python does with a value it takes for a dictionary or a list *)

Fixpoint chars (s : string) : list json :=
  match s with
  | EmptyString => []
  | String c s => JStr (String c EmptyString) :: chars s
  end.

(** [list(j)] *)
Definition py_iter (j : json) : outcome (list json) :=
  match j with
  | JArr l => Ret l
  | JObj o => Ret (JStr <$> o.*1)
  | JStr s => Ret (chars s)
  | _ => Exc TypeError
  end.

(** [k in j] *)
Definition py_in (k : string) (j : json) : outcome bool :=
  match j with
  | JObj o => Ret (bool_decide (k ∈ o.*1))
  | JArr l => Ret (existsb (py_eq (JStr k)) l)
  | JStr s => Ret (PyStr.contains k s)
  | _ => Exc TypeError
  end.

(** [j[k]] *)
Definition py_index (k : string) (j : json) : outcome json :=
  match j with
  | JObj o => match assoc k o with Some v => Ret v | None => Exc (KeyError k) end
  | _ => Exc TypeError
  end.

(** ** The evaluator *)

Fixpoint resolve_parts (current : json) (parts : list string) : json :=
  match parts with
  | [] => current
  | part :: parts =>
      match current with
      | JObj o => match assoc part o with
                  | Some v => resolve_parts v parts
                  | None => JNull
                  end
      | _ => JNull
      end
  end.

(** [_resolve_path]: [None] is [JNull]; a path that is no string has no [split]. *)
Definition resolve_path (context path : json) : outcome (json * string) :=
  match path with
  | JStr p => Ret (resolve_parts context (PyStr.split "."%char p), p)
  | _ => Exc AttributeError
  end.

(** [path, expected = j] *)
Definition unpack_pair (j : json) : outcome (json * json) :=
  items ← py_iter j;
  match items with
  | [a; b] => Ret (a, b)
  | _ => Exc (ValueError "unpack")
  end.

Definition recursion_error : exc :=
  CustomError "RecursionError" "maximum recursion depth exceeded".

(** The text of the condition in the last error message is not modelled. *)
Fixpoint eval_condition_fuel (fuel : nat) (condition context : json)
    : outcome (bool * string) :=
  match fuel with
  | O => Exc recursion_error
  | S fuel =>
    if negb (truthy condition) then Ret (true, "empty") else
    in_all ← py_in "all" condition;
    if in_all : bool then
      cs ← py_index "all" condition; children ← py_iter cs;
      results ← omapM (λ child, eval_condition_fuel fuel child context) children;
      Ret (forallb fst results, "all") else
    in_any ← py_in "any" condition;
    if in_any : bool then
      cs ← py_index "any" condition; children ← py_iter cs;
      results ← omapM (λ child, eval_condition_fuel fuel child context) children;
      Ret (existsb fst results, "any") else
    in_not ← py_in "not" condition;
    if in_not : bool then
      child ← py_index "not" condition;
      result ← eval_condition_fuel fuel child context;
      Ret (negb result.1, "not") else
    in_exists ← py_in "exists" condition;
    if in_exists : bool then
      path ← py_index "exists" condition;
      found ← resolve_path context path;
      Ret (bool_decide (found.1 ≠ JNull), "exists:" +:+ found.2) else
    in_eq ← py_in "eq" condition;
    if in_eq : bool then
      pair ← py_index "eq" condition; args ← unpack_pair pair;
      found ← resolve_path context args.1;
      Ret (py_eq found.1 args.2, "eq:" +:+ found.2) else
    in_ne ← py_in "ne" condition;
    if in_ne : bool then
      pair ← py_index "ne" condition; args ← unpack_pair pair;
      found ← resolve_path context args.1;
      Ret (negb (py_eq found.1 args.2), "ne:" +:+ found.2) else
    Exc (ValueError "unsupported condition")
  end.

(** How deep a value is nested: the recursion depth its evaluation needs. *)
Fixpoint depth (j : json) : nat :=
  match j with
  | JArr l => S (max_list (depth <$> l))
  | JObj o => S (max_list ((λ kv, depth kv.2) <$> o))
  | _ => 1
  end.

Definition eval_condition (condition context : json) : outcome (bool * string) :=
  eval_condition_fuel (depth condition) condition context.

(** [evaluate_condition(condition, variables=variables, target=target)] returns
    the pair of the fields [matched] and [reason]. *)
Definition evaluate_condition (condition variables target : json) : outcome (bool * string) :=
  eval_condition (jor condition (JObj []))
    (JObj [("variables", jor variables (JObj [])); ("target", jor target (JObj []))]).

(** ** The fuel is enough *)

Lemma depth_pos j : (1 ≤ depth j)%nat.
Proof. destruct j; simpl; lia. Qed.

Lemma max_list_elem (x : nat) l : x ∈ l → (x ≤ max_list l)%nat.
Proof. induction l; set_solver by lia. Qed.

Lemma py_index_depth k c v : py_index k c = Ret v → (depth v < depth c)%nat.
Proof.
  destruct c as [| | | | |o]; simpl; try done. destruct (assoc k o) as [w|] eqn:E; [|done].
  intros [= ->]. apply assoc_elem in E.
  assert (depth v ≤ max_list ((λ kv, depth kv.2) <$> o))%nat; [|lia].
  apply max_list_elem, list_elem_of_fmap. by exists (k, v).
Qed.

Lemma chars_depth s x : x ∈ chars s → depth x = 1.
Proof. induction s; simpl; [set_solver|]. intros [->|?]%elem_of_cons; eauto. Qed.

Lemma py_iter_depth v l x : py_iter v = Ret l → x ∈ l → (depth x ≤ depth v)%nat.
Proof.
  destruct v as [| | |s|l'|o]; simpl; try done; intros [= <-] Hx.
  - by rewrite (chars_depth s x Hx).
  - pose proof (max_list_elem (depth x) (depth <$> l')) as Hm.
    rewrite list_elem_of_fmap in Hm. assert (depth x ≤ max_list (depth <$> l'))%nat; [|lia].
    apply Hm. eauto.
  - apply list_elem_of_fmap in Hx as (k & -> & _). simpl. lia.
Qed.

Lemma omapM_ext {A B} (f g : A → outcome B) l :
  (∀ x, x ∈ l → f x = g x) → omapM f l = omapM g l.
Proof.
  induction l as [|x l IH]; intros H; simpl; [done|].
  rewrite (H x) by set_solver. by rewrite IH by set_solver.
Qed.

Lemma bind_ext {A B} (m : outcome A) (f g : A → outcome B) :
  (∀ a, m = Ret a → f a = g a) → m ≫= f = m ≫= g.
Proof. destruct m as [a|e]; simpl; auto. Qed.

(** More fuel than the depth of the condition changes nothing. *)
Lemma eval_condition_fuel_mono n m c ctx :
  (depth c ≤ n)%nat → (n ≤ m)%nat → eval_condition_fuel n c ctx = eval_condition_fuel m c ctx.
Proof.
  revert m c. induction n as [|n IH]; intros m c Hd Hnm; [pose proof (depth_pos c); lia|].
  destruct m as [|m]; [lia|]. simpl. destruct (truthy c); simpl; [|done].
  assert (∀ k, (cs ← py_index k c; children ← py_iter cs;
      omapM (λ child, eval_condition_fuel n child ctx) children) =
      (cs ← py_index k c; children ← py_iter cs;
      omapM (λ child, eval_condition_fuel m child ctx) children)) as Hch.
  { intros k. apply bind_ext. intros v Hv. apply bind_ext. intros l Hl.
    apply omapM_ext. intros x Hx. apply IH; [|lia].
    pose proof (py_index_depth _ _ _ Hv). pose proof (py_iter_depth _ _ _ Hl Hx). lia. }
  apply bind_ext. intros [] _.
  { specialize (Hch "all"). destruct (py_index "all" c); simpl in *; [|done].
    destruct (py_iter a); simpl in *; [|done]. by rewrite Hch. }
  apply bind_ext. intros [] _.
  { specialize (Hch "any"). destruct (py_index "any" c); simpl in *; [|done].
    destruct (py_iter a); simpl in *; [|done]. by rewrite Hch. }
  apply bind_ext. intros [] _; [|done].
  apply bind_ext. intros v Hv. pose proof (py_index_depth _ _ _ Hv).
  by rewrite (IH m) by lia.
Qed.

(** ** The condition language

    The conditions of the dialect the code evaluates, their JSON form and what they mean.
    Note that one object may carry further keys; here each carries exactly its operator. *)

Inductive cond : Type :=
| CTrue
| CAll (cs : list cond)
| CAny (cs : list cond)
| CNot (c : cond)
| CExists (path : string)
| CEq (path : string) (expected : json)
| CNe (path : string) (expected : json).

Section cond_induction.
Variable P : cond → Prop.
Hypothesis HTrue : P CTrue.
Hypothesis HAll : ∀ cs, Forall P cs → P (CAll cs).
Hypothesis HAny : ∀ cs, Forall P cs → P (CAny cs).
Hypothesis HNot : ∀ c, P c → P (CNot c).
Hypothesis HExists : ∀ p, P (CExists p).
Hypothesis HEq : ∀ p e, P (CEq p e).
Hypothesis HNe : ∀ p e, P (CNe p e).

Fixpoint cond_nested_ind (c : cond) : P c :=
  let all := fix all (cs : list cond) : Forall P cs :=
    match cs with
    | [] => List.Forall_nil _
    | c :: cs => @List.Forall_cons _ _ c cs (cond_nested_ind c) (all cs)
    end in
  match c with
  | CTrue => HTrue
  | CAll cs => HAll cs (all cs)
  | CAny cs => HAny cs (all cs)
  | CNot c => HNot c (cond_nested_ind c)
  | CExists p => HExists p
  | CEq p e => HEq p e
  | CNe p e => HNe p e
  end.
End cond_induction.

Fixpoint encode_cond (c : cond) : json :=
  match c with
  | CTrue => JObj []
  | CAll cs => JObj [("all", JArr (encode_cond <$> cs))]
  | CAny cs => JObj [("any", JArr (encode_cond <$> cs))]
  | CNot c => JObj [("not", encode_cond c)]
  | CExists p => JObj [("exists", JStr p)]
  | CEq p e => JObj [("eq", JArr [JStr p; e])]
  | CNe p e => JObj [("ne", JArr [JStr p; e])]
  end.

(** A path names the keys it goes through, with dots between them. *)
Definition names (p : string) (ks : list string) : Prop :=
  ks ≠ [] ∧ PyStr.join "." ks = p ∧ Forall (λ k, "."%char ∉ String.list_ascii_of_string k) ks.

(** From a value the keys lead to a value inside of it. *)
Inductive leads : json → list string → json → Prop :=
| leads_here v : leads v [] v
| leads_in o k v ks w : (k, v) ∈ o → leads v ks w → leads (JObj o) (k :: ks) w.

Definition at_path (ctx : json) (p : string) (v : json) : Prop :=
  ∃ ks, names p ks ∧ leads ctx ks v.

(** [True] and [False] are numbers. *)
Inductive number : json → Z → Prop :=
| number_int z : number (JInt z) z
| number_true : number (JBool true) 1
| number_false : number (JBool false) 0.

(** Two values are the same when they are the same number, text or [None], lists of the same
    values, or dictionaries that have the same keys with the same values. *)
Inductive same : json → json → Prop :=
| same_null : same JNull JNull
| same_number a b n : number a n → number b n → same a b
| same_text s : same (JStr s) (JStr s)
| same_list l l' : Forall2 same l l' → same (JArr l) (JArr l')
| same_dict o o' :
    (∀ k, k ∈ o.*1 ↔ k ∈ o'.*1) →
    (∀ k v v', (k, v) ∈ o → (k, v') ∈ o' → same v v') → same (JObj o) (JObj o').

(** The value at the path is the one that is given; where there is none, [None] is. *)
Definition value_is (ctx : json) (p : string) (e : json) : Prop :=
  (∃ v, at_path ctx p v ∧ same v e) ∨ ((∀ v, ¬ at_path ctx p v) ∧ e = JNull).

Fixpoint holds (ctx : json) (c : cond) : Prop :=
  match c with
  | CTrue => True
  | CAll cs => foldr (λ c P, holds ctx c ∧ P) True cs
  | CAny cs => foldr (λ c P, holds ctx c ∨ P) False cs
  | CNot c => ¬ holds ctx c
  | CExists p => ∃ v, at_path ctx p v ∧ v ≠ JNull
  | CEq p e => value_is ctx p e
  | CNe p e => ¬ value_is ctx p e
  end.

(** *** Deciding it *)

Definition value_at (ctx : json) (p : string) : json :=
  resolve_parts ctx (PyStr.split "."%char p).

Fixpoint holdsb (ctx : json) (c : cond) : bool :=
  match c with
  | CTrue => true
  | CAll cs => forallb (holdsb ctx) cs
  | CAny cs => existsb (holdsb ctx) cs
  | CNot c => negb (holdsb ctx c)
  | CExists p => bool_decide (value_at ctx p ≠ JNull)
  | CEq p e => py_eq (value_at ctx p) e
  | CNe p e => negb (py_eq (value_at ctx p) e)
  end.

Lemma split_names p : names p (PyStr.split "."%char p).
Proof.
  split; [apply PyStr.split_not_nil|]. induction p as [|c p [IHj IHd]]; [split; [done|]; repeat constructor; set_solver|].
  simpl. case_decide as Hc.
  - subst c. split; [|constructor; [set_solver|done]]. pose proof (PyStr.split_not_nil "."%char p).
    destruct (PyStr.split "."%char p); [done|]. simpl. by rewrite <- IHj.
  - destruct (PyStr.split "."%char p) as [|w ws] eqn:E; [by destruct (PyStr.split_not_nil "."%char p)|].
    apply Forall_cons in IHd as [Hw Hws]. split; [by rewrite <- IHj; destruct ws|].
    constructor; [|done]. simpl. set_solver.
Qed.

Lemma split_dotless k : "."%char ∉ String.list_ascii_of_string k → PyStr.split "."%char k = [k].
Proof.
  induction k as [|c k IH]; simpl; [done|]. intros [Hc Hk]%not_elem_of_cons.
  rewrite decide_False by congruence. by rewrite IH.
Qed.

Lemma split_dotted k p :
  "."%char ∉ String.list_ascii_of_string k →
  PyStr.split "."%char (k +:+ "." +:+ p) = k :: PyStr.split "."%char p.
Proof.
  induction k as [|c k IH]; simpl; [done|]. intros [Hc Hk]%not_elem_of_cons.
  rewrite decide_False by congruence. by rewrite IH.
Qed.

(** There is one way to read a path. *)
Lemma names_split p ks : names p ks → ks = PyStr.split "."%char p.
Proof.
  intros (Hne & <- & Hd). induction Hd as [|k ks Hk Hd IH]; [done|].
  destruct ks as [|k' ks]; simpl.
  - by rewrite split_dotless.
  - rewrite split_dotted by done. f_equal. by apply IH.
Qed.

(** What the keys lead to in a value Python can build. *)
Lemma leads_resolve v ks : wf_json v →
  (∃ w, leads v ks w ∧ resolve_parts v ks = w ∧ wf_json w ∧ ∀ w', leads v ks w' → w' = w) ∨
  (∀ w, ¬ leads v ks w) ∧ resolve_parts v ks = JNull.
Proof.
  revert v. induction ks as [|k ks IH]; intros v Hv; simpl.
  { left. exists v. split; [constructor|]. split; [done|]. split; [done|]. intros w Hw. by inversion Hw. }
  destruct v as [| | | | |o]; try (right; split; [by intros w Hw; inversion Hw|done]).
  inversion_clear Hv as [| | | | |? Hnd Ho].
  destruct (assoc k o) as [v|] eqn:E.
  - apply assoc_elem in E as Hin. rewrite Forall_forall in Ho. specialize (Ho _ Hin). simpl in Ho.
    assert (∀ v', (k, v') ∈ o → v' = v) as Huniq.
    { intros v' Hin'. apply (assoc_NoDup k o v' Hnd) in Hin'. congruence. }
    destruct (IH v Ho) as [(w & Hw & Hr & Hwf & Hu)|[Hno Hr]].
    + left. exists w. split; [by eapply leads_in|]. split; [done|]. split; [done|].
      intros w' Hw'. inversion Hw' as [|o' k' v' ks' w0 Hin' Hl]; subst. apply Hu. by rewrite <- (Huniq v' Hin').
    + right. split; [|done]. intros w Hw. inversion Hw as [|o' k' v' ks' w0 Hin' Hl]; subst.
      apply (Hno w). by rewrite <- (Huniq v' Hin').
  - right. split; [|done]. intros w Hw. inversion Hw as [|o' k' v' ks' w0 Hin' Hl]; subst.
    apply assoc_None in E. apply E, list_elem_of_fmap. by exists (k, v').
Qed.

Lemma value_at_spec ctx p : wf_json ctx →
  (∃ w, at_path ctx p w ∧ value_at ctx p = w ∧ wf_json w ∧ ∀ w', at_path ctx p w' → w' = w) ∨
  (∀ w, ¬ at_path ctx p w) ∧ value_at ctx p = JNull.
Proof.
  intros Hc. unfold value_at, at_path.
  destruct (leads_resolve ctx (PyStr.split "."%char p) Hc) as [(w & Hw & Hr & Hwf & Hu)|[Hno Hr]].
  - left. exists w. split; [exists (PyStr.split "."%char p); split; [apply split_names|done]|]. split; [done|].
    split; [done|]. intros w' (ks & ->%names_split & Hl). by apply Hu.
  - right. split; [|done]. intros w (ks & ->%names_split & Hl). by apply (Hno w).
Qed.

(** *** Equality *)

Lemma py_eq_dict o o' :
  (fix go (o : list (string * json)) : bool :=
     match o with
     | [] => true
     | kv :: o => match assoc kv.1 o' with Some w => py_eq kv.2 w && go o | None => false end
     end) o = true ↔ Forall (λ kv, ∃ w, assoc kv.1 o' = Some w ∧ py_eq kv.2 w = true) o.
Proof.
  induction o as [|kv o IH]; [by split|]. rewrite Forall_cons, <- IH.
  destruct (assoc kv.1 o') as [w|]; [rewrite andb_true_iff|]; naive_solver.
Qed.

Lemma py_eq_list l l' :
  (fix go (l l' : list json) : bool :=
     match l, l' with
     | [], [] => true
     | x :: l, y :: l' => py_eq x y && go l l'
     | _, _ => false
     end) l l' = true ↔ Forall2 (λ x y, py_eq x y = true) l l'.
Proof.
  revert l'. induction l as [|x l IH]; intros [|y l'];
    try (split; [done|intros Hl; inversion Hl]); [by split|].
  rewrite andb_true_iff, IH. split; [intros []; by constructor|intros Hl; by inversion Hl].
Qed.

Lemma number_py_eq a b n : number a n → py_eq a b = true ↔ number b n.
Proof.
  intros Ha. split.
  - destruct Ha, b as [|[]|z'| | |]; cbn [py_eq b2z Bool.eqb]; intros He;
      try (apply Z.eqb_eq in He; subst); first [discriminate | constructor].
  - intros Hb. destruct Ha; inversion Hb; subst; simpl; try done; apply Z.eqb_refl.
Qed.

Lemma same_number_iff a b n : number a n → same a b ↔ number b n.
Proof.
  intros Ha. split; [|by apply same_number]. intros Hs.
  inversion Hs as [|? ? m Hm Hb| | |]; subst; try by inversion Ha.
  by assert (m = n) as -> by (inversion Ha; inversion Hm; congruence).
Qed.

(** Two lists without repetitions that are equally long: one in the other, the other in the
    one. *)
Lemma same_keys (ks ks' : list string) :
  NoDup ks → length ks = length ks' → ks ⊆ ks' → ∀ k, k ∈ ks ↔ k ∈ ks'.
Proof.
  intros Hnd Hlen Hsub. assert (ks ≡ₚ ks') as Hp; [|intros k; by rewrite Hp].
  apply submseteq_length_Permutation; [by apply NoDup_submseteq|lia].
Qed.

Lemma keys_length (o o' : list (string * json)) :
  NoDup o.*1 → NoDup o'.*1 → (∀ k, k ∈ o.*1 ↔ k ∈ o'.*1) → length o = length o'.
Proof.
  intros Hnd Hnd' Hk. rewrite <- (length_fmap fst o), <- (length_fmap fst o').
  apply Permutation_length, NoDup_Permutation; done.
Qed.

(** On the values Python can build, [==] decides sameness. *)
Lemma py_eq_same a b : wf_json a → wf_json b → py_eq a b = true ↔ same a b.
Proof.
  revert b. induction a as [|x|z|s|l IH|o IH] using json_nested_ind; intros b Ha Hb.
  - split; [by destruct b; simpl; intros; try done; constructor|]. intros Hs. inversion Hs; subst; [done|].
    by match goal with H : number JNull _ |- _ => inversion H end.
  - assert (number (JBool x) (b2z x)) as Hx by (destruct x; constructor).
    by rewrite (number_py_eq _ _ _ Hx), (same_number_iff _ _ _ Hx).
  - rewrite (number_py_eq _ _ z), (same_number_iff _ _ z) by constructor. done.
  - split; [destruct b; simpl; intros Hs; try done; apply bool_decide_eq_true in Hs as ->; constructor|].
    intros Hs. inversion Hs as [|? ? ? Hn| | |]; subst; [by inversion Hn|]. simpl. by apply bool_decide_eq_true.
  - inversion_clear Ha as [| | | |? Hl|].
    destruct b as [| | | |l'|]; try (split; [done|]; intros Hs; inversion Hs as [|? ? ? Hn| | |]; subst; by inversion Hn).
    inversion_clear Hb as [| | | |? Hl'|]. cbn [py_eq]. rewrite py_eq_list.
    assert (Forall2 (λ x y, py_eq x y = true) l l' ↔ Forall2 same l l') as ->.
    { clear -IH Hl Hl'. revert l' Hl'. induction IH as [|x l Hx _ IHl]; intros [|y l'] Hl';
        try (split; intros Hf; by inversion Hf || constructor).
      apply Forall_cons in Hl as [Hwx Hl], Hl' as [Hwy Hl'].
      rewrite !Forall2_cons. by rewrite Hx, IHl. }
    split; [by constructor|]. intros Hs. inversion Hs as [|? ? ? Hn| | |]; subst; [by inversion Hn|done].
  - inversion_clear Ha as [| | | | |? Hnd Ho].
    destruct b as [| | | | |o']; try (split; [done|]; intros Hs; inversion Hs as [|? ? ? Hn| | |]; subst; by inversion Hn).
    inversion_clear Hb as [| | | | |? Hnd' Ho']. cbn [py_eq].
    rewrite andb_true_iff, Nat.eqb_eq, py_eq_dict. rewrite Forall_forall in IH, Ho, Ho'.
    split.
    + intros [Hlen Hall]. rewrite Forall_forall in Hall.
      constructor.
      * apply same_keys; [done|by rewrite !length_fmap|]. intros k Hk.
        apply list_elem_of_fmap in Hk as ([k0 v] & -> & Hin). simpl.
        destruct (Hall _ Hin) as (w & Hw%assoc_elem & _). apply list_elem_of_fmap. by eexists (_, _).
      * intros k v v' Hin Hin'. apply (IH _ Hin); [by apply (Ho _ Hin)|by apply (Ho' _ Hin')|].
        destruct (Hall _ Hin) as (w & Hw & He). simpl in *.
        rewrite (assoc_NoDup _ _ _ Hnd' Hin') in Hw. congruence.
    + intros Hs. inversion Hs as [|? ? ? Hn| | |? ? Hk Hv]; subst; [by inversion Hn|].
      split; [by apply keys_length|]. rewrite Forall_forall. intros [k v] Hin. simpl.
      assert (k ∈ o'.*1) as ([k0 v'] & Heq & Hin')%list_elem_of_fmap.
      { apply Hk, list_elem_of_fmap. by exists (k, v). }
      simpl in Heq. subst k0. exists v'. split; [by apply assoc_NoDup|].
      apply (IH _ Hin); [by apply (Ho _ Hin)|by apply (Ho' _ Hin')|]. by apply (Hv k).
Qed.

(** The value at the path is decided by [==] on what the code finds there. *)
Lemma value_is_spec ctx p e :
  wf_json ctx → wf_json e → py_eq (value_at ctx p) e = true ↔ value_is ctx p e.
Proof.
  intros Hc He. unfold value_is.
  destruct (value_at_spec ctx p Hc) as [(w & Hw & -> & Hwf & Hu)|[Hno ->]].
  - rewrite py_eq_same by done. split; [by left; eauto|].
    intros [(v & Hv & Hs)|[Hno _]]; [by rewrite <- (Hu v Hv)|by destruct (Hno w)].
  - split.
    + intros Hn. right. split; [done|]. by destruct e.
    + intros [(v & Hv & _)|[_ ->]]; [by destruct (Hno v)|done].
Qed.

Lemma holdsb_spec ctx c :
  wf_json ctx → wf_json (encode_cond c) → holdsb ctx c = true ↔ holds ctx c.
Proof.
  intros Hc. induction c as [|cs IH|cs IH|c IH|p|p e|p e] using cond_nested_ind;
    cbn [encode_cond holdsb holds]; intros Hw; inversion_clear Hw as [| | | | |? _ Hv];
    try (apply Forall_cons in Hv as [Hv _]; cbn [snd] in Hv).
  - done.
  - inversion_clear Hv as [| | | |? Hl|]. apply Forall_fmap in Hl.
    induction cs as [|c cs IHcs]; [done|]. apply Forall_cons in IH as [Hx IH], Hl as [Hwx Hl].
    cbn [forallb foldr]. by rewrite andb_true_iff, Hx, IHcs.
  - inversion_clear Hv as [| | | |? Hl|]. apply Forall_fmap in Hl.
    induction cs as [|c cs IHcs]; [done|]. apply Forall_cons in IH as [Hx IH], Hl as [Hwx Hl].
    cbn [existsb foldr]. by rewrite orb_true_iff, Hx, IHcs.
  - rewrite negb_true_iff, <- IH by done. by rewrite not_true_iff_false.
  - rewrite bool_decide_eq_true.
    destruct (value_at_spec ctx p Hc) as [(w & Hp & -> & _ & Hu)|[Hno ->]].
    + split; [by eauto|]. intros (v & Hp' & Hv'). by rewrite <- (Hu v Hp').
    + split; [done|]. intros (v & Hp' & _). by destruct (Hno v).
  - inversion_clear Hv as [| | | |? Hl|]. apply Forall_cons in Hl as [_ [He _]%Forall_cons].
    by apply value_is_spec.
  - inversion_clear Hv as [| | | |? Hl|]. apply Forall_cons in Hl as [_ [He _]%Forall_cons].
    by rewrite negb_true_iff, <- not_true_iff_false, value_is_spec.
Qed.

Definition reason (c : cond) : string :=
  match c with
  | CTrue => "empty" | CAll _ => "all" | CAny _ => "any" | CNot _ => "not"
  | CExists p => "exists:" +:+ p | CEq p _ => "eq:" +:+ p | CNe p _ => "ne:" +:+ p
  end.

(** The context [evaluate_condition] builds from the run's variables and its
    deployment target. *)
Definition context_of (variables target : json) : json :=
  JObj [("variables", jor variables (JObj [])); ("target", jor target (JObj []))].

Lemma wf_context_of variables target :
  wf_json variables → wf_json target → wf_json (context_of variables target).
Proof.
  intros Hv Ht. constructor; [by apply (bool_decide_unpack _); vm_compute|].
  assert (∀ j, wf_json j → wf_json (jor j (JObj []))) as Hj.
  { intros j Hj. unfold jor. case_match; [done|]. by repeat constructor. }
  repeat constructor; by apply Hj.
Qed.

Lemma omapM_encoded (f : json → outcome (bool * string)) (ctx : json) cs :
  (∀ c, c ∈ cs → f (encode_cond c) = Ret (holdsb ctx c, reason c)) →
  omapM f (encode_cond <$> cs) = Ret ((λ c, (holdsb ctx c, reason c)) <$> cs).
Proof.
  intros H. apply omapM_Forall2. apply Forall2_fmap.
  apply Forall_Forall2_diag, Forall_forall. exact H.
Qed.

Lemma forallb_fst_fmap {A} (f : A → bool) (g : A → string) l :
  forallb fst ((λ a, (f a, g a)) <$> l) = forallb f l.
Proof. induction l as [|a l IH]; [done|]. csimpl. by rewrite IH. Qed.

Lemma existsb_fst_fmap {A} (f : A → bool) (g : A → string) l :
  existsb fst ((λ a, (f a, g a)) <$> l) = existsb f l.
Proof. induction l as [|a l IH]; [done|]. csimpl. by rewrite IH. Qed.

Lemma depth_encoded_child c cs :
  c ∈ cs → (depth (encode_cond c) ≤ max_list (depth <$> (encode_cond <$> cs)))%nat.
Proof. intros Hc. apply max_list_elem. set_solver. Qed.

Lemma eval_encoded n ctx c :
  (depth (encode_cond c) ≤ n)%nat →
  eval_condition_fuel n (encode_cond c) ctx = Ret (holdsb ctx c, reason c).
Proof.
  revert n. induction c as [|cs IH|cs IH|c IH|p|p e|p e] using cond_nested_ind;
    intros [|n] Hd; simpl in Hd; try lia; try reflexivity.
  - simpl. rewrite (omapM_encoded _ ctx).
    + simpl. by rewrite forallb_fst_fmap.
    + intros c Hc. rewrite Forall_forall in IH. apply IH; [done|].
      pose proof (depth_encoded_child c cs Hc). lia.
  - simpl. rewrite (omapM_encoded _ ctx).
    + simpl. by rewrite existsb_fst_fmap.
    + intros c Hc. rewrite Forall_forall in IH. apply IH; [done|].
      pose proof (depth_encoded_child c cs Hc). lia.
  - simpl. rewrite IH by lia. done.
Qed.

(** ** Running out of fuel *)

Definition no_recursion_error {A} (o : outcome A) : Prop := o ≠ Exc recursion_error.

Lemma no_recursion_error_bind {A B} (m : outcome A) (f : A → outcome B) :
  no_recursion_error m → (∀ a, m = Ret a → no_recursion_error (f a)) →
  no_recursion_error (m ≫= f).
Proof.
  unfold no_recursion_error. destruct m as [a|e]; simpl; intros Hm Hf.
  - by apply Hf.
  - intros [= ->]. by apply Hm.
Qed.

Lemma no_recursion_error_omapM {A B} (f : A → outcome B) l :
  (∀ x, x ∈ l → no_recursion_error (f x)) → no_recursion_error (omapM f l).
Proof.
  induction l as [|x l IH]; intros Hf; [done|]. simpl.
  apply no_recursion_error_bind; [apply Hf; set_solver|]. intros y _.
  apply no_recursion_error_bind; [apply IH; set_solver|done].
Qed.

Lemma no_recursion_error_py_in k j : no_recursion_error (py_in k j).
Proof. by destruct j. Qed.
Lemma no_recursion_error_py_iter j : no_recursion_error (py_iter j).
Proof. by destruct j. Qed.
Lemma no_recursion_error_py_index k j : no_recursion_error (py_index k j).
Proof. destruct j; simpl; try done. by case_match. Qed.
Lemma no_recursion_error_resolve_path ctx p : no_recursion_error (resolve_path ctx p).
Proof. by destruct p. Qed.
Lemma no_recursion_error_unpack_pair j : no_recursion_error (unpack_pair j).
Proof.
  apply no_recursion_error_bind; [apply no_recursion_error_py_iter|].
  intros l _. repeat case_match; done.
Qed.

Create HintDb conditions.
#[export] Hint Resolve no_recursion_error_bind no_recursion_error_py_in
  no_recursion_error_py_iter no_recursion_error_py_index no_recursion_error_resolve_path
  no_recursion_error_unpack_pair : conditions.

Lemma eval_condition_fuel_enough n c ctx :
  (depth c ≤ n)%nat → no_recursion_error (eval_condition_fuel n c ctx).
Proof.
  revert c. induction n as [|n IH]; intros c Hd; [pose proof (depth_pos c); lia|].
  simpl. destruct (truthy c); simpl; [|done].
  assert (∀ k v l, py_index k c = Ret v → py_iter v = Ret l →
    no_recursion_error (omapM (λ child, eval_condition_fuel n child ctx) l)) as Hch.
  { intros k v l Hv Hl. apply no_recursion_error_omapM. intros x Hx. apply IH.
    pose proof (py_index_depth _ _ _ Hv). pose proof (py_iter_depth _ _ _ Hl Hx). lia. }
  assert (∀ k v, py_index k c = Ret v → no_recursion_error (eval_condition_fuel n v ctx)) as Hc.
  { intros k v Hv. apply IH. pose proof (py_index_depth _ _ _ Hv). lia. }
  repeat (apply no_recursion_error_bind; [by eauto with conditions|intros [] ?]);
    repeat (apply no_recursion_error_bind; [by eauto with conditions|intros ??]);
    done.
Qed.

(** ** Properties *)

(** C39. The evaluator implements the dialect: on the JSON form of a condition of the dialect
    ([all], [any], [not], [exists], [eq], [ne]) it returns whether the condition holds in the
    run's variables and deployment target, and the reason that names the outermost operator.
    What holds is said of the values themselves: a path leads through the keys it names, a
    value is the same as another when they are the same number, text, list or dictionary
    whatever the order of the keys. *)
Theorem evaluate_condition_correct (c : cond) (variables target : json) :
  wf_json variables → wf_json target → wf_json (encode_cond c) →
  ∃ b, evaluate_condition (encode_cond c) variables target = Ret (b, reason c) ∧
       (b = true ↔ holds (context_of variables target) c).
Proof.
  intros Hv Ht Hc. exists (holdsb (context_of variables target) c). split.
  - unfold evaluate_condition, eval_condition, context_of.
    assert (jor (encode_cond c) (JObj []) = encode_cond c) as -> by by destruct c.
    by apply eval_encoded.
  - apply holdsb_spec; [by apply wf_context_of|done].
Qed.

Lemma evaluate_condition_correct_witness :
  let variables := JObj [("os", JObj [("build", JInt 26100); ("cloud", JBool true)])] in
  let target := JObj [("tags", JArr [JStr "lab"; JObj [("a", JInt 1); ("b", JNull)]])] in
  let c := CAll [CEq "variables.os.cloud" (JInt 1); CNot (CExists "variables.os.edition");
                 CEq "target.tags" (JArr [JStr "lab"; JObj [("b", JNull); ("a", JInt 1)]])] in
  wf_json variables ∧ wf_json target ∧ wf_json (encode_cond c) ∧
  (∃ b, evaluate_condition (encode_cond c) variables target = Ret (b, reason c) ∧
        (b = true ↔ holds (context_of variables target) c)) ∧
  evaluate_condition (encode_cond c) variables target = Ret (true, "all").
Proof.
  intros variables target c.
  assert (wf_json variables) as Hv by by apply wf_jsonb_wf.
  assert (wf_json target) as Ht by by apply wf_jsonb_wf.
  assert (wf_json (encode_cond c)) as Hc by by apply wf_jsonb_wf.
  split; [done|]. split; [done|]. split; [done|]. split; [|by vm_compute].
  exact (evaluate_condition_correct c variables target Hv Ht Hc).
Defined.

(** The dialect is another than the one the design document calls Condition Model v1, whose
    conditions have the keys [op], [left], [right] and [items]: the evaluator refuses them. *)
Example documented_condition_refused :
  evaluate_condition
    (JObj [("op", JStr "eq"); ("left", JStr "agent.phase"); ("right", JStr "winpe")])
    (JObj []) (JObj []) = Exc (ValueError "unsupported condition").
Proof. vm_compute. reflexivity. Qed.

(** The recursion of [_eval_condition] ends on every JSON value: a recursion
    bound at or above the nesting depth of the condition is never exhausted, and
    all such bounds give the same answer. *)
Theorem evaluate_condition_total (n : nat) (condition context : json) :
  (depth condition ≤ n)%nat →
  eval_condition_fuel n condition context = eval_condition condition context ∧
  eval_condition_fuel n condition context ≠ Exc recursion_error.
Proof.
  intros H. split; [symmetry; by apply eval_condition_fuel_mono|].
  by apply eval_condition_fuel_enough.
Qed.

Lemma evaluate_condition_total_witness :
  (depth (encode_cond (CNot CTrue)) ≤ 9)%nat ∧
  (eval_condition_fuel 9 (encode_cond (CNot CTrue)) JNull =
   eval_condition (encode_cond (CNot CTrue)) JNull ∧
   eval_condition_fuel 9 (encode_cond (CNot CTrue)) JNull ≠ Exc recursion_error).
Proof.
  assert (depth (encode_cond (CNot CTrue)) ≤ 9)%nat as H by (vm_compute; lia).
  split; [exact H|]. apply (evaluate_condition_total 9 _ _ H).
Defined.
