(* ===== verification/Tree.v ===== *)
(** * Sequence trees

    [_compiled_tree] and [_flatten_steps] of [web/ts_engine_pg.py]: the nodes of
    a sequence in a canonical order, and the walk that turns the tree of groups
    and steps into the ordered plan of a run. *)

From stdpp Require Import base gmap list strings sorting.
From Stdlib Require Import ZArith Lia.
From S2P Require Import Prelude Json TsData.

(** ** [_compiled_tree] *)

Definition compile_node (row : string * node_row) : compiled_node :=
  let n := row.2 in
  CompiledNode row.1 (nd_parent_id n) (nd_position n) (nd_node_type n) (nd_name n)
    (nd_kind n) (nd_phase n) (nd_enabled n) (nd_condition n) (nd_variables n)
    (nd_params n) (nd_content_refs n) (nd_continue_on_error n) (nd_retry_count n)
    (nd_retry_delay_seconds n) (nd_timeout_seconds n) (nd_reboot_behavior n).

(** [key=lambda r: (str(r["parent_id"] or ""), r["position"], str(r["id"]))] *)
Definition compiled_order : string * node_row → string * node_row → comparison :=
  cmp_then (cmp_on (λ r, default EmptyString (nd_parent_id r.2)) cmp_str)
  (cmp_then (cmp_on (λ r, nd_position r.2) cmp_Z) (cmp_on fst cmp_str)).

Definition compiled_tree (rows : list (string * node_row)) : list compiled_node :=
  compile_node <$> isort compiled_order rows.

(** ** [_flatten_steps] *)

Record flat_step : Type := FlatStep {
  fs_source_node_id : string;
  fs_parent_source_node_id : option string;
  fs_ordinal : nat;
  fs_depth : nat;
  fs_path : string;
  fs_name : string;
  fs_kind : option string;
  fs_phase : string;
  fs_enabled : bool;
  fs_condition : json;
  fs_variables : json;
  fs_params : json;
  fs_resolved_params : json;
  fs_content_refs : list string;
  fs_continue_on_error : bool;
  fs_retry_count : Z;
  fs_retry_delay_seconds : Z;
  fs_timeout_seconds : option Z;
  fs_reboot_behavior : string
}.

(** [key=lambda n: (n["position"], n["name"], n["id"])] *)
Definition sibling_order : compiled_node → compiled_node → comparison :=
  cmp_then (cmp_on cn_position cmp_Z)
  (cmp_then (cmp_on cn_name cmp_str) (cmp_on cn_id cmp_str)).

(** [children.get(parent_id, [])] after the sort of each list *)
Definition children (tree : list compiled_node) (parent_id : option string) :
    list compiled_node :=
  isort sibling_order (filter (λ n, cn_parent_id n = parent_id) tree).

Definition flat_step_of (n : compiled_node) (node_path : list string) (depth ordinal : nat) :
    flat_step :=
  FlatStep (cn_id n) (cn_parent_id n) ordinal depth (PyStr.join " / " node_path)
    (cn_name n) (cn_kind n) (cn_phase n) (cn_enabled n) (cn_condition n)
    (cn_variables n) (cn_params n) (cn_params n) (cn_content_refs n)
    (cn_continue_on_error n) (cn_retry_count n) (cn_retry_delay_seconds n)
    (cn_timeout_seconds n) (cn_reboot_behavior n).

(** A loop that carries an accumulator and may raise. *)
Fixpoint ofoldM {A B} (f : B → A → outcome B) (l : list A) (acc : B) : outcome B :=
  match l with
  | [] => Ret acc
  | x :: l => acc' ← f acc x; ofoldM f l acc'
  end.

Definition walk_recursion_error : exc :=
  CustomError "RecursionError" "maximum recursion depth exceeded".

Fixpoint walk (tree : list compiled_node) (fuel : nat) (parent_id : option string)
    (path_parts : list string) (depth : nat) (out : list flat_step) {struct fuel} :
    outcome (list flat_step) :=
  match fuel with
  | O => Exc walk_recursion_error
  | S fuel =>
      ofoldM (λ out n,
        let node_path := path_parts ++ [cn_name n] in
        match cn_node_type n with
        | Group => walk tree fuel (Some (cn_id n)) node_path (S depth) out
        | Step => Ret (out ++ [flat_step_of n node_path depth (length out)])
        end) (children tree parent_id) out
  end.

Definition flatten_steps (tree : list compiled_node) : outcome (list flat_step) :=
  walk tree (S (length tree)) None [] 0 [].

#[export] Typeclasses Opaque compiled_order sibling_order.

#[export] Instance compiled_order_ord : OrdCmp compiled_order.
Proof. unfold compiled_order. apply _. Qed.

#[export] Instance sibling_order_ord : OrdCmp sibling_order.
Proof. unfold sibling_order. apply _. Qed.

(** ** The compiled tree does not depend on the order of the rows *)

Lemma compiled_order_eq r1 r2 : compiled_order r1 r2 = Eq → r1.1 = r2.1.
Proof.
  unfold compiled_order, cmp_then, cmp_on, cmp_str, cmp_Z. intros H.
  repeat case_match; try done. by apply String.compare_eq_iff.
Qed.

Lemma elem_of_compiled_tree rows n :
  n ∈ compiled_tree rows ↔ ∃ row, row ∈ rows ∧ n = compile_node row.
Proof.
  unfold compiled_tree. rewrite list_elem_of_fmap.
  setoid_rewrite elem_of_isort. naive_solver.
Qed.

Lemma compiled_tree_ids rows : cn_id <$> compiled_tree rows ≡ₚ rows.*1.
Proof.
  unfold compiled_tree. rewrite <- list_fmap_compose, isort_perm. done.
Qed.

(** The compiled tree is a function of the set of node rows: whatever order
    the database returns them in, the tree is the same list, so the digest that
    identifies a version only changes when a node changes. *)
Theorem compiled_tree_deterministic (rows rows' : list (string * node_row)) :
  NoDup rows.*1 → rows ≡ₚ rows' → compiled_tree rows = compiled_tree rows'.
Proof.
  intros Hnd Hp. unfold compiled_tree.
  rewrite (isort_perm_eq compiled_order rows rows' Hp); [done|].
  intros r1 r2 H1 H2 Heq%compiled_order_eq.
  exact (NoDup_fmap_elem_inj fst rows r1 r2 Hnd H1 H2 Heq).
Qed.

(** ** Places in the tree

    [placed tree n chain]: the node [n] is reached from the root through the
    groups of [chain], which ends with [n] itself. *)

Inductive placed (tree : list compiled_node) : compiled_node → list compiled_node → Prop :=
| placed_root n :
    n ∈ tree → cn_parent_id n = None → placed tree n [n]
| placed_child n g chain :
    n ∈ tree → placed tree g chain → cn_node_type g = Group →
    cn_parent_id n = Some (cn_id g) → placed tree n (chain ++ [n]).

(** The order of the plan: at the first place where two chains part, the earlier
    sibling comes first. *)
Definition chain_before (c1 c2 : list compiled_node) : Prop :=
  ∃ pre a b s1 s2, c1 = pre ++ a :: s1 ∧ c2 = pre ++ b :: s2 ∧ sibling_order a b = Lt.

Section places.
Context (tree : list compiled_node).
Hypothesis ids_unique : NoDup (cn_id <$> tree).

Lemma same_id n m : n ∈ tree → m ∈ tree → cn_id n = cn_id m → n = m.
Proof. by apply NoDup_fmap_elem_inj. Qed.

Lemma placed_elem n chain : placed tree n chain → n ∈ tree.
Proof. by inversion 1. Qed.

Lemma placed_last n chain : placed tree n chain → last chain = Some n.
Proof. inversion 1; subst; [done|]. by rewrite last_snoc. Qed.

Lemma placed_unique n chain chain' :
  placed tree n chain → placed tree n chain' → chain = chain'.
Proof.
  intros H. revert chain'. induction H as [n Hn Hp|n g chain Hn Hg IH Ht Hp];
    intros chain'; inversion 1 as [? ? Hp'|? g' c' ? Hg' Ht' Hp']; subst; try congruence.
  f_equal. apply IH. rewrite (same_id g g'); [done|..];
    by (congruence || eauto using placed_elem).
Qed.

Lemma placed_prefix n pre a suf :
  placed tree n (pre ++ a :: suf) → placed tree a (pre ++ [a]).
Proof.
  remember (pre ++ a :: suf) as chain eqn:Hc. intros H. revert suf Hc.
  induction H as [n Hn Hp|n g chain Hn Hg IH Ht Hp]; intros suf Hc.
  - destruct pre as [|b pre]; simplify_eq/=; [by constructor|].
    by destruct pre.
  - destruct suf as [|b suf _] using rev_ind.
    + apply app_inj_tail in Hc as [-> ->]. by econstructor.
    + rewrite app_comm_cons, app_assoc in Hc. apply app_inj_tail in Hc as [-> ->].
      by apply (IH suf).
Qed.

Lemma placed_prefix_group n pre a suf :
  placed tree n (pre ++ a :: suf) → suf ≠ [] → cn_node_type a = Group.
Proof.
  remember (pre ++ a :: suf) as chain eqn:Hc. intros H. revert suf Hc.
  induction H as [n Hn Hp|n g chain Hn Hg IH Ht Hp]; intros suf Hc Hs.
  - destruct pre as [|b pre]; simplify_eq/=. by destruct pre.
  - destruct suf as [|b suf _] using rev_ind; [done|].
    rewrite app_comm_cons, app_assoc in Hc. apply app_inj_tail in Hc as [-> ->].
    destruct suf as [|b' suf'].
    + apply placed_last in Hg. rewrite last_snoc in Hg. by simplify_eq.
    + by apply (IH (b' :: suf')).
Qed.

Lemma placed_NoDup n chain : placed tree n chain → NoDup chain.
Proof.
  intros H. induction H as [n Hn Hp|n g chain Hn Hg IH Ht Hp]; [apply NoDup_singleton|].
  apply NoDup_app. split_and!; [done| |apply NoDup_singleton].
  intros m Hm Hmn. apply list_elem_of_singleton in Hmn as ->.
  apply list_elem_of_split in Hm as (pre & suf & ->).
  pose proof (placed_prefix _ _ _ _ Hg) as Hpre.
  assert (placed tree n ((pre ++ n :: suf) ++ [n])) as Hlong by by econstructor.
  pose proof (placed_unique _ _ _ Hpre Hlong) as Heq.
  apply (f_equal length) in Heq. rewrite !length_app in Heq. simpl in Heq. lia.
Qed.

Lemma placed_subset n chain : placed tree n chain → chain ⊆ tree.
Proof. induction 1; set_solver. Qed.

Lemma placed_length n chain : placed tree n chain → (length chain ≤ length tree)%nat.
Proof.
  intros H. apply submseteq_length, NoDup_submseteq.
  - by eapply placed_NoDup.
  - by eapply placed_subset.
Qed.
End places.

(** ** The walk *)

(** [visit] is the walk without its accumulator: the steps below [parent_id] with
    their chains, [chain] being the chain of the group that is walked. *)
Fixpoint visit (tree : list compiled_node) (fuel : nat) (parent_id : option string)
    (chain : list compiled_node) {struct fuel} :
    outcome (list (compiled_node * list compiled_node)) :=
  match fuel with
  | O => Exc walk_recursion_error
  | S fuel =>
      ls ← omapM (λ n,
        match cn_node_type n with
        | Group => visit tree fuel (Some (cn_id n)) (chain ++ [n])
        | Step => Ret [(n, chain ++ [n])]
        end) (children tree parent_id);
      Ret (mjoin (M:=list) ls)
  end.

(** The step record of a visited step. *)
Definition step_of_visit (start i : nat) (v : compiled_node * list compiled_node) : flat_step :=
  flat_step_of v.1 (cn_name <$> v.2) (Nat.pred (length v.2)) (start + i).

Definition numbered (start : nat) (vs : list (compiled_node * list compiled_node)) :
    list flat_step := imap (step_of_visit start) vs.

Lemma numbered_app start vs ws :
  numbered start (vs ++ ws) = numbered start vs ++ numbered (start + length vs) ws.
Proof.
  unfold numbered. rewrite imap_app. f_equal. apply imap_ext.
  intros i v _. unfold step_of_visit; simpl. f_equal. lia.
Qed.

Lemma numbered_length start vs : length (numbered start vs) = length vs.
Proof. apply length_imap. Qed.

(** Folding with an accumulator is mapping and concatenating. *)
Lemma ofoldM_visit {A} (f : list flat_step → A → outcome (list flat_step))
    (g : A → outcome (list (compiled_node * list compiled_node))) l out :
  (∀ out x, x ∈ l → f out x = (λ vs, out ++ numbered (length out) vs) <$> g x) →
  ofoldM f l out =
  (λ ls, out ++ numbered (length out) (mjoin (M:=list) ls)) <$> omapM g l.
Proof.
  revert out. induction l as [|x l IH]; intros out Hf; simpl; [by rewrite app_nil_r|].
  rewrite Hf by set_solver. destruct (g x) as [vs|e]; simpl; [|done].
  rewrite IH by set_solver. destruct (omapM g l) as [ls|e]; simpl; [|done].
  rewrite length_app, numbered_length, <- app_assoc, <- numbered_app. done.
Qed.

Lemma walk_visit tree fuel parent chain out :
  walk tree fuel parent (cn_name <$> chain) (length chain) out =
  (λ vs, out ++ numbered (length out) vs) <$> visit tree fuel parent chain.
Proof.
  revert parent chain out. induction fuel as [|fuel IH]; intros parent chain out; [done|].
  simpl. rewrite (ofoldM_visit _ (λ n,
        match cn_node_type n with
        | Group => visit tree fuel (Some (cn_id n)) (chain ++ [n])
        | Step => Ret [(n, chain ++ [n])]
        end)).
  - by destruct (omapM _ _).
  - intros out' n _. replace ((cn_name <$> chain) ++ [cn_name n])
      with (cn_name <$> (chain ++ [n])) by (by rewrite fmap_app).
    destruct (cn_node_type n).
    + replace (S (length chain)) with (length (chain ++ [n]))
        by (rewrite length_app; simpl; lia). apply IH.
    + unfold numbered, step_of_visit. simpl. rewrite length_app, Nat.add_0_r. simpl.
      by rewrite Nat.add_1_r.
Qed.

Section walking.
Context (tree : list compiled_node).
Hypothesis ids_unique : NoDup (cn_id <$> tree).

(** The walk is below the root, or below a group that is placed in the tree. *)
Definition walking_below (parent : option string) (chain : list compiled_node) : Prop :=
  (parent = None ∧ chain = []) ∨
  ∃ g, placed tree g chain ∧ cn_node_type g = Group ∧ parent = Some (cn_id g).

Lemma elem_of_children n parent :
  n ∈ children tree parent ↔ n ∈ tree ∧ cn_parent_id n = parent.
Proof. unfold children. rewrite elem_of_isort, list_elem_of_filter. naive_solver. Qed.

Lemma walking_child parent chain n :
  walking_below parent chain → n ∈ children tree parent → placed tree n (chain ++ [n]).
Proof.
  rewrite elem_of_children. intros [[-> ->]|(g & Hg & Ht & ->)] [Hn Hp].
  - by constructor.
  - by econstructor.
Qed.

Lemma walking_group parent chain n :
  walking_below parent chain → n ∈ children tree parent → cn_node_type n = Group →
  walking_below (Some (cn_id n)) (chain ++ [n]).
Proof. intros. right. exists n. eauto using walking_child. Qed.

Lemma walking_length parent chain :
  walking_below parent chain → (length chain ≤ length tree)%nat.
Proof.
  intros [[-> ->]|(g & Hg & _ & _)]; [simpl; lia|]. by eapply placed_length.
Qed.

(** The recursion goes no deeper than the number of nodes. *)
Lemma visit_terminates fuel parent chain :
  walking_below parent chain → (length tree < fuel + length chain)%nat →
  ∃ vs, visit tree fuel parent chain = Ret vs.
Proof.
  revert parent chain. induction fuel as [|fuel IH]; intros parent chain Hw Hf.
  { pose proof (walking_length _ _ Hw). lia. }
  simpl. assert (∃ ls, omapM (λ n, match cn_node_type n with
    | Group => visit tree fuel (Some (cn_id n)) (chain ++ [n])
    | Step => Ret [(n, chain ++ [n])] end) (children tree parent) = Ret ls) as [ls ->].
  - assert (∀ n, n ∈ children tree parent → ∃ vs, match cn_node_type n with
      | Group => visit tree fuel (Some (cn_id n)) (chain ++ [n])
      | Step => Ret [(n, chain ++ [n])] end = Ret vs) as Hall.
    { intros n Hn. destruct (cn_node_type n) eqn:Ht; [|eauto].
      apply IH; [by eapply walking_group|]. rewrite length_app. simpl. lia. }
    induction (children tree parent) as [|n l IHl]; [by exists []|]. simpl.
    destruct (Hall n) as [vs ->]; [set_solver|]. simpl.
    destruct IHl as [ls ->]; [set_solver|]. by exists (vs :: ls).
  - by eexists.
Qed.

(** What one unfolding of a successful walk collects. *)
Lemma visit_unfold fuel parent chain vs :
  visit tree (S fuel) parent chain = Ret vs →
  ∃ ls, vs = mjoin (M:=list) ls ∧
    Forall2 (λ n l, match cn_node_type n with
                    | Group => visit tree fuel (Some (cn_id n)) (chain ++ [n]) = Ret l
                    | Step => l = [(n, chain ++ [n])] end) (children tree parent) ls.
Proof.
  simpl. destruct (omapM _ _) as [ls|e] eqn:E; [|done]. intros [= <-].
  exists ls. split; [done|]. apply omapM_Forall2 in E.
  eapply Forall2_impl; [done|]. intros n l. simpl. destruct (cn_node_type n); congruence.
Qed.

Lemma visit_sound fuel parent chain vs n ch :
  walking_below parent chain → visit tree fuel parent chain = Ret vs → (n, ch) ∈ vs →
  placed tree n ch ∧ cn_node_type n = Step ∧ ∃ suf, suf ≠ [] ∧ ch = chain ++ suf.
Proof.
  revert parent chain vs. induction fuel as [|fuel IH]; intros parent chain vs Hw Hv Hin; [done|].
  apply visit_unfold in Hv as (ls & -> & Hls).
  apply list_elem_of_join in Hin as (l & Hin & Hl).
  apply list_elem_of_lookup in Hl as [i Hi].
  destruct (Forall2_lookup_r _ _ _ _ _ Hls Hi) as (m & Hm & Hml).
  apply list_elem_of_lookup_2 in Hm. destruct (cn_node_type m) eqn:Ht.
  - destruct (IH _ _ _ (walking_group _ _ _ Hw Hm Ht) Hml Hin) as (Hp & Hs & suf & _ & ->).
    split_and!; [done..|]. exists (m :: suf). by rewrite <- app_assoc.
  - subst l. apply list_elem_of_singleton in Hin. simplify_eq.
    split_and!; [by eapply walking_child|done|]. by exists [m].
Qed.

Lemma visit_complete fuel parent chain vs n suf :
  walking_below parent chain → visit tree fuel parent chain = Ret vs →
  placed tree n (chain ++ suf) → suf ≠ [] → cn_node_type n = Step →
  (n, chain ++ suf) ∈ vs.
Proof.
  revert parent chain vs suf.
  induction fuel as [|fuel IH]; intros parent chain vs suf Hw Hv Hp Hs Ht; [done|].
  apply visit_unfold in Hv as (ls & -> & Hls). destruct suf as [|a suf]; [done|].
  pose proof (placed_prefix tree _ _ _ _ Hp) as Ha.
  assert (a ∈ children tree parent) as Hac.
  { apply elem_of_children. split; [by eapply placed_elem|].
    remember (chain ++ [a]) as full eqn:Hfull.
    destruct Ha as [a Ha Hpar|a g c Ha Hg Hgt Hpar].
    - destruct chain as [|? chain]; [|by destruct chain].
      destruct Hw as [[-> _]|(g & Hg & _)]; [done|].
      by apply placed_last in Hg.
    - apply app_inj_tail in Hfull as [-> _].
      destruct Hw as [[_ ->]|(g' & Hg' & _ & ->)]; [by apply placed_last in Hg|].
      apply placed_last in Hg, Hg'. congruence. }
  apply list_elem_of_lookup in Hac as [i Hi].
  destruct (Forall2_lookup_l _ _ _ _ _ Hls Hi) as (l & Hl & Hal).
  apply list_elem_of_join. exists l. split; [|by eapply list_elem_of_lookup_2].
  apply list_elem_of_lookup_2 in Hi. destruct suf as [|b suf].
  - apply placed_last in Hp. rewrite last_snoc in Hp. simplify_eq.
    rewrite Ht in Hal. subst. set_solver.
  - assert (cn_node_type a = Group) as Hag.
    { eapply placed_prefix_group; [exact Hp|done]. }
    rewrite Hag in Hal.
    replace (chain ++ a :: b :: suf) with ((chain ++ [a]) ++ b :: suf) in *
      by (by rewrite <- app_assoc).
    by eapply IH; eauto using walking_group.
Qed.
End walking.

Section ordering.
Context (tree : list compiled_node).
Hypothesis ids_unique : NoDup (cn_id <$> tree).

Lemma sibling_order_eq a b : sibling_order a b = Eq → cn_id a = cn_id b.
Proof.
  unfold sibling_order, cmp_then, cmp_on, cmp_str, cmp_Z. intros H.
  repeat case_match; try done. by apply String.compare_eq_iff.
Qed.

Lemma children_NoDup parent : NoDup (children tree parent).
Proof. apply NoDup_isort, NoDup_filter. by eapply NoDup_fmap_1. Qed.

Lemma children_sorted parent :
  StronglySorted (λ a b, sibling_order a b = Lt) (children tree parent).
Proof.
  pose proof (children_NoDup parent) as Hnd.
  pose proof (isort_StronglySorted sibling_order
    (filter (λ n, cn_parent_id n = parent) tree)) as Hs.
  fold (children tree parent) in Hs.
  assert (∀ n, n ∈ children tree parent → n ∈ tree) as Hsub.
  { intros n Hn%elem_of_children. naive_solver. }
  revert Hnd Hs Hsub. generalize (children tree parent) as l.
  induction l as [|a l IH]; intros Hnd Hs Hsub; [constructor|].
  apply NoDup_cons in Hnd as [Ha Hnd]. apply StronglySorted_cons in Hs as [Hf Hs].
  apply StronglySorted_cons. split; [|apply IH; set_solver].
  rewrite Forall_forall in Hf |- *. intros b Hb. specialize (Hf b Hb). simpl in Hf.
  destruct (sibling_order a b) eqn:E; [|done|done].
  apply sibling_order_eq in E. exfalso. apply Ha.
  by rewrite (same_id tree ids_unique a b) by (done || set_solver).
Qed.

(** The chains collected below one child go through it. *)
Lemma visit_through fuel parent chain n l ch :
  walking_below tree parent chain → n ∈ children tree parent →
  match cn_node_type n with
  | Group => visit tree fuel (Some (cn_id n)) (chain ++ [n]) = Ret l
  | Step => l = [(n, chain ++ [n])] end →
  ch ∈ l.*2 → ∃ suf, ch = chain ++ n :: suf.
Proof.
  intros Hw Hn Hl ([m ch'] & -> & Hin)%list_elem_of_fmap. simpl.
  destruct (cn_node_type n) eqn:Ht.
  - destruct (visit_sound tree fuel _ _ l m ch' (walking_group tree _ _ _ Hw Hn Ht) Hl Hin)
      as (_ & _ & suf & _ & ->). exists suf. by rewrite <- app_assoc.
  - subst. apply list_elem_of_singleton in Hin. simplify_eq. by exists [].
Qed.

Lemma visit_sorted fuel parent chain vs :
  walking_below tree parent chain → visit tree fuel parent chain = Ret vs →
  StronglySorted chain_before vs.*2.
Proof.
  revert parent chain vs. induction fuel as [|fuel IH]; intros parent chain vs Hw Hv; [done|].
  apply visit_unfold in Hv as (ls & -> & Hls).
  pose proof (children_sorted parent) as Hsorted.
  assert (∀ n, n ∈ children tree parent → n ∈ children tree parent) as Hsub by done.
  revert Hls Hsorted Hsub. generalize (children tree parent) at 1 2 3 as ns.
  intros ns Hls. induction Hls as [|n l ns ls Hl Hls IHls]; intros Hsorted Hsub; [constructor|].
  apply StronglySorted_cons in Hsorted as [Hf Hsorted]. simpl. rewrite fmap_app.
  apply StronglySorted_app_2; [|clear IHls|apply IHls; set_solver].
  2:{ assert (n ∈ children tree parent) as Hn by set_solver.
      destruct (cn_node_type n) eqn:Ht.
      - eapply IH; [|done]. by eapply walking_group.
      - subst l. repeat constructor. }
  intros c1 c2 H1 H2.
  destruct (visit_through fuel parent chain n l c1) as [s1 ->]; [set_solver..|].
  apply list_elem_of_fmap in H2 as (v & -> & Hv).
  apply list_elem_of_join in Hv as (l' & Hv & Hl').
  apply list_elem_of_lookup in Hl' as [i Hi].
  destruct (Forall2_lookup_r _ _ _ _ _ Hls Hi) as (m & Hm & Hml).
  apply list_elem_of_lookup_2 in Hm.
  destruct (visit_through fuel parent chain m l' v.2) as [s2 ->]; [set_solver..| |].
  { by apply list_elem_of_fmap_2. }
  exists chain, n, m, s1, s2. split_and!; [done..|].
  rewrite Forall_forall in Hf. by apply Hf.
Qed.
End ordering.

Lemma chain_before_irrefl c : ¬ chain_before c c.
Proof.
  intros (pre & a & b & s1 & s2 & -> & Heq & Hlt).
  apply app_inv_head in Heq. simplify_eq. by rewrite cmp_refl in Hlt.
Qed.

(** The steps of the tree with their chains, in the order of the plan. *)
Definition plan_order (tree : list compiled_node)
    (vs : list (compiled_node * list compiled_node)) : Prop :=
  (∀ n chain, (n, chain) ∈ vs ↔ placed tree n chain ∧ cn_node_type n = Step) ∧
  StronglySorted chain_before vs.*2.

(** C7. Flattening a sequence tree terminates and lists every step that the groups
    connect to the root, in the order of the tree: the plan is the sequence of
    the placed steps sorted by position, name and identifier at each level, with
    the ordinals 0, 1, 2, ... and each step's path and depth. *)
Theorem flatten_steps_spec (tree : list compiled_node) :
  NoDup (cn_id <$> tree) →
  ∃ vs, flatten_steps tree = Ret (numbered 0 vs) ∧ plan_order tree vs.
Proof.
  intros Hids. assert (walking_below tree None []) as Hw by by left.
  destruct (visit_terminates tree Hids (S (length tree)) None [] Hw) as [vs Hvs]; [simpl; lia|].
  exists vs. split.
  - unfold flatten_steps.
    pose proof (walk_visit tree (S (length tree)) None [] []) as Hwalk.
    rewrite Hvs in Hwalk. exact Hwalk.
  - split; [|by eapply visit_sorted]. intros n chain. split.
    + intros Hin. destruct (visit_sound tree _ _ _ _ _ _ Hw Hvs Hin) as (Hp & Ht & _). done.
    + intros [Hp Ht]. eapply (visit_complete tree Hids _ None [] vs n chain); try done.
      intros ->. by apply placed_last in Hp.
Qed.

(** Whatever tree is flattened, the ordinals of the plan are its indices. *)
Definition dense (plan : list flat_step) : Prop :=
  ∀ i fs, plan !! i = Some fs → fs_ordinal fs = i.

Lemma dense_snoc plan fs : dense plan → fs_ordinal fs = length plan → dense (plan ++ [fs]).
Proof.
  intros Hd Hfs i fs' Hi. destruct (decide (i < length plan)%nat).
  - rewrite lookup_app_l in Hi by done. by apply Hd.
  - rewrite lookup_app_r in Hi by lia. apply list_lookup_singleton_Some in Hi as [Hi <-]. lia.
Qed.

Lemma ofoldM_preserves {A B} (P : B → Prop) (f : B → A → outcome B) l acc acc' :
  (∀ b a b', P b → f b a = Ret b' → P b') → P acc → ofoldM f l acc = Ret acc' → P acc'.
Proof.
  intros Hf. revert acc. induction l as [|a l IH]; intros acc HP; simpl; [by intros [= <-]|].
  destruct (f acc a) eqn:E; simpl; [|done]. eauto.
Qed.

Lemma walk_dense tree fuel parent parts depth out out' :
  dense out → walk tree fuel parent parts depth out = Ret out' → dense out'.
Proof.
  revert parent parts depth out out'. induction fuel as [|fuel IH];
    intros parent parts depth out out' Hd; simpl; [done|].
  apply ofoldM_preserves; [|done]. intros b n b' Hb. destruct (cn_node_type n).
  - by apply IH.
  - intros [= <-]. by apply dense_snoc.
Qed.

Lemma flatten_steps_dense tree plan : flatten_steps tree = Ret plan → dense plan.
Proof. unfold flatten_steps. by apply walk_dense. Qed.

(** A sequence of two groups and three steps, given in no particular order. *)
Module TreeExample.
Definition node (id : string) (parent : option string) (pos : Z) (t : node_type) : compiled_node :=
  CompiledNode id parent pos t id (match t with Group => None | Step => Some "run_script" end)
    "full_os" true (JObj []) (JObj []) (JObj []) [] false 0 10 None "none".

Definition tree : list compiled_node :=
  [node "s3" (Some "g1") 1 Step; node "g1" None 1 Group; node "s2" (Some "g2") 0 Step;
   node "s1" None 0 Step; node "g2" (Some "g1") 0 Group; node "lost" (Some "nowhere") 0 Step].

(** A witness for [flatten_steps_spec]; the orphan [lost] is not in the plan. *)
Lemma flatten_steps_spec_witness :
  NoDup (cn_id <$> tree) ∧
  (∃ vs, flatten_steps tree = Ret (numbered 0 vs) ∧ plan_order tree vs) ∧
  match flatten_steps tree with
  | Ret l => map (λ s, (fs_name s, fs_ordinal s, fs_depth s, fs_path s)) l
  | Exc _ => []
  end = [("s1", 0, 0, "s1"); ("s2", 1, 2, "g1 / g2 / s2"); ("s3", 2, 1, "g1 / s3")].
Proof.
  assert (NoDup (cn_id <$> tree)) as H.
  { apply (bool_decide_unpack _). vm_compute. exact I. }
  split; [exact H|]. split; [exact (flatten_steps_spec tree H)|]. vm_compute. reflexivity.
Defined.

Definition row (id : string) (pos : Z) : string * node_row :=
  (id, Node "S" None pos Step id None (Some "run_script") "full_os" true (JObj []) (JObj [])
         (JObj []) [] false 0 10 None "none" 0 0).

Lemma compiled_tree_deterministic_witness :
  compiled_tree [row "a" 1; row "b" 0] = compiled_tree [row "b" 0; row "a" 1] ∧
  cn_id <$> compiled_tree [row "a" 1; row "b" 0] = ["b"; "a"].
Proof.
  split; [|vm_compute; reflexivity]. apply compiled_tree_deterministic.
  - apply (bool_decide_unpack _). vm_compute. exact I.
  - apply Permutation_swap.
Defined.

(** A disabled group does not disable what it contains, and its condition and its
    variables do not reach it: the plan steps of a group are those of its steps
    alone. *)
Definition hidden (enabled : bool) (condition variables : json) : compiled_node :=
  CompiledNode "g" None 0 Group "g" None "any" enabled condition variables (JObj []) []
    false 0 10 None "none".

Example flatten_ignores_group_settings (enabled : bool) (condition variables : json) :
  flatten_steps [hidden enabled condition variables; node "s" (Some "g") 0 Step] =
  flatten_steps [hidden true (JObj []) (JObj []); node "s" (Some "g") 0 Step].
Proof. reflexivity. Qed.
End TreeExample.
