(* ===== verification/Sequences.v ===== *)
(** * Sequences: authoring and compiling

    The authoring half of [web/ts_engine_pg.py]: sequences, their draft trees of
    nodes (one node at a time, or a whole tree sent by the builder), and
    [compile_sequence], which freezes a draft into a numbered version found again
    by the SHA-256 digest of its canonical JSON. *)

From stdpp Require Import base gmap list strings pretty sorting.
From Stdlib Require Import ZArith Lia.
From S2P Require Import Prelude Json Text Digest JsonParse TsData Tree.

(** [o or d] for an optional text *)
Definition text_or (o : option string) (d : string) : string :=
  match o with Some (String c s) => String c s | _ => d end.

(** An optional text that counts as absent when it is empty. *)
Definition nonempty (o : option string) : option string :=
  match o with Some EmptyString => None | _ => o end.

(** ** Constraints of [ts_task_sequence_nodes] *)

(** UNIQUE (sequence_id, parent_id, position), and the partial index that makes
    it hold for the roots as well. *)
Definition node_position_taken (n : node_row) (t : gmap string node_row) : bool :=
  exists_where (λ kr, nd_sequence_id kr.2 = nd_sequence_id n ∧
    nd_parent_id kr.2 = nd_parent_id n ∧ nd_position kr.2 = nd_position n) t.

(** CHECK ((node_type = 'group' AND kind IS NULL) OR (node_type = 'step' AND kind
    IS NOT NULL)) *)
Definition node_kind_ok (n : node_row) : bool :=
  match nd_node_type n, nd_kind n with
  | Group, None | Step, Some _ => true
  | _, _ => false
  end.

Definition known {R} (t : gmap string R) (k : string) : bool := bool_decide (is_Some (t !! k)).

Definition known_or_null {R} (t : gmap string R) (k : option string) : bool :=
  match k with None => true | Some k => known t k end.

Definition insert_node (id : string) (n : node_row) : eff session unit :=
  d ← query (λ d, d);
  checked (negb (known (nodes d) id) && known (sequences d) (nd_sequence_id n) &&
           known_or_null (<[id := n]> (nodes d)) (nd_parent_id n) && node_kind_ok n &&
           negb (node_position_taken n (nodes d)))
    "ts_task_sequence_nodes" (set_nodes (<[id := n]>)).

(** DELETE with ON DELETE CASCADE on [parent_id]: once the rows of [P] are gone, the
    rows whose parent is gone follow, until every parent is there. *)
Definition drop_orphans (t : gmap string node_row) : gmap string node_row :=
  filter (λ kr, known_or_null t (nd_parent_id kr.2) = true) t.

Fixpoint cascade (fuel : nat) (t : gmap string node_row) : gmap string node_row :=
  match fuel with
  | O => t
  | S fuel => cascade fuel (drop_orphans t)
  end.

Definition delete_sequence_nodes (sequence_id : string) (t : gmap string node_row) :
    gmap string node_row :=
  let rest := filter (λ kr, nd_sequence_id kr.2 ≠ sequence_id) t in
  cascade (size rest) rest.

Section operations.
Context `{Env} `{Sha256}.

(** ** Sequences *)

Definition create_sequence (name description target_os : string)
    (created_by : option string) : eff session string :=
  sequence_id ← new_id;
  now ← now;
  d ← query (λ d, d);
  checked (negb (known (sequences d) sequence_id)) "ts_task_sequences_pkey"
    (set_sequences (<[sequence_id :=
      Sequence name (Some description) (PyStr.lower (PyStr.or_else target_os "windows"))
        true None now now created_by created_by]>)) ;;
  commit ;;
  mret sequence_id.

(** The dictionary [get_sequence] returns, in which no text is [None]. *)
Definition sequence_view (row : sequence_row) : sequence_row :=
  Sequence (sq_name row) (Some (default EmptyString (sq_description row)))
    (PyStr.or_else (sq_target_os row) "windows") (sq_enabled row)
    (sq_current_version_id row) (sq_created_at row) (sq_updated_at row)
    (sq_created_by row) (sq_updated_by row).

Definition get_sequence (sequence_id : string) : eff session (option sequence_row) :=
  query (λ d, sequence_view <$> sequences d !! sequence_id).

Definition update_sequence (sequence_id : string) (name description target_os : option string)
    (enabled : option bool) (updated_by : option string) : eff session unit :=
  let target_os := (λ t, PyStr.lower (PyStr.or_else t "windows")) <$> target_os in
  match name, description, target_os, enabled, updated_by with
  | None, None, None, None, None => mret tt
  | _, _, _, _, _ =>
      now ← now;
      execute (set_sequences (alter (λ row,
        Sequence (default (sq_name row) name) (coalesce description (sq_description row))
          (default (sq_target_os row) target_os) (default (sq_enabled row) enabled)
          (sq_current_version_id row) (sq_created_at row) now (sq_created_by row)
          (coalesce updated_by (sq_updated_by row))) sequence_id)) ;;
      commit
  end.

(** ** Nodes, one at a time *)

Definition add_node (sequence_id : string) (parent_id : option string) (position : Z)
    (node_type : node_type) (name : string) (kind : option string) (phase : string)
    (enabled : bool) (condition variables params : json) (content_refs : list string)
    (continue_on_error : bool) (retry_count retry_delay_seconds : Z)
    (timeout_seconds : option Z) (reboot_behavior : string) : eff session string :=
  node_id ← new_id;
  now ← now;
  insert_node node_id
    (Node sequence_id parent_id position node_type name None kind phase enabled condition
       variables params content_refs continue_on_error retry_count retry_delay_seconds
       timeout_seconds reboot_behavior now now) ;;
  commit ;;
  mret node_id.

Definition add_group (sequence_id name : string) (position : Z) (parent_id : option string)
    (enabled : bool) (condition variables : json) : eff session string :=
  add_node sequence_id parent_id position Group name None "any" enabled
    (jor condition (JObj [])) (jor variables (JObj [])) (JObj []) [] false 0 10 None "none".

Definition add_step (sequence_id : string) (parent_id : option string)
    (name kind phase : string) (position : Z) (enabled : bool)
    (condition variables params : json) (content_refs : list string)
    (continue_on_error : bool) (retry_count retry_delay_seconds : Z)
    (timeout_seconds : option Z) (reboot_behavior : string) : eff session string :=
  add_node sequence_id parent_id position Step name (Some kind) phase enabled
    (jor condition (JObj [])) (jor variables (JObj [])) (jor params (JObj [])) content_refs
    continue_on_error retry_count retry_delay_seconds timeout_seconds reboot_behavior.

(** ** Whole trees from the builder *)

(** A node as the builder sends it; [None] and [JNull] stand for absent keys. *)
Record builder_node : Type := BuilderNode {
  bn_id : option string;
  bn_client_id : option string;
  bn_parent_id : option string;
  bn_parent_ref : option string;
  bn_node_type : option string;
  bn_name : option string;
  bn_description : option string;
  bn_kind : option string;
  bn_phase : option string;
  bn_enabled : option bool;
  bn_condition : json;
  bn_variables : json;
  bn_params : json;
  bn_content_refs : list string;
  bn_continue_on_error : bool;
  bn_retry_count : option Z;
  bn_retry_delay_seconds : option Z;
  bn_timeout_seconds : option Z;
  bn_reboot_behavior : option string
}.

Record normal_node : Type := NormalNode {
  nn_client_id : string;
  nn_parent_ref : option string;
  nn_position : Z;
  nn_node_type : node_type;
  nn_name : string;
  nn_description : string;
  nn_kind : option string;
  nn_phase : string;
  nn_enabled : bool;
  nn_condition : json;
  nn_variables : json;
  nn_params : json;
  nn_content_refs : list string;
  nn_continue_on_error : bool;
  nn_retry_count : Z;
  nn_retry_delay_seconds : Z;
  nn_timeout_seconds : option Z;
  nn_reboot_behavior : string
}.

Definition REBOOT_BEHAVIORS : list string := ["none"; "optional"; "required"; "deferred"].

(** [int(o or d)] *)
Definition int_or (o : option Z) (d : Z) : Z :=
  match o with Some z => if Z.eqb z 0 then d else z | None => d end.

(** [(kind, node_type)] of a raw node, or the error that refuses it.  The name in
    the last message is not modelled. *)
Definition builder_kind (raw : builder_node) : outcome (node_type * option string) :=
  let node_type := PyStr.lower (PyStr.strip (text_or (bn_node_type raw) "step")) in
  if bool_decide (node_type ∉ ["group"; "step"]) then
    Exc (ValueError ("unsupported node_type: " +:+ node_type)) else
  if bool_decide (PyStr.strip (text_or (bn_name raw) EmptyString) = EmptyString) then
    Exc (ValueError "sequence nodes require a name") else
  if decide (node_type = "step") then
    let kind := PyStr.strip (text_or (bn_kind raw) EmptyString) in
    if decide (kind = EmptyString) then Exc (ValueError "step requires a kind")
    else Ret (Step, Some kind)
  else Ret (Group, None).

Definition client_ref (index : nat) (raw : builder_node) : string :=
  text_or (nonempty (bn_client_id raw))
    (text_or (bn_id raw) ("node-" +:+ pretty index)).

Definition parent_key (raw : builder_node) : option string :=
  nonempty (coalesce (nonempty (bn_parent_id raw)) (bn_parent_ref raw)).

Definition position_of (counters : gmap (option string) Z) (parent : option string) : Z :=
  default 0%Z (counters !! parent).

(** One round of the loop of [_normalize_builder_nodes]. *)
Definition normalize_one (index : nat) (raw : builder_node)
    (counters : gmap (option string) Z) (seen_refs : gset string) :
    outcome (normal_node * gmap (option string) Z * gset string) :=
  type_kind ← builder_kind raw;
  let phase := PyStr.or_else (PyStr.strip (text_or (bn_phase raw) "any")) "any" in
  let reboot := PyStr.or_else (PyStr.strip (text_or (bn_reboot_behavior raw) "none")) "none" in
  if bool_decide (reboot ∉ REBOOT_BEHAVIORS) then
    Exc (ValueError
      "reboot_behavior must be one of ['deferred', 'none', 'optional', 'required']") else
  let parent := parent_key raw in
  let position := position_of counters parent in
  let ref := client_ref index raw in
  if decide (ref ∈ seen_refs) then
    Exc (ValueError ("duplicate builder node id: " +:+ ref)) else
  Ret (NormalNode ref parent position type_kind.1
         (PyStr.strip (text_or (bn_name raw) EmptyString))
         (default EmptyString (bn_description raw)) type_kind.2 phase
         (default true (bn_enabled raw)) (jor (bn_condition raw) (JObj []))
         (jor (bn_variables raw) (JObj [])) (jor (bn_params raw) (JObj []))
         (bn_content_refs raw) (bn_continue_on_error raw)
         (int_or (bn_retry_count raw) 0) (int_or (bn_retry_delay_seconds raw) 10)
         (bn_timeout_seconds raw) reboot,
       <[parent := (position + 1)%Z]> counters, {[ref]} ∪ seen_refs).

Fixpoint normalize_from (index : nat) (raws : list builder_node)
    (counters : gmap (option string) Z) (seen_refs : gset string) :
    outcome (list normal_node) :=
  match raws with
  | [] => Ret []
  | raw :: raws =>
      r ← normalize_one index raw counters seen_refs;
      rest ← normalize_from (S index) raws r.1.2 r.2;
      Ret (r.1.1 :: rest)
  end.

Definition normalize_builder_nodes (raws : list builder_node) : outcome (list normal_node) :=
  normalize_from 0 raws ∅ ∅.

(** The row [replace_sequence_nodes] inserts for a normalized node. *)
Definition node_row_of (sequence_id : string) (parent_id : option string) (now : Z)
    (n : normal_node) : node_row :=
  Node sequence_id parent_id (nn_position n) (nn_node_type n) (nn_name n)
    (Some (nn_description n)) (nn_kind n) (nn_phase n) (nn_enabled n) (nn_condition n)
    (nn_variables n) (nn_params n) (nn_content_refs n) (nn_continue_on_error n)
    (nn_retry_count n) (int_or (Some (nn_retry_delay_seconds n)) 10)
    (nn_timeout_seconds n) (nn_reboot_behavior n) now now.

(** The insertion loop, with the map from the builder's identifiers to the new
    ones: a parent that is not listed before its child is not found. *)
Fixpoint insert_normalized (sequence_id : string) (now : Z) (id_map : gmap string string)
    (ns : list normal_node) : eff session unit :=
  match ns with
  | [] => mret tt
  | n :: ns =>
      node_id ← new_id;
      let id_map := <[nn_client_id n := node_id]> id_map in
      let parent_id := nn_parent_ref n ≫= (λ p, id_map !! p) in
      insert_node node_id (node_row_of sequence_id parent_id now n) ;;
      insert_normalized sequence_id now id_map ns
  end.

Definition replace_sequence_nodes (sequence_id : string) (raws : list builder_node)
    (updated_by : option string) : eff session unit :=
  sequence ← get_sequence sequence_id;
  match sequence with
  | None => raise (ValueError ("sequence not found: " +:+ sequence_id))
  | Some _ =>
      normalized ← lift_outcome (normalize_builder_nodes raws);
      now ← now;
      execute (set_nodes (delete_sequence_nodes sequence_id)) ;;
      insert_normalized sequence_id now ∅ normalized ;;
      execute (set_sequences (alter (λ row,
        Sequence (sq_name row) (sq_description row) (sq_target_os row) (sq_enabled row)
          (sq_current_version_id row) (sq_created_at row) now (sq_created_by row)
          (coalesce updated_by (sq_updated_by row))) sequence_id)) ;;
      commit
  end.

(** ** Compiling *)

Definition load_nodes (sequence_id : string) (d : db) : list (string * node_row) :=
  select_where (λ kr, nd_sequence_id kr.2 = sequence_id) (nodes d).

Definition node_type_text (t : node_type) : string :=
  match t with Group => "group" | Step => "step" end.

Definition compiled_node_json (n : compiled_node) : json :=
  JObj [("id", JStr (cn_id n));
        ("parent_id", json_of_option JStr (cn_parent_id n));
        ("position", JInt (cn_position n));
        ("node_type", JStr (node_type_text (cn_node_type n)));
        ("name", JStr (cn_name n));
        ("kind", json_of_option JStr (cn_kind n));
        ("phase", JStr (cn_phase n));
        ("enabled", JBool (cn_enabled n));
        ("condition", cn_condition n);
        ("variables", cn_variables n);
        ("params", cn_params n);
        ("content_refs", JArr (JStr <$> cn_content_refs n));
        ("continue_on_error", JBool (cn_continue_on_error n));
        ("retry_count", JInt (cn_retry_count n));
        ("retry_delay_seconds", JInt (cn_retry_delay_seconds n));
        ("timeout_seconds", json_of_option JInt (cn_timeout_seconds n));
        ("reboot_behavior", JStr (cn_reboot_behavior n))].

Definition tree_source (tree : list compiled_node) : string :=
  json_dumps (JArr (compiled_node_json <$> tree)).

Definition source_hash (tree : list compiled_node) : string := sha256_hex (tree_source tree).

(** [COALESCE(MAX(version), 0) + 1] *)
Definition next_version (sequence_id : string) (t : gmap string version_row) : Z :=
  match (λ kr, ver_version kr.2) <$>
        select_where (λ kr, ver_sequence_id kr.2 = sequence_id) t with
  | [] => 1
  | v :: vs => foldr Z.max v vs + 1
  end%Z.

Definition version_with_hash (sequence_id hash : string) (t : gmap string version_row) :
    option (string * version_row) :=
  head (select_where (λ kr, ver_sequence_id kr.2 = sequence_id ∧ ver_source_hash kr.2 = hash) t).

(** PRIMARY KEY, the reference to the sequence, and the two UNIQUE constraints. *)
Definition insert_version (id : string) (v : version_row) : eff session unit :=
  d ← query (λ d, d);
  checked (negb (known (versions d) id) && known (sequences d) (ver_sequence_id v) &&
           negb (exists_where (λ kr, ver_sequence_id kr.2 = ver_sequence_id v ∧
             (ver_version kr.2 = ver_version v ∨ ver_source_hash kr.2 = ver_source_hash v))
             (versions d)))
    "ts_task_sequence_versions" (set_versions (<[id := v]>)).

Definition compile_sequence (sequence_id : string) (compiled_by : option string) :
    eff session string :=
  rows ← query (load_nodes sequence_id);
  let tree := compiled_tree rows in
  let hash := source_hash tree in
  existing ← query (λ d, version_with_hash sequence_id hash (versions d));
  match existing with
  | Some (id, _) => mret id
  | None =>
      version ← query (λ d, next_version sequence_id (versions d));
      version_id ← new_id;
      compiled_at ← now;
      insert_version version_id (Version sequence_id version hash tree compiled_at compiled_by) ;;
      updated_at ← now;
      execute (set_sequences (alter (λ row,
        Sequence (sq_name row) (sq_description row) (sq_target_os row) (sq_enabled row)
          (Some version_id) (sq_created_at row) updated_at (sq_created_by row)
          (sq_updated_by row)) sequence_id)) ;;
      commit ;;
      mret version_id
  end.
End operations.

(** ** Normalizing a tree *)

(** The number of nodes of [ns] under the parent [p]. *)
Definition siblings (p : option string) (ns : list normal_node) : Z :=
  Z.of_nat (length (filter (λ n, nn_parent_ref n = p) ns)).

Lemma siblings_snoc p ns n :
  siblings p (ns ++ [n]) = (siblings p ns + if decide (nn_parent_ref n = p) then 1 else 0)%Z.
Proof.
  unfold siblings. rewrite filter_app, length_app, filter_cons. case_decide; simpl; lia.
Qed.

Lemma siblings_nonneg p ns : (0 ≤ siblings p ns)%Z.
Proof. unfold siblings. lia. Qed.

Lemma siblings_take_mono p ns i j :
  (i ≤ j)%nat → (siblings p (take i ns) ≤ siblings p (take j ns))%Z.
Proof.
  intros Hij. replace (take i ns) with (take i (take j ns)) by (by rewrite take_take, Nat.min_l).
  rewrite <- (take_drop i (take j ns)) at 2.
  unfold siblings. rewrite filter_app, length_app. lia.
Qed.

(** A tree the builder may store: identifiers are not repeated, and each node's
    position is the number of nodes listed before it under the same parent. *)
Definition normalized_tree (ns : list normal_node) : Prop :=
  NoDup (nn_client_id <$> ns) ∧
  ∀ i n, ns !! i = Some n → nn_position n = siblings (nn_parent_ref n) (take i ns).

(** What the loop knows after the nodes [before]. *)
Definition loop_state (before : list normal_node) (counters : gmap (option string) Z)
    (seen : gset string) : Prop :=
  (∀ p, position_of counters p = siblings p before) ∧ seen = list_to_set (nn_client_id <$> before).

Lemma normalize_one_spec index raw before counters seen n counters' seen' :
  loop_state before counters seen →
  normalize_one index raw counters seen = Ret (n, counters', seen') →
  loop_state (before ++ [n]) counters' seen' ∧ nn_client_id n ∉ nn_client_id <$> before ∧
  nn_position n = siblings (nn_parent_ref n) before ∧ nn_reboot_behavior n ∈ REBOOT_BEHAVIORS ∧
  nn_name n ≠ EmptyString ∧
  match nn_node_type n with Group => nn_kind n = None | Step => is_Some (nn_kind n) end.
Proof.
  intros [Hc ->]. unfold normalize_one.
  destruct (builder_kind raw) as [[t k]|e] eqn:Hk; cbn [mbind outcome_bind fst snd]; [|done].
  set (reboot := PyStr.or_else _ "none") at 1.
  destruct (decide (reboot ∉ REBOOT_BEHAVIORS)) as [Hr|Hr].
  { by rewrite bool_decide_eq_true_2. }
  rewrite bool_decide_eq_false_2 by done.
  case_decide as Hseen; [done|]. intros [= <- <- <-].
  cbn [nn_client_id nn_parent_ref nn_position nn_reboot_behavior nn_name nn_kind nn_node_type].
  split_and!.
  - split; [|rewrite fmap_app, list_to_set_app_L; simpl; set_solver].
    intros p. rewrite siblings_snoc, <- Hc.
    cbn [nn_parent_ref]. unfold position_of. case_decide as Hp.
    + subst p. by rewrite lookup_insert_eq.
    + rewrite lookup_insert_ne by done. lia.
  - set_solver.
  - apply Hc.
  - by apply dec_stable.
  - unfold builder_kind in Hk. repeat (case_bool_decide; [done|]). done.
  - unfold builder_kind in Hk. repeat (case_bool_decide; [done|]).
    repeat case_decide; simplify_eq; eauto.
Qed.

Lemma normalize_from_spec index raws before counters seen ns :
  loop_state before counters seen → normalized_tree before →
  normalize_from index raws counters seen = Ret ns →
  normalized_tree (before ++ ns) ∧ length ns = length raws ∧
  Forall (λ n, nn_reboot_behavior n ∈ REBOOT_BEHAVIORS ∧ nn_name n ≠ EmptyString ∧
    match nn_node_type n with Group => nn_kind n = None | Step => is_Some (nn_kind n) end) ns.
Proof.
  revert index before counters seen ns.
  induction raws as [|raw raws IH]; intros index before counters seen ns Hl Hd Hn; simpl in Hn.
  { simplify_eq. by rewrite app_nil_r. }
  destruct (normalize_one index raw counters seen) as [[[n c'] s']|e] eqn:E; simpl in Hn; [|done].
  destruct (normalize_from _ raws _ _) as [rest|e] eqn:Er; simpl in Hn; [|done].
  simplify_eq.
  pose proof (normalize_one_spec _ _ _ _ _ _ _ _ Hl E) as (Hl' & Hfresh & Hpos & Hok).
  destruct (IH (S index) (before ++ [n]) c' s' rest) as (Ht & Hlen & Hf); [done| |done|].
  - destruct Hd as [Hnd Hp]. split.
    + rewrite fmap_app. apply NoDup_app. split_and!; [done| |apply NoDup_singleton].
      intros x Hx Hx2. set_solver.
    + intros i m Hi. destruct (decide (i < length before)%nat) as [Hlt|Hge].
      * rewrite lookup_app_l in Hi by done. rewrite take_app_le by lia. by apply Hp.
      * apply lookup_app_r_Some in Hi || rewrite lookup_app_r in Hi by lia.
        rewrite list_lookup_singleton in Hi. case_match; [|done]. simplify_eq.
        rewrite take_app_length' by lia. done.
  - rewrite <- app_assoc in Ht. simpl in *. eauto.
Qed.

(** Whatever tree the builder sends, an accepted one is stored with distinct
    identifiers, positions that count the earlier siblings (so they are dense and
    never collide), reboot behaviours the engine knows, and a kind on exactly the
    steps; nothing is dropped. *)
Theorem normalize_builder_nodes_spec (raws : list builder_node) (ns : list normal_node) :
  normalize_builder_nodes raws = Ret ns →
  normalized_tree ns ∧ length ns = length raws ∧
  Forall (λ n, nn_reboot_behavior n ∈ REBOOT_BEHAVIORS ∧ nn_name n ≠ EmptyString ∧
    match nn_node_type n with Group => nn_kind n = None | Step => is_Some (nn_kind n) end) ns.
Proof.
  intros Hn. apply (normalize_from_spec 0 raws [] ∅ ∅ ns); [| |done].
  - split; [|done]. intros p. unfold position_of. by rewrite lookup_empty.
  - split; [constructor|done].
Qed.

(** ** Well-formed drafts *)

(** Every node belongs to a sequence, its parent is there, only steps have a kind,
    and no two siblings share a position. *)
Record wf_nodes (d : db) : Prop := WfNodes {
  wf_node id n : nodes d !! id = Some n →
    known (sequences d) (nd_sequence_id n) = true ∧
    known_or_null (nodes d) (nd_parent_id n) = true ∧ node_kind_ok n = true;
  wf_positions id1 id2 n1 n2 : nodes d !! id1 = Some n1 → nodes d !! id2 = Some n2 →
    nd_sequence_id n1 = nd_sequence_id n2 → nd_parent_id n1 = nd_parent_id n2 →
    nd_position n1 = nd_position n2 → id1 = id2
}.

Lemma known_true {R} (t : gmap string R) k : known t k = true ↔ is_Some (t !! k).
Proof. unfold known. by rewrite bool_decide_eq_true. Qed.

Lemma known_or_null_mono {R} (t t' : gmap string R) k :
  (∀ i, is_Some (t !! i) → is_Some (t' !! i)) →
  known_or_null t k = true → known_or_null t' k = true.
Proof. destruct k as [k|]; simpl; [|done]. rewrite !known_true. auto. Qed.

Lemma wf_insert_node id n : preserves wf_nodes (insert_node id n).
Proof.
  unfold insert_node. apply preserves_query_checked. intros d [Hwf Hpos].
  rewrite !andb_true_iff, !negb_true_iff. intros [[[[Hid Hs] Hp] Hk] Htaken].
  assert (nodes d !! id = None) as Hnew.
  { apply eq_None_not_Some. rewrite <- known_true. by rewrite Hid. }
  assert (∀ i m, nodes d !! i = Some m → nd_sequence_id m = nd_sequence_id n →
    nd_parent_id m = nd_parent_id n → nd_position m ≠ nd_position n) as Hfree.
  { intros i m Hi ???. unfold node_position_taken in Htaken.
    rewrite exists_where_false in Htaken. by apply (Htaken i m). }
  split; simpl.
  - intros i m [[-> ->]|[Hne Hi]]%lookup_insert_Some; [by split_and!|].
    destruct (Hwf i m Hi) as (? & ? & ?). split_and!; [done| |done].
    eapply known_or_null_mono; [|done]. intros j Hj.
    destruct (decide (id = j)) as [->|]; [rewrite lookup_insert_eq; eauto|].
    by rewrite lookup_insert_ne.
  - intros i1 i2 n1 n2 [[<- <-]|[Hne1 H1]]%lookup_insert_Some
      [[<- <-]|[Hne2 H2]]%lookup_insert_Some Hse Hpa Hpo; [done| | |by eapply Hpos].
    + exfalso. by apply (Hfree i2 n2).
    + exfalso. by apply (Hfree i1 n1).
Qed.

(** Changing a sequence's columns keeps the drafts well-formed. *)
Lemma wf_set_sequences f :
  (∀ t k, is_Some (t !! k) → is_Some (f t !! k)) →
  ∀ d, wf_nodes d → wf_nodes (set_sequences f d).
Proof.
  intros Hf d [Hwf Hpos]. split; simpl; [|done]. intros id n Hn.
  destruct (Hwf id n Hn) as (Hs & Hp & Hk). split_and!; [|done..].
  rewrite known_true in *. auto.
Qed.

Lemma wf_alter_sequences g k d : wf_nodes d → wf_nodes (set_sequences (alter g k) d).
Proof.
  apply wf_set_sequences. intros t k' Hk. rewrite lookup_alter.
  case_decide; subst; [by rewrite fmap_is_Some|done].
Qed.

Lemma drop_orphans_lookup t k n : drop_orphans t !! k = Some n → t !! k = Some n.
Proof. unfold drop_orphans. rewrite map_lookup_filter_Some. naive_solver. Qed.

Lemma cascade_lookup fuel t k n : cascade fuel t !! k = Some n → t !! k = Some n.
Proof.
  revert t. induction fuel as [|fuel IH]; intros t; simpl; [done|].
  intros ?%IH. by apply drop_orphans_lookup.
Qed.

Lemma cascade_fixed fuel t : drop_orphans t = t → cascade fuel t = t.
Proof. intros Ht. induction fuel as [|fuel IH]; simpl; [done|]. by rewrite Ht. Qed.

Lemma drop_orphans_size t : drop_orphans t = t ∨ (size (drop_orphans t) < size t)%nat.
Proof.
  assert (drop_orphans t ⊆ t) as Hsub by apply map_filter_subseteq.
  pose proof (map_subseteq_size _ _ Hsub).
  destruct (decide (size t ≤ size (drop_orphans t))%nat); [left|right; lia].
  by apply map_subseteq_size_eq.
Qed.

(** As many rounds as there are rows reach a table without orphans. *)
Lemma cascade_closed fuel t :
  (size t ≤ fuel)%nat → drop_orphans (cascade fuel t) = cascade fuel t.
Proof.
  revert t. induction fuel as [|fuel IH]; intros t Hsize; simpl.
  - assert (t = ∅) as -> by (apply map_size_empty_inv; lia). done.
  - destruct (drop_orphans_size t) as [Heq|Hlt].
    + by rewrite Heq, cascade_fixed.
    + apply IH. lia.
Qed.

Lemma delete_sequence_nodes_lookup sid t k n :
  delete_sequence_nodes sid t !! k = Some n → t !! k = Some n ∧ nd_sequence_id n ≠ sid.
Proof. intros Hn%cascade_lookup. rewrite map_lookup_filter_Some in Hn. naive_solver. Qed.

Lemma delete_sequence_nodes_closed sid t k n :
  delete_sequence_nodes sid t !! k = Some n →
  known_or_null (delete_sequence_nodes sid t) (nd_parent_id n) = true.
Proof.
  unfold delete_sequence_nodes. set (rest := filter _ t). intros Hn.
  rewrite <- (cascade_closed (size rest) rest) in Hn by done.
  unfold drop_orphans in Hn. rewrite map_lookup_filter_Some in Hn. naive_solver.
Qed.

Lemma wf_delete_nodes sid d : wf_nodes d → wf_nodes (set_nodes (delete_sequence_nodes sid) d).
Proof.
  intros [Hwf Hpos]. split; simpl.
  - intros id n Hn. pose proof (delete_sequence_nodes_closed _ _ _ _ Hn).
    apply delete_sequence_nodes_lookup in Hn as [Hn _].
    destruct (Hwf id n Hn) as (? & ? & ?). done.
  - intros i1 i2 n1 n2 [H1 _]%delete_sequence_nodes_lookup [H2 _]%delete_sequence_nodes_lookup.
    by apply Hpos.
Qed.

#[export] Hint Resolve wf_insert_node : preserves.

Section authoring.
Context `{Env} `{Sha256}.

Lemma wf_add_node sid parent pos t name kind phase enabled c v p refs coe rc rd tm rb :
  preserves wf_nodes (add_node sid parent pos t name kind phase enabled c v p refs coe rc rd tm rb).
Proof. unfold add_node. preserves_solve. Qed.

Lemma wf_insert_normalized sid at_ id_map ns :
  preserves wf_nodes (insert_normalized sid at_ id_map ns).
Proof.
  revert id_map. induction ns as [|n ns IH]; intros id_map; simpl; preserves_solve.
Qed.

(** The requests that edit drafts. *)
Inductive authoring_request : Type :=
| ReqCreateSequence (name description target_os : string) (created_by : option string)
| ReqUpdateSequence (sequence_id : string) (name description target_os : option string)
    (enabled : option bool) (updated_by : option string)
| ReqAddGroup (sequence_id name : string) (position : Z) (parent_id : option string)
    (enabled : bool) (condition variables : json)
| ReqAddStep (sequence_id : string) (parent_id : option string) (name kind phase : string)
    (position : Z) (enabled : bool) (condition variables params : json)
    (content_refs : list string) (continue_on_error : bool) (retry_count retry_delay : Z)
    (timeout : option Z) (reboot_behavior : string)
| ReqReplaceNodes (sequence_id : string) (nodes : list builder_node) (updated_by : option string)
| ReqCompile (sequence_id : string) (compiled_by : option string).

Definition serve_authoring (r : authoring_request) : eff session unit :=
  match r with
  | ReqCreateSequence n d t c => create_sequence n d t c ;; mret tt
  | ReqUpdateSequence i n d t e u => update_sequence i n d t e u
  | ReqAddGroup s n p pa e c v => add_group s n p pa e c v ;; mret tt
  | ReqAddStep s pa n k ph p e c v pr refs coe rc rd tm rb =>
      add_step s pa n k ph p e c v pr refs coe rc rd tm rb ;; mret tt
  | ReqReplaceNodes s ns u => replace_sequence_nodes s ns u
  | ReqCompile s c => compile_sequence s c ;; mret tt
  end.

Lemma wf_create_sequence n d t c : preserves wf_nodes (create_sequence n d t c).
Proof.
  unfold create_sequence. preserves_solve.
  apply preserves_checked. intros _. apply wf_set_sequences. intros t' k Hk.
  match goal with |- is_Some (<[?i:=_]> _ !! _) => destruct (decide (i = k)) as [->|] end;
    [rewrite lookup_insert_eq; eauto|by rewrite lookup_insert_ne].
Qed.

Lemma wf_update_sequence i n d t e u : preserves wf_nodes (update_sequence i n d t e u).
Proof.
  unfold update_sequence. cbv zeta. preserves_solve;
    apply preserves_execute; apply wf_alter_sequences.
Qed.

Lemma wf_replace_sequence_nodes s ns u : preserves wf_nodes (replace_sequence_nodes s ns u).
Proof.
  unfold replace_sequence_nodes. preserves_solve.
  - apply preserves_execute. intros d. apply wf_delete_nodes.
  - apply wf_insert_normalized.
  - apply preserves_execute. intros d. apply wf_alter_sequences.
Qed.

Lemma wf_insert_version id v : preserves wf_nodes (insert_version id v).
Proof. apply preserves_query_checked. by intros d [] _. Qed.

Lemma wf_compile_sequence s c : preserves wf_nodes (compile_sequence s c).
Proof.
  unfold compile_sequence. preserves_solve; [apply wf_insert_version|].
  apply preserves_execute. intros d. apply wf_alter_sequences.
Qed.

Lemma wf_serve_authoring r : preserves wf_nodes (serve_authoring r).
Proof.
  destruct r; simpl; try (apply preserves_bind; [|intros; apply preserves_ret]).
  - apply wf_create_sequence.
  - apply wf_update_sequence.
  - unfold add_group. apply wf_add_node.
  - unfold add_step. apply wf_add_node.
  - apply wf_replace_sequence_nodes.
  - apply wf_compile_sequence.
Qed.
End authoring.

(** ** Compiling *)

Section compiling.
Context `{Env} `{Sha256}.

(** The versions of a sequence are numbered 1, 2, 3, ... *)
Definition version_numbers (sid : string) (d : db) : list Z :=
  (λ kr, ver_version kr.2) <$>
    select_where (λ kr, ver_sequence_id kr.2 = sid) (versions d).

Definition versions_numbered (d : db) : Prop :=
  ∀ sid, version_numbers sid d ≡ₚ seqZ 1 (Z.of_nat (length (version_numbers sid d))).

Lemma foldr_max_ub (l : list Z) v x : x = v ∨ x ∈ l → (x ≤ foldr Z.max v l)%Z.
Proof.
  induction l as [|y l IH]; simpl; rewrite ?elem_of_cons, ?elem_of_nil; [lia|].
  intros [->|[->|Hx]]; [specialize (IH (or_introl eq_refl))| |specialize (IH (or_intror Hx))];
    lia.
Qed.

Lemma foldr_max_elem (l : list Z) v : foldr Z.max v l = v ∨ foldr Z.max v l ∈ l.
Proof.
  induction l as [|y l IH]; simpl; [by left|]. rewrite elem_of_cons.
  destruct (Z.max_spec y (foldr Z.max v l)) as [[_ ->]|[_ ->]]; naive_solver.
Qed.

Lemma foldr_max_seqZ (l : list Z) v n :
  v :: l ≡ₚ seqZ 1 (Z.of_nat n) → foldr Z.max v l = Z.of_nat n.
Proof.
  intros Hp.
  assert (∀ x, x = v ∨ x ∈ l ↔ (1 ≤ x < 1 + Z.of_nat n)%Z) as Hin.
  { intros x. by rewrite <- elem_of_cons, Hp, elem_of_seqZ. }
  pose proof (proj1 (Hin _) (foldr_max_elem l v)).
  pose proof (foldr_max_ub l v (Z.of_nat n)) as Hn. rewrite Hin in Hn. lia.
Qed.

Lemma next_version_numbered sid d :
  versions_numbered d →
  next_version sid (versions d) = (Z.of_nat (length (version_numbers sid d)) + 1)%Z.
Proof.
  intros Hv. specialize (Hv sid). unfold next_version, version_numbers in *.
  destruct (_ <$> _) as [|v vs]; [done|]. f_equal. by apply foldr_max_seqZ.
Qed.

Lemma version_numbers_insert sid id v d :
  versions d !! id = None →
  version_numbers sid (set_versions (<[id := v]>) d) ≡ₚ
  (if decide (ver_sequence_id v = sid) then [ver_version v] else []) ++ version_numbers sid d.
Proof.
  intros Hid. unfold version_numbers, select_where, set_versions. simpl.
  rewrite map_to_list_insert by done. rewrite filter_cons. simpl.
  by case_decide.
Qed.

Lemma versions_numbered_insert id v d :
  versions d !! id = None → versions_numbered d →
  ver_version v = next_version (ver_sequence_id v) (versions d) →
  versions_numbered (set_versions (<[id := v]>) d).
Proof.
  intros Hid Hd Hv sid. rewrite version_numbers_insert by done. case_decide as Hsid; [|apply Hd].
  subst sid. rewrite Hv, next_version_numbered by done.
  rewrite length_app. cbn [length Nat.add app]. rewrite seqZ_S, <- Permutation_cons_append.
  apply Permutation_cons; [|apply Hd]. lia.
Qed.

(** The versions table is only written by [insert_version]. *)
Lemma numbered_other f d :
  versions (f d) = versions d → versions_numbered d → versions_numbered (f d).
Proof. intros Hf Hd sid. unfold version_numbers. rewrite Hf. apply Hd. Qed.

(** [draft_tree sid d]: what compiling the sequence would freeze. *)
Definition draft_tree (sid : string) (d : db) : list compiled_node :=
  compiled_tree (load_nodes sid d).

Definition draft_version (sid : string) (d : db) : option (string * version_row) :=
  version_with_hash sid (source_hash (draft_tree sid d)) (versions d).

Lemma draft_version_Some sid d id v :
  draft_version sid d = Some (id, v) →
  versions d !! id = Some v ∧ ver_sequence_id v = sid ∧
  ver_source_hash v = source_hash (draft_tree sid d).
Proof.
  unfold draft_version, version_with_hash. intros Hh.
  destruct (select_where _ _) as [|x l] eqn:E; [done|]. simplify_eq/=.
  assert ((id, v) ∈ (id, v) :: l) as Hin by set_solver.
  rewrite <- E, elem_of_select_where in Hin. naive_solver.
Qed.

Lemma draft_version_None sid d id v :
  draft_version sid d = None → versions d !! id = Some v →
  ver_sequence_id v = sid → ver_source_hash v ≠ source_hash (draft_tree sid d).
Proof.
  unfold draft_version, version_with_hash. intros Hh Hv Hs Hx.
  destruct (select_where _ _) as [|x l] eqn:E; [|done].
  eapply (not_elem_of_nil (id, v)). rewrite <- E. by apply elem_of_select_where.
Qed.

(** The row a compilation adds, and the database after it. *)
Definition new_version (sid : string) (compiled_by : option string) (s : session) : version_row :=
  Version sid (next_version sid (versions (cur s))) (source_hash (draft_tree sid (cur s)))
    (draft_tree sid (cur s)) (clock (tick s)) compiled_by.

Definition compiled_db (sid : string) (compiled_by : option string) (s : session) : db :=
  set_sequences (alter (λ row,
    Sequence (sq_name row) (sq_description row) (sq_target_os row) (sq_enabled row)
      (Some (uuid4 (issued s))) (sq_created_at row) (clock (S (tick s))) (sq_created_by row)
      (sq_updated_by row)) sid)
  (set_versions (<[uuid4 (issued s) := new_version sid compiled_by s]>) (cur s)).

Lemma run_compile_existing sid c s id v :
  draft_version sid (cur s) = Some (id, v) → compile_sequence sid c s = (Ret id, s).
Proof.
  intros Hd. unfold compile_sequence. run. unfold draft_version, draft_tree in Hd.
  by rewrite Hd.
Qed.

Lemma insert_version_run id v s :
  insert_version id v s = (Ret tt, on_cur (set_versions (<[id := v]>)) s) ∨
  insert_version id v s = (Exc (IntegrityError "ts_task_sequence_versions"), s).
Proof.
  unfold insert_version. rewrite run_bind, run_query. cbn. rewrite run_checked.
  case_match; eauto.
Qed.

Lemma run_compile_new sid c s :
  draft_version sid (cur s) = None → versions_numbered (cur s) →
  is_Some (sequences (cur s) !! sid) → versions (cur s) !! uuid4 (issued s) = None →
  compile_sequence sid c s =
  (Ret (uuid4 (issued s)), Session (compiled_db sid c s) (compiled_db sid c s)
     (S (S (tick s))) (S (issued s))).
Proof.
  intros Hd Hnum Hseq Hfresh. unfold compile_sequence. run.
  pose proof Hd as Hd'. unfold draft_version, draft_tree in Hd'. rewrite Hd'. run.
  unfold insert_version. run.
  set (ok := negb _ && _ && _).
  assert (ok = true) as ->; [|done].
  unfold ok. rewrite !andb_true_iff, !negb_true_iff. split_and!.
  - apply not_true_iff_false. rewrite known_true, Hfresh. by intros [].
  - by apply known_true.
  - apply exists_where_false. intros k r Hk [Hks Hkv]. simpl in *.
    pose proof (draft_version_None _ _ _ _ Hd Hk Hks) as Hne.
    destruct Hkv as [Hkv|]; [|done].
    assert (ver_version r ∈ version_numbers sid (cur s)) as Hin.
    { unfold version_numbers. apply list_elem_of_fmap. exists (k, r).
      by rewrite elem_of_select_where. }
    rewrite (Hnum sid), elem_of_seqZ in Hin.
    rewrite next_version_numbered in Hkv by done. lia.
Qed.

(** A compilation finds a version, is refused by the database, or adds one. *)
Lemma run_compile_cases sid c s :
  (∃ id v, draft_version sid (cur s) = Some (id, v) ∧ compile_sequence sid c s = (Ret id, s)) ∨
  (∃ e, compile_sequence sid c s =
    (Exc e, Session (cur s) (committed s) (S (tick s)) (S (issued s)))) ∨
  (draft_version sid (cur s) = None ∧ versions (cur s) !! uuid4 (issued s) = None ∧
   compile_sequence sid c s =
   (Ret (uuid4 (issued s)), Session (compiled_db sid c s) (compiled_db sid c s)
      (S (S (tick s))) (S (issued s)))).
Proof.
  destruct (draft_version sid (cur s)) as [[id v]|] eqn:Hd.
  { left. exists id, v. split; [done|]. by eapply run_compile_existing. }
  right. unfold compile_sequence. run. pose proof Hd as Hd'.
  unfold draft_version, draft_tree in Hd'. rewrite Hd'. run.
  unfold insert_version. run. match goal with |- context [if ?b then _ else _] =>
    destruct b eqn:Hok end; [|left; eauto].
  right. rewrite !andb_true_iff, !negb_true_iff in Hok. destruct Hok as [[Hk _] _].
  split_and!; [done| |done]. apply eq_None_not_Some. rewrite <- known_true. by rewrite Hk.
Qed.

(** The version just added is the one the draft is found under. *)
Lemma draft_version_compiled sid c s :
  draft_version sid (cur s) = None → versions (cur s) !! uuid4 (issued s) = None →
  draft_version sid (compiled_db sid c s) = Some (uuid4 (issued s), new_version sid c s).
Proof.
  intros Hd Hfresh. unfold draft_version, version_with_hash.
  change (draft_tree sid (compiled_db sid c s)) with (draft_tree sid (cur s)).
  simpl. set (rows := select_where _ _).
  assert (∀ k r, (k, r) ∈ rows ↔ (k, r) = (uuid4 (issued s), new_version sid c s)) as Hrows.
  { intros k r. unfold rows. rewrite elem_of_select_where, lookup_insert_Some. simpl. split.
    - intros [[Hs Hh] [[<- <-]|[_ Hk]]]; [done|].
      exfalso. by eapply draft_version_None.
    - intros [= -> ->]. split; [done|]. by left. }
  destruct rows as [|[k r] l].
  - exfalso. eapply (not_elem_of_nil (uuid4 (issued s), new_version sid c s)). by apply Hrows.
  - simpl. f_equal. apply Hrows. set_solver.
Qed.

Lemma numbered_compile sid c : preserves versions_numbered (compile_sequence sid c).
Proof.
  intros s Hs. destruct (run_compile_cases sid c s)
    as [(id & v & _ & ->)|[[e ->]|(_ & Hfresh & ->)]]; [done..|].
  assert (versions_numbered (compiled_db sid c s)) as Hn; [|by split].
  apply numbered_other; [done|]. apply versions_numbered_insert; [done|apply Hs|done].
Qed.

Lemma numbered_insert_node id n : preserves versions_numbered (insert_node id n).
Proof. unfold insert_node. apply preserves_query_checked. intros d Hd _. by apply numbered_other. Qed.

Lemma numbered_insert_normalized sid at_ id_map ns :
  preserves versions_numbered (insert_normalized sid at_ id_map ns).
Proof.
  pose proof numbered_insert_node.
  revert id_map. induction ns as [|n ns IH]; intros id_map; simpl; preserves_solve.
Qed.

Lemma numbered_serve_authoring r : preserves versions_numbered (serve_authoring r).
Proof.
  pose proof numbered_insert_node. pose proof numbered_insert_normalized.
  destruct r; simpl; first [apply preserves_bind; [|intros; apply preserves_ret]|idtac];
    unfold create_sequence, update_sequence, add_group, add_step, add_node,
      replace_sequence_nodes; cbv zeta; [..|apply numbered_compile]; preserves_solve;
    first [apply preserves_checked; intros _|apply preserves_execute];
    intros d Hd; by apply numbered_other.
Qed.

(** Compiling a changed draft freezes it: when no version of the sequence has the
    digest of the draft, one is added with the next number and the draft's tree,
    it becomes the sequence's current version, and everything is committed. *)
Theorem compile_sequence_new (sid : string) (c : option string) (s : session) :
  draft_version sid (cur s) = None → versions_numbered (cur s) →
  is_Some (sequences (cur s) !! sid) → versions (cur s) !! uuid4 (issued s) = None →
  ∃ s', compile_sequence sid c s = (Ret (uuid4 (issued s)), s') ∧
    versions (cur s') = <[uuid4 (issued s) := new_version sid c s]> (versions (cur s)) ∧
    ver_version (new_version sid c s) =
      (Z.of_nat (length (version_numbers sid (cur s))) + 1)%Z ∧
    (sequences (cur s') !! sid) ≫= sq_current_version_id = Some (uuid4 (issued s)) ∧
    nodes (cur s') = nodes (cur s) ∧ committed s' = cur s'.
Proof.
  intros Hd Hnum Hseq Hfresh. eexists. split; [by apply run_compile_new|]. simpl.
  split_and!; try done.
  - by apply next_version_numbered.
  - destruct Hseq as [row Hrow]. rewrite lookup_alter_eq, Hrow. done.
Qed.

(** Compiling is idempotent: after a successful compilation, compiling again
    returns the same version and changes nothing, not even the clock. *)
Theorem compile_sequence_idempotent (sid : string) (c c' : option string) (s s' : session)
    (id : string) :
  compile_sequence sid c s = (Ret id, s') →
  compile_sequence sid c' s' = (Ret id, s').
Proof.
  destruct (run_compile_cases sid c s) as [(id' & v & Hv & ->)|[[e ->]|(Hd & Hfresh & ->)]].
  - intros [= <- <-]. by eapply run_compile_existing.
  - done.
  - intros [= <- <-]. eapply run_compile_existing. by apply draft_version_compiled.
Qed.

(** Each version carries the digest of its own tree. *)
Definition hashes_match (d : db) : Prop :=
  ∀ id v, versions d !! id = Some v → ver_source_hash v = source_hash (ver_compiled_tree v).

(** The free-form fields of a node are values Python can build. *)
Definition wf_node_json (n : compiled_node) : Prop :=
  wf_json (cn_condition n) ∧ wf_json (cn_variables n) ∧ wf_json (cn_params n).

(** A node with the keys of its free-form fields in order. *)
Definition stable_node (n : compiled_node) : compiled_node :=
  CompiledNode (cn_id n) (cn_parent_id n) (cn_position n) (cn_node_type n) (cn_name n) (cn_kind n)
    (cn_phase n) (cn_enabled n) (stable_json_value (cn_condition n))
    (stable_json_value (cn_variables n)) (stable_json_value (cn_params n)) (cn_content_refs n)
    (cn_continue_on_error n) (cn_retry_count n) (cn_retry_delay_seconds n) (cn_timeout_seconds n)
    (cn_reboot_behavior n).

Lemma keys_NoDup (l : list string) : bool_decide (NoDup l) = true → NoDup l.
Proof. apply bool_decide_eq_true. Qed.

Lemma wf_nodes_json t :
  forallb (λ n, wf_jsonb (cn_condition n) && wf_jsonb (cn_variables n) && wf_jsonb (cn_params n)) t
    = true → Forall wf_node_json t.
Proof.
  rewrite forallb_forall, Forall_forall. intros Ht n Hn%list_elem_of_In%Ht.
  rewrite !andb_true_iff in Hn. destruct Hn as [[? ?] ?]. split_and!; by apply wf_jsonb_wf.
Qed.

Lemma wf_json_texts l : Forall wf_json (JStr <$> l).
Proof. apply Forall_fmap, Forall_true. intros x. constructor. Qed.

Lemma wf_json_option {A} (f : A → json) (o : option A) :
  (∀ a, wf_json (f a)) → wf_json (json_of_option f o).
Proof. intros Hf. destruct o; [apply Hf|constructor]. Qed.

Lemma compiled_node_json_wf n : wf_node_json n → wf_json (compiled_node_json n).
Proof.
  intros (Hc & Hv & Hp). constructor.
  - apply keys_NoDup. by vm_compute.
  - repeat (apply Forall_cons; split); cbn [snd]; try done; try apply Forall_nil_2;
      try (by constructor); try (apply wf_json_option; intros; constructor).
    constructor. apply wf_json_texts.
Qed.

Lemma texts_inj (l l' : list string) : JStr <$> l = JStr <$> l' → l = l'.
Proof.
  revert l'. induction l as [|x l IH]; intros [|y l'] E; try done. csimpl in E.
  injection E as -> E. f_equal. by apply IH.
Qed.

Lemma stable_texts (l : list string) : stable_json_value (JArr (JStr <$> l)) = JArr (JStr <$> l).
Proof. cbn [stable_json_value]. by rewrite <- list_fmap_compose. Qed.

Lemma texts_option x y :
  stable_json_value (json_of_option JStr x) = stable_json_value (json_of_option JStr y) → x = y.
Proof. destruct x, y; cbn; congruence. Qed.

Lemma numbers_option x y :
  stable_json_value (json_of_option JInt x) = stable_json_value (json_of_option JInt y) → x = y.
Proof. destruct x, y; cbn; congruence. Qed.

(** Nodes with the same JSON form are the same, up to the order of keys. *)
Lemma compiled_node_json_inj n n' :
  stable_json_value (compiled_node_json n) = stable_json_value (compiled_node_json n') →
  stable_node n = stable_node n'.
Proof.
  intros E. assert (∀ k, stable_json_value <$> assoc k
      match compiled_node_json n with JObj o => o | _ => [] end =
    stable_json_value <$> assoc k match compiled_node_json n' with JObj o => o | _ => [] end) as Hk.
  { intros k. apply stable_obj_assoc; [apply keys_NoDup; by vm_compute..|exact E]. }
  clear E.
  destruct n as [a b c d e f g h i j k0 l m o p q r],
    n' as [a' b' c' d' e' f' g' h' i' j' k0' l' m' o' p' q' r'].
  assert (∀ k x y, assoc k match compiled_node_json (CompiledNode a b c d e f g h i j k0 l m o p q r)
      with JObj o => o | _ => [] end = Some x →
    assoc k match compiled_node_json (CompiledNode a' b' c' d' e' f' g' h' i' j' k0' l' m' o' p' q' r')
      with JObj o => o | _ => [] end = Some y →
    stable_json_value x = stable_json_value y) as Hf.
  { intros k x y Hx Hy. specialize (Hk k). rewrite Hx, Hy in Hk. by injection Hk. }
  clear Hk.
  pose proof (Hf "id" _ _ eq_refl eq_refl) as [= ->].
  pose proof (texts_option _ _ (Hf "parent_id" _ _ eq_refl eq_refl)) as E. cbn in E. subst.
  pose proof (Hf "position" _ _ eq_refl eq_refl) as [= ->].
  assert (d = d') as ->.
  { pose proof (Hf "node_type" _ _ eq_refl eq_refl) as Ht. by destruct d, d'. }
  pose proof (Hf "name" _ _ eq_refl eq_refl) as [= ->].
  pose proof (texts_option _ _ (Hf "kind" _ _ eq_refl eq_refl)) as E. cbn in E. subst.
  pose proof (Hf "phase" _ _ eq_refl eq_refl) as [= ->].
  pose proof (Hf "enabled" _ _ eq_refl eq_refl) as [= ->].
  pose proof (Hf "condition" _ _ eq_refl eq_refl) as Hi.
  pose proof (Hf "variables" _ _ eq_refl eq_refl) as Hj.
  pose proof (Hf "params" _ _ eq_refl eq_refl) as Hp.
  pose proof (Hf "content_refs" _ _ eq_refl eq_refl) as Hl.
  rewrite !stable_texts in Hl. injection Hl as ->%texts_inj.
  pose proof (Hf "continue_on_error" _ _ eq_refl eq_refl) as [= ->].
  pose proof (Hf "retry_count" _ _ eq_refl eq_refl) as [= ->].
  pose proof (Hf "retry_delay_seconds" _ _ eq_refl eq_refl) as [= ->].
  pose proof (numbers_option _ _ (Hf "timeout_seconds" _ _ eq_refl eq_refl)) as E. cbn in E. subst.
  pose proof (Hf "reboot_behavior" _ _ eq_refl eq_refl) as [= ->].
  cbn in Hi, Hj, Hp. unfold stable_node. cbn. by rewrite Hi, Hj, Hp.
Qed.

Lemma tree_source_inj t t' :
  Forall wf_node_json t → Forall wf_node_json t' → tree_source t = tree_source t' →
  stable_node <$> t = stable_node <$> t'.
Proof.
  intros Ht Ht' E.
  assert (∀ t, Forall wf_node_json t → wf_json (JArr (compiled_node_json <$> t))) as Hwf.
  { intros u Hu. constructor. apply Forall_fmap. eapply Forall_impl; [exact Hu|].
    apply compiled_node_json_wf. }
  apply json_dumps_inj in E; [|by apply Hwf..].
  assert ((stable_json_value ∘ compiled_node_json) <$> t =
          (stable_json_value ∘ compiled_node_json) <$> t') as El.
  { rewrite !list_fmap_compose. by apply (f_equal (λ j, match j with JArr l => l | _ => [] end)) in E. }
  clear Ht Ht' E. revert t' El. induction t as [|n t IH]; intros [|n' t'] E; try done.
  cbn. f_equal.
  - apply compiled_node_json_inj. exact (f_equal (λ l, default JNull (head l)) E).
  - apply IH. exact (f_equal tail E).
Qed.

End compiling.

(** ** Examples

    A clock that ticks once a second, identifiers [id0], [id1], ..., and the real
    digest. *)
Module AuthoringExample.
#[export] Instance env : Env := {|
  clock n := (1000000 * Z.of_nat n)%Z;
  uuid4 n := "id" +:+ pretty n
|}.
#[export] Instance sha : Sha256 := sha256_hexdigest.

Definition start : session := Session empty_db empty_db 0 0.

Definition raw (name kind : string) : builder_node :=
  BuilderNode None None None None (Some "step") (Some name) None (Some kind) (Some "full_os")
    (Some true) JNull JNull JNull [] false None None None None.

Definition draft_a : list builder_node := [raw "one" "run_script"; raw "two" "capture_hash"].
Definition draft_b : list builder_node := [raw "one" "run_script"].

(** The session after [m]. *)
Definition after {A} (m : eff session A) (s : session) : session := (m s).2.

Definition created : session := after (create_sequence "S" EmptyString "Windows" None) start.
Definition drafted : session := after (replace_sequence_nodes "id0" draft_a None) created.
Definition compiled : session := after (compile_sequence "id0" None) drafted.
Definition redrafted : session := after (replace_sequence_nodes "id0" draft_b None) compiled.

Example start_runs :
  (replace_sequence_nodes "id0" draft_a None created).1 = Ret tt ∧
  (compile_sequence "id0" None drafted).1 = Ret "id3" ∧
  (compile_sequence "id0" None redrafted).1 = Ret "id5".
Proof. by vm_compute. Qed.

Lemma normalize_builder_nodes_spec_witness :
  ∃ ns, normalize_builder_nodes draft_a = Ret ns ∧ normalized_tree ns ∧ length ns = 2%nat.
Proof.
  eexists. split; [vm_compute; reflexivity|].
  destruct (normalize_builder_nodes_spec draft_a _ eq_refl) as (Ht & Hl & _).
  split; [exact Ht|exact Hl].
Defined.

Lemma start_wf : holds_in wf_nodes start.
Proof. split; split; simpl; intros *; by rewrite lookup_empty. Qed.

Lemma start_numbered : holds_in versions_numbered start.
Proof. by split; intros sid; vm_compute. Qed.

Lemma drafted_wf : holds_in wf_nodes drafted.
Proof. apply wf_replace_sequence_nodes, wf_create_sequence, start_wf. Qed.

Lemma drafted_numbered : holds_in versions_numbered drafted.
Proof. by split; intros sid; vm_compute. Qed.

Lemma redrafted_numbered : versions_numbered (cur redrafted).
Proof.
  intros sid. unfold version_numbers.
  replace (map_to_list (versions (cur redrafted)))
    with (map_to_list (versions (cur compiled))) by (by vm_compute).
  assert (holds_in versions_numbered compiled) as [Hn _]; [|apply (Hn sid)].
  unfold compiled, after. generalize drafted_numbered.
  apply (numbered_compile "id0" None).
Qed.

Lemma compile_sequence_new_witness :
  ∃ s', compile_sequence "id0" None redrafted = (Ret "id5", s') ∧
    (sequences (cur s') !! "id0") ≫= sq_current_version_id = Some "id5".
Proof.
  destruct (compile_sequence_new "id0" None redrafted) as (s' & H1 & _ & _ & H2 & _).
  - by vm_compute.
  - apply redrafted_numbered.
  - vm_compute. eauto.
  - by vm_compute.
  - exists s'. split; [exact H1|exact H2].
Defined.

Lemma compile_sequence_idempotent_witness :
  compile_sequence "id0" (Some "someone else") compiled = (Ret "id3", compiled).
Proof.
  apply (compile_sequence_idempotent "id0" None (Some "someone else") drafted compiled "id3").
  vm_compute. reflexivity.
Defined.

Lemma drafted_no_versions : versions (cur drafted) = ∅.
Proof. by vm_compute. Qed.

Lemma drafted_no_version id : versions (cur drafted) !! id = None.
Proof. rewrite drafted_no_versions. apply lookup_empty. Qed.

Lemma drafted_wf_tree : Forall wf_node_json (draft_tree "id0" (cur drafted)).
Proof. apply wf_nodes_json. vm_compute. reflexivity. Qed.

Lemma drafted_hashes : hashes_match (cur drafted).
Proof. intros id v Hv. pose proof (drafted_no_version id). congruence. Qed.


(** Saving the very tree that was compiled and compiling again makes a new
    version: the nodes are inserted under new identifiers, which are part of the
    text that is hashed. *)
Example resaved_draft_is_a_new_version :
  (compile_sequence "id0" None
    (after (replace_sequence_nodes "id0" draft_a None) compiled)).1 = Ret "id6".
Proof. by vm_compute. Qed.
End AuthoringExample.
