(* ===== verification/Content.v ===== *)
(** * Content items, versions and the manifest of a run

    The content half of [web/ts_engine_pg.py]: a catalogue of items with numbered
    versions, and the manifest that pins, for one run, the version of every item
    its plan refers to. *)

From stdpp Require Import base gmap list strings pretty sorting.
From Stdlib Require Import ZArith Lia.
From S2P Require Import Prelude Json TsData Sequences.

Definition CONTENT_TYPES : list string := ["app"; "package"; "script"; "driver"; "os_image"].

(** ** Constraints of the tables *)

(** PRIMARY KEY, UNIQUE (name), CHECK (content_type IN ...) *)
Definition insert_content_item (id : string) (i : content_item_row) : eff session unit :=
  d ← query (λ d, d);
  checked (negb (known (content_items d) id) &&
           bool_decide (ci_content_type i ∈ CONTENT_TYPES) &&
           negb (exists_where (λ kr, ci_name kr.2 = ci_name i) (content_items d)))
    "ts_content_items" (set_content_items (<[id := i]>)).

(** PRIMARY KEY, the reference to the item, UNIQUE (content_item_id, version) and
    CHECK (reboot_behavior IN ...) *)
Definition insert_content_version (id : string) (v : content_version_row) : eff session unit :=
  d ← query (λ d, d);
  checked (negb (known (content_versions d) id) &&
           known (content_items d) (cv_content_item_id v) &&
           bool_decide (cv_reboot_behavior v ∈ REBOOT_BEHAVIORS) &&
           negb (exists_where (λ kr, cv_content_item_id kr.2 = cv_content_item_id v ∧
             cv_version kr.2 = cv_version v) (content_versions d)))
    "ts_content_versions" (set_content_versions (<[id := v]>)).

(** The row of the run that has the logical name, if there is one. *)
Definition pinned (run_id logical_name : string) (t : gmap string manifest_row) : bool :=
  exists_where (λ kr, mf_run_id kr.2 = run_id ∧ mf_logical_name kr.2 = logical_name) t.

(** PRIMARY KEY, the two references and UNIQUE (run_id, logical_name) *)
Definition insert_manifest (id : string) (m : manifest_row) : eff session unit :=
  d ← query (λ d, d);
  checked (negb (known (manifest d) id) && known (runs d) (mf_run_id m) &&
           known (content_versions d) (mf_content_version_id m) &&
           negb (pinned (mf_run_id m) (mf_logical_name m) (manifest d)))
    "ts_run_content_manifest" (set_manifest (<[id := m]>)).

(** The same with ON CONFLICT (run_id, logical_name) DO NOTHING *)
Definition insert_manifest_or_nothing (id : string) (m : manifest_row) : eff session unit :=
  d ← query (λ d, d);
  if pinned (mf_run_id m) (mf_logical_name m) (manifest d) then mret tt
  else insert_manifest id m.

Section operations.
Context `{Env}.

(** ** The catalogue *)

Definition create_content_item (name content_type description : string) : eff session string :=
  if bool_decide (content_type ∉ CONTENT_TYPES) then
    raise (ValueError "content_type must be one of: app, driver, os_image, package, script")
  else
    item_id ← new_id;
    now ← now;
    insert_content_item item_id (ContentItem name content_type (Some description) true now now) ;;
    commit ;;
    mret item_id.

Definition create_content_version (content_item_id version sha256 source_uri : string)
    (size_bytes : option Z) (architecture target_os reboot_behavior : string)
    (conditions metadata : json) (created_by : option string) : eff session string :=
  if bool_decide (reboot_behavior ∉ REBOOT_BEHAVIORS) then
    raise (ValueError "reboot_behavior must be one of: deferred, none, optional, required")
  else
    version_id ← new_id;
    now ← now;
    insert_content_version version_id
      (ContentVersion content_item_id version (PyStr.lower sha256) size_bytes source_uri
         architecture target_os reboot_behavior (jor conditions (JObj [])) (jor metadata (JObj []))
         now created_by) ;;
    commit ;;
    mret version_id.

(** [ORDER BY created_at DESC, id DESC] *)
Definition latest_order :
    string * content_version_row → string * content_version_row → comparison :=
  cmp_then (cmp_desc (cmp_on (λ kr, cv_created_at kr.2) cmp_Z)) (cmp_desc (cmp_on fst cmp_str)).

(** The latest version of an item. *)
Definition latest_version (content_item_id : string) (d : db) :
    option (string * content_version_row) :=
  head (isort latest_order
    (select_where (λ kr, cv_content_item_id kr.2 = content_item_id) (content_versions d))).

Definition get_content_item (item_id : string) :
    eff session (content_item_row * option (string * content_version_row)) :=
  d ← query (λ d, d);
  match content_items d !! item_id with
  | None => raise (ValueError ("content item not found: " +:+ item_id))
  | Some item => mret (item, latest_version item_id d)
  end.

Definition get_content_version (version_id : string) : eff session content_version_row :=
  d ← query (λ d, d);
  match content_versions d !! version_id with
  | None => raise (ValueError ("content version not found: " +:+ version_id))
  | Some v => mret v
  end.

(** ** Manifest rows as the callers see them *)

Record manifest_entry : Type := ManifestEntry {
  me_logical_name : string;
  me_content_type : string;
  me_version : string;
  me_sha256 : string;
  me_source_uri : string;
  me_required_phase : string;
  me_staging_path : option string;
  me_status : string;
  me_metadata : option json
}.

Definition manifest_entry_of (m : manifest_row) (v : content_version_row) : manifest_entry :=
  ManifestEntry (mf_logical_name m) (mf_content_type m) (cv_version v) (mf_sha256 m)
    (mf_source_uri m) (mf_required_phase m) (mf_staging_path m) (mf_status m)
    (if truthy (mf_metadata m) then Some (mf_metadata m) else None).

(** [FROM ts_run_content_manifest m JOIN ts_content_versions cv ON cv.id =
    m.content_version_id] *)
Definition join_version (d : db) (kr : string * manifest_row) :
    option (string * manifest_row * content_version_row) :=
  (λ v, (kr, v)) <$> content_versions d !! mf_content_version_id kr.2.

(** [ORDER BY m.created_at, m.logical_name] *)
Definition manifest_order : string * manifest_row → string * manifest_row → comparison :=
  cmp_then (cmp_on (λ kr, mf_created_at kr.2) cmp_Z) (cmp_on (λ kr, mf_logical_name kr.2) cmp_str).

Definition run_manifest_rows (run_id : string) (d : db) : list (string * manifest_row) :=
  isort manifest_order (select_where (λ kr, mf_run_id kr.2 = run_id) (manifest d)).

Definition list_run_manifest (run_id : string) : eff session (list manifest_entry) :=
  query (λ d, (λ j, manifest_entry_of j.1.2 j.2) <$>
    omap (join_version d) (run_manifest_rows run_id d)).

(** [(id, run_id, entry)] *)
Definition get_manifest_item (manifest_id : string) :
    eff session (string * string * manifest_entry) :=
  d ← query (λ d, d);
  match manifest d !! manifest_id ≫= (λ m, join_version d (manifest_id, m)) with
  | None => raise (ValueError ("manifest item not found: " +:+ manifest_id))
  | Some (id, m, v) => mret (id, mf_run_id m, manifest_entry_of m v)
  end.

(** [{**(base or {}), **(patch or {})}] for two values that are objects or absent. *)
Definition fields (j : json) : list (string * json) :=
  match j with JObj o => o | _ => [] end.

Fixpoint put (k : string) (v : json) (o : list (string * json)) : list (string * json) :=
  match o with
  | [] => [(k, v)]
  | (k', v') :: o => if decide (k = k') then (k', v) :: o else (k', v') :: put k v o
  end.

Definition merge (base patch : json) : json :=
  JObj (foldl (λ o kv, put kv.1 kv.2 o) (fields base) (fields patch)).

Definition add_manifest_item (run_id content_version_id logical_name required_phase : string)
    (staging_path : option string) (required : bool) (metadata : json) : eff session string :=
  d ← query (λ d, d);
  match content_versions d !! content_version_id ≫= (λ v,
    (λ i, (v, i)) <$> content_items d !! cv_content_item_id v) with
  | None => raise (ValueError ("content version not found: " +:+ content_version_id))
  | Some (v, item) =>
      manifest_id ← new_id;
      now ← now;
      insert_manifest manifest_id
        (Manifest run_id content_version_id logical_name (ci_content_type item) required_phase
           required (cv_source_uri v) (cv_sha256 v) (cv_size_bytes v) staging_path "pending" 0
           None None None (merge (cv_metadata v) metadata) now) ;;
      commit ;;
      mret manifest_id
  end.

(** ** Staging *)

Definition STAGING_STATUSES : list string := ["pending"; "staging"; "staged"; "failed"].

(** The UPDATE of [mark_manifest_item_staging]. *)
Definition staged_row (status agent_id : string) (staging_path error : option string) (now : Z)
    (m : manifest_row) : manifest_row :=
  Manifest (mf_run_id m) (mf_content_version_id m) (mf_logical_name m) (mf_content_type m)
    (mf_required_phase m) (mf_required m) (mf_source_uri m) (mf_sha256 m) (mf_size_bytes m)
    (coalesce staging_path (mf_staging_path m)) status
    (mf_staging_attempts m + if decide (status = "staging") then 1 else 0)%Z
    (Some agent_id)
    (if decide (status = "staged") then Some now else mf_staged_at m)
    (if decide (status = "failed") then error else None)
    (mf_metadata m) (mf_created_at m).

Definition mark_manifest_item_staging (manifest_id run_id status agent_id : string)
    (staging_path error : option string) : eff session manifest_row :=
  if bool_decide (status ∉ STAGING_STATUSES) then
    raise (ValueError ("unsupported content staging status: " +:+ status))
  else
    now ← now;
    d ← query (λ d, d);
    match manifest d !! manifest_id with
    | Some m =>
        if decide (mf_run_id m = run_id) then
          let m' := staged_row status agent_id staging_path error now m in
          execute (set_manifest (<[manifest_id := m']>)) ;;
          commit ;;
          mret m'
        else raise (ValueError ("content manifest item not found: " +:+ manifest_id))
    | None => raise (ValueError ("content manifest item not found: " +:+ manifest_id))
    end.

(** ** Pinning *)

(** [ORDER BY ordinal] *)
Definition ordinal_order : string * step_row → string * step_row → comparison :=
  cmp_on (λ kr, Z.of_nat (ps_ordinal (st_plan kr.2))) cmp_Z.

Definition run_steps (run_id : string) (d : db) : list (string * step_row) :=
  isort ordinal_order (select_where (λ kr, ps_run_id (st_plan kr.2) = run_id) (steps d)).

(** [refs.setdefault(logical_name, phase)] *)
Definition setdefault (refs : list (string * string)) (logical_name phase : string) :
    list (string * string) :=
  match assoc logical_name refs with
  | Some _ => refs
  | None => refs ++ [(logical_name, phase)]
  end.

(** The references of the steps, each with the phase of the first step that has it. *)
Definition step_refs (ss : list (string * step_row)) : list (string * string) :=
  foldl (λ refs kr, foldl (λ refs name, setdefault refs name (ps_phase (st_plan kr.2)))
    refs (ps_content_refs (st_plan kr.2))) [] ss.

Definition default_roots : gmap string string :=
  <["winpe" := "X:\autopilot\content"]>
  (<["full_os" := "C:\ProgramData\ProxmoxVEAutopilot\Content"]>
  {["any" := "C:\ProgramData\ProxmoxVEAutopilot\Content"]}).

(** [roots.get(phase, roots["any"])]; ["any"] is always there. *)
Definition staging_root (roots : gmap string string) (phase : string) : string :=
  default (default EmptyString (roots !! "any")) (roots !! phase).

(** The enabled item with the name and its latest version.  Names are unique. *)
Definition find_content (logical_name : string) (d : db) :
    option (content_item_row * (string * content_version_row)) :=
  head (select_where (λ kr, ci_name kr.2 = logical_name ∧ ci_enabled kr.2 = true)
    (content_items d)) ≫= (λ ki, (λ v, (ki.2, v)) <$> latest_version ki.1 d).

(** One round of the loop of [resolve_run_content_manifest]. *)
Definition pin_ref (run_id : string) (roots : gmap string string) (ref : string * string) :
    eff session unit :=
  let '(logical_name, phase) := ref in
  found ← query (find_content logical_name);
  match found with
  | None => raise (ValueError ("content reference has no version: " +:+ logical_name))
  | Some (item, (version_id, v)) =>
      let staging_path :=
        staging_root roots phase +:+ "\" +:+ logical_name +:+ "\" +:+ cv_version v in
      id ← new_id;
      now ← now;
      insert_manifest_or_nothing id
        (Manifest run_id version_id logical_name (ci_content_type item) phase true
           (cv_source_uri v) (cv_sha256 v) (cv_size_bytes v) (Some staging_path) "pending" 0
           None None None (jor (cv_metadata v) (JObj [])) now)
  end.

Definition resolve_run_content_manifest (run_id : string) (staging_roots : gmap string string) :
    eff session (list manifest_entry) :=
  let roots := staging_roots ∪ default_roots in
  ss ← query (run_steps run_id);
  for_each (step_refs ss) (pin_ref run_id roots) ;;
  commit ;;
  list_run_manifest run_id.

Definition get_step (step_id : string) : eff session step_row :=
  d ← query (λ d, d);
  match steps d !! step_id with
  | None => raise (ValueError ("step not found: " +:+ step_id))
  | Some st => mret st
  end.

(** The pins of the run among [refs], with their identifiers, by logical name. *)
Definition pinned_entries (run_id : string) (refs : list string) (d : db) :
    list (string * manifest_entry) :=
  (λ j, (j.1.1, manifest_entry_of j.1.2 j.2)) <$>
    omap (join_version d)
      (isort (cmp_on (λ kr, mf_logical_name kr.2) cmp_str)
        (select_where (λ kr, mf_run_id kr.2 = run_id ∧ mf_logical_name kr.2 ∈ refs) (manifest d))).

Definition content_for_step (step_id : string) : eff session (list (string * manifest_entry)) :=
  step ← get_step step_id;
  match ps_content_refs (st_plan step) with
  | [] => mret []
  | refs => query (pinned_entries (ps_run_id (st_plan step)) refs)
  end.
End operations.

#[export] Typeclasses Opaque latest_order manifest_order ordinal_order.

#[export] Instance latest_order_ord : OrdCmp latest_order.
Proof. unfold latest_order. apply _. Qed.

#[export] Instance manifest_order_ord : OrdCmp manifest_order.
Proof. unfold manifest_order. apply _. Qed.

#[export] Instance ordinal_order_ord : OrdCmp ordinal_order.
Proof. unfold ordinal_order. apply _. Qed.

(** ** The references of a plan *)

Lemma setdefault_lookup refs name phase k :
  assoc k (setdefault refs name phase) =
  match assoc k refs with
  | Some p => Some p
  | None => if decide (k = name) then Some phase else None
  end.
Proof.
  unfold setdefault. destruct (assoc name refs) eqn:E.
  - case_decide; [subst; by rewrite E|by destruct (assoc k refs)].
  - clear E. induction refs as [|[k' p'] refs IH]; simpl.
    + by repeat case_decide.
    + destruct (decide (k = k')); [done|]. apply IH.
Qed.

(** The phase of the first step of [ss] that refers to [name]. *)
Fixpoint first_phase (name : string) (ss : list (string * step_row)) : option string :=
  match ss with
  | [] => None
  | kr :: ss =>
      if decide (name ∈ ps_content_refs (st_plan kr.2)) then Some (ps_phase (st_plan kr.2))
      else first_phase name ss
  end.

Lemma setdefaults_lookup names phase refs k :
  assoc k (foldl (λ refs name, setdefault refs name phase) refs names) =
  match assoc k refs with
  | Some p => Some p
  | None => if decide (k ∈ names) then Some phase else None
  end.
Proof.
  revert refs. induction names as [|n names IH]; intros refs; simpl.
  - by destruct (assoc k refs).
  - rewrite IH, setdefault_lookup. destruct (assoc k refs); [done|].
    repeat case_decide; set_solver.
Qed.

Lemma step_refs_lookup ss k : assoc k (step_refs ss) = first_phase k ss.
Proof.
  unfold step_refs.
  assert (∀ refs, assoc k (foldl (λ refs kr, foldl (λ refs name, setdefault refs name
      (ps_phase (st_plan kr.2))) refs (ps_content_refs (st_plan kr.2))) refs ss) =
    match assoc k refs with Some p => Some p | None => first_phase k ss end) as H; [|apply H].
  induction ss as [|kr ss IH]; intros refs; simpl; [by destruct (assoc k refs)|].
  rewrite IH, setdefaults_lookup. destruct (assoc k refs); [done|]. by case_decide.
Qed.

Lemma setdefault_NoDup refs name phase :
  NoDup refs.*1 → NoDup (setdefault refs name phase).*1.
Proof.
  unfold setdefault. intros Hnd. destruct (assoc name refs) eqn:E; [done|].
  rewrite fmap_app. apply NoDup_app. split_and!; [done| |apply NoDup_singleton].
  intros x Hx ->%list_elem_of_singleton. by apply assoc_None in E.
Qed.

Lemma step_refs_NoDup ss : NoDup (step_refs ss).*1.
Proof.
  unfold step_refs. apply (foldl_preserves (λ refs, NoDup refs.*1)); [constructor|].
  intros refs kr Hnd. apply (foldl_preserves (λ refs, NoDup refs.*1)); [done|].
  intros. by apply setdefault_NoDup.
Qed.

Lemma assoc_is_Some_elem {A} k (o : list (string * A)) :
  is_Some (assoc k o) ↔ ∃ a, (k, a) ∈ o.
Proof.
  induction o as [|[k' a'] o IH]; simpl.
  - split; [by intros []|]. intros [a Ha]. by apply not_elem_of_nil in Ha.
  - case_decide as Hk.
    + subst. split; [intros _|eauto]. exists a'. set_solver.
    + rewrite IH. split; intros [a Ha]; exists a; set_solver.
Qed.

Lemma step_refs_elem ss kr name :
  kr ∈ ss → name ∈ ps_content_refs (st_plan kr.2) → ∃ phase, (name, phase) ∈ step_refs ss.
Proof.
  intros Hkr Hn. apply assoc_is_Some_elem. rewrite step_refs_lookup.
  induction Hkr as [x l|x y l _ IH]; simpl; case_decide; naive_solver.
Qed.

(** ** Pinning *)

(** [m] pins, for the run, the version of [name] that the catalogue of [d] offers. *)
Definition pin_of (run_id name phase : string) (d : db) (m : manifest_row) : Prop :=
  ∃ item version_id v, find_content name d = Some (item, (version_id, v)) ∧
    mf_run_id m = run_id ∧ mf_logical_name m = name ∧ mf_required_phase m = phase ∧
    mf_content_version_id m = version_id ∧ mf_sha256 m = cv_sha256 v ∧
    mf_source_uri m = cv_source_uri v ∧ mf_size_bytes m = cv_size_bytes v ∧
    mf_content_type m = ci_content_type item ∧ mf_status m = "pending" ∧
    mf_required m = true ∧ mf_staging_attempts m = 0%Z.

Lemma pinned_true run_id name t :
  pinned run_id name t = true ↔
  ∃ id m, t !! id = Some m ∧ mf_run_id m = run_id ∧ mf_logical_name m = name.
Proof. unfold pinned. by rewrite exists_where_true. Qed.

Lemma pinned_mono run_id name t t' :
  t ⊆ t' → pinned run_id name t = true → pinned run_id name t' = true.
Proof.
  rewrite !pinned_true. intros Hsub (id & m & Hm & ? & ?).
  exists id, m. split; [by eapply lookup_weaken|done].
Qed.

Section pinning.
Context `{Env}.

(** Pinning one reference raises without a trace, finds the pin, or adds it. *)
Lemma pin_ref_cases run_id roots name phase s :
  (∃ e s', pin_ref run_id roots (name, phase) s = (Exc e, s')) ∨
  (∃ s', pin_ref run_id roots (name, phase) s = (Ret tt, s') ∧
     committed s' = committed s ∧ is_Some (find_content name (cur s)) ∧
     (pinned run_id name (manifest (cur s)) = true ∧ cur s' = cur s ∨
      pinned run_id name (manifest (cur s)) = false ∧
      ∃ id m, manifest (cur s) !! id = None ∧ cur s' = set_manifest (<[id := m]>) (cur s) ∧
        pin_of run_id name phase (cur s) m)).
Proof.
  unfold pin_ref. run.
  destruct (find_content name (cur s)) as [[item [vid v]]|] eqn:Hf; [|left; run; eauto].
  run. unfold insert_manifest_or_nothing. run.
  destruct (pinned run_id name (manifest (cur s))) eqn:Hp.
  { right. eexists. run. split_and!; eauto. }
  unfold insert_manifest. run.
  match goal with |- context [if ?b then _ else _] => destruct b eqn:Hok end; [right|left; eauto].
  rewrite !andb_true_iff, negb_true_iff in Hok. destruct Hok as [[[Hid _] _] _].
  eexists. split; [done|]. simpl. split_and!; [done|eauto|right]. split; [done|].
  eexists _, _. split; [|split; [done|]].
  - apply eq_None_not_Some. rewrite <- known_true. by rewrite Hid.
  - exists item, vid, v. by split_and!.
Qed.

(** What the loop has done when it ends. *)
Definition pins (run_id : string) (refs : list (string * string)) (d : db)
    (t : gmap string manifest_row) : Prop :=
  manifest d ⊆ t ∧
  (∀ name phase, (name, phase) ∈ refs → pinned run_id name t = true) ∧
  (∀ id m, t !! id = Some m → manifest d !! id = Some m ∨
     ∃ name phase, (name, phase) ∈ refs ∧ pinned run_id name (manifest d) = false ∧
       pin_of run_id name phase d m).

Lemma pin_refs_spec run_id roots refs s s' :
  for_each refs (pin_ref run_id roots) s = (Ret tt, s') →
  committed s' = committed s ∧
  ∃ t, cur s' = set_manifest (λ _, t) (cur s) ∧ pins run_id refs (cur s) t.
Proof.
  revert s. induction refs as [|[name phase] refs IH]; intros s; cbn [for_each].
  { intros [= <-]. split; [done|]. exists (manifest (cur s)). split; [by destruct s as [[]]|].
    split_and!; [done|set_solver|eauto]. }
  rewrite run_bind.
  destruct (pin_ref_cases run_id roots name phase s)
    as [(e & s1 & ->)|(s1 & -> & Hc & _ & Hcase)]; [done|].
  intros Hloop. destruct (IH s1 Hloop) as (Hc' & t & Ht & Hsub & Hall & Honly).
  split; [congruence|]. exists t.
  destruct Hcase as [[Hp Hs1]|(Hp & id & m & Hid & Hs1 & Hpin)]; rewrite Hs1 in *.
  - split; [done|]. split_and!; [done| |].
    + intros n p [[= -> ->]|Hin]%elem_of_cons; [by eapply pinned_mono|by eapply Hall].
    + intros id m Hm. destruct (Honly id m Hm) as [|(n & p & ? & ?)]; [by left|right].
      exists n, p. set_solver.
  - split; [done|]. simpl in Hsub.
    assert (t !! id = Some m) as Hm.
    { eapply lookup_weaken; [|done]. apply lookup_insert_eq. }
    split_and!.
    + etrans; [|done]. by apply insert_subseteq.
    + intros n p [[= -> ->]|Hin]%elem_of_cons; [|by eapply Hall].
      apply pinned_true. exists id, m. destruct Hpin as (? & ? & ? & ?). naive_solver.
    + intros id' m' Hm'. destruct (Honly id' m' Hm') as [Hold|(n & p & Hin & Hf & Hpo)].
      * simpl in Hold. apply lookup_insert_Some in Hold as [[<- <-]|[_ ?]]; [right|by left].
        exists name, phase. set_solver.
      * right. exists n, p. split; [set_solver|]. split; [|done].
        apply not_true_iff_false. intros Ht'. simpl in Hf.
        rewrite (pinned_mono run_id n _ (<[id := m]> (manifest (cur s))) ltac:(by apply insert_subseteq) Ht')
          in Hf. done.
Qed.

(** ** The invariant of the content tables *)

(** [m] carries the digest, the address and the size of the version it names. *)
Definition pin_matches (t : gmap string content_version_row) (m : manifest_row) : Prop :=
  ∃ v, t !! mf_content_version_id m = Some v ∧ mf_sha256 m = cv_sha256 v ∧
    mf_source_uri m = cv_source_uri v ∧ mf_size_bytes m = cv_size_bytes v.

Record wf_content (d : db) : Prop := WfContent {
  wc_pin id m : manifest d !! id = Some m →
    pin_matches (content_versions d) m ∧ known (runs d) (mf_run_id m) = true;
  wc_unique id1 id2 m1 m2 : manifest d !! id1 = Some m1 → manifest d !! id2 = Some m2 →
    mf_run_id m1 = mf_run_id m2 → mf_logical_name m1 = mf_logical_name m2 → id1 = id2;
  wc_version id v : content_versions d !! id = Some v →
    known (content_items d) (cv_content_item_id v) = true ∧
    cv_reboot_behavior v ∈ REBOOT_BEHAVIORS ∧ PyStr.lower (cv_sha256 v) = cv_sha256 v;
  wc_name id1 id2 i1 i2 : content_items d !! id1 = Some i1 → content_items d !! id2 = Some i2 →
    ci_name i1 = ci_name i2 → id1 = id2
}.

Lemma known_insert {R} (t : gmap string R) i r k :
  known t k = true → known (<[i := r]> t) k = true.
Proof.
  rewrite !known_true. intros Hk. destruct (decide (i = k)) as [->|].
  - rewrite lookup_insert_eq. eauto.
  - by rewrite lookup_insert_ne.
Qed.

Lemma known_false {R} (t : gmap string R) k : known t k = false ↔ t !! k = None.
Proof. rewrite <- not_true_iff_false, known_true. by rewrite eq_None_not_Some. Qed.

Lemma wf_insert_content_item id i : preserves wf_content (insert_content_item id i).
Proof.
  unfold insert_content_item. apply preserves_query_checked. intros d [Hp Hu Hv Hn].
  rewrite !andb_true_iff, !negb_true_iff, known_false, exists_where_false.
  intros [[Hid _] Hfree]. split; simpl; [done|done| |].
  - intros vid v Hvid. destruct (Hv vid v Hvid) as (? & ? & ?).
    split_and!; [by apply known_insert|done..].
  - intros id1 id2 i1 i2 [[<- <-]|[? H1]]%lookup_insert_Some [[<- <-]|[? H2]]%lookup_insert_Some Hi;
      [done| | |by eapply Hn].
    + by destruct (Hfree id2 i2 H2).
    + by destruct (Hfree id1 i1 H1).
Qed.

Lemma pin_matches_insert t id v m :
  t !! id = None → pin_matches t m → pin_matches (<[id := v]> t) m.
Proof.
  intros Hid (v' & Hv & ?). exists v'. split; [|done].
  rewrite lookup_insert_ne; [done|]. congruence.
Qed.

Lemma wf_insert_content_version id v :
  PyStr.lower (cv_sha256 v) = cv_sha256 v → preserves wf_content (insert_content_version id v).
Proof.
  intros Hlow. unfold insert_content_version. apply preserves_query_checked.
  intros d [Hp Hu Hv Hn].
  rewrite !andb_true_iff, !negb_true_iff, known_false, bool_decide_eq_true.
  intros [[[Hid Hitem] Hreb] _]. split; simpl; [|done| |done].
  - intros mid m Hm. destruct (Hp mid m Hm) as [? ?]. split; [by apply pin_matches_insert|done].
  - intros id' v' [[<- <-]|[? Hv']]%lookup_insert_Some; [done|by eapply Hv].
Qed.

(** Adding a pin that matches its version. *)
Lemma wf_content_pin id m d :
  wf_content d → pin_matches (content_versions d) m →
  negb (known (manifest d) id) && known (runs d) (mf_run_id m) &&
    known (content_versions d) (mf_content_version_id m) &&
    negb (pinned (mf_run_id m) (mf_logical_name m) (manifest d)) = true →
  wf_content (set_manifest (<[id := m]>) d).
Proof.
  intros [Hp Hu Hv Hn] Hm. rewrite !andb_true_iff, !negb_true_iff, known_false.
  intros [[[Hid Hrun] _] Hfree]. unfold pinned in Hfree. rewrite exists_where_false in Hfree.
  split; simpl; [| |done..].
  - intros id' m' [[<- <-]|[? Hm']]%lookup_insert_Some; [done|by eapply Hp].
  - intros id1 id2 m1 m2 [[<- <-]|[? H1]]%lookup_insert_Some [[<- <-]|[? H2]]%lookup_insert_Some
      Hr Hl; [done| | |by eapply Hu].
    + by destruct (Hfree id2 m2 H2).
    + by destruct (Hfree id1 m1 H1).
Qed.

Lemma insert_manifest_keeps id m s :
  holds_in wf_content s → pin_matches (content_versions (cur s)) m →
  holds_in wf_content (insert_manifest id m s).2.
Proof.
  intros [Hc Hm] Hpin. unfold insert_manifest. rewrite run_bind, run_query. cbn -[checked].
  rewrite run_checked. match goal with |- context [if ?b then _ else _] => destruct b eqn:Hok end;
    [|done].
  split; [|done]. by apply wf_content_pin.
Qed.

(** Changing the staging columns of a pin. *)
Lemma wf_content_staged status agent path err at_ id m d :
  manifest d !! id = Some m → wf_content d →
  wf_content (set_manifest (<[id := staged_row status agent path err at_ m]>) d).
Proof.
  intros Hm [Hp Hu Hv Hn]. split; simpl; [| |done..].
  - intros id' m' [[<- <-]|[? Hm']]%lookup_insert_Some; [|by eapply Hp].
    apply (Hp id m Hm).
  - intros id1 id2 m1 m2 [[<- <-]|[? H1]]%lookup_insert_Some [[<- <-]|[? H2]]%lookup_insert_Some;
      simpl; intros Hr Hl; [done| | |by eapply Hu].
    + by apply (Hu id id2 m m2).
    + by apply (Hu id1 id m1 m).
Qed.

(** What the catalogue offers is in the tables. *)
Lemma latest_version_Some item_id d vid v :
  latest_version item_id d = Some (vid, v) →
  content_versions d !! vid = Some v ∧ cv_content_item_id v = item_id.
Proof.
  unfold latest_version. intros Hv%(isort_head_elem latest_order). rewrite elem_of_select_where in Hv.
  naive_solver.
Qed.

Lemma find_content_Some name d item vid v :
  find_content name d = Some (item, (vid, v)) →
  content_versions d !! vid = Some v ∧
  ∃ item_id, content_items d !! item_id = Some item ∧ ci_name item = name ∧
    ci_enabled item = true ∧ latest_version item_id d = Some (vid, v).
Proof.
  unfold find_content. destruct (head _) as [[item_id i]|] eqn:Hh; [|done]. simpl.
  destruct (latest_version item_id d) as [[vid' v']|] eqn:Hl; [|done]. intros [= -> -> ->].
  split; [by eapply latest_version_Some|]. exists item_id.
  assert ((item_id, item) ∈ select_where (λ kr, ci_name kr.2 = name ∧ ci_enabled kr.2 = true)
    (content_items d)) as Hin.
  { destruct (select_where _ _); [done|]. simplify_eq/=. set_solver. }
  rewrite elem_of_select_where in Hin. naive_solver.
Qed.

(** ** Properties *)

(** The requests that change the content tables. *)
Inductive content_request : Type :=
| ReqItem (name content_type description : string)
| ReqVersion (item version sha256 source_uri : string) (size : option Z)
    (architecture target_os reboot_behavior : string) (conditions metadata : json)
    (created_by : option string)
| ReqManifestItem (run_id version_id logical_name phase : string) (path : option string)
    (required : bool) (metadata : json)
| ReqStaging (manifest_id run_id status agent_id : string) (path error : option string)
| ReqResolve (run_id : string) (roots : gmap string string).

Definition serve_content (r : content_request) : eff session unit :=
  match r with
  | ReqItem n t d => create_content_item n t d ;; mret tt
  | ReqVersion i v h u sz a o rb c m by_ => create_content_version i v h u sz a o rb c m by_ ;; mret tt
  | ReqManifestItem r v l ph pa rq m => add_manifest_item r v l ph pa rq m ;; mret tt
  | ReqStaging i r st a pa e => mark_manifest_item_staging i r st a pa e ;; mret tt
  | ReqResolve r ro => resolve_run_content_manifest r ro ;; mret tt
  end.

Lemma wf_pin_ref run_id roots ref : preserves wf_content (pin_ref run_id roots ref).
Proof.
  destruct ref as [name phase]. intros s Hs. unfold pin_ref. rewrite run_bind, run_query.
  destruct (find_content name (cur s)) as [[item [vid v]]|] eqn:Hf; [|done].
  apply find_content_Some in Hf as [Hv _].
  unfold insert_manifest_or_nothing. rewrite !run_bind, run_new_id, run_bind, run_now, run_bind,
    run_query. case_match; [done|].
  apply insert_manifest_keeps; [done|]. exists v. done.
Qed.

Lemma wf_add_manifest_item r v l ph pa rq m :
  preserves wf_content (add_manifest_item r v l ph pa rq m).
Proof.
  intros s Hs. unfold add_manifest_item. rewrite run_bind, run_query.
  destruct (content_versions (cur s) !! v) as [cv|] eqn:Hv; [|done]. simpl.
  destruct (content_items (cur s) !! _) as [item|] eqn:Hi; [|done]. simpl.
  rewrite run_bind, run_new_id, run_bind, run_now, run_bind.
  match goal with |- context [insert_manifest ?id ?row ?st] =>
    pose proof (insert_manifest_keeps id row st Hs) as Hins;
    destruct (insert_manifest id row st) as [[[]|e] s'] end;
    (destruct Hins as [Hc Hm]; [by exists cv|]); [by split|done].
Qed.

Lemma wf_mark_staging i r st a pa e :
  preserves wf_content (mark_manifest_item_staging i r st a pa e).
Proof.
  intros s [Hc Hm]. unfold mark_manifest_item_staging. case_bool_decide; [done|].
  rewrite run_bind, run_now, run_bind, run_query. simpl.
  destruct (manifest (cur s) !! i) as [m|] eqn:Hi; [|done]. case_decide; [|done]. run.
  split; by apply wf_content_staged.
Qed.

Lemma wf_serve_content r : preserves wf_content (serve_content r).
Proof.
  pose proof wf_pin_ref. pose proof wf_insert_content_item.
  destruct r; simpl; (apply preserves_bind; [|intros; apply preserves_ret]).
  - unfold create_content_item. preserves_solve.
  - unfold create_content_version. preserves_solve.
    apply wf_insert_content_version. simpl. apply PyStr.lower_idem.
  - apply wf_add_manifest_item.
  - apply wf_mark_staging.
  - unfold resolve_run_content_manifest, list_run_manifest. cbv zeta. preserves_solve.
Qed.

Lemma resolve_run run_id roots s l s' :
  resolve_run_content_manifest run_id roots s = (Ret l, s') →
  ∃ t, cur s' = set_manifest (λ _, t) (cur s) ∧ committed s' = cur s' ∧
    pins run_id (step_refs (run_steps run_id (cur s))) (cur s) t ∧
    list_run_manifest run_id s' = (Ret l, s').
Proof.
  unfold resolve_run_content_manifest. cbv zeta. rewrite run_bind, run_query, run_bind.
  destruct (for_each _ _ s) as [[[]|e] s1] eqn:Hloop; [|done].
  apply pin_refs_spec in Hloop as (Hc & t & Ht & Hpins).
  rewrite run_bind, run_commit. intros Hl. pose proof Hl as Hl'.
  unfold list_run_manifest in Hl'. rewrite run_query in Hl'. simplify_eq.
  exists t. by split_and!.
Qed.

(** Resolving the content of a run pins it: on success the run has a manifest row
    for every reference of its plan, a row that was not there before carries the
    latest version of the enabled item of that name and the phase of the first
    step that refers to it, no row that was there has changed, nothing but the
    manifest has, and everything is committed. *)
Theorem resolve_pins_latest (run_id : string) (roots : gmap string string) (s s' : session)
    (l : list manifest_entry) :
  resolve_run_content_manifest run_id roots s = (Ret l, s') →
  (∃ t, cur s' = set_manifest (λ _, t) (cur s)) ∧ committed s' = cur s' ∧
  manifest (cur s) ⊆ manifest (cur s') ∧
  (∀ kr name, kr ∈ run_steps run_id (cur s) → name ∈ ps_content_refs (st_plan kr.2) →
     pinned run_id name (manifest (cur s')) = true) ∧
  (∀ id m, manifest (cur s') !! id = Some m → manifest (cur s) !! id = None →
     ∃ phase, first_phase (mf_logical_name m) (run_steps run_id (cur s)) = Some phase ∧
       pin_of run_id (mf_logical_name m) phase (cur s) m).
Proof.
  intros (t & Ht & Hc & (Hsub & Hall & Honly) & _)%resolve_run. rewrite Ht in *. simpl.
  split_and!; eauto.
  - intros kr name Hkr Hname. destruct (step_refs_elem _ _ _ Hkr Hname) as [phase Hp]. eauto.
  - intros id m Hm Hnew. destruct (Honly id m Hm) as [Hold|(name & phase & Hin & _ & Hpin)];
      [congruence|].
    assert (mf_logical_name m = name) as -> by (destruct Hpin as (? & ? & ? & ?); naive_solver).
    exists phase. split; [|done]. rewrite <- step_refs_lookup.
    apply assoc_NoDup; [|done]. apply step_refs_NoDup.
Qed.

Lemma run_steps_ext run_id d d' : steps d = steps d' → run_steps run_id d = run_steps run_id d'.
Proof. unfold run_steps. by intros ->. Qed.

Lemma run_manifest_rows_elem run_id d id m :
  (id, m) ∈ run_manifest_rows run_id d ↔ manifest d !! id = Some m ∧ mf_run_id m = run_id.
Proof.
  unfold run_manifest_rows. rewrite elem_of_isort, elem_of_select_where. naive_solver.
Qed.

(** The entries of a manifest only depend on the versions it pins. *)
Lemma list_run_manifest_ext run_id s s' :
  wf_content (cur s) → manifest (cur s') = manifest (cur s) →
  content_versions (cur s) ⊆ content_versions (cur s') →
  (list_run_manifest run_id s').1 = (list_run_manifest run_id s).1.
Proof.
  intros Hwf Hm Hsub. unfold list_run_manifest. rewrite !run_query. simpl. f_equal. f_equal.
  unfold run_manifest_rows. rewrite Hm. apply list_omap_ext. apply Forall_Forall2_diag, Forall_forall.
  intros [id m] Hin. change (isort _ _) with (run_manifest_rows run_id (cur s)) in Hin.
  apply run_manifest_rows_elem in Hin as [Hid _].
  destruct (wc_pin _ Hwf id m Hid) as [(v & Hv & _) _]. unfold join_version. simpl.
  by rewrite Hv, (lookup_weaken _ _ _ _ Hv Hsub).
Qed.

(** Pins do not move: once the content of a run is resolved, resolving it again
    with whatever staging roots, after any change of the catalogue that only adds
    versions or edits items, adds nothing to the manifest and returns the same
    entries - new versions reach new runs only. *)
Theorem resolve_keeps_pins (run_id : string) (roots roots' : gmap string string)
    (s s1 s2 s3 : session) (l l' : list manifest_entry) :
  wf_content (cur s1) →
  resolve_run_content_manifest run_id roots s = (Ret l, s1) →
  manifest (cur s2) = manifest (cur s1) → steps (cur s2) = steps (cur s1) →
  content_versions (cur s1) ⊆ content_versions (cur s2) →
  resolve_run_content_manifest run_id roots' s2 = (Ret l', s3) →
  manifest (cur s3) = manifest (cur s1) ∧ l' = l.
Proof.
  intros Hwf (t & Ht & _ & (_ & Hall & _) & Hl)%resolve_run Hm Hst Hsub
    (t' & Ht' & _ & (Hsub' & _ & Honly) & Hl')%resolve_run.
  assert (manifest (cur s3) = manifest (cur s1)) as Heq.
  { rewrite Ht'. simpl. rewrite <- Hm. apply map_eq. intros id.
    destruct (t' !! id) as [m|] eqn:Hid.
    - destruct (Honly id m Hid) as [Hold|(name & phase & Hin & Hfree & _)]; [done|].
      rewrite (run_steps_ext run_id _ (cur s)) in Hin by (rewrite Hst, Ht; done).
      apply Hall in Hin. rewrite Hm, Ht in Hfree. simpl in Hfree. congruence.
    - symmetry. by eapply lookup_weaken_None. }
  split; [done|].
  pose proof (list_run_manifest_ext run_id s1 s3 Hwf Heq) as Hext.
  rewrite Hl, Hl' in Hext. simpl in Hext.
  assert (content_versions (cur s1) ⊆ content_versions (cur s3)) as Hsub3 by (by rewrite Ht').
  specialize (Hext Hsub3). congruence.
Qed.

Lemma pinned_entries_elem run_id refs d id e :
  (id, e) ∈ pinned_entries run_id refs d ↔
  ∃ m v, manifest d !! id = Some m ∧ mf_run_id m = run_id ∧ mf_logical_name m ∈ refs ∧
    content_versions d !! mf_content_version_id m = Some v ∧ e = manifest_entry_of m v.
Proof.
  unfold pinned_entries. rewrite list_elem_of_fmap. setoid_rewrite list_elem_of_omap. split.
  - intros ([[id' m] v] & [= -> ->] & [id2 m2] & Hin & Hj). unfold join_version in Hj.
    rewrite elem_of_isort, elem_of_select_where in Hin.
    destruct (content_versions d !! _) eqn:Hv; simplify_eq/=. naive_solver.
  - intros (m & v & Hm & Hr & Hl & Hv & ->). exists (id, m, v). split; [done|].
    exists (id, m). unfold join_version. rewrite elem_of_isort, elem_of_select_where. simpl.
    rewrite Hv. naive_solver.
Qed.

Lemma run_content_for_step step_id st s :
  steps (cur s) !! step_id = Some st →
  content_for_step step_id s =
  (Ret (pinned_entries (ps_run_id (st_plan st)) (ps_content_refs (st_plan st)) (cur s)), s).
Proof.
  intros Hst. unfold content_for_step, get_step. rewrite run_bind, run_bind, run_query. simpl.
  rewrite Hst. simpl. destruct (ps_content_refs (st_plan st)) eqn:Hrefs; [|done].
  rewrite run_ret. do 2 f_equal. symmetry.
  destruct (pinned_entries _ [] _) as [|[id e] es] eqn:Hes; [done|].
  assert ((id, e) ∈ (id, e) :: es) as Hin by set_solver.
  rewrite <- Hes, pinned_entries_elem in Hin. set_solver.
Qed.

(** An agent is told where to get everything a step needs: after the content of a
    run is resolved, the content listed for each of its steps has one entry for
    every reference of the step and none besides, each with the digest of the
    version it was pinned to. *)
Theorem content_for_step_complete (run_id : string) (roots : gmap string string)
    (s s' : session) (l : list manifest_entry) (step_id : string) (st : step_row) :
  wf_content (cur s') →
  resolve_run_content_manifest run_id roots s = (Ret l, s') →
  steps (cur s') !! step_id = Some st → ps_run_id (st_plan st) = run_id →
  ∃ es, content_for_step step_id s' = (Ret es, s') ∧
    (∀ name, name ∈ ps_content_refs (st_plan st) ↔ ∃ id e, (id, e) ∈ es ∧ me_logical_name e = name) ∧
    (∀ id e, (id, e) ∈ es → ∃ m v, manifest (cur s') !! id = Some m ∧
       content_versions (cur s') !! mf_content_version_id m = Some v ∧
       me_sha256 e = cv_sha256 v ∧ me_version e = cv_version v).
Proof.
  intros Hwf (t & Ht & _ & (_ & Hall & _) & _)%resolve_run Hst Hrun.
  exists (pinned_entries run_id (ps_content_refs (st_plan st)) (cur s')). split_and!.
  - subst run_id. by apply run_content_for_step.
  - intros name. setoid_rewrite pinned_entries_elem. split.
    + intros Hname.
      destruct (step_refs_elem (run_steps run_id (cur s)) (step_id, st) name) as [phase Hin].
      * unfold run_steps. rewrite elem_of_isort, elem_of_select_where. by rewrite Ht in Hst.
      * done.
      * apply Hall in Hin. apply pinned_true in Hin as (id & m & Hm & Hr & Hn).
        assert (manifest (cur s') !! id = Some m) as Hm' by by rewrite Ht.
        destruct (wc_pin _ Hwf id m Hm') as [(v & Hv & _) _].
        exists id, (manifest_entry_of m v). split; [|done]. exists m, v. by subst name.
    + intros (id & e & (m & v & _ & _ & Hn & _ & ->) & <-). exact Hn.
  - intros id e (m & v & Hm & Hr & Hl & Hv & ->)%pinned_entries_elem.
    exists m, v. split_and!; try done.
    destruct (wc_pin _ Hwf id m Hm) as [(v' & Hv' & Hsha & _) _]. simpl. congruence.
Qed.

(** One report of an agent about an item it stages. *)
Record staging_report : Type := StagingReport {
  sr_status : string;
  sr_agent_id : string;
  sr_staging_path : option string;
  sr_error : option string
}.

Definition apply_report (manifest_id run_id : string) (r : staging_report) : eff session unit :=
  mark_manifest_item_staging manifest_id run_id (sr_status r) (sr_agent_id r)
    (sr_staging_path r) (sr_error r) ;; mret tt.

Lemma run_apply_report id run_id r s m :
  manifest (cur s) !! id = Some m → mf_run_id m = run_id → sr_status r ∈ STAGING_STATUSES →
  let m' := staged_row (sr_status r) (sr_agent_id r) (sr_staging_path r) (sr_error r)
              (clock (tick s)) m in
  ∃ s', apply_report id run_id r s = (Ret tt, s') ∧
    cur s' = set_manifest (<[id := m']>) (cur s) ∧ committed s' = cur s'.
Proof.
  intros Hm Hrun Hst. unfold apply_report, mark_manifest_item_staging.
  rewrite bool_decide_eq_false_2 by (by intros ?). run. rewrite Hm, decide_True by done. run.
  eexists. by split_and!.
Qed.

(** Staging reports are all accepted and counted: after any sequence of reports
    about an item, its attempts have grown by the number of ['staging'] reports,
    its status is the last one reported, the version, digest and address it was
    pinned to are the same, and the result is committed. *)
Theorem staging_reports_counted (id run_id : string) (rs : list staging_report) (s : session)
    (m : manifest_row) :
  manifest (cur s) !! id = Some m → mf_run_id m = run_id → committed s = cur s →
  Forall (λ r, sr_status r ∈ STAGING_STATUSES) rs →
  ∃ s' m', for_each rs (apply_report id run_id) s = (Ret tt, s') ∧
    manifest (cur s') !! id = Some m' ∧ committed s' = cur s' ∧
    mf_staging_attempts m' =
      (mf_staging_attempts m + Z.of_nat (length (filter (λ r, sr_status r = "staging") rs)))%Z ∧
    mf_status m' = default (mf_status m) (sr_status <$> last rs) ∧
    mf_content_version_id m' = mf_content_version_id m ∧
    mf_sha256 m' = mf_sha256 m ∧ mf_source_uri m' = mf_source_uri m.
Proof.
  intros Hm Hrun Hc Hrs. revert s m Hm Hrun Hc.
  induction Hrs as [|r rs Hr Hrs IH]; intros s m Hm Hrun Hc.
  { exists s, m. split_and!; try done. simpl. lia. }
  cbn [for_each]. rewrite run_bind.
  destruct (run_apply_report id run_id r s m Hm Hrun Hr) as (s1 & -> & Hs1 & Hc1).
  edestruct (IH s1) as (s' & m' & Hrun' & Hm' & Hc' & Hatt & Hstat & Hv & Hsha & Huri);
    [rewrite Hs1; simpl; apply lookup_insert_eq|done|done|].
  exists s', m'. split; [done|]. split_and!; try done.
  - rewrite Hatt. simpl. rewrite filter_cons. case_decide; simpl; lia.
  - rewrite Hstat. simpl. rewrite last_cons. by destruct (last rs).
Qed.
End pinning.

(** ** Examples *)
Module ContentExample.
Import AuthoringExample.

Definition plan (ordinal : nat) (phase : string) (refs : list string) : plan_step :=
  PlanStep "run" "node" None ordinal 0 "s" "s" "install_app" phase (JObj []) (JObj []) (JObj [])
    (JObj []) (JObj []) refs false 0 10 None "none".

Definition step (ordinal : nat) (phase : string) (refs : list string) : step_row :=
  StepRow (plan ordinal phase refs) Pending 0 None None None None None.

Definition run : run_row :=
  Run "S" "V" Queued None None JNull JNull JNull JNull (JObj []) (JObj []) 0 None None None.

(** A run of two steps that both use the item [agent]. *)
Definition base : db :=
  set_runs (<["run" := run]>) (set_steps (λ _, {["s0" := step 0 "winpe" ["agent"];
    "s1" := step 1 "full_os" ["agent"; "office"]]}) empty_db).

Definition published : session :=
  after (a ← create_content_item "agent" "package" "the agent";
         create_content_version a "1.0" "AB12" "http://a/1" None "any" "any" "none" JNull JNull None ;;
         o ← create_content_item "office" "app" "office";
         create_content_version o "16" "CD34" "http://o/16" None "any" "any" "none" JNull JNull None)
    (Session base base 0 0).

Definition resolved : session := after (resolve_run_content_manifest "run" ∅) published.

(** A second version of [agent] appears after the run was resolved. *)
Definition republished : session :=
  after (create_content_version "id0" "2.0" "EF56" "http://a/2" None "any" "any" "none" JNull JNull
           None) resolved.

Definition entries : list manifest_entry :=
  [ManifestEntry "agent" "package" "1.0" "ab12" "http://a/1" "winpe"
     (Some "X:\autopilot\content\agent\1.0") "pending" None;
   ManifestEntry "office" "app" "16" "cd34" "http://o/16" "full_os"
     (Some "C:\ProgramData\ProxmoxVEAutopilot\Content\office\16") "pending" None].

Lemma base_wf : holds_in wf_content (Session base base 0 0).
Proof. split; split; simpl; intros *; by rewrite lookup_empty. Qed.

Lemma published_wf : holds_in wf_content published.
Proof.
  unfold published, after. generalize base_wf.
  apply preserves_bind; [|intros a; apply preserves_bind; [|intros _; apply preserves_bind;
    [|intros o]]]; unfold create_content_item, create_content_version;
    pose proof wf_insert_content_item; preserves_solve;
    by apply wf_insert_content_version; vm_compute.
Qed.

Lemma resolved_wf : holds_in wf_content resolved.
Proof.
  unfold resolved, after. generalize published_wf.
  assert (preserves wf_content (resolve_run_content_manifest "run" ∅)) as Hr; [|apply Hr].
  unfold resolve_run_content_manifest, list_run_manifest. pose proof wf_pin_ref.
  cbv zeta. preserves_solve.
Qed.

Lemma resolve_pins_latest_witness :
  resolve_run_content_manifest "run" ∅ published = (Ret entries, resolved) ∧
  pinned "run" "office" (manifest (cur resolved)) = true.
Proof.
  assert (resolve_run_content_manifest "run" ∅ published = (Ret entries, resolved)) as Hr
    by (vm_compute; reflexivity).
  split; [exact Hr|].
  destruct (resolve_pins_latest "run" ∅ published resolved entries Hr) as (_ & _ & _ & Hall & _).
  apply (Hall ("s1", step 1 "full_os" ["agent"; "office"])).
  - apply elem_of_isort, elem_of_select_where. split; vm_compute; reflexivity.
  - apply (bool_decide_unpack _). vm_compute. exact I.
Defined.

Lemma published_grows :
  content_versions (cur resolved) ⊆ content_versions (cur republished).
Proof.
  replace (content_versions (cur republished)) with
    (<["id6" := ContentVersion "id0" "2.0" "ef56" None "http://a/2" "any" "any" "none" (JObj [])
      (JObj []) 6000000 None]> (content_versions (cur resolved))) by (by vm_compute).
  apply insert_subseteq. by vm_compute.
Qed.

Lemma resolve_keeps_pins_witness :
  manifest (cur (after (resolve_run_content_manifest "run" ∅) republished)) =
    manifest (cur resolved) ∧
  match (resolve_run_content_manifest "run" ∅ republished).1 with Ret l => l | Exc _ => [] end
    = entries.
Proof.
  apply (resolve_keeps_pins "run" ∅ ∅ published resolved republished
    (after (resolve_run_content_manifest "run" ∅) republished) entries).
  - exact (proj1 resolved_wf).
  - vm_compute. reflexivity.
  - vm_compute. reflexivity.
  - vm_compute. reflexivity.
  - exact published_grows.
  - vm_compute. reflexivity.
Defined.

Lemma content_for_step_complete_witness :
  ∃ es, content_for_step "s1" resolved = (Ret es, resolved) ∧ length es = 2%nat.
Proof.
  destruct (content_for_step_complete "run" ∅ published resolved entries "s1"
    (step 1 "full_os" ["agent"; "office"])) as (es & He & _).
  - exact (proj1 resolved_wf).
  - vm_compute. reflexivity.
  - vm_compute. reflexivity.
  - reflexivity.
  - exists es. split; [exact He|]. vm_compute in He. injection He as <-. reflexivity.
Defined.

Lemma staging_reports_counted_witness :
  ∃ s' m', for_each [StagingReport "staging" "a" None None; StagingReport "failed" "a" None (Some "404");
      StagingReport "staging" "a" None None; StagingReport "staged" "a" None None]
      (apply_report "id4" "run") resolved = (Ret tt, s') ∧
    manifest (cur s') !! "id4" = Some m' ∧ mf_staging_attempts m' = 2%Z ∧ mf_status m' = "staged".
Proof.
  edestruct (staging_reports_counted "id4" "run"
    [StagingReport "staging" "a" None None; StagingReport "failed" "a" None (Some "404");
     StagingReport "staging" "a" None None; StagingReport "staged" "a" None None] resolved)
    as (s' & m' & H1 & H2 & _ & H3 & H4 & _).
  - vm_compute. reflexivity.
  - vm_compute. reflexivity.
  - vm_compute. reflexivity.
  - apply (bool_decide_unpack _). vm_compute. exact I.
  - exists s', m'. split_and!; [exact H1|exact H2|exact H3|exact H4].
Defined.
End ContentExample.
