(* ===== verification/Runs.v ===== *)
(** * Runs

    The execution half of [web/ts_engine_pg.py]: a run is created from a compiled
    version as an ordered plan of steps; agents claim the next step of their phase
    and report its result; operators requeue failed steps and controllers record
    progress they observed elsewhere. *)

From stdpp Require Import base gmap list strings pretty sorting.
From Stdlib Require Import ZArith Lia.
From S2P Require Import Prelude Json TsData Conditions Tree Sequences Content.

(** ** Constraints of the tables *)

(** PRIMARY KEY and the references to the sequence and to the version *)
Definition insert_run (id : string) (r : run_row) : eff session unit :=
  d ← query (λ d, d);
  checked (negb (known (runs d) id) && known (sequences d) (rn_sequence_id r) &&
           known (versions d) (rn_sequence_version_id r))
    "ts_provisioning_runs" (set_runs (<[id := r]>)).

(** PRIMARY KEY, the reference to the run and UNIQUE (run_id, ordinal) *)
Definition insert_step (id : string) (st : step_row) : eff session unit :=
  d ← query (λ d, d);
  checked (negb (known (steps d) id) && known (runs d) (ps_run_id (st_plan st)) &&
           negb (exists_where (λ kr, ps_run_id (st_plan kr.2) = ps_run_id (st_plan st) ∧
             ps_ordinal (st_plan kr.2) = ps_ordinal (st_plan st)) (steps d)))
    "ts_run_plan_steps" (set_steps (<[id := st]>)).

(** The references to the run and to the step *)
Definition insert_event (e : event_row) : eff session unit :=
  d ← query (λ d, d);
  checked (known (runs d) (ev_run_id e) && known_or_null (steps d) (ev_step_id e))
    "ts_run_step_events" (set_events (λ es, es ++ [e])).

Definition insert_log (l : log_row) : eff session unit :=
  d ← query (λ d, d);
  checked (known (runs d) (lg_run_id l) && known (steps d) (lg_step_id l))
    "ts_run_step_logs" (set_logs (λ ls, ls ++ [l])).

(** ** Row updates *)

Definition with_step_state (state : step_state) (attempt : Z) (claimed_by : option string)
    (claimed_at started_at finished_at : option Z) (last_error : option string) (st : step_row) :
    step_row :=
  StepRow (st_plan st) state attempt claimed_by claimed_at started_at finished_at last_error.

Definition with_run_state (state : run_state) (phase cursor : option string)
    (finished_at : option Z) (last_error : option string) (r : run_row) : run_row :=
  Run (rn_sequence_id r) (rn_sequence_version_id r) state phase cursor (rn_vmid r) (rn_vm_uuid r)
    (rn_computer_name r) (rn_serial_number r) (rn_deployment_target r) (rn_run_variables r)
    (rn_started_at r) finished_at last_error (rn_created_by r).

Section operations.
Context `{Env}.

Definition append_event (run_id event_type : string) (step_id : option string)
    (severity : string) (agent_id phase : option string) (attempt : option Z)
    (message : option string) (data : json) : eff session unit :=
  now ← now;
  insert_event (Event run_id step_id event_type severity agent_id phase attempt message
    (jor data (JObj [])) now).

(** ** Creating a run *)

Definition condition_result_json (r : bool * string) : json :=
  JObj [("matched", JBool r.1); ("reason", JStr r.2)].

Definition plan_step_of (run_id : string) (fs : flat_step) (result : bool * string) : plan_step :=
  PlanStep run_id (fs_source_node_id fs) (fs_parent_source_node_id fs) (fs_ordinal fs)
    (fs_depth fs) (fs_path fs) (fs_name fs) (default EmptyString (fs_kind fs)) (fs_phase fs)
    (fs_condition fs) (condition_result_json result) (fs_variables fs) (fs_params fs)
    (fs_resolved_params fs) (fs_content_refs fs) (fs_continue_on_error fs) (fs_retry_count fs)
    (fs_retry_delay_seconds fs) (fs_timeout_seconds fs) (fs_reboot_behavior fs).

Definition initial_step (run_id : string) (fs : flat_step) (result : bool * string) : step_row :=
  StepRow (plan_step_of run_id fs result)
    (if fs_enabled fs && result.1 then Pending else Skipped) 0 None None None None None.

(** One round of the loop of [create_run_from_version].  [kind] is NOT NULL. *)
Definition insert_plan_step (run_id : string) (variables target : json) (fs : flat_step) :
    eff session unit :=
  result ← lift_outcome (evaluate_condition (fs_condition fs) variables target);
  id ← new_id;
  match fs_kind fs with
  | None => raise (IntegrityError "ts_run_plan_steps")
  | Some _ => insert_step id (initial_step run_id fs result)
  end.

Definition create_run_from_version (sequence_version_id : string)
    (deployment_target run_variables : json) (created_by : option string)
    (resolve_content : bool) : eff session string :=
  d ← query (λ d, d);
  match versions d !! sequence_version_id with
  | None => raise (ValueError ("sequence version not found: " +:+ sequence_version_id))
  | Some version =>
      let target := jor deployment_target (JObj []) in
      let variables := jor run_variables (JObj []) in
      run_id ← new_id;
      now ← now;
      insert_run run_id
        (Run (ver_sequence_id version) sequence_version_id Queued None None (jget "vmid" target)
           (jget "vm_uuid" target) (jget "computer_name" target) (jget "serial_number" target)
           target variables now None None created_by) ;;
      plan ← lift_outcome (flatten_steps (ver_compiled_tree version));
      for_each plan (insert_plan_step run_id variables target) ;;
      append_event run_id "run_created" None "info" None None None None JNull ;;
      (if resolve_content
       then rollback_on_error (resolve_run_content_manifest run_id ∅ ;; mret tt)
       else commit) ;;
      mret run_id
  end.

(** ** Claiming *)

(** [sorted({str(kind) for kind in (supported_kinds or []) if str(kind)})], as a
    filter: only membership and emptiness of the list matter. *)
Definition normalized_supported (supported_kinds : list string) : list string :=
  filter (λ k, k ≠ EmptyString) supported_kinds.

Definition in_phase (phase : string) (st : step_row) : Prop :=
  ps_phase (st_plan st) = phase ∨ ps_phase (st_plan st) = "any".

(** The earlier step [prev] keeps [st] from being claimed. *)
Definition blocks (phase agent_id : string) (same_agent : bool) (st prev : step_row) : Prop :=
  ps_run_id (st_plan prev) = ps_run_id (st_plan st) ∧
  (ps_ordinal (st_plan prev) < ps_ordinal (st_plan st))%nat ∧
  in_phase phase prev ∧
  (st_state prev ∈ [Pending; AwaitingReboot; Failed] ∨
   st_state prev = Running ∧
   (same_agent = false ∨ default EmptyString (st_claimed_by prev) ≠ agent_id)).

#[global] Instance in_phase_dec phase st : Decision (in_phase phase st).
Proof. unfold in_phase. apply _. Defined.
#[global] Instance blocks_dec phase agent same st prev : Decision (blocks phase agent same st prev).
Proof. unfold blocks. apply _. Defined.

Definition run_active (r : run_row) : bool :=
  bool_decide (rn_state r ∉ [RunDone; RunFailed; RunCanceled]).

(** The WHERE clause of the claim. *)
Definition claimable (run_id phase agent_id : string) (same_agent : bool)
    (supported : list string) (d : db) (kr : string * step_row) : Prop :=
  ps_run_id (st_plan kr.2) = run_id ∧
  (run_active <$> runs d !! run_id) = Some true ∧
  st_state kr.2 = Pending ∧ in_phase phase kr.2 ∧
  exists_where (λ prev, blocks phase agent_id same_agent kr.2 prev.2) (steps d) = false ∧
  (supported = [] ∨ ps_kind (st_plan kr.2) ∈ supported).

#[global] Instance claimable_dec run_id phase agent same supported d kr :
  Decision (claimable run_id phase agent same supported d kr).
Proof. unfold claimable. apply _. Defined.

(** ORDER BY ordinal FOR UPDATE SKIP LOCKED LIMIT 1: the first claimable row that no
    other transaction has locked.  The statement locks the step and its run. *)
Definition claim_candidate (run_id phase agent_id : string) (same_agent : bool)
    (supported : list string) (locked : gset string) (d : db) : option (string * step_row) :=
  head (filter (λ kr, kr.1 ∉ locked ∧ run_id ∉ locked)
    (isort ordinal_order
      (select_where (claimable run_id phase agent_id same_agent supported d) (steps d)))).

(** A claimed step as it is returned, with its content. *)
Record claimed : Type := Claimed {
  cl_id : string;
  cl_step : step_row;
  cl_content : list (string * manifest_entry)
}.

Definition claim_next_step (run_id phase agent_id : string) (supported_kinds : list string)
    (allow_running_claimed_by_same_agent : bool) (locked : gset string) :
    eff session (option claimed) :=
  let supported := normalized_supported supported_kinds in
  row ← query (claim_candidate run_id phase agent_id allow_running_claimed_by_same_agent
                 supported locked);
  match row with
  | None => commit ;; mret None
  | Some (id, st) =>
      let attempt := (st_attempt st + 1)%Z in
      now ← now;
      execute (set_steps (alter (λ st, with_step_state Running attempt (Some agent_id) (Some now)
        (coalesce (st_started_at st) (Some now)) (st_finished_at st) (st_last_error st) st) id)) ;;
      execute (set_runs (alter (λ r, with_run_state (RunningIn phase) (Some phase) (Some id)
        (rn_finished_at r) (rn_last_error r) r) run_id)) ;;
      append_event run_id "step_claimed" (Some id) "info" (Some agent_id) (Some phase)
        (Some attempt) None JNull ;;
      commit ;;
      st' ← get_step id;
      content ← content_for_step id;
      mret (Some (Claimed id st' content))
  end.

(** ** Results *)

(** [SELECT * FROM ts_run_plan_steps WHERE id = %s AND run_id = %s] *)
Definition step_of_run (run_id step_id : string) (d : db) : option step_row :=
  match steps d !! step_id with
  | Some st => if decide (ps_run_id (st_plan st) = run_id) then Some st else None
  | None => None
  end.

(** The states that keep a run from being done. *)
Definition active_states : list step_state := [Pending; Running; AwaitingReboot].

Definition next_run_state (run_id excluding_step_id : string) (d : db) : run_state :=
  if exists_where (λ kr, ps_run_id (st_plan kr.2) = run_id ∧ kr.1 ≠ excluding_step_id ∧
       st_state kr.2 ∈ active_states) (steps d)
  then Queued else RunDone.

(** The chain of conditions of [complete_step]: the new states of the step and of the
    run, [finished_at] and the severity of the event. *)
Definition result_of (status : string) (st : step_row) (next : run_state) (now : Z) :
    outcome (step_state * run_state * option Z * string) :=
  if decide (status = "success" ∧ ps_reboot_behavior (st_plan st) = "required") then
    Ret (AwaitingReboot, RunAwaitingReboot, None, "info")
  else if decide (status = "success") then Ret (Done, next, Some now, "info")
  else if decide (status = "skipped") then Ret (Skipped, next, Some now, "info")
  else if decide (status = "reboot_required") then
    Ret (AwaitingReboot, RunAwaitingReboot, None, "info")
  else if decide (status = "failed") then
    if decide (st_attempt st ≤ ps_retry_count (st_plan st))%Z then
      Ret (Pending, RunningIn (ps_phase (st_plan st)), None, "warning")
    else Ret (Failed, if ps_continue_on_error (st_plan st) then next else RunFailed,
              Some now, "error")
  else Exc (ValueError ("unsupported step status: " +:+ status)).

Definition complete_step (run_id step_id agent_id status : string) (message : option string)
    (data : json) : eff session step_row :=
  step ← query (step_of_run run_id step_id);
  match step with
  | None => raise (ValueError ("step not found for run: " +:+ step_id))
  | Some st =>
      let phase := ps_phase (st_plan st) in
      now ← now;
      if decide (status = "failed" ∧ st_state st = AwaitingReboot) then
        append_event run_id "step_late_failure_ignored" (Some step_id) "warning" (Some agent_id)
          (Some phase) (Some (st_attempt st)) message data ;;
        commit ;;
        mret st
      else
        next ← query (next_run_state run_id step_id);
        res ← lift_outcome (result_of status st next now);
        let '(step_state, run_state, finished_at, severity) := res in
        execute (set_steps (alter (λ st, with_step_state step_state (st_attempt st)
          (if decide (step_state = Pending) then None else st_claimed_by st)
          (if decide (step_state = Pending) then None else st_claimed_at st)
          (st_started_at st) finished_at
          (if decide (status = "failed") then message else None) st) step_id)) ;;
        execute (set_runs (alter (λ r, with_run_state run_state (Some phase) (Some step_id)
          (if decide (run_state = RunDone ∨ run_state = RunFailed) then Some now
           else rn_finished_at r)
          (if decide (run_state = RunFailed) then message else rn_last_error r) r) run_id)) ;;
        append_event run_id ("step_" +:+ step_state_text step_state) (Some step_id) severity
          (Some agent_id) (Some phase) (Some (st_attempt st)) message data ;;
        commit ;;
        get_step step_id
  end.

Definition mark_reboot_complete (run_id step_id agent_id : string) : eff session step_row :=
  step ← query (step_of_run run_id step_id);
  match step with
  | None => raise (ValueError ("step not found for run: " +:+ step_id))
  | Some st =>
      if decide (st_state st = AwaitingReboot) then
        let phase := ps_phase (st_plan st) in
        finished ← now;
        execute (set_steps (alter (λ st, with_step_state Done (st_attempt st) (st_claimed_by st)
          (st_claimed_at st) (st_started_at st) (Some finished) (st_last_error st) st) step_id)) ;;
        run_state ← query (next_run_state run_id step_id);
        now ← now;
        execute (set_runs (alter (λ r, with_run_state run_state (Some phase) (Some step_id)
          (if decide (run_state = RunDone) then Some now else rn_finished_at r)
          (rn_last_error r) r) run_id)) ;;
        append_event run_id "step_reboot_complete" (Some step_id) "info" (Some agent_id)
          (Some phase) (Some (st_attempt st)) None JNull ;;
        commit ;;
        get_step step_id
      else raise (ValueError ("step is not awaiting reboot: " +:+ step_id))
  end.

Definition requeue_step (run_id step_id requested_by : string) (message : option string) :
    eff session step_row :=
  step ← query (step_of_run run_id step_id);
  match step with
  | None => raise (ValueError ("step not found for run: " +:+ step_id))
  | Some st =>
      if decide (st_state st = Failed) then
        let phase := ps_phase (st_plan st) in
        execute (set_steps (alter (with_step_state Pending 0 None None None None None) step_id)) ;;
        execute (set_runs (alter (with_run_state (RunningIn phase) (Some phase) None None None)
          run_id)) ;;
        append_event run_id "step_requeued" (Some step_id) "warning" (Some requested_by)
          (Some phase) (Some 0%Z)
          (Some (text_or message ("Operator requeued failed step " +:+ ps_kind (st_plan st))))
          (JObj [("previous_attempt", JInt (st_attempt st)); ("kind", JStr (ps_kind (st_plan st)))]) ;;
        commit ;;
        get_step step_id
      else raise (ValueError ("only failed steps can be requeued: " +:+ step_id))
  end.

Definition append_step_log (run_id step_id agent_id stream content : string) :
    eff session unit :=
  now ← now;
  insert_log (Log run_id step_id agent_id stream content now) ;;
  commit.

(** ** Progress observed elsewhere *)

Definition done_from_evidence (agent_id : string) (now : Z) (st : step_row) : step_row :=
  with_step_state Done (st_attempt st) (coalesce (st_claimed_by st) (Some agent_id))
    (coalesce (st_claimed_at st) (Some now)) (coalesce (st_started_at st) (Some now))
    (coalesce (st_finished_at st) (Some now)) None st.

(** One round of the loop of [mark_steps_done_by_kind]. *)
Definition mark_done (run_id agent_id : string) (message : option string) (data : json) (now : Z)
    (kr : string * step_row) : eff session unit :=
  if decide (st_state kr.2 = Done) then mret tt
  else
    execute (set_steps (alter (done_from_evidence agent_id now) kr.1)) ;;
    append_event run_id "step_done" (Some kr.1) "info" (Some agent_id)
      (Some (ps_phase (st_plan kr.2))) (Some (st_attempt kr.2))
      (Some (text_or message "step completed from external lifecycle evidence")) data.

Definition mark_steps_done_by_kind (run_id : string) (kinds : list string) (agent_id : string)
    (message : option string) (data : json) : eff session nat :=
  match normalized_supported kinds with
  | [] => mret 0%nat
  | kinds =>
      rows ← query (A:=list (string * step_row)) (λ d, filter (λ kr : string * step_row, ps_kind (st_plan kr.2) ∈ kinds) (run_steps run_id d));
      now ← now;
      for_each rows (mark_done run_id agent_id message data now) ;;
      let changed := length (filter (λ kr : string * step_row, st_state kr.2 ≠ Done) rows) in
      remaining ← query (λ d, exists_where (λ kr, ps_run_id (st_plan kr.2) = run_id ∧
        st_state kr.2 ∈ [Pending; Running; AwaitingReboot; Failed]) (steps d));
      last_step ← query (λ d, fst <$> last (run_steps run_id d));
      (if remaining : bool then
         if decide (changed = 0%nat) then mret tt
         else execute (set_runs (alter (λ r,
           if decide (rn_state r = RunDone ∨ rn_state r = RunFailed) then r
           else with_run_state (rn_state r)
             (coalesce ((λ kr, ps_phase (st_plan kr.2)) <$> last rows) (rn_phase r))
             (rn_cursor_step_id r) (rn_finished_at r) (rn_last_error r) r) run_id))
       else execute (set_runs (alter (λ r,
         if decide (rn_state r = RunFailed) then r
         else with_run_state RunDone (Some "full_os") (coalesce (rn_cursor_step_id r) last_step)
           (coalesce (rn_finished_at r) (Some now)) (rn_last_error r) r) run_id))) ;;
      commit ;;
      mret changed
  end.

(** ** Reading *)

(** The run joined with its sequence. *)
Definition get_run (run_id : string) : eff session (run_row * sequence_row) :=
  d ← query (λ d, d);
  match runs d !! run_id ≫= (λ r, (λ q, (r, q)) <$> sequences d !! rn_sequence_id r) with
  | None => raise (ValueError ("run not found: " +:+ run_id))
  | Some rq => mret rq
  end.

Definition list_run_steps (run_id : string) : eff session (list (string * step_row)) :=
  query (run_steps run_id).

(** [COALESCE(%s, column)] on a column whose NULL is [JNull]. *)
Definition coalesce_json (new old : json) : json :=
  match new with JNull => old | _ => new end.

Definition update_run_identity (run_id : string) (vmid vm_uuid computer_name serial_number : json)
    (deployment_target_patch : json) : eff session (run_row * sequence_row) :=
  rq ← get_run run_id;
  let target := merge (rn_deployment_target rq.1) deployment_target_patch in
  execute (set_runs (alter (λ r,
    Run (rn_sequence_id r) (rn_sequence_version_id r) (rn_state r) (rn_phase r)
      (rn_cursor_step_id r) (coalesce_json vmid (rn_vmid r)) (coalesce_json vm_uuid (rn_vm_uuid r))
      (coalesce_json computer_name (rn_computer_name r))
      (coalesce_json serial_number (rn_serial_number r)) target (rn_run_variables r)
      (rn_started_at r) (rn_finished_at r) (rn_last_error r) (rn_created_by r)) run_id)) ;;
  append_event run_id "identity_recorded" None "info" None (Some "controller") None
    (Some "Ubuntu v2 VM identity recorded") deployment_target_patch ;;
  commit ;;
  get_run run_id.
End operations.
