(* ===== verification/RunState.v ===== *)
(** * The state of runs and steps

    What holds of every run and every plan step whatever agents, operators and
    controllers ask for: attempts are bounded by the retries, a running step has
    an owner, a finished run has no step left to do (deployments apart,
    which OSDeploy and CloudOSD finish by rules of their own).  The
    second part is about claims. *)

From stdpp Require Import base gmap list strings pretty sorting.
From Stdlib Require Import ZArith Lia.
From S2P Require Import Prelude Json CloudData OsdeployData TsData Conditions Tree Sequences Content Runs.

(** ** The invariant *)

(** Attempts never exceed the retries by more than one, a step waits for another
    attempt only while retries are left, a running step has an owner, and a step
    that ended has its time. *)
Record step_ok (st : step_row) : Prop := StepOk {
  so_attempt : (0 ≤ st_attempt st ≤ Z.max 0 (ps_retry_count (st_plan st)) + 1)%Z;
  so_pending : st_state st = Pending →
    (st_attempt st ≤ Z.max 0 (ps_retry_count (st_plan st)))%Z;
  so_running : st_state st = Running →
    is_Some (st_claimed_by st) ∧ is_Some (st_started_at st) ∧ (1 ≤ st_attempt st)%Z;
  so_finished : st_state st = Done ∨ st_state st = Failed → is_Some (st_finished_at st)
}.

(** A run that ended has its time. *)
Definition run_ok (r : run_row) : Prop :=
  rn_state r = RunDone ∨ rn_state r = RunFailed → is_Some (rn_finished_at r).

(** The run belongs to a deployment of OSDeploy or CloudOSD. *)
Definition deployed (t : osdeploy_tables) (id : string) : bool :=
  known (osd_runs t) id || known (cloud_runs (cloud t)) id.

Record wf_runs (d : db) : Prop := WfRuns {
  wr_step id st : steps d !! id = Some st →
    step_ok st ∧ known (runs d) (ps_run_id (st_plan st)) = true;
  wr_ordinal id1 id2 st1 st2 : steps d !! id1 = Some st1 → steps d !! id2 = Some st2 →
    ps_run_id (st_plan st1) = ps_run_id (st_plan st2) →
    ps_ordinal (st_plan st1) = ps_ordinal (st_plan st2) → id1 = id2;
  wr_run id r : runs d !! id = Some r → run_ok r;
  wr_done id r sid st : deployed (osdeploy d) id = false →
    runs d !! id = Some r → rn_state r = RunDone →
    steps d !! sid = Some st → ps_run_id (st_plan st) = id → st_state st ∉ active_states
}.

(** ** One step and its run change *)

(** The change all step operations make: one step, its run, and one event. *)
Definition touch (run_id step_id : string) (f : step_row → step_row) (g : run_row → run_row)
    (e : event_row) (d : db) : db :=
  set_events (λ es, es ++ [e]) (set_runs (alter g run_id) (set_steps (alter f step_id) d)).

Lemma lookup_alter_Some_inv {R} (f : R → R) (t : gmap string R) i j r :
  alter f i t !! j = Some r → (∃ r', i = j ∧ t !! j = Some r' ∧ r = f r') ∨ (i ≠ j ∧ t !! j = Some r).
Proof.
  rewrite lookup_alter_Some. naive_solver.
Qed.

Lemma known_alter {R} (f : R → R) (t : gmap string R) i k : known (alter f i t) k = known t k.
Proof.
  unfold known. apply bool_decide_ext. rewrite lookup_alter. case_decide; subst; [|done].
  apply fmap_is_Some.
Qed.

Lemma known_or_null_alter {R} (f : R → R) (t : gmap string R) i k :
  known_or_null (alter f i t) k = known_or_null t k.
Proof. destruct k; simpl; [apply known_alter|done]. Qed.

(** No other step of the run is left to do. *)
Definition others_inactive (run_id step_id : string) (d : db) : Prop :=
  ∀ sid st, steps d !! sid = Some st → ps_run_id (st_plan st) = run_id → sid ≠ step_id →
    st_state st ∉ active_states.

Lemma next_run_state_done run_id step_id d :
  next_run_state run_id step_id d = RunDone ↔ others_inactive run_id step_id d.
Proof.
  unfold next_run_state, others_inactive. case_match eqn:E.
  - split; [done|]. intros Hn. apply exists_where_true in E as (k & st & Hk & ? & ? & ?).
    by destruct (Hn k st).
  - split; [|done]. intros _ sid st Hst Hr Hne Ha. rewrite exists_where_false in E.
    by apply (E sid st).
Qed.

Lemma next_run_state_cases run_id step_id d :
  next_run_state run_id step_id d = RunDone ∨ next_run_state run_id step_id d = Queued.
Proof. unfold next_run_state. case_match; auto. Qed.

Lemma wf_touch run_id step_id f g e d st :
  wf_runs d → steps d !! step_id = Some st → ps_run_id (st_plan st) = run_id →
  st_plan (f st) = st_plan st → step_ok (f st) →
  (∀ r, run_ok r → run_ok (g r)) →
  (∀ r, rn_state (g r) = RunDone → st_state (f st) ∉ active_states ∧ others_inactive run_id step_id d) →
  wf_runs (touch run_id step_id f g e d).
Proof.
  intros [Hs Ho Hr Hd] Hst Hrun Hplan Hok Hg Hdone. unfold touch.
  split; simpl.
  - intros id st' [(st0 & -> & H0 & ->)|[_ H0]]%lookup_alter_Some_inv; rewrite known_alter.
    + simplify_eq. rewrite Hplan. split; [done|]. apply (Hs id _ Hst).
    + by apply (Hs id).
  - assert (∀ id st', alter f step_id (steps d) !! id = Some st' →
      ∃ st0, steps d !! id = Some st0 ∧ st_plan st' = st_plan st0) as Hplans.
    { intros id st' [(st0 & -> & H0 & ->)|[_ H0]]%lookup_alter_Some_inv; simplify_eq; eauto. }
    intros id1 id2 st1 st2 (st1' & H1 & ->)%Hplans (st2' & H2 & ->)%Hplans. by apply Ho.
  - intros id r [(r0 & -> & H0 & ->)|[_ H0]]%lookup_alter_Some_inv; [|by eapply Hr].
    eapply Hg, Hr, H0.
  - intros id r sid st' Hno Hrid Hstate Hsid Hrs.
    apply lookup_alter_Some_inv in Hsid as [(st0 & -> & H0 & ->)|[Hne H0]];
    apply lookup_alter_Some_inv in Hrid as [(r0 & -> & Hr0 & ->)|[Hner Hr0]]; simplify_eq.
    + by apply (Hdone r0).
    + by rewrite Hplan in Hner.
    + destruct (Hdone r0 Hstate) as [_ Hothers]. by apply (Hothers sid).
    + by eapply Hd.
Qed.

(** ** Running the operations *)

Section running.
Context `{Env}.

Definition event_at (s : session) (run_id event_type : string) (step_id : option string)
    (severity : string) (agent_id phase : option string) (attempt : option Z)
    (message : option string) (data : json) : event_row :=
  Event run_id step_id event_type severity agent_id phase attempt message (jor data (JObj []))
    (clock (tick s)).

Lemma run_append_event run_id et sid sev ag ph at_ msg data s :
  known (runs (cur s)) run_id = true → known_or_null (steps (cur s)) sid = true →
  append_event run_id et sid sev ag ph at_ msg data s =
  (Ret tt, Session (set_events (λ es, es ++ [event_at s run_id et sid sev ag ph at_ msg data])
    (cur s)) (committed s) (S (tick s)) (issued s)).
Proof.
  intros Hr Hs. unfold append_event, insert_event. run. rewrite Hr, Hs. done.
Qed.

Lemma step_of_run_Some run_id step_id d st :
  step_of_run run_id step_id d = Some st ↔
  steps d !! step_id = Some st ∧ ps_run_id (st_plan st) = run_id.
Proof. unfold step_of_run. repeat case_match; naive_solver. Qed.

(** A session whose transaction was just committed. *)
Definition settled (d : db) (s : session) : Prop := cur s = d ∧ committed s = d.

Lemma claim_candidate_Some run_id phase agent same supp locked d id st :
  claim_candidate run_id phase agent same supp locked d = Some (id, st) →
  steps d !! id = Some st ∧ claimable run_id phase agent same supp d (id, st) ∧
  id ∉ locked ∧ run_id ∉ locked.
Proof.
  unfold claim_candidate. intros Hh.
  destruct (filter _ _) as [|x l] eqn:E; [done|]. simplify_eq/=.
  assert ((id, st) ∈ (id, st) :: l) as Hin by set_solver.
  rewrite <- E, list_elem_of_filter, elem_of_isort, elem_of_select_where in Hin. naive_solver.
Qed.

(** What a claim writes. *)
Definition claim_step (agent_id : string) (now attempt : Z) (st : step_row) : step_row :=
  with_step_state Running attempt (Some agent_id) (Some now)
    (coalesce (st_started_at st) (Some now)) (st_finished_at st) (st_last_error st) st.

Definition claim_run (phase id : string) (r : run_row) : run_row :=
  with_run_state (RunningIn phase) (Some phase) (Some id) (rn_finished_at r) (rn_last_error r) r.

Lemma run_claim_none run_id phase agent kinds same locked s :
  claim_candidate run_id phase agent same (normalized_supported kinds) locked (cur s) = None →
  claim_next_step run_id phase agent kinds same locked s =
  (Ret None, Session (cur s) (cur s) (tick s) (issued s)).
Proof. intros Hc. unfold claim_next_step. rewrite run_bind, run_query, Hc. done. Qed.

Lemma run_claim_some run_id phase agent kinds same locked s id st :
  claim_candidate run_id phase agent same (normalized_supported kinds) locked (cur s) = Some (id, st) →
  ∃ e d' s', d' = touch run_id id (claim_step agent (clock (tick s)) (st_attempt st + 1))
      (claim_run phase id) e (cur s) ∧
    settled d' s' ∧ ev_run_id e = run_id ∧ ev_event_type e = "step_claimed" ∧
    claim_next_step run_id phase agent kinds same locked s =
    (Ret (Some (Claimed id (claim_step agent (clock (tick s)) (st_attempt st + 1) st)
       (pinned_entries run_id (ps_content_refs (st_plan st)) (cur s)))), s').
Proof.
  intros Hc. unfold claim_next_step. rewrite run_bind, run_query, Hc.
  apply claim_candidate_Some in Hc as (Hst & (Hrun & Hact & _) & _).
  rewrite !run_bind, run_now. rewrite !run_bind, run_execute. rewrite !run_bind, run_execute.
  rewrite !run_bind, run_append_event; simpl.
  2: { rewrite known_alter. apply known_true. by destruct (runs (cur s) !! run_id). }
  2: { rewrite known_alter. apply known_true. eauto. }
  rewrite run_bind, run_commit. simpl.
  match goal with |- context [λ es, es ++ [?e]] => exists e end.
  eexists _, (Session _ _ _ _). split; [reflexivity|].
  split; [split; reflexivity|]. split; [done|]. split; [done|].
  unfold get_step. rewrite !run_bind, run_query. simpl. rewrite lookup_alter_eq, Hst. simpl.
  rewrite run_bind. erewrite run_content_for_step by (simpl; rewrite lookup_alter_eq, Hst; done).
  rewrite run_ret. simpl. unfold touch. simpl in Hrun. rewrite Hrun. reflexivity.
Qed.

(** What a result writes. *)
Definition completed_step (status : string) (message : option string) (ss : step_state)
    (finished_at : option Z) (st : step_row) : step_row :=
  with_step_state ss (st_attempt st)
    (if decide (ss = Pending) then None else st_claimed_by st)
    (if decide (ss = Pending) then None else st_claimed_at st)
    (st_started_at st) finished_at (if decide (status = "failed") then message else None) st.

Definition completed_run (step_id phase : string) (message : option string) (rs : run_state)
    (now : Z) (r : run_row) : run_row :=
  with_run_state rs (Some phase) (Some step_id)
    (if decide (rs = RunDone ∨ rs = RunFailed) then Some now else rn_finished_at r)
    (if decide (rs = RunFailed) then message else rn_last_error r) r.

Lemma run_complete_missing run_id sid ag status msg data s :
  step_of_run run_id sid (cur s) = None →
  complete_step run_id sid ag status msg data s =
  (Exc (ValueError ("step not found for run: " +:+ sid)), s).
Proof. intros Hst. unfold complete_step. by rewrite run_bind, run_query, Hst. Qed.

(** A failure reported after the step announced its reboot only leaves an event. *)
Lemma run_complete_late run_id sid ag msg data s st :
  step_of_run run_id sid (cur s) = Some st → known (runs (cur s)) run_id = true →
  st_state st = AwaitingReboot →
  ∃ e s', settled (set_events (λ es, es ++ [e]) (cur s)) s' ∧
    ev_event_type e = "step_late_failure_ignored" ∧
    complete_step run_id sid ag "failed" msg data s = (Ret st, s').
Proof.
  intros Hst Hrun Haw. unfold complete_step. rewrite run_bind, run_query, Hst. cbv zeta.
  rewrite run_bind, run_now, decide_True by done.
  apply step_of_run_Some in Hst as [Hst _].
  rewrite run_bind, run_append_event; simpl; [|done|apply known_true; eauto].
  eexists _, (Session _ _ _ _). split; [split; reflexivity|]. split; [|done]. done.
Qed.

Lemma run_complete_bad run_id sid ag status msg data s st e :
  step_of_run run_id sid (cur s) = Some st → ¬ (status = "failed" ∧ st_state st = AwaitingReboot) →
  result_of status st (next_run_state run_id sid (cur s)) (clock (tick s)) = Exc e →
  complete_step run_id sid ag status msg data s =
  (Exc e, Session (cur s) (committed s) (S (tick s)) (issued s)).
Proof.
  intros Hst Hlate Hres. unfold complete_step. rewrite run_bind, run_query, Hst. cbv zeta.
  rewrite run_bind, run_now, decide_False by done. rewrite run_bind, run_query, run_bind.
  cbn -[result_of next_run_state]. unfold lift_outcome. by rewrite Hres.
Qed.

Lemma run_complete_ok run_id sid ag status msg data s st ss rs fin sev :
  step_of_run run_id sid (cur s) = Some st → known (runs (cur s)) run_id = true →
  ¬ (status = "failed" ∧ st_state st = AwaitingReboot) →
  result_of status st (next_run_state run_id sid (cur s)) (clock (tick s)) = Ret (ss, rs, fin, sev) →
  ∃ e s', settled (touch run_id sid (completed_step status msg ss fin)
      (completed_run sid (ps_phase (st_plan st)) msg rs (clock (tick s))) e (cur s)) s' ∧
    ev_event_type e = "step_" +:+ step_state_text ss ∧ ev_severity e = sev ∧
    complete_step run_id sid ag status msg data s = (Ret (completed_step status msg ss fin st), s').
Proof.
  intros Hst Hrun Hlate Hres. unfold complete_step. rewrite run_bind, run_query, Hst. cbv zeta.
  rewrite run_bind, run_now, decide_False by done. rewrite run_bind, run_query, run_bind.
  cbn -[result_of next_run_state]. unfold lift_outcome. rewrite Hres.
  apply step_of_run_Some in Hst as [Hst _].
  rewrite !run_bind, run_execute. rewrite !run_bind, run_execute.
  rewrite !run_bind, run_append_event; simpl; [|by rewrite known_alter|].
  2: { rewrite known_alter. apply known_true. eauto. }
  rewrite run_bind, run_commit. simpl.
  match goal with |- context [λ es, es ++ [?e]] => exists e end.
  eexists (Session _ _ _ _). split; [split; reflexivity|]. split; [done|]. split; [done|].
  unfold get_step. rewrite !run_bind, run_query. simpl. by rewrite lookup_alter_eq, Hst.
Qed.

(** What the end of a reboot writes. *)
Definition rebooted_step (finished : Z) (st : step_row) : step_row :=
  with_step_state Done (st_attempt st) (st_claimed_by st) (st_claimed_at st) (st_started_at st)
    (Some finished) (st_last_error st) st.

Definition rebooted_run (step_id phase : string) (rs : run_state) (now : Z) (r : run_row) : run_row :=
  with_run_state rs (Some phase) (Some step_id)
    (if decide (rs = RunDone) then Some now else rn_finished_at r) (rn_last_error r) r.

Lemma next_run_state_alter run_id sid f d :
  (∀ st, st_plan (f st) = st_plan st) →
  next_run_state run_id sid (set_steps (alter f sid) d) = next_run_state run_id sid d.
Proof.
  intros Hf. destruct (next_run_state_cases run_id sid d) as [Hn|Hn]; rewrite Hn.
  - apply next_run_state_done. rewrite next_run_state_done in Hn.
    intros k st Hk ? Hne. simpl in Hk. rewrite lookup_alter_ne in Hk by done. by apply (Hn k st).
  - destruct (next_run_state_cases run_id sid (set_steps (alter f sid) d)) as [Hn'|]; [|done].
    rewrite next_run_state_done in Hn'. exfalso.
    assert (next_run_state run_id sid d = RunDone) as Hd; [|congruence].
    apply next_run_state_done. intros k st Hk ? Hne. apply (Hn' k st); [|done..].
    simpl. by rewrite lookup_alter_ne.
Qed.

Lemma run_reboot_ok run_id sid ag s st :
  step_of_run run_id sid (cur s) = Some st → known (runs (cur s)) run_id = true →
  st_state st = AwaitingReboot →
  ∃ e s', settled (touch run_id sid (rebooted_step (clock (tick s)))
      (rebooted_run sid (ps_phase (st_plan st)) (next_run_state run_id sid (cur s))
         (clock (S (tick s)))) e (cur s)) s' ∧
    ev_event_type e = "step_reboot_complete" ∧
    mark_reboot_complete run_id sid ag s = (Ret (rebooted_step (clock (tick s)) st), s').
Proof.
  intros Hst Hrun Haw. unfold mark_reboot_complete. rewrite run_bind, run_query, Hst.
  rewrite decide_True by done. cbv zeta.
  apply step_of_run_Some in Hst as [Hst _].
  rewrite run_bind, run_now, run_bind, run_execute, run_bind, run_query, run_bind, run_now,
    run_bind, run_execute. unfold on_cur. cbn [cur committed tick issued].
  rewrite next_run_state_alter by done.
  rewrite run_bind, run_append_event; simpl; [|by rewrite known_alter|].
  2: { rewrite known_alter. apply known_true. eauto. }
  rewrite run_bind, run_commit. simpl.
  match goal with |- context [λ es, es ++ [?e]] => exists e end.
  eexists (Session _ _ _ _). split; [split; reflexivity|]. split; [done|].
  unfold get_step. rewrite !run_bind, run_query. simpl. by rewrite lookup_alter_eq, Hst.
Qed.

(** What an operator's requeue writes. *)
Definition requeued_step : step_row → step_row := with_step_state Pending 0 None None None None None.

Definition requeued_run (phase : string) : run_row → run_row :=
  with_run_state (RunningIn phase) (Some phase) None None None.

Lemma run_requeue_ok run_id sid by_ msg s st :
  step_of_run run_id sid (cur s) = Some st → known (runs (cur s)) run_id = true →
  st_state st = Failed →
  ∃ e s', settled (touch run_id sid requeued_step (requeued_run (ps_phase (st_plan st))) e (cur s)) s' ∧
    ev_event_type e = "step_requeued" ∧
    requeue_step run_id sid by_ msg s = (Ret (requeued_step st), s').
Proof.
  intros Hst Hrun Hf. unfold requeue_step. rewrite run_bind, run_query, Hst.
  rewrite decide_True by done. cbv zeta. apply step_of_run_Some in Hst as [Hst _].
  rewrite run_bind, run_execute, run_bind, run_execute.
  rewrite run_bind, run_append_event; simpl; [|by rewrite known_alter|].
  2: { rewrite known_alter. apply known_true. eauto. }
  rewrite run_bind, run_commit. simpl.
  match goal with |- context [λ es, es ++ [?e]] => exists e end.
  eexists (Session _ _ _ _). split; [split; reflexivity|]. split; [done|].
  unfold get_step. rewrite !run_bind, run_query. simpl. by rewrite lookup_alter_eq, Hst.
Qed.
End running.

(** ** Every operation keeps the invariant *)

Lemma wf_settled d s : settled d s → wf_runs d → holds_in wf_runs s.
Proof. intros [Hc Hm] Hd. split; congruence. Qed.

(** The invariant only reads steps and runs. *)
Lemma wf_runs_ext d d' :
  steps d' = steps d → runs d' = runs d → osdeploy d' = osdeploy d → wf_runs d → wf_runs d'.
Proof. intros Hs Hr Ho [H1 H2 H3 H4]. split; rewrite ?Hs, ?Hr, ?Ho; eauto. Qed.

Lemma wf_known d sid st :
  wf_runs d → steps d !! sid = Some st → known (runs d) (ps_run_id (st_plan st)) = true.
Proof. intros Hd Hst. by apply (wr_step d Hd sid st). Qed.

Lemma result_of_step_ok status msg st next now ss rs fin sev :
  step_ok st → result_of status st next now = Ret (ss, rs, fin, sev) →
  step_ok (completed_step status msg ss fin st).
Proof.
  intros [Ha Hp Hr Hf] Hres. unfold result_of in Hres.
  repeat case_decide; simplify_eq; split; simpl; try done; try lia; intros; split_hyps;
    destruct_or?; done || eauto.
Qed.

Lemma result_of_done status st run_id sid d now ss rs fin sev :
  result_of status st (next_run_state run_id sid d) now = Ret (ss, rs, fin, sev) →
  rs = RunDone → ss ∉ active_states ∧ others_inactive run_id sid d.
Proof.
  intros Hres ->. rewrite <- next_run_state_done. unfold result_of in Hres.
  repeat case_decide; simplify_eq; repeat case_match; simplify_eq; (split; [|done]);
    unfold active_states; set_solver.
Qed.

Section keeping.
Context `{Env}.

Lemma wf_claim run_id phase agent kinds same locked :
  preserves wf_runs (claim_next_step run_id phase agent kinds same locked).
Proof.
  intros s [Hc Hm].
  destruct (claim_candidate run_id phase agent same (normalized_supported kinds) locked (cur s))
    as [[id st]|] eqn:E.
  - edestruct run_claim_some as (e & d' & s' & -> & Hset & _ & _ & ->); [done|]. simpl.
    apply claim_candidate_Some in E as (Hst & (Hrun & _ & Hpend & _) & _).
    simpl in *. eapply wf_settled; [done|]. eapply wf_touch; [done..| | |].
    + destruct (wr_step _ Hc id st Hst) as [[Ha Hp _ _] _]. specialize (Hp Hpend).
      split; simpl; try naive_solver lia. intros _.
      split_and!; [eauto| |lia]. destruct (st_started_at st); simpl; eauto.
    + intros r Hr [?|?]; simpl in *; done.
    + done.
  - rewrite run_claim_none by done. by split.
Qed.

Lemma wf_complete run_id sid ag status msg data :
  preserves wf_runs (complete_step run_id sid ag status msg data).
Proof.
  intros s Hs. pose proof Hs as [Hc Hm].
  destruct (step_of_run run_id sid (cur s)) as [st|] eqn:Hst;
    [|by rewrite run_complete_missing by done].
  pose proof (proj1 (step_of_run_Some _ _ _ _) Hst) as [Hlk Hrun].
  pose proof (wf_known _ _ _ Hc Hlk) as Hknown. rewrite Hrun in Hknown.
  destruct (decide (status = "failed" ∧ st_state st = AwaitingReboot)) as [[-> Haw]|Hlate].
  - edestruct run_complete_late as (e & s' & Hset & _ & ->); [done..|].
    eapply wf_settled; [done|]. by apply (wf_runs_ext (cur s)).
  - destruct (result_of status st (next_run_state run_id sid (cur s)) (clock (tick s)))
      as [[[[ss rs] fin] sev]|e] eqn:Hres; [|by erewrite run_complete_bad].
    edestruct run_complete_ok as (e & s' & Hset & _ & _ & ->); [done..|].
    eapply wf_settled; [done|]. eapply wf_touch; [done..| | |].
    + eapply result_of_step_ok; [|done]. by apply (wr_step _ Hc sid).
    + intros r Hr. unfold run_ok. simpl. intros Hrs. rewrite decide_True by done. eauto.
    + intros r Hrs. by eapply result_of_done.
Qed.

Lemma wf_reboot run_id sid ag : preserves wf_runs (mark_reboot_complete run_id sid ag).
Proof.
  intros s Hs. pose proof Hs as [Hc Hm]. destruct (step_of_run run_id sid (cur s)) as [st|] eqn:Hst.
  2: { unfold mark_reboot_complete. by rewrite run_bind, run_query, Hst. }
  destruct (decide (st_state st = AwaitingReboot)) as [Haw|Haw].
  2: { unfold mark_reboot_complete. rewrite run_bind, run_query, Hst. by rewrite decide_False. }
  pose proof (proj1 (step_of_run_Some _ _ _ _) Hst) as [Hlk Hrun].
  pose proof (wf_known _ _ _ Hc Hlk) as Hknown. rewrite Hrun in Hknown.
  edestruct run_reboot_ok as (e & s' & Hset & _ & ->); [done..|].
  eapply wf_settled; [done|]. eapply wf_touch; [done..| | |].
  - destruct (wr_step _ Hc sid st Hlk) as [[Ha _ _ _] _]. split; simpl; eauto; done.
  - intros r Hr [Hd|Hd]; simpl in *; [rewrite decide_True by done; eauto|].
    by destruct (next_run_state_cases run_id sid (cur s)); congruence.
  - intros r Hrs. simpl in Hrs. split; [unfold active_states; simpl; set_solver|].
    by apply next_run_state_done.
Qed.

Lemma wf_requeue run_id sid by_ msg : preserves wf_runs (requeue_step run_id sid by_ msg).
Proof.
  intros s Hs. pose proof Hs as [Hc Hm]. destruct (step_of_run run_id sid (cur s)) as [st|] eqn:Hst.
  2: { unfold requeue_step. by rewrite run_bind, run_query, Hst. }
  destruct (decide (st_state st = Failed)) as [Haw|Haw].
  2: { unfold requeue_step. rewrite run_bind, run_query, Hst. by rewrite decide_False. }
  pose proof (proj1 (step_of_run_Some _ _ _ _) Hst) as [Hlk Hrun].
  pose proof (wf_known _ _ _ Hc Hlk) as Hknown. rewrite Hrun in Hknown.
  edestruct run_requeue_ok as (e & s' & Hset & _ & ->); [done..|].
  eapply wf_settled; [done|]. eapply wf_touch; [done..| | |].
  - split; simpl; [lia|lia|done|naive_solver].
  - intros r Hr. unfold run_ok. simpl. naive_solver.
  - done.
Qed.

Lemma wf_insert_event e : preserves wf_runs (insert_event e).
Proof. apply preserves_query_checked. intros d Hd _. by apply (wf_runs_ext d). Qed.

Lemma wf_append_event run_id et sid sev ag ph at_ msg data :
  preserves wf_runs (append_event run_id et sid sev ag ph at_ msg data).
Proof. pose proof wf_insert_event. unfold append_event. preserves_solve. Qed.

Lemma wf_log run_id sid ag stream content :
  preserves wf_runs (append_step_log run_id sid ag stream content).
Proof.
  assert (∀ l, preserves wf_runs (insert_log l)).
  { intros l. apply preserves_query_checked. intros d Hd _. by apply (wf_runs_ext d). }
  unfold append_step_log. preserves_solve.
Qed.

(** Changing a run's columns other than its state and times. *)
Lemma wf_alter_run g run_id d :
  (∀ r, rn_state (g r) = rn_state r ∧ rn_finished_at (g r) = rn_finished_at r) →
  wf_runs d → wf_runs (set_runs (alter g run_id) d).
Proof.
  intros Hg [Hs Ho Hr Hd]. split; simpl.
  - intros id st Hst. rewrite known_alter. by apply (Hs id).
  - done.
  - intros id r [(r0 & -> & H0 & ->)|[_ H0]]%lookup_alter_Some_inv; [|by eapply Hr].
    unfold run_ok. destruct (Hg r0) as [-> ->]. by eapply Hr.
  - intros id r sid st Hno [(r0 & -> & H0 & ->)|[_ H0]]%lookup_alter_Some_inv; [|by eapply Hd].
    destruct (Hg r0) as [-> _]. by eapply Hd.
Qed.

Lemma wf_identity run_id vmid uuid name serial patch :
  preserves wf_runs (update_run_identity run_id vmid uuid name serial patch).
Proof.
  pose proof wf_append_event. unfold update_run_identity, get_run. cbv zeta. preserves_solve.
  apply preserves_execute. intros d. by apply wf_alter_run.
Qed.

Lemma done_from_evidence_ok ag now st : step_ok st → step_ok (done_from_evidence ag now st).
Proof.
  intros [Ha _ _ _]. split; simpl; try done.
  intros _. destruct (st_finished_at st); simpl; eauto.
Qed.

(** Finishing a step cannot make a finished run unfinished. *)
Lemma wf_alter_done f sid d :
  (∀ st, step_ok st → step_ok (f st)) → (∀ st, st_plan (f st) = st_plan st) →
  (∀ st, st_state (f st) = Done) → wf_runs d → wf_runs (set_steps (alter f sid) d).
Proof.
  intros Hok Hp Hdone [Hs Ho Hr Hd].
  assert (∀ id st', alter f sid (steps d) !! id = Some st' → ∃ st0, steps d !! id = Some st0 ∧
    st_plan st' = st_plan st0 ∧ (st' = st0 ∨ st' = f st0)) as Hinv.
  { intros id st' [(st0 & -> & H0 & ->)|[_ H0]]%lookup_alter_Some_inv; naive_solver. }
  split; simpl.
  - intros id st' (st0 & H0 & -> & Hst')%Hinv. destruct (Hs id st0 H0). naive_solver.
  - intros id1 id2 st1 st2 (st1' & H1 & -> & _)%Hinv (st2' & H2 & -> & _)%Hinv. by apply Ho.
  - done.
  - intros id r k st' Hno Hr' Hrs (st0 & H0 & -> & [->| ->])%Hinv Hid; [by eapply Hd|].
    rewrite Hdone. unfold active_states. set_solver.
Qed.

Lemma wf_mark_done run_id ag msg data now kr :
  preserves wf_runs (mark_done run_id ag msg data now kr).
Proof.
  pose proof wf_append_event. unfold mark_done. preserves_solve. apply preserves_execute.
  intros d. apply wf_alter_done; [apply done_from_evidence_ok|done|done].
Qed.

(** Closing a run none of whose steps is left to do. *)
Lemma wf_close_run run_id cursor now d :
  (∀ sid st, steps d !! sid = Some st → ps_run_id (st_plan st) = run_id →
     st_state st ∉ active_states) → wf_runs d →
  wf_runs (set_runs (alter (λ r,
    if decide (rn_state r = RunFailed) then r
    else with_run_state RunDone (Some "full_os") (coalesce (rn_cursor_step_id r) cursor)
      (coalesce (rn_finished_at r) (Some now)) (rn_last_error r) r) run_id) d).
Proof.
  intros Hin [Hs Ho Hr Hd]. split; simpl.
  - intros id st Hst. rewrite known_alter. by apply (Hs id).
  - done.
  - intros id r [(r0 & -> & H0 & ->)|[_ H0]]%lookup_alter_Some_inv; [|by eapply Hr].
    case_decide; [by eapply Hr|]. intros _. simpl. destruct (rn_finished_at r0); simpl; eauto.
  - intros id r sid st Hno [(r0 & -> & H0 & ->)|[_ H0]]%lookup_alter_Some_inv; [|by eapply Hd].
    intros _ Hst Hid. by eapply Hin.
Qed.

Lemma wf_mark_steps run_id kinds ag msg data :
  preserves wf_runs (mark_steps_done_by_kind run_id kinds ag msg data).
Proof.
  unfold mark_steps_done_by_kind. destruct (normalized_supported kinds) as [|k ks];
    [apply preserves_ret|].
  pose proof wf_mark_done.
  apply preserves_bind; [apply preserves_query|intros rows].
  apply preserves_bind; [apply preserves_now|intros at_].
  apply preserves_bind; [apply preserves_for_each; auto|intros _]. cbv zeta.
  intros s [Hc Hm]. rewrite run_bind, run_query, run_bind, run_query, run_bind.
  destruct (exists_where _ (steps (cur s))) eqn:Hrem.
  - case_decide; [by split|]. rewrite run_execute. simpl.
    split; (apply wf_alter_run; [|done]); intros r; by case_decide.
  - rewrite run_execute. simpl. rewrite exists_where_false in Hrem.
    split; apply wf_close_run; try done; intros sid st Hst Hr Ha; apply (Hrem sid st Hst);
      (split; [done|]); simpl; unfold active_states in Ha; set_solver.
Qed.

(** ** Creating a run *)

(** While its plan is inserted, the run is queued. *)
Definition creating (run_id : string) (s : session) : Prop :=
  holds_in wf_runs s ∧ ∃ r, runs (cur s) !! run_id = Some r ∧ rn_state r = Queued.

Lemma wf_insert_run id r s :
  rn_state r = Queued → holds_in wf_runs s →
  match insert_run id r s with
  | (Ret _, s') => creating id s'
  | (Exc _, s') => holds_in wf_runs s'
  end.
Proof.
  intros Hq Hs. unfold insert_run. rewrite run_bind, run_query. simpl. rewrite run_checked.
  destruct (negb _ && _ && _) eqn:Hok; [|done]. rewrite !andb_true_iff, negb_true_iff, known_false in Hok.
  destruct Hok as [[Hid _] _], Hs as [[Hst Ho Hr Hd] Hm].
  split; [split; [|done]|exists r; split; [apply lookup_insert_eq|done]].
  split; simpl.
  - intros sid st Hsid. split; [by apply (Hst sid)|]. apply known_insert. by apply (Hst sid).
  - done.
  - intros id' r' [[<- <-]|[_ H']]%lookup_insert_Some; [intros [?|?]; congruence|by eapply Hr].
  - intros id' r' sid st Hno [[<- <-]|[_ H']]%lookup_insert_Some; [congruence|by eapply Hd].
Qed.

Lemma wf_insert_step run_id id st s :
  step_ok st → ps_run_id (st_plan st) = run_id → creating run_id s →
  creating run_id (insert_step id st s).2.
Proof.
  intros Hok Hrun [Hs (r & Hr & Hq)]. unfold insert_step. rewrite run_bind, run_query. simpl.
  rewrite run_checked. destruct (negb _ && _ && _) eqn:Hchk; [|split; eauto].
  rewrite !andb_true_iff, !negb_true_iff, known_false in Hchk.
  destruct Hchk as [[Hid Hk] Hfree], Hs as [[Hst Ho Hrs Hd] Hm]. rewrite exists_where_false in Hfree.
  split; [split; [|done]|eauto]. split; simpl.
  - intros sid st' [[<- <-]|[_ H']]%lookup_insert_Some; [done|by apply (Hst sid)].
  - intros id1 id2 st1 st2 [[<- <-]|[? H1]]%lookup_insert_Some [[<- <-]|[? H2]]%lookup_insert_Some
      He1 He2; [done| | |by eapply Ho].
    + by destruct (Hfree id2 st2 H2).
    + by destruct (Hfree id1 st1 H1).
  - done.
  - intros id' r' sid st' Hno Hr' Hd' [[<- <-]|[_ H']]%lookup_insert_Some Heq; [|by eapply Hd].
    congruence.
Qed.

Lemma wf_insert_plan_step run_id variables target fs s :
  creating run_id s → creating run_id (insert_plan_step run_id variables target fs s).2.
Proof.
  intros Hs. unfold insert_plan_step. rewrite run_bind. unfold lift_outcome.
  destruct (evaluate_condition _ _ _) as [res|e]; [|done].
  rewrite run_bind, run_new_id. destruct (fs_kind fs); [|done].
  apply wf_insert_step; [|done|done].
  unfold initial_step. destruct (fs_enabled fs && res.1); split; simpl; try done; try lia; naive_solver.
Qed.

Lemma wf_pin_ref_runs run_id roots ref : preserves wf_runs (pin_ref run_id roots ref).
Proof.
  assert (∀ id m, preserves wf_runs (insert_manifest id m)).
  { intros id m. apply preserves_query_checked. intros d Hd _. by apply (wf_runs_ext d). }
  unfold pin_ref, insert_manifest_or_nothing. cbv zeta. preserves_solve.
Qed.

Lemma wf_resolve run_id roots : preserves wf_runs (resolve_run_content_manifest run_id roots).
Proof.
  pose proof wf_pin_ref_runs.
  unfold resolve_run_content_manifest, list_run_manifest. cbv zeta. preserves_solve.
Qed.

Lemma wf_create version target variables by_ resolve :
  preserves wf_runs (create_run_from_version version target variables by_ resolve).
Proof.
  intros s Hs. unfold create_run_from_version. rewrite run_bind, run_query.
  destruct (versions (cur s) !! version) as [v|]; [|done]. cbv zeta.
  rewrite run_bind, run_new_id, run_bind, run_now, run_bind.
  match goal with |- context [insert_run ?id ?r ?s] =>
    pose proof (wf_insert_run id r s eq_refl Hs) as Hins;
    destruct (insert_run id r s) as [[[]|e] s1] end; [|done].
  rewrite run_bind. unfold lift_outcome. destruct (flatten_steps _) as [plan|e]; [|apply Hins].
  rewrite run_bind.
  match goal with |- context [for_each plan ?b s1] =>
    pose proof (for_each_preserves b (creating (uuid4 (issued s))) plan s1 Hins
      (λ x s _, wf_insert_plan_step _ _ _ x s)) as Hloop;
    destruct (for_each plan b s1) as [[[]|e] s2] end; [|apply Hloop].
  destruct Hloop as [Hs2 _]. simpl in Hs2. revert s2 Hs2.
  match goal with |- ∀ s2, _ → holds_in _ (?m s2).2 => change (preserves wf_runs m) end.
  pose proof wf_append_event. pose proof wf_resolve. preserves_solve.
Qed.

(** The requests about runs. *)
Inductive run_request : Type :=
| ReqCreateRun (version : string) (target variables : json) (created_by : option string)
    (resolve_content : bool)
| ReqClaim (run_id phase agent_id : string) (kinds : list string) (same_agent : bool)
    (locked : gset string)
| ReqComplete (run_id step_id agent_id status : string) (message : option string) (data : json)
| ReqRebooted (run_id step_id agent_id : string)
| ReqRequeue (run_id step_id requested_by : string) (message : option string)
| ReqLog (run_id step_id agent_id stream content : string)
| ReqMarkDone (run_id : string) (kinds : list string) (agent_id : string)
    (message : option string) (data : json)
| ReqIdentity (run_id : string) (vmid vm_uuid computer_name serial_number patch : json).

Definition serve_run (r : run_request) : eff session unit :=
  match r with
  | ReqCreateRun v t va c rc => create_run_from_version v t va c rc ;; mret tt
  | ReqClaim r p a k sa l => claim_next_step r p a k sa l ;; mret tt
  | ReqComplete r s a st m d => complete_step r s a st m d ;; mret tt
  | ReqRebooted r s a => mark_reboot_complete r s a ;; mret tt
  | ReqRequeue r s b m => requeue_step r s b m ;; mret tt
  | ReqLog r s a st c => append_step_log r s a st c
  | ReqMarkDone r k a m d => mark_steps_done_by_kind r k a m d ;; mret tt
  | ReqIdentity r v u n se p => update_run_identity r v u n se p ;; mret tt
  end.

Lemma wf_serve_run r : preserves wf_runs (serve_run r).
Proof.
  pose proof wf_create. pose proof wf_claim. pose proof wf_complete. pose proof wf_reboot.
  pose proof wf_requeue. pose proof wf_log. pose proof wf_mark_steps. pose proof wf_identity.
  destruct r; simpl; preserves_solve.
Qed.
End keeping.

(** * Claiming and progress

    Which step an agent is given, that no two agents work on one phase of a run at
    the same time, and that an agent whose steps succeed brings the run to its
    end. *)

(** ** Candidates *)

Definition ordinal (st : step_row) : nat := ps_ordinal (st_plan st).

Lemma claimable_unblocked run_id phase agent same supp d id st k prev :
  claimable run_id phase agent same supp d (id, st) → steps d !! k = Some prev →
  ps_run_id (st_plan prev) = run_id → in_phase phase prev → (ordinal prev < ordinal st)%nat →
  st_state prev ∉ [Pending; AwaitingReboot; Failed] ∧
  (st_state prev = Running → same = true ∧ default EmptyString (st_claimed_by prev) = agent).
Proof.
  intros (Hrun & _ & _ & _ & Hb & _) Hk Hr Hph Hlt. rewrite exists_where_false in Hb.
  specialize (Hb k prev Hk). simpl in *. unfold blocks in Hb.
  split.
  - intros Hin. apply Hb. split_and!; [congruence|done|done|by left].
  - intros Hst. destruct (decide (same = true ∧ default EmptyString (st_claimed_by prev) = agent))
      as [|Hn]; [done|]. exfalso. apply Hb. split_and!; [congruence|done|done|right].
    split; [done|]. destruct same; [right|by left]. intros ?. by apply Hn.
Qed.

(** A pending step of the phase keeps the later ones from being claimed. *)
Lemma claimable_not_later run_id phase agent agent' same same' supp supp' d id1 id2 st1 st2 :
  steps d !! id1 = Some st1 → claimable run_id phase agent same supp d (id1, st1) →
  claimable run_id phase agent' same' supp' d (id2, st2) → (ordinal st2 ≤ ordinal st1)%nat.
Proof.
  intros H1 Hc1 Hc2. destruct (decide (ordinal st2 ≤ ordinal st1)%nat) as [|Hlt]; [done|exfalso].
  pose proof Hc1 as (Hrun & _ & Hp & Hph & _). simpl in *.
  destruct (claimable_unblocked _ _ _ _ _ _ _ _ _ _ Hc2 H1 Hrun Hph) as [Hn _]; [lia|].
  rewrite Hp in Hn. set_solver.
Qed.

(** At most one step of a run is claimable in a phase, whoever asks. *)
Lemma claimable_unique run_id phase agent agent' same same' supp supp' d id1 id2 st1 st2 :
  wf_runs d → steps d !! id1 = Some st1 → steps d !! id2 = Some st2 →
  claimable run_id phase agent same supp d (id1, st1) →
  claimable run_id phase agent' same' supp' d (id2, st2) → id1 = id2.
Proof.
  intros Hd H1 H2 Hc1 Hc2.
  pose proof (claimable_not_later _ _ _ _ _ _ _ _ _ _ _ _ _ H1 Hc1 Hc2).
  pose proof (claimable_not_later _ _ _ _ _ _ _ _ _ _ _ _ _ H2 Hc2 Hc1).
  destruct Hc1 as [Hr1 _], Hc2 as [Hr2 _]. simpl in *.
  apply (wr_ordinal d Hd id1 id2 st1 st2); [done|done|congruence|]. unfold ordinal in *. lia.
Qed.

Lemma claim_candidate_complete run_id phase agent same supp locked d id st :
  wf_runs d → steps d !! id = Some st → claimable run_id phase agent same supp d (id, st) →
  id ∉ locked → run_id ∉ locked →
  claim_candidate run_id phase agent same supp locked d = Some (id, st).
Proof.
  intros Hd Hst Hc Hl1 Hl2.
  destruct (claim_candidate run_id phase agent same supp locked d) as [[id' st']|] eqn:E.
  - apply claim_candidate_Some in E as (Hst' & Hc' & _).
    assert (id' = id) as -> by (by eapply claimable_unique). congruence.
  - exfalso. unfold claim_candidate in E.
    assert ((id, st) ∈ filter (λ kr : string * step_row, kr.1 ∉ locked ∧ run_id ∉ locked)
      (isort ordinal_order (select_where (claimable run_id phase agent same supp d) (steps d)))) as Hin.
    { rewrite list_elem_of_filter, elem_of_isort, elem_of_select_where. done. }
    destruct (filter _ _); [by apply not_elem_of_nil in Hin|done].
Qed.

Section claiming.
Context `{Env}.


(** A claim never misses work: when a step of the run is pending in the agent's
    phase, of a kind it supports, with every earlier step of the phase done or
    skipped, the run active and neither row locked, the claim returns that step. *)
Theorem claim_next_step_complete (run_id phase agent : string) (kinds : list string) (same : bool)
    (locked : gset string) (s : session) (id : string) (st : step_row) (r : run_row) :
  wf_runs (cur s) → steps (cur s) !! id = Some st → runs (cur s) !! run_id = Some r →
  run_active r = true → ps_run_id (st_plan st) = run_id → st_state st = Pending →
  in_phase phase st → id ∉ locked → run_id ∉ locked →
  (normalized_supported kinds = [] ∨ ps_kind (st_plan st) ∈ normalized_supported kinds) →
  (∀ k prev, steps (cur s) !! k = Some prev → ps_run_id (st_plan prev) = run_id →
     in_phase phase prev → (ordinal prev < ordinal st)%nat →
     st_state prev = Done ∨ st_state prev = Skipped) →
  ∃ c s', claim_next_step run_id phase agent kinds same locked s = (Ret (Some c), s') ∧ cl_id c = id.
Proof.
  intros Hwf Hst Hr Hact Hrun Hp Hph Hl1 Hl2 Hk Hprev.
  edestruct (run_claim_some run_id phase agent kinds same locked s id st)
    as (e & d' & s' & _ & _ & _ & _ & Hc); [|eauto].
  apply claim_candidate_complete; try done. split_and!; simpl; try done.
  - rewrite Hr. simpl. by rewrite Hact.
  - apply exists_where_false. intros k prev Hkp (Hr1 & Hlt & Hpp & Hs). simpl in *.
    destruct (Hprev k prev) as [Hd|Hd]; [done|congruence|done|done|..];
      rewrite Hd in Hs; set_solver.
Qed.

(** C2. Two agents never work on one phase of a run at the same time: after an agent
    has claimed a step, no other agent gets a step of that phase, whatever kinds it
    supports and whatever is locked, and neither does the same agent unless it asks
    for a batch. *)
Theorem claim_exclusive (run_id phase agent agent' : string) (kinds kinds' : list string)
    (same same' : bool) (locked locked' : gset string) (s s' : session) (c : claimed) :
  wf_runs (cur s) →
  claim_next_step run_id phase agent kinds same locked s = (Ret (Some c), s') →
  agent' ≠ agent ∨ same' = false →
  (claim_next_step run_id phase agent' kinds' same' locked' s').1 = Ret None.
Proof.
  intros Hwf Hc Hne. pose proof (wf_claim run_id phase agent kinds same locked s) as Hwf'.
  destruct (claim_candidate run_id phase agent same (normalized_supported kinds) locked (cur s))
    as [[id st]|] eqn:E; [|by rewrite run_claim_none in Hc].
  edestruct run_claim_some as (e & d' & s1 & -> & [Hcur Hcom] & _ & _ & Hrun); [done|].
  rewrite Hrun in Hc. injection Hc as <- <-.
  apply claim_candidate_Some in E as (Hst & Hcl & _).
  destruct (claim_candidate run_id phase agent' same' (normalized_supported kinds') locked' (cur s1))
    as [[id2 st2]|] eqn:E2; [exfalso|by rewrite run_claim_none].
  apply claim_candidate_Some in E2 as (Hst2 & Hcl2 & _). clear Hwf' Hrun.
  pose proof Hcl as (Hr & _ & Hp & Hph & _). pose proof Hcl2 as (Hr2 & _ & Hp2 & Hph2 & _).
  rewrite Hcur in Hst2, Hcl2. simpl in *.
  apply lookup_alter_Some_inv in Hst2 as [(st0 & -> & H0 & ->)|[Hid H0]]; [done|].
  destruct (lt_eq_lt_dec (ordinal st) (ordinal st2)) as [[Hlt|Heq]|Hgt].
  - edestruct (claimable_unblocked _ _ _ _ _ _ _ _ id (claim_step agent (clock (tick s))
      (st_attempt st + 1) st) Hcl2) as [_ Hb]; [simpl; rewrite lookup_alter_eq, Hst; done|done..|].
    destruct (Hb eq_refl) as [? ?]. simpl in *. naive_solver.
  - apply Hid. by apply (wr_ordinal _ Hwf id id2 st st2); [|done|congruence|].
  - destruct (claimable_unblocked _ _ _ _ _ _ _ _ id2 st2 Hcl H0) as [Hn _]; [done..|].
    rewrite Hp2 in Hn. set_solver.
Qed.
End claiming.
