(* ===== verification/Progress.v ===== *)
(** * From a compiled version to a finished run

    What [create_run_from_version] puts in the plan, that it is all or nothing, and
    that an agent whose steps succeed - rebooting where a step requires it -
    executes the whole plan in order and leaves the run done.  At the end: what marking
    steps done from evidence leaves. *)

From stdpp Require Import base gmap list strings pretty sorting.
From Stdlib Require Import ZArith Lia.
From S2P Require Import Prelude Json TsData Conditions Tree Sequences Content Runs RunState.

Section progress.
Context `{Env}.

(** ** An agent *)

(** Claim a step, do it, report success, and come back from the reboot if the step
    requires one. *)
Definition work (run_id phase agent : string) : eff session (option string) :=
  c ← claim_next_step run_id phase agent [] false ∅;
  match c with
  | None => mret None
  | Some c =>
      st ← complete_step run_id (cl_id c) agent "success" None JNull;
      (if decide (st_state st = AwaitingReboot)
       then mark_reboot_complete run_id (cl_id c) agent ;; mret tt
       else mret tt) ;;
      mret (Some (cl_id c))
  end.

(** The steps it works on until there is none left, or [fuel] rounds have passed. *)
Fixpoint drive (fuel : nat) (run_id phase agent : string) : eff session (list string) :=
  match fuel with
  | O => mret []
  | S fuel =>
      w ← work run_id phase agent;
      match w with
      | None => mret []
      | Some id => ids ← drive fuel run_id phase agent; mret (id :: ids)
      end
  end.

Lemma next_run_state_ext run_id sid d d' :
  steps d = steps d' → next_run_state run_id sid d = next_run_state run_id sid d'.
Proof. unfold next_run_state. by intros ->. Qed.

Lemma next_run_state_touch run_id sid f g e d :
  (∀ st, st_plan (f st) = st_plan st) →
  next_run_state run_id sid (touch run_id sid f g e d) = next_run_state run_id sid d.
Proof. intros Hf. rewrite <- (next_run_state_alter run_id sid f d Hf). done. Qed.

(** The state after a successful round. *)
Definition worked (run_id id : string) (st : step_row) (s s' : session) : Prop :=
  ∃ f g, (∀ st, st_plan (f st) = st_plan st ∧ st_state (f st) = Done) ∧
    (∀ r, rn_state (g r) = next_run_state run_id id (cur s)) ∧
    steps (cur s') = alter f id (steps (cur s)) ∧ runs (cur s') = alter g run_id (runs (cur s)) ∧
    committed s' = cur s'.

Lemma run_work run_id phase agent s id st :
  wf_runs (cur s) → claim_candidate run_id phase agent false [] ∅ (cur s) = Some (id, st) →
  ∃ s', work run_id phase agent s = (Ret (Some id), s') ∧ worked run_id id st s s'.
Proof.
  intros Hwf Hc. unfold work. rewrite run_bind.
  edestruct (run_claim_some run_id phase agent [] false ∅ s id st)
    as (e1 & d1 & s1 & -> & [Hs1 Hm1] & _ & _ & ->); [done|]. cbn [cl_id].
  apply claim_candidate_Some in Hc as (Hst & (Hrun & Hact & Hp & _) & _). simpl in Hrun, Hp.
  set (st1 := claim_step agent (clock (tick s)) (st_attempt st + 1) st).
  set (f1 := claim_step agent (clock (tick s)) (st_attempt st + 1)) in *.
  assert (step_of_run run_id id (cur s1) = Some st1) as Hst1.
  { apply step_of_run_Some. rewrite Hs1. simpl. rewrite lookup_alter_eq, Hst. done. }
  assert (known (runs (cur s1)) run_id = true) as Hk1.
  { rewrite Hs1. simpl. rewrite known_alter. apply known_true. by destruct (runs (cur s) !! run_id). }
  assert (next_run_state run_id id (cur s1) = next_run_state run_id id (cur s)) as Hn1.
  { rewrite Hs1. by apply next_run_state_touch. }
  rewrite run_bind.
  destruct (decide (ps_reboot_behavior (st_plan st) = "required")) as [Hreb|Hreb].
  - edestruct (run_complete_ok run_id id agent "success" None JNull s1 st1)
      as (e2 & s2 & [Hs2 Hm2] & _ & _ & ->); [done|done|naive_solver| |].
    { unfold result_of. rewrite decide_True by done. reflexivity. }
    rewrite run_bind, decide_True by done. rewrite run_bind.
    set (f2 := completed_step "success" None AwaitingReboot None) in *.
    assert (step_of_run run_id id (cur s2) = Some (f2 st1)) as Hst2.
    { apply step_of_run_Some in Hst1 as [Hlk _]. apply step_of_run_Some. rewrite Hs2. simpl.
      rewrite lookup_alter_eq, Hlk. done. }
    edestruct (run_reboot_ok run_id id agent s2 (f2 st1))
      as (e3 & s3 & [Hs3 Hm3] & _ & ->); [done| |done|].
    { rewrite Hs2. simpl. by rewrite known_alter. }
    eexists. split; [reflexivity|].
    exists (rebooted_step (clock (tick s2)) ∘ f2 ∘ f1),
      (rebooted_run id (ps_phase (st_plan st)) (next_run_state run_id id (cur s2))
         (clock (S (tick s2))) ∘
       completed_run id (ps_phase (st_plan st)) None RunAwaitingReboot (clock (tick s1)) ∘
       claim_run phase id).
    split; [done|]. split; [intros r; simpl; rewrite Hs2, next_run_state_touch by done; exact Hn1|].
    split_and!; [| |congruence]; rewrite Hs3, Hs2, Hs1; simpl; by rewrite !alter_alter_eq.
  - edestruct (run_complete_ok run_id id agent "success" None JNull s1 st1)
      as (e2 & s2 & [Hs2 Hm2] & _ & _ & ->); [done|done|naive_solver| |].
    { unfold result_of. rewrite decide_False by naive_solver. rewrite decide_True by done.
      reflexivity. }
    rewrite run_bind, decide_False by done.
    eexists. split; [reflexivity|].
    exists (completed_step "success" None Done (Some (clock (tick s1))) ∘ f1),
      (completed_run id (ps_phase (st_plan st)) None (next_run_state run_id id (cur s1))
         (clock (tick s1)) ∘ claim_run phase id).
    split; [done|]. split; [done|].
    split_and!; [| |congruence]; rewrite Hs2, Hs1; simpl; by rewrite !alter_alter_eq.
Qed.

Lemma wf_work run_id phase agent : preserves wf_runs (work run_id phase agent).
Proof.
  pose proof wf_claim. pose proof wf_complete. pose proof wf_reboot.
  unfold work. preserves_solve.
Qed.

(** ** A run on its way *)

(** [l] lists the steps the run still has to do, in the order of the plan; every
    step belongs to the phase, and what is not to do is done or skipped. *)
Record driving (run_id phase : string) (l : list string) (d : db) : Prop := Driving {
  dr_run : ∃ r, runs d !! run_id = Some r ∧
    if decide (l = []) then rn_state r = RunDone else run_active r = true;
  dr_step id st : steps d !! id = Some st → ps_run_id (st_plan st) = run_id →
    in_phase phase st ∧ st_state st ∈ [Pending; Done; Skipped];
  dr_todo id : id ∈ l ↔ ∃ st, steps d !! id = Some st ∧ ps_run_id (st_plan st) = run_id ∧
    st_state st = Pending;
  dr_sorted : StronglySorted (λ a b, ∀ sa sb, steps d !! a = Some sa → steps d !! b = Some sb →
    (ordinal sa < ordinal sb)%nat) l
}.

Lemma driving_candidate run_id phase agent id l d :
  wf_runs d → driving run_id phase (id :: l) d →
  ∃ st, claim_candidate run_id phase agent false [] ∅ d = Some (id, st).
Proof.
  intros Hwf [(r & Hr & Hact) Hstep Htodo Hsort].
  destruct (proj1 (Htodo id) ltac:(set_solver)) as (st & Hst & Hrun & Hp).
  exists st. apply claim_candidate_complete; try done; try set_solver.
  rewrite decide_False in Hact by done.
  split_and!; simpl; try done.
  - by rewrite Hr; simpl; rewrite Hact.
  - by apply (Hstep id).
  - apply exists_where_false. intros k prev Hk (Hr1 & Hlt & Hph & Hs). simpl in *.
    rewrite Hrun in Hr1. destruct (Hstep k prev Hk Hr1) as [_ Hstate].
    assert (st_state prev = Pending) as Hpp.
    { destruct Hs as [Hs|[Hs _]]; destruct (st_state prev); set_solver. }
    assert (k ∈ id :: l) as Hin by (apply Htodo; eauto).
    apply elem_of_cons in Hin as [->|Hin]; [simplify_eq; lia|].
    apply StronglySorted_cons in Hsort as [Hf _]. rewrite Forall_forall in Hf.
    specialize (Hf k Hin st prev Hst Hk). unfold ordinal in Hf. lia.
  - by left.
Qed.

Lemma driving_worked run_id phase id l st s s' :
  driving run_id phase (id :: l) (cur s) → worked run_id id st s s' →
  driving run_id phase l (cur s').
Proof.
  intros [(r & Hr & _) Hstep Htodo Hsort] (f & g & Hf & Hg & Hs' & Hr' & _).
  apply StronglySorted_cons in Hsort as [Hhead Hsort]. rewrite Forall_forall in Hhead.
  destruct (proj1 (Htodo id) ltac:(set_solver)) as (st0 & Hst0 & Hrun0 & Hp0).
  assert (id ∉ l) as Hnl by (intros Hin; specialize (Hhead id Hin _ _ Hst0 Hst0); lia).
  assert (∀ k sk, steps (cur s') !! k = Some sk ↔
    (k = id ∧ sk = f st0) ∨ (k ≠ id ∧ steps (cur s) !! k = Some sk)) as Hlk.
  { intros k sk. rewrite Hs', lookup_alter_Some. naive_solver. }
  split.
  - exists (g r). rewrite Hr', lookup_alter_eq, Hr. split; [done|]. rewrite Hg.
    case_decide as Hl.
    + apply next_run_state_done. intros k sk Hk Hrk Hne Ha.
      destruct (Hstep k sk Hk Hrk) as [_ Hst]. unfold active_states in Ha.
      assert (k ∈ id :: l) as Hin; [|subst l; set_solver].
      apply Htodo. exists sk. split_and!; try done. destruct (st_state sk); set_solver.
    + destruct l as [|k l]; [done|].
      destruct (proj1 (Htodo k) ltac:(set_solver)) as (sk & Hk & Hrk & Hpk).
      unfold run_active. rewrite Hg. apply bool_decide_eq_true.
      destruct (next_run_state_cases run_id id (cur s)) as [Hn|Hn]; rewrite Hn; [exfalso|set_solver].
      rewrite next_run_state_done in Hn. apply (Hn k sk); try done; [set_solver|].
      rewrite Hpk. unfold active_states. set_solver.
  - intros k sk [[-> ->]|[Hne Hk]]%Hlk; [|by apply (Hstep k)]. intros _.
    destruct (Hf st0) as [Hpl Hd]. rewrite Hd. split; [|set_solver].
    unfold in_phase. rewrite Hpl. by apply (Hstep id).
  - intros k. transitivity (k ∈ id :: l ∧ k ≠ id); [set_solver|]. rewrite Htodo. split.
    + intros [(sk & Hk & Hrk & Hpk) Hne]. exists sk. rewrite Hlk. naive_solver.
    + intros (sk & [[-> ->]|[Hne Hk]]%Hlk & Hrk & Hpk).
      * destruct (Hf st0) as [_ Hd]. congruence.
      * eauto.
  - assert (∀ k sk, k ∈ l → steps (cur s') !! k = Some sk → steps (cur s) !! k = Some sk) as Hin.
    { intros k sk Hin [[-> ->]|[_ Hk]]%Hlk; [done|done]. }
    clear -Hsort Hin. induction Hsort as [|a l Hl IH Ha]; constructor.
    + apply IH. intros. apply Hin; set_solver.
    + rewrite Forall_forall in *. intros b Hb sa sb Hsa Hsb.
      apply (Ha b Hb); apply Hin; set_solver.
Qed.

(** A run that is over hands out nothing. *)
Lemma claim_candidate_inactive run_id phase agent same supp locked d r :
  runs d !! run_id = Some r → run_active r = false →
  claim_candidate run_id phase agent same supp locked d = None.
Proof.
  intros Hr Ha. destruct (claim_candidate _ _ _ _ _ _ _) as [[id st]|] eqn:E; [|done].
  apply claim_candidate_Some in E as (_ & (_ & Hact & _) & _). rewrite Hr in Hact. simpl in Hact.
  congruence.
Qed.

Lemma drive_finished fuel run_id phase agent s r :
  runs (cur s) !! run_id = Some r → rn_state r = RunDone →
  drive fuel run_id phase agent s = (Ret [], if fuel is O then s
    else Session (cur s) (cur s) (tick s) (issued s)).
Proof.
  intros Hr Hd. destruct fuel as [|fuel]; [done|]. simpl. unfold work.
  rewrite run_bind, run_bind, run_claim_none; [done|].
  eapply claim_candidate_inactive; [done|]. unfold run_active. by rewrite Hd.
Qed.

Lemma drive_run fuel run_id phase agent l s :
  holds_in wf_runs s → driving run_id phase l (cur s) → (length l ≤ fuel)%nat →
  ∃ s', drive fuel run_id phase agent s = (Ret l, s') ∧ driving run_id phase [] (cur s') ∧
    holds_in wf_runs s'.
Proof.
  revert fuel s. induction l as [|id l IH]; intros fuel s Hwf Hd Hlen.
  - pose proof Hd as [(r & Hr & Hdone) _ _ _]. rewrite decide_True in Hdone by done.
    rewrite (drive_finished fuel run_id phase agent s r) by done. eexists. split; [done|].
    destruct fuel; [done|]. split; [done|]. split; apply Hwf.
  - destruct fuel as [|fuel]; [simpl in Hlen; lia|]. simpl. rewrite run_bind.
    destruct (driving_candidate run_id phase agent id l (cur s) (proj1 Hwf) Hd) as [st Hc].
    destruct (run_work run_id phase agent s id st (proj1 Hwf) Hc) as (s1 & Hw & Hworked).
    pose proof (wf_work run_id phase agent s Hwf) as Hwf1. rewrite Hw in Hwf1 |- *.
    destruct (IH fuel s1) as (s' & Hdr & Hd' & Hwf'); [done|by eapply driving_worked|
      simpl in Hlen; lia|].
    exists s'. rewrite run_bind, Hdr. done.
Qed.

(** The steps a run still has to do, in the order of its plan. *)
Definition pending_ids (run_id : string) (d : db) : list string :=
  (filter (λ kr : string * step_row, st_state kr.2 = Pending) (run_steps run_id d)).*1.

Lemma elem_of_run_steps run_id d id st :
  (id, st) ∈ run_steps run_id d ↔ steps d !! id = Some st ∧ ps_run_id (st_plan st) = run_id.
Proof. unfold run_steps. rewrite elem_of_isort, elem_of_select_where. naive_solver. Qed.

Lemma run_steps_sorted run_id d :
  wf_runs d → StronglySorted (λ a b : string * step_row, (ordinal a.2 < ordinal b.2)%nat)
    (run_steps run_id d).
Proof.
  intros Hwf.
  assert (NoDup (run_steps run_id d)) as Hnd.
  { unfold run_steps. apply NoDup_isort, NoDup_select_where. }
  pose proof (isort_StronglySorted ordinal_order
    (select_where (λ kr, ps_run_id (st_plan kr.2) = run_id) (steps d))) as Hs.
  fold (run_steps run_id d) in Hs.
  assert (∀ x, x ∈ run_steps run_id d → steps d !! x.1 = Some x.2 ∧ ps_run_id (st_plan x.2) = run_id)
    as Hin by (by intros [id st] Hx%elem_of_run_steps).
  induction Hs as [|x l Hl IH Hx]; constructor.
  - apply NoDup_cons in Hnd as [_ Hnd]. apply IH; [done|]. intros. apply Hin. set_solver.
  - apply NoDup_cons in Hnd as [Hnx _]. rewrite Forall_forall in *. intros y Hy.
    specialize (Hx y Hy). unfold ordinal_order, cmp_on, cmp_Z in Hx.
    destruct (Hin x ltac:(set_solver)) as [Hx1 Hx2], (Hin y ltac:(set_solver)) as [Hy1 Hy2].
    destruct (decide (ordinal x.2 = ordinal y.2)) as [He|He].
    + assert (x.1 = y.1) as Hxy by (by apply (wr_ordinal d Hwf x.1 y.1 x.2 y.2); [..|congruence|]).
      destruct x, y. simpl in *. simplify_eq.
    + unfold ordinal in *. rewrite Z.compare_le_iff in Hx. lia.
Qed.

Lemma driving_start run_id phase r d :
  wf_runs d → runs d !! run_id = Some r → run_active r = true → pending_ids run_id d ≠ [] →
  (∀ id st, steps d !! id = Some st → ps_run_id (st_plan st) = run_id →
     in_phase phase st ∧ st_state st ∈ [Pending; Done; Skipped]) →
  driving run_id phase (pending_ids run_id d) d.
Proof.
  intros Hwf Hr Hact Hne Hsteps. split.
  - exists r. split; [done|]. by rewrite decide_False.
  - done.
  - intros id. unfold pending_ids. rewrite list_elem_of_fmap. split.
    + intros ([k st] & -> & Hin). rewrite list_elem_of_filter, elem_of_run_steps in Hin. naive_solver.
    + intros (st & Hst & Hrun & Hp). exists (id, st).
      rewrite list_elem_of_filter, elem_of_run_steps. naive_solver.
  - unfold pending_ids.
    pose proof (StronglySorted_filter _ (λ kr : string * step_row, st_state kr.2 = Pending) _
      (run_steps_sorted run_id d Hwf)) as Hs.
    assert (∀ x, x ∈ filter (λ kr : string * step_row, st_state kr.2 = Pending) (run_steps run_id d) →
      steps d !! x.1 = Some x.2) as Hin.
    { intros [k st]. rewrite list_elem_of_filter, elem_of_run_steps. naive_solver. }
    induction Hs as [|x l Hl IH Hx]; csimpl; constructor.
    + apply IH. set_solver.
    + rewrite Forall_forall in Hx. apply Forall_forall. intros b (y & -> & Hy)%list_elem_of_fmap sa sb Hsa Hsb.
      rewrite Hin in Hsa, Hsb by set_solver. simplify_eq. by apply Hx.
Qed.

(** C3. A run comes to its end: when its steps all belong to one phase and none has
    failed or is under way, an agent of that phase that succeeds at every step -
    rebooting where a step requires it - is given exactly the pending steps, each
    once and in the order of the plan, and leaves the run done, with its end time
    and every step done or skipped.  As many rounds as there are pending steps are
    enough, and more do no harm. *)
Theorem agent_finishes_run (run_id phase agent : string) (fuel : nat) (s : session) (r : run_row) :
  holds_in wf_runs s → runs (cur s) !! run_id = Some r → run_active r = true →
  pending_ids run_id (cur s) ≠ [] → (length (pending_ids run_id (cur s)) ≤ fuel)%nat →
  (∀ id st, steps (cur s) !! id = Some st → ps_run_id (st_plan st) = run_id →
     in_phase phase st ∧ st_state st ∈ [Pending; Done; Skipped]) →
  ∃ s' r', drive fuel run_id phase agent s = (Ret (pending_ids run_id (cur s)), s') ∧
    runs (cur s') !! run_id = Some r' ∧ rn_state r' = RunDone ∧ is_Some (rn_finished_at r') ∧
    (∀ id st, steps (cur s') !! id = Some st → ps_run_id (st_plan st) = run_id →
       st_state st = Done ∨ st_state st = Skipped).
Proof.
  intros Hwf Hr Hact Hne Hfuel Hsteps.
  destruct (drive_run fuel run_id phase agent (pending_ids run_id (cur s)) s Hwf)
    as (s' & Hdr & [(r' & Hr' & Hd) Hst Htodo _] & [Hwf' _]); [by apply (driving_start _ _ r); [apply Hwf|..]|done|].
  rewrite decide_True in Hd by done.
  exists s', r'. split_and!; try done.
  - apply (wr_run _ Hwf' run_id); [done|by left].
  - intros id st Hid Hrun. destruct (Hst id st Hid Hrun) as [_ Hs].
    pose proof (Htodo id). destruct (st_state st) eqn:E; set_solver.
Qed.

(** ** Creating a run *)

(** The body of [create_run_from_version] before its transaction ends. *)
Lemma quiet_insert_run id r : quiet (insert_run id r).
Proof. unfold insert_run. quiet_solve. Qed.

Lemma quiet_insert_plan_step run_id variables target fs :
  quiet (insert_plan_step run_id variables target fs).
Proof. unfold insert_plan_step, insert_step. quiet_solve. Qed.

Lemma quiet_append_event run_id et sid sev ag ph at_ msg data :
  quiet (append_event run_id et sid sev ag ph at_ msg data).
Proof. unfold append_event, insert_event. quiet_solve. Qed.

Lemma quiet_pin_ref run_id roots ref : quiet (pin_ref run_id roots ref).
Proof. unfold pin_ref, insert_manifest_or_nothing, insert_manifest. quiet_solve. Qed.

#[local] Hint Resolve quiet_insert_run quiet_insert_plan_step quiet_append_event quiet_pin_ref : quiet.

(** Resolving content commits only when every reference was pinned. *)
Lemma resolve_aborts_clean run_id roots :
  aborts_clean (resolve_run_content_manifest run_id roots).
Proof.
  unfold resolve_run_content_manifest. cbv zeta.
  apply aborts_clean_bind; [quiet_solve|intros ss].
  apply aborts_clean_bind; [quiet_solve|intros _]. done.
Qed.

Lemma create_run_aborts_clean version target variables created_by resolve_content :
  aborts_clean (create_run_from_version version target variables created_by resolve_content).
Proof.
  unfold create_run_from_version. apply aborts_clean_bind; [quiet_solve|intros d].
  destruct (versions d !! version) as [v|]; [|apply aborts_clean_quiet; quiet_solve]. cbv zeta.
  do 6 (apply aborts_clean_bind; [quiet_solve|intros ?]).
  apply (aborts_clean_last _ (λ _, _)). destruct resolve_content; [|apply aborts_clean_commit].
  apply aborts_clean_rollback, (aborts_clean_last _ (λ _, tt)), resolve_aborts_clean.
Qed.

(** Creating a run is all or nothing: when it raises - the version does not
    exist, a condition is malformed, a content reference has no version - nothing
    has been committed. *)
Theorem create_run_atomic (version : string) (target variables : json)
    (created_by : option string) (resolve_content : bool) (s s' : session) (e : exc) :
  create_run_from_version version target variables created_by resolve_content s = (Exc e, s') →
  committed s' = committed s.
Proof. intros He. by eapply create_run_aborts_clean. Qed.

(** [st] is the plan step of [fs]: pending when the step is enabled and its condition
    holds, skipped otherwise. *)
Definition planned (run_id : string) (variables target : json) (fs : flat_step) (st : step_row) :
    Prop :=
  ∃ result, evaluate_condition (fs_condition fs) variables target = Ret result ∧
    st = initial_step run_id fs result.

Lemma insert_plan_step_run run_id variables target fs s s' :
  insert_plan_step run_id variables target fs s = (Ret tt, s') →
  ∃ id st, planned run_id variables target fs st ∧ steps (cur s) !! id = None ∧
    cur s' = set_steps (<[id := st]>) (cur s) ∧ committed s' = committed s.
Proof.
  unfold insert_plan_step. rewrite run_bind. unfold lift_outcome.
  destruct (evaluate_condition _ _ _) as [res|e] eqn:He; [|done].
  rewrite run_bind, run_new_id. destruct (fs_kind fs); [|done].
  unfold insert_step. rewrite run_bind, run_query. simpl. rewrite run_checked.
  destruct (negb _ && _ && _) eqn:Hok; [|done]. intros [= <-].
  rewrite !andb_true_iff, negb_true_iff, known_false in Hok. destruct Hok as [[Hid _] _].
  exists (uuid4 (issued s)), (initial_step run_id fs res). split; [|done]. by exists res.
Qed.

Lemma insert_plan_run run_id variables target plan s s' :
  for_each plan (insert_plan_step run_id variables target) s = (Ret tt, s') →
  ∃ rows, Forall2 (λ fs (kr : string * step_row), planned run_id variables target fs kr.2) plan rows ∧
    NoDup rows.*1 ∧ (∀ id, id ∈ rows.*1 → steps (cur s) !! id = None) ∧
    cur s' = set_steps (λ t, list_to_map rows ∪ t) (cur s).
Proof.
  revert s. induction plan as [|fs plan IH]; intros s; cbn [for_each].
  { intros [= <-]. exists []. split_and!; [constructor|constructor|set_solver|].
    unfold set_steps. simpl. rewrite (left_id_L ∅ (∪)). by destruct (cur s). }
  rewrite run_bind. destruct (insert_plan_step _ _ _ fs s) as [[[]|e] s1] eqn:E; [|done].
  intros Hl. apply insert_plan_step_run in E as (id & st & Hp & Hid & Hs1 & _).
  destruct (IH s1 Hl) as (rows & Hrows & Hnd & Hfree & Hs'). rewrite Hs1 in Hfree, Hs'.
  simpl in Hfree.
  assert (id ∉ rows.*1) as Hnew.
  { intros Hin. specialize (Hfree id Hin). by rewrite lookup_insert_eq in Hfree. }
  exists ((id, st) :: rows). split_and!.
  - by constructor.
  - csimpl. by constructor.
  - csimpl. intros k [->|Hk]%elem_of_cons; [done|].
    specialize (Hfree k Hk). rewrite lookup_insert_None in Hfree. naive_solver.
  - rewrite Hs'. unfold set_steps. simpl. f_equal.
    rewrite <- insert_union_r, insert_union_l; [done|]. by apply not_elem_of_list_to_map_1.
Qed.

Lemma planned_ordinal run_id variables target plan rows i kr :
  dense plan → Forall2 (λ fs (kr : string * step_row), planned run_id variables target fs kr.2) plan rows →
  rows !! i = Some kr → ordinal (kr.2) = i ∧ ps_run_id (st_plan kr.2) = run_id.
Proof.
  intros Hd Hf Hi. destruct (Forall2_lookup_r _ _ _ _ _ Hf Hi) as (fs & Hfs & res & _ & ->).
  split; [|done]. unfold ordinal. simpl. by apply Hd.
Qed.

Lemma run_steps_planned run_id variables target plan rows d :
  dense plan → Forall2 (λ fs (kr : string * step_row), planned run_id variables target fs kr.2) plan rows →
  NoDup rows.*1 → (∀ id st, steps d !! id = Some st → ps_run_id (st_plan st) ≠ run_id) →
  run_steps run_id (set_steps (λ t, list_to_map rows ∪ t) d) = rows.
Proof.
  intros Hd Hf Hnd Hno.
  assert (∀ kr, kr ∈ rows → ∃ i, rows !! i = Some kr ∧ ordinal (kr.2) = i ∧
    ps_run_id (st_plan kr.2) = run_id) as Hin.
  { intros kr [i Hi]%list_elem_of_lookup. exists i. split; [done|]. by eapply planned_ordinal. }
  unfold run_steps. simpl.
  rewrite (isort_perm_eq ordinal_order _ rows); [apply isort_sorted_id| |].
  - apply StronglySorted_Sorted, elem_of_StronglySorted_indexed. intros i j x y Hij Hx Hy.
    destruct (planned_ordinal _ _ _ _ _ _ _ Hd Hf Hx) as [Ox _].
    destruct (planned_ordinal _ _ _ _ _ _ _ Hd Hf Hy) as [Oy _].
    unfold ordinal_order, cmp_on, cmp_Z. rewrite Z.compare_le_iff. unfold ordinal in *. lia.
  - apply NoDup_Permutation; [apply NoDup_select_where|by apply (NoDup_fmap_1 fst)|].
    intros [id st]. rewrite elem_of_select_where, lookup_union_Some_raw. simpl. split.
    + intros [Hr [Hl|[_ Hl]]]; [|by apply Hno in Hl]. by apply elem_of_list_to_map in Hl.
    + intros Hk. split; [by destruct (Hin _ Hk) as (? & ? & ? & ?)|left].
      by apply elem_of_list_to_map.
  - intros [k1 s1] [k2 s2] H1 H2 Heq.
    assert (∀ x, x ∈ select_where (λ kr : string * step_row, ps_run_id (st_plan kr.2) = run_id)
      (list_to_map rows ∪ steps d) → x ∈ rows) as Hsel.
    { intros [id st]. rewrite elem_of_select_where, lookup_union_Some_raw. simpl.
      intros [Hr [Hl|[_ Hl]]]; [by apply elem_of_list_to_map in Hl|by apply Hno in Hl]. }
    destruct (Hin _ (Hsel _ H1)) as (i & Hi & Oi & _), (Hin _ (Hsel _ H2)) as (j & Hj & Oj & _).
    unfold ordinal_order, cmp_on, cmp_Z in Heq. apply Z.compare_eq in Heq.
    unfold ordinal in *. simpl in *. assert (i = j) as -> by lia. congruence.
Qed.

(** The row of a new run. *)
Definition created_row (version : string) (v : version_row) (target variables : json)
    (created_by : option string) (at_ : Z) : run_row :=
  Run (ver_sequence_id v) version Queued None None (jget "vmid" target) (jget "vm_uuid" target)
    (jget "computer_name" target) (jget "serial_number" target) target variables at_ None None
    created_by.

(** What creating a run does to the database when it succeeds. *)
Lemma create_run_run (version : string) (target variables : json) (created_by : option string)
    (resolve_content : bool) (s s' : session) (run_id : string) :
  (∀ id st, steps (cur s) !! id = Some st → known (runs (cur s)) (ps_run_id (st_plan st)) = true) →
  create_run_from_version version target variables created_by resolve_content s = (Ret run_id, s') →
  ∃ v plan rows at_, versions (cur s) !! version = Some v ∧
    flatten_steps (ver_compiled_tree v) = Ret plan ∧
    Forall2 (λ fs (kr : string * step_row),
      planned run_id (jor variables (JObj [])) (jor target (JObj [])) fs kr.2) plan rows ∧
    run_steps run_id (cur s') = rows ∧
    steps (cur s') = list_to_map rows ∪ steps (cur s) ∧
    (∀ id, id ∈ rows.*1 → steps (cur s) !! id = None) ∧
    runs (cur s) !! run_id = None ∧
    runs (cur s') = <[run_id := created_row version v (jor target (JObj [])) (jor variables (JObj []))
      created_by at_]> (runs (cur s)) ∧
    osdeploy (cur s') = osdeploy (cur s) ∧ sequences (cur s') = sequences (cur s) ∧
    nodes (cur s') = nodes (cur s) ∧ versions (cur s') = versions (cur s) ∧
    committed s' = cur s' ∧
    (resolve_content = false → ∃ ev, ev_run_id ev = run_id ∧ ev_event_type ev = "run_created" ∧
       events (cur s') = events (cur s) ++ [ev] ∧ logs (cur s') = logs (cur s) ∧
       content_items (cur s') = content_items (cur s) ∧
       content_versions (cur s') = content_versions (cur s) ∧ manifest (cur s') = manifest (cur s)).
Proof.
  intros Hwf. unfold create_run_from_version. rewrite run_bind, run_query.
  destruct (versions (cur s) !! version) as [v|] eqn:Hv; [|done]. cbv zeta.
  rewrite run_bind, run_new_id, run_bind, run_now. set (row := Run _ _ Queued _ _ _ _ _ _ _ _ _ _ _ _).
  unfold insert_run. rewrite run_bind, run_bind, run_query. simpl. rewrite run_checked.
  destruct (negb _ && _ && _) eqn:Hok; [|done].
  rewrite !andb_true_iff, negb_true_iff, known_false in Hok. destruct Hok as [[Hid _] _].
  rewrite run_bind. unfold lift_outcome. destruct (flatten_steps _) as [plan|e] eqn:Hplan; [|done].
  rewrite run_bind. destruct (for_each plan _ _) as [[[]|e] s2] eqn:Hloop; [|done].
  apply insert_plan_run in Hloop as (rows & Hrows & Hnd & Hfree & Hs2). simpl in Hfree.
  rewrite run_bind, run_append_event; [|rewrite Hs2; simpl; apply known_true;
    rewrite lookup_insert_eq; eauto|done].
  assert (∀ id st, steps (cur s) !! id = Some st → ps_run_id (st_plan st) ≠ uuid4 (issued s)) as Hno.
  { intros id st Hst He. pose proof (Hwf _ _ Hst) as Hk. rewrite He in Hk.
    apply known_true in Hk. rewrite Hid in Hk. by destruct Hk. }
  intros Hend.
  assert (∃ d', cur s' = d' ∧ committed s' = d' ∧ run_id = uuid4 (issued s) ∧
    steps d' = steps (cur s2) ∧ runs d' = runs (cur s2) ∧ osdeploy d' = osdeploy (cur s2) ∧
    sequences d' = sequences (cur s2) ∧ nodes d' = nodes (cur s2) ∧ versions d' = versions (cur s2) ∧
    (resolve_content = false → ∃ ev, ev_run_id ev = run_id ∧ ev_event_type ev = "run_created" ∧
       d' = set_events (λ es, es ++ [ev]) (cur s2)))
    as (d' & Hc & Hm & -> & Hst' & Hr' & Ho' & Hsq' & Hn' & Hv' & Hev).
  { destruct resolve_content; rewrite run_bind in Hend.
    - unfold rollback_on_error in Hend. rewrite run_bind in Hend.
      destruct (resolve_run_content_manifest _ _ _) as [[l|e] s3] eqn:Hres; [|done].
      apply resolve_run in Hres as (t & Ht & Hcom & _). injection Hend as <- <-.
      eexists. split; [done|]. rewrite Ht in *. by split_and!.
    - injection Hend as <- <-. eexists. split_and!; try done. intros _.
      eexists. split; [|split; [|reflexivity]]; done. }
  exists v, plan, rows, (clock (tick s)). rewrite Hc, Hr', Ho', Hsq', Hn', Hv', Hs2.
  split_and!; try done; try congruence.
  - rewrite <- (run_steps_planned _ _ _ plan rows (cur s) (flatten_steps_dense _ _ Hplan)
      Hrows Hnd Hno). apply run_steps_ext. rewrite Hst', Hs2. done.
  - rewrite Hst', Hs2. done.
  - intros Hf. destruct (Hev Hf) as (ev & ? & ? & ->). exists ev. by rewrite Hs2.
Qed.


(** ** A step that keeps failing *)

(** Claim a step and report its failure. *)
Definition fail_once (run_id phase agent : string) (message : option string) :
    eff session (option string) :=
  c ← claim_next_step run_id phase agent [] false ∅;
  match c with
  | None => mret None
  | Some c => complete_step run_id (cl_id c) agent "failed" message JNull ;; mret (Some (cl_id c))
  end.

Fixpoint fail_again (fuel : nat) (run_id phase agent : string) (message : option string) :
    eff session (list string) :=
  match fuel with
  | O => mret []
  | S fuel =>
      w ← fail_once run_id phase agent message;
      match w with
      | None => mret []
      | Some id => ids ← fail_again fuel run_id phase agent message; mret (id :: ids)
      end
  end.

Lemma wf_fail_once run_id phase agent message : preserves wf_runs (fail_once run_id phase agent message).
Proof. pose proof wf_claim. pose proof wf_complete. unfold fail_once. preserves_solve. Qed.

(** Changing a claimable step without its plan, back to pending, keeps it claimable. *)
Lemma claimable_again run_id phase agent supp f g d d' id st :
  claimable run_id phase agent false supp d (id, st) → steps d !! id = Some st →
  steps d' = alter f id (steps d) → runs d' = alter g run_id (runs d) →
  st_plan (f st) = st_plan st → st_state (f st) = Pending → (∀ r, run_active (g r) = true) →
  claimable run_id phase agent false supp d' (id, f st).
Proof.
  intros (Hrun & Hact & Hp & Hph & Hb & Hk) Hst Hs' Hr' Hpl Hpend Hg. simpl in *.
  unfold claimable, in_phase. simpl. rewrite Hs', Hr', Hpl. split_and!; try done.
  - rewrite lookup_alter_eq. destruct (runs d !! run_id); [|done]. simpl. by rewrite Hg.
  - rewrite exists_where_false in Hb. apply exists_where_false.
    intros k prev Hk' (Hr & Hlt & Hph' & Hs). simpl in *. rewrite Hpl in Hr, Hlt.
    apply lookup_alter_Some_inv in Hk' as [(st0 & -> & H0 & ->)|[Hne H0]].
    + simplify_eq. rewrite Hpl in Hlt. lia.
    + by apply (Hb k prev H0).
Qed.

Lemma run_fail_once run_id phase agent message s id st :
  claim_candidate run_id phase agent false [] ∅ (cur s) = Some (id, st) →
  let retry := bool_decide (st_attempt st + 1 ≤ ps_retry_count (st_plan st))%Z in
  let ss := if retry then Pending else Failed in
  ∃ s' f g, fail_once run_id phase agent message s = (Ret (Some id), s') ∧
    steps (cur s') = alter f id (steps (cur s)) ∧ runs (cur s') = alter g run_id (runs (cur s)) ∧
    st_plan (f st) = st_plan st ∧ st_state (f st) = ss ∧ st_attempt (f st) = (st_attempt st + 1)%Z ∧
    st_last_error (f st) = message ∧
    (∀ r, rn_state (g r) = if retry then RunningIn (ps_phase (st_plan st))
       else if ps_continue_on_error (st_plan st) then next_run_state run_id id (cur s) else RunFailed) ∧
    (∀ r, rn_state (g r) = RunFailed → rn_last_error (g r) = message).
Proof.
  intros Hc. cbv zeta. unfold fail_once. rewrite run_bind.
  edestruct (run_claim_some run_id phase agent [] false ∅ s id st)
    as (e1 & d1 & s1 & -> & [Hs1 Hm1] & _ & _ & ->); [done|]. cbn [cl_id].
  apply claim_candidate_Some in Hc as (Hst & (Hrun & Hact & Hp & _) & _). simpl in Hrun, Hp.
  set (f1 := claim_step agent (clock (tick s)) (st_attempt st + 1)) in *.
  assert (step_of_run run_id id (cur s1) = Some (f1 st)) as Hst1.
  { apply step_of_run_Some. rewrite Hs1. simpl. rewrite lookup_alter_eq, Hst. done. }
  assert (known (runs (cur s1)) run_id = true) as Hk1.
  { rewrite Hs1. simpl. rewrite known_alter. apply known_true. by destruct (runs (cur s) !! run_id). }
  assert (next_run_state run_id id (cur s1) = next_run_state run_id id (cur s)) as Hn1.
  { rewrite Hs1. by apply next_run_state_touch. }
  rewrite run_bind.
  case_bool_decide as Hretry.
  - edestruct (run_complete_ok run_id id agent "failed" message JNull s1 (f1 st))
      as (e2 & s2 & [Hs2 Hm2] & _ & _ & ->); [done|done|naive_solver| |].
    { unfold result_of. rewrite decide_False by naive_solver. do 3 rewrite decide_False by done.
      rewrite decide_True by done. rewrite decide_True by done. reflexivity. }
    exists s2, (completed_step "failed" message Pending None ∘ f1),
      (completed_run id (ps_phase (st_plan st)) message (RunningIn (ps_phase (st_plan st)))
         (clock (tick s1)) ∘ claim_run phase id).
    rewrite Hs2, Hs1. simpl. rewrite !alter_alter_eq. by split_and!.
  - edestruct (run_complete_ok run_id id agent "failed" message JNull s1 (f1 st))
      as (e2 & s2 & [Hs2 Hm2] & _ & _ & ->); [done|done|naive_solver| |].
    { unfold result_of. rewrite decide_False by naive_solver. do 3 rewrite decide_False by done.
      rewrite decide_True by done. rewrite decide_False by done. reflexivity. }
    exists s2, (completed_step "failed" message Failed (Some (clock (tick s1))) ∘ f1),
      (completed_run id (ps_phase (st_plan st)) message
         (if ps_continue_on_error (st_plan st) then next_run_state run_id id (cur s1) else RunFailed)
         (clock (tick s1)) ∘ claim_run phase id).
    rewrite Hn1 in *. rewrite Hs2, Hs1. simpl. rewrite !alter_alter_eq. split_and!; try done.
    intros r Hr. simpl in *. by rewrite decide_True.
Qed.

Lemma fail_again_run (m : nat) fuel run_id phase agent message s id st :
  wf_runs (cur s) → claim_candidate run_id phase agent false [] ∅ (cur s) = Some (id, st) →
  ps_continue_on_error (st_plan st) = false →
  ps_retry_count (st_plan st) = (st_attempt st + Z.of_nat m)%Z → holds_in wf_runs s →
  (S m ≤ fuel)%nat →
  ∃ s' st' r', fail_again fuel run_id phase agent message s = (Ret (replicate (S m) id), s') ∧
    steps (cur s') !! id = Some st' ∧ st_state st' = Failed ∧
    st_attempt st' = (ps_retry_count (st_plan st) + 1)%Z ∧ st_last_error st' = message ∧
    runs (cur s') !! run_id = Some r' ∧ rn_state r' = RunFailed ∧ rn_last_error r' = message.
Proof.
  revert fuel s st. induction m as [|m IH]; intros fuel s st Hwf Hc Hcoe Hm Hs Hfuel;
    (destruct fuel as [|fuel]; [lia|]); cbn [fail_again]; rewrite run_bind;
    destruct (run_fail_once run_id phase agent message s id st Hc)
      as (s1 & f & g & Hrun & Hst1 & Hr1 & Hpl & Hss & Hatt & Herr & Hg & Hge);
    pose proof (wf_fail_once run_id phase agent message s Hs) as Hs1; rewrite Hrun in Hs1 |- *;
    simpl in Hs1; pose proof (claim_candidate_Some _ _ _ _ _ _ _ _ _ Hc) as (Hst & Hcl & _).
  - rewrite bool_decide_eq_false_2 in Hss, Hg by lia. rewrite Hcoe in Hg.
    pose proof Hcl as (_ & Hact & _). destruct (runs (cur s) !! run_id) as [r|] eqn:Hr; [|done].
    assert (runs (cur s1) !! run_id = Some (g r)) as Hgr by (rewrite Hr1, lookup_alter_eq, Hr; done).
    assert (fail_again fuel run_id phase agent message s1 =
      (Ret [], if fuel is O then s1 else Session (cur s1) (cur s1) (tick s1) (issued s1))) as Hend.
    { destruct fuel; [done|]. cbn [fail_again]. unfold fail_once.
      rewrite run_bind, run_bind, run_claim_none; [done|].
      eapply claim_candidate_inactive; [done|]. unfold run_active. by rewrite Hg. }
    rewrite run_bind, Hend. eexists _, (f st), (g r). split; [done|].
    destruct fuel; simpl; rewrite Hst1, lookup_alter_eq, Hst; simpl; split_and!; eauto; lia.
  - rewrite bool_decide_eq_true_2 in Hss, Hg by lia.
    destruct (IH fuel s1 (f st)) as (s' & st' & r' & Hf & Hrest); try done; try apply Hs1.
    + apply claim_candidate_complete; try done; [apply Hs1|by rewrite Hst1, lookup_alter_eq, Hst|].
      eapply claimable_again; try done. intros r. unfold run_active. rewrite Hg.
      apply bool_decide_eq_true. set_solver.
    + by rewrite Hpl.
    + rewrite Hpl, Hatt. lia.
    + lia.
    + exists s', st', r'. rewrite run_bind, Hf. split; [done|]. by rewrite Hpl in Hrest.
Qed.

(** C37. Retries are used up exactly: a step that fails at every attempt is handed out
    [retry_count + 1] times in a row and nothing else is in between; then it is
    failed, and so is its run, with the message of the last attempt - unless the
    step may fail ([continue_on_error]).  More rounds change nothing. *)
Theorem failing_step_exhausts_retries (run_id phase agent : string) (message : option string)
    (fuel n : nat) (s : session) (id : string) (st : step_row) :
  holds_in wf_runs s → claim_candidate run_id phase agent false [] ∅ (cur s) = Some (id, st) →
  ps_continue_on_error (st_plan st) = false → ps_retry_count (st_plan st) = Z.of_nat n →
  st_attempt st = 0%Z → (S n ≤ fuel)%nat →
  ∃ s' st' r', fail_again fuel run_id phase agent message s = (Ret (replicate (S n) id), s') ∧
    steps (cur s') !! id = Some st' ∧ st_state st' = Failed ∧
    st_attempt st' = (Z.of_nat n + 1)%Z ∧ st_last_error st' = message ∧
    runs (cur s') !! run_id = Some r' ∧ rn_state r' = RunFailed ∧ rn_last_error r' = message.
Proof.
  intros Hs Hc Hcoe Hn Ha Hfuel. rewrite <- Hn.
  apply fail_again_run; try done; [apply Hs|]. rewrite Hn, Ha. lia.
Qed.

(** ** Reboots *)

(** Failures that agents report about a step, one after the other. *)
Definition late_failures (run_id step_id : string) (reports : list (string * option string)) :
    eff session unit :=
  for_each reports (λ r, complete_step run_id step_id r.1 "failed" r.2 JNull ;; mret tt).

Lemma late_failures_run run_id sid reports s st :
  step_of_run run_id sid (cur s) = Some st → known (runs (cur s)) run_id = true →
  st_state st = AwaitingReboot →
  ∃ s', late_failures run_id sid reports s = (Ret tt, s') ∧
    steps (cur s') = steps (cur s) ∧ runs (cur s') = runs (cur s).
Proof.
  intros Hst Hk Haw. revert s Hst Hk. unfold late_failures.
  induction reports as [|[ag msg] reports IH]; intros s Hst Hk; cbn [for_each fst snd];
    [by exists s|].
  destruct (run_complete_late run_id sid ag msg JNull s st Hst Hk Haw)
    as (e & s1 & [Hs1 _] & _ & Hc).
  destruct (IH s1) as (s' & Hl & Hst' & Hr'); [by rewrite Hs1|by rewrite Hs1|].
  exists s'. rewrite run_bind, run_bind, Hc, run_ret, Hl, Hst', Hr', Hs1. done.
Qed.

(** A required reboot is not lost: success of a step that requires one leaves it
    waiting, failures reported meanwhile are recorded and ignored, and when the
    machine is back the step is done, with no error, and the run goes on with the
    other steps or is done; no other step or run is touched on the way. *)
Theorem reboot_survives_late_failures (run_id sid agent : string)
    (reports : list (string * option string)) (s : session) (st : step_row) (r : run_row) :
  step_of_run run_id sid (cur s) = Some st → runs (cur s) !! run_id = Some r →
  ps_reboot_behavior (st_plan st) = "required" →
  ∃ st' s' r',
    (complete_step run_id sid agent "success" None JNull ;; late_failures run_id sid reports ;;
     mark_reboot_complete run_id sid agent) s = (Ret st', s') ∧
    st_state st' = Done ∧ st_attempt st' = st_attempt st ∧ st_last_error st' = None ∧
    is_Some (st_finished_at st') ∧ steps (cur s') = <[sid := st']> (steps (cur s)) ∧
    runs (cur s') = <[run_id := r']> (runs (cur s)) ∧
    rn_state r' = next_run_state run_id sid (cur s) ∧ committed s' = cur s'.
Proof.
  intros Hst Hr Hreb. pose proof (proj1 (step_of_run_Some _ _ _ _) Hst) as [Hlk Hrun].
  assert (known (runs (cur s)) run_id = true) as Hk by (apply known_true; eauto).
  edestruct (run_complete_ok run_id sid agent "success" None JNull s st)
    as (e1 & s1 & [Hs1 _] & _ & _ & Hc); [done|done|naive_solver| |].
  { unfold result_of. rewrite decide_True by done. reflexivity. }
  set (st1 := completed_step "success" None AwaitingReboot None st) in *.
  assert (step_of_run run_id sid (cur s1) = Some st1) as Hst1.
  { apply step_of_run_Some. rewrite Hs1. simpl. by rewrite lookup_alter_eq, Hlk. }
  assert (known (runs (cur s1)) run_id = true) as Hk1 by (rewrite Hs1; simpl; by rewrite known_alter).
  destruct (late_failures_run run_id sid reports s1 st1 Hst1 Hk1 eq_refl)
    as (s2 & Hl & Hsteps & Hruns).
  edestruct (run_reboot_ok run_id sid agent s2 st1) as (e3 & s3 & [Hs3 Hm3] & _ & Hb);
    [by unfold step_of_run in *; rewrite Hsteps|by rewrite Hruns|done|].
  exists (rebooted_step (clock (tick s2)) st1), s3,
    (rebooted_run sid (ps_phase (st_plan st)) (next_run_state run_id sid (cur s2))
       (clock (S (tick s2)))
       (completed_run sid (ps_phase (st_plan st)) None RunAwaitingReboot (clock (tick s)) r)).
  rewrite run_bind, Hc, run_bind, Hl, Hb. split; [done|].
  split_and!; [done|done|done|simpl; eauto| | | |congruence].
  - rewrite Hs3. simpl. rewrite Hsteps, Hs1. simpl. rewrite alter_alter_eq. apply map_eq. intros k.
    rewrite lookup_alter, lookup_insert. case_decide; subst; [by rewrite Hlk|done].
  - rewrite Hs3. simpl. rewrite Hruns, Hs1. simpl. rewrite alter_alter_eq. apply map_eq. intros k.
    rewrite lookup_alter, lookup_insert. case_decide; subst; [by rewrite Hr|done].
  - simpl. rewrite (next_run_state_ext run_id sid (cur s2) (cur s1)) by done.
    rewrite Hs1. by apply next_run_state_touch.
Qed.
End progress.

(** * Steps marked done from evidence

    What [mark_steps_done_by_kind] of the engine leaves: exactly the steps of the kinds that
    were not done are done, and the run is done when nothing is left of it. *)

Section marking.
Context `{Env}.

Lemma fmap_ext_Some {A B} (f g : A → B) (o : option A) : (∀ x, o = Some x → f x = g x) → f <$> o = g <$> o.
Proof. destruct o; intros Hfg; simpl; [|done]. by rewrite Hfg. Qed.

(** What becomes of a step. *)
Definition mark_step (run_id : string) (kinds : list string) (agent_id : string) (at_ : Z) (st : step_row) :
    step_row :=
  if decide (ps_run_id (st_plan st) = run_id ∧ ps_kind (st_plan st) ∈ kinds ∧ st_state st ≠ Done)
  then done_from_evidence agent_id at_ st else st.

Lemma mark_step_plan run_id kinds agent at_ st : st_plan (mark_step run_id kinds agent at_ st) = st_plan st.
Proof. unfold mark_step. by case_decide. Qed.

Lemma mark_step_done run_id kinds agent at_ st :
  st_state (mark_step run_id kinds agent at_ st) = Done ↔
  st_state st = Done ∨ (ps_run_id (st_plan st) = run_id ∧ ps_kind (st_plan st) ∈ kinds).
Proof. unfold mark_step. destruct (decide (st_state st = Done)); case_decide; simpl; naive_solver. Qed.

(** Something of the run is still to do. *)
Definition unfinished_steps (run_id : string) (d : db) : bool :=
  exists_where (λ kr : string * step_row, ps_run_id (st_plan kr.2) = run_id ∧
    st_state kr.2 ∈ [Pending; Running; AwaitingReboot; Failed]) (steps d).

(** [d'] is [d] after the steps of the kinds were marked. *)
Record marked (run_id : string) (kinds : list string) (agent_id : string) (at_ : Z) (d d' : db) : Prop := Marked {
  mk_steps : steps d' = mark_step run_id kinds agent_id at_ <$> steps d;
  mk_osdeploy : osdeploy d' = osdeploy d;
  mk_runs : ∃ g, runs d' = alter g run_id (runs d) ∧
    ∀ r, rn_state (g r) = if unfinished_steps run_id d' then rn_state r
                          else if decide (rn_state r = RunFailed) then RunFailed else RunDone
}.

(** One round after the other. *)
Lemma run_mark_rows run_id agent msg data at_ rows s :
  known (runs (cur s)) run_id = true → NoDup rows.*1 →
  (∀ id st, (id, st) ∈ rows → steps (cur s) !! id = Some st) →
  ∃ s', for_each rows (mark_done run_id agent msg data at_) s = (Ret tt, s') ∧
    runs (cur s') = runs (cur s) ∧ osdeploy (cur s') = osdeploy (cur s) ∧
    ∀ id, steps (cur s') !! id =
      (λ st, if decide (id ∈ rows.*1 ∧ st_state st ≠ Done) then done_from_evidence agent at_ st else st)
        <$> steps (cur s) !! id.
Proof.
  revert s. induction rows as [|[i st] rows IH]; intros s Hrun Hnd Hrows; simpl.
  { exists s. split_and!; try done. intros id. by destruct (steps (cur s) !! id). }
  csimpl in Hnd. apply NoDup_cons in Hnd as [Hi Hnd].
  pose proof (Hrows i st ltac:(set_solver)) as Hst. rewrite run_bind.
  unfold mark_done at 1. simpl. case_decide as Hdone.
  - rewrite run_ret. destruct (IH s Hrun Hnd) as (s' & -> & Hr & Ho & Hs); [set_solver|].
    exists s'. split_and!; try done. intros id. rewrite Hs. apply fmap_ext_Some. intros st' Hst'.
    destruct (decide (id = i)) as [->|Hne].
    + simplify_eq. rewrite !decide_False by naive_solver. done.
    + apply decide_ext. change (list_fmap _ _ fst rows) with (rows.*1). rewrite elem_of_cons.
      clear -Hne. naive_solver.
  - rewrite run_bind, run_execute, run_append_event; simpl; [|done|].
    2: { rewrite known_alter. apply known_true. eauto. }
    match goal with |- context [for_each rows _ ?s1] => destruct (IH s1) as (s' & -> & Hr & Ho & Hs); simpl; [done|done| |] end.
    { intros id st' Hin. rewrite lookup_alter_ne; [apply Hrows; set_solver|].
      intros <-. apply Hi. apply list_elem_of_fmap. by exists (i, st'). }
    exists s'. split_and!; try done. intros id. rewrite Hs. simpl.
    destruct (decide (id = i)) as [->|Hne].
    + rewrite lookup_alter_eq, Hst. simpl. f_equal. rewrite decide_False by naive_solver.
      rewrite decide_True by (csimpl; set_solver). done.
    + rewrite lookup_alter_ne by done. apply fmap_ext_Some. intros st' Hst'.
      apply decide_ext. change (list_fmap _ _ fst rows) with (rows.*1). rewrite elem_of_cons.
      clear -Hne. naive_solver.
Qed.

Lemma run_mark_steps run_id kinds agent msg data s :
  known (runs (cur s)) run_id = true →
  ∃ n s', mark_steps_done_by_kind run_id kinds agent msg data s = (Ret n, s') ∧
    (normalized_supported kinds = [] ∧ s' = s ∨
     normalized_supported kinds ≠ [] ∧ committed s' = cur s' ∧
     marked run_id (normalized_supported kinds) agent (clock (tick s)) (cur s) (cur s')).
Proof.
  intros Hrun. unfold mark_steps_done_by_kind.
  destruct (normalized_supported kinds) as [|k0 ks] eqn:Ek; [by exists 0%nat, s; auto|].
  assert (normalized_supported kinds ≠ []) as Hne by congruence.
  rewrite <- Ek. clear Ek k0 ks. set (ks := normalized_supported kinds).
  rewrite run_bind, run_query, run_bind, run_now, run_bind.
  set (rows := filter _ (run_steps run_id (cur s))).
  destruct (run_mark_rows run_id agent msg data (clock (tick s)) rows
    (Session (cur s) (committed s) (S (tick s)) (issued s))) as (s1 & -> & Hr & Ho & Hs); [done|..].
  { assert (NoDup (run_steps run_id (cur s)).*1) as Hnd.
    { unfold run_steps. rewrite isort_perm. apply NoDup_select_where_fst. }
    unfold rows. clear -Hnd. induction (run_steps run_id (cur s)) as [|x l IH]; [done|].
    csimpl in Hnd. apply NoDup_cons in Hnd as [Hx Hnd]. rewrite filter_cons.
    case_decide; [|by apply IH]. csimpl. apply NoDup_cons. split; [|by apply IH].
    intros (y & Hxy & [_ Hy]%list_elem_of_filter)%list_elem_of_fmap. apply Hx, list_elem_of_fmap. eauto. }
  { intros id st [_ [Hst _]%elem_of_run_steps]%list_elem_of_filter. done. }
  assert (steps (cur s1) = mark_step run_id ks agent (clock (tick s)) <$> steps (cur s)) as Hsteps.
  { apply map_eq. intros id. rewrite Hs, lookup_fmap. simpl. apply fmap_ext_Some. intros st Hst.
    unfold mark_step. apply decide_ext. split.
    - intros [([i st'] & -> & [Hk [Hst' Hrid]%elem_of_run_steps]%list_elem_of_filter)%list_elem_of_fmap Hd].
      simpl in *. by simplify_eq.
    - intros (Hrid & Hk & Hd). split; [|done]. apply list_elem_of_fmap. exists (id, st). split; [done|].
      apply list_elem_of_filter. split; [done|]. by apply elem_of_run_steps. }
  simpl in Hr, Ho. cbv zeta. rewrite run_bind, run_query, run_bind, run_query, run_bind.
  change (exists_where _ (steps (cur s1))) with (unfinished_steps run_id (cur s1)).
  destruct (unfinished_steps run_id (cur s1)) eqn:Hrem.
  - case_decide.
    + rewrite run_ret, run_bind, run_commit, run_ret. eexists _, _. split; [done|]. right.
      split; [done|]. split; [done|]. split; simpl; [done|done|]. exists (λ r, r).
      rewrite Hrem. split; [|done]. rewrite Hr. symmetry. apply alter_id. done.
    + rewrite run_execute, run_bind, run_commit, run_ret. eexists _, _. split; [done|]. right.
      split; [done|]. split; [done|]. split; simpl; [done|done|]. rewrite Hr. eexists. split; [done|].
      intros r. unfold unfinished_steps in *. simpl. rewrite Hrem. by case_decide.
  - rewrite run_execute, run_bind, run_commit, run_ret. eexists _, _. split; [done|]. right.
    split; [done|]. split; [done|]. split; simpl; [done|done|]. rewrite Hr. eexists. split; [done|].
    intros r. unfold unfinished_steps in *. simpl. rewrite Hrem. by case_decide.
Qed.
End marking.
