(* ===== verification/Engine.v ===== *)
(** * The task sequence engine as a whole

    Requests of every kind are served one transaction at a time through
    [db_pg.connection], in any order.  Each component promises to keep its own
    invariant ([Keeps]); together they hold in every state the engine can reach. *)

From stdpp Require Import base gmap list strings pretty sorting relations.
From Stdlib Require Import ZArith Lia.
From S2P Require Import Prelude Json Digest OsdeployData TsData Conditions Tree Sequences Content Runs RunState.

(** [with db_pg.connection() as conn: ...]: psycopg commits when the block ends and
    rolls back when it raises. *)
Definition with_connection {A} (m : eff session A) : eff session A := λ s,
  match m s with
  | (Ret a, s') => (commit ;; mret a) s'
  | (Exc e, s') => (rollback ;; raise e) s'
  end.

(** ** What components promise *)

(** Whatever request a component serves, and whether it succeeds or raises, [I]
    is kept. *)
Class Keeps {R} (serve : R → eff session unit) (I : db → Prop) : Prop :=
  keeps r : preserves I (serve r).

#[export] Instance Keeps_and {R} (serve : R → eff session unit) I J :
  Keeps serve I → Keeps serve J → Keeps serve (λ d, I d ∧ J d).
Proof.
  intros HI HJ r s [[Hi1 Hj1] [Hi2 Hj2]].
  destruct (HI r s (conj Hi1 Hi2)), (HJ r s (conj Hj1 Hj2)). by split.
Qed.

Lemma wf_nodes_ext d d' : sequences d' = sequences d → nodes d' = nodes d → wf_nodes d → wf_nodes d'.
Proof. intros Hs Hn [H1 H2]. split; rewrite ?Hs, ?Hn; eauto. Qed.

Lemma numbered_ext d d' : versions d' = versions d → versions_numbered d → versions_numbered d'.
Proof. intros Hv Hd sid. unfold version_numbers. rewrite Hv. apply Hd. Qed.

Lemma hashes_ext `{Sha256} d d' : versions d' = versions d → hashes_match d → hashes_match d'.
Proof. unfold hashes_match. by intros ->. Qed.

Lemma wf_content_ext d d' :
  manifest d' = manifest d → content_versions d' = content_versions d →
  content_items d' = content_items d →
  (∀ k, known (runs d) k = true → known (runs d') k = true) → wf_content d → wf_content d'.
Proof.
  intros Hm Hv Hi Hr [H1 H2 H3 H4]. split; rewrite ?Hm, ?Hv, ?Hi; eauto.
  intros id m Hid. destruct (H1 id m Hid). eauto.
Qed.

Section engine.
Context `{Env} `{Sha256}.

(** ** Authoring *)

#[export] Instance authoring_nodes : Keeps serve_authoring wf_nodes := wf_serve_authoring.

Lemma hashes_compile sid c : preserves hashes_match (compile_sequence sid c).
Proof.
  intros s Hs. destruct (run_compile_cases sid c s)
    as [(id & v & _ & ->)|[[e ->]|(_ & Hfresh & ->)]]; [done..|].
  assert (hashes_match (compiled_db sid c s)) as Hn; [|by split].
  intros id v Hv. simpl in Hv.
  apply lookup_insert_Some in Hv as [[<- <-]|[_ Hv]]; [done|]. by apply (proj1 Hs) in Hv.
Qed.

Lemma insert_normalized_keeps I sid at_ id_map ns :
  (∀ id n, preserves I (insert_node id n)) → preserves I (insert_normalized sid at_ id_map ns).
Proof.
  intros Hi. revert id_map. induction ns as [|n ns IH]; intros id_map; simpl; preserves_solve.
Qed.

(** Authoring writes sequences, nodes and versions only. *)
Lemma authoring_keeps (I : db → Prop) :
  (∀ d d', versions d' = versions d → steps d' = steps d → runs d' = runs d →
     manifest d' = manifest d → content_versions d' = content_versions d →
     content_items d' = content_items d → osdeploy d' = osdeploy d → I d → I d') →
  (∀ sid c, preserves I (compile_sequence sid c)) → Keeps serve_authoring I.
Proof.
  intros Hext Hcomp r.
  assert (∀ id n, preserves I (insert_node id n)) as Hn.
  { intros id n. apply preserves_query_checked. intros d Hd _. by apply (Hext d). }
  pose proof (λ sid at_ m ns, insert_normalized_keeps I sid at_ m ns Hn).
  destruct r; simpl; [..|preserves_solve];
    unfold create_sequence, update_sequence, add_group, add_step, add_node,
      replace_sequence_nodes, get_sequence; cbv zeta; preserves_solve;
    first [apply preserves_checked; intros _|apply preserves_execute];
    intros d Hd; by apply (Hext d).
Qed.

#[export] Instance authoring_numbered : Keeps serve_authoring versions_numbered :=
  numbered_serve_authoring.

#[export] Instance authoring_hashes : Keeps serve_authoring hashes_match.
Proof.
  apply authoring_keeps; [|apply hashes_compile]. intros d d' Hv _ _ _ _ _ _. by apply hashes_ext.
Qed.

(** Compiling writes versions and sequences only. *)
Lemma compile_keeps (I : db → Prop) sid c :
  (∀ d d', steps d' = steps d → runs d' = runs d →
     manifest d' = manifest d → content_versions d' = content_versions d →
     content_items d' = content_items d → osdeploy d' = osdeploy d → I d → I d') →
  preserves I (compile_sequence sid c).
Proof.
  intros Hext. assert (∀ id v, preserves I (insert_version id v)).
  { intros id v. apply preserves_query_checked. intros d Hd _. by apply (Hext d). }
  unfold compile_sequence. cbv zeta. preserves_solve. apply preserves_execute.
  intros d Hd. by apply (Hext d).
Qed.

#[export] Instance authoring_content : Keeps serve_authoring wf_content.
Proof.
  apply authoring_keeps; [intros d d' _ _ Hr Hm Hv Hi _|intros; apply compile_keeps;
    intros d d' _ Hr Hm Hv Hi _]; apply wf_content_ext; try done; by rewrite Hr.
Qed.

#[export] Instance authoring_runs : Keeps serve_authoring wf_runs.
Proof.
  apply authoring_keeps; [intros d d' _ Hs Hr _ _ _ Ho|intros; apply compile_keeps;
    intros d d' Hs Hr _ _ _ Ho]; by apply wf_runs_ext.
Qed.

(** ** Content *)

#[export] Instance content_content : Keeps serve_content wf_content := wf_serve_content.

(** Content requests write the content tables only. *)
Lemma content_keeps (I : db → Prop) :
  (∀ d d', sequences d' = sequences d → nodes d' = nodes d → versions d' = versions d →
     steps d' = steps d → runs d' = runs d → osdeploy d' = osdeploy d → I d → I d') →
  Keeps serve_content I.
Proof.
  intros Hext r.
  assert (∀ id m, preserves I (insert_manifest id m)).
  { intros id m. apply preserves_query_checked. intros d Hd _. by apply (Hext d). }
  destruct r; simpl; unfold create_content_item, create_content_version, insert_content_item,
      insert_content_version, add_manifest_item, mark_manifest_item_staging,
      resolve_run_content_manifest, pin_ref, insert_manifest_or_nothing, list_run_manifest;
    cbv zeta; preserves_solve;
    first [apply preserves_checked; intros _|apply preserves_execute];
    intros d Hd; by apply (Hext d).
Qed.

#[export] Instance content_nodes : Keeps serve_content wf_nodes.
Proof. apply content_keeps. intros d d' Hs Hn _ _ _ _. by apply wf_nodes_ext. Qed.

#[export] Instance content_numbered : Keeps serve_content versions_numbered.
Proof. apply content_keeps. intros d d' _ _ Hv _ _ _. by apply numbered_ext. Qed.

#[export] Instance content_hashes : Keeps serve_content hashes_match.
Proof. apply content_keeps. intros d d' _ _ Hv _ _ _. by apply hashes_ext. Qed.

#[export] Instance content_runs : Keeps serve_content wf_runs.
Proof. apply content_keeps. intros d d' _ _ _ Hst Hr Ho. by apply wf_runs_ext. Qed.

(** ** Runs *)

(** Run requests write runs, steps, events and logs, and pin content; runs are
    never deleted. *)
Lemma run_keeps (I : db → Prop) :
  (∀ d d', sequences d' = sequences d → nodes d' = nodes d → versions d' = versions d →
     manifest d' = manifest d → content_versions d' = content_versions d →
     content_items d' = content_items d → osdeploy d' = osdeploy d →
     (∀ k, known (runs d) k = true → known (runs d') k = true) → I d → I d') →
  (∀ run_id roots, preserves I (resolve_run_content_manifest run_id roots)) → Keeps serve_run I.
Proof.
  intros Hext Hres r.
  assert (∀ e, preserves I (insert_event e)).
  { intros e. apply preserves_query_checked. intros d Hd _. by apply (Hext d). }
  assert (∀ id st, preserves I (insert_step id st)).
  { intros id st. apply preserves_query_checked. intros d Hd _. by apply (Hext d). }
  assert (∀ id r, preserves I (insert_run id r)).
  { intros id r'. apply preserves_query_checked. intros d Hd _. apply (Hext d); try done.
    intros k. apply known_insert. }
  destruct r; simpl; unfold create_run_from_version, insert_plan_step, claim_next_step,
      content_for_step, complete_step, mark_reboot_complete, requeue_step, get_step,
      append_step_log, insert_log, mark_steps_done_by_kind, mark_done, update_run_identity,
      get_run, append_event; cbv zeta; preserves_solve;
    first [apply preserves_checked; intros _|apply preserves_execute];
    intros d Hd; apply (Hext d); try done; intros k; simpl; by rewrite known_alter.
Qed.

Lemma resolve_keeps (I : db → Prop) run_id roots :
  (∀ d d', sequences d' = sequences d → nodes d' = nodes d → versions d' = versions d →
     osdeploy d' = osdeploy d → runs d' = runs d → I d → I d') → preserves I (resolve_run_content_manifest run_id roots).
Proof.
  intros Hext. assert (∀ id m, preserves I (insert_manifest id m)).
  { intros id m. apply preserves_query_checked. intros d Hd _. by apply (Hext d). }
  unfold resolve_run_content_manifest, pin_ref, insert_manifest_or_nothing, list_run_manifest.
  cbv zeta. preserves_solve.
Qed.

#[export] Instance run_nodes : Keeps serve_run wf_nodes.
Proof.
  apply run_keeps; [|intros; apply resolve_keeps]; intros; by eapply wf_nodes_ext.
Qed.

#[export] Instance run_numbered : Keeps serve_run versions_numbered.
Proof.
  apply run_keeps; [|intros; apply resolve_keeps]; intros; by eapply numbered_ext.
Qed.

#[export] Instance run_hashes : Keeps serve_run hashes_match.
Proof.
  apply run_keeps; [|intros; apply resolve_keeps]; intros; by eapply hashes_ext.
Qed.

#[export] Instance run_content : Keeps serve_run wf_content.
Proof.
  apply run_keeps.
  - intros. by eapply wf_content_ext.
  - intros run_id roots. pose proof wf_pin_ref.
    unfold resolve_run_content_manifest, list_run_manifest. cbv zeta. preserves_solve.
Qed.

#[export] Instance run_runs : Keeps serve_run wf_runs := wf_serve_run.

(** The engine leaves the tables of OSDeploy alone. *)
#[export] Instance authoring_osdeploy t : Keeps serve_authoring (λ d, osdeploy d = t).
Proof.
  apply authoring_keeps; [|intros; apply compile_keeps]; intros; congruence.
Qed.

#[export] Instance content_osdeploy t : Keeps serve_content (λ d, osdeploy d = t).
Proof. apply content_keeps. congruence. Qed.

#[export] Instance run_osdeploy t : Keeps serve_run (λ d, osdeploy d = t).
Proof. apply run_keeps; [|intros; apply resolve_keeps]; congruence. Qed.

(** ** Reachable states *)

Inductive request : Type :=
| Authoring (r : authoring_request)
| ContentRequest (r : content_request)
| Running (r : run_request).

Definition serve (r : request) : eff session unit :=
  match r with
  | Authoring r => serve_authoring r
  | ContentRequest r => serve_content r
  | Running r => serve_run r
  end.

#[export] Instance serve_keeps I :
  Keeps serve_authoring I → Keeps serve_content I → Keeps serve_run I → Keeps serve I.
Proof. intros H1 H2 H3 []; [apply H1|apply H2|apply H3]. Qed.

(** One request is served in a transaction of its own; the generators may have moved
    on in between, because other parts of the program use them too. *)
Inductive engine_step (s : session) : session → Prop :=
| EngineServe r : engine_step s (with_connection (serve r) s).2
| EngineIdle n m : (tick s ≤ n)%nat → (issued s ≤ m)%nat →
    engine_step s (Session (cur s) (committed s) n m).

Definition initial : session := Session empty_db empty_db 0 0.

Definition reachable (s : session) : Prop := rtc engine_step initial s.

Lemma with_connection_keeps I {A} (m : eff session A) :
  preserves I m → preserves I (with_connection m).
Proof.
  intros Hm s Hs. unfold with_connection. specialize (Hm s Hs). destruct (m s) as [[a|e] s'].
  - rewrite run_bind, run_commit. by split; apply Hm.
  - rewrite run_bind. by split; apply Hm.
Qed.

(** An invariant that every component keeps holds in every reachable state. *)
Lemma reachable_keeps I s : Keeps serve I → I empty_db → reachable s → I (cur s) ∧ I (committed s).
Proof.
  intros HI Hempty Hr. assert (holds_in I initial) as Hi by by split.
  induction Hr as [s|s s1 s2 Hstep _ IH]; [done|]. apply IH. destruct Hstep as [r|n m].
  - by apply (with_connection_keeps I (serve r)).
  - done.
Qed.

Lemma empty_nodes : wf_nodes empty_db.
Proof. split; simpl; intros *; by rewrite lookup_empty. Qed.
Lemma empty_numbered : versions_numbered empty_db.
Proof. by intros sid; vm_compute. Qed.
Lemma empty_hashes : hashes_match empty_db.
Proof. intros id v. simpl. by rewrite lookup_empty. Qed.
Lemma empty_content : wf_content empty_db.
Proof. split; simpl; intros *; by rewrite lookup_empty. Qed.
Lemma empty_runs : wf_runs empty_db.
Proof. split; simpl; intros *; by rewrite lookup_empty. Qed.

(** The database is well-formed in every reachable state, whatever requests were served
    in whatever order and whether they succeeded or raised.  Every node of a draft has an
    existing sequence and parent, a kind exactly when it is a step, and a position of its
    own among its siblings; the versions of a sequence are numbered 1, 2, 3, ... and carry
    the digest of their tree; every pin of a run's manifest names an existing version and
    carries its digest, address and size, and a run pins a name once; every step belongs to
    a run, and two steps of one run have different ordinals. *)
Theorem reachable_well_formed (s : session) :
  reachable s →
  wf_nodes (cur s) ∧ versions_numbered (cur s) ∧ hashes_match (cur s) ∧ wf_content (cur s) ∧
  ∀ id1 id2 st1 st2, steps (cur s) !! id1 = Some st1 → steps (cur s) !! id2 = Some st2 →
    is_Some (runs (cur s) !! ps_run_id (st_plan st1)) ∧
    (ps_run_id (st_plan st1) = ps_run_id (st_plan st2) →
     ps_ordinal (st_plan st1) = ps_ordinal (st_plan st2) → id1 = id2).
Proof.
  intros Hs. split_and!.
  - by apply (reachable_keeps wf_nodes s _ empty_nodes).
  - by apply (reachable_keeps _ s _ empty_numbered).
  - by apply (reachable_keeps _ s _ empty_hashes).
  - by apply (reachable_keeps wf_content s _ empty_content).
  - intros id1 id2 st1 st2 H1 H2. destruct (reachable_keeps wf_runs s _ empty_runs Hs) as [Hc _]. split.
    + apply known_true. by apply (wr_step _ Hc id1).
    + by apply (wr_ordinal _ Hc).
Qed.

(** C5. Retries are bounded: in every reachable state a step has been attempted at
    most once more than its retry count allows, it waits for another attempt only
    while retries are left, and a running step has an owner and a start time. *)
Theorem reachable_attempts_bounded (s : session) (id : string) (st : step_row) :
  reachable s → steps (cur s) !! id = Some st →
  (0 ≤ st_attempt st ≤ Z.max 0 (ps_retry_count (st_plan st)) + 1)%Z ∧
  (st_state st = Pending → (st_attempt st ≤ Z.max 0 (ps_retry_count (st_plan st)))%Z) ∧
  (st_state st = TsData.Running →
     is_Some (st_claimed_by st) ∧ is_Some (st_started_at st) ∧ (1 ≤ st_attempt st)%Z).
Proof.
  intros Hs Hst. destruct (reachable_keeps wf_runs s _ empty_runs Hs) as [Hc _].
  by destruct (wr_step _ Hc id st Hst) as [[Ha Hp Hr _] _].
Qed.

(** C4. A run is reported done only when there is nothing left to do: in every
    reachable state, a run in state ['done'] has no pending, running or rebooting
    step, and a run that is done or failed has the time it ended. *)
Theorem reachable_done_complete (s : session) (run_id : string) (r : run_row) :
  reachable s → runs (cur s) !! run_id = Some r →
  (rn_state r = RunDone → ∀ id st, steps (cur s) !! id = Some st →
     ps_run_id (st_plan st) = run_id → st_state st ∉ active_states) ∧
  (rn_state r = RunDone ∨ rn_state r = RunFailed → is_Some (rn_finished_at r)).
Proof.
  intros Hs Hr. destruct (reachable_keeps wf_runs s _ empty_runs Hs) as [Hc _]. split.
  - intros Hd id st Hst Hid.
    destruct (reachable_keeps (λ d, osdeploy d = empty_osdeploy) s _ eq_refl Hs) as [Ho _].
    eapply (wr_done _ Hc run_id r); [by rewrite Ho; vm_compute|done..].
  - by apply (wr_run _ Hc run_id).
Qed.

End engine.
