(* ===== verification/Scenarios.v ===== *)
(** * Scenarios of the task sequence engine

    A concrete sequence taken through authoring, compiling, running and finishing:
    instances of the theorems about runs, and the behaviours of failed steps,
    skipped steps and late results that modelling brought to light. *)

From stdpp Require Import base gmap list strings pretty sorting relations.
From Stdlib Require Import ZArith Lia.
From S2P Require Import Prelude Json TsData Conditions Tree Sequences Content Runs RunState Progress Engine.
Import AuthoringExample.

(** The state after a list of requests, each in its own transaction. *)
Definition play (rs : list request) (s : session) : session :=
  foldl (λ s r, (with_connection (serve r) s).2) s rs.

Lemma play_reachable rs s : reachable s → reachable (play rs s).
Proof.
  revert s. induction rs as [|r rs IH]; intros s Hs; simpl; [done|].
  apply IH. eapply rtc_r; [done|]. constructor.
Qed.

Lemma play_wf rs : holds_in wf_runs (play rs initial).
Proof.
  apply (reachable_keeps wf_runs); [apply _|apply empty_runs|]. by apply play_reachable, rtc_refl.
Qed.

(** ** The sequence *)

Definition node (name : string) (condition : json) (continue_on_error : bool) (retries : Z)
    (reboot : string) : builder_node :=
  BuilderNode None None None None (Some "step") (Some name) None (Some "run_script")
    (Some "full_os") (Some true) condition JNull JNull [] continue_on_error (Some retries) None None
    (Some reboot).

Definition only_lab : json := JObj [("eq", JArr [JStr "variables.site"; JStr "lab"])].

(** Create the sequence [id0] with the nodes, compile it and start a run. *)
Definition started (ns : list builder_node) : list request :=
  [Authoring (ReqCreateSequence "Demo" EmptyString "windows" None);
   Authoring (ReqReplaceNodes "id0" ns None);
   Authoring (ReqCompile "id0" None);
   Running (ReqCreateRun ("id" +:+ pretty (S (length ns)))
     (JObj [("vmid", JInt 101)]) (JObj [("site", JStr "office")]) None false)].

(** Three steps: the second requires a reboot, the third is for the lab only. *)
Definition demo : list builder_node :=
  [node "prepare" JNull false 1 "none"; node "rename" JNull false 0 "required";
   node "lab tools" only_lab false 0 "none"; node "finish" JNull false 0 "none"].

Definition demo_run : session := play (started demo) initial.

Definition states (run_id : string) (s : session) : list (string * step_state * Z) :=
  (λ kr, (kr.1, st_state kr.2, st_attempt kr.2)) <$> run_steps run_id (cur s).

Definition state_of (run_id : string) (s : session) : option run_state :=
  rn_state <$> runs (cur s) !! run_id.

Example demo_plan :
  states "id6" demo_run = [("id7", Pending, 0%Z); ("id8", Pending, 0%Z); ("id9", Skipped, 0%Z);
    ("id10", Pending, 0%Z)] ∧ state_of "id6" demo_run = Some Queued.
Proof. by vm_compute. Qed.

Lemma demo_reachable : reachable demo_run.
Proof. apply play_reachable, rtc_refl. Qed.

(** The first step fails once and is claimed again. *)
Definition retried : session :=
  play [Running (ReqClaim "id6" "full_os" "agent" [] false ∅);
        Running (ReqComplete "id6" "id7" "agent" "failed" (Some "network") JNull);
        Running (ReqClaim "id6" "full_os" "agent" [] false ∅)] demo_run.

Example retried_states : states "id6" retried =
  [("id7", TsData.Running, 2%Z); ("id8", Pending, 0%Z); ("id9", Skipped, 0%Z); ("id10", Pending, 0%Z)].
Proof. by vm_compute. Qed.

Lemma retried_reachable : reachable retried.
Proof. apply play_reachable, demo_reachable. Qed.

(** ** Instances *)

(** The lookup of a step, as a boolean test away from the tables. *)
Definition step_at (id : string) (s : session) : step_row :=
  default (StepRow (PlanStep EmptyString EmptyString None 0 0 EmptyString EmptyString EmptyString
    EmptyString JNull JNull JNull JNull JNull [] false 0 0 None EmptyString) Skipped 0 None None
    None None None) (steps (cur s) !! id).

Lemma step_at_lookup id s :
  bool_decide (is_Some (steps (cur s) !! id)) = true → steps (cur s) !! id = Some (step_at id s).
Proof. rewrite bool_decide_eq_true. intros [st Hst]. unfold step_at. by rewrite Hst. Qed.

Definition run_at (id : string) (s : session) : run_row :=
  default (Run EmptyString EmptyString Queued None None JNull JNull JNull JNull JNull JNull 0 None
    None None) (runs (cur s) !! id).

Lemma run_at_lookup id s :
  bool_decide (is_Some (runs (cur s) !! id)) = true → runs (cur s) !! id = Some (run_at id s).
Proof. rewrite bool_decide_eq_true. intros [r Hr]. unfold run_at. by rewrite Hr. Qed.

Lemma reachable_attempts_bounded_witness :
  (st_attempt (step_at "id7" retried) ≤ 2)%Z ∧ is_Some (st_claimed_by (step_at "id7" retried)).
Proof.
  destruct (reachable_attempts_bounded retried "id7" (step_at "id7" retried)) as ([_ Ha] & _ & Hr).
  - exact retried_reachable.
  - apply step_at_lookup. vm_compute. reflexivity.
  - split; [exact Ha|]. apply Hr. vm_compute. reflexivity.
Defined.

Lemma reachable_well_formed_witness :
  wf_nodes (cur retried) ∧ wf_content (cur retried) ∧ is_Some (runs (cur retried) !! "id6") ∧
  ("id7" = "id8" → False).
Proof.
  destruct (reachable_well_formed retried retried_reachable) as (Hn & _ & _ & Hc & Hp).
  split; [exact Hn|]. split; [exact Hc|]. split; [|discriminate].
  destruct (Hp "id7" "id8" (step_at "id7" retried) (step_at "id8" retried)) as [Hr _].
  - apply step_at_lookup. vm_compute. reflexivity.
  - apply step_at_lookup. vm_compute. reflexivity.
  - exact Hr.
Defined.

(** The run to its end. *)
Definition finished : session := after (drive 3 "id6" "full_os" "agent") demo_run.

Example finished_states : states "id6" finished =
  [("id7", Done, 1%Z); ("id8", Done, 1%Z); ("id9", Skipped, 0%Z); ("id10", Done, 1%Z)] ∧
  state_of "id6" finished = Some RunDone.
Proof. by vm_compute. Qed.

Definition finishing : list request :=
  started demo ++
  [Running (ReqClaim "id6" "full_os" "agent" [] false ∅);
   Running (ReqComplete "id6" "id7" "agent" "success" None JNull);
   Running (ReqClaim "id6" "full_os" "agent" [] false ∅);
   Running (ReqComplete "id6" "id8" "agent" "success" None JNull);
   Running (ReqRebooted "id6" "id8" "agent");
   Running (ReqClaim "id6" "full_os" "agent" [] false ∅);
   Running (ReqComplete "id6" "id10" "agent" "success" None JNull)].

Lemma reachable_done_complete_witness :
  rn_state (run_at "id6" (play finishing initial)) = RunDone ∧
  st_state (step_at "id10" (play finishing initial)) ∉ active_states.
Proof.
  split; [vm_compute; reflexivity|].
  destruct (reachable_done_complete (play finishing initial) "id6"
    (run_at "id6" (play finishing initial))) as [Hd _].
  - apply play_reachable, rtc_refl.
  - apply run_at_lookup. vm_compute. reflexivity.
  - apply (Hd ltac:(vm_compute; reflexivity) "id10").
    + apply step_at_lookup. vm_compute. reflexivity.
    + vm_compute. reflexivity.
Defined.

Definition claim_result (s : session) : outcome (option claimed) * session :=
  claim_next_step "id6" "full_os" "agent" [] false ∅ s.

Definition first_claim : claimed :=
  match (claim_result demo_run).1 with
  | Ret (Some c) => c
  | _ => Claimed EmptyString (step_at "id7" demo_run) []
  end.

Lemma first_claim_run : claim_result demo_run = (Ret (Some first_claim), (claim_result demo_run).2).
Proof. vm_compute. reflexivity. Qed.


Lemma claim_exclusive_witness :
  (claim_next_step "id6" "full_os" "another" [] true ∅ (claim_result demo_run).2).1 = Ret None.
Proof.
  apply (claim_exclusive "id6" "full_os" "agent" "another" [] [] false true ∅ ∅ demo_run
    (claim_result demo_run).2 first_claim).
  - exact (proj1 (play_wf (started demo))).
  - exact first_claim_run.
  - left. discriminate.
Defined.

(** The only steps of [demo_run] are the four of its plan. *)
Lemma demo_steps id st :
  steps (cur demo_run) !! id = Some st → (id, st) ∈ run_steps "id6" (cur demo_run).
Proof.
  intros Hst. apply elem_of_run_steps. split; [done|].
  assert (map_Forall (λ _ st, ps_run_id (st_plan st) = "id6") (steps (cur demo_run))) as Hall.
  { apply (bool_decide_unpack _). by vm_compute. }
  by apply (Hall id).
Qed.

Lemma demo_phase id st :
  steps (cur demo_run) !! id = Some st → ps_run_id (st_plan st) = "id6" →
  in_phase "full_os" st ∧ st_state st ∈ [Pending; Done; Skipped].
Proof.
  intros Hst _.
  assert (map_Forall (λ _ st, in_phase "full_os" st ∧ st_state st ∈ [Pending; Done; Skipped])
    (steps (cur demo_run))) as Hall.
  { apply (bool_decide_unpack _). by vm_compute. }
  by apply (Hall id).
Qed.

Lemma claim_next_step_complete_witness :
  ∃ c s', claim_next_step "id6" "full_os" "agent" ["run_script"] false ∅ demo_run =
    (Ret (Some c), s') ∧ cl_id c = "id7".
Proof.
  apply (claim_next_step_complete "id6" "full_os" "agent" ["run_script"] false ∅ demo_run "id7"
    (step_at "id7" demo_run) (run_at "id6" demo_run)).
  - exact (proj1 (play_wf (started demo))).
  - apply step_at_lookup. vm_compute. reflexivity.
  - apply run_at_lookup. vm_compute. reflexivity.
  - vm_compute. reflexivity.
  - vm_compute. reflexivity.
  - vm_compute. reflexivity.
  - apply (bool_decide_unpack _). vm_compute. exact I.
  - apply (bool_decide_unpack _). vm_compute. exact I.
  - apply (bool_decide_unpack _). vm_compute. exact I.
  - right. apply (bool_decide_unpack _). vm_compute. exact I.
  - intros k prev _ _ _ Hlt. exfalso. vm_compute in Hlt. lia.
Defined.

Lemma agent_finishes_run_witness :
  ∃ s' r', drive 5 "id6" "full_os" "agent" demo_run = (Ret ["id7"; "id8"; "id10"], s') ∧
    runs (cur s') !! "id6" = Some r' ∧ rn_state r' = RunDone.
Proof.
  destruct (agent_finishes_run "id6" "full_os" "agent" 5 demo_run (run_at "id6" demo_run))
    as (s' & r' & Hd & Hr & Hs & _).
  - exact (play_wf (started demo)).
  - apply run_at_lookup. vm_compute. reflexivity.
  - vm_compute. reflexivity.
  - vm_compute. discriminate.
  - vm_compute. lia.
  - exact demo_phase.
  - exists s', r'. split; [exact Hd|split; [exact Hr|exact Hs]].
Defined.

Lemma failing_step_exhausts_retries_witness :
  ∃ s' st' r', fail_again 5 "id6" "full_os" "agent" (Some "disk full") demo_run =
      (Ret ["id7"; "id7"], s') ∧
    steps (cur s') !! "id7" = Some st' ∧ st_state st' = Failed ∧ st_attempt st' = 2%Z ∧
    runs (cur s') !! "id6" = Some r' ∧ rn_state r' = RunFailed.
Proof.
  destruct (failing_step_exhausts_retries "id6" "full_os" "agent" (Some "disk full") 5 1 demo_run
    "id7" (step_at "id7" demo_run)) as (s' & st' & r' & H1 & H2 & H3 & H4 & _ & H5 & H6 & _).
  - exact (play_wf (started demo)).
  - vm_compute. reflexivity.
  - vm_compute. reflexivity.
  - vm_compute. reflexivity.
  - vm_compute. reflexivity.
  - lia.
  - exists s', st', r'. split_and!; [exact H1|exact H2|exact H3|exact H4|exact H5|exact H6].
Defined.

Definition rebooting : session :=
  play [Running (ReqClaim "id6" "full_os" "agent" [] false ∅);
        Running (ReqComplete "id6" "id7" "agent" "success" None JNull);
        Running (ReqClaim "id6" "full_os" "agent" [] false ∅)] demo_run.

Lemma reboot_survives_late_failures_witness :
  ∃ st' s' r', (complete_step "id6" "id8" "agent" "success" None JNull ;;
      late_failures "id6" "id8" [("agent", Some "connection lost"); ("agent", None)] ;;
      mark_reboot_complete "id6" "id8" "agent") rebooting = (Ret st', s') ∧
    st_state st' = Done ∧ runs (cur s') = <["id6" := r']> (runs (cur rebooting)).
Proof.
  destruct (reboot_survives_late_failures "id6" "id8" "agent"
    [("agent", Some "connection lost"); ("agent", None)] rebooting (step_at "id8" rebooting)
    (run_at "id6" rebooting)) as (st' & s' & r' & H1 & H2 & _ & _ & _ & _ & H3 & _).
  - vm_compute. reflexivity.
  - apply run_at_lookup. vm_compute. reflexivity.
  - vm_compute. reflexivity.
  - exists st', s', r'. split_and!; [exact H1|exact H2|exact H3].
Defined.

Definition compiled_demo : session := play (take 3 (started demo)) initial.

Definition create_demo : eff session string :=
  create_run_from_version "id5" (JObj [("vmid", JInt 101)]) (JObj [("site", JStr "office")]) None false.


(** The tree refers to content that nobody published. *)
Definition needs_content : list builder_node :=
  [BuilderNode None None None None (Some "step") (Some "app") None (Some "install_app")
     (Some "full_os") (Some true) JNull JNull JNull ["agent"] false None None None None].

Definition compiled_content : session := play (take 3 (started needs_content)) initial.

Lemma create_run_atomic_witness :
  committed (create_run_from_version "id2" JNull JNull None true compiled_content).2 =
  committed compiled_content.
Proof.
  apply (create_run_atomic "id2" JNull JNull None true compiled_content _
    (ValueError "content reference has no version: agent")).
  vm_compute. reflexivity.
Defined.

(** ** What modelling showed *)

(** A failed step keeps every later step of its phase from being claimed. *)
Theorem failed_step_blocks_phase (run_id phase agent : string) (kinds : list string) (same : bool)
    (locked : gset string) (s s' : session) (c : claimed) (id : string) (failed : step_row) :
  steps (cur s) !! id = Some failed → ps_run_id (st_plan failed) = run_id →
  in_phase phase failed → st_state failed = Failed →
  claim_next_step run_id phase agent kinds same locked s = (Ret (Some c), s') →
  (ordinal (cl_step c) ≤ ordinal failed)%nat.
Proof.
  intros Hid Hrun Hph Hf Hc.
  destruct (claim_candidate run_id phase agent same (normalized_supported kinds) locked (cur s))
    as [[k st]|] eqn:E; [|by rewrite run_claim_none in Hc].
  edestruct run_claim_some as (e & d' & s1 & _ & _ & _ & _ & Hr); [done|].
  rewrite Hr in Hc. injection Hc as <- <-. simpl.
  apply claim_candidate_Some in E as (_ & Hcl & _).
  destruct (decide (ordinal st ≤ ordinal failed)%nat) as [|Hlt]; [done|exfalso].
  destruct (claimable_unblocked _ _ _ _ _ _ _ _ _ _ Hcl Hid Hrun Hph) as [Hn _]; [lia|].
  rewrite Hf in Hn. set_solver.
Qed.

(** So a step that may fail ([continue_on_error]) still stops the run: the run goes
    back to the queue, but the next step is never handed out. *)
Definition optional_first : list builder_node :=
  [node "optional" JNull true 0 "none"; node "essential" JNull false 0 "none"].

Definition stuck : session :=
  play [Running (ReqClaim "id4" "full_os" "agent" [] false ∅);
        Running (ReqComplete "id4" "id5" "agent" "failed" None JNull)]
    (play (started optional_first) initial).

Example continue_on_error_still_blocks :
  states "id4" stuck = [("id5", Failed, 1%Z); ("id6", Pending, 0%Z)] ∧
  state_of "id4" stuck = Some Queued ∧
  (claim_next_step "id4" "full_os" "agent" [] false ∅ stuck).1 = Ret None.
Proof. by vm_compute. Qed.

(** A run none of whose steps applies is never done: it stays queued. *)
Example skipped_run_stays_queued :
  let s := play (started [node "lab tools" only_lab false 0 "none"]) initial in
  states "id3" s = [("id4", Skipped, 0%Z)] ∧
  (drive 5 "id3" "full_os" "agent" s).1 = Ret [] ∧
  state_of "id3" (drive 5 "id3" "full_os" "agent" s).2 = Some Queued.
Proof. by vm_compute. Qed.

(** A repeated failure report reopens a step that was done, and with it a run that
    was done; its end time stays. *)
Example late_failure_reopens_run :
  let s := play [Running (ReqComplete "id6" "id7" "agent" "failed" None JNull)]
             (play finishing initial) in
  head (states "id6" s) = Some ("id7", Pending, 1%Z) ∧
  state_of "id6" s = Some (RunningIn "full_os") ∧
  bool_decide (is_Some (runs (cur s) !! "id6" ≫= rn_finished_at)) = true.
Proof. by vm_compute. Qed.

(** ** Two results at once

    [complete_step] reads the step and the other steps' states before it writes, and
    takes no lock.  [complete_step_from snapshot] is [complete_step] whose reads were
    answered by [snapshot], the committed data at the time, while its writes apply to
    the session's. *)
Section race.
Context `{Env}.

Definition complete_step_from (snapshot : db) (run_id step_id agent_id status : string)
    (message : option string) (data : json) : eff session step_row :=
  match step_of_run run_id step_id snapshot with
  | None => raise (ValueError ("step not found for run: " +:+ step_id))
  | Some st =>
      let phase := ps_phase (st_plan st) in
      now ← now;
      if decide (status = "failed" ∧ st_state st = AwaitingReboot) then
        append_event run_id "step_late_failure_ignored" (Some step_id) "warning" (Some agent_id)
          (Some phase) (Some (st_attempt st)) message data ;;
        commit ;;
        mret st
      else
        res ← lift_outcome (result_of status st (next_run_state run_id step_id snapshot) now);
        let '(step_state, run_state, finished_at, severity) := res in
        execute (set_steps (alter (completed_step status message step_state finished_at) step_id)) ;;
        execute (set_runs (alter (completed_run step_id phase message run_state now) run_id)) ;;
        append_event run_id ("step_" +:+ step_state_text step_state) (Some step_id) severity
          (Some agent_id) (Some phase) (Some (st_attempt st)) message data ;;
        commit ;;
        get_step step_id
  end.

(** Without another transaction in between, it is [complete_step]. *)
Lemma complete_step_from_cur run_id step_id agent status message data s :
  complete_step_from (cur s) run_id step_id agent status message data s =
  complete_step run_id step_id agent status message data s.
Proof.
  unfold complete_step_from, complete_step. rewrite run_bind, run_query.
  destruct (step_of_run run_id step_id (cur s)); [|done]. cbv zeta.
  rewrite !run_bind, run_now. case_decide; [done|]. by rewrite !run_bind, run_query.
Qed.
End race.

(** Two running steps of one run, whose results arrive together. *)
Definition batch : session :=
  play [Running (ReqClaim "id4" "full_os" "agent" [] false ∅);
        Running (ReqClaim "id4" "full_os" "agent" [] true ∅)]
    (play (started [node "one" JNull false 0 "none"; node "two" JNull false 0 "none"]) initial).

(** One after the other, the run is done. *)
Example results_in_sequence :
  let s := after (complete_step "id4" "id6" "agent" "success" None JNull)
             (after (complete_step "id4" "id5" "agent" "success" None JNull) batch) in
  states "id4" s = [("id5", Done, 1%Z); ("id6", Done, 1%Z)] ∧ state_of "id4" s = Some RunDone.
Proof. by vm_compute. Qed.

(** When both have read before either has written, each sees the other's step still
    running: both steps are done and the run stays queued for good. *)
Example results_at_once_leave_run_queued :
  let s := after (complete_step_from (cur batch) "id4" "id6" "agent" "success" None JNull)
             (after (complete_step "id4" "id5" "agent" "success" None JNull) batch) in
  states "id4" s = [("id5", Done, 1%Z); ("id6", Done, 1%Z)] ∧ state_of "id4" s = Some Queued ∧
  (claim_next_step "id4" "full_os" "agent" [] false ∅ s).1 = Ret None.
Proof. by vm_compute. Qed.
