(* ===== verification/Generated.v ===== *)
(** * Generated sequences

    OSDeploy and CloudOSD write a sequence of their own for every deployment: a list of
    steps without groups, stored node by node, compiled, and run.  The plan of the run
    lists these steps in this order. *)

From stdpp Require Import base gmap list strings pretty sorting.
From Stdlib Require Import ZArith Lia.
From S2P Require Import Prelude Json Digest OsdeployData TsData Conditions Tree Sequences Content Runs RunState Progress.

(** A step as it is generated: the columns the generators set. *)
Record generated_step : Type := GeneratedStep {
  ge_name : string;
  ge_kind : string;
  ge_phase : string;
  ge_params : json;
  ge_retries : Z;
  ge_delay : Z;
  ge_reboot : string
}.

Lemma for_each_fmap {S A B} (f : A → B) (l : list A) (body : B → eff S unit) s :
  for_each (f <$> l) body s = for_each l (λ x, body (f x)) s.
Proof.
  revert s. induction l as [|x l IH]; intros s; [done|]. simpl. rewrite !run_bind.
  by destruct (body (f x) s) as [[[]|e] s'].
Qed.

Lemma imap_pair_fmap {A B} (f : A → B) (l : list A) :
  imap pair (f <$> l) = (λ ix, (ix.1, f ix.2)) <$> imap pair l.
Proof.
  apply list_eq. intros i. rewrite list_lookup_imap, !list_lookup_fmap, list_lookup_imap.
  by destruct (l !! i).
Qed.

Section plan.
Context `{Env} `{Sha256}.

(** One round of the loop that adds the steps. *)
Definition add_step_at (sequence_id : string) (ps : nat * generated_step) : eff session unit :=
  add_step sequence_id None (ge_name ps.2) (ge_kind ps.2) (ge_phase ps.2) (Z.of_nat ps.1) true JNull JNull
    (ge_params ps.2) [] false (ge_retries ps.2) (ge_delay ps.2) None (ge_reboot ps.2) ;;
  mret tt.

Definition generate (name description by_ : string) (l : list generated_step) : eff session string :=
  sequence_id ← create_sequence name description "windows" (Some by_);
  for_each (imap pair l) (add_step_at sequence_id) ;;
  compile_sequence sequence_id (Some by_).

(** ** Storing the nodes *)

Definition generated_node (sequence_id : string) (at_ : Z) (ps : nat * generated_step) : node_row :=
  Node sequence_id None (Z.of_nat ps.1) Step (ge_name ps.2) None (Some (ge_kind ps.2)) (ge_phase ps.2) true
    (JObj []) (JObj []) (jor (ge_params ps.2) (JObj [])) [] false (ge_retries ps.2)
    (ge_delay ps.2) None (ge_reboot ps.2) at_ at_.

Lemma add_generated_run sid ps s s' :
  add_step_at sid ps s = (Ret tt, s') →
  ∃ id at_, nodes (cur s) !! id = None ∧
    cur s' = set_nodes (<[id := generated_node sid at_ ps]>) (cur s) ∧
    committed s' = cur s'.
Proof.
  unfold add_step_at, add_step, add_node, insert_node. run.
  match goal with |- context [if ?b then _ else _] => destruct b eqn:Hok end; [|done].
  rewrite !andb_true_iff, !negb_true_iff, known_false in Hok. destruct Hok as [[[[Hid _] _] _] _].
  intros [= <-]. simpl. eauto.
Qed.

Lemma add_step_ats_run sid l s s' :
  for_each l (add_step_at sid) s = (Ret tt, s') → committed s = cur s →
  ∃ rows : list (string * node_row),
    Forall2 (λ ps kr, ∃ at_, kr.2 = generated_node sid at_ ps) l rows ∧
    NoDup rows.*1 ∧ (∀ id, id ∈ rows.*1 → nodes (cur s) !! id = None) ∧
    cur s' = set_nodes (λ t, list_to_map rows ∪ t) (cur s) ∧ committed s' = cur s'.
Proof.
  revert s. induction l as [|ps l IH]; intros s; cbn [for_each].
  { intros [= <-] Hc. exists []. split_and!; [constructor|constructor|set_solver| |done].
    unfold set_nodes. simpl. rewrite (left_id_L ∅ (∪)). by destruct (cur s). }
  rewrite run_bind. destruct (add_step_at _ ps s) as [[[]|e] s1] eqn:E; [|done].
  intros Hl _. apply add_generated_run in E as (id & at_ & Hid & Hs1 & Hc1).
  destruct (IH s1 Hl Hc1) as (rows & Hrows & Hnd & Hfree & Hs' & Hc'). rewrite Hs1 in Hfree, Hs'.
  simpl in Hfree. assert (id ∉ rows.*1) as Hnew.
  { intros Hin. specialize (Hfree id Hin). by rewrite lookup_insert_eq in Hfree. }
  exists ((id, generated_node sid at_ ps) :: rows). split_and!; [|csimpl| | |done].
  - constructor; [by exists at_|done].
  - by constructor.
  - csimpl. intros k [->|Hk]%elem_of_cons; [done|].
    specialize (Hfree k Hk). rewrite lookup_insert_None in Hfree. naive_solver.
  - rewrite Hs'. unfold set_nodes. simpl. f_equal.
    rewrite <- insert_union_r, insert_union_l; [done|]. by apply not_elem_of_list_to_map_1.
Qed.

(** ** Flattening a tree of steps without groups *)

Lemma walk_steps tree fuel l out :
  Forall (λ n, cn_node_type n = Step) l → children tree None = l →
  walk tree (S fuel) None [] 0 out =
  Ret (out ++ imap (λ i n, flat_step_of n [cn_name n] 0 (length out + i)) l).
Proof.
  intros Hl Hc. cbn [walk]. rewrite Hc. clear Hc. revert out.
  induction Hl as [|n l Hn _ IH]; intros out; simpl; [by rewrite (right_id_L [] (++))|].
  rewrite Hn. simpl. rewrite IH. f_equal. rewrite <- (assoc_L (++)). simpl. rewrite Nat.add_0_r. do 2 f_equal.
  apply imap_ext. intros i m _. simpl. rewrite length_app. simpl. f_equal. lia.
Qed.

Lemma flatten_steps_flat tree l :
  Forall (λ n, cn_node_type n = Step) l → children tree None = l →
  flatten_steps tree = Ret (imap (λ i n, flat_step_of n [cn_name n] 0 i) l).
Proof. intros Hl Hc. unfold flatten_steps. by rewrite (walk_steps tree (length tree) l). Qed.

(** Roots listed by strictly growing positions are listed in their order. *)
Lemma sibling_order_lt a b : (cn_position a < cn_position b)%Z → sibling_order a b = Lt.
Proof.
  intros Hlt. unfold sibling_order, cmp_then, cmp_on, cmp_Z. by rewrite (proj2 (Z.compare_lt_iff _ _)).
Qed.

Lemma sibling_order_position a b : sibling_order a b = Eq → cn_position a = cn_position b.
Proof.
  unfold sibling_order, cmp_then, cmp_on, cmp_Z. destruct (Z.compare_spec (cn_position a) (cn_position b)); done.
Qed.

Lemma children_positions (rows : list (string * node_row)) (l : list (string * node_row)) :
  rows ≡ₚ l → Forall (λ kr : string * node_row, nd_parent_id kr.2 = None) l →
  (∀ i kr, l !! i = Some kr → nd_position kr.2 = Z.of_nat i) →
  children (compiled_tree rows) None = compile_node <$> l.
Proof.
  intros Hp Hroot Hpos. unfold children, compiled_tree.
  rewrite filter_all.
  2: { intros n Hn. apply list_elem_of_fmap in Hn as (kr & -> & Hin). rewrite elem_of_isort, Hp in Hin.
       rewrite Forall_forall in Hroot. by apply Hroot. }
  rewrite (isort_perm_eq sibling_order _ (compile_node <$> l)).
  - apply isort_sorted_id, StronglySorted_Sorted, elem_of_StronglySorted_indexed.
    intros i j x y Hij Hx Hy. rewrite list_lookup_fmap in Hx, Hy.
    destruct (l !! i) as [kx|] eqn:Ex, (l !! j) as [ky|] eqn:Ey; simplify_eq/=.
    rewrite sibling_order_lt; [done|]. simpl. rewrite (Hpos i kx), (Hpos j ky) by done. lia.
  - by rewrite isort_perm, Hp.
  - assert (∀ x, x ∈ compile_node <$> isort compiled_order rows →
      ∃ i kr, l !! i = Some kr ∧ x = compile_node kr ∧ cn_position x = Z.of_nat i) as Hin.
    { intros x (kr & -> & Hin)%list_elem_of_fmap. rewrite elem_of_isort, Hp in Hin.
      apply list_elem_of_lookup in Hin as [i Hi]. exists i, kr. by rewrite <- (Hpos i kr). }
    intros x y (i & kx & Hi & -> & Hpx)%Hin (j & ky & Hj & -> & Hpy)%Hin Heq%sibling_order_position.
    assert (i = j) as -> by lia. congruence.
Qed.

(** ** From the generated steps to the plan *)

(** The plan step of a generated step. *)
Definition is_planned (run_id : string) (ps : nat * generated_step) (st : step_row) : Prop :=
  st_state st = Pending ∧ st_attempt st = 0%Z ∧ st_claimed_by st = None ∧
  ps_run_id (st_plan st) = run_id ∧ ps_ordinal (st_plan st) = ps.1 ∧
  ps_name (st_plan st) = ge_name ps.2 ∧ ps_kind (st_plan st) = ge_kind ps.2 ∧
  ps_phase (st_plan st) = ge_phase ps.2 ∧
  ps_resolved_params (st_plan st) = jor (ge_params ps.2) (JObj []) ∧
  ps_retry_count (st_plan st) = ge_retries ps.2 ∧
  ps_retry_delay_seconds (st_plan st) = ge_delay ps.2 ∧
  ps_reboot_behavior (st_plan st) = ge_reboot ps.2 ∧ ps_continue_on_error (st_plan st) = false.

Lemma planned_generated run_id variables target sid id at_ ps st :
  planned run_id variables target
    (flat_step_of (compile_node (id, generated_node sid at_ ps)) [ge_name ps.2] 0 ps.1) st →
  is_planned run_id ps st.
Proof.
  intros (result & He & ->). unfold evaluate_condition, eval_condition in He. cbn in He.
  injection He as <-. by split_and!.
Qed.

Lemma create_sequence_run name description target_os created_by s s' sid :
  create_sequence name description target_os created_by s = (Ret sid, s') →
  sequences (cur s) !! sid = None ∧
  (∃ row, sq_name row = name ∧ cur s' = set_sequences (<[sid := row]>) (cur s)) ∧
  committed s' = cur s'.
Proof.
  unfold create_sequence. run. destruct (negb _) eqn:Hok; [|done].
  rewrite negb_true_iff, known_false in Hok. intros [= <- <-]. simpl. split; [done|]. split; [|done]. eexists. split; [|reflexivity]. done.
Qed.

(** Every node and every version belongs to a sequence. *)
Definition sequences_known (d : db) : Prop :=
  (∀ id n, nodes d !! id = Some n → is_Some (sequences d !! nd_sequence_id n)) ∧
  (∀ id v, versions d !! id = Some v → is_Some (sequences d !! ver_sequence_id v)).

Lemma load_nodes_new sid rows d :
  (∀ id n, nodes d !! id = Some n → nd_sequence_id n ≠ sid) → NoDup rows.*1 →
  Forall (λ kr : string * node_row, nd_sequence_id kr.2 = sid) rows →
  load_nodes sid (set_nodes (λ t, list_to_map rows ∪ t) d) ≡ₚ rows.
Proof.
  intros Hno Hnd Hsid. unfold load_nodes. simpl.
  apply NoDup_Permutation; [apply NoDup_select_where|by apply (NoDup_fmap_1 fst)|].
  intros [id n]. rewrite elem_of_select_where, lookup_union_Some_raw. simpl. split.
  - intros [Hs [Hl|[_ Hl]]]; [by apply elem_of_list_to_map in Hl|by apply Hno in Hl].
  - intros Hin. rewrite Forall_forall in Hsid. split; [by apply (Hsid (id, n))|left].
    by apply elem_of_list_to_map.
Qed.

Lemma generated_rows sid l rows :
  Forall2 (λ ps kr, ∃ at_, kr.2 = generated_node sid at_ ps) l rows →
  Forall (λ kr : string * node_row, nd_sequence_id kr.2 = sid) rows ∧
  Forall (λ kr : string * node_row, nd_parent_id kr.2 = None) rows ∧
  Forall (λ kr : string * node_row, nd_node_type kr.2 = Step) rows.
Proof. induction 1 as [|ps kr l rows [at_ Hkr] _ (H1 & H2 & H3)]; split_and!; constructor; rewrite ?Hkr; done. Qed.

Lemma generate_run name description by_ l s s' vid :
  sequences_known (cur s) → generate name description by_ l s = (Ret vid, s') →
  ∃ sid rows v, versions (cur s') !! vid = Some v ∧
    flatten_steps (ver_compiled_tree v) =
      Ret (imap (λ i n, flat_step_of n [cn_name n] 0 i) (compile_node <$> rows)) ∧
    Forall2 (λ ps kr, ∃ at_, kr.2 = generated_node sid at_ ps)
      (imap pair l) rows ∧
    runs (cur s') = runs (cur s) ∧ steps (cur s') = steps (cur s) ∧
    osdeploy (cur s') = osdeploy (cur s) ∧ committed s' = cur s' ∧
    sequences (cur s) !! sid = None ∧ versions (cur s) !! vid = None ∧ ver_sequence_id v = sid ∧
    (∀ id, id ∈ rows.*1 → nodes (cur s) !! id = None) ∧
    ∃ q, sq_name q = name ∧ sq_current_version_id q = Some vid ∧
      cur s' = set_sequences (<[sid := q]>) (set_versions (<[vid := v]>)
        (set_nodes (λ t, list_to_map rows ∪ t) (cur s))).
Proof.
  intros [Hnodes Hvers]. unfold generate. rewrite run_bind.
  destruct (create_sequence _ _ _ _ s) as [[sid|e] s1] eqn:E1; [|done].
  apply create_sequence_run in E1 as (Hsid & (row & Hname & Hs1) & Hc1). rewrite run_bind.
  destruct (for_each _ _ s1) as [[[]|e] s2] eqn:E2; [|done].
  apply add_step_ats_run in E2 as (rows & Hrows & Hnd & Hfree & Hs2 & Hc2); [|done].
  destruct (generated_rows _ _ _ Hrows) as (Hseq & Hroot & Hstep).
  assert (load_nodes sid (cur s2) ≡ₚ rows) as Hload.
  { rewrite Hs2. apply load_nodes_new; [|done|done]. rewrite Hs1. simpl. intros id n Hn <-.
    destruct (Hnodes id n Hn) as [x Hx]. by rewrite Hsid in Hx. }
  assert (children (draft_tree sid (cur s2)) None = compile_node <$> rows) as Hch.
  { apply children_positions; [done|done|]. intros i kr Hi.
    destruct (Forall2_lookup_r _ _ _ _ _ Hrows Hi) as ([j spec] & Hj & at_ & ->).
    rewrite list_lookup_imap in Hj. destruct (l !! i); simpl in Hj; by simplify_eq. }
  intros Hcomp. destruct (run_compile_cases sid (Some by_) s2)
    as [(id & v & Hv & _)|[[e He]|(_ & Hnv & He)]]; [|by rewrite He in Hcomp|rewrite He in Hcomp].
  { apply draft_version_Some in Hv as (Hv & Hvs & _). rewrite Hs2, Hs1 in Hv. simpl in Hv.
    destruct (Hvers id v Hv) as [x Hx]. by rewrite Hvs, Hsid in Hx. }
  injection Hcomp as <- <-. exists sid, rows, (new_version sid (Some by_) s2).
  assert (flatten_steps (ver_compiled_tree (new_version sid (Some by_) s2)) =
    Ret (imap (λ i n, flat_step_of n [cn_name n] 0 i) (compile_node <$> rows))) as Hflat.
  { apply flatten_steps_flat; [|exact Hch]. apply Forall_fmap. eapply Forall_impl; [exact Hstep|]. done. }
  split_and!; [apply lookup_insert_eq|exact Hflat|exact Hrows|..]; cbn [cur committed]; try done;
    try (simpl; rewrite Hs2; simpl; by rewrite Hs1).
  - rewrite Hs2, Hs1 in Hnv. exact Hnv.
  - rewrite Hs1 in Hfree. exact Hfree.
  - eexists (Sequence _ _ _ _ _ _ _ _ _). split_and!; [| |unfold compiled_db; rewrite Hs2, Hs1; unfold set_sequences, set_versions, set_nodes; simpl;
      by rewrite alter_insert_eq]; simpl; done.
Qed.

(** The rows of the plan are those of the generated steps. *)
Lemma planned_generated_all run_id variables target sid l rows (prows : list (string * step_row)) :
  Forall2 (λ ps kr, ∃ at_, kr.2 = generated_node sid at_ ps) (imap pair l) rows →
  Forall2 (λ fs (kr : string * step_row), planned run_id variables target fs kr.2)
    (imap (λ i n, flat_step_of n [cn_name n] 0 i) (compile_node <$> rows)) prows →
  Forall2 (is_planned run_id) (imap pair l) prows.*2.
Proof.
  intros Hrows Hprows. apply Forall2_fmap_r, Forall2_same_length_lookup. split.
  { apply Forall2_length in Hrows, Hprows. rewrite length_imap, length_fmap in Hprows. congruence. }
  intros i ps [id st] Hps Hst.
  destruct (Forall2_lookup_l _ _ _ _ _ Hrows Hps) as ([nid n] & Hn & at_ & Hnode). simpl in Hnode. subst n.
  destruct (Forall2_lookup_r _ _ _ _ _ Hprows Hst) as (fs & Hfs & Hpl).
  rewrite list_lookup_imap, list_lookup_fmap, Hn in Hfs. simpl in Hfs. injection Hfs as <-.
  rewrite list_lookup_imap in Hps. destruct (l !! i) as [spec|]; simplify_eq/=.
  by eapply (planned_generated run_id variables target sid nid at_ (i, spec)).
Qed.

(** ** A run over a generated sequence *)

(** All that a generated sequence and the run over it write, apart from the run: one sequence
    with its nodes, one version of it, the plan of the run and one event; whatever was in these
    tables is still there, and the other tables are as they were. *)
Definition written (name run_id : string) (r : run_row) (d d' : db) : Prop :=
  ∃ sequence_id sequence_ node_rows version_id version plan event,
    sequences d !! sequence_id = None ∧ sequences d' = <[sequence_id := sequence_]> (sequences d) ∧
    sq_name sequence_ = name ∧ sq_current_version_id sequence_ = Some version_id ∧
    (∀ id n, node_rows !! id = Some n → nodes d !! id = None ∧ nd_sequence_id n = sequence_id) ∧
    nodes d' = node_rows ∪ nodes d ∧
    versions d !! version_id = None ∧ versions d' = <[version_id := version]> (versions d) ∧
    ver_sequence_id version = sequence_id ∧
    rn_sequence_id r = sequence_id ∧ rn_sequence_version_id r = version_id ∧
    (∀ id st, plan !! id = Some st → steps d !! id = None ∧ ps_run_id (st_plan st) = run_id) ∧
    steps d' = plan ∪ steps d ∧
    ev_run_id event = run_id ∧ ev_event_type event = "run_created" ∧ events d' = events d ++ [event] ∧
    logs d' = logs d ∧ content_items d' = content_items d ∧
    content_versions d' = content_versions d ∧ manifest d' = manifest d.

Lemma generate_create_run name description by_ l target variables by_run s s1 s2 vid run_id :
  sequences_known (cur s) →
  (∀ id st, steps (cur s) !! id = Some st → known (runs (cur s)) (ps_run_id (st_plan st)) = true) →
  generate name description by_ l s = (Ret vid, s1) →
  create_run_from_version vid target variables by_run false s1 = (Ret run_id, s2) →
  Forall2 (is_planned run_id) (imap pair l) (run_steps run_id (cur s2)).*2 ∧
  runs (cur s) !! run_id = None ∧
  (∃ r, runs (cur s2) = <[run_id := r]> (runs (cur s)) ∧ rn_finished_at r = None ∧
     written name run_id r (cur s) (cur s2)) ∧
  osdeploy (cur s2) = osdeploy (cur s) ∧
  (∀ id st, steps (cur s) !! id = Some st → steps (cur s2) !! id = Some st) ∧ committed s2 = cur s2.
Proof.
  intros Hseq Hsteps E1 E2.
  apply generate_run in E1 as (sid & rows & v & Hv & Hflat & Hrows & Hr1 & Hst1 & Ho1 & Hc1 &
    Hsid & Hvid & Hvs & Hnf & q & Hqn & Hqv & Hs1); [|done].
  apply Progress.create_run_run in E2 as (v' & plan & prows & at_ & Hv' & Hplan & Hprows & Hrs & Hst2 & Hfree &
    Hnew & Hr2 & Ho2 & Hsq2 & Hn2 & Hv2 & Hc2 & Hev); [|rewrite Hst1, Hr1; exact Hsteps].
  rewrite Hv' in Hv. injection Hv as ->. rewrite Hflat in Hplan. injection Hplan as <-.
  split_and!.
  - rewrite Hrs. by eapply planned_generated_all.
  - by rewrite <- Hr1.
  - eexists. rewrite Hr2, Hr1. split; [done|]. split; [done|].
    destruct (Hev eq_refl) as (ev & Hevr & Hevt & He2 & Hl2 & Hci & Hcv & Hmf).
    eexists sid, q, (list_to_map rows), vid, v, (list_to_map prows), ev.
    rewrite Hsq2, Hn2, Hv2, He2, Hl2, Hci, Hcv, Hmf, Hst2, Hs1. split_and!; try done.
    + intros id n Hin%elem_of_list_to_map_2. split.
      { apply Hnf, list_elem_of_fmap. by exists (id, n). }
      destruct (generated_rows _ _ _ Hrows) as (Hseqs & _). rewrite Forall_forall in Hseqs. by apply (Hseqs (id, n)).
    + intros id st Hin%elem_of_list_to_map_2. split.
      { rewrite <- Hst1. apply Hfree, list_elem_of_fmap. by exists (id, st). }
      apply list_elem_of_lookup in Hin as [i Hi].
      destruct (Forall2_lookup_r _ _ _ _ _ Hprows Hi) as (fs & _ & result & _ & Hst).
      simpl in Hst. by rewrite Hst.
  - congruence.
  - intros id st Hst. rewrite Hst2, Hst1. apply lookup_union_Some_raw. right. split; [|done].
    apply not_elem_of_list_to_map_1. intros Hin. specialize (Hfree id Hin). rewrite Hst1 in Hfree. congruence.
  - done.
Qed.
End plan.

