(* ===== verification/OsdeployRoles.v ===== *)
(** * Server roles of OSDeploy

    [web/osdeploy_roles.py]: the catalogue of server roles, what an operator may ask of
    each ([sanitize_role_options], [validate_role_options]), and the steps a role adds to
    a deployment.  Options are the dictionaries of the request, as JSON values. *)

From stdpp Require Import base gmap list strings pretty sorting.
From Stdlib Require Import ZArith Lia Ascii.
From S2P Require Import Prelude Json JsonParse Text Conditions.

(** ** The catalogue *)

Definition ROLE_STEP_KINDS : list (string * list string) :=
  [("file_server", ["configure_file_server_role"]);
   ("isolated_domain_controller",
    ["configure_isolated_domain_controller_role"; "verify_isolated_domain_controller_role"]);
   ("mecm_prereq", ["configure_mecm_prereq_role"])].

Definition DOMAIN_JOIN_STEP_KINDS : list string := ["join_domain_role"; "verify_ad_domain_join"].

(** [sorted({...})] *)
Definition FULL_OS_ROLE_ACTION_KINDS : list string :=
  isort cmp_str (remove_dups (DOMAIN_JOIN_STEP_KINDS ++ mjoin (M:=list) ROLE_STEP_KINDS.*2)).

Record role : Type := Role {
  ro_id : string;
  ro_name : string;
  ro_launchable : bool;
  ro_required_fields : list string;
  ro_credential_fields : list string;
  ro_step_kinds : list string;
  ro_readiness_status : string;
  ro_bundle : bool
}.

Definition role_step_kinds (server_role : string) : list string :=
  default [] (assoc server_role ROLE_STEP_KINDS).

Definition ROLE_CATALOG : list (string * role) :=
  [("base", Role "base" "Windows Server Base" true [] [] [] "base_ready" false);
   ("file_server",
    Role "file_server" "File Server" true
      ["share_name"; "share_path"; "full_access_principals"; "change_access_principals";
       "read_access_principals"]
      [] (role_step_kinds "file_server") "file_server_ready" false);
   ("isolated_domain_controller",
    Role "isolated_domain_controller" "Isolated Domain Controller" true
      ["forest_fqdn"; "netbios_name"; "forest_admin_credential_id"; "dsrm_credential_id"]
      ["forest_admin_credential_id"; "dsrm_credential_id"]
      (role_step_kinds "isolated_domain_controller") "isolated_domain_controller_ready" false);
   ("mecm_prereq",
    Role "mecm_prereq" "MECM Prereq Baseline" true ["prereq_profile"; "content_root"] []
      (role_step_kinds "mecm_prereq") "mecm_prereq_ready" false);
   ("lab_in_a_box",
    Role "lab_in_a_box" "Lab in a Box" true
      ["bundle_name"; "domain_join_credential_id"; "children"] ["domain_join_credential_id"]
      (role_step_kinds "isolated_domain_controller" ++ DOMAIN_JOIN_STEP_KINDS ++
       role_step_kinds "file_server" ++ DOMAIN_JOIN_STEP_KINDS ++ role_step_kinds "mecm_prereq")
      "bundle_ready" true)].

Definition texts (l : list string) : json := JArr (JStr <$> l).

(** A row of the catalogue; the key [bundle] is there only for bundles. *)
Definition role_json (r : role) : list (string * json) :=
  [("id", JStr (ro_id r)); ("name", JStr (ro_name r)); ("launchable", JBool (ro_launchable r));
   ("required_fields", texts (ro_required_fields r));
   ("credential_fields", texts (ro_credential_fields r));
   ("step_kinds", texts (ro_step_kinds r));
   ("readiness_status", JStr (ro_readiness_status r))] ++
  (if ro_bundle r then [("bundle", JBool true)] else []).

Definition catalog_payload : list (string * json) :=
  (λ kr, (kr.1, JObj (role_json kr.2 ++
    [("readiness_status_name", JStr (ro_readiness_status kr.2))]))) <$> ROLE_CATALOG.

(** ** Steps of a role *)

(** [bool(isinstance(value, dict) and value.get("enabled"))] *)
Definition _domain_join_enabled (value : json) : bool := truthy (jget "enabled" value).

Definition generated_step_kinds (server_role : string) (role_options : json) : list string :=
  (if _domain_join_enabled (jget "domain_join" role_options) then DOMAIN_JOIN_STEP_KINDS else []) ++
  role_step_kinds server_role.

Definition final_role_step_kind (server_role : string) : option string :=
  last (role_step_kinds server_role).

Definition role_readiness_status (server_role : string) : string :=
  PyStr.or_else (default EmptyString (ro_readiness_status <$> assoc server_role ROLE_CATALOG))
    (server_role +:+ "_ready").

(** ** Sanitizing *)

(** [str.upper] on one character.  The upper case of the code points 181 and 255 is above
    255: they stay as they are. *)
Definition upper_char (c : ascii) : string :=
  let n := N_of_ascii c in
  if bool_decide (n = 223)%N then "SS"
  else if bool_decide ((97 ≤ n ≤ 122) ∨ (224 ≤ n ≤ 254 ∧ n ≠ 247))%N
  then String (ascii_of_N (n - 32)) EmptyString else String c EmptyString.

Fixpoint upper (s : string) : string :=
  match s with EmptyString => EmptyString | String c s => upper_char c +:+ upper s end.

(** Python's sets keep their elements in an order of their own. *)
Class StrSet : Type := set_order : list string → list string.
Class StrSetLaws (S : StrSet) : Prop := {
  set_order_NoDup l : NoDup (set_order l);
  elem_of_set_order l x : x ∈ set_order l ↔ x ∈ l
}.


(** One element of the argument of [dict]: a pair, whose key must be hashable.  A key that
    is no text is left out: no option has one. *)
Definition dict_item (o : list (string * json)) (item : json) : outcome (list (string * json)) :=
  kv ← unpack_pair item;
  match kv.1 with
  | JStr k => Ret (dict_set k kv.2 o)
  | JArr _ | JObj _ => Exc TypeError
  | _ => Ret o
  end.

Fixpoint dict_items (o : list (string * json)) (l : list json) : outcome (list (string * json)) :=
  match l with
  | [] => Ret o
  | item :: l => o ← dict_item o item; dict_items o l
  end.

(** [dict(v)] *)
Definition py_dict (v : json) : outcome (list (string * json)) :=
  match v with
  | JObj o => Ret o
  | _ => l ← py_iter v; dict_items [] l
  end.

Definition _is_blank (value : json) : bool :=
  match value with
  | JNull => true
  | JStr s => bool_decide (PyStr.strip s = EmptyString)
  | _ => false
  end.

Definition _string_list (value : json) : list string :=
  let values := match value with JStr s => [JStr s] | JArr l => l | _ => [] end in
  filter (λ s, s ≠ EmptyString) ((λ item, PyStr.strip (py_str item)) <$> values).

(** [try: parsed = int(value) except Exception: return None] *)
Definition _positive_int (value : json) : option Z :=
  match py_int value with
  | Ret parsed => if bool_decide (0 < parsed)%Z then Some parsed else None
  | Exc _ => None
  end.

(** [str(raw.get(k) or "").strip()] *)
Definition text_field (k : string) (raw : json) : string :=
  PyStr.strip (py_str (jor (jget k raw) (JStr EmptyString))).

Section roles.
Context `{StrSet}.

(** [sorted(set(...), key=str.lower)] *)
Definition sorted_names (l : list string) : list string :=
  isort (cmp_on PyStr.lower cmp_str) (set_order l).

(** [s.split(".", 1)[0]] *)
Definition first_label (s : string) : string := default EmptyString (head (PyStr.split "."%char s)).

Definition acceptable_names (domain_fqdn credential_domain : string) (acceptable : list string) :
    list string :=
  sorted_names (filter (λ s, s ≠ EmptyString)
    (acceptable ++
     (if decide (domain_fqdn = EmptyString) then [] else [domain_fqdn; first_label domain_fqdn]) ++
     (if decide (credential_domain = EmptyString) then [] else [credential_domain]))).

Definition _sanitize_domain_join (value : json) : json :=
  let raw := match value with JObj o => JObj o | _ => JObj [] end in
  let credential_id := _positive_int (jget "credential_id" raw) in
  let domain_fqdn := PyStr.lower (text_field "domain_fqdn" raw) in
  let credential_domain := text_field "credential_domain" raw in
  let domain_controller_ipv4 := text_field "domain_controller_ipv4" raw in
  let acceptable := _string_list (jget "acceptable_domain_names" raw) in
  JObj [("enabled", JBool (bool_decide (credential_id ≠ None ∧ domain_fqdn ≠ EmptyString)));
        ("credential_id", json_of_option JInt credential_id);
        ("domain_fqdn", JStr domain_fqdn);
        ("credential_domain", JStr credential_domain);
        ("domain_controller_ipv4", JStr domain_controller_ipv4);
        ("acceptable_domain_names",
         texts (acceptable_names domain_fqdn credential_domain acceptable))].

(** [if domain_join["enabled"]: out["domain_join"] = domain_join] *)
Definition with_domain_join (raw : json) (out : list (string * json)) : json :=
  let domain_join := _sanitize_domain_join (jget "domain_join" raw) in
  JObj (out ++ if _domain_join_enabled domain_join then [("domain_join", domain_join)] else []).

Definition DC_MODES : list string := ["new_forest"; "additional_dc"].

(** The rounds of the loop over the children. *)
Definition sanitize_child (sanitize : string → json → outcome json) (child : json) :
    outcome (list json) :=
  match child with
  | JObj _ =>
      let role := text_field "role" child in
      let vm_name := text_field "vm_name" child in
      options ← sanitize role (jor (jget "role_options" child) (JObj []));
      Ret [JObj [("role", JStr role); ("vm_name", JStr vm_name); ("role_options", options)]]
  | _ => Ret []
  end.

Fixpoint sanitize_fuel (fuel : nat) (server_role : string) (role_options : json) : outcome json :=
  match fuel with
  | O => Exc recursion_error
  | S fuel =>
      o ← py_dict (jor role_options (JObj []));
      let raw := JObj o in
      if decide (server_role = "base") then Ret (JObj [])
      else if decide (server_role = "file_server") then
        Ret (with_domain_join raw
          [("share_name", JStr (text_field "share_name" raw));
           ("share_path", JStr (text_field "share_path" raw));
           ("full_access_principals", texts (_string_list (jget "full_access_principals" raw)));
           ("change_access_principals", texts (_string_list (jget "change_access_principals" raw)));
           ("read_access_principals", texts (_string_list (jget "read_access_principals" raw)))])
      else if decide (server_role = "isolated_domain_controller") then
        let mode := PyStr.lower (PyStr.strip (py_str (jor (jget "dc_mode" raw) (JStr "new_forest")))) in
        let dc_mode := if decide (mode ∈ DC_MODES) then mode else "new_forest" in
        Ret (JObj [("dc_mode", JStr dc_mode);
                   ("forest_fqdn", JStr (PyStr.lower (text_field "forest_fqdn" raw)));
                   ("netbios_name", JStr (upper (text_field "netbios_name" raw)));
                   ("forest_admin_credential_id",
                    json_of_option JInt (_positive_int (jget "forest_admin_credential_id" raw)));
                   ("dsrm_credential_id",
                    json_of_option JInt (_positive_int (jget "dsrm_credential_id" raw)))])
      else if decide (server_role = "mecm_prereq") then
        Ret (with_domain_join raw
          [("prereq_profile", JStr (text_field "prereq_profile" raw));
           ("content_root", JStr (text_field "content_root" raw))])
      else if decide (server_role = "lab_in_a_box") then
        let children := match jget "children" raw with JArr l => l | _ => [] end in
        sanitized ← omapM (sanitize_child (sanitize_fuel fuel)) children;
        Ret (JObj [("bundle_name", JStr (text_field "bundle_name" raw));
                   ("domain_join_credential_id",
                    json_of_option JInt (_positive_int (jget "domain_join_credential_id" raw)));
                   ("children", JArr (mjoin (M:=list) sanitized))])
      else Ret raw
  end.

(** Labs may hold labs: the recursion goes no deeper than the value. *)
Definition sanitize_role_options (server_role : string) (role_options : json) : outcome json :=
  sanitize_fuel (depth role_options) server_role role_options.

(** ** Validating *)

Record check : Type := Check { ck_id : string; ck_message : string }.

(** Every check has the severity [block]. *)
Definition _blocking (id message : string) : check := Check id message.

Section validate.
Variable credential_exists : option (Z → bool).

(** [credential_exists is not None and not credential_exists(int(cred_id))]; a sanitized
    identifier is a number. *)
Definition credential_missing (cred_id : json) : outcome bool :=
  match credential_exists with
  | None => Ret false
  | Some exists_ => id ← py_int cred_id; Ret (negb (exists_ id))
  end.

Definition missing_fields (server_role : string) (fields : list string) (options : json) :
    list check :=
  (λ field, _blocking ("role_option_missing_" +:+ field)
    ("Role option '" +:+ field +:+ "' is required for " +:+ server_role +:+ ".")) <$>
  filter (λ field, _is_blank (jget field options) = true) fields.

Definition missing_credential (options : json) (field : string) : outcome (list check) :=
  let cred_id := jget field options in
  if truthy cred_id then
    missing ← credential_missing cred_id;
    Ret (if missing : bool then
      [_blocking ("role_credential_missing_" +:+ field)
         ("Credential id " +:+ py_str cred_id +:+ " for '" +:+ field +:+ "' was not found.")] else [])
  else Ret [].

Definition principals_check (server_role : string) (options : json) : list check :=
  if decide (server_role = "file_server") then
    if truthy (jget "full_access_principals" options) then [] else
      [_blocking "role_option_missing_full_access_principals"
         "Role option 'full_access_principals' is required for file_server."]
  else [].

Definition profile_check (server_role : string) (options : json) : list check :=
  if decide (server_role = "mecm_prereq") then
    if decide (jget "prereq_profile" options = JStr "site_server_foundation") then [] else
      [_blocking "role_option_invalid_prereq_profile"
         "MECM prereq profile must be 'site_server_foundation'."]
  else [].

Definition content_root_check (server_role : string) (options : json) : list check :=
  if decide (server_role = "mecm_prereq") then
    if String.prefix (backslash (backslash EmptyString))
         (py_str (jor (jget "content_root" options) (JStr EmptyString))) then
      [_blocking "role_option_content_root_must_be_local"
         "MECM prereq content_root must be a local staging path; keep installer media in a separate vault path."]
    else []
  else [].

Definition domain_join_check (options : json) : outcome (list check) :=
  let domain_join := jget "domain_join" options in
  if _domain_join_enabled domain_join then
    let cred_id := jget "credential_id" domain_join in
    missing ← credential_missing cred_id;
    Ret (if missing : bool then
      [_blocking "role_credential_missing_domain_join"
         ("Credential id " +:+ py_str cred_id +:+ " for domain join was not found.")] else [])
  else Ret [].

Definition expected_roles : list string := ["isolated_domain_controller"; "file_server"; "mecm_prereq"].

(** [child.get("role")] of every child of [options.get("children") or []]. *)
Definition children_of (options : json) : list json :=
  match jget "children" options with JArr l => l | _ => [] end.

Definition validate_child (validate : string → json → outcome (list check))
    (index : nat) (child : json) : outcome (list check) :=
  checks ← validate (py_str (jor (jget "role" child) (JStr EmptyString)))
             (jor (jget "role_options" child) (JObj []));
  Ret ((if _is_blank (jget "vm_name" child) then
          [_blocking ("role_option_missing_child_" +:+ pretty index +:+ "_vm_name")
             "Each Lab in a Box child requires vm_name."] else []) ++ checks).

Definition _validate_lab_children (validate : string → json → outcome (list check))
    (options : json) : outcome (list check) :=
  let children := children_of options in
  if decide (jget "role" <$> children = JStr <$> expected_roles) then
    checks ← omapM (λ ic, validate_child validate (S ic.1) ic.2) (imap pair children);
    Ret (mjoin (M:=list) checks)
  else Ret [_blocking "role_option_invalid_children"
    "Lab in a Box children must be isolated_domain_controller, file_server, then mecm_prereq."].

Fixpoint validate_fuel (fuel : nat) (server_role : string) (role_options : json) :
    outcome (list check) :=
  match fuel with
  | O => Exc recursion_error
  | S fuel =>
      match assoc server_role ROLE_CATALOG with
      | None => Ret [_blocking "unsupported_server_role"
                       ("Unsupported OSDeploy server role: " +:+ server_role)]
      | Some role =>
          if ro_launchable role then
            options ← sanitize_role_options server_role role_options;
            credentials ← omapM (missing_credential options) (ro_credential_fields role);
            domain_join ← domain_join_check options;
            children ← (if decide (server_role = "lab_in_a_box")
                        then _validate_lab_children (validate_fuel fuel) options else Ret []);
            Ret (missing_fields server_role (ro_required_fields role) options ++
                 mjoin (M:=list) credentials ++ principals_check server_role options ++
                 profile_check server_role options ++ content_root_check server_role options ++
                 domain_join ++ children)
          else Ret [_blocking "server_role_not_ready"
                      ("OSDeploy server role is not launchable yet: " +:+ server_role)]
      end
  end.

(** The children of a lab have other roles: the recursion ends after two calls. *)
Definition validate_role_options (server_role : string) (role_options : json) :
    outcome (list check) := validate_fuel 2 server_role role_options.
End validate.
End roles.

(** ** Text *)

Lemma is_space_lower c : PyStr.is_space (PyStr.lower_char c) = PyStr.is_space c.
Proof. by destruct c as [[] [] [] [] [] [] [] []]; vm_compute. Qed.

Lemma rstrip_lower s : PyStr.rstrip (PyStr.lower s) = PyStr.lower (PyStr.rstrip s).
Proof.
  induction s as [|c s IH]; [done|]. simpl. rewrite IH, is_space_lower.
  destruct (PyStr.rstrip s); simpl; by repeat case_match.
Qed.

Lemma lstrip_lower s : PyStr.lstrip (PyStr.lower s) = PyStr.lower (PyStr.lstrip s).
Proof.
  induction s as [|c s IH]; [done|]. simpl. rewrite is_space_lower. by case_match.
Qed.

Lemma strip_lower s : PyStr.strip (PyStr.lower s) = PyStr.lower (PyStr.strip s).
Proof. unfold PyStr.strip. by rewrite rstrip_lower, lstrip_lower. Qed.

Lemma upper_app s t : upper (s +:+ t) = upper s +:+ upper t.
Proof. induction s as [|c s IH]; [done|]. rewrite app_cons. simpl. by rewrite IH, string_app_assoc. Qed.

Lemma upper_char_idem c : upper (upper_char c) = upper_char c.
Proof. by destruct c as [[] [] [] [] [] [] [] []]; vm_compute. Qed.

Lemma upper_idem s : upper (upper s) = upper s.
Proof. induction s as [|c s IH]; [done|]. simpl. by rewrite upper_app, IH, upper_char_idem. Qed.

(** A character that is no space becomes one or two that are none. *)
Lemma upper_char_solid c : PyStr.is_space c = false →
  ∃ a t, upper_char c = String a t ∧ PyStr.is_space a = false ∧
    PyStr.rstrip (upper_char c) = upper_char c.
Proof.
  destruct c as [[] [] [] [] [] [] [] []]; intros Hc;
    first [by vm_compute in Hc|eexists _, _; split; [vm_compute; reflexivity|by vm_compute]].
Qed.

Lemma rstrip_app s t : PyStr.rstrip t ≠ EmptyString → PyStr.rstrip (s +:+ t) = s +:+ PyStr.rstrip t.
Proof.
  intros Ht. induction s as [|c s IH]; [done|]. rewrite !app_cons. simpl. rewrite IH.
  destruct (s +:+ PyStr.rstrip t) eqn:E; [|done]. by destruct s.
Qed.

(** A text that begins and ends with no space. *)
Lemma strip_fixed_inv s : PyStr.strip s = s → PyStr.rstrip s = s ∧ PyStr.lstrip s = s.
Proof.
  intros Hs. assert (PyStr.rstrip s = s) as Hr.
  { rewrite <- Hs. unfold PyStr.strip. apply PyStr.rstrip_lstrip_fixed, PyStr.rstrip_idem. }
  split; [done|]. rewrite <- Hs at 2. unfold PyStr.strip. by rewrite Hr.
Qed.

Lemma rstrip_upper s : PyStr.rstrip s = s → PyStr.rstrip (upper s) = upper s.
Proof.
  induction s as [|c s IH]; [done|]. intros Hs. simpl in Hs.
  destruct (PyStr.rstrip s) as [|a t] eqn:E; simpl.
  - destruct (PyStr.is_space c) eqn:Ec; [done|]. injection Hs as <-.
    destruct (upper_char_solid c Ec) as (? & ? & _ & _ & Hr). simpl.
    by rewrite string_app_nil_r.
  - injection Hs as <-. rewrite rstrip_app; rewrite IH by done; [done|]. simpl.
    destruct (upper_char a) eqn:Ea; [|done]. exfalso. revert Ea. clear.
    by destruct a as [[] [] [] [] [] [] [] []]; vm_compute.
Qed.

Lemma lstrip_upper s : PyStr.lstrip s = s → PyStr.lstrip (upper s) = upper s.
Proof.
  destruct s as [|c s]; [done|]. simpl. destruct (PyStr.is_space c) eqn:Ec.
  { intros Hs. assert (∀ t, String.length (PyStr.lstrip t) ≤ String.length t)%nat as Hl.
    { induction t as [|a t IH]; simpl; [done|]. case_match; simpl; lia. }
    specialize (Hl s). rewrite Hs in Hl. simpl in Hl. lia. }
  intros _. destruct (upper_char_solid c Ec) as (a & t & -> & Ha & _). simpl. by rewrite Ha.
Qed.

Lemma strip_upper s : PyStr.strip s = s → PyStr.strip (upper s) = upper s.
Proof.
  intros [Hr Hl]%strip_fixed_inv. unfold PyStr.strip. by rewrite rstrip_upper, lstrip_upper.
Qed.

(** ** Options as data

    What a sanitized dictionary says, for the roles of one server. *)

Record join_options : Type := JoinOptions {
  jn_credential_id : Z;
  jn_domain_fqdn : string;
  jn_credential_domain : string;
  jn_domain_controller_ipv4 : string;
  jn_acceptable_domain_names : list string
}.

Inductive server_options : Type :=
| Base
| FileServer (share_name share_path : string) (full change read : list string)
    (join : option join_options)
| DomainController (dc_mode forest_fqdn netbios_name : string) (forest_admin dsrm : option Z)
| MecmPrereq (prereq_profile content_root : string) (join : option join_options).

Definition role_of (o : server_options) : string :=
  match o with
  | Base => "base" | FileServer _ _ _ _ _ _ => "file_server"
  | DomainController _ _ _ _ _ => "isolated_domain_controller" | MecmPrereq _ _ _ => "mecm_prereq"
  end.

Definition encode_join (j : join_options) : json :=
  JObj [("enabled", JBool true); ("credential_id", JInt (jn_credential_id j));
        ("domain_fqdn", JStr (jn_domain_fqdn j));
        ("credential_domain", JStr (jn_credential_domain j));
        ("domain_controller_ipv4", JStr (jn_domain_controller_ipv4 j));
        ("acceptable_domain_names", texts (jn_acceptable_domain_names j))].

Definition join_field (join : option join_options) : list (string * json) :=
  match join with Some j => [("domain_join", encode_join j)] | None => [] end.

Definition encode (o : server_options) : json :=
  match o with
  | Base => JObj []
  | FileServer name path full change read join =>
      JObj ([("share_name", JStr name); ("share_path", JStr path);
             ("full_access_principals", texts full); ("change_access_principals", texts change);
             ("read_access_principals", texts read)] ++ join_field join)
  | DomainController mode fqdn netbios admin dsrm =>
      JObj [("dc_mode", JStr mode); ("forest_fqdn", JStr fqdn); ("netbios_name", JStr netbios);
            ("forest_admin_credential_id", json_of_option JInt admin);
            ("dsrm_credential_id", json_of_option JInt dsrm)]
  | MecmPrereq profile root join =>
      JObj ([("prereq_profile", JStr profile); ("content_root", JStr root)] ++ join_field join)
  end.

(** Texts without space around them, lists of such texts that are not empty, numbers
    above zero. *)
Definition trimmed (s : string) : Prop := PyStr.strip s = s.
Definition trimmed_list (l : list string) : Prop := Forall (λ s, trimmed s ∧ s ≠ EmptyString) l.
Definition positive_id (id : option Z) : Prop := ∀ z, id = Some z → (0 < z)%Z.

Record clean_join (j : join_options) : Prop := CleanJoin {
  cj_credential : (0 < jn_credential_id j)%Z;
  cj_fqdn : trimmed (jn_domain_fqdn j) ∧ PyStr.lower (jn_domain_fqdn j) = jn_domain_fqdn j ∧
    jn_domain_fqdn j ≠ EmptyString;
  cj_domain : trimmed (jn_credential_domain j);
  cj_controller : trimmed (jn_domain_controller_ipv4 j);
  cj_names : NoDup (jn_acceptable_domain_names j) ∧ EmptyString ∉ jn_acceptable_domain_names j;
  cj_known : ∀ s, s ≠ EmptyString →
    s ∈ [jn_domain_fqdn j; first_label (jn_domain_fqdn j); jn_credential_domain j] →
    s ∈ jn_acceptable_domain_names j
}.

Definition clean (o : server_options) : Prop :=
  match o with
  | Base => True
  | FileServer name path full change read join =>
      trimmed name ∧ trimmed path ∧ trimmed_list full ∧ trimmed_list change ∧ trimmed_list read ∧
      ∀ j, join = Some j → clean_join j
  | DomainController mode fqdn netbios admin dsrm =>
      mode ∈ DC_MODES ∧ (trimmed fqdn ∧ PyStr.lower fqdn = fqdn) ∧
      (trimmed netbios ∧ upper netbios = netbios) ∧ positive_id admin ∧ positive_id dsrm
  | MecmPrereq profile root join => trimmed profile ∧ trimmed root ∧ ∀ j, join = Some j → clean_join j
  end.

(** What [validate_role_options] asks for: every field that is needed is there, and so is
    every credential. *)
Definition credential_ok (credential_exists : option (Z → bool)) (id : Z) : Prop :=
  ∀ exists_, credential_exists = Some exists_ → exists_ id = true.

Definition join_ok (credential_exists : option (Z → bool)) (join : option join_options) : Prop :=
  ∀ j, join = Some j → credential_ok credential_exists (jn_credential_id j).

Definition launchable (credential_exists : option (Z → bool)) (o : server_options) : Prop :=
  match o with
  | Base => True
  | FileServer name path full _ _ join =>
      name ≠ EmptyString ∧ path ≠ EmptyString ∧ full ≠ [] ∧ join_ok credential_exists join
  | DomainController _ fqdn netbios admin dsrm =>
      fqdn ≠ EmptyString ∧ netbios ≠ EmptyString ∧
      (∃ a, admin = Some a ∧ credential_ok credential_exists a) ∧
      ∃ d, dsrm = Some d ∧ credential_ok credential_exists d
  | MecmPrereq profile root join =>
      profile = "site_server_foundation" ∧ root ≠ EmptyString ∧
      String.prefix (backslash (backslash EmptyString)) root = false ∧
      join_ok credential_exists join
  end.

(** The same options, the acceptable names in any order (a domain [lab .local] has the
    label [lab ], which loses its space when it is read back). *)
Record same_join (j k : join_options) : Prop := SameJoin {
  sj_credential : jn_credential_id j = jn_credential_id k;
  sj_fqdn : jn_domain_fqdn j = jn_domain_fqdn k;
  sj_domain : jn_credential_domain j = jn_credential_domain k;
  sj_controller : jn_domain_controller_ipv4 j = jn_domain_controller_ipv4 k;
  sj_names : trimmed_list (jn_acceptable_domain_names j) →
    jn_acceptable_domain_names j ≡ₚ jn_acceptable_domain_names k
}.

Definition same_options (o p : server_options) : Prop :=
  match o, p with
  | FileServer n a f c r j, FileServer n' a' f' c' r' j' =>
      n = n' ∧ a = a' ∧ f = f' ∧ c = c' ∧ r = r' ∧ option_Forall2 same_join j j'
  | MecmPrereq p r j, MecmPrereq p' r' j' =>
      p = p' ∧ r = r' ∧ option_Forall2 same_join j j'
  | o, p => o = p
  end.

(** ** Fields *)

Lemma text_field_trimmed k raw : trimmed (text_field k raw).
Proof. apply PyStr.strip_idem. Qed.

Lemma text_field_str k raw s : jget k raw = JStr s → text_field k raw = PyStr.strip s.
Proof.
  intros Hk. unfold text_field, jor. rewrite Hk. simpl. case_bool_decide as E; [done|].
  by subst s.
Qed.

Lemma text_field_clean k raw s : jget k raw = JStr s → trimmed s → text_field k raw = s.
Proof. intros Hk Hs. by rewrite (text_field_str _ _ _ Hk). Qed.

Lemma lower_trimmed s : trimmed s → trimmed (PyStr.lower s).
Proof. unfold trimmed. intros Hs. by rewrite strip_lower, Hs. Qed.

Lemma string_list_trimmed v : trimmed_list (_string_list v).
Proof.
  unfold trimmed_list. apply Forall_forall. intros s [Hs Hin]%list_elem_of_filter.
  split; [|done]. apply list_elem_of_fmap in Hin as (item & -> & _). apply PyStr.strip_idem.
Qed.

Lemma string_list_texts l : trimmed_list l → _string_list (texts l) = l.
Proof.
  intros Hl. unfold _string_list, texts. rewrite <- list_fmap_compose.
  assert (((λ item, PyStr.strip (py_str item)) ∘ JStr) <$> l = l) as ->.
  { induction Hl as [|s l [Hs _] _ IH]; [done|]. csimpl. f_equal; done. }
  apply filter_all. intros s Hin. unfold trimmed_list in Hl. rewrite Forall_forall in Hl. by apply Hl.
Qed.

#[local] Instance JStr_inj : Inj (=) (=) JStr.
Proof. by intros ?? [= ->]. Qed.

Lemma positive_int_positive v : positive_id (_positive_int v).
Proof. unfold _positive_int. intros z. repeat case_match; try done. case_bool_decide; naive_solver. Qed.

Lemma positive_int_json id : positive_id id → _positive_int (json_of_option JInt id) = id.
Proof.
  intros Hid. destruct id as [z|]; [|done]. unfold _positive_int. simpl.
  by rewrite bool_decide_true by auto.
Qed.

(** The branch of [sanitize_fuel] of a role. *)
Ltac role_branch := repeat first [rewrite decide_True by done|rewrite decide_False by done].

Section sanitized.
Context `{StrSetLaws}.

Lemma sorted_names_spec l x : x ∈ sorted_names l ↔ x ∈ l.
Proof. unfold sorted_names. by rewrite elem_of_isort, elem_of_set_order. Qed.

Lemma sorted_names_NoDup l : NoDup (sorted_names l).
Proof. apply NoDup_isort, set_order_NoDup. Qed.

(** The names accepted after a join: those that were given, the domain, its first label
    and the domain of the account. *)
Lemma elem_of_acceptable_names fqdn domain given s :
  s ∈ acceptable_names fqdn domain given ↔
  s ≠ EmptyString ∧ (s ∈ given ∨ fqdn ≠ EmptyString ∧ (s = fqdn ∨ s = first_label fqdn) ∨ s = domain).
Proof.
  unfold acceptable_names. rewrite sorted_names_spec, list_elem_of_filter, !elem_of_app.
  repeat case_decide; set_solver.
Qed.

Lemma sanitize_join_enabled v :
  _domain_join_enabled (_sanitize_domain_join v) = true →
  ∃ j, _sanitize_domain_join v = encode_join j ∧ clean_join j.
Proof.
  unfold _sanitize_domain_join, _domain_join_enabled. cbv zeta.
  set (raw := match v with JObj o => JObj o | _ => JObj [] end). simpl.
  intros [Hid Hf]%bool_decide_eq_true. destruct (_positive_int _) as [id|] eqn:Eid; [|done].
  pose proof (positive_int_positive (jget "credential_id" raw) id Eid) as Hpos.
  exists (JoinOptions id (PyStr.lower (text_field "domain_fqdn" raw))
    (text_field "credential_domain" raw) (text_field "domain_controller_ipv4" raw)
    (acceptable_names (PyStr.lower (text_field "domain_fqdn" raw))
       (text_field "credential_domain" raw) (_string_list (jget "acceptable_domain_names" raw)))).
  split; [unfold encode_join; simpl; by rewrite bool_decide_true|].
  split; simpl; [done| |apply text_field_trimmed|apply text_field_trimmed| |].
  - split_and!; [apply lower_trimmed, text_field_trimmed|apply PyStr.lower_idem|done].
  - split; [apply sorted_names_NoDup|]. rewrite elem_of_acceptable_names. naive_solver.
  - intros s Hs Hin. rewrite elem_of_acceptable_names. set_solver.
Qed.

Lemma sanitize_join_clean j : clean_join j →
  ∃ k, _sanitize_domain_join (encode_join j) = encode_join k ∧ same_join j k ∧ clean_join k.
Proof.
  intros Hj. pose proof Hj as [Hc (Ht & Hl & Hne) Hd Hdc [Hnd Hno] Hknown].
  destruct (sanitize_join_enabled (encode_join j)) as (k & Hk & Hck).
  { unfold _sanitize_domain_join, _domain_join_enabled. simpl.
    rewrite (text_field_clean "domain_fqdn" _ (jn_domain_fqdn j)), Hl by done.
    unfold _positive_int. simpl. rewrite (bool_decide_true (0 < _)%Z) by done.
    by apply bool_decide_true. }
  exists k. split; [done|]. split; [|done].
  revert Hk. unfold _sanitize_domain_join. cbv zeta.
  rewrite (text_field_clean "domain_fqdn" _ (jn_domain_fqdn j)) by done.
  rewrite (text_field_clean "credential_domain" _ (jn_credential_domain j)) by done.
  rewrite (text_field_clean "domain_controller_ipv4" _ (jn_domain_controller_ipv4 j)) by done.
  rewrite Hl. set (N := acceptable_names _ _ _).
  cbn -[N]. unfold _positive_int. simpl. rewrite (bool_decide_true (0 < _)%Z) by done.
  destruct k as [id f d dc names]. unfold encode_join. cbn -[N].
  intros [= _ <- <- <- <- Hn]. apply (inj (fmap JStr)) in Hn. subst names.
  split; simpl; [done..|]. intros Htr. unfold N. clear N Hck.
  change (jget "acceptable_domain_names" _) with (texts (jn_acceptable_domain_names j)).
  rewrite string_list_texts by done.
  apply NoDup_Permutation; [done|apply sorted_names_NoDup|]. intros s.
  rewrite elem_of_acceptable_names. split.
  - intros Hs. split; [by intros ->|by left].
  - intros [Hs [Hin|Hin]]; [done|]. apply Hknown; set_solver.
Qed.

(** What [with_domain_join] adds. *)
Lemma with_domain_join_encode raw out :
  ∃ join, with_domain_join raw out = JObj (out ++ join_field join) ∧ ∀ j, join = Some j → clean_join j.
Proof.
  unfold with_domain_join. cbv zeta. destruct (_domain_join_enabled _) eqn:E.
  - apply sanitize_join_enabled in E as (j & -> & Hj). exists (Some j). naive_solver.
  - by exists None.
Qed.

Lemma with_domain_join_clean raw out join :
  (∀ j, join = Some j → clean_join j) → jget "domain_join" raw = jget "domain_join" (JObj (join_field join)) →
  ∃ join', with_domain_join raw out = JObj (out ++ join_field join') ∧
    option_Forall2 same_join join join' ∧ ∀ j, join' = Some j → clean_join j.
Proof.
  intros Hj Hraw. unfold with_domain_join. rewrite Hraw. destruct join as [j|]; simpl.
  - change (default JNull (if decide _ then _ else _)) with (encode_join j).
    destruct (sanitize_join_clean j) as (k & -> & Hsame & Hk); [by apply Hj|].
    exists (Some k). split; [done|]. split; [by constructor|naive_solver].
  - exists None. by split_and!; [..|constructor|].
Qed.

(** The roles of one server. *)
Definition server_roles : list string := ["base"; "file_server"; "isolated_domain_controller"; "mecm_prereq"].

(** Whatever is sent for a server role, what is kept is a well-formed option record. *)
Lemma sanitize_server_role n role raw j :
  role ∈ server_roles → sanitize_fuel (S n) role raw = Ret j →
  ∃ o, role_of o = role ∧ j = encode o ∧ clean o.
Proof.
  intros Hrole. cbn [sanitize_fuel]. destruct (py_dict _) as [o|e]; [|done]. simpl mbind. cbv zeta.
  unfold server_roles in Hrole. set_unfold in Hrole. set (r := JObj o).
  destruct_or! Hrole; subst role; role_branch; intros [= <-].
  - by exists Base.
  - match goal with |- context [with_domain_join r ?out] =>
      destruct (with_domain_join_encode r out) as (join & -> & Hj) end.
    exists (FileServer (text_field "share_name" r) (text_field "share_path" r)
      (_string_list (jget "full_access_principals" r)) (_string_list (jget "change_access_principals" r))
      (_string_list (jget "read_access_principals" r)) join).
    split_and!; [done|done|]. simpl. split_and!; auto using text_field_trimmed, string_list_trimmed.
  - eexists (DomainController _ _ _ _ _). split_and!; [done|done|]. simpl. split_and!;
      auto using lower_trimmed, text_field_trimmed, PyStr.lower_idem, strip_upper, upper_idem,
        positive_int_positive.
    + case_decide; [done|]. unfold DC_MODES. set_solver.
    + apply strip_upper, text_field_trimmed.
  - match goal with |- context [with_domain_join r ?out] =>
      destruct (with_domain_join_encode r out) as (join & -> & Hj) end.
    exists (MecmPrereq (text_field "prereq_profile" r) (text_field "content_root" r) join).
    split_and!; [done|done|]. simpl. auto using text_field_trimmed.
Qed.

(** Options that are clean already are read back. *)
Lemma jor_obj o : jor (JObj o) (JObj []) = JObj o.
Proof. unfold jor. simpl. case_bool_decide as E; [done|]. by subst o. Qed.

Lemma sanitize_file_server n o name path full change read :
  jget "share_name" (JObj o) = JStr name → jget "share_path" (JObj o) = JStr path →
  jget "full_access_principals" (JObj o) = texts full →
  jget "change_access_principals" (JObj o) = texts change →
  jget "read_access_principals" (JObj o) = texts read →
  trimmed name → trimmed path → trimmed_list full → trimmed_list change → trimmed_list read →
  sanitize_fuel (S n) "file_server" (JObj o) = Ret (with_domain_join (JObj o)
    [("share_name", JStr name); ("share_path", JStr path); ("full_access_principals", texts full);
     ("change_access_principals", texts change); ("read_access_principals", texts read)]).
Proof.
  intros Hn Hp Hf Hc Hr ? ? ? ? ?. cbn [sanitize_fuel]. rewrite jor_obj.
  cbn [py_dict mbind outcome_bind]. cbv zeta. role_branch.
  rewrite Hf, Hc, Hr, !string_list_texts by done.
  by rewrite (text_field_clean _ _ _ Hn), (text_field_clean _ _ _ Hp).
Qed.

Lemma sanitize_mecm_prereq n o profile root :
  jget "prereq_profile" (JObj o) = JStr profile → jget "content_root" (JObj o) = JStr root →
  trimmed profile → trimmed root →
  sanitize_fuel (S n) "mecm_prereq" (JObj o) = Ret (with_domain_join (JObj o)
    [("prereq_profile", JStr profile); ("content_root", JStr root)]).
Proof.
  intros Hp Hr ? ?. cbn [sanitize_fuel]. rewrite jor_obj.
  cbn [py_dict mbind outcome_bind]. cbv zeta. role_branch.
  by rewrite (text_field_clean _ _ _ Hp), (text_field_clean _ _ _ Hr).
Qed.

Lemma sanitize_domain_controller n o : let enc := encode o in
  role_of o = "isolated_domain_controller" → clean o →
  sanitize_fuel (S n) "isolated_domain_controller" enc = Ret enc.
Proof.
  destruct o as [|?????|mode fqdn netbios admin dsrm|]; try done. cbv zeta. intros _ (Hm & [Hf Hlf] & [Hn Hun] & Ha & Hd).
  cbn [sanitize_fuel encode]. rewrite jor_obj.
  cbn [py_dict mbind outcome_bind]. cbv zeta. role_branch.
  rewrite (text_field_clean "forest_fqdn" _ fqdn), (text_field_clean "netbios_name" _ netbios), Hlf, Hun by done.
  change (jget "forest_admin_credential_id" _) with (json_of_option JInt admin).
  change (jget "dsrm_credential_id" _) with (json_of_option JInt dsrm).
  rewrite !positive_int_json by done.
  change (jget "dc_mode" _) with (JStr mode).
  assert (PyStr.lower (PyStr.strip (py_str (jor (JStr mode) (JStr "new_forest")))) = mode) as ->.
  { unfold DC_MODES in Hm. set_unfold in Hm. by destruct Hm as [->|[->|[]]]. }
  by rewrite decide_True by done.
Qed.

Lemma sanitize_clean n o : clean o →
  ∃ o', sanitize_fuel (S n) (role_of o) (encode o) = Ret (encode o') ∧ same_options o o' ∧ clean o'.
Proof.
  intros Hc. destruct o as [|name path full change read join|mode fqdn netbios admin dsrm|profile root join].
  - by exists Base.
  - simpl in Hc. destruct Hc as (Hn & Hp & Hf & Hch & Hr & Hj). simpl role_of. unfold encode.
    erewrite sanitize_file_server by done.
    match goal with |- context [with_domain_join ?raw ?out] =>
      destruct (with_domain_join_clean raw out join Hj) as (join' & -> & Hs & Hj'); [done|] end.
    by exists (FileServer name path full change read join').
  - eexists. split_and!; [by apply (sanitize_domain_controller n (DomainController mode fqdn netbios admin dsrm))|done|done].
  - simpl in Hc. destruct Hc as (Hp & Hr & Hj). simpl role_of. unfold encode.
    erewrite sanitize_mecm_prereq by done.
    match goal with |- context [with_domain_join ?raw ?out] =>
      destruct (with_domain_join_clean raw out join Hj) as (join' & -> & Hs & Hj'); [done|] end.
    by exists (MecmPrereq profile root join').
Qed.

(** ** The recursion of [sanitize_role_options] ends *)

Lemma depth_assoc k o v : assoc k o = Some v → (depth v < depth (JObj o))%nat.
Proof. intros Hk. apply (py_index_depth k (JObj o)). simpl. by rewrite Hk. Qed.

Lemma depth_elem v l : v ∈ l → (depth v < depth (JArr l))%nat.
Proof. intros Hv. simpl. apply Nat.lt_succ_r, max_list_elem_of_le, list_elem_of_fmap. by exists v. Qed.

Lemma depth_obj n o : Forall (λ kv, (depth kv.2 ≤ n)%nat) o ↔ (depth (JObj o) ≤ S n)%nat.
Proof.
  simpl. rewrite <- Nat.succ_le_mono. induction o as [|kv o IH]; csimpl.
  - split; [lia|constructor].
  - rewrite Forall_cons, IH. lia.
Qed.

Lemma Forall_dict_set (P : json → Prop) k v o :
  Forall (λ kv, P kv.2) o → P v → Forall (λ kv, P kv.2) (dict_set k v o).
Proof.
  intros Ho Hv. induction Ho as [|[k' v'] o Hv' Ho IH]; simpl; [by repeat constructor|].
  case_decide; by constructor.
Qed.

Lemma unpack_pair_depth item a b : unpack_pair item = Ret (a, b) → (depth b ≤ depth item)%nat.
Proof.
  unfold unpack_pair, py_iter. destruct item as [| | |s|l|o]; simpl; try done.
  - destruct s as [|x [|y [|z s]]]; simpl; try done. by intros [= _ <-].
  - destruct l as [|x [|y [|z l]]]; simpl; try done. intros [= _ <-]. lia.
  - destruct o as [|x [|y [|z o]]]; simpl; try done. intros [= _ <-]. simpl. lia.
Qed.

Lemma dict_items_depth n o l o' :
  dict_items o l = Ret o' → Forall (λ kv, (depth kv.2 ≤ n)%nat) o →
  Forall (λ item, (depth item ≤ n)%nat) l → Forall (λ kv, (depth kv.2 ≤ n)%nat) o'.
Proof.
  revert o. induction l as [|item l IH]; intros o; simpl; [by intros [= ->]|].
  destruct (dict_item o item) as [o1|e] eqn:E; simpl; [|done]. intros Hd Ho [Hi Hl]%Forall_cons.
  apply (IH o1); [done| |done]. revert E. unfold dict_item.
  destruct (unpack_pair item) as [[a b]|e] eqn:Ep; simpl; [|done].
  apply unpack_pair_depth in Ep. destruct a; simpl; intros [= <-]; try done.
  apply (Forall_dict_set (λ v, (depth v ≤ n)%nat)); [done|lia].
Qed.

Lemma py_dict_depth v o : truthy v = true → py_dict v = Ret o → (depth (JObj o) ≤ depth v)%nat.
Proof.
  intros Hv. destruct v as [| | |s|l|o']; simpl; try done.
  - destruct s as [|c [|d s]]; try done.
  - intros Hd. apply (depth_obj (max_list (depth <$> l))), (dict_items_depth _ [] l); [done|constructor|].
    apply Forall_forall. intros x Hx. apply max_list_elem_of_le, list_elem_of_fmap. by exists x.
  - by intros [= ->].
Qed.

Lemma dict_items_no_recursion o l : no_recursion_error (dict_items o l).
Proof.
  revert o. induction l as [|item l IH]; intros o; [done|]. cbn [dict_items].
  apply no_recursion_error_bind; [|auto]. unfold dict_item, unpack_pair.
  apply no_recursion_error_bind; [|intros [[] ?] _; done].
  apply no_recursion_error_bind; [by destruct item|].
  intros [|a [|b [|c items]]] _; done.
Qed.

Lemma py_dict_no_recursion v : no_recursion_error (py_dict v).
Proof. destruct v; try done; apply dict_items_no_recursion. Qed.

(** The options of a child are less deep than those of the lab. *)
Lemma depth_child v o children child :
  py_dict (jor v (JObj [])) = Ret o → jget "children" (JObj o) = JArr children → child ∈ children →
  (depth (jor (jget "role_options" child) (JObj [])) < depth v)%nat.
Proof.
  intros Hd Hc Hin.
  assert (depth (jor (jget "role_options" child) (JObj [])) ≤ depth child)%nat as Hchild.
  { unfold jor. destruct (truthy _) eqn:Et; [|destruct child; simpl; lia].
    destruct child as [| | | | |co]; try done. simpl in *.
    destruct (assoc "role_options" co) as [x|] eqn:Ex; [|done]. simpl.
    pose proof (depth_assoc _ _ _ Ex). simpl in *. lia. }
  assert (depth child < depth (JArr children))%nat by by apply depth_elem.
  simpl in Hc. destruct (assoc "children" o) as [x|] eqn:Ex; simplify_eq/=.
  apply depth_assoc in Ex. unfold jor in Hd. destruct (truthy v) eqn:Et.
  - apply py_dict_depth in Hd; [|done]. simpl in *. lia.
  - injection Hd as <-. simpl in *. lia.
Qed.

(** Fuel above the depth of the options changes nothing, and is never used up. *)
Lemma sanitize_fuel_enough n m role v :
  (depth v ≤ n)%nat → (depth v ≤ m)%nat →
  sanitize_fuel n role v = sanitize_fuel m role v ∧ no_recursion_error (sanitize_fuel n role v).
Proof.
  revert m role v. induction n as [|n IH]; intros m role v Hn Hm;
    pose proof (depth_pos v) as Hpos; [lia|]. destruct m as [|m]; [lia|].
  cbn [sanitize_fuel]. destruct (py_dict _) as [o|e] eqn:Ed; cbn [mbind outcome_bind].
  2: { split; [done|]. intros [= ->]. by eapply py_dict_no_recursion. }
  cbv zeta. repeat (case_decide; [by split|]). case_decide; [|by split].
  destruct (jget "children" (JObj o)) as [| | | |children|] eqn:Ec; try by split.
  assert (∀ child, child ∈ children →
    sanitize_child (sanitize_fuel n) child = sanitize_child (sanitize_fuel m) child ∧
    no_recursion_error (sanitize_child (sanitize_fuel n) child)) as Hchild.
  { intros child Hin. pose proof (depth_child _ _ _ _ Ed Ec Hin) as Hlt.
    destruct child as [| | | | |co]; try by split. unfold sanitize_child. cbv zeta.
    destruct (IH m (text_field "role" (JObj co)) (jor (jget "role_options" (JObj co)) (JObj [])))
      as [<- Hne]; [lia..|]. split; [done|]. by apply no_recursion_error_bind. }
  rewrite (omapM_ext _ (sanitize_child (sanitize_fuel m))) by (intros c Hc; by apply Hchild).
  split; [done|]. apply no_recursion_error_bind; [|done].
  apply no_recursion_error_omapM. intros c Hc. destruct (Hchild c Hc) as [<- ?]. done.
Qed.

(** ** What validation accepts *)

Section accepted.
Variable c : option (Z → bool).

Lemma credential_missing_spec id :
  ∃ b, credential_missing c (JInt id) = Ret b ∧ (b = false ↔ credential_ok c id).
Proof.
  unfold credential_missing, credential_ok. destruct c as [exists_|]; simpl; [|by exists false].
  eexists. split; [done|]. rewrite negb_false_iff. split; [by intros ? ? [= <-]|auto].
Qed.

Lemma missing_credential_spec options field id :
  jget field options = json_of_option JInt id → positive_id id →
  ∃ l, missing_credential c options field = Ret l ∧
    (l = [] ↔ ∀ z, id = Some z → credential_ok c z).
Proof.
  intros Hf Hid. unfold missing_credential. rewrite Hf. destruct id as [z|]; cbv zeta; simpl.
  2: { by exists []. }
  specialize (Hid z eq_refl). rewrite (proj2 (Z.eqb_neq z 0)) by lia. simpl.
  destruct (credential_missing_spec z) as (b & -> & Hb). eexists. split; [done|].
  destruct b; naive_solver.
Qed.

Lemma domain_join_check_spec options join :
  jget "domain_join" options = jget "domain_join" (JObj (join_field join)) →
  ∃ l, domain_join_check c options = Ret l ∧ (l = [] ↔ join_ok c join).
Proof.
  intros Hj. unfold domain_join_check, join_ok. rewrite Hj.
  destruct join as [j|]; cbv zeta; simpl; [|by exists []].
  destruct (credential_missing_spec (jn_credential_id j)) as (b & -> & Hb). eexists. split; [done|].
  destruct b; naive_solver.
Qed.

Lemma app_nil_iff {A} (l k : list A) : l ++ k = [] ↔ l = [] ∧ k = [].
Proof. split; [apply app_eq_nil|by intros [-> ->]]. Qed.

Lemma blank_text s : trimmed s → _is_blank (JStr s) = bool_decide (s = EmptyString).
Proof. intros Hs. simpl. by rewrite Hs. Qed.

Lemma missing_fields_nil role fields options :
  missing_fields role fields options = [] ↔ Forall (λ field, _is_blank (jget field options) = false) fields.
Proof.
  unfold missing_fields. induction fields as [|f fs IH]; simpl; [by split|].
  rewrite Forall_cons, <- IH. rewrite filter_cons. destruct (_is_blank _) eqn:E; simpl; naive_solver.
Qed.

(** The checks of a role of one server, given its sanitized options. *)
Definition server_checks (role : string) (required : list string) (options : json)
    (credentials : list (list check)) (domain_join : list check) : list check :=
  missing_fields role required options ++ mjoin (M:=list) credentials ++
  principals_check role options ++ profile_check role options ++ content_root_check role options ++
  domain_join ++ [].

Lemma validate_unfold n role r v options :
  assoc role ROLE_CATALOG = Some r → ro_launchable r = true → role ≠ "lab_in_a_box" →
  sanitize_role_options role v = Ret options →
  validate_fuel c (S n) role v =
    (credentials ← omapM (missing_credential c options) (ro_credential_fields r);
     domain_join ← domain_join_check c options;
     Ret (server_checks role (ro_required_fields r) options credentials domain_join)).
Proof.
  intros Hr Hl Hrole Hs. cbn [validate_fuel]. rewrite Hr, Hl, Hs. cbn [mbind outcome_bind].
  destruct (omapM _ _); [|done]. cbn [mbind outcome_bind].
  destruct (domain_join_check _ _); [|done]. cbn [mbind outcome_bind]. by rewrite decide_False.
Qed.

Lemma server_checks_nil role required options credentials domain_join :
  server_checks role required options credentials domain_join = [] ↔
  Forall (λ field, _is_blank (jget field options) = false) required ∧
  Forall (λ l, l = []) credentials ∧ principals_check role options = [] ∧
  profile_check role options = [] ∧ content_root_check role options = [] ∧ domain_join = [].
Proof.
  unfold server_checks. rewrite !app_nil_iff, missing_fields_nil.
  assert (mjoin (M:=list) credentials = [] ↔ Forall (λ l, l = []) credentials) as ->.
  { induction credentials as [|l ls IH]; simpl; [by split|]. by rewrite app_nil_iff, Forall_cons, IH. }
  naive_solver.
Qed.

Lemma text_there options field s :
  jget field options = JStr s → trimmed s → _is_blank (jget field options) = false ↔ s ≠ EmptyString.
Proof. intros -> Hs. by rewrite blank_text, bool_decide_eq_false. Qed.

Lemma number_there options field id :
  jget field options = json_of_option JInt id → _is_blank (jget field options) = false ↔ ∃ z, id = Some z.
Proof. intros ->. destruct id; simpl; naive_solver. Qed.

Lemma accepted_iff role required options credentials domain_join (P : Prop) :
  (Forall (λ field, _is_blank (jget field options) = false) required ∧
   Forall (λ l, l = []) credentials ∧ principals_check role options = [] ∧
   profile_check role options = [] ∧ content_root_check role options = [] ∧ domain_join = [] ↔ P) →
  Ret (server_checks role required options credentials domain_join) = Ret [] ↔ P.
Proof. rewrite <- server_checks_nil. intros <-. split; [by intros [= ->]|by intros ->]. Qed.

Lemma principals_check_file_server options full :
  jget "full_access_principals" options = texts full →
  principals_check "file_server" options = [] ↔ full ≠ [].
Proof.
  intros Hf. unfold principals_check. rewrite decide_True, Hf by done. by destruct full.
Qed.

(** The checks of the role of one server accept exactly the launchable options. *)
Lemma validate_file_server n v name path full change read join :
  let o := FileServer name path full change read join in
  sanitize_role_options "file_server" v = Ret (encode o) → clean o →
  validate_fuel c (S n) "file_server" v = Ret [] ↔ launchable c o.
Proof.
  intros o Hs (Hn & Hp & _). erewrite validate_unfold; [|reflexivity|reflexivity|done|exact Hs].
  destruct (domain_join_check_spec (encode o) join) as (l & Hl & Hlj); [done|].
  cbn [ro_credential_fields omapM mbind outcome_bind]. rewrite Hl. cbn [mbind outcome_bind].
  apply accepted_iff. cbn [ro_required_fields]. rewrite !Forall_cons, Forall_nil.
  rewrite (text_there (encode o) "share_name" name), (text_there (encode o) "share_path" path) by done.
  rewrite (principals_check_file_server _ full), Hlj by done. simpl. naive_solver.
Qed.

Lemma validate_domain_controller n v mode fqdn netbios admin dsrm :
  let o := DomainController mode fqdn netbios admin dsrm in
  sanitize_role_options "isolated_domain_controller" v = Ret (encode o) → clean o →
  validate_fuel c (S n) "isolated_domain_controller" v = Ret [] ↔ launchable c o.
Proof.
  intros o Hs (_ & [Hf _] & [Hn _] & Ha & Hd).
  erewrite validate_unfold; [|reflexivity|reflexivity|done|exact Hs].
  destruct (missing_credential_spec (encode o) "forest_admin_credential_id" admin) as (l1 & H1 & Hl1); [done..|].
  destruct (missing_credential_spec (encode o) "dsrm_credential_id" dsrm) as (l2 & H2 & Hl2); [done..|].
  cbn [ro_credential_fields omapM mbind outcome_bind]. rewrite H1, H2.
  change (domain_join_check c (encode o)) with (Ret ([] : list check)). cbn [mbind outcome_bind].
  apply accepted_iff. cbn [ro_required_fields]. rewrite !Forall_cons, !Forall_nil.
  rewrite (text_there (encode o) "forest_fqdn" fqdn), (text_there (encode o) "netbios_name" netbios),
    (number_there (encode o) "forest_admin_credential_id" admin),
    (number_there (encode o) "dsrm_credential_id" dsrm), Hl1, Hl2 by done.
  simpl. naive_solver.
Qed.

Lemma profile_check_mecm options profile :
  jget "prereq_profile" options = JStr profile →
  profile_check "mecm_prereq" options = [] ↔ profile = "site_server_foundation".
Proof.
  intros Hp. unfold profile_check. rewrite decide_True, Hp by done. case_decide; naive_solver.
Qed.

Lemma content_root_check_mecm options root :
  jget "content_root" options = JStr root →
  content_root_check "mecm_prereq" options = [] ↔
    String.prefix (backslash (backslash EmptyString)) root = false.
Proof.
  intros Hr. unfold content_root_check. rewrite decide_True, Hr by done.
  assert (py_str (jor (JStr root) (JStr EmptyString)) = root) as ->.
  { unfold jor. simpl. case_bool_decide; naive_solver. }
  destruct (String.prefix _ _); naive_solver.
Qed.

Lemma validate_mecm_prereq n v profile root join :
  let o := MecmPrereq profile root join in
  sanitize_role_options "mecm_prereq" v = Ret (encode o) → clean o →
  validate_fuel c (S n) "mecm_prereq" v = Ret [] ↔ launchable c o.
Proof.
  intros o Hs (Hp & Hr & _). erewrite validate_unfold; [|reflexivity|reflexivity|done|exact Hs].
  destruct (domain_join_check_spec (encode o) join) as (l & Hl & Hlj); [done|].
  cbn [ro_credential_fields omapM mbind outcome_bind]. rewrite Hl. cbn [mbind outcome_bind].
  apply accepted_iff. cbn [ro_required_fields]. rewrite !Forall_cons, Forall_nil.
  rewrite (text_there (encode o) "prereq_profile" profile), (text_there (encode o) "content_root" root),
    (profile_check_mecm _ profile), (content_root_check_mecm _ root), Hlj by done.
  simpl. naive_solver.
Qed.

Lemma validate_encoded n v o :
  sanitize_role_options (role_of o) v = Ret (encode o) → clean o →
  validate_fuel c (S n) (role_of o) v = Ret [] ↔ launchable c o.
Proof.
  destruct o; simpl role_of; intros Hs Hc;
    [|by apply validate_file_server|by apply validate_domain_controller|by apply validate_mecm_prereq].
  by erewrite validate_unfold; [|reflexivity|reflexivity|done|exact Hs].
Qed.

(** The server roles as operators send them. *)
Lemma validate_server_role n role v : role ∈ server_roles →
  validate_fuel c (S n) role v = Ret [] ↔
  ∃ o, role_of o = role ∧ sanitize_role_options role v = Ret (encode o) ∧ clean o ∧ launchable c o.
Proof.
  intros Hrole. pose proof (depth_pos v). split.
  - intros Hv. destruct (sanitize_role_options role v) as [j|e] eqn:Es.
    + destruct (depth v) as [|d] eqn:Ed; [lia|]. unfold sanitize_role_options in Es. rewrite Ed in Es.
      destruct (sanitize_server_role d role v j Hrole Es) as (o & <- & -> & Hc).
      exists o. split_and!; [done|done|done|]. apply (validate_encoded n v o); [|done|done].
      unfold sanitize_role_options. by rewrite Ed.
    + exfalso. revert Hv. cbn [validate_fuel]. rewrite Es.
      unfold server_roles in Hrole. set_unfold in Hrole. by destruct_or! Hrole; subst.
  - intros (o & <- & Hs & Hc & Hl). by apply validate_encoded with (o := o).
Qed.

(** ** Labs *)

Record lab_options : Type := LabOptions {
  lo_bundle_name : string;
  lo_credential_id : Z;
  lo_children : list (string * server_options)
}.

(** A child: the name of its machine and its options. *)
Definition encode_child (ch : string * server_options) : json :=
  JObj [("role", JStr (role_of ch.2)); ("vm_name", JStr ch.1); ("role_options", encode ch.2)].

Definition encode_lab (l : lab_options) : json :=
  JObj [("bundle_name", JStr (lo_bundle_name l)); ("domain_join_credential_id", JInt (lo_credential_id l));
        ("children", JArr (encode_child <$> lo_children l))].

Definition clean_lab (l : lab_options) : Prop :=
  trimmed (lo_bundle_name l) ∧ (0 < lo_credential_id l)%Z ∧
  Forall (λ ch, trimmed ch.1 ∧ clean ch.2) (lo_children l).

Definition lab_launchable (l : lab_options) : Prop :=
  lo_bundle_name l ≠ EmptyString ∧ credential_ok c (lo_credential_id l) ∧
  (λ ch, role_of ch.2) <$> lo_children l = expected_roles ∧
  Forall (λ ch, ch.1 ≠ EmptyString ∧ launchable c ch.2) (lo_children l).

(** A child as the loop of [sanitize_role_options] leaves it. *)
Definition sanitized_child (k : nat) (child : json) : Prop :=
  ∃ role vm raw options, trimmed vm ∧ sanitize_fuel k role raw = Ret options ∧
    child = JObj [("role", JStr role); ("vm_name", JStr vm); ("role_options", options)].

Lemma sanitized_children k children ls :
  omapM (sanitize_child (sanitize_fuel k)) children = Ret ls →
  Forall (sanitized_child k) (mjoin (M:=list) ls).
Proof.
  intros Hls%omapM_Forall2. induction Hls as [|child l children ls Hl _ IH]; simpl; [constructor|].
  apply Forall_app. split; [|done]. revert Hl. unfold sanitize_child. cbv zeta.
  destruct child as [| | | | |co]; try by intros [= <-].
  destruct (sanitize_fuel k _ _) as [options|] eqn:E; [|done]. intros [= <-].
  constructor; [|constructor]. eexists _, _, _, options. split; [apply text_field_trimmed|done].
Qed.

Lemma sanitized_servers k children roles :
  Forall (sanitized_child k) children → jget "role" <$> children = JStr <$> roles →
  roles ⊆ server_roles →
  ∃ chs, children = encode_child <$> chs ∧ (λ ch, role_of ch.2) <$> chs = roles ∧
    Forall (λ ch, trimmed ch.1 ∧ clean ch.2) chs.
Proof.
  intros Hc. revert roles. induction Hc as [|child children (role & vm & raw & options & Hvm & Hs & ->) _ IH];
    intros [|r roles] Hr Hin; csimpl; try done.
  { by exists []. }
  simpl in Hr. injection Hr as <- Hr. destruct (IH roles Hr) as (chs & -> & <- & Hchs); [set_solver|].
  destruct k as [|k]; [done|].
  destruct (sanitize_server_role k role raw options) as (o & <- & -> & Ho); [set_solver|done|].
  exists ((vm, o) :: chs). split_and!; [done|done|by constructor].
Qed.

Lemma same_options_launchable o p : same_options o p → launchable c p ↔ launchable c o.
Proof.
  assert (∀ j k, option_Forall2 same_join j k → join_ok c k ↔ join_ok c j) as Hj.
  { intros j k [x y [Hxy _ _ _ _]|]; [|done]. unfold join_ok.
    split; intros Hok z [= <-]; specialize (Hok _ eq_refl); by rewrite Hxy in *. }
  destruct o, p; try done; simpl; [intros (<- & <- & <- & <- & <- & H')|intros [= <- <- <- <- <-]|
    intros (<- & <- & H')]; rewrite ?(Hj _ _ H'); done.
Qed.

Lemma validate_child_nil n i vm o : trimmed vm → clean o →
  validate_child (validate_fuel c (S n)) i (encode_child (vm, o)) = Ret [] ↔
  vm ≠ EmptyString ∧ launchable c o.
Proof.
  intros Hvm Ho. unfold validate_child.
  assert (py_str (jor (jget "role" (encode_child (vm, o))) (JStr EmptyString)) = role_of o) as ->
    by by destruct o.
  assert (jor (jget "role_options" (encode_child (vm, o))) (JObj []) = encode o) as ->
    by (destruct o; apply jor_obj).
  destruct (depth (encode o)) as [|d] eqn:Ed; [pose proof (depth_pos (encode o)); lia|].
  destruct (sanitize_clean d o Ho) as (o' & Hs & Hsame & Ho').
  assert (role_of o' = role_of o) as Hrole by by destruct o, o'; try done; simpl in Hsame; simplify_eq.
  assert (validate_fuel c (S n) (role_of o) (encode o) = Ret [] ↔ launchable c o) as Hv.
  { rewrite <- (same_options_launchable o o') by done. rewrite <- Hrole.
    apply validate_encoded; [|done]. unfold sanitize_role_options. by rewrite Ed, Hrole. }
  change (_is_blank (jget "vm_name" (encode_child (vm, o)))) with (_is_blank (JStr vm)).
  rewrite blank_text by done. destruct (validate_fuel _ _ _ _) as [checks|e]; cbn [mbind outcome_bind].
  - case_bool_decide; simpl; naive_solver.
  - naive_solver.
Qed.

Lemma Forall_imap_pair {A} (P : A → Prop) (l : list A) :
  Forall (λ ix, P ix.2) (imap pair l) ↔ Forall P l.
Proof.
  rewrite !Forall_lookup. split.
  - intros Hp i x Hi. apply (Hp i (i, x)). by rewrite list_lookup_imap, Hi.
  - intros Hp i [j x]. rewrite list_lookup_imap. destruct (l !! i) as [y|] eqn:E; simpl; [|done].
    intros [= _ <-]. by apply (Hp i).
Qed.

Lemma omapM_all_nil {A B} (f : A → outcome (list B)) l :
  (ls ← omapM f l; Ret (mjoin (M:=list) ls)) = Ret [] ↔ Forall (λ x, f x = Ret []) l.
Proof.
  induction l as [|x l IH]; [by split|]. rewrite Forall_cons, <- IH. simpl.
  destruct (f x) as [y|e]; cbn [mbind outcome_bind]; [|naive_solver].
  destruct (omapM f l) as [ys|e]; cbn [mbind outcome_bind]; [|naive_solver].
  simpl. split.
  - intros [= Hn]. by apply app_eq_nil in Hn as [-> ->].
  - by intros [[= ->] [= ->]].
Qed.

(** The sanitized options of a lab, complete or not. *)
Lemma sanitize_lab n v j : sanitize_fuel (S n) "lab_in_a_box" v = Ret j →
  ∃ name credential children, trimmed name ∧ positive_id credential ∧
    Forall (sanitized_child n) children ∧
    j = JObj [("bundle_name", JStr name);
              ("domain_join_credential_id", json_of_option JInt credential); ("children", JArr children)].
Proof.
  cbn [sanitize_fuel]. destruct (py_dict _) as [o|e]; [|done]. cbn [mbind outcome_bind]. cbv zeta. role_branch.
  destruct (omapM _ _) as [ls|e] eqn:El; [|done]. cbn [mbind outcome_bind]. intros [= <-].
  eexists _, _, _. split_and!; [apply text_field_trimmed|apply positive_int_positive| |done].
  by apply sanitized_children in El.
Qed.

Definition lab_role : role := default (Role EmptyString EmptyString false [] [] [] EmptyString false)
  (assoc "lab_in_a_box" ROLE_CATALOG).

Lemma validate_lab_unfold n v name credential children :
  let options := JObj [("bundle_name", JStr name);
    ("domain_join_credential_id", json_of_option JInt credential); ("children", JArr children)] in
  trimmed name → positive_id credential → sanitize_role_options "lab_in_a_box" v = Ret options →
  validate_fuel c (S n) "lab_in_a_box" v = Ret [] ↔
    name ≠ EmptyString ∧ (∃ z, credential = Some z ∧ credential_ok c z) ∧
    _validate_lab_children (validate_fuel c n) options = Ret [].
Proof.
  intros options Hn Hid Hs. cbn [validate_fuel].
  change (assoc "lab_in_a_box" ROLE_CATALOG) with (Some lab_role). cbn [ro_launchable].
  change (ro_launchable lab_role) with true. cbv iota. rewrite Hs.
  change (ro_credential_fields lab_role) with ["domain_join_credential_id"].
  change (ro_required_fields lab_role) with ["bundle_name"; "domain_join_credential_id"; "children"].
  destruct (missing_credential_spec options "domain_join_credential_id" credential) as (l & Hl & Hlz); [done..|].
  cbn [mbind outcome_bind omapM]. rewrite Hl. cbn [mbind outcome_bind].
  change (domain_join_check c options) with (Ret ([] : list check)). cbn [mbind outcome_bind].
  rewrite decide_True by done.
  pose proof (missing_fields_nil "lab_in_a_box" ["bundle_name"; "domain_join_credential_id"; "children"]
    options) as Hm. rewrite !Forall_cons, Forall_nil,
    (text_there options "bundle_name" name), (number_there options "domain_join_credential_id" credential)
    in Hm by done.
  destruct (_validate_lab_children _ _) as [checks|e]; cbn [mbind outcome_bind]; [|naive_solver].
  change (principals_check "lab_in_a_box" options) with ([] : list check).
  change (profile_check "lab_in_a_box" options) with ([] : list check).
  change (content_root_check "lab_in_a_box" options) with ([] : list check).
  simpl. rewrite (right_id_L [] (++)). split.
  - intros [= Hnil]. apply app_eq_nil in Hnil as [Hf [-> ->]%app_eq_nil]. naive_solver.
  - intros (Hne & (z & -> & Hz) & [= ->]). rewrite (right_id_L [] (++)).
    rewrite (proj2 Hm) by naive_solver. rewrite (proj2 Hlz) by naive_solver. done.
Qed.

Lemma validate_lab n v :
  validate_fuel c (S (S n)) "lab_in_a_box" v = Ret [] ↔
  ∃ l, sanitize_role_options "lab_in_a_box" v = Ret (encode_lab l) ∧ clean_lab l ∧ lab_launchable l.
Proof.
  destruct (sanitize_role_options "lab_in_a_box" v) as [j|e] eqn:Es.
  2: { split; [|naive_solver]. cbn [validate_fuel]. by rewrite Es. }
  pose proof (depth_pos v). unfold sanitize_role_options in Es. destruct (depth v) as [|d] eqn:Ed; [lia|].
  destruct (sanitize_lab d v j Es) as (name & credential & children & Hn & Hid & Hch & ->).
  rewrite (validate_lab_unfold (S n) v name credential children)
    by (first [done|unfold sanitize_role_options; by rewrite Ed]).
  unfold _validate_lab_children. cbn [children_of]. 
  change (children_of _) with children. cbv zeta. split.
  - intros (Hne & (z & -> & Hz) & Hc). case_decide as Hroles; [|done].
    destruct (sanitized_servers d children expected_roles) as (chs & -> & Hexp & Hclean); [done..| |].
    { unfold expected_roles, server_roles. set_solver. }
    apply omapM_all_nil in Hc.
    exists (LabOptions name z chs). split_and!; [done|by split_and!; [| apply Hid|]|].
    split_and!; [done|done|done|]. apply Forall_forall. intros [vm o] Hin. simpl.
    rewrite Forall_forall in Hclean. destruct (Hclean _ Hin) as [Hvm Ho]. simpl in *.
    apply list_elem_of_lookup in Hin as [i Hi]. rewrite Forall_lookup in Hc.
    apply (validate_child_nil n (S i) vm o Hvm Ho), (Hc i (i, encode_child (vm, o))).
    by rewrite list_lookup_imap, list_lookup_fmap, Hi.
  - intros (l & [= -> Hc ->] & (Hcn & Hpos & Hclean) & (Hne & Hok & Hroles & Hl)).
    split; [done|]. split; [exists (lo_credential_id l); by destruct credential; simplify_eq/=|].
    rewrite decide_True.
    2: { rewrite <- Hroles, <- !list_fmap_compose. by apply list_fmap_ext. }
    apply omapM_all_nil, Forall_lookup. intros i [j child]. rewrite list_lookup_imap, list_lookup_fmap.
    destruct (lo_children l !! i) as [[vm o]|] eqn:E; simpl; [|done]. intros [= <- <-].
    rewrite Forall_lookup in Hclean, Hl. destruct (Hclean i _ E), (Hl i _ E). by apply validate_child_nil.
Qed.
End accepted.
End sanitized.

(** C22. Validation accepts exactly the requests that can be deployed: it finds nothing to
    object to when, and only when, what sanitizing keeps of the options is a complete
    option record of the role (all required texts and credentials are there and known, the
    profile is the one supported, the content is local), and for a lab when it has the
    three children in their order, each named and complete.  The credentials of a domain
    join and of the accounts must exist. *)
Theorem validate_role_options_spec `{StrSetLaws} (credential_exists : option (Z → bool))
    (server_role : string) (role_options : json) :
  validate_role_options credential_exists server_role role_options = Ret [] ↔
  (server_role ∈ server_roles ∧ ∃ o, role_of o = server_role ∧
     sanitize_role_options server_role role_options = Ret (encode o) ∧ clean o ∧
     launchable credential_exists o) ∨
  (server_role = "lab_in_a_box" ∧ ∃ l,
     sanitize_role_options server_role role_options = Ret (encode_lab l) ∧ clean_lab l ∧
     lab_launchable credential_exists l).
Proof.
  unfold validate_role_options. destruct (decide (server_role ∈ server_roles)) as [Hs|Hs].
  { rewrite validate_server_role by done. split; [by left|intros [[_ Ho]|[-> _]]; [done|]].
    unfold server_roles in Hs. set_solver. }
  destruct (decide (server_role = "lab_in_a_box")) as [->|Hlab].
  { rewrite validate_lab. split; [by right|by intros [[? _]|[_ Hl]]]. }
  split; [|naive_solver]. cbn [validate_fuel].
  destruct (assoc server_role ROLE_CATALOG) as [r|] eqn:E; [|done].
  apply assoc_elem in E. unfold server_roles in Hs. set_unfold in E. set_unfold in Hs. naive_solver.
Qed.
