(* ===== verification/OsdeployRuns.v ===== *)
(** * Deployments of Windows servers

    [web/osdeploy_pg.py]: artifacts, deployments and their bundles.  A deployment is a run
    of the task sequence engine over a sequence generated for it; what the machine and the
    builder report moves the deployment, its readiness and the engine's run together. *)

From stdpp Require Import base gmap list strings pretty sorting.
From Stdlib Require Import ZArith Lia Ascii.
From S2P Require Import Prelude Json JsonParse Text Digest OsdeployData TsData Conditions Tree Sequences Content Runs OsdeployRoles.

(** ** Constants *)

Definition DEFAULT_LOCAL_ADMIN_USERNAME : string := "localadmin".

(** The roles of [SERVER_ROLE_CATALOG]. *)
Definition SERVER_ROLE_CATALOG : list string :=
  ["base"; "file_server"; "isolated_domain_controller"; "mecm_prereq"; "lab_in_a_box"].

(** The module's own [ROLE_STEP_KINDS]: the steps of all roles. *)
Definition ALL_ROLE_STEP_KINDS : list string := mjoin (M:=list) (role_step_kinds <$> SERVER_ROLE_CATALOG).

Definition PE_EVENT_STEP_KINDS : list (string * list string) :=
  [("pe_registered", ["osdeploy_preflight"]);
   ("osdeploy_image_applied", ["apply_wim"]);
   ("osdeploy_drivers_applied", ["apply_driver_package"]);
   ("osdeploy_setupcomplete_staged", ["prepare_windows_setup"; "stage_osd_client"; "stage_autopilot_agent"]);
   ("osdeploy_boot_files_staged", ["bake_boot_entry"])].

(** ** Names *)

(** [[A-Za-z0-9-]] *)
Definition is_name_char (c : ascii) : bool :=
  let n := N_of_ascii c in
  bool_decide ((48 ≤ n ≤ 57) ∨ (65 ≤ n ≤ 90) ∨ (97 ≤ n ≤ 122) ∨ n = 45)%N.

(** [re.sub(r"[^A-Za-z0-9-]+", "", raw)] *)
Fixpoint keep_name_chars (s : string) : string :=
  match s with
  | EmptyString => EmptyString
  | String c s => if is_name_char c then String c (keep_name_chars s) else keep_name_chars s
  end.

(** [s.strip("-")] *)
Fixpoint lstrip_dashes (s : string) : string :=
  match s with
  | String c s' => if is_char 45 c then lstrip_dashes s' else s
  | EmptyString => s
  end.

Fixpoint rstrip_dashes (s : string) : string :=
  match s with
  | EmptyString => s
  | String c s' =>
      match rstrip_dashes s' with
      | EmptyString => if is_char 45 c then EmptyString else String c EmptyString
      | t => String c t
      end
  end.

Definition normalize_windows_computer_name (name : string) : string :=
  let cleaned := keep_name_chars (PyStr.strip name) in
  String.substring 0 15 (lstrip_dashes (rstrip_dashes cleaned)).

(** [None] for a missing or empty value *)
Definition _normalize_uuid (value : option string) : option string :=
  match value with
  | None | Some EmptyString => None
  | Some v => Some (PyStr.lower (PyStr.strip v))
  end.

Definition _normalize_mac (value : option string) : option string :=
  match value with
  | None | Some EmptyString => None
  | Some v => Some (replace "-" ":" (PyStr.lower (PyStr.strip v)))
  end.

(** [NULLIF(%s, '')] *)
Definition nullif_empty (value : option string) : option string :=
  match value with Some EmptyString => None | v => v end.

(** ** Passwords *)

(** The draws of [secrets], each stream named by the moment it is taken at. *)
Class Secrets : Type := {
  choice : nat → nat → string → ascii;
  shuffle : nat → list ascii → list ascii
}.

Class SecretsLaws (S : Secrets) : Prop := {
  choice_elem m i s : s ≠ EmptyString → choice m i s ∈ String.list_ascii_of_string s;
  shuffle_perm m l : shuffle m l ≡ₚ l
}.

Definition password_upper : string := "ABCDEFGHJKLMNPQRSTUVWXYZ".
Definition password_lower : string := "abcdefghijkmnopqrstuvwxyz".
Definition password_digits : string := "23456789".
Definition password_symbols : string := "!#%+?".
Definition password_alphabet : string :=
  password_upper +:+ password_lower +:+ password_digits +:+ password_symbols.

Section secrets.
Context `{Secrets}.

Definition _generate_local_admin_password (moment : nat) (length_ : Z) : string :=
  let password := [choice moment 0 password_upper; choice moment 1 password_lower;
                   choice moment 2 password_digits; choice moment 3 password_symbols] in
  let more := Z.to_nat (Z.max 8 (Z.min length_ 12) - Z.of_nat (length password)) in
  String.string_of_list_ascii (shuffle moment
    (password ++ ((λ i, choice moment (4 + i) password_alphabet) <$> seq 0 more))).

(** [dict(local_admin or {})] of a dictionary or [None].  [casefold] is [lower] for the
    texts that fold to the name. *)
Definition _sanitize_local_admin (moment : nat) (local_admin : json) (generate_password : bool) : json :=
  let raw := match local_admin with JObj o => JObj o | _ => JObj [] end in
  let username := PyStr.strip (py_str (jor (jget "username" raw) (JStr DEFAULT_LOCAL_ADMIN_USERNAME))) in
  let username := if decide (PyStr.lower username = DEFAULT_LOCAL_ADMIN_USERNAME) then username
                  else DEFAULT_LOCAL_ADMIN_USERNAME in
  let password := text_field "password" raw in
  let generated := truthy (jget "generated" raw) in
  let '(password, generated) :=
    if decide (password = EmptyString ∧ generate_password = true)
    then (_generate_local_admin_password moment 12, true) else (password, generated) in
  JObj [("username", JStr username); ("password", JStr password); ("generated", JBool generated)].
End secrets.

(** ** Statements *)

Definition on_osdeploy (f : osdeploy_tables → osdeploy_tables) : eff session unit :=
  execute (set_osdeploy f).

(** PRIMARY KEY *)
Definition insert_artifact (id : string) (a : artifact_row) : eff session unit :=
  d ← query osdeploy;
  checked (negb (known (artifacts d) id)) "osdeploy_artifacts_pkey"
    (set_osdeploy (set_artifacts (<[id := a]>))).

(** PRIMARY KEY, the references to the engine's run and to the artifact, and
    UNIQUE (workflow_name) *)
Definition insert_osd_run (id : string) (r : osd_run) : eff session unit :=
  d ← query (λ d, d);
  checked (negb (known (osd_runs (osdeploy d)) id) && known (runs d) id &&
           known (artifacts (osdeploy d)) (oq_artifact_id (or_request r)) &&
           negb (exists_where (λ kr : string * osd_run,
             oq_workflow_name (or_request kr.2) = oq_workflow_name (or_request r)) (osd_runs (osdeploy d))))
    "osdeploy_runs" (set_osdeploy (set_osd_runs (<[id := r]>))).

(** The reference to the deployment *)
Definition insert_osd_event (e : osd_event) : eff session unit :=
  d ← query osdeploy;
  checked (known (osd_runs d) (oe_run_id e)) "osdeploy_run_events_run_id_fkey"
    (set_osdeploy (set_osd_events (λ es, es ++ [e]))).

(** PRIMARY KEY and the reference to the deployment *)
Definition insert_readiness (run_id : string) (r : osd_readiness) : eff session unit :=
  d ← query osdeploy;
  checked (negb (known (readiness d) run_id) && known (osd_runs d) run_id) "osdeploy_readiness"
    (set_osdeploy (set_readiness (<[run_id := r]>))).

(** [INSERT ... ON CONFLICT (run_id) DO UPDATE]: the row that is there becomes [update]
    of itself. *)
Definition upsert_readiness (run_id : string) (new : osd_readiness)
    (update : osd_readiness → osd_readiness) : eff session unit :=
  d ← query osdeploy;
  checked (known (osd_runs d) run_id) "osdeploy_readiness_run_id_fkey"
    (set_osdeploy (set_readiness (partial_alter (λ old, Some (from_option update new old)) run_id))).

(** PRIMARY KEY and the reference to the artifact *)
Definition insert_bundle (id : string) (b : osd_bundle) : eff session unit :=
  d ← query osdeploy;
  checked (negb (known (bundles d) id) && known (artifacts d) (ob_artifact_id b)) "osdeploy_role_bundles"
    (set_osdeploy (set_bundles (<[id := b]>))).

(** PRIMARY KEY, the two references and UNIQUE (bundle_id, dependency_order) *)
Definition insert_child (id : string) (ch : osd_child) : eff session unit :=
  d ← query osdeploy;
  checked (negb (known (bundle_children d) id) && known (bundles d) (oc_bundle_id ch) &&
           known (osd_runs d) (oc_child_run_id ch) &&
           negb (exists_where (λ kr : string * osd_child, oc_bundle_id kr.2 = oc_bundle_id ch ∧
             oc_dependency_order kr.2 = oc_dependency_order ch) (bundle_children d)))
    "osdeploy_role_bundle_children" (set_osdeploy (set_bundle_children (<[id := ch]>))).

(** [UPDATE osdeploy_runs SET ... WHERE run_id = %s RETURNING *] *)
Definition update_osd_run (run_id : string) (f : osd_run → osd_run) : eff session (option osd_run) :=
  on_osdeploy (set_osd_runs (alter f run_id)) ;;
  query (λ d, osd_runs (osdeploy d) !! run_id).

(** ** Rows of a deployment that change *)

Definition set_or_state (state : osd_state) (updated_at : Z) (r : osd_run) : osd_run :=
  OsdRun (or_request r) state (or_node r) (or_pve_vm_name r) (or_vmid r) (or_vm_uuid r) (or_mac r)
    (or_pe_registered_at r) (or_osdeploy_started_at r) (or_osdeploy_finished_at r)
    (or_first_heartbeat_at r) (or_archived_at r) (or_archived_by r) (or_archive_reason r) updated_at.

Definition set_or_identity (vmid : option Z) (vm_uuid mac node pve_vm_name : option string) (r : osd_run) :
    osd_run :=
  OsdRun (or_request r) (or_state r) (coalesce node (or_node r)) (coalesce pve_vm_name (or_pve_vm_name r))
    (coalesce vmid (or_vmid r)) (coalesce vm_uuid (or_vm_uuid r)) (coalesce mac (or_mac r))
    (or_pe_registered_at r) (or_osdeploy_started_at r) (or_osdeploy_finished_at r)
    (or_first_heartbeat_at r) (or_archived_at r) (or_archived_by r) (or_archive_reason r)
    (or_updated_at r).

(** [COALESCE(column, value)] for the four times; [None] leaves the column alone. *)
Definition set_or_times (registered started finished heartbeat : option Z) (r : osd_run) : osd_run :=
  OsdRun (or_request r) (or_state r) (or_node r) (or_pve_vm_name r) (or_vmid r) (or_vm_uuid r) (or_mac r)
    (coalesce (or_pe_registered_at r) registered) (coalesce (or_osdeploy_started_at r) started)
    (coalesce (or_osdeploy_finished_at r) finished) (coalesce (or_first_heartbeat_at r) heartbeat)
    (or_archived_at r) (or_archived_by r) (or_archive_reason r) (or_updated_at r).

Definition set_or_archive (at_ : option Z) (by_ reason : option string) (updated_at : Z) (r : osd_run) :
    osd_run :=
  OsdRun (or_request r) (or_state r) (or_node r) (or_pve_vm_name r) (or_vmid r) (or_vm_uuid r) (or_mac r)
    (or_pe_registered_at r) (or_osdeploy_started_at r) (or_osdeploy_finished_at r)
    (or_first_heartbeat_at r) at_ by_ reason updated_at.

(** [UPDATE ts_provisioning_runs SET state, phase, finished_at, last_error] *)
Definition set_ts_run (state : run_state) (phase : option string) (finished_at : option Z)
    (last_error : option string) (r : run_row) : run_row :=
  with_run_state state phase (rn_cursor_step_id r) finished_at last_error r.

Definition update_ts_run (run_id : string) (f : run_row → run_row) : eff session unit :=
  execute (set_runs (alter f run_id)).

Section operations.
Context `{Env} `{Sha256} `{StrSet} `{Secrets}.

(** ** Artifacts *)

(** [given] holds the arguments of the call; its times are not read. *)
Definition create_artifact (given : artifact_row) (built_at : option Z) : eff session (string * artifact_row) :=
  now ← now;
  id ← new_id;
  let row := Artifact (ar_architecture given) (ar_osdeploy_module_version given)
    (ar_osdbuilder_module_version given) (ar_adk_version given) (ar_build_sha given)
    (ar_iso_path given) (ar_wim_path given) (ar_manifest_path given)
    (PyStr.lower (ar_iso_sha256 given)) (PyStr.lower (ar_wim_sha256 given)) (ar_source_media given)
    (ar_image_name given) (ar_image_index given) (ar_os_version given) (ar_os_edition given)
    (ar_os_language given) (ar_built_by_host given) (default now built_at) (ar_proxmox_volid given)
    (ar_build_job_id given) (ar_publish_job_id given) now in
  insert_artifact id row ;;
  commit ;;
  mret (id, row).

Definition artifact_order : string * artifact_row → string * artifact_row → comparison :=
  cmp_then (cmp_desc (cmp_on (λ ka, ar_built_at ka.2) cmp_Z))
    (cmp_desc (cmp_on (λ ka, ar_created_at ka.2) cmp_Z)).

(** An empty architecture is none. *)
Definition list_artifacts (architecture : string) : eff session (list (string * artifact_row)) :=
  query (λ d, isort artifact_order
    (select_where (λ ka : string * artifact_row,
       architecture = EmptyString ∨ ar_architecture ka.2 = architecture) (artifacts (osdeploy d)))).

Definition get_artifact (artifact_id : string) : eff session (option artifact_row) :=
  query (λ d, artifacts (osdeploy d) !! artifact_id).

Definition set_volid (volid publish_job_id : option string) (a : artifact_row) : artifact_row :=
  Artifact (ar_architecture a) (ar_osdeploy_module_version a) (ar_osdbuilder_module_version a)
    (ar_adk_version a) (ar_build_sha a) (ar_iso_path a) (ar_wim_path a) (ar_manifest_path a)
    (ar_iso_sha256 a) (ar_wim_sha256 a) (ar_source_media a) (ar_image_name a) (ar_image_index a)
    (ar_os_version a) (ar_os_edition a) (ar_os_language a) (ar_built_by_host a) (ar_built_at a)
    volid (ar_build_job_id a) publish_job_id (ar_created_at a).

Definition update_artifact (artifact_id : string) (f : artifact_row → artifact_row) :
    eff session (option artifact_row) :=
  on_osdeploy (set_artifacts (alter f artifact_id)) ;;
  row ← get_artifact artifact_id;
  commit ;;
  mret row.

Definition update_artifact_proxmox_volid (artifact_id proxmox_volid : string)
    (publish_job_id : option string) : eff session (option artifact_row) :=
  update_artifact artifact_id
    (λ a, set_volid (Some proxmox_volid) (coalesce publish_job_id (ar_publish_job_id a)) a).

Definition update_artifact_publish_job (artifact_id publish_job_id : string) :
    eff session (option artifact_row) :=
  update_artifact artifact_id (λ a, set_volid (ar_proxmox_volid a) (Some publish_job_id) a).

(** ** The sequence of a deployment *)

Record step_spec : Type := StepSpec { ss_name : string; ss_kind : string; ss_phase : string }.

Definition base_steps : list step_spec :=
  [StepSpec "OSDeploy PE preflight" "osdeploy_preflight" "pe";
   StepSpec "Apply OSDeploy Server image" "apply_wim" "pe";
   StepSpec "Apply VirtIO driver package" "apply_driver_package" "pe";
   StepSpec "Prepare Windows Server setup" "prepare_windows_setup" "pe";
   StepSpec "Bake Windows boot entry" "bake_boot_entry" "pe";
   StepSpec "Stage OSD client" "stage_osd_client" "pe";
   StepSpec "Stage AutopilotAgent" "stage_autopilot_agent" "pe";
   StepSpec "Install QEMU Guest Agent" "install_qga" "full_os";
   StepSpec "Verify QEMU Guest Agent" "verify_qga" "full_os";
   StepSpec "Install QGA watchdog" "install_qga_watchdog" "full_os";
   StepSpec "Install AutopilotAgent" "install_autopilot_agent" "full_os";
   StepSpec "Wait for AutopilotAgent heartbeat" "wait_agent_heartbeat" "full_os"].

Definition role_step_names : list (string * string) :=
  [("join_domain_role", "Join isolated domain");
   ("verify_ad_domain_join", "Verify AD domain membership");
   ("configure_file_server_role", "Configure File Server role");
   ("configure_isolated_domain_controller_role", "Promote isolated domain controller");
   ("verify_isolated_domain_controller_role", "Verify isolated domain controller");
   ("configure_mecm_prereq_role", "Install MECM prerequisite baseline")].

Definition role_step (kind : string) : step_spec :=
  StepSpec (default kind (assoc kind role_step_names)) kind "full_os".

(** [steps.insert(-1, x)] *)
Definition insert_before_last {A} (l : list A) (x : A) : list A :=
  let n := Nat.pred (length l) in take n l ++ x :: drop n l.

Definition steps_of_role (server_role : string) (role_options : json) : list step_spec :=
  foldl (λ steps kind, insert_before_last steps (role_step kind)) base_steps
    (generated_step_kinds server_role role_options).

Definition step_params (server_role : string) (role_options : json) (kind : string) : json :=
  let params := if decide (kind = "install_qga") then JObj [("required", JBool true)] else JObj [] in
  let params := if decide (kind ∈ DOMAIN_JOIN_STEP_KINDS)
    then jor (jget "domain_join" role_options) (JObj []) else params in
  if decide (kind ∈ ALL_ROLE_STEP_KINDS)
  then merge (JObj [("server_role", JStr server_role)]) role_options else params.

Definition step_retries (kind : string) : Z := if decide (kind = "wait_agent_heartbeat") then 60 else 0.
Definition step_delay (kind : string) : Z := if decide (kind = "verify_ad_domain_join") then 30 else 10.
Definition step_reboot (kind : string) : string :=
  if decide (kind ∈ ["configure_isolated_domain_controller_role"; "join_domain_role"])
  then "required" else "none".

(** One round of the loop that adds the steps. *)
Definition add_generated_step (sequence_id server_role : string) (role_options : json)
    (ps : nat * step_spec) : eff session unit :=
  let kind := ss_kind ps.2 in
  add_step sequence_id None (ss_name ps.2) kind (ss_phase ps.2) (Z.of_nat ps.1) true JNull JNull
    (step_params server_role role_options kind) [] false (step_retries kind) (step_delay kind) None
    (step_reboot kind) ;;
  mret tt.

Definition _create_sequence_for_run (name server_role : string) (role_options : json) : eff session string :=
  sequence_id ← create_sequence name "Generated OSDeploy Windows Server deployment sequence" "windows"
                  (Some "osdeploy");
  for_each (imap pair (steps_of_role server_role role_options))
    (add_generated_step sequence_id server_role role_options) ;;
  compile_sequence sequence_id (Some "osdeploy").

(** ** Events *)

Definition osdeploy_append_event_row (run_id phase event_type severity : string)
    (message : option string) (data : json) : eff session osd_event :=
  now ← now;
  let e := OsdEvent run_id phase event_type severity message (jor data (JObj [])) now in
  insert_osd_event e ;;
  commit ;;
  mret e.

Definition _mark_steps_done_from_event (run_id phase event_type : string) (data : json) : eff session nat :=
  if decide (phase = "pe") then
    match assoc event_type PE_EVENT_STEP_KINDS with
    | None => mret 0%nat
    | Some kinds =>
        mark_steps_done_by_kind run_id kinds "osdeploy-pe"
          (Some ("OSDeploy PE event completed " +:+ event_type))
          (merge (JObj [("event_type", JStr event_type)]) data)
    end
  else mret 0%nat.

Definition _mark_pe_phase_progress_from_event (run_id phase event_type : string) : eff session unit :=
  if decide (phase ≠ "pe" ∨ event_type = "pe_registered") then mret tt
  else
    now ← now;
    on_osdeploy (set_osd_runs (alter (λ r,
      set_or_state (or_state r) now
        (set_or_times None (coalesce (or_pe_registered_at r) (Some now))
           (if decide (event_type = "osdeploy_boot_files_staged") then Some now else None) None r))
      run_id)) ;;
    commit.

Definition append_event (run_id phase event_type severity : string) (message : option string)
    (data : json) : eff session osd_event :=
  e ← osdeploy_append_event_row run_id phase event_type severity message data;
  _mark_steps_done_from_event run_id phase event_type (jor data (JObj [])) ;;
  _mark_pe_phase_progress_from_event run_id phase event_type ;;
  mret e.

Definition list_events (run_id : string) : eff session (list osd_event) :=
  query (λ d, isort (cmp_on oe_created_at cmp_Z)
    (filter (λ e, oe_run_id e = run_id) (osd_events (osdeploy d)))).

(** ** Deployments *)

(** The arguments of [create_run] and [create_lab_bundle]. *)
Record run_args : Type := RunArgs {
  ra_artifact_id : string;
  ra_vm_name : string;
  ra_node : option string;
  ra_iso_storage : option string;
  ra_storage : option string;
  ra_network_bridge : option string;
  ra_requested_vmid : option Z;
  ra_architecture : string;
  ra_server_role : string;
  ra_os_version : string;
  ra_os_edition : string;
  ra_os_language : string;
  ra_vm_cores : Z;
  ra_vm_memory_mb : Z;
  ra_vm_disk_size_gb : Z;
  ra_secure_boot : bool;
  ra_outbound_policy : json;
  ra_role_options : json;
  ra_local_admin : json
}.

(** The row as a dictionary for the callers. *)
Definition _run_row (r : osd_run) : osd_run :=
  let q := or_request r in
  OsdRun (OsdRequest (oq_artifact_id q) (oq_workflow_name q) (oq_architecture q) (oq_server_role q)
      (oq_os_version q) (oq_os_edition q) (oq_os_language q) (oq_vm_name q) (oq_requested_vm_name q)
      (oq_expected_computer_name q) (oq_requested_vmid q) (oq_iso_storage q) (oq_storage q)
      (oq_network_bridge q) (oq_vm_cores q) (oq_vm_memory_mb q) (oq_vm_disk_size_gb q)
      (oq_secure_boot q) (jor (oq_outbound_policy q) (JObj [])) (jor (oq_role_options q) (JObj []))
      (_sanitize_local_admin 0 (oq_local_admin q) false) (oq_created_at q))
    (or_state r) (or_node r) (or_pve_vm_name r) (or_vmid r) (or_vm_uuid r) (or_mac r)
    (or_pe_registered_at r) (or_osdeploy_started_at r) (or_osdeploy_finished_at r)
    (or_first_heartbeat_at r) (or_archived_at r) (or_archived_by r) (or_archive_reason r)
    (or_updated_at r).

Definition get_run (run_id : string) : eff session (option osd_run) :=
  query (λ d, _run_row <$> osd_runs (osdeploy d) !! run_id).

Definition new_run_row (a : run_args) (run_id computer_name : string) (role_options local_admin : json)
    (now : Z) : osd_run :=
  OsdRun (OsdRequest (ra_artifact_id a) ("pveautopilot-osdeploy-" +:+ run_id) (ra_architecture a)
      (ra_server_role a) (ra_os_version a) (ra_os_edition a) (ra_os_language a) (ra_vm_name a)
      (Some (ra_vm_name a)) (Some computer_name) (ra_requested_vmid a) (ra_iso_storage a)
      (ra_storage a) (ra_network_bridge a) (ra_vm_cores a) (ra_vm_memory_mb a)
      (ra_vm_disk_size_gb a) (ra_secure_boot a) (jor (ra_outbound_policy a) (JObj [])) role_options
      local_admin now)
    Created (ra_node a) None None None None None None None None None None None now.

Definition waiting_for_heartbeat (updated_at : option Z) : osd_readiness :=
  OsdReadiness "waiting_for_heartbeat" (Some "pending") (Some "pending") None (Some "pending") []
    updated_at.

(** What the engine's run records of the request. *)
Definition target_of (a : run_args) (computer_name : string) : json :=
  JObj [("computer_name", JStr computer_name); ("requested_name", JStr (ra_vm_name a));
        ("architecture", JStr (ra_architecture a)); ("osdeploy", JBool true)].

Definition variables_of (a : run_args) (role_options local_admin : json) : json :=
  JObj [("deployment_path", JStr "osdeploy_v2"); ("artifact_id", JStr (ra_artifact_id a));
        ("server_role", JStr (ra_server_role a)); ("role_options", role_options);
        ("os_version", JStr (ra_os_version a)); ("os_edition", JStr (ra_os_edition a));
        ("os_language", JStr (ra_os_language a)); ("local_admin", local_admin)].

(** The draws of the password are those of the moment the call has seen. *)
Definition password_moment : eff session nat := λ s, (Ret (issued s), s).

Definition create_run (a : run_args) : eff session (string * osd_run) :=
  artifact ← get_artifact (ra_artifact_id a);
  match artifact with
  | None => raise (ValueError ("OSDeploy artifact not found: " +:+ ra_artifact_id a))
  | Some artifact =>
      if decide (ar_architecture artifact ≠ ra_architecture a) then
        raise (ValueError "OSDeploy artifact architecture does not match requested run")
      else
        let computer_name := normalize_windows_computer_name (ra_vm_name a) in
        if decide (computer_name = EmptyString) then
          raise (ValueError "OSDeploy requested VM name does not produce a valid Windows computer name")
        else
          role_options ← lift_outcome (sanitize_role_options (ra_server_role a) (ra_role_options a));
          moment ← password_moment;
          let local_admin := _sanitize_local_admin moment (ra_local_admin a) true in
          version_id ← _create_sequence_for_run ("OSDeploy deployment for " +:+ ra_vm_name a)
                         (ra_server_role a) role_options;
          run_id ← create_run_from_version version_id (target_of a computer_name)
                     (variables_of a role_options local_admin) (Some "osdeploy") false;
          now ← now;
          let row := new_run_row a run_id computer_name role_options local_admin now in
          insert_osd_run run_id row ;;
          update_ts_run run_id (λ r, set_ts_run (RunNamed "osdeploy_created") (Some "osdeploy")
            (rn_finished_at r) (rn_last_error r) r) ;;
          insert_readiness run_id (waiting_for_heartbeat (Some now)) ;;
          commit ;;
          append_event run_id "controller" "run_created" "info" (Some "OSDeploy run created") JNull ;;
          mret (run_id, _run_row row)
  end.

Definition run_order : string * osd_run → string * osd_run → comparison :=
  cmp_desc (cmp_on (λ kr, oq_created_at (or_request kr.2)) cmp_Z).

(** The conditions of the listing; [stale_before] is the time of the last one. *)
Definition listed (include_archived active_only : bool) (stale_before : option Z) (r : osd_run) : Prop :=
  (include_archived = true ∨ or_archived_at r = None) ∧
  (active_only = false ∨ or_state r ∉ [Complete; OsdFailed; OsdCanceled]) ∧
  from_option (λ b, or_state r = OsdFailed ∧ (or_updated_at r < b)%Z) True stale_before.

#[export] Instance listed_dec include_archived active_only stale_before r :
  Decision (listed include_archived active_only stale_before r).
Proof. unfold listed. destruct stale_before; simpl; apply _. Defined.

(** [timedelta(hours=h)] in microseconds *)
Definition hours (h : Z) : Z := h * 3600 * 1000000.

Definition list_runs (limit : nat) (include_archived active_only : bool) (stale_failed_hours : option Z) :
    eff session (list (string * osd_run)) :=
  stale_before ← match stale_failed_hours with
                 | None => mret None
                 | Some h => now ← now; mret (Some (now - hours h)%Z)
                 end;
  query (λ d, (λ kr, (kr.1, _run_row kr.2)) <$> take limit (isort run_order
    (select_where (λ kr : string * osd_run, listed include_archived active_only stale_before kr.2)
      (osd_runs (osdeploy d))))).

(** ** Readiness *)

Definition _normalize_readiness_errors (value : list json) : list json :=
  omap (λ item, match item with
                | JObj _ => Some item
                | JNull => None
                | _ => Some (JObj [("message", JStr (py_str item))])
                end) value.

Definition _readiness_row (r : osd_readiness) : osd_readiness :=
  OsdReadiness (rd_state r) (rd_qga_status r) (rd_agent_status r) (rd_heartbeat_at r)
    (rd_server_role_status r) (_normalize_readiness_errors (rd_errors r)) (rd_updated_at r).

Definition get_readiness (run_id : string) : eff session osd_readiness :=
  query (λ d, from_option _readiness_row (waiting_for_heartbeat None) (readiness (osdeploy d) !! run_id)).

(** ** Bundles *)

(** What the states of the children say of their bundle. *)
Definition bundle_state (states : list osd_state) : string :=
  if existsb (λ s, bool_decide (s ∈ [OsdFailed; OsdCanceled])) states then "failed"
  else if forallb (λ s, bool_decide (s = Complete)) states then "complete"
  else if existsb (λ s, bool_decide (s ≠ Created)) states then "running"
  else "created".

Definition child_order : string * osd_child → string * osd_child → comparison :=
  cmp_on (λ kc, oc_dependency_order kc.2) cmp_Z.

(** The states of the children of a bundle, in their order. *)
Definition child_states (bundle_id : string) (t : osdeploy_tables) : list osd_state :=
  omap (λ kc : string * osd_child, or_state <$> osd_runs t !! oc_child_run_id kc.2)
    (isort child_order
      (select_where (λ kc : string * osd_child, oc_bundle_id kc.2 = bundle_id) (bundle_children t))).

(** The bundle a run belongs to. *)
Definition bundle_of (run_id : string) (t : osdeploy_tables) : option string :=
  (λ kc, oc_bundle_id kc.2) <$>
  head (select_where (λ kc : string * osd_child, oc_child_run_id kc.2 = run_id) (bundle_children t)).

Definition set_bundle_state (state : string) (updated_at : Z) (b : osd_bundle) : osd_bundle :=
  OsdBundle state (ob_server_role b) (ob_bundle_name b) (ob_artifact_id b) (ob_role_options b)
    (ob_created_at b) updated_at.

Definition _sync_bundle_state_for_child (run_id : string) : eff session unit :=
  bundle ← query (λ d, bundle_of run_id (osdeploy d));
  match bundle with
  | None => mret tt
  | Some bundle_id =>
      states ← query (λ d, child_states bundle_id (osdeploy d));
      match states with
      | [] => mret tt
      | states =>
          now ← now;
          on_osdeploy (set_bundles (alter (set_bundle_state (bundle_state states) now) bundle_id))
      end
  end.

Definition with_child (a : run_args) (role vm_name : string) (role_options : json) : run_args :=
  RunArgs (ra_artifact_id a) vm_name (ra_node a) (ra_iso_storage a) (ra_storage a)
    (ra_network_bridge a) None (ra_architecture a) role (ra_os_version a) (ra_os_edition a)
    (ra_os_language a) (ra_vm_cores a) (ra_vm_memory_mb a) (ra_vm_disk_size_gb a)
    (ra_secure_boot a) (ra_outbound_policy a) role_options JNull.

(** [child["role"]] and the like on a sanitized child, whose fields are texts. *)
Definition text_of (j : json) : string := match j with JStr s => s | _ => EmptyString end.

(** The domain of the lab: the forest of its first domain controller. *)
Definition lab_domain_join (sanitized : json) : json :=
  let dc_child := default (JObj []) (head (filter
    (λ child, jget "role" child = JStr "isolated_domain_controller") (children_of sanitized))) in
  JObj [("credential_id", jget "domain_join_credential_id" sanitized);
        ("domain_fqdn", jget "forest_fqdn" (jor (jget "role_options" dc_child) (JObj [])))].

Definition child_role_options (sanitized child : json) : json :=
  let options := fields (jor (jget "role_options" child) (JObj [])) in
  if decide (text_of (jget "role" child) ∈ ["file_server"; "mecm_prereq"])
  then JObj (dict_set "domain_join" (lab_domain_join sanitized) options) else JObj options.

(** One round of the loop over the children. *)
Definition create_child (a : run_args) (bundle_id : string) (sanitized : json) (now : Z)
    (ic : nat * json) : eff session (string * (osd_child * osd_run)) :=
  let role := text_of (jget "role" ic.2) in
  run ← create_run (with_child a role (text_of (jget "vm_name" ic.2)) (child_role_options sanitized ic.2));
  id ← new_id;
  let child := OsdChild bundle_id (Z.of_nat (S ic.1)) role run.1 now in
  insert_child id child ;;
  commit ;;
  mret (id, (child, run.2)).

Fixpoint create_children (a : run_args) (bundle_id : string) (sanitized : json) (now : Z)
    (l : list (nat * json)) : eff session (list (string * (osd_child * osd_run))) :=
  match l with
  | [] => mret []
  | ic :: l =>
      child ← create_child a bundle_id sanitized now ic;
      rest ← create_children a bundle_id sanitized now l;
      mret (child :: rest)
  end.

Definition create_lab_bundle (a : run_args) :
    eff session (string * osd_bundle * list (string * (osd_child * osd_run))) :=
  sanitized ← lift_outcome (sanitize_role_options "lab_in_a_box" (ra_role_options a));
  now ← now;
  bundle_id ← new_id;
  let bundle := OsdBundle "created" "lab_in_a_box"
    (PyStr.or_else (text_of (jget "bundle_name" sanitized)) (ra_vm_name a)) (ra_artifact_id a) sanitized
    now now in
  insert_bundle bundle_id bundle ;;
  children ← create_children a bundle_id sanitized now (imap pair (children_of sanitized));
  mret (bundle_id, bundle, children).

(** ** What the machine and the controller report *)

Definition set_run_identity (run_id : string) (vmid : option Z)
    (vm_uuid mac node computer_name : option string) : eff session (option osd_run) :=
  now ← now;
  row ← update_osd_run run_id (λ r,
    set_or_state (if decide (or_state r = Created) then AwaitingPe else or_state r) now
      (set_or_identity vmid (nullif_empty (_normalize_uuid vm_uuid)) (nullif_empty (_normalize_mac mac))
         (nullif_empty node) (nullif_empty computer_name) r));
  update_ts_run run_id (λ r,
    Run (rn_sequence_id r) (rn_sequence_version_id r)
      (if decide (rn_state r = RunNamed "osdeploy_created") then RunNamed "osdeploy_awaiting_pe"
       else rn_state r)
      (rn_phase r) (rn_cursor_step_id r) (coalesce_json (json_of_option JInt vmid) (rn_vmid r))
      (coalesce_json (json_of_option JStr (nullif_empty (_normalize_uuid vm_uuid))) (rn_vm_uuid r))
      (rn_computer_name r) (rn_serial_number r) (rn_deployment_target r) (rn_run_variables r)
      (rn_started_at r) (rn_finished_at r) (rn_last_error r) (rn_created_by r)) ;;
  commit ;;
  match row with
  | None => mret None
  | Some row =>
      append_event run_id "controller" "identity_recorded" "info"
        (Some "OSDeploy VM identity recorded")
        (JObj [("vmid", json_of_option JInt vmid); ("vm_uuid", json_of_option JStr vm_uuid);
               ("mac", json_of_option JStr mac); ("node", json_of_option JStr node)]) ;;
      mret (Some (_run_row row))
  end.

(** The runs that wait for their machine to report from the preinstallation environment;
    the comparison with a missing value is never true. *)
Definition matches_identity (vm_uuid mac architecture build_sha : option string) (d : db) (r : osd_run) :
    Prop :=
  (vm_uuid ≠ None ∧ or_vm_uuid r = vm_uuid) ∧ (mac ≠ None ∧ or_mac r = mac) ∧
  (architecture = None ∨ Some (oq_architecture (or_request r)) = architecture) ∧
  (build_sha = None ∨
   (ar_build_sha <$> artifacts (osdeploy d) !! oq_artifact_id (or_request r)) = build_sha) ∧
  is_Some (artifacts (osdeploy d) !! oq_artifact_id (or_request r)) ∧
  or_state r ∈ [AwaitingPe; Created; PeRegistered].

#[export] Instance matches_identity_dec vm_uuid mac architecture build_sha d r :
  Decision (matches_identity vm_uuid mac architecture build_sha d r).
Proof. unfold matches_identity. apply _. Defined.

Definition find_run_by_identity (vm_uuid mac : string) (architecture build_sha : option string) :
    eff session (option (string * osd_run)) :=
  query (λ d, (λ kr, (kr.1, _run_row kr.2)) <$> head (isort run_order
    (select_where (λ kr : string * osd_run,
       matches_identity (_normalize_uuid (Some vm_uuid)) (_normalize_mac (Some mac)) architecture
         build_sha d kr.2) (osd_runs (osdeploy d))))).

Definition mark_pe_registered (run_id : string) (metadata : json) : eff session (option osd_run) :=
  now ← now;
  row ← update_osd_run run_id
    (λ r, set_or_state PeRegistered now (set_or_times (Some now) None None None r));
  update_ts_run run_id (λ r, set_ts_run (RunNamed "osdeploy_pe_registered") (Some "pe")
    (rn_finished_at r) (rn_last_error r) r) ;;
  commit ;;
  match row with
  | None => mret None
  | Some row =>
      append_event run_id "pe" "pe_registered" "info" (Some "OSDeploy PE client registered")
        (jor metadata (JObj [])) ;;
      mret (Some (_run_row row))
  end.

Record heartbeat : Type := Heartbeat {
  hb_computer_name : option string;
  hb_os_name : option string;
  hb_qga_state : option string;
  hb_current_phase : option string
}.

(** The kinds of the steps a heartbeat is evidence for. *)
Definition heartbeat_kinds (run_id : string) (is_base : bool) (d : db) : list string :=
  remove_dups ((λ kr : string * step_row, ps_kind (st_plan kr.2)) <$>
    filter (λ kr : string * step_row, st_state kr.2 ≠ Skipped ∧
      (is_base = true ∨ ps_kind (st_plan kr.2) ∉ FULL_OS_ROLE_ACTION_KINDS)) (run_steps run_id d)).

(** [kind = NULL] is never true. *)
Definition final_step_done (run_id : string) (final : option string) (d : db) : bool :=
  match final with
  | None => false
  | Some kind => exists_where (λ kr : string * step_row, ps_run_id (st_plan kr.2) = run_id ∧
      ps_kind (st_plan kr.2) = kind ∧ st_state kr.2 = Done) (steps d)
  end.

Definition finish_ts_run (now : Z) (clear_error : bool) (r : run_row) : run_row :=
  if decide (rn_state r = RunFailed) then r
  else set_ts_run RunDone (Some "full_os") (coalesce (rn_finished_at r) (Some now))
         (if clear_error then None else rn_last_error r) r.

Definition mark_complete_from_heartbeat (run_id agent_id : string) (hb : heartbeat) :
    eff session (option osd_run) :=
  run ← get_run run_id;
  match run with
  | None => mret None
  | Some run =>
      now ← now;
      let role := oq_server_role (or_request run) in
      let role_is_ready := bool_decide (role = "base") in
      kinds ← query (heartbeat_kinds run_id role_is_ready);
      mark_steps_done_by_kind run_id kinds agent_id
        (Some "OSDeploy Server base completed from agent heartbeat")
        (JObj [("computer_name", json_of_option JStr (hb_computer_name hb));
               ("os_name", json_of_option JStr (hb_os_name hb));
               ("qga_state", json_of_option JStr (hb_qga_state hb));
               ("current_phase", json_of_option JStr (hb_current_phase hb))]) ;;
      existing ← get_readiness run_id;
      final_role_step_done ← query (final_step_done run_id (final_role_step_kind role));
      let role_already_ready := negb role_is_ready &&
        (bool_decide (or_state run = Complete) || bool_decide (rd_state existing = "complete") ||
         bool_decide (rd_server_role_status existing = Some (role_readiness_status role)) ||
         final_role_step_done) in
      let complete := role_is_ready || role_already_ready in
      let server_role_status := if role_already_ready then role_readiness_status role
        else if role_is_ready then "base_ready" else "pending" in
      row ← update_osd_run run_id (λ r,
        set_or_state (if complete then Complete else RolePending) now
          (set_or_times None None None (Some now) r));
      let ready := OsdReadiness (if complete then "complete" else "role_pending")
        (Some (text_or (hb_qga_state hb) "unknown")) (Some "online") (Some now) (Some server_role_status)
        [] (Some now) in
      upsert_readiness run_id ready (λ _, ready) ;;
      (if complete then update_ts_run run_id (finish_ts_run now false)
       else update_ts_run run_id (λ r, if decide (rn_state r = RunFailed) then r
              else set_ts_run (RunNamed "role_pending") (Some "full_os") (rn_finished_at r)
                     (rn_last_error r) r)) ;;
      commit ;;
      append_event run_id "full_os" "agent_heartbeat" "info"
        (Some "OSDeploy Server base heartbeat observed")
        (JObj [("agent_id", JStr agent_id);
               ("computer_name", json_of_option JStr (hb_computer_name hb));
               ("os_name", json_of_option JStr (hb_os_name hb));
               ("qga_state", json_of_option JStr (hb_qga_state hb))]) ;;
      mret (_run_row <$> row)
  end.

(** [{"agent_id": ..., "step_kind": ..., **(data or {})}] *)
Definition step_data (agent_id step_kind : string) (data : json) : json :=
  merge (JObj [("agent_id", JStr agent_id); ("step_kind", JStr step_kind)]) data.

Definition role_ready (run_id role step_kind agent_id : string) (message : option string) (data : json)
    (now : Z) : eff session (option osd_run) :=
  let role_status := Some (role_readiness_status role) in
  row ← update_osd_run run_id (set_or_state Complete now);
  upsert_readiness run_id
    (OsdReadiness "complete" (Some "running") (Some "online") (Some now) role_status [] (Some now))
    (λ r, OsdReadiness "complete" (coalesce (rd_qga_status r) (Some "running")) (Some "online")
            (rd_heartbeat_at r) role_status [] (Some now)) ;;
  update_ts_run run_id (finish_ts_run now true) ;;
  _sync_bundle_state_for_child run_id ;;
  commit ;;
  append_event run_id "full_os" "server_role_ready" "info"
    (Some (text_or message ("OSDeploy server role ready: " +:+ role)))
    (step_data agent_id step_kind data) ;;
  mret (_run_row <$> row).

(** What a failed step leaves in the list of errors. *)
Definition role_error (step_kind agent_id text : string) (data : json) : json :=
  JObj ([("source", JStr "server_role"); ("agent_id", JStr agent_id); ("step_kind", JStr step_kind);
         ("message", JStr text)] ++ if truthy data then [("data", data)] else []).

Definition role_failed (run_id step_kind agent_id : string) (message : option string) (data : json)
    (now : Z) : eff session (option osd_run) :=
  let text := text_or message ("OSDeploy role step failed: " +:+ step_kind) in
  let errors := [role_error step_kind agent_id text data] in
  row ← update_osd_run run_id (set_or_state OsdFailed now);
  upsert_readiness run_id
    (OsdReadiness "failed" (Some "unknown") (Some "online") (Some now) (Some "failed") errors (Some now))
    (λ r, OsdReadiness "failed" (rd_qga_status r) (Some "online") (rd_heartbeat_at r) (Some "failed")
            errors (Some now)) ;;
  update_ts_run run_id (λ r, set_ts_run RunFailed (Some "full_os")
    (coalesce (rn_finished_at r) (Some now)) (Some text) r) ;;
  _sync_bundle_state_for_child run_id ;;
  commit ;;
  append_event run_id "full_os" "server_role_failed" "error" (Some text)
    (step_data agent_id step_kind data) ;;
  mret (_run_row <$> row).

Definition mark_role_step_result (run_id step_kind agent_id status : string) (message : option string)
    (data : json) : eff session (option osd_run) :=
  run ← get_run run_id;
  match run with
  | None => mret None
  | Some run =>
      let role := oq_server_role (or_request run) in
      if decide (role = "base") then mret None
      else
        now ← now;
        if decide (status = "success" ∧ final_role_step_kind role ≠ Some step_kind) then
          append_event run_id "full_os" "server_role_step_complete" "info"
            (Some (text_or message ("OSDeploy role step completed: " +:+ step_kind)))
            (step_data agent_id step_kind data) ;;
          mret (Some run)
        else if decide (status = "success") then role_ready run_id role step_kind agent_id message data now
        else role_failed run_id step_kind agent_id message data now
  end.

(** ** What the builder reports *)

(** [data_json->>'job_id']; the text of an array or an object names no job. *)
Definition json_text (j : json) : option string :=
  match j with
  | JStr s => Some s
  | JInt z => Some (pretty z)
  | JBool b => Some (if b then "true" else "false")
  | _ => None
  end.

Definition job_event (run_id job_id : string) (e : osd_event) : Prop :=
  oe_run_id e = run_id ∧ oe_event_type e = "provision_job_failed" ∧
  json_text (jget "job_id" (oe_data e)) = Some job_id.

Definition from_builder (job_id : string) (error : json) : bool :=
  bool_decide (jget "source" error = JStr "builder" ∧ jget "job_id" error = JStr job_id).

(** The first entry of the job is replaced; without one the entry is appended. *)
Fixpoint replace_error (job_id : string) (entry : json) (errors : list json) : list json :=
  match errors with
  | [] => [entry]
  | e :: es => if from_builder job_id e then entry :: es else e :: replace_error job_id entry es
  end.

Definition optional_field (k : string) (v : json) : list (string * json) :=
  match v with JNull => [] | _ => [(k, v)] end.

Definition mark_failed_from_job (run_id job_id : string) (exit_code : option Z) (message : option string)
    (vmid : option Z) (phase : string) (log_tail : option string) : eff session (option osd_run) :=
  run ← get_run run_id;
  match run with
  | None => mret None
  | Some run =>
      if decide (or_state run ∈ [Complete; OsdCanceled]) then mret None
      else
        event_exists ← query (λ d, bool_decide (Exists (job_event run_id job_id) (osd_events (osdeploy d))));
        if decide (or_state run = OsdFailed ∧ event_exists = true) then mret None
        else
          now ← now;
          let error_message := PyStr.or_else (PyStr.strip (default EmptyString message))
            ("OSDeploy provision job " +:+ job_id +:+ " failed") in
          existing ← get_readiness run_id;
          let log_field := optional_field "log_tail" (json_of_option JStr (nonempty log_tail)) in
          let entry := JObj ([("source", JStr "builder"); ("job_id", JStr job_id);
            ("exit_code", json_of_option JInt exit_code); ("message", JStr error_message)] ++
            optional_field "vmid" (json_of_option JInt vmid) ++ log_field) in
          let errors := replace_error job_id entry (rd_errors existing) in
          row ← update_osd_run run_id (λ r,
            if decide (or_state r ∈ [Complete; OsdCanceled]) then r
            else set_or_state OsdFailed now (set_or_identity vmid None None None None r));
          update_ts_run run_id (λ r,
            if decide (rn_state r = RunDone) then r
            else Run (rn_sequence_id r) (rn_sequence_version_id r) RunFailed (Some phase)
              (rn_cursor_step_id r) (coalesce_json (json_of_option JInt vmid) (rn_vmid r)) (rn_vm_uuid r)
              (rn_computer_name r) (rn_serial_number r) (rn_deployment_target r) (rn_run_variables r)
              (rn_started_at r) (coalesce (rn_finished_at r) (Some now)) (Some error_message)
              (rn_created_by r)) ;;
          upsert_readiness run_id
            (OsdReadiness "failed" (Some "failed") (Some "failed") None (Some "failed") errors (Some now))
            (λ r, OsdReadiness "failed" (Some "failed") (Some "failed") (rd_heartbeat_at r)
                    (Some "failed") errors (Some now)) ;;
          _sync_bundle_state_for_child run_id ;;
          commit ;;
          (if event_exists : bool then mret tt
           else
             append_event run_id phase "provision_job_failed" "error" (Some error_message)
               (JObj ([("job_id", JStr job_id); ("exit_code", json_of_option JInt exit_code);
                       ("vmid", json_of_option JInt vmid)] ++ log_field)) ;;
             mret tt) ;;
          mret (_run_row <$> row)
  end.

(** ** The archive *)

Definition archive_run (run_id archived_by reason : string) : eff session (option osd_run) :=
  now ← now;
  row ← update_osd_run run_id (λ r,
    set_or_archive (coalesce (or_archived_at r) (Some now)) (coalesce (or_archived_by r) (Some archived_by))
      (coalesce (nullif_empty (or_archive_reason r)) (nullif_empty (Some reason))) now r);
  commit ;;
  mret (_run_row <$> row).

Definition unarchive_run (run_id : string) : eff session (option osd_run) :=
  now ← now;
  row ← update_osd_run run_id (set_or_archive None None None now);
  commit ;;
  mret (_run_row <$> row).

Definition archive_runs_by_filter (state : string) (older_than_hours : Z) (reason : string) :
    eff session (list (string * osd_run)) :=
  archived_at ← now;
  updated_at ← now;
  before ← now;
  let stale (kr : string * osd_run) := or_archived_at kr.2 = None ∧ osd_state_text (or_state kr.2) = state ∧
    (or_updated_at kr.2 < before - hours older_than_hours)%Z in
  rows ← query (λ d, select_where stale (osd_runs (osdeploy d)));
  on_osdeploy (set_osd_runs (update_where stale
    (set_or_archive (Some archived_at) (Some "operator") (Some reason) updated_at))) ;;
  commit ;;
  mret ((λ kr, (kr.1, _run_row (set_or_archive (Some archived_at) (Some "operator") (Some reason)
    updated_at kr.2))) <$> rows).
End operations.
