(* ===== verification/OsdeployPlan.v ===== *)
(** * The plan of a deployment

    What [_create_sequence_for_run] and the engine make of a server role: the generated
    sequence is stored node by node, compiled, and flattened into a plan that lists the
    steps of the role in the order they were generated in. *)

From stdpp Require Import base gmap list strings pretty sorting.
From Stdlib Require Import ZArith Lia.
From S2P Require Import Prelude Json Digest OsdeployData TsData Conditions Tree Sequences Content Runs RunState Progress Generated OsdeployRoles OsdeployRuns.

(** ** The steps of a role *)

Lemma insert_before_last_snoc {A} (l : list A) x y : insert_before_last (l ++ [y]) x = l ++ [x; y].
Proof.
  unfold insert_before_last. rewrite length_app. simpl. rewrite Nat.add_1_r. simpl.
  by rewrite take_app_length, drop_app_length.
Qed.

Lemma foldl_insert_before_last {A B} (f : B → A) (ks : list B) (l : list A) y :
  foldl (λ steps k, insert_before_last steps (f k)) (l ++ [y]) ks = l ++ (f <$> ks) ++ [y].
Proof.
  revert l. induction ks as [|k ks IH]; intros l; [done|]. simpl.
  rewrite insert_before_last_snoc. change ([f k; y]) with ([f k] ++ [y]).
  by rewrite (assoc_L (++)), IH, <- (assoc_L (++)).
Qed.

(** The work of the preinstallation environment and of Windows before the role. *)
Definition early_steps : list step_spec := take 11 base_steps.
Definition heartbeat_step : step_spec :=
  StepSpec "Wait for AutopilotAgent heartbeat" "wait_agent_heartbeat" "full_os".

Lemma steps_of_role_eq role options :
  steps_of_role role options =
  early_steps ++ (role_step <$> generated_step_kinds role options) ++ [heartbeat_step].
Proof.
  unfold steps_of_role. change base_steps with (early_steps ++ [heartbeat_step]).
  apply foldl_insert_before_last.
Qed.

Section plan.
Context `{Env} `{Sha256}.

(** ** The generated sequence *)

(** The step of a role with the columns the generator gives it. *)
Definition generated_of (role : string) (options : json) (spec : step_spec) : generated_step :=
  let kind := ss_kind spec in
  GeneratedStep (ss_name spec) kind (ss_phase spec) (step_params role options kind) (step_retries kind)
    (step_delay kind) (step_reboot kind).

Lemma create_sequence_generate name role options s :
  _create_sequence_for_run name role options s =
  generate name "Generated OSDeploy Windows Server deployment sequence" "osdeploy"
    (generated_of role options <$> steps_of_role role options) s.
Proof.
  unfold _create_sequence_for_run, generate. rewrite !run_bind.
  destruct (create_sequence _ _ _ _ s) as [[sid|e] s1]; [|done].
  by rewrite !run_bind, imap_pair_fmap, for_each_fmap.
Qed.

(** The plan step of a generated step. *)
Definition generated_plan_step (run_id role : string) (options : json) (ps : nat * step_spec)
    (st : step_row) : Prop :=
  let kind := ss_kind ps.2 in
  st_state st = Pending ∧ st_attempt st = 0%Z ∧ st_claimed_by st = None ∧
  ps_run_id (st_plan st) = run_id ∧ ps_ordinal (st_plan st) = ps.1 ∧
  ps_name (st_plan st) = ss_name ps.2 ∧ ps_kind (st_plan st) = kind ∧
  ps_phase (st_plan st) = ss_phase ps.2 ∧
  ps_resolved_params (st_plan st) = jor (step_params role options kind) (JObj []) ∧
  ps_retry_count (st_plan st) = step_retries kind ∧
  ps_retry_delay_seconds (st_plan st) = step_delay kind ∧
  ps_reboot_behavior (st_plan st) = step_reboot kind ∧ ps_continue_on_error (st_plan st) = false.

Lemma planned_role_steps run_id role options l (rows : list step_row) :
  Forall2 (is_planned run_id) (imap pair (generated_of role options <$> l)) rows →
  Forall2 (generated_plan_step run_id role options) (imap pair l) rows.
Proof.
  rewrite imap_pair_fmap, Forall2_fmap_l. intros Hl. eapply Forall2_impl; [exact Hl|]. by intros [i spec] st.
Qed.
End plan.

Section deploy.
Context `{Env} `{Sha256} `{StrSet} `{Secrets}.

(** An event that is not of the preinstallation environment is only stored. *)
Definition event_of (run_id phase event_type severity : string) (message : option string) (data : json)
    (at_ : Z) : osd_event :=
  OsdEvent run_id phase event_type severity message (jor data (JObj [])) at_.

Definition with_event (e : osd_event) (d : db) : db := set_osdeploy (set_osd_events (λ es, es ++ [e])) d.

Lemma run_append_osd_event run_id phase et sev msg data s :
  phase ≠ "pe" →
  append_event run_id phase et sev msg data s =
  if known (osd_runs (osdeploy (cur s))) run_id then
    let e := event_of run_id phase et sev msg data (clock (tick s)) in
    let d := with_event e (cur s) in (Ret e, Session d d (S (tick s)) (issued s))
  else (Exc (IntegrityError "osdeploy_run_events_run_id_fkey"),
        Session (cur s) (committed s) (S (tick s)) (issued s)).
Proof.
  intros Hp. unfold append_event, osdeploy_append_event_row, insert_osd_event,
    _mark_steps_done_from_event, _mark_pe_phase_progress_from_event.
  rewrite (decide_False (P := phase = "pe")) by done.
  rewrite (decide_True (P := phase ≠ "pe" ∨ et = "pe_registered")) by auto. run.
  by destruct (known _ run_id).
Qed.

(** What [create_run] stores of its own, once the engine has the run. *)
Lemma store_run_run run_id row g readiness_row {A} (rest : eff session A) s :
  (insert_osd_run run_id row ;; update_ts_run run_id g ;; insert_readiness run_id readiness_row ;;
   commit ;; rest) s =
  if negb (known (osd_runs (osdeploy (cur s))) run_id) && known (runs (cur s)) run_id &&
     known (artifacts (osdeploy (cur s))) (oq_artifact_id (or_request row)) &&
     negb (exists_where (λ kr : string * osd_run,
       oq_workflow_name (or_request kr.2) = oq_workflow_name (or_request row)) (osd_runs (osdeploy (cur s))))
  then
    let d := set_runs (alter g run_id) (set_osdeploy (set_osd_runs (<[run_id := row]>)) (cur s)) in
    if known (readiness (osdeploy (cur s))) run_id
    then (Exc (IntegrityError "osdeploy_readiness"), Session d (committed s) (tick s) (issued s))
    else let d := set_osdeploy (set_readiness (<[run_id := readiness_row]>)) d in
         rest (Session d d (tick s) (issued s))
  else (Exc (IntegrityError "osdeploy_runs"), s).
Proof.
  unfold insert_osd_run, update_ts_run, insert_readiness. run.
  match goal with |- context [if ?b then _ else _] => destruct b end; [|done]. run.
  assert (known (<[run_id := row]> (osd_runs (osdeploy (cur s)))) run_id = true) as ->.
  { apply known_true. rewrite lookup_insert_eq. eauto. }
  rewrite andb_true_r. by destruct (known (readiness _) run_id).
Qed.

(** The tables of OSDeploy after a deployment was created. *)
Definition deployment_tables (a : run_args) (run_id computer_name : string) (options local_admin : json)
    (now event_at : Z) (t : osdeploy_tables) : osdeploy_tables :=
  set_osd_events (λ es, es ++
    [event_of run_id "controller" "run_created" "info" (Some "OSDeploy run created") JNull event_at])
  (set_readiness (<[run_id := waiting_for_heartbeat (Some now)]>)
  (set_osd_runs (<[run_id := new_run_row a run_id computer_name options local_admin now]>) t)).

Lemma create_deployment_run a s s' run_id row :
  sequences_known (cur s) →
  (∀ id st, steps (cur s) !! id = Some st → known (runs (cur s)) (ps_run_id (st_plan st)) = true) →
  create_run a s = (Ret (run_id, row), s') →
  ∃ artifact options moment r now event_at,
    artifacts (osdeploy (cur s)) !! ra_artifact_id a = Some artifact ∧
    ar_architecture artifact = ra_architecture a ∧
    normalize_windows_computer_name (ra_vm_name a) ≠ EmptyString ∧
    sanitize_role_options (ra_server_role a) (ra_role_options a) = Ret options ∧
    Forall2 (generated_plan_step run_id (ra_server_role a) options)
      (imap pair (steps_of_role (ra_server_role a) options)) (run_steps run_id (cur s')).*2 ∧
    runs (cur s) !! run_id = None ∧ osd_runs (osdeploy (cur s)) !! run_id = None ∧
    readiness (osdeploy (cur s)) !! run_id = None ∧
    runs (cur s') = <[run_id := r]> (runs (cur s)) ∧ rn_state r = RunNamed "osdeploy_created" ∧
    written ("OSDeploy deployment for " +:+ ra_vm_name a) run_id r (cur s) (cur s') ∧
    osdeploy (cur s') = deployment_tables a run_id (normalize_windows_computer_name (ra_vm_name a)) options
      (_sanitize_local_admin moment (ra_local_admin a) true) now event_at (osdeploy (cur s)) ∧
    (∀ id st, steps (cur s) !! id = Some st → steps (cur s') !! id = Some st) ∧
    committed s' = cur s'.
Proof.
  intros Hseq Hsteps. unfold create_run. rewrite run_bind. unfold get_artifact. rewrite run_query.
  destruct (artifacts _ !! _) as [artifact|] eqn:Ha; [|done].
  case_decide as Harch; [done|]. cbv zeta. case_decide as Hname; [done|].
  rewrite run_bind. unfold lift_outcome. destruct (sanitize_role_options _ _) as [options|] eqn:Hopt; [|done].
  rewrite run_bind. cbn [password_moment]. rewrite run_bind.
  rewrite create_sequence_generate.
  destruct (generate _ _ _ _ s) as [[vid|e] s1] eqn:E1; [|done].
  rewrite run_bind. destruct (create_run_from_version _ _ _ _ _ s1) as [[rid|e] s2] eqn:E2; [|done].
  destruct (generate_create_run _ _ _ _ _ _ _ _ _ _ _ _ Hseq Hsteps E1 E2)
    as (Hplan%planned_role_steps & Hnew & (r & Hr2 & _ & Hw) & Ho2 & Hst2 & Hc2).
  rewrite run_bind, run_now, store_run_run. cbn [cur tick issued committed].
  destruct (negb _ && _ && _ && _) eqn:Hok; [|done].
  rewrite !andb_true_iff, !negb_true_iff, !known_false in Hok. destruct Hok as [[[Hno _] _] _].
  destruct (known (readiness _) rid) eqn:Hrd; [done|]. apply known_false in Hrd. cbv zeta.
  rewrite run_bind, run_append_osd_event by done. cbn [cur osdeploy set_osdeploy set_runs osd_runs set_readiness set_osd_runs].
  assert (known (<[rid := new_run_row a rid (normalize_windows_computer_name (ra_vm_name a)) options
    (_sanitize_local_admin (issued s) (ra_local_admin a) true) (clock (tick s2))]> (osd_runs (osdeploy (cur s2)))) rid = true)
    as -> by (apply known_true; rewrite lookup_insert_eq; eauto).
  intros [= <- <- <-]. cbn [cur committed].
  exists artifact, options, (issued s), (set_ts_run (RunNamed "osdeploy_created") (Some "osdeploy")
    (rn_finished_at r) (rn_last_error r) r), (clock (tick s2)), (clock (S (tick s2))).
  rewrite Ho2 in *. repeat (split; [first [done | exact Hw | simpl; by rewrite Hr2, alter_insert_eq
    | simpl; by rewrite Ho2]|]). done.
Qed.
End deploy.
