(* ===== verification/OsdeployService.v ===== *)
(** * Requests about deployments

    The handlers of [web/osdeploy_endpoints.py] that change deployments, and the three
    places where other parts of the program report to OSDeploy: results of role steps
    ([osd_v2_endpoints.py]), heartbeats of the agent ([agent_v1_endpoints.py]) and failed
    provision jobs ([builder.py]).  Tokens and the checks of the preflight that ask Proxmox
    are not modelled: a request that passes them is any request. *)

From stdpp Require Import base gmap list strings pretty sorting.
From Stdlib Require Import ZArith Lia.
From S2P Require Import Prelude Json JsonParse Digest OsdeployData TsData Conditions Tree Sequences Content Runs RunState Engine OsdeployRoles OsdeployRuns.

Section service.
Context `{Env} `{Sha256} `{StrSet} `{Secrets}.

Definition http_error (status : Z) (detail : string) : exc :=
  CustomError ("HTTPException " +:+ pretty status) detail.

(** [except ValueError as exc: raise HTTPException(status_code=400, detail=str(exc))] *)
Definition value_error_400 {A} (m : eff session A) : eff session A := λ s,
  match m s with
  | (Exc (ValueError message), s') => (Exc (http_error 400 message), s')
  | r => r
  end.

(** [try: ... except Exception: conn.rollback()] *)
Definition try_or_rollback {A} (m : eff session A) : eff session unit := λ s,
  match m s with
  | (Exc _, s') => rollback s'
  | (Ret _, s') => (Ret tt, s')
  end.

(** [if not run: raise HTTPException(status_code=404, ...)] *)
Definition found {A} (run : option A) : eff session A :=
  match run with
  | None => raise (http_error 404 "OSDeploy run not found")
  | Some run => mret run
  end.

(** ** Creating *)

(** The part of [preflight_payload] that judges the role; [clear] says that nothing else
    objects, [credentials] are the stored credentials. *)
Definition preflight (clear : bool) (credentials : list Z) (a : run_args) : eff session unit :=
  checks ← lift_outcome (validate_role_options (Some (λ id, bool_decide (id ∈ credentials)))
                           (ra_server_role a) (ra_role_options a));
  if clear && bool_decide (checks = []) then mret tt
  else raise (http_error 409 "OSDeploy blocking preflight checks failed").

Definition post_run (clear : bool) (credentials : list Z) (a : run_args) : eff session (string * osd_run) :=
  preflight clear credentials a ;;
  value_error_400 (create_run a).

Definition post_bundle (clear : bool) (credentials : list Z) (a : run_args) :
    eff session (string * osd_bundle * list (string * (osd_child * osd_run))) :=
  if decide (ra_server_role a ≠ "lab_in_a_box") then
    raise (http_error 400 "Only lab_in_a_box bundles are supported.")
  else
    preflight clear credentials a ;;
    value_error_400 (create_lab_bundle a).

(** ** The machine *)

Definition record_identity (run_id : string) (vmid : option Z) (vm_uuid mac node computer_name : option string) :
    eff session osd_run :=
  run ← set_run_identity run_id vmid vm_uuid mac node computer_name;
  found run.

(** [metadata["client_version"] = body.client_version] when there is one *)
Definition with_client_version (client_version : option string) (metadata : json) : json :=
  match nonempty client_version with
  | None => metadata
  | Some v => JObj (dict_set "client_version" (JStr v) (fields metadata))
  end.

Definition register_pe (run_id : string) (client_version : option string) (metadata : json) :
    eff session osd_run :=
  run ← mark_pe_registered run_id (with_client_version client_version metadata);
  found run.

Definition register_pe_by_identity (vm_uuid mac architecture : string)
    (build_sha client_version : option string) (metadata : json) : eff session osd_run :=
  let metadata := merge metadata
    (JObj [("vm_uuid", JStr vm_uuid); ("mac", JStr mac); ("architecture", JStr architecture);
           ("build_sha", json_of_option JStr build_sha)]) in
  run ← find_run_by_identity vm_uuid mac (Some architecture) build_sha;
  match run with
  | None => raise (http_error 404 "matching OSDeploy run not found")
  | Some run =>
      run ← mark_pe_registered run.1 (with_client_version client_version metadata);
      found run
  end.

Definition post_event (run_id phase event_type severity : string) (message : option string) (data : json) :
    eff session osd_event :=
  run ← get_run run_id;
  found run ;;
  append_event run_id phase event_type severity message data.

(** The kinds of steps OSDeploy is told about. *)
Definition reported_kinds : list string :=
  ["configure_file_server_role"; "configure_isolated_domain_controller_role";
   "verify_isolated_domain_controller_role"; "configure_mecm_prereq_role"].

Definition _sync_osdeploy_after_step_result (run_id agent_id status : string) (message : option string)
    (data : json) (step updated : step_row) : eff session unit :=
  let kind := ps_kind (st_plan step) in
  if decide (kind ∈ reported_kinds) then
    try_or_rollback
      (if decide (status = "success" ∧ st_state updated ∈ [Done; AwaitingReboot]) then
         mark_role_step_result run_id kind agent_id "success" message (jor data (JObj []))
       else if decide (status = "failed" ∧ st_state updated = Failed) then
         mark_role_step_result run_id kind agent_id "failed" message (jor data (JObj []))
       else mret None)
  else mret tt.

(** The result of a step of any run; CloudOSD, which is told as well, has other runs. *)
Definition post_step_result (run_id step_id agent_id phase status : string) (message : option string)
    (data : json) : eff session step_row :=
  step ← query (λ d, steps d !! step_id);
  match step with
  | None => raise (http_error 404 "step not found")
  | Some step =>
      if decide (ps_run_id (st_plan step) ≠ run_id) then raise (http_error 403 "step/run mismatch")
      else if decide (ps_phase (st_plan step) ∉ [phase; "any"]) then
        raise (http_error 409 "step phase mismatch")
      else
        updated ← value_error_400 (complete_step run_id step_id agent_id status message data);
        _sync_osdeploy_after_step_result run_id agent_id status message data step updated ;;
        mret updated
  end.

(** What the heartbeat of an agent means for the run it names. *)
Definition post_heartbeat (current_run_id : option string) (agent_id : string) (hb : heartbeat) :
    eff session unit :=
  match nonempty current_run_id with
  | Some run_id =>
      if decide (PyStr.lower (default EmptyString (hb_current_phase hb)) = "full_os")
      then mark_complete_from_heartbeat run_id agent_id hb ;; mret tt else mret tt
  | None => mret tt
  end.

(** The part of [_finalize_related_deployment] that changes the deployment. *)
Definition finalize_related_deployment (run_id job_id : string) (exit_code : option Z)
    (message : option string) (vmid : option Z) (log_tail : option string) : eff session bool :=
  if decide (exit_code = Some 0%Z ∨ run_id = EmptyString) then mret false
  else
    run ← mark_failed_from_job run_id job_id exit_code message vmid "provision" log_tail;
    mret (bool_decide (run ≠ None)).

(** ** The archive *)

Definition post_archive (run_id reason : string) : eff session osd_run :=
  run ← archive_run run_id "operator" reason;
  run ← found run;
  append_event run_id "controller" "run_archived" "info"
    (Some "OSDeploy run hidden from default history") (JObj [("reason", JStr reason)]) ;;
  mret run.

Definition post_unarchive (run_id : string) : eff session osd_run :=
  run ← unarchive_run run_id;
  run ← found run;
  append_event run_id "controller" "run_unarchived" "info"
    (Some "OSDeploy run restored to default history") JNull ;;
  mret run.

Definition archive_stale_failed_runs (older_than_hours : Z) : eff session (list (string * osd_run)) :=
  archive_runs_by_filter "failed" older_than_hours "stale failed OSDeploy run".

Definition archive_completed_old_runs (older_than_hours : Z) : eff session (list (string * osd_run)) :=
  archive_runs_by_filter "complete" older_than_hours "completed OSDeploy run hidden from default history".

(** ** All requests *)

Inductive osdeploy_request : Type :=
| ReqArtifact (given : artifact_row) (built_at : option Z)
| ReqPublishJob (artifact_id job_id : string)
| ReqVolid (artifact_id volid : string) (job_id : option string)
| ReqPostRun (clear : bool) (credentials : list Z) (a : run_args)
| ReqPostBundle (clear : bool) (credentials : list Z) (a : run_args)
| ReqRecordIdentity (run_id : string) (vmid : option Z) (vm_uuid mac node computer_name : option string)
| ReqRegister (run_id : string) (client_version : option string) (metadata : json)
| ReqRegisterByIdentity (vm_uuid mac architecture : string) (build_sha client_version : option string)
    (metadata : json)
| ReqEvent (run_id phase event_type severity : string) (message : option string) (data : json)
| ReqStepResult (run_id step_id agent_id phase status : string) (message : option string) (data : json)
| ReqHeartbeat (run_id : option string) (agent_id : string) (hb : heartbeat)
| ReqJobFailed (run_id job_id : string) (exit_code : option Z) (message : option string)
    (vmid : option Z) (log_tail : option string)
| ReqArchive (run_id reason : string)
| ReqUnarchive (run_id : string)
| ReqArchiveStale (hours : Z)
| ReqArchiveCompleted (hours : Z).

Definition serve_osdeploy (r : osdeploy_request) : eff session unit :=
  match r with
  | ReqArtifact g b => create_artifact g b ;; mret tt
  | ReqPublishJob a j => update_artifact_publish_job a j ;; mret tt
  | ReqVolid a v j => update_artifact_proxmox_volid a v j ;; mret tt
  | ReqPostRun c cs a => post_run c cs a ;; mret tt
  | ReqPostBundle c cs a => post_bundle c cs a ;; mret tt
  | ReqRecordIdentity r v u m n c => record_identity r v u m n c ;; mret tt
  | ReqRegister r v m => register_pe r v m ;; mret tt
  | ReqRegisterByIdentity u m a b v md => register_pe_by_identity u m a b v md ;; mret tt
  | ReqEvent r p e sv m d => post_event r p e sv m d ;; mret tt
  | ReqStepResult r s a p st m d => post_step_result r s a p st m d ;; mret tt
  | ReqHeartbeat r a hb => post_heartbeat r a hb
  | ReqJobFailed r j e m v l => finalize_related_deployment r j e m v l ;; mret tt
  | ReqArchive r rs => post_archive r rs ;; mret tt
  | ReqUnarchive r => post_unarchive r ;; mret tt
  | ReqArchiveStale h => archive_stale_failed_runs h ;; mret tt
  | ReqArchiveCompleted h => archive_completed_old_runs h ;; mret tt
  end.

(** The engine's requests and those about deployments, on one database. *)
Definition serve_all (r : request + osdeploy_request) : eff session unit :=
  match r with inl r => serve r | inr r => serve_osdeploy r end.

(** One request in a transaction of its own; the generators may move on in between. *)
Inductive service_step (s : session) : session → Prop :=
| ServiceServe r : service_step s (with_connection (serve_all r) s).2
| ServiceIdle n m : (tick s ≤ n)%nat → (issued s ≤ m)%nat →
    service_step s (Session (cur s) (committed s) n m).

Definition in_service (s : session) : Prop := rtc service_step initial s.
End service.
