(* ===== verification/OsdeployInvariant.v ===== *)
(** * What deployments keep

    The statements a handler of OSDeploy is made of, as an interface: an invariant of the
    database that all of them keep is kept by every request ([Statements]).  The invariants
    of the engine are among them, but a deployment may be done while steps of its run are
    not; so are the rules of OSDeploy's own tables ([wf_osdeploy]). *)

From stdpp Require Import base gmap list strings pretty sorting relations.
From Stdlib Require Import ZArith Lia.
From S2P Require Import Prelude Json JsonParse Text Digest CloudData OsdeployData TsData Conditions Tree Sequences Content Runs RunState Engine OsdeployRoles OsdeployRuns OsdeployPlan OsdeployService.

Section invariant.
Context `{Env} `{Sha256} `{StrSet} `{Secrets}.

(** A change of the engine's run that does not finish it. *)
Record unfinished (g : run_row → run_row) : Prop := Unfinished {
  uf_done r : rn_state (g r) = RunDone → rn_state r = RunDone;
  uf_ok r : run_ok r → run_ok (g r)
}.

(** What a statement of OSDeploy must keep. *)
Class Statements (I : db → Prop) : Prop := {
  st_artifact id a : preserves I (insert_artifact id a);
  st_artifacts id f : preserves I (on_osdeploy (set_artifacts (alter f id)));
  st_event e : preserves I (insert_osd_event e);
  st_run id f : (∀ r, or_request (f r) = or_request r) →
    preserves I (on_osdeploy (set_osd_runs (alter f id)));
  st_archive (P : string * osd_run → Prop) `{∀ x, Decision (P x)} f :
    (∀ r, or_request (f r) = or_request r) → preserves I (on_osdeploy (set_osd_runs (update_where P f)));
  st_readiness id new upd : preserves I (upsert_readiness id new upd);
  st_bundle id b : preserves I (insert_bundle id b);
  st_bundles st at_ id : preserves I (on_osdeploy (set_bundles (alter (set_bundle_state st at_) id)));
  st_ts_run id g : unfinished g → preserves I (update_ts_run id g);
  st_ts_done id g s : known (osd_runs (osdeploy (cur s))) id = true → (∀ r, run_ok r → run_ok (g r)) →
    holds_in I s → holds_in I (update_ts_run id g s).2;
  st_mark run_id kinds agent msg data : preserves I (mark_steps_done_by_kind run_id kinds agent msg data);
  st_complete run_id sid agent status msg data :
    preserves I (complete_step run_id sid agent status msg data);
  st_create a : preserves I (create_run a);
  st_child a bundle_id sanitized now ic : preserves I (create_child a bundle_id sanitized now ic)
}.

Section kept.
Context (I : db → Prop) `{!Statements I}.

Lemma kept_update_run id f : (∀ r, or_request (f r) = or_request r) → preserves I (update_osd_run id f).
Proof.
  intros Hf. unfold update_osd_run. apply preserves_bind; [by apply st_run|]. intros _. apply preserves_query.
Qed.

Lemma kept_append_event run_id phase et sev msg data :
  preserves I (append_event run_id phase et sev msg data).
Proof.
  pose proof st_event. pose proof st_mark.
  unfold append_event, osdeploy_append_event_row, _mark_steps_done_from_event,
    _mark_pe_phase_progress_from_event. cbv zeta. preserves_solve. by apply st_run.
Qed.

(** After the readiness of a run was stored, the run is a deployment. *)
Lemma kept_ready_then id new upd {A} (rest : eff session A) :
  (∀ s, known (osd_runs (osdeploy (cur s))) id = true → holds_in I s → holds_in I (rest s).2) →
  preserves I (upsert_readiness id new upd ;; rest).
Proof.
  intros Hrest s Hs. pose proof (st_readiness id new upd s Hs) as Hu. revert Hu.
  unfold upsert_readiness. rewrite !run_bind, run_query, run_checked.
  destruct (known _ id) eqn:E; simpl; [|done]. intros Hu. by apply Hrest.
Qed.

Lemma kept_finish id g {A} (rest : eff session A) s :
  (∀ r, run_ok r → run_ok (g r)) → preserves I rest →
  known (osd_runs (osdeploy (cur s))) id = true → holds_in I s →
  holds_in I ((update_ts_run id g ;; rest) s).2.
Proof.
  intros Hg Hrest Hk Hs. rewrite run_bind. pose proof (st_ts_done id g s Hk Hg Hs) as Hd.
  unfold update_ts_run in *. rewrite run_execute in *. by apply Hrest.
Qed.

Lemma kept_sync run_id : preserves I (_sync_bundle_state_for_child run_id).
Proof.
  unfold _sync_bundle_state_for_child. preserves_solve. apply st_bundles.
Qed.

Lemma finish_ts_run_ok now clear r : run_ok r → run_ok (finish_ts_run now clear r).
Proof.
  intros Hr. unfold finish_ts_run. case_decide; [done|]. intros _. simpl.
  destruct (rn_finished_at r); simpl; eauto.
Qed.

Lemma unfinished_named name phase e : unfinished (λ r, set_ts_run (RunNamed name) phase (rn_finished_at r) e r).
Proof. split; [done|]. intros r _ [?|?]; done. Qed.

Lemma kept_identity run_id vmid uuid mac node name :
  preserves I (set_run_identity run_id vmid uuid mac node name).
Proof.
  pose proof kept_append_event. unfold set_run_identity. preserves_solve.
  - apply kept_update_run. done.
  - apply st_ts_run. split; intros r; simpl; [by case_decide|]. unfold run_ok. simpl.
    case_decide; [by intros _ [?|?]|done].
Qed.

Lemma kept_pe_registered run_id metadata : preserves I (mark_pe_registered run_id metadata).
Proof.
  pose proof kept_append_event. unfold mark_pe_registered. preserves_solve.
  - by apply kept_update_run.
  - apply st_ts_run. split; [done|]. intros r _ [?|?]; done.
Qed.

Lemma kept_heartbeat run_id agent hb : preserves I (mark_complete_from_heartbeat run_id agent hb).
Proof.
  pose proof kept_append_event. pose proof st_mark.
  unfold mark_complete_from_heartbeat, get_run, get_readiness.
  apply preserves_bind; [apply preserves_query|intros [run|]; [|apply preserves_ret]].
  apply preserves_bind; [apply preserves_now|intros at_]. cbv zeta.
  do 4 (apply preserves_bind; [auto using preserves_query|intros ?]).
  apply preserves_bind; [by apply kept_update_run|intros row].
  apply kept_ready_then. intros s Hk Hs. 
  match goal with |- context [(if ?b then _ else _) ≫= ?rest] =>
    assert (preserves I (rest tt)) as Hrest by preserves_solve; destruct b end.
  - rewrite run_bind. unfold update_ts_run at 1. rewrite run_execute.
    apply Hrest. apply (st_ts_done run_id (finish_ts_run at_ false) s); [done|apply finish_ts_run_ok|done].
  - rewrite run_bind. unfold update_ts_run at 1. rewrite run_execute. apply Hrest.
    apply (st_ts_run run_id (λ r, if decide (rn_state r = RunFailed) then r
              else set_ts_run (RunNamed "role_pending") (Some "full_os") (rn_finished_at r)
                     (rn_last_error r) r)); [|done].
    split; intros r; case_decide; try done. intros _ [?|?]; done.
Qed.

Lemma kept_role_ready run_id role kind agent msg data at_ :
  preserves I (role_ready run_id role kind agent msg data at_).
Proof.
  pose proof kept_append_event. pose proof kept_sync. unfold role_ready. cbv zeta.
  apply preserves_bind; [by apply kept_update_run|intros row].
  apply kept_ready_then. intros s Hk Hs. apply kept_finish; [apply finish_ts_run_ok|preserves_solve|done|done].
Qed.

Lemma kept_role_failed run_id kind agent msg data at_ :
  preserves I (role_failed run_id kind agent msg data at_).
Proof.
  pose proof kept_append_event. pose proof kept_sync. pose proof st_readiness. unfold role_failed.
  preserves_solve; [by apply kept_update_run|apply st_ts_run].
  split; [done|]. intros r Hr _. simpl. destruct (rn_finished_at r); simpl; eauto.
Qed.

Lemma kept_role_step run_id kind agent status msg data :
  preserves I (mark_role_step_result run_id kind agent status msg data).
Proof.
  pose proof kept_append_event. pose proof kept_role_ready. pose proof kept_role_failed.
  unfold mark_role_step_result, get_run. preserves_solve.
Qed.

Lemma kept_job_failed run_id job exit msg vmid phase tail :
  preserves I (mark_failed_from_job run_id job exit msg vmid phase tail).
Proof.
  pose proof kept_append_event. pose proof kept_sync. pose proof st_readiness.
  unfold mark_failed_from_job, get_run, get_readiness. preserves_solve.
  - apply kept_update_run. intros r. by destruct (decide (or_state r ∈ _)).
  - apply st_ts_run. split; intros r; destruct (decide (rn_state r = RunDone)); try done. intros _ _. simpl.
    destruct (rn_finished_at r); simpl; eauto.
Qed.

Lemma kept_create_children a bundle_id sanitized at_ l :
  preserves I (create_children a bundle_id sanitized at_ l).
Proof.
  pose proof st_child. induction l as [|ic l IH]; simpl; preserves_solve.
Qed.

Lemma kept_create_bundle a : preserves I (create_lab_bundle a).
Proof.
  pose proof kept_create_children. pose proof st_bundle. unfold create_lab_bundle. preserves_solve.
Qed.

Lemma preserves_value_error {A} (m : eff session A) : preserves I m → preserves I (value_error_400 m).
Proof.
  intros Hm s Hs. unfold value_error_400. specialize (Hm s Hs). by destruct (m s) as [[a|[]] s'].
Qed.

Lemma preserves_try {A} (m : eff session A) : preserves I m → preserves I (try_or_rollback m).
Proof.
  intros Hm s Hs. unfold try_or_rollback. specialize (Hm s Hs).
  destruct (m s) as [[a|e] s']; [done|]. by apply preserves_rollback.
Qed.

(** Every request of OSDeploy keeps what its statements keep. *)
#[export] Instance serve_osdeploy_keeps : Keeps serve_osdeploy I.
Proof.
  pose proof st_artifact. pose proof st_artifacts. pose proof kept_append_event.
  pose proof kept_identity. pose proof kept_pe_registered. pose proof kept_heartbeat.
  pose proof kept_role_step. pose proof kept_job_failed. pose proof kept_create_bundle.
  pose proof st_create. pose proof st_complete.
  assert (∀ c cs a, preserves I (preflight c cs a)).
  { intros. unfold preflight. preserves_solve. }
  assert (∀ A (o : option A), preserves I (found o)) by (intros ? []; unfold found; preserves_solve).
  intros []; simpl; unfold create_artifact, update_artifact_publish_job, update_artifact_proxmox_volid,
    update_artifact, get_artifact, post_run, post_bundle, record_identity, register_pe,
    register_pe_by_identity, find_run_by_identity, post_event, get_run, post_step_result,
    _sync_osdeploy_after_step_result, post_heartbeat, finalize_related_deployment, post_archive,
    archive_run, post_unarchive, unarchive_run, archive_stale_failed_runs, archive_completed_old_runs,
    archive_runs_by_filter; cbv zeta; preserves_solve;
    first [by apply kept_update_run|apply preserves_value_error; eauto|apply preserves_try; preserves_solve|idtac];
    apply st_archive; done.
Qed.
End kept.

(** ** Invariants of the engine *)

(** Deployments are never deleted, and OSDeploy leaves CloudOSD alone. *)
Definition grows (f : osdeploy_tables → osdeploy_tables) : Prop :=
  ∀ t, cloud (f t) = cloud t ∧ ∀ id, known (osd_runs t) id = true → known (osd_runs (f t)) id = true.

Lemma grows_deployed f t id : grows f → deployed t id = true → deployed (f t) id = true.
Proof.
  intros Hf. destruct (Hf t) as [Hc Hr]. unfold deployed. rewrite Hc, !orb_true_iff. naive_solver.
Qed.

Lemma preserves_forget {A} (I : db → Prop) (m : eff session A) : preserves I (m ;; mret tt) → preserves I m.
Proof. intros Hm s Hs. specialize (Hm s Hs). rewrite run_bind in Hm. by destruct (m s) as [[a|e] s']. Qed.

(** Generating the sequence of a deployment is authoring. *)
Lemma kept_sequence_for_run I `{!Keeps serve_authoring I} name role options :
  preserves I (_create_sequence_for_run name role options).
Proof.
  pose proof (λ n d t c, preserves_forget I _ (keeps (ReqCreateSequence n d t c))).
  pose proof (λ s pa n k ph p e c v pr refs coe rc rd tm rb,
    preserves_forget I _ (keeps (ReqAddStep s pa n k ph p e c v pr refs coe rc rd tm rb))).
  pose proof (λ s c, preserves_forget I _ (keeps (ReqCompile s c))).
  unfold _create_sequence_for_run, add_generated_step. cbv zeta. preserves_solve.
Qed.

Lemma kept_engine_run I `{!Keeps serve_run I} v t va c rc : preserves I (create_run_from_version v t va c rc).
Proof. apply preserves_forget. exact (keeps (ReqCreateRun v t va c rc)). Qed.

Lemma kept_mark I `{!Keeps serve_run I} run_id kinds agent msg data :
  preserves I (mark_steps_done_by_kind run_id kinds agent msg data).
Proof. apply preserves_forget. exact (keeps (ReqMarkDone run_id kinds agent msg data)). Qed.

Lemma kept_complete I `{!Keeps serve_run I} run_id sid agent status msg data :
  preserves I (complete_step run_id sid agent status msg data).
Proof. apply preserves_forget. exact (keeps (ReqComplete run_id sid agent status msg data)). Qed.

Section engine.
Context (I : db → Prop) `{!Keeps serve_authoring I, !Keeps serve_run I}.
Hypothesis tables : ∀ f d, grows f → I d → I (set_osdeploy f d).
Hypothesis ts_run : ∀ id g d, unfinished g → I d → I (set_runs (alter g id) d).
Hypothesis ts_done : ∀ id g d, known (osd_runs (osdeploy d)) id = true →
  (∀ r, run_ok r → run_ok (g r)) → I d → I (set_runs (alter g id) d).

Lemma grows_same f : (∀ t, cloud (f t) = cloud t ∧ osd_runs (f t) = osd_runs t) → grows f.
Proof. intros Hf t. destruct (Hf t) as [Hc Hr]. split; [done|]. intros id. by rewrite Hr. Qed.

Lemma grows_alter f id : grows (set_osd_runs (alter f id)).
Proof. intros t. split; [done|]. intros k. simpl. by rewrite known_alter. Qed.

Lemma grows_insert r id : grows (set_osd_runs (<[id := r]>)).
Proof. intros t. split; [done|]. intros k. simpl. apply known_insert. Qed.

(** A statement that reads the tables of OSDeploy, checks them and changes them. *)
Lemma preserves_table_checked (ok : osdeploy_tables → bool) c f :
  grows f → preserves I (t ← query osdeploy; checked (ok t) c (set_osdeploy f)).
Proof.
  intros Hf s [Hc Hm]. rewrite run_bind, run_query, run_checked.
  destruct (ok _); split; simpl; auto.
Qed.

Lemma kept_insert_child id ch : preserves I (insert_child id ch).
Proof. by apply preserves_table_checked, grows_same. Qed.

Lemma kept_create_run a : preserves I (create_run a).
Proof.
  pose proof (kept_sequence_for_run I). pose proof (kept_engine_run I). pose proof (kept_mark I).
  assert (∀ id r, preserves I (insert_osd_run id r)).
  { intros id r. apply preserves_query_checked. intros d Hd _. apply tables; [apply grows_insert|done]. }
  assert (∀ id r, preserves I (insert_readiness id r)).
  { intros id r. by apply preserves_table_checked, grows_same. }
  assert (∀ e, preserves I (insert_osd_event e)).
  { intros e. by apply preserves_table_checked, grows_same. }
  unfold create_run, get_artifact, append_event,
    osdeploy_append_event_row, _mark_steps_done_from_event, _mark_pe_phase_progress_from_event. cbv zeta.
  preserves_solve.
  - by intros s Hs.
  - apply preserves_execute. intros d. apply ts_run. split; [done|]. intros r _ [?|?]; done.
  - apply preserves_execute. intros d. apply tables, grows_alter.
Qed.

Lemma statements_engine : Statements I.
Proof.
  assert (∀ f, grows f → preserves I (on_osdeploy f)) as Hon.
  { intros f Hf. apply preserves_execute. intros d. by apply tables. }
  split.
  - intros id r. by apply preserves_table_checked, grows_same.
  - intros id f. by apply Hon, grows_same.
  - intros e. by apply preserves_table_checked, grows_same.
  - intros id f _. apply Hon, grows_alter.
  - intros P HP f _. apply Hon. intros t. split; [done|]. intros id. simpl. rewrite !known_true. intros [r Hr].
    rewrite lookup_update_where, Hr. by eexists.
  - intros id new upd. by apply preserves_table_checked, grows_same.
  - intros id b. by apply preserves_table_checked, grows_same.
  - intros st at_ id. by apply Hon, grows_same.
  - intros id g Hg. apply preserves_execute. intros d. by apply ts_run.
  - intros id g s Hk Hg [Hc Hm]. unfold update_ts_run. rewrite run_execute. split; simpl; [by apply ts_done|done].
  - apply (kept_mark I).
  - apply (kept_complete I).
  - apply kept_create_run.
  - intros a b sn at_ ic. pose proof kept_create_run. pose proof kept_insert_child.
    unfold create_child. cbv zeta. preserves_solve.
Qed.
End engine.

#[export] Instance statements_nodes : Statements wf_nodes.
Proof. apply (statements_engine _); intros; by eapply wf_nodes_ext; [..|eassumption]. Qed.

#[export] Instance statements_numbered : Statements versions_numbered.
Proof. apply (statements_engine _); intros; by eapply numbered_ext; [..|eassumption]. Qed.

#[export] Instance statements_hashes : Statements hashes_match.
Proof. apply (statements_engine _); intros; by eapply hashes_ext; [..|eassumption]. Qed.

#[export] Instance statements_content : Statements wf_content.
Proof.
  apply (statements_engine _); intros; eapply wf_content_ext; try eassumption; try done;
    intros k; simpl; by rewrite ?known_alter.
Qed.

(** A deployment may be done before its steps are: the invariant leaves it out. *)
#[export] Instance statements_runs : Statements wf_runs.
Proof.
  apply (statements_engine _).
  - intros f d Hf [Hs Ho Hr Hd]. split; simpl; [done..|]. intros id r sid st Hno. apply Hd.
    apply not_true_iff_false. intros Hk. apply (grows_deployed f) in Hk; [|done]. congruence.
  - intros id g d [Hg Hok] [Hs Ho Hr Hd]. split; simpl; [|done|..].
    + intros sid st Hst. rewrite known_alter. by apply (Hs sid).
    + intros k r [(r0 & -> & H' & ->)|[_ H']]%lookup_alter_Some_inv; eauto.
    + intros k r sid st Hno [(r0 & -> & H' & ->)|[_ H']]%lookup_alter_Some_inv; eauto.
  - intros id g d Hk Hok [Hs Ho Hr Hd]. split; simpl; [|done|..].
    + intros sid st Hst. rewrite known_alter. by apply (Hs sid).
    + intros k r [(r0 & -> & H' & ->)|[_ H']]%lookup_alter_Some_inv; eauto.
    + intros k r sid st Hno [(r0 & -> & H' & ->)|[_ H']]%lookup_alter_Some_inv; eauto.
      unfold deployed in Hno. by rewrite Hk in Hno.
Qed.
End invariant.
