(* ===== verification/OsdeployTables.v ===== *)
(** * The tables of OSDeploy

    The rules the rows of OSDeploy's tables obey ([wf_osdeploy]), and that every request to
    the engine and to OSDeploy keeps them.  So every reachable state obeys them. *)

From stdpp Require Import base gmap list strings pretty sorting relations.
From Stdlib Require Import ZArith Lia Ascii.
From S2P Require Import Prelude Json Text JsonParse Digest OsdeployData TsData Conditions Tree Sequences Content Runs RunState Progress Engine Generated OsdeployRoles OsdeployRuns OsdeployPlan OsdeployService OsdeployInvariant.

(** ** Computer names *)

(** A name Windows accepts, but for a dash at its end: the name is cut after its dashes
    were stripped. *)
Definition computer_name_ok (name : string) : Prop :=
  name ≠ EmptyString ∧ (String.length name ≤ 15)%nat ∧
  Forall (λ c, is_name_char c = true) (String.list_ascii_of_string name) ∧
  (∀ c rest, name = String c rest → is_char 45 c = false).

Lemma keep_name_chars_ok s : Forall (λ c, is_name_char c = true) (String.list_ascii_of_string (keep_name_chars s)).
Proof. induction s as [|c s IH]; simpl; [constructor|]. destruct (is_name_char c) eqn:E; [by constructor|done]. Qed.

Lemma rstrip_dashes_sub P s :
  Forall P (String.list_ascii_of_string s) → Forall P (String.list_ascii_of_string (rstrip_dashes s)).
Proof.
  induction s as [|c s IH]; simpl; [done|]. intros [Hc Hs]%Forall_cons. specialize (IH Hs).
  destruct (rstrip_dashes s); [destruct (is_char 45 c)|]; simpl; auto using Forall_nil_2, Forall_cons_2.
Qed.

Lemma lstrip_dashes_sub P s :
  Forall P (String.list_ascii_of_string s) → Forall P (String.list_ascii_of_string (lstrip_dashes s)).
Proof.
  induction s as [|c s IH]; simpl; [done|]. intros [Hc Hs]%Forall_cons.
  destruct (is_char 45 c); [by apply IH|by constructor].
Qed.

Lemma lstrip_dashes_head s c rest : lstrip_dashes s = String c rest → is_char 45 c = false.
Proof.
  induction s as [|x s IH]; simpl; [done|]. destruct (is_char 45 x) eqn:E; [done|]. by intros [= <- <-].
Qed.

Lemma substring_prefix P n s :
  Forall P (String.list_ascii_of_string s) →
  Forall P (String.list_ascii_of_string (String.substring 0 n s)) ∧ (String.length (String.substring 0 n s) ≤ n)%nat.
Proof.
  revert s. induction n as [|n IH]; intros [|c s]; simpl; try (intros; split; [constructor|lia]).
  intros [Hc Hs]%Forall_cons. destruct (IH s Hs) as [H1 H2]. split; [by constructor|lia].
Qed.

Lemma normalize_ok name :
  normalize_windows_computer_name name ≠ EmptyString →
  computer_name_ok (normalize_windows_computer_name name).
Proof.
  intros Hne. unfold normalize_windows_computer_name in *. cbv zeta in *.
  pose proof (lstrip_dashes_sub _ _ (rstrip_dashes_sub _ _ (keep_name_chars_ok (PyStr.strip name)))) as Hall.
  destruct (substring_prefix _ 15 _ Hall) as [H1 H2]. split_and!; [done..|].
  intros c rest. destruct (lstrip_dashes _) as [|x t] eqn:E; [done|]. simpl. intros [= <- _].
  by eapply lstrip_dashes_head.
Qed.

Section tables.
Context `{Env} `{Sha256} `{StrSet} `{Secrets}.

(** ** The rules *)

(** What a deployment asks for. *)
Record request_ok (d : db) (id : string) (q : osd_request) : Prop := RequestOk {
  rq_artifact : known (artifacts (osdeploy d)) (oq_artifact_id q) = true;
  rq_workflow : oq_workflow_name q = "pveautopilot-osdeploy-" +:+ id;
  rq_computer : ∃ name, oq_expected_computer_name q = Some name ∧ computer_name_ok name;
  rq_options : ∃ given, sanitize_role_options (oq_server_role q) given = Ret (oq_role_options q);
  rq_admin : ∃ moment given, oq_local_admin q = _sanitize_local_admin moment given true
}.

(** Every deployment has a run of the engine and its readiness; rows refer to rows that
    exist; a bundle has one child at a place, of the role it was created with, and no
    deployment is in two bundles. *)
Record wf_osdeploy (d : db) : Prop := WfOsdeploy {
  wo_request id r : osd_runs (osdeploy d) !! id = Some r → request_ok d id (or_request r);
  wo_engine id : known (osd_runs (osdeploy d)) id = true → known (runs d) id = true;
  wo_ready id : known (osd_runs (osdeploy d)) id = known (readiness (osdeploy d)) id;
  wo_event e : e ∈ osd_events (osdeploy d) → known (osd_runs (osdeploy d)) (oe_run_id e) = true;
  wo_bundle id b : bundles (osdeploy d) !! id = Some b →
    known (artifacts (osdeploy d)) (ob_artifact_id b) = true;
  wo_child id c : bundle_children (osdeploy d) !! id = Some c →
    known (bundles (osdeploy d)) (oc_bundle_id c) = true ∧
    ∃ r, osd_runs (osdeploy d) !! oc_child_run_id c = Some r ∧
      oq_server_role (or_request r) = oc_server_role c;
  wo_place i j c1 c2 : bundle_children (osdeploy d) !! i = Some c1 →
    bundle_children (osdeploy d) !! j = Some c2 → oc_bundle_id c1 = oc_bundle_id c2 →
    oc_dependency_order c1 = oc_dependency_order c2 → i = j;
  wo_one_bundle i j c1 c2 : bundle_children (osdeploy d) !! i = Some c1 →
    bundle_children (osdeploy d) !! j = Some c2 → oc_child_run_id c1 = oc_child_run_id c2 → i = j
}.

Lemma empty_wf_osdeploy : wf_osdeploy empty_db.
Proof.
  split; simpl; intros *; try (by rewrite lookup_empty); set_solver.
Qed.

Lemma wf_osdeploy_ext d d' :
  osdeploy d' = osdeploy d → (∀ k, known (runs d) k = true → known (runs d') k = true) →
  wf_osdeploy d → wf_osdeploy d'.
Proof.
  intros Ho Hk [Hq He Hr Hev Hb Hc Hp Hone]. split; rewrite Ho; try done.
  - intros id r Hid. destruct (Hq id r Hid). by split; rewrite ?Ho.
  - intros id Hid. by apply Hk, He.
Qed.

#[export] Instance authoring_wf_osdeploy : Keeps serve_authoring wf_osdeploy.
Proof.
  apply authoring_keeps; [|intros; apply compile_keeps]; intros; eapply wf_osdeploy_ext; try eassumption; congruence.
Qed.

#[export] Instance content_wf_osdeploy : Keeps serve_content wf_osdeploy.
Proof. apply content_keeps; intros; eapply wf_osdeploy_ext; try eassumption; congruence. Qed.

#[export] Instance run_wf_osdeploy : Keeps serve_run wf_osdeploy.
Proof.
  apply run_keeps; [|intros; apply resolve_keeps]; intros; eapply wf_osdeploy_ext; try eassumption; congruence.
Qed.

(** ** The statements *)

(** Two tables with the same keys, requests and references. *)
Record same_rows (t t' : osdeploy_tables) : Prop := SameRows {
  sr_request id : or_request <$> osd_runs t' !! id = or_request <$> osd_runs t !! id;
  sr_artifact id : known (artifacts t) id = true → known (artifacts t') id = true;
  sr_ready id : known (readiness t') id = known (readiness t) id;
  sr_event e : e ∈ osd_events t' → e ∈ osd_events t ∨ known (osd_runs t) (oe_run_id e) = true;
  sr_bundle id : ob_artifact_id <$> bundles t' !! id = ob_artifact_id <$> bundles t !! id;
  sr_children : bundle_children t' = bundle_children t
}.

Lemma known_fmap {A B R} (f : A → R) (g : B → R) (t : gmap string A) (t' : gmap string B) id :
  f <$> t !! id = g <$> t' !! id → known t id = known t' id.
Proof.
  intros Hr. unfold known. apply bool_decide_ext.
  destruct (t !! id), (t' !! id); try done; by rewrite ?is_Some_alt.
Qed.

Lemma wf_same_rows f d :
  same_rows (osdeploy d) (f (osdeploy d)) → wf_osdeploy d → wf_osdeploy (set_osdeploy f d).
Proof.
  intros [Hr Ha Hrd Hev Hb Hch] [Hq He Hready Hevs Hbs Hc Hp Hone].
  pose proof (λ id, known_fmap _ _ _ _ id (Hr id)) as Hk.
  pose proof (λ id, known_fmap _ _ _ _ id (Hb id)) as Hkb.
  split; simpl; rewrite ?Hch.
  - intros id r Hid. specialize (Hr id). rewrite Hid in Hr.
    destruct (osd_runs (osdeploy d) !! id) as [r'|] eqn:E; simplify_eq/=. rewrite Hr.
    destruct (Hq id r' E). split; try done. simpl. by apply Ha.
  - intros id. rewrite Hk. apply He.
  - intros id. by rewrite Hk, Hrd.
  - intros e [Hin|Hin]%Hev; rewrite Hk; [by apply Hevs|done].
  - intros id b Hid. specialize (Hb id). rewrite Hid in Hb.
    destruct (bundles (osdeploy d) !! id) as [b'|] eqn:E; simplify_eq/=. rewrite Hb. eapply Ha, Hbs, E.
  - intros id c Hid. rewrite Hkb. destruct (Hc id c Hid) as [Hkn (r & Hrun & Hrole)]. split; [done|].
    specialize (Hr (oc_child_run_id c)). rewrite Hrun in Hr.
    destruct (osd_runs (f _) !! _) as [r'|]; simplify_eq/=. exists r'. split; [done|]. by rewrite Hr.
  - exact Hp.
  - exact Hone.
Qed.

Lemma wf_on_osdeploy f : (∀ t, same_rows t (f t)) → preserves wf_osdeploy (on_osdeploy f).
Proof. intros Hf. apply preserves_execute. intros d. by apply wf_same_rows. Qed.

Lemma wf_checked_same (ok : osdeploy_tables → bool) c f :
  (∀ t, ok t = true → (∀ id, known (osd_runs t) id = known (readiness t) id) → same_rows t (f t)) →
  preserves wf_osdeploy (t ← query osdeploy; checked (ok t) c (set_osdeploy f)).
Proof.
  intros Hf s [Hc Hm]. rewrite run_bind, run_query, run_checked.
  destruct (ok _) eqn:Hok; split; simpl; auto.
  apply wf_same_rows; [|done]. apply Hf; [done|by apply wo_ready].
Qed.

Lemma same_runs g id : (∀ r, or_request (g r) = or_request r) → ∀ t, same_rows t (set_osd_runs (alter g id) t).
Proof.
  intros Hg t. split; simpl; auto. intros k. rewrite lookup_alter. case_decide; [subst k|done].
  destruct (osd_runs t !! id); simpl; by rewrite ?Hg.
Qed.

(** ** Creating a deployment *)

Lemma known_insert_inv {R} (t : gmap string R) i r k :
  known (<[i := r]> t) k = true → known t k = true ∨ k = i.
Proof. rewrite !known_true. intros [x [[<- _]|[_ Hk]]%lookup_insert_Some]; eauto. Qed.

(** After a deployment was created the tables are well-formed, the deployment has the role
    that was asked for, and it is in no bundle. *)
Definition created_run (a : run_args) (res : outcome (string * osd_run) * session) : Prop :=
  holds_in wf_osdeploy res.2 ∧
  match res.1 with
  | Exc _ => True
  | Ret (id, _) =>
      (∃ r, osd_runs (osdeploy (cur res.2)) !! id = Some r ∧
         oq_server_role (or_request r) = ra_server_role a) ∧
      ∀ cid c, bundle_children (osdeploy (cur res.2)) !! cid = Some c → oc_child_run_id c ≠ id
  end.

(** The tables after a deployment was stored. *)
Lemma wf_stored id row g ready e d :
  wf_osdeploy d → osd_runs (osdeploy d) !! id = None → known (runs d) id = true →
  request_ok d id (or_request row) → oe_run_id e = id →
  wf_osdeploy (with_event e (set_osdeploy (set_readiness (<[id := ready]>))
    (set_runs (alter g id) (set_osdeploy (set_osd_runs (<[id := row]>)) d)))).
Proof.
  intros [Hq He Hready Hevs Hbs Hc Hp Hone] Hno Hrun [Ha Hw Hn Hop Had] Hid. split; simpl.
  - intros k r [[<- <-]|[_ Hk]]%lookup_insert_Some; [by split|]. by destruct (Hq k r Hk).
  - intros k. rewrite known_alter. intros [Hk| ->]%known_insert_inv; auto.
  - intros k. destruct (decide (k = id)) as [->|Hne].
    + trans true; [|symmetry]; apply known_true; rewrite lookup_insert_eq; eauto.
    + specialize (Hready k). unfold known in *. by rewrite !lookup_insert_ne by done.
  - intros e' [Hin| ->%list_elem_of_singleton]%elem_of_app.
    + apply known_insert. by apply Hevs.
    + rewrite Hid. apply known_true. rewrite lookup_insert_eq. eauto.
  - exact Hbs.
  - intros k c Hk. destruct (Hc k c Hk) as [Hb (r & Hr & Hrole)]. split; [done|].
    exists r. split; [|done]. rewrite lookup_insert_ne; [done|]. congruence.
  - exact Hp.
  - exact Hone.
Qed.

Lemma wf_create_run a s : holds_in wf_osdeploy s → created_run a (create_run a s).
Proof.
  intros Hs. unfold create_run. rewrite run_bind. unfold get_artifact. rewrite run_query.
  destruct (artifacts _ !! _) as [artifact|] eqn:Ha; [|by split].
  destruct (decide _); [by split|]. cbv zeta. destruct (decide _) as [|Hname]; [by split|].
  rewrite run_bind. unfold lift_outcome. destruct (sanitize_role_options _ _) as [options|] eqn:Hopt; [|by split].
  rewrite run_bind. cbn [password_moment]. rewrite run_bind.
  pose proof (kept_sequence_for_run wf_osdeploy ("OSDeploy deployment for " +:+ ra_vm_name a)
    (ra_server_role a) options s Hs) as H1s.
  destruct (_create_sequence_for_run _ _ _ s) as [[vid|e] s1]; [|by split]. rewrite run_bind.
  pose proof (kept_engine_run wf_osdeploy vid (target_of a (normalize_windows_computer_name (ra_vm_name a)))
    (variables_of a options (_sanitize_local_admin (issued s) (ra_local_admin a) true)) (Some "osdeploy") false
    s1 H1s) as H2s.
  destruct (create_run_from_version _ _ _ _ _ s1) as [[rid|e] s2]; [|by split].
  rewrite run_bind, run_now, store_run_run. cbn [cur tick issued committed].
  destruct (negb _ && _ && _ && _) eqn:Hok; [|by split].
  rewrite !andb_true_iff, !negb_true_iff, !known_false in Hok. destruct Hok as [[[Hno Hrun] Hart] _].
  destruct H2s as [Hw Hm]. cbn [snd] in Hw, Hm.
  assert (known (readiness (osdeploy (cur s2))) rid = false) as ->.
  { rewrite <- (wo_ready _ Hw). by apply known_false. }
  cbv zeta. rewrite run_bind, run_append_osd_event by done.
  cbn [cur osdeploy set_osdeploy set_runs osd_runs set_readiness set_osd_runs].
  rewrite (proj2 (known_true (<[rid := _]> _) rid)) by (rewrite lookup_insert_eq; eauto).
  cbv zeta. rewrite run_ret. split; cbn [snd fst cur committed].
  - split; apply wf_stored; try done; (split; simpl; [done|done| | |]; eauto using normalize_ok).
  - split; [eexists; split; [apply lookup_insert_eq|done]|].
    intros cid c Hc Heq. destruct (wo_child _ Hw cid c Hc) as [_ (r & Hr & _)]. congruence.
Qed.

(** ** The statements *)

Lemma kept_create_run_tables a : preserves wf_osdeploy (create_run a).
Proof. intros s Hs. by apply wf_create_run. Qed.

(** A child of a deployment that is in no bundle, at a place that is free. *)
Lemma wf_insert_child id ch r d :
  wf_osdeploy d → known (bundle_children (osdeploy d)) id = false →
  known (bundles (osdeploy d)) (oc_bundle_id ch) = true →
  osd_runs (osdeploy d) !! oc_child_run_id ch = Some r → oq_server_role (or_request r) = oc_server_role ch →
  (∀ j c, bundle_children (osdeploy d) !! j = Some c → oc_child_run_id c ≠ oc_child_run_id ch) →
  (∀ j c, bundle_children (osdeploy d) !! j = Some c →
     ¬ (oc_bundle_id c = oc_bundle_id ch ∧ oc_dependency_order c = oc_dependency_order ch)) →
  wf_osdeploy (set_osdeploy (set_bundle_children (<[id := ch]>)) d).
Proof.
  intros [Hq He Hready Hevs Hbs Hc Hp Hone] Hid Hb Hr Hrole Hnew Hfree. split; simpl; try done.
  - intros k q Hk. by destruct (Hq k q Hk).
  - intros k c [[<- <-]|[_ Hk]]%lookup_insert_Some; eauto.
  - intros i j c1 c2 [[<- <-]|[Hi Hc1]]%lookup_insert_Some [[<- <-]|[Hj Hc2]]%lookup_insert_Some H3 H4;
      [done| | |by eapply Hp]; exfalso; eapply Hfree; eauto.
  - intros i j c1 c2 [[<- <-]|[Hi Hc1]]%lookup_insert_Some [[<- <-]|[Hj Hc2]]%lookup_insert_Some H3;
      [done| | |by eapply Hone]; exfalso; eapply Hnew; eauto.
Qed.

Lemma wf_create_child a bundle_id sanitized at_ ic :
  preserves wf_osdeploy (create_child a bundle_id sanitized at_ ic).
Proof.
  intros s Hs. unfold create_child. cbv zeta. rewrite run_bind.
  set (b := with_child _ _ _ _). pose proof (wf_create_run b s Hs) as Hc.
  destruct (create_run b s) as [[[id row]|e] s1]; [|apply Hc]. destruct Hc as [Hc [(r & Hr & Hrole) Hnew]].
  cbn [snd fst] in *. rewrite run_bind, run_new_id. cbn [fst].
  unfold insert_child. rewrite !run_bind, run_query, run_checked.
  destruct (negb _ && _ && _ && _) eqn:Hok; [|exact Hc]. run.
  rewrite !andb_true_iff, !negb_true_iff, exists_where_false in Hok. destruct Hok as [[[Hno Hb] Hk] Hplace].
  split; apply (wf_insert_child _ _ r); try done; apply Hc.
Qed.

Lemma wf_insert_bundle id b : preserves wf_osdeploy (insert_bundle id b).
Proof.
  intros s [Hw Hm]. unfold insert_bundle. rewrite run_bind, run_query, run_checked.
  destruct (negb _ && _) eqn:Hok; [|done]. rewrite andb_true_iff, negb_true_iff, known_false in Hok.
  destruct Hok as [Hid Ha]. split; simpl; [|done].
  destruct Hw as [Hq He Hready Hevs Hbs Hc Hp Hone]. split; simpl; try done.
  - intros k q Hk. by destruct (Hq k q Hk).
  - intros k x [[<- <-]|[_ Hk]]%lookup_insert_Some; eauto.
  - intros k c Hk. destruct (Hc k c Hk) as [Hkb Hr]. split; [by apply known_insert|done].
Qed.

Lemma wf_update_ts_run id g : preserves wf_osdeploy (update_ts_run id g).
Proof.
  apply preserves_execute. intros d. apply wf_osdeploy_ext; [done|]. intros k. simpl. by rewrite known_alter.
Qed.

#[export] Instance statements_tables : Statements wf_osdeploy.
Proof.
  split.
  - intros id a. apply wf_checked_same. intros t _ _. split; simpl; auto using known_insert.
  - intros id f. apply wf_on_osdeploy. intros t. split; simpl; auto. intros k. by rewrite known_alter.
  - intros e. apply wf_checked_same. intros t Hk _. split; simpl; auto.
    intros e' [?| ->%list_elem_of_singleton]%elem_of_app; auto.
  - intros id f Hf. by apply wf_on_osdeploy, same_runs.
  - intros P HP f Hf. apply wf_on_osdeploy. intros t. split; simpl; auto.
    intros k. rewrite lookup_update_where. destruct (osd_runs t !! k) as [r|]; simpl; [|done].
    case_decide; [by rewrite Hf|done].
  - intros id new upd. apply wf_checked_same. intros t Hk Hready. split; simpl; auto.
    intros k. destruct (decide (k = id)) as [->|Hne].
    + rewrite <- Hready, Hk. apply known_true. rewrite lookup_partial_alter_eq. eauto.
    + unfold known. by rewrite lookup_partial_alter_ne.
  - apply wf_insert_bundle.
  - intros st at_ id. apply wf_on_osdeploy. intros t. split; simpl; auto.
    intros k. rewrite lookup_alter. case_decide; [subst k|done]. by destruct (bundles t !! id).
  - intros id g _. apply wf_update_ts_run.
  - intros id g s _ _. apply wf_update_ts_run.
  - intros run_id kinds agent msg data. by apply kept_mark; apply _.
  - intros r sid a st m d. by apply kept_complete; apply _.
  - apply kept_create_run_tables.
  - apply wf_create_child.
Qed.
End tables.

(** * Reachable states of the service

    Every state the engine and OSDeploy can reach together is well-formed: the invariants
    of both, kept by the requests of both. *)

Section reach.
Context `{Env} `{Sha256} `{StrSet} `{Secrets}.

(** ** Every version has its sequence *)

Definition versions_known (d : db) : Prop :=
  ∀ id v, versions d !! id = Some v → known (sequences d) (ver_sequence_id v) = true.

Lemma versions_known_ext d d' :
  versions d' = versions d → (∀ k, known (sequences d) k = true → known (sequences d') k = true) →
  versions_known d → versions_known d'.
Proof. intros Hv Hs Hd id v. rewrite Hv. intros Hid. by eapply Hs, Hd. Qed.

#[export] Instance authoring_versions_known : Keeps serve_authoring versions_known.
Proof.
  assert (∀ id n, preserves versions_known (insert_node id n)) as Hn.
  { intros id n. apply preserves_query_checked. intros d Hd _. by eapply versions_known_ext. }
  assert (∀ id v, preserves versions_known (insert_version id v)).
  { intros id v. apply preserves_query_checked. intros d Hd Hok.
    rewrite !andb_true_iff in Hok. destruct Hok as [[_ Hs] _].
    intros k w Hk. simpl in *. apply lookup_insert_Some in Hk as [[<- <-]|[_ Hk]]; [done|by eapply Hd]. }
  pose proof (λ sid at_ m ns, insert_normalized_keeps versions_known sid at_ m ns Hn).
  intros []; simpl; unfold create_sequence, update_sequence, add_group, add_step, add_node,
    replace_sequence_nodes, get_sequence, compile_sequence; cbv zeta; preserves_solve;
    first [apply preserves_checked; intros _|apply preserves_execute];
    intros d' Hd; (apply (versions_known_ext d'); [done| |exact Hd]);
    intros k; simpl; rewrite ?known_alter; auto using known_insert.
Qed.

#[export] Instance content_versions_known : Keeps serve_content versions_known.
Proof. apply content_keeps. intros d d' Hs _ Hv _ _ _. apply versions_known_ext; [done|]. by rewrite Hs. Qed.

#[export] Instance run_versions_known : Keeps serve_run versions_known.
Proof.
  apply run_keeps; [|intros; apply resolve_keeps]; intros d d'; intros; by apply (versions_known_ext d); try congruence.
Qed.

#[export] Instance statements_versions_known : Statements versions_known.
Proof. apply (statements_engine _); intros; (eapply versions_known_ext; [..|eassumption]); done. Qed.

Lemma empty_versions_known : versions_known empty_db.
Proof. intros id v. simpl. by rewrite lookup_empty. Qed.

Lemma sequences_known_of d : wf_nodes d → versions_known d → sequences_known d.
Proof.
  intros Hn Hv. split.
  - intros id n Hid. apply known_true. by apply (wf_node _ Hn id n).
  - intros id v Hid. apply known_true. by eapply Hv.
Qed.

(** ** All requests *)

#[export] Instance serve_all_keeps I : Keeps serve I → Keeps serve_osdeploy I → Keeps serve_all I.
Proof. intros H3 H4 [r|r]; [apply H3|apply H4]. Qed.

Lemma in_service_keeps I s : Keeps serve_all I → I empty_db → in_service s → I (cur s) ∧ I (committed s).
Proof.
  intros HI Hempty Hr. assert (holds_in I initial) as Hi by by split.
  induction Hr as [s|s s1 s2 Hstep _ IH]; [done|]. apply IH. destruct Hstep as [r|n m].
  - by apply (with_connection_keeps I (serve_all r)).
  - done.
Qed.

(** The engine and OSDeploy share a database and its transactions, and in every state
    their requests can reach, whatever they are, in whatever order, and whether they succeed
    or raise, both their tables are well-formed.  The engine's rules hold as they do without
    OSDeploy.  Every deployment has a run of the engine, an artifact, readiness, a workflow
    name of its own, a name Windows accepts and role options that were sanitized for its
    role; events, readiness and children refer to rows that exist; a bundle has at most one
    child at a place, of the role of its deployment, and no deployment is in two bundles. *)
Theorem service_well_formed (s : session) :
  in_service s →
  wf_nodes (cur s) ∧ versions_numbered (cur s) ∧ hashes_match (cur s) ∧ wf_content (cur s) ∧
  wf_runs (cur s) ∧ wf_osdeploy (cur s).
Proof.
  intros Hs. split_and!.
  - by apply (in_service_keeps wf_nodes s _ empty_nodes).
  - by apply (in_service_keeps versions_numbered s _ empty_numbered).
  - by apply (in_service_keeps hashes_match s _ empty_hashes).
  - by apply (in_service_keeps wf_content s _ empty_content).
  - by apply (in_service_keeps wf_runs s _ empty_runs).
  - by apply (in_service_keeps wf_osdeploy s _ empty_wf_osdeploy).
Qed.

(** What creating a deployment needs of the database. *)
Lemma service_ready s :
  in_service s → sequences_known (cur s) ∧
  (∀ id st, steps (cur s) !! id = Some st → known (runs (cur s)) (ps_run_id (st_plan st)) = true).
Proof.
  intros Hs. split.
  - apply sequences_known_of.
    + by apply (in_service_keeps wf_nodes s _ empty_nodes).
    + by apply (in_service_keeps versions_known s _ empty_versions_known).
  - intros id st. destruct (in_service_keeps wf_runs s _ empty_runs Hs) as [Hw _]. apply (wr_step _ Hw).
Qed.
End reach.
