(* ===== verification/OsdeployTheorems.v ===== *)
(** * What OSDeploy guarantees

    Properties of deployments and bundles that hold whatever was done before.  Also: labs, which are
    deployed as a whole. *)

From stdpp Require Import base gmap list strings pretty sorting relations.
From Stdlib Require Import ZArith Lia Ascii.
From S2P Require Import Prelude Json Text JsonParse Digest OsdeployData TsData Conditions Tree Sequences Content Runs RunState Progress Engine Generated OsdeployRoles OsdeployRuns OsdeployPlan OsdeployService OsdeployInvariant OsdeployTables.

Section secrets.
Context `{SecretsLaws}.

Lemma list_ascii_app s t :
  String.list_ascii_of_string (s +:+ t) = String.list_ascii_of_string s ++ String.list_ascii_of_string t.
Proof. induction s as [|c s IH]; [done|]. rewrite app_cons. simpl. by rewrite IH. Qed.

Lemma choice_in m i s t :
  s ≠ EmptyString → (∀ c, c ∈ String.list_ascii_of_string s → c ∈ String.list_ascii_of_string t) →
  choice m i s ∈ String.list_ascii_of_string t.
Proof. intros Hs Ht. by apply Ht, choice_elem. Qed.

(** A password that is generated for the local administrator has between 8 and 12
    characters, as many as asked for within these bounds, at least one upper case letter,
    one lower case letter, one digit and one symbol, and no character outside the four
    alphabets, whatever the source of randomness draws. *)
Theorem generated_password_complex (moment : nat) (length_ : Z) :
  let p := String.list_ascii_of_string (_generate_local_admin_password moment length_) in
  Z.of_nat (length p) = Z.max 8 (Z.min length_ 12) ∧
  Forall (λ alphabet, ∃ c, c ∈ p ∧ c ∈ String.list_ascii_of_string alphabet)
    [password_upper; password_lower; password_digits; password_symbols] ∧
  Forall (λ c, c ∈ String.list_ascii_of_string password_alphabet) p.
Proof.
  cbv zeta. unfold _generate_local_admin_password. rewrite String.list_ascii_of_string_of_list_ascii.
  match goal with |- context [shuffle moment ?l] => pose proof (shuffle_perm moment l) as Hp; set (all := l) in * end.
  split_and!.
  - rewrite Hp. unfold all. rewrite length_app, length_fmap, length_seq. simpl length. lia.
  - assert (∀ i s, s ≠ EmptyString → choice moment i s ∈ all →
      ∃ c, c ∈ shuffle moment all ∧ c ∈ String.list_ascii_of_string s) as Hex.
    { intros i s Hs Hin. exists (choice moment i s). by rewrite Hp; auto using choice_elem. }
    rewrite !Forall_cons, Forall_nil. split_and!; [apply (Hex 0)|apply (Hex 1)|apply (Hex 2)|apply (Hex 3)|]; try done; unfold all; set_solver.
  - rewrite Hp. unfold all. rewrite Forall_app, !Forall_cons, Forall_nil. split_and!; try done.
    1-4: apply choice_in; [done|]; intros c; unfold password_alphabet; rewrite !list_ascii_app, !elem_of_app; tauto.
    apply Forall_fmap, Forall_forall. intros i _. by apply choice_elem.
Qed.
End secrets.

Section theorems.
Context `{Env} `{Sha256} `{StrSet} `{Secrets}.

(** ** Bundles *)

(** What a bundle is said to be when its deployments have these states. *)
Inductive summary (states : list osd_state) : string → Prop :=
| SummaryFailed : (∃ st, st ∈ states ∧ (st = OsdFailed ∨ st = OsdCanceled)) → summary states "failed"
| SummaryComplete : (∀ st, st ∈ states → st = Complete) → states ≠ [] → summary states "complete"
| SummaryRunning : (∀ st, st ∈ states → st ≠ OsdFailed ∧ st ≠ OsdCanceled) →
    (∃ st, st ∈ states ∧ st ≠ Complete) → (∃ st, st ∈ states ∧ st ≠ Created) → summary states "running"
| SummaryCreated : (∀ st, st ∈ states → st = Created) → states ≠ [] → summary states "created".

Lemma bundle_state_summary states : states ≠ [] → summary states (bundle_state states).
Proof.
  intros Hne. unfold bundle_state.
  destruct (existsb _ states) eqn:E1.
  { apply existsb_exists in E1 as (st & Hin & Hst). constructor. exists st.
    apply bool_decide_eq_true, elem_of_cons in Hst. rewrite <- list_elem_of_In in Hin. set_solver. }
  assert (∀ st, st ∈ states → st ≠ OsdFailed ∧ st ≠ OsdCanceled) as Hok.
  { intros st Hin. apply not_true_iff_false in E1. split; intros ->; apply E1, existsb_exists;
      eexists; (split; [by apply list_elem_of_In|done]). }
  destruct (forallb _ states) eqn:E2.
  { rewrite forallb_forall in E2. constructor; [|done]. intros st Hin%list_elem_of_In. by apply E2, bool_decide_eq_true in Hin. }
  assert (∃ st, st ∈ states ∧ st ≠ Complete) as Hinc.
  { apply not_true_iff_false in E2. rewrite forallb_forall in E2.
    destruct (decide (Forall (λ st, st = Complete) states)) as [Hall|Hn].
    - exfalso. apply E2. intros st Hin%list_elem_of_In. apply bool_decide_eq_true. rewrite Forall_forall in Hall. auto.
    - apply not_Forall_Exists, Exists_exists in Hn; [|apply _]. done. }
  destruct (existsb (λ s, bool_decide (s ≠ Created)) states) eqn:E3.
  - apply existsb_exists in E3 as (st & Hin & Hst). apply SummaryRunning; [done..|]. exists st.
    by apply bool_decide_eq_true in Hst; apply list_elem_of_In in Hin.
  - constructor; [|done]. intros st Hin. apply not_true_iff_false in E3. apply dec_stable. intros Hst. apply E3, existsb_exists.
    exists st. by rewrite <- list_elem_of_In, bool_decide_eq_true.
Qed.

(** The tables after [_sync_bundle_state_for_child]. *)
Definition synced (run_id : string) (at_ : Z) (t : osdeploy_tables) : osdeploy_tables :=
  match bundle_of run_id t with
  | None => t
  | Some b =>
      match child_states b t with
      | [] => t
      | states => set_bundles (alter (set_bundle_state (bundle_state states) at_) b) t
      end
  end.

Lemma run_sync run_id s :
  ∃ s', _sync_bundle_state_for_child run_id s = (Ret tt, s') ∧
    cur s' = set_osdeploy (synced run_id (clock (tick s))) (cur s).
Proof.
  unfold _sync_bundle_state_for_child, synced. rewrite run_bind, run_query. simpl.
  destruct (bundle_of _ _) as [b|] eqn:Eb.
  2: { eexists. split; [done|]. unfold set_osdeploy. rewrite Eb. by destruct (cur s). }
  rewrite run_bind, run_query.
  destruct (child_states _ _) as [|st states] eqn:Es.
  { eexists. split; [done|]. unfold set_osdeploy. rewrite Eb, Es. by destruct (cur s). }
  eexists. split; [done|]. unfold on_osdeploy. simpl. unfold set_osdeploy. by rewrite Eb, Es.
Qed.

Definition follows (run_id : string) (t : osdeploy_tables) : Prop :=
  ∀ id c b, bundle_children t !! id = Some c → oc_child_run_id c = run_id →
    bundles t !! oc_bundle_id c = Some b → summary (child_states (oc_bundle_id c) t) (ob_state b).

(** Children whose deployments are there, each in one bundle. *)
Record children_ok (t : osdeploy_tables) : Prop := ChildrenOk {
  co_run id c : bundle_children t !! id = Some c → known (osd_runs t) (oc_child_run_id c) = true;
  co_one i j c1 c2 : bundle_children t !! i = Some c1 → bundle_children t !! j = Some c2 →
    oc_child_run_id c1 = oc_child_run_id c2 → i = j
}.

Lemma bundle_of_child t id c :
  children_ok t → bundle_children t !! id = Some c → bundle_of (oc_child_run_id c) t = Some (oc_bundle_id c).
Proof.
  intros [_ Hone] Hc. unfold bundle_of. destruct (select_where _ _) as [|[k x] l] eqn:E.
  - assert ((id, c) ∈ ([] : list (string * osd_child))) as Hin; [|by apply elem_of_nil in Hin].
    rewrite <- E, elem_of_select_where. done.
  - assert ((k, x) ∈ (k, x) :: l) as Hin by set_solver. rewrite <- E, elem_of_select_where in Hin.
    destruct Hin as [Hx Hk]. simpl in *. rewrite (Hone k id x c Hk Hc Hx) in Hk. congruence.
Qed.

Lemma child_states_nonempty t id c :
  children_ok t → bundle_children t !! id = Some c → child_states (oc_bundle_id c) t ≠ [].
Proof.
  intros [Hrun _] Hc Hnil. destruct (proj1 (known_true _ _) (Hrun id c Hc)) as [r Hr].
  assert (or_state r ∈ child_states (oc_bundle_id c) t) as Hin; [|by rewrite Hnil in Hin; apply elem_of_nil in Hin].
  apply list_elem_of_omap. exists (id, c). rewrite elem_of_isort, elem_of_select_where. simpl.
  by rewrite Hr.
Qed.

Lemma synced_follows run_id at_ t : children_ok t → follows run_id (synced run_id at_ t).
Proof.
  intros Hok. unfold synced, follows. intros id c b.
  destruct (bundle_of run_id t) as [bid|] eqn:Eb.
  2: { intros Hc <-. rewrite (bundle_of_child t id c) in Eb by done. congruence. }
  destruct (child_states bid t) as [|st states] eqn:Es.
  { intros Hc <-. rewrite (bundle_of_child t id c) in Eb by done. injection Eb as <-.
    by destruct (child_states_nonempty t id c). }
  simpl. intros Hc <-. rewrite (bundle_of_child t id c) in Eb by done. injection Eb as <-.
  rewrite lookup_alter_eq. unfold child_states in *. simpl. rewrite Es.
  destruct (bundles t !! _); simpl; [|done]. intros [= <-]. by apply bundle_state_summary.
Qed.

(** What a report leaves of the tables that concern bundles. *)
Lemma follows_event run_id e t : follows run_id t → follows run_id (set_osd_events (λ es, es ++ [e]) t).
Proof. done. Qed.

Lemma children_ok_state t g id f :
  children_ok t → children_ok (set_readiness g (set_osd_runs (alter f id) t)).
Proof. intros [Hr Hone]. split; simpl; [|done]. intros i c Hc. rewrite known_alter. by eapply Hr. Qed.

Lemma wf_children_ok d : wf_osdeploy d → children_ok (osdeploy d).
Proof.
  intros Hw. split; [|apply (wo_one_bundle _ Hw)].
  intros id c Hc. destruct (wo_child _ Hw id c Hc) as [_ (r & Hr & _)]. apply known_true. eauto.
Qed.

(** What follows the summary only adds events. *)
Definition only_events {A} (m : eff session A) : Prop :=
  ∀ s a s', m s = (Ret a, s') → ∃ es, osdeploy (cur s') = set_osd_events (λ _, es) (osdeploy (cur s)).

Lemma only_events_append run_id phase et sev msg data {A} (a : A) :
  phase ≠ "pe" → only_events (append_event run_id phase et sev msg data ;; mret a).
Proof.
  intros Hp s x s'. rewrite run_bind, run_append_osd_event by done. destruct (known _ run_id); [|done].
  cbv zeta. intros [= _ <-]. simpl. eauto.
Qed.

Lemma sync_then run_id {A} (rest : eff session A) s a s' :
  children_ok (osdeploy (cur s)) → only_events rest →
  (_sync_bundle_state_for_child run_id ;; commit ;; rest) s = (Ret a, s') →
  follows run_id (osdeploy (cur s')).
Proof.
  intros Hok Hrest. rewrite run_bind. destruct (run_sync run_id s) as (s3 & -> & Hs3).
  rewrite run_bind, run_commit. intros (es & ->)%Hrest. cbn [cur]. rewrite Hs3.
  by apply (synced_follows run_id _ _ Hok).
Qed.

Lemma upsert_then run_id new upd {A} (rest : eff session A) s a s' :
  (upsert_readiness run_id new upd ;; rest) s = (Ret a, s') →
  ∃ f, rest (on_cur (set_osdeploy (set_readiness f)) s) = (Ret a, s').
Proof.
  unfold upsert_readiness. rewrite !run_bind, run_query, run_checked. destruct (known _ run_id); [|done]. eauto.
Qed.

Lemma job_failed_follows run_id job exit message vmid phase tail s row s' :
  children_ok (osdeploy (cur s)) → phase ≠ "pe" → row ≠ None →
  mark_failed_from_job run_id job exit message vmid phase tail s = (Ret row, s') →
  follows run_id (osdeploy (cur s')).
Proof.
  intros Hok Hp Hrow. unfold mark_failed_from_job, get_run. rewrite run_bind, run_query.
  destruct (_ <$> _) as [run|]; [|by intros [= <- _]]. destruct (decide _); [by intros [= <- _]|].
  rewrite run_bind, run_query. destruct (decide _); [by intros [= <- _]|].
  rewrite run_bind, run_now. unfold get_readiness. rewrite run_bind, run_query. cbv zeta.
  unfold update_osd_run, on_osdeploy. rewrite !run_bind, run_execute, run_query. unfold update_ts_run.
  rewrite run_bind, run_execute. intros (f & Hr)%upsert_then. revert Hr. apply sync_then.
  - by apply children_ok_state.
  - destruct (bool_decide _); simpl.
    + intros s1 a s1' [= _ <-]. exists (osd_events (osdeploy (cur s1))). by destruct (osdeploy (cur s1)).
    + intros s1 a s1'. rewrite !run_bind, run_append_osd_event by done. destruct (known _ run_id); [|done].
      intros [= _ <-]. simpl. eauto.
Qed.

(** C21. A bundle says what its deployments say.  After the result of a role step that
    settles a deployment, for better or worse, and after a provision job failed, the state
    stored with the bundle of the deployment is the summary of the states of its children:
    failed when one of them failed or was canceled, complete when all are, running when one
    is beyond its creation, and created otherwise. *)
Theorem bundle_follows_children (s : session) (run_id : string) :
  in_service s →
  (∀ kind agent status message data run s' row,
     osd_runs (osdeploy (cur s)) !! run_id = Some run → oq_server_role (or_request run) ≠ "base" →
     (status = "success" → final_role_step_kind (oq_server_role (or_request run)) = Some kind) →
     mark_role_step_result run_id kind agent status message data s = (Ret row, s') →
     follows run_id (osdeploy (cur s'))) ∧
  (∀ job exit message vmid tail s',
     finalize_related_deployment run_id job exit message vmid tail s = (Ret true, s') →
     follows run_id (osdeploy (cur s'))).
Proof.
  intros Hs. destruct (in_service_keeps wf_osdeploy s _ empty_wf_osdeploy Hs) as [Hw%wf_children_ok _]. split.
  - intros kind agent status message data run s' row Hrun Hbase Hfinal. unfold mark_role_step_result, get_run.
    rewrite run_bind, run_query, Hrun. cbn [fmap option_fmap option_map].
    change (oq_server_role (or_request (_run_row run))) with (oq_server_role (or_request run)).
    rewrite decide_False by done. rewrite run_bind, run_now.
    rewrite decide_False by (intros [Hst Hk]; by apply Hk, Hfinal).
    destruct (decide _); [unfold role_ready|unfold role_failed]; cbv zeta; unfold update_osd_run, on_osdeploy;
      rewrite !run_bind, run_execute, run_query; intros (f & Hr)%upsert_then;
      unfold update_ts_run in Hr; rewrite run_bind, run_execute in Hr;
      (eapply sync_then in Hr; [done| |by apply only_events_append]); by apply children_ok_state.
  - intros job exit message vmid tail s'. unfold finalize_related_deployment. destruct (decide _); [done|].
    rewrite run_bind. destruct (mark_failed_from_job _ _ _ _ _ _ _ s) as [[row|e] s1] eqn:E; [|done].
    intros [= Hrow <-]. apply bool_decide_eq_true in Hrow. revert E. by apply job_failed_follows.
Qed.

(** C8. Creating a deployment plans exactly the steps of its role.  When [create_run]
    returns, in any state the service can reach, there is a new run of the engine and a new
    deployment under the same id, both waiting to be started, with readiness that waits for
    the heartbeat.  The plan of the run is the list of generated steps - the work of the
    preinstallation environment and of Windows, the steps of the role and last the wait for
    the agent - each pending, with its position, kind, phase, parameters, retries and
    reboot behaviour.  What it writes is exactly this: the deployment, its readiness and one
    event of it; the run with its plan and one event of it ([written]); and a sequence of its
    own with its nodes and one version.  Every row there was before is as it was, no other
    table is touched, and everything is committed. *)
Theorem create_run_deploys (s s' : session) (a : run_args) (run_id : string) (row : osd_run) :
  in_service s → create_run a s = (Ret (run_id, row), s') →
  ∃ options r engine_run updated_at,
    sanitize_role_options (ra_server_role a) (ra_role_options a) = Ret options ∧
    osd_runs (osdeploy (cur s')) = <[run_id := r]> (osd_runs (osdeploy (cur s))) ∧
    osd_runs (osdeploy (cur s)) !! run_id = None ∧
    or_state r = Created ∧ oq_server_role (or_request r) = ra_server_role a ∧
    oq_role_options (or_request r) = options ∧
    runs (cur s') = <[run_id := engine_run]> (runs (cur s)) ∧ runs (cur s) !! run_id = None ∧
    rn_state engine_run = RunNamed "osdeploy_created" ∧
    written ("OSDeploy deployment for " +:+ ra_vm_name a) run_id engine_run (cur s) (cur s') ∧
    readiness (osdeploy (cur s)) !! run_id = None ∧
    readiness (osdeploy (cur s')) =
      <[run_id := waiting_for_heartbeat (Some updated_at)]> (readiness (osdeploy (cur s))) ∧
    (∃ event, osd_events (osdeploy (cur s')) = osd_events (osdeploy (cur s)) ++ [event] ∧
       oe_run_id event = run_id ∧ oe_event_type event = "run_created") ∧
    artifacts (osdeploy (cur s')) = artifacts (osdeploy (cur s)) ∧
    bundles (osdeploy (cur s')) = bundles (osdeploy (cur s)) ∧
    bundle_children (osdeploy (cur s')) = bundle_children (osdeploy (cur s)) ∧
    cloud (osdeploy (cur s')) = cloud (osdeploy (cur s)) ∧
    Forall2 (generated_plan_step run_id (ra_server_role a) options)
      (imap pair (early_steps ++ (role_step <$> generated_step_kinds (ra_server_role a) options) ++
                  [heartbeat_step]))
      (run_steps run_id (cur s')).*2 ∧
    committed s' = cur s'.
Proof.
  intros Hs Hrun. destruct (service_ready s Hs) as [Hseq Hsteps].
  apply create_deployment_run in Hrun as (artifact & options & moment & r & at1 & at2 & _ & _ & _ & Hopt &
    Hplan & Hnew & Hfresh & Hrd & Hruns & Hst & Hw & Ho & _ & Hc); [|done..].
  rewrite steps_of_role_eq in Hplan. exists options. do 3 eexists. rewrite Ho. simpl.
  split_and!; try done. by eexists.
Qed.
End theorems.

(** * A lab in a box

    What a bundle request that is accepted leaves in the database: the bundle and its
    three deployments, in the order they depend on each other, in one domain. *)

Section lab.
Context `{Env} `{Sha256} `{StrSet} `{Secrets}.

(** What creating deployments needs and keeps. *)
Record ready (s : session) : Prop := Ready {
  rs_nodes : holds_in wf_nodes s;
  rs_versions : holds_in versions_known s;
  rs_runs : holds_in wf_runs s;
  rs_tables : holds_in wf_osdeploy s
}.

Lemma in_service_ready s : in_service s → ready s.
Proof.
  intros Hs. split.
  - by apply (in_service_keeps wf_nodes s _ empty_nodes).
  - by apply (in_service_keeps versions_known s _ empty_versions_known).
  - by apply (in_service_keeps wf_runs s _ empty_runs).
  - by apply (in_service_keeps wf_osdeploy s _ empty_wf_osdeploy).
Qed.

(** Readiness is kept by what keeps every invariant of the statements. *)
Lemma ready_kept {A} (m : eff session A) s :
  (∀ I, Statements I → preserves I m) → ready s → ready (m s).2.
Proof. intros Hm [Hn Hv Hr Ht]. split; by apply (Hm _ _ s). Qed.

Lemma ready_facts s :
  ready s → sequences_known (cur s) ∧
  (∀ id st, steps (cur s) !! id = Some st → known (runs (cur s)) (ps_run_id (st_plan st)) = true).
Proof.
  intros [[Hn _] [Hv _] [Hr _] _]. split; [by apply sequences_known_of|].
  intros id st Hst. by apply (wr_step _ Hr id st).
Qed.

(** ** The children *)

(** A child of the bundle that was created for a child of the request. *)
Definition child_created (bundle_id : string) (sanitized : json) (t : osdeploy_tables) (ic : nat * json)
    (c : string * (osd_child * osd_run)) : Prop :=
  let role := text_of (jget "role" ic.2) in
  ∃ r, bundle_children t !! c.1 = Some c.2.1 ∧ osd_runs t !! oc_child_run_id c.2.1 = Some r ∧
    oc_bundle_id c.2.1 = bundle_id ∧ oc_dependency_order c.2.1 = Z.of_nat (S ic.1) ∧
    oc_server_role c.2.1 = role ∧ or_state r = Created ∧ oq_server_role (or_request r) = role ∧
    oq_vm_name (or_request r) = text_of (jget "vm_name" ic.2) ∧
    sanitize_role_options role (child_role_options sanitized ic.2) = Ret (oq_role_options (or_request r)).

Definition grown (t t' : osdeploy_tables) : Prop :=
  osd_runs t ⊆ osd_runs t' ∧ bundle_children t ⊆ bundle_children t' ∧ bundles t' = bundles t.

Lemma child_created_grown bid san t t' ic c :
  grown t t' → child_created bid san t ic c → child_created bid san t' ic c.
Proof.
  intros (Hr & Hc & _) (r & H3 & H4 & Hrest). exists r. split; [by eapply lookup_weaken|].
  split; [by eapply lookup_weaken|done].
Qed.

Lemma create_child_run a bid san at_ ic s s' c :
  ready s → create_child a bid san at_ ic s = (Ret c, s') →
  child_created bid san (osdeploy (cur s')) ic c ∧ grown (osdeploy (cur s)) (osdeploy (cur s')).
Proof.
  intros Hs. unfold create_child. cbv zeta. rewrite run_bind. set (b := with_child _ _ _ _).
  destruct (create_run b s) as [[[rid row]|e] s1] eqn:E; [|done].
  destruct (ready_facts s Hs) as [Hseq Hsteps].
  apply create_deployment_run in E as (artifact & options & moment & r & at1 & at2 & _ & _ & _ & Hopt & _ & _ &
    Hfresh & _ & _ & _ & _ & Ho & _ & _); [|done..].
  cbn [fst snd]. rewrite run_bind, run_new_id. unfold insert_child. rewrite !run_bind, run_query, run_checked.
  destruct (negb _ && _ && _ && _) eqn:Hok; [|done]. run.
  rewrite !andb_true_iff, !negb_true_iff, !known_false in Hok. destruct Hok as [[[Hno _] _] _]. cbn [cur] in *.
  intros [= <- <-]. cbn [cur]. split.
  - unfold child_created. simpl. rewrite Ho. simpl. eexists. rewrite !lookup_insert_eq. by split_and!.
  - rewrite Ho in Hno. split_and!; simpl; rewrite Ho; simpl; [by apply insert_subseteq..|done].
Qed.

Lemma create_children_run a bid san at_ l s s' cs :
  ready s → create_children a bid san at_ l s = (Ret cs, s') →
  Forall2 (child_created bid san (osdeploy (cur s'))) l cs ∧ grown (osdeploy (cur s)) (osdeploy (cur s')).
Proof.
  revert s cs. induction l as [|ic l IH]; intros s cs Hs; simpl.
  { intros [= <- <-]. by split; [constructor|split_and!]. }
  rewrite run_bind. pose proof (ready_kept (create_child a bid san at_ ic) s (λ I _, st_child a bid san at_ ic) Hs) as H1s.
  destruct (create_child a bid san at_ ic s) as [[c|e] s1] eqn:Ec; [|done]. apply create_child_run in Ec as [Hc Hg]; [|done].
  rewrite run_bind. destruct (create_children a bid san at_ l s1) as [[rest|e] s2] eqn:El; [|done].
  intros [= <- <-]. destruct (IH s1 rest H1s El) as [Hrest Hg2]. split.
  - constructor; [by eapply child_created_grown|done].
  - destruct Hg as (? & ? & ?), Hg2 as (? & ? & ?). split_and!; by etrans.
Qed.

(** ** The domain of the lab *)

(** Member servers join the forest with the credential of the lab. *)
Definition joins (credential : Z) (fqdn : string) (options : json) : Prop :=
  _domain_join_enabled (jget "domain_join" options) = true ∧
  jget "credential_id" (jget "domain_join" options) = JInt credential ∧
  jget "domain_fqdn" (jget "domain_join" options) = JStr fqdn.

Lemma sanitize_member role o credential fqdn options :
  role ∈ ["file_server"; "mecm_prereq"] → (0 < credential)%Z → trimmed fqdn → PyStr.lower fqdn = fqdn →
  fqdn ≠ EmptyString →
  jget "domain_join" (JObj o) = JObj [("credential_id", JInt credential); ("domain_fqdn", JStr fqdn)] →
  sanitize_role_options role (JObj o) = Ret options → joins credential fqdn options.
Proof.
  intros Hrole Hpos Ht Hl Hne Hj. unfold sanitize_role_options.
  pose proof (depth_pos (JObj o)). destruct (depth (JObj o)) as [|n]; [lia|]. cbn [sanitize_fuel].
  rewrite jor_obj. cbn [py_dict mbind outcome_bind]. cbv zeta.
  assert (∃ j, _sanitize_domain_join (jget "domain_join" (JObj o)) = j ∧ _domain_join_enabled j = true ∧
    jget "credential_id" j = JInt credential ∧ jget "domain_fqdn" j = JStr fqdn) as (j & Hsj & Hen & Hc & Hf).
  { rewrite Hj. eexists. split; [done|]. unfold _sanitize_domain_join, _domain_join_enabled. cbv zeta.
    rewrite (text_field_clean "domain_fqdn" _ fqdn) by done. rewrite Hl. cbn.
    unfold _positive_int. simpl. rewrite (bool_decide_eq_true_2 (0 < _)%Z) by done. simpl. split_and!; [|done..].
    by apply bool_decide_eq_true_2. }
  set_unfold in Hrole. destruct_or! Hrole; subst role; role_branch; unfold with_domain_join; cbv zeta;
    rewrite Hsj, Hen; intros [= <-]; by split_and!.
Qed.

(** A child that is stored, with its deployment. *)
Definition stored_child (bundle_id : string) (t : osdeploy_tables) (place : Z * string)
    (c : string * (osd_child * osd_run)) (r : osd_run) : Prop :=
  bundle_children t !! c.1 = Some c.2.1 ∧ osd_runs t !! oc_child_run_id c.2.1 = Some r ∧
  oc_bundle_id c.2.1 = bundle_id ∧ oc_dependency_order c.2.1 = place.1 ∧
  oc_server_role c.2.1 = place.2 ∧ or_state r = Created ∧ oq_server_role (or_request r) = place.2.

Lemma child_created_stored bid san t i child c :
  child_created bid san t (i, child) c →
  ∃ r, stored_child bid t (Z.of_nat (S i), text_of (jget "role" child)) c r ∧
    sanitize_role_options (text_of (jget "role" child)) (child_role_options san child) =
      Ret (oq_role_options (or_request r)).
Proof. intros (r & ? & ? & ? & ? & ? & ? & ? & _ & ?). exists r. by split_and!. Qed.

Lemma value_error_ret {A} (m : eff session A) s a s' : value_error_400 m s = (Ret a, s') → m s = (Ret a, s').
Proof. unfold value_error_400. destruct (m s) as [[x|[]] s1]; naive_solver. Qed.

Lemma preflight_ret clear credentials a s s' : preflight clear credentials a s = (Ret tt, s') →
  s' = s ∧ validate_role_options (Some (λ id, bool_decide (id ∈ credentials))) (ra_server_role a)
             (ra_role_options a) = Ret [].
Proof.
  unfold preflight, lift_outcome. rewrite run_bind. destruct (validate_role_options _ _ _) as [checks|e]; [|done].
  case_bool_decide as Hc; [|by rewrite andb_false_r]. subst checks. destruct clear; [|done]. by intros [= <-].
Qed.

(** The bundle row and the children a lab request leaves. *)
Lemma create_lab_bundle_run a s s' bid b children sanitized :
  ready s → sanitize_role_options "lab_in_a_box" (ra_role_options a) = Ret sanitized →
  create_lab_bundle a s = (Ret (bid, b, children), s') →
  bundles (osdeploy (cur s')) !! bid = Some b ∧ ob_state b = "created" ∧
  Forall2 (child_created bid sanitized (osdeploy (cur s'))) (imap pair (children_of sanitized)) children.
Proof.
  intros Hs Hsan. unfold create_lab_bundle, lift_outcome. rewrite run_bind, Hsan, run_bind, run_now, run_bind, run_new_id.
  cbv zeta. rewrite run_bind. set (row := OsdBundle _ _ _ _ _ _ _).
  set (s0 := Session _ _ _ _). assert (ready s0) as H0s by (by destruct Hs; split).
  pose proof (ready_kept (insert_bundle (uuid4 (issued s)) row) s0 (λ I _, st_bundle _ _) H0s) as H1s.
  unfold insert_bundle in *. rewrite run_bind, run_query, run_checked in *.
  revert H1s. destruct (negb _ && _); [|done]. cbn [snd]. intros H1s. rewrite run_bind.
  destruct (create_children _ _ _ _ _ _) as [[cs|e] s2] eqn:E; [|done]. intros [= <- <- <- <-].
  apply create_children_run in E as (Hcs & _ & _ & Hb); [|by destruct H1s; split].
  split_and!; [|done|exact Hcs]. rewrite Hb. apply lookup_insert_eq.
Qed.

Lemma jget_dict_set k v o : jget k (JObj (dict_set k v o)) = v.
Proof.
  simpl. induction o as [|[k' v'] o IH]; simpl; [by rewrite decide_True|].
  destruct (decide (k = k')) as [->|Hne]; simpl; [by rewrite decide_True|by rewrite decide_False].
Qed.

(** The options of the children of a sanitized lab, before they are sanitized again. *)
Lemma domain_controller_child san v mode fqdn netbios admin dsrm :
  let o := DomainController mode fqdn netbios admin dsrm in
  child_role_options san (encode_child (v, o)) = encode o.
Proof. done. Qed.

Lemma member_child name credential v1 mode fqdn netbios admin dsrm rest v o :
  role_of o ∈ ["file_server"; "mecm_prereq"] →
  let san := encode_lab (LabOptions name credential
    ((v1, DomainController mode fqdn netbios admin dsrm) :: rest)) in
  ∃ fs, child_role_options san (encode_child (v, o)) = JObj fs ∧
    jget "domain_join" (JObj fs) = JObj [("credential_id", JInt credential); ("domain_fqdn", JStr fqdn)].
Proof.
  intros Ho san. unfold child_role_options.
  change (text_of (jget "role" (encode_child (v, o)))) with (role_of o). rewrite decide_True by done.
  eexists. split; [done|]. by rewrite jget_dict_set.
Qed.

(** Children at different places have different deployments. *)
Lemma stored_distinct d bid p q c e r t :
  wf_osdeploy d → stored_child bid (osdeploy d) p c r → stored_child bid (osdeploy d) q e t → p.1 ≠ q.1 →
  oc_child_run_id c.2.1 ≠ oc_child_run_id e.2.1.
Proof.
  intros Hw (H3 & _ & _ & Hp & _) (H4 & _ & _ & Hq & _) Hne Heq.
  pose proof (wo_one_bundle _ Hw _ _ _ _ H3 H4 Heq) as Hk. rewrite Hk in H3. congruence.
Qed.

(** C14. A lab is deployed in order and in one domain.  When a bundle request that passed its
    checks returns, the bundle it names is stored as created and has exactly three children
    at the places 1, 2 and 3: an isolated domain controller, a file server and an MECM
    server.  Each is stored with a deployment of its own role that waits to be started; the
    deployments are different; and both member servers will join the forest of that domain
    controller with the credential of the lab, whatever their own options said. *)
Theorem lab_bundle_deployed `{!StrSetLaws _} (s s' : session) (clear : bool) (credentials : list Z)
    (a : run_args) (bid : string) (b : osd_bundle) (children : list (string * (osd_child * osd_run))) :
  in_service s → post_bundle clear credentials a s = (Ret (bid, b, children), s') →
  bundles (osdeploy (cur s')) !! bid = Some b ∧ ob_state b = "created" ∧
  ∃ deployments credential fqdn,
    Forall2 (λ pc r, stored_child bid (osdeploy (cur s')) pc.1 pc.2 r)
      (zip [(1, "isolated_domain_controller"); (2, "file_server"); (3, "mecm_prereq")]%Z children)
      deployments ∧
    length children = 3%nat ∧ NoDup ((λ c, oc_child_run_id c.2.1) <$> children) ∧
    (jget "forest_fqdn" ∘ oq_role_options ∘ or_request <$> head deployments) = Some (JStr fqdn) ∧
    Forall (λ r, joins credential fqdn (oq_role_options (or_request r))) (tail deployments) ∧
    credential ∈ credentials.
Proof.
  intros Hs Hpost. unfold post_bundle in Hpost. destruct (decide (ra_server_role a ≠ _)) as [|Hrole]; [done|].
  apply dec_stable in Hrole. rewrite run_bind in Hpost.
  destruct (preflight clear credentials a s) as [[[]|e] s1] eqn:Ep; [|done].
  apply preflight_ret in Ep as [-> Hv]. rewrite Hrole in Hv. apply value_error_ret in Hpost.
  apply validate_lab in Hv as (l & Hsan & (Hcn & Hpos & Hclean) & (Hne & Hcred & Hroles & Hl)).
  apply in_service_ready in Hs. destruct (create_lab_bundle_run a s s' bid b children _ Hs Hsan Hpost) as (Hb & Hst & Hch).
  split; [done|]. split; [done|].
  destruct l as [name credential [|[v1 o1] [|[v2 o2] [|[v3 o3] [|]]]]]; simpl in Hroles; try done.
  injection Hroles as Hr1 Hr2 Hr3. simpl in *. unfold children_of in Hch. simpl in Hch.
  apply Forall2_cons_inv_l in Hch as (c1 & l1 & Hc1 & Hch & ->).
  apply Forall2_cons_inv_l in Hch as (c2 & l2 & Hc2 & Hch & ->).
  apply Forall2_cons_inv_l in Hch as (c3 & l3 & Hc3 & Hch & ->). apply Forall2_nil_inv_l in Hch as ->.
  destruct (kept_create_bundle wf_osdeploy a s (rs_tables _ Hs)) as [Hw _]. rewrite Hpost in Hw. cbn [snd] in Hw.
  rewrite !Forall_cons in Hclean, Hl. destruct Hclean as ([_ Ho1] & _), Hl as ([_ Hl1] & _). cbn [fst snd] in *.
  destruct o1 as [|?????|mode fqdn netbios admin dsrm|]; try done.
  apply child_created_stored in Hc1 as (r1 & Hc1 & Hs1), Hc2 as (r2 & Hc2 & Hs2), Hc3 as (r3 & Hc3 & Hs3).
  change (text_of (jget "role" (encode_child (v2, o2)))) with (role_of o2) in *.
  change (text_of (jget "role" (encode_child (v3, o3)))) with (role_of o3) in *. rewrite Hr2, Hr3 in *.
  destruct Ho1 as (Hmode & [Hft Hfl] & [Hnt Hnu] & Ha & Hd), Hl1 as (Hfne & _).
  rewrite domain_controller_child in Hs1. change (sanitize_role_options "isolated_domain_controller"
    (encode (DomainController mode fqdn netbios admin dsrm)) = Ret (oq_role_options (or_request r1))) in Hs1.
  unfold sanitize_role_options in Hs1. pose proof (depth_pos (encode (DomainController mode fqdn netbios admin dsrm))).
  destruct (depth _) as [|n] eqn:En in Hs1; [lia|]. rewrite sanitize_domain_controller in Hs1; [|done|by simpl; split_and!].
  injection Hs1 as Hs1.
  destruct (member_child name credential v1 mode fqdn netbios admin dsrm [(v2, o2); (v3, o3)] v2 o2) as (f2 & Hf2 & Hj2);
    [rewrite Hr2; set_solver|].
  destruct (member_child name credential v1 mode fqdn netbios admin dsrm [(v2, o2); (v3, o3)] v3 o3) as (f3 & Hf3 & Hj3);
    [rewrite Hr3; set_solver|].
  rewrite Hf2 in Hs2. rewrite Hf3 in Hs3.
  exists [r1; r2; r3], credential, fqdn. split_and!.
  - constructor; [exact Hc1|constructor; [exact Hc2|constructor; [exact Hc3|constructor]]].
  - done.
  - simpl. rewrite !NoDup_cons, !not_elem_of_cons.
    split_and!; try apply not_elem_of_nil; try apply NoDup_nil_2; by eapply stored_distinct.
  - simpl. by rewrite <- Hs1.
  - simpl. rewrite !Forall_cons, Forall_nil. split_and!; [eapply (sanitize_member "file_server" f2)|eapply (sanitize_member "mecm_prereq" f3)|done];
      try done; set_solver.
  - by specialize (Hcred _ eq_refl) as Hin%bool_decide_eq_true.
Qed.
End lab.
