(* ===== verification/OsdeployComplete.v ===== *)
(** * Complete deployments

    What may move a deployment out of [complete], and what a heartbeat may move into it. *)

From stdpp Require Import base gmap list strings pretty sorting relations.
From Stdlib Require Import ZArith Lia.
From S2P Require Import Prelude Json Text JsonParse Digest OsdeployData TsData Conditions Tree Sequences Content Runs RunState Engine OsdeployRoles OsdeployRuns OsdeployPlan OsdeployService OsdeployInvariant OsdeployTables.

Section complete.
Context `{Env} `{Sha256} `{StrSet} `{Secrets}.

Definition is_complete (id : string) (d : db) : Prop :=
  ∃ r, osd_runs (osdeploy d) !! id = Some r ∧ or_state r = Complete.

(** The requests that may take a deployment out of [complete]: the preinstallation
    environment registers for it, or a step of its role is reported failed. *)
Definition reopens (id : string) (r : request + osdeploy_request) : Prop :=
  match r with
  | inr (ReqRegister i _ _) => i = id
  | inr (ReqStepResult i _ _ _ status _ _) => i = id ∧ status = "failed"
  | _ => False
  end.

Context (id : string).
Notation I := (is_complete id).

(** ** The statements *)

Lemma complete_ext d d' : osd_runs (osdeploy d') = osd_runs (osdeploy d) → I d → I d'.
Proof. unfold is_complete. by intros ->. Qed.

Lemma complete_alter i f d :
  (i = id → ∀ r, or_state r = Complete → or_state (f r) = Complete) →
  I d → I (set_osdeploy (set_osd_runs (alter f i)) d).
Proof.
  intros Hf (r & Hr & Hc). unfold is_complete. simpl. rewrite lookup_alter. case_decide as Hi; [subst i|eauto].
  rewrite Hr. simpl. eauto.
Qed.

Lemma complete_update i f :
  (i = id → ∀ r, or_state r = Complete → or_state (f r) = Complete) → preserves I (update_osd_run i f).
Proof.
  intros Hf. unfold update_osd_run, on_osdeploy. preserves_solve. apply preserves_execute. intros d.
  by apply complete_alter.
Qed.

(** A statement on the other tables. *)
Lemma complete_other (ok : osdeploy_tables → bool) c f :
  (∀ t, osd_runs (f t) = osd_runs t) →
  preserves I (t ← query osdeploy; checked (ok t) c (set_osdeploy f)).
Proof.
  intros Hf s [Hc Hm]. rewrite run_bind, run_query, run_checked.
  destruct (ok _); [|done]. split; simpl; [|done]. eapply complete_ext; [|exact Hc]. by apply Hf.
Qed.

Lemma complete_execute f : (∀ d, osd_runs (osdeploy (f d)) = osd_runs (osdeploy d)) → preserves I (execute f).
Proof. intros Hf. apply preserves_execute. intros d. by apply complete_ext. Qed.

#[export] Instance authoring_complete : Keeps serve_authoring I.
Proof.
  apply authoring_keeps; [|intros; apply compile_keeps]; intros; eapply complete_ext; try eassumption; congruence.
Qed.
#[export] Instance content_complete : Keeps serve_content I.
Proof. apply content_keeps; intros; eapply complete_ext; try eassumption; congruence. Qed.
#[export] Instance run_complete : Keeps serve_run I.
Proof.
  apply run_keeps; [|intros; apply resolve_keeps]; intros; eapply complete_ext; try eassumption; congruence.
Qed.

Lemma complete_append_event i phase et sev msg data : preserves I (append_event i phase et sev msg data).
Proof.
  pose proof (kept_mark I).
  assert (∀ e, preserves I (insert_osd_event e)) by (intros e; by apply complete_other).
  unfold append_event, osdeploy_append_event_row, _mark_steps_done_from_event,
    _mark_pe_phase_progress_from_event. cbv zeta. preserves_solve.
  apply preserves_execute. intros d. by apply complete_alter.
Qed.

Lemma complete_upsert i new upd : preserves I (upsert_readiness i new upd).
Proof. by apply complete_other. Qed.

Lemma complete_ts_run i g : preserves I (update_ts_run i g).
Proof. by apply complete_execute. Qed.

Lemma complete_sync i : preserves I (_sync_bundle_state_for_child i).
Proof. unfold _sync_bundle_state_for_child. preserves_solve. by apply complete_execute. Qed.

Lemma complete_create_run a : preserves I (create_run a).
Proof.
  pose proof (kept_sequence_for_run I). pose proof (kept_engine_run I).
  pose proof complete_append_event. pose proof complete_ts_run.
  assert (∀ i r, preserves I (insert_osd_run i r)).
  { intros i r. apply preserves_query_checked. intros d (r0 & Hr & Hc) Hok.
    rewrite !andb_true_iff, negb_true_iff, known_false in Hok. destruct Hok as [[[Hno _] _] _].
    exists r0. split; [|done]. simpl. rewrite lookup_insert_ne; [done|]. congruence. }
  assert (∀ i r, preserves I (insert_readiness i r)) by (intros i r; by apply complete_other).
  unfold create_run, get_artifact. cbv zeta. preserves_solve. by intros s Hs.
Qed.

Lemma complete_create_bundle a : preserves I (create_lab_bundle a).
Proof.
  pose proof complete_create_run.
  assert (∀ i ch, preserves I (insert_child i ch)) by (intros i ch; by apply complete_other).
  assert (∀ i b, preserves I (insert_bundle i b)) by (intros i b; by apply complete_other).
  assert (∀ b san at_ l, preserves I (create_children a b san at_ l)).
  { intros b san at_ l. induction l as [|ic l IH]; simpl; unfold create_child; cbv zeta; preserves_solve. }
  unfold create_lab_bundle. preserves_solve.
Qed.

(** ** What is reported *)

Lemma complete_identity i vmid uuid mac node name : preserves I (set_run_identity i vmid uuid mac node name).
Proof.
  pose proof complete_append_event. pose proof complete_ts_run. unfold set_run_identity. preserves_solve.
  apply complete_update. intros _ r Hr. simpl. by rewrite Hr.
Qed.

Lemma complete_registered i metadata : i ≠ id → preserves I (mark_pe_registered i metadata).
Proof.
  intros Hi. pose proof complete_append_event. pose proof complete_ts_run. unfold mark_pe_registered.
  preserves_solve. by apply complete_update.
Qed.

(** A run that is read while the deployment is complete. *)
Lemma preserves_get_run {A} i (f : option osd_run → eff session A) :
  (i ≠ id → ∀ o, preserves I (f o)) →
  (i = id → ∀ r, or_state r = Complete → preserves I (f (Some (_run_row r)))) →
  preserves I (get_run i ≫= f).
Proof.
  intros Hne Heq s Hs. rewrite run_bind. unfold get_run. rewrite run_query.
  destruct (decide (i = id)) as [->|Hi]; [|by apply Hne].
  destruct Hs as [(r & Hr & Hc) Hm]. rewrite Hr. simpl. by apply Heq; [done..|split; [exists r|]].
Qed.

Lemma complete_heartbeat i agent hb : preserves I (mark_complete_from_heartbeat i agent hb).
Proof.
  pose proof complete_append_event. pose proof complete_ts_run. pose proof complete_upsert.
  pose proof (kept_mark I). unfold mark_complete_from_heartbeat, get_readiness.
  apply preserves_get_run.
  - intros Hi o. preserves_solve. by apply complete_update.
  - intros _ r Hr. preserves_solve. apply complete_update. intros _ r' _. simpl. rewrite Hr.
    by destruct (bool_decide (oq_server_role _ = _)).
Qed.

Lemma complete_job_failed i job exit msg vmid phase tail : preserves I (mark_failed_from_job i job exit msg vmid phase tail).
Proof.
  pose proof complete_append_event. pose proof complete_ts_run. pose proof complete_upsert. pose proof complete_sync.
  unfold mark_failed_from_job, get_run, get_readiness. preserves_solve.
  apply complete_update. intros _ r Hr. rewrite decide_True; [done|]. rewrite Hr. set_solver.
Qed.

Lemma complete_role_step i kind agent status msg data :
  (i = id → status = "success") → preserves I (mark_role_step_result i kind agent status msg data).
Proof.
  intros Hi. pose proof complete_append_event. pose proof complete_ts_run. pose proof complete_upsert.
  pose proof complete_sync. unfold mark_role_step_result, get_run. preserves_solve.
  - unfold role_ready. preserves_solve. by apply complete_update.
  - unfold role_failed. preserves_solve. apply complete_update. intros ->%Hi. done.
Qed.

Lemma complete_archive_filter state h reason : preserves I (archive_runs_by_filter state h reason).
Proof.
  unfold archive_runs_by_filter. cbv zeta. preserves_solve. apply preserves_execute.
  intros d (r & Hr & Hc). unfold is_complete. simpl. rewrite lookup_update_where, Hr. simpl.
  eexists. split; [done|]. by case_decide.
Qed.

(** The search for a machine that registers finds no complete deployment. *)
Lemma complete_register_identity uuid mac arch sha version metadata :
  preserves I (register_pe_by_identity uuid mac arch sha version metadata).
Proof.
  intros s Hs. unfold register_pe_by_identity, find_run_by_identity. cbv zeta. rewrite run_bind, run_query.
  destruct (head _) as [[i r]|] eqn:E; simpl; [|done].
  assert (i ≠ id) as Hi.
  { intros ->. apply head_Some_elem_of in E. rewrite elem_of_isort, elem_of_select_where in E.
    destruct E as [(_ & _ & _ & _ & _ & Hst) Hr], Hs as [(r0 & Hr0 & Hc) _]. simpl in *.
    assert (r0 = r) as -> by congruence. rewrite Hc in Hst. set_solver. }
  apply (preserves_bind I); [by apply complete_registered| |exact Hs].
  intros []; unfold found; preserves_solve.
Qed.

Lemma complete_step_result i sid agent phase status msg data :
  (i = id → status ≠ "failed") → preserves I (post_step_result i sid agent phase status msg data).
Proof.
  intros Hi. pose proof (kept_complete I).
  assert (∀ A (m : eff session A), preserves I m → preserves I (value_error_400 m)) by apply preserves_value_error.
  assert (∀ A (m : eff session A), preserves I m → preserves I (try_or_rollback m)) by apply preserves_try.
  unfold post_step_result, _sync_osdeploy_after_step_result. preserves_solve.
  apply preserves_try. preserves_solve; apply complete_role_step; naive_solver.
Qed.

Lemma preserves_complete r : ¬ reopens id r → preserves I (serve_all r).
Proof.
  intros Hr. destruct r as [r|r]; simpl in *; [by apply keeps|].
  pose proof complete_append_event. pose proof complete_identity. pose proof complete_heartbeat.
  pose proof complete_job_failed. pose proof complete_create_run. pose proof complete_create_bundle.
  pose proof complete_archive_filter. pose proof complete_register_identity.
  assert (∀ c cs a, preserves I (preflight c cs a)) by (intros; unfold preflight; preserves_solve).
  assert (∀ A (o : option A), preserves I (found o)) by (intros ? []; unfold found; preserves_solve).
  assert (∀ i a, preserves I (insert_artifact i a)) by (intros i a; by apply complete_other).
  assert (∀ i f, (∀ r, or_state (f r) = or_state r) → preserves I (update_osd_run i f)) as Hup.
  { intros i f Hf. apply complete_update. intros _ r0. by rewrite Hf. }
  destruct r; simpl in *; unfold create_artifact, update_artifact_publish_job, update_artifact_proxmox_volid,
    update_artifact, get_artifact, post_run, post_bundle, record_identity, register_pe,
    post_event, get_run, post_heartbeat, finalize_related_deployment, post_archive,
    archive_run, post_unarchive, unarchive_run, archive_stale_failed_runs, archive_completed_old_runs,
    on_osdeploy; cbv zeta; preserves_solve;
    first [by apply Hup|by apply complete_execute|by apply complete_other|by apply preserves_value_error; eauto
          |by apply complete_registered|apply complete_step_result; naive_solver].
Qed.
End complete.

(** C16. What is complete stays complete.  Whatever is served, to whichever deployment, by
    the engine or by OSDeploy, and whether it succeeds or raises - heartbeats, job
    failures, events, identities, the archive, other deployments - a complete deployment is
    complete afterwards.  Only two requests can change that, and only for the deployment
    they name: a registration from the preinstallation environment under its id, and a
    step of its role that is reported failed.  A registration by the identity of the
    machine cannot. *)
Theorem complete_stays_complete `{Env} `{Sha256} `{StrSet} `{Secrets} (id : string)
    (r : request + osdeploy_request) (s : session) :
  ¬ reopens id r → is_complete id (cur s) → committed s = cur s →
  is_complete id (cur (with_connection (serve_all r) s).2).
Proof.
  intros Hr Hs Hc. apply (with_connection_keeps (is_complete id) (serve_all r)); [by apply preserves_complete|].
  by split; rewrite ?Hc.
Qed.

(** * Heartbeats

    The heartbeat of the agent in the installed Windows is what completes a plain server;
    a server role needs evidence of its own. *)

Section heartbeat.
Context `{Env} `{Sha256} `{StrSet} `{Secrets}.

(** ** Steps of other kinds are left alone *)

Definition steps_of_kind (k : string) (d : db) : gmap string step_row :=
  filter (λ kr : string * step_row, ps_kind (st_plan kr.2) = k) (steps d).

Lemma steps_of_kind_alter k f sid d :
  (∀ st, st_plan (f st) = st_plan st) → steps_of_kind k d !! sid = None →
  steps_of_kind k (set_steps (alter f sid) d) = steps_of_kind k d.
Proof.
  intros Hf Hno. apply map_eq. intros i. unfold steps_of_kind in *. simpl.
  rewrite !map_lookup_filter in *. rewrite lookup_alter. case_decide; [subst i|done].
  destruct (steps d !! sid) as [st|]; simpl in *; [|done]. case_guard; [done|].
  by rewrite option_guard_False by (by rewrite Hf).
Qed.

Lemma mark_keeps_kind k t run_id kinds agent msg data s :
  k ∉ kinds → holds_in (λ d, steps_of_kind k d = t) s →
  holds_in (λ d, steps_of_kind k d = t) (mark_steps_done_by_kind run_id kinds agent msg data s).2.
Proof.
  intros Hk Hs. unfold mark_steps_done_by_kind.
  assert (k ∉ normalized_supported kinds) as Hk'.
  { unfold normalized_supported. rewrite list_elem_of_filter. naive_solver. }
  destruct (normalized_supported kinds) as [|k0 ks] eqn:E; [done|]. rewrite <- E in *. clear E k0 ks.
  rewrite run_bind, run_query. set (rows := filter _ (run_steps run_id (cur s))).
  assert (∀ kr, kr ∈ rows → t !! kr.1 = None) as Hrows.
  { intros [sid st] Hin. unfold rows in Hin. rewrite list_elem_of_filter in Hin. destruct Hin as [Hin Hst].
    simpl in *. unfold run_steps in Hst. rewrite elem_of_isort, elem_of_select_where in Hst. destruct Hst as [_ Hst].
    rewrite <- (proj1 Hs). unfold steps_of_kind. apply map_lookup_filter_None. right.
    intros st' Hst' Heq. simpl in *. assert (st' = st) as -> by congruence. by rewrite Heq in Hin. }
  clearbody rows. revert s Hs. match goal with |- ∀ s, _ → holds_in ?I (?m s).2 => change (preserves I m) end.
  assert (∀ a b c d e f g h i, preserves (λ d, steps_of_kind k d = t) (Runs.append_event a b c d e f g h i)).
  { intros. unfold Runs.append_event. preserves_solve. by apply preserves_query_checked. }
  unfold mark_done. preserves_solve; apply preserves_execute; intros d Hd; [|done..].
  rewrite steps_of_kind_alter; [done..|]. rewrite Hd. by apply Hrows.
Qed.

Lemma final_step_done_kind run_id k d d' :
  steps_of_kind k d = steps_of_kind k d' → final_step_done run_id (Some k) d = final_step_done run_id (Some k) d'.
Proof.
  assert (∀ e, final_step_done run_id (Some k) e = true ↔
    ∃ sid st, steps_of_kind k e !! sid = Some st ∧ ps_run_id (st_plan st) = run_id ∧ st_state st = Done) as Hiff.
  { intros e. unfold final_step_done, steps_of_kind. rewrite exists_where_true. simpl.
    setoid_rewrite map_lookup_filter_Some. simpl. naive_solver. }
  intros Heq. apply eq_true_iff_eq. by rewrite !Hiff, Heq.
Qed.

Lemma final_kind_is_action role k : final_role_step_kind role = Some k → k ∈ FULL_OS_ROLE_ACTION_KINDS.
Proof.
  unfold final_role_step_kind, role_step_kinds, ROLE_STEP_KINDS. simpl. repeat case_decide; simpl; try done;
    intros [= <-]; by eapply bool_decide_unpack; vm_compute.
Qed.

(** A heartbeat does not touch the step that makes the role ready. *)
Lemma heartbeat_keeps_final run_id role agent msg data s :
  committed s = cur s →
  final_step_done run_id (final_role_step_kind role)
    (cur (mark_steps_done_by_kind run_id (heartbeat_kinds run_id (bool_decide (role = "base")) (cur s))
            agent msg data s).2) =
  final_step_done run_id (final_role_step_kind role) (cur s).
Proof.
  intros Hc. destruct (final_role_step_kind role) as [k|] eqn:Hk; [|done].
  assert (role ≠ "base") as Hbase by (intros ->; done).
  apply final_step_done_kind, (mark_keeps_kind k); [|by split; rewrite ?Hc].
  unfold heartbeat_kinds. rewrite elem_of_remove_dups, bool_decide_eq_false_2 by done.
  intros ([sid st] & -> & Hin)%list_elem_of_fmap. apply list_elem_of_filter in Hin as [[_ [?|Hno]] _]; [done|].
  by apply Hno, (final_kind_is_action role).
Qed.

(** The evidence that the role of a deployment is ready. *)
Definition role_evidence (run_id : string) (r : osd_run) (d : db) : Prop :=
  let role := oq_server_role (or_request r) in
  role = "base" ∨ or_state r = Complete ∨
  (∃ rd, readiness (osdeploy d) !! run_id = Some rd ∧
     (rd_state rd = "complete" ∨ rd_server_role_status rd = Some (role_readiness_status role))) ∨
  (∃ sid st, steps d !! sid = Some st ∧ ps_run_id (st_plan st) = run_id ∧ st_state st = Done ∧
     final_role_step_kind role = Some (ps_kind (st_plan st))).

Lemma role_evidence_bool run_id r d rd :
  readiness (osdeploy d) !! run_id = Some rd →
  let role := oq_server_role (or_request r) in
  let base := bool_decide (role = "base") in
  base || negb base &&
    (bool_decide (or_state r = Complete) || bool_decide (rd_state rd = "complete") ||
     bool_decide (rd_server_role_status rd = Some (role_readiness_status role)) ||
     final_step_done run_id (final_role_step_kind role) d) = true ↔ role_evidence run_id r d.
Proof.
  intros Hrd role base. unfold role_evidence, base. fold role.
  destruct (decide (role = "base")) as [Hb|Hb].
  { rewrite bool_decide_eq_true_2 by done. simpl. tauto. }
  rewrite bool_decide_eq_false_2 by done. simpl. rewrite !orb_true_iff, !bool_decide_eq_true. unfold final_step_done.
  destruct (final_role_step_kind role) as [k|]; [rewrite exists_where_true; simpl|]; rewrite Hrd; naive_solver.
Qed.

Lemma run_upsert run_id new upd s :
  upsert_readiness run_id new upd s =
  if known (osd_runs (osdeploy (cur s))) run_id then
    (Ret tt, on_cur (set_osdeploy (set_readiness (partial_alter (λ old, Some (from_option upd new old)) run_id))) s)
  else (Exc (IntegrityError "osdeploy_readiness_run_id_fkey"), s).
Proof. unfold upsert_readiness. by rewrite run_bind, run_query, run_checked. Qed.

End heartbeat.
