(* ===== verification/OsdeployExamples.v ===== *)
(** * Deployments, end to end

    Concrete deployments: instances of the theorems about OSDeploy, and the behaviours of
    late heartbeats and of reports about unknown runs that modelling brought to light. *)

From stdpp Require Import base gmap list strings pretty sorting relations.
From Stdlib Require Import ZArith Lia Ascii.
From S2P Require Import Prelude Json Text JsonParse Digest OsdeployData TsData Conditions Tree Sequences Content Runs RunState Progress Engine OsdeployRoles OsdeployRuns OsdeployPlan OsdeployService OsdeployInvariant OsdeployTables OsdeployTheorems OsdeployComplete.
Import AuthoringExample.

#[export] Instance first_seen : StrSet := λ l, remove_dups l.

#[export] Instance first_seen_laws : StrSetLaws first_seen.
Proof. split; [intros l; apply NoDup_remove_dups|intros l x; apply elem_of_remove_dups]. Qed.

(** A source that always draws the first character and reverses the order. *)
#[export] Instance first_drawn : Secrets := {|
  choice _ _ s := match s with String c _ => c | EmptyString => Ascii.zero end;
  shuffle _ l := rev l
|}.

#[export] Instance first_drawn_laws : SecretsLaws first_drawn.
Proof. split; [intros m i [|c s]; [done|intros _; left]|intros m l; apply Permutation_sym, Permutation_rev]. Qed.

(** ** Requests *)

Definition play_all (rs : list (request + osdeploy_request)) (s : session) : session :=
  foldl (λ s r, (with_connection (serve_all r) s).2) s rs.

Lemma play_all_in_service rs s : in_service s → in_service (play_all rs s).
Proof.
  revert s. induction rs as [|r rs IH]; intros s Hs; simpl; [done|].
  apply IH. eapply rtc_r; [done|]. constructor.
Qed.

Definition media : artifact_row :=
  Artifact "amd64" "1" "1" "1" "sha" "iso" "wim" "manifest" "A0" "B0" "source" "Server" 1 "2025" "Standard"
    "en-us" "builder" 0 None None None 0.

Definition wanted (vm_name role : string) (options : json) : run_args :=
  RunArgs "id0" vm_name (Some "pve1") None None None None "amd64" role "2025" "Standard" "en-us" 4 8192 80
    true JNull options JNull.

Definition base_server : run_args := wanted "srv-01" "base" JNull.
Definition file_server : run_args := wanted "files.lab" "file_server"
  (JObj [("share_name", JStr "data"); ("share_path", JStr "D:\data");
         ("full_access_principals", JArr [JStr "Admins"])]).

Definition with_media : session := play_all [inr (ReqArtifact media None)] initial.

Definition result {A} (m : eff session A) (s : session) : option A :=
  match m s with (Ret a, _) => Some a | _ => None end.

Definition lab_children : json := JArr
  [JObj [("role", JStr "isolated_domain_controller"); ("vm_name", JStr "dc01");
         ("role_options", JObj [("forest_fqdn", JStr " Lab.Local "); ("netbios_name", JStr "lab");
            ("forest_admin_credential_id", JInt 1); ("dsrm_credential_id", JInt 2)])];
   JObj [("role", JStr "file_server"); ("vm_name", JStr "fs01");
         ("role_options", JObj [("share_name", JStr "data"); ("share_path", JStr "D:\data");
            ("full_access_principals", JArr [JStr "Admins"]);
            ("domain_join", JObj [("credential_id", JInt 2); ("domain_fqdn", JStr "other.example")])])];
   JObj [("role", JStr "mecm_prereq"); ("vm_name", JStr "cm01");
         ("role_options", JObj [("prereq_profile", JStr "site_server_foundation"); ("content_root", JStr "D:\cm")])]].

Definition lab : run_args := wanted "lab" "lab_in_a_box"
  (JObj [("bundle_name", JStr "Lab one"); ("domain_join_credential_id", JInt 1); ("children", lab_children)]).

Definition with_base : session := play_all [inr (ReqPostRun true [] base_server)] with_media.
Definition with_files : session := play_all [inr (ReqPostRun true [] file_server)] with_media.
Definition with_lab : session := play_all [inr (ReqPostBundle true [1; 2]%Z lab)] with_media.

Lemma with_media_in_service : in_service with_media.
Proof. by apply play_all_in_service, rtc_refl. Qed.

Lemma example_in_service rs : in_service (play_all rs with_media).
Proof. apply play_all_in_service, with_media_in_service. Qed.

Definition state_of (id : string) (s : session) : option osd_state := or_state <$> osd_runs (osdeploy (cur s)) !! id.
Definition engine_state_of (id : string) (s : session) : option run_state := rn_state <$> runs (cur s) !! id.
Definition bundle_state_of (s : session) : list string := (λ kb, ob_state kb.2) <$> map_to_list (bundles (osdeploy (cur s))).

Definition online : heartbeat := Heartbeat (Some "srv-01") None (Some "running") (Some "full_os").

(** ** Instances of the theorems *)

Lemma generated_password_witness :
  let p := String.list_ascii_of_string (_generate_local_admin_password 3 99) in
  Z.of_nat (length p) = 12%Z ∧ Forall (λ c, c ∈ String.list_ascii_of_string password_alphabet) p.
Proof. destruct (generated_password_complex 3 99) as (H1 & _ & H2). by split. Defined.

Lemma service_well_formed_witness : wf_runs (cur with_lab) ∧ wf_osdeploy (cur with_lab).
Proof. by destruct (service_well_formed with_lab (example_in_service _)) as (_ & _ & _ & _ & H1 & H2). Defined.

(** What a file server is asked for is kept as a complete option record. *)
Lemma validate_role_options_witness :
  ∃ o, role_of o = "file_server" ∧
    sanitize_role_options "file_server" (ra_role_options file_server) = Ret (encode o) ∧ launchable None o.
Proof.
  destruct (proj1 (validate_role_options_spec None "file_server" (ra_role_options file_server)))
    as [(_ & o & H1 & H2 & _ & H3)|[H1 _]]; [by vm_compute|eauto|done].
Defined.

(** [create_run] returns here. *)
Definition created (a : run_args) (s : session) : string * osd_run * session :=
  match create_run a s with
  | (Ret r, s') => (r, s')
  | (Exc _, s') => (EmptyString, OsdRun (OsdRequest EmptyString EmptyString EmptyString EmptyString EmptyString
      EmptyString EmptyString EmptyString None None None None None None 0 0 0 false JNull JNull JNull 0)
      Created None None None None None None None None None None None None 0, s')
  end.

Lemma create_run_deploys_witness :
  let '(id, _, s') := created file_server with_media in
  ∃ options, sanitize_role_options "file_server" (ra_role_options file_server) = Ret options ∧
    Forall2 (generated_plan_step id "file_server" options)
      (imap pair (early_steps ++ (role_step <$> generated_step_kinds "file_server" options) ++ [heartbeat_step]))
      (run_steps id (cur s')).*2.
Proof.
  unfold created. destruct (create_run file_server with_media) as [[[id row]|e] s'] eqn:E.
  - destruct (create_run_deploys _ _ _ _ _ with_media_in_service E)
      as (options & _ & _ & _ & H1 & _ & _ & _ & _ & _ & _ & _ & _ & _ & _ & _ & _ & _ & _ & _ & _ & H2 & _). eauto.
  - exfalso. assert (is_Some (result (create_run file_server) with_media)) as [x Hx] by (vm_compute; eauto).
    unfold result in Hx. by rewrite E in Hx.
Defined.

Lemma lab_bundle_deployed_witness :
  match post_bundle true [1; 2]%Z lab with_media with
  | (Ret (bid, b, children), s') => length children = 3%nat ∧
      ∃ credential fqdn deployments, Forall (λ r, joins credential fqdn (oq_role_options (or_request r))) (tail deployments)
        ∧ length deployments = 3%nat
  | _ => False
  end.
Proof.
  destruct (post_bundle true [1; 2]%Z lab with_media) as [[[[bid b] children]|e] s'] eqn:E.
  - destruct (lab_bundle_deployed _ _ _ _ _ _ _ _ with_media_in_service E)
      as (_ & _ & ds & credential & fqdn & H1 & H2 & _ & _ & H3 & _). split; [done|].
    exists credential, fqdn, ds. split; [done|]. apply Forall2_length in H1.
    rewrite length_zip_with, H2 in H1. done.
  - assert (is_Some (result (post_bundle true [1; 2]%Z lab) with_media)) as [x Hx] by (vm_compute; eauto).
    unfold result in Hx. by rewrite E in Hx.
Defined.


Definition base_complete : session := play_all [inr (ReqHeartbeat (Some "id15") "agent" online)] with_base.

Lemma complete_stays_complete_witness :
  is_complete "id15" (cur (with_connection (serve_all (inr (ReqJobFailed "id15" "job" (Some 1%Z) None None None)))
    base_complete).2).
Proof.
  apply complete_stays_complete; [by intros []| |by vm_compute].
  assert (known (osd_runs (osdeploy (cur base_complete))) "id15" = true) as [r Hr]%known_true by by vm_compute.
  exists r. split; [done|]. assert (state_of "id15" base_complete = Some Complete) as Hst by by vm_compute.
  unfold state_of in Hst. rewrite Hr in Hst. by injection Hst.
Defined.

(** A job of the lab's domain controller fails: its bundle follows. *)
Lemma bundle_follows_children_witness :
  match finalize_related_deployment "id18" "job" (Some 1%Z) None None None with_lab with
  | (Ret true, s') => follows "id18" (osdeploy (cur s'))
  | _ => False
  end.
Proof.
  destruct (bundle_follows_children with_lab "id18" (example_in_service _)) as [_ Hjob].
  destruct (finalize_related_deployment "id18" "job" (Some 1%Z) None None None with_lab) as [[b|e] s'] eqn:E.
  - assert (result (finalize_related_deployment "id18" "job" (Some 1%Z) None None None) with_lab = Some true) as Hx by by vm_compute.
    unfold result in Hx. rewrite E in Hx. injection Hx as ->. by eapply Hjob.
  - assert (is_Some (result (finalize_related_deployment "id18" "job" (Some 1%Z) None None None) with_lab)) as [x Hx] by (vm_compute; eauto).
    unfold result in Hx. by rewrite E in Hx.
Defined.

(** ** Behaviours *)

(** The lab's bundle waits with its children. *)
Example lab_created : bundle_state_of with_lab = ["created"] ∧
  (λ kc : string * osd_child, oc_server_role kc.2) <$> isort child_order (map_to_list (bundle_children (osdeploy (cur with_lab)))) =
    expected_roles.
Proof. by vm_compute. Qed.

(** The result of the last step of the role completes the deployment and the engine's run,
    whose other steps are still pending. *)
Example done_while_steps_pending :
  let s := play_all [inr (ReqStepResult "id16" "id28" "agent" "full_os" "success" None JNull)] with_files in
  state_of "id16" s = Some Complete ∧ engine_state_of "id16" s = Some RunDone ∧
  length (filter (λ kr : string * step_row, st_state kr.2 = Pending) (run_steps "id16" (cur s))) = 12%nat.
Proof. by vm_compute. Qed.

(** A run of the engine that is no deployment: the registration answers 404 after it
    changed the state of the run. *)
Definition foreign : list (request + osdeploy_request) :=
  [inl (Authoring (ReqCreateSequence "Demo" EmptyString "windows" None));
   inl (Authoring (ReqReplaceNodes "id1" [raw "a" "run_script"] None)); inl (Authoring (ReqCompile "id1" None));
   inl (Running (ReqCreateRun "id3" JNull JNull None false))].

Example foreign_run_registered :
  let s := play_all foreign with_media in
  engine_state_of "id4" s = Some Queued ∧
  (register_pe "id4" None JNull s).1 = Exc (http_error 404 "OSDeploy run not found") ∧
  engine_state_of "id4" (play_all [inr (ReqRegister "id4" None JNull)] s) = Some (RunNamed "osdeploy_pe_registered").
Proof. by vm_compute. Qed.

(** A heartbeat that comes after the failure of the provision job: the deployment waits for
    its role again, its bundle stays failed. *)
Example late_heartbeat_leaves_bundle_failed :
  let s := play_all [inr (ReqJobFailed "id18" "job" (Some 1%Z) None None None);
                     inr (ReqHeartbeat (Some "id18") "agent" online)] with_lab in
  state_of "id18" s = Some RolePending ∧ bundle_state_of s = ["failed"] ∧
  bundle_state (child_states "id1" (osdeploy (cur s))) = "running".
Proof. by vm_compute. Qed.

(** A lab may also be requested as a single run: it has no step that could make it ready. *)
Example lab_run_has_no_role_step :
  result (create_run lab) with_media ≠ None ∧ role_step_kinds "lab_in_a_box" = [] ∧
  final_role_step_kind "lab_in_a_box" = None.
Proof. by vm_compute. Qed.

(** A computer name that is cut may end with a dash. *)
Example name_cut_at_dash : normalize_windows_computer_name "application-srv-01" = "application-srv".
Proof. by vm_compute. Qed.
Example name_ends_with_dash : normalize_windows_computer_name "applications-1-x-9" = "applications-1-".
Proof. by vm_compute. Qed.
