(* ===== verification/JobQueue.v ===== *)
(** * The job queue

    [web/jobs_pg.py]: jobs wait, run on a worker and end; the number of running jobs
    of a type is capped.  Each function is one transaction here; the statements of
    [claim_next_job] for any number of workers at once, with the advisory locks and
    the row locks they take, are in the file JobWorkers. *)

From stdpp Require Import base gmap list strings pretty sorting relations.
From Stdlib Require Import ZArith Lia.
From S2P Require Import Prelude Json.

(** ** Data *)

Inductive job_status : Type := JobPending | JobRunning | JobComplete | JobFailed | JobOrphaned.

#[export] Instance job_status_eq_dec : EqDecision job_status.
Proof. solve_decision. Defined.

Record job_row : Type := Job {
  jb_job_type : string;
  jb_playbook : string;
  jb_cmd : json;
  jb_args : json;
  jb_status : job_status;
  jb_worker_id : option string;
  jb_kill_requested : bool;
  jb_exit_code : option Z;
  jb_created_at : Z;
  jb_claimed_at : option Z;
  jb_last_heartbeat : option Z;
  jb_ended_at : option Z
}.

Record queue : Type := Queue {
  jobs : gmap string job_row;
  limits : gmap string Z
}.

Definition DEFAULT_LIMITS : list (string * Z) :=
  [("build_template", 1); ("provision_clone", 3); ("cloudosd_build_iso", 1);
   ("cloudosd_cache_refresh_catalog", 1); ("cloudosd_cache_feature_image", 2);
   ("cloudosd_cache_quality_update", 2); ("provision_cloudosd", 4); ("osdeploy_build_iso", 1);
   ("osdeploy_cache_refresh_catalog", 1); ("osdeploy_cache_warm", 2); ("osdeploy_cache_verify", 2);
   ("osdeploy_cache_delete", 1); ("provision_osdeploy", 3); ("osdeploy_publish_iso", 1);
   ("hash_capture", 5); ("test_long_sleep", 5); ("upload_hash", 5); ("upload_after_capture", 5);
   ("retry_inject_hash", 3)]%Z.

Definition DEFAULT_CAP : Z := 1.

(** The limit of [provision_cloudosd] is always reset; the others are only added. *)
Definition init_limit (t : gmap string Z) (l : string * Z) : gmap string Z :=
  if decide (l.1 = "provision_cloudosd") then <[l.1 := l.2]> t
  else match t !! l.1 with Some _ => t | None => <[l.1 := l.2]> t end.

Definition init (q : queue) : queue := Queue (jobs q) (foldl init_limit (limits q) DEFAULT_LIMITS).

(** ** Reading *)

Definition pending_of (job_type : string) (q : queue) : list (string * job_row) :=
  select_where (λ kr, jb_job_type kr.2 = job_type ∧ jb_status kr.2 = JobPending) (jobs q).

Definition running (job_type : string) (q : queue) : Z :=
  Z.of_nat (count_where (λ kr, jb_job_type kr.2 = job_type ∧ jb_status kr.2 = JobRunning) (jobs q)).

Definition cap (job_type : string) (q : queue) : Z := default DEFAULT_CAP (limits q !! job_type).

(** [ORDER BY created_at ASC, id ASC] *)
Definition job_order : string * job_row → string * job_row → comparison :=
  cmp_then (cmp_on (λ kr, jb_created_at kr.2) cmp_Z) (cmp_on fst cmp_str).

(** The oldest pending job of the type whose row is not locked. *)
Definition oldest_pending (job_type : string) (locked : gset string) (q : queue) :
    option (string * job_row) :=
  head (filter (λ kr, kr.1 ∉ locked) (isort job_order (pending_of job_type q))).

(** [min(created_at)] and [min(id)] over the pending jobs of a type. *)
Definition first_created (job_type : string) (q : queue) : Z :=
  match (λ kr, jb_created_at kr.2) <$> pending_of job_type q with
  | [] => 0%Z
  | c :: cs => foldr Z.min c cs
  end.

Definition first_id (job_type : string) (q : queue) : string :=
  default EmptyString (head (isort cmp_str (fst <$> pending_of job_type q))).

(** [ORDER BY first_created ASC, first_id ASC] *)
Definition type_order (q : queue) : string → string → comparison :=
  cmp_then (cmp_on (λ t, first_created t q) cmp_Z) (cmp_on (λ t, first_id t q) cmp_str).

(** [GROUP BY job_type] over the pending jobs. *)
Definition pending_types (q : queue) : list string :=
  remove_dups ((λ kr, jb_job_type kr.2) <$>
    select_where (λ kr, jb_status kr.2 = JobPending) (jobs q)).

Definition candidate_types (q : queue) : list string := isort (type_order q) (pending_types q).

(** ** Writing *)

Definition set_job (id : string) (j : job_row) (q : queue) : queue :=
  Queue (<[id := j]> (jobs q)) (limits q).

Definition enqueue (job_id job_type playbook : string) (cmd args : json) (now : Z) (q : queue) :
    outcome queue :=
  match jobs q !! job_id with
  | Some _ => Exc (IntegrityError "jobs_pkey")
  | None => Ret (set_job job_id
      (Job job_type playbook cmd args JobPending None false None now None None None) q)
  end.

(** The UPDATE of a claim. *)
Definition start_job (worker_id : string) (now : Z) (j : job_row) : job_row :=
  Job (jb_job_type j) (jb_playbook j) (jb_cmd j) (jb_args j) JobRunning (Some worker_id)
    (jb_kill_requested j) (jb_exit_code j) (jb_created_at j) (Some now) (Some now) (jb_ended_at j).

(** [UPDATE ... WHERE id = %s AND status = 'pending' RETURNING *] *)
Definition claim_job (worker_id : string) (now : Z) (id : string) (q : queue) :
    option job_row * queue :=
  match jobs q !! id with
  | Some j =>
      if decide (jb_status j = JobPending)
      then (Some (start_job worker_id now j), set_job id (start_job worker_id now j) q)
      else (None, q)
  | None => (None, q)
  end.

(** The loop over the candidate types. *)
Fixpoint claim_from (worker_id : string) (now : Z) (locked : gset string) (types : list string)
    (q : queue) : option (string * job_row) * queue :=
  match types with
  | [] => (None, q)
  | t :: types =>
      if bool_decide (cap t q ≤ running t q)%Z then claim_from worker_id now locked types q
      else match oldest_pending t locked q with
           | None => claim_from worker_id now locked types q
           | Some (id, _) =>
               match claim_job worker_id now id q with
               | (Some j, q') => (Some (id, j), q')
               | (None, q') => claim_from worker_id now locked types q'
               end
           end
  end.

Definition claim_next_job (worker_id : string) (now : Z) (locked : gset string) (q : queue) :
    option (string * job_row) * queue :=
  claim_from worker_id now locked (candidate_types q) q.

(** An UPDATE by primary key with a condition: the number of rows and the queue. *)
Definition update_job (id : string) (cond : job_row → Prop) `{∀ j, Decision (cond j)}
    (f : job_row → job_row) (q : queue) : nat * queue :=
  match jobs q !! id with
  | Some j => if decide (cond j) then (1, set_job id (f j) q) else (0, q)
  | None => (0, q)
  end%nat.

Definition touch_heartbeat (job_id worker_id : string) (now : Z) (q : queue) : nat * queue :=
  update_job job_id (λ j, jb_worker_id j = Some worker_id ∧ jb_status j = JobRunning)
    (λ j, Job (jb_job_type j) (jb_playbook j) (jb_cmd j) (jb_args j) (jb_status j) (jb_worker_id j)
      (jb_kill_requested j) (jb_exit_code j) (jb_created_at j) (jb_claimed_at j) (Some now)
      (jb_ended_at j)) q.

Definition end_job (status : job_status) (exit_code : option Z) (now : Z) (j : job_row) : job_row :=
  Job (jb_job_type j) (jb_playbook j) (jb_cmd j) (jb_args j) status (jb_worker_id j) false
    exit_code (jb_created_at j) (jb_claimed_at j) (jb_last_heartbeat j) (Some now).

Definition finalize_job (job_id : string) (exit_code now : Z) (q : queue) : nat * queue :=
  let status := if decide (exit_code = 0%Z) then JobComplete else JobFailed in
  update_job job_id (λ j, jb_status j = JobRunning) (end_job status (Some exit_code) now) q.

Definition request_kill (job_id : string) (q : queue) : queue :=
  (update_job job_id (λ _, True)
    (λ j, Job (jb_job_type j) (jb_playbook j) (jb_cmd j) (jb_args j) (jb_status j) (jb_worker_id j)
      true (jb_exit_code j) (jb_created_at j) (jb_claimed_at j) (jb_last_heartbeat j)
      (jb_ended_at j)) q).2.

Definition update_job_args (job_id : string) (args : json) (q : queue) : nat * queue :=
  update_job job_id (λ _, True)
    (λ j, Job (jb_job_type j) (jb_playbook j) (jb_cmd j) args (jb_status j) (jb_worker_id j)
      (jb_kill_requested j) (jb_exit_code j) (jb_created_at j) (jb_claimed_at j)
      (jb_last_heartbeat j) (jb_ended_at j)) q.

(** An UPDATE of every row that satisfies a condition. *)
Definition update_jobs (cond : job_row → Prop) `{∀ j, Decision (cond j)} (f : job_row → job_row)
    (q : queue) : nat * queue :=
  (count_where (λ kr, cond kr.2) (jobs q),
   Queue (update_where (λ kr, cond kr.2) f (jobs q)) (limits q)).

(** [last_heartbeat < cutoff] is not true of a NULL. *)
Definition stale (cutoff : Z) (j : job_row) : Prop :=
  jb_status j = JobRunning ∧ match jb_last_heartbeat j with Some h => (h < cutoff)%Z | None => False end.

#[export] Instance stale_dec cutoff j : Decision (stale cutoff j).
Proof. unfold stale. destruct (jb_last_heartbeat j); apply _. Defined.

Definition orphan_job (now : Z) (j : job_row) : job_row :=
  Job (jb_job_type j) (jb_playbook j) (jb_cmd j) (jb_args j) JobOrphaned (jb_worker_id j)
    (jb_kill_requested j) (jb_exit_code j) (jb_created_at j) (jb_claimed_at j)
    (jb_last_heartbeat j) (Some now).

(** Times are in microseconds; [now'] is the second reading of the clock. *)
Definition reap_stale_running_jobs (older_than_seconds now now' : Z) (q : queue) : nat * queue :=
  update_jobs (stale (now - 1000000 * older_than_seconds)) (orphan_job now') q.

Definition reap_orphans (stale_threshold_seconds now now' : Z) (q : queue) : nat * queue :=
  reap_stale_running_jobs stale_threshold_seconds now now' q.

Definition update_job_type_limit (job_type : string) (max_concurrent : Z) (q : queue) :
    outcome queue :=
  if bool_decide (max_concurrent ≤ 0)%Z then
    Exc (ValueError "max_concurrent must be a positive integer")
  else Ret (Queue (jobs q) (<[job_type := max_concurrent]> (limits q))).

(** [args_json->>'run_id' = %s]: the text of the value under [run_id]. *)
Definition args_text (key : string) (args : json) : option string :=
  match args with
  | JObj o => match assoc key o with
              | Some (JStr t) => Some t
              | Some JNull | None => None
              | Some v => Some (json_dumps v)
              end
  | _ => None
  end.

Definition interrupted (run_id : Z) (j : job_row) : Prop :=
  jb_job_type j ∈ ["provision_winpe"; "provision_clone"] ∧
  (jb_status j = JobFailed ∨ jb_status j = JobOrphaned) ∧
  args_text "run_id" (jb_args j) = Some (pretty run_id) ∧
  (jb_status j = JobOrphaned ∨ jb_exit_code j = Some (-15)%Z ∨ jb_exit_code j = None).

#[export] Instance interrupted_dec run_id j : Decision (interrupted run_id j).
Proof. unfold interrupted. apply _. Defined.

Definition complete_interrupted_provision_winpe_jobs_for_run (run_id now : Z) (q : queue) :
    nat * queue :=
  update_jobs (interrupted run_id) (end_job JobComplete (Some 0%Z) now) q.

(** ** Claiming the oldest job *)

#[export] Typeclasses Opaque job_order type_order.

#[export] Instance job_order_ord : OrdCmp job_order.
Proof. unfold job_order. apply _. Qed.

#[export] Instance type_order_ord q : OrdCmp (type_order q).
Proof. unfold type_order. apply _. Qed.

Lemma elem_of_pending_of t q id j :
  (id, j) ∈ pending_of t q ↔ jobs q !! id = Some j ∧ jb_job_type j = t ∧ jb_status j = JobPending.
Proof. unfold pending_of. rewrite elem_of_select_where. naive_solver. Qed.

Lemma elem_of_candidate_types t q :
  t ∈ candidate_types q ↔ ∃ id j, jobs q !! id = Some j ∧ jb_job_type j = t ∧ jb_status j = JobPending.
Proof.
  unfold candidate_types, pending_types. rewrite elem_of_isort, elem_of_remove_dups, list_elem_of_fmap.
  split.
  - intros ([id j] & -> & Hin). rewrite elem_of_select_where in Hin. naive_solver.
  - intros (id & j & Hj & <- & Hp). exists (id, j). by rewrite elem_of_select_where.
Qed.

Lemma oldest_pending_Some t locked q id j :
  oldest_pending t locked q = Some (id, j) →
  jobs q !! id = Some j ∧ jb_job_type j = t ∧ jb_status j = JobPending ∧ id ∉ locked.
Proof.
  unfold oldest_pending. intros Hh. destruct (filter _ _) as [|x l] eqn:E; [done|]. simplify_eq/=.
  assert ((id, j) ∈ (id, j) :: l) as Hin by set_solver.
  rewrite <- E, list_elem_of_filter, elem_of_isort, elem_of_pending_of in Hin. naive_solver.
Qed.

(** With no row locked, the oldest is the least in the order of creation. *)
Lemma oldest_pending_least t q id j id' j' :
  oldest_pending t ∅ q = Some (id, j) → (id', j') ∈ pending_of t q →
  job_order (id, j) (id', j') ≠ Gt.
Proof.
  unfold oldest_pending. rewrite filter_all by set_solver.
  intros Hh Hin. by eapply isort_head_le; [apply _|..].
Qed.

Lemma oldest_pending_None t q : oldest_pending t ∅ q = None → pending_of t q = [].
Proof.
  unfold oldest_pending. rewrite filter_all by set_solver. apply isort_head_None.
Qed.

Lemma foldr_min_spec (c : Z) cs :
  foldr Z.min c cs ∈ c :: cs ∧ ∀ x, x ∈ c :: cs → (foldr Z.min c cs ≤ x)%Z.
Proof.
  induction cs as [|d cs [IHin IHle]]; simpl; [set_solver by lia|]. split.
  - destruct (Z.min_spec d (foldr Z.min c cs)) as [[_ ->]|[_ ->]]; set_solver.
  - intros x. rewrite !elem_of_cons. intros [->|[->|Hx]]; [|lia|].
    + specialize (IHle c). assert (c ∈ c :: cs) by set_solver. naive_solver lia.
    + specialize (IHle x). assert (x ∈ c :: cs) by set_solver. naive_solver lia.
Qed.

Lemma first_created_spec t q id j :
  (id, j) ∈ pending_of t q →
  (∃ id' j', (id', j') ∈ pending_of t q ∧ first_created t q = jb_created_at j') ∧
  (first_created t q ≤ jb_created_at j)%Z.
Proof.
  intros Hin. unfold first_created.
  assert (jb_created_at j ∈ (λ kr : string * job_row, jb_created_at kr.2) <$> pending_of t q) as Hc.
  { apply list_elem_of_fmap. by exists (id, j). }
  destruct (_ <$> _) as [|c cs] eqn:E; [by apply not_elem_of_nil in Hc|].
  destruct (foldr_min_spec c cs) as [Hmin Hle]. split; [|by apply Hle].
  rewrite <- E in Hmin. apply list_elem_of_fmap in Hmin as ([id' j'] & Heq & Hin'). eauto.
Qed.

Lemma first_created_oldest t q id j :
  oldest_pending t ∅ q = Some (id, j) → first_created t q = jb_created_at j.
Proof.
  intros Ho. assert ((id, j) ∈ pending_of t q) as Hin.
  { apply oldest_pending_Some in Ho as (? & ? & ? & _). by apply elem_of_pending_of. }
  destruct (first_created_spec t q id j Hin) as ((id' & j' & Hin' & Heq) & Hle).
  pose proof (oldest_pending_least t q id j id' j' Ho Hin') as Hord.
  unfold job_order, cmp_then, cmp_on, cmp_Z in Hord. simpl in Hord.
  destruct (Z.compare_spec (jb_created_at j) (jb_created_at j')); try done; lia.
Qed.

(** The loop stops at the first type that is under its cap and has a job to give. *)
Definition exhausted (locked : gset string) (q : queue) (t : string) : Prop :=
  (cap t q ≤ running t q)%Z ∨ oldest_pending t locked q = None.

Lemma claim_from_spec w now locked types q :
  match claim_from w now locked types q with
  | (None, q') => q' = q ∧ Forall (exhausted locked q) types
  | (Some (id, j'), q') => ∃ pre t post j, types = pre ++ t :: post ∧
      Forall (exhausted locked q) pre ∧ (running t q < cap t q)%Z ∧
      oldest_pending t locked q = Some (id, j) ∧ j' = start_job w now j ∧ q' = set_job id j' q
  end.
Proof.
  induction types as [|t types IH]; simpl; [done|].
  assert (exhausted locked q t → match claim_from w now locked types q with
    | (None, q') => q' = q ∧ Forall (exhausted locked q) (t :: types)
    | (Some (id, j'), q') => ∃ pre t0 post j, t :: types = pre ++ t0 :: post ∧
        Forall (exhausted locked q) pre ∧ (running t0 q < cap t0 q)%Z ∧
        oldest_pending t0 locked q = Some (id, j) ∧ j' = start_job w now j ∧ q' = set_job id j' q
    end) as Hskip.
  { intros Hex. destruct (claim_from w now locked types q) as [[[id j']|] q'].
    - destruct IH as (pre & t0 & post & j & -> & Hpre & Hrest).
      exists (t :: pre), t0, post, j. split; [done|]. split; [by constructor|done].
    - destruct IH as [-> Hall]. split; [done|by constructor]. }
  case_bool_decide as Hcap; [by apply Hskip; left|].
  destruct (oldest_pending t locked q) as [[id j]|] eqn:Ho; [|by apply Hskip; right].
  pose proof (oldest_pending_Some _ _ _ _ _ Ho) as (Hj & _ & Hp & _).
  unfold claim_job. rewrite Hj, decide_True by done.
  exists [], t, types, j. split_and!; try done. lia.
Qed.

Lemma running_set_job id j t q :
  (running t (set_job id j q) ≤ running t q + 1)%Z.
Proof. unfold running. simpl. pose proof (count_where_insert
  (λ kr : string * job_row, jb_job_type kr.2 = t ∧ jb_status kr.2 = JobRunning) (jobs q) id j). lia.
Qed.

Lemma claim_next_job_oldest (w : string) (now : Z) (q q' : queue) (id : string) (j' : job_row) :
  claim_next_job w now ∅ q = (Some (id, j'), q') →
  ∃ j, jobs q !! id = Some j ∧ jb_status j = JobPending ∧ j' = start_job w now j ∧
    q' = set_job id j' q ∧
    (running (jb_job_type j) q < cap (jb_job_type j) q)%Z ∧
    (running (jb_job_type j) q' ≤ cap (jb_job_type j) q')%Z ∧
    (∀ k r, jobs q !! k = Some r → jb_status r = JobPending →
       (jb_created_at r < jb_created_at j)%Z →
       (cap (jb_job_type r) q ≤ running (jb_job_type r) q)%Z).
Proof.
  unfold claim_next_job. intros Hc. pose proof (claim_from_spec w now ∅ (candidate_types q) q) as Hs.
  rewrite Hc in Hs. destruct Hs as (pre & t & post & j & Htypes & Hpre & Hrun & Ho & -> & ->).
  pose proof (oldest_pending_Some _ _ _ _ _ Ho) as (Hj & Ht & Hp & _). subst t.
  pose proof (running_set_job id (start_job w now j) (jb_job_type j) q).
  exists j. split_and!; try done.
  { unfold cap in *. simpl. lia. }
  intros k r Hk Hpr Hlt.
  assert ((k, r) ∈ pending_of (jb_job_type r) q) as Hin by (by apply elem_of_pending_of).
  assert (jb_job_type r ∈ candidate_types q) as Hcand by (apply elem_of_candidate_types; eauto).
  rewrite Htypes in Hcand. apply elem_of_app in Hcand as [Hcand|Hcand].
  - rewrite Forall_forall in Hpre. destruct (Hpre _ Hcand) as [|Hnone]; [done|].
    apply oldest_pending_None in Hnone. rewrite Hnone in Hin. by apply not_elem_of_nil in Hin.
  - exfalso. assert (first_created (jb_job_type j) q ≤ first_created (jb_job_type r) q)%Z as Hle.
    { apply elem_of_cons in Hcand as [->|Hcand]; [lia|].
      pose proof (isort_StronglySorted (type_order q) (pending_types q)) as Hsort.
      fold (candidate_types q) in Hsort. rewrite Htypes in Hsort.
      apply StronglySorted_app_1_r, StronglySorted_cons in Hsort as [Hf _].
      rewrite Forall_forall in Hf. specialize (Hf _ Hcand).
      unfold type_order, cmp_then, cmp_on, cmp_Z in Hf.
      destruct (Z.compare_spec (first_created (jb_job_type j) q) (first_created (jb_job_type r) q));
        try done; lia. }
    rewrite (first_created_oldest _ _ _ _ Ho) in Hle.
    destruct (first_created_spec _ q k r Hin) as [_ Hr]. lia.
Qed.

Lemma claim_next_job_none (w : string) (now : Z) (q q' : queue) :
  claim_next_job w now ∅ q = (None, q') →
  q' = q ∧ ∀ k r, jobs q !! k = Some r → jb_status r = JobPending →
    (cap (jb_job_type r) q ≤ running (jb_job_type r) q)%Z.
Proof.
  unfold claim_next_job. intros Hc. pose proof (claim_from_spec w now ∅ (candidate_types q) q) as Hs.
  rewrite Hc in Hs. destruct Hs as [-> Hall]. split; [done|]. intros k r Hk Hp.
  rewrite Forall_forall in Hall.
  destruct (Hall (jb_job_type r)) as [|Hnone]; [apply elem_of_candidate_types; eauto|done|].
  apply oldest_pending_None in Hnone. exfalso. apply (not_elem_of_nil (k, r)).
  rewrite <- Hnone. by apply elem_of_pending_of.
Qed.

(** A claim gives the worker the oldest job that may run: a job that was pending, of a
    type below its cap - and still within it afterwards - such that every job that has
    waited longer is of a type at its cap; the job is now running on that worker, and
    nothing else has changed.  When it gives nothing, every pending job is of a type at
    its cap, and the queue is as it was. *)
Theorem claim_next_job_spec (w : string) (now : Z) (q : queue) :
  match claim_next_job w now ∅ q with
  | (Some (id, j'), q') => ∃ j, jobs q !! id = Some j ∧ jb_status j = JobPending ∧
      j' = start_job w now j ∧ q' = set_job id j' q ∧
      (running (jb_job_type j) q < cap (jb_job_type j) q)%Z ∧
      (running (jb_job_type j) q' ≤ cap (jb_job_type j) q')%Z ∧
      (∀ k r, jobs q !! k = Some r → jb_status r = JobPending →
         (jb_created_at r < jb_created_at j)%Z → (cap (jb_job_type r) q ≤ running (jb_job_type r) q)%Z)
  | (None, q') => q' = q ∧ ∀ k r, jobs q !! k = Some r → jb_status r = JobPending →
      (cap (jb_job_type r) q ≤ running (jb_job_type r) q)%Z
  end.
Proof.
  destruct (claim_next_job w now ∅ q) as [[[id j']|] q'] eqn:E.
  - by apply claim_next_job_oldest.
  - by eapply claim_next_job_none.
Qed.

(** ** The life of a job *)

Definition ended (s : job_status) : Prop := s = JobComplete ∨ s = JobFailed ∨ s = JobOrphaned.

#[export] Instance ended_dec s : Decision (ended s).
Proof. unfold ended. apply _. Defined.

(** What the columns say agrees with the status. *)
Record job_ok (j : job_row) : Prop := JobOk {
  jo_pending : jb_status j = JobPending →
    jb_worker_id j = None ∧ jb_claimed_at j = None ∧ jb_exit_code j = None ∧ jb_ended_at j = None;
  jo_running : jb_status j = JobRunning →
    is_Some (jb_worker_id j) ∧ is_Some (jb_claimed_at j) ∧ is_Some (jb_last_heartbeat j) ∧
    jb_exit_code j = None ∧ jb_ended_at j = None;
  jo_ended : ended (jb_status j) → is_Some (jb_worker_id j) ∧ is_Some (jb_ended_at j);
  jo_complete : jb_status j = JobComplete → jb_exit_code j = Some 0%Z;
  jo_failed : jb_status j = JobFailed → ∃ c, jb_exit_code j = Some c ∧ c ≠ 0%Z
}.

Inductive queue_op : Type :=
| OpInit
| OpEnqueue (id job_type playbook : string) (cmd args : json) (now : Z)
| OpClaim (worker_id : string) (now : Z) (locked : gset string)
| OpHeartbeat (id worker_id : string) (now : Z)
| OpFinalize (id : string) (exit_code now : Z)
| OpKill (id : string)
| OpReap (older_than_seconds now now' : Z)
| OpLimit (job_type : string) (max_concurrent : Z)
| OpArgs (id : string) (args : json)
| OpInterrupted (run_id now : Z).

Definition apply_op (o : queue_op) (q : queue) : queue :=
  match o with
  | OpInit => init q
  | OpEnqueue id t p c a now => match enqueue id t p c a now q with Ret q' => q' | Exc _ => q end
  | OpClaim w now locked => (claim_next_job w now locked q).2
  | OpHeartbeat id w now => (touch_heartbeat id w now q).2
  | OpFinalize id code now => (finalize_job id code now q).2
  | OpKill id => request_kill id q
  | OpReap older now now' => (reap_stale_running_jobs older now now' q).2
  | OpLimit t n => match update_job_type_limit t n q with Ret q' => q' | Exc _ => q end
  | OpArgs id a => (update_job_args id a q).2
  | OpInterrupted run now => (complete_interrupted_provision_winpe_jobs_for_run run now q).2
  end.

(** How one operation may change one job. *)
Inductive job_step (j : job_row) : job_row → Prop :=
| StepStay j' : jb_status j' = jb_status j → jb_worker_id j' = jb_worker_id j →
    jb_claimed_at j' = jb_claimed_at j → jb_exit_code j' = jb_exit_code j →
    jb_ended_at j' = jb_ended_at j → jb_job_type j' = jb_job_type j →
    (is_Some (jb_last_heartbeat j) → is_Some (jb_last_heartbeat j')) → job_step j j'
| StepStart w now : jb_status j = JobPending → job_step j (start_job w now j)
| StepEnd s code now : jb_status j = JobRunning → s = JobComplete ∨ s = JobFailed →
    (s = JobComplete ↔ code = 0%Z) → job_step j (end_job s (Some code) now j)
| StepOrphan now : jb_status j = JobRunning → job_step j (orphan_job now j)
| StepRecover now : jb_status j = JobFailed ∨ jb_status j = JobOrphaned →
    job_step j (end_job JobComplete (Some 0%Z) now j).

Definition is_claim (o : queue_op) : bool := match o with OpClaim _ _ _ => true | _ => false end.

(** A step that does not start the job. *)
Definition other_step (j j' : job_row) : Prop :=
  job_step j j' ∧ (jb_status j' = JobRunning → jb_status j = JobRunning).

(** [moves R q q']: every job moves along [R]; only new, pending jobs appear, and none
    goes away. *)
Definition moves (R : job_row → job_row → Prop) (q q' : queue) : Prop :=
  (∀ id j, jobs q !! id = Some j → ∃ j', jobs q' !! id = Some j' ∧ R j j') ∧
  (∀ id j', jobs q' !! id = Some j' → jobs q !! id = None → jb_status j' = JobPending ∧ job_ok j').

#[export] Instance job_step_refl : Reflexive job_step.
Proof. intros j. by constructor. Qed.

#[export] Instance other_step_refl : Reflexive other_step.
Proof. intros j. by split. Qed.

Section moving.
Context (R : job_row → job_row → Prop) `{!Reflexive R}.

Lemma moves_same q q' : jobs q' = jobs q → moves R q q'.
Proof. intros Hq. split; rewrite Hq; [eauto|naive_solver]. Qed.

Lemma moves_set_job id j j' q :
  jobs q !! id = Some j → R j j' → moves R q (set_job id j' q).
Proof.
  intros Hj Hstep. split; simpl.
  - intros k r Hk. destruct (decide (id = k)) as [<-|Hne].
    + simplify_eq. exists j'. by rewrite lookup_insert_eq.
    + exists r. by rewrite lookup_insert_ne.
  - intros k r. rewrite lookup_insert_Some. naive_solver.
Qed.

Lemma moves_update_job id cond `{∀ j, Decision (cond j)} f q :
  (∀ j, cond j → R j (f j)) → moves R q (update_job id cond f q).2.
Proof.
  intros Hf. unfold update_job. destruct (jobs q !! id) as [j|] eqn:Hj; [|by apply moves_same].
  case_decide; [|by apply moves_same]. simpl. eauto using moves_set_job.
Qed.

Lemma moves_update_jobs cond `{∀ j, Decision (cond j)} f q :
  (∀ j, cond j → R j (f j)) → moves R q (update_jobs cond f q).2.
Proof.
  intros Hf. split; simpl; intros id j; rewrite lookup_update_where.
  - intros ->. simpl. eexists. split; [done|]. case_decide; auto.
  - intros Hj Hn. by rewrite Hn in Hj.
Qed.
End moving.

(** An operation other than a claim starts no job. *)
Lemma other_op_moves o q : is_claim o = false → moves other_step q (apply_op o q).
Proof.
  destruct o; simpl; intros Ho; try done.
  - by apply moves_same; [apply _|].
  - unfold enqueue. destruct (jobs q !! id) eqn:Hid; [by apply moves_same; [apply _|]|].
    split; simpl; intros k r.
    + intros Hk. exists r. by rewrite lookup_insert_ne by congruence.
    + rewrite lookup_insert_Some. intros [[<- <-]|[_ Hk]] Hn; [|congruence]. split; [done|].
      split; unfold ended; naive_solver.
  - apply moves_update_job; [apply _|]. intros j [_ Hr]. split; [constructor; simpl; eauto|done].
  - apply moves_update_job; [apply _|]. intros j Hj.
    split; [case_decide; constructor; naive_solver|done].
  - apply moves_update_job; [apply _|]. intros j _. split; [by constructor|done].
  - apply moves_update_jobs; [apply _|]. intros j [Hj _]. split; [by constructor|done].
  - unfold update_job_type_limit. case_bool_decide; by apply moves_same; [apply _|].
  - apply moves_update_job; [apply _|]. intros j _. split; [by constructor|done].
  - apply moves_update_jobs; [apply _|]. intros j (_ & Hj & _). split; [by constructor|done].
Qed.

Lemma apply_op_moves o q : moves job_step q (apply_op o q).
Proof.
  destruct (is_claim o) eqn:Ho.
  - destruct o; try done. simpl. unfold claim_next_job.
    pose proof (claim_from_spec worker_id now locked (candidate_types q) q) as Hs.
    destruct (claim_from _ _ _ _ q) as [[[id j']|] q']; simpl.
    + destruct Hs as (pre & t & post & j & _ & _ & _ & Ho' & -> & ->).
      apply oldest_pending_Some in Ho' as (Hj & _ & Hp & _).
      eapply moves_set_job; [apply _|done|]. by constructor.
    + destruct Hs as [-> _]. by apply moves_same; [apply _|].
  - destruct (other_op_moves o q Ho) as [Hm Hn]. split; [|done]. intros id j Hj.
    destruct (Hm id j Hj) as (j' & Hj' & [Hs _]). eauto.
Qed.

Lemma job_step_ok j j' : job_ok j → job_step j j' → job_ok j'.
Proof.
  intros [Hp Hr He Hc Hf] [j'' Hs Hw Hcl Hx Hen _ Hhb|w now Hst|s code now Hst Hs Hcode|now Hst|now Hst].
  - split; rewrite ?Hs, ?Hw, ?Hcl, ?Hx, ?Hen; auto. intros Hrun. destruct (Hr Hrun) as (?&?&?&?&?).
    split_and!; auto.
  - destruct (Hp Hst) as (?&?&?&?). split; simpl; unfold ended; try naive_solver.
  - destruct (Hr Hst) as (?&?&?&?&?). split; simpl; unfold ended; destruct Hs as [->| ->];
      try naive_solver.
  - destruct (Hr Hst) as (?&?&?&?&?). split; simpl; unfold ended; try naive_solver.
  - destruct (He ltac:(unfold ended; naive_solver)) as [? ?].
    split; simpl; unfold ended; try naive_solver.
Qed.

Definition apply_ops (os : list queue_op) (q : queue) : queue := foldl (λ q o, apply_op o q) q os.

Definition empty_queue : queue := Queue ∅ ∅.

(** [j'] is a later state of the same job. *)
Record later (j j' : job_row) : Prop := Later {
  lt_type : jb_job_type j' = jb_job_type j;
  lt_started : jb_status j ≠ JobPending →
    jb_status j' ≠ JobPending ∧ jb_worker_id j' = jb_worker_id j ∧
    jb_claimed_at j' = jb_claimed_at j;
  lt_ended : ended (jb_status j) → ended (jb_status j');
  lt_complete : jb_status j = JobComplete → jb_status j' = JobComplete
}.

#[export] Instance later_preorder : PreOrder later.
Proof.
  split.
  - intros j. by split.
  - intros j1 j2 j3 [T1 S1 E1 C1] [T2 S2 E2 C2]. split.
    + congruence.
    + intros Hs. destruct (S1 Hs) as (H1 & Hw1 & Hc1), (S2 H1) as (H2 & Hw2 & Hc2).
      split_and!; congruence.
    + auto.
    + auto.
Qed.

Lemma job_step_later j j' : job_step j j' → later j j'.
Proof.
  intros [j'' Hs Hw Hcl Hx Hen Ht _|w now Hst|s code now Hst Hs Hcode|now Hst|now Hst];
    (split; simpl; unfold ended; [done| | |]); try congruence; intros; try naive_solver congruence;
    rewrite ?Hs, ?Hw, ?Hcl in *; naive_solver.
Qed.

(** C25. A job runs once: whatever operations follow, a job is never lost; once a
    worker has started it, its worker and its start time never change and it never
    waits again; once it has ended it never runs again, and a complete job stays
    complete. *)
Theorem job_runs_once (os : list queue_op) (q : queue) (id : string) (j : job_row) :
  jobs q !! id = Some j → ∃ j', jobs (apply_ops os q) !! id = Some j' ∧ later j j'.
Proof.
  revert q j. induction os as [|o os IH]; intros q j Hj; simpl; [by exists j|].
  destruct (proj1 (apply_op_moves o q) id j Hj) as (j1 & Hj1 & Hs%job_step_later).
  destruct (IH _ _ Hj1) as (j' & Hj' & Hl). exists j'. split; [done|]. by etrans.
Qed.

(** The columns of a job agree with its status, whatever operations were applied to
    an empty queue: a pending job has no worker, a running one has a worker, a start
    time and a heartbeat, an ended one has its end time, and the exit code is 0
    exactly when the job is complete. *)
Theorem jobs_consistent (os : list queue_op) (id : string) (j : job_row) :
  jobs (apply_ops os empty_queue) !! id = Some j → job_ok j.
Proof.
  assert (∀ q, (∀ id j, jobs q !! id = Some j → job_ok j) →
    ∀ id j, jobs (apply_ops os q) !! id = Some j → job_ok j) as Hkeep.
  { induction os as [|o os IH]; intros q Hq; simpl; [done|]. apply IH. intros k r Hr.
    destruct (apply_op_moves o q) as [Hm Hnew]. destruct (jobs q !! k) as [r0|] eqn:Hr0.
    - destruct (Hm k r0 Hr0) as (r1 & Hr1 & Hs). simplify_eq. eauto using job_step_ok.
    - by apply (Hnew k r). }
  apply Hkeep. intros k r. simpl. by rewrite lookup_empty.
Qed.

(** ** Examples *)
Module JobExample.
Definition job (id job_type : string) (at_ : Z) : queue_op :=
  OpEnqueue id job_type "playbook.yml" (JArr []) (JObj []) at_.

(** Two builds, of which one may run, and a hash capture. *)
Definition three : queue :=
  apply_ops [OpInit; job "a" "build_template" 1; job "b" "build_template" 2;
             job "c" "hash_capture" 3] empty_queue.

Definition claim (q : queue) : option (string * job_row) * queue := claim_next_job "w" 10 ∅ q.

Example claims_in_order :
  (fst <$> (claim three).1) = Some "a" ∧ (fst <$> (claim (claim three).2).1) = Some "c" ∧
  (fst <$> (claim (claim (claim three).2).2).1) = None.
Proof. by vm_compute. Qed.

Definition job_of (q : queue) : job_row :=
  match (claim q).1 with
  | Some (_, j) => j
  | None => Job EmptyString EmptyString JNull JNull JobFailed None false None 0 None None None
  end.

Lemma job_runs_once_witness :
  ∃ j', jobs (apply_ops [OpReap 300 1000000000 1000000000; OpFinalize "a" 0 1000000001;
      OpClaim "v" 1000000002 ∅] (claim three).2) !! "a" = Some j' ∧ later (job_of three) j' ∧
    jb_status j' = JobOrphaned.
Proof.
  destruct (job_runs_once [OpReap 300 1000000000 1000000000; OpFinalize "a" 0 1000000001;
      OpClaim "v" 1000000002 ∅] (claim three).2 "a" (job_of three)) as (j' & Hj' & Hl).
  - vm_compute. reflexivity.
  - exists j'. split; [exact Hj'|]. split; [exact Hl|]. vm_compute in Hj'.
    injection Hj' as <-. reflexivity.
Defined.

Lemma jobs_consistent_witness : job_ok (job_of three).
Proof.
  apply (jobs_consistent [OpInit; job "a" "build_template" 1; job "b" "build_template" 2;
    job "c" "hash_capture" 3; OpClaim "w" 10 ∅] "a"). vm_compute. reflexivity.
Defined.

(** Starting the program resets the limit an operator set for [provision_cloudosd]. *)
Example init_resets_cloudosd_limit :
  cap "provision_cloudosd" (apply_ops [OpInit; OpLimit "provision_cloudosd" 1] empty_queue) = 1%Z ∧
  cap "provision_cloudosd" (apply_ops [OpInit; OpLimit "provision_cloudosd" 1; OpInit] empty_queue) = 4%Z.
Proof. by vm_compute. Qed.
End JobExample.
