(* ===== verification/JobWorkers.v ===== *)
(** * Workers that claim jobs at the same time

    [claim_next_job] of [web/jobs_pg.py] statement by statement, for any number of
    workers that share the committed queue: the snapshot of the candidate types, the
    advisory lock per type, the reading of the cap and of the number of running
    jobs, the choice of a row that nobody has locked, and the commit, which makes
    the update visible and releases every lock of the transaction. *)

From stdpp Require Import base gmap list strings pretty sorting relations.
From Stdlib Require Import ZArith Lia.
From S2P Require Import Prelude Json JobQueue.

(** Where a worker is in [claim_next_job]. *)
Inductive wphase : Type :=
| Idle
| Scanning (types : list string)
| Holding (t : string) (types : list string)
| Capped (t : string) (c : Z) (types : list string)
| Under (t : string) (types : list string)
| Chosen (t id : string) (types : list string).

Record world : Type := World {
  wq : queue;
  advisory : gmap Z string;
  row_locks : gmap string string;
  phases : gmap string wphase
}.

Definition phase_of (w : string) (W : world) : wphase := default Idle (phases W !! w).

Definition set_phase (w : string) (p : wphase) (W : world) : world :=
  World (wq W) (advisory W) (row_locks W) (<[w := p]> (phases W)).

(** The rows other transactions have locked. *)
Definition locked_for (w : string) (W : world) : gset string :=
  dom (filter (λ kv, kv.2 ≠ w) (row_locks W)).

(** The end of the transaction. *)
Definition finish (w : string) (q : queue) (W : world) : world :=
  World q (filter (λ kv, kv.2 ≠ w) (advisory W)) (filter (λ kv, kv.2 ≠ w) (row_locks W))
    (<[w := Idle]> (phases W)).

Section workers.
(** PostgreSQL's [hashtext]: the key of the advisory lock of a type. *)
Context (hashtext : string → Z).

(** The next statement of worker [w]; [None] when it has to wait for a lock. *)
Definition wnext (w : string) (now : Z) (W : world) : option world :=
  match phase_of w W with
  | Idle => Some (set_phase w (Scanning (candidate_types (wq W))) W)
  | Scanning [] => Some (finish w (wq W) W)
  | Scanning (t :: types) =>
      if bool_decide (advisory W !! hashtext t = None ∨ advisory W !! hashtext t = Some w)
      then Some (World (wq W) (<[hashtext t := w]> (advisory W)) (row_locks W)
             (<[w := Holding t types]> (phases W)))
      else None
  | Holding t types => Some (set_phase w (Capped t (cap t (wq W)) types) W)
  | Capped t c types =>
      if bool_decide (c ≤ running t (wq W))%Z then Some (set_phase w (Scanning types) W)
      else Some (set_phase w (Under t types) W)
  | Under t types =>
      match oldest_pending t (locked_for w W) (wq W) with
      | None => Some (set_phase w (Scanning types) W)
      | Some (id, _) =>
          Some (World (wq W) (advisory W) (<[id := w]> (row_locks W))
            (<[w := Chosen t id types]> (phases W)))
      end
  | Chosen t id types =>
      match claim_job w now id (wq W) with
      | (Some _, q') => Some (finish w q' W)
      | (None, _) => Some (set_phase w (Scanning types) W)
      end
  end.

(** What happens between the statements of the workers: any other operation on the
    queue that does not lower a cap. *)
Inductive queue_step (W : world) : world → Prop :=
| WorkerStep w now W' : wnext w now W = Some W' → queue_step W W'
| OtherStep o : is_claim o = false → (∀ t, cap t (wq W) ≤ cap t (apply_op o (wq W)))%Z →
    queue_step W (World (apply_op o (wq W)) (advisory W) (row_locks W) (phases W)).

Definition start (q : queue) : world := World q ∅ ∅ ∅.

(** ** The cap is never exceeded *)

(** The type a worker holds the advisory lock of. *)
Definition at_type (p : wphase) : option string :=
  match p with
  | Holding t _ | Capped t _ _ | Under t _ | Chosen t _ _ => Some t
  | _ => None
  end.

Record safe (W : world) : Prop := Safe {
  sf_cap t : (running t (wq W) ≤ cap t (wq W))%Z;
  sf_lock w t : at_type (phase_of w W) = Some t → advisory W !! hashtext t = Some w;
  sf_capped w t c types : phase_of w W = Capped t c types → (c ≤ cap t (wq W))%Z;
  sf_under w t types : phase_of w W = Under t types → (running t (wq W) < cap t (wq W))%Z;
  sf_chosen w t id types : phase_of w W = Chosen t id types →
    (running t (wq W) < cap t (wq W))%Z ∧ ∃ j, jobs (wq W) !! id = Some j ∧ jb_job_type j = t
}.

Lemma phase_of_insert w w' p W q a r :
  phase_of w' (World q a r (<[w := p]> (phases W))) = if decide (w = w') then p else phase_of w' W.
Proof.
  unfold phase_of. simpl. case_decide; subst; [by rewrite lookup_insert_eq|].
  by rewrite lookup_insert_ne.
Qed.

Lemma running_other o q t :
  is_claim o = false → (running t (apply_op o q) ≤ running t q)%Z.
Proof.
  intros Ho. unfold running. apply inj_le, count_where_mono. intros k r Hk [Ht Hr].
  destruct (other_op_moves o q Ho) as [Hm Hnew].
  destruct (jobs q !! k) as [j|] eqn:Hj; [|destruct (Hnew k r Hk Hj); simpl in *; congruence].
  destruct (Hm k j Hj) as (j' & Hj' & [Hs Hno]). simplify_eq. exists j. split; [done|].
  split; [symmetry; by apply lt_type, job_step_later|by apply Hno].
Qed.

Lemma running_claim_other w now id j t q :
  jobs q !! id = Some j → jb_job_type j ≠ t →
  (running t (set_job id (start_job w now j) q) ≤ running t q)%Z.
Proof.
  intros Hj Ht. unfold running. apply inj_le, count_where_mono. simpl. intros k r.
  rewrite lookup_insert_Some. intros [[<- <-]|[_ Hk]] [Htk Hr]; [done|eauto].
Qed.

(** A worker that moves without touching the queue or another worker's locks. *)
Lemma safe_phase w p W a r :
  safe W → (∀ k w', w' ≠ w → advisory W !! k = Some w' → a !! k = Some w') →
  (∀ t, at_type p = Some t → a !! hashtext t = Some w) →
  match p with
  | Capped t c _ => (c ≤ cap t (wq W))%Z
  | Under t _ => (running t (wq W) < cap t (wq W))%Z
  | Chosen t id _ => (running t (wq W) < cap t (wq W))%Z ∧
      ∃ j, jobs (wq W) !! id = Some j ∧ jb_job_type j = t
  | _ => True
  end → safe (World (wq W) a r (<[w := p]> (phases W))).
Proof.
  intros [S1 S2 S3 S4 S5] Ha Hat Hp. split; cbn [wq advisory]; [exact S1|..].
  - intros w' t. rewrite phase_of_insert. case_decide; subst; eauto.
  - intros w' t c ts. rewrite phase_of_insert. case_decide; [by intros ->|apply S3].
  - intros w' t ts. rewrite phase_of_insert. case_decide; [by intros ->|apply S4].
  - intros w' t id ts. rewrite phase_of_insert. case_decide; [by intros ->|apply S5].
Qed.

(** Between two statements of a worker that holds a type nobody else claims a job of
    that type. *)
Lemma safe_claim w now W t id types j :
  safe W → phase_of w W = Chosen t id types → jobs (wq W) !! id = Some j →
  safe (finish w (set_job id (start_job w now j) (wq W)) W).
Proof.
  intros [S1 S2 S3 S4 S5] Hph Hj.
  destruct (S5 _ _ _ _ Hph) as (Hlt & j' & Hj' & Ht).
  rewrite Hj in Hj'. injection Hj' as <-. subst t.
  pose proof (S2 w (jb_job_type j) ltac:(by rewrite Hph)) as Hlock.
  pose proof (running_set_job id (start_job w now j) (jb_job_type j) (wq W)) as Hrun.
  assert (∀ t, jb_job_type j ≠ t →
    (running t (set_job id (start_job w now j) (wq W)) ≤ running t (wq W))%Z) as Hother
    by (intros; by apply running_claim_other).
  assert (∀ w' t, w ≠ w' → at_type (phase_of w' W) = Some t → jb_job_type j ≠ t) as Hne.
  { intros w' t Hw Hat <-. pose proof (S2 w' _ Hat). congruence. }
  unfold finish. split; cbn [wq advisory].
  - intros t. specialize (S1 t). destruct (decide (jb_job_type j = t)) as [<-|Hn].
    + change (cap (jb_job_type j) (set_job _ _ _)) with (cap (jb_job_type j) (wq W)). lia.
    + specialize (Hother t Hn). change (cap t (set_job _ _ _)) with (cap t (wq W)). lia.
  - intros w' t. rewrite phase_of_insert. case_decide as Hw; [done|]. intros Hat.
    apply map_lookup_filter_Some. split; [by apply S2|]. simpl. congruence.
  - intros w' t c ts. rewrite phase_of_insert. case_decide as Hw; [done|]. apply S3.
  - intros w' t ts. rewrite phase_of_insert. case_decide as Hw; [done|]. intros Hp.
    specialize (S4 _ _ _ Hp). pose proof (Hother t (Hne w' t Hw ltac:(by rewrite Hp))).
    change (cap t (set_job _ _ _)) with (cap t (wq W)). lia.
  - intros w' t id' ts. rewrite phase_of_insert. case_decide as Hw; [done|]. intros Hp.
    destruct (S5 _ _ _ _ Hp) as (Hl & j1 & Hj1 & Ht1).
    pose proof (Hother t (Hne w' t Hw ltac:(by rewrite Hp))).
    split; [change (cap t (set_job _ _ _)) with (cap t (wq W)); lia|]. simpl.
    destruct (decide (id = id')) as [<-|]; [|exists j1; by rewrite lookup_insert_ne].
    exists (start_job w now j). rewrite lookup_insert_eq. split; [done|]. simpl. congruence.
Qed.

Lemma safe_worker w now W W' : safe W → wnext w now W = Some W' → safe W'.
Proof.
  intros HS. pose proof HS as [S1 S2 S3 S4 S5]. unfold wnext, set_phase.
  destruct (phase_of w W) as [|[|t ts]|t ts|t c ts|t ts|t id ts] eqn:Hph.
  - intros [= <-]. apply safe_phase; [done|eauto|done|done].
  - intros [= <-]. apply safe_phase; [done| |done|done].
    intros k w' Hw Hk. apply map_lookup_filter_Some. split; [done|]. simpl. congruence.
  - case_bool_decide as Hfree; [|done]. intros [= <-]. apply safe_phase; [done| | |done].
    + intros k w' Hw Hk. apply lookup_insert_Some. right. split; [|done]. intros <-. naive_solver.
    + intros t' [= <-]. apply lookup_insert_eq.
  - intros [= <-]. apply safe_phase; [done|eauto| |done].
    intros t' [= <-]. apply S2. by rewrite Hph.
  - assert (advisory W !! hashtext t = Some w) as Hl by (apply S2; by rewrite Hph).
    specialize (S3 _ _ _ _ Hph).
    case_bool_decide as Hc; intros [= <-]; apply safe_phase; try done; eauto.
    + intros t' [= <-]. done.
    + lia.
  - assert (advisory W !! hashtext t = Some w) as Hl by (apply S2; by rewrite Hph).
    destruct (oldest_pending t _ _) as [[id j]|] eqn:Ho; intros [= <-]; apply safe_phase; try done;
      eauto.
    + intros t' [= <-]. done.
    + apply oldest_pending_Some in Ho as (Hj & Ht & _). split; [by apply (S4 w t ts)|eauto].
  - destruct (S5 _ _ _ _ Hph) as (_ & j & Hj & _). unfold claim_job. rewrite Hj.
    case_decide; intros [= <-]; [by eapply safe_claim|]. apply safe_phase; [done|eauto|done|done].
Qed.

Lemma safe_step W W' : safe W → queue_step W W' → safe W'.
Proof.
  intros HS [w now W'' Hw|o Ho Hcap]; [by eapply safe_worker|].
  pose proof HS as [S1 S2 S3 S4 S5].
  assert (∀ t, running t (apply_op o (wq W)) ≤ running t (wq W))%Z as Hrun
    by (intros; by apply running_other).
  split; cbn [wq advisory].
  - intros t. specialize (S1 t). specialize (Hcap t). specialize (Hrun t). lia.
  - done.
  - intros w t c ts Hp. specialize (S3 _ _ _ _ Hp). specialize (Hcap t). lia.
  - intros w t ts Hp. specialize (S4 _ _ _ Hp). specialize (Hcap t). specialize (Hrun t). lia.
  - intros w t id ts Hp. destruct (S5 _ _ _ _ Hp) as (Hl & j & Hj & Ht).
    specialize (Hcap t). specialize (Hrun t). split; [lia|].
    destruct (proj1 (apply_op_moves o (wq W)) id j Hj) as (j' & Hj' & Hs%job_step_later).
    exists j'. split; [done|]. rewrite (lt_type _ _ Hs). done.
Qed.

(** C20. The cap holds under concurrency: however the statements of any number of
    workers interleave with each other and with every other operation on the queue,
    the number of running jobs of a type never exceeds its cap - as long as it did
    not at the start and no cap is lowered.  Nothing is assumed of the hash that
    keys the advisory locks, so colliding types are safe too. *)
Theorem cap_respected (q : queue) (W : world) :
  (∀ t, running t q ≤ cap t q)%Z → rtc queue_step (start q) W →
  ∀ t, (running t (wq W) ≤ cap t (wq W))%Z.
Proof.
  intros Hq Hr. assert (safe (start q)) as HS.
  { split; simpl; [done|..]; intros *; unfold phase_of; simpl; by rewrite lookup_empty. }
  apply sf_cap. induction Hr as [|W1 W2 W3 Hstep _ IH]; [done|]. apply IH. by eapply safe_step.
Qed.

(** ** One worker alone *)

(** Every lock is the worker's own. *)
Definition solo (w : string) (W : world) : Prop :=
  (∀ k w', advisory W !! k = Some w' → w' = w) ∧ (∀ k w', row_locks W !! k = Some w' → w' = w).

Definition alone (w : string) (now : Z) : world → world → Prop :=
  rtc (λ W W', wnext w now W = Some W').

Lemma solo_locked w W : solo w W → locked_for w W = ∅.
Proof.
  intros [_ Hr]. unfold locked_for. apply dom_empty_iff_L, map_empty. intros k.
  apply map_lookup_filter_None. right. intros w' Hk. simpl. specialize (Hr k w' Hk). congruence.
Qed.

Lemma filter_own {K} `{Countable K} (w : string) (m : gmap K string) :
  (∀ k w', m !! k = Some w' → w' = w) → filter (λ kv, kv.2 ≠ w) m = ∅.
Proof.
  intros Hm. apply map_empty. intros k. apply map_lookup_filter_None. right. intros w' Hk. simpl.
  specialize (Hm k w' Hk). congruence.
Qed.

Lemma phase_of_set_phase w p W : phase_of w (set_phase w p W) = p.
Proof. unfold phase_of. simpl. by rewrite lookup_insert_eq. Qed.

Lemma alone_finish w now W q W0 :
  solo w W → alone w now W0 (finish w q W) →
  ∃ W', alone w now W0 W' ∧ wq W' = q ∧ phase_of w W' = Idle ∧ advisory W' = ∅ ∧ row_locks W' = ∅.
Proof.
  intros [Ha Hr] Hstep. exists (finish w q W). split_and!; try done.
  - unfold phase_of. simpl. by rewrite lookup_insert_eq.
  - by apply filter_own.
  - by apply filter_own.
Qed.

Lemma alone_scan w now types W :
  phase_of w W = Scanning types → solo w W →
  ∃ W', alone w now W W' ∧ wq W' = (claim_from w now ∅ types (wq W)).2 ∧
    phase_of w W' = Idle ∧ advisory W' = ∅ ∧ row_locks W' = ∅.
Proof.
  revert W. induction types as [|t types IH]; intros W Hph Hsolo; simpl.
  { apply (alone_finish w now W); [done|]. apply rtc_once. unfold wnext. by rewrite Hph. }
  set (W1 := World (wq W) (<[hashtext t := w]> (advisory W)) (row_locks W)
    (<[w := Holding t types]> (phases W))).
  assert (solo w W1) as Hs1.
  { destruct Hsolo as [Ha Hr]. split; [|done]. simpl. intros k w'.
    rewrite lookup_insert_Some. naive_solver. }
  assert (wnext w now W = Some W1) as H1.
  { unfold wnext. rewrite Hph, bool_decide_eq_true_2; [done|].
    destruct (advisory W !! hashtext t) as [w'|] eqn:E; [right|by left].
    f_equal. exact (proj1 Hsolo _ _ E). }
  set (W2 := set_phase w (Capped t (cap t (wq W)) types) W1).
  assert (wnext w now W1 = Some W2) as H2.
  { unfold wnext. replace (phase_of w W1) with (Holding t types); [done|].
    unfold W1, phase_of. simpl. by rewrite lookup_insert_eq. }
  assert (alone w now W W2) as H12 by (eapply rtc_l; [done|by apply rtc_once]).
  assert (∀ W3, alone w now W2 W3 → phase_of w W3 = Scanning types → solo w W3 → wq W3 = wq W →
    ∃ W', alone w now W W' ∧ wq W' = (claim_from w now ∅ types (wq W)).2 ∧
      phase_of w W' = Idle ∧ advisory W' = ∅ ∧ row_locks W' = ∅) as Hnext.
  { intros W3 H23 Hp3 Hs3 Hq3. destruct (IH W3 Hp3 Hs3) as (W' & H3 & Hrest). rewrite Hq3 in Hrest.
    exists W'. split; [|done]. etrans; [done|]. by etrans. }
  destruct (bool_decide (cap t (wq W) ≤ running t (wq W))%Z) eqn:Hc.
  { apply (Hnext (set_phase w (Scanning types) W2)); try done; [|apply phase_of_set_phase].
    apply rtc_once. unfold wnext, W2. rewrite phase_of_set_phase. simpl. by rewrite Hc. }
  set (W3 := set_phase w (Under t types) W2).
  assert (alone w now W2 W3) as H23.
  { apply rtc_once. unfold wnext, W2. rewrite phase_of_set_phase. simpl. by rewrite Hc. }
  assert (locked_for w W3 = ∅) as Hl by (by apply solo_locked).
  destruct (oldest_pending t ∅ (wq W)) as [[id j]|] eqn:Ho.
  2: { apply (Hnext (set_phase w (Scanning types) W3)); try done; [|apply phase_of_set_phase].
       etrans; [exact H23|]. apply rtc_once. unfold wnext, W3. rewrite phase_of_set_phase.
       fold W3.
      rewrite Hl. change (wq W3) with (wq W). by rewrite Ho. }
  pose proof (oldest_pending_Some _ _ _ _ _ Ho) as (Hj & _ & Hp & _).
  unfold claim_job. rewrite Hj, decide_True by done. simpl.
  set (W4 := World (wq W3) (advisory W3) (<[id := w]> (row_locks W3))
    (<[w := Chosen t id types]> (phases W3))).
  apply (alone_finish w now W4).
  - split; [apply Hs1|]. simpl. intros k w'. rewrite lookup_insert_Some.
    intros [[_ <-]|[_ Hk]]; [done|]. by apply (proj2 Hs1 k).
  - etrans; [exact H12|]. etrans; [exact H23|]. apply (rtc_l _ _ W4).
    + unfold wnext, W3. rewrite phase_of_set_phase. fold W3.
      rewrite Hl. change (wq W3) with (wq W). by rewrite Ho.
    + apply rtc_once. unfold wnext.
      replace (phase_of w W4) with (Chosen t id types)
        by (unfold W4, phase_of; simpl; by rewrite lookup_insert_eq).
      simpl. unfold claim_job. by rewrite Hj, decide_True.
Qed.

(** The statements implement the function: a worker that nobody disturbs goes
    through them from idle to idle, holds no lock afterwards, and leaves the queue
    that [claim_next_job] describes. *)
Theorem worker_implements_claim (w : string) (now : Z) (q : queue) :
  ∃ W', alone w now (start q) W' ∧ wq W' = (claim_next_job w now ∅ q).2 ∧
    phase_of w W' = Idle ∧ advisory W' = ∅ ∧ row_locks W' = ∅.
Proof.
  set (W1 := set_phase w (Scanning (candidate_types q)) (start q)).
  destruct (alone_scan w now (candidate_types q) W1) as (W' & Hs & Hrest).
  - apply phase_of_set_phase.
  - split; simpl; intros k w'; by rewrite lookup_empty.
  - exists W'. split; [|done]. apply (rtc_l _ _ W1); [|done]. unfold wnext, phase_of. simpl.
    by rewrite lookup_empty.
Qed.
End workers.

(** ** Examples *)
Module WorkersExample.
Import JobExample.

(** Two types with different lock keys, each with a cap of one. *)
Definition key (t : string) : Z := if decide (t = "A") then 1 else 2.

(** Run the statements of the listed workers in order, skipping one that has to wait. *)
Definition turns (ws : list string) (W : world) : world :=
  foldl (λ W w, default W (wnext key w 10 W)) W ws.

Lemma turns_steps ws W0 W : rtc (queue_step key) W0 W → rtc (queue_step key) W0 (turns ws W).
Proof.
  revert W. induction ws as [|w ws IH]; intros W Hr; simpl; [done|]. apply IH.
  destruct (wnext key w 10 W) as [W'|] eqn:E; [|done]. eapply rtc_r; [done|].
  by eapply WorkerStep.
Qed.

Definition other (o : queue_op) (W : world) : world :=
  World (apply_op o (wq W)) (advisory W) (row_locks W) (phases W).

(** One job of each type is running, and A1, B1, A2 wait in this order. *)
Definition busy : queue :=
  apply_ops [job "A0" "A" 0; job "B0" "B" 0; OpClaim "w" 1 ∅; OpClaim "w" 1 ∅;
             job "A1" "A" 2; job "B1" "B" 3; job "A2" "A" 4] empty_queue.

Lemma running_single q t id :
  (∀ k r, jobs q !! k = Some r → jb_job_type r = t → jb_status r = JobRunning → k = id) →
  (running t q ≤ 1)%Z.
Proof.
  intros Hq. unfold running, count_where. apply (inj_le _ 1). rewrite <- (length_fmap fst).
  apply (submseteq_length _ [id]), NoDup_submseteq; [apply NoDup_select_where_fst|].
  intros k ([k' r] & -> & Hin)%list_elem_of_fmap. apply elem_of_select_where in Hin.
  destruct Hin as [[Ht Hr] Hk]. apply list_elem_of_singleton. by apply (Hq k' r).
Qed.

Lemma busy_running : map_Forall (λ k r, jb_status r = JobRunning →
  (jb_job_type r, k) ∈ [("A", "A0"); ("B", "B0")]) (jobs busy).
Proof. apply (bool_decide_unpack _). by vm_compute. Qed.

Lemma busy_capped t : (running t busy ≤ cap t busy)%Z.
Proof.
  assert (cap t busy = 1)%Z as ->.
  { unfold cap. replace (limits busy) with (∅ : gmap string Z) by (by vm_compute).
    by rewrite lookup_empty. }
  apply (running_single busy t (if decide (t = "A") then "A0" else "B0")).
  pose proof busy_running as Hall. generalize dependent (jobs busy). intros m Hall k r Hk Ht Hr.
  specialize (Hall k r Hk Hr). rewrite Ht, !elem_of_cons, elem_of_nil in Hall.
  destruct Hall as [[= Ht' ->]|[[= Ht' ->]|[]]]; rewrite Ht'; done.
Qed.

(** Worker [u] has seen A before B; then A0 ends, A1 starts, and worker [v] sees B
    before A. *)
Definition crossed : world :=
  turns ["u"; "u"; "u"; "v"; "v"; "v"; "u"; "v"]
    (turns ["v"] (turns ["x"; "x"; "x"; "x"; "x"; "x"]
      (other (OpFinalize "A0" 0 9) (turns ["u"] (start busy))))).

Lemma crossed_reachable : rtc (queue_step key) (start busy) crossed.
Proof.
  unfold crossed. do 3 apply turns_steps. eapply rtc_r; [by apply turns_steps, rtc_refl|].
  apply (OtherStep key _ (OpFinalize "A0" 0 9)); [done|]. intros t.
  by vm_compute.
Qed.

Lemma cap_respected_witness : (running "A" (wq crossed) ≤ cap "A" (wq crossed))%Z.
Proof. apply (cap_respected key busy crossed busy_capped crossed_reachable). Defined.

(** The two workers now wait for each other: each holds the lock of the type it found
    at its cap and wants the other's. *)
Example workers_deadlock :
  rtc (queue_step key) (start busy) crossed ∧
  phase_of "u" crossed = Scanning ["B"] ∧ phase_of "v" crossed = Scanning ["A"] ∧
  wnext key "u" 10 crossed = None ∧ wnext key "v" 10 crossed = None.
Proof. split; [exact crossed_reachable|]. by vm_compute. Qed.
End WorkersExample.
