(* ===== verification/ContentManifest.v ===== *)
(** * The content manifest format

    [web/content_manifest.py]: the validator that turns a JSON payload into a
    manifest, its JSON form and its digest; and [build_content_manifest_v1] of
    [web/ts_engine_pg.py], which builds the manifest of the whole catalogue. *)

From stdpp Require Import base gmap list strings pretty sorting.
From Stdlib Require Import ZArith Lia Ascii.
From S2P Require Import Prelude Json Digest Text TsData Sequences Content.

(** ** [urllib.parse.urlparse] *)

Module Url.
Definition is_alpha (c : ascii) : bool :=
  let n := N_of_ascii c in bool_decide ((65 ≤ n ≤ 90) ∨ (97 ≤ n ≤ 122))%N.

(** Letters, digits and [+-.] *)
Definition scheme_char (c : ascii) : bool :=
  let n := N_of_ascii c in
  is_alpha c || bool_decide ((48 ≤ n ≤ 57) ∨ n = 43 ∨ n = 45 ∨ n = 46)%N.

Fixpoint string_forall (p : ascii → bool) (s : string) : bool :=
  match s with EmptyString => true | String c s => p c && string_forall p s end.

(** [url.lstrip(<control characters and space>)] and the removal of tabs and line
    ends *)
Fixpoint lstrip_control (s : string) : string :=
  match s with
  | String c s' => if bool_decide (N_of_ascii c ≤ 32)%N then lstrip_control s' else s
  | EmptyString => s
  end.

Fixpoint remove_unsafe (s : string) : string :=
  match s with
  | EmptyString => EmptyString
  | String c s =>
      if bool_decide (N_of_ascii c = 9 ∨ N_of_ascii c = 10 ∨ N_of_ascii c = 13)%N
      then remove_unsafe s else String c (remove_unsafe s)
  end.

(** The text before and after the first character that satisfies [p]. *)
Fixpoint split_at (p : ascii → bool) (s : string) : string * option string :=
  match s with
  | EmptyString => (EmptyString, None)
  | String c s =>
      if p c then (EmptyString, Some s)
      else let '(a, b) := split_at p s in (String c a, b)
  end.

(** The scheme (lower case; empty when there is none) and the rest. *)
Definition split_scheme (url : string) : string * string :=
  match split_at (is_char 58) url with
  | (String c s, Some rest) =>
      if is_alpha c && string_forall scheme_char (String c s)
      then (PyStr.lower (String c s), rest) else (EmptyString, url)
  | _ => (EmptyString, url)
  end.

(** [urlparse(url).scheme]; a network location with one bracket only is refused.  What
    is between two brackets is not checked. *)
Definition scheme (url : string) : outcome string :=
  let '(sch, rest) := split_scheme (remove_unsafe (lstrip_control url)) in
  match rest with
  | String "/" (String "/" tail) =>
      let netloc := (split_at (λ c, is_char 47 c || is_char 63 c || is_char 35 c) tail).1 in
      if Bool.eqb (has_char 91 netloc) (has_char 93 netloc) then Ret sch
      else Exc (ValueError "Invalid IPv6 URL")
  | _ => Ret sch
  end.
End Url.

(** ** Data *)

Definition SCHEMA_VERSION : Z := 1.
Definition CONTENT_KINDS : list string := ["app"; "package"; "script"; "driver"; "os_image"].

Definition invalid (message : string) : exc := CustomError "ContentManifestValidationError" message.

Record manifest_item : Type := ManifestItem {
  mi_id : string;
  mi_kind : string;
  mi_name : string;
  mi_version : string;
  mi_source_uri : string;
  mi_sha256 : string;
  mi_size_bytes : Z;
  mi_architecture : string;
  mi_target_os : string;
  mi_reboot_behavior : string;
  mi_conditions : json;
  mi_metadata : json
}.

Record content_manifest : Type := ContentManifest {
  cm_schema_version : Z;
  cm_items : list manifest_item
}.

(** ** Fields *)

Definition required_string (raw : json) (field context : string) : outcome string :=
  let refuse := Exc (invalid (context +:+ "." +:+ field +:+ " must be a non-empty string")) in
  match jget field raw with
  | JStr value => if bool_decide (PyStr.strip value = EmptyString) then refuse else Ret value
  | _ => refuse
  end.

Definition content_kind (raw : json) (context : string) : outcome string :=
  value ← required_string raw "kind" context;
  if bool_decide (value ∈ CONTENT_KINDS) then Ret value
  else Exc (invalid (context +:+ ".kind must be one of: app, driver, os_image, package, script")).

Definition source_uri (raw : json) (context : string) : outcome string :=
  value ← required_string raw "source_uri" context;
  sch ← Url.scheme value;
  if bool_decide (sch = EmptyString)
  then Exc (invalid (context +:+ ".source_uri must include a URI scheme")) else Ret value.

Definition hex_char (c : ascii) : bool :=
  let n := N_of_ascii c in bool_decide ((48 ≤ n ≤ 57) ∨ (65 ≤ n ≤ 70) ∨ (97 ≤ n ≤ 102))%N.

(** [re.compile(r"^[A-Fa-f0-9]{64}$").fullmatch] *)
Definition is_sha256 (s : string) : bool :=
  bool_decide (String.length s = 64) && Url.string_forall hex_char s.

Definition sha256_field (raw : json) (context : string) : outcome string :=
  value ← required_string raw "sha256" context;
  if is_sha256 value then Ret (PyStr.lower value)
  else Exc (invalid (context +:+ ".sha256 must be 64 hexadecimal characters")).

Definition size_bytes (raw : json) (context : string) : outcome Z :=
  let refuse := Exc (invalid (context +:+ ".size_bytes must be a non-negative integer")) in
  match jget "size_bytes" raw with
  | JInt z => if bool_decide (z < 0)%Z then refuse else Ret z
  | _ => refuse
  end.

(** [raw.get(k, default)] *)
Definition get_default (k : string) (d raw : json) : json :=
  match raw with
  | JObj o => default d (assoc k o)
  | _ => d
  end.

Definition reboot_behavior (raw : json) (context : string) : outcome string :=
  let refuse := Exc (invalid
    (context +:+ ".reboot_behavior must be one of: deferred, none, optional, required")) in
  match get_default "reboot_behavior" (JStr "none") raw with
  | JStr value => if bool_decide (value ∈ REBOOT_BEHAVIORS) then Ret value else refuse
  | _ => refuse
  end.

Definition json_object (raw : json) (field context : string) : outcome json :=
  match get_default field (JObj []) raw with
  | JObj o => Ret (stable_json_value (JObj o))
  | _ => Exc (invalid (context +:+ "." +:+ field +:+ " must be an object"))
  end.

(** ** Manifests *)

Definition item_context (index : nat) : string := "items[" +:+ pretty index +:+ "]".

Definition item_from_dict (raw : json) (index : nat) : outcome manifest_item :=
  let context := item_context index in
  id ← required_string raw "id" context;
  kind ← content_kind raw context;
  name ← required_string raw "name" context;
  version ← required_string raw "version" context;
  uri ← source_uri raw context;
  sha ← sha256_field raw context;
  size ← size_bytes raw context;
  architecture ← required_string raw "architecture" context;
  target_os ← required_string raw "target_os" context;
  reboot ← reboot_behavior raw context;
  conditions ← json_object raw "conditions" context;
  metadata ← json_object raw "metadata" context;
  Ret (ManifestItem id kind name version uri sha size architecture target_os reboot conditions
         metadata).

Definition item_object (raw : json) (index : nat) : outcome json :=
  match raw with
  | JObj _ => Ret raw
  | _ => Exc (invalid (item_context index +:+ " must be an object"))
  end.

Fixpoint items_from (index : nat) (raws : list json) : outcome (list manifest_item) :=
  match raws with
  | [] => Ret []
  | raw :: raws =>
      obj ← item_object raw index;
      item ← item_from_dict obj index;
      items ← items_from (S index) raws;
      Ret (item :: items)
  end.

Definition from_dict (raw : json) : outcome content_manifest :=
  match raw with
  | JObj _ =>
      if py_eq (jget "schema_version" raw) (JInt SCHEMA_VERSION) then
        match jget "items" raw with
        | JArr items => parsed ← items_from 0 items; Ret (ContentManifest SCHEMA_VERSION parsed)
        | _ => Exc (invalid "items must be a list")
        end
      else Exc (invalid "schema_version must be 1")
  | _ => Exc (invalid "manifest must be an object")
  end.

Definition item_to_dict (i : manifest_item) : json :=
  JObj [("id", JStr (mi_id i)); ("kind", JStr (mi_kind i)); ("name", JStr (mi_name i));
        ("version", JStr (mi_version i)); ("source_uri", JStr (mi_source_uri i));
        ("sha256", JStr (mi_sha256 i)); ("size_bytes", JInt (mi_size_bytes i));
        ("architecture", JStr (mi_architecture i)); ("target_os", JStr (mi_target_os i));
        ("reboot_behavior", JStr (mi_reboot_behavior i));
        ("conditions", stable_json_value (mi_conditions i));
        ("metadata", stable_json_value (mi_metadata i))].

Definition to_dict (m : content_manifest) : json :=
  JObj [("schema_version", JInt (cm_schema_version m));
        ("items", JArr (item_to_dict <$> cm_items m))].

(** A dictionary, or a manifest that was already validated. *)
Definition validate_manifest (raw : json + content_manifest) : outcome content_manifest :=
  match raw with
  | inl raw => from_dict raw
  | inr m => from_dict (to_dict m)
  end.

Section digest.
Context `{Sha256}.

Definition manifest_digest (raw : json + content_manifest) : outcome string :=
  m ← validate_manifest raw;
  Ret (sha256_hex (json_dumps (to_dict m))).

(** ** [build_content_manifest_v1] *)

(** [ORDER BY ci.name]: names are unique. *)
Definition name_order : string * content_item_row → string * content_item_row → comparison :=
  cmp_on (λ kr, ci_name kr.2) cmp_str.

(** The enabled items with their latest versions; the join drops items without one. *)
Definition published_items (d : db) : list (content_item_row * content_version_row) :=
  omap (λ ki, (λ v, (ki.2, v.2)) <$> latest_version ki.1 d)
    (isort name_order (select_where (λ kr, ci_enabled kr.2 = true) (content_items d))).

Definition published_item_json (iv : content_item_row * content_version_row) : json :=
  let '(i, v) := iv in
  JObj [("id", JStr (ci_name i)); ("kind", JStr (ci_content_type i)); ("name", JStr (ci_name i));
        ("version", JStr (cv_version v)); ("source_uri", JStr (cv_source_uri v));
        ("sha256", JStr (cv_sha256 v)); ("size_bytes", JInt (default 0%Z (cv_size_bytes v)));
        ("architecture", JStr (cv_architecture v)); ("target_os", JStr (cv_target_os v));
        ("reboot_behavior", JStr (cv_reboot_behavior v));
        ("conditions", jor (cv_conditions v) (JObj [])); ("metadata", jor (cv_metadata v) (JObj []))].

(** The manifest, its digest and the number of its items. *)
Definition build_content_manifest_v1 : eff session (json * string * nat) :=
  d ← query (λ d, d);
  let raw := JObj [("schema_version", JInt 1);
                   ("items", JArr (published_item_json <$> published_items d))] in
  m ← lift_outcome (validate_manifest (inl raw));
  digest ← lift_outcome (manifest_digest (inl (to_dict m)));
  mret (to_dict m, digest, length (cm_items m)).
End digest.

(** ** Valid manifests *)

Definition nonblank (s : string) : Prop := PyStr.strip s ≠ EmptyString.

Definition stable_object (j : json) : Prop := ∃ o, j = JObj o ∧ stable_json_value j = j.

Record valid_item (i : manifest_item) : Prop := ValidItem {
  valid_id : nonblank (mi_id i);
  valid_kind : mi_kind i ∈ CONTENT_KINDS;
  valid_name : nonblank (mi_name i);
  valid_version : nonblank (mi_version i);
  valid_uri : nonblank (mi_source_uri i) ∧
    ∃ sch, Url.scheme (mi_source_uri i) = Ret sch ∧ sch ≠ EmptyString;
  valid_sha : is_sha256 (mi_sha256 i) = true ∧ PyStr.lower (mi_sha256 i) = mi_sha256 i;
  valid_size : (0 ≤ mi_size_bytes i)%Z;
  valid_architecture : nonblank (mi_architecture i);
  valid_target_os : nonblank (mi_target_os i);
  valid_reboot : mi_reboot_behavior i ∈ REBOOT_BEHAVIORS;
  valid_conditions : stable_object (mi_conditions i);
  valid_metadata : stable_object (mi_metadata i)
}.

Definition valid_manifest (m : content_manifest) : Prop :=
  cm_schema_version m = SCHEMA_VERSION ∧ Forall valid_item (cm_items m).

Lemma hex_char_lower c : hex_char (PyStr.lower_char c) = hex_char c.
Proof. by destruct c as [[] [] [] [] [] [] [] []]; vm_compute. Qed.

Lemma hex_char_not_space c : hex_char c = true → PyStr.is_space c = false.
Proof. by destruct c as [[] [] [] [] [] [] [] []]; vm_compute. Qed.

Lemma is_sha256_lower s : is_sha256 (PyStr.lower s) = is_sha256 s.
Proof.
  unfold is_sha256. f_equal.
  - apply bool_decide_ext. assert (String.length (PyStr.lower s) = String.length s) as ->; [|done].
    induction s; simpl; auto.
  - induction s; simpl; [done|]. by rewrite hex_char_lower, IHs.
Qed.

Lemma nonblank_head c s : PyStr.is_space c = false → nonblank (String c s).
Proof.
  intros Hc. unfold nonblank, PyStr.strip. rewrite PyStr.rstrip_String.
  destruct (PyStr.rstrip s); repeat (simpl; rewrite Hc); done.
Qed.

Lemma nonblank_sha256 s : is_sha256 s = true → nonblank s.
Proof.
  unfold is_sha256. intros [Hl Hh]%andb_true_iff. destruct s as [|c s]; [done|].
  simpl in Hh. apply andb_true_iff in Hh as [Hc _]. by apply nonblank_head, hex_char_not_space.
Qed.

Lemma nonblank_kind s : s ∈ CONTENT_KINDS → nonblank s.
Proof.
  intros H. repeat (apply elem_of_cons in H as [->|H]; [by vm_compute|]). by apply not_elem_of_nil in H.
Qed.

(** Opens the next effect of a validator that succeeded. *)
Ltac open_ret H :=
  repeat match type of H with
  | mbind _ ?m = Ret _ =>
      let x := fresh "v" in let E := fresh "E" in
      destruct m as [x|] eqn:E; [cbn in H|discriminate H]
  end.

Lemma required_string_Ret raw f c s :
  required_string raw f c = Ret s ↔ jget f raw = JStr s ∧ nonblank s.
Proof.
  unfold required_string, nonblank. destruct (jget f raw); try (split; [done|by intros [? ?]]).
  case_bool_decide; (split; [intros|intros [? ?]]); by simplify_eq.
Qed.

Lemma json_object_stable raw f c j : json_object raw f c = Ret j → stable_object j.
Proof.
  unfold json_object. destruct (get_default _ _ _) as [| | | | |o]; try done. intros [= <-].
  eexists. split; [done|]. apply (stable_json_idem (JObj o)).
Qed.

Lemma item_from_dict_valid raw i item : item_from_dict raw i = Ret item → valid_item item.
Proof.
  unfold item_from_dict. cbv zeta. intros H. open_ret H. injection H as <-.
  repeat match goal with
  | E : required_string _ _ _ = Ret _ |- _ => apply required_string_Ret in E as [? ?]
  | E : json_object _ _ _ = Ret _ |- _ => apply json_object_stable in E
  end.
  split; simpl; try done.
  - clear -E0. unfold content_kind in E0. open_ret E0. case_bool_decide; naive_solver.
  - clear -E3. unfold source_uri in E3. open_ret E3. apply required_string_Ret in E as [_ ?].
    case_bool_decide; [done|]. injection E3 as <-. eauto.
  - clear -E4. unfold sha256_field in E4. open_ret E4. destruct (is_sha256 _) eqn:Es; [|done].
    injection E4 as <-. by rewrite is_sha256_lower, PyStr.lower_idem.
  - clear -E5. unfold size_bytes in E5. destruct (jget _ _); try done. case_bool_decide; [done|].
    injection E5 as <-. lia.
  - clear -E8. unfold reboot_behavior in E8. destruct (get_default _ _ _); try done.
    case_bool_decide; [|done]. by injection E8 as <-.
Qed.

Lemma from_dict_valid raw m : from_dict raw = Ret m → valid_manifest m.
Proof.
  unfold from_dict. intros H. destruct raw; try done. destruct (py_eq _ _); [|done].
  destruct (jget "items" _) as [| | | |l|]; try done. open_ret H. injection H as <-.
  split; [done|]. simpl. revert v E. generalize 0. induction l as [|raw l IH]; intros n v E.
  - by injection E as <-.
  - cbn in E. open_ret E. injection E as <-. constructor; eauto using item_from_dict_valid.
Qed.

Lemma content_kind_Ret raw c k :
  jget "kind" raw = JStr k → k ∈ CONTENT_KINDS → content_kind raw c = Ret k.
Proof.
  intros Hg Hk. unfold content_kind.
  rewrite (proj2 (required_string_Ret raw "kind" c k) (conj Hg (nonblank_kind k Hk))). cbn.
  by rewrite bool_decide_true.
Qed.

Lemma source_uri_Ret raw c u sch :
  jget "source_uri" raw = JStr u → nonblank u → Url.scheme u = Ret sch → sch ≠ EmptyString →
  source_uri raw c = Ret u.
Proof.
  intros Hg Hu Hs Hne. unfold source_uri.
  rewrite (proj2 (required_string_Ret raw "source_uri" c u) (conj Hg Hu)). cbn. rewrite Hs. cbn.
  by rewrite bool_decide_false.
Qed.

Lemma sha256_field_Ret raw c s :
  jget "sha256" raw = JStr s → is_sha256 s = true → sha256_field raw c = Ret (PyStr.lower s).
Proof.
  intros Hg Hs. unfold sha256_field.
  rewrite (proj2 (required_string_Ret raw "sha256" c s) (conj Hg (nonblank_sha256 s Hs))). cbn.
  by rewrite Hs.
Qed.

Lemma size_bytes_Ret raw c z :
  jget "size_bytes" raw = JInt z → (0 ≤ z)%Z → size_bytes raw c = Ret z.
Proof. intros Hg Hz. unfold size_bytes. rewrite Hg, bool_decide_false; [done|lia]. Qed.

Lemma reboot_behavior_Ret raw c r :
  get_default "reboot_behavior" (JStr "none") raw = JStr r → r ∈ REBOOT_BEHAVIORS →
  reboot_behavior raw c = Ret r.
Proof. intros Hg Hr. unfold reboot_behavior. by rewrite Hg, bool_decide_true. Qed.

Lemma json_object_Ret raw f c o :
  get_default f (JObj []) raw = JObj o → json_object raw f c = Ret (stable_json_value (JObj o)).
Proof. intros Hg. unfold json_object. by rewrite Hg. Qed.

Lemma item_roundtrip item index :
  valid_item item → item_from_dict (item_to_dict item) index = Ret item.
Proof.
  intros [Hid Hk Hn Hv [Hu (sch & Hsch & Hne)] [Hs Hlow] Hz Ha Ht Hr (co & Hco & Hc) (mo & Hmo & Hm)].
  destruct item as [id k n v u sha z a t r co' mo']; simpl in *. subst co' mo'.
  assert (∃ d, d = item_to_dict (ManifestItem id k n v u sha z a t r (JObj co) (JObj mo)))
    as [d Hd] by eauto. pose proof Hd as Hd'. unfold item_to_dict in Hd'.
  cbn [mi_conditions mi_metadata] in Hd'. rewrite Hc, Hm in Hd'. rewrite <- Hd.
  assert (∀ f c s, jget f d = JStr s → nonblank s → required_string d f c = Ret s) as Hreq
    by (intros; by apply required_string_Ret).
  unfold item_from_dict. cbv zeta.
  rewrite (Hreq "id" _ id), (content_kind_Ret _ _ k), (Hreq "name" _ n), (Hreq "version" _ v),
    (source_uri_Ret _ _ u sch), (sha256_field_Ret _ _ sha), (size_bytes_Ret _ _ z),
    (Hreq "architecture" _ a), (Hreq "target_os" _ t), (reboot_behavior_Ret _ _ r),
    (json_object_Ret _ "conditions" _ co), (json_object_Ret _ "metadata" _ mo)
    by (done || by rewrite Hd').
  cbn -[stable_json_value PyStr.lower]. by rewrite Hc, Hm, Hlow.
Qed.

Lemma to_dict_roundtrip m : valid_manifest m → from_dict (to_dict m) = Ret m.
Proof.
  destruct m as [v items]. intros [Hv Hi]; simpl in *. subst v. unfold from_dict, to_dict. cbn.
  assert (∀ n, items_from n (item_to_dict <$> items) = Ret items) as ->; [|done].
  induction Hi as [|i items Hi Hl IH]; intros n; [done|].
  cbn [items_from fmap list_fmap]. unfold item_object. cbn [item_to_dict].
  change (JObj _) with (item_to_dict i).
  cbn. by rewrite item_roundtrip, IH.
Qed.

(** ** The order of keys does not matter *)

(** What a reader finds under a key: nothing in both, or the same value. *)
Lemma same_json_assoc o o' k :
  wf_json (JObj o) → same_json (JObj o) (JObj o') →
  match assoc k o, assoc k o' with
  | Some v, Some v' => wf_json v ∧ same_json v v'
  | None, None => True
  | _, _ => False
  end.
Proof.
  intros Hwf Hs. inversion_clear Hwf as [| | | | |? Hnd Hf].
  inversion Hs as [|?|? p ? Hp Ho]; subst.
  { destruct (assoc k o') as [v|] eqn:E; [|done]. split; [|constructor].
    apply assoc_elem in E. rewrite Forall_forall in Hf. by apply (Hf (k, v)). }
  assert (assoc k o = assoc k p) as ->.
  { destruct (assoc k p) as [v|] eqn:E.
    - apply assoc_NoDup; [done|]. rewrite Hp. by apply assoc_elem.
    - apply assoc_None. by rewrite Hp, <- assoc_None. }
  rewrite Hp in Hf. clear Hnd Hp Hs. induction Ho as [|[a x] [b y] p o' [Hk Hv] Ho IH]; [done|].
  inversion_clear Hf. simpl in *. subst b. case_decide; [done|by apply IH].
Qed.

(** Case analysis on two values of the same shape. *)
Ltac same_cases H :=
  match type of H with
  | same_json ?a ?b =>
      let a' := fresh "a" in let b' := fresh "b" in
      set (a' := a) in *; set (b' := b) in *; clearbody a' b';
      destruct a'; inversion H; subst; try done
  end.

Section same_object.
Context (o o' : list (string * json)).
Hypothesis Hwf : wf_json (JObj o).
Hypothesis Hs : same_json (JObj o) (JObj o').

Lemma same_jget k : wf_json (jget k (JObj o)) ∧ same_json (jget k (JObj o)) (jget k (JObj o')).
Proof.
  pose proof (same_json_assoc o o' k Hwf Hs) as H. simpl.
  destruct (assoc k o), (assoc k o'); try done. split; constructor.
Qed.

Lemma same_get_default k d :
  wf_json d → wf_json (get_default k d (JObj o)) ∧
              same_json (get_default k d (JObj o)) (get_default k d (JObj o')).
Proof.
  intros Hd. pose proof (same_json_assoc o o' k Hwf Hs) as H. simpl.
  destruct (assoc k o), (assoc k o'); try done. split; [done|constructor].
Qed.

Lemma same_required_string f c : required_string (JObj o) f c = required_string (JObj o') f c.
Proof.
  unfold required_string. destruct (same_jget f) as [_ H].
  by same_cases H.
Qed.

Lemma same_json_object f c : json_object (JObj o) f c = json_object (JObj o') f c.
Proof.
  unfold json_object. destruct (same_get_default f (JObj [])) as [Hw H]; [by repeat constructor|].
  pose proof (stable_same _ _ Hw H) as E.
  same_cases H. by rewrite E.
Qed.

Lemma same_item_from_dict i : item_from_dict (JObj o) i = item_from_dict (JObj o') i.
Proof.
  assert (size_bytes (JObj o) (item_context i) = size_bytes (JObj o') (item_context i)) as Hz.
  { unfold size_bytes. destruct (same_jget "size_bytes") as [_ H].
    by same_cases H. }
  assert (reboot_behavior (JObj o) (item_context i) = reboot_behavior (JObj o') (item_context i))
    as Hr.
  { unfold reboot_behavior. destruct (same_get_default "reboot_behavior" (JStr "none")) as [_ H];
      [by constructor|]. by same_cases H. }
  unfold item_from_dict, content_kind, source_uri, sha256_field.
  by rewrite !same_required_string, !same_json_object, Hz, Hr.
Qed.
End same_object.

Lemma same_items l l' n :
  Forall wf_json l → Forall2 same_json l l' → items_from n l = items_from n l'.
Proof.
  intros Hwf Hl. revert n. induction Hl as [|x y l l' Hxy Hl IH]; intros n; [done|].
  inversion_clear Hwf. cbn. rewrite (IH ltac:(done)).
  inversion Hxy; subst; try done. cbn. by erewrite same_item_from_dict.
Qed.

Lemma same_from_dict raw raw' :
  wf_json raw → same_json raw raw' → from_dict raw = from_dict raw'.
Proof.
  intros Hwf Hs. destruct raw as [| | | | |o]; inversion Hs; subst; try done.
  destruct (same_jget o o' Hwf Hs "schema_version") as [_ Hv].
  destruct (same_jget o o' Hwf Hs "items") as [Hw Hi]. unfold from_dict.
  assert (py_eq (jget "schema_version" (JObj o)) (JInt SCHEMA_VERSION) =
          py_eq (jget "schema_version" (JObj o')) (JInt SCHEMA_VERSION)) as ->.
  { clear -Hv. by same_cases Hv. }
  clear Hv. same_cases Hi. inversion_clear Hw. by erewrite same_items.
Qed.

(** ** Theorems *)

Section theorems.
Context `{Sha256}.

(** Validating a payload yields a manifest every field of which is valid: non-blank
    texts, a known kind and reboot behaviour, an absolute source, a lower-case digest of 64
    hexadecimal digits, a non-negative size and objects with ordered keys.  The manifest is
    a normal form: reading back its JSON form, or validating it again, gives the same
    manifest, and so the same digest. *)
Theorem validate_manifest_normalises raw m :
  validate_manifest raw = Ret m →
  valid_manifest m ∧ validate_manifest (inl (to_dict m)) = Ret m ∧
  validate_manifest (inr m) = Ret m ∧ manifest_digest raw = manifest_digest (inr m).
Proof.
  intros Hm.
  assert (valid_manifest m) as Hv by (destruct raw; eapply from_dict_valid; exact Hm).
  assert (from_dict (to_dict m) = Ret m) as Hr by by apply to_dict_roundtrip.
  unfold manifest_digest. rewrite Hm. unfold validate_manifest. by rewrite Hr.
Qed.

(** The digest of a manifest does not depend on the order in which the keys of its
    objects are written, at any depth. *)
Theorem manifest_digest_order_independent raw raw' :
  wf_json raw → same_json raw raw' → manifest_digest (inl raw) = manifest_digest (inl raw').
Proof.
  intros Hwf Hs. unfold manifest_digest, validate_manifest. by rewrite (same_from_dict raw raw').
Qed.

(** What a version must satisfy for its item to be listed. *)
Record publishable (iv : content_item_row * content_version_row) : Prop := Publishable {
  pub_name : nonblank (ci_name iv.1);
  pub_kind : ci_content_type iv.1 ∈ CONTENT_KINDS;
  pub_version : nonblank (cv_version iv.2);
  pub_uri : nonblank (cv_source_uri iv.2) ∧
    ∃ sch, Url.scheme (cv_source_uri iv.2) = Ret sch ∧ sch ≠ EmptyString;
  pub_sha : is_sha256 (cv_sha256 iv.2) = true;
  pub_size : (0 ≤ default 0 (cv_size_bytes iv.2))%Z;
  pub_architecture : nonblank (cv_architecture iv.2);
  pub_target_os : nonblank (cv_target_os iv.2);
  pub_reboot : cv_reboot_behavior iv.2 ∈ REBOOT_BEHAVIORS;
  pub_conditions : ∃ o, jor (cv_conditions iv.2) (JObj []) = JObj o;
  pub_metadata : ∃ o, jor (cv_metadata iv.2) (JObj []) = JObj o
}.

Definition published_item (iv : content_item_row * content_version_row) : manifest_item :=
  let '(i, v) := iv in
  ManifestItem (ci_name i) (ci_content_type i) (ci_name i) (cv_version v) (cv_source_uri v)
    (PyStr.lower (cv_sha256 v)) (default 0%Z (cv_size_bytes v)) (cv_architecture v)
    (cv_target_os v) (cv_reboot_behavior v) (stable_json_value (jor (cv_conditions v) (JObj [])))
    (stable_json_value (jor (cv_metadata v) (JObj []))).

Lemma published_item_accepted iv n :
  publishable iv → item_from_dict (published_item_json iv) n = Ret (published_item iv).
Proof.
  destruct iv as [i v].
  intros [Hn Hk Hv [Hu (sch & Hsch & Hne)] Hs Hz Ha Ht Hr (co & Hco) (mo & Hmo)]; cbn [fst snd] in *.
  assert (∃ d, d = published_item_json (i, v)) as [d Hd] by eauto. rewrite <- Hd.
  unfold published_item_json in Hd.
  assert (∀ f c s, jget f d = JStr s → nonblank s → required_string d f c = Ret s) as Hreq
    by (intros; by apply required_string_Ret).
  unfold item_from_dict. cbv zeta.
  rewrite (Hreq "id" _ (ci_name i)), (content_kind_Ret _ _ (ci_content_type i)),
    (Hreq "name" _ (ci_name i)), (Hreq "version" _ (cv_version v)),
    (source_uri_Ret _ _ (cv_source_uri v) sch), (sha256_field_Ret _ _ (cv_sha256 v)),
    (size_bytes_Ret _ _ (default 0%Z (cv_size_bytes v))),
    (Hreq "architecture" _ (cv_architecture v)), (Hreq "target_os" _ (cv_target_os v)),
    (reboot_behavior_Ret _ _ (cv_reboot_behavior v)),
    (json_object_Ret _ "conditions" _ co), (json_object_Ret _ "metadata" _ mo)
    by (done || rewrite Hd; try rewrite <- Hco; try rewrite <- Hmo; reflexivity).
  unfold published_item. by rewrite Hco, Hmo.
Qed.

(** When the latest version of every enabled item is publishable, the catalogue's
    manifest is built: it lists exactly those versions in the order of the names, with
    lower-case digests and ordered keys, it comes with its own digest, and nothing is
    written. *)
Theorem build_content_manifest_v1_complete s :
  Forall publishable (published_items (cur s)) →
  let m := ContentManifest SCHEMA_VERSION (published_item <$> published_items (cur s)) in
  build_content_manifest_v1 s =
    (Ret (to_dict m, sha256_hex (json_dumps (to_dict m)), length (published_items (cur s))), s) ∧
  valid_manifest m.
Proof.
  intros Hp m. set (raw := JObj [("schema_version", JInt 1);
    ("items", JArr (published_item_json <$> published_items (cur s)))]).
  assert (from_dict raw = Ret m) as Hraw.
  { change ((parsed ← items_from 0 (published_item_json <$> published_items (cur s));
             Ret (ContentManifest SCHEMA_VERSION parsed)) = Ret m).
    assert (∀ n, items_from n (published_item_json <$> published_items (cur s)) =
                 Ret (published_item <$> published_items (cur s))) as ->; [|done].
    induction Hp as [|iv l Hiv Hl IH]; intros n; [done|]. cbn [items_from fmap list_fmap].
    assert (item_object (published_item_json iv) n = Ret (published_item_json iv)) as ->
      by by destruct iv. cbn. by rewrite published_item_accepted, IH. }
  assert (valid_manifest m) as Hv by (eapply from_dict_valid; exact Hraw). split; [|done].
  unfold build_content_manifest_v1, lift_outcome, manifest_digest, validate_manifest.
  rewrite run_bind, run_query. cbv beta. cbv zeta. fold raw. rewrite run_bind, Hraw.
  rewrite run_bind, to_dict_roundtrip by done. unfold cm_items, m. by rewrite length_fmap.
Qed.
End theorems.

(** ** Example *)

Module ManifestExample.
Import AuthoringExample ContentExample.

Definition hex64 : string := "00112233445566778899AABBCCDDEEFF00112233445566778899aabbccddeeff".

Definition item (conditions : json) : json :=
  JObj [("id", JStr "agent"); ("kind", JStr "package"); ("name", JStr "agent");
        ("version", JStr "1.0"); ("source_uri", JStr "HTTP://host/agent.msi");
        ("sha256", JStr hex64); ("size_bytes", JInt 3); ("architecture", JStr "any");
        ("target_os", JStr "any"); ("conditions", conditions)].

Definition payload (conditions : json) : json :=
  JObj [("schema_version", JInt 1); ("items", JArr [item conditions])].

Definition one_way : json := JObj [("b", JInt 1); ("a", JNull)].
Definition other_way : json := JObj [("a", JNull); ("b", JInt 1)].

Definition parsed : content_manifest :=
  ContentManifest 1 [ManifestItem "agent" "package" "agent" "1.0" "HTTP://host/agent.msi"
    (PyStr.lower hex64) 3 "any" "any" "none" other_way (JObj [])].

Lemma validate_manifest_normalises_witness :
  validate_manifest (inl (payload one_way)) = Ret parsed ∧
  validate_manifest (inr parsed) = Ret parsed.
Proof.
  assert (validate_manifest (inl (payload one_way)) = Ret parsed) as H by by vm_compute.
  split; [exact H|]. exact (proj1 (proj2 (proj2 (validate_manifest_normalises _ _ H)))).
Defined.

Lemma manifest_digest_order_independent_witness :
  manifest_digest (inl (payload one_way)) = manifest_digest (inl (payload other_way)).
Proof.
  apply manifest_digest_order_independent.
  - repeat constructor; simpl; rewrite ?not_elem_of_cons; repeat split; try done;
      apply not_elem_of_nil.
  - assert (same_json one_way other_way) as H.
    { apply (same_obj _ [("a", JNull); ("b", JInt 1)]); [apply Permutation_swap|].
      repeat constructor. }
    assert (same_json (item one_way) (item other_way)) as Hi.
    { eapply same_obj; [reflexivity|]. repeat (constructor; [split; [done|constructor]|]).
      constructor; [by split|constructor]. }
    eapply same_obj; [reflexivity|]. constructor; [split; [done|constructor]|].
    constructor; [|constructor]. split; [done|]. constructor. by constructor.
Defined.

(** A catalogue of one item. *)
Definition catalogue (sha : string) : session :=
  after (a ← create_content_item "agent" "package" "the agent";
         create_content_version a "1.0" sha "http://a/1" None "any" "any" "none" JNull JNull None)
    (Session base base 0 0).

Lemma build_content_manifest_v1_complete_witness :
  let m := ContentManifest SCHEMA_VERSION
             (published_item <$> published_items (cur (catalogue hex64))) in
  (build_content_manifest_v1 (catalogue hex64)).1 =
    Ret (to_dict m, sha256_hex (json_dumps (to_dict m)), 1).
Proof.
  assert (∃ iv, published_items (cur (catalogue hex64)) = [iv] ∧ publishable iv)
    as (iv & Hiv & Hp).
  { eexists. split; [vm_compute; reflexivity|].
    assert (∀ x l, bool_decide (x ∈ (l : list string)) = true → x ∈ l) as Hin
      by (intros ??; apply bool_decide_eq_true).
    split; cbn [fst snd ci_name ci_content_type cv_version cv_source_uri cv_sha256 cv_size_bytes
      cv_architecture cv_target_os cv_reboot_behavior cv_conditions cv_metadata];
      try (apply Hin; by vm_compute); try (by eexists); try (by vm_compute).
    split; [by vm_compute|]. eexists. split; by vm_compute. }
  intros m. unshelve epose proof (build_content_manifest_v1_complete (catalogue hex64) _) as [E _].
  { rewrite Hiv. by constructor. }
  rewrite E. subst m. by rewrite Hiv.
Defined.

(** The catalogue accepts versions the manifest refuses: a digest that is not 64
    hexadecimal digits is stored, and then no manifest of the catalogue can be built. *)
Example one_bad_version_blocks_manifest :
  (create_content_version "id0" "1.0" "AB12" "http://a/1" None "any" "any" "none" JNull JNull None
     (after (create_content_item "agent" "package" "the agent") (Session base base 0 0))).1 =
    Ret "id1" ∧
  (build_content_manifest_v1 (catalogue "AB12")).1 =
    Exc (invalid "items[0].sha256 must be 64 hexadecimal characters").
Proof. by vm_compute. Qed.
End ManifestExample.
