(* ===== verification/SequenceCompiler.v ===== *)
(** * The compiler of legacy task sequences

    [web/sequence_compiler.py]: a sequence of steps becomes Ansible variables,
    fragments of the unattend file, first-logon commands and a number of reboots.
    The compiled sequence is the state the step handlers write to; credentials come
    from a resolver.  The exceptions [UnknownStepType] and [StepNotImplemented] are
    given with the step type they carry. *)

From stdpp Require Import base gmap list strings pretty sorting.
From Stdlib Require Import ZArith Lia Ascii.
From S2P Require Import Prelude Json Text.

(** ** Data *)

Definition dict : Type := list (string * json).

Record flc : Type := Flc { flc_command : string; flc_description : string }.

Record compiled_sequence : Type := Compiled {
  ansible_vars : gmap string json;
  unattend_blocks : gmap string string;
  first_logon_commands : list flc;
  autopilot_enabled : bool;
  causes_reboot_count : nat
}.

Definition empty_compiled : compiled_sequence := Compiled ∅ ∅ [] false 0.

(** A step as [get_sequence] returns it. *)
Record seq_step : Type := Step { st_type : string; st_enabled : bool; st_params : dict }.

(** Decrypts a credential: [None] when there is none with the number. *)
Definition resolver : Type := Z → option dict.

Notation handler := (eff compiled_sequence).

Definition get (k : string) (d : dict) : json := default JNull (assoc k d).

(** [out.ansible_vars[k] = v] and so on *)
Definition set_var (k v : string) : handler unit :=
  modify (λ o, Compiled (<[k := JStr v]> (ansible_vars o)) (unattend_blocks o)
    (first_logon_commands o) (autopilot_enabled o) (causes_reboot_count o)).

Definition set_block (k v : string) : handler unit :=
  modify (λ o, Compiled (ansible_vars o) (<[k := v]> (unattend_blocks o))
    (first_logon_commands o) (autopilot_enabled o) (causes_reboot_count o)).

Definition add_command (c : flc) : handler unit :=
  modify (λ o, Compiled (ansible_vars o) (unattend_blocks o) (first_logon_commands o ++ [c])
    (autopilot_enabled o) (causes_reboot_count o)).

Definition set_autopilot : handler unit :=
  modify (λ o, Compiled (ansible_vars o) (unattend_blocks o) (first_logon_commands o)
    true (causes_reboot_count o)).

Definition add_reboot : handler unit :=
  modify (λ o, Compiled (ansible_vars o) (unattend_blocks o) (first_logon_commands o)
    (autopilot_enabled o) (S (causes_reboot_count o))).

Definition compiler_error (message : string) : exc := CustomError "CompilerError" message.
Definition credential_missing (message : string) : exc := CustomError "CredentialMissing" message.

(** The value as a text; its methods raise on anything else. *)
Definition as_text (v : json) : outcome string :=
  match v with JStr s => Ret s | _ => Exc AttributeError end.

(** [(d.get(k) or "").strip()] *)
Definition text_of (k : string) (d : dict) : outcome string :=
  PyStr.strip <$> as_text (jor (get k d) (JStr EmptyString)).

(** ** Fragments *)

Definition nl : string := String (ch 10) EmptyString.
Definition INDENT : string := "      ".
Definition line (s : string) : string := INDENT +:+ s +:+ nl.

Definition render_user_accounts (username password : string) : string :=
  line "<UserAccounts>" +:+
  line "  <LocalAccounts>" +:+
  line ("    <LocalAccount wcm:action=" +:+ quote_mark +:+ "add" +:+ quote_mark +:+ ">") +:+
  INDENT +:+ "      <Name>" +:+ xml_escape username +:+ "</Name>" +:+ nl +:+
  line "      <Group>Administrators</Group>" +:+
  line "      <Password>" +:+
  INDENT +:+ "        <Value>" +:+ xml_escape password +:+ "</Value>" +:+ nl +:+
  line "        <PlainText>true</PlainText>" +:+
  line "      </Password>" +:+
  line "    </LocalAccount>" +:+
  line "  </LocalAccounts>" +:+
  INDENT +:+ "</UserAccounts>".

Definition render_auto_logon (username password : string) : string :=
  line "<AutoLogon>" +:+
  line "  <Enabled>true</Enabled>" +:+
  INDENT +:+ "  <Username>" +:+ xml_escape username +:+ "</Username>" +:+ nl +:+
  line "  <Password>" +:+
  INDENT +:+ "    <Value>" +:+ xml_escape password +:+ "</Value>" +:+ nl +:+
  line "    <PlainText>true</PlainText>" +:+
  line "  </Password>" +:+
  line "  <LogonCount>1</LogonCount>" +:+
  INDENT +:+ "</AutoLogon>".

(** [ou_path] is empty when there is none. *)
Definition render_join_domain (domain_fqdn credential_domain username password ou_path : string) :
    string :=
  line "<Identification>" +:+
  line "  <Credentials>" +:+
  INDENT +:+ "    <Domain>" +:+ xml_escape credential_domain +:+ "</Domain>" +:+ nl +:+
  INDENT +:+ "    <Username>" +:+ xml_escape username +:+ "</Username>" +:+ nl +:+
  INDENT +:+ "    <Password>" +:+ xml_escape password +:+ "</Password>" +:+ nl +:+
  line "  </Credentials>" +:+
  INDENT +:+ "  <JoinDomain>" +:+ xml_escape domain_fqdn +:+ "</JoinDomain>" +:+ nl +:+
  (if decide (ou_path = EmptyString) then EmptyString
   else INDENT +:+ "  <MachineObjectOU>" +:+ xml_escape ou_path +:+ "</MachineObjectOU>" +:+ nl) +:+
  INDENT +:+ "</Identification>".

(** ** Handlers *)

(** [try: int(ct) ... except (TypeError, ValueError): 0] *)
Definition chassis (ct : json) : Z :=
  match ct with
  | JNull => 0
  | _ => match py_int ct with Ret z => z | Exc _ => 0 end
  end%Z.

Definition handle_set_oem_hardware (params : dict) (r : option resolver) : handler unit :=
  profile ← lift_outcome (text_of "oem_profile" params);
  (if decide (profile = EmptyString) then mret tt else set_var "vm_oem_profile" profile) ;;
  let ct_int := chassis (get "chassis_type" params) in
  if bool_decide (0 < ct_int)%Z then set_var "chassis_type_override" (pretty ct_int) else mret tt.

Definition handle_autopilot_entra (params : dict) (r : option resolver) : handler unit :=
  set_autopilot ;; set_var "autopilot_enabled" "true".

Definition handle_hybrid_stub (params : dict) (r : option resolver) : handler unit :=
  raise (CustomError "StepNotImplemented" "autopilot_hybrid").

Definition require_credential (params : dict) (r : option resolver) (step_type : string) :
    outcome dict :=
  match get "credential_id" params with
  | JNull => Exc (credential_missing (step_type +:+ " step has no credential_id set"))
  | cid =>
      match r with
      | None => Exc (credential_missing (step_type +:+ " step needs a credential"))
      | Some r =>
          n ← py_int cid;
          match r n with
          | Some (kv :: payload) => Ret (kv :: payload)
          | _ => Exc (credential_missing (step_type +:+ " step references credential id="))
          end
      end
  end.

Definition handle_local_admin (params : dict) (r : option resolver) : handler unit :=
  payload ← lift_outcome (require_credential params r "local_admin");
  name ← lift_outcome (text_of "username" payload);
  let username := PyStr.or_else name "Administrator" in
  let password := jor (get "password" payload) (JStr EmptyString) in
  if negb (truthy password) then
    raise (credential_missing "local_admin credential has no password")
  else
    password ← lift_outcome (as_text password);
    set_block "oobe_user_accounts" (render_user_accounts username password) ;;
    if truthy (default (JBool true) (assoc "autologon" params))
    then set_block "oobe_auto_logon" (render_auto_logon username password) else mret tt.

(** The text before and after the first, and the last, occurrence of a character. *)
Fixpoint split_first (n : N) (s : string) : option (string * string) :=
  match s with
  | EmptyString => None
  | String c s =>
      if is_char n c then Some (EmptyString, s)
      else (λ r, (String c r.1, r.2)) <$> split_first n s
  end.

Fixpoint split_last (n : N) (s : string) : option (string * string) :=
  match s with
  | EmptyString => None
  | String c s =>
      match split_last n s with
      | Some (a, b) => Some (String c a, b)
      | None => if is_char n c then Some (EmptyString, s) else None
      end
  end.

(** [("DOMAIN", "user")] of [DOMAIN\user], [user@DOMAIN] or a bare [user]. *)
Definition split_domain_user (raw : string) : string * string :=
  match split_first 92 raw with
  | Some (d, u) => (PyStr.strip d, PyStr.strip u)
  | None =>
      match split_last 64 raw with
      | Some (u, d) => (PyStr.strip d, PyStr.strip u)
      | None => (EmptyString, PyStr.strip raw)
      end
  end.

Definition handle_join_ad_domain (params : dict) (r : option resolver) : handler unit :=
  payload ← lift_outcome (require_credential params r "join_ad_domain");
  domain_fqdn ← lift_outcome (text_of "domain_fqdn" payload);
  raw_username ← lift_outcome (text_of "username" payload);
  let password := jor (get "password" payload) (JStr EmptyString) in
  if bool_decide (domain_fqdn = EmptyString) || bool_decide (raw_username = EmptyString)
     || negb (truthy password)
  then raise (credential_missing
    "join_ad_domain credential is missing one of domain_fqdn, username, password.")
  else
    let '(user_domain, user_bare) := split_domain_user raw_username in
    ou ← lift_outcome (PyStr.strip <$>
      as_text (jor (get "ou_path" params) (jor (get "ou_hint" payload) (JStr EmptyString))));
    password ← lift_outcome (as_text password);
    set_block "specialize_identification"
      (render_join_domain domain_fqdn (PyStr.or_else user_domain domain_fqdn) user_bare password ou).

Definition handle_rename_computer (params : dict) (r : option resolver) : handler unit :=
  source ← lift_outcome (as_text (jor (get "name_source" params) (JStr "serial")));
  pattern ←
    (if decide (PyStr.lower (PyStr.strip source) = "pattern") then
       let pattern := jor (get "pattern" params) (JStr EmptyString) in
       if negb (truthy pattern) then raise (compiler_error
         "rename_computer with name_source='pattern' requires a non-empty 'pattern' param.")
       else lift_outcome (as_text pattern)
     else mret "{serial}");
  let name_value :=
    replace "{vmid}" "%AUTOPILOT_VMID%" (replace "{serial}" "%AUTOPILOT_SERIAL%" pattern) in
  set_block "specialize_computer_name" (xml_escape name_value).

Definition encode_ps_command (script : string) : string := base64 (utf16le script).

Definition powershell : string :=
  "powershell.exe -NoProfile -ExecutionPolicy Bypass -EncodedCommand ".

Definition handle_run_script (params : dict) (r : option resolver) : handler unit :=
  script ← lift_outcome (as_text (jor (get "script" params) (JStr EmptyString)));
  if decide (PyStr.strip script = EmptyString) then
    raise (compiler_error "run_script step requires a non-empty 'script' param.")
  else
    name ← lift_outcome (text_of "name" params);
    add_command (Flc (powershell +:+ encode_ps_command script) (PyStr.or_else name "run_script")) ;;
    if truthy (get "causes_reboot" params) then add_reboot else mret tt.

(** The PowerShell lines of [install_module]. *)
Definition install_module_script (module version repository scope : string) : string :=
  let r := ps_escape repository in
  PyStr.join "; "
    ["[Net.ServicePointManager]::SecurityProtocol = [Net.ServicePointManager]::SecurityProtocol -bor [Net.SecurityProtocolType]::Tls12";
     "if ((Get-PSRepository -Name '" +:+ r +:+
       "' -ErrorAction SilentlyContinue).InstallationPolicy -ne 'Trusted') { Set-PSRepository -Name '"
       +:+ r +:+ "' -InstallationPolicy Trusted }";
     "if (-not (Get-PackageProvider -Name NuGet -ErrorAction SilentlyContinue)) { Install-PackageProvider -Name NuGet -Force -Scope AllUsers | Out-Null }";
     "Install-Module " +:+ PyStr.join " "
       (["-Name '" +:+ ps_escape module +:+ "'"; "-Repository '" +:+ r +:+ "'";
         "-Scope '" +:+ ps_escape scope +:+ "'"; "-Force"; "-AllowClobber"] ++
        if decide (version = EmptyString) then []
        else ["-RequiredVersion '" +:+ ps_escape version +:+ "'"])].

Definition handle_install_module (params : dict) (r : option resolver) : handler unit :=
  module ← lift_outcome (text_of "module" params);
  if decide (module = EmptyString) then
    raise (compiler_error "install_module step requires a 'module' param.")
  else
    version ← lift_outcome (text_of "version" params);
    repository ← lift_outcome (text_of "repository" params);
    scope ← lift_outcome (text_of "scope" params);
    let script := install_module_script module version
      (PyStr.or_else repository "PSGallery") (PyStr.or_else scope "AllUsers") in
    add_command (Flc (powershell +:+ encode_ps_command script)
      ("Install-Module " +:+ module +:+
       if decide (version = EmptyString) then EmptyString else " " +:+ version)).

Definition STEP_HANDLERS : list (string * (dict → option resolver → handler unit)) :=
  [("set_oem_hardware", handle_set_oem_hardware);
   ("autopilot_entra", handle_autopilot_entra);
   ("autopilot_hybrid", handle_hybrid_stub);
   ("local_admin", handle_local_admin);
   ("join_ad_domain", handle_join_ad_domain);
   ("rename_computer", handle_rename_computer);
   ("run_script", handle_run_script);
   ("install_module", handle_install_module)].

(** ** The compiler *)

Definition final_script : string :=
  "$k='HKLM:\SOFTWARE\Microsoft\Windows NT\CurrentVersion\Winlogon'; " +:+
  "Set-ItemProperty -Path $k -Name AutoAdminLogon -Type String -Value '0' -Force; " +:+
  "Remove-ItemProperty -Path $k -Name AutoLogonCount -ErrorAction SilentlyContinue; " +:+
  "Remove-ItemProperty -Path $k -Name DefaultPassword -ErrorAction SilentlyContinue; " +:+
  "Remove-ItemProperty -Path $k -Name DefaultUserName -ErrorAction SilentlyContinue; " +:+
  "shutdown.exe /a 2>$null; " +:+
  "shutdown.exe /r /t 15 /c 'Provisioning complete, rebooting to logon screen'".

Definition final_command : flc :=
  Flc ("powershell.exe -NoProfile -ExecutionPolicy Bypass -Command " +:+ quote_mark +:+
       final_script +:+ quote_mark) "Disable auto-logon and reboot to logon screen".

Definition append_final_reboot_if_autologon : handler unit :=
  o ← get_state;
  match unattend_blocks o !! "oobe_auto_logon" with
  | None => mret tt
  | Some _ => add_command final_command ;; add_reboot
  end.

(** One turn of the loop. *)
Definition compile_step (r : option resolver) (s : seq_step) : handler unit :=
  if st_enabled s then
    match assoc (st_type s) STEP_HANDLERS with
    | None => raise (CustomError "UnknownStepType" (st_type s))
    | Some h => h (st_params s) r
    end
  else mret tt.

Definition compile (steps : list seq_step) (r : option resolver) : outcome compiled_sequence :=
  match (for_each steps (compile_step r) ;; append_final_reboot_if_autologon) empty_compiled with
  | (Ret _, o) => Ret o
  | (Exc e, _) => Exc e
  end.

(** A form field that overrides nothing: [None] or a blank text. *)
Definition blank_override (v : json) : bool :=
  match v with
  | JNull => true
  | JStr s => bool_decide (PyStr.strip s = EmptyString)
  | _ => false
  end.

(** vars.yml < sequence < form; dictionaries are given by their pairs. *)
Definition resolve_provision_vars (compiled : compiled_sequence) (form_overrides vars_yml : dict) :
    gmap string json :=
  let merged := foldl (λ m key, if truthy (get key vars_yml) then <[key := get key vars_yml]> m else m)
                  ∅ ["vm_oem_profile"; "chassis_type_override"] in
  let merged := ansible_vars compiled ∪ merged in
  foldl (λ m kv, if blank_override kv.2 then m else <[kv.1 := kv.2]> m) merged form_overrides.

(** ** The WinPE phase *)

Record winpe_phase : Type := WinPE {
  actions : list (string * json);
  requires_windows_iso : bool;
  requires_virtio_iso : bool;
  expected_reboot_count : nat;
  winpe_autopilot_enabled : bool
}.

Definition fixed_actions : list (string * json) :=
  [("partition_disk", JObj [("layout", JStr "recovery_before_c")]);
   ("apply_wim", JObj [("image_index_metadata_name", JStr "Windows 11 Enterprise")]);
   ("apply_driver_package", JObj [("architecture", JStr "amd64");
      ("required_infs", JArr (JStr <$> ["vioscsi.inf"; "viostor.inf"; "netkvm.inf"; "vioser.inf";
                                        "balloon.inf"]));
      ("optional", JBool true)]);
   ("prepare_windows_setup", JObj []);
   ("stage_osd_client", JObj []);
   ("bake_boot_entry", JObj []);
   ("handoff_to_windows_setup", JObj [])].

Definition compile_winpe (produces_autopilot_hash : bool) (hash_capture_phase : string) : winpe_phase :=
  WinPE ((if produces_autopilot_hash && bool_decide (hash_capture_phase = "winpe")
          then [("capture_hash", JObj [])] else []) ++ fixed_actions)
    true false 1 false.

(** ** What a step contributes *)

(** The text under a key; the empty text when there is none. *)
Definition raw_text (k : string) (d : dict) : string :=
  match get k d with JStr s => s | _ => EmptyString end.

Definition stripped (k : string) (d : dict) : string := PyStr.strip (raw_text k d).

Definition active (t : string) (s : seq_step) : bool := st_enabled s && bool_decide (st_type s = t).

Definition step_commands (s : seq_step) : list flc :=
  let p := st_params s in
  if active "run_script" s then
    [Flc (powershell +:+ encode_ps_command (raw_text "script" p))
       (PyStr.or_else (stripped "name" p) "run_script")]
  else if active "install_module" s then
    [Flc (powershell +:+ encode_ps_command (install_module_script (stripped "module" p)
        (stripped "version" p) (PyStr.or_else (stripped "repository" p) "PSGallery")
        (PyStr.or_else (stripped "scope" p) "AllUsers")))
      ("Install-Module " +:+ stripped "module" p +:+
       if decide (stripped "version" p = EmptyString) then EmptyString
       else " " +:+ stripped "version" p)]
  else [].

Definition step_reboots (s : seq_step) : nat :=
  if active "run_script" s && truthy (get "causes_reboot" (st_params s)) then 1 else 0.

Definition step_logs_on (s : seq_step) : bool :=
  active "local_admin" s && truthy (default (JBool true) (assoc "autologon" (st_params s))).

Record contributes (s : seq_step) (o o' : compiled_sequence) : Prop := Contributes {
  ct_commands : first_logon_commands o' = first_logon_commands o ++ step_commands s;
  ct_reboots : causes_reboot_count o' = causes_reboot_count o + step_reboots s;
  ct_autopilot : autopilot_enabled o' = autopilot_enabled o || active "autopilot_entra" s;
  ct_logon : is_Some (unattend_blocks o' !! "oobe_auto_logon") ↔
    is_Some (unattend_blocks o !! "oobe_auto_logon") ∨ step_logs_on s = true
}.

Lemma as_text_Ret v s : as_text v = Ret s ↔ v = JStr s.
Proof. destruct v; simpl; split; congruence. Qed.

Lemma jor_text v s d : jor v (JStr d) = JStr s → match v with JStr t => PyStr.or_else t d | _ => d end = s.
Proof.
  unfold jor. destruct v as [|b|z|t|l|kvs]; simpl; try congruence; repeat case_match; try congruence.
  - destruct t; [by case_bool_decide|]. simpl. congruence.
  - destruct t; [simpl; congruence|]. by case_bool_decide.
Qed.

Lemma as_text_raw k d s : as_text (jor (get k d) (JStr EmptyString)) = Ret s → raw_text k d = s.
Proof.
  intros H%as_text_Ret%jor_text. unfold raw_text. by destruct (get k d) as [| | |[]| |].
Qed.

Lemma text_of_stripped k d s : text_of k d = Ret s → stripped k d = s.
Proof.
  unfold text_of, stripped. destruct (as_text _) eqn:E; [|done]. intros [= <-].
  f_equal. by apply as_text_raw.
Qed.

(** Executes a handler that succeeded. *)
Ltac run_in H :=
  repeat first
    [ progress cbv beta iota zeta in H
    | rewrite run_bind in H
    | rewrite run_modify in H
    | rewrite run_ret in H
    | match type of H with
      | (raise _ _ = _) => discriminate H
      | (lift_outcome ?m _ = _) =>
          let E := fresh "E" in unfold lift_outcome at 1 in H; destruct m eqn:E
      | context [lift_outcome ?m _] =>
          let E := fresh "E" in unfold lift_outcome at 1 in H; destruct m eqn:E;
          [|discriminate H]
      | context [raise _ _] => rewrite run_raise in H; discriminate H
      | context [(if ?b then _ else _) _] => let E := fresh "E" in destruct b eqn:E
      | (Exc _, _) = (Ret _, _) => discriminate H
      end ].

Ltac run_handler H :=
  unfold set_var, set_block, add_command, set_autopilot, add_reboot in H; run_in H.

(** ** Fragments as XML *)

Definition user_accounts_tags : list string :=
  ["UserAccounts"; "LocalAccounts"; "LocalAccount wcm:action=" +:+ quote_mark +:+ "add" +:+ quote_mark;
   "Name"; "/Name"; "Group"; "/Group"; "Password"; "Value"; "/Value"; "PlainText"; "/PlainText";
   "/Password"; "/LocalAccount"; "/LocalAccounts"; "/UserAccounts"].

Definition auto_logon_tags : list string :=
  ["AutoLogon"; "Enabled"; "/Enabled"; "Username"; "/Username"; "Password"; "Value"; "/Value";
   "PlainText"; "/PlainText"; "/Password"; "LogonCount"; "/LogonCount"; "/AutoLogon"].

Definition join_domain_tags (ou : bool) : list string :=
  ["Identification"; "Credentials"; "Domain"; "/Domain"; "Username"; "/Username"; "Password";
   "/Password"; "/Credentials"; "JoinDomain"; "/JoinDomain"] ++
  (if ou then ["MachineObjectOU"; "/MachineObjectOU"] else []) ++ ["/Identification"].

(** A fragment whose tags are these, and whose texts include the values in this order. *)
Definition reads_as (tags values : list string) (fragment : string) : Prop :=
  ∃ ts, xml_lex fragment = Some ts ∧ xml_tags ts = tags ∧ values `sublist_of` omap
    (λ t, match t with TText s => Some s | TTag _ => None end) ts.

Ltac reads_fragment :=
  unfold reads_as, xml_lex; xml_read; eexists; split; [reflexivity|]; split; [reflexivity|]; cbn;
  repeat first [apply sublist_nil_l | apply sublist_skip | apply sublist_cons].

Lemma user_accounts_reads u p :
  reads_as user_accounts_tags [u; p] (render_user_accounts u p).
Proof.
  unfold render_user_accounts, line, INDENT, nl, quote_mark. reads_fragment.
Qed.

Lemma auto_logon_reads u p : reads_as auto_logon_tags [u; p] (render_auto_logon u p).
Proof. unfold render_auto_logon, line, INDENT, nl. reads_fragment. Qed.

Lemma join_domain_reads d cd u p ou :
  reads_as (join_domain_tags (negb (bool_decide (ou = EmptyString))))
    ([cd; u; p; d] ++ if decide (ou = EmptyString) then [] else [ou]) (render_join_domain d cd u p ou).
Proof.
  unfold render_join_domain, line, INDENT, nl. case_bool_decide as E.
  - rewrite !(decide_True (P := ou = EmptyString)) by done. reads_fragment.
  - rewrite !(decide_False (P := ou = EmptyString)) by done. reads_fragment.
Qed.

Lemma escaped_reads v : reads_as [] [v] (xml_escape v).
Proof.
  unfold reads_as, xml_lex. rewrite (xml_escape_feed v). eexists. split; [reflexivity|]. by split.
Qed.

(** A fragment with nested tags is well-formed when its characters are allowed. *)
Lemma reads_well_formed tags values b :
  reads_as tags values b → nested [] tags = true → well_formed b = xml_text b.
Proof. intros (ts & Hts & <- & _) Hn. unfold well_formed. by rewrite Hts, Hn, andb_true_r. Qed.

(** The tags a block may have, by its name. *)
Definition block_shape (k : string) (tags : list string) : Prop :=
  (k = "oobe_user_accounts" ∧ tags = user_accounts_tags) ∨
  (k = "oobe_auto_logon" ∧ tags = auto_logon_tags) ∨
  (k = "specialize_identification" ∧ ∃ ou, tags = join_domain_tags ou) ∨
  (k = "specialize_computer_name" ∧ tags = []).

Definition clean_block (k b : string) : Prop :=
  ∃ tags values, reads_as tags values b ∧ block_shape k tags ∧ well_formed b = forallb xml_text values.

Definition clean (o : compiled_sequence) : Prop := map_Forall clean_block (unattend_blocks o).

(** ** The handlers *)

Lemma set_oem_hardware_contributes p r o o' :
  handle_set_oem_hardware p r o = (Ret tt, o') →
  contributes (Step "set_oem_hardware" true p) o o' ∧ (clean o → clean o').
Proof.
  unfold handle_set_oem_hardware. intros H. run_handler H; injection H as <-;
    (split; [split; simpl; rewrite ?app_nil_r, ?Nat.add_0_r, ?orb_false_r|]; naive_solver).
Qed.

(** The same for every handler: what it wrote is read off its execution. *)
Ltac contribution H :=
  run_handler H; injection H as <-;
  (split;
   [constructor; cbn; rewrite ?app_nil_r, ?Nat.add_0_r, ?orb_false_r, ?orb_true_r; try done|]).

Lemma autopilot_entra_contributes p r o o' :
  handle_autopilot_entra p r o = (Ret tt, o') →
  contributes (Step "autopilot_entra" true p) o o' ∧ (clean o → clean o').
Proof.
  unfold handle_autopilot_entra. intros H. contribution H; naive_solver.
Qed.

Lemma clean_insert k b (m : gmap string string) :
  clean_block k b → map_Forall clean_block m → map_Forall clean_block (<[k := b]> m).
Proof. intros. by apply map_Forall_insert_2. Qed.

Lemma clean_user_accounts u p : clean_block "oobe_user_accounts" (render_user_accounts u p).
Proof.
  exists user_accounts_tags, [u; p]. split; [apply user_accounts_reads|]. split; [by left|].
  rewrite (reads_well_formed _ _ _ (user_accounts_reads u p)) by by vm_compute.
  unfold render_user_accounts, line, INDENT, nl, quote_mark. cbn [forallb]. by xml_texts.
Qed.

Lemma clean_auto_logon u p : clean_block "oobe_auto_logon" (render_auto_logon u p).
Proof.
  exists auto_logon_tags, [u; p]. split; [apply auto_logon_reads|]. split; [by right; left|].
  rewrite (reads_well_formed _ _ _ (auto_logon_reads u p)) by by vm_compute.
  unfold render_auto_logon, line, INDENT, nl. cbn [forallb]. by xml_texts.
Qed.

Lemma clean_join_domain d cd u p ou :
  clean_block "specialize_identification" (render_join_domain d cd u p ou).
Proof.
  eexists _, _. split; [apply join_domain_reads|]. split; [right; right; left; eauto|].
  rewrite (reads_well_formed _ _ _ (join_domain_reads d cd u p ou)) by (by case_bool_decide; vm_compute).
  unfold render_join_domain, line, INDENT, nl. case_decide; cbn [forallb app]; xml_texts; by rewrite ?andb_assoc.
Qed.

Lemma clean_computer_name v : clean_block "specialize_computer_name" (xml_escape v).
Proof.
  exists [], [v]. split; [apply escaped_reads|]. split; [by right; right; right|].
  rewrite (reads_well_formed _ _ _ (escaped_reads v)) by done. cbn [forallb]. by xml_texts.
Qed.

#[local] Hint Resolve clean_insert clean_user_accounts clean_auto_logon clean_join_domain
  clean_computer_name : core.

Lemma local_admin_contributes p r o o' :
  handle_local_admin p r o = (Ret tt, o') →
  contributes (Step "local_admin" true p) o o' ∧ (clean o → clean o').
Proof.
  unfold handle_local_admin. intros H. contribution H.
  - rewrite lookup_insert_eq. split; [|by eauto]. intros _. by right.
  - unfold clean; simpl; auto.
  - rewrite lookup_insert_ne by done. split; [by left|]. unfold step_logs_on. simpl.
    intros [?|?]; [done|congruence].
  - unfold clean; simpl; auto.
Qed.

Lemma join_ad_domain_contributes p r o o' :
  handle_join_ad_domain p r o = (Ret tt, o') →
  contributes (Step "join_ad_domain" true p) o o' ∧ (clean o → clean o').
Proof.
  unfold handle_join_ad_domain. intros H. run_handler H.
  destruct (split_domain_user _) as [ud ub]. contribution H.
  - rewrite lookup_insert_ne by done. naive_solver.
  - unfold clean; simpl; auto.
Qed.

Lemma rename_computer_contributes p r o o' :
  handle_rename_computer p r o = (Ret tt, o') →
  contributes (Step "rename_computer" true p) o o' ∧ (clean o → clean o').
Proof.
  unfold handle_rename_computer. intros H. contribution H.
  all: try (rewrite lookup_insert_ne by done; naive_solver).
  all: unfold clean; simpl; auto.
Qed.

(** The texts a handler read are the ones the contribution names. *)
Ltac read_texts :=
  repeat match goal with
  | E : as_text (jor (get _ _) _) = Ret _ |- _ => apply as_text_raw in E; subst
  | E : text_of _ _ = Ret _ |- _ => apply text_of_stripped in E; subst
  end.

Lemma run_script_contributes p r o o' :
  handle_run_script p r o = (Ret tt, o') →
  contributes (Step "run_script" true p) o o' ∧ (clean o → clean o').
Proof.
  unfold handle_run_script. intros H. contribution H; try naive_solver; read_texts; try done.
  all: unfold step_reboots; simpl; match goal with E : truthy _ = _ |- _ => rewrite E end; lia.
Qed.

Lemma install_module_contributes p r o o' :
  handle_install_module p r o = (Ret tt, o') →
  contributes (Step "install_module" true p) o o' ∧ (clean o → clean o').
Proof.
  unfold handle_install_module. intros H. contribution H; try (read_texts; done); naive_solver.
Qed.

Lemma compile_step_contributes r s o o' :
  compile_step r s o = (Ret tt, o') → contributes s o o' ∧ (clean o → clean o').
Proof.
  destruct s as [t en p]. unfold compile_step. cbn. destruct en.
  - repeat (case_decide as Ht; [subst t; clear|clear Ht]); cbn iota.
    + apply set_oem_hardware_contributes.
    + apply autopilot_entra_contributes.
    + discriminate.
    + apply local_admin_contributes.
    + apply join_ad_domain_contributes.
    + apply rename_computer_contributes.
    + apply run_script_contributes.
    + apply install_module_contributes.
    + discriminate.
  - intros [= <-]. split; [|done]. split; unfold step_commands, step_reboots, step_logs_on; simpl;
      rewrite ?app_nil_r, ?Nat.add_0_r, ?orb_false_r; naive_solver.
Qed.

(** The loop over the steps. *)
Lemma compile_loop r steps o o' :
  for_each steps (compile_step r) o = (Ret tt, o') →
  first_logon_commands o' = first_logon_commands o ++ concat (step_commands <$> steps) ∧
  causes_reboot_count o' = causes_reboot_count o + sum_list (step_reboots <$> steps) ∧
  autopilot_enabled o' = autopilot_enabled o || existsb (active "autopilot_entra") steps ∧
  (is_Some (unattend_blocks o' !! "oobe_auto_logon") ↔
     is_Some (unattend_blocks o !! "oobe_auto_logon") ∨ existsb step_logs_on steps = true) ∧
  (clean o → clean o').
Proof.
  revert o. induction steps as [|s steps IH]; intros o H.
  - injection H as <-. simpl. rewrite app_nil_r, Nat.add_0_r, orb_false_r. naive_solver.
  - cbn [for_each] in H. rewrite run_bind in H. destruct (compile_step r s o) as [[[]|e] o1] eqn:E;
      [|done]. apply compile_step_contributes in E as [[Ec Er Ea El] Ek].
    destruct (IH _ H) as (Ic & Ir & Ia & Il & Ik). simpl.
    rewrite Ic, Ec, Ir, Er, Ia, Ea, Il, El, orb_true_iff, <- (assoc_L (++)), orb_assoc.
    split_and!; try done; [symmetry; apply Nat.add_assoc|tauto|auto].
Qed.

Lemma compile_inv steps r o :
  compile steps r = Ret o →
  ∃ o1, for_each steps (compile_step r) empty_compiled = (Ret tt, o1) ∧
    append_final_reboot_if_autologon o1 = (Ret tt, o).
Proof.
  unfold compile. rewrite run_bind.
  destruct (for_each _ _ _) as [[[]|e] o1] eqn:E; [|done]. intros H. exists o1. split; [done|].
  destruct (append_final_reboot_if_autologon o1) as [[[]|e] o2]; [congruence|done].
Qed.

(** ** Theorems *)

(** What a compilation returns: the first-logon commands of the enabled steps in
    their order, then - exactly when some enabled step sets up the auto-logon - the
    command that disables it and reboots; a reboot for every script that declares one
    and for that last command; and the Autopilot flag of the sequence. *)
Theorem compile_in_order steps r o :
  compile steps r = Ret o →
  let logon := existsb step_logs_on steps in
  first_logon_commands o =
    concat (step_commands <$> steps) ++ (if logon then [final_command] else []) ∧
  causes_reboot_count o = sum_list (step_reboots <$> steps) + (if logon then 1 else 0) ∧
  autopilot_enabled o = existsb (active "autopilot_entra") steps ∧
  (is_Some (unattend_blocks o !! "oobe_auto_logon") ↔ logon = true).
Proof.
  intros (o1 & H1 & H2)%compile_inv logon.
  destruct (compile_loop _ _ _ _ H1) as (Hc & Hr & Ha & Hl & _). simpl in *.
  rewrite lookup_empty in Hl. revert H2. unfold append_final_reboot_if_autologon, logon.
  rewrite run_bind, run_get. destruct (unattend_blocks o1 !! "oobe_auto_logon") as [b|] eqn:Eb.
  - intros [= <-]. simpl. rewrite Eb, Hc, Hr, Ha.
    assert (existsb step_logs_on steps = true) as ->.
    { destruct Hl as [Hl _]. by destruct Hl as [[? ?]|]; [eauto|..]. }
    split_and!; [done|lia|done|naive_solver].
  - intros [= <-]. rewrite Eb, Hc, Hr, Ha.
    destruct (existsb step_logs_on steps).
    { destruct Hl as [_ Hl]. by destruct Hl as [? ?]; [right|]. }
    rewrite app_nil_r, Nat.add_0_r. by split_and!.
Qed.

(** A script reaches the interpreter verbatim: for every enabled script step of a
    compiled sequence there is a command whose payload decodes, from base64 and
    UTF-16, to exactly the script the operator wrote. *)
Theorem scripts_verbatim steps r o s :
  compile steps r = Ret o → s ∈ steps → active "run_script" s = true →
  ∃ c payload, c ∈ first_logon_commands o ∧ flc_command c = powershell +:+ payload ∧
    (base64_decode payload ≫= utf16le_decode) = Some (raw_text "script" (st_params s)).
Proof.
  intros (o1 & H1 & H2)%compile_inv Hs Ha.
  destruct (compile_loop _ _ _ _ H1) as (Hc & _). simpl in Hc.
  assert (step_commands s = [Flc (powershell +:+ encode_ps_command (raw_text "script" (st_params s)))
    (PyStr.or_else (stripped "name" (st_params s)) "run_script")]) as Hsc
    by (unfold step_commands; by rewrite Ha).
  exists (Flc (powershell +:+ encode_ps_command (raw_text "script" (st_params s)))
    (PyStr.or_else (stripped "name" (st_params s)) "run_script")),
    (encode_ps_command (raw_text "script" (st_params s))). split_and!; [|done|].
  - assert (first_logon_commands o1 ⊆ first_logon_commands o) as Hsub.
    { revert H2. unfold append_final_reboot_if_autologon. rewrite run_bind, run_get.
      destruct (unattend_blocks o1 !! _); intros [= <-]; [|done]. simpl. set_solver. }
    apply Hsub. rewrite Hc. apply list_elem_of_In, in_concat. exists (step_commands s).
    rewrite Hsc. split; [|by left]. apply list_elem_of_In. rewrite <- Hsc.
    by apply list_elem_of_fmap_2.
  - unfold encode_ps_command. rewrite base64_roundtrip by apply utf16le_bytes. simpl.
    apply utf16le_roundtrip.
Qed.


(** *** Precedence of variables *)

Lemma lookup_overrides (form : dict) (m : gmap string json) k :
  NoDup form.*1 →
  foldl (λ m (kv : string * json), if blank_override kv.2 then m else <[kv.1 := kv.2]> m) m form !! k =
  match assoc k form with
  | Some v => if blank_override v then m !! k else Some v
  | None => m !! k
  end.
Proof.
  revert m. induction form as [|[a v] form IH]; intros m Hnd; [done|]. csimpl in *.
  apply NoDup_cons in Hnd as [Ha Hnd]. simpl. rewrite IH by done.
  destruct (decide (k = a)) as [->|Hk].
  - rewrite (proj2 (assoc_None a form)) by done. destruct (blank_override v); [done|].
    by rewrite lookup_insert_eq.
  - destruct (blank_override v); [done|]. by rewrite lookup_insert_ne.
Qed.

(** The layers of a provisioning variable: a form field that is not blank wins;
    otherwise what the sequence set; otherwise, for the two hardware variables only, the
    setting of vars.yml when it is not empty. *)
Theorem provision_vars_precedence compiled form vars k :
  NoDup form.*1 →
  resolve_provision_vars compiled form vars !! k =
  match assoc k form with
  | Some v => if blank_override v then None else Some v
  | None => None
  end ∪ ansible_vars compiled !! k ∪
  (if bool_decide (k ∈ ["vm_oem_profile"; "chassis_type_override"]) && truthy (get k vars)
   then Some (get k vars) else None).
Proof.
  intros Hnd. unfold resolve_provision_vars. rewrite lookup_overrides by done.
  assert (∀ v : option json, None ∪ v = v) as Hn by by intros [].
  assert (∀ (x : json) v, Some x ∪ v = Some x) as Hs by by intros ? [].
  assert (foldl (λ (m : gmap string json) key,
      if truthy (get key vars) then <[key := get key vars]> m else m) ∅
      ["vm_oem_profile"; "chassis_type_override"] !! k =
    (if bool_decide (k ∈ ["vm_oem_profile"; "chassis_type_override"]) && truthy (get k vars)
     then Some (get k vars) else None)) as Hv.
  { simpl. case_bool_decide as Hk.
    - apply elem_of_cons in Hk as [->|Hk%list_elem_of_singleton]; [|subst k]; simpl;
        destruct (truthy (get "vm_oem_profile" vars)), (truthy (get "chassis_type_override" vars));
        by simplify_map_eq.
    - assert (k ≠ "vm_oem_profile" ∧ k ≠ "chassis_type_override") as [? ?] by set_solver.
      simpl. destruct (truthy (get "vm_oem_profile" vars)),
        (truthy (get "chassis_type_override" vars)); by simplify_map_eq. }
  rewrite lookup_union, Hv. destruct (assoc k form) as [v|]; [destruct (blank_override v)|];
    by rewrite ?Hn, ?Hs.
Qed.

(** ** Example *)

Module CompilerExample.
Definition secret : string := "p<w>&'d".

Definition vault : resolver := λ n,
  if decide (n = 1)%Z
  then Some [("username", JStr "admin"); ("password", JStr secret);
             ("domain_fqdn", JStr "corp.example")]
  else None.

Definition steps : list seq_step :=
  [Step "autopilot_entra" true [];
   Step "local_admin" true [("credential_id", JInt 1)];
   Step "join_ad_domain" true [("credential_id", JStr " 1 ")];
   Step "rename_computer" true [("name_source", JStr "Pattern"); ("pattern", JStr "PC-{serial}")];
   Step "run_script" false [];
   Step "run_script" true [("script", JStr "Write-Host 'hi'"); ("causes_reboot", JBool true)];
   Step "install_module" true [("module", JStr "It's")]].

Definition compiled : compiled_sequence :=
  match compile steps (Some vault) with Ret o => o | Exc _ => empty_compiled end.

Example compiled_commands :
  flc_description <$> first_logon_commands compiled =
    ["run_script"; "Install-Module It's"; "Disable auto-logon and reboot to logon screen"] ∧
  causes_reboot_count compiled = 2 ∧
  unattend_blocks compiled !! "specialize_computer_name" = Some "PC-%AUTOPILOT_SERIAL%".
Proof. by vm_compute. Qed.

(** A step of a type nobody handles stops the compilation. *)
Example unknown_step :
  compile [Step "run_script" true [("script", JStr "x")]; Step "reboot" true []] None =
  Exc (CustomError "UnknownStepType" "reboot").
Proof. by vm_compute. Qed.

Lemma compile_in_order_witness :
  compile steps (Some vault) = Ret compiled ∧
  first_logon_commands compiled = concat (step_commands <$> steps) ++ [final_command].
Proof.
  assert (compile steps (Some vault) = Ret compiled) as H by by vm_compute.
  split; [exact H|]. exact (proj1 (compile_in_order steps (Some vault) compiled H)).
Defined.

Lemma scripts_verbatim_witness :
  ∃ c payload, c ∈ first_logon_commands compiled ∧ flc_command c = powershell +:+ payload ∧
    (base64_decode payload ≫= utf16le_decode) = Some "Write-Host 'hi'".
Proof.
  apply (scripts_verbatim steps (Some vault) compiled
    (Step "run_script" true [("script", JStr "Write-Host 'hi'"); ("causes_reboot", JBool true)])).
  - by vm_compute.
  - unfold steps. do 5 right. by left.
  - by vm_compute.
Defined.


(** A control character in the pattern of the computer name compiles, and gives a fragment
    that no XML parser accepts. *)
Example control_character_stays :
  match compile [Step "rename_computer" true [("name_source", JStr "pattern");
                   ("pattern", JStr ("PC" +:+ String (ascii_of_N 1) EmptyString))]] None with
  | Ret o => well_formed <$> unattend_blocks o !! "specialize_computer_name" = Some false
  | Exc _ => False
  end.
Proof. by vm_compute. Qed.

Lemma provision_vars_precedence_witness :
  resolve_provision_vars compiled [("vm_oem_profile", JStr " ")] [("vm_oem_profile", JStr "dell")]
    !! "vm_oem_profile" = Some (JStr "dell").
Proof.
  rewrite provision_vars_precedence; [by vm_compute|]. repeat constructor; set_solver.
Defined.
End CompilerExample.
