(* ===== verification/Lifecycle.v ===== *)
(** * The lifecycle of machines

    [web/machine_lifecycle_pg.py]: observations of a machine by its agent, by the
    monitor and by the Autopilot listing are folded into one current row per machine
    and a log of its changes of state.  Directory attributes of a domain match are
    texts, and the evidence is given in its JSON form. *)

From stdpp Require Import base gmap list strings pretty sorting.
From Stdlib Require Import ZArith Lia Ascii.
From S2P Require Import Prelude Json Text.

(** ** Data *)

Inductive state : Type :=
| WorkgroupUnenrolled | AdDomainJoined | EntraJoined | HybridJoined | IntuneEnrolled
| AutopilotRegistered | UnknownStale.

#[export] Instance state_eq_dec : EqDecision state.
Proof. solve_decision. Defined.

Definition STATE_LABELS (s : state) : string :=
  match s with
  | WorkgroupUnenrolled => "unenrolled"
  | AdDomainJoined => "domain"
  | EntraJoined => "Entra ID"
  | HybridJoined => "hybrid"
  | IntuneEnrolled => "Intune"
  | AutopilotRegistered => "Autopilot ID"
  | UnknownStale => "unknown"
  end.

Definition STATE_PRIORITIES (s : state) : Z :=
  match s with
  | UnknownStale => 0
  | WorkgroupUnenrolled => 10
  | AutopilotRegistered => 50
  | AdDomainJoined => 70
  | EntraJoined => 80
  | HybridJoined => 85
  | IntuneEnrolled => 90
  end.

(** The four boolean columns. *)
Record flags : Type := Flags {
  autopilot_registered : bool;
  intune_enrolled : bool;
  entra_joined : bool;
  domain_joined : bool
}.

(** The columns that name a machine. *)
Record identity : Type := Identity {
  vmid : option Z;
  agent_id : option string;
  serial_number : option string;
  computer_name : option string;
  domain_name : option string;
  tenant_id : option string
}.

(** The arguments of [_observe]. *)
Record observation : Type := Observation {
  ob_source : string;
  ob_at : Z;
  ob_identity : identity;
  ob_flags : flags;
  ob_workgroup : bool;
  ob_evidence : json
}.

Record current_row : Type := Current {
  cu_state : state;
  cu_label : string;
  cu_source : string;
  cu_priority : Z;
  cu_identity : identity;
  cu_flags : flags;
  cu_first_observed_at : Z;
  cu_last_observed_at : Z;
  cu_evidence : json
}.

Record lifecycle_event : Type := Event {
  ev_key : string;
  ev_type : string;
  ev_previous : option state;
  ev_state : state;
  ev_label : string;
  ev_source : string;
  ev_priority : Z;
  ev_identity : identity;
  ev_flags : flags;
  ev_at : Z;
  ev_evidence : json
}.

(** The two tables; events in the order of their numbers. *)
Record lifecycle : Type := Lifecycle {
  current : gmap string current_row;
  events : list lifecycle_event
}.

(** ** Keys *)

(** [str(value or "").strip()] for an optional text *)
Definition clean_text (v : option string) : string := PyStr.strip (default EmptyString v).

Definition token_char (c : ascii) : bool :=
  let n := N_of_ascii c in bool_decide ((48 ≤ n ≤ 57) ∨ (97 ≤ n ≤ 122))%N.

Fixpoint keep_chars (p : ascii → bool) (s : string) : string :=
  match s with
  | EmptyString => EmptyString
  | String c s => if p c then String c (keep_chars p s) else keep_chars p s
  end.

(** [re.sub(r"[^a-z0-9]+", "", _clean(value).lower())] *)
Definition identity_token (v : option string) : string :=
  keep_chars token_char (PyStr.lower (clean_text v)).

Definition identity_key_for (i : identity) : string :=
  let serial := identity_token (serial_number i) in
  let agent := identity_token (agent_id i) in
  let computer := identity_token (computer_name i) in
  if bool_decide (serial ≠ EmptyString) then "serial:" +:+ serial
  else if bool_decide (agent ≠ EmptyString) then "agent:" +:+ agent
  else match vmid i with
       | Some v => "vmid:" +:+ pretty v
       | None => if bool_decide (computer ≠ EmptyString) then "computer:" +:+ computer else "unknown"
       end.

(** ** Observing *)

Definition state_from_evidence (f : flags) (explicit_workgroup : bool) : state :=
  if intune_enrolled f then IntuneEnrolled
  else if entra_joined f && domain_joined f then HybridJoined
  else if entra_joined f then EntraJoined
  else if domain_joined f then AdDomainJoined
  else if autopilot_registered f then AutopilotRegistered
  else if explicit_workgroup then WorkgroupUnenrolled
  else UnknownStale.

Definition flags_or (a b : flags) : flags :=
  Flags (autopilot_registered a || autopilot_registered b) (intune_enrolled a || intune_enrolled b)
    (entra_joined a || entra_joined b) (domain_joined a || domain_joined b).

Definition any_flag (f : flags) : bool :=
  autopilot_registered f || intune_enrolled f || entra_joined f || domain_joined f.

(** [COALESCE(EXCLUDED.x, machine_lifecycle_current.x)] column by column *)
Definition merge_identity (new old : identity) : identity :=
  Identity (coalesce (vmid new) (vmid old)) (coalesce (agent_id new) (agent_id old))
    (coalesce (serial_number new) (serial_number old))
    (coalesce (computer_name new) (computer_name old))
    (coalesce (domain_name new) (domain_name old)) (coalesce (tenant_id new) (tenant_id old)).

Definition observe (o : observation) (l : lifecycle) : current_row * lifecycle :=
  let key := identity_key_for (ob_identity o) in
  let existing := current l !! key in
  let '(f, workgroup) :=
    match existing with
    | Some e => let f := flags_or (ob_flags o) (cu_flags e) in (f, ob_workgroup o && negb (any_flag f))
    | None => (ob_flags o, ob_workgroup o)
    end in
  let st := state_from_evidence f workgroup in
  let previous := cu_state <$> existing in
  let event := Event key (match existing with None => "initial" | Some _ => "transition" end) previous
    st (STATE_LABELS st) (ob_source o) (STATE_PRIORITIES st) (ob_identity o) f (ob_at o)
    (ob_evidence o) in
  let row :=
    Current st (STATE_LABELS st) (ob_source o) (STATE_PRIORITIES st)
      (match existing with
       | Some e => merge_identity (ob_identity o) (cu_identity e)
       | None => ob_identity o
       end) f
      (match existing with Some e => cu_first_observed_at e | None => ob_at o end)
      (ob_at o) (ob_evidence o) in
  (row, Lifecycle (<[key := row]> (current l))
          (if bool_decide (previous = Some st) then events l else events l ++ [event])).

(** A heartbeat of an agent, with the time it was received. *)
Record heartbeat : Type := Heartbeat {
  hb_received_at : Z;
  hb_vmid : option Z;
  hb_serial_number : option string;
  hb_computer_name : option string;
  hb_domain_name : option string;
  hb_domain_joined : option bool;
  hb_entra_joined : option bool;
  hb_tenant_id : option string;
  hb_json : json
}.

Definition from_agent_heartbeat (agent : string) (h : heartbeat) : observation :=
  let domain := clean_text (hb_domain_name h) in
  let entra := default false (hb_entra_joined h) in
  let workgroup :=
    (bool_decide (hb_domain_joined h = Some false) || bool_decide (PyStr.lower domain = "workgroup"))
    && negb entra in
  Observation "agent_heartbeat" (hb_received_at h)
    (Identity (hb_vmid h) (Some agent) (hb_serial_number h) (hb_computer_name h) (Some domain)
       (hb_tenant_id h))
    (Flags false false entra (default false (hb_domain_joined h))) workgroup
    (JObj [("agent_id", JStr agent); ("heartbeat", hb_json h)]).

Definition observe_from_agent_heartbeat (agent : string) (h : heartbeat) (l : lifecycle) :
    current_row * lifecycle := observe (from_agent_heartbeat agent h) l.

(** A match in the domain. *)
Record ad_match : Type := AdMatch {
  am_domain : option string;
  am_dns_domain : option string;
  am_user_principal_name : option string
}.

(** A probe of the monitor as [insert_device_probe] passes it on; a match that is not an
    object is [None]. *)
Record probe : Type := Probe {
  pb_checked_at : Z;
  pb_vmid : Z;
  pb_serial : option string;
  pb_win_name : option string;
  pb_vm_name : option string;
  pb_os_build : option string;
  pb_dsreg : list (string * json);
  pb_ad_found : bool;
  pb_ad_matches : list (option ad_match);
  pb_entra_found : bool;
  pb_entra_matches : list json;
  pb_intune_found : bool;
  pb_json : json
}.

Definition or_text (v : option string) (d : string) : string :=
  PyStr.or_else (default EmptyString v) d.

Definition trust_types (matches : list json) : list string :=
  omap (λ m, match m with
             | JObj _ => Some (PyStr.lower (py_str
                 (jor (jget "trustType" m) (jor (jget "trust_type" m) (JStr EmptyString)))))
             | _ => None
             end) matches.

Definition aad_joined (dsreg : list (string * json)) : bool :=
  let d := JObj dsreg in
  bool_decide (PyStr.lower (PyStr.strip (py_str
    (jor (jget "AzureAdJoined" d) (jor (jget "azureAdJoined" d) (jor (jget "aad_joined" d)
       (JStr EmptyString)))))) ∈ ["yes"; "true"; "1"]).

Definition first_ad (matches : list (option ad_match)) : ad_match :=
  default (AdMatch None None None) (head (omap id matches)).

(** The domain of the first match, or what follows the last [@] of its name. *)
Definition probe_domain (m : ad_match) : string :=
  or_text (am_domain m) (or_text (am_dns_domain m)
    (default EmptyString (last (PyStr.split "@" (default EmptyString (am_user_principal_name m)))))).

Definition nonempty_text (v : option string) : bool :=
  bool_decide (default EmptyString v ≠ EmptyString).

Definition from_monitor_probe (p : probe) : observation :=
  let trust := trust_types (pb_entra_matches p) in
  let domain := probe_domain (first_ad (pb_ad_matches p)) in
  let entra := pb_entra_found p || aad_joined (pb_dsreg p) || bool_decide (trust ≠ []) in
  let joined := pb_ad_found p || bool_decide ("serverad" ∈ trust) in
  let workgroup :=
    (nonempty_text (pb_win_name p) || nonempty_text (pb_serial p) || nonempty_text (pb_os_build p))
    && negb (pb_intune_found p || entra || joined) in
  Observation "monitor_probe" (pb_checked_at p)
    (Identity (Some (pb_vmid p)) None (pb_serial p)
       (if nonempty_text (pb_win_name p) then pb_win_name p else pb_vm_name p)
       (if bool_decide (domain = EmptyString) then None else Some domain) None)
    (Flags false (pb_intune_found p) entra joined) workgroup
    (JObj [("probe", pb_json p)]).

Definition observe_from_monitor_probe (p : probe) (l : lifecycle) : current_row * lifecycle :=
  observe (from_monitor_probe p) l.

Definition observe_autopilot_registration (vm : option Z) (serial computer : option string)
    (registered : bool) (evidence : json) (now : Z) (l : lifecycle) :
    option current_row * lifecycle :=
  if negb registered
     || negb (nonempty_text serial || bool_decide (default 0%Z vm ≠ 0%Z) || nonempty_text computer)
  then (None, l)
  else
    let '(row, l) := observe (Observation "autopilot_registration" now
      (Identity vm None serial computer None None) (Flags true false false false) false evidence) l in
    (Some row, l).

(** ** Reading *)

(** [ORDER BY priority DESC, last_observed_at DESC]; rows that tie are taken in the
    order of their keys. *)
Definition current_order : string * current_row → string * current_row → comparison :=
  cmp_then (cmp_on (λ kr, cu_priority kr.2) (cmp_desc cmp_Z))
    (cmp_then (cmp_on (λ kr, cu_last_observed_at kr.2) (cmp_desc cmp_Z)) (cmp_on fst cmp_str)).

Definition best_where (P : current_row → Prop) `{∀ r, Decision (P r)} (l : lifecycle) :
    option current_row :=
  snd <$> head (isort current_order (select_where (λ kr, P kr.2) (current l))).

Definition current_for_vm (v : Z) (l : lifecycle) : option current_row :=
  best_where (λ r, vmid (cu_identity r) = Some v) l.

Definition current_for_agent (a : string) (l : lifecycle) : option current_row :=
  best_where (λ r, agent_id (cu_identity r) = Some a) l.

(** [DISTINCT ON (vmid)]: the rows in order, of which the first of each number stays. *)
Definition distinct_on {K} `{Countable K} (f : current_row → option K)
    (rows : list (string * current_row)) : gmap K current_row :=
  foldr (λ kr m, match f kr.2 with Some k => <[k := kr.2]> m | None => m end) ∅ rows.

Definition one_of {K} `{EqDecision K} (ks : list K) (k : option K) : bool :=
  match k with Some k => bool_decide (k ∈ ks) | None => false end.

Definition current_by_vmids (vs : list Z) (l : lifecycle) : gmap Z current_row :=
  distinct_on (λ r, vmid (cu_identity r)) (isort current_order
    (select_where (λ kr, one_of vs (vmid (cu_identity kr.2)) = true) (current l))).

Definition current_by_agents (agents : list string) (l : lifecycle) : gmap string current_row :=
  distinct_on (λ r, agent_id (cu_identity r)) (isort current_order
    (select_where (λ kr, one_of agents (agent_id (cu_identity kr.2)) = true) (current l))).

(** ** What the tables say about the observations *)

Definition observe_all (os : list observation) (l : lifecycle) : lifecycle :=
  foldl (λ l o, (observe o l).2) l os.

Definition nothing_observed : lifecycle := Lifecycle ∅ [].

(** The observations of one machine. *)
Definition history (key : string) (os : list observation) : list observation :=
  filter (λ o, identity_key_for (ob_identity o) = key) os.

Definition no_flags : flags := Flags false false false false.

(** The last value a column was given. *)
Definition latest {A} (f : identity → option A) (os : list observation) : option A :=
  last (omap (λ o, f (ob_identity o)) os).

(** The row a non-empty history amounts to: every flag that was ever observed, the last
    known value of every column, and the rest from the last observation. *)
Definition summary (first final : observation) (os : list observation) : current_row :=
  let f := foldl (λ f o, flags_or (ob_flags o) f) no_flags os in
  let st := state_from_evidence f (ob_workgroup final) in
  Current st (STATE_LABELS st) (ob_source final) (STATE_PRIORITIES st)
    (Identity (latest vmid os) (latest agent_id os) (latest serial_number os)
       (latest computer_name os) (latest domain_name os) (latest tenant_id os))
    f (ob_at first) (ob_at final) (ob_evidence final).

(** What may follow the state [prev] of a machine: an event that goes on from it, to a
    state of higher priority - or from the workgroup to an unknown state - and that says
    what it does. *)
Definition follows (prev : option state) (e : lifecycle_event) : Prop :=
  ev_previous e = prev ∧
  ev_label e = STATE_LABELS (ev_state e) ∧ ev_priority e = STATE_PRIORITIES (ev_state e) ∧
  match prev with
  | None => ev_type e = "initial"
  | Some p => ev_type e = "transition" ∧
      ((STATE_PRIORITIES p < STATE_PRIORITIES (ev_state e))%Z ∨
       p = WorkgroupUnenrolled ∧ ev_state e = UnknownStale)
  end.

Fixpoint event_chain (prev : option state) (es : list lifecycle_event) : Prop :=
  match es with
  | [] => True
  | e :: es => follows prev e ∧ event_chain (Some (ev_state e)) es
  end.

(** The state a chain ends in. *)
Definition final_state (prev : option state) (es : list lifecycle_event) : option state :=
  foldl (λ _ e, Some (ev_state e)) prev es.

Definition events_of (key : string) (l : lifecycle) : list lifecycle_event :=
  filter (λ e, ev_key e = key) (events l).

Lemma state_from_evidence_workgroup f w :
  state_from_evidence f (w && negb (any_flag f)) = state_from_evidence f w.
Proof. by destruct f as [[] [] [] []], w. Qed.

Lemma flags_or_no_flags f : flags_or f no_flags = f.
Proof. by destruct f as [[] [] [] []]. Qed.

(** More flags, another state: its priority is higher. *)
Lemma state_from_evidence_up f f' w w' :
  state_from_evidence (flags_or f' f) w' ≠ state_from_evidence f w →
  (STATE_PRIORITIES (state_from_evidence f w) <
   STATE_PRIORITIES (state_from_evidence (flags_or f' f) w'))%Z ∨
  state_from_evidence f w = WorkgroupUnenrolled ∧
  state_from_evidence (flags_or f' f) w' = UnknownStale.
Proof.
  destruct f as [[] [] [] []], f' as [[] [] [] []]; simpl; try (left; lia);
    try done; destruct w, w'; simpl; intros; first [done | left; lia | by right].
Qed.

Lemma event_chain_snoc prev es e :
  event_chain prev (es ++ [e]) ↔ event_chain prev es ∧ follows (final_state prev es) e.
Proof.
  revert prev. induction es as [|x es IH]; intros prev; simpl; [tauto|]. rewrite IH.
  unfold final_state. simpl. tauto.
Qed.

Lemma observe_all_snoc os o l : observe_all (os ++ [o]) l = (observe o (observe_all os l)).2.
Proof. unfold observe_all. by rewrite foldl_app. Qed.

Lemma history_snoc key os o :
  history key (os ++ [o]) =
  history key os ++ (if decide (identity_key_for (ob_identity o) = key) then [o] else []).
Proof.
  unfold history. rewrite filter_app, filter_cons, filter_nil. by case_decide.
Qed.

Lemma events_of_snoc key l es e :
  events_of key (Lifecycle l (es ++ [e])) =
  filter (λ e, ev_key e = key) es ++ (if decide (ev_key e = key) then [e] else []).
Proof.
  unfold events_of. cbn [events]. rewrite filter_app, filter_cons, filter_nil. by case_decide.
Qed.

(** An observation leaves the other machines alone. *)
Lemma observe_other key o l :
  identity_key_for (ob_identity o) ≠ key →
  current (observe o l).2 !! key = current l !! key ∧
  events_of key (observe o l).2 = events_of key l.
Proof.
  intros Hk. unfold observe. destruct l as [c es]. cbn [current events].
  set (k := identity_key_for _) in *.
  destruct (c !! k) as [e|]; cbn [fst snd]; (split; [cbn; by rewrite lookup_insert_ne|]);
    case_bool_decide; try done; rewrite events_of_snoc; cbn [ev_key];
    by rewrite decide_False, app_nil_r.
Qed.

Lemma last_omap_snoc {A B} (f : A → option B) (l : list A) x :
  last (omap f (l ++ [x])) = coalesce (f x) (last (omap f l)).
Proof.
  rewrite omap_app. cbn. destruct (f x) as [y|]; cbn; [apply last_snoc|by rewrite app_nil_r].
Qed.

Definition summarize (h : list observation) : option current_row :=
  match h with
  | [] => None
  | first :: _ => (λ final, summary first final h) <$> last h
  end.

Lemma summarize_snoc h o :
  summarize (h ++ [o]) =
  match h with [] => Some (summary o o [o]) | first :: _ => Some (summary first o (h ++ [o])) end.
Proof.
  destruct h as [|first h]; [done|]. unfold summarize. cbn [app].
  change (first :: h ++ [o]) with ((first :: h) ++ [o]). by rewrite last_snoc.
Qed.

(** One observation of a machine adds itself to the summary. *)
Lemma observe_summary key h o l :
  identity_key_for (ob_identity o) = key → current l !! key = summarize h →
  current (observe o l).2 !! key = summarize (h ++ [o]).
Proof.
  intros Hk Hl. rewrite summarize_snoc. unfold observe. rewrite Hk, Hl.
  destruct h as [|first h].
  - simpl. rewrite lookup_insert_eq. f_equal. unfold summary. simpl.
    rewrite flags_or_no_flags. destruct (ob_identity o) as [a b c d e f] eqn:Ei.
    assert (∀ {A} (g : identity → option A), latest g [o] = g (ob_identity o)) as Hl1.
    { intros A g. unfold latest. cbn. by destruct (g (ob_identity o)). }
    by rewrite !Hl1, Ei.
  - unfold summarize. destruct (last (first :: h)) as [final|] eqn:El;
      [|by apply last_None in El]. cbn [fmap option_fmap option_map].
    set (hs := first :: h) in *. cbn [fst snd current]. rewrite lookup_insert_eq. f_equal.
    unfold summary, latest. cbn [cu_flags cu_identity cu_first_observed_at].
    rewrite foldl_app, !last_omap_snoc. cbn [foldl].
    rewrite state_from_evidence_workgroup. done.
Qed.

(** The log of a machine agrees with its row. *)
Record logged (key : string) (l : lifecycle) : Prop := Logged {
  lg_chain : event_chain None (events_of key l);
  lg_final : final_state None (events_of key l) = cu_state <$> current l !! key;
  lg_state r : current l !! key = Some r → ∃ w, cu_state r = state_from_evidence (cu_flags r) w
}.

Lemma observe_logged key o l :
  identity_key_for (ob_identity o) = key → logged key l → logged key (observe o l).2.
Proof.
  intros Hk [Hc Hf Hs]. destruct l as [c es]. unfold observe. rewrite Hk.
  unfold events_of in Hc, Hf. cbn [current events] in *. destruct (c !! key) as [e|] eqn:He.
  - destruct (Hs e eq_refl) as [w Hw]. cbn [fmap option_fmap option_map].
    rewrite state_from_evidence_workgroup. set (st := state_from_evidence _ _).
    cbn [snd]. case_bool_decide as Est.
    + split; cbn; rewrite ?lookup_insert_eq; [done| |].
      * simpl in Hf. etrans; [exact Hf|]. exact Est.
      * intros r [= <-]. by exists (ob_workgroup o).
    + split; cbn [current events]; rewrite ?lookup_insert_eq, ?events_of_snoc; cbn [ev_key].
      * rewrite decide_True by done. apply event_chain_snoc. split; [exact Hc|].
        rewrite Hf. cbn. split; [done|]. cbn. split_and!; try done.
        rewrite Hw. apply state_from_evidence_up. rewrite <- Hw. unfold st in Est. congruence.
      * rewrite decide_True by done. unfold final_state. by rewrite foldl_app.
      * intros r [= <-]. by exists (ob_workgroup o).
  - cbn [fmap option_fmap option_map snd]. rewrite bool_decide_false by done.
    split; cbn [current events]; rewrite ?lookup_insert_eq, ?events_of_snoc; cbn [ev_key].
    + rewrite decide_True by done. apply event_chain_snoc. split; [exact Hc|]. by rewrite Hf.
    + rewrite decide_True by done. unfold final_state. by rewrite foldl_app.
    + intros r [= <-]. by exists (ob_workgroup o).
Qed.

(** ** Theorems *)


(** The log of a machine is the history of its states: it starts with an initial
    event, every further event is a transition from the state of the one before to one
    of higher priority - a managed machine is never downgraded; only a workgroup machine
    can become unknown - and it ends in the state of its row. *)
Theorem lifecycle_log_is_chain (os : list observation) (key : string) :
  let l := observe_all os nothing_observed in
  event_chain None (events_of key l) ∧
  final_state None (events_of key l) = cu_state <$> current l !! key.
Proof.
  assert (logged key (observe_all os nothing_observed)) as [H1 H2 _]; [|done].
  induction os as [|o os IH] using rev_ind; [by split|]. rewrite observe_all_snoc.
  destruct (decide (identity_key_for (ob_identity o) = key)) as [Hk|Hk]; [by apply observe_logged|].
  destruct (observe_other key o (observe_all os nothing_observed) Hk) as [Hc He].
  destruct IH as [I1 I2 I3]. by split; rewrite ?Hc, ?He.
Qed.

(** ** Looking machines up *)

#[export] Typeclasses Opaque current_order.

#[export] Instance current_order_ord : OrdCmp current_order.
Proof. unfold current_order. apply _. Qed.

Lemma distinct_on_lookup {K} `{Countable K} (f : current_row → option K) rows k :
  distinct_on f rows !! k = snd <$> head (filter (λ kr, f kr.2 = Some k) rows).
Proof.
  induction rows as [|kr rows IH]; [apply lookup_empty|]. rewrite filter_cons. simpl.
  unfold distinct_on in *. simpl. destruct (f kr.2) as [k'|] eqn:E.
  - destruct (decide (k' = k)) as [->|Hne].
    + by rewrite lookup_insert_eq, decide_True.
    + rewrite lookup_insert_ne, decide_False by congruence. done.
  - by rewrite decide_False.
Qed.

Lemma current_order_key x y : current_order x y = Eq → x.1 = y.1.
Proof.
  unfold current_order, cmp_then, cmp_on, cmp_desc.
  repeat (case_match; try done). apply String.compare_eq_iff.
Qed.

(** Selecting before or after sorting is the same. *)
Lemma filter_isort_current (P Q : string * current_row → Prop)
    `{∀ x, Decision (P x)} `{∀ x, Decision (Q x)} (t : gmap string current_row) :
  filter P (isort current_order (select_where Q t)) =
  isort current_order (filter P (select_where Q t)).
Proof.
  set (rows := select_where Q t).
  assert (filter P (isort current_order rows) ≡ₚ filter P rows) as Hp by by rewrite isort_perm.
  rewrite <- (isort_sorted_id current_order (filter P (isort current_order rows))).
  - apply isort_perm_eq; [apply _|done|]. intros [k r] [k' r'] Hx Hy Hk%current_order_key.
    simpl in Hk. subst k'. apply list_elem_of_filter in Hx as [_ Hx], Hy as [_ Hy].
    rewrite elem_of_isort in Hx, Hy. unfold rows in *.
    apply elem_of_select_where in Hx as [_ Hx], Hy as [_ Hy]. congruence.
  - apply StronglySorted_Sorted, StronglySorted_filter, isort_StronglySorted. apply _.
Qed.

Lemma lookup_many {K} `{Countable K} (f : current_row → option K) (ks : list K) k (l : lifecycle) :
  k ∈ ks →
  distinct_on f (isort current_order
    (select_where (λ kr, one_of ks (f kr.2) = true) (current l))) !! k =
  best_where (λ r, f r = Some k) l.
Proof.
  intros Hk. rewrite distinct_on_lookup, filter_isort_current. unfold best_where. do 3 f_equal.
  unfold select_where. rewrite list_filter_filter_l; [done|].
  intros kr Hf. unfold one_of. rewrite Hf. by apply bool_decide_eq_true.
Qed.

(** The table of many machines agrees with the lookup of each. *)
Lemma current_by_vmids_agrees vs v l : v ∈ vs → current_by_vmids vs l !! v = current_for_vm v l.
Proof. apply lookup_many. Qed.

Lemma current_by_agents_agrees agents a l :
  a ∈ agents → current_by_agents agents l !! a = current_for_agent a l.
Proof. apply lookup_many. Qed.

(** ** Examples *)

Module LifecycleExample.
Definition beat (at_ : Z) (domain : option string) (joined : option bool) : observation :=
  from_agent_heartbeat "agent-1"
    (Heartbeat at_ (Some 105%Z) (Some "SN-1") (Some "PC1") domain joined None None JNull).

Definition row_after (os : list observation) : option current_row :=
  current (observe_all os nothing_observed) !! "serial:sn1".

(** A machine that leaves the domain is still shown as joined. *)
Example leaving_the_domain_is_not_seen :
  cu_state <$> row_after [beat 1 (Some "corp.example") (Some true);
                          beat 2 (Some "WORKGROUP") (Some false)] = Some AdDomainJoined.
Proof. by vm_compute. Qed.

(** A heartbeat that says nothing of the domain erases the domain's name: the empty
    text is not NULL. *)
Example heartbeat_erases_domain_name :
  (domain_name ∘ cu_identity) <$> row_after [beat 1 (Some "corp.example") (Some true);
                                             beat 2 None None] = Some (Some EmptyString).
Proof. by vm_compute. Qed.

Example lifecycle_log :
  (λ e, (ev_type e, ev_state e)) <$> events_of "serial:sn1"
    (observe_all [beat 1 None None; beat 2 (Some "WORKGROUP") None; beat 3 None None;
                  beat 4 (Some "corp.example") (Some true); beat 5 None None] nothing_observed) =
  [("initial", UnknownStale); ("transition", WorkgroupUnenrolled); ("transition", UnknownStale);
   ("transition", AdDomainJoined)].
Proof. by vm_compute. Qed.
End LifecycleExample.
