(* ===== verification/Dense.v ===== *)
(** * Tables whose rows are numbered

    A table with [UNIQUE (owner, position)] whose positions of one owner are 0, 1, 2, ...
    without a gap: the steps of a sequence, the steps of a provisioning run.  The file
    says when inserting, deleting and updating keep the numbering, and that the rows of
    an owner in order of position are those with positions 0, 1, 2, ... *)

From stdpp Require Import base gmap list sorting.
From Stdlib Require Import ZArith Lia.
From S2P Require Import Prelude.
#[local] Open Scope Z_scope.

(** A strictly increasing list that holds every predecessor down to zero counts. *)
Lemma closed_sorted_counts (l : list Z) :
  StronglySorted Z.lt l → (∀ x, x ∈ l → 0 ≤ x ∧ (0 < x → x - 1 ∈ l)) →
  ∀ i x, l !! i = Some x → x = Z.of_nat i.
Proof.
  intros Hs Hl i x Hx.
  assert (∀ n, (Z.of_nat n ≤ x) → x - Z.of_nat n ∈ l) as Hdown.
  { induction n as [|n IH]; intros Hn.
    - rewrite Z.sub_0_r. by eapply list_elem_of_lookup_2.
    - destruct (Hl (x - Z.of_nat n)) as [_ Hp]; [apply IH; lia|].
      replace (x - Z.of_nat (S n)) with (x - Z.of_nat n - 1) by lia. apply Hp. lia. }
  assert (∀ j y, l !! j = Some y → Z.of_nat j ≤ y) as Hlow.
  { clear -Hs Hl. induction j as [|j IH]; intros y Hy.
    - apply list_elem_of_lookup_2 in Hy. apply Hl in Hy. lia.
    - destruct (lookup_lt_is_Some_2 l j) as [z Hz]; [apply lookup_lt_Some in Hy; lia|].
      pose proof (StronglySorted_app_1_elem_of Z.lt (take (S j) l) (drop (S j) l) z y) as Hlt.
      rewrite take_drop in Hlt. specialize (IH z Hz).
      assert (z < y); [|lia]. apply Hlt; [done|..].
      + apply list_elem_of_lookup_2 with j. by rewrite lookup_take_lt by lia.
      + apply list_elem_of_lookup_2 with 0%nat. by rewrite lookup_drop, Nat.add_0_r. }
  pose proof (Hlow i x Hx) as Hi. destruct (decide (x = Z.of_nat i)) as [|Hne]; [done|exfalso].
  assert (Hin : Z.of_nat i ∈ l).
  { replace (Z.of_nat i) with (x - Z.of_nat (Z.to_nat (x - Z.of_nat i))) by lia. apply Hdown. lia. }
  apply list_elem_of_lookup in Hin as [j Hj]. pose proof (Hlow j _ Hj) as Hji.
  (* the smaller value stands at an index that is not after it *)
  assert (j < i)%nat as Hlt.
  { destruct (decide (j = i)) as [->|]; [congruence|lia]. }
  (* all the values below [Z.of_nat i + 1] fit in front of index [i] *)
  assert (seqZ 0 (Z.of_nat (S i)) ⊆+ take i l) as Hsub.
  { apply NoDup_submseteq; [apply NoDup_seqZ|]. intros y [Hy0 Hy]%elem_of_seqZ.
    assert (y ∈ l) as [k Hk]%list_elem_of_lookup.
    { replace y with (x - Z.of_nat (Z.to_nat (x - y))) by lia. apply Hdown. lia. }
    apply list_elem_of_lookup_2 with k. rewrite lookup_take_lt; [done|].
    destruct (decide (k < i)%nat) as [|Hki]; [done|exfalso]. pose proof (Hlow k y Hk).
    assert (k = i) as -> by lia. rewrite Hk in Hx. injection Hx as ->. lia. }
  apply submseteq_length in Hsub. rewrite length_seqZ, length_take in Hsub. lia.
Qed.

Section dense.
Context {R : Type} (owner pos : R → Z).
Implicit Types (t : gmap Z R) (k : Z) (r : R).

Record dense t : Prop := Dense {
  dense_unique k k' r r' : t !! k = Some r → t !! k' = Some r' → owner r = owner r' →
    pos r = pos r' → k = k';
  dense_nonneg k r : t !! k = Some r → 0 ≤ pos r;
  dense_pred k r : t !! k = Some r → 0 < pos r →
    ∃ k' r', t !! k' = Some r' ∧ owner r' = owner r ∧ pos r' = pos r - 1
}.

Lemma dense_empty : dense ∅.
Proof. split; intros *; by rewrite lookup_empty. Qed.

Lemma dense_insert t k r :
  dense t → t !! k = None → 0 ≤ pos r →
  (∀ k' r', t !! k' = Some r' → owner r' = owner r → pos r' ≠ pos r) →
  (0 < pos r → ∃ k' r', t !! k' = Some r' ∧ owner r' = owner r ∧ pos r' = pos r - 1) →
  dense (<[k := r]> t).
Proof.
  intros [Hu Hn Hp] Hk H0 Hfree Hpred. split.
  - intros k1 k2 r1 r2 [[<- <-]|[? H1]]%lookup_insert_Some [[<- <-]|[? H2]]%lookup_insert_Some Ho Hq;
      [done| | |by eapply Hu].
    + exfalso. by eapply Hfree.
    + exfalso. by eapply Hfree.
  - intros k1 r1 [[<- <-]|[? H1]]%lookup_insert_Some; eauto.
  - intros k1 r1 [[<- <-]|[? H1]]%lookup_insert_Some Hpos.
    + destruct Hpred as (k' & r' & Hk' & ?); [done|]. exists k', r'.
      rewrite lookup_insert_ne by congruence. done.
    + destruct (Hp k1 r1) as (k' & r' & Hk' & ?); [done..|]. exists k', r'.
      rewrite lookup_insert_ne by congruence. done.
Qed.

(** Removing everything an owner has. *)
Lemma dense_remove t o : dense t → dense (filter (λ kr : Z * R, owner kr.2 ≠ o) t).
Proof.
  intros [Hu Hn Hp]. split.
  - intros k k' r r' [H1 _]%map_lookup_filter_Some [H2 _]%map_lookup_filter_Some. by eapply Hu.
  - intros k r [H1 _]%map_lookup_filter_Some. by eapply Hn.
  - intros k r [H1 Ho]%map_lookup_filter_Some Hpos.
    destruct (Hp k r) as (k' & r' & Hk' & Heq & Hq); [done..|]. exists k', r'.
    rewrite map_lookup_filter_Some. simpl in *. by rewrite Heq.
Qed.

(** Two tables with the same keys, owners and positions. *)
Definition same_shape t t' : Prop :=
  ∀ k, (λ r, (owner r, pos r)) <$> t' !! k = (λ r, (owner r, pos r)) <$> t !! k.

Lemma dense_same_shape t t' : same_shape t t' → dense t → dense t'.
Proof.
  intros Hs [Hu Hn Hp].
  assert (∀ k r, t' !! k = Some r → ∃ r0, t !! k = Some r0 ∧ owner r0 = owner r ∧ pos r0 = pos r)
    as Hback.
  { intros k r Hk. specialize (Hs k). rewrite Hk in Hs. destruct (t !! k) as [r0|]; naive_solver. }
  assert (∀ k r, t !! k = Some r → ∃ r0, t' !! k = Some r0 ∧ owner r0 = owner r ∧ pos r0 = pos r)
    as Hforth.
  { intros k r Hk. specialize (Hs k). rewrite Hk in Hs. destruct (t' !! k) as [r0|]; naive_solver. }
  split.
  - intros k k' r r' (r0 & ? & ? & ?)%Hback (r1 & ? & ? & ?)%Hback ??. eapply Hu; eauto; congruence.
  - intros k r (r0 & H1 & _ & <-)%Hback. by eapply Hn.
  - intros k r (r0 & H1 & <- & <-)%Hback Hpos. destruct (Hp k r0) as (k' & r' & Hk' & ? & ?); [done..|].
    apply Hforth in Hk' as (r2 & ? & ? & ?). exists k', r2. split_and!; congruence.
Qed.

Lemma same_shape_alter (f : R → R) k t :
  (∀ r, owner (f r) = owner r ∧ pos (f r) = pos r) → same_shape t (alter f k t).
Proof.
  intros Hf k'. destruct (decide (k = k')) as [<-|]; [rewrite lookup_alter_eq|by rewrite lookup_alter_ne].
  destruct (t !! k) as [r|]; [|done]. simpl. destruct (Hf r) as [-> ->]. done.
Qed.

Lemma same_shape_update_where (P : Z * R → Prop) `{∀ x, Decision (P x)} (f : R → R) t :
  (∀ r, owner (f r) = owner r ∧ pos (f r) = pos r) → same_shape t (update_where P f t).
Proof.
  intros Hf k. rewrite lookup_update_where. destruct (t !! k) as [r|]; [|done]. simpl.
  case_decide; [|done]. destruct (Hf r) as [-> ->]. done.
Qed.

(** ** The rows of an owner, in order *)

Definition by_pos : Z * R → Z * R → comparison := cmp_on (λ kr, pos kr.2) cmp_Z.

#[local] Instance by_pos_ord : OrdCmp by_pos.
Proof. unfold by_pos. apply _. Qed.

Definition rows (o : Z) t : list (Z * R) := isort by_pos (select_where (λ kr, owner kr.2 = o) t).

Lemma elem_of_rows o t k r : (k, r) ∈ rows o t ↔ t !! k = Some r ∧ owner r = o.
Proof. unfold rows. rewrite elem_of_isort, elem_of_select_where. naive_solver. Qed.

Lemma NoDup_rows o t : NoDup (rows o t).
Proof. apply NoDup_isort, NoDup_select_where. Qed.

Lemma NoDup_rows_fst o t : NoDup (rows o t).*1.
Proof. unfold rows. rewrite isort_perm. apply NoDup_select_where_fst. Qed.

Lemma rows_sorted o t : dense t → StronglySorted (λ x y, pos x.2 < pos y.2) (rows o t).
Proof.
  intros Hd. pose proof (isort_StronglySorted by_pos (select_where (λ kr, owner kr.2 = o) t)) as Hs.
  fold (rows o t) in Hs.
  assert (∀ x, x ∈ rows o t → t !! x.1 = Some x.2 ∧ owner x.2 = o) as Hin.
  { intros [k r] Hx. by apply elem_of_rows in Hx. }
  pose proof (NoDup_rows o t) as Hnd. revert Hs Hin Hnd.
  induction 1 as [|x l Hl IH Hx]; intros Hin Hnd; constructor.
  - apply IH; [|by inversion Hnd]. intros y Hy. apply Hin. set_solver.
  - rewrite Forall_forall in *. intros y Hy. specialize (Hx y Hy).
    unfold by_pos, cmp_on, cmp_Z in Hx. rewrite Z.compare_le_iff in Hx.
    destruct (decide (pos x.2 = pos y.2)) as [Heq|]; [|lia]. exfalso.
    destruct (Hin x ltac:(set_solver)) as [Hxt Hxo]. destruct (Hin y ltac:(set_solver)) as [Hyt Hyo].
    assert (x = y) as ->; [|inversion Hnd; set_solver].
    assert (x.1 = y.1) as Hk by (eapply (dense_unique t Hd); eauto; congruence).
    destruct x, y; simpl in *; congruence.
Qed.

(** The row at index [i] has position [i]. *)
Lemma rows_pos o t i kr : dense t → rows o t !! i = Some kr → pos kr.2 = Z.of_nat i.
Proof.
  intros Hd Hi. apply (closed_sorted_counts ((λ kr : Z * R, pos kr.2) <$> rows o t)).
  - pose proof (rows_sorted o t Hd) as Hs. clear -Hs.
    induction Hs as [|x l _ IH Hx]; simpl; constructor; [done|].
    by apply Forall_fmap.
  - intros x ([k r] & -> & [Hk Ho]%elem_of_rows)%list_elem_of_fmap. simpl. split.
    + by eapply (dense_nonneg t).
    + intros Hpos. destruct (dense_pred t Hd k r Hk Hpos) as (k' & r' & Hk' & Ho' & Hp').
      apply list_elem_of_fmap. exists (k', r'). simpl. split; [done|].
      apply elem_of_rows. split; [done|congruence].
  - by rewrite list_lookup_fmap, Hi.
Qed.

(** A position is taken exactly when it is below the number of rows. *)
Lemma rows_taken o t p :
  dense t → (∃ k r, t !! k = Some r ∧ owner r = o ∧ pos r = p) ↔ 0 ≤ p < Z.of_nat (length (rows o t)).
Proof.
  intros Hd. split.
  - intros (k & r & Hk & Ho & <-).
    assert ((k, r) ∈ rows o t) as [i Hi]%list_elem_of_lookup by by apply elem_of_rows.
    pose proof (rows_pos o t i _ Hd Hi) as Hp. simpl in Hp. apply lookup_lt_Some in Hi. lia.
  - intros Hp. destruct (lookup_lt_is_Some_2 (rows o t) (Z.to_nat p)) as [[k r] Hi]; [lia|].
    pose proof (rows_pos o t _ _ Hd Hi) as Hpos. simpl in Hpos.
    apply list_elem_of_lookup_2, elem_of_rows in Hi. exists k, r. naive_solver lia.
Qed.

(** Inserting after the last row. *)
Lemma dense_append t k r :
  dense t → t !! k = None → pos r = Z.of_nat (length (rows (owner r) t)) → dense (<[k := r]> t).
Proof.
  intros Hd Hk Hp. apply dense_insert; [done..|lia| |].
  - intros k' r' Hk' Ho Heq.
    assert (0 ≤ pos r < Z.of_nat (length (rows (owner r) t))); [|lia].
    apply rows_taken; [done|]. eauto.
  - intros Hpos. apply (rows_taken (owner r) t (pos r - 1) Hd). lia.
Qed.

(** A sorted selection is the list with the same elements in order of position. *)
Lemma isort_select_eq (P : Z * R → Prop) `{∀ x, Decision (P x)} t l :
  (∀ k r, (k, r) ∈ l ↔ t !! k = Some r ∧ P (k, r)) → NoDup l →
  StronglySorted (λ x y, pos x.2 < pos y.2) l → isort by_pos (select_where P t) = l.
Proof.
  intros Hin Hnd Hs.
  assert (StronglySorted (λ x y, by_pos x y ≠ Gt) l) as Hle.
  { clear -Hs. induction Hs as [|x l _ IH Hx]; constructor; [done|].
    eapply Forall_impl; [done|]. intros y Hy. simpl in Hy. unfold by_pos, cmp_on, cmp_Z.
    rewrite Z.compare_le_iff. lia. }
  assert (∀ x y, x ∈ l → y ∈ l → by_pos x y = Eq → x = y) as Huniq.
  { clear -Hs. induction Hs as [|z l _ IH Hz]; [set_solver|]. intros x y Hx Hy Heq.
    unfold by_pos, cmp_on, cmp_Z in Heq. apply Z.compare_eq_iff in Heq.
    rewrite Forall_forall in Hz. rewrite elem_of_cons in Hx, Hy.
    destruct Hx as [->|Hx], Hy as [->|Hy]; [done|..].
    - specialize (Hz y Hy). lia.
    - specialize (Hz x Hx). lia.
    - apply IH; [done..|]. unfold by_pos, cmp_on, cmp_Z. by apply Z.compare_eq_iff. }
  transitivity (isort by_pos l).
  - symmetry. apply isort_perm_eq; [apply _| |done].
    apply NoDup_Permutation; [done|apply NoDup_select_where|]. intros [k r].
    rewrite Hin, elem_of_select_where. naive_solver.
  - apply isort_sorted_id. by apply StronglySorted_Sorted.
Qed.

(** The list of rows after an operation, from its elements and their order. *)
Lemma rows_eq o t l :
  (∀ k r, (k, r) ∈ l ↔ t !! k = Some r ∧ owner r = o) → NoDup l →
  StronglySorted (λ x y, pos x.2 < pos y.2) l → rows o t = l.
Proof. intros. by apply isort_select_eq. Qed.

(** The rows of an owner that satisfy a condition, in order. *)
Lemma rows_filter o t (P : Z * R → Prop) `{∀ x, Decision (P x)} :
  dense t →
  isort by_pos (select_where (λ kr, owner kr.2 = o ∧ P kr) t) = filter P (rows o t).
Proof.
  intros Hd. apply isort_select_eq.
  - intros k r. rewrite list_elem_of_filter, elem_of_rows. naive_solver.
  - apply NoDup_filter, NoDup_rows.
  - apply StronglySorted_filter. by apply rows_sorted.
Qed.

Lemma rows_append t k r :
  dense t → t !! k = None → pos r = Z.of_nat (length (rows (owner r) t)) →
  rows (owner r) (<[k := r]> t) = rows (owner r) t ++ [(k, r)].
Proof.
  intros Hd Hk Hp. apply rows_eq.
  - intros k' r'. rewrite elem_of_app, list_elem_of_singleton, elem_of_rows, lookup_insert_Some.
    split; [|naive_solver]. intros [[H1 H2]|[= -> ->]]; [|by split; [left|]].
    split; [|done]. right. split; [congruence|done].
  - apply NoDup_app. split_and!; [apply NoDup_rows| |apply NoDup_singleton].
    intros [k' r'] [H1 _]%elem_of_rows [= -> ->]%list_elem_of_singleton. congruence.
  - apply StronglySorted_app_2; [|by apply rows_sorted|by repeat constructor].
    intros x y [i Hi]%list_elem_of_lookup ->%list_elem_of_singleton. simpl.
    rewrite (rows_pos _ _ _ _ Hd Hi), Hp. apply lookup_lt_Some in Hi. lia.
Qed.

(** What is done to other owners does not show. *)
Lemma rows_frame o t t' :
  dense t → (∀ k r, owner r = o → t' !! k = Some r ↔ t !! k = Some r) → rows o t' = rows o t.
Proof.
  intros Hd Hsame. apply rows_eq; [|apply NoDup_rows|by apply rows_sorted].
  intros k r. rewrite elem_of_rows. split; intros [Hk Ho]; (split; [|done]); by apply Hsame.
Qed.

(** Giving the rows of one owner new positions. *)
Lemma dense_renumbered o t t' l :
  dense t →
  (∀ k r, owner r ≠ o → t' !! k = Some r ↔ t !! k = Some r) →
  (∀ k r, (k, r) ∈ l ↔ t' !! k = Some r ∧ owner r = o) →
  (∀ i kr, l !! i = Some kr → pos kr.2 = Z.of_nat i) →
  dense t' ∧ rows o t' = l.
Proof.
  intros Hd Hother Hl Hpos. split; [split|].
  - intros k k' r r' Hk Hk' Ho Hp. destruct (decide (owner r = o)) as [Hro|Hne].
    + destruct (proj1 (list_elem_of_lookup _ _) (proj2 (Hl k r) (conj Hk Hro))) as [i Hi].
      assert (owner r' = o) as Hro' by congruence.
      destruct (proj1 (list_elem_of_lookup _ _) (proj2 (Hl k' r') (conj Hk' Hro'))) as [j Hj].
      pose proof (Hpos i _ Hi) as E1. pose proof (Hpos j _ Hj) as E2. simpl in *.
      assert (i = j) as -> by lia. rewrite Hi in Hj. congruence.
    + eapply (dense_unique t Hd k k' r r'); [by apply Hother| |done|done]. apply Hother; [congruence|done].
  - intros k r Hk. destruct (decide (owner r = o)) as [Hro|Hne].
    + destruct (proj1 (list_elem_of_lookup _ _) (proj2 (Hl k r) (conj Hk Hro))) as [i Hi].
      pose proof (Hpos i _ Hi) as E. simpl in E. lia.
    + eapply (dense_nonneg t Hd). by apply Hother.
  - intros k r Hk Hp. destruct (decide (owner r = o)) as [Hro|Hne].
    + destruct (proj1 (list_elem_of_lookup _ _) (proj2 (Hl k r) (conj Hk Hro))) as [i Hi].
      pose proof (Hpos i _ Hi) as E. simpl in E. destruct i as [|i]; [lia|].
      destruct (lookup_lt_is_Some_2 l i) as [[k' r'] Hi']; [apply lookup_lt_Some in Hi; lia|].
      pose proof (Hpos i _ Hi') as E'. simpl in E'.
      apply list_elem_of_lookup_2, Hl in Hi' as [Hk' Ho']. exists k', r'. split_and!; [done|congruence|lia].
    + destruct (dense_pred t Hd k r) as (k' & r' & Hk' & Ho & ?); [by apply Hother|done|].
      exists k', r'. split; [|done]. apply Hother; [congruence|done].
  - apply rows_eq; [done| |].
    + apply NoDup_alt. intros i j x Hi Hj. pose proof (Hpos i _ Hi). pose proof (Hpos j _ Hj). lia.
    + apply elem_of_StronglySorted_indexed. intros i j x y Hij Hx Hy.
      rewrite (Hpos i _ Hx), (Hpos j _ Hy). lia.
Qed.
End dense.
