(* ===== verification/LegacyStore.v ===== *)
(** * The store of the legacy task sequences

    [web/sequences_pg.py], first half, and the handlers of [web/app.py] that edit
    sequences: sequences with a flat list of steps, credentials, the machines that were
    provisioned, the cache of answer images, and the sequences a fresh installation
    starts with.  The provisioning runs of the same schema are operated on in the file
    LegacyRuns. *)

From stdpp Require Import base gmap list strings pretty sorting.
From Stdlib Require Import ZArith Lia Ascii.
From S2P Require Import Prelude Json Text JsonParse Dense.

(** ** Data *)

Record task_sequence : Type := TaskSequence {
  ts_name : string;
  ts_description : string;
  ts_is_default : bool;
  ts_produces_autopilot_hash : bool;
  ts_target_os : string;
  ts_hash_capture_phase : string;
  ts_created_at : Z;
  ts_updated_at : Z
}.

Record task_sequence_step : Type := TaskSequenceStep {
  tss_sequence_id : Z;
  tss_order_index : Z;
  tss_step_type : string;
  tss_params_json : json;
  tss_enabled : bool
}.

Record credential : Type := Credential {
  cr_name : string;
  cr_type : string;
  cr_encrypted_blob : string;
  cr_created_at : Z;
  cr_updated_at : Z
}.

Record vm_provisioning_row : Type := VmProvisioning {
  vp_sequence_id : option Z;
  vp_provisioned_at : Z
}.

Record answer_iso : Type := AnswerIso {
  ai_short_hash : string;
  ai_volid : string;
  ai_compiled_at : Z;
  ai_last_used_at : option Z
}.

Record provisioning_run : Type := ProvisioningRun {
  pr_vmid : option Z;
  pr_sequence_id : Z;
  pr_provision_path : string;
  pr_state : string;
  pr_vm_uuid : option string;
  pr_started_at : Z;
  pr_finished_at : option Z;
  pr_last_error : option string
}.

Record provisioning_run_step : Type := ProvisioningRunStep {
  rs_run_id : Z;
  rs_order_index : Z;
  rs_phase : string;
  rs_kind : string;
  rs_params_json : json;
  rs_state : string;
  rs_started_at : option Z;
  rs_finished_at : option Z;
  rs_error : option string
}.

Record tables : Type := Tables {
  task_sequences : gmap Z task_sequence;
  task_sequence_steps : gmap Z task_sequence_step;
  credentials : gmap Z credential;
  vm_provisioning : gmap Z vm_provisioning_row;
  answer_iso_cache : gmap string answer_iso;
  provisioning_runs : gmap Z provisioning_run;
  provisioning_run_steps : gmap Z provisioning_run_step
}.

(** The tables, the last numbers of the [bigserial] columns, and the number of times the
    clock was read.  A rollback takes back the tables only. *)
Record store : Type := Store {
  tbl : tables;
  serials : gmap string Z;
  ticks : nat
}.

Definition empty_tables : tables := Tables ∅ ∅ ∅ ∅ ∅ ∅ ∅.
Definition empty_store : store := Store empty_tables ∅ 0.

(** [datetime.now(timezone.utc)], in microseconds, one value for each reading. *)
Class Clock : Type := clock_at : nat → Z.

(** The cipher of the credentials ([web/crypto.py]) takes texts to texts with Fernet,
    a third-party library. *)
Class Fernet : Type := {
  fernet_encrypt : string → string;
  fernet_decrypt : string → outcome string
}.

Class FernetLaws `(Fernet) : Prop :=
  fernet_roundtrip t : fernet_decrypt (fernet_encrypt t) = Ret t.

Definition on_sequences (f : gmap Z task_sequence → gmap Z task_sequence) (t : tables) : tables :=
  Tables (f (task_sequences t)) (task_sequence_steps t) (credentials t) (vm_provisioning t)
    (answer_iso_cache t) (provisioning_runs t) (provisioning_run_steps t).
Definition on_steps (f : gmap Z task_sequence_step → gmap Z task_sequence_step) (t : tables) : tables :=
  Tables (task_sequences t) (f (task_sequence_steps t)) (credentials t) (vm_provisioning t)
    (answer_iso_cache t) (provisioning_runs t) (provisioning_run_steps t).
Definition on_credentials (f : gmap Z credential → gmap Z credential) (t : tables) : tables :=
  Tables (task_sequences t) (task_sequence_steps t) (f (credentials t)) (vm_provisioning t)
    (answer_iso_cache t) (provisioning_runs t) (provisioning_run_steps t).
Definition on_vms (f : gmap Z vm_provisioning_row → gmap Z vm_provisioning_row) (t : tables) : tables :=
  Tables (task_sequences t) (task_sequence_steps t) (credentials t) (f (vm_provisioning t))
    (answer_iso_cache t) (provisioning_runs t) (provisioning_run_steps t).
Definition on_isos (f : gmap string answer_iso → gmap string answer_iso) (t : tables) : tables :=
  Tables (task_sequences t) (task_sequence_steps t) (credentials t) (vm_provisioning t)
    (f (answer_iso_cache t)) (provisioning_runs t) (provisioning_run_steps t).
Definition on_runs (f : gmap Z provisioning_run → gmap Z provisioning_run) (t : tables) : tables :=
  Tables (task_sequences t) (task_sequence_steps t) (credentials t) (vm_provisioning t)
    (answer_iso_cache t) (f (provisioning_runs t)) (provisioning_run_steps t).
Definition on_run_steps (f : gmap Z provisioning_run_step → gmap Z provisioning_run_step)
    (t : tables) : tables :=
  Tables (task_sequences t) (task_sequence_steps t) (credentials t) (vm_provisioning t)
    (answer_iso_cache t) (provisioning_runs t) (f (provisioning_run_steps t)).

(** ** Statements *)

Section statements.
Context `{Clock}.

Definition select {A} (f : tables → A) : eff store A := λ s, (Ret (f (tbl s)), s).
Definition write (f : tables → tables) : eff store unit := λ s,
  (Ret tt, Store (f (tbl s)) (serials s) (ticks s)).

Definition utcnow : eff store Z := λ s,
  (Ret (clock_at (ticks s)), Store (tbl s) (serials s) (S (ticks s))).

(** [nextval] of the sequence behind a [bigserial] column. *)
Definition nextval (table : string) : eff store Z := λ s,
  let n := (default 0 (serials s !! table) + 1)%Z in
  (Ret n, Store (tbl s) (<[table := n]> (serials s)) (ticks s)).

(** A statement PostgreSQL refuses when [ok] is false. *)
Definition require (ok : tables → bool) (e : exc) : eff store unit := λ s,
  if ok (tbl s) then (Ret tt, s) else (Exc e, s).

(** [with _connect(db) as conn], [with conn.transaction()]: an exception takes back
    what the block wrote. *)
Definition transaction {A} (m : eff store A) : eff store A := λ s,
  match m s with
  | (Exc e, s') => (Exc e, Store (tbl s) (serials s') (ticks s'))
  | r => r
  end.
End statements.

Definition unique_violation (constraint : string) : exc := IntegrityError constraint.
Definition foreign_key_violation (constraint : string) : exc :=
  CustomError "ForeignKeyViolation" constraint.

(** No other row of the table has the same value under [f]. *)
Definition no_other `{Countable K} {R A} `{EqDecision A} (f : R → A) (k : option K) (a : A)
    (t : gmap K R) : bool :=
  negb (exists_where (λ kr, Some kr.1 ≠ k ∧ f kr.2 = a) t).

Definition exists_key {R} (k : Z) (t : gmap Z R) : bool :=
  match t !! k with Some _ => true | None => false end.

(** [_jsonb] *)
Definition jsonb (value : json) : outcome json :=
  match value with
  | JStr EmptyString => Ret (JObj [])
  | JStr text =>
      match json_loads text with
      | Some v => Ret (jor v (JObj []))
      | None => Exc (ValueError "JSONDecodeError")
      end
  | _ => Ret (jor value (JObj []))
  end.

(** ** Credentials *)

Section credentials.
Context `{Clock, Fernet}.

(** [json.dumps(payload, separators=(",", ":"))] keeps the order of the keys; the model
    writes them in order, which [json.loads] does not see. *)
Definition encrypt_json (payload : json) : string := fernet_encrypt (json_dumps payload).

Definition decrypt_json (token : string) : outcome json :=
  text ← fernet_decrypt token;
  match json_loads text with Some v => Ret v | None => Exc (ValueError "JSONDecodeError") end.

Definition create_credential (name type : string) (payload : json) : eff store Z :=
  now ← utcnow;
  let blob := encrypt_json payload in
  transaction (
    id ← nextval "credentials";
    require (λ t, no_other cr_name None name (credentials t)) (unique_violation "credentials_name_key") ;;
    write (on_credentials (<[id := Credential name type blob now now]>)) ;;
    mret id).

Definition update_credential (cred_id : Z) (name : option string) (payload : option json) :
    eff store unit :=
  match name, payload with
  | None, None => mret tt
  | _, _ =>
      now ← utcnow;
      transaction (
        require (λ t, match name with
                      | Some n => negb (exists_key cred_id (credentials t)) ||
                                  no_other cr_name (Some cred_id) n (credentials t)
                      | None => true
                      end) (unique_violation "credentials_name_key") ;;
        write (on_credentials (alter (λ c, Credential (default (cr_name c) name) (cr_type c)
          (default (cr_encrypted_blob c) (encrypt_json <$> payload)) (cr_created_at c) now) cred_id)))
  end.

(** The name, the type and the payload of a credential. *)
Definition get_credential (cred_id : Z) : eff store (option (string * string * json)) :=
  row ← select (λ t, credentials t !! cred_id);
  match row with
  | None => mret None
  | Some c => payload ← lift_outcome (decrypt_json (cr_encrypted_blob c));
              mret (Some (cr_name c, cr_type c, payload))
  end.

Definition list_credentials (type : option string) (t : tables) : list (Z * credential) :=
  isort (cmp_on (λ kr, cr_name kr.2) cmp_str)
    (select_where (λ kr, type = None ∨ type = Some (cr_type kr.2)) (credentials t)).

(** [(params_json ->> 'credential_id')::bigint]: [None] for NULL, and PostgreSQL raises
    when the text is not a number. *)
Definition credential_id_of (params : json) : outcome (option Z) :=
  match params with
  | JObj o =>
      match assoc "credential_id" o with
      | None | Some JNull => Ret None
      | Some (JInt n) => Ret (Some n)
      | Some (JStr text) =>
          match parse_int text with
          | Some n => Ret (Some n)
          | None => Exc (CustomError "InvalidTextRepresentation" text)
          end
      | Some v => Exc (CustomError "InvalidTextRepresentation" (json_dumps v))
      end
  | _ => Ret None
  end.

(** [SELECT DISTINCT sequence_id ... WHERE ... = cred_id], sorted. *)
Definition sequences_referencing_credential (cred_id : Z) (t : tables) : outcome (list Z) :=
  refs ← omapM (λ st, c ← credential_id_of (tss_params_json st); Ret (tss_sequence_id st, c))
           (map_to_list (task_sequence_steps t)).*2;
  Ret (isort cmp_Z (remove_dups (filter (λ r, r.2 = Some cred_id) refs).*1)).

Definition credential_in_use (cred_id : Z) (ids : list Z) : exc :=
  CustomError "CredentialInUse" (pretty cred_id +:+ ": " +:+ PyStr.join ", " (pretty <$> ids)).

Definition delete_credential (cred_id : Z) : eff store unit :=
  transaction (
    o ← select (sequences_referencing_credential cred_id);
    referencing ← lift_outcome o;
    match referencing with
    | [] => write (on_credentials (delete cred_id))
    | _ => raise (credential_in_use cred_id referencing)
    end).
End credentials.

(** ** Sequences *)

Section sequences.
Context `{Clock}.

Definition set_default (b : bool) (r : task_sequence) : task_sequence :=
  TaskSequence (ts_name r) (ts_description r) b (ts_produces_autopilot_hash r) (ts_target_os r)
    (ts_hash_capture_phase r) (ts_created_at r) (ts_updated_at r).

Definition touch_sequence (now : Z) (r : task_sequence) : task_sequence :=
  TaskSequence (ts_name r) (ts_description r) (ts_is_default r) (ts_produces_autopilot_hash r)
    (ts_target_os r) (ts_hash_capture_phase r) (ts_created_at r) now.

(** [UPDATE task_sequences SET is_default = false WHERE id != seq_id] *)
Definition only_default (seq_id : Z) (t : gmap Z task_sequence) : gmap Z task_sequence :=
  update_where (λ kr, kr.1 ≠ seq_id) (set_default false) t.

Definition check_phase (hash_capture_phase : string) : outcome unit :=
  if decide (hash_capture_phase ∈ ["winpe"; "oobe"]) then Ret tt
  else Exc (ValueError "invalid hash_capture_phase").

(** The columns a step of the caller is read into: [step["step_type"]],
    [step.get("params", {})], [step.get("enabled", True)]. *)
Definition read_step (step : json) : outcome (string * json * bool) :=
  match step with
  | JObj o =>
      match assoc "step_type" o with
      | None => Exc (KeyError "step_type")
      | Some (JStr step_type) =>
          params ← jsonb (default (JObj []) (assoc "params" o));
          Ret (step_type, params, truthy (default (JBool true) (assoc "enabled" o)))
      | Some _ => Exc (CustomError "DatatypeMismatch" "step_type")
      end
  | _ => Exc TypeError
  end.

Definition insert_step (seq_id : Z) (idx : nat) (step : json) : eff store unit :=
  '(step_type, params, enabled) ← lift_outcome (read_step step);
  id ← nextval "task_sequence_steps";
  require (λ t, negb (exists_where (λ kr, tss_sequence_id kr.2 = seq_id ∧
                        tss_order_index kr.2 = Z.of_nat idx) (task_sequence_steps t)))
    (unique_violation "task_sequence_steps_sequence_id_order_index_key") ;;
  require (λ t, exists_key seq_id (task_sequences t))
    (foreign_key_violation "task_sequence_steps_sequence_id_fkey") ;;
  write (on_steps (<[id := TaskSequenceStep seq_id (Z.of_nat idx) step_type params enabled]>)).

Definition delete_steps_of (seq_id : Z) (t : gmap Z task_sequence_step) : gmap Z task_sequence_step :=
  filter (λ kr, tss_sequence_id kr.2 ≠ seq_id) t.

(** [_set_sequence_steps] *)
Definition _set_sequence_steps (seq_id : Z) (steps : list json) : eff store unit :=
  write (on_steps (delete_steps_of seq_id)) ;;
  for_each (zip (seq 0 (length steps)) steps) (λ s, insert_step seq_id s.1 s.2) ;;
  now ← utcnow;
  write (on_sequences (alter (touch_sequence now) seq_id)).

Definition set_sequence_steps (seq_id : Z) (steps : list json) : eff store unit :=
  transaction (_set_sequence_steps seq_id steps).

Definition create_sequence (name description : string) (is_default produces_autopilot_hash : bool)
    (target_os hash_capture_phase : string) (steps : option (list json)) : eff store Z :=
  lift_outcome (check_phase hash_capture_phase) ;;
  now ← utcnow;
  transaction (
    id ← nextval "task_sequences";
    require (λ t, no_other ts_name None name (task_sequences t))
      (unique_violation "task_sequences_name_key") ;;
    write (on_sequences (<[id := TaskSequence name description is_default produces_autopilot_hash
      target_os hash_capture_phase now now]>)) ;;
    (if is_default then write (on_sequences (only_default id)) else mret tt) ;;
    match steps with Some l => _set_sequence_steps id l | None => mret tt end ;;
    mret id).

(** The columns an update may name. *)
Record sequence_update : Type := SequenceUpdate {
  up_name : option string;
  up_description : option string;
  up_is_default : option bool;
  up_produces_autopilot_hash : option bool;
  up_target_os : option string;
  up_hash_capture_phase : option string
}.

Definition no_update : sequence_update := SequenceUpdate None None None None None None.

#[export] Instance sequence_update_eq_dec : EqDecision sequence_update.
Proof. solve_decision. Defined.

Definition apply_update (u : sequence_update) (now : Z) (r : task_sequence) : task_sequence :=
  TaskSequence (default (ts_name r) (up_name u)) (default (ts_description r) (up_description u))
    (default (ts_is_default r) (up_is_default u))
    (default (ts_produces_autopilot_hash r) (up_produces_autopilot_hash u))
    (default (ts_target_os r) (up_target_os u))
    (default (ts_hash_capture_phase r) (up_hash_capture_phase u)) (ts_created_at r) now.

Definition update_sequence (seq_id : Z) (u : sequence_update) : eff store unit :=
  lift_outcome (match up_hash_capture_phase u with Some p => check_phase p | None => Ret tt end) ;;
  if decide (u = no_update) then mret tt
  else
    now ← utcnow;
    transaction (
      require (λ t, match up_name u with
                    | Some n => negb (exists_key seq_id (task_sequences t)) ||
                                no_other ts_name (Some seq_id) n (task_sequences t)
                    | None => true
                    end) (unique_violation "task_sequences_name_key") ;;
      write (on_sequences (alter (apply_update u now) seq_id)) ;;
      (if default false (up_is_default u) then write (on_sequences (only_default seq_id))
       else mret tt)).

(** The steps of a sequence, [ORDER BY order_index]. *)
Definition steps_of (seq_id : Z) (t : tables) : list (Z * task_sequence_step) :=
  isort (cmp_on (λ kr, tss_order_index kr.2) cmp_Z)
    (select_where (λ kr, tss_sequence_id kr.2 = seq_id) (task_sequence_steps t)).

Definition get_sequence (seq_id : Z) : eff store (option (task_sequence * list (Z * task_sequence_step))) :=
  row ← select (λ t, task_sequences t !! seq_id);
  match row with
  | None => mret None
  | Some r => steps ← select (steps_of seq_id); mret (Some (r, steps))
  end.

(** The rows of the list page, with the number of steps. *)
Definition list_sequences (t : tables) : list (Z * task_sequence * Z) :=
  (λ kr, (kr, Z.of_nat (count_where (λ ks, tss_sequence_id ks.2 = kr.1) (task_sequence_steps t)))) <$>
    isort (cmp_on (λ kr, ts_name kr.2) cmp_str) (map_to_list (task_sequences t)).

Definition sequence_in_use (seq_id : Z) (vmids : list Z) : exc :=
  CustomError "SequenceInUse" (pretty seq_id +:+ ": " +:+ PyStr.join ", " (pretty <$> vmids)).

(** [ON DELETE CASCADE] for the steps, [ON DELETE SET NULL] for the machines; the
    provisioning runs keep the sequence from being deleted. *)
Definition cascade_sequence (seq_id : Z) (t : tables) : tables :=
  on_vms (update_where (λ kr, vp_sequence_id kr.2 = Some seq_id)
            (λ r, VmProvisioning None (vp_provisioned_at r)))
    (on_steps (delete_steps_of seq_id) (on_sequences (delete seq_id) t)).

Definition delete_sequence (seq_id : Z) : eff store unit :=
  transaction (
    rows ← select (λ t, select_where (λ kr, vp_sequence_id kr.2 = Some seq_id) (vm_provisioning t));
    match rows with
    | [] =>
        require (λ t, negb (exists_where (λ kr, pr_sequence_id kr.2 = seq_id) (provisioning_runs t)))
          (foreign_key_violation "provisioning_runs_sequence_id_fkey") ;;
        write (cascade_sequence seq_id)
    | _ => raise (sequence_in_use seq_id rows.*1)
    end).

Definition step_dict (s : task_sequence_step) : json :=
  JObj [("step_type", JStr (tss_step_type s)); ("params", jor (tss_params_json s) (JObj []));
        ("enabled", JBool (tss_enabled s))].

Definition duplicate_sequence (seq_id : Z) (new_name : string) : eff store Z :=
  seq ← get_sequence seq_id;
  match seq with
  | None => raise (ValueError "sequence not found")
  | Some (r, steps) =>
      create_sequence new_name (ts_description r) false (ts_produces_autopilot_hash r)
        (ts_target_os r) (ts_hash_capture_phase r) (Some (step_dict <$> steps.*2))
  end.

(** [LIMIT 1] without an order: some default sequence. *)
Definition get_default_sequence_id (t : tables) : option Z :=
  head (select_where (λ kr, ts_is_default kr.2 = true) (task_sequences t)).*1.

(** ** Provisioned machines and answer images *)

Definition record_vm_provisioning (vmid sequence_id : Z) : eff store unit :=
  now ← utcnow;
  transaction (
    require (λ t, exists_key sequence_id (task_sequences t))
      (foreign_key_violation "vm_provisioning_sequence_id_fkey") ;;
    write (on_vms (<[vmid := VmProvisioning (Some sequence_id) now]>))).

Definition get_vm_sequence_id (vmid : Z) (t : tables) : option Z :=
  vm_provisioning t !! vmid ≫= vp_sequence_id.

Definition get_vm_provisioning (vmid : Z) (t : tables) : option (option Z * Z) :=
  (λ r, (vp_sequence_id r, vp_provisioned_at r)) <$> vm_provisioning t !! vmid.

Definition list_vm_provisioning_vmids (t : tables) : gset Z := dom (vm_provisioning t).

Definition get_answer_iso_cache (full_hash : string) (t : tables) : option answer_iso :=
  answer_iso_cache t !! full_hash.

Definition insert_answer_iso_cache (full_hash short_hash volid : string) : eff store unit :=
  now ← utcnow;
  transaction (
    require (λ t, match answer_iso_cache t !! full_hash with Some _ => false | None => true end)
      (unique_violation "answer_iso_cache_pkey") ;;
    require (λ t, no_other ai_short_hash None short_hash (answer_iso_cache t))
      (unique_violation "answer_iso_cache_short_hash_key") ;;
    write (on_isos (<[full_hash := AnswerIso short_hash volid now (Some now)]>))).

Definition touch_answer_iso_cache (full_hash : string) : eff store unit :=
  now ← utcnow;
  write (on_isos (alter (λ r, AnswerIso (ai_short_hash r) (ai_volid r) (ai_compiled_at r)
    (Some now)) full_hash)).

Definition delete_answer_iso_cache (full_hash : string) : eff store unit :=
  write (on_isos (delete full_hash)).

(** The cached images, newest first, and whether an image is in use. *)
Definition list_answer_iso_cache (in_use_volids : gset string) (t : tables) :
    list (string * answer_iso * bool) :=
  (λ kr, (kr, bool_decide (ai_volid kr.2 ∈ in_use_volids))) <$>
    isort (cmp_desc (cmp_on (λ kr, ai_compiled_at kr.2) cmp_Z)) (map_to_list (answer_iso_cache t)).
End sequences.

(** ** Running a statement *)

Section running.
Context `{Clock}.

Lemma run_select {A} (f : tables → A) s : select f s = (Ret (f (tbl s)), s).
Proof. done. Qed.
Lemma run_write f s : write f s = (Ret tt, Store (f (tbl s)) (serials s) (ticks s)).
Proof. done. Qed.
Lemma run_utcnow s : utcnow s = (Ret (clock_at (ticks s)), Store (tbl s) (serials s) (S (ticks s))).
Proof. done. Qed.
Lemma run_nextval T s :
  let n := (default 0 (serials s !! T) + 1)%Z in
  nextval T s = (Ret n, Store (tbl s) (<[T := n]> (serials s)) (ticks s)).
Proof. done. Qed.
Lemma run_require ok e s : require ok e s = if ok (tbl s) then (Ret tt, s) else (Exc e, s).
Proof. done. Qed.
Lemma run_lift {A} (o : outcome A) (s : store) : lift_outcome o s = (o, s).
Proof. done. Qed.
Lemma run_transaction_ret {A} (m : eff store A) s a s' :
  m s = (Ret a, s') → transaction m s = (Ret a, s').
Proof. unfold transaction. by intros ->. Qed.
End running.

#[export] Hint Rewrite @run_select @run_write @run_utcnow @run_nextval @run_require @run_lift : eff.

(** ** The invariant of the store

    What the constraints of the schema say, and what the code adds to them: one default
    sequence at most, and steps numbered from zero without a gap. *)

Definition serial (T : string) (s : store) : Z := default 0%Z (serials s !! T).

Definition keys_of (T : string) (t : tables) : gset Z :=
  if decide (T = "task_sequences") then dom (task_sequences t)
  else if decide (T = "task_sequence_steps") then dom (task_sequence_steps t)
  else if decide (T = "credentials") then dom (credentials t)
  else if decide (T = "provisioning_runs") then dom (provisioning_runs t)
  else if decide (T = "provisioning_run_steps") then dom (provisioning_run_steps t)
  else ∅.

Definition fresh_serials (s : store) : Prop :=
  ∀ T, (0 ≤ serial T s)%Z ∧ ∀ k, k ∈ keys_of T (tbl s) → (0 < k ≤ serial T s)%Z.

(** A column that is unique. *)
Definition unique_on `{Countable K} {R A} (f : R → A) (t : gmap K R) : Prop :=
  ∀ k k' r r', t !! k = Some r → t !! k' = Some r' → f r = f r' → k = k'.

Definition one_default (t : gmap Z task_sequence) : Prop :=
  ∀ k k' r r', t !! k = Some r → t !! k' = Some r' → ts_is_default r = true →
    ts_is_default r' = true → k = k'.

(** A column that refers to the keys of another table. *)
Definition refers {K R R'} `{Countable K} (f : R → option Z) (t : gmap K R) (t' : gmap Z R') : Prop :=
  ∀ k r i, t !! k = Some r → f r = Some i → is_Some (t' !! i).

Definition run_step_states : list string := ["pending"; "running"; "ok"; "error"].

Record wf_tables (t : tables) : Prop := WfTables {
  wf_names : unique_on ts_name (task_sequences t);
  wf_default : one_default (task_sequences t);
  wf_phases : map_Forall (λ _ r, ts_hash_capture_phase r ∈ ["winpe"; "oobe"]) (task_sequences t);
  wf_steps : dense tss_sequence_id tss_order_index (task_sequence_steps t);
  wf_steps_fk : refers (Some ∘ tss_sequence_id) (task_sequence_steps t) (task_sequences t);
  wf_credentials : unique_on cr_name (credentials t);
  wf_vms_fk : refers vp_sequence_id (vm_provisioning t) (task_sequences t);
  wf_isos : unique_on ai_short_hash (answer_iso_cache t);
  wf_runs_fk : refers (Some ∘ pr_sequence_id) (provisioning_runs t) (task_sequences t);
  wf_runs_path : map_Forall (λ _ r, pr_provision_path r ∈ ["clone"; "winpe"]) (provisioning_runs t);
  wf_run_steps : dense rs_run_id rs_order_index (provisioning_run_steps t);
  wf_run_steps_fk : refers (Some ∘ rs_run_id) (provisioning_run_steps t) (provisioning_runs t);
  wf_run_step_states : map_Forall (λ _ r, rs_state r ∈ run_step_states) (provisioning_run_steps t)
}.

Definition wf_store (s : store) : Prop := wf_tables (tbl s) ∧ fresh_serials s.

Lemma refers_empty {R R'} (f : R → option Z) (t' : gmap Z R') : refers f (∅ : gmap Z R) t'.
Proof. intros k r i. by rewrite lookup_empty. Qed.

Lemma empty_store_wf : wf_store empty_store.
Proof.
  split.
  - split; simpl; try apply map_Forall_empty; try apply refers_empty; try apply dense_empty;
      intros k k' r r'; by rewrite lookup_empty.
  - intros T. split; [done|]. intros k. unfold keys_of. simpl.
    repeat case_decide; by rewrite ?dom_empty_L.
Qed.

Definition advances (s s' : store) : Prop := ∀ T, (serial T s ≤ serial T s')%Z.

#[export] Instance advances_preorder : PreOrder advances.
Proof. split; [intros s T; lia|]. intros s1 s2 s3 H1 H2 T. specialize (H1 T). specialize (H2 T). lia. Qed.

(** Taking tables back keeps the keys below the serials. *)
Lemma wf_rollback s s' : wf_store s → advances s s' → wf_store (Store (tbl s) (serials s') (ticks s')).
Proof.
  intros [Ht Hf] Ha. split; [done|]. intros T. destruct (Hf T) as [H0 Hk]. specialize (Ha T).
  unfold serial in *. simpl. split; [lia|]. intros k Hin%Hk. lia.
Qed.

(** [safe m]: [m] keeps the invariant, whether or not it raises. *)
Definition safe {A} (m : eff store A) : Prop :=
  ∀ s, wf_store s → wf_store (m s).2 ∧ advances s (m s).2.

(** [leads m Q s]: from [s], [m] only moves the serials on, and [Q] holds if it returns. *)
Definition leads {A} (m : eff store A) (Q : A → store → Prop) (s : store) : Prop :=
  advances s (m s).2 ∧ ∀ a s', m s = (Ret a, s') → Q a s'.

Section rules.
Context `{Clock}.

Lemma leads_ret {A} (a : A) Q s : Q a s → leads (mret a) Q s.
Proof. intros HQ. split; [done|]. by intros ? ? [= -> ->]. Qed.
Lemma leads_raise {A} e (Q : A → store → Prop) s : leads (raise e) Q s.
Proof. by split. Qed.
Lemma leads_bind {A B} (m : eff store A) (f : A → eff store B) Q s :
  leads m (λ a, leads (f a) Q) s → leads (m ≫= f) Q s.
Proof.
  intros [Ha Hm]. unfold leads. rewrite run_bind. destruct (m s) as [[a|e] s1]; simpl in *; [|done].
  destruct (Hm a s1 eq_refl) as [Ha' Hq]. split; [by etrans|done].
Qed.
Lemma leads_lift {A} (o : outcome A) Q s : (∀ a, o = Ret a → Q a s) → leads (lift_outcome o) Q s.
Proof. intros HQ. split; [done|]. intros a s' [= -> ->]. by apply HQ. Qed.
Lemma leads_select {A} (f : tables → A) Q s : Q (f (tbl s)) s → leads (select f) Q s.
Proof. intros HQ. split; [done|]. by intros ? ? [= <- <-]. Qed.
Lemma leads_write f Q s :
  Q tt (Store (f (tbl s)) (serials s) (ticks s)) → leads (write f) Q s.
Proof. intros HQ. split; [by intros T|]. by intros ? ? [= <- <-]. Qed.
Lemma leads_utcnow Q s :
  Q (clock_at (ticks s)) (Store (tbl s) (serials s) (S (ticks s))) → leads utcnow Q s.
Proof. intros HQ. split; [by intros T|]. by intros ? ? [= <- <-]. Qed.
Lemma leads_require ok e Q s : (ok (tbl s) = true → Q tt s) → leads (require ok e) Q s.
Proof.
  intros HQ. unfold leads. rewrite run_require. destruct (ok (tbl s)); simpl; split; [done| |done|done].
  intros [] ? [= <-]. auto.
Qed.

Definition unused (T : string) (id : Z) (s : store) : Prop :=
  (0 < id ≤ serial T s)%Z ∧ id ∉ keys_of T (tbl s).

Lemma leads_nextval T Q s :
  wf_store s →
  (∀ s' id, wf_store s' → unused T id s' → tbl s' = tbl s → ticks s' = ticks s →
     serials s' = <[T := id]> (serials s) → Q id s') →
  leads (nextval T) Q s.
Proof.
  intros Hwf HQ. pose proof Hwf as [_ Hf]. destruct (Hf T) as [H0 Hk].
  unfold leads. rewrite run_nextval. cbv zeta. simpl. unfold serial in H0, Hk.
  set (n := (default 0 (serials s !! T) + 1)%Z).
  set (s1 := Store (tbl s) (<[T := n]> (serials s)) (ticks s)).
  assert (advances s s1) as Ha.
  { intros T'. unfold serial. simpl. destruct (decide (T = T')) as [<-|].
    - rewrite lookup_insert_eq. simpl. lia.
    - by rewrite lookup_insert_ne. }
  split; [done|]. intros id s' [= <- <-]. apply HQ; try done; [by apply (wf_rollback s)|]. split.
  - unfold serial. simpl. rewrite lookup_insert_eq. simpl. lia.
  - intros Hin%Hk. lia.
Qed.

(** A block of statements that raises is taken back. *)
Lemma safe_transaction {A} (m : eff store A) :
  (∀ s, wf_store s → leads m (λ _, wf_store) s) → safe (transaction m).
Proof.
  intros Hm s Hs. destruct (Hm s Hs) as [Ha Hq]. unfold transaction.
  destruct (m s) as [[a|e] s'] eqn:E; simpl in *.
  - split; [by eapply Hq|done].
  - split; [by apply wf_rollback|]. done.
Qed.

Lemma safe_bind {A B} (m : eff store A) (f : A → eff store B) :
  safe m → (∀ a, safe (f a)) → safe (m ≫= f).
Proof.
  intros Hm Hf s Hs. rewrite run_bind. destruct (Hm s Hs) as [Hw Ha].
  destruct (m s) as [[a|e] s']; simpl in *; [|done].
  destruct (Hf a s' Hw) as [Hw' Ha']. split; [done|]. by etrans.
Qed.
Lemma safe_ret {A} (a : A) : safe (mret a).
Proof. by intros s Hs. Qed.
Lemma safe_raise {A} e : safe (raise (A:=A) e).
Proof. by intros s Hs. Qed.
Lemma safe_lift {A} (o : outcome A) : safe (lift_outcome o).
Proof. by intros s Hs. Qed.
Lemma safe_select {A} (f : tables → A) : safe (select f).
Proof. by intros s Hs. Qed.
Lemma safe_utcnow : safe utcnow.
Proof. intros s Hs. split; [by apply (wf_rollback s)|by intros T]. Qed.
Lemma safe_write f :
  (∀ t, wf_tables t → wf_tables (f t) ∧ ∀ T, keys_of T (f t) ⊆ keys_of T t) → safe (write f).
Proof.
  intros Hf s [Ht Hs]. destruct (Hf _ Ht) as [Ht' Hk]. split; [|by intros T]. split; [done|].
  intros T. destruct (Hs T) as [H0 Hin]. split; [done|]. intros k Hk'. apply Hin.
  by apply (Hk T).
Qed.
Lemma safe_for_each {A} (l : list A) (body : A → eff store unit) :
  (∀ x, safe (body x)) → safe (for_each l body).
Proof. intros Hb. induction l as [|x l IH]; simpl; [apply safe_ret|]. by apply safe_bind. Qed.
Lemma safe_leads {A} (m : eff store A) s :
  safe m → wf_store s → leads m (λ _, wf_store) s.
Proof.
  intros Hm Hs. destruct (Hm s Hs) as [Hw Ha]. split; [done|]. intros a s' E. by rewrite E in Hw.
Qed.
Lemma leads_mono {A} (m : eff store A) (Q Q' : A → store → Prop) s :
  leads m Q s → (∀ a s', Q a s' → Q' a s') → leads m Q' s.
Proof. intros [Ha Hm] HQ. split; [done|]. intros a s' E. by apply HQ, Hm. Qed.
Lemma leads_transaction {A} (m : eff store A) Q s : leads m Q s → leads (transaction m) Q s.
Proof.
  intros [Ha Hm]. unfold leads, transaction. destruct (m s) as [[a|e] s']; simpl in *; split; auto.
  by intros.
Qed.
End rules.

(** [reads_only m]: [m] does not write.  [atomic m]: when [m] raises, the tables are as
    before. *)
Definition reads_only {A} (m : eff store A) : Prop := ∀ s, tbl (m s).2 = tbl s.
Definition atomic {A} (m : eff store A) : Prop := ∀ s e s', m s = (Exc e, s') → tbl s' = tbl s.

Section atomic.
Context `{Clock}.

Lemma atomic_transaction {A} (m : eff store A) : atomic (transaction m).
Proof. intros s e s'. unfold transaction. destruct (m s) as [[a|e'] s1]; [done|]. by intros [= _ <-]. Qed.
Lemma atomic_reads_only {A} (m : eff store A) : reads_only m → atomic m.
Proof. intros Hm s e s' E. specialize (Hm s). by rewrite E in Hm. Qed.
Lemma atomic_bind {A B} (m : eff store A) (f : A → eff store B) :
  reads_only m → (∀ a, atomic (f a)) → atomic (m ≫= f).
Proof.
  intros Hm Hf s e s'. rewrite run_bind. specialize (Hm s). destruct (m s) as [[a|e'] s1]; simpl in Hm.
  - intros He%Hf. congruence.
  - by intros [= _ <-].
Qed.
Lemma atomic_write f : atomic (write f).
Proof. done. Qed.
Lemma reads_only_bind {A B} (m : eff store A) (f : A → eff store B) :
  reads_only m → (∀ a, reads_only (f a)) → reads_only (m ≫= f).
Proof.
  intros Hm Hf s. rewrite run_bind. specialize (Hm s). destruct (m s) as [[a|e] s1]; [|done].
  simpl in *. by rewrite Hf.
Qed.
Lemma reads_only_ret {A} (a : A) : reads_only (mret a).
Proof. done. Qed.
Lemma reads_only_raise {A} e : reads_only (raise (A:=A) e).
Proof. done. Qed.
Lemma reads_only_lift {A} (o : outcome A) : reads_only (lift_outcome o).
Proof. done. Qed.
Lemma reads_only_select {A} (f : tables → A) : reads_only (select f).
Proof. done. Qed.
Lemma reads_only_utcnow : reads_only utcnow.
Proof. done. Qed.

(** What returns only well-formed stores and is atomic keeps the invariant. *)
Lemma safe_atomic {A} (m : eff store A) :
  atomic m → (∀ s, wf_store s → leads m (λ _, wf_store) s) → safe m.
Proof.
  intros Hat Hm s Hs. destruct (Hm s Hs) as [Ha Hq]. split; [|done].
  destruct (m s) as [[a|e] s'] eqn:E; [by eapply Hq|]. simpl in *.
  pose proof (wf_rollback s s' Hs Ha) as Hw. rewrite <- (Hat s e s' E) in Hw. by destruct s'.
Qed.
End atomic.

Create HintDb safe.
#[export] Hint Resolve safe_ret safe_raise safe_lift safe_select safe_utcnow : safe.
Create HintDb atomic.
#[export] Hint Resolve reads_only_ret reads_only_raise reads_only_lift reads_only_select
  reads_only_utcnow atomic_transaction atomic_reads_only atomic_write : atomic.

Ltac atomic_step :=
  match goal with
  | |- reads_only (mbind _ _) => apply reads_only_bind; [|intros]
  | |- reads_only (match ?x with _ => _ end) => destruct x eqn:?
  | |- atomic (match ?x with _ => _ end) => destruct x eqn:?
  | |- atomic _ => solve [eauto with atomic]
  | |- reads_only _ => solve [eauto with atomic]
  | |- atomic (mbind _ _) => apply atomic_bind; [|intros]
  end.
Ltac atomic_solve := repeat atomic_step.

Ltac safe_step :=
  match goal with
  | |- safe (mbind _ _) => apply safe_bind; [|intros]
  | |- safe (for_each _ _) => apply safe_for_each; intros
  | |- safe (match ?x with _ => _ end) => destruct x eqn:?
  | |- safe (let _ := _ in _) => cbv zeta
  | |- safe _ => solve [eauto with safe]
  end.
Ltac safe_solve := repeat safe_step.

(** Go through the statements of a block. *)
Ltac leads_step :=
  match goal with
  | |- leads (mbind _ _) _ _ => apply leads_bind
  | |- leads (mret _) _ _ => apply leads_ret
  | |- leads (raise _) _ _ => apply leads_raise
  | |- leads (lift_outcome _) _ _ => apply leads_lift; intros
  | |- leads (select _) _ _ => apply leads_select
  | |- leads (write _) _ _ => apply leads_write
  | |- leads utcnow _ _ => apply leads_utcnow
  | |- leads (transaction _) _ _ => apply leads_transaction
  | |- leads (require _ _) _ _ => apply leads_require; intros
  | |- leads (match ?x with _ => _ end) _ _ => destruct x eqn:?
  | |- leads (let _ := _ in _) _ _ => cbv zeta
  end.

(** ** Checks of the database *)

Lemma no_other_unique `{Countable K} {R A} `{EqDecision A} (f : R → A) k r (t : gmap K R) :
  no_other f None (f r) t = true → unique_on f t → unique_on f (<[k := r]> t).
Proof.
  unfold no_other. intros Hn%negb_true_iff Hu. rewrite exists_where_false in Hn.
  intros k1 k2 r1 r2 [[<- <-]|[? H1]]%lookup_insert_Some [[<- <-]|[? H2]]%lookup_insert_Some Heq;
    [done| | |by eapply Hu].
  - destruct (Hn _ _ H2); split; [done|]. by simpl.
  - destruct (Hn _ _ H1); split; [done|]. by simpl.
Qed.

Lemma exists_key_spec {R} k (t : gmap Z R) : exists_key k t = true ↔ is_Some (t !! k).
Proof. unfold exists_key. destruct (t !! k); split; [eauto|done|done|by intros []]. Qed.

(** A change of the rows that leaves a unique column alone. *)
Lemma unique_on_same `{Countable K} {R A} (f : R → A) (t t' : gmap K R) :
  (∀ k, f <$> t' !! k = f <$> t !! k) → unique_on f t → unique_on f t'.
Proof.
  intros Hs Hu k k' r r' H1 H2 Hf. pose proof (Hs k) as E1. pose proof (Hs k') as E2.
  rewrite H1 in E1. rewrite H2 in E2.
  destruct (t !! k) as [r0|] eqn:E3; [|done]. destruct (t !! k') as [r0'|] eqn:E4; [|done].
  eapply Hu; [done..|]. simpl in *. congruence.
Qed.

Lemma refers_mono {K R R'} `{Countable K} (f : R → option Z) (t : gmap K R) (t1 t2 : gmap Z R') :
  refers f t t1 → (∀ i, is_Some (t1 !! i) → is_Some (t2 !! i)) → refers f t t2.
Proof. intros Hr Hi k r i Hk Hf. eapply Hi, Hr; eauto. Qed.

Lemma refers_insert {K R R'} `{Countable K} (f : R → option Z) k r (t : gmap K R) (t' : gmap Z R') :
  refers f t t' → (∀ i, f r = Some i → is_Some (t' !! i)) → refers f (<[k := r]> t) t'.
Proof. intros Hr Hi k' r' i [[<- <-]|[? Hk]]%lookup_insert_Some Hf; eauto. Qed.

Lemma is_Some_insert {R} (k i : Z) (r : R) (t : gmap Z R) :
  is_Some (t !! i) → is_Some (<[k := r]> t !! i).
Proof. intros Hi. destruct (decide (k = i)) as [<-|]; [rewrite lookup_insert_eq|rewrite lookup_insert_ne]; eauto. Qed.

Lemma is_Some_alter {R} (f : R → R) (k i : Z) (t : gmap Z R) :
  is_Some (t !! i) → is_Some (alter f k t !! i).
Proof.
  intros Hi. destruct (decide (k = i)) as [<-|]; [rewrite lookup_alter_eq|by rewrite lookup_alter_ne].
  by rewrite fmap_is_Some.
Qed.

Lemma is_Some_update_where {R} P `{∀ x, Decision (P x)} (f : R → R) (i : Z) (t : gmap Z R) :
  is_Some (t !! i) → is_Some (update_where P f t !! i).
Proof. intros Hi. rewrite lookup_update_where. by rewrite fmap_is_Some. Qed.

#[export] Hint Resolve is_Some_insert is_Some_alter is_Some_update_where : safe.

(** Inserting a row under a new number. *)
Lemma keys_of_insert T id s f :
  unused T id s → fresh_serials s → (∀ T', keys_of T' (f (tbl s)) ⊆ (if decide (T' = T) then {[id]} else ∅) ∪ keys_of T' (tbl s)) →
  fresh_serials (Store (f (tbl s)) (serials s) (ticks s)).
Proof.
  intros [Hid _] Hs Hk T'. destruct (Hs T') as [H0 Hin]. split; [done|]. intros k Hk'.
  apply Hk, elem_of_union in Hk' as [Hk'|Hk']; [|by apply Hin].
  case_decide; [subst|set_solver]. apply elem_of_singleton in Hk' as ->. done.
Qed.
