(* ===== verification/LegacySequences.v ===== *)
(** * Editing the legacy sequences

    Every operation of [LegacyStore] keeps the store well-formed; replacing, duplicating
    and deleting sequences do what they say; the handlers of [web/app.py] for sequences;
    the sequences and the credential of a fresh installation. *)

From stdpp Require Import base gmap list strings pretty sorting.
From Stdlib Require Import ZArith Lia Ascii.
From S2P Require Import Prelude Json Text JsonParse Dense LegacyStore.

(** ** Handlers of [web/app.py]

    Bodies are validated by pydantic before a handler runs: a step has a text, a dict
    and a flag. *)

Record step_in : Type := StepIn { si_step_type : string; si_params : list (string * json); si_enabled : bool }.

Definition model_dump (s : step_in) : json :=
  JObj [("step_type", JStr (si_step_type s)); ("params", JObj (si_params s));
        ("enabled", JBool (si_enabled s))].

Definition http_exception (status : Z) (detail : string) : exc :=
  CustomError ("HTTPException " +:+ pretty status) detail.

(** [except psycopg.IntegrityError as e: if _is_unique_violation(e): raise HTTPException(409, ...)] *)
Definition conflict_on_unique {A} (detail : string) (m : eff store A) : eff store A := λ s,
  match m s with
  | (Exc (IntegrityError _), s') => (Exc (http_exception 409 detail), s')
  | r => r
  end.

Section handlers.
Context `{Clock}.

Definition api_sequences_create (name description : string) (is_default produces_autopilot_hash : bool)
    (target_os hash_capture_phase : string) (steps : list step_in) : eff store Z :=
  sid ← conflict_on_unique ("sequence name already exists: " +:+ name)
          (create_sequence name description is_default produces_autopilot_hash target_os
            hash_capture_phase None);
  set_sequence_steps sid (model_dump <$> steps) ;;
  mret sid.

Definition api_sequences_update (seq_id : Z) (u : sequence_update) (steps : option (list step_in)) :
    eff store unit :=
  existing ← get_sequence seq_id;
  match existing with
  | None => raise (http_exception 404 "sequence not found")
  | Some _ =>
      conflict_on_unique ("sequence name already exists: " +:+ default "None" (up_name u))
        (update_sequence seq_id u) ;;
      match steps with Some l => set_sequence_steps seq_id (model_dump <$> l) | None => mret tt end
  end.

Definition api_sequences_duplicate (seq_id : Z) (new_name : string) : eff store Z :=
  existing ← get_sequence seq_id;
  match existing with
  | None => raise (http_exception 404 "sequence not found")
  | Some _ => conflict_on_unique ("sequence name already exists: " +:+ new_name)
                (duplicate_sequence seq_id new_name)
  end.

(** [except SequenceInUse as e: raise HTTPException(409, ...)] *)
Definition api_sequences_delete (seq_id : Z) : eff store unit := λ s,
  match delete_sequence seq_id s with
  | (Exc (CustomError cls detail), s') =>
      if decide (cls = "SequenceInUse") then (Exc (http_exception 409 detail), s')
      else (Exc (CustomError cls detail), s')
  | r => r
  end.
End handlers.

(** ** A loop that counts *)

Lemma leads_for_each `{Clock} {A} (l : list A) body (I : nat → store → Prop) s :
  (∀ i x s, l !! i = Some x → I i s → leads (body x) (λ _, I (S i)) s) → I 0 s →
  leads (for_each l body) (λ _, I (length l)) s.
Proof.
  revert I s. induction l as [|x l IH]; intros I s Hb H0; simpl; [by apply leads_ret|].
  apply leads_bind. eapply leads_mono; [by apply (Hb 0)|]. intros [] s' H1.
  apply (IH (λ i, I (S i))); [|done]. intros i y s'' Hi. by apply (Hb (S i)).
Qed.

(** ** Changes of one table *)

Section changes.
Context `{Clock}.

(** The keys of the tables after inserting into one of them. *)
Ltac keys_solve :=
  intros T'; unfold keys_of; cbn [task_sequences task_sequence_steps credentials vm_provisioning
    answer_iso_cache provisioning_runs provisioning_run_steps on_sequences on_steps on_credentials
    on_vms on_isos on_runs on_run_steps];
  repeat (case_decide; subst; simpl); rewrite ?dom_insert_L; set_solver.

Lemma unused_sequence id s : unused "task_sequences" id s → task_sequences (tbl s) !! id = None.
Proof. intros [_ Hn]. by apply not_elem_of_dom. Qed.
Lemma unused_step id s : unused "task_sequence_steps" id s → task_sequence_steps (tbl s) !! id = None.
Proof. intros [_ Hn]. by apply not_elem_of_dom. Qed.

Lemma wf_insert_sequence id r s :
  wf_store s → unused "task_sequences" id s → no_other ts_name None (ts_name r) (task_sequences (tbl s)) = true →
  ts_is_default r = false → ts_hash_capture_phase r ∈ ["winpe"; "oobe"] →
  wf_store (Store (on_sequences <[id := r]> (tbl s)) (serials s) (ticks s)).
Proof.
  intros [[] Hf] Hid Hn Hd Hp. split; [split; simpl; try assumption|].
  - by apply no_other_unique.
  - intros k1 k2 r1 r2 [[<- <-]|[? H1]]%lookup_insert_Some [[<- <-]|[? H2]]%lookup_insert_Some ??;
      [done|congruence|congruence|by eapply wf_default].
  - by apply map_Forall_insert_2.
  - eapply refers_mono; eauto with safe.
  - eapply refers_mono; eauto with safe.
  - eapply refers_mono; eauto with safe.
  - eapply keys_of_insert; [done..|]. keys_solve.
Qed.

(** Changing rows of the sequences table. *)
Lemma wf_change_sequences f s :
  wf_store s →
  (∀ k, is_Some (f (task_sequences (tbl s)) !! k) ↔ is_Some (task_sequences (tbl s) !! k)) →
  unique_on ts_name (f (task_sequences (tbl s))) → one_default (f (task_sequences (tbl s))) →
  map_Forall (λ _ r, ts_hash_capture_phase r ∈ ["winpe"; "oobe"]) (f (task_sequences (tbl s))) →
  wf_store (Store (on_sequences f (tbl s)) (serials s) (ticks s)).
Proof.
  intros [[] Hf] Hk Hu Hd Hp. split; [split; simpl; try assumption|].
  - eapply refers_mono; [done|]. intros i. apply Hk.
  - eapply refers_mono; [done|]. intros i. apply Hk.
  - eapply refers_mono; [done|]. intros i. apply Hk.
  - intros T. destruct (Hf T) as [H0 Hin]. split; [done|]. intros k Hk'. apply Hin.
    revert Hk'. unfold keys_of. case_decide; [|done]. simpl. rewrite !elem_of_dom. apply Hk.
Qed.

Lemma lookup_only_default id (t : gmap Z task_sequence) k :
  only_default id t !! k = (λ r, if decide (k ≠ id) then set_default false r else r) <$> t !! k.
Proof. unfold only_default. by rewrite lookup_update_where. Qed.

Lemma one_default_only id t : one_default (only_default id t).
Proof.
  intros k k' r r'. rewrite !lookup_only_default. intros Hk Hk'.
  destruct (t !! k) as [r0|]; [|done]. destruct (t !! k') as [r0'|]; [|done].
  destruct (decide (k ≠ id)), (decide (k' ≠ id)); simplify_eq/=; try done.
  intros _ _. destruct (decide (k = k')); [done|]. exfalso. apply n. intros ->. by apply n0.
Qed.

Lemma wf_touch_sequence now id s :
  wf_store s → wf_store (Store (on_sequences (alter (touch_sequence now) id) (tbl s)) (serials s) (ticks s)).
Proof.
  intros Hwf. pose proof Hwf as [[] _]. apply wf_change_sequences; [done|..].
  - intros k. destruct (decide (id = k)) as [<-|]; [rewrite lookup_alter_eq, fmap_is_Some|rewrite lookup_alter_ne]; done.
  - eapply unique_on_same; [|done]. intros k. destruct (decide (id = k)) as [<-|];
      [rewrite lookup_alter_eq|by rewrite lookup_alter_ne]. by destruct (_ !! _).
  - intros k k' r r'. rewrite !lookup_alter_Some. intros Hk Hk' Hd Hd'.
    destruct Hk as [(<- & r0 & Hk & ->)|[? Hk]], Hk' as [(<- & r0' & Hk' & ->)|[? Hk']]; simpl in *;
      by eapply wf_default.
  - intros k r [(<- & r0 & Hk & ->)|[? Hk]]%lookup_alter_Some; by apply (wf_phases _ _ Hk).
Qed.

Lemma wf_delete_steps seq_id s :
  wf_store s → wf_store (Store (on_steps (delete_steps_of seq_id) (tbl s)) (serials s) (ticks s)).
Proof.
  intros [[] Hf]. split; [split; simpl; try assumption|].
  - by apply dense_remove.
  - intros k r i [Hk _]%map_lookup_filter_Some. by eapply wf_steps_fk.
  - intros T. destruct (Hf T) as [H0 Hin]. split; [done|]. intros k Hk. apply Hin.
    revert Hk. unfold keys_of. repeat case_decide; try done. simpl.
    rewrite !elem_of_dom. intros [r [Hr _]%map_lookup_filter_Some]. eauto.
Qed.

Lemma wf_insert_sequence_step id r s :
  wf_store s → unused "task_sequence_steps" id s →
  is_Some (task_sequences (tbl s) !! tss_sequence_id r) →
  tss_order_index r = Z.of_nat (length (steps_of (tss_sequence_id r) (tbl s))) →
  wf_store (Store (on_steps <[id := r]> (tbl s)) (serials s) (ticks s)).
Proof.
  intros [[] Hf] Hid Hs Ho. split; [split; simpl; try assumption|].
  - apply dense_append; [done|by apply unused_step|done].
  - apply refers_insert; [done|]. by intros i [= <-].
  - eapply keys_of_insert; [done..|]. keys_solve.
Qed.

Lemma wf_insert_credential id r s :
  wf_store s → unused "credentials" id s → no_other cr_name None (cr_name r) (credentials (tbl s)) = true →
  wf_store (Store (on_credentials <[id := r]> (tbl s)) (serials s) (ticks s)).
Proof.
  intros [[] Hf] Hid Hn. split; [split; simpl; try assumption|].
  - by apply no_other_unique.
  - eapply keys_of_insert; [done..|]. keys_solve.
Qed.

Lemma wf_insert_vm vmid r s :
  wf_store s → (∀ i, vp_sequence_id r = Some i → is_Some (task_sequences (tbl s) !! i)) →
  wf_store (Store (on_vms <[vmid := r]> (tbl s)) (serials s) (ticks s)).
Proof. intros [[] Hf] Hr. split; [split; simpl; try assumption|done]. by apply refers_insert. Qed.

Lemma wf_change_isos f s :
  wf_store s → unique_on ai_short_hash (f (answer_iso_cache (tbl s))) →
  wf_store (Store (on_isos f (tbl s)) (serials s) (ticks s)).
Proof. intros [[] Hf] Hu. split; [by split|done]. Qed.
End changes.

(** ** Replacing the steps of a sequence *)

Definition step_columns (st : task_sequence_step) : string * json * bool :=
  (tss_step_type st, tss_params_json st, tss_enabled st).

(** The rows hold what the caller sent. *)
Definition read_as (steps : list json) (rows : list (Z * task_sequence_step)) : Prop :=
  Forall2 (λ x kr, read_step x = Ret (step_columns kr.2)) steps rows.

(** The steps of the other sequences are the same rows. *)
Definition other_steps_same (seq_id : Z) (t t' : tables) : Prop :=
  ∀ k st, tss_sequence_id st ≠ seq_id →
    task_sequence_steps t' !! k = Some st ↔ task_sequence_steps t !! k = Some st.

Section set_steps.
Context `{Clock}.

Lemma insert_step_leads seq_id i x s :
  wf_store s → length (steps_of seq_id (tbl s)) = i →
  leads (insert_step seq_id i x) (λ _ s', wf_store s' ∧ ∃ id st,
    read_step x = Ret (step_columns st) ∧ tss_sequence_id st = seq_id ∧
    task_sequence_steps (tbl s) !! id = None ∧ tbl s' = on_steps <[id := st]> (tbl s) ∧
    steps_of seq_id (tbl s') = steps_of seq_id (tbl s) ++ [(id, st)]) s.
Proof.
  intros Hwf Hi. unfold insert_step. apply leads_bind, leads_lift.
  intros [[step_type params] enabled] Hread. apply leads_bind, leads_nextval; [done|]. intros s1 id Hwf1 Hid Ht _ _.
  repeat leads_step.
  match goal with H : exists_key _ _ = true |- _ => apply exists_key_spec in H as Hseq end.
  set (st := TaskSequenceStep seq_id (Z.of_nat i) step_type params enabled).
  assert (tss_order_index st = Z.of_nat (length (steps_of (tss_sequence_id st) (tbl s1)))) as Ho.
  { simpl. by rewrite Ht, Hi. }
  split; [by apply wf_insert_sequence_step|]. exists id, st. split_and!; [done|done| | |].
  - rewrite <- Ht. by apply unused_step.
  - simpl. by rewrite Ht.
  - rewrite <- Ht. apply (rows_append tss_sequence_id tss_order_index _ _ st).
    + apply Hwf1.
    + by apply unused_step.
    + done.
Qed.

Lemma set_sequence_steps_leads seq_id steps s :
  wf_store s →
  leads (_set_sequence_steps seq_id steps) (λ _ s', wf_store s' ∧
    read_as steps (steps_of seq_id (tbl s')) ∧ other_steps_same seq_id (tbl s) (tbl s') ∧
    ∃ now l, tbl s' = on_sequences (alter (touch_sequence now) seq_id) (on_steps (λ _, l) (tbl s))) s.
Proof.
  intros Hwf. unfold _set_sequence_steps. repeat leads_step.
  set (s0 := Store _ _ _). assert (wf_store s0) as Hwf0 by by apply wf_delete_steps.
  eapply leads_mono.
  { apply (leads_for_each _ _ (λ i s', wf_store s' ∧ read_as (take i steps) (steps_of seq_id (tbl s')) ∧
      other_steps_same seq_id (tbl s) (tbl s') ∧ ∃ l, tbl s' = on_steps (λ _, l) (tbl s))).
    - intros i [j x] s1 Hi (Hw & Hr & Ho & l & Hl).
      rewrite lookup_zip_with_Some in Hi. destruct Hi as (j' & x' & [= <- <-] & Hj & Hx).
      apply lookup_seq in Hj as [-> _]. simpl.
      pose proof (Forall2_length _ _ _ Hr) as Hlen. rewrite length_take in Hlen.
      pose proof (lookup_lt_Some _ _ _ Hx) as Hlt.
      eapply leads_mono; [apply insert_step_leads; [done|lia]|].
      intros [] s2 (Hw2 & id & st & Hrd & Hsid & Hfree & Ht2 & Hrows). split_and!; [done|..].
      + rewrite Hrows. erewrite take_S_r by done. apply Forall2_app; [done|]. by repeat constructor.
      + intros k st' Hne. rewrite <- (Ho k st' Hne), Ht2. simpl. rewrite lookup_insert_Some.
        split; [intros [[-> ->]|[_ ?]]; congruence|]. intros Hk. right. split; [|done]. congruence.
      + exists (<[id := st]> (task_sequence_steps (tbl s1))). by rewrite Ht2, Hl.
    - split_and!; [done| | |].
      + assert (steps_of seq_id (tbl s0) = []) as ->; [|constructor].
        destruct (steps_of seq_id (tbl s0)) as [|[k st] l] eqn:E; [done|exfalso].
        assert ((k, st) ∈ steps_of seq_id (tbl s0)) as Hin by (rewrite E; set_solver).
        apply elem_of_rows in Hin as [[_ Hne]%map_lookup_filter_Some Heq]. done.
      + intros k st Hne. simpl. unfold delete_steps_of. rewrite map_lookup_filter_Some. naive_solver.
      + by eexists. }
  intros [] s1 (Hw & Hr & Ho & l & Hl). rewrite length_zip, length_seq, Nat.min_id, firstn_all in Hr.
  repeat leads_step. split_and!.
  - apply (wf_touch_sequence _ _ (Store (tbl s1) (serials s1) (S (ticks s1)))).
    by apply (wf_rollback s1).
  - done.
  - done.
  - eexists _, l. simpl. by rewrite Hl.
Qed.

Lemma safe_set_sequence_steps seq_id steps : safe (set_sequence_steps seq_id steps).
Proof.
  apply safe_transaction. intros s Hs. eapply leads_mono; [by apply set_sequence_steps_leads|].
  by intros [] s' [? _].
Qed.

(** ** Creating a sequence *)

Lemma wf_insert_default id r s :
  wf_store s → unused "task_sequences" id s →
  no_other ts_name None (ts_name r) (task_sequences (tbl s)) = true →
  ts_hash_capture_phase r ∈ ["winpe"; "oobe"] →
  wf_store (Store (on_sequences (only_default id) (on_sequences <[id := r]> (tbl s))) (serials s) (ticks s)).
Proof.
  intros Hwf Hid Hn Hp. set (r0 := set_default false r).
  assert (wf_store (Store (on_sequences <[id := r0]> (tbl s)) (serials s) (ticks s))) as Hw
    by by apply wf_insert_sequence.
  pose proof Hw as [[] _].
  apply (wf_change_sequences (λ _, only_default id (<[id := r]> (task_sequences (tbl s))))
    (Store (on_sequences <[id := r0]> (tbl s)) (serials s) (ticks s))); [done|..]; simpl in *.
  - intros k. rewrite lookup_only_default, fmap_is_Some, !lookup_insert_is_Some. done.
  - eapply unique_on_same; [|exact wf_names]. intros k. rewrite lookup_only_default.
    destruct (decide (k = id)) as [->|]; [rewrite !lookup_insert_eq; simpl; by case_decide|].
    rewrite !lookup_insert_ne by done. destruct (_ !! _); simpl; by try case_decide.
  - apply one_default_only.
  - intros k r'. rewrite lookup_only_default. intros Hk.
    destruct (<[id:=r]> (task_sequences (tbl s)) !! k) as [r1|] eqn:E; [|done]. simplify_eq/=.
    assert (ts_hash_capture_phase r1 ∈ ["winpe"; "oobe"]) by
      (apply lookup_insert_Some in E as [[<- <-]|[? E]]; [done|]; eapply (wf_phases k); 
       by rewrite lookup_insert_ne). by case_decide.
Qed.

Lemma no_steps_of id s : wf_store s → task_sequences (tbl s) !! id = None → steps_of id (tbl s) = [].
Proof.
  intros [[] _] Hid. destruct (steps_of id (tbl s)) as [|[k st] l] eqn:E; [done|exfalso].
  assert ((k, st) ∈ steps_of id (tbl s)) as Hin by (rewrite E; set_solver).
  apply elem_of_rows in Hin as [Hk <-]. destruct (wf_steps_fk k st _ Hk eq_refl). congruence.
Qed.

(** The other sequences after a creation: none is the default if the new one is. *)
Definition others_after (seq_id : Z) (is_default : bool) (t t' : gmap Z task_sequence) : Prop :=
  ∀ k, k ≠ seq_id → t' !! k = (λ r, if is_default then set_default false r else r) <$> t !! k.

(** Only sequences and their steps were written. *)
Definition sequences_only (t t' : tables) : Prop :=
  ∃ a b, t' = on_sequences (λ _, a) (on_steps (λ _, b) t).

(** The row of a new sequence, up to the times. *)
Definition is_sequence (name description : string) (is_default hash : bool) (os phase : string)
    (r : task_sequence) : Prop :=
  ts_name r = name ∧ ts_description r = description ∧ ts_is_default r = is_default ∧
  ts_produces_autopilot_hash r = hash ∧ ts_target_os r = os ∧ ts_hash_capture_phase r = phase.

Definition created (name description : string) (is_default hash : bool) (os phase : string)
    (steps : list json) (t : tables) (seq_id : Z) (t' : tables) : Prop :=
  task_sequences t !! seq_id = None ∧
  (∃ r, task_sequences t' !! seq_id = Some r ∧ is_sequence name description is_default hash os phase r) ∧
  others_after seq_id is_default (task_sequences t) (task_sequences t') ∧
  read_as steps (steps_of seq_id t') ∧ other_steps_same seq_id t t' ∧ sequences_only t t'.

Lemma create_sequence_leads name description is_default hash os phase steps s :
  wf_store s →
  leads (create_sequence name description is_default hash os phase steps) (λ seq_id s', wf_store s' ∧
    created name description is_default hash os phase (default [] steps) (tbl s) seq_id (tbl s')) s.
Proof.
  intros Hwf. unfold create_sequence. apply leads_bind, leads_lift. intros [] Hp.
  assert (phase ∈ ["winpe"; "oobe"]) as Hphase by (unfold check_phase in Hp; by case_decide).
  apply leads_bind, leads_utcnow, leads_transaction, leads_bind.
  set (now := clock_at (ticks s)). set (s0 := Store _ _ _).
  apply leads_nextval; [by apply (wf_rollback s)|]. intros s1 seq_id Hwf1 Hid Ht _ _. simpl in Ht.
  apply leads_bind, leads_require. intros Hname. apply leads_bind, leads_write.
  set (r := TaskSequence _ _ _ _ _ _ _ _).
  set (s2 := Store _ _ _).
  assert (leads (if is_default then write (on_sequences (only_default seq_id)) else mret tt)
    (λ _ s3, wf_store s3 ∧ created name description is_default hash os phase [] (tbl s) seq_id (tbl s3)) s2)
    as Hs3.
  { assert (wf_store s2 ∨ is_default = true) as Hs2.
    { destruct is_default; [by right|left]. by apply wf_insert_sequence. }
    assert (created name description is_default hash os phase [] (tbl s) seq_id
      (if is_default then on_sequences (only_default seq_id) (tbl s2) else tbl s2)) as Hc.
    { split; [by rewrite <- Ht; apply unused_sequence|]. split_and!.
      - exists r. split; [|done]. destruct is_default; simpl.
        + rewrite lookup_only_default, lookup_insert_eq. simpl. by case_decide.
        + by rewrite lookup_insert_eq.
      - intros k Hk. destruct is_default; simpl.
        + rewrite lookup_only_default, lookup_insert_ne, Ht by done. destruct (_ !! k); [|done].
          simpl. by case_decide.
        + rewrite lookup_insert_ne, Ht by done. by destruct (_ !! k).
      - assert (steps_of seq_id (if is_default then on_sequences (only_default seq_id) (tbl s2) else tbl s2)
          = steps_of seq_id (tbl s1)) as -> by by destruct is_default.
        rewrite no_steps_of; [constructor|done|by apply unused_sequence].
      - intros k st _. destruct is_default; simpl; by rewrite Ht.
      - destruct is_default; simpl; rewrite Ht; by eexists _, (task_sequence_steps (tbl s)). }
    destruct is_default.
    - apply leads_write. split; [|done]. by apply (wf_insert_default seq_id r s1).
    - apply leads_ret. split; [|done]. by destruct Hs2. }
  apply leads_bind. eapply leads_mono; [exact Hs3|]. intros [] s3 [Hwf3 Hc]. apply leads_bind.
  destruct steps as [l|].
  - eapply leads_mono; [by apply set_sequence_steps_leads|].
    intros [] s4 (Hwf4 & Hr & Ho & now' & l' & Hl). apply leads_ret. split; [done|].
    destruct Hc as (Hc1 & (r' & Hc2 & Hc2') & Hc3 & _ & Hc5 & Hc6). split; [done|]. split_and!.
    + exists (touch_sequence now' r'). rewrite Hl. simpl. by rewrite lookup_alter_eq, Hc2.
    + intros k Hk. rewrite Hl. simpl. rewrite lookup_alter_ne by done. by apply Hc3.
    + done.
    + intros k st Hne. rewrite (Ho k st Hne). by apply Hc5.
    + destruct Hc6 as (a & b & E). rewrite Hl, E. by eexists _, _.
  - apply leads_ret, leads_ret. done.
Qed.

Lemma atomic_create_sequence name description is_default hash os phase steps :
  atomic (create_sequence name description is_default hash os phase steps).
Proof. unfold create_sequence. atomic_solve. Qed.

Lemma safe_create_sequence name description is_default hash os phase steps :
  safe (create_sequence name description is_default hash os phase steps).
Proof.
  apply safe_atomic; [apply atomic_create_sequence|]. intros s Hs.
  eapply leads_mono; [by apply create_sequence_leads|]. by intros seq_id s' [? _].
Qed.

(** ** The other operations *)

Lemma no_other_update `{Countable K} {R A} `{EqDecision A} (f : R → A) (g : R → R) k (t : gmap K R) (a : A) :
  (∀ r, f (g r) = f r ∨ f (g r) = a) →
  (no_other f (Some k) a t = true ∨ t !! k = None ∨ ∀ r, f (g r) = f r) →
  unique_on f t → unique_on f (alter g k t).
Proof.
  intros Hg Hor Hu.
  destruct (t !! k) as [r|] eqn:Ek; [|by rewrite alter_id by (by intros ? ?; congruence)].
  assert (unique_on f (<[k := g r]> t)) as Hi.
  { destruct (Hg r) as [Hr|Hr].
    - eapply unique_on_same; [|done]. intros k'. destruct (decide (k = k')) as [<-|].
      + rewrite lookup_insert_eq, Ek. simpl. by rewrite Hr.
      + by rewrite lookup_insert_ne.
    - destruct Hor as [Hn|[?|Hs]]; [|done|].
      + unfold no_other in Hn. rewrite negb_true_iff, exists_where_false in Hn.
        intros k1 k2 r1 r2 [[<- <-]|[? Hk1]]%lookup_insert_Some [[<- <-]|[? Hk2]]%lookup_insert_Some Heq;
          [done| | |by eapply Hu].
        * destruct (Hn _ _ Hk2). simpl. split; congruence.
        * destruct (Hn _ _ Hk1). simpl. split; congruence.
      + eapply unique_on_same; [|done]. intros k'. destruct (decide (k = k')) as [<-|].
        * rewrite lookup_insert_eq, Ek. simpl. by rewrite Hs.
        * by rewrite lookup_insert_ne. }
  replace (alter g k t) with (<[k := g r]> t); [done|].
  apply map_eq. intros k'. destruct (decide (k = k')) as [<-|].
  - by rewrite lookup_insert_eq, lookup_alter_eq, Ek.
  - by rewrite lookup_insert_ne, lookup_alter_ne.
Qed.

(** The row of a sequence after an update. *)
Definition updated (u : sequence_update) (seq_id now : Z) (t : gmap Z task_sequence) :
    gmap Z task_sequence :=
  if default false (up_is_default u) then only_default seq_id (alter (apply_update u now) seq_id t)
  else alter (apply_update u now) seq_id t.

Lemma updated_wf u seq_id now s :
  wf_store s → default true ((λ p, bool_decide (p ∈ ["winpe"; "oobe"])) <$> up_hash_capture_phase u) = true →
  match up_name u with
  | Some n => negb (exists_key seq_id (task_sequences (tbl s))) ||
              no_other ts_name (Some seq_id) n (task_sequences (tbl s))
  | None => true
  end = true →
  wf_store (Store (on_sequences (updated u seq_id now) (tbl s)) (serials s) (ticks s)).
Proof.
  intros Hwf Hp Hn. pose proof Hwf as [[] _]. set (t := task_sequences (tbl s)) in *.
  assert (unique_on ts_name (alter (apply_update u now) seq_id t)) as Hu.
  { apply (no_other_update _ _ _ _ (default EmptyString (up_name u))); [| |done].
    - intros r. simpl. destruct (up_name u); [by right|by left].
    - simpl. destruct (up_name u) as [n|]; simpl; [|by (right; right)].
      apply orb_true_iff in Hn as [Hk|Hn]; [|by left].
      right; left. unfold exists_key in Hk. by destruct (t !! seq_id). }
  assert (∀ k, is_Some (updated u seq_id now t !! k) ↔ is_Some (t !! k)) as Hdom.
  { intros k. assert (is_Some (alter (apply_update u now) seq_id t !! k) ↔ is_Some (t !! k)) as Ha.
    { destruct (decide (seq_id = k)) as [<-|]; [|by rewrite lookup_alter_ne].
      by rewrite lookup_alter_eq, fmap_is_Some. }
    unfold updated. destruct (default false (up_is_default u)); [|done].
    by rewrite lookup_only_default, fmap_is_Some. }
  assert (map_Forall (λ _ r, ts_hash_capture_phase r ∈ ["winpe"; "oobe"])
    (alter (apply_update u now) seq_id t)) as Hph.
  { intros k r [(<- & r0 & Hk & ->)|[? Hk]]%lookup_alter_Some; [|by apply (wf_phases k)]. simpl.
    destruct (up_hash_capture_phase u); simpl in *; [by apply bool_decide_eq_true in Hp|].
    by apply (wf_phases seq_id). }
  apply wf_change_sequences; [done|done|..]; unfold updated; fold t.
  - destruct (default false (up_is_default u)); [|done]. eapply unique_on_same; [|exact Hu].
    intros k. rewrite lookup_only_default. destruct (_ !! k); [|done]. simpl. by case_decide.
  - destruct (default false (up_is_default u)) eqn:Ed; [apply one_default_only|].
    intros k k' r r'. rewrite !lookup_alter_Some. intros Hk Hk' Hd Hd'.
    assert (∀ r0, ts_is_default (apply_update u now r0) = true → ts_is_default r0 = true) as Hback.
    { intros r0. simpl. by destruct (up_is_default u) as [[]|]. }
    destruct Hk as [(<- & r0 & Hk & ->)|[? Hk]], Hk' as [(<- & r0' & Hk' & ->)|[? Hk']];
      eauto 10 using Hback.
  - destruct (default false (up_is_default u)); [|done]. intros k r.
    rewrite lookup_only_default. destruct (_ !! k) as [r0|] eqn:E; [|done]. intros [= <-].
    specialize (Hph k r0 E). simpl in Hph. by case_decide.
Qed.

Lemma safe_update_sequence seq_id u : safe (update_sequence seq_id u).
Proof.
  intros s Hs. unfold update_sequence. rewrite run_bind, run_lift.
  destruct (match up_hash_capture_phase u with Some p => check_phase p | None => Ret tt end) as [[]|e]
    eqn:Hp; [|done].
  case_decide; [by apply safe_ret|].
  revert s Hs. apply safe_bind; [apply safe_utcnow|]. intros now. apply safe_transaction. intros s Hs.
  apply leads_bind, leads_require. intros Hn. apply leads_bind, leads_write.
  set (s1 := Store _ _ _).
  assert (wf_store (Store (on_sequences (updated u seq_id now) (tbl s)) (serials s) (ticks s))) as Hw.
  { apply updated_wf; [done| |done]. destruct (up_hash_capture_phase u) as [p|]; [simpl|done].
    unfold check_phase in Hp. case_decide; [|done]. by apply bool_decide_eq_true. }
  unfold updated in Hw. destruct (default false (up_is_default u)).
  - apply leads_write. exact Hw.
  - by apply leads_ret.
Qed.

Lemma safe_delete_sequence seq_id : safe (delete_sequence seq_id).
Proof.
  apply safe_transaction. intros s Hs. apply leads_bind, leads_select.
  destruct (select_where _ _) as [|x l]; [|apply leads_raise].
  apply leads_bind, leads_require. intros Hruns. apply leads_write.
  apply negb_true_iff in Hruns. rewrite exists_where_false in Hruns. destruct Hs as [[] Hf].
  assert (∀ k, k ≠ seq_id → is_Some (task_sequences (tbl s) !! k) →
    is_Some (delete seq_id (task_sequences (tbl s)) !! k)) as Hk by (intros; by rewrite lookup_delete_ne).
  split; [split; simpl; try assumption|].
  - intros k k' r r' [_ ?]%lookup_delete_Some [_ ?]%lookup_delete_Some. by eapply wf_names.
  - intros k k' r r' [_ ?]%lookup_delete_Some [_ ?]%lookup_delete_Some. by eapply wf_default.
  - intros k r [_ ?]%lookup_delete_Some. by eapply wf_phases.
  - by apply dense_remove.
  - intros k r i [Hr Hne]%map_lookup_filter_Some [= <-]. apply Hk; [done|]. by eapply wf_steps_fk.
  - intros k r i. rewrite lookup_update_where. destruct (_ !! k) as [r0|] eqn:E; [|done]. simpl.
    intros [= <-]. case_decide; [done|]. intros Hi. apply Hk; [|by eapply wf_vms_fk].
    intros ->. done.
  - intros k r i Hr [= <-]. apply Hk; [|by eapply wf_runs_fk]. intros Heq. by eapply (Hruns k r).
  - intros T. destruct (Hf T) as [H0 Hin]. split; [done|]. intros k Hk'. apply Hin. revert Hk'.
    unfold keys_of. repeat case_decide; try done; simpl; rewrite !elem_of_dom.
    + by intros [r [_ Hr]%lookup_delete_Some].
    + intros [r [Hr _]%map_lookup_filter_Some]. eauto.
Qed.

Lemma safe_get_sequence seq_id : safe (get_sequence seq_id).
Proof. unfold get_sequence. safe_solve. Qed.

Lemma safe_duplicate_sequence seq_id new_name : safe (duplicate_sequence seq_id new_name).
Proof.
  unfold duplicate_sequence. apply safe_bind; [apply safe_get_sequence|]. intros [[r l]|];
    [apply safe_create_sequence|apply safe_raise].
Qed.

Lemma safe_record_vm_provisioning vmid seq_id : safe (record_vm_provisioning vmid seq_id).
Proof.
  apply safe_bind; [apply safe_utcnow|]. intros now. apply safe_transaction. intros s Hs.
  apply leads_bind, leads_require. intros Hk%exists_key_spec. apply leads_write.
  apply wf_insert_vm; [done|]. by intros i [= <-].
Qed.

Lemma safe_insert_answer_iso_cache h sh volid : safe (insert_answer_iso_cache h sh volid).
Proof.
  apply safe_bind; [apply safe_utcnow|]. intros now. apply safe_transaction. intros s Hs.
  apply leads_bind, leads_require. intros Hk. apply leads_bind, leads_require. intros Hn.
  apply leads_write, wf_change_isos; [done|]. apply no_other_unique; [done|]. apply Hs.
Qed.

Lemma safe_touch_answer_iso_cache h : safe (touch_answer_iso_cache h).
Proof.
  apply safe_bind; [apply safe_utcnow|]. intros now. apply safe_atomic; [apply atomic_write|].
  intros s Hs. apply leads_write, wf_change_isos; [done|].
  apply (no_other_update _ _ _ _ EmptyString); [by left|by (right; right)|]. apply Hs.
Qed.

Lemma safe_delete_answer_iso_cache h : safe (delete_answer_iso_cache h).
Proof.
  apply safe_atomic; [apply atomic_write|]. intros s Hs. apply leads_write, wf_change_isos; [done|].
  intros k k' r r' [_ ?]%lookup_delete_Some [_ ?]%lookup_delete_Some. by apply Hs.
Qed.
End set_steps.

Section credentials.
Context `{Clock, Fernet}.

Lemma create_credential_leads name type payload s :
  wf_store s →
  leads (create_credential name type payload) (λ id s', wf_store s' ∧ credentials (tbl s) !! id = None ∧
    ∃ c, tbl s' = on_credentials <[id := c]> (tbl s) ∧ cr_name c = name ∧ cr_type c = type ∧
         cr_encrypted_blob c = encrypt_json payload) s.
Proof.
  intros Hwf. apply leads_bind, leads_utcnow, leads_transaction, leads_bind.
  apply leads_nextval; [by apply (wf_rollback s)|]. intros s1 id Hwf1 Hid Ht _ _. simpl in Ht.
  apply leads_bind, leads_require. intros Hn. apply leads_bind, leads_write, leads_ret.
  split; [by apply wf_insert_credential|]. rewrite <- Ht. split; [|by eexists].
  destruct Hid as [_ Hid]. by apply not_elem_of_dom.
Qed.

Lemma safe_create_credential name type payload : safe (create_credential name type payload).
Proof.
  apply safe_atomic; [unfold create_credential; atomic_solve|]. intros s Hs.
  eapply leads_mono; [by apply create_credential_leads|]. by intros id s' [? _].
Qed.

Lemma safe_update_credential cred_id name payload : safe (update_credential cred_id name payload).
Proof.
  assert (safe (now ← utcnow; transaction (
    require (λ t, match name with
                  | Some n => negb (exists_key cred_id (credentials t)) ||
                              no_other cr_name (Some cred_id) n (credentials t)
                  | None => true
                  end) (unique_violation "credentials_name_key") ;;
    write (on_credentials (alter (λ c, Credential (default (cr_name c) name) (cr_type c)
      (default (cr_encrypted_blob c) (encrypt_json <$> payload)) (cr_created_at c) now) cred_id))))) as Hs.
  { apply safe_bind; [apply safe_utcnow|]. intros now. apply safe_transaction. intros s Hs.
    apply leads_bind, leads_require. intros Hn. apply leads_write. destruct Hs as [[] Hf].
    split; [split; simpl; try assumption|].
    - apply (no_other_update _ _ _ _ (default EmptyString name)); [| |done].
      + intros c. simpl. destruct name; [by right|by left].
      + simpl. destruct name as [n|]; simpl; [|by (right; right)]. apply orb_true_iff in Hn as [Hk|Hn]; [|by left].
        right; left. unfold exists_key in Hk. by destruct (_ !! cred_id).
    - intros T. destruct (Hf T) as [H1 Hin]. split; [done|]. intros k Hk. apply Hin. revert Hk.
      unfold keys_of. repeat case_decide; try done. simpl. by rewrite dom_alter_eq. }
  unfold update_credential. destruct name, payload; try exact Hs. apply safe_ret.
Qed.

Lemma safe_delete_credential cred_id : safe (delete_credential cred_id).
Proof.
  apply safe_transaction. intros s Hs. apply leads_bind, leads_select, leads_bind, leads_lift.
  intros l _. destruct l; [|apply leads_raise]. apply leads_write. destruct Hs as [[] Hf].
  split; [split; simpl; try assumption|].
  - intros k k' r r' [_ ?]%lookup_delete_Some [_ ?]%lookup_delete_Some. by eapply wf_credentials.
  - intros T. destruct (Hf T) as [H1 Hin]. split; [done|]. intros k Hk. apply Hin. revert Hk.
    unfold keys_of. repeat case_decide; try done. simpl. rewrite dom_delete_L. set_solver.
Qed.

Lemma safe_get_credential cred_id : safe (get_credential cred_id).
Proof. unfold get_credential. safe_solve. Qed.
End credentials.

#[export] Hint Resolve safe_create_sequence safe_update_sequence safe_delete_sequence safe_get_sequence
  safe_duplicate_sequence safe_set_sequence_steps safe_record_vm_provisioning
  safe_insert_answer_iso_cache safe_touch_answer_iso_cache safe_delete_answer_iso_cache
  safe_create_credential safe_update_credential safe_delete_credential safe_get_credential : safe.

(** ** Replacing and duplicating, in full *)

Section functional.
Context `{Clock}.

Lemma insert_step_returns seq_id i x s cols :
  wf_store s → length (steps_of seq_id (tbl s)) = i → is_Some (task_sequences (tbl s) !! seq_id) →
  read_step x = Ret cols → ∃ s', insert_step seq_id i x s = (Ret tt, s').
Proof.
  intros Hwf Hi Hseq Hread. unfold insert_step.
  rewrite run_bind, run_lift, Hread. destruct cols as [[ty params] enabled]. rewrite run_bind, run_nextval.
  cbv zeta. rewrite run_bind, run_require. simpl.
  assert (exists_where (λ kr, tss_sequence_id kr.2 = seq_id ∧ tss_order_index kr.2 = Z.of_nat i)
    (task_sequence_steps (tbl s)) = false) as ->.
  { apply exists_where_false. intros k r Hk [Ho Hp]. simpl in *.
    assert (0 ≤ Z.of_nat i < Z.of_nat (length (steps_of seq_id (tbl s))))%Z; [|lia].
    apply (rows_taken tss_sequence_id tss_order_index); [apply Hwf|]. eauto. }
  simpl. rewrite run_bind, run_require. simpl.
  assert (exists_key seq_id (task_sequences (tbl s)) = true) as -> by by apply exists_key_spec.
  eexists. rewrite run_write. done.
Qed.

(** A loop that never raises when its invariant holds. *)
Lemma for_each_returns {A} (l : list A) body (I : nat → store → Prop) s :
  (∀ i x s, l !! i = Some x → I i s → ∃ s', body x s = (Ret tt, s') ∧ I (S i) s') → I 0 s →
  ∃ s', for_each l body s = (Ret tt, s') ∧ I (length l) s'.
Proof.
  revert I s. induction l as [|x l IH]; intros I s Hb H0; simpl; [by eexists|].
  rewrite run_bind. destruct (Hb 0 x s eq_refl H0) as (s' & -> & H1).
  apply (IH (λ i, I (S i))); [|done]. intros i y s'' Hi. by apply (Hb (S i)).
Qed.

Lemma set_steps_returns seq_id steps s :
  wf_store s → is_Some (task_sequences (tbl s) !! seq_id) →
  Forall (λ x, ∃ cols, read_step x = Ret cols) steps →
  ∃ s', _set_sequence_steps seq_id steps s = (Ret tt, s').
Proof.
  intros Hwf Hseq Hread. unfold _set_sequence_steps. rewrite run_bind, run_write.
  set (s0 := Store _ _ _). assert (wf_store s0) as Hwf0 by by apply wf_delete_steps.
  destruct (for_each_returns (zip (seq 0 (length steps)) steps) (λ x, insert_step seq_id x.1 x.2)
    (λ i s', wf_store s' ∧ length (steps_of seq_id (tbl s')) = i ∧
             is_Some (task_sequences (tbl s') !! seq_id)) s0) as (s1 & E & _).
  - intros i [j x] s1 Hi (Hw & Hlen & Hs). rewrite lookup_zip_with_Some in Hi.
    destruct Hi as (j' & x' & [= <- <-] & Hj & Hx). apply lookup_seq in Hj as [-> _]. simpl.
    rewrite Forall_forall in Hread. destruct (Hread x) as [cols Hc]; [by eapply list_elem_of_lookup_2|].
    destruct (insert_step_returns seq_id i x s1 cols Hw Hlen Hs Hc) as [s2 E]. exists s2. split; [done|].
    destruct (insert_step_leads seq_id i x s1 Hw Hlen) as [_ Hl].
    destruct (Hl tt s2 E) as (Hw2 & id & st & _ & _ & _ & Ht & Hrows). split_and!; [done| |].
    + rewrite Hrows, length_app. simpl. lia.
    + by rewrite Ht.
  - split_and!; [done| |done]. destruct (steps_of seq_id (tbl s0)) as [|[k st] l] eqn:E; [done|exfalso].
    assert ((k, st) ∈ steps_of seq_id (tbl s0)) as Hin by (rewrite E; set_solver).
    by apply elem_of_rows in Hin as [[_ Hne]%map_lookup_filter_Some Heq].
  - rewrite run_bind, E. eexists. rewrite run_bind, run_utcnow, run_write. done.
Qed.

Lemma read_model_dump x :
  read_step (model_dump x) = Ret (si_step_type x, JObj (si_params x), si_enabled x).
Proof. unfold read_step, model_dump. simpl. by destruct (si_params x), (si_enabled x). Qed.

(** Replacing the steps of an existing sequence by steps the handler has validated
    succeeds; afterwards the sequence has exactly these steps, in the order given and
    numbered from zero, the steps of the other sequences are the same rows, and only the
    time of the update changed in the row of the sequence. *)
Theorem set_sequence_steps_replaces (seq_id : Z) (steps : list step_in) (s : store) :
  wf_store s → is_Some (task_sequences (tbl s) !! seq_id) →
  ∃ s' now, set_sequence_steps seq_id (model_dump <$> steps) s = (Ret tt, s') ∧
    (λ kr, (tss_order_index kr.2, step_columns kr.2)) <$> steps_of seq_id (tbl s') =
      imap (λ i x, (Z.of_nat i, (si_step_type x, JObj (si_params x), si_enabled x))) steps ∧
    other_steps_same seq_id (tbl s) (tbl s') ∧
    task_sequences (tbl s') = alter (touch_sequence now) seq_id (task_sequences (tbl s)).
Proof.
  intros Hwf Hseq.
  destruct (set_steps_returns seq_id (model_dump <$> steps) s Hwf Hseq) as [s' E].
  { apply Forall_fmap, Forall_true. intros x. exists (si_step_type x, JObj (si_params x), si_enabled x).
    apply read_model_dump. }
  destruct (set_sequence_steps_leads seq_id (model_dump <$> steps) s Hwf) as [_ Hl].
  destruct (Hl tt s' E) as (Hw & Hr & Ho & now & l & Ht).
  exists s', now. split; [by apply run_transaction_ret|]. split_and!; [|done|by rewrite Ht].
  apply list_eq_Forall2, Forall2_fmap_l. apply Forall2_same_length_lookup_2.
  { rewrite length_imap. apply Forall2_length in Hr. by rewrite length_fmap in Hr. }
  intros i kr y Hi Hy. rewrite list_lookup_imap in Hy.
  destruct (steps !! i) as [x|] eqn:Ex; [|done]. injection Hy as <-.
  pose proof (rows_pos tss_sequence_id tss_order_index seq_id _ i kr (wf_steps _ (proj1 Hw)) Hi) as Hp.
  assert ((model_dump <$> steps) !! i = Some (model_dump x)) as Em by by rewrite list_lookup_fmap, Ex.
  pose proof (Forall2_lookup_lr _ _ _ _ _ _ Hr Em Hi) as Hrd.
  change (read_step (model_dump x) = Ret (step_columns kr.2)) in Hrd.
  simpl. rewrite Hp. rewrite read_model_dump in Hrd. f_equal. congruence.
Qed.

Lemma read_step_dict st o :
  tss_params_json st = JObj o → read_step (step_dict st) = Ret (step_columns st).
Proof.
  intros Ho. unfold read_step, step_dict, step_columns. simpl. rewrite Ho. by destruct o.
Qed.

Lemma read_as_dicts (rows rows' : list (Z * task_sequence_step)) :
  Forall (λ kr, ∃ o, tss_params_json kr.2 = JObj o) rows → read_as (step_dict <$> rows.*2) rows' →
  (λ kr, step_columns kr.2) <$> rows' = (λ kr, step_columns kr.2) <$> rows.
Proof.
  intros Hd. revert rows'. induction Hd as [|kr rows [o Ho] _ IH]; intros rows' Hr.
  - by inversion Hr.
  - apply Forall2_cons_inv_l in Hr as (kr' & l & Hx & Hl & ->). csimpl.
    rewrite (read_step_dict _ o Ho) in Hx. rewrite (IH l Hl). f_equal. congruence.
Qed.

Lemma create_sequence_returns name description is_default hash os phase l s :
  wf_store s → phase ∈ ["winpe"; "oobe"] →
  (∀ k r, task_sequences (tbl s) !! k = Some r → ts_name r ≠ name) →
  Forall (λ x, ∃ cols, read_step x = Ret cols) l →
  ∃ seq_id s', create_sequence name description is_default hash os phase (Some l) s = (Ret seq_id, s').
Proof.
  intros Hwf Hp Hname Hread. unfold create_sequence. rewrite run_bind, run_lift.
  assert (check_phase phase = Ret tt) as -> by (unfold check_phase; by rewrite decide_True).
  rewrite run_bind, run_utcnow. set (now := clock_at (ticks s)). set (s0 := Store _ _ _).
  assert (wf_store s0) as Hw0 by by apply (wf_rollback s).
  set (n := (default 0 (serials s !! "task_sequences") + 1)%Z).
  set (s1 := Store (tbl s) (<["task_sequences" := n]> (serials s)) (S (ticks s))).
  assert (nextval "task_sequences" s0 = (Ret n, s1)) as En by done.
  assert (leads (nextval "task_sequences") (λ id s', wf_store s' ∧ unused "task_sequences" id s') s0)
    as [_ Hnv] by (by apply leads_nextval).
  destruct (Hnv n s1 En) as [Hw1 Hid].
  set (r := TaskSequence name description is_default hash os phase now now).
  assert (no_other ts_name None name (task_sequences (tbl s1)) = true) as Hn.
  { unfold no_other. apply negb_true_iff, exists_where_false. intros k r' Hk [_ Heq].
    by apply (Hname k r'). }
  destruct (set_steps_returns n l (Store (if is_default
      then on_sequences (only_default n) (on_sequences <[n := r]> (tbl s1))
      else on_sequences <[n := r]> (tbl s1)) (serials s1) (ticks s1))) as [s' E].
  { destruct is_default; [by apply wf_insert_default|by apply wf_insert_sequence]. }
  { destruct is_default; simpl.
    - rewrite lookup_only_default, lookup_insert_eq. by eexists.
    - rewrite lookup_insert_eq. by eexists. }
  { done. }
  exists n, s'. apply run_transaction_ret. rewrite run_bind, En, run_bind, run_require, Hn.
  rewrite run_bind, run_write, run_bind. destruct is_default; rewrite ?run_write, ?run_ret, run_bind;
    match goal with |- context [_set_sequence_steps n l ?st] =>
      assert (_set_sequence_steps n l st = (Ret tt, s')) as -> by exact E
    end; by rewrite run_ret.
Qed.

(** Duplicating a sequence whose steps have dicts as parameters, under a name that is
    free, returns a new sequence with the same settings and the same steps in the same
    order, which is not the default; the original and every other sequence, with their
    steps, stay as they are. *)
Theorem duplicate_sequence_copies (seq_id : Z) (new_name : string) (s : store) (r : task_sequence) :
  wf_store s → task_sequences (tbl s) !! seq_id = Some r →
  Forall (λ kr, ∃ o, tss_params_json kr.2 = JObj o) (steps_of seq_id (tbl s)) →
  (∀ k r', task_sequences (tbl s) !! k = Some r' → ts_name r' ≠ new_name) →
  ∃ new_id s' r', duplicate_sequence seq_id new_name s = (Ret new_id, s') ∧
    task_sequences (tbl s) !! new_id = None ∧
    task_sequences (tbl s') !! new_id = Some r' ∧
    is_sequence new_name (ts_description r) false (ts_produces_autopilot_hash r) (ts_target_os r)
      (ts_hash_capture_phase r) r' ∧
    (λ kr, step_columns kr.2) <$> steps_of new_id (tbl s') =
      (λ kr, step_columns kr.2) <$> steps_of seq_id (tbl s) ∧
    (∀ k, k ≠ new_id → task_sequences (tbl s') !! k = task_sequences (tbl s) !! k) ∧
    other_steps_same new_id (tbl s) (tbl s').
Proof.
  intros Hwf Hr Hdict Hname.
  set (l := step_dict <$> (steps_of seq_id (tbl s)).*2).
  set (m := create_sequence new_name (ts_description r) false (ts_produces_autopilot_hash r)
    (ts_target_os r) (ts_hash_capture_phase r) (Some l)).
  assert (duplicate_sequence seq_id new_name s = m s) as Hm.
  { unfold duplicate_sequence, get_sequence. rewrite !run_bind, run_select, Hr. done. }
  assert (∃ new_id s', m s = (Ret new_id, s')) as (new_id & s' & E).
  { apply create_sequence_returns; [done|by apply (wf_phases _ (proj1 Hwf) seq_id)|done|].
    apply Forall_fmap, Forall_fmap. eapply Forall_impl; [exact Hdict|]. intros kr [o Hkr].
    eexists. by eapply read_step_dict. }
  destruct (create_sequence_leads new_name (ts_description r) false (ts_produces_autopilot_hash r)
    (ts_target_os r) (ts_hash_capture_phase r) (Some l) s Hwf) as [_ Hl].
  destruct (Hl new_id s' E) as (_ & Hn & (r' & Hr' & His) & Ho & Hread & Hother & _).
  exists new_id, s', r'. rewrite Hm. split_and!; try done.
  - by apply read_as_dicts.
  - intros k Hk. rewrite (Ho k Hk). by destruct (_ !! k).
Qed.
End functional.
