(* ===== verification/LegacySeeds.v ===== *)
(** * What a fresh installation starts with

    [seed_defaults] of [web/sequences_pg.py]: a credential, three Windows sequences and
    four Ubuntu sequences, added at every start of the service where their names are
    missing.  Text is given by its bytes; a dash outside of ASCII is three of them. *)

From stdpp Require Import base gmap list strings pretty sorting.
From Stdlib Require Import ZArith Lia Ascii.
From S2P Require Import Prelude Json Text JsonParse Dense LegacyStore LegacySequences.

Definition newline : string := String (ch 10) EmptyString.

Definition seed_step (step_type : string) (params : list (string * json)) (enabled : bool) : json :=
  JObj [("step_type", JStr step_type); ("params", JObj params); ("enabled", JBool enabled)].

Definition _SEED_LOCAL_ADMIN_PAYLOAD : json :=
  JObj [("username", JStr "Administrator"); ("password", JStr "Nsta1200!!")].

(** A seed: name, description, default, hash, steps (type, parameters, enabled). *)
Record seed : Type := Seed {
  sd_name : string;
  sd_description : string;
  sd_is_default : bool;
  sd_produces_autopilot_hash : bool;
  sd_steps : list (string * list (string * json) * bool)
}.

Definition _SEED_SEQUENCES : list seed :=
  [Seed "Entra Join (default)"
     "Entra-joined via Windows Autopilot. Matches the pre-sequence hardcoded flow."
     true true
     [("set_oem_hardware", [("oem_profile", JStr EmptyString)], true);
      ("local_admin", [("credential_name", JStr "default-local-admin")], false);
      ("autopilot_entra", [], true)];
   Seed "AD Domain Join — Local Admin"
     "Local admin created at OOBE, computer joined to AD during specialize pass."
     false false
     [("set_oem_hardware", [("oem_profile", JStr EmptyString)], true);
      ("local_admin", [("credential_name", JStr "default-local-admin")], false);
      ("join_ad_domain", [("credential_id", JInt 0); ("ou_path", JStr EmptyString)], false);
      ("rename_computer", [("pattern", JStr "{serial}")], false)];
   Seed "Hybrid Autopilot (stub)"
     "NOT IMPLEMENTED in v1 — scaffolded for future work."
     false true
     [("autopilot_hybrid", [], true)]].

Definition ubuntu_linuxesp_steps (admin_id : Z) : list json :=
  [seed_step "install_ubuntu_core"
     [("locale", JStr "en_US.UTF-8");
      ("timezone", JStr "UTC");
      ("keyboard_layout", JStr "us");
      ("storage_layout", JStr "lvm")] true;
   seed_step "create_ubuntu_user"
     [("local_admin_credential_id", JInt admin_id)] true;
   seed_step "install_apt_packages"
     [("packages", JArr [JStr "curl"; JStr "git"; JStr "wget"; JStr "gpg"])] true;
   seed_step "install_intune_portal"
     [] true;
   seed_step "install_edge"
     [] true;
   seed_step "install_mde_linux"
     [("mde_onboarding_credential_id", JInt 0)] true;
   seed_step "remove_apt_packages"
     [("packages", JArr [JStr "libreoffice-common"; JStr "libreoffice*"; JStr "remmina*"; JStr "transmission*"])] true;
   seed_step "install_snap_packages"
     [("snaps", JArr [JObj [("name", JStr "code");
      ("classic", JBool true)]; JObj [("name", JStr "postman")]; JObj [("name", JStr "powershell");
      ("classic", JBool true)]])] true;
   seed_step "install_desktop_environment"
     [("flavor", JStr "ubuntu-desktop")] true].

Definition ubuntu_plain_steps (admin_id : Z) : list json :=
  [seed_step "install_ubuntu_core"
     [] true;
   seed_step "create_ubuntu_user"
     [("local_admin_credential_id", JInt admin_id)] true;
   seed_step "install_desktop_environment"
     [("flavor", JStr "ubuntu-desktop")] true].

Definition ubuntu_intune_edge_steps (admin_id : Z) : list json :=
  [seed_step "install_ubuntu_core"
     [] true;
   seed_step "create_ubuntu_user"
     [("local_admin_credential_id", JInt admin_id)] true;
   seed_step "install_intune_portal"
     [] true;
   seed_step "install_edge"
     [] true;
   seed_step "install_desktop_environment"
     [("flavor", JStr "ubuntu-desktop")] true].

Definition ubuntu_apt_cache_steps (admin_id : Z) : list json :=
  [seed_step "install_ubuntu_core"
     [] true;
   seed_step "create_ubuntu_user"
     [("local_admin_credential_id", JInt admin_id)] true;
   seed_step "run_firstboot_script"
     [("command", JStr (PyStr.join newline
        ["set -e";
         "if ! dpkg -s apt-cacher-ng >/dev/null 2>&1; then";
         "  echo 'apt-cacher-ng apt-cacher-ng/tunnelenable boolean true' | debconf-set-selections";
         "  export DEBIAN_FRONTEND=noninteractive";
         "  apt-get update";
         "  apt-get install -y apt-cacher-ng";
         "fi";
         "# Explicitly allow HTTPS pass-through to any host — safer";
         "# than tunnelenable alone and survives future reconfigures.";
         "# Unquoted — apt-cacher-ng treats the value as a regex; quotes become literal regex characters and break matching.";
         "grep -q '^PassThroughPattern' /etc/apt-cacher-ng/acng.conf || echo 'PassThroughPattern: .*' >> /etc/apt-cacher-ng/acng.conf";
         "systemctl enable --now apt-cacher-ng";
         "systemctl restart apt-cacher-ng"]))] true].

Definition ubuntu_seeds (admin_id : Z) : list (string * string * list json) :=
  [("Ubuntu Intune + MDE (LinuxESP)",
     ("Ubuntu 24.04 with Intune Portal, Edge, and MDE (from adamgell/LinuxESP). Set an " +:+
      "mde_onboarding credential before first use."),
     ubuntu_linuxesp_steps admin_id);
   ("Ubuntu Plain",
     ("Minimal Ubuntu 24.04 — no Intune, no MDE. Good starting point for a custom " +:+
      "sequence."),
     ubuntu_plain_steps admin_id);
   ("Ubuntu Intune + Edge (no MDE)",
     ("Ubuntu 24.04 workstation with Intune Portal and Microsoft Edge, minus the MDE " +:+
      "step. Good for validating the Microsoft stack without an mde_onboarding " +:+
      "credential uploaded."),
     ubuntu_intune_edge_steps admin_id);
   ("Ubuntu apt-cache server",
     ("LAN-local apt-cacher-ng on Ubuntu 24.04. Provision one VM from this sequence, " +:+
      "then point `ubuntu_apt_proxy` in vars.yml at http://<vm-ip>:3142 to accelerate " +:+
      "every future Ubuntu template build."),
     ubuntu_apt_cache_steps admin_id)].

(** [params.pop("credential_name", None)] and the reference to the credential. *)
Definition resolve_credential_name (la_id : Z) (params : list (string * json)) : list (string * json) :=
  let rest := filter (λ kv, kv.1 ≠ "credential_name") params in
  if decide (assoc "credential_name" params = Some (JStr "default-local-admin"))
  then dict_set "credential_id" (JInt la_id) rest else rest.

Definition sequence_names (t : tables) : list string := (λ r, ts_name r.1.2) <$> list_sequences t.

Section seeding.
Context `{Clock, Fernet}.

Definition default_local_admin (t : tables) : option Z :=
  fst <$> head (filter (λ kr, cr_name kr.2 = "default-local-admin") (list_credentials (Some "local_admin") t)).

Definition seed_windows (la_id : Z) (existing : list string) (q : seed) : eff store unit :=
  if decide (sd_name q ∈ existing) then mret tt
  else
    sid ← create_sequence (sd_name q) (sd_description q) (sd_is_default q)
            (sd_produces_autopilot_hash q) "windows" "oobe" None;
    set_sequence_steps sid
      ((λ st, seed_step st.1.1 (resolve_credential_name la_id st.1.2) st.2) <$> sd_steps q).

Definition seed_ubuntu (existing : list string) (q : string * string * list json) : eff store unit :=
  if decide (q.1.1 ∈ existing) then mret tt
  else create_sequence q.1.1 q.1.2 false false "ubuntu" "oobe" (Some q.2) ;; mret tt.

(** The connection of the start-up commits when everything went through. *)
Definition seed_defaults : eff store unit :=
  transaction (
    admin ← select default_local_admin;
    match admin with
    | Some _ => mret tt
    | None => create_credential "default-local-admin" "local_admin" _SEED_LOCAL_ADMIN_PAYLOAD ;; mret tt
    end ;;
    admin ← select default_local_admin;
    match admin with
    | None => raise (CustomError "StopIteration" EmptyString)
    | Some la_id =>
        existing ← select sequence_names;
        for_each _SEED_SEQUENCES (seed_windows la_id existing) ;;
        existing ← select sequence_names;
        for_each (ubuntu_seeds la_id) (seed_ubuntu existing)
    end).
End seeding.

(** ** Seeding twice *)

Lemma elem_of_sequence_names n t :
  n ∈ sequence_names t ↔ ∃ k r, task_sequences t !! k = Some r ∧ ts_name r = n.
Proof.
  unfold sequence_names, list_sequences. rewrite <- list_fmap_compose, list_elem_of_fmap. simpl.
  split.
  - intros ([k r] & -> & Hin). rewrite elem_of_isort, elem_of_map_to_list in Hin. eauto.
  - intros (k & r & Hk & <-). exists (k, r). by rewrite elem_of_isort, elem_of_map_to_list.
Qed.

(** The names only grow, and the credentials stay. *)
Definition grows (t t' : tables) : Prop :=
  (∀ n, n ∈ sequence_names t → n ∈ sequence_names t') ∧ credentials t' = credentials t.

#[export] Instance grows_preorder : PreOrder grows.
Proof.
  split; [by intros t|]. intros t1 t2 t3 [Ha1 Ha2] [Hb1 Hb2].
  split; [by intros n Hn; apply Hb1, Ha1|congruence].
Qed.

Lemma created_grows name description is_default hash os phase steps t seq_id t' :
  created name description is_default hash os phase steps t seq_id t' →
  grows t t' ∧ name ∈ sequence_names t'.
Proof.
  intros (Hn & (r & Hr & Hname & _) & Ho & _ & _ & (a & b & Ht)). split; [split|].
  - intros n. rewrite !elem_of_sequence_names. intros (k & r0 & Hk & <-). exists k.
    rewrite (Ho k) by congruence. rewrite Hk. simpl. eexists. split; [done|]. by destruct is_default.
  - by rewrite Ht.
  - apply elem_of_sequence_names. eauto.
Qed.

Section seeding_twice.
Context `{Clock, Fernet}.

Lemma set_sequence_steps_grows seq_id steps s :
  wf_store s → leads (set_sequence_steps seq_id steps) (λ _ s', wf_store s' ∧ grows (tbl s) (tbl s')) s.
Proof.
  intros Hwf. apply leads_transaction. eapply leads_mono; [by apply set_sequence_steps_leads|].
  intros [] s' (Hw & _ & _ & now & l & Ht). split; [done|]. rewrite Ht. split; [|done].
  intros n. rewrite !elem_of_sequence_names. intros (k & r & Hk & <-). exists k. simpl.
  destruct (decide (seq_id = k)) as [<-|]; [rewrite lookup_alter_eq, Hk|rewrite lookup_alter_ne, Hk by done];
    simpl; eauto.
Qed.

Lemma create_sequence_grows name description is_default hash os phase steps s :
  wf_store s →
  leads (create_sequence name description is_default hash os phase steps) (λ _ s', wf_store s' ∧
    grows (tbl s) (tbl s') ∧ name ∈ sequence_names (tbl s')) s.
Proof.
  intros Hwf. eapply leads_mono; [by apply create_sequence_leads|].
  intros seq_id s' [Hw Hc%created_grows]. by split.
Qed.

(** A loop over seeds that makes sure of the name of each. *)
Lemma seeding_loop {A} (name : A → string) (body : list string → A → eff store unit) l s :
  (∀ existing x s, wf_store s →
     (∀ n, n ∈ existing → n ∈ sequence_names (tbl s)) →
     leads (body existing x) (λ _ s', wf_store s' ∧ grows (tbl s) (tbl s') ∧
       name x ∈ sequence_names (tbl s')) s) →
  wf_store s →
  leads (existing ← select sequence_names; for_each l (body existing)) (λ _ s', wf_store s' ∧
    grows (tbl s) (tbl s') ∧ ∀ x, x ∈ l → name x ∈ sequence_names (tbl s')) s.
Proof.
  intros Hb Hwf. apply leads_bind, leads_select.
  eapply leads_mono.
  { apply (leads_for_each l _ (λ i s', wf_store s' ∧ grows (tbl s) (tbl s') ∧
      ∀ x, x ∈ take i l → name x ∈ sequence_names (tbl s'))).
    - intros i x s1 Hi (Hw1 & Hg1 & Hn1).
      eapply leads_mono; [apply Hb; [done|by apply Hg1]|].
      intros [] s2 (Hw2 & Hg2 & Hn2). split; [done|]. split; [by etrans|].
      intros y. erewrite take_S_r by done. intros [Hy| ->%list_elem_of_singleton]%elem_of_app; [|done].
      by apply Hg2, Hn1.
    - split; [done|]. split; [done|]. intros x Hx. by apply not_elem_of_nil in Hx. }
  intros [] s' (Hw & Hg & Hn). split; [done|]. split; [done|]. by rewrite firstn_all in Hn.
Qed.

Lemma seed_windows_leads la_id existing q s :
  wf_store s → (∀ n, n ∈ existing → n ∈ sequence_names (tbl s)) →
  leads (seed_windows la_id existing q) (λ _ s', wf_store s' ∧ grows (tbl s) (tbl s') ∧
    sd_name q ∈ sequence_names (tbl s')) s.
Proof.
  intros Hwf He. unfold seed_windows. case_decide; [apply leads_ret; split; [done|]; split; [done|by apply He]|].
  apply leads_bind. eapply leads_mono; [by apply create_sequence_grows|].
  intros sid s1 (Hw1 & Hg1 & Hn1). eapply leads_mono; [by apply set_sequence_steps_grows|].
  intros [] s2 [Hw2 Hg2]. split; [done|]. split; [by etrans|]. by apply Hg2.
Qed.

Lemma seed_ubuntu_leads existing q s :
  wf_store s → (∀ n, n ∈ existing → n ∈ sequence_names (tbl s)) →
  leads (seed_ubuntu existing q) (λ _ s', wf_store s' ∧ grows (tbl s) (tbl s') ∧
    q.1.1 ∈ sequence_names (tbl s')) s.
Proof.
  intros Hwf He. unfold seed_ubuntu. case_decide; [apply leads_ret; split; [done|]; split; [done|by apply He]|].
  apply leads_bind. eapply leads_mono; [by apply create_sequence_grows|].
  intros sid s1 (Hw1 & Hg1 & Hn1). by apply leads_ret.
Qed.

Lemma default_local_admin_grows t t' :
  credentials t' = credentials t → default_local_admin t' = default_local_admin t.
Proof. intros Hc. unfold default_local_admin, list_credentials. by rewrite Hc. Qed.

Lemma seed_defaults_leads s :
  wf_store s →
  leads seed_defaults (λ _ s', wf_store s' ∧ ∃ la_id, default_local_admin (tbl s') = Some la_id ∧
    (∀ q, q ∈ _SEED_SEQUENCES → sd_name q ∈ sequence_names (tbl s')) ∧
    (∀ q, q ∈ ubuntu_seeds la_id → q.1.1 ∈ sequence_names (tbl s'))) s.
Proof.
  intros Hwf. apply leads_transaction, leads_bind, leads_select, leads_bind.
  assert (leads (match default_local_admin (tbl s) with
    | Some _ => mret tt
    | None => create_credential "default-local-admin" "local_admin" _SEED_LOCAL_ADMIN_PAYLOAD ;; mret tt
    end) (λ _, wf_store) s) as Hc.
  { destruct (default_local_admin (tbl s)); [by apply leads_ret|]. apply leads_bind.
    eapply leads_mono; [by apply create_credential_leads|]. intros id s1 [Hw _]. by apply leads_ret. }
  eapply leads_mono; [exact Hc|]. intros [] s1 Hw1. apply leads_bind, leads_select.
  destruct (default_local_admin (tbl s1)) as [la_id|] eqn:Ela; [|apply leads_raise].
  change (leads ((existing ← select sequence_names; for_each _SEED_SEQUENCES (seed_windows la_id existing)) ;;
    (existing ← select sequence_names; for_each (ubuntu_seeds la_id) (seed_ubuntu existing)))
    (λ _ s', wf_store s' ∧ ∃ la_id0, default_local_admin (tbl s') = Some la_id0 ∧
    (∀ q, q ∈ _SEED_SEQUENCES → sd_name q ∈ sequence_names (tbl s')) ∧
    (∀ q, q ∈ ubuntu_seeds la_id0 → q.1.1 ∈ sequence_names (tbl s'))) s1).
  apply leads_bind. eapply leads_mono.
  { apply (seeding_loop sd_name (seed_windows la_id)); [|done].
    intros existing q s2 Hw2 He. by apply seed_windows_leads. }
  intros [] s2 (Hw2 & Hg2 & Hn2). eapply leads_mono.
  { apply (seeding_loop (λ q : string * string * list json, q.1.1) seed_ubuntu); [|done].
    intros existing q s3 Hw3 He. by apply seed_ubuntu_leads. }
  intros [] s3 (Hw3 & Hg3 & Hn3). split; [done|]. exists la_id. split_and!; [|by intros q Hq; apply Hg3, Hn2|done].
  rewrite <- Ela. apply default_local_admin_grows. rewrite (proj2 Hg3). apply Hg2.
Qed.

Lemma for_each_skips {A} (l : list A) (body : A → eff store unit) s :
  (∀ x, x ∈ l → body x s = (Ret tt, s)) → for_each l body s = (Ret tt, s).
Proof.
  induction l as [|x l IH]; intros Hl; [done|]. simpl. rewrite run_bind, Hl by set_solver.
  apply IH. set_solver.
Qed.

(** Seeding is idempotent: when the start-up has seeded a well-formed store, seeding
    it again changes nothing at all, neither the tables nor the serial numbers. *)
Theorem seed_defaults_idempotent (s s' : store) :
  wf_store s → seed_defaults s = (Ret tt, s') → seed_defaults s' = (Ret tt, s').
Proof.
  intros Hwf E. destruct (seed_defaults_leads s Hwf) as [_ Hl].
  destruct (Hl tt s' E) as (_ & la_id & Ela & Hw & Hu). apply run_transaction_ret.
  rewrite run_bind, run_select, Ela, run_bind, run_ret, run_bind, run_select, Ela.
  rewrite run_bind, run_select, run_bind, for_each_skips.
  - rewrite run_bind, run_select. apply for_each_skips. intros q Hq. unfold seed_ubuntu.
    by rewrite decide_True by by apply Hu.
  - intros q Hq. unfold seed_windows. by rewrite decide_True by by apply Hw.
Qed.
End seeding_twice.

(** ** A fresh installation *)

Module SeedExample.
#[local] Instance clock : Clock := λ n, Z.of_nat n.
#[local] Instance plain : Fernet := {| fernet_encrypt t := t; fernet_decrypt t := Ret t |}.

Definition fresh : store := (seed_defaults empty_store).2.

Example fresh_installation :
  (seed_defaults empty_store).1 = Ret tt ∧
  (λ r, (r.1.1, ts_is_default r.1.2, r.2)) <$> list_sequences (tbl fresh) =
    [(2, false, 4); (1, true, 3); (3, false, 1); (6, false, 5); (4, false, 9); (5, false, 3); (7, false, 3)]%Z ∧
  get_default_sequence_id (tbl fresh) = Some 1%Z.
Proof. by vm_compute. Qed.

Lemma seed_defaults_idempotent_witness : seed_defaults fresh = (Ret tt, fresh).
Proof.
  apply (seed_defaults_idempotent empty_store); [apply empty_store_wf|].
  vm_compute. reflexivity.
Defined.

Lemma fresh_wf : wf_store fresh.
Proof. apply (seed_defaults_leads empty_store empty_store_wf) with tt. vm_compute. reflexivity. Qed.

Definition has_dict (kr : Z * task_sequence_step) : bool :=
  match tss_params_json kr.2 with JObj _ => true | _ => false end.

Lemma has_dict_spec kr : has_dict kr = true → ∃ o, tss_params_json kr.2 = JObj o.
Proof. unfold has_dict. destruct (tss_params_json kr.2); try discriminate. eauto. Qed.

Lemma fresh_dicts : Forall (λ kr, ∃ o, tss_params_json kr.2 = JObj o) (steps_of 4 (tbl fresh)).
Proof.
  eapply Forall_impl; [|apply has_dict_spec]. eapply bool_decide_unpack. vm_compute. exact I.
Qed.

Lemma fresh_names : map_Forall (λ _ r, ts_name r ≠ "Copy") (task_sequences (tbl fresh)).
Proof. eapply bool_decide_unpack. vm_compute. exact I. Qed.

Lemma fresh_sequence : is_Some (task_sequences (tbl fresh) !! 4%Z).
Proof. eapply bool_decide_unpack. vm_compute. exact I. Qed.

Lemma fresh_length : length (steps_of 4 (tbl fresh)) = 9.
Proof. vm_compute. reflexivity. Qed.

Lemma duplicate_sequence_copies_witness :
  ∃ new_id s', duplicate_sequence 4 "Copy" fresh = (Ret new_id, s') ∧
    length (steps_of new_id (tbl s')) = 9.
Proof.
  destruct fresh_sequence as [r Er].
  destruct (duplicate_sequence_copies 4 "Copy" fresh r fresh_wf Er fresh_dicts fresh_names)
    as (new_id & s' & r' & E & _ & _ & _ & Hs & _).
  exists new_id, s'. split; [exact E|]. apply (f_equal length) in Hs. rewrite !length_fmap in Hs.
  rewrite Hs. exact fresh_length.
Defined.

(** An operator who renames the default sequence and makes another one the default loses
    that choice at the next start. *)
Definition renamed : store :=
  ((update_sequence 1 (SequenceUpdate (Some "Entra") None (Some false) None None None) ;;
   update_sequence 2 (SequenceUpdate None None (Some true) None None None)) fresh).2.

Example seeding_takes_the_default :
  get_default_sequence_id (tbl renamed) = Some 2%Z ∧
  get_default_sequence_id (tbl (seed_defaults renamed).2) = Some 8%Z.
Proof. by vm_compute. Qed.

(** A credential of another type with the name of the seeded one keeps the service from
    starting. *)
Example foreign_credential_blocks_start :
  (seed_defaults (create_credential "default-local-admin" "domain_join" (JObj []) empty_store).2).1 =
    Exc (IntegrityError "credentials_name_key").
Proof. by vm_compute. Qed.

(** A credential that the seeded Ubuntu sequences refer to can be deleted: they name it
    under another key than the one that is looked for. *)
Example credential_of_ubuntu_deleted :
  let s := ((set_sequence_steps 1 [] ;; set_sequence_steps 2 []) fresh).2 in
  delete_credential 1 fresh = (Exc (credential_in_use 1 [1; 2]%Z), fresh) ∧
  (delete_credential 1 s).1 = Ret tt ∧
  (λ kr, tss_params_json kr.2) <$> (steps_of 5 (tbl (delete_credential 1 s).2)) !! 1 =
    Some (JObj [("local_admin_credential_id", JInt 1)]).
Proof. by vm_compute. Qed.
End SeedExample.
