(* ===== verification/LegacyRuns.v ===== *)
(** * Provisioning runs of the legacy sequences

    [web/sequences_pg.py], second half: the run of a machine, the steps its agents
    execute, their order, and the sweep of runs whose agent fell silent. *)

From stdpp Require Import base gmap list strings pretty sorting.
From Stdlib Require Import ZArith Lia Ascii.
From S2P Require Import Prelude Json Text JsonParse Dense LegacyStore LegacySequences.

(** ** Runs *)

Section runs.
Context `{Clock}.

Definition create_provisioning_run (sequence_id : Z) (provision_path : string) : eff store Z :=
  (if decide (provision_path ∈ ["clone"; "winpe"]) then mret tt
   else raise (ValueError "invalid provision_path")) ;;
  transaction (
    now ← utcnow;
    id ← nextval "provisioning_runs";
    require (λ t, exists_key sequence_id (task_sequences t))
      (foreign_key_violation "provisioning_runs_sequence_id_fkey") ;;
    write (on_runs (<[id := ProvisioningRun None sequence_id provision_path "queued" None now None None]>)) ;;
    mret id).

Definition get_provisioning_run (run_id : Z) (t : tables) : option provisioning_run :=
  provisioning_runs t !! run_id.

(** A run with the name of its sequence and the number of its steps: all, done, running,
    failed. *)
Definition step_counts (run_id : Z) (t : tables) : Z * Z * Z * Z :=
  let count (P : provisioning_run_step → bool) :=
    Z.of_nat (count_where (λ kr, rs_run_id kr.2 = run_id ∧ P kr.2 = true) (provisioning_run_steps t)) in
  (count (λ _, true), count (λ st, bool_decide (rs_state st = "ok")),
   count (λ st, bool_decide (rs_state st = "running")), count (λ st, bool_decide (rs_state st = "error"))).

Definition list_provisioning_runs (provision_path : option string) (t : tables) :
    list (Z * provisioning_run * string * (Z * Z * Z * Z)) :=
  omap (λ kr, s ← task_sequences t !! pr_sequence_id kr.2;
              Some (kr, ts_name s, step_counts kr.1 t))
    (isort (cmp_then (cmp_desc (cmp_on (λ kr, pr_started_at kr.2) cmp_Z)) (cmp_desc (cmp_on fst cmp_Z)))
      (select_where (λ kr, provision_path = None ∨ provision_path = Some (pr_provision_path kr.2))
        (provisioning_runs t))).

Definition _normalize_uuid (vm_uuid : string) : string := PyStr.lower (PyStr.strip vm_uuid).

Definition set_provisioning_run_identity (run_id vmid : Z) (vm_uuid : string) : eff store unit :=
  write (on_runs (update_where (λ kr, kr.1 = run_id ∧ pr_state kr.2 = "queued")
    (λ r, ProvisioningRun (Some vmid) (pr_sequence_id r) (pr_provision_path r) "awaiting_winpe"
      (Some (_normalize_uuid vm_uuid)) (pr_started_at r) (pr_finished_at r) (pr_last_error r)))).

(** [ORDER BY id DESC LIMIT 1] *)
Definition newest (rows : list (Z * provisioning_run)) : option (Z * provisioning_run) :=
  head (isort (cmp_desc (cmp_on fst cmp_Z)) rows).

Definition find_run_by_uuid_state (vm_uuid state : string) (t : tables) : option (Z * provisioning_run) :=
  newest (select_where (λ kr, pr_vm_uuid kr.2 = Some (_normalize_uuid vm_uuid) ∧ pr_state kr.2 = state)
    (provisioning_runs t)).

Definition get_latest_run_state_by_uuid (vm_uuid : string) (t : tables) : option string :=
  (λ kr, pr_state kr.2) <$>
    newest (select_where (λ kr, pr_vm_uuid kr.2 = Some (_normalize_uuid vm_uuid)) (provisioning_runs t)).

Definition set_run_state (state : string) (last_error : option string) (finished : option Z)
    (r : provisioning_run) : provisioning_run :=
  ProvisioningRun (pr_vmid r) (pr_sequence_id r) (pr_provision_path r) state (pr_vm_uuid r)
    (pr_started_at r) (coalesce finished (pr_finished_at r)) last_error.

Definition update_provisioning_run_state (run_id : Z) (state : string) (last_error : option string) :
    eff store unit :=
  if decide (state ∈ ["done"; "failed"]) then
    now ← utcnow;
    write (on_runs (alter (set_run_state state last_error (Some now)) run_id))
  else write (on_runs (alter (set_run_state state last_error None) run_id)).

(** ** Steps of a run *)

Definition list_run_steps (run_id : Z) (t : tables) : list (Z * provisioning_run_step) :=
  isort (cmp_on (λ kr, rs_order_index kr.2) cmp_Z)
    (select_where (λ kr, rs_run_id kr.2 = run_id) (provisioning_run_steps t)).

Definition get_run_step (step_id : Z) (t : tables) : option provisioning_run_step :=
  provisioning_run_steps t !! step_id.

(** [COALESCE(MAX(order_index) + 1, 0)] *)
Definition next_order (run_id : Z) (t : tables) : Z :=
  match (λ kr, rs_order_index kr.2) <$>
    select_where (λ kr, rs_run_id kr.2 = run_id) (provisioning_run_steps t) with
  | [] => 0
  | o :: os => foldr Z.max o os + 1
  end%Z.

(** No other step of the run has this order. *)
Definition order_free (step_id run_id order_index : Z) (t : tables) : bool :=
  negb (exists_where (λ kr, kr.1 ≠ step_id ∧ rs_run_id kr.2 = run_id ∧ rs_order_index kr.2 = order_index)
    (provisioning_run_steps t)).

Definition order_violation : exc :=
  unique_violation "provisioning_run_steps_run_id_order_index_key".

Definition append_run_step (run_id : Z) (phase kind : string) (params : json) :
    eff store (Z * provisioning_run_step) :=
  transaction (
    nxt ← select (next_order run_id);
    params ← lift_outcome (jsonb params);
    id ← nextval "provisioning_run_steps";
    let row := ProvisioningRunStep run_id nxt phase kind params "pending" None None None in
    require (order_free id run_id nxt) order_violation ;;
    require (λ t, exists_key run_id (provisioning_runs t))
      (foreign_key_violation "provisioning_run_steps_run_id_fkey") ;;
    write (on_run_steps <[id := row]>) ;;
    mret (id, row)).

Definition set_step_state (state : string) (started finished : option Z) (error : option string)
    (st : provisioning_run_step) : provisioning_run_step :=
  ProvisioningRunStep (rs_run_id st) (rs_order_index st) (rs_phase st) (rs_kind st) (rs_params_json st)
    state started finished error.

Definition update_run_step_state (step_id : Z) (state : string) (error : option string) : eff store unit :=
  if decide (state = "running") then
    now ← utcnow;
    write (on_run_steps (alter (λ st,
      set_step_state "running" (coalesce (rs_started_at st) (Some now)) None None st) step_id))
  else if decide (state ∈ ["ok"; "error"]) then
    now ← utcnow;
    write (on_run_steps (alter (λ st,
      set_step_state state (rs_started_at st) (Some now) error st) step_id))
  else raise (ValueError "invalid step state").

(** ** Reordering the steps of a phase *)

(** [{kind: idx for idx, kind in enumerate(ordered_kinds)}] *)
Definition kind_index (ordered_kinds : list string) : gmap string Z :=
  foldl (λ m ik, <[ik.2 := ik.1]> m) ∅ (imap (λ i k, (Z.of_nat i, k)) ordered_kinds).

(** [order.get(kind, len(order))] *)
Definition kind_rank (ordered_kinds : list string) (kind : string) : Z :=
  default (Z.of_nat (size (kind_index ordered_kinds))) (kind_index ordered_kinds !! kind).

Definition phase_rows (run_id : Z) (phase : string) (t : tables) : list (Z * provisioning_run_step) :=
  isort (cmp_on (λ kr, rs_order_index kr.2) cmp_Z)
    (select_where (λ kr, rs_run_id kr.2 = run_id ∧ rs_phase kr.2 = phase) (provisioning_run_steps t)).

(** The order of the sort: by the rank of the kind, then by the old order. *)
Definition kind_order (ordered_kinds : list string) :
    Z * provisioning_run_step → Z * provisioning_run_step → comparison :=
  cmp_then (cmp_on (λ kr, kind_rank ordered_kinds (rs_kind kr.2)) cmp_Z)
           (cmp_on (λ kr, rs_order_index kr.2) cmp_Z).

Definition at_order (order_index : Z) (st : provisioning_run_step) : provisioning_run_step :=
  ProvisioningRunStep (rs_run_id st) order_index (rs_phase st) (rs_kind st) (rs_params_json st)
    (rs_state st) (rs_started_at st) (rs_finished_at st) (rs_error st).

(** [UPDATE provisioning_run_steps SET order_index = %s WHERE id = %s] *)
Definition move_step (run_id : Z) (step_id order_index : Z) : eff store unit :=
  require (order_free step_id run_id order_index) order_violation ;;
  write (on_run_steps (alter (at_order order_index) step_id)).

Definition reorder_run_phase_steps (run_id : Z) (phase : string) (ordered_kinds : list string) :
    eff store unit :=
  transaction (
    rows ← select (phase_rows run_id phase);
    match rows with
    | [] => mret tt
    | r :: rs =>
        let base := foldr Z.min (rs_order_index r.2) ((λ kr, rs_order_index kr.2) <$> rs) in
        let sorted_rows := isort (kind_order ordered_kinds) rows in
        let numbered := imap (λ i kr, (Z.of_nat i, kr.1)) sorted_rows in
        for_each numbered (λ x, move_step run_id x.2 (- (x.1 + 1))) ;;
        for_each numbered (λ x, move_step run_id x.2 (base + x.1))
    end).

(** ** Runs whose agent fell silent *)

Definition swept_states : list string :=
  ["awaiting_winpe"; "awaiting_windows_setup"; "awaiting_osd_client"; "awaiting_specialize"].

(** [MAX(s.started_at)] over the running steps of a run. *)
Definition last_started (run_id : Z) (t : tables) : option Z :=
  foldr (λ kr m, match rs_started_at kr.2, m with
                 | Some a, Some b => Some (Z.max a b)
                 | Some a, None => Some a
                 | None, m => m
                 end) None
    (select_where (λ kr, rs_run_id kr.2 = run_id ∧ rs_state kr.2 = "running") (provisioning_run_steps t)).

Definition stale_runs (cutoff : Z) (t : tables) : list Z :=
  fst <$> select_where (λ kr, pr_state kr.2 ∈ swept_states ∧
    default false ((λ at_, bool_decide (at_ < cutoff)%Z) <$> last_started kr.1 t) = true)
    (provisioning_runs t).

Definition fail_stale_run (ttl_seconds run_id : Z) : eff store unit :=
  now ← utcnow;
  write (on_runs (update_where (λ kr, kr.1 = run_id ∧ pr_state kr.2 ∈ swept_states)
    (set_run_state "failed" (Some ("stale; no step update for >" +:+ pretty (ttl_seconds / 60)%Z +:+ " min"))
       (Some now)))) ;;
  now ← utcnow;
  write (on_run_steps (update_where (λ kr, rs_run_id kr.2 = run_id ∧ rs_state kr.2 = "running")
    (λ st, set_step_state "error" (rs_started_at st) (Some now) (Some "stale: agent silent") st))).

Definition sweep_stale_runs (ttl_seconds : Z) : eff store Z :=
  now ← utcnow;
  transaction (
    stale ← select (stale_runs (now - 1000000 * ttl_seconds));
    for_each stale (fail_stale_run ttl_seconds) ;;
    mret (Z.of_nat (length stale))).
End runs.

(** ** The invariant of the store *)

Section safety.
Context `{Clock}.

(** A change of run rows that keeps the keys, the sequence and the path. *)
Lemma wf_change_runs f s :
  wf_store s →
  (∀ k, (λ r, (pr_sequence_id r, pr_provision_path r)) <$> f (provisioning_runs (tbl s)) !! k =
        (λ r, (pr_sequence_id r, pr_provision_path r)) <$> provisioning_runs (tbl s) !! k) →
  wf_store (Store (on_runs f (tbl s)) (serials s) (ticks s)).
Proof.
  intros [[] Hf] Hk.
  assert (∀ k r, f (provisioning_runs (tbl s)) !! k = Some r → ∃ r0,
    provisioning_runs (tbl s) !! k = Some r0 ∧ pr_sequence_id r0 = pr_sequence_id r ∧
    pr_provision_path r0 = pr_provision_path r) as Hback.
  { intros k r Hr. specialize (Hk k). rewrite Hr in Hk. destruct (_ !! k) as [r0|]; [|done].
    exists r0. simpl in Hk. split; [done|]. split; congruence. }
  split; [split; simpl; try assumption|].
  - intros k r i (r0 & Hr0 & Hs & _)%Hback Hi. eapply (wf_runs_fk k r0 i); [done|]. simpl in *. congruence.
  - intros k r (r0 & Hr0 & _ & <-)%Hback. by apply (wf_runs_path k).
  - eapply refers_mono; [done|]. intros i Hi. specialize (Hk i).
    destruct (f _ !! i); [by eexists|]. destruct Hi as [r Hr]. by rewrite Hr in Hk.
  - intros T. destruct (Hf T) as [H0 Hin]. split; [done|]. intros k Hk'. apply Hin. revert Hk'.
    unfold keys_of. repeat case_decide; try done. simpl. rewrite !elem_of_dom.
    intros [r (r0 & ? & _)%Hback]. by eexists.
Qed.

(** A change of step rows that keeps the keys, the run and the order. *)
Lemma wf_change_run_steps f s :
  wf_store s →
  same_shape rs_run_id rs_order_index (provisioning_run_steps (tbl s)) (f (provisioning_run_steps (tbl s))) →
  map_Forall (λ _ r, rs_state r ∈ run_step_states) (f (provisioning_run_steps (tbl s))) →
  wf_store (Store (on_run_steps f (tbl s)) (serials s) (ticks s)).
Proof.
  intros [[] Hf] Hk Hst.
  assert (∀ k r, f (provisioning_run_steps (tbl s)) !! k = Some r → ∃ r0,
    provisioning_run_steps (tbl s) !! k = Some r0 ∧ rs_run_id r0 = rs_run_id r) as Hback.
  { intros k r Hr. specialize (Hk k). rewrite Hr in Hk. destruct (_ !! k) as [r0|]; [|done].
    exists r0. simpl in Hk. split; [done|]. congruence. }
  split; [split; simpl; try assumption|].
  - by eapply dense_same_shape.
  - intros k r i (r0 & Hr0 & Hs)%Hback Hi. eapply (wf_run_steps_fk k r0 i); [done|]. simpl in *. congruence.
  - intros T. destruct (Hf T) as [H0 Hin]. split; [done|]. intros k Hk'. apply Hin. revert Hk'.
    unfold keys_of. repeat case_decide; try done. simpl. rewrite !elem_of_dom.
    intros [r (r0 & ? & _)%Hback]. by eexists.
Qed.

Lemma fmap_alter_same {R A} (g : R → A) (f : R → R) (i : Z) (t : gmap Z R) k :
  (∀ r, g (f r) = g r) → g <$> alter f i t !! k = g <$> t !! k.
Proof.
  intros Hg. destruct (decide (i = k)) as [<-|]; [rewrite lookup_alter_eq|by rewrite lookup_alter_ne].
  destruct (t !! i); [|done]. simpl. by rewrite Hg.
Qed.

Lemma fmap_update_where_same {R A} (g : R → A) P `{∀ x, Decision (P x)} (f : R → R) (t : gmap Z R) k :
  (∀ r, g (f r) = g r) → g <$> update_where P f t !! k = g <$> t !! k.
Proof.
  intros Hg. rewrite lookup_update_where. destruct (t !! k); [|done]. simpl. case_decide; [|done].
  by rewrite Hg.
Qed.

Lemma safe_on_runs f :
  (∀ t k, (λ r, (pr_sequence_id r, pr_provision_path r)) <$> f t !! k =
        (λ r, (pr_sequence_id r, pr_provision_path r)) <$> t !! k) →
  safe (write (on_runs f)).
Proof.
  intros Hf. apply safe_atomic; [apply atomic_write|]. intros s Hs. apply leads_write.
  by apply wf_change_runs.
Qed.

Lemma safe_on_run_steps f :
  (∀ t, same_shape rs_run_id rs_order_index t (f t)) →
  (∀ t, map_Forall (λ _ r, rs_state r ∈ run_step_states) t →
        map_Forall (λ _ r, rs_state r ∈ run_step_states) (f t)) →
  safe (write (on_run_steps f)).
Proof.
  intros Hf Hst. apply safe_atomic; [apply atomic_write|]. intros s Hs. apply leads_write.
  apply wf_change_run_steps; [done|done|]. apply Hst, Hs.
Qed.

Lemma map_Forall_alter_steps (P : Z → provisioning_run_step → Prop) f i (t : gmap Z _) :
  map_Forall P t → (∀ r, P i (f r)) → map_Forall P (alter f i t).
Proof. intros Ht Hf k r [(<- & r0 & Hk & ->)|[? Hk]]%lookup_alter_Some; [done|by apply Ht]. Qed.

Lemma safe_create_provisioning_run sid path : safe (create_provisioning_run sid path).
Proof.
  unfold create_provisioning_run. case_decide as Hp; [|intros s Hs; by rewrite run_bind, run_raise].
  apply safe_bind; [apply safe_ret|]. intros []. apply safe_transaction. intros s Hs.
  apply leads_bind, leads_utcnow, leads_bind. apply leads_nextval; [by apply (wf_rollback s)|].
  intros s1 id Hw1 Hid _ _ _. apply leads_bind, leads_require. intros Hseq%exists_key_spec.
  apply leads_bind, leads_write, leads_ret. destruct Hw1 as [[] Hf].
  split; [split; simpl; try assumption|].
  - apply refers_insert; [done|]. by intros i [= <-].
  - by apply map_Forall_insert_2.
  - eapply refers_mono; [done|]. intros i. apply is_Some_insert.
  - eapply keys_of_insert; [done..|]. intros T. unfold keys_of. repeat (case_decide; subst; simpl);
      rewrite ?dom_insert_L; set_solver.
Qed.

Lemma safe_set_provisioning_run_identity run_id vmid uuid :
  safe (set_provisioning_run_identity run_id vmid uuid).
Proof. apply safe_on_runs. intros t k. by apply fmap_update_where_same. Qed.

Lemma safe_update_provisioning_run_state run_id state e : safe (update_provisioning_run_state run_id state e).
Proof.
  unfold update_provisioning_run_state. case_decide; [apply safe_bind; [apply safe_utcnow|]; intros|];
    apply safe_on_runs; intros t k; by apply fmap_alter_same.
Qed.

Lemma foldr_max_spec (c : Z) cs :
  foldr Z.max c cs ∈ c :: cs ∧ ∀ x, x ∈ c :: cs → (x ≤ foldr Z.max c cs)%Z.
Proof.
  induction cs as [|d cs [IHin IHle]]; simpl; [set_solver by lia|]. split.
  - destruct (Z.max_spec d (foldr Z.max c cs)) as [[_ ->]|[_ ->]]; set_solver.
  - intros x. rewrite !elem_of_cons. intros [->|[->|Hx]]; [|lia|].
    + specialize (IHle c). assert (c ∈ c :: cs) by set_solver. naive_solver lia.
    + specialize (IHle x). assert (x ∈ c :: cs) by set_solver. naive_solver lia.
Qed.

(** The next order is the number of steps. *)
Lemma next_order_length run_id t :
  dense rs_run_id rs_order_index (provisioning_run_steps t) →
  next_order run_id t = Z.of_nat (length (list_run_steps run_id t)).
Proof.
  intros Hd. pose proof (rows_taken rs_run_id rs_order_index run_id) as Htaken.
  assert (∀ o, o ∈ (λ kr : Z * provisioning_run_step, rs_order_index kr.2) <$>
    select_where (λ kr, rs_run_id kr.2 = run_id) (provisioning_run_steps t) ↔
    (0 ≤ o < Z.of_nat (length (list_run_steps run_id t)))%Z) as Hin.
  { intros o. rewrite <- (Htaken _ o Hd), list_elem_of_fmap. split.
    - intros ([k r] & -> & Hk). apply elem_of_select_where in Hk. naive_solver.
    - intros (k & r & Hk & Ho & <-). exists (k, r). by rewrite elem_of_select_where. }
  unfold next_order. destruct (_ <$> _) as [|o os] eqn:E.
  - destruct (length _) as [|n] eqn:El; [done|]. exfalso.
    apply (not_elem_of_nil 0%Z). apply Hin. lia.
  - destruct (foldr_max_spec o os) as [Hm Hle]. apply Hin in Hm.
    assert (Z.of_nat (length (list_run_steps run_id t)) - 1 ∈ o :: os)%Z as Hl by (apply Hin; lia).
    apply Hle in Hl. lia.
Qed.

(** A step is added as the last one, waiting. *)
Lemma append_run_step_leads run_id phase kind params s :
  wf_store s →
  leads (append_run_step run_id phase kind params) (λ r s', wf_store s' ∧
    tbl s' = on_run_steps <[r.1 := r.2]> (tbl s) ∧ provisioning_run_steps (tbl s) !! r.1 = None ∧
    rs_run_id r.2 = run_id ∧ rs_phase r.2 = phase ∧ rs_kind r.2 = kind ∧ rs_state r.2 = "pending" ∧
    Ret (rs_params_json r.2) = jsonb params ∧
    list_run_steps run_id (tbl s') = list_run_steps run_id (tbl s) ++ [r]) s.
Proof.
  intros Hwf. apply leads_transaction, leads_bind, leads_select, leads_bind, leads_lift.
  intros p Hp. apply leads_bind, leads_nextval; [done|]. intros s1 id Hw1 Hid Ht _ _. cbv zeta.
  set (row := ProvisioningRunStep _ _ _ _ _ _ _ _ _).
  apply leads_bind, leads_require. intros _. apply leads_bind, leads_require.
  intros Hrun%exists_key_spec. apply leads_bind, leads_write, leads_ret.
  assert (provisioning_run_steps (tbl s1) !! id = None) as Hfree.
  { destruct Hid as [_ Hid]. by apply not_elem_of_dom. }
  assert (rs_order_index row = Z.of_nat (length (list_run_steps run_id (tbl s1)))) as Ho.
  { simpl. rewrite <- Ht. apply next_order_length, Hw1. }
  split; [|split_and!; simpl; rewrite <- ?Ht; try done].
  - destruct Hw1 as [[] Hf]. split; [split; simpl; try assumption|].
    + by apply dense_append.
    + apply refers_insert; [done|]. by intros i [= <-].
    + apply map_Forall_insert_2; [|done]. unfold run_step_states. simpl. set_solver.
    + eapply keys_of_insert; [done..|]. intros T. unfold keys_of. repeat (case_decide; subst; simpl);
        rewrite ?dom_insert_L; set_solver.
  - apply (rows_append rs_run_id rs_order_index _ id row); [apply Hw1|done|done].
Qed.

Lemma safe_append_run_step run_id phase kind params : safe (append_run_step run_id phase kind params).
Proof.
  apply safe_atomic; [apply atomic_transaction|]. intros s Hs.
  eapply leads_mono; [by apply append_run_step_leads|]. by intros r s' [? _].
Qed.

Lemma safe_update_run_step_state step_id state e : safe (update_run_step_state step_id state e).
Proof.
  unfold update_run_step_state. repeat case_decide; [..|apply safe_raise];
    (apply safe_bind; [apply safe_utcnow|]; intros; apply safe_on_run_steps;
     [intros t; by apply same_shape_alter|intros t Ht; apply map_Forall_alter_steps; [done|]; intros r]);
    unfold run_step_states; simpl; set_solver.
Qed.

Lemma safe_sweep_stale_runs ttl : safe (sweep_stale_runs ttl).
Proof.
  unfold sweep_stale_runs. apply safe_bind; [apply safe_utcnow|]. intros now.
  apply safe_transaction. intros s Hs. apply safe_leads; [|done].
  apply safe_bind; [apply safe_select|]. intros l. apply safe_bind; [|intros; apply safe_ret].
  apply safe_for_each. intros run_id. unfold fail_stale_run.
  apply safe_bind; [apply safe_utcnow|]. intros n1. apply safe_bind.
  { apply safe_on_runs. intros t k. by apply fmap_update_where_same. }
  intros []. apply safe_bind; [apply safe_utcnow|]. intros n2. apply safe_on_run_steps.
  - intros t. by apply same_shape_update_where.
  - intros t Ht k r. rewrite lookup_update_where. destruct (t !! k) as [r0|] eqn:E; [|done].
    intros [= <-]. case_decide; [|by apply (Ht k)]. unfold run_step_states. simpl. set_solver.
Qed.
End safety.

#[export] Hint Resolve safe_create_provisioning_run safe_set_provisioning_run_identity
  safe_update_provisioning_run_state safe_append_run_step safe_update_run_step_state
  safe_sweep_stale_runs : safe.

(** ** Reordering a phase *)

(** The rows with their place in the list as order. *)
Definition renumber (l : list (Z * provisioning_run_step)) : list (Z * provisioning_run_step) :=
  imap (λ i kr, (kr.1, at_order (Z.of_nat i) kr.2)) l.

Definition of_phase (phase : string) (kr : Z * provisioning_run_step) : Prop := rs_phase kr.2 = phase.

#[export] Instance of_phase_dec phase kr : Decision (of_phase phase kr).
Proof. unfold of_phase. apply _. Defined.

#[export] Instance kind_order_ord kinds : OrdCmp (kind_order kinds).
Proof. unfold kind_order. apply _. Qed.

Lemma at_order_twice a b st : at_order a (at_order b st) = at_order a st.
Proof. done. Qed.

Lemma at_order_same st : at_order (rs_order_index st) st = st.
Proof. by destruct st. Qed.

(** The steps after moving some of them: [(order, id)]. *)
Fixpoint moved (xs : list (Z * Z)) (t : gmap Z provisioning_run_step) : gmap Z provisioning_run_step :=
  match xs with
  | [] => t
  | x :: xs => moved xs (alter (at_order x.1) x.2 t)
  end.

Lemma lookup_moved_other xs t k : k ∉ xs.*2 → moved xs t !! k = t !! k.
Proof.
  revert t. induction xs as [|x xs IH]; intros t Hk; [done|]. simpl in *.
  rewrite IH by set_solver. by rewrite lookup_alter_ne by set_solver.
Qed.

Lemma lookup_moved xs t p k :
  NoDup xs.*2 → (p, k) ∈ xs → moved xs t !! k = at_order p <$> t !! k.
Proof.
  revert t. induction xs as [|x xs IH]; intros t Hnd Hin; [by apply not_elem_of_nil in Hin|].
  csimpl in *. apply NoDup_cons in Hnd as [Hx Hnd]. apply elem_of_cons in Hin as [<-|Hin]; simpl in *.
  - by rewrite lookup_moved_other, lookup_alter_eq.
  - rewrite IH by done. rewrite lookup_alter_ne; [done|]. intros E. apply Hx.
    rewrite E. apply list_elem_of_fmap. by exists (p, k).
Qed.

Section reorder.
Context `{Clock}.
Implicit Types (xs : list (Z * Z)) (run_id : Z).

Definition move_all run_id xs : eff store unit := for_each xs (λ x, move_step run_id x.2 x.1).

Lemma run_move_step run_id id p s :
  move_step run_id id p s =
    if order_free id run_id p (tbl s)
    then (Ret tt, Store (on_run_steps (alter (at_order p) id) (tbl s)) (serials s) (ticks s))
    else (Exc order_violation, s).
Proof. unfold move_step. rewrite run_bind, run_require. by destruct (order_free _ _ _ _). Qed.

Lemma order_free_true id run_id p t :
  order_free id run_id p t = true ↔
  ∀ k st, provisioning_run_steps t !! k = Some st → k ≠ id → rs_run_id st = run_id → rs_order_index st ≠ p.
Proof.
  unfold order_free. rewrite negb_true_iff, exists_where_false. split.
  - intros Hn k st Hk Hne Hr Hp. by eapply (Hn k st).
  - intros Hn k st Hk (Hne & Hr & Hp). by eapply (Hn k st).
Qed.

(** Moving steps to distinct orders that nobody holds succeeds. *)
Lemma move_all_returns run_id xs s :
  NoDup xs.*1 → NoDup xs.*2 →
  (∀ k st, provisioning_run_steps (tbl s) !! k = Some st → rs_run_id st = run_id →
     rs_order_index st ∉ xs.*1) →
  move_all run_id xs s =
    (Ret tt, Store (on_run_steps (moved xs) (tbl s)) (serials s) (ticks s)).
Proof.
  revert s. induction xs as [|[p id] xs IH]; intros s Hp Hid Hfree.
  - unfold move_all. simpl. by destruct s as [[] ? ?].
  - csimpl in *. apply NoDup_cons in Hp as [Hp1 Hp]. apply NoDup_cons in Hid as [Hid1 Hid].
    unfold move_all. simpl. rewrite run_bind, run_move_step.
    assert (order_free id run_id p (tbl s) = true) as ->.
    { apply order_free_true. intros k st Hk _ Hr Hp'. specialize (Hfree k st Hk Hr). set_solver. }
    fold (move_all run_id xs). rewrite IH; [done|done|done|]. simpl.
    intros k st [(<- & st0 & Hk & ->)|[? Hk]]%lookup_alter_Some Hr; simpl in *; [done|].
    specialize (Hfree k st Hk Hr). set_solver.
Qed.

(** Moving a step to an order that a step outside of the list holds fails. *)
Lemma move_all_fails run_id xs s k st p id :
  provisioning_run_steps (tbl s) !! k = Some st → rs_run_id st = run_id → rs_order_index st = p →
  k ∉ xs.*2 → (p, id) ∈ xs → ∃ s', move_all run_id xs s = (Exc order_violation, s') ∧
    serials s' = serials s.
Proof.
  revert s. induction xs as [|[q i] xs IH]; intros s Hk Hr Hp Hout Hin; [by apply not_elem_of_nil in Hin|].
  csimpl in *. unfold move_all. simpl. rewrite run_bind, run_move_step.
  destruct (order_free i run_id q (tbl s)) eqn:Ef; [|by eexists].
  apply elem_of_cons in Hin as [[= -> ->]|Hin].
  - rewrite order_free_true in Ef. exfalso. eapply (Ef k st); [done|set_solver|done|done].
  - edestruct IH as (s' & E & Hs); [|done|done| |done|exists s'; split; [exact E|exact Hs]]; [simpl|set_solver].
    rewrite lookup_alter_ne; [done|set_solver].
Qed.

(** The two loops of the function over the sorted rows. *)
Definition numbered_from (f : Z → Z) (rows : list (Z * provisioning_run_step)) : list (Z * Z) :=
  imap (λ i kr, (f (Z.of_nat i), kr.1)) rows.

Lemma numbered_ids f rows : (numbered_from f rows).*2 = rows.*1.
Proof.
  unfold numbered_from. rewrite fmap_imap. apply list_eq. intros i.
  rewrite list_lookup_imap, list_lookup_fmap. by destruct (rows !! i).
Qed.

Lemma elem_of_numbered_orders f rows p :
  p ∈ (numbered_from f rows).*1 ↔ ∃ i, (i < length rows)%nat ∧ p = f (Z.of_nat i).
Proof.
  unfold numbered_from. rewrite fmap_imap, elem_of_lookup_imap. split.
  - intros (i & kr & -> & Hi). exists i. split; [by eapply lookup_lt_Some|done].
  - intros (i & Hi & ->). destruct (lookup_lt_is_Some_2 rows i Hi) as [kr Hkr]. by exists i, kr.
Qed.

Lemma NoDup_numbered_orders f rows :
  (∀ i j, f i = f j → i = j) → NoDup (numbered_from f rows).*1.
Proof.
  intros Hf. unfold numbered_from. rewrite fmap_imap. apply NoDup_alt. intros i j p.
  rewrite !list_lookup_imap. destruct (rows !! i), (rows !! j); simpl; try done.
  intros [= <-] [= E]. apply Hf in E. lia.
Qed.

Lemma for_each_numbered run_id f rows s :
  for_each (imap (λ i kr, (Z.of_nat i, kr.1)) rows) (λ x, move_step run_id x.2 (f x.1)) s =
  move_all run_id (numbered_from f rows) s.
Proof.
  unfold move_all, numbered_from.
  assert (∀ g s, for_each (imap (λ i (kr : Z * provisioning_run_step), (g i, kr.1)) rows)
      (λ x, move_step run_id x.2 (f x.1)) s =
    for_each (imap (λ i kr, (f (g i), kr.1)) rows) (λ x, move_step run_id x.2 x.1) s) as Hg; [|apply (Hg Z.of_nat)].
  clear s. induction rows as [|r rows IH]; intros g s; [done|]. rewrite !imap_cons. simpl.
  rewrite !run_bind. destruct (move_step _ _ _ s) as [[[]|e] s']; [|done]. apply (IH (g ∘ S)).
Qed.
End reorder.

Section reorder_spec.
Context `{Clock}.

(** The steps of the phase stand together in the run. *)
Definition one_block (phase : string) (pre mid post : list (Z * provisioning_run_step)) : Prop :=
  Forall (of_phase phase) mid ∧ Forall (λ kr, ¬ of_phase phase kr) pre ∧
  Forall (λ kr, ¬ of_phase phase kr) post.

Lemma phase_rows_filter run_id phase t :
  dense rs_run_id rs_order_index (provisioning_run_steps t) →
  phase_rows run_id phase t = filter (of_phase phase) (list_run_steps run_id t).
Proof. intros Hd. by apply (rows_filter rs_run_id rs_order_index run_id _ (of_phase phase)). Qed.

Lemma filter_block phase pre mid post :
  one_block phase pre mid post → filter (of_phase phase) (pre ++ mid ++ post) = mid.
Proof.
  intros (Hm & Hpre & Hpost). rewrite !filter_app.
  assert (∀ l, Forall (λ kr, ¬ of_phase phase kr) l → filter (of_phase phase) l = []) as Hnil.
  { induction 1 as [|x l Hx _ IH]; [done|]. by rewrite filter_cons_False. }
  rewrite (Hnil pre), (Hnil post), app_nil_r by done. simpl. apply filter_all. by apply Forall_forall.
Qed.

Lemma min_of_sorted (x : Z) l : Forall (λ y, x < y)%Z l → foldr Z.min x l = x.
Proof. induction 1 as [|y l Hy _ IH]; simpl; [done|]. rewrite IH. lia. Qed.

Lemma elem_of_renumber k st l :
  (k, st) ∈ renumber l ↔ ∃ i st0, l !! i = Some (k, st0) ∧ st = at_order (Z.of_nat i) st0.
Proof.
  unfold renumber. rewrite elem_of_lookup_imap. split.
  - intros (i & [k0 st0] & [= -> ->] & Hi). eauto.
  - intros (i & st0 & Hi & ->). exists i, (k, st0). done.
Qed.

Lemma lookup_block {A} (pre mid post : list A) i x :
  (pre ++ mid ++ post) !! i = Some x →
  pre !! i = Some x ∨ (∃ j, i = (length pre + j)%nat ∧ mid !! j = Some x) ∨
  (∃ j, i = (length pre + length mid + j)%nat ∧ post !! j = Some x).
Proof.
  intros [Hi|[Hlt Hi]]%lookup_app_Some; [by left|right].
  apply lookup_app_Some in Hi as [Hi|[Hlt2 Hi]]; [left|right]; eexists; (split; [|exact Hi]); lia.
Qed.

Lemma block_lookup {A} (pre mid post : list A) j x :
  mid !! j = Some x → (pre ++ mid ++ post) !! (length pre + j)%nat = Some x.
Proof.
  intros Hj. rewrite lookup_app_r, Nat.add_comm, Nat.add_sub by lia. by apply lookup_app_l_Some.
Qed.

Lemma block_lookup_post {A} (pre mid post : list A) j x :
  post !! j = Some x → (pre ++ mid ++ post) !! (length pre + length mid + j)%nat = Some x.
Proof.
  intros Hj. rewrite app_assoc, lookup_app_r by (rewrite length_app; lia). rewrite length_app.
  by replace (length pre + length mid + j - (length pre + length mid))%nat with j by lia.
Qed.
End reorder_spec.

(** Both loops, when the steps of the phase stand together. *)
Section block.
Context `{Clock} (run_id : Z) (phase : string) (kinds : list string) (s : store).
Context (pre mid post : list (Z * provisioning_run_step)).
Context (Hwf : wf_store s).
Context (HL : list_run_steps run_id (tbl s) = pre ++ mid ++ post).
Context (Hb : one_block phase pre mid post).

#[local] Definition sorted := isort (kind_order kinds) mid.
#[local] Definition base : Z := Z.of_nat (length pre).
#[local] Definition xs1 := numbered_from (λ i, - (i + 1))%Z sorted.
#[local] Definition xs2 := numbered_from (λ i, base + i)%Z sorted.
#[local] Definition s1 := Store (on_run_steps (moved xs1) (tbl s)) (serials s) (ticks s).
#[local] Definition s2 := Store (on_run_steps (moved xs2) (tbl s1)) (serials s) (ticks s).

Lemma block_dense : dense rs_run_id rs_order_index (provisioning_run_steps (tbl s)).
Proof. apply Hwf. Qed.

Lemma block_rows : phase_rows run_id phase (tbl s) = mid.
Proof. rewrite phase_rows_filter, HL by apply block_dense. by apply filter_block. Qed.

Lemma block_pos i kr : (pre ++ mid ++ post) !! i = Some kr → rs_order_index kr.2 = Z.of_nat i.
Proof.
  rewrite <- HL. apply (rows_pos rs_run_id rs_order_index). apply block_dense.
Qed.

Lemma block_elem k st :
  (k, st) ∈ pre ++ mid ++ post ↔ provisioning_run_steps (tbl s) !! k = Some st ∧ rs_run_id st = run_id.
Proof. rewrite <- HL. apply (elem_of_rows rs_run_id rs_order_index). Qed.

Lemma sorted_perm : sorted ≡ₚ mid.
Proof. apply isort_perm. Qed.

Lemma block_NoDup : NoDup (pre ++ mid ++ post).*1.
Proof. rewrite <- HL. apply (NoDup_rows_fst rs_run_id rs_order_index). Qed.

Lemma sorted_NoDup : NoDup sorted.*1.
Proof.
  rewrite sorted_perm. pose proof block_NoDup as Hnd. rewrite !fmap_app in Hnd.
  apply NoDup_app in Hnd as (_ & _ & Hnd). by apply NoDup_app in Hnd as [Hnd _].
Qed.

Lemma sorted_fst i k st : sorted !! i = Some (k, st) → k ∈ sorted.*1.
Proof. intros Hi. apply list_elem_of_fmap. exists (k, st). split; [done|]. by eapply list_elem_of_lookup_2. Qed.

Lemma sorted_row i k st :
  sorted !! i = Some (k, st) → provisioning_run_steps (tbl s) !! k = Some st ∧ rs_run_id st = run_id.
Proof.
  intros Hi. apply block_elem, elem_of_app. right. apply elem_of_app. left. rewrite <- sorted_perm.
  by eapply list_elem_of_lookup_2.
Qed.

(** Steps in front of the block and behind it. *)
Lemma outside k st : (k, st) ∈ pre ∨ (k, st) ∈ post → k ∉ sorted.*1.
Proof.
  pose proof block_NoDup as Hnd. rewrite sorted_perm. rewrite !fmap_app in Hnd.
  apply NoDup_app in Hnd as (_ & Hpre & Hnd). apply NoDup_app in Hnd as (_ & Hmid & _).
  intros [Hin|Hin] Hk; apply (list_elem_of_fmap_2 fst) in Hin; simpl in Hin; set_solver.
Qed.

Lemma numbered_lookup f i k st :
  sorted !! i = Some (k, st) → (f (Z.of_nat i), k) ∈ numbered_from f sorted.
Proof. intros Hi. unfold numbered_from. apply elem_of_lookup_imap. by exists i, (k, st). Qed.

Lemma loop1_returns : move_all run_id xs1 s = (Ret tt, s1).
Proof.
  apply move_all_returns.
  - apply NoDup_numbered_orders. lia.
  - unfold xs1. rewrite numbered_ids. apply sorted_NoDup.
  - intros k st Hk _ (i & _ & Hi)%elem_of_numbered_orders.
    pose proof (dense_nonneg _ _ _ block_dense k st Hk). lia.
Qed.

Lemma moved1 i k st :
  sorted !! i = Some (k, st) →
  provisioning_run_steps (tbl s1) !! k = Some (at_order (- (Z.of_nat i + 1)) st).
Proof.
  intros Hi. simpl. rewrite (lookup_moved xs1 _ (- (Z.of_nat i + 1))%Z).
  - by rewrite (proj1 (sorted_row _ _ _ Hi)).
  - unfold xs1. rewrite numbered_ids. apply sorted_NoDup.
  - by apply (numbered_lookup (λ i, - (i + 1))%Z i k st).
Qed.

Lemma other1 k : k ∉ sorted.*1 → provisioning_run_steps (tbl s1) !! k = provisioning_run_steps (tbl s) !! k.
Proof. intros Hk. simpl. apply lookup_moved_other. unfold xs1. by rewrite numbered_ids. Qed.

Lemma sorted_dec k : k ∈ sorted.*1 → ∃ i st, sorted !! i = Some (k, st).
Proof.
  intros ([k' st] & -> & [i Hi]%list_elem_of_lookup)%list_elem_of_fmap. by exists i, st.
Qed.

Lemma loop2_returns : move_all run_id xs2 s1 = (Ret tt, s2).
Proof.
  apply (move_all_returns run_id xs2 s1).
  - apply NoDup_numbered_orders. lia.
  - unfold xs2. rewrite numbered_ids. apply sorted_NoDup.
  - intros k st Hk Ho (i & Hi & Hp)%elem_of_numbered_orders. rewrite sorted_perm in Hi.
    destruct (decide (k ∈ sorted.*1)) as [Hks|Hks].
    + destruct (sorted_dec k Hks) as (j & st0 & Hj). rewrite (moved1 j k st0 Hj) in Hk.
      injection Hk as <-. simpl in Hp. unfold base in Hp. lia.
    + rewrite other1 in Hk by done.
      assert ((k, st) ∈ pre ++ mid ++ post) as [j Hj]%list_elem_of_lookup by by apply block_elem.
      pose proof (block_pos j _ Hj) as Hpj. simpl in Hpj. unfold base in Hp.
      apply lookup_block in Hj as [Hj|[(j' & -> & Hj)|(j' & -> & _)]]; [apply lookup_lt_Some in Hj; lia| |lia].
      apply Hks. rewrite sorted_perm. apply list_elem_of_fmap. exists (k, st). split; [done|].
      by eapply list_elem_of_lookup_2.
Qed.

Lemma moved2 i k st :
  sorted !! i = Some (k, st) →
  provisioning_run_steps (tbl s2) !! k = Some (at_order (base + Z.of_nat i) st).
Proof.
  intros Hi. change (moved xs2 (provisioning_run_steps (tbl s1)) !! k = Some (at_order (base + Z.of_nat i) st)).
  rewrite (lookup_moved xs2 _ (base + Z.of_nat i)%Z).
  - by rewrite (moved1 i k st Hi).
  - unfold xs2. rewrite numbered_ids. apply sorted_NoDup.
  - by apply (numbered_lookup (λ i, base + i)%Z i k st).
Qed.

Lemma other2 k : k ∉ sorted.*1 → provisioning_run_steps (tbl s2) !! k = provisioning_run_steps (tbl s) !! k.
Proof.
  intros Hk. rewrite <- other1 by done. apply (lookup_moved_other xs2). unfold xs2. by rewrite numbered_ids.
Qed.

(** A row outside of the block keeps its place. *)
Lemma outside_row i k st :
  (pre ++ mid ++ post) !! i = Some (k, st) → k ∉ sorted.*1 →
  (pre ++ sorted ++ post) !! i = Some (k, st) ∧ st = at_order (Z.of_nat i) st.
Proof.
  intros Hi Hk. pose proof (block_pos i _ Hi) as Hp. simpl in Hp. split.
  - apply lookup_block in Hi as [Hi|[(j & -> & Hi)|(j & -> & Hi)]].
    + by apply lookup_app_l_Some.
    + exfalso. apply Hk. rewrite sorted_perm. apply list_elem_of_fmap. exists (k, st).
      split; [done|]. by eapply list_elem_of_lookup_2.
    + rewrite <- (Permutation_length sorted_perm). by apply block_lookup_post.
  - rewrite <- Hp. symmetry. apply at_order_same.
Qed.

Lemma block_renumbered k st :
  (k, st) ∈ renumber (pre ++ sorted ++ post) ↔
  provisioning_run_steps (tbl s2) !! k = Some st ∧ rs_run_id st = run_id.
Proof.
  rewrite elem_of_renumber. split.
  - intros (i & st0 & Hi & ->).
    assert (k ∉ sorted.*1 → (pre ++ mid ++ post) !! i = Some (k, st0) →
      provisioning_run_steps (tbl s2) !! k = Some (at_order (Z.of_nat i) st0) ∧
      rs_run_id (at_order (Z.of_nat i) st0) = run_id) as Hout.
    { intros Hk Hi'. destruct (outside_row i k st0 Hi' Hk) as [_ <-]. rewrite other2 by done.
      apply block_elem. by eapply list_elem_of_lookup_2. }
    apply lookup_block in Hi as [Hi|[(j & -> & Hi)|(j & -> & Hi)]].
    + apply Hout; [|by apply lookup_app_l_Some]. apply (outside k st0). left. by eapply list_elem_of_lookup_2.
    + rewrite (moved2 j k st0 Hi). unfold base. rewrite Nat2Z.inj_add. split; [done|].
      apply (sorted_row j k st0 Hi).
    + apply Hout; [apply (outside k st0); right; by eapply list_elem_of_lookup_2|].
      rewrite (Permutation_length sorted_perm). by apply block_lookup_post.
  - intros [Hk Ho]. destruct (decide (k ∈ sorted.*1)) as [Hks|Hks].
    + destruct (sorted_dec k Hks) as (j & st0 & Hj). rewrite (moved2 j k st0 Hj) in Hk. injection Hk as <-.
      exists (length pre + j)%nat, st0. split; [by apply block_lookup|]. f_equal. unfold base. lia.
    + rewrite other2 in Hk by done.
      assert ((k, st) ∈ pre ++ mid ++ post) as [j Hj]%list_elem_of_lookup by by apply block_elem.
      destruct (outside_row j k st Hj Hks) as [Hj' Hst]. by exists j, st.
Qed.

Lemma block_other_runs k st :
  rs_run_id st ≠ run_id →
  provisioning_run_steps (tbl s2) !! k = Some st ↔ provisioning_run_steps (tbl s) !! k = Some st.
Proof.
  intros Hne. destruct (decide (k ∈ sorted.*1)) as [Hks|Hks]; [|by rewrite other2].
  destruct (sorted_dec k Hks) as (j & st0 & Hj). destruct (sorted_row j k st0 Hj) as [Hk Ho].
  rewrite (moved2 j k st0 Hj), Hk. split; intros [= <-]; by simpl in Hne.
Qed.

Lemma block_result :
  dense rs_run_id rs_order_index (provisioning_run_steps (tbl s2)) ∧
  list_run_steps run_id (tbl s2) = renumber (pre ++ sorted ++ post).
Proof.
  apply (dense_renumbered rs_run_id rs_order_index run_id (provisioning_run_steps (tbl s))).
  - apply block_dense.
  - intros k st. apply block_other_runs.
  - intros k st. apply block_renumbered.
  - intros i kr Hi. unfold renumber in Hi. rewrite list_lookup_imap in Hi.
    destruct (_ !! i) as [x|]; [|done]. by injection Hi as <-.
Qed.

(** The first row of the block has the least order. *)
Lemma block_min r rs :
  mid = r :: rs → foldr Z.min (rs_order_index r.2) ((λ kr, rs_order_index kr.2) <$> rs) = base.
Proof.
  intros Hm. assert (rs_order_index r.2 = base) as ->.
  { rewrite (block_pos (length pre + 0) r); [unfold base; f_equal; lia|].
    apply block_lookup. by rewrite Hm. }
  apply min_of_sorted. apply Forall_lookup. intros j y Hj. rewrite list_lookup_fmap in Hj.
  destruct (rs !! j) as [kr|] eqn:Ej; [|done]. injection Hj as <-.
  rewrite (block_pos (length pre + S j) kr); [unfold base; lia|]. apply block_lookup. by rewrite Hm.
Qed.

Lemma reorder_block : reorder_run_phase_steps run_id phase kinds s = (Ret tt, s2).
Proof.
  apply run_transaction_ret. rewrite run_bind, run_select, block_rows.
  assert (mid = [] ∨ ∃ r rs, mid = r :: rs) as [Em|(r & rs & Em)].
  { destruct mid; eauto. }
  - unfold s2, s1, xs1, xs2, sorted. rewrite Em. simpl. by destruct s as [[] ? ?].
  - rewrite Em, <- Em. cbv zeta. fold sorted. rewrite run_bind, (for_each_numbered run_id (λ i, - (i + 1))%Z).
    fold xs1. rewrite loop1_returns.
    rewrite (for_each_numbered run_id (λ i, foldr Z.min (rs_order_index r.2)
      ((λ kr : Z * provisioning_run_step, rs_order_index kr.2) <$> rs) + i)%Z).
    rewrite (block_min r rs Em). fold xs2. apply loop2_returns.
Qed.
End block.

(** The elements of a list that satisfy a condition stand together, or one that does not
    stands after the first of them, at less than their number. *)
Lemma split_while {A} (P : A → Prop) `{∀ x, Decision (P x)} (l : list A) :
  ∃ a b, l = a ++ b ∧ Forall P a ∧ (b = [] ∨ ∃ y b', b = y :: b' ∧ ¬ P y).
Proof.
  induction l as [|x l (a & b & -> & Ha & Hb)]; [by exists [], []; auto|].
  destruct (decide (P x)); [exists (x :: a), b; auto|].
  exists [], (x :: a ++ b). split_and!; [done|done|]. right. eauto.
Qed.

Lemma block_or_gap phase (l : list (Z * provisioning_run_step)) :
  (∃ pre mid post, l = pre ++ mid ++ post ∧ one_block phase pre mid post) ∨
  (∃ i j x y, filter (of_phase phase) l = x :: drop 1 (filter (of_phase phase) l) ∧ l !! i = Some x ∧
    (j < length (filter (of_phase phase) l))%nat ∧ l !! (i + j)%nat = Some y ∧ ¬ of_phase phase y).
Proof.
  destruct (split_while (λ x, ¬ of_phase phase x) l) as (pre & b & -> & Hpre & Hb).
  destruct (split_while (of_phase phase) b) as (mid & post & -> & Hmid & Hpost).
  destruct (decide (Forall (λ x, ¬ of_phase phase x) post)) as [Hp|Hp]; [left; by exists pre, mid, post|right].
  assert (∀ l, Forall (λ kr, ¬ of_phase phase kr) l → filter (of_phase phase) l = []) as Hnil.
  { induction 1 as [|x l Hx _ IH]; [done|]. by rewrite filter_cons_False. }
  destruct Hpost as [->|(y & post' & -> & Hy)]; [by destruct Hp|].
  destruct mid as [|x mid].
  { destruct Hb as [?|(y' & b' & [= <- <-] & Hy')]; [done|]. by destruct (Hy' Hy). }
  assert (filter (of_phase phase) (pre ++ (x :: mid) ++ y :: post') =
    (x :: mid) ++ filter (of_phase phase) post') as Hf.
  { rewrite !filter_app, (Hnil pre) by done. rewrite (filter_all (of_phase phase) (x :: mid)) by
      (by apply Forall_forall). by rewrite filter_cons_False. }
  rewrite Hf. exists (length pre), (length (x :: mid)), x, y. split_and!; [done| | | |done].
  - by rewrite lookup_app_r, Nat.sub_diag by lia.
  - rewrite length_app. destruct (filter (of_phase phase) post') as [|z l] eqn:E; [|simpl; lia].
    exfalso. apply Hp. constructor; [done|]. apply Forall_forall. intros z Hz Hpz.
    assert (z ∈ filter (of_phase phase) post') as Hin by by apply list_elem_of_filter.
    rewrite E in Hin. by apply not_elem_of_nil in Hin.
  - rewrite lookup_app_r, Nat.add_comm, Nat.add_sub by lia. by rewrite lookup_app_r, Nat.sub_diag by lia.
Qed.

Section reorder_theorem.
Context `{Clock}.

(** A step of another phase in between keeps an order that is needed. *)
Lemma reorder_gap run_id phase kinds s i j x y :
  wf_store s → let l := list_run_steps run_id (tbl s) in
  filter (of_phase phase) l = x :: drop 1 (filter (of_phase phase) l) → l !! i = Some x →
  (j < length (filter (of_phase phase) l))%nat → l !! (i + j)%nat = Some y → ¬ of_phase phase y →
  ∃ s', reorder_run_phase_steps run_id phase kinds s = (Exc order_violation, s') ∧ tbl s' = tbl s ∧
    serials s' = serials s.
Proof.
  intros Hwf l Hf Hi Hj Hy Hny. pose proof (wf_run_steps _ (proj1 Hwf)) as Hd.
  assert (∀ i kr, l !! i = Some kr → rs_order_index kr.2 = Z.of_nat i) as Hpos.
  { intros i' kr. by apply (rows_pos rs_run_id rs_order_index). }
  pose proof (phase_rows_filter run_id phase (tbl s) Hd) as Hrows. fold l in Hrows.
  set (F := filter (of_phase phase) l) in *. set (sorted := isort (kind_order kinds) F).
  assert (sorted ≡ₚ F) as Hperm by apply isort_perm.
  set (xs1 := numbered_from (λ i, - (i + 1))%Z sorted).
  assert (move_all run_id xs1 s =
    (Ret tt, Store (on_run_steps (moved xs1) (tbl s)) (serials s) (ticks s))) as E1.
  { apply move_all_returns.
    - apply NoDup_numbered_orders. lia.
    - unfold xs1. rewrite numbered_ids, Hperm. rewrite <- Hrows. unfold phase_rows.
      rewrite isort_perm. apply NoDup_select_where_fst.
    - intros k st Hk _ (i' & _ & Hi')%elem_of_numbered_orders.
      pose proof (dense_nonneg _ _ _ Hd k st Hk). lia. }
  set (s1 := Store _ _ _) in E1.
  destruct y as [k st].
  assert (provisioning_run_steps (tbl s) !! k = Some st ∧ rs_run_id st = run_id) as [Hk Ho].
  { apply (elem_of_rows rs_run_id rs_order_index). by eapply list_elem_of_lookup_2. }
  assert (k ∉ sorted.*1) as Hks.
  { rewrite Hperm. intros ([k' st'] & -> & Hin)%list_elem_of_fmap.
    apply list_elem_of_filter in Hin as [Hph Hin]. apply (elem_of_rows rs_run_id rs_order_index) in Hin as [Hk' _].
    simpl in *. rewrite Hk in Hk'. injection Hk' as <-. done. }
  set (base := foldr Z.min (rs_order_index x.2)
    ((λ kr : Z * provisioning_run_step, rs_order_index kr.2) <$> drop 1 F)).
  assert (base = Z.of_nat i) as Hbase.
  { unfold base. rewrite (Hpos i x Hi). apply min_of_sorted.
    assert (StronglySorted (λ a b : Z * provisioning_run_step, (rs_order_index a.2 < rs_order_index b.2)%Z) F) as Hs.
    { apply StronglySorted_filter. by apply (rows_sorted rs_run_id rs_order_index). }
    rewrite Hf in Hs. apply StronglySorted_cons in Hs as [Hlt _]. apply Forall_fmap.
    eapply Forall_impl; [exact Hlt|]. intros kr Hkr. simpl in *. by rewrite <- (Hpos i x Hi). }
  destruct (lookup_lt_is_Some_2 sorted j) as [[id st'] Hid]; [by rewrite Hperm|].
  destruct (move_all_fails run_id (numbered_from (λ i, base + i)%Z sorted) s1 k st (base + Z.of_nat j)%Z id)
    as (s' & E2 & Hser).
  - simpl. rewrite lookup_moved_other; [done|]. unfold xs1. by rewrite numbered_ids.
  - done.
  - pose proof (Hpos _ _ Hy) as Hp. simpl in Hp. rewrite Hp, Hbase. lia.
  - by rewrite numbered_ids.
  - unfold numbered_from. apply elem_of_lookup_imap. by exists j, (id, st').
  - assert (reorder_run_phase_steps run_id phase kinds s =
      (Exc order_violation, Store (tbl s) (serials s') (ticks s'))) as ->; [|by eexists].
    unfold reorder_run_phase_steps, transaction. rewrite run_bind, run_select, Hrows, Hf. cbv zeta.
    rewrite <- Hf. fold sorted. rewrite run_bind, (for_each_numbered run_id (λ i, - (i + 1))%Z). fold xs1.
    rewrite E1, (for_each_numbered run_id (λ i, base + i)%Z). by rewrite E2.
Qed.

(** Reordering the steps of a phase of a run, in a well-formed store: when they stand
    together, the run afterwards has the same steps in the same places, except that those
    of the phase are sorted by the rank of their kind and otherwise keep their order, all
    numbered from zero, and other runs are untouched; when a step of another phase stands
    between them, the call raises and changes nothing. *)
Theorem reorder_run_phase_steps_spec (run_id : Z) (phase : string) (kinds : list string) (s : store) :
  wf_store s →
  (∀ pre mid post, list_run_steps run_id (tbl s) = pre ++ mid ++ post → one_block phase pre mid post →
     ∃ s', reorder_run_phase_steps run_id phase kinds s = (Ret tt, s') ∧
       list_run_steps run_id (tbl s') = renumber (pre ++ isort (kind_order kinds) mid ++ post) ∧
       ∀ k st, rs_run_id st ≠ run_id →
         provisioning_run_steps (tbl s') !! k = Some st ↔ provisioning_run_steps (tbl s) !! k = Some st) ∧
  (¬ (∃ pre mid post, list_run_steps run_id (tbl s) = pre ++ mid ++ post ∧ one_block phase pre mid post) →
     ∃ s', reorder_run_phase_steps run_id phase kinds s = (Exc order_violation, s') ∧ tbl s' = tbl s).
Proof.
  intros Hwf. split.
  - intros pre mid post HL Hb. eexists. split; [by eapply reorder_block|]. split.
    + by eapply block_result.
    + intros k st. by eapply block_other_runs.
  - intros Hno. destruct (block_or_gap phase (list_run_steps run_id (tbl s)))
      as [Hyes|(i & j & x & y & Hf & Hi & Hj & Hy & Hny)]; [done|].
    edestruct reorder_gap as (s' & E & Ht & _); [done..|]. by exists s'.
Qed.

(** Moving steps keeps everything but their order. *)
Lemma moved_same xs t k :
  (λ st, (rs_run_id st, rs_state st)) <$> moved xs t !! k = (λ st, (rs_run_id st, rs_state st)) <$> t !! k.
Proof.
  revert t. induction xs as [|x xs IH]; intros t; [done|]. simpl. rewrite IH. by apply fmap_alter_same.
Qed.

Lemma wf_reordered f s :
  wf_store s →
  (∀ k, (λ st, (rs_run_id st, rs_state st)) <$> f (provisioning_run_steps (tbl s)) !! k =
        (λ st, (rs_run_id st, rs_state st)) <$> provisioning_run_steps (tbl s) !! k) →
  dense rs_run_id rs_order_index (f (provisioning_run_steps (tbl s))) →
  wf_store (Store (on_run_steps f (tbl s)) (serials s) (ticks s)).
Proof.
  intros [[] Hf] Hk Hd.
  assert (∀ k r, f (provisioning_run_steps (tbl s)) !! k = Some r → ∃ r0,
    provisioning_run_steps (tbl s) !! k = Some r0 ∧ rs_run_id r0 = rs_run_id r ∧ rs_state r0 = rs_state r)
    as Hback.
  { intros k r Hr. specialize (Hk k). rewrite Hr in Hk. destruct (_ !! k) as [r0|]; [|done].
    exists r0. simpl in Hk. split; [done|]. split; congruence. }
  split; [split; simpl; try assumption|].
  - intros k r i (r0 & Hr0 & Hs & _)%Hback Hi. eapply (wf_run_steps_fk k r0 i); [done|]. simpl in *. congruence.
  - intros k r (r0 & Hr0 & _ & <-)%Hback. by apply (wf_run_step_states k).
  - intros T. destruct (Hf T) as [H0 Hin]. split; [done|]. intros k Hk'. apply Hin. revert Hk'.
    unfold keys_of. repeat case_decide; try done. simpl. rewrite !elem_of_dom.
    intros [r (r0 & ? & _)%Hback]. by eexists.
Qed.

Lemma safe_reorder_run_phase_steps run_id phase kinds :
  safe (reorder_run_phase_steps run_id phase kinds).
Proof.
  apply safe_atomic; [apply atomic_transaction|]. intros s Hwf. unfold leads.
  destruct (block_or_gap phase (list_run_steps run_id (tbl s)))
    as [(pre & mid & post & HL & Hb)|(i & j & x & y & Hf & Hi & Hj & Hy & Hny)].
  - destruct (block_result run_id phase kinds s pre mid post Hwf HL Hb) as [Hd _].
    rewrite (reorder_block run_id phase kinds s pre mid post Hwf HL Hb). split; [by intros T|].
    intros [] s' [= <-].
    apply (wf_reordered (moved (xs2 kinds pre mid) ∘ moved (xs1 kinds mid)) s Hwf); [|exact Hd].
    intros k. simpl. by rewrite !moved_same.
  - destruct (reorder_gap run_id phase kinds s i j x y Hwf Hf Hi Hj Hy Hny) as (s' & E & _ & Hser).
    rewrite E. split; [|done]. intros T. unfold serial. simpl. by rewrite Hser.
Qed.
End reorder_theorem.

#[export] Hint Resolve safe_reorder_run_phase_steps : safe.

(** ** Example *)

Module RunsExample.
#[local] Instance clock : Clock := λ n, (1000000 * Z.of_nat n)%Z.

Definition with_steps (l : list (string * string)) : store :=
  ((create_sequence "s" EmptyString false false "windows" "oobe" None ;;
   create_provisioning_run 1 "winpe" ;;
   for_each l (λ pk, append_run_step 1 pk.1 pk.2 (JObj []) ;; mret tt)) empty_store).2.

Definition apart : store := with_steps [("osd", "verify"); ("winpe", "wipe"); ("osd", "install")].
Definition together : store := with_steps [("winpe", "wipe"); ("osd", "verify"); ("osd", "extra"); ("osd", "install")].

Definition shown (s : store) : list (Z * Z * string) :=
  (λ kr, (rs_order_index kr.2, kr.1, rs_kind kr.2)) <$> list_run_steps 1 (tbl s).

Lemma together_wf : wf_store together.
Proof.
  assert (safe (create_sequence "s" EmptyString false false "windows" "oobe" None ;;
   create_provisioning_run 1 "winpe" ;;
   for_each [("winpe", "wipe"); ("osd", "verify"); ("osd", "extra"); ("osd", "install")]
     (λ pk, append_run_step 1 pk.1 pk.2 (JObj []) ;; mret tt))) as Hs by safe_solve.
  apply (Hs empty_store empty_store_wf).
Qed.

Lemma reorder_run_phase_steps_spec_witness :
  ∃ s', reorder_run_phase_steps 1 "osd" ["install"; "verify"] together = (Ret tt, s') ∧
    shown s' = [(0, 1, "wipe"); (1, 4, "install"); (2, 2, "verify"); (3, 3, "extra")]%Z.
Proof.
  destruct (reorder_run_phase_steps_spec 1 "osd" ["install"; "verify"] together together_wf) as [H1 _].
  destruct (H1 (take 1 (list_run_steps 1 (tbl together))) (drop 1 (list_run_steps 1 (tbl together))) [])
    as (s' & E & Hl & _).
  - vm_compute. reflexivity.
  - split; [|split]; eapply bool_decide_unpack; vm_compute; exact I.
  - exists s'. split; [exact E|]. unfold shown. rewrite Hl. vm_compute. reflexivity.
Defined.

(** A phase whose steps do not stand together is not reordered. *)
Example reorder_apart :
  (reorder_run_phase_steps 1 "osd" ["install"; "verify"] apart).1 = Exc order_violation ∧
  shown (reorder_run_phase_steps 1 "osd" ["install"; "verify"] apart).2 = shown apart.
Proof. by vm_compute. Qed.
End RunsExample.
