(* ===== verification/HashFiles.v ===== *)
(** * Files of captured hardware hashes

    [_persist_autopilot_hash] of [web/winpe_endpoints.py] writes a captured hash as a CSV
    file; [get_hash_files] of [web/app.py] lists the files with the serial number each
    holds.  Python's [csv] writes and reads the rows. *)

From stdpp Require Import base gmap list strings pretty.
From Stdlib Require Import ZArith Lia Ascii.
From S2P Require Import Prelude Text Digest.

(** ** Times in file names *)

(** The civil date of a day counted from 1970-01-01. *)
Definition civil (days : Z) : Z * Z * Z :=
  let z := (days + 719468)%Z in
  let era := (z / 146097)%Z in
  let doe := (z mod 146097)%Z in
  let yoe := ((doe - doe / 1460 + doe / 36524 - doe / 146096) / 365)%Z in
  let doy := (doe - (365 * yoe + yoe / 4 - yoe / 100))%Z in
  let mp := ((5 * doy + 2) / 153)%Z in
  let m := if (mp <? 10)%Z then (mp + 3)%Z else (mp - 9)%Z in
  let y := (yoe + era * 400 + (if (m <=? 2)%Z then 1 else 0))%Z in
  (y, m, doy - (153 * mp + 2) / 5 + 1)%Z.

Definition two_digits (n : Z) : string := if (n <? 10)%Z then "0" +:+ pretty n else pretty n.

(** [strftime("%Y%m%dT%H%M%SZ")] of a time in microseconds. *)
Definition stamp (now : Z) : string :=
  let seconds := (now / 1000000)%Z in
  let '(y, m, d) := civil (seconds / 86400) in
  let s := (seconds mod 86400)%Z in
  pretty y +:+ two_digits m +:+ two_digits d +:+ "T" +:+ two_digits (s / 3600) +:+
    two_digits (s / 60 mod 60) +:+ two_digits (s mod 60) +:+ "Z".

Example stamps :
  stamp 1700000000123456 = "20231114T221320Z" ∧ stamp 951782399000000 = "20000228T235959Z" ∧
  stamp 951782400000000 = "20000229T000000Z" ∧ stamp 0 = "19700101T000000Z".
Proof. vm_compute. repeat split. Qed.

(** ** Names *)

(** [str.isalnum] on one character. *)
Definition is_alnum (c : ascii) : bool :=
  let n := PyStr.code c in
  bool_decide ((48 ≤ n ≤ 57) ∨ (65 ≤ n ≤ 90) ∨ (97 ≤ n ≤ 122) ∨ n = 170 ∨ n = 178 ∨ n = 179 ∨ n = 181 ∨
    n = 185 ∨ n = 186 ∨ (188 ≤ n ≤ 190) ∨ (192 ≤ n ∧ n ≠ 215 ∧ n ≠ 247))%N.

Definition name_char (c : ascii) : bool := is_alnum c || bool_decide (c = "-"%char ∨ c = "_"%char).

Fixpoint filter_chars (p : ascii → bool) (s : string) : string :=
  match s with
  | EmptyString => EmptyString
  | String c s => if p c then String c (filter_chars p s) else filter_chars p s
  end.

Definition safe_name (s d : string) : string := PyStr.or_else (filter_chars name_char s) d.

Definition hash_file_name (now vmid : Z) (serial source : string) : string :=
  stamp now +:+ "-vm" +:+ pretty vmid +:+ "-" +:+ safe_name serial "noserial" +:+ "-" +:+
    safe_name source "hash" +:+ ".csv".

(** ** Comma-separated values *)

Definition quote : ascii := ch 34.
Definition cr : ascii := ch 13.
Definition lf : ascii := ch 10.

Definition is_newline (c : ascii) : bool := bool_decide (c = cr ∨ c = lf).

(** A field is quoted when it holds the delimiter, a quote or an end of line. *)
Fixpoint needs_quotes (s : string) : bool :=
  match s with
  | EmptyString => false
  | String c s => bool_decide (c = ","%char ∨ c = quote) || is_newline c || needs_quotes s
  end.

Fixpoint double_quotes (s : string) : string :=
  match s with
  | EmptyString => EmptyString
  | String c s => if decide (c = quote) then String quote (String quote (double_quotes s))
                  else String c (double_quotes s)
  end.

Definition csv_field (s : string) : string :=
  if needs_quotes s then String quote (double_quotes s +:+ String quote EmptyString) else s.

(** [writerow] on a row of two fields or more. *)
Definition csv_row (row : list string) : string :=
  PyStr.join "," (csv_field <$> row) +:+ String cr (String lf EmptyString).

Fixpoint csv_text (rows : list (list string)) : string :=
  match rows with [] => EmptyString | r :: rows => csv_row r +:+ csv_text rows end.

(** The states of [csv.reader]; after a carriage return a line feed belongs to it. *)
Inductive csv_state : Type := StartRecord | StartField | InField | InQuoted | QuoteInQuoted | AfterCR.

Inductive csv_event : Type := Keep | Char (c : ascii) | EndField | EndRow | EmptyRow.

Definition newline_state (c : ascii) : csv_state := if decide (c = cr) then AfterCR else StartRecord.

Definition start_field (c : ascii) : csv_state * csv_event :=
  if is_newline c then (newline_state c, EndRow)
  else if decide (c = quote) then (InQuoted, Keep)
  else if decide (c = ","%char) then (StartField, EndField)
  else (InField, Char c).

(** What the reader does with a character. *)
Definition csv_step (st : csv_state) (c : ascii) : csv_state * csv_event :=
  match st with
  | StartField => start_field c
  | StartRecord => if is_newline c then (newline_state c, EmptyRow) else start_field c
  | AfterCR =>
      if decide (c = lf) then (StartRecord, Keep)
      else if is_newline c then (newline_state c, EmptyRow) else start_field c
  | InField =>
      if is_newline c then (newline_state c, EndRow)
      else if decide (c = ","%char) then (StartField, EndField)
      else (InField, Char c)
  | InQuoted => if decide (c = quote) then (QuoteInQuoted, Keep) else (InQuoted, Char c)
  | QuoteInQuoted =>
      if decide (c = quote) then (InQuoted, Char quote)
      else if decide (c = ","%char) then (StartField, EndField)
      else if is_newline c then (newline_state c, EndRow)
      else (InField, Char c)
  end.

(** Put a character before the first field, a field before the first row. *)
Definition push_char (c : ascii) (rows : list (list string)) : list (list string) :=
  match rows with
  | (f :: r) :: rows => (String c f :: r) :: rows
  | [] :: rows => [String c EmptyString] :: rows
  | [] => [[String c EmptyString]]
  end.
Definition push_field (rows : list (list string)) : list (list string) :=
  match rows with r :: rows => (EmptyString :: r) :: rows | [] => [[EmptyString]] end.

Definition emit (e : csv_event) (rows : list (list string)) : list (list string) :=
  match e with
  | Keep => rows
  | Char c => push_char c rows
  | EndField => push_field rows
  | EndRow => [EmptyString] :: rows
  | EmptyRow => [] :: rows
  end.

(** The rest of the text from a state: the rows, where the first field of the first row
    continues the field that is being read. *)
Fixpoint csv_read (st : csv_state) (s : string) : list (list string) :=
  match s with
  | EmptyString => match st with StartRecord | AfterCR => [] | _ => [[EmptyString]] end
  | String c s => match csv_step st c with (st', e) => emit e (csv_read st' s) end
  end.

(** [csv.field_size_limit()] *)
Definition field_limit : nat := 131072.

(** [list(csv.reader(fh))]; [None] when a field is too long. *)
Definition csv_rows (text : string) : option (list (list string)) :=
  let rows := csv_read StartRecord text in
  if forallb (forallb (λ f, (String.length f <=? field_limit)%nat)) rows then Some rows else None.

(** ** The directory *)

(** The files of [HASH_DIR], by name. *)
Definition hash_dir : Type := gmap string string.

(** The most bytes the name of a file may have. *)
Definition NAME_MAX : nat := 255.

(** What the file system says when a file of the directory is opened for writing: a name that
    is too long is refused always, and [disk] is what else may go wrong. *)
Definition open_for_writing (disk : string → outcome unit) (name : string) : outcome unit :=
  if decide (NAME_MAX < length (utf8 name))%nat then Exc (CustomError "OSError" "File name too long")
  else disk name.

Definition hash_file_text (serial product_id hardware_hash : string) : string :=
  csv_text [["Device Serial Number"; "Windows Product ID"; "Hardware Hash"];
            [serial; product_id; hardware_hash]].

Definition _persist_autopilot_hash (disk : string → outcome unit) (now vmid : Z)
    (serial product_id hardware_hash source : string) (dir : hash_dir) : outcome hash_dir :=
  let out := hash_file_name now vmid serial source in
  _ ← open_for_writing disk out;
  Ret (<[out := hash_file_text serial product_id hardware_hash]> dir).

(** The serial number in a file: the first field of the second row. *)
Definition serial_in (text : string) : string :=
  match csv_rows text with
  | Some (_ :: (f :: _) :: _) => f
  | _ => EmptyString
  end.

Fixpoint ends_with (suffix s : string) : bool :=
  bool_decide (s = suffix) || match s with String _ s => ends_with suffix s | EmptyString => false end.

(** [f.stem] of a name that ends in [".csv"]. *)
Definition stem (name : string) : string := String.substring 0 (String.length name - 4) name.

Record hash_entry : Type := HashEntry { he_name : string; he_vm_name : string; he_serial : string }.

(** The entries of [get_hash_files]; what [stat] and the vendor of the serial number add to
    an entry is left out. *)
Definition get_hash_files (dir : hash_dir) : list hash_entry :=
  (λ kf, HashEntry kf.1 (replace "_hwid" EmptyString (stem kf.1)) (serial_in kf.2)) <$>
    isort (cmp_on fst cmp_str) (select_where (λ kf, ends_with ".csv" kf.1 = true) dir).

(** ** What is written is read back *)

Fixpoint push_string (f : string) (rows : list (list string)) : list (list string) :=
  match f with EmptyString => rows | String c f => push_char c (push_string f rows) end.

Lemma push_string_cons f g r rows : push_string f ((g :: r) :: rows) = ((f +:+ g) :: r) :: rows.
Proof. induction f as [|c f IH]; [done|]. simpl. rewrite IH. by rewrite app_cons. Qed.

(** The text that follows a field begins with a delimiter or an end of line. *)
Definition after_field (s : string) : Prop := ∃ c s', s = String c s' ∧ (c = ","%char ∨ c = cr).

Lemma read_unquoted f s :
  needs_quotes f = false → csv_read InField (f +:+ s) = push_string f (csv_read InField s).
Proof.
  induction f as [|c f IH]; [by rewrite app_nil|]. rewrite app_cons.
  intros [[Hc Hn]%orb_false_iff Hf]%orb_false_iff. apply bool_decide_eq_false in Hc.
  cbn [csv_read csv_step push_string]. rewrite Hn, decide_False by tauto. simpl. by rewrite IH.
Qed.

Lemma start_field_end s : after_field s → csv_read StartField s = csv_read InField s.
Proof. by intros (c & s' & -> & [-> | ->]). Qed.

Lemma start_field_char c s :
  c ≠ quote → csv_read StartField (String c s) = csv_read InField (String c s).
Proof. intros Hc. cbn [csv_read csv_step]. unfold start_field. by rewrite (decide_False (P := c = quote)). Qed.

Lemma read_quoted f s :
  csv_read InQuoted (double_quotes f +:+ String quote s) = push_string f (csv_read QuoteInQuoted s).
Proof.
  induction f as [|c f IH]; [done|].
  cbn [double_quotes push_string]. case_decide as Hc; rewrite !app_cons; cbn [csv_read csv_step].
  - subst. rewrite !decide_True by done. cbn [emit csv_read csv_step]. rewrite decide_True by done. cbn [emit]. by rewrite IH.
  - rewrite decide_False by done. cbn [emit]. by rewrite IH.
Qed.

Lemma quote_end s : after_field s → csv_read QuoteInQuoted s = csv_read InField s.
Proof. by intros (c & s' & -> & [-> | ->]). Qed.

Lemma read_field f s :
  after_field s → csv_read StartField (csv_field f +:+ s) = push_string f (csv_read InField s).
Proof.
  intros Hs. unfold csv_field. destruct (needs_quotes f) eqn:Hq.
  - rewrite app_cons, string_app_assoc, app_cons, app_nil.
    change (csv_read InQuoted (double_quotes f +:+ String quote s) = push_string f (csv_read InField s)).
    by rewrite read_quoted, quote_end.
  - rewrite <- read_unquoted by done. destruct f as [|c f]; [rewrite app_nil; by apply start_field_end|].
    rewrite app_cons. apply start_field_char. intros ->. simpl in Hq. done.
Qed.

Lemma read_row row s :
  row ≠ [] → csv_read StartField (csv_row row +:+ s) = row :: csv_read StartRecord s.
Proof.
  unfold csv_row. intros Hrow. induction row as [|f row IH]; [done|]. rewrite fmap_cons. destruct row as [|g row].
  - cbn [fmap list_fmap PyStr.join]. rewrite string_app_assoc, !app_cons, app_nil.
    rewrite read_field by (eexists _, _; split; [done|by right]).
    change (csv_read InField (String cr (String lf s))) with ([EmptyString] :: csv_read StartRecord s).
    by rewrite push_string_cons, string_app_nil_r.
  - cbn [PyStr.join fmap list_fmap]. rewrite !string_app_assoc.
    rewrite read_field by (eexists _, _; split; [by rewrite app_cons|by left]).
    rewrite app_cons, app_nil.
    change (push_string f (push_field (csv_read StartField
      (PyStr.join "," (csv_field <$> g :: row) +:+ (String cr (String lf EmptyString) +:+ s)))) =
      (f :: g :: row) :: csv_read StartRecord s).
    rewrite <- string_app_assoc, IH by done. cbn [push_field]. by rewrite push_string_cons, string_app_nil_r.
Qed.

(** A row that is not one empty field does not begin with an end of line. *)
Lemma row_start row s :
  row ≠ [] → row ≠ [EmptyString] → csv_read StartRecord (csv_row row +:+ s) = csv_read StartField (csv_row row +:+ s).
Proof.
  intros H0 H1. destruct row as [|f row]; [done|].
  assert (∃ c t, csv_row (f :: row) = String c t ∧ is_newline c = false) as (c & t & -> & Hc).
  { unfold csv_row. rewrite fmap_cons. destruct f as [|c f].
    - destruct row as [|g row]; [done|]. cbn [fmap list_fmap PyStr.join csv_field needs_quotes].
      rewrite app_nil, !app_cons. by eexists _, _.
    - unfold csv_field at 1. destruct (needs_quotes (String c f)) eqn:Hq.
      + destruct (csv_field <$> row); cbn [PyStr.join]; rewrite ?app_cons; by eexists _, _.
      + simpl in Hq. apply orb_false_iff in Hq as [[_ Hn]%orb_false_iff _].
        destruct (csv_field <$> row); cbn [PyStr.join]; rewrite ?app_cons; by eexists _, _. }
  rewrite app_cons. cbn [csv_read csv_step]. by rewrite Hc.
Qed.

Definition plain_row (row : list string) : Prop := row ≠ [] ∧ row ≠ [EmptyString].

Lemma csv_read_text rows : Forall plain_row rows → csv_read StartRecord (csv_text rows) = rows.
Proof.
  induction 1 as [|row rows [H0 H1] _ IH]; [done|]. cbn [csv_text].
  by rewrite row_start, read_row, IH.
Qed.

(** ** Names stay in the directory *)

Fixpoint all_chars (p : ascii → bool) (s : string) : bool :=
  match s with EmptyString => true | String c s => p c && all_chars p s end.

Lemma all_chars_app p s t : all_chars p (s +:+ t) = all_chars p s && all_chars p t.
Proof. induction s as [|c s IH]; [done|]. rewrite app_cons. simpl. by rewrite IH, andb_assoc. Qed.

(** A character of a file name: no slash, no backslash, no colon. *)
Definition file_char (c : ascii) : bool := name_char c || bool_decide (c = "."%char).

Lemma pretty_digit_char p x :
  (∀ k, (k < 10)%nat → p (pretty_N_char (N.of_nat k)) = true) → (x < 10)%N → p (pretty_N_char x) = true.
Proof. intros Hp Hx. specialize (Hp (N.to_nat x)). rewrite N2Nat.id in Hp. apply Hp. lia. Qed.

Lemma digit_file_char x : (x < 10)%N → file_char (pretty_N_char x) = true.
Proof.
  apply pretty_digit_char. intros k Hk.
  assert (Forall (λ k, file_char (pretty_N_char (N.of_nat k)) = true) (seq 0 10)) as Hall.
  { repeat (constructor; [by vm_compute|]). constructor. }
  rewrite Forall_forall in Hall. apply Hall, elem_of_seq. lia.
Qed.

Lemma pretty_go_file x s : all_chars file_char s = true → all_chars file_char (pretty_N_go x s) = true.
Proof.
  revert s. induction (N.lt_wf_0 x) as [x _ IH]; intros s Hs.
  destruct (decide (x = 0)%N) as [->|Hx]; [done|]. rewrite pretty_N_go_step by lia.
  apply IH; [apply N.div_lt; lia|]. cbn [all_chars].
  by rewrite digit_file_char by (apply N.mod_lt; lia).
Qed.

Lemma pretty_file (z : Z) : all_chars file_char (pretty z) = true.
Proof.
  destruct z as [|p|p]; [by vm_compute|apply (pretty_go_file (N.pos p) EmptyString eq_refl)|].
  change (pretty (Z.neg p)) with ("-" +:+ pretty_N_go (N.pos p) EmptyString).
  rewrite app_cons, app_nil. cbn [all_chars]. by rewrite pretty_go_file.
Qed.

Lemma safe_name_file s d : all_chars file_char d = true → all_chars file_char (safe_name s d) = true.
Proof.
  intros Hd. unfold safe_name.
  assert (all_chars file_char (filter_chars name_char s) = true) as Hf.
  { induction s as [|c s IH]; [done|]. cbn [filter_chars]. destruct (name_char c) eqn:Hc; [|done].
    cbn [all_chars]. unfold file_char at 1. by rewrite Hc. }
  unfold PyStr.or_else. by destruct (filter_chars name_char s).
Qed.

Lemma two_digits_file n : all_chars file_char (two_digits n) = true.
Proof. unfold two_digits. destruct (n <? 10)%Z; rewrite ?all_chars_app, pretty_file; by vm_compute. Qed.

Lemma stamp_file now : all_chars file_char (stamp now) = true.
Proof.
  unfold stamp. destruct (civil _) as [[y m] d]. rewrite !all_chars_app, !two_digits_file, pretty_file. done.
Qed.

Lemma hash_file_name_file now vmid serial source :
  all_chars file_char (hash_file_name now vmid serial source) = true.
Proof.
  unfold hash_file_name.
  rewrite !all_chars_app, stamp_file, pretty_file, !safe_name_file by by vm_compute. done.
Qed.

Lemma ends_with_app s t : ends_with t (s +:+ t) = true.
Proof.
  induction s as [|c s IH].
  - rewrite app_nil. destruct t; cbn [ends_with]; by rewrite bool_decide_eq_true_2.
  - rewrite app_cons. cbn [ends_with]. by rewrite IH, orb_true_r.
Qed.

Definition short (f : string) : Prop := (String.length f ≤ field_limit)%nat.

(** The rows of a text with short fields. *)
Lemma csv_rows_text rows : Forall plain_row rows → Forall (Forall short) rows → csv_rows (csv_text rows) = Some rows.
Proof.
  intros Hp Hs. unfold csv_rows. rewrite csv_read_text by done.
  rewrite (proj2 (forallb_forall _ _)); [done|]. intros row Hin. apply forallb_forall. intros f Hf.
  apply Nat.leb_le. rewrite Forall_forall in Hs. specialize (Hs row).
  rewrite Forall_forall in Hs. apply Hs; by apply list_elem_of_In.
Qed.

(** C34. A captured hash is listed as it was sent: whatever serial number, product and hash an
    agent reports, commas, quotes and line ends included, as long as no field exceeds the
    limit of the reader.  The name of the file made for them has no character that leaves the
    directory.  If the name has at most 255 bytes and the file system lets the file be opened,
    the file is written, and nothing else: it reads back as the header and exactly these three
    fields, and the list of files has an entry with exactly this serial number.  Otherwise
    [OSError] or what the file system said is raised, and nothing is written. *)
Theorem captured_hash_is_listed (disk : string → outcome unit) (now vmid : Z)
    (serial product_id hardware_hash source : string) (dir : hash_dir) :
  short serial → short product_id → short hardware_hash →
  let name := hash_file_name now vmid serial source in
  all_chars file_char name = true ∧
  match _persist_autopilot_hash disk now vmid serial product_id hardware_hash source dir with
  | Ret dir' =>
      (length (utf8 name) ≤ NAME_MAX)%nat ∧ disk name = Ret tt ∧
      (∃ text, dir' = <[name := text]> dir ∧
         csv_rows text = Some [["Device Serial Number"; "Windows Product ID"; "Hardware Hash"];
                               [serial; product_id; hardware_hash]]) ∧
      ∃ vm_name, HashEntry name vm_name serial ∈ get_hash_files dir'
  | Exc e =>
      (NAME_MAX < length (utf8 name))%nat ∧ e = CustomError "OSError" "File name too long" ∨
      disk name = Exc e
  end.
Proof.
  intros H1 H2 H3 name. split; [apply hash_file_name_file|].
  unfold _persist_autopilot_hash, open_for_writing. cbv zeta. fold name.
  destruct (decide (NAME_MAX < length (utf8 name))%nat) as [Hlong|Hfits]; [by left|].
  destruct (disk name) as [[]|e] eqn:Hdisk; cbn [mbind outcome_bind]; [|by right].
  set (rows := [["Device Serial Number"; "Windows Product ID"; "Hardware Hash"]; [serial; product_id; hardware_hash]]).
  assert (csv_rows (hash_file_text serial product_id hardware_hash) = Some rows) as Hrows.
  { apply csv_rows_text; [by repeat constructor|].
    repeat first [assumption | apply Nat.leb_le; reflexivity | constructor]. }
  split; [lia|]. split; [reflexivity|]. split; [eexists; split; [reflexivity|exact Hrows]|].
  eexists. apply list_elem_of_fmap. exists (name, hash_file_text serial product_id hardware_hash). split.
  - f_equal. change (serial = serial_in (hash_file_text serial product_id hardware_hash)). unfold serial_in.
    by rewrite Hrows.
  - apply elem_of_isort, elem_of_select_where. split; [|apply lookup_insert_eq]. simpl.
    unfold name, hash_file_name. rewrite <- !string_app_assoc. apply ends_with_app.
Qed.

Lemma captured_hash_is_listed_witness :
  match _persist_autopilot_hash (λ _, Ret tt) 1700000000000000 100 "../PF,3A" "12" "T0E=" "winpe" ∅ with
  | Ret dir => ∃ vm_name, HashEntry (hash_file_name 1700000000000000 100 "../PF,3A" "winpe") vm_name "../PF,3A" ∈
      get_hash_files dir
  | Exc _ => False
  end.
Proof.
  pose proof (captured_hash_is_listed (λ _, Ret tt) 1700000000000000 100 "../PF,3A" "12" "T0E=" "winpe" ∅
    ltac:(apply Nat.leb_le; reflexivity) ltac:(apply Nat.leb_le; reflexivity) ltac:(apply Nat.leb_le; reflexivity))
    as [_ Hres].
  assert (∃ dir, _persist_autopilot_hash (λ _, Ret tt) 1700000000000000 100 "../PF,3A" "12" "T0E=" "winpe" ∅ = Ret dir)
    as [dir E] by (eexists; vm_compute; reflexivity).
  rewrite E in *. destruct Hres as (_ & _ & _ & Hin). exact Hin.
Defined.

Example a_hash_file :
  get_hash_files <$> _persist_autopilot_hash (λ _, Ret tt) 1700000000000000 100 "../PF,3A" "12" "T0E=" "winpe" ∅ =
    Ret [HashEntry "20231114T221320Z-vm100-PF3A-winpe.csv" "20231114T221320Z-vm100-PF3A-winpe" "../PF,3A"].
Proof. vm_compute. reflexivity. Qed.

(** A serial number of 230 characters makes a name that no file can have. *)
Example long_serial_not_written :
  _persist_autopilot_hash (λ _, Ret tt) 1700000000000000 100
    (String.string_of_list_ascii (repeat "A"%char 230)) "12" "T0E=" "winpe" ∅ =
    Exc (CustomError "OSError" "File name too long").
Proof. vm_compute. reflexivity. Qed.
