(* ===== verification/WinpeToken.v ===== *)
(** * Bearer tokens of the WinPE agents

    [web/winpe_token.py]: a token is the JSON of a run and an expiry time, in base64 for
    URLs, a dot, and the HMAC-SHA256 of the first part under a shared secret.  The
    decoder is Python's, which skips characters outside of the alphabet. *)

From stdpp Require Import base list strings pretty.
From Stdlib Require Import ZArith Lia Ascii.
From S2P Require Import Prelude Json Text Digest JsonParse.
#[local] Open Scope N_scope.

(** ** base64 for URLs *)

Definition map_string (f : ascii → ascii) : string → string :=
  fix go s := match s with EmptyString => EmptyString | String c s => String (f c) (go s) end.

(** The translation between the two alphabets. *)
Definition to_url (c : ascii) : ascii :=
  if is_char 43 c then ch 45 else if is_char 47 c then ch 95 else c.
Definition from_url (c : ascii) : ascii :=
  if is_char 45 c then ch 43 else if is_char 95 c then ch 47 else c.

(** [s.rstrip("=")] *)
Fixpoint rstrip_pad (s : string) : string :=
  match s with
  | EmptyString => EmptyString
  | String c s =>
      match rstrip_pad s with
      | EmptyString => if is_char 61 c then EmptyString else String c EmptyString
      | t => String c t
      end
  end.

Definition _b64url (bs : list N) : string := rstrip_pad (map_string to_url (base64 bs)).

(** [binascii.a2b_base64] without strict mode: [quad] characters of the current group were
    read, [left] holds their remaining bits, [pads] counts padding.  [None] when it
    raises. *)
Fixpoint a2b (quad left pads : N) (s : string) : option (list N) :=
  match s with
  | EmptyString => if quad =? 0 then Some [] else None
  | String c s =>
      if is_char 61 c then
        if (2 <=? quad) && (4 <=? quad + (pads + 1)) then Some []
        else a2b quad left (if 2 <=? quad then pads + 1 else pads) s
      else
        match base64_value c with
        | None => a2b quad left pads s
        | Some v =>
            match quad with
            | 0 => a2b 1 v 0 s
            | 1 => cons (left * 4 + v / 16) <$> a2b 2 (v mod 16) 0 s
            | 2 => cons (left * 16 + v / 4) <$> a2b 3 (v mod 4) 0 s
            | _ => cons (left * 64 + v) <$> a2b 0 0 0 s
            end
        end
  end.

(** Text that is not ASCII cannot be decoded. *)
Definition is_ascii (s : string) : bool :=
  forallb (λ c, N_of_ascii c <? 128) (String.list_ascii_of_string s).

(** ["=" * (-len(s) % 4)] *)
Definition padding (s : string) : string :=
  match Nat.modulo (String.length s) 4 with
  | 1%nat => "==="
  | 2%nat => "=="
  | 3%nat => "="
  | _ => EmptyString
  end.

Definition _b64url_decode (s : string) : option (list N) :=
  if is_ascii s then a2b 0 0 0 (map_string from_url (s +:+ padding s)) else None.

(** ** Tokens *)

Definition token_invalid (message : string) : exc := CustomError "TokenInvalid" message.
Definition token_expired : exc := CustomError "TokenExpired" "token expired".
Definition secret_missing : exc := CustomError "TokenSecretMissing" "AUTOPILOT_WINPE_TOKEN_SECRET is not set".

(** The environment variable, if it is set. *)
Definition _secret (env : option string) : outcome (list N) :=
  match env with
  | None | Some EmptyString => Exc secret_missing
  | Some s => Ret (utf8 s)
  end.

Definition ascii_bytes (s : string) : list N := N_of_ascii <$> String.list_ascii_of_string s.

(** [{"run_id": run_id, "exp": int(time.time()) + ttl_seconds}] *)
Definition token_payload (run_id exp : Z) : json := JObj [("run_id", JInt run_id); ("exp", JInt exp)].

Definition token_head (run_id exp : Z) : string := _b64url (utf8 (json_dumps (token_payload run_id exp))).

Definition sign (env : option string) (now run_id ttl_seconds : Z) : outcome string :=
  let head := token_head run_id (now + ttl_seconds) in
  key ← _secret env;
  Ret (head +:+ "." +:+ _b64url (hmac_sha256 key (ascii_bytes head))).

(** [token.rsplit(".", 1)] *)
Fixpoint rsplit_dot (s : string) : option (string * string) :=
  match s with
  | EmptyString => None
  | String c s =>
      match rsplit_dot s with
      | Some (h, t) => Some (String c h, t)
      | None => if is_char 46 c then Some (EmptyString, s) else None
      end
  end.

(** [bytes.decode("utf-8")] for characters below 256. *)
Fixpoint utf8_decode (bs : list N) : option string :=
  match bs with
  | [] => Some EmptyString
  | b :: bs =>
      if b <? 128 then String (ascii_of_N b) <$> utf8_decode bs
      else match bs with
           | b' :: bs =>
               if ((b =? 194) || (b =? 195)) && (128 <=? b') && (b' <? 192)
               then String (ascii_of_N ((b - 192) * 64 + (b' - 128))) <$> utf8_decode bs
               else None
           | [] => None
           end
  end.

(** [payload.get("exp", 0)] and the check of the run. *)
Definition check_payload (now : Z) (payload : json) : outcome json :=
  match payload with
  | JObj o =>
      exp ← py_int (default (JInt 0) (assoc "exp" o));
      if (exp <? now)%Z then Exc token_expired
      else match assoc "run_id" o with
           | None => Exc (token_invalid "payload missing run_id")
           | Some _ => Ret payload
           end
  | _ => Exc AttributeError
  end.

(** [json.loads(_b64url_decode(head))] *)
Definition read_payload (head : string) : option json :=
  bytes ← _b64url_decode head; text ← utf8_decode bytes; json_loads text.

(** The signature is compared before the payload is read. *)
Definition verify (env : option string) (now : Z) (token : string) : outcome json :=
  match rsplit_dot token with
  | None => Exc (token_invalid "malformed token")
  | Some (head, sig_b64) =>
      key ← _secret env;
      if is_ascii head then
        match _b64url_decode sig_b64 with
        | None => Exc (token_invalid "malformed signature")
        | Some actual =>
            if decide (actual = hmac_sha256 key (ascii_bytes head)) then
              match read_payload head with
              | None => Exc (token_invalid "malformed payload")
              | Some payload => check_payload now payload
              end
            else Exc (token_invalid "signature mismatch")
        end
      else Exc (CustomError "UnicodeEncodeError" "ascii")
  end.

Example token_example :
  let env := Some "secret" in
  let later t key := match sign env 1700000000 7 3600 with Ret token => verify key t token | Exc e => Exc e end in
  later 1700003600%Z env = Ret (JObj [("exp", JInt 1700003600); ("run_id", JInt 7)]) ∧
  later 1700003601%Z env = Exc token_expired ∧
  later 1700000000%Z (Some "other") = Exc (token_invalid "signature mismatch") ∧
  later 1700000000%Z None = Exc secret_missing.
Proof. vm_compute. repeat split. Qed.

(** ** The signature of a token *)

Lemma base64_chars n :
  n < 64 → base64_value (from_url (to_url (base64_char n))) = Some n ∧
    is_char 61 (to_url (base64_char n)) = false ∧ is_char 61 (from_url (to_url (base64_char n))) = false ∧
    is_char 46 (to_url (base64_char n)) = false ∧ N_of_ascii (to_url (base64_char n)) <? 128 = true.
Proof.
  intros Hn. assert (Forall (λ k, let c := to_url (base64_char (N.of_nat k)) in
    base64_value (from_url c) = Some (N.of_nat k) ∧ is_char 61 c = false ∧
    is_char 61 (from_url c) = false ∧ is_char 46 c = false ∧ N_of_ascii c <? 128 = true) (seq 0 64)) as Hall.
  { repeat (constructor; [by vm_compute|]). constructor. }
  rewrite Forall_forall in Hall. specialize (Hall (N.to_nat n)).
  rewrite N2Nat.id in Hall. apply Hall. apply elem_of_seq. lia.
Qed.

(** What base64 writes for a list of bytes, without the padding. *)
Definition url_char (n : N) : ascii := to_url (base64_char n).

Fixpoint b64url_text (bs : list N) : string :=
  match bs with
  | [] => EmptyString
  | [a] => String (url_char (a / 4)) (String (url_char (a mod 4 * 16)) EmptyString)
  | [a; b] =>
      String (url_char (a / 4)) (String (url_char (a mod 4 * 16 + b / 16))
        (String (url_char (b mod 16 * 4)) EmptyString))
  | a :: b :: c :: bs =>
      String (url_char (a / 4)) (String (url_char (a mod 4 * 16 + b / 16))
        (String (url_char (b mod 16 * 4 + c / 64)) (String (url_char (c mod 64)) (b64url_text bs))))
  end.

Lemma rstrip_pad_cons c s :
  is_char 61 c = false → rstrip_pad (String c s) = String c (rstrip_pad s).
Proof. intros Hc. simpl. rewrite Hc. by destruct (rstrip_pad s). Qed.

#[local] Ltac Zify.zify_post_hook ::= Z.to_euclidean_division_equations.

Ltac url_char_facts :=
  repeat match goal with
  | |- context [rstrip_pad (String (to_url (base64_char ?n)) _)] =>
      rewrite rstrip_pad_cons by (apply base64_chars; lia)
  end.

Lemma b64url_spec bs : Forall (λ b, b < 256) bs → _b64url bs = b64url_text bs.
Proof.
  unfold _b64url.
  induction bs as [|a|a b|a b c bs IH] using three_ind; intros Hb;
    repeat match goal with H : Forall _ (_ :: _) |- _ => apply Forall_cons in H as [? H] end;
    cbn [base64 map_string b64url_text]; unfold url_char; url_char_facts; try (by vm_compute).
  do 4 f_equal. by apply IH.
Qed.

(** A character of the alphabet is read as its value. *)
Lemma a2b_char quad left pads n s :
  n < 64 →
  a2b quad left pads (String (from_url (url_char n)) s) =
    match quad with
    | 0 => a2b 1 n 0 s
    | 1 => cons (left * 4 + n / 16) <$> a2b 2 (n mod 16) 0 s
    | 2 => cons (left * 16 + n / 4) <$> a2b 3 (n mod 4) 0 s
    | _ => cons (left * 64 + n) <$> a2b 0 0 0 s
    end.
Proof.
  intros Hn. unfold url_char. destruct (base64_chars n Hn) as (Hv & _ & Hc & _). cbn [a2b].
  rewrite Hc, Hv. done.
Qed.

Lemma map_string_app f s t : map_string f (s +:+ t) = map_string f s +:+ map_string f t.
Proof. induction s as [|c s IH]; [done|]. rewrite app_cons. simpl. by rewrite IH, app_cons. Qed.

Lemma map_from_padding s : map_string from_url (padding s) = padding s.
Proof. unfold padding. by repeat case_match. Qed.

(** A whole group changes nothing in the padding. *)
Lemma padding_group p q r t s : padding (String p (String q (String r (String t s)))) = padding s.
Proof.
  unfold padding. simpl String.length.
  replace (S (S (S (S (String.length s))))) with (String.length s + 1 * 4)%nat by lia.
  by rewrite Nat.Div0.mod_add.
Qed.

Lemma a2b_0 left pads n s : n < 64 → a2b 0 left pads (String (from_url (url_char n)) s) = a2b 1 n 0 s.
Proof. apply a2b_char. Qed.
Lemma a2b_1 left pads n s :
  n < 64 → a2b 1 left pads (String (from_url (url_char n)) s) = cons (left * 4 + n / 16) <$> a2b 2 (n mod 16) 0 s.
Proof. apply a2b_char. Qed.
Lemma a2b_2 left pads n s :
  n < 64 → a2b 2 left pads (String (from_url (url_char n)) s) = cons (left * 16 + n / 4) <$> a2b 3 (n mod 4) 0 s.
Proof. apply a2b_char. Qed.
Lemma a2b_3 left pads n s :
  n < 64 → a2b 3 left pads (String (from_url (url_char n)) s) = cons (left * 64 + n) <$> a2b 0 0 0 s.
Proof. apply a2b_char. Qed.
Lemma a2b_pad2 left : a2b 2 left 0 "==" = Some [].
Proof. done. Qed.
Lemma a2b_pad1 left : a2b 3 left 0 "=" = Some [].
Proof. done. Qed.

Ltac a2b_steps :=
  rewrite a2b_0 by lia; rewrite a2b_1 by lia; rewrite ?a2b_2 by lia; rewrite ?a2b_3 by lia.

Lemma a2b_text bs :
  Forall (λ b, b < 256) bs →
  a2b 0 0 0 (map_string from_url (b64url_text bs) +:+ padding (b64url_text bs)) = Some bs.
Proof.
  induction bs as [|a|a b|a b c bs IH] using three_ind; intros Hb;
    repeat match goal with H : Forall _ (_ :: _) |- _ => apply Forall_cons in H as [? H] end;
    cbn [b64url_text map_string]; rewrite ?padding_group, ?app_cons.
  - done.
  - a2b_steps. change (padding _) with "==". rewrite app_nil, a2b_pad2. cbn [fmap option_fmap option_map].
    do 2 f_equal. lia.
  - a2b_steps. change (padding _) with "=". rewrite app_nil, a2b_pad1. cbn [fmap option_fmap option_map].
    repeat f_equal; lia.
  - a2b_steps. rewrite IH by done. cbn [fmap option_fmap option_map]. repeat f_equal; lia.
Qed.

Lemma is_ascii_cons c s : is_ascii (String c s) = (N_of_ascii c <? 128) && is_ascii s.
Proof. done. Qed.

Lemma b64url_ascii bs : Forall (λ b, b < 256) bs → is_ascii (b64url_text bs) = true.
Proof.
  induction bs as [|a|a b|a b c bs IH] using three_ind; intros Hb;
    repeat match goal with H : Forall _ (_ :: _) |- _ => apply Forall_cons in H as [? H] end;
    cbn [b64url_text]; rewrite ?is_ascii_cons; unfold url_char;
    repeat match goal with |- context [N_of_ascii (to_url (base64_char ?n)) <? 128] =>
      rewrite (proj2 (proj2 (proj2 (proj2 (base64_chars n ltac:(lia)))))) end; simpl; auto.
Qed.

Lemma b64url_roundtrip bs : Forall (λ b, b < 256) bs → _b64url_decode (_b64url bs) = Some bs.
Proof.
  intros Hb. unfold _b64url_decode. rewrite b64url_spec, b64url_ascii by done.
  rewrite map_string_app, map_from_padding. by apply a2b_text.
Qed.

Lemma b64url_no_dot bs : Forall (λ b, b < 256) bs → rsplit_dot (_b64url bs) = None.
Proof.
  intros Hb. rewrite b64url_spec by done. revert Hb.
  induction bs as [|a|a b|a b c bs IH] using three_ind; intros Hb;
    repeat match goal with H : Forall _ (_ :: _) |- _ => apply Forall_cons in H as [? H] end;
    cbn [b64url_text rsplit_dot]; unfold url_char; rewrite ?IH by done;
    repeat match goal with |- context [is_char 46 (to_url (base64_char ?n))] =>
      rewrite (proj1 (proj2 (proj2 (proj2 (base64_chars n ltac:(lia)))))) end; done.
Qed.

Lemma rsplit_dot_app h t : rsplit_dot t = None → rsplit_dot (h +:+ "." +:+ t) = Some (h, t).
Proof.
  intros Ht. induction h as [|c h IH].
  - rewrite app_nil. change ("." +:+ t) with (String "."%char (EmptyString +:+ t)).
    rewrite app_nil. cbn [rsplit_dot]. by rewrite Ht.
  - rewrite app_cons. cbn [rsplit_dot]. by rewrite IH.
Qed.

Lemma utf8_decode_utf8 s : utf8_decode (utf8 s) = Some s.
Proof.
  induction s as [|c s IH]; [done|]. cbn [utf8]. cbv zeta.
  pose proof (N_ascii_bounded c) as Hc. destruct (N_of_ascii c <? 128) eqn:E.
  - cbn [utf8_decode]. rewrite E, IH. simpl. by rewrite ascii_N_embedding.
  - apply N.ltb_ge in E. cbn [utf8_decode].
    assert (N_of_ascii c / 64 = 2 ∨ N_of_ascii c / 64 = 3) as Hq by lia.
    assert (N_of_ascii c mod 64 < 64) as Hm by lia.
    assert (192 + N_of_ascii c / 64 <? 128 = false) as -> by (apply N.ltb_ge; lia).
    assert (((192 + N_of_ascii c / 64 =? 194) || (192 + N_of_ascii c / 64 =? 195)) &&
      (128 <=? 128 + N_of_ascii c mod 64) && (128 + N_of_ascii c mod 64 <? 192) = true) as ->.
    { rewrite !andb_true_iff, orb_true_iff, !N.eqb_eq, N.leb_le, N.ltb_lt. lia. }
    rewrite IH. simpl. do 2 f_equal. rewrite <- (ascii_N_embedding c) at 3. f_equal. lia.
Qed.

Lemma utf8_bytes s : Forall (λ b, b < 256) (utf8 s).
Proof.
  induction s as [|c s IH]; [done|]. cbn [utf8]. cbv zeta. pose proof (N_ascii_bounded c).
  destruct (N_of_ascii c <? 128); repeat constructor; try done; lia.
Qed.

Lemma to_bytes_bytes len n : Forall (λ b, b < 256) (to_bytes len n).
Proof.
  revert n. induction len as [|len IH]; intros n; simpl; [done|].
  apply Forall_app. split; [apply IH|]. repeat constructor. lia.
Qed.

Lemma hmac_bytes key message : Forall (λ b, b < 256) (hmac_sha256 key message).
Proof.
  unfold hmac_sha256, sha256. cbv zeta. apply Forall_concat, Forall_fmap, Forall_true.
  intros w. apply to_bytes_bytes.
Qed.

Lemma token_payload_wf run_id exp : wf_json (token_payload run_id exp).
Proof. by apply wf_jsonb_wf. Qed.

(** The head of a token says which run it is for and when it expires. *)
Lemma read_token_head run_id exp :
  read_payload (token_head run_id exp) = Some (JObj [("exp", JInt exp); ("run_id", JInt run_id)]).
Proof.
  unfold read_payload, token_head. rewrite b64url_roundtrip by apply utf8_bytes.
  cbn [mbind option_bind]. rewrite utf8_decode_utf8. cbn [mbind option_bind].
  by rewrite json_loads_dumps by apply token_payload_wf.
Qed.

Lemma token_head_ascii run_id exp : is_ascii (token_head run_id exp) = true.
Proof. unfold token_head. rewrite b64url_spec by apply utf8_bytes. apply b64url_ascii, utf8_bytes. Qed.

(** ** What tokens promise *)

(** The text of a token. *)
Definition signed (secret : string) (run_id exp : Z) : string :=
  token_head run_id exp +:+ "." +:+
    _b64url (hmac_sha256 (utf8 secret) (ascii_bytes (token_head run_id exp))).

Lemma secret_set secret : secret ≠ EmptyString → _secret (Some secret) = Ret (utf8 secret).
Proof. by destruct secret. Qed.

Lemma sign_signed secret now run_id ttl_seconds :
  secret ≠ EmptyString →
  sign (Some secret) now run_id ttl_seconds = Ret (signed secret run_id (now + ttl_seconds)).
Proof. intros Hs. unfold sign. by rewrite secret_set. Qed.

Lemma verify_signed secret run_id exp later :
  secret ≠ EmptyString →
  verify (Some secret) later (signed secret run_id exp) =
    if (later <=? exp)%Z then Ret (JObj [("exp", JInt exp); ("run_id", JInt run_id)])
    else Exc token_expired.
Proof.
  intros Hs. unfold verify, signed. rewrite secret_set by done.
  rewrite rsplit_dot_app by apply b64url_no_dot, hmac_bytes. simpl.
  rewrite token_head_ascii, b64url_roundtrip by apply hmac_bytes.
  rewrite decide_True by done. rewrite read_token_head. simpl.
  destruct (Z.ltb_spec exp later), (Z.leb_spec later exp); try lia; done.
Qed.

(** A token has no blanks, so that [strip] leaves it alone. *)
Fixpoint no_space (s : string) : bool :=
  match s with EmptyString => true | String c s => negb (PyStr.is_space c) && no_space s end.

Lemma strip_no_space s : no_space s = true → PyStr.strip s = s.
Proof.
  intros Hs. assert (PyStr.rstrip s = s) as Hr.
  { revert Hs. induction s as [|c s IH]; [done|]. cbn [no_space].
    intros [Hc Hs]%andb_true_iff. rewrite PyStr.rstrip_String, IH by done.
    destruct s; [|done]. by destruct (PyStr.is_space c). }
  unfold PyStr.strip. rewrite Hr. destruct s as [|c s]; [done|]. cbn [no_space] in Hs.
  apply andb_true_iff in Hs as [Hc _]. cbn [PyStr.lstrip]. by destruct (PyStr.is_space c).
Qed.

Lemma no_space_app s t : no_space (s +:+ t) = no_space s && no_space t.
Proof. induction s as [|c s IH]; [done|]. rewrite app_cons. cbn [no_space]. by rewrite IH, andb_assoc. Qed.

Lemma url_char_no_space n : n < 64 → PyStr.is_space (url_char n) = false.
Proof.
  intros Hn. assert (Forall (λ k, PyStr.is_space (url_char (N.of_nat k)) = false) (seq 0 64)) as Hall.
  { repeat (constructor; [by vm_compute|]). constructor. }
  rewrite Forall_forall in Hall. specialize (Hall (N.to_nat n)).
  rewrite N2Nat.id in Hall. apply Hall, elem_of_seq. lia.
Qed.

Lemma b64url_no_space bs : Forall (λ b, b < 256) bs → no_space (_b64url bs) = true.
Proof.
  intros Hb. rewrite b64url_spec by done. revert Hb.
  induction bs as [|a|a b|a b c bs IH] using three_ind; intros Hb;
    repeat match goal with H : Forall _ (_ :: _) |- _ => apply Forall_cons in H as [? H] end;
    cbn [b64url_text no_space]; rewrite ?url_char_no_space by lia; rewrite ?IH by done; done.
Qed.

Lemma signed_no_space secret run_id exp : no_space (signed secret run_id exp) = true.
Proof.
  unfold signed. rewrite !no_space_app. unfold token_head at 1.
  by rewrite !b64url_no_space by (apply hmac_bytes || apply utf8_bytes).
Qed.

(** C33. Signing and verifying: with a secret configured, a token signed for a run verifies
    under the same secret to exactly that run and expiry until its time is over, and is
    refused as expired afterwards. *)
Theorem token_roundtrip (secret : string) (now run_id ttl_seconds later : Z) :
  secret ≠ EmptyString →
  ∃ token, sign (Some secret) now run_id ttl_seconds = Ret token ∧
    verify (Some secret) later token =
      if (later <=? now + ttl_seconds)%Z
      then Ret (JObj [("exp", JInt (now + ttl_seconds)); ("run_id", JInt run_id)])
      else Exc token_expired.
Proof.
  intros Hs. exists (signed secret run_id (now + ttl_seconds)).
  split; [by apply sign_signed|by apply verify_signed].
Qed.

(** A token somebody made without the service: the pairs of run and expiry the service
    has signed do not include its head, and yet its signature is right. *)
Definition forged (env : option string) (issued : list (Z * Z)) (token : string) : Prop :=
  ∃ head tag key, rsplit_dot token = Some (head, tag) ∧ _secret env = Ret key ∧
    _b64url_decode tag = Some (hmac_sha256 key (ascii_bytes head)) ∧
    head ∉ (λ re, token_head re.1 re.2) <$> issued.

Lemma accepted_issued (env : option string) (now : Z) (token : string) (payload : json)
    (issued : list (Z * Z)) :
  verify env now token = Ret payload → ¬ forged env issued token →
  ∃ run_id exp, (run_id, exp) ∈ issued ∧ (now ≤ exp)%Z ∧
    payload = JObj [("exp", JInt exp); ("run_id", JInt run_id)].
Proof.
  intros Hv Hf. unfold verify in Hv. destruct (rsplit_dot token) as [[head tag]|] eqn:Et; [|done].
  destruct (_secret env) as [key|e] eqn:Ek; [simpl in Hv|done].
  destruct (is_ascii head); [|done]. destruct (_b64url_decode tag) as [actual|] eqn:Ea; [|done].
  case_decide as Heq; [|done]. subst actual.
  assert (head ∈ (λ re, token_head re.1 re.2) <$> issued) as Hin.
  { destruct (decide (head ∈ (λ re, token_head re.1 re.2) <$> issued)) as [|Hn]; [done|].
    exfalso. apply Hf. by exists head, tag, key. }
  apply list_elem_of_fmap in Hin as ([run_id exp] & -> & Hin). simpl in Hv.
  rewrite read_token_head in Hv. simpl in Hv.
  destruct (Z.ltb_spec exp now); [done|]. exists run_id, exp. split; [done|]. split; [lia|].
  by injection Hv as <-.
Qed.

(** Only what the service signed is accepted: a token that verifies and is not a
    forgery of the signature names a run and an expiry time the service has signed
    together, unchanged, and its time is not over. *)
Theorem accepted_token_was_issued (env : option string) (now : Z) (token : string) (payload : json)
    (issued : list (Z * Z)) :
  verify env now token = Ret payload → ¬ forged env issued token →
  ∃ run_id exp, (run_id, exp) ∈ issued ∧ (now ≤ exp)%Z ∧
    payload = JObj [("exp", JInt exp); ("run_id", JInt run_id)].
Proof. apply accepted_issued. Qed.

Module TokenExample.
Definition token : string :=
  match sign (Some "secret") 1700000000 7 3600 with Ret t => t | Exc _ => EmptyString end.

Lemma token_roundtrip_witness :
  verify (Some "secret") 1700000001 token = Ret (JObj [("exp", JInt 1700003600); ("run_id", JInt 7)]).
Proof.
  destruct (token_roundtrip "secret" 1700000000 7 3600 1700000001) as (t & Hs & Hv); [discriminate|].
  unfold token. rewrite Hs. exact Hv.
Defined.

Lemma token_not_forged : ¬ forged (Some "secret") [(7, 1700003600)%Z] token.
Proof.
  intros (head & tag & key & Hr & _ & _ & Hn). apply Hn, list_elem_of_fmap.
  exists (7, 1700003600)%Z. split; [|by constructor].
  assert (rsplit_dot token = Some (token_head 7 1700003600, default EmptyString (snd <$> rsplit_dot token)))
    as E by (vm_compute; reflexivity).
  rewrite Hr in E. injection E as E. exact E.
Qed.

Lemma accepted_token_was_issued_witness :
  ∃ run_id exp, (run_id, exp) ∈ [(7, 1700003600)%Z] ∧ (1700000001 ≤ exp)%Z.
Proof.
  destruct (accepted_token_was_issued (Some "secret") 1700000001 token
    (JObj [("exp", JInt 1700003600); ("run_id", JInt 7)]) [(7, 1700003600)%Z]) as (r & e & Hin & Hle & _).
  - vm_compute. reflexivity.
  - exact token_not_forged.
  - exists r, e. split; [exact Hin|exact Hle].
Defined.

(** The decoder skips characters it does not know, so a token has other spellings. *)
Example other_spelling :
  verify (Some "secret") 1700000001 (token +:+ "!?") = verify (Some "secret") 1700000001 token.
Proof. vm_compute. reflexivity. Qed.
End TokenExample.
