(* ===== verification/WinpeProtocol.v ===== *)
(** * The protocol of the WinPE and OSD agents

    [web/winpe_endpoints.py]: a machine boots WinPE, registers by its UUID, executes the
    actions of its sequence, hands over to Windows, and a second agent finishes the run
    there.  Every handler is a function on the store of [LegacyStore], the job queue and
    a record of what was asked of the outside: Proxmox calls, power cycles, the files of
    captured hashes.  Each database call of a handler commits on its own.  The handlers
    that render documents ([get_unattend], [get_autopilot_config]) are not modelled. *)

From stdpp Require Import base gmap list strings pretty sorting.
From Stdlib Require Import ZArith Lia Ascii.
From S2P Require Import Prelude Json Text Digest JsonParse JobQueue SequenceCompiler Dense.
From S2P Require Import LegacyStore LegacySequences LegacySeeds LegacyRuns HashFiles WinpeToken.

(** ** The world of the handlers *)

Record proxmox_call : Type := PutConfig { px_vmid : Z; px_delete : list string; px_boot : string }.

Record world : Type := World {
  db : store;
  queue_of : queue;
  proxmox : list proxmox_call;
  power_cycles : list Z;
  hash_files : hash_dir
}.

(** The environment: the secret of the tokens, the allowlist of the identity endpoint, what
    Proxmox answers when asked for the disks of a machine and when told to change its
    configuration, the files staged for the OSD client, and what the file system says when a
    file for a captured hash is opened. *)
Class WinpeEnv : Type := {
  token_secret : option string;
  identity_allowlist : string;
  vm_config : Z → outcome json;
  put_config : proxmox_call → outcome unit;
  osd_client_files : outcome json;
  hash_disk : string → outcome unit
}.

Section handlers.
Context `{Clock, WinpeEnv}.

(** A call of [sequences_pg]. *)
Definition on_db {A} (m : eff store A) : eff world A := λ w,
  match m (db w) with
  | (o, s) => (o, World s (queue_of w) (proxmox w) (power_cycles w) (hash_files w))
  end.

(** [int(time.time())] *)
Definition unix_time : eff world Z := t ← on_db utcnow; mret (t / 1000000)%Z.

Definition http (status : Z) (detail : string) : exc := http_exception status detail.

Definition refuse {A} (status : Z) (detail : string) : eff world A := raise (http status detail).

(** ** Identity *)

Definition _identity_allowlist : list string :=
  filter (λ x, x ≠ EmptyString) (PyStr.strip <$> PyStr.split ","%char identity_allowlist).

Definition _check_identity_caller (client : string) : eff world unit :=
  if decide (_identity_allowlist = [] ∨ client ∈ _identity_allowlist) then mret tt
  else refuse 403 "caller not allowed".

Definition post_identity (run_id vmid : Z) (vm_uuid client : string) : eff world unit :=
  _check_identity_caller client ;;
  run ← on_db (select (get_provisioning_run run_id));
  match run with
  | None => refuse 404 "run not found"
  | Some r =>
      if decide (pr_state r = "queued")
      then on_db (set_provisioning_run_identity run_id vmid vm_uuid)
      else mret tt
  end.

(** ** Tokens *)

Definition _REGISTER_TOKEN_TTL : Z := 3600.
Definition _OSD_TOKEN_TTL : Z := 86400.

Definition sign_for (run_id ttl_seconds : Z) : eff world string :=
  now ← unix_time;
  lift_outcome (sign token_secret now run_id ttl_seconds).

(** [except TokenExpired: ... except TokenError: ...] *)
Definition refuse_token (o : outcome json) : outcome json :=
  match o with
  | Exc (CustomError cls _) =>
      if decide (cls = "TokenExpired") then Exc (http 401 "token expired")
      else if decide (cls ∈ ["TokenInvalid"; "TokenSecretMissing"]) then Exc (http 401 "invalid token")
      else o
  | _ => o
  end.

Definition bearer : string := "Bearer ".

Definition _require_bearer_token (authorization : option string) : eff world json :=
  match authorization with
  | Some a =>
      match strip_prefix bearer a with
      | Some t => now ← unix_time;
                  lift_outcome (refuse_token (verify token_secret now (PyStr.strip t)))
      | None => refuse 401 "missing bearer"
      end
  | None => refuse 401 "missing bearer"
  end.

(** [payload["run_id"]], [int(payload["run_id"])] *)
Definition payload_run (payload : json) : outcome Z := py_int (jget "run_id" payload).

Definition _require_bearer_for_run (run_id : Z) (authorization : option string) : eff world unit :=
  payload ← _require_bearer_token authorization;
  if decide (py_str (jget "run_id" payload) = pretty run_id) then mret tt
  else refuse 403 "token/run mismatch".

(** ** Actions *)

Record action : Type := Action { ac_step_id : Z; ac_kind : string; ac_params : json }.

(** [json.loads(s["params_json"])] of a row as [_row_to_run_step] gives it. *)
Definition loaded_params (st : provisioning_run_step) : outcome json :=
  let text := match rs_params_json st with
              | JStr t => t
              | v => json_dumps (jor v (JObj []))
              end in
  match json_loads text with Some v => Ret v | None => Exc (ValueError "JSONDecodeError") end.

Definition action_of (kr : Z * provisioning_run_step) : outcome action :=
  params ← loaded_params kr.2; Ret (Action kr.1 (rs_kind kr.2) params).

(** Append the steps of a phase and list them as actions. *)
Fixpoint append_actions (run_id : Z) (phase : string) (l : list (string * json)) :
    eff world (list action) :=
  match l with
  | [] => mret []
  | (kind, params) :: l =>
      step ← on_db (append_run_step run_id phase kind params);
      rest ← append_actions run_id phase l;
      mret (Action step.1 kind params :: rest)
  end.

Definition _build_actions_for_run (run_id sequence_id : Z) : eff world (list action) :=
  seq ← on_db (get_sequence sequence_id);
  match seq with
  | None => raise TypeError
  | Some (s, _) =>
      append_actions run_id "winpe"
        (actions (compile_winpe (ts_produces_autopilot_hash s) (ts_hash_capture_phase s)))
  end.

(** What the agents are told: the run, a token and the actions. *)
Record registration : Type := Registration { rg_run_id : Z; rg_bearer_token : string; rg_actions : list action }.

Definition post_register (vm_uuid : string) : eff world registration :=
  run ← on_db (select (find_run_by_uuid_state vm_uuid "awaiting_winpe"));
  match run with
  | None =>
      state ← on_db (select (get_latest_run_state_by_uuid vm_uuid));
      match state with
      | None => refuse 404 "no run for vm_uuid"
      | Some st => refuse 409 ("run state is '" +:+ st +:+ "', expected awaiting_winpe")
      end
  | Some (run_id, r) =>
      existing ← on_db (select (list_run_steps run_id));
      acts ← match existing with
             | [] => _build_actions_for_run run_id (pr_sequence_id r)
             | _ => lift_outcome (omapM action_of (filter (λ kr, rs_state kr.2 ≠ "ok") existing))
             end;
      token ← sign_for run_id _REGISTER_TOKEN_TTL;
      mret (Registration run_id token acts)
  end.

Definition get_sequence_actions (run_id : Z) (authorization : option string) : eff world (list action) :=
  _require_bearer_for_run run_id authorization ;;
  steps ← on_db (select (list_run_steps run_id));
  lift_outcome (omapM action_of steps).

(** ** Results of steps *)

(** [body.error or "unknown"] *)
Definition error_or (d : string) (error : option string) : string :=
  match error with Some (String c s) => String c s | _ => d end.

(** What both endpoints do with a result; [label] starts the message of a failure. *)
Definition record_result (label : string) (step_id : Z) (st : provisioning_run_step) (state : string)
    (error : option string) : eff world unit :=
  if decide (state = "running") then on_db (update_run_step_state step_id "running" None)
  else if decide (state = "ok") then on_db (update_run_step_state step_id "ok" None)
  else if decide (state = "error") then
    on_db (update_run_step_state step_id "error" (Some (error_or EmptyString error))) ;;
    on_db (update_provisioning_run_state (rs_run_id st) "failed"
      (Some (label +:+ rs_kind st +:+ ": " +:+ error_or "unknown" error)))
  else refuse 400 ("bad state: " +:+ state).

Definition post_step_result (step_id : Z) (state : string) (error : option string)
    (authorization : option string) : eff world string :=
  payload ← _require_bearer_token authorization;
  step ← on_db (select (get_run_step step_id));
  match step with
  | None => refuse 404 "step not found"
  | Some st =>
      run_id ← lift_outcome (payload_run payload);
      if decide (rs_run_id st = run_id) then
        record_result "step " step_id st state error ;;
        sign_for run_id _REGISTER_TOKEN_TTL
      else refuse 403 "token/run mismatch"
  end.

(** ** Handing over to Windows *)

Definition _proxmox_handoff_boot_order (vmid : Z) : string :=
  match vm_config vmid with
  | Exc _ => "order=scsi0"
  | Ret data =>
      if truthy (jget "scsi0" data) then "order=scsi0"
      else if truthy (jget "sata1" data) then "order=sata1"
      else "order=scsi0"
  end.

Definition _proxmox_detach_and_set_boot (vmid : Z) (slots : list string) (boot : string) :
    eff world unit := λ w,
  let call := PutConfig vmid slots boot in
  (put_config call,
   World (db w) (queue_of w) (proxmox w ++ [call]) (power_cycles w) (hash_files w)).

(** [background_tasks.add_task(_proxmox_power_cycle_for_pending_config, vmid=...)] *)
Definition add_power_cycle (vmid : Z) : eff world unit :=
  modify (λ w, World (db w) (queue_of w) (proxmox w) (power_cycles w ++ [vmid]) (hash_files w)).

Definition post_done (authorization : option string) : eff world unit :=
  payload ← _require_bearer_token authorization;
  run_id ← lift_outcome (payload_run payload);
  run ← on_db (select (get_provisioning_run run_id));
  match run with
  | None => refuse 404 "run not found"
  | Some r =>
      match pr_vmid r with
      | None => refuse 409 "run identity not set"
      | Some vmid =>
          if decide (pr_state r = "awaiting_winpe") then
            _proxmox_detach_and_set_boot vmid ["ide2"; "sata0"] (_proxmox_handoff_boot_order vmid) ;;
            on_db (update_provisioning_run_state run_id "awaiting_windows_setup" None) ;;
            add_power_cycle vmid
          else mret tt
      end
  end.

(** ** The OSD client *)

Definition get_osd_client_package (run_id : Z) (authorization : option string) :
    eff world (string * json) :=
  _require_bearer_for_run run_id authorization ;;
  match osd_client_files with
  | Exc _ => refuse 500 "OSD client package is missing files"
  | Ret files => token ← sign_for run_id _OSD_TOKEN_TTL; mret (token, files)
  end.

Definition _DEFAULT_OSD_ACTIONS : list (string * json) :=
  [("install_qga", JObj []);
   ("fix_recovery_partition", JObj []);
   ("verify_qga", JObj []);
   ("install_qga_watchdog",
    JObj [("task_interval_minutes", JInt 5); ("restart_interval_minutes", JInt 10)]);
   ("capture_autopilot_hash", JObj []);
   ("handoff_to_oobe", JObj [])].

Definition _REQUIRED_OSD_COMPLETION_KINDS : list string :=
  ["install_qga"; "fix_recovery_partition"; "verify_qga"; "install_qga_watchdog";
   "capture_autopilot_hash"; "handoff_to_oobe"].

Definition _DEFAULT_OSD_ORDER : list string := _DEFAULT_OSD_ACTIONS.*1.

Definition _build_osd_actions_for_run (run_id : Z) : eff world (list action) :=
  append_actions run_id "osd" _DEFAULT_OSD_ACTIONS.

Definition osd_steps_of (run_id : Z) (t : tables) : list (Z * provisioning_run_step) :=
  filter (λ kr, rs_phase kr.2 = "osd") (list_run_steps run_id t).

Definition _ensure_osd_actions_for_run (run_id : Z) : eff world (list action) :=
  existing ← on_db (select (osd_steps_of run_id));
  match existing with
  | [] => _build_osd_actions_for_run run_id
  | _ =>
      let kinds := (λ kr, rs_kind kr.2) <$> existing in
      append_actions run_id "osd" (filter (λ a, a.1 ∉ kinds) _DEFAULT_OSD_ACTIONS) ;;
      on_db (reorder_run_phase_steps run_id "osd" _DEFAULT_OSD_ORDER) ;;
      steps ← on_db (select (osd_steps_of run_id));
      lift_outcome (omapM action_of (filter (λ kr, rs_state kr.2 ≠ "ok") steps))
  end.

Definition post_osd_register (authorization : option string) : eff world registration :=
  payload ← _require_bearer_token authorization;
  run_id ← lift_outcome (payload_run payload);
  run ← on_db (select (get_provisioning_run run_id));
  match run with
  | None => refuse 404 "run not found"
  | Some r =>
      (if decide (pr_state r = "awaiting_windows_setup")
       then on_db (update_provisioning_run_state run_id "awaiting_osd_client" None)
       else if decide (pr_state r ∈ ["awaiting_osd_client"; "done"]) then mret tt
       else refuse 409 ("run state is '" +:+ pr_state r +:+
              "', expected awaiting_windows_setup or awaiting_osd_client")) ;;
      if decide (pr_state r = "done") then
        token ← sign_for run_id _OSD_TOKEN_TTL;
        mret (Registration run_id token [])
      else
        acts ← _ensure_osd_actions_for_run run_id;
        token ← sign_for run_id _OSD_TOKEN_TTL;
        mret (Registration run_id token acts)
  end.

Definition post_osd_step_result (step_id : Z) (state : string) (error : option string)
    (authorization : option string) : eff world string :=
  payload ← _require_bearer_token authorization;
  step ← on_db (select (get_run_step step_id));
  match step with
  | None => refuse 404 "step not found"
  | Some st =>
      run_id ← lift_outcome (payload_run payload);
      if decide (rs_run_id st = run_id) then
        if decide (rs_phase st = "osd") then
          record_result "osd step " step_id st state error ;;
          sign_for run_id _OSD_TOKEN_TTL
        else refuse 409 "step is not an OSD step"
      else refuse 403 "token/run mismatch"
  end.

(** The checks of [post_osd_complete], in their order; [None] when they pass. *)
Definition osd_obstacle (steps : list (Z * provisioning_run_step)) : option string :=
  let incomplete := filter (λ kr, rs_state kr.2 ≠ "ok") steps in
  let missing := filter (λ k, k ∉ (λ kr, rs_kind kr.2) <$> steps) _REQUIRED_OSD_COMPLETION_KINDS in
  let handoff := filter (λ kr, rs_kind kr.2 = "handoff_to_oobe") steps in
  if decide (steps = []) then Some "OSD client cannot complete before registering steps"
  else if decide (incomplete ≠ []) then
    Some ("OSD client cannot complete with incomplete steps: " +:+
          PyStr.join ", " ((λ kr, rs_kind kr.2 +:+ "=" +:+ rs_state kr.2) <$> incomplete))
  else if decide (missing ≠ []) then
    Some ("OSD client cannot complete before required steps are ok: " +:+
          PyStr.join ", " (isort cmp_str missing))
  else match last handoff with
       | Some kr => if decide (rs_state kr.2 = "ok") then None
                    else Some "OSD client cannot complete before handoff_to_oobe is ok"
       | None => Some "OSD client cannot complete before handoff_to_oobe is ok"
       end.

(** [jobs_pg.complete_interrupted_provision_winpe_jobs_for_run], whose own errors are only
    logged. *)
Definition reconcile_jobs (run_id : Z) : eff world unit :=
  now ← on_db utcnow;
  modify (λ w, World (db w)
    (complete_interrupted_provision_winpe_jobs_for_run run_id now (queue_of w)).2
    (proxmox w) (power_cycles w) (hash_files w)).

Definition post_osd_complete (authorization : option string) : eff world unit :=
  payload ← _require_bearer_token authorization;
  run_id ← lift_outcome (payload_run payload);
  run ← on_db (select (get_provisioning_run run_id));
  match run with
  | None => refuse 404 "run not found"
  | Some r =>
      if decide (pr_state r ∈ ["done"; "failed"]) then mret tt
      else if decide (pr_state r ∈ ["awaiting_windows_setup"; "awaiting_osd_client"]) then
        steps ← on_db (select (osd_steps_of run_id));
        match osd_obstacle steps with
        | Some detail => refuse 409 detail
        | None =>
            on_db (update_provisioning_run_state run_id "done" None) ;;
            reconcile_jobs run_id
        end
      else refuse 409 ("run state is '" +:+ pr_state r +:+ "', expected OSD client state")
  end.

(** ** Captured hashes *)

Definition write_hash (now vmid : Z) (serial product_id hardware_hash source : string) :
    eff world unit := λ w,
  match _persist_autopilot_hash hash_disk now vmid serial product_id hardware_hash source (hash_files w) with
  | Ret dir => (Ret tt, World (db w) (queue_of w) (proxmox w) (power_cycles w) dir)
  | Exc e => (Exc e, w)
  end.

Definition persist_hash (source : string) (serial product_id hardware_hash : string)
    (authorization : option string) : eff world unit :=
  payload ← _require_bearer_token authorization;
  run_id ← lift_outcome (payload_run payload);
  run ← on_db (select (get_provisioning_run run_id));
  match run ≫= pr_vmid with
  | None => refuse 404 "run not found or no vmid yet"
  | Some vmid =>
      now ← on_db utcnow;
      write_hash now vmid serial product_id hardware_hash source
  end.

Definition post_hash := persist_hash "winpe".
Definition post_osd_hash := persist_hash "osd".

(** ** The controller *)

Definition _STALE_RUN_TTL_SECONDS : Z := 1800.

Definition get_run (run_id : Z) : eff world (provisioning_run * list (Z * provisioning_run_step)) :=
  on_db (sweep_stale_runs _STALE_RUN_TTL_SECONDS) ;;
  run ← on_db (select (get_provisioning_run run_id));
  match run with
  | None => refuse 404 "run not found"
  | Some r => steps ← on_db (select (list_run_steps run_id)); mret (r, steps)
  end.

(** Ends a run from outside: terminal states stay. *)
Definition end_run (run_id : Z) (state : string) (last_error : option string) : eff world unit :=
  run ← on_db (select (get_provisioning_run run_id));
  match run with
  | None => refuse 404 "run not found"
  | Some r =>
      if decide (pr_state r ∈ ["done"; "failed"]) then mret tt
      else on_db (update_provisioning_run_state run_id state last_error)
  end.

Definition post_run_fail (run_id : Z) (reason : string) : eff world unit :=
  end_run run_id "failed" (Some reason).

Definition post_run_complete (run_id : Z) : eff world unit := end_run run_id "done" None.
End handlers.

(** ** Requests *)

(** Operations of the controller on the legacy store. *)
Inductive authoring : Type :=
| CreateSequence (name description : string) (is_default hash : bool) (os phase : string) (steps : list step_in)
| UpdateSequence (seq_id : Z) (u : sequence_update) (steps : option (list step_in))
| DuplicateSequence (seq_id : Z) (new_name : string)
| DeleteSequence (seq_id : Z)
| CreateCredential (name type : string) (payload : json)
| UpdateCredential (cred_id : Z) (name : option string) (payload : option json)
| DeleteCredential (cred_id : Z)
| RecordVm (vmid sequence_id : Z)
| InsertIso (full_hash short_hash volid : string)
| TouchIso (full_hash : string)
| DeleteIso (full_hash : string)
| CreateRun (sequence_id : Z) (provision_path : string)
| SeedDefaults.

Inductive request : Type :=
| Authoring (a : authoring)
| PostIdentity (run_id vmid : Z) (vm_uuid client : string)
| PostRegister (vm_uuid : string)
| GetSequence (run_id : Z) (auth : option string)
| PostStepResult (step_id : Z) (state : string) (error auth : option string)
| PostDone (auth : option string)
| GetOsdPackage (run_id : Z) (auth : option string)
| PostOsdRegister (auth : option string)
| PostOsdStepResult (step_id : Z) (state : string) (error auth : option string)
| PostOsdComplete (auth : option string)
| PostHash (osd : bool) (serial product_id hardware_hash : string) (auth : option string)
| GetRun (run_id : Z)
| PostRunFail (run_id : Z) (reason : string)
| PostRunComplete (run_id : Z).

(** The token a request of an agent carries. *)
Definition auth_of (r : request) : option (option string) :=
  match r with
  | GetSequence _ a | PostStepResult _ _ _ a | PostDone a | GetOsdPackage _ a | PostOsdRegister a
  | PostOsdStepResult _ _ _ a | PostOsdComplete a | PostHash _ _ _ _ a => Some a
  | _ => None
  end.

Section serve.
Context `{Clock, Fernet, WinpeEnv}.

Definition ignore {A} (m : eff world A) : eff world unit := m ;; mret tt.

Definition serve_authoring (a : authoring) : eff store unit :=
  match a with
  | CreateSequence n d def h os ph l => api_sequences_create n d def h os ph l ;; mret tt
  | UpdateSequence i u l => api_sequences_update i u l
  | DuplicateSequence i n => api_sequences_duplicate i n ;; mret tt
  | DeleteSequence i => api_sequences_delete i
  | CreateCredential n t p => create_credential n t p ;; mret tt
  | UpdateCredential i n p => update_credential i n p
  | DeleteCredential i => delete_credential i
  | RecordVm v s => record_vm_provisioning v s
  | InsertIso f s v => insert_answer_iso_cache f s v
  | TouchIso f => touch_answer_iso_cache f
  | DeleteIso f => delete_answer_iso_cache f
  | CreateRun s p => create_provisioning_run s p ;; mret tt
  | SeedDefaults => seed_defaults
  end.

Definition serve (r : request) : eff world unit :=
  match r with
  | Authoring a => on_db (serve_authoring a)
  | PostIdentity r v u c => post_identity r v u c
  | PostRegister u => ignore (post_register u)
  | GetSequence r a => ignore (get_sequence_actions r a)
  | PostStepResult i s e a => ignore (post_step_result i s e a)
  | PostDone a => post_done a
  | GetOsdPackage r a => ignore (get_osd_client_package r a)
  | PostOsdRegister a => ignore (post_osd_register a)
  | PostOsdStepResult i s e a => ignore (post_osd_step_result i s e a)
  | PostOsdComplete a => post_osd_complete a
  | PostHash osd s p h a => (if osd then post_osd_hash else post_hash) s p h a
  | GetRun r => ignore (get_run r)
  | PostRunFail r m => post_run_fail r m
  | PostRunComplete r => post_run_complete r
  end.

(** The world after a list of requests, whether they succeed or not. *)
Definition serve_all (rs : list request) (w : world) : world := foldl (λ w r, (serve r w).2) w rs.
End serve.

Lemma in_states (P : string → Prop) l state : Forall P l → state ∈ l → P state.
Proof. rewrite Forall_forall. auto. Qed.

Definition empty_world : world := World empty_store (Queue ∅ ∅) [] [] ∅.

(** ** The life of a run *)

Definition waiting_states : list string := ["awaiting_winpe"; "awaiting_windows_setup"; "awaiting_osd_client"].

(** A run is in a known state; it has an end time exactly when it has ended; a run an agent
    works on has a machine. *)
Definition life (r : provisioning_run) : Prop :=
  pr_state r ∈ "queued" :: "done" :: "failed" :: waiting_states ∧
  (is_Some (pr_finished_at r) ↔ pr_state r ∈ ["done"; "failed"]) ∧
  (pr_state r ∈ waiting_states → is_Some (pr_vmid r) ∧ is_Some (pr_vm_uuid r)).

Definition wf_world (w : world) : Prop :=
  wf_store (db w) ∧ map_Forall (λ _, life) (provisioning_runs (tbl (db w))).

Lemma waiting_not_ended state : state ∈ waiting_states → state ∉ ["done"; "failed"].
Proof. apply (in_states (λ s, s ∉ ["done"; "failed"])). eapply bool_decide_unpack. vm_compute. exact I. Qed.

Lemma ended_not_waiting state : state ∈ ["done"; "failed"] → state ∉ waiting_states.
Proof. intros He Hw. by apply waiting_not_ended in Hw. Qed.

Lemma ended_known state :
  state ∈ ["done"; "failed"] → state ∈ "queued" :: "done" :: "failed" :: waiting_states.
Proof. apply (in_states (λ s, s ∈ "queued" :: "done" :: "failed" :: waiting_states)). eapply bool_decide_unpack. vm_compute. exact I. Qed.

Lemma waiting_known state : state ∈ waiting_states → state ∈ "queued" :: "done" :: "failed" :: waiting_states.
Proof. apply (in_states (λ s, s ∈ "queued" :: "done" :: "failed" :: waiting_states)). eapply bool_decide_unpack. vm_compute. exact I. Qed.

(** The machine of a run. *)
Definition machine_of (run_id : Z) (w : world) : option Z :=
  provisioning_runs (tbl (db w)) !! run_id ≫= pr_vmid.

(** A job was left alone, or it was an interrupted job of the run and was completed. *)
Definition job_of_run (run_id : Z) (w w' : world) (k : string) : Prop :=
  jobs (queue_of w') !! k = jobs (queue_of w) !! k ∨
  ∃ j j', jobs (queue_of w) !! k = Some j ∧ interrupted run_id j ∧
    jobs (queue_of w') !! k = Some j' ∧ jb_status j' = JobComplete.

(** A file was left alone, or it is a file for a hash of the machine of the run. *)
Definition file_of_run (run_id : Z) (w w' : world) (name : string) : Prop :=
  hash_files w' !! name = hash_files w !! name ∨
  ∃ vmid now serial source, machine_of run_id w = Some vmid ∧ name = hash_file_name now vmid serial source.

(** What a step of the protocol may do: change the row of the run, but for its machine, and the
    rows of its steps; complete its interrupted jobs; tell Proxmox to change the machine of the
    run and have it power-cycled; and write files for hashes of this machine.  Everything else
    in the database, the queue and the directory stays as it was. *)
Record only_run (run_id : Z) (w w' : world) : Prop := OnlyRun {
  or_runs k : k ≠ run_id → provisioning_runs (tbl (db w')) !! k = provisioning_runs (tbl (db w)) !! k;
  or_machine : machine_of run_id w' = machine_of run_id w;
  or_steps k st : rs_run_id st ≠ run_id →
    provisioning_run_steps (tbl (db w')) !! k = Some st ↔ provisioning_run_steps (tbl (db w)) !! k = Some st;
  or_sequences : task_sequences (tbl (db w')) = task_sequences (tbl (db w)) ∧
    task_sequence_steps (tbl (db w')) = task_sequence_steps (tbl (db w));
  or_others : credentials (tbl (db w')) = credentials (tbl (db w)) ∧
    vm_provisioning (tbl (db w')) = vm_provisioning (tbl (db w)) ∧
    answer_iso_cache (tbl (db w')) = answer_iso_cache (tbl (db w));
  or_jobs k : job_of_run run_id w w' k;
  or_limits : limits (queue_of w') = limits (queue_of w);
  or_proxmox : ∃ calls, proxmox w' = proxmox w ++ calls ∧
    Forall (λ c, machine_of run_id w = Some (px_vmid c)) calls;
  or_cycles : ∃ vmids, power_cycles w' = power_cycles w ++ vmids ∧
    Forall (λ v, machine_of run_id w = Some v) vmids;
  or_files name : file_of_run run_id w w' name
}.

(** Nothing is done outside of the tables. *)
Definition same_outside (w w' : world) : Prop :=
  queue_of w' = queue_of w ∧ proxmox w' = proxmox w ∧ power_cycles w' = power_cycles w ∧ hash_files w' = hash_files w.

(** A change of the tables alone. *)
Lemma only_run_tables run_id w w' :
  same_outside w w' →
  (∀ k, k ≠ run_id → provisioning_runs (tbl (db w')) !! k = provisioning_runs (tbl (db w)) !! k) →
  machine_of run_id w' = machine_of run_id w →
  (∀ k st, rs_run_id st ≠ run_id →
     provisioning_run_steps (tbl (db w')) !! k = Some st ↔ provisioning_run_steps (tbl (db w)) !! k = Some st) →
  task_sequences (tbl (db w')) = task_sequences (tbl (db w)) →
  task_sequence_steps (tbl (db w')) = task_sequence_steps (tbl (db w)) →
  credentials (tbl (db w')) = credentials (tbl (db w)) →
  vm_provisioning (tbl (db w')) = vm_provisioning (tbl (db w)) →
  answer_iso_cache (tbl (db w')) = answer_iso_cache (tbl (db w)) → only_run run_id w w'.
Proof.
  intros (Hq & Hp & Hc & Hf) Hr Hm Hs ?????. split; [done..| | | | |].
  - intros k. left. by rewrite Hq.
  - by rewrite Hq.
  - exists []. by rewrite app_nil_r.
  - exists []. by rewrite app_nil_r.
  - intros name. left. by rewrite Hf.
Qed.

(** A step that leaves the tables alone. *)
Lemma only_run_outside run_id w w' :
  tbl (db w') = tbl (db w) → (∀ k, job_of_run run_id w w' k) → limits (queue_of w') = limits (queue_of w) →
  (∃ calls, proxmox w' = proxmox w ++ calls ∧ Forall (λ c, machine_of run_id w = Some (px_vmid c)) calls) →
  (∃ vmids, power_cycles w' = power_cycles w ++ vmids ∧ Forall (λ v, machine_of run_id w = Some v) vmids) →
  (∀ name, file_of_run run_id w w' name) → only_run run_id w w'.
Proof. intros Ht ?????. unfold machine_of in *. split; rewrite ?Ht; try done. unfold machine_of. by rewrite Ht. Qed.

Lemma nothing_more {A} (P : A → Prop) (l : list A) : ∃ more, l = l ++ more ∧ Forall P more.
Proof. exists []. by rewrite app_nil_r. Qed.

#[export] Instance only_run_preorder run_id : PreOrder (only_run run_id).
Proof.
  split.
  - intros w. apply only_run_tables; [by repeat split|done..].
  - intros w1 w2 w3 [A1 A2 A3 [A4 A4'] (A5 & A6 & A7) A8 A9 (ca & A10 & Ca) (pa & A11 & Pa) A12]
      [B1 B2 B3 [B4 B4'] (B5 & B6 & B7) B8 B9 (cb & B10 & Cb) (pb & B11 & Pb) B12].
    rewrite A2 in Cb, Pb. split.
    + intros k Hk. by rewrite B1, A1.
    + congruence.
    + intros k st Hst. etransitivity; [by apply B3|by apply A3].
    + split; congruence.
    + split_and!; congruence.
    + intros k. destruct (A8 k) as [Ak|(j & j' & Hj & Hi & Hj' & Hs)], (B8 k) as [Bk|(i & i' & Hi1 & Hi2 & Hi3 & Hi4)].
      * left. congruence.
      * right. exists i, i'. by rewrite <- Ak.
      * right. exists j, j'. by rewrite Bk.
      * right. by exists j, i'.
    + congruence.
    + exists (ca ++ cb). rewrite B10, A10, (assoc_L (++)). split; [done|]. by apply Forall_app.
    + exists (pa ++ pb). rewrite B11, A11, (assoc_L (++)). split; [done|]. by apply Forall_app.
    + intros name. destruct (B12 name) as [Bn|(v & n & se & so & Hm & ->)].
      * destruct (A12 name) as [An|Hn]; [left; congruence|by right].
      * right. exists v, n, se, so. by rewrite <- A2.
Qed.

(** ** Handlers that stay within a run *)

Section confined.
Context `{Clock, WinpeEnv}.

Definition confined_at (run_id : Z) {A} (m : eff world A) (w : world) : Prop :=
  wf_world w → wf_world (m w).2 ∧ only_run run_id w (m w).2.

Definition confined (run_id : Z) {A} (m : eff world A) : Prop := ∀ w, confined_at run_id m w.

Lemma confined_bind_at run_id {A B} (m : eff world A) (f : A → eff world B) w :
  confined_at run_id m w → (∀ a w', m w = (Ret a, w') → confined_at run_id (f a) w') →
  confined_at run_id (m ≫= f) w.
Proof.
  intros Hm Hf Hw. rewrite run_bind. destruct (Hm Hw) as [Hw1 Ho].
  destruct (m w) as [[a|e] w1] eqn:E; simpl in *; [|done].
  destruct (Hf a w1 eq_refl Hw1) as [Hw2 Ho2]. split; [done|]. by etrans.
Qed.

Lemma confined_bind run_id {A B} (m : eff world A) (f : A → eff world B) :
  confined run_id m → (∀ a, confined run_id (f a)) → confined run_id (m ≫= f).
Proof. intros Hm Hf w. apply confined_bind_at; [apply Hm|]. intros a w' _. apply Hf. Qed.

Lemma confined_ret run_id {A} (a : A) : confined run_id (mret a).
Proof. by intros w Hw. Qed.
Lemma confined_raise run_id {A} e : confined run_id (raise (A:=A) e).
Proof. by intros w Hw. Qed.
Lemma confined_refuse run_id {A} n d : confined run_id (refuse (A:=A) n d).
Proof. by intros w Hw. Qed.
Lemma confined_lift run_id {A} (o : outcome A) : confined run_id (lift_outcome o).
Proof. by intros w Hw. Qed.
Lemma confined_select run_id {A} (f : tables → A) : confined run_id (on_db (select f)).
Proof. intros w Hw. by destruct w. Qed.
Lemma confined_utcnow run_id : confined run_id (on_db utcnow).
Proof.
  intros w [Hs Hl]. split; [split; [|done]|apply only_run_tables; by repeat split]. unfold on_db. simpl.
  by apply (safe_utcnow (db w)).
Qed.
Lemma confined_unix_time run_id : confined run_id unix_time.
Proof. apply confined_bind; [apply confined_utcnow|]. intros. apply confined_ret. Qed.
Lemma confined_sign run_id r ttl : confined run_id (sign_for r ttl).
Proof. apply confined_bind; [apply confined_unix_time|]. intros. apply confined_lift. Qed.

(** The rows of the runs that a call of the store leaves alone or changes. *)
Lemma on_db_state {A} (m : eff store A) w :
  (on_db m w).2 = World (m (db w)).2 (queue_of w) (proxmox w) (power_cycles w) (hash_files w).
Proof. unfold on_db. by destruct (m (db w)). Qed.

(** Changing only the row of the run. *)
Lemma confined_run_update run_id (f : provisioning_run → provisioning_run) w :
  (∀ r, (pr_sequence_id (f r) = pr_sequence_id r ∧ pr_provision_path (f r) = pr_provision_path r) ∧
        pr_vmid (f r) = pr_vmid r) →
  (∀ r, provisioning_runs (tbl (db w)) !! run_id = Some r → life r → life (f r)) →
  confined_at run_id (on_db (write (on_runs (alter f run_id)))) w.
Proof.
  intros Hsame Hlife [Hs Hl]. rewrite on_db_state. simpl.
  split; [split|apply only_run_tables; simpl; try done].
  - simpl. apply wf_change_runs; [done|]. intros k. apply fmap_alter_same. intros r.
    by destruct (Hsame r) as [[-> ->] _].
  - simpl. intros k r [(<- & r0 & Hk & ->)|[? Hk]]%lookup_alter_Some; [|by apply (Hl k)].
    apply Hlife; [done|by apply (Hl run_id)].
  - intros k Hk. by rewrite lookup_alter_ne.
  - unfold machine_of. simpl. rewrite lookup_alter_eq. destruct (_ !! run_id) as [r|]; [|done]. simpl.
    apply Hsame.
Qed.

Lemma life_ended r state e now :
  state ∈ ["done"; "failed"] → life r → life (set_run_state state e (Some now) r).
Proof.
  intros Hst (Hk & Hf & Hm). split_and!; simpl.
  - by apply ended_known.
  - split; [done|by eexists].
  - intros Hw. by apply ended_not_waiting in Hst.
Qed.

(** Ending a run. *)
Lemma confined_end run_id state e :
  state ∈ ["done"; "failed"] → confined run_id (on_db (update_provisioning_run_state run_id state e)).
Proof.
  intros Hst w. unfold update_provisioning_run_state. rewrite decide_True by done.
  change (confined_at run_id (now ← on_db utcnow; on_db (write (on_runs (alter (set_run_state state e (Some now)) run_id)))) w).
  apply confined_bind; [apply confined_utcnow|]. intros now w'.
  apply confined_run_update; [done|]. intros r _. by apply life_ended.
Qed.

(** Moving on a run that is worked on. *)
Lemma confined_advance run_id state e w :
  state ∈ waiting_states →
  (∃ r, provisioning_runs (tbl (db w)) !! run_id = Some r ∧ pr_state r ∈ waiting_states) →
  confined_at run_id (on_db (update_provisioning_run_state run_id state e)) w.
Proof.
  intros Hst (r & Hr & Hrs). unfold update_provisioning_run_state.
  pose proof (waiting_not_ended _ Hst) as Hne.
  rewrite decide_False by done. apply confined_run_update; [done|].
  intros r' Hr' (Hk & Hf & Hm). assert (r' = r) as -> by congruence. simpl.
  split_and!; simpl.
  - by apply waiting_known.
  - split; [|done]. intros Hfin%Hf. by apply waiting_not_ended in Hrs.
  - intros _. by apply Hm.
Qed.

(** A call that writes only steps, and those of other runs not at all. *)
Definition steps_of_run_only (run_id : Z) (t t' : tables) : Prop :=
  ∃ l, t' = on_run_steps (λ _, l) t ∧
    ∀ k st, rs_run_id st ≠ run_id → l !! k = Some st ↔ provisioning_run_steps t !! k = Some st.

Lemma steps_of_run_only_refl run_id t : steps_of_run_only run_id t t.
Proof. exists (provisioning_run_steps t). by destruct t. Qed.

Lemma confined_run_steps run_id {A} (m : eff store A) w :
  safe m → (wf_store (db w) → steps_of_run_only run_id (tbl (db w)) (tbl (m (db w)).2)) →
  confined_at run_id (on_db m) w.
Proof.
  intros Hm Hst [Hs Hl]. destruct (Hm _ Hs) as [Hw _]. destruct (Hst Hs) as (l & Ht & Hrows).
  rewrite on_db_state. split; [split; [done|]|apply only_run_tables; unfold machine_of; simpl; rewrite ?Ht; simpl; auto].
  - simpl. by rewrite Ht.
  - by repeat split.
Qed.

Lemma confined_step_state run_id step_id state e w :
  (∀ st, provisioning_run_steps (tbl (db w)) !! step_id = Some st → rs_run_id st = run_id) →
  confined_at run_id (on_db (update_run_step_state step_id state e)) w.
Proof.
  intros Hown. pose proof (safe_update_run_step_state step_id state e) as Hsafe.
  apply confined_run_steps; [done|]. intros _. unfold update_run_step_state.
  repeat case_decide; [..|apply steps_of_run_only_refl];
    (eexists; split; [done|]; intros k st Hne; destruct (decide (step_id = k)) as [<-|];
      [rewrite lookup_alter_eq|by rewrite lookup_alter_ne]; split;
      [intros (st0 & Hst0 & ->)%fmap_Some_1; exfalso; exact (Hne (Hown _ Hst0))|
       intros Hst; exfalso; exact (Hne (Hown _ Hst))]).
Qed.

Lemma confined_append run_id phase kind params :
  confined run_id (on_db (append_run_step run_id phase kind params)).
Proof.
  intros w. apply confined_run_steps; [apply safe_append_run_step|]. intros Hw.
  destruct (append_run_step_leads run_id phase kind params (db w) Hw) as [_ Hl].
  destruct (append_run_step run_id phase kind params (db w)) as [[[id row]|e] s'] eqn:E; simpl.
  - destruct (Hl (id, row) s' eq_refl) as (_ & Ht & Hfree & Ho & _). simpl in *. rewrite Ht.
    exists (<[id := row]> (provisioning_run_steps (tbl (db w)))). split; [done|]. intros k st Hne.
    rewrite lookup_insert_Some. split; [intros [[<- <-]|[_ ?]]; [done|done]|].
    intros Hk. right. split; [|done]. intros ->. congruence.
  - rewrite (atomic_transaction _ _ _ _ E). apply steps_of_run_only_refl.
Qed.

Lemma confined_reorder run_id phase kinds :
  confined run_id (on_db (reorder_run_phase_steps run_id phase kinds)).
Proof.
  intros w. apply confined_run_steps; [apply safe_reorder_run_phase_steps|]. intros Hw.
  destruct (block_or_gap phase (list_run_steps run_id (tbl (db w))))
    as [(pre & mid & post & HL & Hb)|(i & j & x & y & Hf & Hi & Hj & Hy & Hny)].
  - rewrite (reorder_block run_id phase kinds (db w) pre mid post Hw HL Hb). simpl.
    exists (moved (LegacyRuns.xs2 kinds pre mid) (moved (LegacyRuns.xs1 kinds mid) (provisioning_run_steps (tbl (db w))))).
    split; [done|]. intros k st. by apply (block_other_runs run_id kinds (db w) pre mid post HL).
  - destruct (reorder_gap run_id phase kinds (db w) i j x y Hw Hf Hi Hj Hy Hny) as (s' & E & Ht & _).
    rewrite E. simpl. rewrite Ht. apply steps_of_run_only_refl.
Qed.

Lemma confined_append_actions run_id phase l : confined run_id (append_actions run_id phase l).
Proof.
  induction l as [|[kind params] l IH]; simpl; [apply confined_ret|].
  apply confined_bind; [apply confined_append|]. intros step.
  apply confined_bind; [apply IH|]. intros. apply confined_ret.
Qed.

Lemma confined_reconcile run_id : confined run_id (reconcile_jobs run_id).
Proof.
  apply confined_bind; [apply confined_utcnow|]. intros now w [Hs Hl]. rewrite run_modify. simpl.
  split; [done|apply only_run_outside; simpl; try done; try apply nothing_more; [|by left]].
  intros k. unfold job_of_run. simpl. rewrite lookup_update_where. destruct (jobs (queue_of w) !! k) as [j|] eqn:Ej; [|by left].
  simpl. destruct (decide (interrupted run_id j)) as [Hi|]; [|by left]. right. by eexists _, _.
Qed.
End confined.

Create HintDb confined.
#[export] Hint Resolve confined_ret confined_raise confined_refuse confined_lift confined_select
  confined_utcnow confined_unix_time confined_sign confined_append confined_reorder
  confined_append_actions confined_reconcile : confined.

Ltac confined_step :=
  match goal with
  | |- confined _ (mbind _ _) => apply confined_bind; [|intros]
  | |- confined _ (match ?x with _ => _ end) => destruct x eqn:?
  | |- confined _ (let _ := _ in _) => cbv zeta
  | |- confined _ _ => solve [eauto with confined]
  end.
Ltac confined_solve := repeat confined_step.

(** The same, in a given world. *)
Ltac confined_here :=
  match goal with
  | |- confined_at ?r ?m ?w => cut (confined r m); [intros Hall; apply Hall|confined_solve]
  end.

(** ** An agent stays within its run *)

Section isolation.
Context `{Clock, Fernet, WinpeEnv}.

(** The token of a header. *)
Definition bearer_text (authorization : option string) : string :=
  default EmptyString (PyStr.strip <$> (authorization ≫= strip_prefix bearer)).

Lemma confined_bearer run_id auth : confined run_id (_require_bearer_token auth).
Proof. unfold _require_bearer_token. confined_solve. Qed.

(** A payload that was accepted comes from a token that verifies. *)
Lemma bearer_accepted auth w payload w' :
  _require_bearer_token auth w = (Ret payload, w') →
  ∃ now, verify token_secret now (bearer_text auth) = Ret payload.
Proof.
  unfold _require_bearer_token, bearer_text, refuse. destruct auth as [a|]; [|done].
  cbn [mbind option_bind]. destruct (strip_prefix bearer a) as [t|]; [|done].
  rewrite run_bind. destruct (unix_time w) as [[now|e] w1]; [|done]. simpl.
  intros [= Hv _]. exists now. unfold refuse_token in Hv.
  destruct (verify token_secret now (PyStr.strip t)) as [p|[]]; simplify_eq; try done.
  by repeat case_decide.
Qed.

(** The payload names no other run. *)
Definition for_run (run_id : Z) (payload : json) : Prop := ∀ r, payload_run payload = Ret r → r = run_id.

(** A handler that asks for a token and goes on with the run the token is for. *)
Lemma confined_guarded run_id {A} auth (k : json → eff world A) w :
  (∀ payload w', _require_bearer_token auth w = (Ret payload, w') → for_run run_id payload) →
  (∀ payload, for_run run_id payload → confined run_id (k payload)) →
  confined_at run_id (payload ← _require_bearer_token auth; k payload) w.
Proof.
  intros Hp Hk. apply confined_bind_at; [apply confined_bearer|]. intros payload w' E.
  apply Hk. by eapply Hp.
Qed.

Lemma confined_record_result label run_id step_id st state e w :
  provisioning_run_steps (tbl (db w)) !! step_id = Some st → rs_run_id st = run_id →
  confined_at run_id (record_result label step_id st state e) w.
Proof.
  intros Hst Ho.
  assert (∀ st', provisioning_run_steps (tbl (db w)) !! step_id = Some st' → rs_run_id st' = run_id)
    as Hown by (intros; congruence).
  unfold record_result. repeat case_decide; try by apply confined_step_state.
  - apply confined_bind_at; [by apply confined_step_state|]. intros [] w' _. rewrite Ho.
    apply confined_end. set_solver.
  - apply confined_refuse.
Qed.

(** The step is read, its run is compared, and the result is recorded. *)
Lemma confined_step_handler run_id payload step_id {A} (body : Z → provisioning_run_step → eff world A) :
  for_run run_id payload →
  (∀ st w, provisioning_run_steps (tbl (db w)) !! step_id = Some st → rs_run_id st = run_id →
     confined_at run_id (body run_id st) w) →
  confined run_id (step ← on_db (select (get_run_step step_id));
    match step with
    | None => refuse 404 "step not found"
    | Some st =>
        r ← lift_outcome (payload_run payload);
        if decide (rs_run_id st = r) then body r st else refuse 403 "token/run mismatch"
    end).
Proof.
  intros Hp Hbody w. apply confined_bind_at; [apply confined_select|]. intros step w' [= <- <-].
  unfold get_run_step. destruct (_ !! step_id) as [st|] eqn:Est; [|apply confined_refuse].
  apply confined_bind_at; [apply confined_lift|]. intros r w1 [= Hr <-]. rewrite (Hp r Hr).
  case_decide as Ho; [by apply Hbody|apply confined_refuse].
Qed.

Lemma confined_finish_result label run_id step_id st state e ttl w :
  provisioning_run_steps (tbl (db w)) !! step_id = Some st → rs_run_id st = run_id →
  confined_at run_id (record_result label step_id st state e ;; sign_for run_id ttl) w.
Proof.
  intros Hst Ho. apply confined_bind_at; [by apply confined_record_result|]. intros _ w' _.
  apply confined_sign.
Qed.

(** The run is read; what follows starts from that state. *)
Lemma confined_run_handler run_id payload {A} (body : Z → option provisioning_run → eff world A) :
  for_run run_id payload →
  (∀ w, confined_at run_id (body run_id (provisioning_runs (tbl (db w)) !! run_id)) w) →
  confined run_id (r ← lift_outcome (payload_run payload);
    run ← on_db (select (get_provisioning_run r)); body r run).
Proof.
  intros Hp Hbody w. apply confined_bind_at; [apply confined_lift|]. intros r w1 [= Hr <-].
  rewrite (Hp r Hr).
  apply confined_bind_at; [apply confined_select|]. intros run w1 [= <- <-]. unfold get_provisioning_run.
  replace (World (db w) (queue_of w) (proxmox w) (power_cycles w) (hash_files w)) with w by by destruct w.
  apply Hbody.
Qed.

Lemma confined_proxmox run_id vmid slots boot w :
  machine_of run_id w = Some vmid → confined_at run_id (_proxmox_detach_and_set_boot vmid slots boot) w.
Proof.
  intros Hm Hw. unfold _proxmox_detach_and_set_boot. simpl. split; [done|].
  apply only_run_outside; simpl; try done; try apply nothing_more; [by left| |by left].
  exists [PutConfig vmid slots boot]. split; [done|]. by repeat constructor.
Qed.

Lemma confined_power_cycle run_id vmid w :
  machine_of run_id w = Some vmid → confined_at run_id (add_power_cycle vmid) w.
Proof.
  intros Hm Hw. unfold add_power_cycle. rewrite run_modify. simpl. split; [done|].
  apply only_run_outside; simpl; try done; try apply nothing_more; [by left| |by left].
  exists [vmid]. split; [done|]. by repeat constructor.
Qed.

Lemma confined_write_hash run_id now vmid serial product hash source w :
  machine_of run_id w = Some vmid → confined_at run_id (write_hash now vmid serial product hash source) w.
Proof.
  intros Hm Hw. unfold write_hash, _persist_autopilot_hash.
  destruct (open_for_writing _ _) as [[]|e]; cbn [mbind outcome_bind]; [|by split].
  split; [done|].
  apply only_run_outside; cbn [snd db queue_of proxmox power_cycles]; try done; try apply nothing_more; [by left|].
  intros name. unfold file_of_run. cbn [snd hash_files]. set (out := hash_file_name now vmid serial source).
  destruct (decide (name = out)) as [->|Hn]; [right; by exists vmid, now, serial, source|left].
  apply lookup_insert_ne. congruence.
Qed.

Lemma confined_done run_id r w :
  provisioning_runs (tbl (db w)) !! run_id = r →
  confined_at run_id (match r with
    | None => refuse 404 "run not found"
    | Some r =>
        match pr_vmid r with
        | None => refuse 409 "run identity not set"
        | Some vmid =>
            if decide (pr_state r = "awaiting_winpe") then
              _proxmox_detach_and_set_boot vmid ["ide2"; "sata0"] (_proxmox_handoff_boot_order vmid) ;;
              on_db (update_provisioning_run_state run_id "awaiting_windows_setup" None) ;;
              add_power_cycle vmid
            else mret tt
        end
    end) w.
Proof.
  intros Hr. destruct r as [r|]; [|apply confined_refuse]. destruct (pr_vmid r) as [vmid|] eqn:Hv; [|apply confined_refuse].
  case_decide as Hst; [|apply confined_ret].
  assert (machine_of run_id w = Some vmid) as Hm by (unfold machine_of; rewrite Hr; exact Hv).
  intros Hw.
  apply confined_bind_at; [by apply confined_proxmox| |done]. intros [] w1 [= Ho <-] Hw1.
  set (w1 := World _ _ _ _ _) in *.
  assert (confined_at run_id (on_db (update_provisioning_run_state run_id "awaiting_windows_setup" None)) w1) as Hup.
  { apply confined_advance; [unfold waiting_states; set_solver|]. exists r. split; [exact Hr|].
    rewrite Hst. unfold waiting_states. set_solver. }
  apply confined_bind_at; [exact Hup| |done]. intros [] w2 E2.
  apply confined_power_cycle. destruct (Hup Hw1) as [_ Ho2]. rewrite E2 in Ho2. simpl in Ho2. by rewrite (or_machine _ _ _ Ho2).
Qed.

Lemma confined_ensure run_id : confined run_id (_ensure_osd_actions_for_run run_id).
Proof. unfold _ensure_osd_actions_for_run, _build_osd_actions_for_run. confined_solve. Qed.

Lemma confined_osd_register run_id r w :
  provisioning_runs (tbl (db w)) !! run_id = r →
  confined_at run_id (match r with
    | None => refuse 404 "run not found"
    | Some r =>
        (if decide (pr_state r = "awaiting_windows_setup")
         then on_db (update_provisioning_run_state run_id "awaiting_osd_client" None)
         else if decide (pr_state r ∈ ["awaiting_osd_client"; "done"]) then mret tt
         else refuse 409 ("run state is '" +:+ pr_state r +:+
                "', expected awaiting_windows_setup or awaiting_osd_client")) ;;
        if decide (pr_state r = "done") then
          token ← sign_for run_id _OSD_TOKEN_TTL;
          mret (Registration run_id token [])
        else
          acts ← _ensure_osd_actions_for_run run_id;
          token ← sign_for run_id _OSD_TOKEN_TTL;
          mret (Registration run_id token acts)
    end) w.
Proof.
  intros Hr. destruct r as [r|]; [|apply confined_refuse]. apply confined_bind_at.
  - case_decide as Hst; [|case_decide; [apply confined_ret|apply confined_refuse]].
    apply confined_advance; [unfold waiting_states; set_solver|]. exists r. split; [done|].
    rewrite Hst. unfold waiting_states. set_solver.
  - intros [] w1 _. pose proof (confined_ensure run_id). case_decide; confined_here.
Qed.

Lemma confined_osd_complete run_id r w :
  confined_at run_id (match r with
    | None => refuse 404 "run not found"
    | Some r =>
        if decide (pr_state r ∈ ["done"; "failed"]) then mret tt
        else if decide (pr_state r ∈ ["awaiting_windows_setup"; "awaiting_osd_client"]) then
          steps ← on_db (select (osd_steps_of run_id));
          match osd_obstacle steps with
          | Some detail => refuse 409 detail
          | None =>
              on_db (update_provisioning_run_state run_id "done" None) ;;
              reconcile_jobs run_id
          end
        else refuse 409 ("run state is '" +:+ pr_state r +:+ "', expected OSD client state")
    end) w.
Proof.
  destruct r as [r|]; [|apply confined_refuse].
  pose proof (confined_end run_id "done" None ltac:(set_solver)) as He. confined_here.
Qed.

Lemma confined_hash run_id source serial product hash r w :
  provisioning_runs (tbl (db w)) !! run_id = r →
  confined_at run_id (match r ≫= pr_vmid with
    | None => refuse 404 "run not found or no vmid yet"
    | Some vmid => now ← on_db utcnow; write_hash now vmid serial product hash source
    end) w.
Proof.
  intros Hr. destruct (r ≫= pr_vmid) as [vmid|] eqn:Hv; [|apply confined_refuse]. intros Hw.
  apply confined_bind_at; [apply confined_utcnow| |done]. intros now w1 E1. apply confined_write_hash.
  destruct (confined_utcnow run_id w Hw) as [_ Ho]. rewrite E1 in Ho. simpl in Ho. rewrite (or_machine _ _ _ Ho).
  unfold machine_of. by rewrite Hr.
Qed.

Lemma confined_require_run run_id r auth : confined run_id (_require_bearer_for_run r auth).
Proof.
  unfold _require_bearer_for_run. apply confined_bind; [apply confined_bearer|]. intros.
  case_decide; [apply confined_ret|apply confined_refuse].
Qed.

Lemma confined_ignore run_id {A} (m : eff world A) w : confined_at run_id m w → confined_at run_id (ignore m) w.
Proof. intros Hm. apply confined_bind_at; [done|]. intros. apply confined_ret. Qed.

(** A request that carries a token for a run stays within the run. *)
Lemma serve_confined run_id r auth w :
  auth_of r = Some auth →
  (∀ payload w', _require_bearer_token auth w = (Ret payload, w') → for_run run_id payload) →
  confined_at run_id (serve r) w.
Proof.
  intros Hauth Hp. destruct r; simpl in Hauth; simplify_eq; simpl serve; try apply confined_ignore.
  - apply confined_bind_at; [apply confined_require_run|]. intros [] w' _. confined_here.
  - apply confined_guarded; [done|]. intros payload Hr. apply confined_step_handler; [done|].
    intros st w' Hst Ho. by apply confined_finish_result.
  - apply confined_guarded; [done|]. intros payload Hr.
    apply (confined_run_handler run_id payload (λ r run, _)); [done|]. intros w'. by apply confined_done.
  - apply confined_bind_at; [apply confined_require_run|]. intros [] w' _. confined_here.
  - apply confined_guarded; [done|]. intros payload Hr.
    apply (confined_run_handler run_id payload (λ r run, _)); [done|]. intros w'. by apply confined_osd_register.
  - apply confined_guarded; [done|]. intros payload Hr. apply confined_step_handler; [done|].
    intros st w' Hst Ho. case_decide; [by apply confined_finish_result|apply confined_refuse].
  - apply confined_guarded; [done|]. intros payload Hr.
    apply (confined_run_handler run_id payload (λ r run, _)); [done|]. intros w'. apply confined_osd_complete.
  - destruct osd; (apply confined_guarded; [done|]; intros payload Hr;
      apply (confined_run_handler run_id payload (λ r run, _)); [done|]; intros w'; by apply confined_hash).
Qed.

(** C29. An agent stays within its run, as long as it cannot forge signatures: a request with
    a token, where every token the service has signed for that agent is for one run, keeps
    the database well-formed, and all it may do is this ([only_run]): change the row of that
    run, but not its machine, and the steps of that run; complete the interrupted jobs of that
    run; have the machine of that run changed and power-cycled by Proxmox; and write files for
    hashes of this machine. *)
Theorem agent_stays_within_run (run_id : Z) (issued : list (Z * Z)) (r : request)
    (auth : option string) (w : world) :
  auth_of r = Some auth → ¬ forged token_secret issued (bearer_text auth) →
  Forall (λ re, re.1 = run_id) issued → wf_world w →
  wf_world (serve r w).2 ∧ only_run run_id w (serve r w).2.
Proof.
  intros Hauth Hf Hissued Hw. apply (serve_confined run_id r auth w Hauth); [|done].
  intros payload w' E. apply bearer_accepted in E as [now Hv].
  destruct (accepted_issued _ _ _ _ issued Hv Hf) as (r' & exp & Hin & _ & ->).
  rewrite Forall_forall in Hissued. pose proof (Hissued _ Hin) as Hr. simpl in Hr.
  intros r0. unfold payload_run. simpl. intros [= <-]. done.
Qed.
End isolation.
