(* ===== verification/WinpeInvariant.v ===== *)
(** * The database under the agents' protocol

    Every request, whether an agent sends it or the controller, keeps the database
    well-formed and every run in a known state of its life; so the database is well-formed
    after any sequence of requests.  Also: when
    completion is granted. *)

From stdpp Require Import base gmap list strings pretty sorting.
From Stdlib Require Import ZArith Lia Ascii.
From S2P Require Import Prelude Json Text Digest JsonParse JobQueue SequenceCompiler Dense LegacyStore LegacySequences LegacySeeds LegacyRuns HashFiles WinpeToken WinpeProtocol.

Section rules.
Context `{Clock}.

(** An operation that leaves the runs alone. *)
Definition runs_same {A} (m : eff store A) : Prop :=
  ∀ s, provisioning_runs (tbl (m s).2) = provisioning_runs (tbl s).

Lemma runs_same_bind {A B} (m : eff store A) (f : A → eff store B) :
  runs_same m → (∀ a, runs_same (f a)) → runs_same (m ≫= f).
Proof.
  intros Hm Hf s. rewrite run_bind. specialize (Hm s). destruct (m s) as [[a|e] s']; [|done].
  simpl in *. by rewrite Hf.
Qed.
Lemma runs_same_ret {A} (a : A) : runs_same (mret a).
Proof. done. Qed.
Lemma runs_same_raise {A} e : runs_same (raise (A:=A) e).
Proof. done. Qed.
Lemma runs_same_lift {A} (o : outcome A) : runs_same (lift_outcome o).
Proof. done. Qed.
Lemma runs_same_select {A} (f : tables → A) : runs_same (select f).
Proof. done. Qed.
Lemma runs_same_utcnow : runs_same utcnow.
Proof. done. Qed.
Lemma runs_same_nextval T : runs_same (nextval T).
Proof. done. Qed.
Lemma runs_same_require ok e : runs_same (require ok e).
Proof. intros s. rewrite run_require. by destruct (ok (tbl s)). Qed.
Lemma runs_same_write f : (∀ t, provisioning_runs (f t) = provisioning_runs t) → runs_same (write f).
Proof. intros Hf s. apply Hf. Qed.
Lemma runs_same_transaction {A} (m : eff store A) : runs_same m → runs_same (transaction m).
Proof. intros Hm s. unfold transaction. specialize (Hm s). by destruct (m s) as [[a|e] s']. Qed.
Lemma runs_same_for_each {A} (l : list A) body : (∀ x, runs_same (body x)) → runs_same (for_each l body).
Proof. intros Hb. induction l; simpl; [done|]. by apply runs_same_bind. Qed.
Lemma runs_same_conflict {A} d (m : eff store A) : runs_same m → runs_same (conflict_on_unique d m).
Proof.
  intros Hm s. unfold conflict_on_unique. specialize (Hm s). destruct (m s) as [[a|[]] s']; done.
Qed.
Lemma safe_conflict {A} d (m : eff store A) : safe m → safe (conflict_on_unique d m).
Proof.
  intros Hm s Hs. unfold conflict_on_unique. specialize (Hm s Hs). destruct (m s) as [[a|[]] s']; done.
Qed.
End rules.

Create HintDb runs_same.
#[export] Hint Resolve runs_same_ret runs_same_raise runs_same_lift runs_same_select runs_same_utcnow
  runs_same_nextval runs_same_require : runs_same.

Ltac runs_same_step :=
  match goal with
  | |- runs_same (mbind _ _) => apply runs_same_bind; [|intros]
  | |- runs_same (for_each _ _) => apply runs_same_for_each; intros
  | |- runs_same (transaction _) => apply runs_same_transaction
  | |- runs_same (conflict_on_unique _ _) => apply runs_same_conflict
  | |- runs_same (write _) => apply runs_same_write; reflexivity
  | |- runs_same (match ?x with _ => _ end) => destruct x eqn:?
  | |- runs_same (let _ := _ in _) => cbv zeta
  | |- runs_same _ => solve [eauto with runs_same]
  end.
Ltac runs_same_solve := repeat runs_same_step.

Section authoring.
Context `{Clock, Fernet, WinpeEnv}.

Lemma safe_delete_api seq_id : safe (api_sequences_delete seq_id).
Proof.
  intros s Hs. unfold api_sequences_delete. pose proof (safe_delete_sequence seq_id s Hs) as Hd.
  destruct (delete_sequence seq_id s) as [[a|[]] s']; try done. by case_decide.
Qed.

Lemma runs_same_create_sequence n d def h os ph l : runs_same (LegacyStore.create_sequence n d def h os ph l).
Proof. unfold LegacyStore.create_sequence, _set_sequence_steps, LegacyStore.insert_step. runs_same_solve. Qed.

Lemma runs_same_set_sequence_steps i l : runs_same (set_sequence_steps i l).
Proof. unfold set_sequence_steps, _set_sequence_steps, LegacyStore.insert_step. runs_same_solve. Qed.

Lemma runs_same_delete_api seq_id : runs_same (api_sequences_delete seq_id).
Proof.
  assert (runs_same (delete_sequence seq_id)) as Hd by (unfold delete_sequence; runs_same_solve).
  intros s. unfold api_sequences_delete. specialize (Hd s).
  destruct (delete_sequence seq_id s) as [[a|[]] s']; try done. by case_decide.
Qed.
End authoring.

(** ** Operations of the controller *)

Section keeps.
Context `{Clock, Fernet, WinpeEnv}.

Lemma safe_api_create n d def h os ph l : safe (api_sequences_create n d def h os ph l).
Proof.
  apply safe_bind; [apply safe_conflict, safe_create_sequence|]. intros sid.
  apply safe_bind; [apply safe_set_sequence_steps|]. intros. apply safe_ret.
Qed.

Lemma safe_api_update i u l : safe (api_sequences_update i u l).
Proof.
  apply safe_bind; [apply safe_get_sequence|]. intros [?|]; [|apply safe_raise].
  apply safe_bind; [apply safe_conflict, safe_update_sequence|]. intros [].
  destruct l; [apply safe_set_sequence_steps|apply safe_ret].
Qed.

Lemma safe_api_duplicate i n : safe (api_sequences_duplicate i n).
Proof.
  apply safe_bind; [apply safe_get_sequence|]. intros [?|]; [|apply safe_raise].
  apply safe_conflict, safe_duplicate_sequence.
Qed.

Lemma safe_seed_defaults : safe seed_defaults.
Proof.
  apply safe_atomic; [apply atomic_transaction|]. intros s Hs.
  eapply leads_mono; [by apply seed_defaults_leads|]. by intros [] s' [Hw _].
Qed.

Lemma runs_same_seed_defaults : runs_same seed_defaults.
Proof.
  pose proof runs_same_create_sequence. pose proof runs_same_set_sequence_steps.
  assert (∀ n t p, runs_same (create_credential n t p)) by (intros; unfold create_credential; runs_same_solve).
  unfold seed_defaults, seed_windows, seed_ubuntu. runs_same_solve.
Qed.

Lemma runs_same_get_sequence i : runs_same (LegacyStore.get_sequence i).
Proof. unfold LegacyStore.get_sequence. runs_same_solve. Qed.

(** An operation that is safe and leaves the runs alone keeps the world well-formed. *)
Lemma keeps_world {A} (m : eff store A) w :
  safe m → runs_same m → wf_world w → wf_world (on_db m w).2.
Proof.
  intros Hm Hr [Hs Hl]. rewrite on_db_state. split; simpl; [by apply Hm|]. by rewrite Hr.
Qed.

(** An operation that may change runs, each to one that is in a known state. *)
Lemma keeps_runs {A} (m : eff store A) w :
  safe m →
  (map_Forall (λ _, life) (provisioning_runs (tbl (db w))) →
   map_Forall (λ _, life) (provisioning_runs (tbl (m (db w)).2))) →
  wf_world w → wf_world (on_db m w).2.
Proof. intros Hm Hr [Hs Hl]. rewrite on_db_state. split; simpl; [by apply Hm|auto]. Qed.

Lemma create_run_life sid path s :
  map_Forall (λ _, life) (provisioning_runs (tbl s)) →
  map_Forall (λ _, life) (provisioning_runs (tbl (create_provisioning_run sid path s).2)).
Proof.
  intros Hl. unfold create_provisioning_run. case_decide; [|done].
  rewrite run_bind. cbn [mret eff_ret]. unfold transaction.
  rewrite run_bind, run_utcnow. cbv beta iota. rewrite run_bind, run_nextval. cbv beta iota zeta.
  rewrite run_bind, run_require. destruct (exists_key _ _); [|done]. simpl.
  apply map_Forall_insert_2; [|done]. split_and!; simpl.
  - set_solver.
  - split; [by intros [? [=]]|set_solver].
  - unfold waiting_states. set_solver.
Qed.

Lemma serve_authoring_keeps a w : wf_world w → wf_world (on_db (serve_authoring a) w).2.
Proof.
  pose proof runs_same_create_sequence. pose proof runs_same_set_sequence_steps.
  pose proof runs_same_get_sequence.
  assert (∀ A (m : eff store A), safe m → safe (m ;; mret tt)) as Hd.
  { intros A m Hm. apply safe_bind; [done|]. intros. apply safe_ret. }
  destruct a; simpl serve_authoring.
  - apply keeps_world; [apply Hd, safe_api_create|]. unfold api_sequences_create. runs_same_solve.
  - apply keeps_world; [apply safe_api_update|]. unfold api_sequences_update, update_sequence. runs_same_solve.
  - apply keeps_world; [apply Hd, safe_api_duplicate|].
    unfold api_sequences_duplicate, duplicate_sequence. runs_same_solve.
  - apply keeps_world; [apply safe_delete_api|apply runs_same_delete_api].
  - apply keeps_world; [apply Hd, safe_create_credential|]. unfold create_credential. runs_same_solve.
  - apply keeps_world; [apply safe_update_credential|]. unfold update_credential. runs_same_solve.
  - apply keeps_world; [apply safe_delete_credential|]. unfold delete_credential. runs_same_solve.
  - apply keeps_world; [apply safe_record_vm_provisioning|]. unfold record_vm_provisioning. runs_same_solve.
  - apply keeps_world; [apply safe_insert_answer_iso_cache|]. unfold insert_answer_iso_cache. runs_same_solve.
  - apply keeps_world; [apply safe_touch_answer_iso_cache|]. unfold touch_answer_iso_cache. runs_same_solve.
  - apply keeps_world; [apply safe_delete_answer_iso_cache|]. unfold delete_answer_iso_cache. runs_same_solve.
  - apply keeps_runs; [apply Hd, safe_create_provisioning_run|]. intros Hl. rewrite run_bind.
    pose proof (create_run_life sequence_id provision_path (db w) Hl) as Hl'.
    by destruct (create_provisioning_run _ _ (db w)) as [[?|?] ?].
  - apply keeps_world; [apply safe_seed_defaults|apply runs_same_seed_defaults].
Qed.

(** ** Operations of the agents *)

Lemma identity_keeps run_id vmid uuid w :
  wf_world w → wf_world (on_db (set_provisioning_run_identity run_id vmid uuid) w).2.
Proof.
  apply keeps_runs; [apply safe_set_provisioning_run_identity|]. intros Hl k r. simpl.
  rewrite lookup_update_where. destruct (_ !! k) as [r0|] eqn:Hk; [|done]. intros [= <-].
  pose proof (Hl k r0 Hk) as (_ & Hf & _). case_decide as Hq; [|by apply (Hl k)].
  simpl in Hq. destruct Hq as [_ Hq]. split_and!; simpl.
  - unfold waiting_states. set_solver.
  - rewrite Hf, Hq. split; intros Hin; exfalso; set_solver.
  - eauto.
Qed.

(** An operation of the store that takes known states of life to known states of life. *)
Definition keeps_life {A} (m : eff store A) : Prop := ∀ s,
  map_Forall (λ _, life) (provisioning_runs (tbl s)) →
  map_Forall (λ _, life) (provisioning_runs (tbl (m s).2)).

Lemma keeps_life_same {A} (m : eff store A) : runs_same m → keeps_life m.
Proof. intros Hm s Hl. by rewrite Hm. Qed.

Lemma keeps_life_bind {A B} (m : eff store A) (f : A → eff store B) :
  keeps_life m → (∀ a, keeps_life (f a)) → keeps_life (m ≫= f).
Proof.
  intros Hm Hf s Hs. rewrite run_bind. specialize (Hm s Hs). destruct (m s) as [[a|e] s']; [|done].
  by apply Hf.
Qed.

Lemma keeps_life_for_each {A} (l : list A) body : (∀ x, keeps_life (body x)) → keeps_life (for_each l body).
Proof. intros Hb. induction l; simpl; [by intros s|]. by apply keeps_life_bind. Qed.

Lemma keeps_life_transaction {A} (m : eff store A) : keeps_life m → keeps_life (transaction m).
Proof.
  intros Hm s Hs. unfold transaction. specialize (Hm s Hs). by destruct (m s) as [[a|e] s'].
Qed.

Lemma keeps_life_fail_stale ttl run_id : keeps_life (fail_stale_run ttl run_id).
Proof.
  unfold fail_stale_run.
  apply keeps_life_bind; [by apply keeps_life_same|]. intros now.
  apply keeps_life_bind; [|intros; apply keeps_life_same; runs_same_solve].
  intros s Hl k r. simpl. rewrite lookup_update_where. destruct (_ !! k) as [r0|] eqn:Hk; [|done].
  intros [= <-]. pose proof (Hl k r0 Hk). case_decide; [|done]. apply life_ended; [set_solver|done].
Qed.

Lemma keeps_life_sweep ttl : keeps_life (sweep_stale_runs ttl).
Proof.
  apply keeps_life_bind; [by apply keeps_life_same|]. intros now. apply keeps_life_transaction.
  apply keeps_life_bind; [by apply keeps_life_same|]. intros l.
  apply keeps_life_bind; [|intros; by apply keeps_life_same].
  apply keeps_life_for_each. apply keeps_life_fail_stale.
Qed.

(** A handler keeps the world well-formed. *)
Definition keeps {A} (m : eff world A) : Prop := ∀ w, wf_world w → wf_world (m w).2.

Lemma keeps_confined run_id {A} (m : eff world A) : confined run_id m → keeps m.
Proof. intros Hm w Hw. by apply Hm. Qed.

Lemma keeps_bind {A B} (m : eff world A) (f : A → eff world B) :
  keeps m → (∀ a, keeps (f a)) → keeps (m ≫= f).
Proof.
  intros Hm Hf w Hw. rewrite run_bind. specialize (Hm w Hw). destruct (m w) as [[a|e] w1]; [|done].
  by apply Hf.
Qed.

Lemma keeps_select {A} (f : tables → A) : keeps (on_db (select f)).
Proof. by apply (keeps_confined 0), confined_select. Qed.

Lemma confined_get_sequence run_id i : confined run_id (on_db (LegacyStore.get_sequence i)).
Proof.
  intros w Hw. rewrite on_db_state. unfold LegacyStore.get_sequence. rewrite run_bind, run_select.
  cbv beta iota. destruct (_ !! i); (split; [by destruct w|apply only_run_tables; by repeat split]).
Qed.

Lemma register_keeps uuid : keeps (post_register uuid).
Proof.
  apply keeps_bind; [apply keeps_select|]. intros [[run_id r]|].
  - apply (keeps_confined run_id). pose proof (confined_get_sequence run_id).
    unfold _build_actions_for_run. confined_solve.
  - apply (keeps_confined 0). confined_solve.
Qed.

Lemma get_run_keeps run_id : keeps (get_run run_id).
Proof.
  apply keeps_bind; [intros w; apply keeps_runs; [apply safe_sweep_stale_runs|apply keeps_life_sweep]|].
  intros _. apply (keeps_confined 0). confined_solve.
Qed.

Lemma end_run_keeps run_id state e : state ∈ ["done"; "failed"] → keeps (end_run run_id state e).
Proof.
  intros Hst. apply (keeps_confined run_id). pose proof (confined_end run_id state e Hst).
  unfold end_run. confined_solve.
Qed.

Lemma post_identity_keeps run_id vmid uuid client : keeps (post_identity run_id vmid uuid client).
Proof.
  apply keeps_bind.
  { apply (keeps_confined 0). unfold _check_identity_caller. confined_solve. }
  intros _. apply keeps_bind; [apply keeps_select|]. intros [r|]; [|by apply (keeps_confined 0), confined_refuse].
  case_decide; [|by intros w]. intros w. apply identity_keeps.
Qed.

(** The run that a token is for. *)
Lemma run_of_token auth w : ∃ run_id, ∀ payload w',
  _require_bearer_token auth w = (Ret payload, w') → for_run run_id payload.
Proof.
  destruct (_require_bearer_token auth w) as [[payload|e] w'] eqn:E; [|by exists 0%Z].
  destruct (payload_run payload) as [r|] eqn:Er.
  - exists r. intros p w'' [= <- _] r' Hr'. congruence.
  - exists 0%Z. intros p w'' [= <- _] r' Hr'. congruence.
Qed.

Lemma serve_keeps r : keeps (serve r).
Proof.
  destruct (auth_of r) as [auth|] eqn:Ea.
  { intros w Hw. destruct (run_of_token auth w) as [run_id Hr]. by eapply serve_confined. }
  assert (∀ A (m : eff world A), keeps m → keeps (ignore m)) as Hi.
  { intros A m Hm. apply keeps_bind; [done|]. intros _. by intros w. }
  destruct r; simpl in Ea; simplify_eq; simpl serve.
  - intros w. apply serve_authoring_keeps.
  - apply post_identity_keeps.
  - apply Hi, register_keeps.
  - apply Hi, get_run_keeps.
  - apply end_run_keeps. set_solver.
  - apply end_run_keeps. set_solver.
Qed.

Lemma serve_all_keeps rs w : wf_world w → wf_world (serve_all rs w).
Proof. intros Hw. apply (foldl_preserves wf_world); [done|]. intros w' r. apply serve_keeps. Qed.

Lemma empty_world_wf : wf_world empty_world.
Proof. split; [apply empty_store_wf|]. apply map_Forall_empty. Qed.

(** C30. The database stays well-formed: after any requests of agents and of the controller,
    granted or refused, in any order, keys are below their serials, references point to rows,
    names are unique, at most one sequence is the default, the steps of a sequence and of a
    run are numbered without gaps, phases, paths and states of steps are known ones, every
    run is in one of the six states of its life, it has an end time exactly when it is done
    or failed, and a machine while an agent works on it. *)
Theorem protocol_keeps_well_formed (rs : list request) : wf_world (serve_all rs empty_world).
Proof. apply serve_all_keeps, empty_world_wf. Qed.
End keeps.

(** * Completing a run

    When the OSD agent may declare its run done ([post_osd_complete] of
    [web/winpe_endpoints.py]), and that an agent which does every step it is given brings a
    new run to its end. *)

(** ** What completion asks for *)

(** Every OSD step of the run succeeded, and every required kind is among them. *)
Definition osd_finished (run_id : Z) (t : tables) : Prop :=
  (∀ k st, provisioning_run_steps t !! k = Some st → rs_run_id st = run_id → rs_phase st = "osd" →
     rs_state st = "ok") ∧
  (∀ kind, kind ∈ _REQUIRED_OSD_COMPLETION_KINDS → ∃ k st,
     provisioning_run_steps t !! k = Some st ∧ rs_run_id st = run_id ∧ rs_phase st = "osd" ∧
     rs_kind st = kind).

Lemma elem_of_list_run_steps run_id t k st :
  (k, st) ∈ list_run_steps run_id t ↔ provisioning_run_steps t !! k = Some st ∧ rs_run_id st = run_id.
Proof. unfold list_run_steps. rewrite elem_of_isort, elem_of_select_where. simpl. tauto. Qed.

Lemma elem_of_osd_steps run_id t k st :
  (k, st) ∈ osd_steps_of run_id t ↔
  provisioning_run_steps t !! k = Some st ∧ rs_run_id st = run_id ∧ rs_phase st = "osd".
Proof. unfold osd_steps_of. rewrite list_elem_of_filter, elem_of_list_run_steps. simpl. tauto. Qed.

Lemma filter_nil_forall {A} (P : A → Prop) `{∀ x, Decision (P x)} (l : list A) :
  filter P l = [] ↔ ∀ x, x ∈ l → ¬ P x.
Proof.
  split.
  - intros Hf x Hx HP. assert (x ∈ filter P l) as Hin by (by apply list_elem_of_filter).
    rewrite Hf in Hin. by apply not_elem_of_nil in Hin.
  - intros Hl. destruct (filter P l) as [|x l'] eqn:E; [done|].
    assert (x ∈ filter P l) as [HP Hx]%list_elem_of_filter by (rewrite E; left). by destruct (Hl x).
Qed.

Lemma handoff_required : "handoff_to_oobe" ∈ _REQUIRED_OSD_COMPLETION_KINDS.
Proof. eapply bool_decide_unpack. vm_compute. exact I. Qed.

(** The checks of the endpoint, in its order, decide just that. *)
Lemma osd_obstacle_none steps :
  osd_obstacle steps = None ↔
  (∀ kr, kr ∈ steps → rs_state kr.2 = "ok") ∧
  (∀ kind, kind ∈ _REQUIRED_OSD_COMPLETION_KINDS → ∃ kr, kr ∈ steps ∧ rs_kind kr.2 = kind).
Proof.
  unfold osd_obstacle. cbv zeta. case_decide as H0.
  { subst. split; [done|]. intros [_ Hr]. destruct (Hr _ handoff_required) as (? & []%not_elem_of_nil & _). }
  case_decide as H1.
  { split; [done|]. intros [Hok _]. destruct H1. apply filter_nil_forall. intros kr Hin Hne. by apply Hne, Hok. }
  rewrite filter_nil_forall in H1.
  case_decide as H2.
  { split; [done|]. intros [_ Hr]. destruct H2. apply filter_nil_forall. intros kind Hin Hne. apply Hne.
    apply list_elem_of_fmap. destruct (Hr kind Hin) as (kr & ? & <-). eauto. }
  rewrite filter_nil_forall in H2.
  assert (∀ kind, kind ∈ _REQUIRED_OSD_COMPLETION_KINDS → ∃ kr, kr ∈ steps ∧ rs_kind kr.2 = kind) as Hkinds.
  { intros kind Hk. destruct (decide (kind ∈ (λ kr : Z * provisioning_run_step, rs_kind kr.2) <$> steps)) as [Hin|Hn].
    - apply list_elem_of_fmap in Hin as (kr & -> & ?). eauto.
    - by destruct (H2 kind Hk). }
  assert (∀ kr, kr ∈ steps → rs_state kr.2 = "ok") as Hok.
  { intros kr Hin. apply dec_stable. by apply H1. }
  destruct (last _) as [kr|] eqn:El.
  - assert (kr ∈ steps) as Hin.
    { apply last_Some_elem_of, list_elem_of_filter in El. tauto. }
    rewrite decide_True by by apply Hok. done.
  - apply last_None in El. rewrite filter_nil_forall in El.
    destruct (Hkinds _ handoff_required) as (kr & Hin & Hk). by destruct (El kr Hin).
Qed.

Lemma osd_obstacle_finished run_id t : osd_obstacle (osd_steps_of run_id t) = None ↔ osd_finished run_id t.
Proof.
  rewrite osd_obstacle_none. unfold osd_finished. split; intros [Hok Hkinds]; split.
  - intros k st Hk Hr Hp. by apply (Hok (k, st)), elem_of_osd_steps.
  - intros kind Hkind. destruct (Hkinds kind Hkind) as ([k st] & Hin%elem_of_osd_steps & <-). naive_solver.
  - intros [k st] Hin%elem_of_osd_steps. naive_solver.
  - intros kind Hkind. destruct (Hkinds kind Hkind) as (k & st & ? & ? & ? & <-).
    exists (k, st). by rewrite elem_of_osd_steps.
Qed.

#[export] Instance osd_finished_dec run_id t : Decision (osd_finished run_id t).
Proof.
  refine (cast_if (decide (osd_obstacle (osd_steps_of run_id t) = None))); by rewrite <- osd_obstacle_finished.
Defined.

(** ** The endpoint *)

Section completion.
Context `{Clock, Fernet, WinpeEnv}.

(** The same world at another time. *)
Definition with_ticks (w : world) (n : nat) : world :=
  World (Store (tbl (db w)) (serials (db w)) n) (queue_of w) (proxmox w) (power_cycles w) (hash_files w).

(** Asking for a token moves the clock on and nothing else. *)
Lemma bearer_reads_only auth w payload w1 :
  _require_bearer_token auth w = (Ret payload, w1) →
  w1 = with_ticks w (ticks (db w1)).
Proof.
  unfold _require_bearer_token, refuse. destruct auth as [a|]; [|done].
  destruct (strip_prefix bearer a) as [t|]; [|done].
  rewrite run_bind. unfold unix_time. rewrite run_bind. unfold on_db. rewrite run_utcnow. cbn.
  by intros [= _ <-].
Qed.

(** What is left of a completed run: its row, and no interrupted job. *)
Definition completed (run_id : Z) (r : provisioning_run) (w w' : world) : Prop :=
  ∃ now later, db w' = Store
    (on_runs <[run_id := set_run_state "done" None (Some now) r]> (tbl (db w)))
    (serials (db w)) (ticks (db w')) ∧
  queue_of w' = (complete_interrupted_provision_winpe_jobs_for_run run_id later (queue_of w)).2.

Lemma completed_no_interrupted run_id r w w' :
  completed run_id r w w' → map_Forall (λ _ j, ¬ interrupted run_id j) (jobs (queue_of w')).
Proof.
  intros (now & later & _ & ->) k j. unfold complete_interrupted_provision_winpe_jobs_for_run.
  simpl. rewrite lookup_update_where. destruct (_ !! k) as [j0|]; [|done]. intros [= <-].
  case_decide; [|done]. intros (_ & [[=]|[=]] & _).
Qed.

Lemma run_completion run_id w r :
  provisioning_runs (tbl (db w)) !! run_id = Some r →
  ∃ w', (on_db (update_provisioning_run_state run_id "done" None) ;; reconcile_jobs run_id) w = (Ret tt, w') ∧
    completed run_id r w w'.
Proof.
  intros Hr. unfold update_provisioning_run_state. rewrite decide_True by set_solver.
  eexists. split; [reflexivity|]. unfold completed. simpl. do 2 eexists. split; [|reflexivity].
  f_equal. unfold on_runs. f_equal. apply map_eq. intros k. destruct (decide (run_id = k)) as [<-|].
  - by rewrite lookup_alter_eq, lookup_insert_eq, Hr.
  - by rewrite lookup_alter_ne, lookup_insert_ne.
Qed.

(** The endpoint, once the token is accepted and the run waits for the OSD client. *)
Lemma post_osd_complete_runs auth w w1 payload run_id r :
  _require_bearer_token auth w = (Ret payload, w1) → payload_run payload = Ret run_id →
  provisioning_runs (tbl (db w)) !! run_id = Some r →
  pr_state r ∈ ["awaiting_windows_setup"; "awaiting_osd_client"] →
  post_osd_complete auth w =
    match osd_obstacle (osd_steps_of run_id (tbl (db w))) with
    | Some detail => (Exc (http 409 detail), w1)
    | None => (on_db (update_provisioning_run_state run_id "done" None) ;; reconcile_jobs run_id) w1
    end.
Proof.
  intros Hb Hp Hr Hst. pose proof (bearer_reads_only _ _ _ _ Hb) as Hw1.
  revert Hb. rewrite Hw1. generalize (ticks (db w1)). intros n Hb.
  unfold post_osd_complete. rewrite run_bind, Hb. cbv beta iota. rewrite run_bind, Hp. unfold lift_outcome at 1. cbv beta iota.
  rewrite run_bind. unfold on_db at 1. rewrite run_select. cbv beta iota. unfold get_provisioning_run.
  unfold with_ticks. cbn [db tbl queue_of proxmox power_cycles hash_files]. rewrite Hr.
  rewrite decide_False, decide_True by (try done; intros Hd; by apply ended_not_waiting in Hd; revert Hst; unfold waiting_states in Hd; set_solver).
  rewrite run_bind. unfold on_db at 1. rewrite run_select. cbv beta iota.
  cbn [db tbl queue_of proxmox power_cycles hash_files].
  by destruct (osd_obstacle (osd_steps_of run_id (tbl (db w)))).
Qed.

(** C32. The OSD agent can declare its run done exactly when all is done: with a token for a
    run that waits for the OSD client, completion is granted if every OSD step of the run
    succeeded and every required kind of step is among them, and then the run is done, its
    error is cleared, and no interrupted job of the run is left; otherwise it is refused with
    409 and neither the tables nor the queue change. *)
Theorem post_osd_complete_spec (auth : option string) (w w1 : world) (payload : json) (run_id : Z)
    (r : provisioning_run) :
  _require_bearer_token auth w = (Ret payload, w1) → payload_run payload = Ret run_id →
  provisioning_runs (tbl (db w)) !! run_id = Some r →
  pr_state r ∈ ["awaiting_windows_setup"; "awaiting_osd_client"] →
  match post_osd_complete auth w with
  | (Ret _, w') => osd_finished run_id (tbl (db w)) ∧ completed run_id r w w' ∧
      map_Forall (λ _ j, ¬ interrupted run_id j) (jobs (queue_of w'))
  | (Exc e, w') => ¬ osd_finished run_id (tbl (db w)) ∧ (∃ detail, e = http 409 detail) ∧
      tbl (db w') = tbl (db w) ∧ queue_of w' = queue_of w
  end.
Proof.
  intros Hb Hp Hr Hst. rewrite (post_osd_complete_runs _ _ _ _ _ _ Hb Hp Hr Hst).
  pose proof (bearer_reads_only _ _ _ _ Hb) as ->.
  destruct (osd_obstacle (osd_steps_of run_id (tbl (db w)))) as [detail|] eqn:Eo.
  - split; [|split; [by exists detail|done]]. rewrite <- osd_obstacle_finished. congruence.
  - destruct (run_completion run_id (with_ticks w (ticks (db w1))) r Hr) as (w' & E & Hc).
    match goal with |- match ?x with _ => _ end => replace x with (Ret tt, w') by (symmetry; exact E) end.
    split; [by apply osd_obstacle_finished|]. split; [exact Hc|]. by eapply completed_no_interrupted.
Qed.
End completion.
