(* ===== verification/WinpeAgent.v ===== *)
(** * An agent that does its work finishes its run

    A diligent agent registers, reports every action it is given as running and then as
    done, hands over to Windows, does the same there, and declares completion.  From any
    well-formed database with a queued run, such an agent is never refused, and at the end
    the run is done. *)

From stdpp Require Import base gmap list strings pretty sorting.
From Stdlib Require Import ZArith Lia Ascii.
From S2P Require Import Prelude Json Text Digest JsonParse JobQueue SequenceCompiler Dense.
From S2P Require Import LegacyStore LegacySequences LegacySeeds LegacyRuns HashFiles WinpeToken.
From S2P Require Import WinpeProtocol WinpeInvariant.

Lemma strip_prefix_app p s : strip_prefix p (p +:+ s) = Some s.
Proof. induction p as [|c p IH]; [by rewrite app_nil|]. rewrite app_cons. simpl. by rewrite decide_True. Qed.

Section agent.
Context `{Clock, Fernet, WinpeEnv}.

(** ** The agent *)

Definition header (token : string) : option string := Some (bearer +:+ token).

(** Each action is reported as running and as done, with the token of the last answer. *)
Fixpoint do_actions (post : Z → string → option string → option string → eff world string)
    (token : string) (acts : list action) : eff world string :=
  match acts with
  | [] => mret token
  | a :: acts =>
      token ← post (ac_step_id a) "running" None (header token);
      token ← post (ac_step_id a) "ok" None (header token);
      do_actions post token acts
  end.

Definition winpe_agent (run_id vmid : Z) (vm_uuid client : string) : eff world unit :=
  post_identity run_id vmid vm_uuid client ;;
  reg ← post_register vm_uuid;
  token ← do_actions post_step_result (rg_bearer_token reg) (rg_actions reg);
  package ← get_osd_client_package run_id (header token);
  post_done (header token) ;;
  reg ← post_osd_register (header package.1);
  token ← do_actions post_osd_step_result (rg_bearer_token reg) (rg_actions reg);
  post_osd_complete (header token).

(** ** Handlers that return *)

(** [m] returns from [w], and then [Q] holds. *)
Definition returns {A} (m : eff world A) (w : world) (Q : A → world → Prop) : Prop :=
  ∃ a w', m w = (Ret a, w') ∧ Q a w'.

Definition with_db (w : world) (s : store) : world :=
  World s (queue_of w) (proxmox w) (power_cycles w) (hash_files w).

(** The clock was read once more. *)
Definition tick (w : world) : world :=
  with_db w (Store (tbl (db w)) (serials (db w)) (S (ticks (db w)))).

Lemma returns_bind {A B} (m : eff world A) (f : A → eff world B) w Q :
  returns m w (λ a w', returns (f a) w' Q) → returns (m ≫= f) w Q.
Proof.
  intros (a & w1 & E & b & w2 & E2 & HQ). exists b, w2. rewrite run_bind, E. by split.
Qed.
Lemma returns_ret {A} (a : A) w (Q : A → world → Prop) : Q a w → returns (mret a) w Q.
Proof. intros HQ. by exists a, w. Qed.
Lemma returns_eq {A} (m : eff world A) a w w' (Q : A → world → Prop) :
  m w = (Ret a, w') → Q a w' → returns m w Q.
Proof. intros. by exists a, w'. Qed.
Lemma returns_lift {A} (o : outcome A) a w (Q : A → world → Prop) :
  o = Ret a → Q a w → returns (lift_outcome o) w Q.
Proof. intros -> HQ. by exists a, w. Qed.
Lemma returns_select {A} (f : tables → A) w (Q : A → world → Prop) :
  Q (f (tbl (db w))) w → returns (on_db (select f)) w Q.
Proof. intros HQ. eexists _, w. split; [|done]. by destruct w. Qed.
Lemma returns_mono {A} (m : eff world A) w (Q Q' : A → world → Prop) :
  returns m w Q → (∀ a w', Q a w' → Q' a w') → returns m w Q'.
Proof. intros (a & w' & ? & ?) HQ. exists a, w'. auto. Qed.

(** What a handler keeps, and what it returns with. *)
Lemma returns_keeps {A} (m : eff world A) w Q :
  keeps m → wf_world w → returns m w Q → returns m w (λ a w', wf_world w' ∧ Q a w').
Proof.
  intros Hk Hw (a & w' & E & HQ). exists a, w'. split; [done|]. split; [|done].
  specialize (Hk w Hw). by rewrite E in Hk.
Qed.

(** ** Tokens within their time *)

Context (secret : string) (Hsecret : secret ≠ EmptyString) (Henv : token_secret = Some secret).
(** The whole story takes less than an hour after [t0]. *)
Context (t0 : Z) (Hclock : ∀ n, (t0 ≤ clock_at n / 1000000 ≤ t0 + _REGISTER_TOKEN_TTL)%Z).

Definition valid_token (run_id : Z) (token : string) : Prop :=
  ∃ exp, token = signed secret run_id exp ∧ (t0 + _REGISTER_TOKEN_TTL ≤ exp)%Z.

Lemma returns_sign run_id ttl w (Q : string → world → Prop) :
  (_REGISTER_TOKEN_TTL ≤ ttl)%Z →
  (∀ token, valid_token run_id token → Q token (tick w)) → returns (sign_for run_id ttl) w Q.
Proof.
  intros Httl HQ. eexists _, (tick w). split.
  - unfold sign_for, unix_time. rewrite run_bind, run_bind. unfold on_db. rewrite run_utcnow. simpl.
    unfold lift_outcome. rewrite Henv, sign_signed by done. reflexivity.
  - apply HQ. eexists. split; [done|]. pose proof (Hclock (ticks (db w))). lia.
Qed.

Definition payload_of (run_id exp : Z) : json := JObj [("exp", JInt exp); ("run_id", JInt run_id)].

Lemma bearer_valid run_id token w :
  valid_token run_id token → ∃ payload, _require_bearer_token (header token) w = (Ret payload, tick w) ∧
    payload_run payload = Ret run_id ∧ py_str (jget "run_id" payload) = pretty run_id.
Proof.
  intros (exp & -> & Hexp). exists (payload_of run_id exp). split; [|done].
  unfold _require_bearer_token, header.
  replace (strip_prefix bearer (bearer +:+ signed secret run_id exp)) with (Some (signed secret run_id exp))
    by (symmetry; apply strip_prefix_app).
  unfold unix_time. rewrite run_bind, run_bind. unfold on_db. rewrite run_utcnow. cbn [mret eff_ret].
  rewrite strip_no_space by apply signed_no_space. rewrite Henv, verify_signed by done.
  pose proof (Hclock (ticks (db w))). rewrite (proj2 (Z.leb_le _ _)) by lia. done.
Qed.

Lemma returns_bearer run_id token w (Q : json → world → Prop) :
  valid_token run_id token → (∀ payload, payload_run payload = Ret run_id → Q payload (tick w)) →
  returns (_require_bearer_token (header token)) w Q.
Proof.
  intros Ht HQ. destruct (bearer_valid run_id token w Ht) as (p & E & Hp & _).
  eapply returns_eq; [done|auto].
Qed.
(** ** Steps *)

(** The steps of [t] and, for each of the actions, a step of the run that waits. *)
Record extended (run_id : Z) (phase : string) (acts : list action) (t t' : tables) : Prop := Extended {
  ex_others : t' = on_run_steps (λ _, provisioning_run_steps t') t;
  ex_old k st : provisioning_run_steps t !! k = Some st → provisioning_run_steps t' !! k = Some st;
  ex_new k st : provisioning_run_steps t' !! k = Some st →
    provisioning_run_steps t !! k = Some st ∨
    (k ∈ ac_step_id <$> acts ∧ rs_run_id st = run_id ∧ rs_phase st = phase);
  ex_acts a : a ∈ acts → ∃ st, provisioning_run_steps t' !! ac_step_id a = Some st ∧
    rs_run_id st = run_id ∧ rs_phase st = phase ∧ rs_kind st = ac_kind a
}.

Lemma append_returns run_id phase kind params s :
  wf_store s → is_Some (provisioning_runs (tbl s) !! run_id) → (∃ p, jsonb params = Ret p) →
  ∃ r s', append_run_step run_id phase kind params s = (Ret r, s').
Proof.
  intros Hwf Hrun [p Hp]. unfold append_run_step, transaction.
  rewrite run_bind, run_select. cbv beta iota. rewrite run_bind, run_lift, Hp. cbv beta iota.
  rewrite run_bind, run_nextval. cbv beta iota zeta. rewrite run_bind, run_require. simpl.
  rewrite (next_order_length _ _ (wf_run_steps _ (proj1 Hwf))).
  assert (∀ id, order_free id run_id (Z.of_nat (length (list_run_steps run_id (tbl s)))) (tbl s) = true) as Hfree.
  { intros id. apply order_free_true. intros k st Hk Hne Ho Heq.
    assert (0 ≤ Z.of_nat (length (list_run_steps run_id (tbl s))) < Z.of_nat (length (rows rs_run_id rs_order_index run_id (provisioning_run_steps (tbl s)))))%Z as Hlt.
    { apply rows_taken; [apply Hwf|]. eauto. }
    change (rows _ _ _ _) with (list_run_steps run_id (tbl s)) in Hlt. lia. }
  rewrite Hfree, run_bind, run_require. simpl. rewrite (proj2 (exists_key_spec _ _)) by done.
  eauto.
Qed.
Lemma append_actions_returns run_id phase l w :
  wf_world w → is_Some (provisioning_runs (tbl (db w)) !! run_id) →
  Forall (λ kp, ∃ p, jsonb kp.2 = Ret p) l →
  returns (append_actions run_id phase l) w (λ acts w',
    wf_world w' ∧ extended run_id phase acts (tbl (db w)) (tbl (db w')) ∧ ac_kind <$> acts = l.*1).
Proof.
  revert w. induction l as [|[kind params] l IH]; intros w Hw Hrun Hl.
  { apply returns_ret. split; [done|]. split; [|done]. split; [by destruct (tbl (db w))|done|by left|set_solver]. }
  apply Forall_cons in Hl as [Hp Hl]. simpl append_actions. apply returns_bind.
  destruct (append_returns run_id phase kind params (db w) (proj1 Hw) Hrun Hp) as ([id row] & s' & E).
  destruct (append_run_step_leads run_id phase kind params (db w) (proj1 Hw)) as [_ Hleads].
  destruct (Hleads _ _ E) as (Hws & Ht & Hfree & Hr & Hph & Hk & _). simpl in *.
  assert (wf_world (with_db w s')) as Hw'.
  { pose proof (confined_append run_id phase kind params w Hw) as [Hc _]. unfold on_db in Hc. by rewrite E in Hc. }
  eapply returns_eq; [unfold on_db; by rewrite E|]. apply returns_bind. fold (with_db w s').
  eapply returns_mono; [apply IH; [done| |done]; simpl; by rewrite Ht|].
  intros acts w' (Hw2 & [Eo Eold Enew Eacts] & Hkinds). simpl in *. apply returns_ret.
  assert (provisioning_run_steps (tbl s') = <[id := row]> (provisioning_run_steps (tbl (db w)))) as Hs' by by rewrite Ht.
  split; [done|]. split; [|by rewrite fmap_cons, Hkinds]. split.
  - rewrite Eo at 1. by rewrite Ht.
  - intros k st Hst. apply Eold. rewrite Hs', lookup_insert_ne; congruence.
  - intros k st Hst. simpl. destruct (Enew k st Hst) as [Hk'|(Hin & Hrest)]; [|right; split; [by right|done]].
    rewrite Hs' in Hk'. apply lookup_insert_Some in Hk' as [[<- <-]|[_ ?]]; [|by left].
    right. split; [by left|done].
  - intros a [->|Ha]%elem_of_cons; [|by apply Eacts]. exists row. simpl. split; [|done].
    apply Eold. by rewrite Hs', lookup_insert_eq.
Qed.

(** ** Results *)

(** [t'] is [t] with the state of one step changed. *)
Definition marked (step_id : Z) (state : string) (t t' : tables) : Prop :=
  ∃ f, t' = on_run_steps (alter f step_id) t ∧ ∀ st, rs_state (f st) = state ∧ rs_run_id (f st) = rs_run_id st ∧
    rs_phase (f st) = rs_phase st ∧ rs_kind (f st) = rs_kind st.

Lemma mark_returns label step_id st state w :
  state = "running" ∨ state = "ok" →
  returns (record_result label step_id st state None) w (λ _ w', marked step_id state (tbl (db w)) (tbl (db w'))).
Proof.
  intros Hst. unfold record_result.
  destruct Hst as [-> | ->]; [rewrite decide_True by done|rewrite decide_False, decide_True by done].
  - eapply returns_eq; [unfold update_run_step_state; rewrite decide_True by done; reflexivity|].
    simpl. eexists. split; [done|]. done.
  - eapply returns_eq; [unfold update_run_step_state; rewrite decide_False, decide_True by (done || set_solver); reflexivity|].
    simpl. eexists. split; [done|]. done.
Qed.

(** The answer to a result of a step of the run: a new token, and the step is marked. *)
Definition answers (run_id : Z) (phase : string)
    (post : Z → string → option string → option string → eff world string) : Prop :=
  ∀ step_id st state token w,
    provisioning_run_steps (tbl (db w)) !! step_id = Some st → rs_run_id st = run_id → rs_phase st = phase →
    state = "running" ∨ state = "ok" → valid_token run_id token → wf_world w →
    returns (post step_id state None (header token)) w (λ token' w',
      wf_world w' ∧ valid_token run_id token' ∧ marked step_id state (tbl (db w)) (tbl (db w'))).

Lemma ignore_keeps {A} (m : eff world A) r : serve r = ignore m → keeps m.
Proof.
  intros E w Hw. pose proof (serve_keeps r w Hw) as Hk. rewrite E in Hk. unfold ignore in Hk.
  rewrite run_bind in Hk. by destruct (m w) as [[a|e] w'].
Qed.

Lemma post_step_result_answers run_id : answers run_id "winpe" post_step_result.
Proof.
  intros step_id st state token w Hst Hr _ Hstate Ht Hw. apply returns_keeps; [|done|].
  { by apply (ignore_keeps _ (PostStepResult step_id state None (header token))). }
  apply returns_bind. eapply returns_bearer; [done|]. intros payload Hp.
  apply returns_bind, returns_select. unfold get_run_step. simpl. rewrite Hst.
  apply returns_bind. eapply returns_lift; [done|]. rewrite decide_True by done. apply returns_bind.
  eapply returns_mono; [by apply mark_returns|]. intros [] w' Hm. simpl in Hm.
  apply returns_sign; [done|]. by intros token' Ht'.
Qed.

Lemma post_osd_step_result_answers run_id : answers run_id "osd" post_osd_step_result.
Proof.
  intros step_id st state token w Hst Hr Hph Hstate Ht Hw. apply returns_keeps; [|done|].
  { by apply (ignore_keeps _ (PostOsdStepResult step_id state None (header token))). }
  apply returns_bind. eapply returns_bearer; [done|]. intros payload Hp.
  apply returns_bind, returns_select. unfold get_run_step. simpl. rewrite Hst.
  apply returns_bind. eapply returns_lift; [done|]. rewrite !decide_True by done. apply returns_bind.
  eapply returns_mono; [by apply mark_returns|]. intros [] w' Hm. simpl in Hm.
  apply returns_sign; [done|]. by intros token' Ht'.
Qed.
(** ** Doing the actions *)

(** The run is in a state, and its steps that are not done are the pending actions. *)
Record working (run_id vmid : Z) (state phase : string) (pending : list action) (w : world) : Prop := Working {
  wk_wf : wf_world w;
  wk_run : ∃ r, provisioning_runs (tbl (db w)) !! run_id = Some r ∧ pr_state r = state ∧ pr_vmid r = Some vmid;
  wk_done k st : provisioning_run_steps (tbl (db w)) !! k = Some st → rs_run_id st = run_id →
    rs_state st = "ok" ∨ k ∈ ac_step_id <$> pending;
  wk_pending a : a ∈ pending → ∃ st, provisioning_run_steps (tbl (db w)) !! ac_step_id a = Some st ∧
    rs_run_id st = run_id ∧ rs_phase st = phase
}.

(** The steps are the same but for their states. *)
Definition same_steps (t t' : tables) : Prop := ∀ k,
  (λ st, (rs_run_id st, rs_phase st, rs_kind st)) <$> provisioning_run_steps t' !! k =
  (λ st, (rs_run_id st, rs_phase st, rs_kind st)) <$> provisioning_run_steps t !! k.

#[local] Instance same_steps_preorder : PreOrder same_steps.
Proof. split; [by intros t k|]. intros t1 t2 t3 H1' H2' k. by rewrite H2', H1'. Qed.

Lemma marked_same id state t t' : marked id state t t' → same_steps t t'.
Proof.
  intros (f & -> & Hf) k. simpl. destruct (decide (id = k)) as [<-|]; [|by rewrite lookup_alter_ne].
  rewrite lookup_alter_eq. destruct (_ !! id) as [st|]; [|done]. simpl.
  by destruct (Hf st) as (_ & -> & -> & ->).
Qed.

Lemma same_steps_lookup t t' k st :
  same_steps t t' → provisioning_run_steps t !! k = Some st →
  ∃ st', provisioning_run_steps t' !! k = Some st' ∧ rs_run_id st' = rs_run_id st ∧
    rs_phase st' = rs_phase st ∧ rs_kind st' = rs_kind st.
Proof.
  intros Hs Hk. specialize (Hs k). rewrite Hk in Hs. destruct (_ !! k) as [st'|]; [|done].
  injection Hs as ???. by exists st'.
Qed.

(** A mark leaves the work as it is; the mark that the first action is done takes it off. *)
Lemma marked_working run_id vmid state phase pending a w w' mark :
  working run_id vmid state phase (a :: pending) w → wf_world w' →
  marked (ac_step_id a) mark (tbl (db w)) (tbl (db w')) →
  working run_id vmid state phase (a :: pending) w' ∧
  (mark = "ok" → working run_id vmid state phase pending w').
Proof.
  intros [Hw (r & Hr) Hd Hp] Hw' Hm. pose proof (marked_same _ _ _ _ Hm) as Hs.
  destruct Hm as (f & Ht & Hf).
  assert (∀ b, b ∈ a :: pending → ∃ st, provisioning_run_steps (tbl (db w')) !! ac_step_id b = Some st ∧
    rs_run_id st = run_id ∧ rs_phase st = phase) as Hp'.
  { intros b Hb. destruct (Hp b Hb) as (st & Hst & <- & <-).
    destruct (same_steps_lookup _ _ _ _ Hs Hst) as (st' & ? & ? & ? & _). eauto. }
  assert (∀ k st, provisioning_run_steps (tbl (db w')) !! k = Some st → rs_run_id st = run_id →
    (k = ac_step_id a ∧ rs_state st = mark) ∨ rs_state st = "ok" ∨ k ∈ ac_step_id <$> pending) as Hd'.
  { intros k st. rewrite Ht. simpl. destruct (decide (ac_step_id a = k)) as [<-|Hne].
    - rewrite lookup_alter_eq. intros (st0 & Hst & ->)%fmap_Some_1 _. left. by destruct (Hf st0) as [-> _].
    - rewrite lookup_alter_ne by done. intros Hst Ho. right.
      destruct (Hd k st Hst Ho) as [?|[-> |Hin]%elem_of_cons]; [by left|done|by right]. }
  assert (∃ r, provisioning_runs (tbl (db w')) !! run_id = Some r ∧ pr_state r = state ∧ pr_vmid r = Some vmid)
    as Hrun by (exists r; by rewrite Ht).
  split; [|intros ->]; split; try done.
  - intros k st Hst Ho. destruct (Hd' k st Hst Ho) as [[-> _]|[?|?]]; [right; by left|by left|right; by right].
  - intros k st Hst Ho. destruct (Hd' k st Hst Ho) as [[_ ?]|[?|?]]; auto.
  - intros b Hb. apply Hp'. by right.
Qed.

Lemma do_actions_return run_id vmid state phase post :
  answers run_id phase post → ∀ pending token w,
  working run_id vmid state phase pending w → valid_token run_id token →
  returns (do_actions post token pending) w (λ token' w',
    valid_token run_id token' ∧ working run_id vmid state phase [] w' ∧ same_steps (tbl (db w)) (tbl (db w'))).
Proof.
  intros Hpost. induction pending as [|a pending IH]; intros token w Hk Ht.
  { apply returns_ret. done. }
  assert (∀ w mark, working run_id vmid state phase (a :: pending) w → mark = "running" ∨ mark = "ok" →
    ∀ token, valid_token run_id token →
    returns (post (ac_step_id a) mark None (header token)) w (λ token' w',
      wf_world w' ∧ valid_token run_id token' ∧ marked (ac_step_id a) mark (tbl (db w)) (tbl (db w')))) as Hans.
  { intros w0 mark Hk0 Hmark token0 Ht0. destruct (wk_pending _ _ _ _ _ _ Hk0 a) as (st & ? & ? & ?); [by left|].
    eapply Hpost; [done..|]. by apply wk_wf in Hk0. }
  simpl do_actions. apply returns_bind. eapply returns_mono; [apply (Hans w "running"); auto|].
  intros token1 w1 (Hw1 & Ht1 & Hm1). destruct (marked_working _ _ _ _ _ _ _ _ _ Hk Hw1 Hm1) as [Hk1 _].
  apply returns_bind. eapply returns_mono; [apply (Hans w1 "ok"); auto|].
  intros token2 w2 (Hw2 & Ht2 & Hm2). destruct (marked_working _ _ _ _ _ _ _ _ _ Hk1 Hw2 Hm2) as [_ Hk2].
  eapply returns_mono; [by apply IH, Ht2; apply Hk2|]. intros token3 w3 (Ht3 & Hk3 & Hs3).
  split; [done|]. split; [done|]. etrans; [by eapply marked_same|]. etrans; [by eapply marked_same|done].
Qed.
(** ** In WinPE *)

(** A run that waits to be taken up: nothing was done for it, and no other run waits for a
    machine with this UUID. *)
Record fresh_run (run_id : Z) (vm_uuid : string) (w : world) : Prop := FreshRun {
  fr_wf : wf_world w;
  fr_run : ∃ r, provisioning_runs (tbl (db w)) !! run_id = Some r ∧ pr_state r = "queued";
  fr_steps k st : provisioning_run_steps (tbl (db w)) !! k = Some st → rs_run_id st ≠ run_id;
  fr_uuid k r : provisioning_runs (tbl (db w)) !! k = Some r →
    pr_vm_uuid r = Some (_normalize_uuid vm_uuid) → pr_state r ≠ "awaiting_winpe"
}.

(** After the identity is set, the run is the one that is found by the UUID. *)
Definition identified (run_id vmid : Z) (vm_uuid : string) (w : world) : Prop :=
  wf_world w ∧
  (∃ r, provisioning_runs (tbl (db w)) !! run_id = Some r ∧ pr_state r = "awaiting_winpe" ∧
     pr_vmid r = Some vmid ∧ find_run_by_uuid_state vm_uuid "awaiting_winpe" (tbl (db w)) = Some (run_id, r)) ∧
  (∀ k st, provisioning_run_steps (tbl (db w)) !! k = Some st → rs_run_id st ≠ run_id).

Lemma newest_only rows run_id (r : provisioning_run) :
  (run_id, r) ∈ rows → (∀ kr, kr ∈ rows → kr = (run_id, r)) → newest rows = Some (run_id, r).
Proof.
  intros Hin Hall. unfold newest. apply isort_head_least; [apply _|done|]. intros kr Hkr. left. by apply Hall.
Qed.

Lemma identity_returns run_id vmid vm_uuid client w :
  (_identity_allowlist = [] ∨ client ∈ _identity_allowlist) → fresh_run run_id vm_uuid w →
  returns (post_identity run_id vmid vm_uuid client) w (λ _ w', identified run_id vmid vm_uuid w').
Proof.
  intros Hc [Hw (r & Hr & Hq) Hs Hu].
  set (identify := update_where (λ kr, kr.1 = run_id ∧ pr_state kr.2 = "queued")
    (λ r, ProvisioningRun (Some vmid) (pr_sequence_id r) (pr_provision_path r) "awaiting_winpe"
      (Some (_normalize_uuid vm_uuid)) (pr_started_at r) (pr_finished_at r) (pr_last_error r))).
  eapply returns_mono; [apply (returns_keeps _ _ (λ _ w', tbl (db w') = on_runs identify (tbl (db w))));
    [apply post_identity_keeps|done|]|].
  - unfold post_identity, _check_identity_caller. rewrite decide_True by done. apply returns_bind, returns_ret.
    apply returns_bind, returns_select. unfold get_provisioning_run. rewrite Hr, decide_True by done.
    by eapply returns_eq.
  - intros [] w' [Hw' Ht]. split; [done|]. rewrite Ht. unfold identify. simpl. split; [|done].
    rewrite lookup_update_where, Hr. simpl. rewrite decide_True by done. eexists. split_and!; [done..|].
    unfold find_run_by_uuid_state. apply newest_only.
    + apply elem_of_select_where. simpl. split; [done|]. by rewrite lookup_update_where, Hr; simpl; rewrite decide_True.
    + intros [k rk] [[Hku Hks] Hk]%elem_of_select_where. simpl in *.
      rewrite lookup_update_where in Hk. destruct (provisioning_runs (tbl (db w)) !! k) as [r0|] eqn:Hk0; [|done].
      simpl in Hk. injection Hk as <-. case_decide as Hd; [|by destruct (Hu k r0 Hk0 Hku)].
      simpl in *. destruct Hd as [-> _]. congruence.
Qed.

Lemma winpe_actions_plain hash phase :
  Forall (λ kp, ∃ p, jsonb kp.2 = Ret p) (actions (compile_winpe hash phase)).
Proof. unfold compile_winpe. simpl. destruct (hash && _); simpl; repeat constructor; by eexists. Qed.

Lemma osd_actions_plain : Forall (λ kp, ∃ p, jsonb kp.2 = Ret p) _DEFAULT_OSD_ACTIONS.
Proof. repeat constructor; by eexists. Qed.

Lemma no_run_steps run_id t :
  (∀ k st, provisioning_run_steps t !! k = Some st → rs_run_id st ≠ run_id) → list_run_steps run_id t = [].
Proof.
  intros Hn. destruct (list_run_steps run_id t) as [|[k st] l] eqn:E; [done|].
  assert ((k, st) ∈ list_run_steps run_id t) as [Hk Ho]%elem_of_list_run_steps by (rewrite E; left).
  by destruct (Hn k st Hk).
Qed.

(** The steps that were added are the work, when all the others are done. *)
Lemma extended_working run_id vmid state phase acts t w :
  wf_world w → extended run_id phase acts t (tbl (db w)) →
  (∃ r, provisioning_runs (tbl (db w)) !! run_id = Some r ∧ pr_state r = state ∧ pr_vmid r = Some vmid) →
  (∀ k st, provisioning_run_steps t !! k = Some st → rs_run_id st = run_id → rs_state st = "ok") →
  working run_id vmid state phase acts w.
Proof.
  intros Hw [_ _ Hn Ha] Hr Hok. split; [done|done| |].
  - intros k st Hst Ho. destruct (Hn k st Hst) as [Hk|[? _]]; [|by right]. left. by eapply Hok.
  - intros a Hin. destruct (Ha a Hin) as (st & ? & ? & ? & _). eauto.
Qed.

Definition only_phase (run_id : Z) (phase : string) (w : world) : Prop := ∀ k st,
  provisioning_run_steps (tbl (db w)) !! k = Some st → rs_run_id st = run_id → rs_phase st = phase.

Lemma register_returns run_id vmid vm_uuid w :
  identified run_id vmid vm_uuid w →
  returns (post_register vm_uuid) w (λ reg w', valid_token run_id (rg_bearer_token reg) ∧
    working run_id vmid "awaiting_winpe" "winpe" (rg_actions reg) w' ∧ only_phase run_id "winpe" w').
Proof.
  intros (Hw & (r & Hr & Hst & Hvm & Hfind) & Hsteps).
  unfold post_register. apply returns_bind, returns_select. rewrite Hfind.
  apply returns_bind, returns_select. rewrite no_run_steps by done. apply returns_bind.
  destruct (wf_runs_fk _ (proj1 (proj1 Hw)) run_id r (pr_sequence_id r) Hr eq_refl) as [q Hq].
  unfold _build_actions_for_run. apply returns_bind.
  eapply returns_eq.
  { unfold on_db, LegacyStore.get_sequence. rewrite run_bind, run_select. cbv beta iota. rewrite Hq. reflexivity. }
  simpl. fold (with_db w (db w)). replace (with_db w (db w)) with w by by destruct w.
  eapply returns_mono; [apply append_actions_returns; [done|by eexists|apply winpe_actions_plain]|].
  intros acts w' (Hw' & Hext & _). simpl. apply returns_bind. apply returns_sign; [done|].
  intros token Ht. apply returns_ret. split; [done|].
  pose proof Hext as [Ho _ Hnew _]. split.
  - eapply extended_working; [|done|..].
    + pose proof (confined_utcnow run_id w' Hw') as [Hc _]. by destruct w'.
    + exists r. simpl. rewrite Ho. by simpl.
    + intros k st Hk Hown. by destruct (Hsteps k st Hk).
  - intros k st Hk Hown. simpl in Hk. destruct (Hnew k st Hk) as [Hold|(_ & _ & ?)]; [|done].
    by destruct (Hsteps k st Hold).
Qed.
(** ** Over to Windows *)

(** What holds once WinPE's actions are done. *)
Definition windows_next (run_id vmid : Z) (state phase : string) (w : world) : Prop :=
  working run_id vmid state phase [] w ∧ only_phase run_id "winpe" w.

Lemma only_phase_same run_id phase w w' :
  same_steps (tbl (db w)) (tbl (db w')) → only_phase run_id phase w → only_phase run_id phase w'.
Proof.
  intros Hs Ho k st Hk Hr. specialize (Hs k). rewrite Hk in Hs.
  destruct (provisioning_run_steps (tbl (db w)) !! k) as [st0|] eqn:E; [|done].
  injection Hs as Hr0 -> _. eapply Ho; [done|congruence].
Qed.

Lemma working_tick run_id vmid state phase pending w :
  working run_id vmid state phase pending w → working run_id vmid state phase pending (tick w).
Proof.
  intros [Hw Hr Hd Hp]. split; [|done..]. pose proof (confined_utcnow run_id w Hw) as [Hc _]. by destruct w.
Qed.

Context (files : json) (Hfiles : osd_client_files = Ret files).
Context (Hput : ∀ call, put_config call = Ret tt).

Lemma package_returns run_id token w (Q : string * json → world → Prop) :
  valid_token run_id token →
  (∀ token', valid_token run_id token' → Q (token', files) (tick (tick w))) →
  returns (get_osd_client_package run_id (header token)) w Q.
Proof.
  intros Ht HQ. destruct (bearer_valid run_id token w Ht) as (p & E & _ & Hp).
  apply returns_bind. unfold _require_bearer_for_run. apply returns_bind.
  eapply returns_eq; [exact E|]. rewrite decide_True by exact Hp. apply returns_ret.
  rewrite Hfiles. apply returns_bind, returns_sign; [done|]. intros token' Ht'. apply returns_ret. by apply HQ.
Qed.

Lemma done_returns run_id vmid token w :
  valid_token run_id token → windows_next run_id vmid "awaiting_winpe" "winpe" w →
  returns (post_done (header token)) w (λ _ w', windows_next run_id vmid "awaiting_windows_setup" "winpe" w').
Proof.
  intros Ht [[Hw (r & Hr & Hst & Hvm) Hd _] Ho].
  eapply returns_mono; [apply (returns_keeps _ _ (λ _ w',
    tbl (db w') = on_runs (alter (set_run_state "awaiting_windows_setup" None None) run_id) (tbl (db w))));
    [|done|]|].
  - intros w0 Hw0. apply (serve_keeps (PostDone (header token)) w0 Hw0).
  - apply returns_bind. eapply returns_bearer; [done|]. intros payload Hp.
    apply returns_bind. eapply returns_lift; [done|]. apply returns_bind, returns_select.
    unfold get_provisioning_run. simpl. rewrite Hr, Hvm, decide_True by done. apply returns_bind.
    eapply returns_eq; [unfold _proxmox_detach_and_set_boot; rewrite Hput; reflexivity|].
    apply returns_bind. eapply returns_eq; [reflexivity|]. by eapply returns_eq.
  - intros [] w' [Hw' Htb]. split; [split|]; rewrite ?Htb; try done.
    + simpl. rewrite lookup_alter_eq, Hr. eexists. by split.
    + set_solver.
    + intros k st. rewrite Htb. apply Ho.
Qed.

(** ** In Windows *)

Definition kinds_present (run_id : Z) (kinds : list string) (t : tables) : Prop := ∀ kind,
  kind ∈ kinds → ∃ k st, provisioning_run_steps t !! k = Some st ∧ rs_run_id st = run_id ∧
    rs_phase st = "osd" ∧ rs_kind st = kind.

Lemma kinds_present_same run_id kinds t t' :
  same_steps t t' → kinds_present run_id kinds t → kinds_present run_id kinds t'.
Proof.
  intros Hs Hk kind Hin. destruct (Hk kind Hin) as (k & st & Hst & Hr & Hp & Hkd).
  destruct (same_steps_lookup _ _ _ _ Hs Hst) as (st' & ? & ? & ? & ?). exists k, st'. split_and!; congruence.
Qed.

Lemma advanced_wf run_id w r :
  wf_world w → provisioning_runs (tbl (db w)) !! run_id = Some r → pr_state r = "awaiting_windows_setup" →
  wf_world (on_db (update_provisioning_run_state run_id "awaiting_osd_client" None) w).2.
Proof.
  intros Hw Hr Hst. apply (confined_advance run_id "awaiting_osd_client" None w); [..|done].
  - unfold waiting_states. set_solver.
  - exists r. split; [done|]. rewrite Hst. unfold waiting_states. set_solver.
Qed.

Lemma osd_register_returns run_id vmid token w :
  valid_token run_id token → windows_next run_id vmid "awaiting_windows_setup" "winpe" w →
  returns (post_osd_register (header token)) w (λ reg w', valid_token run_id (rg_bearer_token reg) ∧
    working run_id vmid "awaiting_osd_client" "osd" (rg_actions reg) w' ∧
    kinds_present run_id _REQUIRED_OSD_COMPLETION_KINDS (tbl (db w'))).
Proof.
  intros Ht [Hk Ho]. apply working_tick in Hk as [Hw (r & Hr & Hst & Hvm) Hd _].
  apply returns_bind. eapply returns_bearer; [done|]. intros payload Hp.
  apply returns_bind. eapply returns_lift; [done|]. apply returns_bind, returns_select.
  unfold get_provisioning_run. rewrite Hr, (decide_True (P := pr_state r = "awaiting_windows_setup")) by done.
  apply returns_bind. pose proof (advanced_wf run_id (tick w) r Hw Hr Hst) as Hw1.
  eapply returns_eq; [reflexivity|].
  match goal with |- returns _ ?w1 _ => change (wf_world w1) in Hw1; set (w2 := w1) in * end.
  rewrite decide_False by (rewrite Hst; done).
  assert (osd_steps_of run_id (tbl (db w2)) = []) as Hosd.
  { unfold osd_steps_of. apply filter_nil_forall. intros [k st] [Hks Hown]%elem_of_list_run_steps Hph.
    pose proof (Ho k st Hks Hown) as Hph'. simpl in Hph. congruence. }
  apply returns_bind. unfold _ensure_osd_actions_for_run. apply returns_bind, returns_select. rewrite Hosd.
  eapply returns_mono; [apply append_actions_returns; [done| |apply osd_actions_plain]|].
  { simpl in *. rewrite lookup_alter_eq, Hr. by eexists. }
  intros acts w3 (Hw3 & Hext & Hkinds). apply returns_bind, returns_sign; [done|]. intros token' Ht'.
  apply returns_ret. split; [done|]. split.
  - apply working_tick. eapply extended_working; [done|done|..].
    + destruct Hext as [E _ _ _]. rewrite E. simpl in *. rewrite lookup_alter_eq, Hr. eexists. by split.
    + intros k st Hks Hown. destruct (Hd k st Hks Hown) as [?|[]%not_elem_of_nil]. done.
  - intros kind Hin. assert (kind ∈ ac_kind <$> acts) as (a & -> & Ha)%list_elem_of_fmap by by rewrite Hkinds.
    destruct Hext as [_ _ _ Hacts]. destruct (Hacts a Ha) as (st & ? & ? & ? & ?). eauto.
Qed.

Lemma complete_returns run_id vmid token w :
  valid_token run_id token → working run_id vmid "awaiting_osd_client" "osd" [] w →
  kinds_present run_id _REQUIRED_OSD_COMPLETION_KINDS (tbl (db w)) →
  returns (post_osd_complete (header token)) w (λ _ w', wf_world w' ∧ (∃ r,
    provisioning_runs (tbl (db w')) !! run_id = Some r ∧ pr_state r = "done" ∧ pr_vmid r = Some vmid) ∧
    provisioning_run_steps (tbl (db w')) = provisioning_run_steps (tbl (db w))).
Proof.
  intros Ht [Hw (r & Hr & Hst & Hvm) Hd _] Hk. apply returns_keeps; [|done|].
  { intros w0 Hw0. apply (serve_keeps (PostOsdComplete (header token)) w0 Hw0). }
  destruct (bearer_valid run_id token w Ht) as (p & E & Hp & _).
  assert (osd_finished run_id (tbl (db w))) as Hfin.
  { split; [|done]. intros k st Hks Hown _. destruct (Hd k st Hks Hown) as [?|[]%not_elem_of_nil]. done. }
  destruct (run_completion run_id (tick w) r Hr) as (w' & Ec & now & later & Hdb & _).
  eapply returns_eq.
  - rewrite (post_osd_complete_runs _ w _ p run_id r E Hp Hr) by (rewrite Hst; set_solver).
    rewrite (proj2 (osd_obstacle_finished _ _) Hfin). exact Ec.
  - simpl. rewrite Hdb. simpl. rewrite lookup_insert_eq. split; [|done]. eexists. by split.
Qed.

(** C31. An agent that does its work finishes its run: from any well-formed database with a
    queued run nothing was done for, whose UUID no other waiting run has, an agent that
    registers, reports each action it is given as running and as done, fetches the OSD
    client, hands over to Windows, works the same there and declares completion is refused
    nowhere, and at the end its run is done and all steps of the run have succeeded,
    provided that a secret is configured, the story takes less than an hour, and Proxmox
    and the files of the client answer. *)
Theorem diligent_agent_finishes (run_id vmid : Z) (vm_uuid client : string) (w : world) :
  (_identity_allowlist = [] ∨ client ∈ _identity_allowlist) → fresh_run run_id vm_uuid w →
  ∃ w' r, winpe_agent run_id vmid vm_uuid client w = (Ret tt, w') ∧ wf_world w' ∧
    provisioning_runs (tbl (db w')) !! run_id = Some r ∧ pr_state r = "done" ∧ pr_vmid r = Some vmid ∧
    osd_finished run_id (tbl (db w')) ∧
    ∀ k st, provisioning_run_steps (tbl (db w')) !! k = Some st → rs_run_id st = run_id → rs_state st = "ok".
Proof.
  intros Hc Hf.
  assert (returns (winpe_agent run_id vmid vm_uuid client) w (λ _ w', wf_world w' ∧ (∃ r,
    provisioning_runs (tbl (db w')) !! run_id = Some r ∧ pr_state r = "done" ∧ pr_vmid r = Some vmid) ∧
    osd_finished run_id (tbl (db w')) ∧
    ∀ k st, provisioning_run_steps (tbl (db w')) !! k = Some st → rs_run_id st = run_id → rs_state st = "ok"))
    as ([] & w' & E & Hw & (r & ? & ? & ?) & ? & ?); [|by exists w', r].
  apply returns_bind. eapply returns_mono; [by apply identity_returns|]. intros [] w1 Hid.
  apply returns_bind. eapply returns_mono; [by apply register_returns|]. intros reg w2 (Ht2 & Hk2 & Ho2).
  apply returns_bind. eapply returns_mono; [by eapply (do_actions_return _ _ _ _ _ (post_step_result_answers run_id))|].
  intros t3 w3 (Ht3 & Hk3 & Hs3). apply returns_bind, package_returns; [done|]. intros t4 Ht4.
  apply returns_bind. eapply returns_mono; [apply (done_returns run_id vmid); [done|]|].
  { split; [by do 2 apply working_tick|]. by apply (only_phase_same _ _ w2). }
  intros [] w5 Hn5. apply returns_bind. eapply returns_mono; [by eapply osd_register_returns|].
  intros reg6 w6 (Ht6 & Hk6 & Hp6). apply returns_bind.
  eapply returns_mono; [by eapply (do_actions_return _ _ _ _ _ (post_osd_step_result_answers run_id))|].
  intros t7 w7 (Ht7 & Hk7 & Hs7). pose proof (kinds_present_same _ _ _ _ Hs7 Hp6) as Hp7.
  eapply returns_mono; [by eapply complete_returns|]. intros [] w8 (Hw8 & Hr8 & Hs8).
  assert (∀ k st, provisioning_run_steps (tbl (db w8)) !! k = Some st → rs_run_id st = run_id →
    rs_state st = "ok") as Hok.
  { intros k st. rewrite Hs8. intros Hk Hown.
    destruct (wk_done _ _ _ _ _ _ Hk7 k st Hk Hown) as [?|[]%not_elem_of_nil]. done. }
  split; [done|]. split; [done|]. split; [|done]. split; [by intros k st Hk Hown _; eapply Hok|].
  intros kind Hin. rewrite Hs8. by apply Hp7.
Qed.
End agent.
