(* ===== verification/WinpeExamples.v ===== *)
(** * The agents' protocol on concrete requests

    The hypotheses of the theorems of [WinpeProtocol], [WinpeInvariant] and [WinpeAgent]
    hold together, and what the handlers do in cases those theorems leave out. *)

From stdpp Require Import base gmap list strings pretty sorting.
From Stdlib Require Import ZArith Lia Ascii.
From S2P Require Import Prelude Json Text Digest JsonParse JobQueue SequenceCompiler Dense.
From S2P Require Import LegacyStore LegacySequences LegacySeeds LegacyRuns HashFiles WinpeToken.
From S2P Require Import WinpeProtocol WinpeInvariant WinpeAgent.

(** A second between any two readings of the clock, for a quarter of an hour. *)
#[local] Instance example_clock : Clock := λ n, (1700000000000000 + 1000000 * Z.of_nat (n `min` 900))%Z.

#[local] Instance example_fernet : Fernet := {| fernet_encrypt t := t; fernet_decrypt := Ret |}.

#[local] Instance example_env : WinpeEnv := {|
  token_secret := Some "secret";
  identity_allowlist := EmptyString;
  vm_config := λ _, Ret (JObj []);
  put_config := λ _, Ret tt;
  hash_disk := λ _, Ret tt;
  osd_client_files := Ret (JObj [])
|}.

(** A sequence and a queued run of it. *)
Definition queued_world : world := serve_all
  [Authoring (CreateSequence "Autopilot" EmptyString true true "windows" "winpe" []);
   Authoring (CreateRun 1 "winpe")] empty_world.

Lemma queued_wf : wf_world queued_world.
Proof. apply serve_all_keeps, empty_world_wf. Qed.

Lemma queued_fresh : fresh_run 1 "4C4C4544" queued_world.
Proof.
  split; [apply queued_wf|..].
  - eexists. by vm_compute.
  - intros k st. by vm_compute.
  - assert (map_Forall (λ _ r, pr_state r ≠ "awaiting_winpe") (provisioning_runs (tbl (db queued_world)))) as Hall.
    { eapply bool_decide_unpack. vm_compute. exact I. }
    intros k r Hk _. exact (Hall k r Hk).
Qed.

Lemma example_clock_hour n : (1700000000 ≤ clock_at n / 1000000 ≤ 1700000000 + _REGISTER_TOKEN_TTL)%Z.
Proof.
  unfold clock_at, example_clock, _REGISTER_TOKEN_TTL.
  replace 1700000000000000%Z with (1700000000 * 1000000)%Z by done.
  rewrite (Z.mul_comm 1000000), <- Z.mul_add_distr_r, Z.div_mul by done. lia.
Qed.

Lemma diligent_agent_finishes_witness :
  ∃ w' r, winpe_agent 1 100 "4C4C4544" "10.0.0.5" queued_world = (Ret tt, w') ∧
    provisioning_runs (tbl (db w')) !! 1%Z = Some r ∧ pr_state r = "done".
Proof.
  destruct (diligent_agent_finishes "secret" ltac:(discriminate) eq_refl 1700000000 example_clock_hour
    (JObj []) eq_refl (λ _, eq_refl) 1 100 "4C4C4544" "10.0.0.5" queued_world) as (w' & r & E & _ & Hr & Hd & _).
  - left. reflexivity.
  - exact queued_fresh.
  - exists w', r. split; [exact E|]. split; [exact Hr|exact Hd].
Defined.

(** ** A token for run 1 *)

Definition token_1 : string := signed "secret" 1 1700003600.

Definition header_1 : option string := header token_1.

Lemma header_1_text : bearer_text header_1 = token_1.
Proof. vm_compute. reflexivity. Qed.

Lemma header_1_not_forged : ¬ forged token_secret [(1, 1700003600)%Z] (bearer_text header_1).
Proof.
  rewrite header_1_text. intros (head & tag & key & Hr & _ & _ & Hn). apply Hn, list_elem_of_fmap.
  exists (1, 1700003600)%Z. split; [|by constructor].
  assert (rsplit_dot token_1 = Some (token_head 1 1700003600, default EmptyString (snd <$> rsplit_dot token_1)))
    as E by (vm_compute; reflexivity).
  rewrite Hr in E. injection E as E. exact E.
Qed.

(** Run 1 was taken up by a machine that registered and handed over to Windows. *)
Definition registered_world : world := serve_all
  [PostIdentity 1 100 " 4C4C4544 " "10.0.0.5"; PostRegister "4c4c4544"] queued_world.
Definition handed_over_world : world := serve_all [PostDone header_1] registered_world.
Definition osd_world : world := serve_all [PostOsdRegister header_1] handed_over_world.

Lemma registered_wf : wf_world registered_world.
Proof. apply serve_all_keeps, queued_wf. Qed.

Lemma agent_stays_within_run_witness :
  wf_world (serve (PostDone header_1) registered_world).2 ∧
  only_run 1 registered_world (serve (PostDone header_1) registered_world).2.
Proof.
  apply (agent_stays_within_run 1 [(1, 1700003600)%Z] (PostDone header_1) header_1 registered_world).
  - reflexivity.
  - exact header_1_not_forged.
  - constructor; [reflexivity|constructor].
  - exact registered_wf.
Defined.

Definition state_of (run_id : Z) (w : world) : option string := pr_state <$> provisioning_runs (tbl (db w)) !! run_id.

(** The states of the run, and what it asked of Proxmox. *)
Example states_of_run :
  (state_of 1 queued_world, state_of 1 registered_world, state_of 1 handed_over_world, state_of 1 osd_world) =
    (Some "queued", Some "awaiting_winpe", Some "awaiting_windows_setup", Some "awaiting_osd_client") ∧
  (proxmox osd_world, power_cycles osd_world) = ([PutConfig 100 ["ide2"; "sata0"] "order=scsi0"], [100%Z]).
Proof. vm_compute. repeat split. Qed.

Definition osd_run : provisioning_run :=
  default (ProvisioningRun None 0 EmptyString EmptyString None 0 None None)
    (provisioning_runs (tbl (db osd_world)) !! 1%Z).

Definition accepted_1 : outcome json * world := _require_bearer_token header_1 osd_world.

Lemma osd_accepted :
  _require_bearer_token header_1 osd_world =
    (Ret (JObj [("exp", JInt 1700003600); ("run_id", JInt 1)]), accepted_1.2).
Proof.
  assert (accepted_1.1 = Ret (JObj [("exp", JInt 1700003600); ("run_id", JInt 1)])) as <-
    by (vm_compute; reflexivity).
  apply surjective_pairing.
Qed.

Lemma osd_run_row : provisioning_runs (tbl (db osd_world)) !! 1%Z = Some osd_run.
Proof. vm_compute. reflexivity. Qed.

Lemma osd_run_waits : pr_state osd_run ∈ ["awaiting_windows_setup"; "awaiting_osd_client"].
Proof. eapply bool_decide_unpack. vm_compute. exact I. Qed.

Lemma osd_unfinished : ¬ osd_finished 1 (tbl (db osd_world)).
Proof. rewrite <- osd_obstacle_finished. vm_compute. discriminate. Qed.

Lemma post_osd_complete_spec_witness :
  ∃ detail, (post_osd_complete header_1 osd_world).1 = Exc (http 409 detail).
Proof.
  pose proof (post_osd_complete_spec header_1 osd_world accepted_1.2
    (JObj [("exp", JInt 1700003600); ("run_id", JInt 1)]) 1 osd_run osd_accepted eq_refl osd_run_row
    osd_run_waits) as Hspec.
  destruct (post_osd_complete header_1 osd_world) as [[u|e] w'].
  - destruct Hspec as [Hfin _]. exfalso. exact (osd_unfinished Hfin).
  - destruct Hspec as (_ & [detail ->] & _). exists detail. reflexivity.
Defined.

(** A result that comes late, after the controller declared the run done, makes the run a
    failed one. *)
Example late_error_fails_a_done_run :
  let w := serve_all [PostRunComplete 1] registered_world in
  state_of 1 w = Some "done" ∧
  state_of 1 (serve (PostStepResult 1 "error" None header_1) w).2 = Some "failed".
Proof. vm_compute. repeat split. Qed.

(** Completion is refused as long as steps are waiting. *)
Example completion_refused :
  (post_osd_complete header_1 osd_world).1 =
    Exc (http 409 ("OSD client cannot complete with incomplete steps: install_qga=pending, " +:+
      "fix_recovery_partition=pending, verify_qga=pending, install_qga_watchdog=pending, " +:+
      "capture_autopilot_hash=pending, handoff_to_oobe=pending")).
Proof. vm_compute. reflexivity. Qed.

(** A token for another run is refused. *)
Example other_run_refused :
  (get_sequence_actions 2 header_1 registered_world).1 = Exc (http 403 "token/run mismatch").
Proof. vm_compute. reflexivity. Qed.
