(* ===== verification/Smbios.v ===== *)
(** * Firmware tables of a machine

    [web/smbios_builder.py] builds the SMBIOS file a virtual machine boots with: BIOS,
    system and chassis, each with a formatted area and a table of strings the area refers
    to by number.  The file is read back here by a reader of the format (DMTF SMBIOS 3.7,
    6.1), and every field comes out as it went in. *)

From stdpp Require Import base list strings pretty.
From Stdlib Require Import ZArith Lia Ascii.
From S2P Require Import Prelude Text Digest.
#[local] Open Scope N_scope.

(** ** [struct.pack] *)

(** The fields of a little-endian format: an unsigned integer of some bytes, or ["<n>s"]. *)
Inductive field : Type :=
| FInt (width : nat) (n : Z)
| FBytes (width : nat) (bs : list N).

(** The bytes of a number, the lowest first. *)
Fixpoint le_bytes (width : nat) (n : N) : list N :=
  match width with O => [] | S width => n mod 256 :: le_bytes width (n / 256) end.

Definition struct_error : exc := CustomError "struct.error" "argument out of range".

Definition pack_field (f : field) : outcome (list N) :=
  match f with
  | FInt width n =>
      if decide (0 ≤ n < 2 ^ (8 * Z.of_nat width))%Z then Ret (le_bytes width (Z.to_N n))
      else Exc struct_error
  | FBytes width bs => Ret (take width bs ++ replicate (width - length bs) 0)
  end.

Fixpoint pack (fs : list field) : outcome (list N) :=
  match fs with
  | [] => Ret []
  | f :: fs => b ← pack_field f; rest ← pack fs; Ret (b ++ rest)
  end.

(** ** Strings *)

Definition _TYPE0_HANDLE : Z := 0.
Definition _TYPE1_HANDLE : Z := 256.
Definition _TYPE3_HANDLE : Z := 768.

Definition _string_table (strings : list string) : list N :=
  match strings with
  | [] => [0; 0]
  | _ => concat ((λ s, utf8 (if decide (s = EmptyString) then " " else s) ++ [0]) <$> strings) ++ [0]
  end.

(** [strings.index(value)] *)
Fixpoint string_index (value : string) (strings : list string) : option nat :=
  match strings with
  | [] => None
  | s :: strings => if decide (s = value) then Some 0%nat else S <$> string_index value strings
  end.

(** The number of a string, and the strings with it. *)
Definition _str_index (strings : list string) (value : option string) : Z * list string :=
  match value with
  | None | Some EmptyString => (0%Z, strings)
  | Some v =>
      match string_index v strings with
      | Some i => (Z.of_nat i + 1, strings)%Z
      | None => (Z.of_nat (length (strings ++ [v])), strings ++ [v])
      end
  end.

(** ** The structures *)

Definition build_type0_bios (vendor bios_version release_date : string) : outcome (list N) :=
  let (s_vendor, strings) := _str_index [] (Some vendor) in
  let (s_version, strings) := _str_index strings (Some bios_version) in
  let (s_date, strings) := _str_index strings (Some release_date) in
  formatted ← pack [FInt 1 0; FInt 1 24; FInt 2 _TYPE0_HANDLE;
    FInt 1 s_vendor; FInt 1 s_version; FInt 2 59392; FInt 1 s_date;
    FInt 1 0; FInt 8 524288; FInt 1 3; FInt 1 3; FInt 1 1; FInt 1 0; FInt 1 0; FInt 1 0];
  Ret (formatted ++ _string_table strings).

(** [int(text, 16)] *)
Definition hex_digit_value (c : ascii) : option N :=
  let n := N_of_ascii c in
  if (48 <=? n) && (n <=? 57) then Some (n - 48)
  else if (97 <=? n) && (n <=? 102) then Some (n - 87)
  else if (65 <=? n) && (n <=? 70) then Some (n - 55)
  else None.

(** Digits, where a single underscore may stand between two of them; [after] says that the
    last character was a digit. *)
Fixpoint hex_digits (after : bool) (acc : N) (s : string) : option N :=
  match s with
  | EmptyString => if after then Some acc else None
  | String c s =>
      match hex_digit_value c with
      | Some d => hex_digits true (16 * acc + d) s
      | None => if is_char 95 c && after then hex_digits false acc s else None
      end
  end.

(** An underscore may also follow the prefix. *)
Definition hex_body (s : string) : option N :=
  match s with
  | String c (String x rest) =>
      if is_char 48 c && (is_char 120 x || is_char 88 x) then
        match rest with
        | String u rest' => if is_char 95 u then hex_digits false 0 rest' else hex_digits false 0 rest
        | EmptyString => None
        end
      else hex_digits false 0 s
  | _ => hex_digits false 0 s
  end.

Definition py_int16 (text : string) : option Z :=
  match PyStr.strip text with
  | String c s =>
      if is_char 45 c then Z.opp ∘ Z.of_N <$> hex_body s
      else if is_char 43 c then Z.of_N <$> hex_body s
      else Z.of_N <$> hex_body (String c s)
  | EmptyString => None
  end.

(** [text.strip("{}")] *)
Fixpoint lstrip_braces (s : string) : string :=
  match s with
  | String c s' => if is_char 123 c || is_char 125 c then lstrip_braces s' else s
  | EmptyString => s
  end.
Fixpoint rstrip_braces (s : string) : string :=
  match s with
  | EmptyString => s
  | String c s' =>
      match rstrip_braces s' with
      | EmptyString => if is_char 123 c || is_char 125 c then EmptyString else String c EmptyString
      | t => String c t
      end
  end.

(** [uuid.UUID(hex)]: the number. *)
Definition uuid_int (text : string) : outcome N :=
  let hex := replace "-" EmptyString
    (lstrip_braces (rstrip_braces (replace "uuid:" EmptyString (replace "urn:" EmptyString text)))) in
  if decide (String.length hex = 32%nat) then
    match py_int16 hex with
    | None => Exc (ValueError "invalid literal for int() with base 16")
    | Some n => if decide (0 ≤ n < 2 ^ 128)%Z then Ret (Z.to_N n)
                else Exc (ValueError "int is out of range (need a 128-bit value)")
    end
  else Exc (ValueError "badly formed hexadecimal UUID string").

(** [UUID.bytes_le] *)
Definition bytes_le (n : N) : list N :=
  let b := rev (le_bytes 16 n) in
  rev (take 4 b) ++ rev (take 2 (drop 4 b)) ++ rev (take 2 (drop 6 b)) ++ drop 8 b.

Definition _uuid_bytes_le (uuid_str : string) : outcome (list N) := bytes_le <$> uuid_int uuid_str.

Definition build_type1_system (manufacturer product_name version serial_number uuid_str sku family : string) :
    outcome (list N) :=
  let (s_mfr, strings) := _str_index [] (Some manufacturer) in
  let (s_prod, strings) := _str_index strings (Some product_name) in
  let (s_ver, strings) := _str_index strings (Some version) in
  let (s_ser, strings) := _str_index strings (Some serial_number) in
  let (s_sku, strings) := _str_index strings (Some sku) in
  let (s_fam, strings) := _str_index strings (Some family) in
  uuid ← _uuid_bytes_le uuid_str;
  formatted ← pack [FInt 1 1; FInt 1 27; FInt 2 _TYPE1_HANDLE;
    FInt 1 s_mfr; FInt 1 s_prod; FInt 1 s_ver; FInt 1 s_ser; FBytes 16 uuid;
    FInt 1 6; FInt 1 s_sku; FInt 1 s_fam];
  Ret (formatted ++ _string_table strings).

Definition build_type3_chassis (chassis_type : Z)
    (manufacturer serial_number version asset_tag sku : string) : outcome (list N) :=
  if decide (chassis_type < 1 ∨ chassis_type > 255)%Z then
    Exc (ValueError ("chassis_type must be 1..255, got " +:+ pretty chassis_type))
  else
    let (s_mfr, strings) := _str_index [] (Some manufacturer) in
    let (s_ver, strings) := _str_index strings (Some version) in
    let (s_ser, strings) := _str_index strings (Some serial_number) in
    let (s_asset, strings) := _str_index strings (Some asset_tag) in
    let (_, strings) := _str_index strings (Some (PyStr.or_else sku "Default")) in
    formatted ← pack [FInt 1 3; FInt 1 21; FInt 2 _TYPE3_HANDLE;
      FInt 1 s_mfr; FInt 1 chassis_type; FInt 1 s_ver; FInt 1 s_ser; FInt 1 s_asset;
      FInt 1 3; FInt 1 3; FInt 1 3; FInt 1 3; FBytes 4 [0; 0; 0; 0];
      FInt 1 0; FInt 1 0; FInt 1 0; FInt 1 0];
    Ret (formatted ++ _string_table strings).

Record smbios : Type := Smbios {
  sm_manufacturer : string;
  sm_product_name : string;
  sm_family : string;
  sm_sku : string;
  sm_version : string;
  sm_serial_number : string;
  sm_uuid : string;
  sm_chassis_type : Z;
  sm_bios_vendor : option string;
  sm_bios_version : string;
  sm_bios_release_date : string
}.

(** [bios_vendor or manufacturer] *)
Definition vendor_of (a : smbios) : string :=
  match sm_bios_vendor a with Some (String c s) => String c s | _ => sm_manufacturer a end.

Definition build_full_smbios (a : smbios) : outcome (list N) :=
  t0 ← build_type0_bios (vendor_of a) (sm_bios_version a) (sm_bios_release_date a);
  t1 ← build_type1_system (sm_manufacturer a) (sm_product_name a) (sm_version a)
         (sm_serial_number a) (sm_uuid a) (sm_sku a) (sm_family a);
  t3 ← build_type3_chassis (sm_chassis_type a) (sm_manufacturer a) (sm_serial_number a)
         EmptyString EmptyString (sm_sku a);
  Ret (t0 ++ t1 ++ t3).

(** ** A reader of the format *)

(** A structure: its type, its handle, the bytes of the formatted area with the header, and
    the strings. *)
Record structure : Type := Structure {
  sr_type : N;
  sr_handle : N;
  sr_area : list N;
  sr_strings : list (list N)
}.

(** Strings end with a zero byte; an empty one ends the table. *)
Fixpoint read_strings (cur bs : list N) : option (list (list N) * list N) :=
  match bs with
  | [] => None
  | b :: bs =>
      if b =? 0 then
        match cur with
        | [] => Some ([], bs)
        | _ => r ← read_strings [] bs; Some (rev cur :: r.1, r.2)
        end
      else read_strings (b :: cur) bs
  end.

(** A structure without strings has two zero bytes. *)
Definition read_table (bs : list N) : option (list (list N) * list N) :=
  match bs with
  | b :: c :: rest =>
      if b =? 0 then if c =? 0 then Some ([], rest) else None else read_strings [] bs
  | _ => None
  end.

Definition read_structure (bs : list N) : option (structure * list N) :=
  match bs with
  | t :: len :: h0 :: h1 :: _ =>
      let n := N.to_nat len in
      if (4 <=? len) && (n <=? length bs)%nat then
        r ← read_table (drop n bs);
        Some (Structure t (h0 + 256 * h1) (take n bs) r.1, r.2)
      else None
  | _ => None
  end.

Fixpoint read_all (fuel : nat) (bs : list N) : option (list structure) :=
  match bs, fuel with
  | [], _ => Some []
  | _, O => None
  | _, S fuel => r ← read_structure bs; cons r.1 <$> read_all fuel r.2
  end.

Definition read_smbios (bs : list N) : option (list structure) := read_all (length bs) bs.

(** The string a byte of the area refers to; number zero is no string. *)
Definition text_at (offset : nat) (st : structure) : option (list N) :=
  i ← sr_area st !! offset; if i =? 0 then None else sr_strings st !! N.to_nat (i - 1).

Definition byte_at (offset : nat) (st : structure) : option N := sr_area st !! offset.

Definition bytes_at (offset width : nat) (st : structure) : list N := take width (drop offset (sr_area st)).

(** What the reader finds for a text: nothing for the empty one. *)
Definition as_text (v : string) : option (list N) := if decide (v = EmptyString) then None else Some (utf8 v).

(** ** String tables *)

Definition nul_free (s : string) : Prop := has_char 0 s = false.

Lemma utf8_nul_free s : nul_free s → Forall (λ b, b ≠ 0) (utf8 s).
Proof.
  unfold nul_free. induction s as [|c s IH]; [constructor|]. cbn [has_char utf8]. cbv zeta.
  intros [Hc Hs]%orb_false_iff. unfold is_char in Hc. apply bool_decide_eq_false in Hc.
  destruct (N_of_ascii c <? 128); repeat (apply Forall_cons; split); auto; intros Hz; apply N.eq_add_0 in Hz; lia.
Qed.

Lemma utf8_nonempty s : s ≠ EmptyString → utf8 s ≠ [].
Proof. destruct s as [|c s]; [done|]. intros _. cbn [utf8]. cbv zeta. by destruct (_ <? 128). Qed.

Lemma read_string bs cur rest :
  Forall (λ b, b ≠ 0) bs → rev cur ++ bs ≠ [] →
  read_strings cur (bs ++ 0 :: rest) = r ← read_strings [] rest; Some ((rev cur ++ bs) :: r.1, r.2).
Proof.
  revert cur. induction bs as [|b bs IH]; intros cur Hbs Hne.
  - rewrite app_nil_r in *. simpl. by destruct cur.
  - apply Forall_cons in Hbs as [Hb Hbs]. simpl. rewrite (proj2 (N.eqb_neq _ _)) by done.
    rewrite IH; simpl; rewrite <- ?app_assoc; simpl; [done|done|]. by destruct (rev cur).
Qed.

Definition good_string (s : string) : Prop := s ≠ EmptyString ∧ nul_free s.

Lemma read_strings_table strings rest :
  Forall good_string strings →
  read_strings [] (concat ((λ s, utf8 (if decide (s = EmptyString) then " " else s) ++ [0]) <$> strings) ++ 0 :: rest) =
    Some (utf8 <$> strings, rest).
Proof.
  induction 1 as [|s strings [Hne Hnul] _ IH]; [done|]. cbn [fmap list_fmap concat].
  rewrite decide_False by done. rewrite <- !app_assoc. simpl.
  rewrite read_string by (by apply utf8_nul_free || by apply utf8_nonempty). by rewrite IH.
Qed.

Lemma read_string_table strings rest :
  Forall good_string strings → read_table (_string_table strings ++ rest) = Some (utf8 <$> strings, rest).
Proof.
  intros Hs. destruct strings as [|s strings]; [done|]. pose proof (read_strings_table _ rest Hs) as Hr.
  unfold _string_table. rewrite <- app_assoc. simpl ([0] ++ rest).
  set (bs := concat _ ++ _) in *. assert (∃ b c bs', bs = b :: c :: bs' ∧ b ≠ 0) as (b & c & bs' & E & Hb).
  { apply Forall_cons in Hs as [[Hne Hnul] _]. unfold bs. cbn [fmap list_fmap concat].
    rewrite decide_False by done. pose proof (utf8_nonempty s Hne) as Hu. pose proof (utf8_nul_free s Hnul) as Hz.
    destruct (utf8 s) as [|b u]; [done|]. apply Forall_cons in Hz as [Hb _].
    destruct u as [|c u]; simpl; eauto. }
  rewrite E in *. unfold read_table. rewrite (proj2 (N.eqb_neq _ _)) by done. exact Hr.
Qed.

Lemma read_structure_built t len h0 h1 area strings rest :
  length (t :: len :: h0 :: h1 :: area) = N.to_nat len → Forall good_string strings →
  read_structure ((t :: len :: h0 :: h1 :: area) ++ _string_table strings ++ rest) =
    Some (Structure t (h0 + 256 * h1) (t :: len :: h0 :: h1 :: area) (utf8 <$> strings), rest).
Proof.
  intros Hlen Hs. set (X := _string_table strings ++ rest).
  assert (drop (N.to_nat len) ((t :: len :: h0 :: h1 :: area) ++ X) = X) as Hd by by apply drop_app_length'.
  assert (take (N.to_nat len) ((t :: len :: h0 :: h1 :: area) ++ X) = t :: len :: h0 :: h1 :: area) as Ht
    by by apply take_app_length'.
  assert ((N.to_nat len <=? length ((t :: len :: h0 :: h1 :: area) ++ X))%nat = true) as Hl
    by (apply Nat.leb_le; rewrite length_app; lia).
  assert ((4 <=? len) = true) as H4 by (apply N.leb_le; simpl in Hlen; lia).
  cbn [app] in *. unfold read_structure. cbv zeta. rewrite Hl, H4, Hd, Ht. unfold X.
  by rewrite read_string_table.
Qed.

(** ** Numbers of strings *)

Definition string_at (strings : list string) (i : Z) : option string :=
  if decide (i = 0)%Z then None else strings !! Z.to_nat (i - 1).

(** The number refers to the text. *)
Definition refers_to (strings : list string) (i : Z) (v : string) : Prop :=
  (0 ≤ i ≤ Z.of_nat (length strings))%Z ∧
  string_at strings i = if decide (v = EmptyString) then None else Some v.

Lemma refers_to_app strings more i v : refers_to strings i v → refers_to (strings ++ more) i v.
Proof.
  intros [Hi Hv]. split; [rewrite length_app; lia|]. rewrite <- Hv. unfold string_at.
  destruct (decide (i = 0)%Z); [reflexivity|]. apply lookup_app_l. lia.
Qed.

Lemma string_index_spec v strings i : string_index v strings = Some i → strings !! i = Some v.
Proof.
  revert i. induction strings as [|s strings IH]; intros i; [done|]. simpl. case_decide as Hs.
  - intros [= <-]. by rewrite Hs.
  - intros (j & Hj & ->)%fmap_Some_1. by apply IH.
Qed.

Lemma str_index_spec strings v i strings' :
  _str_index strings (Some v) = (i, strings') → nul_free v → Forall good_string strings →
  Forall good_string strings' ∧ refers_to strings' i v ∧ strings `prefix_of` strings' ∧
  (length strings' ≤ S (length strings))%nat.
Proof.
  intros Hi Hv Hs. unfold refers_to, string_at. destruct v as [|c v]; simpl in Hi.
  { injection Hi as <- <-. split_and!; [done|lia|lia|done|done|lia]. }
  destruct (string_index (String c v) strings) as [j|] eqn:Ej; injection Hi as <- <-.
  - apply string_index_spec in Ej. pose proof (lookup_lt_Some _ _ _ Ej).
    rewrite (decide_False (P := (_ = 0)%Z)) by lia. rewrite decide_False by done.
    replace (Z.to_nat (Z.of_nat j + 1 - 1)) with j by lia. split_and!; try done; lia.
  - rewrite length_app. simpl length. rewrite (decide_False (P := (_ = 0)%Z)) by lia. rewrite decide_False by done.
    replace (Z.to_nat (Z.of_nat (length strings + 1) - 1)) with (length strings) by lia.
    split_and!; [|lia|lia|by apply list_lookup_middle|by apply prefix_app_r|lia].
    apply Forall_app. split; [done|]. repeat constructor; done.
Qed.

(** Numbering several texts one after the other. *)
Fixpoint numbers (strings : list string) (values : list string) : list Z * list string :=
  match values with
  | [] => ([], strings)
  | v :: values =>
      match _str_index strings (Some v) with
      | (i, strings) => match numbers strings values with (l, strings) => (i :: l, strings) end
      end
  end.

Lemma numbers_spec values : ∀ strings l strings',
  numbers strings values = (l, strings') → Forall nul_free values → Forall good_string strings →
  Forall good_string strings' ∧ Forall2 (refers_to strings') l values ∧ strings `prefix_of` strings' ∧
  (length strings' ≤ length strings + length values)%nat.
Proof.
  induction values as [|v values IH]; intros strings l strings' Hn Hv Hs; cbn [numbers] in Hn.
  { simplify_eq. split_and!; [done|constructor|done|simpl; lia]. }
  apply Forall_cons in Hv as [Hv Hvs].
  destruct (_str_index strings (Some v)) as [i s1] eqn:Ei. destruct (numbers s1 values) as [l' s2] eqn:En.
  simplify_eq. destruct (str_index_spec _ _ _ _ Ei Hv Hs) as (Hg & Hr & Hp & Hl).
  destruct (IH s1 l' strings' En Hvs Hg) as (Hg' & Hr' & Hp' & Hl'). split_and!; [done| |by etrans|simpl; lia].
  constructor; [|done]. destruct Hp' as [more ->]. by apply refers_to_app.
Qed.

(** ** Every field comes out as it went in *)

(** The reader finds the text at the offset. *)
Lemma text_at_refers t h area strings offset i v :
  area !! offset = Some (Z.to_N i) → refers_to strings i v →
  text_at offset (Structure t h area (utf8 <$> strings)) = as_text v.
Proof.
  intros Ha [Hi Hv]. unfold text_at, as_text. simpl. rewrite Ha. simpl. unfold string_at in Hv.
  destruct (decide (i = 0)%Z) as [->|Hne].
  - simpl. by destruct (decide (v = EmptyString)).
  - rewrite (proj2 (N.eqb_neq _ _)) by lia. rewrite list_lookup_fmap.
    replace (N.to_nat (Z.to_N i - 1)) with (Z.to_nat (i - 1)) by lia. rewrite Hv.
    by destruct (decide (v = EmptyString)).
Qed.

Lemma pack_byte i : (0 ≤ i ≤ 255)%Z → pack_field (FInt 1 i) = Ret [Z.to_N i].
Proof. intros Hi. cbn [pack_field]. rewrite decide_True by lia. cbn [le_bytes]. by rewrite N.mod_small by lia. Qed.

Lemma pack_all fs bss : Forall2 (λ f b, pack_field f = Ret b) fs bss → pack fs = Ret (concat bss).
Proof. induction 1 as [|f b fs bss Hf _ IH]; [done|]. cbn [pack]. rewrite Hf, IH. done. Qed.

(** Pack a list of fields, some of which are the numbers of strings. *)
Ltac pack_fields Hi :=
  erewrite pack_all;
  [|repeat (apply Forall2_cons; split; [first [apply pack_byte; eapply Hi; eassumption | eassumption | vm_compute; reflexivity]|]);
    apply Forall2_nil; exact I].

Lemma le_bytes_length width n : length (le_bytes width n) = width.
Proof. revert n. induction width as [|w IH]; intros n; [done|]. simpl. by rewrite IH. Qed.

Lemma bytes_le_length n : length (bytes_le n) = 16%nat.
Proof.
  unfold bytes_le. pose proof (le_bytes_length 16 n) as Hl.
  rewrite !length_app, !length_rev, !length_take, !length_drop, !length_rev, Hl. done.
Qed.

(** The UUID a reader finds: its first three parts have their lowest byte first. *)
Definition read_uuid (bs : list N) : N :=
  foldl (λ acc b, 256 * acc + b) 0
    (rev (take 4 bs) ++ rev (take 2 (drop 4 bs)) ++ rev (take 2 (drop 6 bs)) ++ drop 8 bs).

Lemma le_bytes_value width n :
  n < 256 ^ N.of_nat width → foldl (λ acc b, 256 * acc + b) 0 (rev (le_bytes width n)) = n.
Proof.
  revert n. induction width as [|w IH]; intros n Hn.
  - simpl in *. lia.
  - cbn [le_bytes rev]. rewrite foldl_app. cbn [foldl]. rewrite IH.
    + rewrite (N.div_mod n 256) at 3 by lia. lia.
    + apply N.Div0.div_lt_upper_bound. rewrite Nat2N.inj_succ, N.pow_succ_r' in Hn. lia.
Qed.

Lemma read_bytes_le n : n < 2 ^ 128 → read_uuid (bytes_le n) = n.
Proof.
  intros Hn. etransitivity; [|exact (le_bytes_value 16 n Hn)]. unfold read_uuid, bytes_le.
  pose proof (le_bytes_length 16 n) as Hl. rewrite <- length_rev in Hl.
  remember (rev (le_bytes 16 n)) as b eqn:Hb. clear Hb.
  do 17 (destruct b as [|? b]; try discriminate Hl). reflexivity.
Qed.

(** What WMI shows of the BIOS structure, and so on for the other two. *)
Definition reads_bios (vendor version date : string) (st : structure) : Prop :=
  sr_type st = 0 ∧ sr_handle st = 0 ∧ length (sr_area st) = 24%nat ∧
  text_at 4 st = as_text vendor ∧ text_at 5 st = as_text version ∧ text_at 8 st = as_text date.

Definition reads_system (manufacturer product version serial sku family : string) (uuid : N)
    (st : structure) : Prop :=
  sr_type st = 1 ∧ sr_handle st = 256 ∧ length (sr_area st) = 27%nat ∧
  text_at 4 st = as_text manufacturer ∧ text_at 5 st = as_text product ∧ text_at 6 st = as_text version ∧
  text_at 7 st = as_text serial ∧ read_uuid (bytes_at 8 16 st) = uuid ∧
  text_at 25 st = as_text sku ∧ text_at 26 st = as_text family.

Definition reads_chassis (chassis_type : Z) (manufacturer serial version asset_tag : string)
    (st : structure) : Prop :=
  sr_type st = 3 ∧ sr_handle st = 768 ∧ length (sr_area st) = 21%nat ∧
  text_at 4 st = as_text manufacturer ∧ byte_at 5 st = Some (Z.to_N chassis_type) ∧
  text_at 6 st = as_text version ∧ text_at 7 st = as_text serial ∧ text_at 8 st = as_text asset_tag.

Lemma build_type0_reads vendor version date rest :
  nul_free vendor → nul_free version → nul_free date →
  ∃ bs st, build_type0_bios vendor version date = Ret bs ∧
    read_structure (bs ++ rest) = Some (st, rest) ∧ reads_bios vendor version date st.
Proof.
  intros Hv Hn Hd. unfold build_type0_bios.
  destruct (numbers [] [vendor; version; date]) as [l strings] eqn:En.
  destruct (numbers_spec _ _ _ _ En) as (Hg & Hr & _ & Hl); [by repeat constructor|constructor|].
  cbn [numbers] in En.
  destruct (_str_index [] (Some vendor)) as [i1 s1], (_str_index s1 (Some version)) as [i2 s2],
    (_str_index s2 (Some date)) as [i3 s3]. injection En as <- <-.
  apply Forall2_cons in Hr as [H1 Hr]. apply Forall2_cons in Hr as [H2 Hr]. apply Forall2_cons in Hr as [H3 _].
  simpl in Hl.
  assert (∀ i v, refers_to s3 i v → (0 ≤ i ≤ 255)%Z) as Hi by (intros i v [? _]; lia).
  eexists _, _. split; [|split].
  - pack_fields Hi. reflexivity.
  - rewrite <- app_assoc. apply read_structure_built; [done|done].
  - split_and!; try done; (eapply text_at_refers; [reflexivity|done]).
Qed.

Lemma uuid_int_bound text n : uuid_int text = Ret n → n < 2 ^ 128.
Proof.
  unfold uuid_int. cbv zeta. case_decide; [|done]. destruct (py_int16 _) as [z|]; [|done].
  case_decide as Hz; [|done]. intros [= <-]. lia.
Qed.

Lemma build_type1_reads manufacturer product version serial uuid_str uuid sku family rest :
  uuid_int uuid_str = Ret uuid → Forall nul_free [manufacturer; product; version; serial; sku; family] →
  ∃ bs st, build_type1_system manufacturer product version serial uuid_str sku family = Ret bs ∧
    read_structure (bs ++ rest) = Some (st, rest) ∧
    reads_system manufacturer product version serial sku family uuid st.
Proof.
  intros Hu Hnul. unfold build_type1_system, _uuid_bytes_le. rewrite Hu.
  change (bytes_le <$> Ret uuid) with (Ret (bytes_le uuid)).
  pose proof (read_bytes_le uuid (uuid_int_bound _ _ Hu)) as Hread. pose proof (bytes_le_length uuid) as Hlen.
  remember (bytes_le uuid) as u eqn:Eu. clear Eu.
  destruct (numbers [] [manufacturer; product; version; serial; sku; family]) as [l strings] eqn:En.
  destruct (numbers_spec _ _ _ _ En) as (Hg & Hr & _ & Hl); [done|constructor|].
  cbn [numbers] in En.
  destruct (_str_index [] (Some manufacturer)) as [i1 s1], (_str_index s1 (Some product)) as [i2 s2],
    (_str_index s2 (Some version)) as [i3 s3], (_str_index s3 (Some serial)) as [i4 s4],
    (_str_index s4 (Some sku)) as [i5 s5], (_str_index s5 (Some family)) as [i6 s6].
  injection En as <- <-. rewrite !Forall2_cons in Hr. destruct Hr as (H1 & H2 & H3 & H4 & H5 & H6 & _).
  simpl in Hl. assert (∀ i v, refers_to s6 i v → (0 ≤ i ≤ 255)%Z) as Hi by (intros i v [? _]; lia).
  assert (pack_field (FBytes 16 u) = Ret u) as Hby.
  { cbn [pack_field]. by rewrite take_ge, Hlen, app_nil_r by lia. }
  do 17 (destruct u as [|? u]; try discriminate Hlen).
  eexists _, _. split; [|split].
  - cbn [mbind outcome_bind fmap outcome_fmap]. pack_fields Hi. reflexivity.
  - rewrite <- app_assoc. apply read_structure_built; [done|done].
  - split_and!; try done; first [exact Hread | eapply text_at_refers; [reflexivity|done]].
Qed.

Lemma build_type3_reads chassis_type manufacturer serial version asset_tag sku rest :
  (1 ≤ chassis_type ≤ 255)%Z → Forall nul_free [manufacturer; version; serial; asset_tag; sku] →
  ∃ bs st, build_type3_chassis chassis_type manufacturer serial version asset_tag sku = Ret bs ∧
    read_structure (bs ++ rest) = Some (st, rest) ∧
    reads_chassis chassis_type manufacturer serial version asset_tag st.
Proof.
  intros Hc Hnul. unfold build_type3_chassis. rewrite decide_False by lia.
  rewrite !Forall_cons in Hnul. destruct Hnul as (N1 & N2 & N3 & N4 & N5 & _).
  assert (nul_free (PyStr.or_else sku "Default")) as N6 by by destruct sku.
  destruct (numbers [] [manufacturer; version; serial; asset_tag; PyStr.or_else sku "Default"]) as [l strings] eqn:En.
  destruct (numbers_spec _ _ _ _ En) as (Hg & Hr & _ & Hl); [by repeat constructor|constructor|].
  cbn [numbers] in En.
  destruct (_str_index [] (Some manufacturer)) as [i1 s1], (_str_index s1 (Some version)) as [i2 s2],
    (_str_index s2 (Some serial)) as [i3 s3], (_str_index s3 (Some asset_tag)) as [i4 s4],
    (_str_index s4 (Some (PyStr.or_else sku "Default"))) as [i5 s5].
  injection En as <- <-. rewrite !Forall2_cons in Hr. destruct Hr as (H1 & H2 & H3 & H4 & H5 & _).
  simpl in Hl. assert (∀ i v, refers_to s5 i v → (0 ≤ i ≤ 255)%Z) as Hi by (intros i v [? _]; lia).
  assert (pack_field (FInt 1 chassis_type) = Ret [Z.to_N chassis_type]) as Hct by (apply pack_byte; lia).
  eexists _, _. split; [|split].
  - pack_fields Hi. reflexivity.
  - rewrite <- app_assoc. apply read_structure_built; [done|done].
  - split_and!; try done; (eapply text_at_refers; [reflexivity|done]).
Qed.

Lemma read_three b0 b1 b3 t0 t1 t3 :
  read_structure (b0 ++ b1 ++ b3) = Some (t0, b1 ++ b3) → read_structure (b1 ++ b3) = Some (t1, b3) →
  read_structure b3 = Some (t3, []) → read_smbios (b0 ++ b1 ++ b3) = Some [t0; t1; t3].
Proof.
  intros R0 R1 R3.
  assert (∀ bs t r, read_structure bs = Some (t, r) → ∃ x y z u bs', bs = x :: y :: z :: u :: bs') as Hlong.
  { intros [|x [|y [|z [|u bs']]]] t r Hr; try done. by exists x, y, z, u, bs'. }
  unfold read_smbios. destruct (Hlong _ _ _ R0) as (x & y & z & u & bs' & E0). rewrite E0 in *.
  destruct (Hlong _ _ _ R1) as (x1 & y1 & z1 & u1 & bs1 & E1). rewrite E1 in *.
  destruct (Hlong _ _ _ R3) as (x3 & y3 & z3 & u3 & bs3 & E3). rewrite E3 in *.
  cbn [length read_all]. rewrite R0. cbn [mbind option_bind fst snd read_all]. rewrite R1.
  cbn [mbind option_bind fst snd read_all]. rewrite R3. by destruct (length bs').
Qed.

Lemma uuid_errors text e : uuid_int text = Exc e → ∃ message, e = ValueError message.
Proof.
  unfold uuid_int. cbv zeta. case_decide; [|intros [= <-]; eauto].
  destruct (py_int16 _) as [n|]; [|intros [= <-]; eauto]. case_decide; [done|intros [= <-]; eauto].
Qed.

(** C36. The machine sees the firmware data it was given: for texts without a zero character,
    building succeeds exactly when the UUID is one and the chassis type is between 1 and 255,
    and raises a [ValueError] otherwise; a reader of the format finds three structures in the
    file, with distinct handles and the lengths of the standard, and reads from the BIOS,
    system and chassis structures exactly the texts, the UUID and the chassis type that were
    given, the manufacturer in place of a missing BIOS vendor, and no text for an empty one. *)
Theorem full_smbios_read_back (a : smbios) :
  Forall nul_free [sm_manufacturer a; sm_product_name a; sm_family a; sm_sku a; sm_version a;
    sm_serial_number a; vendor_of a; sm_bios_version a; sm_bios_release_date a] →
  match build_full_smbios a with
  | Ret bytes => ∃ bios system chassis uuid,
      read_smbios bytes = Some [bios; system; chassis] ∧
      uuid_int (sm_uuid a) = Ret uuid ∧ (1 ≤ sm_chassis_type a ≤ 255)%Z ∧
      reads_bios (vendor_of a) (sm_bios_version a) (sm_bios_release_date a) bios ∧
      reads_system (sm_manufacturer a) (sm_product_name a) (sm_version a) (sm_serial_number a)
        (sm_sku a) (sm_family a) uuid system ∧
      reads_chassis (sm_chassis_type a) (sm_manufacturer a) (sm_serial_number a)
        EmptyString EmptyString chassis
  | Exc e => (∃ message, e = ValueError message) ∧
      ((∃ e', uuid_int (sm_uuid a) = Exc e') ∨ ¬ (1 ≤ sm_chassis_type a ≤ 255)%Z)
  end.
Proof.
  rewrite !Forall_cons. intros (N1 & N2 & N3 & N4 & N5 & N6 & N7 & N8 & N9 & _). unfold build_full_smbios.
  destruct (uuid_int (sm_uuid a)) as [uuid|e] eqn:Hu.
  - destruct (decide (1 ≤ sm_chassis_type a ≤ 255)%Z) as [Hc|Hc].
    + destruct (build_type3_reads (sm_chassis_type a) (sm_manufacturer a) (sm_serial_number a) EmptyString
        EmptyString (sm_sku a) []) as (b3 & t3 & E3 & R3 & S3); [done|by repeat constructor|].
      destruct (build_type1_reads (sm_manufacturer a) (sm_product_name a) (sm_version a) (sm_serial_number a)
        (sm_uuid a) uuid (sm_sku a) (sm_family a) b3) as (b1 & t1 & E1 & R1 & S1); [done|by repeat constructor|].
      destruct (build_type0_reads (vendor_of a) (sm_bios_version a) (sm_bios_release_date a) (b1 ++ b3))
        as (b0 & t0 & E0 & R0 & S0); [done..|].
      rewrite E0, E1, E3. cbn [mbind outcome_bind]. exists t0, t1, t3, uuid.
      split; [|done]. rewrite app_nil_r in R3. by apply (read_three b0 b1 b3).
    + destruct (build_type1_reads (sm_manufacturer a) (sm_product_name a) (sm_version a) (sm_serial_number a)
        (sm_uuid a) uuid (sm_sku a) (sm_family a) []) as (b1 & t1 & E1 & _); [done|by repeat constructor|].
      destruct (build_type0_reads (vendor_of a) (sm_bios_version a) (sm_bios_release_date a) [])
        as (b0 & t0 & E0 & _); [done..|].
      rewrite E0, E1. unfold build_type3_chassis. rewrite decide_True by lia. split; [by eexists|by right].
  - destruct (build_type0_reads (vendor_of a) (sm_bios_version a) (sm_bios_release_date a) [])
      as (b0 & t0 & E0 & _); [done..|].
    rewrite E0. unfold build_type1_system, _uuid_bytes_le. rewrite Hu.
    repeat match goal with |- context [_str_index ?s ?v] => destruct (_str_index s v) end.
    split; [by eapply uuid_errors|left; by exists e].
Qed.

Module SmbiosExample.
Definition laptop : smbios :=
  Smbios "LENOVO" "ThinkPad" EmptyString "21" "T14" "PF-1" "00112233-4455-6677-8899-aabbccddeeff" 10 None
    "1.0" "01/01/2026".

Lemma full_smbios_read_back_witness :
  ∃ bytes bios system chassis, build_full_smbios laptop = Ret bytes ∧
    read_smbios bytes = Some [bios; system; chassis] ∧ text_at 4 bios = Some (utf8 "LENOVO").
Proof.
  pose proof (full_smbios_read_back laptop ltac:(repeat constructor)) as Hread.
  destruct (build_full_smbios laptop) as [bytes|e] eqn:E.
  - destruct Hread as (bios & system & chassis & _ & Hr & _ & _ & (_ & _ & _ & Hv & _) & _).
    exists bytes, bios, system, chassis. split; [reflexivity|]. split; [exact Hr|exact Hv].
  - exfalso. vm_compute in E. discriminate E.
Defined.

(** A UUID in its forms, and texts that are none. *)
Example uuids :
  _uuid_bytes_le "00112233-4455-6677-8899-AABBCCDDEEFF" =
    Ret [51; 34; 17; 0; 85; 68; 119; 102; 136; 153; 170; 187; 204; 221; 238; 255] ∧
  uuid_int "urn:uuid:00000000-0000-0000-0000-0000000000ff" = Ret 255 ∧
  uuid_int "{000000000000000000000000000000ff}" = Ret 255 ∧
  uuid_int "0x0000000000000000000000000000ff" = Ret 255 ∧
  uuid_int "0x00000000000000000000_0000000ff" = Ret 255 ∧
  uuid_int "ff" = Exc (ValueError "badly formed hexadecimal UUID string") ∧
  uuid_int "gggggggggggggggggggggggggggggggg" = Exc (ValueError "invalid literal for int() with base 16").
Proof. vm_compute. repeat split. Qed.

(** A zero character in a text ends it for the reader, and the rest is taken for another. *)
Example zero_character :
  (λ st, (sr_strings st.1, text_at 4 st.1, text_at 5 st.1)) <$>
    match build_type0_bios ("A" +:+ String (ch 0) "B") "1.0" "01/01/2026" with
    | Ret bs => read_structure bs | Exc _ => None end =
  Some ([utf8 "A"; utf8 "B"; utf8 "1.0"; utf8 "01/01/2026"], Some (utf8 "A"), Some (utf8 "B")).
Proof. vm_compute. reflexivity. Qed.
End SmbiosExample.
