(* ===== verification/IpNetwork.v ===== *)
(** * IP networks of Python's standard library

    [ipaddress.ip_network(text, strict=False)], [ipaddress.ip_address] and [overlaps], on
    which the reservations of address ranges by managed labs rest.  [overlaps] looks at
    four addresses; [overlaps_spec] shows that this decides whether the two ranges share
    an address. *)

From stdpp Require Import base gmap list strings pretty sorting.
From Stdlib Require Import ZArith Lia Ascii.
From S2P Require Import Prelude Text.

#[local] Open Scope Z_scope.

(** ** Networks *)

Inductive ip_version : Type := IPv4 | IPv6.

#[export] Instance ip_version_eq_dec : EqDecision ip_version.
Proof. solve_decision. Defined.

Definition max_prefixlen (v : ip_version) : Z := match v with IPv4 => 32 | IPv6 => 128 end.

Record network : Type := Network {
  net_version : ip_version;
  network_address : Z;
  prefixlen : Z
}.

#[export] Instance network_eq_dec : EqDecision network.
Proof. solve_decision. Defined.

Definition all_ones (v : ip_version) : Z := Z.ones (max_prefixlen v).

(** [_ip_int_from_prefix] *)
Definition netmask (v : ip_version) (p : Z) : Z := Z.lxor (all_ones v) (Z.shiftr (all_ones v) p).

Definition broadcast_address (n : network) : Z :=
  Z.lor (network_address n) (Z.lxor (netmask (net_version n) (prefixlen n)) (all_ones (net_version n))).

(** [address in network] *)
Definition address_in (v : ip_version) (a : Z) (n : network) : bool :=
  bool_decide (v = net_version n) &&
  (Z.land a (netmask (net_version n) (prefixlen n)) =? network_address n).

(** [self.overlaps(other)] *)
Definition overlaps (self other : network) : bool :=
  address_in (net_version other) (network_address other) self ||
  (address_in (net_version other) (broadcast_address other) self ||
   (address_in (net_version self) (network_address self) other ||
    address_in (net_version self) (broadcast_address self) other)).

(** ** Reading addresses *)

Definition is_digit (c : ascii) : bool := bool_decide (48 ≤ N_of_ascii c ≤ 57)%N.

Fixpoint all_chars (p : ascii → bool) (s : string) : bool :=
  match s with EmptyString => true | String c s => p c && all_chars p s end.

(** [s.isascii() and s.isdigit()] *)
Definition is_digits (s : string) : bool :=
  bool_decide (s ≠ EmptyString) && all_chars is_digit s.

Fixpoint digits_value (base acc : Z) (value : ascii → Z) (s : string) : Z :=
  match s with
  | EmptyString => acc
  | String c s => digits_value base (base * acc + value c) value s
  end.

Definition decimal (s : string) : Z :=
  digits_value 10 0 (λ c, Z.of_N (N_of_ascii c) - 48) s.

(** [_parse_octet]: at most three digits, no leading zero. *)
Definition parse_octet (s : string) : option Z :=
  if is_digits s && (String.length s <=? 3)%nat &&
     (bool_decide (s = "0") || negb (String.prefix "0" s)) && (decimal s <=? 255)
  then Some (decimal s) else None.

(** [IPv4Address._ip_int_from_string] *)
Definition ipv4_int (s : string) : option Z :=
  octets ← mapM parse_octet (PyStr.split "." s);
  match octets with
  | [a; b; c; d] => Some (((a * 256 + b) * 256 + c) * 256 + d)
  | _ => None
  end.

Definition is_hex (c : ascii) : bool :=
  is_digit c || bool_decide (65 ≤ N_of_ascii c ≤ 70)%N || bool_decide (97 ≤ N_of_ascii c ≤ 102)%N.

Definition hex_value (c : ascii) : Z :=
  let n := Z.of_N (N_of_ascii c) in
  if n <=? 57 then n - 48 else if n <=? 70 then n - 55 else n - 87.

(** A part between colons: text, or half of an embedded IPv4 address. *)
Inductive hextet : Type := HexText (s : string) | HexValue (z : Z).

Definition empty_hextet (h : hextet) : bool :=
  match h with HexText EmptyString => true | _ => false end.

(** [_parse_hextet] *)
Definition parse_hextet (h : hextet) : option Z :=
  match h with
  | HexValue z => Some z
  | HexText s =>
      if bool_decide (s ≠ EmptyString) && all_chars is_hex s && (String.length s <=? 4)%nat
      then Some (digits_value 16 0 hex_value s) else None
  end.

(** The parts between colons, an IPv4 suffix replaced by two of them. *)
Definition ipv6_parts (s : string) : option (list hextet) :=
  let parts := PyStr.split ":" s in
  if (length parts <? 3)%nat then None else
  match last parts with
  | Some suffix =>
      if PyStr.contains "." suffix then
        z ← ipv4_int suffix;
        Some ((HexText <$> take (length parts - 1) parts) ++
              [HexValue (Z.land (Z.shiftr z 16) 65535); HexValue (Z.land z 65535)])
      else Some (HexText <$> parts)
  | None => None
  end.

(** The empty parts strictly between the first and the last. *)
Definition skip_indices (parts : list hextet) : list nat :=
  omap (λ ih, if empty_hextet ih.2 && (0 <? ih.1)%nat && (ih.1 <? length parts - 1)%nat
              then Some ih.1 else None)
    (imap pair parts).

Definition hextets_int (parts : list hextet) (acc : Z) : option Z :=
  zs ← mapM parse_hextet parts;
  Some (foldl (λ acc z, Z.lor (Z.shiftl acc 16) z) acc zs).

(** [IPv6Address._ip_int_from_string] *)
Definition ipv6_int (s : string) : option Z :=
  parts ← ipv6_parts s;
  let n := length parts in
  let first_empty := default false (empty_hextet <$> head parts) in
  let last_empty := default false (empty_hextet <$> last parts) in
  if (9 <? n)%nat then None else
  match skip_indices parts with
  | [] =>
      if (n =? 8)%nat && negb first_empty && negb last_empty then hextets_int parts 0 else None
  | [skip] =>
      let hi := (if first_empty then skip - 1 else skip)%nat in
      let lo := (if last_empty then n - skip - 2 else n - skip - 1)%nat in
      if (first_empty && negb (hi =? 0)%nat) || (last_empty && negb (lo =? 0)%nat) ||
         (8 <? hi + lo + 1)%nat
      then None
      else high ← hextets_int (take hi parts) 0;
           hextets_int (drop (n - lo) parts) (Z.shiftl high (16 * (8 - Z.of_nat (hi + lo))))
  | _ => None
  end.

(** [_split_scope_id]: a non-empty zone after one [%], which the number ignores. *)
Definition drop_scope (s : string) : option string :=
  match PyStr.split "%" s with
  | [a] => Some a
  | [a; zone] => if decide (zone = EmptyString) then None else Some a
  | _ => None
  end.

Definition ipv6_address (s : string) : option Z := drop_scope s ≫= ipv6_int.

(** ** Prefix lengths *)

(** [_prefix_from_prefix_string] *)
Definition prefix_from_prefix_string (v : ip_version) (s : string) : option Z :=
  if is_digits s && (decimal s <=? max_prefixlen v) then Some (decimal s) else None.

Definition bit_length (n : Z) : Z := if decide (n = 0) then 0 else Z.log2 n + 1.

Definition count_righthand_zero_bits (n bits : Z) : Z :=
  if decide (n = 0) then bits
  else Z.min bits (bit_length (Z.land (Z.lnot n) (n - 1))).

(** [_prefix_from_ip_int] for IPv4 *)
Definition prefix_from_ip_int (ip : Z) : option Z :=
  let trailing := count_righthand_zero_bits ip 32 in
  let p := 32 - trailing in
  if Z.shiftr ip trailing =? Z.shiftl 1 p - 1 then Some p else None.

(** [_prefix_from_ip_string]: a netmask, else a hostmask. *)
Definition prefix_from_ip_string (s : string) : option Z :=
  ip ← ipv4_int s;
  match prefix_from_ip_int ip with
  | Some p => Some p
  | None => prefix_from_ip_int (Z.lxor ip (all_ones IPv4))
  end.

(** [_make_netmask] *)
Definition read_prefix (v : ip_version) (s : string) : option Z :=
  match prefix_from_prefix_string v s, v with
  | Some p, _ => Some p
  | None, IPv4 => prefix_from_ip_string s
  | None, IPv6 => None
  end.

Definition read_address (v : ip_version) (s : string) : option Z :=
  match v with IPv4 => ipv4_int s | IPv6 => ipv6_address s end.

(** [IPv4Network(text, strict=False)], [IPv6Network(text, strict=False)] *)
Definition read_network (v : ip_version) (text : string) : option network :=
  '(addr, p) ← match PyStr.split "/" text with
               | [a] => Some (a, Some (max_prefixlen v))
               | [a; m] => Some (a, read_prefix v m)
               | _ => None
               end;
  ip ← read_address v addr;
  p ← p;
  Some (Network v (Z.land ip (netmask v p)) p).

(** [ipaddress.ip_network(text, strict=False)]; the text of the error is its prefix. *)
Definition ip_network (text : string) : outcome network :=
  match read_network IPv4 text with
  | Some n => Ret n
  | None =>
      match read_network IPv6 text with
      | Some n => Ret n
      | None => Exc (ValueError (repr_string text +:+ " does not appear to be an IPv4 or IPv6 network"))
      end
  end.

(** [ipaddress.ip_address(text)] succeeds. *)
Definition is_ip_address (text : string) : bool :=
  negb (PyStr.contains "/" text) &&
  (bool_decide (is_Some (read_address IPv4 text)) || bool_decide (is_Some (read_address IPv6 text))).

Example network_texts :
  (ip_network <$> ["10.50.20.7/24"; "10.0.0.0/255.255.0.0"; "10.0.0.0/0.0.255.255"; "192.168.1.9";
                   "2001:db8::1/32"; "::ffff:10.1.2.3/112"; "fe80::1%eth0/64"])
  = [Ret (Network IPv4 171054080 24); Ret (Network IPv4 167772160 16);
     Ret (Network IPv4 167772160 16); Ret (Network IPv4 3232235785 32);
     Ret (Network IPv6 42540766411282592856903984951653826560 32);
     Ret (Network IPv6 281470849581056 112);
     Ret (Network IPv6 338288524927261089654018896841347694592 64)].
Proof. by vm_compute. Qed.

Example not_networks :
  (λ s, bool_decide (read_network IPv4 s = None) && bool_decide (read_network IPv6 s = None)) <$>
    ["10.0.0/24"; "010.0.0.0/8"; "10.0.0.0/33"; "1::2::3/64"; "1:2:3:4:5:6:7/64"; "::1/129"; "10.0.0.0/"]
  = replicate 7 true.
Proof. by vm_compute. Qed.

(** ** Networks are well-formed *)

Definition wf_network (n : network) : Prop :=
  0 ≤ prefixlen n ≤ max_prefixlen (net_version n) ∧
  0 ≤ network_address n < 2 ^ max_prefixlen (net_version n) ∧
  Z.land (network_address n) (netmask (net_version n) (prefixlen n)) = network_address n.

(** The numbers of the addresses of a network, without masks. *)
Definition in_range (n : network) (a : Z) : Prop :=
  network_address n ≤ a < network_address n + 2 ^ (max_prefixlen (net_version n) - prefixlen n).

Lemma max_prefixlen_nonneg v : 0 ≤ max_prefixlen v.
Proof. by destruct v. Qed.

Lemma testbit_small a b i : 0 ≤ a < 2 ^ b → 0 ≤ b → b ≤ i → Z.testbit a i = false.
Proof.
  intros Ha Hb Hi. rewrite <- (Z.mod_small a (2 ^ b)) by done. by apply Z.mod_pow2_bits_high.
Qed.

(** Masking clears the host bits. *)
Lemma land_netmask v p a :
  0 ≤ p ≤ max_prefixlen v → 0 ≤ a < 2 ^ max_prefixlen v →
  Z.land a (netmask v p) = Z.shiftl (Z.shiftr a (max_prefixlen v - p)) (max_prefixlen v - p).
Proof.
  intros Hp Ha. rewrite <- Z.ldiff_ones_r by lia. apply Z.bits_inj'. intros i Hi.
  unfold netmask, all_ones.
  rewrite Z.land_spec, Z.ldiff_spec, Z.lxor_spec, Z.shiftr_spec by done.
  rewrite !Z.testbit_ones_nonneg by (pose proof (max_prefixlen_nonneg v); lia).
  destruct (Z.ltb_spec i (max_prefixlen v)) as [Hlt|Hge];
    [|by rewrite (testbit_small a (max_prefixlen v)) by (lia || done)].
  destruct (Z.ltb_spec (i + p) (max_prefixlen v)), (Z.ltb_spec i (max_prefixlen v - p));
    by (lia || rewrite ?andb_true_r, ?andb_false_r).
Qed.

Lemma hostmask_ones v p :
  0 ≤ p ≤ max_prefixlen v → Z.lxor (netmask v p) (all_ones v) = Z.ones (max_prefixlen v - p).
Proof.
  intros Hp. apply Z.bits_inj'. intros i Hi. unfold netmask, all_ones.
  rewrite !Z.lxor_spec, Z.shiftr_spec by done.
  rewrite !Z.testbit_ones_nonneg by (pose proof (max_prefixlen_nonneg v); lia).
  destruct (Z.ltb_spec i (max_prefixlen v)), (Z.ltb_spec (i + p) (max_prefixlen v)),
    (Z.ltb_spec i (max_prefixlen v - p)); (lia || done).
Qed.

Section member.
Context (n : network) (Hn : wf_network n).

#[local] Notation host := (max_prefixlen (net_version n) - prefixlen n).

Lemma host_nonneg : 0 ≤ host.
Proof. destruct Hn as [? _]. lia. Qed.

Lemma network_address_block : ∃ k, network_address n = k * 2 ^ host.
Proof.
  destruct Hn as (Hp & Ha & Hm). exists (Z.shiftr (network_address n) host).
  rewrite land_netmask in Hm by done. rewrite <- Z.shiftl_mul_pow2 by apply host_nonneg. done.
Qed.

Lemma address_in_range v a :
  0 ≤ a < 2 ^ max_prefixlen v → address_in v a n = true ↔ v = net_version n ∧ in_range n a.
Proof.
  intros Ha. unfold address_in, in_range. rewrite andb_true_iff, bool_decide_eq_true, Z.eqb_eq.
  split; intros [-> H]; (split; [done|]).
  all: destruct Hn as (Hp & Hna & _); pose proof host_nonneg as Hh.
  all: rewrite land_netmask, Z.shiftl_mul_pow2, Z.shiftr_div_pow2 in * by done.
  all: assert (0 < 2 ^ host) as Hpos by (by apply Z.pow_pos_nonneg).
  - rewrite <- H. pose proof (Z.mod_pos_bound a _ Hpos). pose proof (Z.div_mod a (2 ^ host)). lia.
  - destruct network_address_block as [k Hk]. rewrite Hk in *.
    assert (a / 2 ^ host = k) as ->; [|done].
    symmetry. apply (Z.div_unique _ _ _ (a - k * 2 ^ host)); lia.
Qed.

Lemma broadcast_address_eq :
  broadcast_address n = network_address n + 2 ^ host - 1.
Proof.
  destruct network_address_block as [k Hk]. pose proof host_nonneg as Hh.
  destruct Hn as (Hp & _ & _). unfold broadcast_address. rewrite hostmask_ones, Hk by done.
  rewrite <- Z.shiftl_mul_pow2 by done.
  pose proof (Z.add_lor_land (Z.shiftl k host) (Z.ones host)) as Hsum.
  assert (Z.land (Z.shiftl k host) (Z.ones host) = 0) as Hland.
  { rewrite Z.land_ones, Z.shiftl_mul_pow2 by done. apply Z.mod_mul. by apply Z.pow_nonzero. }
  rewrite Hland, Z.ones_equiv in Hsum. rewrite Z.ones_equiv. lia.
Qed.

Lemma in_range_bounds a : in_range n a → 0 ≤ a < 2 ^ max_prefixlen (net_version n).
Proof.
  destruct network_address_block as [k Hk]. destruct Hn as (Hp & Ha & _).
  pose proof host_nonneg as Hh. unfold in_range. rewrite Hk in *. intros H.
  assert (0 < 2 ^ host) by (by apply Z.pow_pos_nonneg).
  assert (2 ^ max_prefixlen (net_version n) = 2 ^ prefixlen n * 2 ^ host) as Hpow.
  { rewrite <- Z.pow_add_r by lia. f_equal. lia. }
  rewrite Hpow in *. assert (k < 2 ^ prefixlen n) by (apply (Z.mul_lt_mono_pos_r (2 ^ host)); lia).
  split; [lia|]. nia.
Qed.

Lemma network_address_in : in_range n (network_address n).
Proof.
  pose proof host_nonneg. assert (0 < 2 ^ host) by (by apply Z.pow_pos_nonneg).
  unfold in_range. lia.
Qed.

Lemma broadcast_address_in : in_range n (broadcast_address n).
Proof.
  pose proof host_nonneg. assert (0 < 2 ^ host) by (by apply Z.pow_pos_nonneg).
  rewrite broadcast_address_eq. unfold in_range. lia.
Qed.
End member.

(** [overlaps] is true exactly when some address is in both networks. *)
Lemma overlaps_iff a b :
  wf_network a → wf_network b →
  overlaps a b = true ↔
  net_version a = net_version b ∧ ∃ x, in_range a x ∧ in_range b x.
Proof.
  intros Ha Hb. unfold overlaps. rewrite !orb_true_iff.
  rewrite !address_in_range by (try done; apply in_range_bounds; try done;
    apply network_address_in || apply broadcast_address_in; done).
  pose proof (network_address_in a Ha). pose proof (network_address_in b Hb).
  pose proof (broadcast_address_in a Ha). pose proof (broadcast_address_in b Hb).
  split; [naive_solver|]. intros (Hv & x & Hxa & Hxb).
  rewrite !broadcast_address_eq by done.
  unfold in_range in *. rewrite Hv in *.
  destruct (decide (network_address a ≤ network_address b)); naive_solver lia.
Qed.

Lemma overlaps_comm a b : wf_network a → wf_network b → overlaps a b = overlaps b a.
Proof.
  intros Ha Hb. apply eq_true_iff_eq. rewrite !overlaps_iff by done. naive_solver.
Qed.

(** ** What is read is well-formed *)

Lemma all_chars_String p s c : all_chars p (String c s) = p c && all_chars p s.
Proof. done. Qed.

Lemma digits_value_nonneg base acc value s :
  0 ≤ base → 0 ≤ acc → (∀ c, 0 ≤ value c) → 0 ≤ digits_value base acc value s.
Proof.
  intros Hb Ha Hv. revert acc Ha. induction s as [|c s IH]; simpl; intros acc Ha; [done|].
  apply IH. specialize (Hv c). nia.
Qed.

Lemma digits_value_bounds base (p : ascii → bool) value s acc :
  0 ≤ base → (∀ c, p c = true → 0 ≤ value c < base) → all_chars p s = true → 0 ≤ acc →
  0 ≤ digits_value base acc value s < (acc + 1) * base ^ Z.of_nat (String.length s).
Proof.
  intros Hb Hv. revert acc. induction s as [|c s IH]; intros acc Hs Hacc.
  { simpl. lia. }
  rewrite all_chars_String, andb_true_iff in Hs. destruct Hs as [Hc Hs].
  specialize (Hv c Hc). cbn [digits_value String.length].
  specialize (IH (base * acc + value c) Hs ltac:(nia)).
  rewrite Nat2Z.inj_succ, Z.pow_succ_r by lia.
  assert (0 ≤ base ^ Z.of_nat (String.length s)) by (apply Z.pow_nonneg; lia). nia.
Qed.

Lemma is_digits_decimal s : is_digits s = true → 0 ≤ decimal s.
Proof.
  unfold is_digits. rewrite andb_true_iff. intros [_ Hs].
  apply (digits_value_bounds 10 is_digit _ s 0); [lia| |done|lia].
  intros c Hc%bool_decide_eq_true. lia.
Qed.

Lemma parse_octet_bounds s z : parse_octet s = Some z → 0 ≤ z < 256.
Proof.
  unfold parse_octet. case_match eqn:E; [|done]. intros [= <-].
  rewrite !andb_true_iff, Z.leb_le in E. destruct E as [[[Hd _] _] Hle].
  pose proof (is_digits_decimal _ Hd). lia.
Qed.

Lemma ipv4_int_bounds s z : ipv4_int s = Some z → 0 ≤ z < 2 ^ 32.
Proof.
  unfold ipv4_int. intros (octets & Ho & Hz)%bind_Some.
  apply mapM_Some_1 in Ho.
  assert (Forall (λ z, 0 ≤ z < 256) octets) as Hall.
  { apply Forall_forall. intros o [i Hi]%list_elem_of_lookup.
    destruct (Forall2_lookup_r _ _ _ _ _ Ho Hi) as (? & _ & ?). by eapply parse_octet_bounds. }
  destruct octets as [|a [|b [|c [|d [|]]]]]; simplify_eq.
  repeat match goal with H : Forall _ (_ :: _) |- _ => apply Forall_cons in H as [? H] end.
  change (2 ^ 32) with 4294967296. lia.
Qed.

Definition hextet_ok (h : hextet) : Prop :=
  match h with HexText _ => True | HexValue z => 0 ≤ z < 65536 end.

Lemma parse_hextet_bounds h z : hextet_ok h → parse_hextet h = Some z → 0 ≤ z < 65536.
Proof.
  destruct h as [s|z']; simpl; [intros _|by intros ? [= <-]].
  case_match eqn:E; [|done]. intros [= <-].
  rewrite !andb_true_iff, Nat.leb_le in E. destruct E as [[_ Hs] Hlen].
  destruct (digits_value_bounds 16 is_hex hex_value s 0) as [H0 H1]; [lia| |done|lia|].
  - intros c. unfold is_hex, is_digit, hex_value.
    rewrite !orb_true_iff, !bool_decide_eq_true. repeat case_match; lia.
  - split; [done|]. eapply Z.lt_le_trans; [exact H1|]. rewrite Z.add_0_l, Z.mul_1_l.
    change 65536 with (16 ^ 4). apply Z.pow_le_mono_r; lia.
Qed.

Lemma lor_shiftl_add a z : 0 ≤ a → 0 ≤ z < 65536 → Z.lor (Z.shiftl a 16) z = a * 65536 + z.
Proof.
  intros Ha Hz. pose proof (Z.add_lor_land (Z.shiftl a 16) z) as Hsum.
  assert (Z.land (Z.shiftl a 16) z = 0) as Hland.
  { apply Z.bits_inj'. intros i Hi. rewrite Z.land_spec, Z.bits_0.
    destruct (decide (i < 16)).
    - by rewrite Z.shiftl_spec_low.
    - rewrite (testbit_small z 16) by (change (2 ^ 16) with 65536; lia). apply andb_false_r. }
  rewrite Hland, Z.shiftl_mul_pow2 in Hsum by done.
  rewrite Z.shiftl_mul_pow2 by done. change (2 ^ 16) with 65536 in *. lia.
Qed.

Lemma hextets_int_bounds parts acc z k :
  Forall hextet_ok parts → 0 ≤ acc < 2 ^ k → 0 ≤ k →
  hextets_int parts acc = Some z → 0 ≤ z < 2 ^ (k + 16 * Z.of_nat (length parts)).
Proof.
  unfold hextets_int. intros Hok. revert acc k.
  induction Hok as [|h parts Hh _ IH]; intros acc k Hacc Hk Hz; simpl in Hz.
  { injection Hz as <-. by rewrite Z.add_0_r. }
  apply bind_Some in Hz as (zs & Hzs & [= Hz]).
  apply bind_Some in Hzs as (x & Hx & Hzs). apply bind_Some in Hzs as (xs & Hxs & [= <-]).
  pose proof (parse_hextet_bounds _ _ Hh Hx) as Hxb. simpl in Hz.
  rewrite lor_shiftl_add in Hz by lia. cbn [length].
  rewrite Nat2Z.inj_succ. replace (k + 16 * Z.succ (Z.of_nat (length parts)))
    with ((k + 16) + 16 * Z.of_nat (length parts)) by lia.
  apply (IH (acc * 65536 + x) (k + 16)); [|lia|by rewrite Hxs; simpl; rewrite Hz].
  rewrite Z.pow_add_r by lia. change (2 ^ 16) with 65536. lia.
Qed.

Lemma ipv6_parts_ok s parts : ipv6_parts s = Some parts → Forall hextet_ok parts.
Proof.
  assert (∀ l, Forall hextet_ok (HexText <$> l)) as Htext
    by (intros l; apply Forall_fmap, Forall_true; done).
  assert (∀ z, 0 ≤ Z.land z 65535 < 65536) as Hland.
  { intros z. change 65535 with (Z.ones 16). rewrite Z.land_ones by done.
    change 65536 with (2 ^ 16). by apply Z.mod_pos_bound. }
  unfold ipv6_parts. case_match; [done|]. case_match; [|done]. case_match.
  - intros (z & _ & [= <-])%bind_Some. apply Forall_app. split; [apply Htext|].
    repeat constructor; apply Hland.
  - intros [= <-]. apply Htext.
Qed.

Lemma ipv6_int_bounds s z : ipv6_int s = Some z → 0 ≤ z < 2 ^ 128.
Proof.
  unfold ipv6_int. intros (parts & Hparts%ipv6_parts_ok & Hz)%bind_Some.
  case_match; [done|]. destruct (skip_indices parts) as [|skip [|]] eqn:Hskip; [| |done].
  - case_match eqn:E; [|done]. rewrite !andb_true_iff, Nat.eqb_eq in E.
    destruct E as [[Hlen _] _]. apply (hextets_int_bounds _ _ _ 0) in Hz; [|done|lia..].
    rewrite Hlen in Hz. done.
  - set (hi := if default false (empty_hextet <$> head parts) then (skip - 1)%nat else skip) in *.
    set (lo := if default false (empty_hextet <$> last parts) then (length parts - skip - 2)%nat
               else (length parts - skip - 1)%nat) in *.
    case_match eqn:E; [done|]. rewrite !orb_false_iff, Nat.ltb_ge in E. destruct E as [_ Hsum].
    apply bind_Some in Hz as (high & Hhigh & Hz).
    apply (hextets_int_bounds _ _ _ 0) in Hhigh; [|by apply Forall_take|lia..].
    rewrite length_take in Hhigh.
    apply (hextets_int_bounds _ _ _ (16 * (8 - Z.of_nat lo))) in Hz; [|by apply Forall_drop| |lia].
    + rewrite length_drop in Hz. eapply (λ H, conj (proj1 Hz) (Z.lt_le_trans _ _ _ (proj2 Hz) H)).
      apply Z.pow_le_mono_r; lia.
    + rewrite Z.shiftl_mul_pow2 by lia. split; [apply Z.mul_nonneg_nonneg; lia|].
      eapply Z.lt_le_trans.
      { apply Z.mul_lt_mono_pos_r; [|exact (proj2 Hhigh)]. apply Z.pow_pos_nonneg; lia. }
      rewrite <- Z.pow_add_r by lia. apply Z.pow_le_mono_r; lia.
Qed.

Lemma read_address_bounds v s z : read_address v s = Some z → 0 ≤ z < 2 ^ max_prefixlen v.
Proof.
  destruct v; simpl; [apply ipv4_int_bounds|].
  unfold ipv6_address. intros (a & _ & Ha)%bind_Some. by eapply ipv6_int_bounds.
Qed.

Lemma count_righthand_zero_bits_bounds n : 0 ≤ count_righthand_zero_bits n 32 ≤ 32.
Proof.
  unfold count_righthand_zero_bits, bit_length. case_decide; [lia|].
  case_decide; [lia|]. pose proof (Z.log2_nonneg (Z.land (Z.lnot n) (n - 1))). lia.
Qed.

Lemma read_prefix_bounds v s p : read_prefix v s = Some p → 0 ≤ p ≤ max_prefixlen v.
Proof.
  assert (∀ ip p, prefix_from_ip_int ip = Some p → 0 ≤ p ≤ 32) as Hip.
  { intros ip q. unfold prefix_from_ip_int. case_match; [|done]. intros [= <-].
    pose proof (count_righthand_zero_bits_bounds ip). lia. }
  unfold read_prefix. destruct (prefix_from_prefix_string v s) as [q|] eqn:E.
  - intros [= <-]. unfold prefix_from_prefix_string in E. case_match eqn:E'; [|done].
    simplify_eq. rewrite andb_true_iff, Z.leb_le in E'. destruct E' as [Hd ?].
    pose proof (is_digits_decimal _ Hd). lia.
  - destruct v; [|done]. unfold prefix_from_ip_string. intros (ip & _ & Hp)%bind_Some.
    case_match eqn:E'; [simplify_eq|]; by eapply Hip.
Qed.

Lemma netmask_idem v p a :
  0 ≤ p ≤ max_prefixlen v → 0 ≤ a < 2 ^ max_prefixlen v →
  0 ≤ Z.land a (netmask v p) < 2 ^ max_prefixlen v.
Proof.
  intros Hp Ha. rewrite land_netmask, Z.shiftl_mul_pow2, Z.shiftr_div_pow2 by lia.
  assert (0 < 2 ^ (max_prefixlen v - p)) as Hpos by (apply Z.pow_pos_nonneg; lia).
  pose proof (Z.mul_div_le a _ Hpos). pose proof (Z.div_pos a _ (proj1 Ha) Hpos). nia.
Qed.

Lemma read_network_wf v text n : read_network v text = Some n → wf_network n ∧ net_version n = v.
Proof.
  unfold read_network. intros ([addr mp] & Hsplit & H)%bind_Some.
  apply bind_Some in H as (ip & Hip%read_address_bounds & H).
  apply bind_Some in H as (p & -> & [= <-]).
  assert (0 ≤ p ≤ max_prefixlen v) as Hp.
  { repeat case_match; simplify_eq; [pose proof (max_prefixlen_nonneg v); lia|].
    by eapply read_prefix_bounds. }
  split; [|done]. unfold wf_network; simpl. split; [done|].
  split; [by apply netmask_idem|]. by rewrite <- Z.land_assoc, Z.land_diag.
Qed.

Lemma ip_network_wf text n : ip_network text = Ret n → wf_network n.
Proof.
  unfold ip_network.
  destruct (read_network IPv4 text) eqn:E4; [|destruct (read_network IPv6 text) eqn:E6; [|done]];
    intros [= <-]; by eapply read_network_wf.
Qed.
