(* ===== verification/ProxmoxSdn.v ===== *)
(** * Software-defined networks of Proxmox

    [web/proxmox_sdn.py]: the inventory of a cluster's networks and every call that changes
    them or the firewall.  The handles [pve_api], [pve_put] and [pve_delete] the functions
    are given are the class [Proxmox]. *)

From stdpp Require Import base gmap list strings pretty sorting.
From Stdlib Require Import ZArith Lia Ascii.
From S2P Require Import Prelude Json Text Digest.

#[local] Open Scope Z_scope.

(** ** The handles *)

(** The response an exception of [requests] carries: its status, its body read as JSON when
    it can be, and its text. *)
Record pve_response : Type := PveResponse {
  status_code : Z;
  response_json : option json;
  response_text : string
}.

(** An exception, with [exc.response] and [str(exc)]. *)
Record pve_failure : Type := PveFailure {
  failure_response : option pve_response;
  failure_text : string
}.

(** [pve_api(path, method=..., data=...)], [pve_put(path, data=...)], [pve_delete(path)] *)
Class Proxmox (W : Type) : Type := {
  pve_api : string → string → json → W → (json + pve_failure) * W;
  pve_put : string → json → W → (json + pve_failure) * W;
  pve_delete : string → W → (json + pve_failure) * W
}.

(** A call whose exception is not translated. *)
Definition raw_call {W} (m : W → (json + pve_failure) * W) : eff W json := λ w,
  match m w with
  | (inl v, w') => (Ret v, w')
  | (inr f, w') => (Exc (CustomError "HTTPError" (failure_text f)), w')
  end.

(** ** Bodies *)

Definition SECRET_FIELD_NAMES : list string := ["key"; "token"; "password"; "secret"].

Definition is_secret (k : string) : bool := bool_decide (PyStr.lower k ∈ SECRET_FIELD_NAMES).

(** [_clean]: no secrets, and 0 or 1 for booleans. *)
Fixpoint _clean (v : json) : json :=
  match v with
  | JObj o =>
      JObj ((fix go (o : list (string * json)) : list (string * json) :=
               match o with
               | [] => []
               | kv :: o => if is_secret kv.1 then go o else (kv.1, _clean kv.2) :: go o
               end) o)
  | JArr l => JArr (_clean <$> l)
  | JBool b => JInt (b2z b)
  | v => v
  end.

(** [d[key] = value] *)
Fixpoint set_item (key : string) (value : json) (o : list (string * json)) : list (string * json) :=
  match o with
  | [] => [(key, value)]
  | kv :: o => if decide (kv.1 = key) then (key, value) :: o else kv :: set_item key value o
  end.

(** [dict(row or {})]: a row that is no dictionary raises. *)
Definition row_items (row : json) : outcome (list (string * json)) :=
  match row with
  | JObj o => Ret o
  | v => if truthy v then Exc TypeError else Ret []
  end.

Definition _with_id (key : string) (row : json) : outcome json :=
  o ← row_items row;
  match _clean (JObj o) with
  | JObj c =>
      match assoc "id" c, assoc key c with
      | None, Some JNull => Ret (JObj c)
      | None, Some v => Ret (JObj (set_item "id" v c))
      | _, _ => Ret (JObj c)
      end
  | v => Ret v
  end.

(** ** Address ranges *)

(** [str(value.get(a) or value.get(b) or "").strip()] *)
Definition first_text (a b : string) (v : json) : string :=
  PyStr.strip (py_str (jor (jget a v) (jor (jget b v) (JStr EmptyString)))).

(** [part.split("=", 1)] *)
Fixpoint split_once (sep : ascii) (s : string) : option (string * string) :=
  match s with
  | EmptyString => None
  | String c s => if decide (c = sep) then Some (EmptyString, s)
                  else prod_map (String c) id <$> split_once sep s
  end.

Definition dhcp_part (acc : string * string) (part : string) : string * string :=
  match split_once "=" part with
  | None => acc
  | Some (k, raw) =>
      let key := PyStr.lower (PyStr.strip k) in
      if decide (key = "start-address") then (PyStr.strip raw, acc.2)
      else if decide (key = "end-address") then (acc.1, PyStr.strip raw)
      else acc
  end.

Definition dhcp_text (s : string) : string * string :=
  foldl dhcp_part (EmptyString, EmptyString) (PyStr.split "," s).

Definition dhcp_dict (v : json) : string * string :=
  (first_text "start-address" "start" v, first_text "end-address" "end" v).

(** What an element of a list says, when it says anything. *)
Definition dhcp_item (v : json) : option (string * string) :=
  match (match v with
         | JObj _ => Some (dhcp_dict v) | JStr s => Some (dhcp_text s) | _ => None
         end) with
  | Some (EmptyString, EmptyString) | None => None
  | r => r
  end.

Definition _parse_dhcp_range (v : json) : string * string :=
  match v with
  | JObj _ => dhcp_dict v
  | JArr l => default (EmptyString, EmptyString) (head (omap dhcp_item l))
  | JStr s => dhcp_text s
  | _ => (EmptyString, EmptyString)
  end.

Definition _normalize_subnet (row : json) : outcome json :=
  out ← _with_id "subnet" row;
  match out with
  | JObj o =>
      let range := _parse_dhcp_range (jget "dhcp-range" out) in
      Ret (JObj (set_item "dhcp_range_end" (JStr range.2)
                  (set_item "dhcp_range_start" (JStr range.1) o)))
  | v => Ret v
  end.

(** ** Paths *)

Definition upper_hex (n : N) : ascii := ascii_of_N (if (n <? 10)%N then 48 + n else 55 + n).

(** The bytes [urllib.parse.quote] leaves alone. *)
Definition unreserved (n : N) : bool :=
  bool_decide (48 ≤ n ≤ 57 ∨ 65 ≤ n ≤ 90 ∨ 97 ≤ n ≤ 122 ∨ n = 45 ∨ n = 46 ∨ n = 95 ∨ n = 126)%N.

Fixpoint percent (bs : list N) : string :=
  match bs with
  | [] => EmptyString
  | b :: bs =>
      if unreserved b then String (ascii_of_N b) (percent bs)
      else String "%" (String (upper_hex (b / 16)) (String (upper_hex (b mod 16)) (percent bs)))
  end.

(** [quote(str(value), safe="")] *)
Definition _part (value : json) : string := percent (utf8 (py_str value)).

(** ** Calls *)

(** [HTTPException(status_code, detail)], whose [str] is both. *)
Definition pve_http_error (status : Z) (detail : string) : exc :=
  CustomError "HTTPException" (pretty status +:+ ": " +:+ detail).

(** The text of the body: its errors, or its message. *)
Definition response_detail (r : pve_response) : string :=
  let from_json :=
    match response_json r with
    | Some (JObj _ as payload) =>
        match jor (jget "errors" payload) (JObj []) with
        | JObj ((_ :: _) as errors) =>
            PyStr.join "; " ((λ kv, kv.1 +:+ ": " +:+ py_str kv.2) <$> errors)
        | _ => py_str (jor (jget "message" payload) (jor (jget "data" payload) (JStr EmptyString)))
        end
    | _ => EmptyString
    end in
  PyStr.strip (PyStr.or_else from_json (response_text r)).

Definition _surface_pve_error (f : pve_failure) (path : string) : exc :=
  match failure_response f with
  | None => pve_http_error 502 ("upstream PVE call failed at " +:+ path +:+ ": " +:+ failure_text f)
  | Some r =>
      let status := if (status_code r <? 400) || (600 <=? status_code r) then 502 else status_code r in
      pve_http_error status (PyStr.or_else (response_detail r) ("upstream PVE error at " +:+ path))
  end.

(** [try: result = m() except Exception as exc: _surface_pve_error(exc, path)] and the
    cleaned result. *)
Definition surfaced {W} (path : string) (m : W → (json + pve_failure) * W) : eff W json := λ w,
  match m w with
  | (inl v, w') => (Ret (_clean (jor v (JObj []))), w')
  | (inr f, w') => (Exc (_surface_pve_error f path), w')
  end.

Section calls.
Context {W : Type} `{Proxmox W}.

#[local] Notation P := (eff W).

Definition _call (path method : string) (data : json) : P json :=
  surfaced path (pve_api path method (_clean (jor data (JObj [])))).

Definition _delete (path : string) : P json := surfaced path (pve_delete path).

Definition _put (path : string) (data : json) : P json :=
  surfaced path (pve_put path (_clean (jor data (JObj [])))).

(** [pve_api(path)] *)
Definition _get (path : string) : P json := raw_call (pve_api path "GET" JNull).

(** The elements of a value a comprehension goes through. *)
Definition elements (v : json) : outcome (list json) :=
  match v with
  | JArr rows => Ret rows
  | v => if truthy v then Exc TypeError else Ret []
  end.

(** [pve_api(path) or []], each row through [f]. *)
Definition listing (path : string) (f : json → outcome json) : P (list json) :=
  v ← _get path;
  lift_outcome (rows ← elements v; omapM f rows).

(** [try: rows = m() except Exception: rows = []] *)
Definition or_nothing (m : P (list json)) : P (list json) := λ w,
  match m w with
  | (Exc _, w') => (Ret [], w')
  | r => r
  end.

(** ** The inventory *)

(** [try: rows = pve_api(...) or [] except Exception: rows = []]; the rows are read
    outside of the [try]. *)
Definition subnets_of (vnet_id : json) : P (list json) := λ w,
  let '(rows, w') :=
    match _get ("/cluster/sdn/vnets/" +:+ _part vnet_id +:+ "/subnets") w with
    | (Ret v, w') => (v, w')
    | (Exc _, w') => (JArr [], w')
    end in
  (rows ← elements rows; omapM _normalize_subnet rows, w').

Fixpoint subnets_by_vnet (vnets : list json) (acc : list (string * json)) : P (list (string * json)) :=
  match vnets with
  | [] => mret acc
  | vnet :: vnets =>
      let vnet_id := jor (jget "id" vnet) (jget "vnet" vnet) in
      if truthy vnet_id then
        rows ← subnets_of vnet_id;
        subnets_by_vnet vnets (set_item (py_str vnet_id) (JArr rows) acc)
      else subnets_by_vnet vnets acc
  end.

Definition inventory : P json :=
  zones ← listing "/cluster/sdn/zones" (_with_id "zone");
  vnets ← listing "/cluster/sdn/vnets" (_with_id "vnet");
  subnets ← subnets_by_vnet vnets [];
  controllers ← or_nothing (listing "/cluster/sdn/controllers" (_with_id "controller"));
  ipams ← or_nothing (listing "/cluster/sdn/ipams" (_with_id "ipam"));
  dns ← or_nothing (listing "/cluster/sdn/dns" (_with_id "dns"));
  fabrics ← or_nothing (listing "/cluster/sdn/fabrics" (_with_id "fabric"));
  mret (JObj [("zones", JArr zones); ("vnets", JArr vnets); ("subnets_by_vnet", JObj subnets);
              ("controllers", JArr controllers); ("ipams", JArr ipams); ("dns", JArr dns);
              ("fabrics", JArr fabrics)]).

(** ** Zones, virtual networks, subnets *)

Definition create_zone (body : json) : P json := _call "/cluster/sdn/zones" "POST" body.
Definition update_zone (zone : string) (body : json) : P json :=
  _call ("/cluster/sdn/zones/" +:+ _part (JStr zone)) "PUT" body.
Definition delete_zone (zone : string) : P json := _delete ("/cluster/sdn/zones/" +:+ _part (JStr zone)).

Definition create_vnet (body : json) : P json := _call "/cluster/sdn/vnets" "POST" body.
Definition update_vnet (vnet : string) (body : json) : P json :=
  _call ("/cluster/sdn/vnets/" +:+ _part (JStr vnet)) "PUT" body.
Definition delete_vnet (vnet : string) : P json := _delete ("/cluster/sdn/vnets/" +:+ _part (JStr vnet)).

Definition subnets_path (vnet : string) : string := "/cluster/sdn/vnets/" +:+ _part (JStr vnet) +:+ "/subnets".

Definition create_subnet (vnet : string) (body : json) : P json := _call (subnets_path vnet) "POST" body.
Definition update_subnet (vnet subnet : string) (body : json) : P json :=
  _call (subnets_path vnet +:+ "/" +:+ _part (JStr subnet)) "PUT" body.
Definition delete_subnet (vnet subnet : string) : P json :=
  _delete (subnets_path vnet +:+ "/" +:+ _part (JStr subnet)).

(** ** Controllers, address management, name servers *)

Definition create_controller (body : json) : P json := _call "/cluster/sdn/controllers" "POST" body.
Definition update_controller (controller : string) (body : json) : P json :=
  _call ("/cluster/sdn/controllers/" +:+ _part (JStr controller)) "PUT" body.
Definition delete_controller (controller : string) : P json :=
  _delete ("/cluster/sdn/controllers/" +:+ _part (JStr controller)).

Definition SECRET_REQUIRED_PROVIDER_TYPES : list (string * string) :=
  [("dns", "powerdns"); ("ipam", "netbox"); ("ipam", "phpipam")].

Definition _secret_required (kind : string) (body : json) : bool :=
  bool_decide ((kind, PyStr.lower (PyStr.strip (py_str (jor (jget "type" body) (JStr EmptyString)))))
               ∈ SECRET_REQUIRED_PROVIDER_TYPES).

Definition _secret_required_result : json :=
  JObj [("ok", JBool false); ("code", JStr "secret_required");
        ("detail", JStr "Configure this provider in Proxmox first; Autopilot does not store provider secrets.")].

Definition create_ipam (body : json) : P json :=
  if _secret_required "ipam" body then mret _secret_required_result
  else _call "/cluster/sdn/ipams" "POST" body.
Definition delete_ipam (ipam : string) : P json := _delete ("/cluster/sdn/ipams/" +:+ _part (JStr ipam)).
Definition create_dns (body : json) : P json :=
  if _secret_required "dns" body then mret _secret_required_result
  else _call "/cluster/sdn/dns" "POST" body.
Definition delete_dns (dns : string) : P json := _delete ("/cluster/sdn/dns/" +:+ _part (JStr dns)).

(** ** Applying changes *)

Definition acquire_lock (allow_pending : bool) : P json :=
  _call "/cluster/sdn/lock" "POST" (JObj [("allow-pending", JInt (b2z allow_pending))]).

Definition release_lock (lock_token : string) (force : bool) : P json :=
  let query := "lock-token=" +:+ _part (JStr lock_token) in
  let query := if force then query +:+ "&force=1" else query in
  result ← raw_call (pve_delete ("/cluster/sdn/lock?" +:+ query));
  mret (_clean (jor result (JObj []))).

Definition apply_sdn (lock_token : string) (release : bool) : P json :=
  _put "/cluster/sdn" (JObj (("lock-token", JStr lock_token) ::
                             if release then [("release-lock", JInt 1)] else [])).

(** ** The firewall *)

(** [leaf.strip("/")] *)
Fixpoint lstrip_slash (s : string) : string :=
  match s with
  | String c s' => if is_char 47 c then lstrip_slash s' else s
  | EmptyString => s
  end.

Fixpoint rstrip_slash (s : string) : string :=
  match s with
  | EmptyString => s
  | String c s' =>
      match rstrip_slash s' with
      | EmptyString => if is_char 47 c then EmptyString else String c EmptyString
      | t => String c t
      end
  end.

(** [scope[key]] *)
Definition scope_field (key : string) (scope : json) : outcome string :=
  match scope with
  | JObj o => match assoc key o with Some v => Ret (_part v) | None => Exc (KeyError key) end
  | _ => Exc (KeyError key)
  end.

Definition firewall_scope_path (scope : json) (leaf : string) : outcome string :=
  let kind := PyStr.lower (py_str (jor (jget "kind" scope) (JStr "cluster"))) in
  let leaf := lstrip_slash (rstrip_slash leaf) in
  if decide (kind = "cluster") then Ret ("/cluster/firewall/" +:+ leaf)
  else if decide (kind = "node") then
    node ← scope_field "node" scope;
    Ret ("/nodes/" +:+ node +:+ "/firewall/" +:+ leaf)
  else if decide (kind = "vnet") then
    vnet ← scope_field "vnet" scope;
    Ret ("/cluster/sdn/vnets/" +:+ vnet +:+ "/firewall/" +:+ leaf)
  else if decide (kind ∈ ["qemu"; "vm"]) then
    node ← scope_field "node" scope;
    vmid ← scope_field "vmid" scope;
    Ret ("/nodes/" +:+ node +:+ "/qemu/" +:+ vmid +:+ "/firewall/" +:+ leaf)
  else Exc (ValueError ("Unknown firewall scope kind: " +:+ kind)).

Definition firewall_create_rule (scope body : json) : P json :=
  path ← lift_outcome (firewall_scope_path scope "rules"); _call path "POST" body.
Definition firewall_update_rule (scope : json) (pos : Z) (body : json) : P json :=
  path ← lift_outcome (firewall_scope_path scope ("rules/" +:+ _part (JInt pos))); _put path body.
Definition firewall_delete_rule (scope : json) (pos : Z) : P json :=
  path ← lift_outcome (firewall_scope_path scope ("rules/" +:+ _part (JInt pos))); _delete path.
Definition firewall_set_options (scope body : json) : P json :=
  path ← lift_outcome (firewall_scope_path scope "options"); _put path body.

Definition firewall_create_group (body : json) : P json := _call "/cluster/firewall/groups" "POST" body.
Definition firewall_update_group (group : string) (body : json) : P json :=
  _put ("/cluster/firewall/groups/" +:+ _part (JStr group)) body.
Definition firewall_delete_group (group : string) : P json :=
  _delete ("/cluster/firewall/groups/" +:+ _part (JStr group)).

Definition firewall_create_alias (scope body : json) : P json :=
  path ← lift_outcome (firewall_scope_path scope "aliases"); _call path "POST" body.
Definition firewall_update_alias (scope : json) (name : string) (body : json) : P json :=
  path ← lift_outcome (firewall_scope_path scope ("aliases/" +:+ _part (JStr name))); _put path body.
Definition firewall_delete_alias (scope : json) (name : string) : P json :=
  path ← lift_outcome (firewall_scope_path scope ("aliases/" +:+ _part (JStr name))); _delete path.
Definition firewall_create_ipset (scope body : json) : P json :=
  path ← lift_outcome (firewall_scope_path scope "ipset"); _call path "POST" body.
Definition firewall_update_ipset (scope : json) (name : string) (body : json) : P json :=
  path ← lift_outcome (firewall_scope_path scope ("ipset/" +:+ _part (JStr name))); _put path body.
Definition firewall_delete_ipset (scope : json) (name : string) : P json :=
  path ← lift_outcome (firewall_scope_path scope ("ipset/" +:+ _part (JStr name))); _delete path.

(** [_clean(pve_api(path) or empty)] *)
Definition clean_get (empty : json) (path : string) : P json :=
  v ← _get path; mret (_clean (jor v empty)).

(** [try: ... except Exception: []] *)
Definition clean_list_or_nothing (path : string) : P json := λ w,
  match clean_get (JArr []) path w with
  | (Exc _, w') => (Ret (JArr []), w')
  | r => r
  end.

(** The leaves of a scope, read one after the other. *)
Fixpoint scope_leaves (scope : json) (leaves : list (string * json)) : P (list (string * json)) :=
  match leaves with
  | [] => mret []
  | (leaf, empty) :: leaves =>
      path ← lift_outcome (firewall_scope_path scope leaf);
      v ← clean_get empty path;
      rest ← scope_leaves scope leaves;
      mret ((leaf, v) :: rest)
  end.

Definition node_leaves : list (string * json) := [("options", JObj []); ("rules", JArr [])].
Definition vm_leaves : list (string * json) := node_leaves ++ [("aliases", JArr []); ("ipset", JArr [])].

Definition firewall_inventory (node : option string) (vmid : option Z) (vnet : option string) : P json :=
  options ← clean_get (JObj []) "/cluster/firewall/options";
  rules ← clean_get (JArr []) "/cluster/firewall/rules";
  groups ← clean_get (JArr []) "/cluster/firewall/groups";
  aliases ← clean_get (JArr []) "/cluster/firewall/aliases";
  ipset ← clean_get (JArr []) "/cluster/firewall/ipset";
  macros ← clean_list_or_nothing "/cluster/firewall/macros";
  refs ← clean_list_or_nothing "/cluster/firewall/refs";
  nodes ← match node with
          | Some (String _ _ as n) =>
              o ← scope_leaves (JObj [("kind", JStr "node"); ("node", JStr n)]) node_leaves;
              mret [(n, JObj o)]
          | _ => mret []
          end;
  vnets ← match vnet with
          | Some (String _ _ as n) =>
              o ← scope_leaves (JObj [("kind", JStr "vnet"); ("vnet", JStr n)]) node_leaves;
              mret [(n, JObj o)]
          | _ => mret []
          end;
  vms ← match node, vmid with
        | Some (String _ _ as n), Some i =>
            if decide (i = 0) then mret []
            else
              o ← scope_leaves (JObj [("kind", JStr "qemu"); ("node", JStr n); ("vmid", JInt i)]) vm_leaves;
              mret [(n +:+ "/" +:+ pretty i, JObj o)]
        | _, _ => mret []
        end;
  mret (JObj [("cluster", JObj [("options", options); ("rules", rules); ("groups", groups);
                                ("aliases", aliases); ("ipset", ipset); ("macros", macros); ("refs", refs)]);
              ("nodes", JObj nodes); ("vnets", JObj vnets); ("vms", JObj vms)]).
End calls.
