(* ===== verification/LabData.v ===== *)
(** * Managed labs: the tables and the connection

    The schema of [web/managed_labs_pg.py] and a connection to it.  A connection has the
    state its transaction sees and the state that is committed; a statement PostgreSQL
    refuses spoils the transaction, after which every statement is refused until it ends,
    and committing a spoiled transaction rolls it back.  The connection carries the world
    outside of the database, which is Proxmox.  A row of a table is a record; the [_json]
    columns hold JSON values, whose key order is not significant. *)

From stdpp Require Import base gmap list strings pretty sorting.
From Stdlib Require Import ZArith Lia Ascii.
From S2P Require Import Prelude Json Text.

#[local] Open Scope Z_scope.

(** ** Rows *)

Record lab : Type := Lab {
  lab_name : string;
  lab_slug : string;
  lab_short_code : string;
  lab_group_tag : string;
  lab_status : string;
  lab_network_cidr : string;
  lab_gateway_ip : string;
  lab_network_mode : string;
  lab_sdn_zone : string;
  lab_sdn_vnet : string;
  lab_sdn_subnet : string;
  lab_retry_count : Z;
  lab_last_reconcile_run_id : option string;
  lab_desired_state : json;
  lab_created_at : Z;
  lab_updated_at : Z
}.

(** A row of [lab_boundaries], and of [lab_boundary_objects] next to its boundary. *)
Record boundary : Type := Boundary {
  bd_lab_id : string;
  bd_provider : string;
  bd_kind : string;
  bd_name : string;
  bd_ownership : string;
  bd_source : string;
  bd_provider_ids : json;
  bd_desired_state : json;
  bd_actual_state : json;
  bd_baseline_snapshot_id : option string;
  bd_last_reconcile_status : string;
  bd_created_at : Z;
  bd_updated_at : Z
}.

Record boundary_object : Type := BoundaryObject {
  bo_boundary_id : string;
  bo_row : boundary
}.

(** A row of [lab_boundary_object_provider_identities] under its object and key. *)
Record provider_identity : Type := ProviderIdentity {
  id_lab_id : string;
  id_provider : string;
  id_kind : string;
  id_value : string
}.

Record reservation : Type := Reservation {
  rv_lab_id : string;
  rv_type : string;
  rv_value : string;
  rv_status : string;
  rv_metadata : json;
  rv_created_at : Z;
  rv_updated_at : Z
}.

Record reconcile_run : Type := ReconcileRun {
  rr_lab_id : string;
  rr_status : string;
  rr_attempt : Z;
  rr_started_at : Z;
  rr_finished_at : option Z;
  rr_summary : string
}.

Record reconcile_finding : Type := ReconcileFinding {
  fd_lab_id : string;
  fd_run_id : option string;
  fd_provider : string;
  fd_type : string;
  fd_severity : string;
  fd_status : string;
  fd_detail : string;
  fd_object_ref : json;
  fd_desired_state : json;
  fd_actual_state : json;
  fd_created_at : Z;
  fd_updated_at : Z
}.

Record fix_action : Type := FixAction {
  fx_lab_id : string;
  fx_run_id : option string;
  fx_provider : string;
  fx_action_type : string;
  fx_status : string;
  fx_priority : Z;
  fx_detail : string;
  fx_request : json;
  fx_result : json;
  fx_snapshot_id : option string;
  fx_created_at : Z;
  fx_updated_at : Z;
  fx_completed_at : option Z
}.

Record provider_snapshot : Type := ProviderSnapshot {
  sn_lab_id : string;
  sn_provider : string;
  sn_type : string;
  sn_object_ref : json;
  sn_snapshot : json;
  sn_created_at : Z
}.

Record lab_event : Type := LabEvent {
  le_lab_id : string;
  le_type : string;
  le_actor : string;
  le_detail : string;
  le_payload : json;
  le_created_at : Z
}.

Record lab_tables : Type := LabTables {
  labs : gmap string lab;
  boundaries : gmap string boundary;
  boundary_objects : gmap string boundary_object;
  identities : gmap (string * string) provider_identity;
  reservations : gmap string reservation;
  reconcile_runs : gmap string reconcile_run;
  findings : gmap string reconcile_finding;
  fix_actions : gmap string fix_action;
  snapshots : gmap string provider_snapshot;
  lab_events : gmap Z lab_event
}.

Definition no_labs : lab_tables := LabTables ∅ ∅ ∅ ∅ ∅ ∅ ∅ ∅ ∅ ∅.

Definition on_labs f (t : lab_tables) : lab_tables :=
  LabTables (f (labs t)) (boundaries t) (boundary_objects t) (identities t) (reservations t)
    (reconcile_runs t) (findings t) (fix_actions t) (snapshots t) (lab_events t).
Definition on_boundaries f (t : lab_tables) : lab_tables :=
  LabTables (labs t) (f (boundaries t)) (boundary_objects t) (identities t) (reservations t)
    (reconcile_runs t) (findings t) (fix_actions t) (snapshots t) (lab_events t).
Definition on_boundary_objects f (t : lab_tables) : lab_tables :=
  LabTables (labs t) (boundaries t) (f (boundary_objects t)) (identities t) (reservations t)
    (reconcile_runs t) (findings t) (fix_actions t) (snapshots t) (lab_events t).
Definition on_identities f (t : lab_tables) : lab_tables :=
  LabTables (labs t) (boundaries t) (boundary_objects t) (f (identities t)) (reservations t)
    (reconcile_runs t) (findings t) (fix_actions t) (snapshots t) (lab_events t).
Definition on_reservations f (t : lab_tables) : lab_tables :=
  LabTables (labs t) (boundaries t) (boundary_objects t) (identities t) (f (reservations t))
    (reconcile_runs t) (findings t) (fix_actions t) (snapshots t) (lab_events t).
Definition on_reconcile_runs f (t : lab_tables) : lab_tables :=
  LabTables (labs t) (boundaries t) (boundary_objects t) (identities t) (reservations t)
    (f (reconcile_runs t)) (findings t) (fix_actions t) (snapshots t) (lab_events t).
Definition on_findings f (t : lab_tables) : lab_tables :=
  LabTables (labs t) (boundaries t) (boundary_objects t) (identities t) (reservations t)
    (reconcile_runs t) (f (findings t)) (fix_actions t) (snapshots t) (lab_events t).
Definition on_fix_actions f (t : lab_tables) : lab_tables :=
  LabTables (labs t) (boundaries t) (boundary_objects t) (identities t) (reservations t)
    (reconcile_runs t) (findings t) (f (fix_actions t)) (snapshots t) (lab_events t).
Definition on_snapshots f (t : lab_tables) : lab_tables :=
  LabTables (labs t) (boundaries t) (boundary_objects t) (identities t) (reservations t)
    (reconcile_runs t) (findings t) (fix_actions t) (f (snapshots t)) (lab_events t).
Definition on_lab_events f (t : lab_tables) : lab_tables :=
  LabTables (labs t) (boundaries t) (boundary_objects t) (identities t) (reservations t)
    (reconcile_runs t) (findings t) (fix_actions t) (snapshots t) (f (lab_events t)).

(** [conn.execute] of a row whose key is a fresh identifier. *)
Definition has_key `{Countable K} {R} (k : K) (t : gmap K R) : bool := bool_decide (is_Some (t !! k)).

(** ** The connection *)

(** The clock, the random identifiers, and [datetime.isoformat]. *)
Class LabEnv : Type := {
  lab_clock : nat → Z;
  lab_uuid4 : nat → string;
  isoformat : Z → string
}.

Record lab_conn (W : Type) : Type := LabConn {
  seen : lab_tables;
  durable : lab_tables;
  spoiled : bool;
  event_serial : Z;
  readings : nat;
  handed_out : nat;
  world : W
}.
Arguments LabConn {W}.
Arguments seen {W}. Arguments durable {W}. Arguments spoiled {W}. Arguments event_serial {W}.
Arguments readings {W}. Arguments handed_out {W}. Arguments world {W}.

Section connection.
Context `{LabEnv} {W : Type}.

#[local] Notation M := (eff (lab_conn W)).

Definition _now : M Z := λ c,
  (Ret (lab_clock (readings c)),
   LabConn (seen c) (durable c) (spoiled c) (event_serial c) (S (readings c)) (handed_out c) (world c)).

Definition _new_id : M string := λ c,
  (Ret (lab_uuid4 (handed_out c)),
   LabConn (seen c) (durable c) (spoiled c) (event_serial c) (readings c) (S (handed_out c)) (world c)).

Definition in_failed_transaction : exc := CustomError "InFailedSqlTransaction" EmptyString.

(** A statement that only reads. *)
Definition query {A} (f : lab_tables → A) : M A := λ c,
  if spoiled c then (Exc in_failed_transaction, c) else (Ret (f (seen c)), c).

(** A statement that writes, when the constraints [ok] hold of it. *)
Definition statement (ok : lab_tables → option exc) (f : lab_tables → lab_tables) : M unit := λ c,
  if spoiled c then (Exc in_failed_transaction, c)
  else match ok (seen c) with
       | None => (Ret tt, LabConn (f (seen c)) (durable c) false (event_serial c) (readings c)
                            (handed_out c) (world c))
       | Some e => (Exc e, LabConn (seen c) (durable c) true (event_serial c) (readings c)
                             (handed_out c) (world c))
       end.

(** [nextval] of a [bigserial] column. *)
Definition next_event_id : M Z := λ c,
  if spoiled c then (Exc in_failed_transaction, c)
  else let n := event_serial c + 1 in
       (Ret n, LabConn (seen c) (durable c) false n (readings c) (handed_out c) (world c)).

(** [conn.commit()], [conn.rollback()] *)
Definition lab_commit : M unit := λ c,
  let t := if spoiled c then durable c else seen c in
  (Ret tt, LabConn t t false (event_serial c) (readings c) (handed_out c) (world c)).

Definition lab_rollback : M unit := λ c,
  (Ret tt, LabConn (durable c) (durable c) false (event_serial c) (readings c) (handed_out c) (world c)).

Definition commit_if (commit : bool) : M unit := if commit then lab_commit else mret tt.

(** [with db_pg.connection(...) as conn]: the block commits when it ends and rolls back
    when it raises. *)
Definition with_lab_connection {A} (m : M A) : M A := λ c,
  match m c with
  | (Ret a, c') => (lab_commit ;; mret a) c'
  | (Exc e, c') => (lab_rollback ;; raise e) c'
  end.

(** [try: m except Exception as exc: handler(exc)] *)
Definition try_except {A} (m : M A) (handler : exc → M A) : M A := λ c,
  match m c with
  | (Exc e, c') => handler e c'
  | r => r
  end.

(** [assert x is not None] *)
Definition assert_some {A} (x : option A) : M A :=
  match x with Some a => mret a | None => raise (CustomError "AssertionError" EmptyString) end.

(** An action on Proxmox. *)
Definition outside {A} (m : W → outcome A * W) : M A := λ c,
  let '(o, w) := m (world c) in
  (o, LabConn (seen c) (durable c) (spoiled c) (event_serial c) (readings c) (handed_out c) w).
End connection.

(** ** Constraints *)

Definition lab_fk (lab_id : string) (t : lab_tables) (constraint : string) : option exc :=
  if has_key lab_id (labs t) then None
  else Some (CustomError "ForeignKeyViolation" constraint).

Definition run_fk (run_id : option string) (t : lab_tables) (constraint : string) : option exc :=
  match run_id with
  | None => None
  | Some r => if has_key r (reconcile_runs t) then None
              else Some (CustomError "ForeignKeyViolation" constraint)
  end.

Definition pk `{Countable K} {R} (k : K) (rows : gmap K R) (constraint : string) : option exc :=
  if has_key k rows then Some (IntegrityError constraint) else None.

(** The first violation of several constraints. *)
Definition first_violation (l : list (option exc)) : option exc := head (omap id l).

(** [str(exc)] *)
Definition exc_str (e : exc) : string :=
  match e with
  | ValueError m => m
  | KeyError k => repr_string k
  | CustomError _ m => m
  | IntegrityError c => c
  | TypeError | AttributeError => EmptyString
  end.
