(* ===== verification/LabStore.v ===== *)
(** * Managed labs: the store

    Every operation of [web/managed_labs_pg.py]: labs, their boundaries and the identities
    providers know them by, reservations, reconcile runs, findings, fix actions, snapshots
    and events.  The second part says what a lab consists of. *)

From stdpp Require Import base gmap list strings pretty sorting.
From Stdlib Require Import ZArith Lia Ascii.
From S2P Require Import Prelude Json Text IpNetwork LabData.

#[local] Open Scope Z_scope.

Definition LAB_STATUSES : list string :=
  ["draft"; "reserving"; "validating"; "fixing"; "ready"; "blocked"; "archived"].

(** ** Templates *)

Definition LAB_TEMPLATES : list json := [
  JObj [("id", JStr "standard-hybrid-lab"); ("name", JStr "Standard hybrid lab");
        ("summary", JStr "Desktop and server lab with managed Proxmox network, AD, Entra, and Intune intent.");
        ("defaults", JObj [("name", JStr "Standard Hybrid Lab"); ("short_code", JStr "lab01");
          ("group_tag", JStr "LAB01-Managed"); ("network_cidr", JStr "10.50.20.0/24");
          ("gateway_ip", JStr "10.50.20.1"); ("sdn_zone", JStr "lab01z");
          ("sdn_vnet", JStr "lab01vn"); ("desktop_count", JInt 2); ("server_count", JInt 1);
          ("naming_policy", JStr "{lab_short}-{role}-{index}")]);
        ("intent", JObj [("deployment_model", JStr "hybrid");
          ("identity", JObj [("m365_mode", JStr "managed"); ("ad_mode", JStr "managed")]);
          ("intune", JObj [("enrollment_status_profile", JStr "managed"); ("app_assignments", JStr "managed")]);
          ("ad", JObj [("ou", JStr "managed"); ("gpo", JStr "managed"); ("users_day0", JStr "managed")])])];
  JObj [("id", JStr "cloud-desktop-lab"); ("name", JStr "Cloud desktop lab");
        ("summary", JStr "Cloud-first desktop lab with Proxmox networking and managed Entra/Intune intent.");
        ("defaults", JObj [("name", JStr "Cloud Desktop Lab"); ("short_code", JStr "cld01");
          ("group_tag", JStr "CLD01-Managed"); ("network_cidr", JStr "10.50.30.0/24");
          ("gateway_ip", JStr "10.50.30.1"); ("sdn_zone", JStr "cld01z");
          ("sdn_vnet", JStr "cld01vn"); ("desktop_count", JInt 3); ("server_count", JInt 0);
          ("naming_policy", JStr "{lab_short}-{role}-{index}")]);
        ("intent", JObj [("deployment_model", JStr "cloud_only");
          ("identity", JObj [("m365_mode", JStr "managed"); ("ad_mode", JStr "attached")]);
          ("intune", JObj [("enrollment_status_profile", JStr "managed"); ("app_assignments", JStr "managed")]);
          ("ad", JObj [("ou", JStr "left_alone"); ("gpo", JStr "left_alone");
            ("users_day0", JStr "managed")])])];
  JObj [("id", JStr "server-validation-lab"); ("name", JStr "Server validation lab");
        ("summary", JStr "Mixed server and workstation lab for OSDeploy validation with managed network intent.");
        ("defaults", JObj [("name", JStr "Server Validation Lab"); ("short_code", JStr "srv01");
          ("group_tag", JStr "SRV01-Managed"); ("network_cidr", JStr "10.50.40.0/24");
          ("gateway_ip", JStr "10.50.40.1"); ("sdn_zone", JStr "srv01z");
          ("sdn_vnet", JStr "srv01vn"); ("desktop_count", JInt 1); ("server_count", JInt 2);
          ("naming_policy", JStr "{lab_short}-{role}-{index}")]);
        ("intent", JObj [("deployment_model", JStr "hybrid_server");
          ("identity", JObj [("m365_mode", JStr "managed"); ("ad_mode", JStr "managed")]);
          ("intune", JObj [("enrollment_status_profile", JStr "managed"); ("app_assignments", JStr "managed")]);
          ("ad", JObj [("ou", JStr "managed"); ("gpo", JStr "managed"); ("users_day0", JStr "managed")])])]].

Definition get_lab_template (template_id : string) : outcome (option json) :=
  let candidate := PyStr.strip template_id in
  if decide (candidate = EmptyString) then Ret None
  else match head (filter (λ t, jget "id" t = JStr candidate) LAB_TEMPLATES) with
       | Some t => Ret (Some t)
       | None => Exc (ValueError ("unknown lab template: " +:+ candidate))
       end.

(** ** Names *)

Definition is_slug_char (c : ascii) : bool :=
  let n := N_of_ascii c in bool_decide (97 ≤ n ≤ 122 ∨ 48 ≤ n ≤ 57)%N.

(** [re.sub("[^a-z0-9]+", "-", s)]: [gap] inside of a run already replaced. *)
Fixpoint dashes (gap : bool) (s : string) : string :=
  match s with
  | EmptyString => EmptyString
  | String c s =>
      if is_slug_char c then String c (dashes false s)
      else if gap then dashes true s else String "-" (dashes true s)
  end.

Fixpoint lstrip_dash (s : string) : string :=
  match s with
  | String c s' => if is_char 45 c then lstrip_dash s' else s
  | EmptyString => s
  end.

(** [s.strip("-")] *)
Fixpoint rstrip_dash (s : string) : string :=
  match s with
  | EmptyString => s
  | String c s' =>
      match rstrip_dash s' with
      | EmptyString => if is_char 45 c then EmptyString else String c EmptyString
      | t => String c t
      end
  end.

Fixpoint keep_slug_chars (s : string) : string :=
  match s with
  | EmptyString => EmptyString
  | String c s => if is_slug_char c then String c (keep_slug_chars s) else keep_slug_chars s
  end.

(** [f"{n:03d}"] for a positive number *)
Definition three_digits (n : Z) : string :=
  let s := pretty n in
  (if n <? 10 then "00" else if n <? 100 then "0" else EmptyString) +:+ s.

Section store.
Context `{LabEnv} {W : Type}.

#[local] Notation M := (eff (lab_conn W)).

Definition _slug (value : string) : M string :=
  let cleaned := lstrip_dash (rstrip_dash (dashes false (PyStr.lower (PyStr.strip value)))) in
  if decide (cleaned = EmptyString) then
    id ← _new_id; mret ("lab-" +:+ String.substring 0 8 id)
  else mret cleaned.

Definition _proxmox_sdn_id_part (value : string) : M string :=
  let cleaned := keep_slug_chars (PyStr.lower (PyStr.strip value)) in
  if decide (cleaned = EmptyString) then
    id ← _new_id; mret (String.substring 0 8 id)
  else mret cleaned.

Definition proxmox_sdn_zone_id (short_code : string) : M string :=
  part ← _proxmox_sdn_id_part short_code; mret (String.substring 0 6 part +:+ "z").

Definition proxmox_sdn_vnet_id (short_code : string) : M string :=
  part ← _proxmox_sdn_id_part short_code; mret (String.substring 0 6 part +:+ "vn").

Record network_shape : Type := NetworkShape { ns_zone : string; ns_vnet : string; ns_subnet : string }.

(** [value or compute()] *)
Definition or_compute (value : string) (compute : M string) : M string :=
  if decide (value = EmptyString) then compute else mret value.

Definition _lab_network_shape (l : lab) : M network_shape :=
  let short_code := PyStr.lower (PyStr.strip (lab_short_code l)) in
  zone ← or_compute (PyStr.strip (lab_sdn_zone l)) (proxmox_sdn_zone_id short_code);
  vnet ← or_compute (PyStr.strip (lab_sdn_vnet l)) (proxmox_sdn_vnet_id short_code);
  mret (NetworkShape zone vnet
    (PyStr.or_else (PyStr.strip (lab_sdn_subnet l)) (PyStr.strip (lab_network_cidr l)))).

(** ** Provider identities *)

Definition _normalize_provider_identity_value (value : json) : string :=
  match value with
  | JStr s => PyStr.strip s
  | JBool _ | JInt _ => PyStr.strip (py_str value)
  | JNull | JArr _ | JObj _ => EmptyString
  end.

(** The keys and values of [_provider_identity_rows]. *)
Definition _provider_identity_rows (provider_ids : json) : list (string * string) :=
  match provider_ids with
  | JObj o =>
      filter (λ kv, kv.1 ≠ EmptyString ∧ kv.2 ≠ EmptyString)
        ((λ kv, (PyStr.strip kv.1, _normalize_provider_identity_value kv.2)) <$> o)
  | _ => []
  end.

(** The [UNIQUE (provider, kind, identity_key, identity_value)] of another row. *)
Definition identity_taken (provider kind key value : string) (t : lab_tables) : bool :=
  exists_where (λ x : string * string * provider_identity,
      x.1.2 = key ∧ id_provider x.2 = provider ∧ id_kind x.2 = kind ∧ id_value x.2 = value)
    (identities t).

Definition insert_identity (object_id lab_id provider kind key value : string) : M unit :=
  statement (λ t, first_violation [
      pk (object_id, key) (identities t) "lab_boundary_object_provider_identities_pkey";
      (if identity_taken provider kind key value t
       then Some (IntegrityError "lab_boundary_object_provider_identities_provider_kind_key") else None);
      (if has_key object_id (boundary_objects t) then None
       else Some (CustomError "ForeignKeyViolation" "boundary_object_id_fkey"));
      lab_fk lab_id t "lab_boundary_object_provider_identities_lab_id_fkey"])
    (on_identities <[(object_id, key) := ProviderIdentity lab_id provider kind value]>).

Definition _replace_boundary_object_provider_identities
    (boundary_object_id lab_id provider kind : string) (provider_ids : json) : M unit :=
  statement (λ _, None) (on_identities (filter (λ x, x.1.1 ≠ boundary_object_id))) ;;
  for_each (_provider_identity_rows provider_ids)
    (λ kv, insert_identity boundary_object_id lab_id provider kind kv.1 kv.2).

(** ** Boundaries *)

(** [ORDER BY created_at ASC LIMIT 1] *)
Definition oldest {R} (created_at : R → Z) (rows : list (string * R)) : option (string * R) :=
  head (isort (cmp_on (λ kr, created_at kr.2) cmp_Z) rows).

Definition boundary_is (lab_id provider kind name : string) (b : boundary) : bool :=
  bool_decide (bd_lab_id b = lab_id ∧ bd_provider b = provider ∧ bd_kind b = kind ∧ bd_name b = name).

Definition _find_boundary (lab_id provider kind name : string) : M (option (string * boundary)) :=
  query (λ t, oldest bd_created_at
    (select_where (λ kr, boundary_is lab_id provider kind name kr.2 = true) (boundaries t))).

Definition _find_boundary_object (lab_id provider kind name : string) :
    M (option (string * boundary_object)) :=
  query (λ t, oldest (λ o, bd_created_at (bo_row o))
    (select_where (λ kr, boundary_is lab_id provider kind name (bo_row kr.2) = true)
      (boundary_objects t))).

(** What [upsert_boundary] and [upsert_boundary_object] set. *)
Record boundary_values : Type := BoundaryValues {
  bv_ownership : string;
  bv_source : string;
  bv_desired_state : json;
  bv_actual_state : json;
  bv_provider_ids : json;
  bv_baseline_snapshot_id : option string;
  bv_last_reconcile_status : string
}.

Definition new_boundary (lab_id provider kind name : string) (v : boundary_values) (now : Z) : boundary :=
  Boundary lab_id provider kind name (bv_ownership v) (bv_source v) (jor (bv_provider_ids v) (JObj []))
    (jor (bv_desired_state v) (JObj [])) (jor (bv_actual_state v) (JObj []))
    (bv_baseline_snapshot_id v) (bv_last_reconcile_status v) now now.

Definition updated_boundary (v : boundary_values) (now : Z) (b : boundary) : boundary :=
  Boundary (bd_lab_id b) (bd_provider b) (bd_kind b) (bd_name b) (bv_ownership v) (bv_source v)
    (jor (bv_provider_ids v) (JObj [])) (jor (bv_desired_state v) (JObj []))
    (jor (bv_actual_state v) (JObj []))
    (coalesce (bv_baseline_snapshot_id v) (bd_baseline_snapshot_id b))
    (bv_last_reconcile_status v) (bd_created_at b) now.

Definition upsert_boundary (lab_id provider kind name : string) (v : boundary_values) (commit : bool) :
    M (string * boundary) :=
  existing ← _find_boundary lab_id provider kind name;
  now ← _now;
  row ← match existing with
        | None =>
            id ← _new_id;
            let b := new_boundary lab_id provider kind name v now in
            statement (λ t, first_violation [pk id (boundaries t) "lab_boundaries_pkey";
                                             lab_fk lab_id t "lab_boundaries_lab_id_fkey"])
              (on_boundaries <[id := b]>) ;;
            mret (id, b)
        | Some (id, b) =>
            let b' := updated_boundary v now b in
            statement (λ _, None) (on_boundaries <[id := b']>) ;;
            mret (id, b')
        end;
  commit_if commit ;;
  mret row.

Definition upsert_boundary_object (lab_id boundary_id provider kind name : string)
    (v : boundary_values) (commit : bool) : M (string * boundary_object) :=
  existing ← _find_boundary_object lab_id provider kind name;
  now ← _now;
  row ← match existing with
        | None =>
            id ← _new_id;
            let o := BoundaryObject boundary_id (new_boundary lab_id provider kind name v now) in
            statement (λ t, first_violation [pk id (boundary_objects t) "lab_boundary_objects_pkey";
                        lab_fk lab_id t "lab_boundary_objects_lab_id_fkey";
                        (if has_key boundary_id (boundaries t) then None
                         else Some (CustomError "ForeignKeyViolation" "boundary_id_fkey"))])
              (on_boundary_objects <[id := o]>) ;;
            mret (id, o)
        | Some (id, o) =>
            let o' := BoundaryObject boundary_id (updated_boundary v now (bo_row o)) in
            statement (λ t, if has_key boundary_id (boundaries t) then None
                            else Some (CustomError "ForeignKeyViolation" "boundary_id_fkey"))
              (on_boundary_objects <[id := o']>) ;;
            mret (id, o')
        end;
  _replace_boundary_object_provider_identities row.1 lab_id provider kind (bv_provider_ids v) ;;
  commit_if commit ;;
  mret row.

Definition create_boundary (lab_id provider kind name ownership source : string) (desired_state : json) :
    M (string * boundary) :=
  upsert_boundary lab_id provider kind name
    (BoundaryValues ownership source desired_state JNull JNull None "unknown") true.

Definition create_boundary_object (lab_id boundary_id provider kind name ownership source : string)
    (desired_state provider_ids : json) : M (string * boundary_object) :=
  upsert_boundary_object lab_id boundary_id provider kind name
    (BoundaryValues ownership source desired_state JNull provider_ids None "unknown") true.

End store.

(** * Managed labs: what a lab consists of

    [ensure_lab_boundary_model] writes the boundaries and objects a lab should have,
    [sync_lab_network_current_state] what Proxmox has of them. *)

#[local] Open Scope Z_scope.

(** A dictionary of texts. *)
Definition texts (o : list (string * string)) : json := JObj (prod_map id JStr <$> o).

(** ** An inventory of Proxmox ([web/proxmox_sdn.py], [inventory])

    A dictionary whose [zones] and [vnets] are lists of dictionaries and whose
    [subnets_by_vnet] has such a list for each virtual network. *)

(** [v.get(key, [])] or [v.get(key, []) or []] *)
Definition rows_of (key : string) (v : json) : list json :=
  match jget key v with JArr rows => rows | _ => [] end.

Definition subnet_rows (vnet : string) (inventory : json) : list json :=
  rows_of vnet (jget "subnets_by_vnet" inventory).

(** [str(row.get(key) or "").strip()] *)
Definition text_field (key : string) (row : json) : string :=
  PyStr.strip (py_str (jor (jget key row) (JStr EmptyString))).

(** [str(row.get(key) or row.get("id") or "").strip()] *)
Definition row_name (key : string) (row : json) : string :=
  PyStr.strip (py_str (jor (jget key row) (jor (jget "id" row) (JStr EmptyString)))).

(** [next((row for row in rows if ...), {})] *)
Definition next_row (P : json → bool) (rows : list json) : json :=
  default (JObj []) (head (filter (λ row, P row = true) rows)).

(** The row of a subnet, by any of its three names. *)
Definition is_subnet_row (subnet : string) (row : json) : bool :=
  bool_decide (subnet ∈ [text_field "id" row; text_field "subnet" row; text_field "cidr" row]).

Section boundaries.
Context `{LabEnv} {W : Type}.

#[local] Notation M := (eff (lab_conn W)).

Definition managed (desired_state provider_ids : json) : boundary_values :=
  BoundaryValues "managed" "created" desired_state (JObj []) provider_ids None "unknown".

Definition network_name (l : lab) : string := lab_name l +:+ " Network".
Definition sdn_name (l : lab) : string := lab_name l +:+ " SDN".

(** The desired states of the network objects. *)
Definition subnet_desired (l : lab) : json :=
  texts [("cidr", lab_network_cidr l); ("gateway_ip", lab_gateway_ip l)].
Definition sdn_zone_desired (n : network_shape) : json := texts [("zone", ns_zone n); ("type", "simple")].
Definition sdn_vnet_desired (l : lab) (n : network_shape) : json :=
  texts [("vnet", ns_vnet n); ("zone", ns_zone n); ("alias", lab_name l)].
Definition sdn_subnet_desired (l : lab) (n : network_shape) : json :=
  JObj [("vnet", JStr (ns_vnet n)); ("subnet", JStr (ns_subnet n));
        ("gateway", JStr (lab_gateway_ip l)); ("snat", JBool true)].
Definition sdn_subnet_ids (n : network_shape) : json :=
  texts [("vnet", ns_vnet n); ("subnet", ns_subnet n)].

Definition naming_policy (l : lab) : string :=
  py_str (jor (jget "naming_policy" (jor (lab_desired_state l) (JObj []))) (JStr "{lab_short}-{role}-{index}")).

(** A boundary of the directory services with its one object. *)
Definition ensure_service (lab_id : string) (l : lab) (provider kind title object_kind : string) : M unit :=
  let desired := texts [("group_tag", lab_group_tag l); ("mode", "modeled")] in
  b ← upsert_boundary lab_id provider kind (lab_name l +:+ title) (managed desired JNull) false;
  upsert_boundary_object lab_id b.1 provider object_kind (lab_group_tag l)
    (managed desired (texts [("group_tag", lab_group_tag l)])) false ;;
  mret tt.

Definition ensure_lab_boundary_model (lab_id : string) (l : lab) (commit : bool) : M unit :=
  network ← _lab_network_shape l;
  network_boundary ← upsert_boundary lab_id "network" "reservation" (network_name l)
    (managed (texts [("cidr", lab_network_cidr l); ("gateway_ip", lab_gateway_ip l);
                     ("mode", lab_network_mode l)]) JNull) false;
  upsert_boundary_object lab_id network_boundary.1 "network" "subnet" (lab_network_cidr l)
    (managed (subnet_desired l) (texts [("cidr", lab_network_cidr l)])) false ;;
  proxmox_boundary ← upsert_boundary lab_id "proxmox" "network" (sdn_name l)
    (managed (texts [("mode", lab_network_mode l); ("zone", ns_zone network); ("vnet", ns_vnet network);
                     ("subnet", ns_subnet network); ("gateway", lab_gateway_ip l)]) JNull) false;
  upsert_boundary_object lab_id proxmox_boundary.1 "proxmox" "sdn_zone" (ns_zone network)
    (managed (sdn_zone_desired network) (texts [("zone", ns_zone network)])) false ;;
  upsert_boundary_object lab_id proxmox_boundary.1 "proxmox" "sdn_vnet" (ns_vnet network)
    (managed (sdn_vnet_desired l network) (texts [("vnet", ns_vnet network)])) false ;;
  upsert_boundary_object lab_id proxmox_boundary.1 "proxmox" "sdn_subnet" (ns_subnet network)
    (managed (sdn_subnet_desired l network) (sdn_subnet_ids network)) false ;;
  ensure_service lab_id l "ad" "directory" " AD" "group" ;;
  ensure_service lab_id l "entra" "identity" " Entra" "device_group" ;;
  ensure_service lab_id l "intune" "endpoint_management" " Intune" "autopilot_profile" ;;
  let pattern := texts [("pattern", naming_policy l); ("short_code", lab_short_code l)] in
  deployment_boundary ← upsert_boundary lab_id "deployment" "naming" (lab_name l +:+ " Naming")
    (managed pattern JNull) false;
  upsert_boundary_object lab_id deployment_boundary.1 "deployment" "naming_policy"
    (lab_short_code l +:+ "-naming-policy")
    (managed pattern (texts [("short_code", lab_short_code l)])) false ;;
  commit_if commit.

(** What [sync_lab_network_current_state] writes into an object of the network. *)
Definition observed (status : string) (desired_state actual_state provider_ids : json) : boundary_values :=
  BoundaryValues "managed" "created" desired_state actual_state provider_ids None status.

(** A boundary keeps everything but what was observed of it. *)
Definition reobserved (status : string) (actual_state : json) (b : boundary) : boundary_values :=
  BoundaryValues (bd_ownership b) (bd_source b) (bd_desired_state b) actual_state (bd_provider_ids b)
    (bd_baseline_snapshot_id b) status.

(** [{"zone": zone_row, ...}] of the rows that were found *)
Definition found_rows (o : list (string * json)) : json := JObj (filter (λ kv, truthy kv.2 = true) o).

Definition sync_lab_network_current_state (lab_id : string) (l : lab) (inventory : json)
    (status : string) (commit : bool) : M unit :=
  ensure_lab_boundary_model lab_id l false ;;
  network ← _lab_network_shape l;
  let zone_row := next_row (λ row, bool_decide (row_name "zone" row = ns_zone network))
                    (rows_of "zones" inventory) in
  let vnet_row := next_row (λ row, bool_decide (row_name "vnet" row = ns_vnet network))
                    (rows_of "vnets" inventory) in
  let subnet_row := next_row (is_subnet_row (ns_subnet network))
                      (subnet_rows (ns_vnet network) inventory) in
  found ← _find_boundary lab_id "network" "reservation" (network_name l);
  network_boundary ← assert_some found;
  let active := texts [("cidr", lab_network_cidr l); ("gateway_ip", lab_gateway_ip l); ("status", "active")] in
  upsert_boundary lab_id "network" "reservation" (bd_name network_boundary.2)
    (reobserved status active network_boundary.2) false ;;
  upsert_boundary_object lab_id network_boundary.1 "network" "subnet" (lab_network_cidr l)
    (observed status (subnet_desired l) active (texts [("cidr", lab_network_cidr l)])) false ;;
  found ← _find_boundary lab_id "proxmox" "network" (sdn_name l);
  proxmox_boundary ← assert_some found;
  upsert_boundary lab_id "proxmox" "network" (bd_name proxmox_boundary.2)
    (reobserved status (found_rows [("zone", zone_row); ("vnet", vnet_row); ("subnet", subnet_row)])
      proxmox_boundary.2) false ;;
  upsert_boundary_object lab_id proxmox_boundary.1 "proxmox" "sdn_zone" (ns_zone network)
    (observed status (sdn_zone_desired network) zone_row (texts [("zone", ns_zone network)])) false ;;
  upsert_boundary_object lab_id proxmox_boundary.1 "proxmox" "sdn_vnet" (ns_vnet network)
    (observed status (sdn_vnet_desired l network) vnet_row (texts [("vnet", ns_vnet network)])) false ;;
  upsert_boundary_object lab_id proxmox_boundary.1 "proxmox" "sdn_subnet" (ns_subnet network)
    (observed status (sdn_subnet_desired l network) subnet_row (sdn_subnet_ids network)) false ;;
  commit_if commit.
End boundaries.
