(* ===== verification/LabRecords.v ===== *)
(** * Managed labs: labs, reservations and what reconciling records

    The second half of [web/managed_labs_pg.py]. *)

From stdpp Require Import base gmap list strings pretty sorting.
From Stdlib Require Import ZArith Lia Ascii.
From S2P Require Import Prelude Json Text IpNetwork LabData LabStore.

#[local] Open Scope Z_scope.

(** What a lab is created from. *)
Record lab_body : Type := LabBody {
  lb_name : string;
  lb_short_code : string;
  lb_group_tag : string;
  lb_network_cidr : string;
  lb_gateway_ip : string;
  lb_network_mode : string;
  lb_sdn_zone : string;
  lb_sdn_vnet : string;
  lb_sdn_subnet : string;
  lb_template_id : string;
  lb_desktop_count : option Z;
  lb_server_count : option Z
}.

(** Equal as [jsonb]: whatever the order of the keys. *)
Definition jsonb_eq (a b : json) : bool := bool_decide (stable_json_value a = stable_json_value b).

Section records.
Context `{LabEnv} {W : Type}.

#[local] Notation M := (eff (lab_conn W)).

(** ** Events *)

Definition record_event (lab_id event_type actor detail : string) (payload : json) (commit : bool) :
    M (Z * lab_event) :=
  now ← _now;
  id ← next_event_id;
  let e := LabEvent lab_id event_type actor detail (jor payload (JObj [])) now in
  statement (λ t, first_violation [pk id (lab_events t) "lab_events_pkey";
                                   lab_fk lab_id t "lab_events_lab_id_fkey"])
    (on_lab_events <[id := e]>) ;;
  commit_if commit ;;
  mret (id, e).

(** ** Labs *)

(** [int(count if count is not None else template_default or 0)] *)
Definition resolved_count (count : option Z) (template_default : json) : outcome Z :=
  match count with
  | Some n => Ret n
  | None => py_int (jor template_default (JInt 0))
  end.

Definition lab_desired (b : lab_body) (template : option json) (policy : string) (desktops servers : Z)
    (zone vnet subnet : string) : json :=
  let intent := jor (jget "intent" (default JNull template)) (JObj []) in
  JObj [("template_id", default (JStr EmptyString) (jget "id" <$> template));
        ("template_name", default (JStr "Custom lab") (jget "name" <$> template));
        ("naming_policy", JStr policy);
        ("device_counts", JObj [("desktop", JInt desktops); ("server", JInt servers)]);
        ("network", texts [("mode", lb_network_mode b); ("cidr", lb_network_cidr b);
           ("gateway_ip", lb_gateway_ip b); ("sdn_zone", zone); ("sdn_vnet", vnet); ("sdn_subnet", subnet)]);
        ("deployment", JObj [("model", match jget "deployment_model" intent with
                                       | JNull => JStr "custom" | v => v end)]);
        ("identity", jor (jget "identity" intent) (texts [("m365_mode", "modeled"); ("ad_mode", "modeled")]));
        ("intune", jor (jget "intune" intent)
           (texts [("enrollment_status_profile", "modeled"); ("app_assignments", "modeled")]));
        ("ad", jor (jget "ad" intent) (texts [("ou", "modeled"); ("gpo", "modeled"); ("users_day0", "modeled")]))].

Definition insert_lab (id : string) (l : lab) : M unit :=
  statement (λ t, first_violation [pk id (labs t) "labs_pkey";
      (if exists_where (λ kr, lab_slug kr.2 = lab_slug l) (labs t)
       then Some (IntegrityError "labs_slug_key") else None)])
    (on_labs <[id := l]>).

Definition create_lab (b : lab_body) (commit : bool) : M (string * lab) :=
  now ← _now;
  lab_id ← _new_id;
  template ← lift_outcome (get_lab_template (lb_template_id b));
  let defaults := jor (jget "defaults" (default JNull template)) (JObj []) in
  let short_code := PyStr.lower (PyStr.strip (lb_short_code b)) in
  zone ← or_compute (PyStr.strip (lb_sdn_zone b)) (proxmox_sdn_zone_id short_code);
  vnet ← or_compute (PyStr.strip (lb_sdn_vnet b)) (proxmox_sdn_vnet_id short_code);
  let subnet := PyStr.strip (PyStr.or_else (lb_sdn_subnet b) (lb_network_cidr b)) in
  desktops ← lift_outcome (resolved_count (lb_desktop_count b) (jget "desktop_count" defaults));
  servers ← lift_outcome (resolved_count (lb_server_count b) (jget "server_count" defaults));
  (if (desktops <? 0) || (servers <? 0)
   then raise (ValueError "device counts must be zero or greater") else mret tt) ;;
  let policy := py_str (jor (jget "naming_policy" defaults) (JStr "{lab_short}-{role}-{index}")) in
  slug ← _slug (lb_name b);
  let l := Lab (PyStr.strip (lb_name b)) slug short_code (PyStr.strip (lb_group_tag b)) "draft"
             (PyStr.strip (lb_network_cidr b)) (PyStr.strip (lb_gateway_ip b))
             (PyStr.or_else (PyStr.strip (lb_network_mode b)) "sdn") zone vnet subnet 0 None
             (lab_desired b template policy desktops servers zone vnet subnet) now now in
  insert_lab lab_id l ;;
  ensure_lab_boundary_model lab_id l false ;;
  record_event lab_id "lab_created" "system" ("Created lab " +:+ lb_name b) JNull false ;;
  commit_if commit ;;
  mret (lab_id, l).

Definition get_lab (lab_id : string) : M (option lab) := query (λ t, labs t !! lab_id).

(** A run that disappears is cleared from the rows that mention it. *)
Definition clear_run (gone : string → bool) (r : option string) : option string :=
  match r with Some i => if gone i then None else Some i | None => None end.

(** [DELETE FROM labs] with its cascade. *)
Definition delete_lab_rows (lab_id : string) (t : lab_tables) : lab_tables :=
  let gone_run i := match reconcile_runs t !! i with
                    | Some r => bool_decide (rr_lab_id r = lab_id) | None => false end in
  let gone_boundary i := match boundaries t !! i with
                         | Some b => bool_decide (bd_lab_id b = lab_id) | None => false end in
  let gone_object i := match boundary_objects t !! i with
                       | Some o => bool_decide (bd_lab_id (bo_row o) = lab_id) || gone_boundary (bo_boundary_id o)
                       | None => false end in
  LabTables (delete lab_id (labs t))
    (filter (λ kr, bd_lab_id kr.2 ≠ lab_id) (boundaries t))
    (filter (λ kr, bd_lab_id (bo_row kr.2) ≠ lab_id ∧ gone_boundary (bo_boundary_id kr.2) = false)
      (boundary_objects t))
    (filter (λ kr, id_lab_id kr.2 ≠ lab_id ∧ gone_object kr.1.1 = false) (identities t))
    (filter (λ kr, rv_lab_id kr.2 ≠ lab_id) (reservations t))
    (filter (λ kr, rr_lab_id kr.2 ≠ lab_id) (reconcile_runs t))
    ((λ f, ReconcileFinding (fd_lab_id f) (clear_run gone_run (fd_run_id f)) (fd_provider f) (fd_type f)
             (fd_severity f) (fd_status f) (fd_detail f) (fd_object_ref f) (fd_desired_state f)
             (fd_actual_state f) (fd_created_at f) (fd_updated_at f)) <$>
      filter (λ kr, fd_lab_id kr.2 ≠ lab_id) (findings t))
    ((λ f, FixAction (fx_lab_id f) (clear_run gone_run (fx_run_id f)) (fx_provider f) (fx_action_type f)
             (fx_status f) (fx_priority f) (fx_detail f) (fx_request f) (fx_result f) (fx_snapshot_id f)
             (fx_created_at f) (fx_updated_at f) (fx_completed_at f)) <$>
      filter (λ kr, fx_lab_id kr.2 ≠ lab_id) (fix_actions t))
    (filter (λ kr, sn_lab_id kr.2 ≠ lab_id) (snapshots t))
    (filter (λ kr, le_lab_id kr.2 ≠ lab_id) (lab_events t)).

Definition delete_lab (lab_id : string) : M bool :=
  existed ← query (λ t, has_key lab_id (labs t));
  statement (λ _, None) (delete_lab_rows lab_id) ;;
  lab_commit ;;
  mret existed.

Definition list_labs : M (list (string * lab)) :=
  query (λ t, isort (cmp_then (cmp_desc (cmp_on (λ kr, lab_created_at kr.2) cmp_Z))
                      (cmp_on (λ kr, lab_name kr.2) cmp_str)) (map_to_list (labs t))).

(** ** Reservations *)

(** [UNIQUE(reservation_type, value)] finds at most one row. *)
Definition reservation_of (reservation_type value : string) (t : lab_tables) :
    option (string * reservation) :=
  head (select_where (λ kr, rv_type kr.2 = reservation_type ∧ rv_value kr.2 = value) (reservations t)).

(** [INSERT ... ON CONFLICT (reservation_type, value) DO UPDATE ... WHERE lab_id is the same
    RETURNING *] *)
Definition upsert_reservation (id lab_id reservation_type value : string) (metadata : json) (now : Z) :
    M (option (string * reservation)) :=
  existing ← query (reservation_of reservation_type value);
  match existing with
  | None =>
      let r := Reservation lab_id reservation_type value "active" (jor metadata (JObj [])) now now in
      statement (λ t, first_violation [pk id (reservations t) "lab_reservations_pkey";
                                       lab_fk lab_id t "lab_reservations_lab_id_fkey"])
        (on_reservations <[id := r]>) ;;
      mret (Some (id, r))
  | Some (rid, r) =>
      if decide (rv_lab_id r = lab_id) then
        let r' := Reservation lab_id reservation_type value "active"
                    (match metadata with JNull => rv_metadata r | m => m end) (rv_created_at r) now in
        statement (λ _, None) (on_reservations <[rid := r']>) ;;
        mret (Some (rid, r'))
      else mret None
  end.

Definition reserve_value (lab_id reservation_type value : string) (metadata : json) (commit : bool) :
    M (string * reservation) :=
  let normalized_value := PyStr.strip value in
  now ← _now;
  id ← _new_id;
  row ← upsert_reservation id lab_id reservation_type normalized_value metadata now;
  match row with
  | None =>
      existing ← query (reservation_of reservation_type normalized_value);
      if match existing with Some kr => bool_decide (rv_lab_id kr.2 ≠ lab_id) | None => false end
      then raise (ValueError ("reservation " +:+ reservation_type +:+ ":" +:+ normalized_value +:+
                              " is already reserved by another lab"))
      else raise (ValueError ("reservation " +:+ reservation_type +:+ ":" +:+ normalized_value +:+
                              " could not be reserved"))
  | Some r => commit_if commit ;; mret r
  end.

Definition hostname (short_code role : string) (index : Z) : string :=
  PyStr.lower (PyStr.strip short_code) +:+ "-" +:+ PyStr.lower (PyStr.strip role) +:+ "-" +:+ three_digits index.

(** The loop of [reserve_default_names], over the indices. *)
Fixpoint reserve_names (lab_id short_code role : string) (indices : list Z) : M (list (string * reservation)) :=
  match indices with
  | [] => mret []
  | index :: indices =>
      let value := hostname short_code role index in
      (if (15 <? String.length value)%nat
       then raise (ValueError ("generated Windows hostname exceeds 15 characters: " +:+ value))
       else mret tt) ;;
      row ← reserve_value lab_id "hostname" value (JObj [("role", JStr role); ("index", JInt index)]) false;
      rows ← reserve_names lab_id short_code role indices;
      mret (row :: rows)
  end.

Definition reserve_default_names (lab_id short_code role : string) (count : Z) (commit : bool) :
    M (list (string * reservation)) :=
  rows ← reserve_names lab_id short_code role (seqZ 1 count);
  commit_if commit ;;
  mret rows.

Definition overlapping (requested : network) (kr : string * reservation) : outcome bool :=
  existing ← ip_network (rv_value kr.2); Ret (overlaps requested existing).

Fixpoint filter_outcome {A} (f : A → outcome bool) (l : list A) : outcome (list A) :=
  match l with
  | [] => Ret []
  | x :: l => b ← f x; rest ← filter_outcome f l; Ret (if b : bool then x :: rest else rest)
  end.

Definition active_cidrs (t : lab_tables) : list (string * reservation) :=
  isort (cmp_on (λ kr, rv_created_at kr.2) cmp_Z)
    (select_where (λ kr, rv_type kr.2 = "cidr" ∧ rv_status kr.2 = "active") (reservations t)).

(** [exclude_lab_id and mapped["lab_id"] == exclude_lab_id] *)
Definition excluded (exclude_lab_id : string) (kr : string * reservation) : bool :=
  bool_decide (exclude_lab_id ≠ EmptyString ∧ rv_lab_id kr.2 = exclude_lab_id).

Definition find_overlapping_cidr_reservations (cidr exclude_lab_id : string) :
    M (list (string * reservation)) :=
  requested ← lift_outcome (ip_network cidr);
  rows ← query active_cidrs;
  lift_outcome (filter_outcome (overlapping requested)
    (filter (λ kr, excluded exclude_lab_id kr = false) rows)).

(** ** Reconcile runs *)

Definition set_lab_run (status : string) (retry_count : Z → Z) (run_id : string) (now : Z) (l : lab) : lab :=
  Lab (lab_name l) (lab_slug l) (lab_short_code l) (lab_group_tag l) status (lab_network_cidr l)
    (lab_gateway_ip l) (lab_network_mode l) (lab_sdn_zone l) (lab_sdn_vnet l) (lab_sdn_subnet l)
    (retry_count (lab_retry_count l)) (Some run_id) (lab_desired_state l) (lab_created_at l) now.

Definition start_reconcile_run (lab_id : string) (attempt : Z) : M (string * reconcile_run) :=
  now ← _now;
  run_id ← _new_id;
  let r := ReconcileRun lab_id "running" attempt now None EmptyString in
  statement (λ t, first_violation [pk run_id (reconcile_runs t) "lab_reconcile_runs_pkey";
                                   lab_fk lab_id t "lab_reconcile_runs_lab_id_fkey"])
    (on_reconcile_runs <[run_id := r]>) ;;
  statement (λ _, None) (on_labs (alter (set_lab_run "validating" id run_id now) lab_id)) ;;
  record_event lab_id "reconcile_started" "reconciler" EmptyString
    (JObj [("run_id", JStr run_id); ("attempt", JInt attempt)]) true ;;
  lab_commit ;;
  mret (run_id, r).

Definition _lab_status_from_reconcile_status (status : string) (attempt : Z) : string :=
  if decide (status = "failed") then if 5 <=? attempt then "blocked" else "validating"
  else if decide (status ∈ LAB_STATUSES) then status else "validating".

Definition finish_reconcile_run (run_id status summary : string) : M (string * reconcile_run) :=
  now ← _now;
  statement (λ _, None) (on_reconcile_runs (alter (λ r,
    ReconcileRun (rr_lab_id r) status (rr_attempt r) (rr_started_at r) (Some now) summary) run_id)) ;;
  row ← query (λ t, reconcile_runs t !! run_id);
  r ← assert_some row;
  statement (λ _, None) (on_labs (alter
    (set_lab_run (_lab_status_from_reconcile_status status (rr_attempt r)) (λ _, rr_attempt r) run_id now)
    (rr_lab_id r))) ;;
  record_event (rr_lab_id r) "reconcile_finished" "reconciler" summary
    (texts [("run_id", run_id); ("status", status)]) true ;;
  lab_commit ;;
  mret (run_id, r).

(** ** Findings *)

Definition record_finding (lab_id : string) (reconcile_run_id : option string)
    (provider finding_type severity detail : string) (object_ref desired_state actual_state : json)
    (status : string) (commit : bool) : M (string * reconcile_finding) :=
  now ← _now;
  id ← _new_id;
  let f := ReconcileFinding lab_id reconcile_run_id provider finding_type severity status detail
             (jor object_ref (JObj [])) (jor desired_state (JObj [])) (jor actual_state (JObj [])) now now in
  statement (λ t, first_violation [pk id (findings t) "lab_reconcile_findings_pkey";
                                   lab_fk lab_id t "lab_reconcile_findings_lab_id_fkey";
                                   run_fk reconcile_run_id t "lab_reconcile_findings_reconcile_run_id_fkey"])
    (on_findings <[id := f]>) ;;
  record_event lab_id "finding_recorded" "reconciler" detail
    (texts [("finding_type", finding_type); ("severity", severity); ("status", status)]) false ;;
  commit_if commit ;;
  mret (id, f).

Definition set_finding_status (status : string) (now : Z) (f : reconcile_finding) : reconcile_finding :=
  ReconcileFinding (fd_lab_id f) (fd_run_id f) (fd_provider f) (fd_type f) (fd_severity f) status
    (fd_detail f) (fd_object_ref f) (fd_desired_state f) (fd_actual_state f) (fd_created_at f) now.

Definition resolve_open_finding (lab_id provider finding_type : string) (commit : bool) : M unit :=
  now ← _now;
  statement (λ _, None) (on_findings (update_where (λ kr,
    fd_lab_id kr.2 = lab_id ∧ fd_provider kr.2 = provider ∧ fd_type kr.2 = finding_type ∧
    fd_status kr.2 = "open") (set_finding_status "resolved" now))) ;;
  commit_if commit.

Definition list_open_findings (lab_id : string) : M (list (string * reconcile_finding)) :=
  query (λ t, isort (cmp_desc (cmp_on (λ kr, fd_created_at kr.2) cmp_Z))
    (select_where (λ kr, fd_lab_id kr.2 = lab_id ∧ fd_status kr.2 = "open") (findings t))).

(** ** Fix actions *)

(** [ORDER BY priority ASC, created_at ASC] *)
Definition fix_order : string * fix_action → string * fix_action → comparison :=
  cmp_then (cmp_on (λ kr, fx_priority kr.2) cmp_Z) (cmp_on (λ kr, fx_created_at kr.2) cmp_Z).

Definition create_fix_action (lab_id : string) (reconcile_run_id : option string)
    (provider action_type : string) (priority : Z) (detail : string) (request : json) (commit : bool) :
    M (string * fix_action) :=
  now ← _now;
  existing ← query (λ t, head (isort fix_order (select_where (λ kr,
      fx_lab_id kr.2 = lab_id ∧ fx_provider kr.2 = provider ∧ fx_action_type kr.2 = action_type ∧
      fx_status kr.2 = "pending" ∧ jsonb_eq (fx_request kr.2) request = true) (fix_actions t))));
  row ← match existing with
        | None =>
            id ← _new_id;
            let f := FixAction lab_id reconcile_run_id provider action_type "pending" priority detail
                       request (JObj []) None now now None in
            statement (λ t, first_violation [pk id (fix_actions t) "lab_fix_actions_pkey";
                         lab_fk lab_id t "lab_fix_actions_lab_id_fkey";
                         run_fk reconcile_run_id t "lab_fix_actions_reconcile_run_id_fkey"])
              (on_fix_actions <[id := f]>) ;;
            mret (id, f)
        | Some (id, f) =>
            let f' := FixAction (fx_lab_id f) reconcile_run_id (fx_provider f) (fx_action_type f)
                        (fx_status f) priority detail (fx_request f) (fx_result f) (fx_snapshot_id f)
                        (fx_created_at f) now (fx_completed_at f) in
            statement (λ t, run_fk reconcile_run_id t "lab_fix_actions_reconcile_run_id_fkey")
              (on_fix_actions <[id := f']>) ;;
            mret (id, f')
        end;
  record_event lab_id "fix_action_created" "reconciler" detail (texts [("action_type", action_type)]) false ;;
  commit_if commit ;;
  mret row.

Definition get_fix_action (fix_action_id : string) : M (option fix_action) :=
  query (λ t, fix_actions t !! fix_action_id).

Definition terminal (status : string) : bool := bool_decide (status ∈ ["fixed"; "failed"; "blocked"]).

(** [snapshot_id or existing.get("snapshot_id")] *)
Definition effective_snapshot (snapshot_id existing : option string) : option string :=
  match snapshot_id with
  | Some (String _ _) => snapshot_id
  | _ => match existing with Some (String _ _) => existing | _ => None end
  end.

Definition settled_fix (status : string) (result : option json) (snapshot_id : option string) (now : Z)
    (f : fix_action) : fix_action :=
  FixAction (fx_lab_id f) (fx_run_id f) (fx_provider f) (fx_action_type f) status (fx_priority f)
    (fx_detail f) (fx_request f) (default (fx_result f) result) (coalesce snapshot_id (fx_snapshot_id f))
    (fx_created_at f) now (if terminal status then Some now else fx_completed_at f).

Definition update_fix_action (fix_action_id status : string) (result : option json)
    (snapshot_id : option string) : M (string * fix_action) :=
  existing ← get_fix_action fix_action_id;
  match existing with
  | None => raise (ValueError ("fix action not found: " +:+ fix_action_id))
  | Some f =>
      if terminal status && bool_decide (effective_snapshot snapshot_id (fx_snapshot_id f) = None)
      then raise (ValueError "snapshot_id is required for terminal status")
      else
        now ← _now;
        let f' := settled_fix status result snapshot_id now f in
        statement (λ _, None) (on_fix_actions <[fix_action_id := f']>) ;;
        record_event (fx_lab_id f') "fix_action_updated" "reconciler" (fx_detail f')
          (texts [("action_type", fx_action_type f'); ("status", status)]) true ;;
        lab_commit ;;
        mret (fix_action_id, f')
  end.

Definition list_fix_actions (statuses : list string) (lab_id : string) : M (list (string * fix_action)) :=
  query (λ t, isort fix_order
    (select_where (λ kr, fx_lab_id kr.2 = lab_id ∧ fx_status kr.2 ∈ statuses) (fix_actions t))).

Definition list_pending_fix_actions : string → M (list (string * fix_action)) :=
  list_fix_actions ["pending"].

Definition current_statuses : list string := ["pending"; "failed"; "blocked"; "running"].

Definition list_current_fix_actions : string → M (list (string * fix_action)) :=
  list_fix_actions current_statuses.

Definition superseded_fix (now : Z) (f : fix_action) : fix_action :=
  FixAction (fx_lab_id f) (fx_run_id f) (fx_provider f) (fx_action_type f) "superseded" (fx_priority f)
    (fx_detail f) (fx_request f) (fx_result f) (fx_snapshot_id f) (fx_created_at f) now
    (coalesce (fx_completed_at f) (Some now)).

Definition clear_current_reconcile_state (lab_id : string) (providers : list string) (commit : bool) : M unit :=
  now ← _now;
  statement (λ _, None) (on_findings (update_where (λ kr,
    fd_lab_id kr.2 = lab_id ∧ fd_status kr.2 = "open" ∧ fd_provider kr.2 ∈ providers)
    (set_finding_status "resolved" now))) ;;
  statement (λ _, None) (on_fix_actions (update_where (λ kr,
    fx_lab_id kr.2 = lab_id ∧ fx_status kr.2 ∈ current_statuses ∧ fx_provider kr.2 ∈ providers)
    (superseded_fix now))) ;;
  commit_if commit.

(** ** Snapshots *)

Definition record_provider_snapshot (lab_id provider snapshot_type : string) (object_ref snapshot : json) :
    M (string * provider_snapshot) :=
  id ← _new_id;
  now ← _now;
  let s := ProviderSnapshot lab_id provider snapshot_type object_ref snapshot now in
  statement (λ t, first_violation [pk id (snapshots t) "lab_provider_snapshots_pkey";
                                   lab_fk lab_id t "lab_provider_snapshots_lab_id_fkey"])
    (on_snapshots <[id := s]>) ;;
  lab_commit ;;
  mret (id, s).

Definition sync_proxmox_network_actual_state (lab_id : string) (inventory : json)
    (reconcile_status : string) (commit : bool) : M unit :=
  l ← get_lab lab_id;
  match l with
  | None => raise (ValueError ("lab not found: " +:+ lab_id))
  | Some l => sync_lab_network_current_state lab_id l inventory reconcile_status commit
  end.

(** ** The page *)

Record lab_page : Type := LabPage {
  pg_labs : list (string * lab);
  pg_selected : option (string * lab);
  pg_boundaries : list (string * boundary);
  pg_objects : list (string * boundary_object);
  pg_reservations : list (string * reservation);
  pg_runs : list (string * reconcile_run);
  pg_findings : list (string * reconcile_finding);
  pg_fix_actions : list (string * fix_action);
  pg_events : list (Z * lab_event)
}.

Definition _recent_events (lab_id : string) (limit : nat) : M (list (Z * lab_event)) :=
  query (λ t, take limit (isort (cmp_then (cmp_desc (cmp_on (λ kr, le_created_at kr.2) cmp_Z))
                                   (cmp_desc (cmp_on fst cmp_Z)))
    (select_where (λ kr, le_lab_id kr.2 = lab_id) (lab_events t)))).

(** [_list_lab_rows] *)
Definition _list_lab_rows {R} (table : lab_tables → gmap string R) (row_lab : R → string)
    (order : string * R → string * R → comparison) (lab_id : string) : M (list (string * R)) :=
  query (λ t, isort order (select_where (λ kr, row_lab kr.2 = lab_id) (table t))).

(** [created_at DESC, name ASC] *)
Definition newest_by_name {R} (created_at : R → Z) (name : R → string) :
    string * R → string * R → comparison :=
  cmp_then (cmp_desc (cmp_on (λ kr, created_at kr.2) cmp_Z)) (cmp_on (λ kr, name kr.2) cmp_str).

Definition page_payload (selected_lab_id : option string) : M lab_page :=
  rows ← list_labs;
  chosen ← match selected_lab_id with
           | Some (String _ _ as i) => l ← get_lab i; mret ((i,.) <$> l)
           | _ => mret None
           end;
  let selected := match chosen with Some kr => Some kr | None => head rows end in
  match selected with
  | None => mret (LabPage rows None [] [] [] [] [] [] [])
  | Some (lab_id, _) =>
      bs ← _list_lab_rows boundaries bd_lab_id (newest_by_name bd_created_at bd_name) lab_id;
      os ← _list_lab_rows boundary_objects (λ o, bd_lab_id (bo_row o))
             (newest_by_name (λ o, bd_created_at (bo_row o)) (λ o, bd_name (bo_row o))) lab_id;
      rs ← _list_lab_rows reservations rv_lab_id
             (cmp_then (cmp_desc (cmp_on (λ kr, rv_created_at kr.2) cmp_Z))
               (cmp_then (cmp_on (λ kr, rv_type kr.2) cmp_str) (cmp_on (λ kr, rv_value kr.2) cmp_str)))
             lab_id;
      runs ← _list_lab_rows reconcile_runs rr_lab_id
             (cmp_then (cmp_desc (cmp_on (λ kr, rr_started_at kr.2) cmp_Z)) (cmp_desc (cmp_on fst cmp_str)))
             lab_id;
      fs ← list_open_findings lab_id;
      fixes ← list_current_fix_actions lab_id;
      evs ← _recent_events lab_id 20;
      mret (LabPage rows selected bs os rs runs fs fixes evs)
  end.
End records.
