(* ===== verification/LabNetwork.v ===== *)
(** * Managed labs: executing fix actions

    [web/managed_labs_network.py]: a pending action is executed once, after a snapshot of
    the inventory has been recorded, and settled by what the inventory shows afterwards. *)

From stdpp Require Import base gmap list strings pretty sorting.
From Stdlib Require Import ZArith Lia Ascii.
From S2P Require Import Prelude Json Text ProxmoxSdn LabData LabStore LabRecords.

#[local] Open Scope Z_scope.

Definition SUPPORTED_ACTIONS : list string :=
  ["create_sdn_zone"; "create_sdn_vnet"; "create_sdn_subnet"; "apply_sdn"].

Definition ACTION_FINDING_TYPES (action_type : string) : option string :=
  assoc action_type [("create_sdn_zone", "sdn_zone_missing"); ("create_sdn_vnet", "sdn_vnet_missing");
                     ("create_sdn_subnet", "sdn_subnet_missing")].

(** [str(request.get(key) or "").strip()] is [text_field key request]. *)

(** The names of one row: the set [_ids] of a list is the union of them. *)
Definition row_ids (keys : list string) (row : json) : list string :=
  omap (λ key, match jget key row with
               | JNull => None
               | v => let s := PyStr.strip (py_str v) in if decide (s = EmptyString) then None else Some s
               end) ("id" :: keys).

Definition _ids (rows : list json) (keys : list string) : list string := rows ≫= row_ids keys.

Definition in_ids (name : string) (rows : list json) (keys : list string) : bool :=
  bool_decide (name ∈ _ids rows keys).

Definition _subnet_exists (inventory : json) (vnet subnet : string) : bool :=
  in_ids subnet (subnet_rows vnet inventory) ["subnet"; "cidr"].

Definition _lock_token_from_response (lock : json) : string :=
  match lock with
  | JStr s => PyStr.strip s
  | JObj _ =>
      PyStr.strip (py_str (jor (jget "lock-token" lock) (jor (jget "lock" lock)
        (jor (jget "lock_token" lock) (jor (jget "token" lock) (jor (jget "data" lock) (JStr EmptyString)))))))
  | _ => EmptyString
  end.

(** [value or '<empty>'] *)
Definition or_empty (s : string) : string := PyStr.or_else s "<empty>".

Definition _validate_fix_scope (f : fix_action) : outcome (string * string * json) :=
  let provider := PyStr.strip (fx_provider f) in
  let status := PyStr.strip (fx_status f) in
  let action_type := PyStr.strip (fx_action_type f) in
  if decide (provider ≠ "proxmox") then Exc (ValueError ("unsupported provider: " +:+ or_empty provider))
  else if decide (status ≠ "pending") then Exc (ValueError ("unsupported status: " +:+ or_empty status))
  else if decide (action_type ∉ SUPPORTED_ACTIONS)
  then Exc (ValueError ("unsupported action type: " +:+ or_empty action_type))
  else Ret (fx_lab_id f, action_type, jor (fx_request f) (JObj [])).

Definition already_present (action_type detail : string) (object : json) : json :=
  JObj [("already_present", JBool true); ("action", JStr action_type); ("object", object);
        ("detail", JStr (detail +:+ " already present in snapshot."))].

Definition _already_present_result (action_type : string) (request : json) : option json :=
  let get k := jget k request in
  if decide (action_type = "create_sdn_zone") then
    Some (already_present action_type ("SDN zone " +:+ py_str (get "zone")) (JObj [("zone", get "zone")]))
  else if decide (action_type = "create_sdn_vnet") then
    Some (already_present action_type ("SDN VNet " +:+ py_str (get "vnet")) (JObj [("vnet", get "vnet")]))
  else if decide (action_type = "create_sdn_subnet") then
    Some (already_present action_type ("SDN subnet " +:+ py_str (get "subnet"))
            (JObj [("vnet", get "vnet"); ("subnet", get "subnet")]))
  else None.

Definition nonempty (s : string) : bool := bool_decide (s ≠ EmptyString).

(** The object a creation asks for is in the inventory. *)
Definition target_present (action_type : string) (request inventory : json) : bool :=
  let zone := text_field "zone" request in
  let vnet := text_field "vnet" request in
  let subnet := text_field "subnet" request in
  if decide (action_type = "create_sdn_zone") then
    nonempty zone && in_ids zone (rows_of "zones" inventory) ["zone"]
  else if decide (action_type = "create_sdn_vnet") then
    nonempty vnet && in_ids vnet (rows_of "vnets" inventory) ["vnet"]
  else if decide (action_type = "create_sdn_subnet") then
    nonempty vnet && nonempty subnet && _subnet_exists inventory vnet subnet
  else false.

Definition _existing_create_result (action_type : string) (request inventory : json) : option json :=
  if target_present action_type request inventory then _already_present_result action_type request else None.

(** [{"observed": bool(row), key: row or {...}}] *)
Definition seen_row (key : string) (row absent : json) : bool * json :=
  (truthy row, JObj [("observed", JBool (truthy row)); (key, jor row absent)]).

Definition find_subnet_row (vnet subnet : string) (inventory : json) : json :=
  next_row (λ item, in_ids subnet [item] ["subnet"; "cidr"]) (subnet_rows vnet inventory).

(** What the inventory shows of the action's object.  The last branch of the code, for
    other actions, is not reached: [_validate_fix_scope] refuses them. *)
Definition _verification_rows (action_type : string) (request inventory : json) : bool * json :=
  let zone := text_field "zone" request in
  let vnet := text_field "vnet" request in
  let subnet := text_field "subnet" request in
  if decide (action_type = "create_sdn_zone") then
    seen_row "zone" (next_row (λ item, bool_decide (row_name "zone" item = zone)) (rows_of "zones" inventory))
      (texts [("zone", zone)])
  else if decide (action_type = "create_sdn_vnet") then
    seen_row "vnet" (next_row (λ item, bool_decide (row_name "vnet" item = vnet)) (rows_of "vnets" inventory))
      (texts [("vnet", vnet)])
  else if decide (action_type = "create_sdn_subnet") then
    seen_row "subnet" (find_subnet_row vnet subnet inventory) (texts [("vnet", vnet); ("subnet", subnet)])
  else
    (true, JObj [("observed", JBool true);
       ("inventory_counts", JObj [("zones", JInt (Z.of_nat (length (rows_of "zones" inventory))));
          ("vnets", JInt (Z.of_nat (length (rows_of "vnets" inventory))));
          ("subnet_vnets", JInt (match jget "subnets_by_vnet" inventory with
                                 | JObj o => Z.of_nat (length o) | _ => 0 end))])]).

Section network.
Context `{LabEnv} {W : Type} `{Proxmox W}.

#[local] Notation M := (eff (lab_conn W)).

(** ** The change an action makes to Proxmox *)

(** [{"type": "subnet", **{k: v for k, v in request.items() if k != "vnet"}}] *)
Definition subnet_body (request : json) : json :=
  match request with
  | JObj o => JObj (foldl (λ acc kv, set_item kv.1 kv.2 acc) [("type", JStr "subnet")]
                      (filter (λ kv, kv.1 ≠ "vnet") o))
  | v => v
  end.

(** [bool(request.get("allow_pending", True))] *)
Definition allow_pending (request : json) : bool :=
  match request with
  | JObj o => match assoc "allow_pending" o with Some v => truthy v | None => true end
  | _ => true
  end.

(** What holds a lock releases it by force when it raises; an error of that is only logged. *)
Definition holding {A} (lock_token : string) (m : eff W A) : eff W A := λ w,
  match m w with
  | (Exc e, w') => (Exc e, (release_lock lock_token true w').2)
  | r => r
  end.

Definition apply_changes (request : json) : eff W json :=
  lock ← acquire_lock (allow_pending request);
  let lock_token := _lock_token_from_response lock in
  if decide (lock_token = EmptyString) then raise (ValueError "failed to acquire SDN lock token")
  else holding lock_token (
    mutation_result ← apply_sdn lock_token false;
    release_lock lock_token false ;;
    mret mutation_result).

Definition mutation (action_type : string) (request : json) : eff W json :=
  if decide (action_type = "create_sdn_zone") then create_zone request
  else if decide (action_type = "create_sdn_vnet") then create_vnet request
  else if decide (action_type = "create_sdn_subnet") then
    let vnet := text_field "vnet" request in
    if decide (vnet = EmptyString) then raise (ValueError "create_sdn_subnet requires vnet")
    else create_subnet vnet (subnet_body request)
  else apply_changes request.

(** The [try] block: the change and the inventory after it. *)
Definition change_and_look (action_type : string) (request : json) : eff W (json * json) :=
  mutation_result ← mutation action_type request;
  post_inventory ← inventory;
  mret (mutation_result, post_inventory).

(** ** Executing an action *)

Definition _get_fix (fix_action_id : string) : M fix_action :=
  row ← get_fix_action fix_action_id;
  match row with
  | Some f => mret f
  | None => raise (ValueError ("fix action not found: " +:+ fix_action_id))
  end.

Definition _get_lab (lab_id : string) : M lab :=
  row ← get_lab lab_id;
  match row with
  | Some l => mret l
  | None => raise (ValueError ("lab not found: " +:+ lab_id))
  end.

Definition _record_snapshot (lab_id action_type : string) : M (string * provider_snapshot) :=
  snapshot ← outside inventory;
  record_provider_snapshot lab_id "proxmox" "pre_fix" (texts [("action_type", action_type)]) snapshot.

Definition _sync_boundary_state (lab_id : string) (l : lab) (inv : json) (status : string) : M unit :=
  sync_lab_network_current_state lab_id l inv status false.

Definition _record_verification_event (lab_id fix_action_id action_type : string) (seen : bool)
    (verification : json) : M unit :=
  record_event lab_id "fix_action_verified" "reconciler"
    ("Verification " +:+ (if seen then "passed" else "failed") +:+ " for " +:+ action_type +:+ ".")
    (JObj [("fix_action_id", JStr fix_action_id); ("action_type", JStr action_type);
           ("observed", JBool seen); ("verification", verification)]) false ;;
  mret tt.

Definition _record_verification_failure_finding (lab_id : string) (reconcile_run_id : option string)
    (action_type : string) (request verification : json) : M unit :=
  record_finding lab_id reconcile_run_id "proxmox" (action_type +:+ "_verification_failed") "blocked"
    ("Verification did not observe the expected object after " +:+ action_type +:+ ".")
    request JNull verification "open" false ;;
  mret tt.

Definition resolve_finding_of (lab_id action_type : string) : M unit :=
  match ACTION_FINDING_TYPES action_type with
  | Some finding_type => resolve_open_finding lab_id "proxmox" finding_type false
  | None => mret tt
  end.

(** [try: m except Exception: None], keeping the text of the exception *)
Definition outside_or_error {A} (m : eff W A) : M (A + string) := λ c,
  match outside m c with
  | (Ret a, c') => (Ret (inl a), c')
  | (Exc e, c') => (Ret (inr (exc_str e)), c')
  end.

Definition settle_fix (fix_action_id status : string) (result : list (string * json)) (snapshot_id : string) :
    M (string * fix_action) :=
  update_fix_action fix_action_id status (Some (JObj result)) (Some snapshot_id).

(** The object was there already: nothing is changed in Proxmox. *)
Definition settle_present (lab_id : string) (l : lab) (fix_action_id action_type : string)
    (request before existing : json) (snapshot_id : string) : M (string * fix_action) :=
  let '(seen, verification) := _verification_rows action_type request before in
  _sync_boundary_state lab_id l before "fixing" ;;
  _record_verification_event lab_id fix_action_id action_type seen verification ;;
  resolve_finding_of lab_id action_type ;;
  settle_fix fix_action_id "fixed"
    (("ok", JBool true) :: (match existing with JObj o => o | _ => [] end) ++
     [("verification", verification)]) snapshot_id.

(** After the change was tried: [outcome] is its result with the inventory, or its error. *)
Definition settle_change (lab_id : string) (l : lab) (fix_action_id : string) (run_id : option string)
    (action_type : string) (request : json) (outcome : (json * json) + string) (snapshot_id : string) :
    M (string * fix_action) :=
  match outcome with
  | inr error => settle_fix fix_action_id "failed" [("ok", JBool false); ("error", JStr error)] snapshot_id
  | inl (mutation_result, after) =>
      let '(seen, verification) := _verification_rows action_type request after in
      _sync_boundary_state lab_id l after
        (if bool_decide (action_type = "apply_sdn") && seen then "ready" else "fixing") ;;
      _record_verification_event lab_id fix_action_id action_type seen verification ;;
      if seen then
        resolve_finding_of lab_id action_type ;;
        settle_fix fix_action_id "fixed"
          [("ok", JBool true); ("result", mutation_result); ("verification", verification)] snapshot_id
      else
        _record_verification_failure_finding lab_id run_id action_type request verification ;;
        settle_fix fix_action_id "failed"
          [("ok", JBool false);
           ("error", JStr ("verification did not observe the expected object after " +:+ action_type));
           ("result", mutation_result); ("verification", verification)] snapshot_id
  end.

Definition execute_fix_action (fix_action_id : string) : M (string * fix_action) :=
  f ← _get_fix fix_action_id;
  scope ← lift_outcome (_validate_fix_scope f);
  let '(lab_id, action_type, request) := scope in
  l ← _get_lab lab_id;
  snapshot ← _record_snapshot lab_id action_type;
  let before := sn_snapshot snapshot.2 in
  match _existing_create_result action_type request before with
  | Some existing =>
      settle_present lab_id l fix_action_id action_type request before existing snapshot.1
  | None =>
      outcome ← outside_or_error (change_and_look action_type request);
      settle_change lab_id l fix_action_id (fx_run_id f) action_type request outcome snapshot.1
  end.

(** ** Executing what is pending *)

(** What a pass did: the actions it fixed, the blocked ones and the failed ones. *)
Record applied : Type := Applied {
  ap_fixed : list (string * fix_action);
  ap_blocked : list (string * fix_action);
  ap_failed : list (string * fix_action)
}.

Definition supported (kr : string * fix_action) : bool :=
  bool_decide (PyStr.strip (fx_provider kr.2) = "proxmox" ∧ PyStr.strip (fx_action_type kr.2) ∈ SUPPORTED_ACTIONS).

Definition sort_result (acc : applied) (r : string * fix_action) : applied :=
  if decide (fx_status r.2 = "fixed") then Applied (ap_fixed acc ++ [r]) (ap_blocked acc) (ap_failed acc)
  else if decide (fx_status r.2 = "blocked") then Applied (ap_fixed acc) (ap_blocked acc ++ [r]) (ap_failed acc)
  else Applied (ap_fixed acc) (ap_blocked acc) (ap_failed acc ++ [r]).

Fixpoint execute_fixes (fixes : list (string * fix_action)) (acc : applied) : M applied :=
  match fixes with
  | [] => mret acc
  | kr :: fixes => r ← execute_fix_action kr.1; execute_fixes fixes (sort_result acc r)
  end.

Definition execute_pending_network_fixes (lab_id : string) (limit : nat) : M applied :=
  pending ← list_pending_fix_actions lab_id;
  execute_fixes (take limit (filter (λ kr, supported kr = true) pending)) (Applied [] [] []).
End network.
