(* ===== verification/LabReconciler.v ===== *)
(** * Managed labs: reconciling

    [web/managed_labs_reconciler.py] and the handlers of [web/managed_labs_endpoints.py]. *)

From stdpp Require Import base gmap list strings pretty sorting.
From Stdlib Require Import ZArith Lia Ascii.
From S2P Require Import Prelude Json Text IpNetwork ProxmoxSdn LabData LabStore LabRecords LabNetwork.

#[local] Open Scope Z_scope.

(** What planning one lab found. *)
Record plan_result : Type := PlanResult {
  plan_status : string;
  plan_findings : list (string * reconcile_finding);
  plan_fixes : list (string * fix_action)
}.

(** [_map_json_fields] of a reservation *)
Definition reservation_json `{LabEnv} (kr : string * reservation) : json :=
  JObj [("id", JStr kr.1); ("lab_id", JStr (rv_lab_id kr.2)); ("reservation_type", JStr (rv_type kr.2));
        ("value", JStr (rv_value kr.2)); ("status", JStr (rv_status kr.2));
        ("created_at", JStr (isoformat (rv_created_at kr.2)));
        ("updated_at", JStr (isoformat (rv_updated_at kr.2)));
        ("metadata", jor (rv_metadata kr.2) (JObj []))].

(** A creation the plan may ask for. *)
Record wanted : Type := Wanted {
  w_finding_type : string;
  w_detail : string;
  w_action_type : string;
  w_priority : Z;
  w_request : json;
  w_actual : json
}.

(** The objects of the network that the inventory does not have. *)
Definition missing_objects (l : lab) (zone vnet subnet : string) (inv : json) : list wanted :=
  (if in_ids zone (rows_of "zones" inv) ["zone"] then []
   else [Wanted "sdn_zone_missing" ("SDN zone " +:+ zone +:+ " is missing.") "create_sdn_zone" 10
           (texts [("zone", zone); ("type", "simple")])
           (next_row (λ row, bool_decide (row_name "zone" row = zone)) (rows_of "zones" inv))]) ++
  (if in_ids vnet (rows_of "vnets" inv) ["vnet"] then []
   else [Wanted "sdn_vnet_missing" ("SDN VNet " +:+ vnet +:+ " is missing.") "create_sdn_vnet" 20
           (texts [("vnet", vnet); ("zone", zone); ("alias", lab_name l)])
           (next_row (λ row, bool_decide (row_name "vnet" row = vnet)) (rows_of "vnets" inv))]) ++
  (if _subnet_exists inv vnet subnet then []
   else [Wanted "sdn_subnet_missing" ("SDN subnet " +:+ subnet +:+ " is missing on " +:+ vnet +:+ ".")
           "create_sdn_subnet" 30
           (JObj [("vnet", JStr vnet); ("subnet", JStr subnet); ("gateway", JStr (lab_gateway_ip l));
                  ("snat", JBool true)])
           (find_subnet_row vnet subnet inv)]).

Section reconciler.
Context `{LabEnv} {W : Type} `{Proxmox W}.

#[local] Notation M := (eff (lab_conn W)).

Definition _record_fixable (lab_id : string) (reconcile_run_id : option string) (w : wanted) :
    M ((string * reconcile_finding) * (string * fix_action)) :=
  f ← record_finding lab_id reconcile_run_id "proxmox" (w_finding_type w) "fixable" (w_detail w)
        (w_request w) (w_request w) (w_actual w) "open" true;
  fix_ ← create_fix_action lab_id reconcile_run_id "proxmox" (w_action_type w) (w_priority w) (w_detail w)
           (w_request w) true;
  mret (f, fix_).

Fixpoint record_all (lab_id : string) (reconcile_run_id : option string) (ws : list wanted) :
    M (list ((string * reconcile_finding) * (string * fix_action))) :=
  match ws with
  | [] => mret []
  | w :: ws => r ← _record_fixable lab_id reconcile_run_id w;
               rs ← record_all lab_id reconcile_run_id ws;
               mret (r :: rs)
  end.

(** A plan that ends blocked with one finding. *)
Definition blocked_plan (lab_id : string) (l : lab) (inv : json) (reconcile_run_id : option string)
    (provider finding_type detail : string) (object_ref actual_state : json) : M plan_result :=
  sync_lab_network_current_state lab_id l inv "blocked" false ;;
  f ← record_finding lab_id reconcile_run_id provider finding_type "blocked" detail object_ref JNull
        actual_state "open" true;
  mret (PlanResult "blocked" [f] []).

Definition plan_sdn (lab_id : string) (l : lab) (inv : json) (reconcile_run_id : option string) :
    M plan_result :=
  zone ← or_compute (lab_sdn_zone l) (proxmox_sdn_zone_id (lab_short_code l));
  vnet ← or_compute (lab_sdn_vnet l) (proxmox_sdn_vnet_id (lab_short_code l));
  let subnet := PyStr.or_else (lab_sdn_subnet l) (lab_network_cidr l) in
  recorded ← record_all lab_id reconcile_run_id (missing_objects l zone vnet subnet inv);
  match recorded with
  | [] =>
      sync_lab_network_current_state lab_id l inv "ready" true ;;
      mret (PlanResult "ready" [] [])
  | _ =>
      sync_lab_network_current_state lab_id l inv "fixing" false ;;
      last_fix ← create_fix_action lab_id reconcile_run_id "proxmox" "apply_sdn" 90
                   "Apply pending Proxmox SDN changes." (JObj [("allow_pending", JBool true)]) true;
      mret (PlanResult "fixing" recorded.*1 (recorded.*2 ++ [last_fix]))
  end.

Definition plan_network_reconcile (lab_id : string) (inv : json) (reconcile_run_id : option string) :
    M plan_result :=
  row ← get_lab lab_id;
  match row with
  | None => raise (ValueError ("lab not found: " +:+ lab_id))
  | Some l =>
      ensure_lab_boundary_model lab_id l false ;;
      clear_current_reconcile_state lab_id ["network"; "proxmox"] false ;;
      overlaps ← find_overlapping_cidr_reservations (lab_network_cidr l) lab_id;
      match overlaps with
      | first :: _ =>
          blocked_plan lab_id l inv reconcile_run_id "network" "subnet_overlaps_existing_lab"
            ("Requested subnet overlaps existing reservation " +:+ rv_value first.2 +:+ ".")
            (JObj [("cidr", JStr (lab_network_cidr l)); ("overlap", reservation_json first)])
            (JObj [("overlap", reservation_json first)])
      | [] =>
          reserve_value lab_id "cidr" (lab_network_cidr l) JNull false ;;
          if decide (lab_network_mode l = "sdn") then plan_sdn lab_id l inv reconcile_run_id
          else blocked_plan lab_id l inv reconcile_run_id "proxmox" "bridge_validate_only"
            "Bridge targets are validate-only in this slice; create or select an existing bridge before proceeding."
            (texts [("network_mode", lab_network_mode l)]) JNull
      end
  end.

(** ** Sweeping *)

Definition _effective_status (status : string) (a : option applied) : string :=
  match a with
  | None => status
  | Some (Applied _ _ (_ :: _)) => "failed"
  | Some (Applied _ (_ :: _) _) => "blocked"
  | Some (Applied (_ :: _) _ _) => "applied"
  | Some _ => status
  end.

Record lab_summary : Type := LabSummary {
  sm_lab_id : string;
  sm_name : string;
  sm_status : string;
  sm_detail : option string;
  sm_plan : option plan_result;
  sm_applied : option applied
}.

(** [try: m except Exception as exc], the exception as a value *)
Definition attempt {A} (m : M A) : M (A + exc) := λ c,
  match m c with
  | (Ret a, c') => (Ret (inl a), c')
  | (Exc e, c') => (Ret (inr e), c')
  end.

Definition reconcile_lab_once (kr : string * lab) (inv : json) (auto_apply : bool)
    (apply_fn : option (string → M applied)) : M lab_summary :=
  let '(lab_id, l) := kr in
  run ← start_reconcile_run lab_id (lab_retry_count l + 1);
  planned ← attempt (plan_network_reconcile lab_id inv (Some run.1));
  match planned with
  | inr e =>
      finish_reconcile_run run.1 "failed" ("Reconcile sweep plan failed: " +:+ exc_str e) ;;
      mret (LabSummary lab_id (lab_name l) "failed" (Some (exc_str e)) None None)
  | inl result =>
      finish_reconcile_run run.1 (plan_status result)
        ("Reconcile sweep finished with status " +:+ plan_status result +:+ ".") ;;
      match apply_fn with
      | Some apply =>
          if auto_apply && bool_decide (plan_status result = "fixing") then
            a ← attempt (apply lab_id);
            match a with
            | inr e => mret (LabSummary lab_id (lab_name l) "failed"
                         (Some ("Reconcile sweep apply failed: " +:+ exc_str e)) (Some result) None)
            | inl a => mret (LabSummary lab_id (lab_name l) (_effective_status (plan_status result) (Some a))
                         None (Some result) (Some a))
            end
          else mret (LabSummary lab_id (lab_name l) (plan_status result) None (Some result) None)
      | None => mret (LabSummary lab_id (lab_name l) (plan_status result) None (Some result) None)
      end
  end.

Record sweep : Type := Sweep {
  sw_auto_apply : bool;
  sw_lab_count : nat;
  sw_applied_count : nat;
  sw_counts : gmap string nat;
  sw_labs : list lab_summary
}.

Definition count_summary (acc : nat * gmap string nat) (s : lab_summary) : nat * gmap string nat :=
  ((if sm_applied s then S acc.1 else acc.1),
   <[sm_status s := S (default 0%nat (acc.2 !! sm_status s))]> acc.2).

Fixpoint reconcile_each (rows : list (string * lab)) (inv : json) (auto_apply : bool)
    (apply_fn : option (string → M applied)) : M (list lab_summary) :=
  match rows with
  | [] => mret []
  | kr :: rows => s ← reconcile_lab_once kr inv auto_apply apply_fn;
                  ss ← reconcile_each rows inv auto_apply apply_fn;
                  mret (s :: ss)
  end.

Definition reconcile_all_labs (inv : json) (auto_apply : bool) (apply_fn : option (string → M applied))
    (lab_ids : option (list string)) : M sweep :=
  rows ← list_labs;
  let wanted_rows := match lab_ids with
                     | Some wanted => filter (λ kr, kr.1 ∈ wanted) rows
                     | None => rows
                     end in
  summaries ← reconcile_each wanted_rows inv auto_apply apply_fn;
  let '(applied_count, counts) := foldl count_summary (0%nat, ∅) summaries in
  mret (Sweep auto_apply (length wanted_rows) applied_count counts summaries).

(** ** Handlers *)

Definition lab_http (status : Z) (detail : string) : exc := pve_http_error status detail.

(** [LabCreateBody]: what pydantic makes of a body, or refuses. *)
Definition validate_body (b : lab_body) : option lab_body :=
  let cidr := PyStr.strip (lb_network_cidr b) in
  let gateway := PyStr.strip (lb_gateway_ip b) in
  let count_ok c := match c with Some n => (0 <=? n) && (n <=? 500) | None => false end in
  if match ip_network cidr with Ret _ => true | Exc _ => false end &&
     (bool_decide (gateway = EmptyString) || is_ip_address gateway) &&
     count_ok (lb_desktop_count b) && count_ok (lb_server_count b)
  then Some (LabBody (lb_name b) (lb_short_code b) (lb_group_tag b) cidr gateway (lb_network_mode b)
               (lb_sdn_zone b) (lb_sdn_vnet b) (lb_sdn_subnet b) (lb_template_id b)
               (lb_desktop_count b) (lb_server_count b))
  else None.

(** [int(device_counts.get(key) or 0)] *)
Definition device_count (key : string) (l : lab) : outcome Z :=
  py_int (jor (jget key (jget "device_counts" (jor (lab_desired_state l) (JObj [])))) (JInt 0)).

Definition reserve_names_of (kr : string * lab) (role : string) (count : Z) : M unit :=
  if decide (count = 0) then mret tt
  else reserve_default_names kr.1 (lab_short_code kr.2) role count false ;; mret tt.

(** The body of the [try] in the handler that creates a lab. *)
Definition create_and_reserve (b : lab_body) : M (string * lab) :=
  kr ← create_lab b false;
  reserve_value kr.1 "group_tag" (lab_group_tag kr.2) JNull false ;;
  reserve_value kr.1 "cidr" (lab_network_cidr kr.2) JNull false ;;
  desktops ← lift_outcome (device_count "desktop" kr.2);
  servers ← lift_outcome (device_count "server" kr.2);
  reserve_names_of kr "wks" desktops ;;
  reserve_names_of kr "srv" servers ;;
  lab_commit ;;
  mret kr.

Definition post_lab (b : lab_body) : M (string * lab) :=
  with_lab_connection (
    try_except (create_and_reserve b) (λ e,
      lab_rollback ;;
      raise (match e with
             | ValueError m => lab_http 409 m
             | _ => lab_http 500 "managed lab create failed"
             end))).

Definition _get_lab_or_404 (lab_id : string) : M lab :=
  row ← get_lab lab_id;
  match row with Some l => mret l | None => raise (lab_http 404 "lab not found") end.

Definition _get_fix_for_lab_or_404 (lab_id fix_id : string) : M fix_action :=
  row ← get_fix_action fix_id;
  match row with
  | Some f => if decide (fx_lab_id f = lab_id) then mret f else raise (lab_http 404 "fix not found")
  | None => raise (lab_http 404 "fix not found")
  end.

Definition reconcile_lab (lab_id : string) : M plan_result :=
  with_lab_connection (
    l ← _get_lab_or_404 lab_id;
    run ← start_reconcile_run lab_id (lab_retry_count l + 1);
    result ← try_except
      (inv ← outside inventory; plan_network_reconcile lab_id inv (Some run.1))
      (λ e, finish_reconcile_run run.1 "failed" ("Managed labs network reconcile failed: " +:+ exc_str e) ;;
            raise (lab_http 500 "managed lab reconcile failed"));
    finish_reconcile_run run.1 (plan_status result)
      ("Managed labs network reconcile finished with status " +:+ plan_status result +:+ ".") ;;
    mret result).

Definition apply_fn_of (auto_apply : bool) : option (string → M applied) :=
  if auto_apply then Some (λ lab_id, execute_pending_network_fixes lab_id 10) else None.

Definition reconcile_sweep (auto_apply : bool) : M sweep :=
  with_lab_connection (
    inv ← outside inventory;
    reconcile_all_labs inv auto_apply (apply_fn_of auto_apply) None).

Definition run_pending_fixes (lab_id : string) : M applied :=
  with_lab_connection (
    _get_lab_or_404 lab_id ;;
    execute_pending_network_fixes lab_id 10).

Definition run_fix (lab_id fix_id : string) : M (string * fix_action) :=
  with_lab_connection (
    _get_lab_or_404 lab_id ;;
    _get_fix_for_lab_or_404 lab_id fix_id ;;
    execute_fix_action fix_id).
End reconciler.
