(* ===== verification/LabLogic.v ===== *)
(** * Managed labs: reasoning about a connection

    [runs E R m c Q]: from the connection [c], [m] returns, the tables it sees change as
    the relation [R] allows, identifiers stay fresh, and [Q] holds of the value and the
    connection; or it raises and [E] holds.  With [E] false this is total correctness,
    with [E] true partial correctness. *)

From stdpp Require Import base gmap list strings pretty sorting.
From Stdlib Require Import ZArith Lia Ascii.
From S2P Require Import Prelude Json Text ProxmoxSdn LabData LabStore LabRecords LabNetwork LabReconciler.

#[local] Open Scope Z_scope.

(** A text without white space. *)
Fixpoint plain (s : string) : bool :=
  match s with
  | EmptyString => true
  | String c s => negb (PyStr.is_space c) && plain s
  end.

(** What the generator of identifiers promises: canonical texts of UUIDs. *)
Class LabEnvLaws (LE : LabEnv) : Prop := {
  lab_uuid4_inj n m : lab_uuid4 n = lab_uuid4 m → n = m;
  lab_uuid4_nonempty n : lab_uuid4 n ≠ EmptyString;
  lab_uuid4_plain n : plain (lab_uuid4 n) = true
}.

Lemma plain_app s t : plain (s +:+ t) = plain s && plain t.
Proof. induction s as [|c s IH]; [done|]. change (plain (String c (s +:+ t)) = plain (String c s) && plain t). simpl. rewrite IH. apply andb_assoc. Qed.

Lemma plain_prefix n s : plain s = true → plain (String.substring 0 n s) = true.
Proof.
  revert n. induction s as [|c s IH]; intros [|n]; try done. simpl.
  intros [-> Hs]%andb_true_iff. by apply IH.
Qed.

Lemma strip_plain s : plain s = true → PyStr.strip s = s.
Proof.
  intros Hs. assert (PyStr.rstrip s = s) as Hr.
  { induction s as [|c s IH]; [done|]. simpl in Hs. apply andb_true_iff in Hs as [Hc Hs].
    rewrite PyStr.rstrip_String, IH by done. apply negb_true_iff in Hc. rewrite Hc. by destruct s. }
  unfold PyStr.strip. rewrite Hr. destruct s as [|c s]; [done|]. simpl in *.
  apply andb_true_iff in Hs as [Hc _]. by apply negb_true_iff in Hc as ->.
Qed.

(** ** Keys in use *)

Definition used (k : string) (t : lab_tables) : Prop :=
  is_Some (labs t !! k) ∨ is_Some (boundaries t !! k) ∨ is_Some (boundary_objects t !! k) ∨
  is_Some (reservations t !! k) ∨ is_Some (reconcile_runs t !! k) ∨ is_Some (findings t !! k) ∨
  is_Some (fix_actions t !! k) ∨ is_Some (snapshots t !! k).

Section logic.
Context `{LE : LabEnv} `{!LabEnvLaws LE} {W : Type}.

#[local] Notation C := (lab_conn W).
#[local] Notation M := (eff (lab_conn W)).

Definition handed (n : nat) (k : string) : Prop := ∃ i, (i < n)%nat ∧ k = lab_uuid4 i.

Definition issued_only (n : nat) (t : lab_tables) : Prop := ∀ k, used k t → handed n k.
Definition events_below (n : Z) (t : lab_tables) : Prop := ∀ i, is_Some (lab_events t !! i) → i ≤ n.

(** A transaction in order. *)
Record ready_conn (c : C) : Prop := {
  rc_spoiled : spoiled c = false;
  rc_issued : issued_only (handed_out c) (seen c);
  rc_events : events_below (event_serial c) (seen c)
}.

Record moves (R : relation lab_tables) (c c' : C) : Prop := {
  mv_ready : ready_conn c';
  mv_tables : R (seen c) (seen c')
}.

Definition runs (E : Prop) (R : relation lab_tables) {A} (m : M A) (c : C) (Q : A → C → Prop) : Prop :=
  match m c with
  | (Ret a, c') => moves R c c' ∧ Q a c'
  | (Exc _, _) => E
  end.

Lemma handed_mono n m k : (n ≤ m)%nat → handed n k → handed m k.
Proof. intros ? (i & ? & ->). exists i. split; [lia|done]. Qed.

(** ** Rules *)

Section rules.
Context (E : Prop) (R : relation lab_tables) `{!PreOrder R}.

Lemma moves_refl c : ready_conn c → moves R c c.
Proof. by split. Qed.

Lemma moves_trans c1 c2 c3 : moves R c1 c2 → moves R c2 c3 → moves R c1 c3.
Proof. intros [_ H1] [H2 H3]. split; [done|by etrans]. Qed.

Lemma runs_ret {A} (a : A) c (Q : A → C → Prop) : ready_conn c → Q a c → runs E R (mret a) c Q.
Proof. intros. unfold runs. simpl. split; [by apply moves_refl|done]. Qed.

Lemma runs_raise {A} e c (Q : A → C → Prop) : E → runs E R (raise e) c Q.
Proof. done. Qed.

Lemma runs_bind {A B} (m : M A) (f : A → M B) c Q1 Q2 :
  runs E R m c Q1 →
  (∀ a c', moves R c c' → Q1 a c' → runs E R (f a) c' Q2) →
  runs E R (m ≫= f) c Q2.
Proof.
  unfold runs. rewrite run_bind. destruct (m c) as [[a|e] c'] eqn:Em; [|done].
  intros [Hm HQ] Hf. specialize (Hf a c' Hm HQ).
  destruct (f a c') as [[b|e] c''] eqn:Ef; [|done]. destruct Hf as [Hf HQ2].
  split; [by eapply moves_trans|done].
Qed.

Lemma runs_mono {A} (m : M A) c (Q Q' : A → C → Prop) :
  runs E R m c Q → (∀ a c', moves R c c' → Q a c' → Q' a c') → runs E R m c Q'.
Proof. unfold runs. destruct (m c) as [[a|e] c']; naive_solver. Qed.

Lemma runs_lift {A} (o : outcome A) c (Q : A → C → Prop) :
  ready_conn c → (∀ a, o = Ret a → Q a c) → (∀ e, o = Exc e → E) → runs E R (lift_outcome o) c Q.
Proof.
  intros Hc HQ HE. unfold runs, lift_outcome. destruct o as [a|e]; [|by eapply HE].
  split; [by apply moves_refl|auto].
Qed.

(** Reading the clock and handing out an identifier leave the tables alone. *)
Lemma runs_now c (Q : Z → C → Prop) :
  ready_conn c →
  (∀ n c', ready_conn c' → seen c' = seen c → durable c' = durable c → handed_out c' = handed_out c → Q n c') →
  runs E R _now c Q.
Proof.
  intros [Hs Hi He] HQ. unfold runs, _now.
  split; [split; [by split|simpl; reflexivity]|apply HQ; try done; by split].
Qed.

Definition fresh_id (id : string) (c : C) : Prop := ¬ used id (seen c) ∧ handed (handed_out c) id.

Lemma runs_new_id c (Q : string → C → Prop) :
  ready_conn c →
  (∀ id c', ready_conn c' → seen c' = seen c → durable c' = durable c → fresh_id id c' →
    id ≠ EmptyString → Q id c') →
  runs E R _new_id c Q.
Proof.
  intros [Hs Hi He] HQ. unfold runs, _new_id.
  assert (issued_only (S (handed_out c)) (seen c)) as Hi'.
  { intros k Hk. eapply handed_mono; [|by apply Hi]. lia. }
  split; [split; [by split|simpl; reflexivity]|apply HQ]; [by split|done|done| |].
  - split; simpl.
    + intros (i & Hlt & Heq%lab_uuid4_inj)%Hi. lia.
    + exists (handed_out c). split; [lia|done].
  - apply lab_uuid4_nonempty.
Qed.

Lemma runs_query {A} (f : lab_tables → A) c (Q : A → C → Prop) :
  ready_conn c → Q (f (seen c)) c → runs E R (query f) c Q.
Proof.
  intros Hc HQ. unfold runs, query. rewrite (rc_spoiled c Hc). split; [by apply moves_refl|done].
Qed.

(** A write: it respects its constraints, makes a permitted change and uses identifiers
    that were handed out. *)
Lemma runs_statement ok f c (Q : unit → C → Prop) :
  ready_conn c →
  (∀ e, ok (seen c) = Some e → E) →
  (ok (seen c) = None → R (seen c) (f (seen c)) ∧
     (∀ k, used k (f (seen c)) → used k (seen c) ∨ handed (handed_out c) k) ∧
     (∀ i, is_Some (lab_events (f (seen c)) !! i) → is_Some (lab_events (seen c) !! i) ∨ i ≤ event_serial c) ∧
     (∀ c', ready_conn c' → seen c' = f (seen c) → durable c' = durable c →
            handed_out c' = handed_out c → Q tt c')) →
  runs E R (statement ok f) c Q.
Proof.
  intros [Hs Hi He] HE HQ. unfold runs, statement. rewrite Hs.
  destruct (ok (seen c)) as [e|] eqn:Eok; [by eapply HE|].
  destruct (HQ eq_refl) as (HR & Hu & Hev & HQ').
  assert (ready_conn (LabConn (f (seen c)) (durable c) false (event_serial c) (readings c)
            (handed_out c) (world c))) as Hc'.
  { split; [done| |].
    - intros k Hk. destruct (Hu k Hk) as [Hk'|Hk']; [by apply Hi|done].
    - intros i Hk. destruct (Hev i Hk) as [Hk'|Hk']; [by apply He|done]. }
  split; [by split|]. by apply HQ'.
Qed.

Lemma runs_next_event_id c (Q : Z → C → Prop) :
  ready_conn c →
  (∀ i c', ready_conn c' → seen c' = seen c → durable c' = durable c → lab_events (seen c') !! i = None →
           i ≤ event_serial c' → Q i c') →
  runs E R next_event_id c Q.
Proof.
  intros [Hs Hi He] HQ. unfold runs, next_event_id. rewrite Hs.
  assert (ready_conn (LabConn (seen c) (durable c) false (event_serial c + 1) (readings c)
            (handed_out c) (world c))) as Hc'.
  { split; [done|done|]. intros i Hk. specialize (He i Hk). simpl. lia. }
  split; [split; [done|simpl; reflexivity]|]. apply HQ; try done; simpl.
  apply eq_None_not_Some. intros Hk. specialize (He _ Hk). lia.
Qed.

Lemma runs_commit c (Q : unit → C → Prop) :
  ready_conn c →
  (∀ c', ready_conn c' → seen c' = seen c → durable c' = seen c → handed_out c' = handed_out c → Q tt c') →
  runs E R lab_commit c Q.
Proof.
  intros [Hs Hi He] HQ. unfold runs, lab_commit. rewrite Hs.
  split; [split; [by split|simpl; reflexivity]|]. apply HQ; try done; by split.
Qed.

Lemma runs_commit_if b c (Q : unit → C → Prop) :
  ready_conn c →
  (∀ c', ready_conn c' → seen c' = seen c → durable c' = (if b : bool then seen c else durable c) → Q tt c') →
  runs E R (commit_if b) c Q.
Proof.
  intros Hc HQ. destruct b; simpl.
  - apply runs_commit; [done|]. intros. by apply HQ.
  - apply runs_ret; [done|]. by apply HQ.
Qed.

Lemma runs_assert {A} (x : option A) c (Q : A → C → Prop) :
  ready_conn c → (∀ a, x = Some a → Q a c) → (x = None → E) → runs E R (assert_some x) c Q.
Proof. intros Hc HQ HE. destruct x as [a|]; simpl; [by apply runs_ret; [|apply HQ]|by apply HE]. Qed.

Lemma runs_for_each {A} (l : list A) (body : A → M unit) c (I : list A → C → Prop) :
  ready_conn c → I [] c →
  (∀ done x rest c', l = done ++ x :: rest → moves R c c' → I done c' →
     runs E R (body x) c' (λ _ c'', I (done ++ [x]) c'')) →
  runs E R (for_each l body) c (λ _ c', I l c').
Proof.
  intros Hc H0 Hb.
  assert (∀ done rest c', l = done ++ rest → moves R c c' → I done c' →
    runs E R (for_each rest body) c' (λ _ c'', I l c'')) as Hgen.
  { intros done rest. revert done. induction rest as [|x rest IH]; intros done c' Hl Hm HI; simpl.
    - rewrite app_nil_r in Hl. subst done. apply runs_ret; [apply Hm|done].
    - eapply runs_bind; [by eapply Hb|]. intros [] c'' Hm' HI'.
      apply (IH (done ++ [x])); [by rewrite <- app_assoc|by eapply moves_trans|done]. }
  apply (Hgen []); [done|by apply moves_refl|done].
Qed.
End rules.

(** What a total run delivers. *)
Lemma runs_total R {A} (m : M A) c Q :
  runs False R m c Q → ∃ a c', m c = (Ret a, c') ∧ moves R c c' ∧ Q a c'.
Proof. unfold runs. destruct (m c) as [[a|e] c']; [eauto|done]. Qed.

Lemma runs_weaken E (R R' : relation lab_tables) {A} (m : M A) c (Q : A → C → Prop) :
  (∀ t t', R t t' → R' t t') → runs E R m c Q → runs E R' m c Q.
Proof.
  unfold runs. destruct (m c) as [[a|e] c']; [|done]. intros HR [[Hr Ht] HQ]. split; [split|]; eauto.
Qed.
End logic.

(** A composite step: inside of it the tables may change in any way. *)
Definition any_change : relation lab_tables := λ _ _, True.

#[export] Instance any_change_preorder : PreOrder any_change.
Proof. by split. Qed.

Lemma runs_step `{LabEnv} {W} E (R : relation lab_tables) {A} (m : eff (lab_conn W) A) c Q :
  runs E any_change m c (λ a c', R (seen c) (seen c') ∧ Q a c') → runs E R m c Q.
Proof.
  unfold runs. destruct (m c) as [[a|e] c']; [|done]. intros [[Hr _] [HR HQ]]. split; [by split|done].
Qed.
