(* ===== verification/LabModel.v ===== *)
(** * Managed labs: the boundary model is kept

    What [ensure_lab_boundary_model] and [sync_lab_network_current_state] do to the tables:
    they write the objects of one lab and their identities, find again what they wrote
    before, and never run into the identities of another lab. *)

From stdpp Require Import base gmap list strings pretty sorting.
From Stdlib Require Import ZArith Lia Ascii.
From S2P Require Import Prelude Json Text ProxmoxSdn LabData LabStore LabRecords LabNetwork LabReconciler LabLogic.

#[local] Open Scope Z_scope.

Definition bkey (b : boundary) : string * string * string * string :=
  (bd_lab_id b, bd_provider b, bd_kind b, bd_name b).

Lemma boundary_is_key lab_id provider kind name b :
  boundary_is lab_id provider kind name b = true ↔ bkey b = (lab_id, provider, kind, name).
Proof. unfold boundary_is, bkey. rewrite bool_decide_eq_true. naive_solver. Qed.

(** ** The objects of a lab *)

Record object_spec : Type := ObjectSpec {
  os_provider : string;
  os_kind : string;
  os_name : string;
  os_ids : json
}.

(** The shape of a network whose names are filled in. *)
Definition shape_of (l : lab) : network_shape :=
  NetworkShape (PyStr.strip (lab_sdn_zone l)) (PyStr.strip (lab_sdn_vnet l))
    (PyStr.or_else (PyStr.strip (lab_sdn_subnet l)) (PyStr.strip (lab_network_cidr l))).

Definition object_specs (l : lab) : list object_spec :=
  let n := shape_of l in
  [ObjectSpec "network" "subnet" (lab_network_cidr l) (texts [("cidr", lab_network_cidr l)]);
   ObjectSpec "proxmox" "sdn_zone" (ns_zone n) (texts [("zone", ns_zone n)]);
   ObjectSpec "proxmox" "sdn_vnet" (ns_vnet n) (texts [("vnet", ns_vnet n)]);
   ObjectSpec "proxmox" "sdn_subnet" (ns_subnet n) (sdn_subnet_ids n);
   ObjectSpec "ad" "group" (lab_group_tag l) (texts [("group_tag", lab_group_tag l)]);
   ObjectSpec "entra" "device_group" (lab_group_tag l) (texts [("group_tag", lab_group_tag l)]);
   ObjectSpec "intune" "autopilot_profile" (lab_group_tag l) (texts [("group_tag", lab_group_tag l)]);
   ObjectSpec "deployment" "naming_policy" (lab_short_code l +:+ "-naming-policy")
     (texts [("short_code", lab_short_code l)])].

Definition spec_key (lab_id : string) (s : object_spec) : string * string * string * string :=
  (lab_id, os_provider s, os_kind s, os_name s).

Definition spec_rows (s : object_spec) : list (string * string) := _provider_identity_rows (os_ids s).

(** The object exists and has its identities. *)
Definition holds_object (t : lab_tables) (lab_id : string) (s : object_spec) : Prop :=
  ∃ oid o, boundary_objects t !! oid = Some o ∧ bkey (bo_row o) = spec_key lab_id s ∧
    ∀ k v, (k, v) ∈ spec_rows s →
      ∃ r, identities t !! (oid, k) = Some r ∧ id_provider r = os_provider s ∧ id_kind r = os_kind s ∧
           id_value r = v.

Definition holds_boundary (t : lab_tables) (key : string * string * string * string) : Prop :=
  ∃ i b, boundaries t !! i = Some b ∧ bkey b = key.

(** ** The part of the invariant about boundaries *)

Record model_wf (t : lab_tables) : Prop := {
  mw_boundary i j a b : boundaries t !! i = Some a → boundaries t !! j = Some b → bkey a = bkey b → i = j;
  mw_object i j a b : boundary_objects t !! i = Some a → boundary_objects t !! j = Some b →
    bkey (bo_row a) = bkey (bo_row b) → i = j;
  mw_identity x y a b : identities t !! x = Some a → identities t !! y = Some b →
    x.2 = y.2 → id_provider a = id_provider b → id_kind a = id_kind b → id_value a = id_value b → x = y;
  mw_boundary_lab i b : boundaries t !! i = Some b → is_Some (labs t !! bd_lab_id b);
  mw_object_lab i o : boundary_objects t !! i = Some o → is_Some (labs t !! bd_lab_id (bo_row o));
  mw_object_boundary i o : boundary_objects t !! i = Some o → is_Some (boundaries t !! bo_boundary_id o);
  mw_identity_object x r : identities t !! x = Some r →
    ∃ o, boundary_objects t !! x.1 = Some o ∧ bd_lab_id (bo_row o) = id_lab_id r
}.

(** A change of the boundary model alone, which loses nothing of it. *)
Record remodels (t t' : lab_tables) : Prop := {
  rm_labs : labs t' = labs t;
  rm_reservations : reservations t' = reservations t;
  rm_runs : reconcile_runs t' = reconcile_runs t;
  rm_findings : findings t' = findings t;
  rm_fixes : fix_actions t' = fix_actions t;
  rm_snapshots : snapshots t' = snapshots t;
  rm_events : lab_events t' = lab_events t;
  rm_wf : model_wf t → model_wf t';
  rm_boundaries i : is_Some (boundaries t !! i) → is_Some (boundaries t' !! i);
  rm_keeps_boundary key : holds_boundary t key → holds_boundary t' key;
  rm_keeps_object : model_wf t → ∀ lab_id l s, labs t !! lab_id = Some l → s ∈ object_specs l →
    holds_object t lab_id s → holds_object t' lab_id s
}.

#[export] Instance remodels_preorder : PreOrder remodels.
Proof.
  split.
  - intros t. by split.
  - intros t1 t2 t3 H12 H23. split; try (by destruct H12, H23; congruence).
    + intros Hw. by apply H23, H12.
    + intros i Hi. by apply (rm_boundaries _ _ H23), (rm_boundaries _ _ H12).
    + intros key Hk. by apply (rm_keeps_boundary _ _ H23), (rm_keeps_boundary _ _ H12).
    + intros Hw lid l s Hl Hs Ho. apply (rm_keeps_object _ _ H23) with l; [by apply H12| |done|].
      { by rewrite (rm_labs _ _ H12). }
      by apply (rm_keeps_object _ _ H12) with l.
Qed.

Lemma oldest_Some {R} (created_at : R → Z) rows kr : oldest created_at rows = Some kr → kr ∈ rows.
Proof. apply (isort_head_elem (cmp_on (λ kr, created_at kr.2) cmp_Z)). Qed.

Lemma oldest_None {R} (created_at : R → Z) (rows : list (string * R)) : oldest created_at rows = None → rows = [].
Proof. apply (isort_head_None (cmp_on (λ kr, created_at kr.2) cmp_Z)). Qed.

Lemma has_key_true `{Countable K} {R} (k : K) (t : gmap K R) : has_key k t = true ↔ is_Some (t !! k).
Proof. apply bool_decide_eq_true. Qed.

Lemma lab_fk_ok lab_id t c : is_Some (labs t !! lab_id) → lab_fk lab_id t c = None.
Proof. intros Hl. unfold lab_fk. by rewrite (proj2 (has_key_true _ _) Hl). Qed.

Lemma pk_fresh `{Countable K} {R} (id : K) (rows : gmap K R) c : rows !! id = None → pk id rows c = None.
Proof.
  intros Hid. unfold pk, has_key. rewrite bool_decide_eq_false_2; [done|].
  rewrite Hid. by intros [? ?].
Qed.

(** The tables a key is not used in. *)
Lemma not_used k t : ¬ used k t →
  labs t !! k = None ∧ boundaries t !! k = None ∧ boundary_objects t !! k = None ∧
  reservations t !! k = None ∧ reconcile_runs t !! k = None ∧ findings t !! k = None ∧
  fix_actions t !! k = None ∧ snapshots t !! k = None.
Proof.
  unfold used. intros Hu. repeat split; apply eq_None_not_Some; naive_solver.
Qed.

Section model.
Context `{LE : LabEnv} `{!LabEnvLaws LE} {W : Type}.

#[local] Notation C := (lab_conn W).
#[local] Notation M := (eff (lab_conn W)).

(** ** Boundaries *)

Lemma find_boundary_spec t lab_id provider kind name :
  match oldest bd_created_at
    (select_where (λ kr, boundary_is lab_id provider kind name kr.2 = true) (boundaries t)) with
  | Some (i, b) => boundaries t !! i = Some b ∧ bkey b = (lab_id, provider, kind, name)
  | None => ∀ i b, boundaries t !! i = Some b → bkey b ≠ (lab_id, provider, kind, name)
  end.
Proof.
  destruct (oldest _ _) as [[i b]|] eqn:E.
  - apply oldest_Some, elem_of_select_where in E as [Hb Hi]. split; [done|].
    by apply boundary_is_key.
  - apply oldest_None in E. intros i b Hi Hk.
    assert ((i, b) ∈ select_where (λ kr, boundary_is lab_id provider kind name kr.2 = true) (boundaries t)) as Hin.
    { apply elem_of_select_where. split; [by apply boundary_is_key|done]. }
    rewrite E in Hin. by apply not_elem_of_nil in Hin.
Qed.

Lemma find_object_spec t lab_id provider kind name :
  match oldest (λ o, bd_created_at (bo_row o))
    (select_where (λ kr, boundary_is lab_id provider kind name (bo_row kr.2) = true) (boundary_objects t)) with
  | Some (i, o) => boundary_objects t !! i = Some o ∧ bkey (bo_row o) = (lab_id, provider, kind, name)
  | None => ∀ i o, boundary_objects t !! i = Some o → bkey (bo_row o) ≠ (lab_id, provider, kind, name)
  end.
Proof.
  destruct (oldest _ _) as [[i o]|] eqn:E.
  - apply oldest_Some, elem_of_select_where in E as [Hb Hi]. split; [done|].
    by apply boundary_is_key.
  - apply oldest_None in E. intros i o Hi Hk.
    assert ((i, o) ∈ select_where (λ kr, boundary_is lab_id provider kind name (bo_row kr.2) = true)
              (boundary_objects t)) as Hin.
    { apply elem_of_select_where. split; [by apply boundary_is_key|done]. }
    rewrite E in Hin. by apply not_elem_of_nil in Hin.
Qed.

(** Writing a boundary with the key it has, or with a key no other has. *)
Lemma insert_boundary_remodels t i b :
  is_Some (labs t !! bd_lab_id b) →
  match boundaries t !! i with
  | Some b0 => bkey b = bkey b0
  | None => ∀ j a, boundaries t !! j = Some a → bkey a ≠ bkey b
  end →
  remodels t (on_boundaries <[i := b]> t).
Proof.
  intros Hlab Hi.
  assert (∀ j a, boundaries t !! j = Some a → bkey a = bkey b → j = i ∨ is_Some (boundaries t !! i)) as Hkey.
  { intros j a Hj Hk. destruct (boundaries t !! i) eqn:E; [right; eauto|]. by destruct (Hi j a). }
  split; try done; simpl.
  - intros Hw. split; simpl; try apply Hw.
    + intros j k a a' Hj Hk Hab.
      apply lookup_insert_Some in Hj as [[-> <-]|[Hij Hj]];
        apply lookup_insert_Some in Hk as [[-> <-]|[Hik Hk]]; try done.
      * destruct (boundaries t !! j) as [b0|] eqn:E; [|by destruct (Hi k a')].
        eapply (mw_boundary _ Hw); [exact E|exact Hk|]. congruence.
      * destruct (boundaries t !! k) as [b0|] eqn:E; [|by destruct (Hi j a)].
        eapply (mw_boundary _ Hw); [exact Hj|exact E|]. congruence.
      * by eapply (mw_boundary _ Hw).
    + intros j a [[-> <-]|[_ Hj]]%lookup_insert_Some; [done|]. by eapply (mw_boundary_lab _ Hw).
    + intros j o Hj. destruct (mw_object_boundary _ Hw j o Hj) as [b0 Hb0].
      destruct (decide (bo_boundary_id o = i)) as [->|]; [rewrite lookup_insert_eq; eauto|].
      rewrite lookup_insert_ne by done. eauto.
  - intros j [a Hj]. destruct (decide (j = i)) as [->|]; [rewrite lookup_insert_eq; eauto|].
    rewrite lookup_insert_ne by done. eauto.
  - intros key (j & a & Hj & Hk). destruct (decide (j = i)) as [->|].
    + exists i, b. simpl. rewrite lookup_insert_eq. split; [done|]. rewrite Hj in Hi. congruence.
    + exists j, a. simpl. rewrite lookup_insert_ne by done. done.
Qed.

Definition boundary_written (key : string * string * string * string) (row : string * boundary) (c : C) : Prop :=
  boundaries (seen c) !! row.1 = Some row.2 ∧ bkey row.2 = key.

Lemma runs_find_boundary E R `{!PreOrder R} lab_id provider kind name (c : C) Q :
  ready_conn c →
  (∀ found, match found with
            | Some (i, b) => boundaries (seen c) !! i = Some b ∧ bkey b = (lab_id, provider, kind, name)
            | None => ∀ i b, boundaries (seen c) !! i = Some b → bkey b ≠ (lab_id, provider, kind, name)
            end → Q found c) →
  runs E R (_find_boundary lab_id provider kind name) c Q.
Proof.
  intros Hc HQ. apply runs_query; [done|done|]. apply HQ.
  apply find_boundary_spec.
Qed.

Lemma runs_upsert_boundary E lab_id provider kind name v (c : C) :
  ready_conn c → is_Some (labs (seen c) !! lab_id) →
  runs E remodels (upsert_boundary lab_id provider kind name v false) c
    (boundary_written (lab_id, provider, kind, name)).
Proof.
  intros Hc Hlab. unfold upsert_boundary.
  eapply (runs_bind _ _ _ _ _ (λ found c', seen c' = seen c ∧ match found with
            | Some (i, b) => boundaries (seen c) !! i = Some b ∧ bkey b = (lab_id, provider, kind, name)
            | None => ∀ i b, boundaries (seen c) !! i = Some b → bkey b ≠ (lab_id, provider, kind, name)
            end)).
  { apply runs_find_boundary; [apply _|done|]. intros found Hf. done. }
  intros found c1 [Hc1 _] [Hs1 Hf].
  eapply (runs_bind _ _ _ _ _ (λ _ c', seen c' = seen c)).
  { apply runs_now; [apply _|done|]. intros n c' _ Hs _ _. congruence. }
  intros now c2 [Hc2 _] Hs2.
  eapply (runs_bind _ _ _ _ _ (boundary_written (lab_id, provider, kind, name))).
  - destruct found as [[i b]|].
    + destruct Hf as [Hi Hk].
      eapply (runs_bind _ _ _ _ _ (λ _ c', seen c' = on_boundaries <[i := updated_boundary v now b]> (seen c))).
      { apply runs_statement; [done|done|]. intros _. rewrite Hs2. split; [|split; [|split; [by left|]]].
        - apply insert_boundary_remodels; [|by rewrite Hi].
          simpl. by injection Hk as -> _ _ _.
        - intros k. unfold used; simpl. intros Hu. left.
          destruct (decide (k = i)) as [->|]; [right; left; eauto|].
          rewrite lookup_insert_ne in Hu by done. done.
        - intros c' _ Hs' _ _. done. }
      intros [] c3 [Hc3 _] Hs3. apply runs_ret; [apply _|done|].
      split; simpl; [|done]. rewrite Hs3. simpl. by rewrite lookup_insert_eq.
    + eapply (runs_bind _ _ _ _ _ (λ id c', seen c' = seen c ∧ fresh_id id c')).
      { apply runs_new_id; [apply _|done|]. intros id c' _ Hs _ Hf' _. split; [congruence|done]. }
      intros id c3 [Hc3 _] [Hs3 Hfresh].
      eapply (runs_bind _ _ _ _ _ (λ _ c',
        seen c' = on_boundaries <[id := new_boundary lab_id provider kind name v now]> (seen c))).
      { destruct Hfresh as [Hu Hh]. apply not_used in Hu as (_ & Hu & _).
        apply runs_statement; [done| |].
        - intros e. rewrite Hs3 in *. unfold first_violation. simpl.
          rewrite pk_fresh, lab_fk_ok by done. done.
        - intros _. rewrite Hs3 in *. split; [|split; [|split; [by left|]]].
          + apply insert_boundary_remodels; [done|]. rewrite Hu. done.
          + intros k. unfold used; simpl. intros Hk.
            destruct (decide (k = id)) as [->|]; [by right|]. left.
            rewrite lookup_insert_ne in Hk by done. done.
          + intros c' _ Hs' _ _. done. }
      intros [] c4 [Hc4 _] Hs4. apply runs_ret; [apply _|done|].
      split; simpl; [|done]. rewrite Hs4. simpl. by rewrite lookup_insert_eq.
  - intros row c3 [Hc3 _] Hw. exact (runs_ret E remodels row c3 _ Hc3 Hw).
Qed.

(** ** Identities *)

(** Another object is known to the provider by one of these identities. *)
Definition conflicts (t : lab_tables) (oid provider kind : string) (rows : list (string * string)) : Prop :=
  ∃ x r, identities t !! x = Some r ∧ x.1 ≠ oid ∧ id_provider r = provider ∧ id_kind r = kind ∧
         (x.2, id_value r) ∈ rows.

(** The table after the identities of an object were replaced. *)
Definition replaced (t : lab_tables) (oid lab_id provider kind : string) (rows : list (string * string))
    (m : gmap (string * string) provider_identity) : Prop :=
  ∀ x, m !! x = if decide (x.1 = oid) then ProviderIdentity lab_id provider kind <$> assoc x.2 rows
                else identities t !! x.

Lemma assoc_app {A} k (o o' : list (string * A)) :
  assoc k (o ++ o') = match assoc k o with Some v => Some v | None => assoc k o' end.
Proof. induction o as [|[k' v] o IH]; simpl; [done|]. by case_decide. Qed.

Lemma first_violation_None l : first_violation l = None ↔ Forall (λ v, v = None) l.
Proof.
  unfold first_violation. induction l as [|[v|] l IH]; simpl.
  - split; [constructor|done].
  - split; [done|]. by intros [? _]%Forall_cons.
  - rewrite IH. split; [by constructor|]. by intros [_ ?]%Forall_cons.
Qed.

Lemma on_identities_const t m m' :
  on_identities (λ _, m') (on_identities (λ _, m) t) = on_identities (λ _, m') t.
Proof. done. Qed.

Lemma used_on_identities k f t : used k (on_identities f t) ↔ used k t.
Proof. done. Qed.

Section replace.
Context (E : Prop) (c : C) (oid lab_id provider kind : string) (ids : json).

#[local] Notation rows := (_provider_identity_rows ids).

Definition replacing (done : list (string * string)) (c' : C) : Prop :=
  ready_conn c' ∧ durable c' = durable c ∧ ¬ conflicts (seen c) oid provider kind done ∧
  ∃ m, seen c' = on_identities (λ _, m) (seen c) ∧ replaced (seen c) oid lab_id provider kind done m.

Lemma runs_insert_identity done k v rest c' :
  is_Some (boundary_objects (seen c) !! oid) → is_Some (labs (seen c) !! lab_id) →
  NoDup rows.*1 → E ∨ ¬ conflicts (seen c) oid provider kind rows →
  rows = done ++ (k, v) :: rest → replacing done c' →
  runs E any_change (insert_identity oid lab_id provider kind k v) c'
    (λ _ c'', replacing (done ++ [(k, v)]) c'').
Proof.
  intros Ho Hlab Hnd HE Hrows (Hr & Hd & Hnc & m & Hs & Hm).
  assert (assoc k done = None) as Hnew.
  { apply assoc_None. rewrite Hrows, fmap_app in Hnd. apply NoDup_app in Hnd as (_ & Hnd & _).
    intros Hin. by apply (Hnd k Hin); left. }
  assert (∀ x, x ∈ done → x ∈ rows) as Hsub by (intros x Hx; rewrite Hrows; set_solver).
  assert ((k, v) ∈ rows) as Hkv by (rewrite Hrows; set_solver).
  assert (identity_taken provider kind k v (seen c') = true →
          conflicts (seen c) oid provider kind [(k, v)]) as Htaken.
  { unfold identity_taken. rewrite exists_where_true. intros (x & r & Hx & <- & Hp & Hk & Hv).
    rewrite Hs in Hx. simpl in Hx. rewrite Hm in Hx. simpl in *. case_decide as Hx1.
    - apply fmap_Some in Hx as (v' & Hx & ->). congruence.
    - exists x, r. split; [done|]. split; [done|]. split; [done|]. split; [done|].
      rewrite <- Hv. destruct x. by left. }
  apply runs_statement; [done| |].
  - intros e He. destruct HE as [HE|Hno]; [done|]. exfalso.
    assert (first_violation [pk (oid, k) (identities (seen c')) "lab_boundary_object_provider_identities_pkey";
      (if identity_taken provider kind k v (seen c')
       then Some (IntegrityError "lab_boundary_object_provider_identities_provider_kind_key") else None);
      (if has_key oid (boundary_objects (seen c')) then None
       else Some (CustomError "ForeignKeyViolation" "boundary_object_id_fkey"));
      lab_fk lab_id (seen c') "lab_boundary_object_provider_identities_lab_id_fkey"] = None) as Hnone;
      [|congruence].
    apply first_violation_None. repeat constructor.
    + apply pk_fresh. rewrite Hs. simpl. rewrite Hm. simpl. by rewrite decide_True, Hnew by done.
    + destruct (identity_taken _ _ _ _ _) eqn:Et; [|done]. exfalso. apply Hno.
      destruct (Htaken eq_refl) as (x & r & Hx). exists x, r. destruct_and!. split_and!; try done.
      set_solver.
    + rewrite Hs. simpl. by rewrite (proj2 (has_key_true _ _) Ho).
    + apply lab_fk_ok. by rewrite Hs.
  - intros Hnone. apply first_violation_None in Hnone.
    repeat (apply Forall_cons in Hnone as [? Hnone]).
    assert (identity_taken provider kind k v (seen c') = false) as Hfree.
    { destruct (identity_taken _ _ _ _ _); done. }
    split; [done|]. split; [intros i Hi; left; by rewrite used_on_identities in Hi|].
    split; [by left|]. intros c'' Hr'' Hs'' Hd'' _. split; [done|]. split; [congruence|]. split.
    { intros (x & r & Hx & Hx1 & Hp & Hk & Hin). apply elem_of_app in Hin as [Hin|Hin].
      - apply Hnc. by exists x, r.
      - apply list_elem_of_singleton in Hin as [= Hxk Hv].
        apply not_true_iff_false in Hfree. apply Hfree, exists_where_true. exists x, r.
        rewrite Hs. simpl. rewrite Hm. rewrite decide_False by done. done. }
    exists (<[(oid, k) := ProviderIdentity lab_id provider kind v]> m). split; [by rewrite Hs'', Hs|].
    intros x. rewrite assoc_app. destruct (decide (x = (oid, k))) as [->|Hne].
    + rewrite lookup_insert_eq. simpl. rewrite decide_True, Hnew by done. simpl. by rewrite decide_True.
    + rewrite lookup_insert_ne, Hm by done. case_decide as Hx1; [|done].
      destruct (assoc x.2 done) eqn:Ea; [done|]. simpl. rewrite decide_False; [done|].
      intros Hk. apply Hne. destruct x; simpl in *; congruence.
Qed.

Lemma runs_replace_identities :
  ready_conn c → is_Some (boundary_objects (seen c) !! oid) → is_Some (labs (seen c) !! lab_id) →
  NoDup rows.*1 → E ∨ ¬ conflicts (seen c) oid provider kind rows →
  runs E any_change (_replace_boundary_object_provider_identities oid lab_id provider kind ids) c
    (λ _ c', replacing rows c').
Proof.
  intros Hc Ho Hlab Hnd HE. unfold _replace_boundary_object_provider_identities.
  eapply (runs_bind _ _ _ _ _ (λ _ c', replacing [] c')).
  { apply runs_statement; [done|done|]. intros _. split; [done|]. split; [by left|]. split; [by left|].
    intros c' Hr Hs Hd _. split; [done|]. split; [done|]. split; [intros (?&?&?); set_solver|].
    eexists. split; [exact Hs|]. intros x. case_decide as Hx.
    - apply map_lookup_filter_None. right. intros r _ Hne. by apply Hne.
    - destruct (identities (seen c) !! x) as [r|] eqn:Er.
      + by apply map_lookup_filter_Some.
      + apply map_lookup_filter_None. by left. }
  intros [] c1 Hm1 H1.
  assert (∀ done x rest c', rows = done ++ x :: rest → replacing done c' →
    runs E any_change (insert_identity oid lab_id provider kind x.1 x.2) c' (λ _ c'', replacing (done ++ [x]) c''))
    as Hstep.
  { intros done [k v] rest c' Hrows Hrep. by eapply runs_insert_identity. }
  pose proof (runs_for_each E any_change rows
    (λ kv, insert_identity oid lab_id provider kind kv.1 kv.2) c1 replacing (mv_ready _ _ _ Hm1) H1) as Hloop.
  apply Hloop. intros done x rest c' Hrows _ Hrep. by eapply Hstep.
Qed.
End replace.

(** ** Objects *)

(** No two objects of a lab are of the same kind. *)
Lemma object_specs_inj l s s' :
  s ∈ object_specs l → s' ∈ object_specs l → os_provider s = os_provider s' → os_kind s = os_kind s' → s = s'.
Proof.
  intros Hs Hs' Hp Hk.
  assert (NoDup ((λ s, (os_provider s, os_kind s)) <$> object_specs l)) as Hnd.
  { simpl. by eapply bool_decide_unpack; vm_compute. }
  eapply NoDup_fmap_elem_inj; [exact Hnd|done|done|]. simpl. congruence.
Qed.

Lemma spec_rows_keys l s : s ∈ object_specs l → NoDup (spec_rows s).*1.
Proof.
  intros Hs.
  assert (∀ o, NoDup (PyStr.strip <$> o.*1) → NoDup (_provider_identity_rows (texts o)).*1) as Htexts.
  { intros o. unfold texts, _provider_identity_rows. rewrite <- !list_fmap_compose.
    induction o as [|[k v] o IH]; simpl; [done|].
    intros [Hk Hnd]%NoDup_cons. rewrite filter_cons. case_decide; [|auto].
    simpl. apply NoDup_cons. split; [|auto]. contradict Hk.
    apply list_elem_of_fmap in Hk as (x & -> & [_ Hx]%list_elem_of_filter).
    apply list_elem_of_fmap in Hx as (y & -> & Hy). apply list_elem_of_fmap. by exists y. }
  unfold spec_rows, object_specs, sdn_subnet_ids in *.
  repeat (apply elem_of_cons in Hs as [->|Hs]; [apply Htexts; by eapply bool_decide_unpack; vm_compute|]).
  by apply not_elem_of_nil in Hs.
Qed.

(** An object written with its identities. *)
Lemma write_object_remodels t lab_id l s oid o m :
  labs t !! lab_id = Some l → s ∈ object_specs l → bkey (bo_row o) = spec_key lab_id s →
  is_Some (boundaries t !! bo_boundary_id o) →
  match boundary_objects t !! oid with
  | Some o0 => bkey (bo_row o0) = spec_key lab_id s
  | None => ∀ j a, boundary_objects t !! j = Some a → bkey (bo_row a) ≠ spec_key lab_id s
  end →
  ¬ conflicts t oid (os_provider s) (os_kind s) (spec_rows s) →
  replaced t oid lab_id (os_provider s) (os_kind s) (spec_rows s) m →
  let t' := on_identities (λ _, m) (on_boundary_objects <[oid := o]> t) in
  remodels t t' ∧ holds_object t' lab_id s.
Proof.
  intros Hl Hs Hkey Hb Hoid Hnc Hm t'.
  assert (holds_object t' lab_id s) as Hholds.
  { exists oid, o. simpl. rewrite lookup_insert_eq. split; [done|]. split; [done|].
    intros k v Hkv. exists (ProviderIdentity lab_id (os_provider s) (os_kind s) v). rewrite Hm. simpl.
    rewrite decide_True by done. pose proof (assoc_NoDup k (spec_rows s) v) as Ha.
    rewrite Ha; [done| |done]. by eapply spec_rows_keys. }
  split; [|done]. split; try done; simpl.
  - intros Hw. split; simpl; try apply Hw.
    + intros i j a b Hi Hj Hab.
      apply lookup_insert_Some in Hi as [[-> <-]|[Hne Hi]];
        apply lookup_insert_Some in Hj as [[-> <-]|[Hne' Hj]]; try done.
      * destruct (boundary_objects t !! i) as [o0|] eqn:E; [|destruct (Hoid j b Hj); congruence].
        eapply (mw_object _ Hw); [exact E|exact Hj|]. congruence.
      * destruct (boundary_objects t !! j) as [o0|] eqn:E; [|destruct (Hoid i a Hi); congruence].
        eapply (mw_object _ Hw); [exact Hi|exact E|]. congruence.
      * by eapply (mw_object _ Hw).
    + intros [xo xk] [yo yk] a b. rewrite !Hm. simpl. intros Ha Hb' <- Hp Hk Hv.
      assert (∀ zo r r' , zo ≠ oid → identities t !! (zo, xk) = Some r →
        ProviderIdentity lab_id (os_provider s) (os_kind s) <$> assoc xk (spec_rows s) = Some r' →
        id_provider r = id_provider r' → id_kind r = id_kind r' → id_value r = id_value r' → False) as Hmixed.
      { intros zo r r' Hzo Hr Hr' Hp' Hk' Hv'. apply fmap_Some in Hr' as (v & Hv0 & ->).
        apply Hnc. exists (zo, xk), r. simpl in *. apply assoc_elem in Hv0. by subst. }
      destruct (decide (xo = oid)) as [->|], (decide (yo = oid)) as [->|]; [done| | |].
      * exfalso. by apply (Hmixed yo b a).
      * exfalso. by apply (Hmixed xo a b).
      * by eapply (mw_identity _ Hw).
    + intros i a [[-> <-]|[_ Hi]]%lookup_insert_Some; [|by eapply (mw_object_lab _ Hw)].
      assert (bd_lab_id (bo_row o) = lab_id) as -> by (unfold bkey, spec_key in Hkey; congruence). eauto.
    + intros i a [[-> <-]|[_ Hi]]%lookup_insert_Some; [done|by eapply (mw_object_boundary _ Hw)].
    + intros [xo xk] r. rewrite Hm. simpl. case_decide as Hxo.
      * intros (v & _ & ->)%fmap_Some. exists o. subst. rewrite lookup_insert_eq. split; [done|].
        unfold bkey, spec_key in Hkey. simpl. congruence.
      * intros Hx. destruct (mw_identity_object _ Hw _ _ Hx) as (o0 & Ho0 & Hlab). exists o0. simpl in *.
        by rewrite lookup_insert_ne by done.
  - intros Hw lid l' s' Hl' Hs' (oid' & o' & Ho' & Hkey' & Hids).
    destruct (decide (oid' = oid)) as [->|Hne].
    + rewrite Ho' in Hoid. rewrite Hoid in Hkey'. unfold spec_key in Hkey'. injection Hkey' as <- Hp Hk _.
      rewrite Hl in Hl'. injection Hl' as <-. by rewrite <- (object_specs_inj l s s').
    + exists oid', o'. simpl. rewrite lookup_insert_ne by done. split; [done|]. split; [done|].
      intros k v Hkv. rewrite Hm. simpl. rewrite decide_False by done. by apply Hids.
Qed.

Lemma holds_no_conflict t lab_id s oid o :
  model_wf t → holds_object t lab_id s → boundary_objects t !! oid = Some o →
  bkey (bo_row o) = spec_key lab_id s → ¬ conflicts t oid (os_provider s) (os_kind s) (spec_rows s).
Proof.
  intros Hw (oid' & o' & Ho' & Hk' & Hids) Ho Hk (x & r & Hx & Hne & Hp & Hkd & Hin).
  assert (oid' = oid) as -> by (eapply (mw_object _ Hw); [exact Ho'|exact Ho|congruence]).
  destruct (Hids _ _ Hin) as (r' & Hr' & ? & ? & ?).
  apply Hne. assert (x = (oid, x.2)) as ->; [|done].
  eapply (mw_identity _ Hw); [exact Hx|exact Hr'|done|congruence..].
Qed.

Lemma runs_find_object E R `{!PreOrder R} lab_id provider kind name (c : C) Q :
  ready_conn c →
  (∀ found, match found with
            | Some (i, o) => boundary_objects (seen c) !! i = Some o ∧ bkey (bo_row o) = (lab_id, provider, kind, name)
            | None => ∀ i o, boundary_objects (seen c) !! i = Some o → bkey (bo_row o) ≠ (lab_id, provider, kind, name)
            end → Q found c) →
  runs E R (_find_boundary_object lab_id provider kind name) c Q.
Proof. intros Hc HQ. apply runs_query; [done|done|]. apply HQ, find_object_spec. Qed.

(** The row of an object, before its identities. *)
Definition object_placed (c : C) (lab_id : string) (boundary_id : string) (s : object_spec)
    (row : string * boundary_object) (c' : C) : Prop :=
  ready_conn c' ∧ seen c' = on_boundary_objects <[row.1 := row.2]> (seen c) ∧
  bkey (bo_row row.2) = spec_key lab_id s ∧ bo_boundary_id row.2 = boundary_id ∧
  match boundary_objects (seen c) !! row.1 with
  | Some o0 => bkey (bo_row o0) = spec_key lab_id s
  | None => ∀ j a, boundary_objects (seen c) !! j = Some a → bkey (bo_row a) ≠ spec_key lab_id s
  end.

Lemma used_insert_object k id o t :
  used k (on_boundary_objects <[id := o]> t) → used k t ∨ k = id.
Proof.
  unfold used; simpl. destruct (decide (k = id)) as [->|]; [by right|].
  rewrite lookup_insert_ne by done. by left.
Qed.

Lemma runs_upsert_object E lab_id boundary_id l s v (c : C) :
  ready_conn c → model_wf (seen c) → labs (seen c) !! lab_id = Some l → s ∈ object_specs l →
  os_ids s = bv_provider_ids v → is_Some (boundaries (seen c) !! boundary_id) →
  E ∨ holds_object (seen c) lab_id s →
  runs E remodels (upsert_boundary_object lab_id boundary_id (os_provider s) (os_kind s) (os_name s) v false) c
    (λ _ c', holds_object (seen c') lab_id s).
Proof.
  intros Hc Hw Hl Hs Hids Hb HE. apply runs_step. unfold upsert_boundary_object.
  eapply (runs_bind _ _ _ _ _ (λ found c', seen c' = seen c ∧ match found with
            | Some (i, o) => boundary_objects (seen c) !! i = Some o ∧ bkey (bo_row o) = spec_key lab_id s
            | None => ∀ i o, boundary_objects (seen c) !! i = Some o → bkey (bo_row o) ≠ spec_key lab_id s
            end)).
  { apply runs_find_object; [apply _|done|]. intros found Hf. done. }
  intros found c1 [Hc1 _] [Hs1 Hf].
  eapply (runs_bind _ _ _ _ _ (λ _ c', seen c' = seen c)).
  { apply runs_now; [apply _|done|]. intros n c' _ Hs' _ _. congruence. }
  intros now c2 [Hc2 _] Hs2.
  assert (has_key boundary_id (boundaries (seen c)) = true) as Hbk by (by apply has_key_true).
  eapply (runs_bind _ _ _ _ _ (object_placed c lab_id boundary_id s)).
  { destruct found as [[i o]|].
    - destruct Hf as [Hi Hk].
      eapply (runs_bind _ _ _ _ _ (λ _ c', seen c' = on_boundary_objects
        <[i := BoundaryObject boundary_id (updated_boundary v now (bo_row o))]> (seen c))).
      { apply runs_statement; [done| |].
        - intros e. by rewrite Hs2, Hbk.
        - intros _. rewrite Hs2. split; [done|]. split; [|split; [by left|]].
          + intros k [Hk'| ->]%used_insert_object; left; [done|]. right; right; left; eauto.
          + intros c' _ Hs' _ _. done. }
      intros [] c3 [Hc3 _] Hs3. apply runs_ret; [apply _|done|].
      split; [done|]. simpl. rewrite Hi. done.
    - eapply (runs_bind _ _ _ _ _ (λ id c', seen c' = seen c ∧ fresh_id id c')).
      { apply runs_new_id; [apply _|done|]. intros id c' _ Hs' _ Hf' _. split; [congruence|done]. }
      intros id c3 [Hc3 _] [Hs3 Hfresh].
      destruct Hfresh as [Hu Hh]. apply not_used in Hu as (_ & _ & Hu & _).
      eapply (runs_bind _ _ _ _ _ (λ _ c', seen c' = on_boundary_objects
        <[id := BoundaryObject boundary_id
                  (new_boundary lab_id (os_provider s) (os_kind s) (os_name s) v now)]> (seen c))).
      { apply runs_statement; [done| |].
        - intros e. rewrite Hs3 in *. unfold first_violation. simpl.
          rewrite pk_fresh, lab_fk_ok, Hbk by eauto. done.
        - intros _. rewrite Hs3 in *. split; [done|]. split; [|split; [by left|]].
          + intros k [Hk'| ->]%used_insert_object; auto.
          + intros c' _ Hs' _ _. done. }
      intros [] c4 [Hc4 _] Hs4. apply runs_ret; [apply _|done|].
      split; [done|]. simpl. rewrite Hs3 in Hu. rewrite Hu. done. }
  intros [oid o] c3 _ (Hc3 & Hs3 & Hkey & Hbid & Hoid). simpl in *.
  eapply (runs_bind _ _ _ _ _ (λ _ c', ready_conn c' ∧ remodels (seen c) (seen c') ∧ holds_object (seen c') lab_id s)).
  { eapply runs_mono; [apply (runs_replace_identities E c3 oid lab_id (os_provider s) (os_kind s))|].
    - done.
    - rewrite Hs3. simpl. rewrite lookup_insert_eq. eauto.
    - rewrite Hs3. simpl. eauto.
    - rewrite <- Hids. by eapply spec_rows_keys.
    - destruct HE as [HE|Hholds]; [by left|right]. rewrite <- Hids, Hs3.
      destruct (boundary_objects (seen c) !! oid) as [o0|] eqn:Eo.
      + pose proof (holds_no_conflict _ _ _ _ _ Hw Hholds Eo Hoid) as Hnc.
        intros (x & r & ?). apply Hnc. by exists x, r.
      + destruct Hholds as (j & a & Ha & Hka & _). by destruct (Hoid j a Ha).
    - simpl. intros _ c' _ (Hr & _ & Hnc & m & Hm & Hrep). rewrite <- Hids, Hs3 in *.
      split; [done|]. rewrite Hm.
      apply (write_object_remodels (seen c) lab_id l s oid o m); try done.
      by rewrite Hbid. }
  intros [] c4 _ (Hc4 & Hrm & Hholds).
  exact (runs_ret E any_change (oid, o) c4 (λ _ c', remodels (seen c) (seen c') ∧ holds_object (seen c') lab_id s)
           Hc4 (conj Hrm Hholds)).
Qed.

(** ** Writing the model of one lab *)

Section one_lab.
Context (E : Prop) (lab_id : string) (l : lab).

(** In the course of it: what has been written so far; every object is there already, or
    it may fail. *)
Record modelling (done : list object_spec) (keys : list (string * string * string * string))
    (ids : list string) (c : C) : Prop := {
  md_ready : ready_conn c;
  md_wf : model_wf (seen c);
  md_lab : labs (seen c) !! lab_id = Some l;
  md_done s : s ∈ done → holds_object (seen c) lab_id s;
  md_specs s : s ∈ done → s ∈ object_specs l;
  md_keys key : key ∈ keys → holds_boundary (seen c) key;
  md_ids i : i ∈ ids → is_Some (boundaries (seen c) !! i);
  md_may : E ∨ ∀ s, s ∈ object_specs l → holds_object (seen c) lab_id s
}.

Lemma modelling_moves done keys ids c c' :
  modelling done keys ids c → moves remodels c c' → modelling done keys ids c'.
Proof.
  intros [Hr Hw Hl Hd Hs Hk Hi Hm] [Hr' Hmv]. split; try done.
  - by apply Hmv.
  - by rewrite (rm_labs _ _ Hmv).
  - intros s Hin. eapply (rm_keeps_object _ _ Hmv); eauto.
  - intros key Hin. apply Hmv. auto.
  - intros i Hin. apply (rm_boundaries _ _ Hmv). auto.
  - destruct Hm as [Hm|Hm]; [by left|right]. intros s Hin. eapply (rm_keeps_object _ _ Hmv); eauto.
Qed.

Lemma step_boundary provider kind name v done keys ids c {B} (f : string * boundary → M B) Q :
  modelling done keys ids c →
  (∀ row c', modelling done ((lab_id, provider, kind, name) :: keys) (row.1 :: ids) c' →
    runs E remodels (f row) c' Q) →
  runs E remodels (upsert_boundary lab_id provider kind name v false ≫= f) c Q.
Proof.
  intros Hmd Hf. eapply (runs_bind _ _ _ _ _ (boundary_written (lab_id, provider, kind, name))).
  { apply runs_upsert_boundary; [apply Hmd|]. rewrite (md_lab _ _ _ _ Hmd). eauto. }
  intros row c' Hm [Hrow Hkey]. apply Hf. destruct (modelling_moves _ _ _ _ _ Hmd Hm). split; try done.
  - intros key [->|Hin]%elem_of_cons; [by exists row.1, row.2|auto].
  - intros i [->|Hin]%elem_of_cons; [eauto|auto].
Qed.

Lemma step_object provider kind name v boundary_id done keys ids c {B} (f : string * boundary_object → M B) Q :
  let s := ObjectSpec provider kind name (bv_provider_ids v) in
  modelling done keys ids c → s ∈ object_specs l → boundary_id ∈ ids →
  (∀ row c', modelling (s :: done) keys ids c' → runs E remodels (f row) c' Q) →
  runs E remodels (upsert_boundary_object lab_id boundary_id provider kind name v false ≫= f) c Q.
Proof.
  intros s Hmd Hs Hb Hf. eapply (runs_bind _ _ _ _ _ (λ _ c', holds_object (seen c') lab_id s)).
  { apply (runs_upsert_object E lab_id boundary_id l s v c); try done; try apply Hmd; [done|].
    destruct (md_may _ _ _ _ Hmd) as [HE|Hall]; [by left|right; by apply Hall]. }
  intros row c' Hm Hholds. apply Hf. destruct (modelling_moves _ _ _ _ _ Hmd Hm). split; try done.
  - intros s' [->|Hin]%elem_of_cons; auto.
  - intros s' [->|Hin]%elem_of_cons; auto.
Qed.

Definition named : Prop := PyStr.strip (lab_sdn_zone l) ≠ EmptyString ∧ PyStr.strip (lab_sdn_vnet l) ≠ EmptyString.

Lemma shape_named (c : C) : named → _lab_network_shape l c = (Ret (shape_of l), c).
Proof.
  intros [Hz Hv]. unfold _lab_network_shape, or_compute.
  rewrite (decide_False (P := PyStr.strip (lab_sdn_zone l) = EmptyString)) by done.
  rewrite (decide_False (P := PyStr.strip (lab_sdn_vnet l) = EmptyString)) by done. done.
Qed.

Lemma step_shape c {B} (f : network_shape → M B) Q :
  named → runs E remodels (f (shape_of l)) c Q → runs E remodels (_lab_network_shape l ≫= f) c Q.
Proof. intros Hn Hf. unfold runs. rewrite run_bind, shape_named by done. exact Hf. Qed.

Lemma step_service provider kind title object_kind done keys ids c {B} (f : unit → M B) Q :
  let s := ObjectSpec provider object_kind (lab_group_tag l) (texts [("group_tag", lab_group_tag l)]) in
  modelling done keys ids c → s ∈ object_specs l →
  (∀ keys' ids' c', modelling (s :: done) (keys' ++ keys) (ids' ++ ids) c' → runs E remodels (f tt) c' Q) →
  runs E remodels (ensure_service lab_id l provider kind title object_kind ≫= f) c Q.
Proof.
  intros s Hmd Hs Hf. unfold ensure_service.
  eapply (runs_bind _ _ _ _ _ (λ _ c', ∃ keys' ids', modelling (s :: done) (keys' ++ keys) (ids' ++ ids) c')).
  - eapply step_boundary; [done|]. intros row c1 H1.
    eapply step_object; [exact H1|done|by left|]. intros row' c2 H2.
    apply runs_ret; [apply _|apply H2|]. by eexists [_], [_].
  - intros [] c' _ (keys' & ids' & H'). by eapply Hf.
Qed.

#[local] Ltac in_specs := repeat (first [by left|right]).

Definition model_written (c : C) : Prop :=
  (∀ s, s ∈ object_specs l → holds_object (seen c) lab_id s) ∧
  holds_boundary (seen c) (lab_id, "network", "reservation", network_name l) ∧
  holds_boundary (seen c) (lab_id, "proxmox", "network", sdn_name l).

Lemma runs_ensure c :
  modelling [] [] [] c → named →
  runs E remodels (ensure_lab_boundary_model lab_id l false) c (λ _ c', model_written c').
Proof.
  intros H0 Hn. unfold ensure_lab_boundary_model. apply step_shape; [done|].
  eapply step_boundary; [exact H0|]. intros nb c1 H1.
  eapply step_object; [exact H1|by in_specs|by left|]. intros ? c2 H2.
  eapply step_boundary; [exact H2|]. intros pb c3 H3.
  eapply step_object; [exact H3|by in_specs|by left|]. intros ? c4 H4.
  eapply step_object; [exact H4|by in_specs|by left|]. intros ? c5 H5.
  eapply step_object; [exact H5|by in_specs|by left|]. intros ? c6 H6.
  eapply step_service; [exact H6|by in_specs|]. intros k7 i7 c7 H7.
  eapply step_service; [exact H7|by in_specs|]. intros k8 i8 c8 H8.
  eapply step_service; [exact H8|by in_specs|]. intros k9 i9 c9 H9.
  eapply step_boundary; [exact H9|]. intros db c10 H10.
  eapply step_object; [exact H10|by in_specs|by left|]. intros ? c11 H11.
  apply (runs_ret E remodels tt); [apply H11|]. split; [|split].
  - intros s Hs. apply H11. set_unfold. naive_solver.
  - apply H11. set_unfold. naive_solver.
  - apply H11. set_unfold. naive_solver.
Qed.

Lemma step_find_boundary provider kind name c {B} (f : option (string * boundary) → M B) Q :
  ready_conn c → model_wf (seen c) → holds_boundary (seen c) (lab_id, provider, kind, name) →
  (∀ i b, boundaries (seen c) !! i = Some b → bkey b = (lab_id, provider, kind, name) →
     runs E remodels (f (Some (i, b))) c Q) →
  runs E remodels (_find_boundary lab_id provider kind name ≫= f) c Q.
Proof.
  intros Hr Hw (i & b & Hi & Hk) Hf. unfold runs. rewrite run_bind. unfold _find_boundary, query.
  rewrite (rc_spoiled _ Hr).
  pose proof (find_boundary_spec (seen c) lab_id provider kind name) as Hfound.
  destruct (oldest _ _) as [[j a]|]; [by apply Hf; destruct Hfound|].
  by destruct (Hfound i b).
Qed.

Lemma runs_sync inv status b c :
  modelling [] [] [] c → named →
  runs E remodels (sync_lab_network_current_state lab_id l inv status b) c
    (λ _ c', b = true → durable c' = seen c').
Proof.
  intros H0 Hn. unfold sync_lab_network_current_state.
  eapply runs_bind; [apply _|by apply runs_ensure|]. intros [] c1 Hm1 (_ & Hnet & Hsdn).
  pose proof (modelling_moves _ _ _ _ _ H0 Hm1) as H1. apply step_shape; [done|].
  apply step_find_boundary; [apply H1|apply H1|done|]. intros nid nb Hnid Hnkey. cbn [assert_some].
  assert (modelling [] [(lab_id, "proxmox", "network", sdn_name l)] [nid] c1) as H1'.
  { destruct H1. split; try done; try (by intros ? Hin; apply not_elem_of_nil in Hin).
    - intros key [->|Hin]%elem_of_cons; [done|by apply not_elem_of_nil in Hin].
    - intros i [->|Hin]%elem_of_cons; [eauto|by apply not_elem_of_nil in Hin]. }
  eapply (step_boundary _ _ _ _ _ _ _ c1); [exact H1'|]. intros ? c2 H2.
  eapply step_object; [exact H2|by in_specs|by right; left|]. intros ? c3 H3.
  apply step_find_boundary; [apply H3|apply H3|apply H3; by right; left|].
  intros pid pb Hpid Hpkey. cbn [assert_some].
  assert (modelling [] [] [pid] c3) as H3'.
  { destruct H3. split; try done; try (by intros ? Hin; apply not_elem_of_nil in Hin).
    - intros i [->|Hin]%elem_of_cons; [eauto|by apply not_elem_of_nil in Hin]. }
  eapply (step_boundary _ _ _ _ _ _ _ c3); [exact H3'|]. intros ? c4 H4.
  eapply step_object; [exact H4|by in_specs|by right; left|]. intros ? c5 H5.
  eapply step_object; [exact H5|by in_specs|by right; left|]. intros ? c6 H6.
  eapply step_object; [exact H6|by in_specs|by right; left|]. intros ? c7 H7.
  apply runs_commit_if; [apply _|apply H7|]. intros c' _ Hs Hd Hb. rewrite Hb in Hd. congruence.
Qed.
End one_lab.
End model.
