(* ===== verification/LabInvariant.v ===== *)
(** * Managed labs: the invariant

    What holds of the tables between requests: the boundary model, the references, unique
    reservations whose ranges are valid, settled actions with their snapshot, no pending
    action twice, and labs in good standing on disjoint networks. *)

From stdpp Require Import base gmap list strings pretty sorting.
From Stdlib Require Import ZArith Lia Ascii.
From S2P Require Import Prelude Json Text IpNetwork ProxmoxSdn LabData LabStore LabRecords LabNetwork LabReconciler LabLogic LabModel.

#[local] Open Scope Z_scope.

Definition valid_cidr (s : string) : Prop := ∃ n, ip_network s = Ret n.

(** Names are trimmed and filled in; the range is valid. *)
Record lab_ok (l : lab) : Prop := {
  ok_zone : PyStr.strip (lab_sdn_zone l) = lab_sdn_zone l;
  ok_zone_named : lab_sdn_zone l ≠ EmptyString;
  ok_vnet : PyStr.strip (lab_sdn_vnet l) = lab_sdn_vnet l;
  ok_vnet_named : lab_sdn_vnet l ≠ EmptyString;
  ok_subnet : PyStr.strip (lab_sdn_subnet l) = lab_sdn_subnet l;
  ok_cidr : PyStr.strip (lab_network_cidr l) = lab_network_cidr l;
  ok_cidr_valid : valid_cidr (lab_network_cidr l);
  ok_status : lab_status l ∈ LAB_STATUSES
}.

(** The lab's plan was accepted: its network is there or is being built. *)
Definition standing (l : lab) : Prop := lab_status l ∈ ["fixing"; "ready"].

Definition ranges_disjoint (a b : string) : Prop :=
  ∀ m n, ip_network a = Ret m → ip_network b = Ret n → overlaps m n = false.

(** The lab holds the reservation of its range. *)
Definition holds_cidr (t : lab_tables) (lab_id : string) (l : lab) : Prop :=
  ∃ i r, reservations t !! i = Some r ∧ rv_type r = "cidr" ∧ rv_value r = lab_network_cidr l ∧
         rv_lab_id r = lab_id.

Definition run_exists (t : lab_tables) (r : option string) : Prop :=
  match r with Some i => is_Some (reconcile_runs t !! i) | None => True end.

(** The snapshot that was taken before an action was executed. *)
Definition pre_fix_snapshot (t : lab_tables) (lab_id sid : string) : Prop :=
  sid ≠ EmptyString ∧ ∃ s, snapshots t !! sid = Some s ∧ sn_lab_id s = lab_id ∧ sn_type s = "pre_fix".

Record fix_ok (t : lab_tables) (f : fix_action) : Prop := {
  fo_lab : is_Some (labs t !! fx_lab_id f);
  fo_run : run_exists t (fx_run_id f);
  fo_provider : fx_provider f = "proxmox";
  fo_type : fx_action_type f ∈ SUPPORTED_ACTIONS;
  fo_status : fx_status f ∈ ["pending"; "fixed"; "failed"; "superseded"];
  fo_settled : terminal (fx_status f) = true → ∃ sid, fx_snapshot_id f = Some sid ∧ pre_fix_snapshot t (fx_lab_id f) sid
}.

Definition same_request (f g : fix_action) : Prop :=
  fx_lab_id f = fx_lab_id g ∧ fx_provider f = fx_provider g ∧ fx_action_type f = fx_action_type g ∧
  jsonb_eq (fx_request f) (fx_request g) = true.

Record lab_wf (t : lab_tables) : Prop := {
  lw_model : model_wf t;
  lw_lab i l : labs t !! i = Some l → i ≠ EmptyString ∧ lab_ok l;
  lw_slug i j a b : labs t !! i = Some a → labs t !! j = Some b → lab_slug a = lab_slug b → i = j;
  lw_specs i l s : labs t !! i = Some l → s ∈ object_specs l → holds_object t i s;
  lw_reservation i r : reservations t !! i = Some r → is_Some (labs t !! rv_lab_id r) ∧ rv_status r = "active";
  lw_reserved_once i j a b : reservations t !! i = Some a → reservations t !! j = Some b →
    rv_type a = rv_type b → rv_value a = rv_value b → i = j;
  lw_cidr i r : reservations t !! i = Some r → rv_type r = "cidr" → valid_cidr (rv_value r);
  lw_run i r : reconcile_runs t !! i = Some r → is_Some (labs t !! rr_lab_id r);
  lw_finding i f : findings t !! i = Some f → is_Some (labs t !! fd_lab_id f) ∧ run_exists t (fd_run_id f);
  lw_fix i f : fix_actions t !! i = Some f → fix_ok t f;
  lw_pending i j f g : fix_actions t !! i = Some f → fix_actions t !! j = Some g →
    fx_status f = "pending" → fx_status g = "pending" → same_request f g → i = j;
  lw_snapshot i s : snapshots t !! i = Some s → is_Some (labs t !! sn_lab_id s);
  lw_event i e : lab_events t !! i = Some e → is_Some (labs t !! le_lab_id e);
  lw_standing i l : labs t !! i = Some l → standing l → holds_cidr t i l;
  lw_disjoint i j a b : labs t !! i = Some a → labs t !! j = Some b → i ≠ j →
    standing a → standing b → ranges_disjoint (lab_network_cidr a) (lab_network_cidr b)
}.

Lemma no_labs_wf : lab_wf no_labs.
Proof. split; [split|..]; simpl; intros; simplify_map_eq. Qed.

(** ** Changes that keep the invariant *)

Lemma fix_ok_change t t' f :
  (∀ i, is_Some (labs t !! i) → is_Some (labs t' !! i)) →
  (∀ i, is_Some (reconcile_runs t !! i) → is_Some (reconcile_runs t' !! i)) →
  (∀ i s, snapshots t !! i = Some s → snapshots t' !! i = Some s) →
  fix_ok t f → fix_ok t' f.
Proof.
  intros Hl Hr Hs [H1 H2 H3 H4 H5 H6]. split; try done; [by apply Hl| |].
  - destruct (fx_run_id f); simpl in *; [by apply Hr|done].
  - intros Ht. destruct (H6 Ht) as (sid & Hsid & Hne & s & Hs' & ?).
    exists sid. split; [done|]. split; [done|]. exists s. split; [by apply Hs|done].
Qed.

Lemma remodels_wf t t' : remodels t t' → lab_wf t → lab_wf t'.
Proof.
  intros [Hl Hr Hru Hf Hfx Hsn Hev Hm _ _ Hk] Hw.
  assert (∀ f, fix_ok t f → fix_ok t' f) as Hfix.
  { intros f. apply fix_ok_change; by rewrite ?Hl, ?Hru, ?Hsn. }
  split; rewrite ?Hl, ?Hr, ?Hru, ?Hf, ?Hfx, ?Hsn, ?Hev; try apply Hw.
  - by apply Hm, Hw.
  - intros i l s Hi Hs. apply (Hk (lw_model _ Hw) i l s Hi Hs). by eapply (lw_specs _ Hw).
  - unfold run_exists. rewrite Hru. apply Hw.
  - intros i f Hi. by eapply Hfix, (lw_fix _ Hw).
  - unfold holds_cidr. rewrite Hr. apply Hw.
Qed.

(** Tables that are as before, but for the rows of events. *)
Lemma insert_event_wf t i e :
  is_Some (labs t !! le_lab_id e) → lab_wf t → lab_wf (on_lab_events <[i := e]> t).
Proof.
  intros He Hw. split; simpl; try apply Hw.
  - split; simpl; apply Hw.
  - intros j f Hj. apply (fix_ok_change t); [done..|]. by eapply (lw_fix _ Hw).
  - intros j e' [[-> <-]|[_ Hj]]%lookup_insert_Some; [done|by eapply (lw_event _ Hw)].
Qed.

Lemma set_findings_wf t m :
  (∀ i f, m !! i = Some f → is_Some (labs t !! fd_lab_id f) ∧ run_exists t (fd_run_id f)) →
  lab_wf t → lab_wf (on_findings (λ _, m) t).
Proof.
  intros Hm Hw. split; simpl; try apply Hw; [split; simpl; apply Hw|done|].
  intros j f Hj. apply (fix_ok_change t); [done..|]. by eapply (lw_fix _ Hw).
Qed.

Lemma set_fixes_wf t m :
  (∀ i f, m !! i = Some f → fix_ok t f) →
  (∀ i j f g, m !! i = Some f → m !! j = Some g → fx_status f = "pending" → fx_status g = "pending" →
     same_request f g → i = j) →
  lab_wf t → lab_wf (on_fix_actions (λ _, m) t).
Proof.
  intros Hm Hp Hw. split; simpl; try apply Hw; [split; simpl; apply Hw| |exact Hp].
  intros j f Hj. apply (fix_ok_change t); [done..|]. by eapply Hm.
Qed.

Lemma insert_snapshot_wf t i s :
  is_Some (labs t !! sn_lab_id s) → snapshots t !! i = None → lab_wf t → lab_wf (on_snapshots <[i := s]> t).
Proof.
  intros Hs Hi Hw. split; simpl; try apply Hw; [split; simpl; apply Hw| |].
  - intros j f Hj. apply (fix_ok_change t); [done|done| |by eapply (lw_fix _ Hw)].
    intros k s' Hk. simpl. rewrite lookup_insert_ne; [done|congruence].
  - intros j s' [[-> <-]|[_ Hj]]%lookup_insert_Some; [done|by eapply (lw_snapshot _ Hw)].
Qed.

Lemma set_runs_wf t m :
  (∀ i, is_Some (reconcile_runs t !! i) → is_Some (m !! i)) →
  (∀ i r, m !! i = Some r → is_Some (labs t !! rr_lab_id r)) →
  lab_wf t → lab_wf (on_reconcile_runs (λ _, m) t).
Proof.
  intros Hm Hr Hw. split; simpl; try apply Hw; [split; simpl; apply Hw|done| |].
  - intros i f Hi. destruct (lw_finding _ Hw i f Hi) as [? Hrun]. split; [done|].
    destruct (fd_run_id f); simpl in *; [by apply Hm|done].
  - intros j f Hj. apply (fix_ok_change t); [done|done|done|by eapply (lw_fix _ Hw)].
Qed.

(** A reservation is written: a new one, or one with the same owner and value. *)
Lemma insert_reservation_wf t i r :
  is_Some (labs t !! rv_lab_id r) → rv_status r = "active" → (rv_type r = "cidr" → valid_cidr (rv_value r)) →
  match reservations t !! i with
  | Some r0 => rv_lab_id r0 = rv_lab_id r ∧ rv_type r0 = rv_type r ∧ rv_value r0 = rv_value r
  | None => ∀ j a, reservations t !! j = Some a → rv_type a = rv_type r → rv_value a ≠ rv_value r
  end →
  lab_wf t → lab_wf (on_reservations <[i := r]> t).
Proof.
  intros Hlab Hst Hc Hi Hw. split; simpl; try apply Hw; [split; simpl; apply Hw|..].
  - intros j r' [[-> <-]|[_ Hj]]%lookup_insert_Some; [done|by eapply (lw_reservation _ Hw)].
  - intros j k a b Hj Hk Hty Hv.
    apply lookup_insert_Some in Hj as [[-> <-]|[Hne Hj]];
      apply lookup_insert_Some in Hk as [[-> <-]|[Hne' Hk]]; try done.
    + destruct (reservations t !! j) as [r0|] eqn:E; [|by destruct (Hi k b)].
      eapply (lw_reserved_once _ Hw); [exact E|exact Hk|..]; destruct_and!; congruence.
    + destruct (reservations t !! k) as [r0|] eqn:E; [|by destruct (Hi j a)].
      eapply (lw_reserved_once _ Hw); [exact Hj|exact E|..]; destruct_and!; congruence.
    + by eapply (lw_reserved_once _ Hw).
  - intros j r' [[-> <-]|[_ Hj]]%lookup_insert_Some; [done|by eapply (lw_cidr _ Hw)].
  - intros j f Hj. apply (fix_ok_change t); [done|done|done|by eapply (lw_fix _ Hw)].
  - intros j l Hj Hst'. destruct (lw_standing _ Hw j l Hj Hst') as (k & r' & Hk & Hty & Hv & Hl).
    destruct (decide (k = i)) as [->|].
    + exists i, r. simpl. rewrite lookup_insert_eq. rewrite Hk in Hi. destruct_and!.
      split; [done|]. split; [congruence|]. split; congruence.
    + exists k, r'. simpl. by rewrite lookup_insert_ne by done.
Qed.

(** What is known to be free of overlap may become a lab in good standing. *)
Definition accepted (t : lab_tables) (lab_id : string) (l : lab) : Prop :=
  holds_cidr t lab_id l ∧
  ∀ i r, reservations t !! i = Some r → rv_type r = "cidr" → rv_lab_id r ≠ lab_id →
    ranges_disjoint (lab_network_cidr l) (rv_value r).

Lemma ranges_disjoint_comm a b : ranges_disjoint a b → ranges_disjoint b a.
Proof.
  intros H m n Hm Hn. rewrite overlaps_comm by (by eapply ip_network_wf). by apply H.
Qed.

(** The status and the run of a lab change. *)
Lemma alter_lab_wf t lab_id l status count run now :
  labs t !! lab_id = Some l → status ∈ LAB_STATUSES →
  (status ∈ ["fixing"; "ready"] → accepted t lab_id l) →
  lab_wf t → lab_wf (on_labs (alter (set_lab_run status count run now) lab_id) t).
Proof.
  intros Hl Hst Hacc Hw. set (g := set_lab_run status count run now).
  assert (∀ i, is_Some (labs t !! i) → is_Some (alter g lab_id (labs t) !! i)) as Hsome.
  { intros i [a Hi]. destruct (decide (i = lab_id)) as [->|]; [rewrite lookup_alter_eq, Hi; eauto|].
    rewrite lookup_alter_ne, Hi by done. eauto. }
  assert (∀ i a, alter g lab_id (labs t) !! i = Some a →
    ∃ a0, labs t !! i = Some a0 ∧ (i = lab_id ∧ a = g a0 ∨ i ≠ lab_id ∧ a = a0)) as Hinv.
  { intros i a. destruct (decide (i = lab_id)) as [->|].
    - rewrite lookup_alter_eq. intros (a0 & Ha0 & ->)%fmap_Some. eauto 10.
    - rewrite lookup_alter_ne by done. eauto 10. }
  assert (∀ i a j b, alter g lab_id (labs t) !! i = Some a → labs t !! j = Some b → i = j →
    object_specs a = object_specs b) as Hspecs.
  { intros i a j b Hi Hj <-. destruct (Hinv i a Hi) as (a0 & Ha0 & [[-> ->]|[_ ->]]);
      rewrite Ha0 in Hj; injection Hj as <-; done. }
  split; simpl; try apply Hw.
  - destruct (lw_model _ Hw) as [? ? ? Hb Ho ? ?]. split; simpl; try done; eauto.
  - intros i a Hi. destruct (Hinv i a Hi) as (a0 & Ha0 & Ha).
    destruct (lw_lab _ Hw i a0 Ha0) as [? Hok]. split; [done|].
    destruct Ha as [[_ ->]|[_ ->]]; [by destruct Hok; split|done].
  - intros i j a b Hi Hj Hab.
    destruct (Hinv i a Hi) as (a0 & Ha0 & Ha); destruct (Hinv j b Hj) as (b0 & Hb0 & Hb).
    apply (lw_slug _ Hw i j a0 b0 Ha0 Hb0). destruct Ha as [[_ ->]|[_ ->]], Hb as [[_ ->]|[_ ->]]; done.
  - intros i a s Hi Hs. destruct (Hinv i a Hi) as (a0 & Ha0 & _).
    rewrite (Hspecs i a i a0 Hi Ha0 eq_refl) in Hs.
    destruct (lw_specs _ Hw i a0 s Ha0 Hs) as (oid & o & ?). by exists oid, o.
  - intros i r Hi. destruct (lw_reservation _ Hw i r Hi). auto.
  - intros i r Hi. apply Hsome. by eapply (lw_run _ Hw).
  - intros i f Hi. destruct (lw_finding _ Hw i f Hi). auto.
  - intros i f Hi. apply (fix_ok_change t); [done|done|done|by eapply (lw_fix _ Hw)].
  - intros i s Hi. apply Hsome. by eapply (lw_snapshot _ Hw).
  - intros i e Hi. apply Hsome. by eapply (lw_event _ Hw).
  - intros i a Hi Hsta. destruct (Hinv i a Hi) as (a0 & Ha0 & [[-> ->]|[_ ->]]).
    + rewrite Hl in Ha0. injection Ha0 as <-. by apply Hacc in Hsta as [? _].
    + by apply (lw_standing _ Hw).
  - intros i j a b Hi Hj Hij Hsa Hsb.
    destruct (Hinv i a Hi) as (a0 & Ha0 & Ha); destruct (Hinv j b Hj) as (b0 & Hb0 & Hb).
    destruct Ha as [[-> ->]|[Hni ->]], Hb as [[-> ->]|[Hnj ->]]; try done.
    + rewrite Hl in Ha0. injection Ha0 as <-. apply Hacc in Hsa as [_ Hfree].
      destruct (lw_standing _ Hw j b0 Hb0 Hsb) as (k & r & Hk & Hty & Hv & Hlab).
      simpl. rewrite <- Hv. apply (Hfree k r Hk Hty). congruence.
    + rewrite Hl in Hb0. injection Hb0 as <-. apply Hacc in Hsb as [_ Hfree].
      destruct (lw_standing _ Hw i a0 Ha0 Hsa) as (k & r & Hk & Hty & Hv & Hlab).
      apply ranges_disjoint_comm. simpl. rewrite <- Hv. apply (Hfree k r Hk Hty). congruence.
    + by apply (lw_disjoint _ Hw i j).
Qed.
