(* ===== verification/LabOps.v ===== *)
(** * Managed labs: what the recording operations write

    For each operation of [LabRecords] the exact change of the tables; what is committed is
    what is seen.  [progress] collects what planning one lab may change. *)

From stdpp Require Import base gmap list strings pretty sorting.
From Stdlib Require Import ZArith Lia Ascii.
From S2P Require Import Prelude Json Text IpNetwork ProxmoxSdn LabData LabStore LabRecords LabNetwork LabReconciler LabLogic LabModel LabInvariant.

#[local] Open Scope Z_scope.

(** The committed tables are the visible ones. *)
Definition synced {W} (c : lab_conn W) : Prop := durable c = seen c.

(** Two rows of a reservation with the same owner and value. *)
Definition same_reservation (r r' : reservation) : Prop :=
  rv_lab_id r' = rv_lab_id r ∧ rv_type r' = rv_type r ∧ rv_value r' = rv_value r.

(** What an operation on behalf of lab [lab_id] may do: other labs' records stay. *)
Record progress (lab_id : string) (t t' : lab_tables) : Prop := {
  pg_wf : lab_wf t → lab_wf t';
  pg_labs : labs t' = labs t;
  pg_runs : reconcile_runs t' = reconcile_runs t;
  pg_snapshots : snapshots t' = snapshots t;
  pg_reserved i r : reservations t !! i = Some r → ∃ r', reservations t' !! i = Some r' ∧ same_reservation r r';
  pg_reserved_new i r' : reservations t' !! i = Some r' →
    rv_lab_id r' = lab_id ∨ ∃ r, reservations t !! i = Some r ∧ same_reservation r r';
  pg_fixes i f : fx_lab_id f ≠ lab_id → fix_actions t' !! i = Some f ↔ fix_actions t !! i = Some f;
  pg_findings i f : fd_lab_id f ≠ lab_id → findings t' !! i = Some f ↔ findings t !! i = Some f
}.

#[export] Instance progress_preorder lab_id : PreOrder (progress lab_id).
Proof.
  split.
  - intros t. split; try done; intros i r Hi; [|right]; by exists r.
  - intros t1 t2 t3 H12 H23. split; try (by destruct H12, H23; congruence); [by destruct H12, H23; auto|..].
    + intros i r Hi. destruct (pg_reserved _ _ _ H12 i r Hi) as (r2 & Hr2 & ? & ? & ?).
      destruct (pg_reserved _ _ _ H23 i r2 Hr2) as (r3 & Hr3 & ? & ? & ?). exists r3. split; [done|].
      split; [congruence|split; congruence].
    + intros i r Hi. destruct (pg_reserved_new _ _ _ H23 i r Hi) as [?|(r2 & Hr2 & ? & ? & ?)]; [by left|].
      destruct (pg_reserved_new _ _ _ H12 i r2 Hr2) as [?|(r1 & Hr1 & ? & ? & ?)]; [left; congruence|right].
      exists r1. split; [done|]. split; [congruence|split; congruence].
    + intros i f Hf. rewrite (pg_fixes _ _ _ H23) by done. by apply (pg_fixes _ _ _ H12).
    + intros i f Hf. rewrite (pg_findings _ _ _ H23) by done. by apply (pg_findings _ _ _ H12).
Qed.

Lemma remodels_progress lab_id t t' : remodels t t' → progress lab_id t t'.
Proof.
  intros Hm. pose proof (remodels_wf t t' Hm) as Hw.
  destruct Hm as [Hl Hr Hru Hf Hfx Hsn _ _ _ _ _]. split; try done.
  - intros i r Hi. exists r. split; [congruence|done].
  - intros i r Hi. right. exists r. split; [congruence|done].
  - intros i f _. by rewrite Hfx.
  - intros i f _. by rewrite Hf.
Qed.

(** Reservations do not disappear and stay accepted. *)
Lemma progress_holds lab_id t t' i l : progress lab_id t t' → holds_cidr t i l → holds_cidr t' i l.
Proof.
  intros Hp (k & r & Hk & Hty & Hv & Hl).
  destruct (pg_reserved _ _ _ Hp k r Hk) as (r' & Hk' & ? & ? & ?). exists k, r'.
  split; [done|]. split; [congruence|split; congruence].
Qed.

Lemma progress_accepted lab_id t t' l : progress lab_id t t' → accepted t lab_id l → accepted t' lab_id l.
Proof.
  intros Hp [Hh Hd]. split; [by eapply progress_holds|].
  intros i r' Hi Hty Hlab. destruct (pg_reserved_new _ _ _ Hp i r' Hi) as [?|(r & Hr & Hl & Ht & Hv)]; [done|].
  rewrite Hv. apply (Hd i r Hr); congruence.
Qed.

Lemma event_progress lab_id t i e :
  le_lab_id e = lab_id → is_Some (labs t !! lab_id) → progress lab_id t (on_lab_events <[i := e]> t).
Proof.
  intros He Hl. split; try done; simpl.
  - apply insert_event_wf. by rewrite He.
  - intros j r Hj. by exists r.
  - intros j r Hj. right. by exists r.
Qed.

Lemma findings_progress lab_id t m :
  is_Some (labs t !! lab_id) →
  (∀ i f, m !! i = Some f → findings t !! i = Some f ∨ fd_lab_id f = lab_id ∧ run_exists t (fd_run_id f)) →
  (∀ i f, findings t !! i = Some f → fd_lab_id f ≠ lab_id → m !! i = Some f) →
  progress lab_id t (on_findings (λ _, m) t).
Proof.
  intros Hl Hm Hk. split; try done; simpl.
  - intros Hw. apply set_findings_wf; [|done]. intros i f Hi.
    destruct (Hm i f Hi) as [Hi'|[-> ?]]; [by eapply (lw_finding _ Hw)|done].
  - intros j r Hj. by exists r.
  - intros j r Hj. right. by exists r.
  - intros i f Hf. split; [|by intros; apply Hk]. intros Hi. by destruct (Hm i f Hi) as [?|[? _]].
Qed.

Lemma fixes_progress lab_id t m :
  (∀ i f, m !! i = Some f → fix_actions t !! i = Some f ∨ fx_lab_id f = lab_id) →
  (∀ i f, fix_actions t !! i = Some f → fx_lab_id f ≠ lab_id → m !! i = Some f) →
  (lab_wf t → (∀ i f, m !! i = Some f → fix_ok t f) ∧
     (∀ i j f g, m !! i = Some f → m !! j = Some g → fx_status f = "pending" → fx_status g = "pending" →
        same_request f g → i = j)) →
  progress lab_id t (on_fix_actions (λ _, m) t).
Proof.
  intros Hm Hk Hok. split; try done; simpl.
  - intros Hw. destruct (Hok Hw). by apply set_fixes_wf.
  - intros j r Hj. by exists r.
  - intros j r Hj. right. by exists r.
  - intros i f Hf. split; [|by intros; apply Hk]. intros Hi. by destruct (Hm i f Hi) as [?|?].
Qed.

Section ops.
Context `{LE : LabEnv} `{!LabEnvLaws LE} {W : Type}.

#[local] Notation C := (lab_conn W).
#[local] Notation M := (eff (lab_conn W)).

Lemma used_on_events k f t : used k (on_lab_events f t) ↔ used k t.
Proof. done. Qed.

(** What is committed after an operation that commits, or does not. *)
Definition commits (b : bool) (c c' : C) : Prop := durable c' = if b then seen c' else durable c.

(** A row of events was added. *)
Definition adds_event (lab_id : string) (t t' : lab_tables) : Prop :=
  ∃ i e, t' = on_lab_events <[i := e]> t ∧ le_lab_id e = lab_id.

Lemma runs_record_event E lab_id event_type actor detail payload b (c : C) :
  ready_conn c → is_Some (labs (seen c) !! lab_id) →
  runs E any_change (record_event lab_id event_type actor detail payload b) c
    (λ _ c', adds_event lab_id (seen c) (seen c') ∧ commits b c c').
Proof.
  intros Hc Hl. unfold record_event.
  eapply (runs_bind _ _ _ _ _ (λ _ c', seen c' = seen c ∧ durable c' = durable c)).
  { by apply runs_now; [apply _|done|]. }
  intros now c1 [H1 _] [Hs1 Hd1].
  eapply (runs_bind _ _ _ _ _ (λ i c', seen c' = seen c ∧ durable c' = durable c ∧
    lab_events (seen c) !! i = None ∧ i ≤ event_serial c')).
  { apply runs_next_event_id; [apply _|done|]. intros i c' _ Hs Hd Hn Hi.
    split; [congruence|]. split; [congruence|]. split; [congruence|done]. }
  intros i c2 [H2 _] (Hs2 & Hd2 & Hi & Hle).
  set (e := LabEvent lab_id event_type actor detail (jor payload (JObj [])) now).
  eapply (runs_bind _ _ _ _ _ (λ _ c', seen c' = on_lab_events <[i := e]> (seen c) ∧ durable c' = durable c)).
  { apply runs_statement; [done| |].
    - intros ex. rewrite Hs2. unfold first_violation. simpl. by rewrite pk_fresh, lab_fk_ok.
    - intros _. rewrite Hs2. split; [done|]. split; [intros k Hk; left; by rewrite used_on_events in Hk|].
      split; [|intros c' _ Hs Hd _; split; [done|congruence]].
      intros j [e' Hj]. simpl in Hj. destruct (decide (j = i)) as [->|]; [by right|].
      rewrite lookup_insert_ne in Hj by done. left. eauto. }
  intros [] c3 [H3 _] [Hs3 Hd3].
  eapply (runs_bind _ _ _ _ _ (λ _ c', adds_event lab_id (seen c) (seen c') ∧ commits b c c')).
  { apply runs_commit_if; [apply _|done|]. intros c' _ Hs Hd. split; [exists i, e; split; [congruence|done]|].
    unfold commits. rewrite Hd. by destruct b; congruence. }
  intros [] c4 [H4 _] HQ. by apply runs_ret; [apply _|done|].
Qed.

Lemma adds_event_progress lab_id t t' :
  is_Some (labs t !! lab_id) → adds_event lab_id t t' → progress lab_id t t'.
Proof. intros Hl (i & e & -> & He). by apply event_progress. Qed.

(** ** Findings *)

Lemma runs_record_finding E lab_id run provider finding_type severity detail object_ref desired actual b (c : C) :
  ready_conn c → is_Some (labs (seen c) !! lab_id) → run_exists (seen c) run →
  runs E (progress lab_id)
    (record_finding lab_id run provider finding_type severity detail object_ref desired actual "open" b) c
    (λ row c', fd_lab_id row.2 = lab_id ∧ fd_provider row.2 = provider ∧ fd_type row.2 = finding_type ∧
       fd_status row.2 = "open" ∧ findings (seen c) !! row.1 = None ∧
       findings (seen c') = <[row.1 := row.2]> (findings (seen c)) ∧
       fix_actions (seen c') = fix_actions (seen c) ∧ reservations (seen c') = reservations (seen c) ∧
       commits b c c').
Proof.
  intros Hc Hl Hrun. apply runs_step. unfold record_finding.
  eapply (runs_bind _ _ _ _ _ (λ _ c', seen c' = seen c ∧ durable c' = durable c)).
  { by apply runs_now; [apply _|done|]. }
  intros now c1 [H1 _] [Hs1 Hd1].
  eapply (runs_bind _ _ _ _ _ (λ id c', seen c' = seen c ∧ durable c' = durable c ∧ fresh_id id c')).
  { apply runs_new_id; [apply _|done|]. intros id c' _ Hs Hd Hf _. by rewrite Hs, Hd. }
  intros id c2 [H2 _] (Hs2 & Hd2 & Hu & Hh).
  set (f := ReconcileFinding lab_id run provider finding_type severity "open" detail (jor object_ref (JObj []))
              (jor desired (JObj [])) (jor actual (JObj [])) now now).
  apply not_used in Hu as (_ & _ & _ & _ & _ & Hu & _). rewrite Hs2 in Hu.
  eapply (runs_bind _ _ _ _ _ (λ _ c', seen c' = on_findings <[id := f]> (seen c) ∧ durable c' = durable c)).
  { apply runs_statement; [done| |].
    - intros ex. rewrite Hs2. unfold first_violation. simpl. rewrite pk_fresh, lab_fk_ok by done. simpl.
      unfold run_fk. destruct run as [r|]; simpl in Hrun; [|done].
      by rewrite (proj2 (has_key_true _ _) Hrun).
    - intros _. rewrite Hs2. split; [done|]. split; [|split; [by left|intros c' _ Hs Hd _; split; [done|congruence]]].
      intros k. unfold used; simpl. intros Hk. destruct (decide (k = id)) as [->|]; [by right|].
      rewrite lookup_insert_ne in Hk by done. by left. }
  intros [] c3 [H3 _] [Hs3 Hd3].
  eapply (runs_bind _ _ _ _ _ (λ _ c', adds_event lab_id (seen c3) (seen c') ∧ commits false c3 c')).
  { apply runs_record_event; [done|]. by rewrite Hs3. }
  intros ev c4 [H4 _] [Hev Hd4]. unfold commits in Hd4.
  eapply (runs_bind _ _ _ _ _ (λ _ c', seen c' = seen c4 ∧ commits b c c')).
  { apply runs_commit_if; [apply _|done|]. intros c' _ Hs Hd. split; [done|].
    unfold commits. rewrite Hd. destruct b; congruence. }
  intros [] c5 [H5 _] [Hs5 Hcm]. apply runs_ret; [apply _|done|]. rewrite Hs5.
  assert (findings (seen c4) = <[id := f]> (findings (seen c)) ∧ fix_actions (seen c4) = fix_actions (seen c) ∧
    reservations (seen c4) = reservations (seen c)) as (Hfd & Hfx & Hrs)
    by (destruct Hev as (i & e & -> & _); by rewrite Hs3).
  split; [|done]. etrans; [|eapply adds_event_progress; [|exact Hev]; by rewrite Hs3].
  rewrite Hs3. apply findings_progress; [done| |].
  - intros i g [[-> <-]|[_ Hi]]%lookup_insert_Some; [by right|by left].
  - intros i g Hi _. rewrite lookup_insert_ne; [done|congruence].
Qed.


(** ** Fix actions *)

#[local] Instance fix_order_ord : OrdCmp fix_order.
Proof. unfold fix_order. apply _. Qed.

(** The pending actions of a lab. *)
Definition pends (lab_id : string) (t : lab_tables) (fs : list (string * fix_action)) : Prop :=
  NoDup fs.*1 ∧
  ∀ i f, (i, f) ∈ fs ↔ fix_actions t !! i = Some f ∧ fx_lab_id f = lab_id ∧ fx_status f = "pending".

Lemma lookup_update_where_Some {R} (P : string * R → Prop) `{∀ x, Decision (P x)} (g : R → R)
    (m : gmap string R) i r :
  update_where P g m !! i = Some r →
  ∃ r0, m !! i = Some r0 ∧ (P (i, r0) ∧ r = g r0 ∨ ¬ P (i, r0) ∧ r = r0).
Proof.
  rewrite lookup_update_where. intros (r0 & Hr0 & ->)%fmap_Some. exists r0. case_decide; auto.
Qed.

Lemma runs_clear E lab_id (c : C) :
  ready_conn c → is_Some (labs (seen c) !! lab_id) → lab_wf (seen c) →
  runs E (progress lab_id) (clear_current_reconcile_state lab_id ["network"; "proxmox"] false) c
    (λ _ c', pends lab_id (seen c') [] ∧ reservations (seen c') = reservations (seen c) ∧
             durable c' = durable c).
Proof.
  intros Hc Hl Hw. unfold clear_current_reconcile_state.
  eapply (runs_bind _ _ _ _ _ (λ _ c', seen c' = seen c ∧ durable c' = durable c)).
  { by apply runs_now; [apply _|done|]. }
  intros now c1 [H1 _] [Hs1 Hd1].
  eapply (runs_bind _ _ _ _ _ (λ _ c', fix_actions (seen c') = fix_actions (seen c) ∧
    reservations (seen c') = reservations (seen c) ∧ durable c' = durable c ∧
    reconcile_runs (seen c') = reconcile_runs (seen c) ∧ labs (seen c') = labs (seen c) ∧
    snapshots (seen c') = snapshots (seen c))).
  { apply runs_statement; [done|done|]. intros _. rewrite Hs1. split; [|split; [|split; [by left|]]].
    - apply findings_progress; [done| |].
      + intros i f (f0 & Hf0 & [[(<- & _) ->]|[_ ->]])%lookup_update_where_Some; [|by left].
        right. split; [done|]. by apply (lw_finding _ Hw i f0).
      + intros i f Hi Hf. rewrite lookup_update_where, Hi. simpl. by rewrite decide_False by naive_solver.
    - intros k. unfold used; simpl. rewrite lookup_update_where, fmap_is_Some. by left.
    - intros c' _ Hs Hd _. rewrite Hs, Hd. done. }
  intros [] c2 [H2 Hp2] (Hfx2 & Hrs2 & Hd2 & Hru2 & Hl2 & Hsn2).
  eapply (runs_bind _ _ _ _ _ (λ _ c', pends lab_id (seen c') [] ∧
    reservations (seen c') = reservations (seen c) ∧ durable c' = durable c)).
  { apply runs_statement; [done|done|]. intros _. split; [|split; [|split; [by left|]]].
    - apply fixes_progress.
      + intros i f (f0 & Hf0 & [[(<- & _) ->]|[_ ->]])%lookup_update_where_Some; [by right|by left].
      + intros i f Hi Hf. rewrite lookup_update_where, Hi. simpl. by rewrite decide_False by naive_solver.
      + intros Hw2. split.
        * intros i f (f0 & Hf0 & [[(? & ? & ?) ->]|[_ ->]])%lookup_update_where_Some;
            destruct (lw_fix _ Hw2 i f0 Hf0); [|done].
          split; try done; simpl; set_solver.
        * intros i j f g Hi Hj Hf Hg. apply lookup_update_where_Some in Hi as (f0 & Hf0 & [[_ ->]|[_ ->]]);
            apply lookup_update_where_Some in Hj as (g0 & Hg0 & [[_ ->]|[_ ->]]); try done.
          by apply (lw_pending _ Hw2).
    - intros k. unfold used; simpl. rewrite lookup_update_where, fmap_is_Some. by left.
    - intros c' _ Hs Hd _. rewrite Hs, Hd. simpl. split; [|done]. split; [constructor|].
      intros i f. split; [by intros ?%not_elem_of_nil|].
      intros (Hi & Hf & Hpd). exfalso.
      apply lookup_update_where_Some in Hi as (f0 & Hf0 & [[_ ->]|[Hno ->]]); [done|].
      apply Hno. simpl. split; [done|]. rewrite Hpd. split; [set_solver|].
      rewrite Hfx2 in Hf0. rewrite (fo_provider _ _ (lw_fix _ Hw i f0 Hf0)). set_solver. }
  intros [] c3 [H3 _] HQ. by apply runs_ret; [apply _|done|].
Qed.

Lemma runs_create_fix E lab_id run action_type priority detail request b fs (c : C) :
  ready_conn c → is_Some (labs (seen c) !! lab_id) → run_exists (seen c) run →
  action_type ∈ SUPPORTED_ACTIONS → pends lab_id (seen c) fs →
  (∀ x, x ∈ fs → fx_action_type x.2 ≠ action_type) →
  runs E (progress lab_id) (create_fix_action lab_id run "proxmox" action_type priority detail request b) c
    (λ row c', fx_action_type row.2 = action_type ∧ fx_priority row.2 = priority ∧ fx_request row.2 = request ∧
       fx_provider row.2 = "proxmox" ∧ fx_run_id row.2 = run ∧
       pends lab_id (seen c') (fs ++ [row]) ∧ reservations (seen c') = reservations (seen c) ∧
       findings (seen c') = findings (seen c) ∧ commits b c c').
Proof.
  intros Hc Hl Hrun Hty Hfs Hnew. apply runs_step. unfold create_fix_action.
  eapply (runs_bind _ _ _ _ _ (λ _ c', seen c' = seen c ∧ durable c' = durable c)).
  { by apply runs_now; [apply _|done|]. }
  intros now c1 [H1 _] [Hs1 Hd1].
  eapply (runs_bind _ _ _ _ _ (λ r c', r = None ∧ seen c' = seen c ∧ durable c' = durable c)).
  { apply runs_query; [apply _|done|]. split; [|done]. rewrite Hs1.
    destruct (head _) as [[i f]|] eqn:Eh; [|done]. exfalso.
    apply (isort_head_elem fix_order) in Eh. apply elem_of_select_where in Eh as [(Hf1 & _ & Hf2 & Hf3 & _) Hi]; simpl in *.
    apply (Hnew (i, f)); [|done]. by apply Hfs. }
  intros r c2 [H2 _] (-> & Hs2 & Hd2).
  eapply (runs_bind _ _ _ _ _ (λ row c', seen c' = on_fix_actions <[row.1 := row.2]> (seen c) ∧
    durable c' = durable c ∧ fix_actions (seen c) !! row.1 = None ∧
    row.2 = FixAction lab_id run "proxmox" action_type "pending" priority detail request (JObj []) None now now None)).
  { eapply (runs_bind _ _ _ _ _ (λ id c', seen c' = seen c ∧ durable c' = durable c ∧ fresh_id id c')).
    { apply runs_new_id; [apply _|done|]. intros id c' _ Hs Hd Hf _. by rewrite Hs, Hd. }
    intros id c3 [H3 _] (Hs3 & Hd3 & Hu & Hh). apply not_used in Hu as (_ & _ & _ & _ & _ & _ & Hu & _).
    rewrite Hs3 in Hu.
    eapply (runs_bind _ _ _ _ _ (λ _ c', seen c' = on_fix_actions <[id :=
      FixAction lab_id run "proxmox" action_type "pending" priority detail request (JObj []) None now now None]>
      (seen c) ∧ durable c' = durable c)).
    { apply runs_statement; [done| |].
      - intros ex. rewrite Hs3. unfold first_violation. simpl. rewrite pk_fresh, lab_fk_ok by done. simpl.
        unfold run_fk. destruct run as [i|]; simpl in Hrun; [|done]. by rewrite (proj2 (has_key_true _ _) Hrun).
      - intros _. rewrite Hs3. split; [done|]. split; [|split; [by left|intros c' _ Hs Hd _; split; [done|congruence]]].
        intros k. unfold used; simpl. intros Hk. destruct (decide (k = id)) as [->|]; [by right|].
        rewrite lookup_insert_ne in Hk by done. by left. }
    intros [] c4 [H4 _] [Hs4 Hd4]. by apply runs_ret; [apply _|done|]. }
  intros [id f] c3 [H3 _] (Hs3 & Hd3 & Hid & Hf). simpl in *.
  eapply (runs_bind _ _ _ _ _ (λ _ c', adds_event lab_id (seen c3) (seen c') ∧ commits false c3 c')).
  { apply runs_record_event; [done|]. by rewrite Hs3. }
  intros ev c4 [H4 _] [Hev Hd4]. unfold commits in Hd4.
  eapply (runs_bind _ _ _ _ _ (λ _ c', seen c' = seen c4 ∧ commits b c c')).
  { apply runs_commit_if; [apply _|done|]. intros c' _ Hs Hd. split; [done|].
    unfold commits. rewrite Hd. destruct b; congruence. }
  intros [] c5 [H5 _] [Hs5 Hcm]. apply runs_ret; [apply _|done|]. rewrite Hs5.
  assert (fix_actions (seen c4) = <[id := f]> (fix_actions (seen c)) ∧ findings (seen c4) = findings (seen c) ∧
    reservations (seen c4) = reservations (seen c)) as (Hfx & Hfd & Hrs)
    by (destruct Hev as (i & e & -> & _); by rewrite Hs3).
  split; [|subst f; do 5 (split; [done|]); split; [|done]].
  - etrans; [|eapply adds_event_progress; [|exact Hev]; by rewrite Hs3].
    rewrite Hs3. subst f. apply fixes_progress.
    + intros i g [[-> <-]|[_ Hi]]%lookup_insert_Some; [by right|by left].
    + intros i g Hi _. rewrite lookup_insert_ne; [done|congruence].
    + intros Hw. split.
      * intros i g [[-> <-]|[_ Hi]]%lookup_insert_Some; [|by apply (lw_fix _ Hw i)].
        split; simpl; [done|done|done|done|by left|].
        intros Ht%bool_decide_eq_true. set_solver.
      * assert (∀ j g, fix_actions (seen c) !! j = Some g → fx_status g = "pending" →
          fx_lab_id g = lab_id → fx_action_type g ≠ action_type) as Hno.
        { intros j g Hj Hg Hlg. apply (Hnew (j, g)). by apply Hfs. }
        intros i j g h Hi Hj Hg Hh Hsame. pose proof Hsame as (Hsl & _ & Hst & _).
        apply lookup_insert_Some in Hi as [[-> <-]|[Hne Hi]];
          apply lookup_insert_Some in Hj as [[-> <-]|[Hne' Hj]]; try done.
        -- exfalso. by apply (Hno j h).
        -- exfalso. by apply (Hno i g).
        -- by apply (lw_pending _ Hw i j g h).
  - destruct Hfs as [Hnd Hfs]. unfold pends. rewrite Hfx. split.
    + rewrite fmap_app. apply NoDup_app. split; [done|]. split; [|by repeat constructor; apply not_elem_of_nil].
      intros i (x & -> & Hx)%list_elem_of_fmap [= Hi]%list_elem_of_singleton. destruct x as [i g]. simpl in Hi.
      apply Hfs in Hx as [Hx _]. congruence.
    + intros i g. rewrite elem_of_app, list_elem_of_singleton, Hfs, lookup_insert_Some. split.
      * intros [(Hi & ?)|[= -> ->]]; [|by split; [left|]]. split; [right; split; congruence|done].
      * intros [[[-> <-]|[Hne Hi]] ?]; [by right|by left].
Qed.

(** ** Reservations *)

Lemma reservation_of_spec ty value t :
  match reservation_of ty value t with
  | Some (i, r) => reservations t !! i = Some r ∧ rv_type r = ty ∧ rv_value r = value
  | None => ∀ i r, reservations t !! i = Some r → rv_type r = ty → rv_value r ≠ value
  end.
Proof.
  unfold reservation_of.
  pose proof (elem_of_select_where (λ kr : string * reservation, rv_type kr.2 = ty ∧ rv_value kr.2 = value)
    (reservations t)) as Hin.
  destruct (select_where _ _) as [|[i r] rows]; simpl.
  - intros i r Hi Hty Hv. destruct (Hin i r) as [_ H]. destruct (not_elem_of_nil (i, r)). by apply H.
  - destruct (Hin i r) as [H _]. destruct H as [[? ?] ?]; [by left|]. done.
Qed.

(** A value is reserved for a lab. *)
Definition reserved_by (t : lab_tables) (lab_id ty value : string) : Prop :=
  ∃ i r, reservations t !! i = Some r ∧ rv_lab_id r = lab_id ∧ rv_type r = ty ∧ rv_value r = value.

Lemma reservation_progress lab_id t i r :
  is_Some (labs t !! lab_id) → rv_lab_id r = lab_id → rv_status r = "active" →
  (rv_type r = "cidr" → valid_cidr (rv_value r)) →
  match reservations t !! i with
  | Some r0 => same_reservation r0 r
  | None => ∀ j a, reservations t !! j = Some a → rv_type a = rv_type r → rv_value a ≠ rv_value r
  end →
  progress lab_id t (on_reservations <[i := r]> t).
Proof.
  intros Hl Hlab Hst Hc Hi. split; try done; simpl.
  - apply insert_reservation_wf; [by rewrite Hlab|done|done|].
    revert Hi. destruct (reservations t !! i); [|done]. by intros (-> & -> & ->).
  - intros j r0 Hj. destruct (decide (j = i)) as [->|Hne].
    + exists r. rewrite lookup_insert_eq. rewrite Hj in Hi. done.
    + exists r0. by rewrite lookup_insert_ne by done.
  - intros j r' [[-> <-]|[_ Hj]]%lookup_insert_Some; [by left|right]. by exists r'.
Qed.

Lemma runs_reserve E lab_id ty value metadata b (c : C) :
  ready_conn c → is_Some (labs (seen c) !! lab_id) →
  (ty = "cidr" → valid_cidr (PyStr.strip value)) → 
  E ∨ (∀ i r, reservations (seen c) !! i = Some r → rv_type r = ty → rv_value r = PyStr.strip value →
       rv_lab_id r = lab_id) →
  runs E (progress lab_id) (reserve_value lab_id ty value metadata b) c
    (λ row c', reserved_by (seen c') lab_id ty (PyStr.strip value) ∧
       fix_actions (seen c') = fix_actions (seen c) ∧ findings (seen c') = findings (seen c) ∧
       boundary_objects (seen c') = boundary_objects (seen c) ∧ commits b c c').
Proof.
  intros Hc Hl Hval Hown. apply runs_step. unfold reserve_value.
  eapply (runs_bind _ _ _ _ _ (λ _ c', seen c' = seen c ∧ durable c' = durable c)).
  { by apply runs_now; [apply _|done|]. }
  intros now c1 [H1 _] [Hs1 Hd1].
  eapply (runs_bind _ _ _ _ _ (λ id c', seen c' = seen c ∧ durable c' = durable c ∧ fresh_id id c')).
  { apply runs_new_id; [apply _|done|]. intros id c' _ Hs Hd Hf _. by rewrite Hs, Hd. }
  intros id c2 [H2 _] (Hs2 & Hd2 & Hu & Hh).
  apply not_used in Hu as (_ & _ & _ & Hu & _). rewrite Hs2 in Hu.
  pose proof (reservation_of_spec ty (PyStr.strip value) (seen c)) as Hspec.
  set (placed := λ (x : option (string * reservation)) (c' : C), x = None ∧ E ∧ c' = c' ∨
    ∃ i r, x = Some (i, r) ∧ seen c' = on_reservations <[i := r]> (seen c) ∧ durable c' = durable c ∧
      progress lab_id (seen c) (on_reservations <[i := r]> (seen c)) ∧
      rv_lab_id r = lab_id ∧ rv_type r = ty ∧ rv_value r = PyStr.strip value).
  eapply (runs_bind _ _ _ _ _ placed).
  { unfold upsert_reservation.
    eapply (runs_bind _ _ _ _ _ (λ x c', x = reservation_of ty (PyStr.strip value) (seen c) ∧ c' = c2)).
    { apply runs_query; [apply _|done|]. by rewrite Hs2. }
    intros x c3 [H3 _] [-> ->].
    destruct (reservation_of ty (PyStr.strip value) (seen c)) as [[i r]|].
    - destruct Hspec as (Hi & Hty & Hv). case_decide as Hlab.
      + set (r' := Reservation lab_id ty (PyStr.strip value) "active"
                     (match metadata with JNull => rv_metadata r | m => m end) (rv_created_at r) now).
        eapply (runs_bind _ _ _ _ _ (λ _ c', seen c' = on_reservations <[i := r']> (seen c) ∧ durable c' = durable c)).
        { apply runs_statement; [done|done|]. intros _. rewrite Hs2. split; [done|].
          split; [|split; [by left|intros c' _ Hs Hd _; split; [done|congruence]]].
          intros k. unfold used; simpl. intros Hk. left. destruct (decide (k = i)) as [->|].
          - do 3 right. left. eauto.
          - rewrite lookup_insert_ne in Hk by done. done. }
        intros [] c3' [H3' _] [Hs3 Hd3]. apply runs_ret; [apply _|done|]. right. exists i, r'.
        split; [done|]. split; [done|]. split; [done|]. split; [|done].
        apply reservation_progress; [done|done|done|done|]. rewrite Hi. split; [done|split; done].
      + apply runs_ret; [apply _|done|]. destruct Hown as [HE|Hown]; [by left|].
        destruct Hlab. by apply (Hown i r).
    - set (r' := Reservation lab_id ty (PyStr.strip value) "active" (jor metadata (JObj [])) now now).
      eapply (runs_bind _ _ _ _ _ (λ _ c', seen c' = on_reservations <[id := r']> (seen c) ∧ durable c' = durable c)).
      { apply runs_statement; [done| |].
        - intros ex. rewrite Hs2. unfold first_violation. simpl. by rewrite pk_fresh, lab_fk_ok by done.
        - intros _. rewrite Hs2. split; [done|]. split; [|split; [by left|intros c' _ Hs Hd _; split; [done|congruence]]].
          intros k. unfold used; simpl. intros Hk. destruct (decide (k = id)) as [->|]; [by right|].
          rewrite lookup_insert_ne in Hk by done. by left. }
      intros [] c3' [H3' _] [Hs3 Hd3]. apply runs_ret; [apply _|done|]. right. exists id, r'.
      split; [done|]. split; [done|]. split; [done|]. split; [|done].
      apply reservation_progress; [done|done|done|done|]. rewrite Hu. done. }
  intros x c3 [H3 _] [(-> & HE & _)|(i & r & -> & Hs3 & Hd3 & Hp & Hlab & Hty & Hv)].
  - unfold runs. rewrite run_bind. unfold query. rewrite (rc_spoiled _ H3). simpl. by destruct (match reservation_of _ _ _ with Some _ => _ | None => _ end).
  - eapply (runs_bind _ _ _ _ _ (λ _ c', seen c' = seen c3 ∧ commits b c c')).
    { apply runs_commit_if; [apply _|done|]. intros c' _ Hs Hd. split; [done|].
      unfold commits. rewrite Hd. destruct b; congruence. }
    intros [] c4 [H4 _] [Hs4 Hcm]. apply runs_ret; [apply _|done|].
    rewrite Hs4, Hs3. split; [done|]. split; [|done].
    exists i, r. simpl. by rewrite lookup_insert_eq.
Qed.

(** ** Overlaps *)

Lemma filter_outcome_spec {A} (f : A → outcome bool) (g : A → bool) l :
  (∀ x, x ∈ l → f x = Ret (g x)) → filter_outcome f l = Ret (filter (λ x, g x = true) l).
Proof.
  induction l as [|x l IH]; intros Hf; simpl; [done|].
  rewrite Hf by set_solver. simpl. rewrite IH by set_solver. simpl.
  rewrite filter_cons. destruct (g x) eqn:E; [by rewrite decide_True|by rewrite decide_False by done].
Qed.

(** Whether a reservation's range meets another range. *)
Definition meets (cidr : string) (kr : string * reservation) : bool :=
  match ip_network cidr, ip_network (rv_value kr.2) with
  | Ret m, Ret n => overlaps m n
  | _, _ => false
  end.

Definition overlaps_of (cidr lab_id : string) (t : lab_tables) : list (string * reservation) :=
  filter (λ kr, meets cidr kr = true) (filter (λ kr, excluded lab_id kr = false) (active_cidrs t)).

Lemma elem_of_active_cidrs t i r :
  (i, r) ∈ active_cidrs t ↔ reservations t !! i = Some r ∧ rv_type r = "cidr" ∧ rv_status r = "active".
Proof. unfold active_cidrs. rewrite elem_of_isort, elem_of_select_where. naive_solver. Qed.

Lemma find_overlapping_run cidr lab_id (c : C) :
  ready_conn c → lab_wf (seen c) → valid_cidr cidr →
  find_overlapping_cidr_reservations cidr lab_id c = (Ret (overlaps_of cidr lab_id (seen c)), c).
Proof.
  intros Hc Hw [n Hn]. unfold find_overlapping_cidr_reservations. rewrite run_bind. unfold lift_outcome at 1.
  rewrite Hn. rewrite run_bind. unfold query. rewrite (rc_spoiled _ Hc). unfold lift_outcome.
  rewrite (filter_outcome_spec _ (meets cidr)); [done|].
  intros [i r] [_ Hin]%list_elem_of_filter. apply elem_of_active_cidrs in Hin as (Hi & Hty & _).
  destruct (lw_cidr _ Hw i r Hi Hty) as [m Hm]. unfold overlapping, meets. simpl. by rewrite Hm, Hn.
Qed.

Lemma runs_find_overlapping E R `{!PreOrder R} cidr lab_id (c : C) (Q : _ → C → Prop) :
  ready_conn c → lab_wf (seen c) → valid_cidr cidr → Q (overlaps_of cidr lab_id (seen c)) c →
  runs E R (find_overlapping_cidr_reservations cidr lab_id) c Q.
Proof.
  intros Hc Hw Hv HQ. unfold runs. rewrite find_overlapping_run by done.
  split; [by apply moves_refl|done].
Qed.

(** No overlap: every range another lab holds is disjoint. *)
Lemma no_overlap_disjoint cidr lab_id t :
  lab_wf t → lab_id ≠ EmptyString → overlaps_of cidr lab_id t = [] →
  ∀ i r, reservations t !! i = Some r → rv_type r = "cidr" → rv_lab_id r ≠ lab_id →
    ranges_disjoint cidr (rv_value r).
Proof.
  intros Hw Hid Ho i r Hi Hty Hlab m n Hm Hn.
  destruct (overlaps m n) eqn:E; [|done]. exfalso.
  assert ((i, r) ∈ overlaps_of cidr lab_id t) as Hin; [|rewrite Ho in Hin; by apply not_elem_of_nil in Hin].
  unfold overlaps_of. rewrite !list_elem_of_filter, elem_of_active_cidrs. split.
  - unfold meets. by rewrite Hm; simpl; rewrite Hn.
  - split; [|split; [done|split; [done|by apply (lw_reservation _ Hw i)]]].
    unfold excluded. apply bool_decide_eq_false. simpl. naive_solver.
Qed.
End ops.
