(* ===== verification/LabPlan.v ===== *)
(** * Managed labs: what a plan does

    Planning never fails for a stored lab, leaves every other lab's records alone, and ends
    in exactly one of its outcomes: blocked by an overlap, blocked by the kind of network,
    ready, or fixing with the missing objects and the final apply as the pending actions. *)

From stdpp Require Import base gmap list strings pretty sorting.
From Stdlib Require Import ZArith Lia Ascii.
From S2P Require Import Prelude Json Text IpNetwork ProxmoxSdn LabData LabStore LabRecords LabNetwork LabReconciler LabLogic LabModel LabInvariant LabOps.

#[local] Open Scope Z_scope.

(** ** The outcome of a plan as a function of what is stored *)

Definition lab_missing (l : lab) (inv : json) : list wanted :=
  missing_objects l (lab_sdn_zone l) (lab_sdn_vnet l)
    (PyStr.or_else (lab_sdn_subnet l) (lab_network_cidr l)) inv.

Definition expected_status (lab_id : string) (l : lab) (inv : json) (t : lab_tables) : string :=
  match overlaps_of (lab_network_cidr l) lab_id t with
  | _ :: _ => "blocked"
  | [] => if decide (lab_network_mode l = "sdn") then
            match lab_missing l inv with [] => "ready" | _ => "fixing" end
          else "blocked"
  end.

(** The actions a plan leaves: type, priority and request. *)
Definition expected_fixes (l : lab) (inv : json) : list (string * Z * json) :=
  match lab_missing l inv with
  | [] => []
  | ws => ((λ w, (w_action_type w, w_priority w, w_request w)) <$> ws) ++
          [("apply_sdn", 90, JObj [("allow_pending", JBool true)])]
  end.

Definition fix_summary (kr : string * fix_action) : string * Z * json :=
  (fx_action_type kr.2, fx_priority kr.2, fx_request kr.2).

Lemma missing_supported l zone vnet subnet inv w :
  w ∈ missing_objects l zone vnet subnet inv → w_action_type w ∈ SUPPORTED_ACTIONS ∧ w_action_type w ≠ "apply_sdn".
Proof.
  unfold missing_objects, SUPPORTED_ACTIONS.
  intros [Hw|[Hw|Hw]%elem_of_app]%elem_of_app; case_match; (apply not_elem_of_nil in Hw || apply list_elem_of_singleton in Hw as ->);
    try done; simpl; (split; [set_solver|done]).
Qed.

Lemma missing_distinct l zone vnet subnet inv : NoDup (w_action_type <$> missing_objects l zone vnet subnet inv).
Proof.
  unfold missing_objects. repeat case_match; simpl; eapply bool_decide_unpack; vm_compute; exact I.
Qed.

Section plan.
Context `{LE : LabEnv} `{!LabEnvLaws LE} {W : Type} `{PX : Proxmox W}.

#[local] Notation C := (lab_conn W).
#[local] Notation M := (eff (lab_conn W)).

(** ** From the invariant to the boundary model *)

Lemma wf_modelling E lab_id l (c : C) :
  ready_conn c → lab_wf (seen c) → labs (seen c) !! lab_id = Some l → modelling E lab_id l [] [] [] c.
Proof.
  intros Hc Hw Hl. split; try done; try (by intros ? Hin; apply not_elem_of_nil in Hin); [apply Hw|].
  right. intros s Hs. by eapply (lw_specs _ Hw).
Qed.

Lemma ok_named l : lab_ok l → named l.
Proof. intros Hok. unfold named. by rewrite (ok_zone _ Hok), (ok_vnet _ Hok); destruct Hok. Qed.

Lemma sync_progress E lab_id l inv status b (c : C) :
  ready_conn c → lab_wf (seen c) → labs (seen c) !! lab_id = Some l →
  runs E (progress lab_id) (sync_lab_network_current_state lab_id l inv status b) c
    (λ _ c', remodels (seen c) (seen c') ∧ (b = true → synced c')).
Proof.
  intros Hc Hw Hl. apply runs_step.
  assert (runs E remodels (sync_lab_network_current_state lab_id l inv status b) c
    (λ _ c', b = true → durable c' = seen c')) as Hs.
  { apply runs_sync; [by apply wf_modelling|]. by apply ok_named, (lw_lab _ Hw lab_id). }
  unfold runs in *. destruct (sync_lab_network_current_state _ _ _ _ _ c) as [[[]|e] c']; [|done].
  destruct Hs as [[Hr Hm] Hd]. split; [by split|]. split; [by apply remodels_progress|done].
Qed.

Lemma ensure_progress E lab_id l (c : C) :
  ready_conn c → lab_wf (seen c) → labs (seen c) !! lab_id = Some l →
  runs E (progress lab_id) (ensure_lab_boundary_model lab_id l false) c
    (λ _ c', remodels (seen c) (seen c')).
Proof.
  intros Hc Hw Hl. apply runs_step.
  assert (runs E remodels (ensure_lab_boundary_model lab_id l false) c (λ _ c', model_written lab_id l c')) as Hs.
  { apply runs_ensure; [by apply wf_modelling|]. by apply ok_named, (lw_lab _ Hw lab_id). }
  unfold runs in *. destruct (ensure_lab_boundary_model _ _ _ c) as [[[]|e] c']; [|done].
  destruct Hs as [[Hr Hm] Hd]. split; [by split|]. split; [by apply remodels_progress|done].
Qed.

(** What planning relies on at every point. *)
Record planning (lab_id : string) (l : lab) (run : option string) (c : C) : Prop := {
  pn_ready : ready_conn c;
  pn_wf : lab_wf (seen c);
  pn_lab : labs (seen c) !! lab_id = Some l;
  pn_run : run_exists (seen c) run
}.

Lemma planning_moves lab_id l run c c' :
  planning lab_id l run c → moves (progress lab_id) c c' → planning lab_id l run c'.
Proof.
  intros [Hr Hw Hl Hrun] [Hr' Hp]. split; [done|by apply (pg_wf _ _ _ Hp)|by rewrite (pg_labs _ _ _ Hp)|].
  destruct run; simpl in *; [by rewrite (pg_runs _ _ _ Hp)|done].
Qed.

Lemma pends_remodels lab_id t t' fs : remodels t t' → pends lab_id t fs → pends lab_id t' fs.
Proof. intros Hm Hp. unfold pends in *. by rewrite (rm_fixes _ _ Hm). Qed.

(** Recording what is missing. *)
Lemma runs_record_all E lab_id l run ws fs (c : C) :
  planning lab_id l run c → pends lab_id (seen c) fs →
  (∀ w, w ∈ ws → w_action_type w ∈ SUPPORTED_ACTIONS) →
  NoDup ((fx_action_type ∘ snd <$> fs) ++ (w_action_type <$> ws)) →
  runs E (progress lab_id) (record_all lab_id run ws) c
    (λ rs c', pends lab_id (seen c') (fs ++ rs.*2) ∧
       (fix_summary <$> rs.*2) = ((λ w, (w_action_type w, w_priority w, w_request w)) <$> ws) ∧
       reservations (seen c') = reservations (seen c) ∧ (ws ≠ [] → synced c')).
Proof.
  revert fs c. induction ws as [|w ws IH]; intros fs c Hpl Hp Hsup Hnd; simpl.
  { apply runs_ret; [apply _|apply Hpl|]. simpl. by rewrite app_nil_r. }
  eapply (runs_bind _ _ _ _ _ (λ r c', pends lab_id (seen c') (fs ++ [r.2]) ∧
    fix_summary r.2 = (w_action_type w, w_priority w, w_request w) ∧
    reservations (seen c') = reservations (seen c) ∧ synced c')).
  { unfold _record_fixable.
    eapply runs_bind; [apply _|apply runs_record_finding; [apply Hpl|by rewrite (pn_lab _ _ _ _ Hpl); eauto|apply Hpl]|].
    intros fd c1 Hm1 (_ & _ & _ & _ & _ & _ & Hfx1 & Hrs1 & _).
    pose proof (planning_moves _ _ _ _ _ Hpl Hm1) as Hpl1.
    eapply runs_bind; [apply _|apply (runs_create_fix E lab_id run (w_action_type w) (w_priority w) (w_detail w)
      (w_request w) true fs); [apply Hpl1|by rewrite (pn_lab _ _ _ _ Hpl1); eauto|apply Hpl1| | |]|].
    - apply Hsup. by left.
    - unfold pends in *. by rewrite Hfx1.
    - intros x Hx Heq. apply NoDup_app in Hnd as (_ & Hnd & _).
      apply (Hnd (fx_action_type x.2)); [|rewrite Heq; by left].
      apply list_elem_of_fmap. by exists x.
    - intros row c2 Hm2 (Hty & Hpr & Hrq & _ & _ & Hp2 & Hrs2 & _ & Hcm).
      apply runs_ret; [apply _|apply Hm2|]. simpl. split; [done|]. split; [unfold fix_summary; congruence|].
      split; [congruence|done]. }
  intros r c1 Hm1 (Hp1 & Hsum & Hrs1 & Hsy1).
  eapply (runs_bind _ _ _ _ _ (λ rs c', pends lab_id (seen c') ((fs ++ [r.2]) ++ rs.*2) ∧
       (fix_summary <$> rs.*2) = ((λ w, (w_action_type w, w_priority w, w_request w)) <$> ws) ∧
       reservations (seen c') = reservations (seen c1) ∧ (ws ≠ [] → synced c') ∧ (ws = [] → c' = c1))).
  - destruct (decide (ws = [])) as [->|Hne].
    + simpl. apply runs_ret; [apply _|apply Hm1|]. simpl. by rewrite app_nil_r.
    + eapply runs_mono; [apply (IH (fs ++ [r.2]) c1)|].
      * by eapply planning_moves.
      * done.
      * intros w' Hw'. apply Hsup. by right.
      * rewrite fmap_app. simpl. rewrite <- app_assoc. simpl.
        assert (fx_action_type r.2.2 = w_action_type w) as Hty by (unfold fix_summary in Hsum; congruence).
        rewrite Hty. exact Hnd.
      * simpl. intros rs c' _ (? & ? & ? & ?). by split_and!.
  - intros rs c2 Hm2 (Hp2 & Hsum2 & Hrs2 & Hsy2 & Hnil). apply runs_ret; [apply _|apply Hm2|]. simpl.
    rewrite <- app_assoc in Hp2. split; [done|]. split; [change (fix_summary r.2 :: (fix_summary <$> rs.*2) = (w_action_type w, w_priority w, w_request w) :: ((λ w, (w_action_type w, w_priority w, w_request w)) <$> ws)); by rewrite Hsum, Hsum2|]. split; [congruence|].
    intros _. destruct (decide (ws = [])) as [->|Hne]; [|by apply Hsy2]. by rewrite Hnil by done.
Qed.

(** ** Planning one lab *)

(** The result of a plan made when the tables were [t]. *)
Record planned (lab_id : string) (l : lab) (inv : json) (t : lab_tables) (res : plan_result) (c : C) : Prop := {
  pd_synced : synced c;
  pd_status : plan_status res = expected_status lab_id l inv t;
  pd_pending : pends lab_id (seen c) (plan_fixes res);
  pd_fixes : fix_summary <$> plan_fixes res =
               if decide (plan_status res = "fixing") then expected_fixes l inv else [];
  pd_accepted : plan_status res ∈ ["fixing"; "ready"] → accepted (seen c) lab_id l
}.

Lemma runs_blocked_plan E lab_id l inv run provider ty detail ref actual (c : C) :
  planning lab_id l run c → pends lab_id (seen c) [] →
  runs E (progress lab_id) (blocked_plan lab_id l inv run provider ty detail ref actual) c
    (λ res c', synced c' ∧ plan_status res = "blocked" ∧ plan_fixes res = [] ∧ pends lab_id (seen c') []).
Proof.
  intros Hpl Hp. unfold blocked_plan.
  eapply runs_bind; [apply _|apply sync_progress; apply Hpl|].
  intros [] c1 Hm1 [Hrm _]. pose proof (planning_moves _ _ _ _ _ Hpl Hm1) as Hpl1.
  eapply runs_bind; [apply _|apply runs_record_finding; [apply Hpl1|by rewrite (pn_lab _ _ _ _ Hpl1); eauto|apply Hpl1]|].
  intros fd c2 Hm2 (_ & _ & _ & _ & _ & _ & Hfx & _ & Hcm).
  apply runs_ret; [apply _|apply Hm2|]. split; [done|]. split; [done|]. split; [done|].
  eapply (pends_remodels _ _ _ _ Hrm) in Hp. unfold pends in *. by rewrite Hfx.
Qed.

Lemma or_compute_named value compute (c : C) : value ≠ EmptyString → or_compute value compute c = (Ret value, c).
Proof. intros Hv. unfold or_compute. by rewrite decide_False. Qed.

Lemma runs_plan_sdn E lab_id l inv run (c : C) :
  planning lab_id l run c → pends lab_id (seen c) [] →
  runs E (progress lab_id) (plan_sdn lab_id l inv run) c
    (λ res c', synced c' ∧
       plan_status res = match lab_missing l inv with [] => "ready" | _ => "fixing" end ∧
       pends lab_id (seen c') (plan_fixes res) ∧ fix_summary <$> plan_fixes res = expected_fixes l inv).
Proof.
  intros Hpl Hp. pose proof (lw_lab _ (pn_wf _ _ _ _ Hpl) lab_id l (pn_lab _ _ _ _ Hpl)) as [_ Hok].
  unfold plan_sdn, runs. rewrite run_bind, or_compute_named by apply Hok.
  rewrite run_bind, or_compute_named by apply Hok.
  change (runs E (progress lab_id)
    (recorded ← record_all lab_id run (lab_missing l inv);
     match recorded with
     | [] => sync_lab_network_current_state lab_id l inv "ready" true ;; mret (PlanResult "ready" [] [])
     | _ =>
         sync_lab_network_current_state lab_id l inv "fixing" false ;;
         last_fix ← create_fix_action lab_id run "proxmox" "apply_sdn" 90
                      "Apply pending Proxmox SDN changes." (JObj [("allow_pending", JBool true)]) true;
         mret (PlanResult "fixing" recorded.*1 (recorded.*2 ++ [last_fix]))
     end) c (λ res c', synced c' ∧
       plan_status res = match lab_missing l inv with [] => "ready" | _ => "fixing" end ∧
       pends lab_id (seen c') (plan_fixes res) ∧ fix_summary <$> plan_fixes res = expected_fixes l inv)).
  eapply runs_bind; [apply _|apply (runs_record_all E lab_id l run (lab_missing l inv) [] c Hpl Hp)|].
  { intros w Hw. by eapply missing_supported. }
  { apply missing_distinct. }
  intros rs c1 Hm1 (Hp1 & Hsum & _ & _). simpl in Hp1.
  pose proof (planning_moves _ _ _ _ _ Hpl Hm1) as Hpl1.
  destruct rs as [|r rs].
  - destruct (lab_missing l inv) as [|w ws] eqn:Hmiss; [|done].
    eapply runs_bind; [apply _|apply sync_progress; apply Hpl1|]. intros [] c2 Hm2 [Hrm Hsy].
    apply runs_ret; [apply _|apply Hm2|]. split; [by apply Hsy|]. split; [done|].
    split; [by eapply pends_remodels|]. unfold expected_fixes. by rewrite Hmiss.
  - destruct (lab_missing l inv) as [|w ws] eqn:Hmiss; [done|].
    eapply runs_bind; [apply _|apply sync_progress; apply Hpl1|]. intros [] c2 Hm2 [Hrm _].
    pose proof (planning_moves _ _ _ _ _ Hpl1 Hm2) as Hpl2.
    eapply runs_bind; [apply _|apply (runs_create_fix E lab_id run "apply_sdn" 90 _ _ true (r :: rs).*2)|].
    + apply Hpl2.
    + rewrite (pn_lab _ _ _ _ Hpl2). eauto.
    + apply Hpl2.
    + unfold SUPPORTED_ACTIONS. set_solver.
    + by eapply pends_remodels.
    + intros x Hx Heq.
      assert (fix_summary x ∈ fix_summary <$> (r :: rs).*2) as Hin by (apply list_elem_of_fmap; by exists x).
      rewrite Hsum in Hin. apply list_elem_of_fmap in Hin as (w' & Hw' & Hin).
      rewrite <- Hmiss in Hin. apply missing_supported in Hin as [_ Hne]. apply Hne.
      unfold fix_summary in Hw'. congruence.
    + intros row c3 Hm3 (Hty & Hpr & Hrq & _ & _ & Hp3 & _ & _ & Hcm).
      apply runs_ret; [apply _|apply Hm3|]. split; [done|]. split; [done|]. split; [done|].
      cbn [plan_fixes]. rewrite fmap_app, Hsum. unfold expected_fixes. rewrite Hmiss. cbn [fmap list_fmap].
      unfold fix_summary. by rewrite Hty, Hpr, Hrq.
Qed.

Lemma runs_plan E lab_id l inv run (c : C) :
  planning lab_id l run c →
  runs E (progress lab_id) (plan_network_reconcile lab_id inv run) c
    (planned lab_id l inv (seen c)).
Proof.
  intros Hpl. pose proof (lw_lab _ (pn_wf _ _ _ _ Hpl) lab_id l (pn_lab _ _ _ _ Hpl)) as [Hid Hok].
  unfold plan_network_reconcile.
  eapply (runs_bind _ _ _ _ _ (λ row c', row = Some l ∧ c' = c)).
  { apply runs_query; [apply _|apply Hpl|]. split; [apply Hpl|done]. }
  intros row c0 _ [-> ->].
  eapply runs_bind; [apply _|apply ensure_progress; apply Hpl|]. intros [] c1 Hm1 Hrm1.
  pose proof (planning_moves _ _ _ _ _ Hpl Hm1) as Hpl1.
  eapply runs_bind; [apply _|apply runs_clear; [apply Hpl1|by rewrite (pn_lab _ _ _ _ Hpl1); eauto|apply Hpl1]|].
  intros [] c2 Hm2 (Hp2 & Hrs2 & _). pose proof (planning_moves _ _ _ _ _ Hpl1 Hm2) as Hpl2.
  assert (overlaps_of (lab_network_cidr l) lab_id (seen c2) = overlaps_of (lab_network_cidr l) lab_id (seen c)) as Hov.
  { unfold overlaps_of, active_cidrs. by rewrite Hrs2, (rm_reservations _ _ Hrm1). }
  eapply (runs_bind _ _ _ _ _ (λ o c', o = overlaps_of (lab_network_cidr l) lab_id (seen c) ∧ c' = c2)).
  { apply runs_find_overlapping; [apply _|apply Hpl2|apply Hpl2|apply Hok|]. by rewrite Hov. }
  intros o c2' _ [-> ->].
  assert (expected_status lab_id l inv (seen c) = expected_status lab_id l inv (seen c2)) as Hexp
    by (unfold expected_status; by rewrite Hov).
  destruct (overlaps_of (lab_network_cidr l) lab_id (seen c)) as [|first rest] eqn:Ho.
  - assert (∀ i r, reservations (seen c2) !! i = Some r → rv_type r = "cidr" → rv_lab_id r ≠ lab_id →
      ranges_disjoint (lab_network_cidr l) (rv_value r)) as Hdis
      by (apply no_overlap_disjoint; [apply Hpl2|done|by rewrite Hov]).
    eapply runs_bind; [apply _|apply (runs_reserve E lab_id "cidr" (lab_network_cidr l) JNull false c2)|].
    { apply Hpl2. } { rewrite (pn_lab _ _ _ _ Hpl2). eauto. }
    { intros _. rewrite (ok_cidr _ Hok). apply Hok. }
    { right. intros i r Hi Hty Hv. apply dec_stable. intros Hne. destruct (ok_cidr_valid _ Hok) as [n Hn].
      rewrite (ok_cidr _ Hok) in Hv. specialize (Hdis i r Hi Hty Hne n n Hn).
      rewrite Hv in Hdis. specialize (Hdis Hn). pose proof (ip_network_wf _ _ Hn) as Hwf.
      apply not_true_iff_false in Hdis. apply Hdis, overlaps_iff; [done|done|]. split; [done|].
      exists (network_address n). by split; apply network_address_in. }
    intros rrow c3 Hm3 ((i & r & Hi & Hlab & Hty & Hv) & Hfx3 & _).
    pose proof (planning_moves _ _ _ _ _ Hpl2 Hm3) as Hpl3.
    rewrite (ok_cidr _ Hok) in Hv.
    assert (accepted (seen c3) lab_id l) as Hacc.
    { split; [by exists i, r|]. intros j r' Hj Hty' Hlab'.
      destruct (pg_reserved_new _ _ _ (mv_tables _ _ _ Hm3) j r' Hj) as [?|(r0 & Hr0 & Hl0 & Ht0 & Hv0)]; [done|].
      rewrite Hv0. apply (Hdis j r0 Hr0); congruence. }
    assert (pends lab_id (seen c3) []) as Hp3 by (unfold pends in *; by rewrite Hfx3).
    case_decide as Hmode.
    + eapply runs_mono; [by apply (runs_plan_sdn E lab_id l inv run c3 Hpl3)|].
      intros res c4 Hm4 (Hsy & Hst & Hp4 & Hsum). split; try done.
      * rewrite Hst. unfold expected_status. rewrite Ho. by rewrite decide_True.
      * rewrite Hsum, Hst. unfold expected_fixes. destruct (lab_missing l inv); [done|]. done.
      * intros _. eapply progress_accepted; [apply Hm4|done].
    + eapply runs_mono; [by apply (runs_blocked_plan E lab_id l inv run _ _ _ _ _ c3 Hpl3)|].
      intros res c4 Hm4 (Hsy & Hst & Hf & Hp4). split; try done.
      * rewrite Hst. unfold expected_status. rewrite Ho. by rewrite decide_False.
      * by rewrite Hf.
      * by rewrite Hf, Hst.
      * rewrite Hst. set_solver.
  - eapply runs_mono; [by apply (runs_blocked_plan E lab_id l inv run _ _ _ _ _ c2 Hpl2)|].
    intros res c4 Hm4 (Hsy & Hst & Hf & Hp4). split; try done.
    + rewrite Hst. unfold expected_status. by rewrite Ho.
    + by rewrite Hf.
    + by rewrite Hf, Hst.
    + rewrite Hst. set_solver.
Qed.
End plan.
