(* ===== verification/LabSweep.v ===== *)
(** * Managed labs: runs, fix actions and sweeps

    What a reconcile run, an executed fix action and a sweep over all labs do to the
    database and to Proxmox. *)

From stdpp Require Import base gmap list strings pretty sorting.
From Stdlib Require Import ZArith Lia Ascii.
From S2P Require Import Prelude Json Text IpNetwork ProxmoxSdn LabData LabStore LabRecords LabNetwork LabReconciler LabLogic LabModel LabInvariant LabOps LabPlan.

#[local] Open Scope Z_scope.

(** ** What an operation leaves untouched *)

(** An observation that stays the same. *)
Definition same {A B} (π : A → B) : relation A := λ c c', π c' = π c.

Section untouched.
Context `{LE : LabEnv} {W : Type}.

#[local] Notation C := (lab_conn W).
#[local] Notation M := (eff (lab_conn W)).

(** A relation between connections that statements respect. *)
Class Untouched (R : relation C) : Prop := {
  ut_preorder :: PreOrder R;
  ut_now c : R c (_now c).2;
  ut_new_id c : R c (_new_id c).2;
  ut_event_id c : R c (next_event_id c).2;
  ut_statement ok f c : R c (statement ok f c).2
}.

(** Proxmox and the committed tables are as before, and what was handed out stays so. *)
Record uncommitted (c c' : C) : Prop := {
  uc_durable : durable c' = durable c;
  uc_world : world c' = world c;
  uc_handed : (handed_out c ≤ handed_out c')%nat;
  uc_serial : event_serial c ≤ event_serial c'
}.

#[export] Instance uncommitted_preorder : PreOrder uncommitted.
Proof.
  split; [by split|]. intros c1 c2 c3 [? ? ? ?] [? ? ? ?]. split; try lia; congruence.
Qed.

#[export] Instance uncommitted_untouched : Untouched uncommitted.
Proof.
  split; [apply _|..]; intros; split; unfold next_event_id, statement; repeat case_match; simpl; (lia || done).
Qed.

#[export] Instance world_untouched : Untouched (same world).
Proof.
  split; try done; intros; unfold next_event_id, statement; [|by repeat case_match..].
  split; [done|]. intros c1 c2 c3. simpl. congruence.
Qed.

Context (R : relation C) `{!Untouched R}.

Definition observes {A} (m : M A) : Prop := ∀ c, R c (m c).2.

Lemma observes_ret {A} (a : A) : observes (mret a).
Proof. intros c. reflexivity. Qed.
Lemma observes_raise {A} e : observes (raise e : M A).
Proof. intros c. reflexivity. Qed.
Lemma observes_bind {A B} (m : M A) (f : A → M B) : observes m → (∀ a, observes (f a)) → observes (m ≫= f).
Proof.
  intros Hm Hf c. rewrite run_bind. specialize (Hm c). destruct (m c) as [[a|e] c']; [|done].
  etrans; [exact Hm|]. apply Hf.
Qed.
Lemma observes_now : observes _now.
Proof. exact ut_now. Qed.
Lemma observes_new_id : observes _new_id.
Proof. exact ut_new_id. Qed.
Lemma observes_event_id : observes next_event_id.
Proof. exact ut_event_id. Qed.
Lemma observes_statement ok f : observes (statement ok f).
Proof. intros c. apply ut_statement. Qed.
Lemma observes_query {A} (f : lab_tables → A) : observes (query f).
Proof. intros c. unfold query. case_match; reflexivity. Qed.
Lemma observes_lift {A} (o : outcome A) : observes (lift_outcome o).
Proof. intros c. reflexivity. Qed.
Lemma observes_assert {A} (x : option A) : observes (assert_some x).
Proof. destruct x; intros c; reflexivity. Qed.
Lemma observes_for_each {A} (l : list A) (body : A → M unit) :
  (∀ x, observes (body x)) → observes (for_each l body).
Proof. intros Hb. induction l; simpl; [apply observes_ret|]. apply observes_bind; [apply Hb|]. by intros _. Qed.
End untouched.

Create HintDb observes.
#[export] Hint Extern 0 (Untouched _) => apply _ : observes.

(** Go through a sequence of statements. *)
Ltac observe :=
  repeat first
    [ solve [auto with observes]
    | apply observes_bind; [apply _| |intro]
    | apply observes_ret; apply _ | apply observes_raise; apply _ | apply observes_now; apply _ | apply observes_new_id; apply _
    | apply observes_event_id; apply _ | apply observes_statement; apply _ | apply observes_query; apply _
    | apply observes_lift; apply _ | apply observes_assert; apply _
    | apply observes_for_each; [apply _|intro]
    | match goal with |- observes _ (match ?x with _ => _ end) => destruct x end
    | match goal with |- observes _ (if ?x then _ else _) => destruct x end ].

Section quiet.
Context `{LE : LabEnv} {W : Type} (R : relation (lab_conn W)) `{!Untouched R}.

#[local] Notation M := (eff (lab_conn W)).

Lemma observes_or_compute value (m : M string) : observes R m → observes R (or_compute value m).
Proof. intros Hm. unfold or_compute. observe. Qed.
Hint Resolve observes_or_compute : observes.

Lemma observes_zone s : observes R (proxmox_sdn_zone_id s : M string).
Proof. unfold proxmox_sdn_zone_id, _proxmox_sdn_id_part. observe. Qed.
Lemma observes_vnet s : observes R (proxmox_sdn_vnet_id s : M string).
Proof. unfold proxmox_sdn_vnet_id, _proxmox_sdn_id_part. observe. Qed.
Hint Resolve observes_zone observes_vnet : observes.

Lemma observes_shape l : observes R (_lab_network_shape l : M _).
Proof. unfold _lab_network_shape. observe. Qed.
Hint Resolve observes_shape : observes.

Lemma observes_upsert_boundary lid p k n v : observes R (upsert_boundary lid p k n v false).
Proof. unfold upsert_boundary, _find_boundary. simpl. observe. Qed.
Lemma observes_upsert_object lid b p k n v : observes R (upsert_boundary_object lid b p k n v false).
Proof.
  unfold upsert_boundary_object, _find_boundary_object, _replace_boundary_object_provider_identities,
    insert_identity. simpl. observe.
Qed.
Hint Resolve observes_upsert_boundary observes_upsert_object : observes.

Lemma observes_ensure lid l : observes R (ensure_lab_boundary_model lid l false).
Proof. unfold ensure_lab_boundary_model, ensure_service. simpl. observe. Qed.
Hint Resolve observes_ensure : observes.

Lemma observes_sync lid l inv st : observes R (sync_lab_network_current_state lid l inv st false).
Proof. unfold sync_lab_network_current_state, _find_boundary. simpl. observe. Qed.

Lemma observes_event lid ty a d p : observes R (record_event lid ty a d p false).
Proof. unfold record_event. simpl. observe. Qed.

Lemma observes_reserve lid ty v md : observes R (reserve_value lid ty v md false).
Proof. unfold reserve_value, upsert_reservation. simpl. observe. Qed.
End quiet.
#[export] Hint Resolve observes_sync observes_ensure observes_event observes_reserve observes_shape
  observes_upsert_boundary observes_upsert_object observes_zone observes_vnet : observes.
#[export] Hint Extern 1 (observes _ (or_compute _ _)) => apply observes_or_compute; [apply _|] : observes.

(** Committing does not touch Proxmox either. *)
Section quiet_world.
Context `{LE : LabEnv} {W : Type}.

#[local] Notation M := (eff (lab_conn W)).

Lemma world_commit : observes (same (@world W)) lab_commit.
Proof. done. Qed.
Hint Resolve world_commit : observes.

Lemma world_commit_if b : observes (same (@world W)) (commit_if b).
Proof. by destruct b. Qed.
Hint Resolve world_commit_if : observes.

Lemma world_sync lid l inv st b : observes (same (@world W)) (sync_lab_network_current_state lid l inv st b).
Proof. unfold sync_lab_network_current_state, _find_boundary. observe. Qed.
Lemma world_event lid ty a d p b : observes (same (@world W)) (record_event lid ty a d p b).
Proof. unfold record_event. observe. Qed.
Hint Resolve world_sync world_event : observes.
Lemma world_finding lid r p ty sv d o ds ac st b : observes (same (@world W)) (record_finding lid r p ty sv d o ds ac st b).
Proof. unfold record_finding. observe. Qed.
Lemma world_create_fix lid r p ty pr d rq b : observes (same (@world W)) (create_fix_action lid r p ty pr d rq b).
Proof. unfold create_fix_action. observe. Qed.
Lemma world_clear lid ps b : observes (same (@world W)) (clear_current_reconcile_state lid ps b).
Proof. unfold clear_current_reconcile_state. observe. Qed.
Lemma world_reserve lid ty v md b : observes (same (@world W)) (reserve_value lid ty v md b).
Proof. unfold reserve_value, upsert_reservation. observe. Qed.
Lemma world_resolve lid ty : observes (same (@world W)) (resolve_finding_of lid ty).
Proof. unfold resolve_finding_of, resolve_open_finding. observe. Qed.
Lemma world_settle fid st r sid : observes (same (@world W)) (settle_fix fid st r sid).
Proof. unfold settle_fix, update_fix_action, get_fix_action. observe. Qed.
Lemma world_snapshot lid p ty o sn : observes (same (@world W)) (record_provider_snapshot lid p ty o sn).
Proof. unfold record_provider_snapshot. observe. Qed.
Lemma world_start lid a : observes (same (@world W)) (start_reconcile_run lid a).
Proof. unfold start_reconcile_run. observe. Qed.
Lemma world_finish r st sm : observes (same (@world W)) (finish_reconcile_run r st sm).
Proof. unfold finish_reconcile_run. observe. Qed.
Lemma world_overlapping cidr lid : observes (same (@world W)) (find_overlapping_cidr_reservations cidr lid).
Proof. unfold find_overlapping_cidr_reservations. observe. Qed.
Hint Resolve world_finding world_create_fix world_clear world_reserve world_resolve world_settle
  world_snapshot world_overlapping : observes.

Lemma world_settle_present lid l fid ty rq before ex sid :
  observes (same (@world W)) (settle_present lid l fid ty rq before ex sid).
Proof.
  unfold settle_present, _sync_boundary_state, _record_verification_event. observe.
Qed.

Lemma world_settle_change lid l fid r ty rq o sid :
  observes (same (@world W)) (settle_change lid l fid r ty rq o sid).
Proof.
  unfold settle_change, _sync_boundary_state, _record_verification_event,
    _record_verification_failure_finding. observe.
Qed.

Lemma world_record_all lid r ws : observes (same (@world W)) (record_all lid r ws).
Proof. induction ws; simpl; unfold _record_fixable; observe. Qed.
Hint Resolve world_record_all : observes.

Lemma world_blocked_plan lid l inv r p ty d o a : observes (same (@world W)) (blocked_plan lid l inv r p ty d o a).
Proof. unfold blocked_plan. observe. Qed.
Lemma world_plan_sdn lid l inv r : observes (same (@world W)) (plan_sdn lid l inv r).
Proof.
  unfold plan_sdn. observe.
Qed.
Hint Resolve world_blocked_plan world_plan_sdn : observes.

(** Planning never calls Proxmox. *)
Lemma world_plan lid inv r : observes (same (@world W)) (plan_network_reconcile lid inv r).
Proof. unfold plan_network_reconcile, get_lab. observe. Qed.
End quiet_world.

(** ** Runs *)

(** What a lab is created with. *)
Definition lab_identity (l : lab) :=
  (lab_name l, lab_slug l, lab_short_code l, lab_group_tag l, lab_network_cidr l, lab_gateway_ip l,
   lab_network_mode l, lab_sdn_zone l, lab_sdn_vnet l, lab_sdn_subnet l, lab_desired_state l).

Definition same_lab (l l' : lab) : Prop := lab_identity l' = lab_identity l.

(** What requests other than creation may do: the invariant, the labs, their reservations,
    runs and snapshots stay. *)
Record steady (t t' : lab_tables) : Prop := {
  sd_wf : lab_wf t → lab_wf t';
  sd_labs i l : labs t !! i = Some l → ∃ l', labs t' !! i = Some l' ∧ same_lab l l';
  sd_labs_back i l' : labs t' !! i = Some l' → ∃ l, labs t !! i = Some l ∧ same_lab l l';
  sd_reserved i r : reservations t !! i = Some r → ∃ r', reservations t' !! i = Some r' ∧ same_reservation r r';
  sd_runs i : is_Some (reconcile_runs t !! i) → is_Some (reconcile_runs t' !! i);
  sd_snapshots i s : snapshots t !! i = Some s → snapshots t' !! i = Some s
}.

#[export] Instance steady_preorder : PreOrder steady.
Proof.
  split.
  - intros t. split; try done; intros; eauto; by eexists.
  - intros t1 t2 t3 H12 H23. split.
    + intros. by apply H23, H12.
    + intros i l Hl. destruct (sd_labs _ _ H12 i l Hl) as (l2 & Hl2 & E2).
      destruct (sd_labs _ _ H23 i l2 Hl2) as (l3 & Hl3 & E3). exists l3. split; [done|]. unfold same_lab in *. congruence.
    + intros i l Hl. destruct (sd_labs_back _ _ H23 i l Hl) as (l2 & Hl2 & E2).
      destruct (sd_labs_back _ _ H12 i l2 Hl2) as (l3 & Hl3 & E3). exists l3. split; [done|]. unfold same_lab in *. congruence.
    + intros i r Hi. destruct (sd_reserved _ _ H12 i r Hi) as (r2 & Hr2 & ? & ? & ?).
      destruct (sd_reserved _ _ H23 i r2 Hr2) as (r3 & Hr3 & ? & ? & ?). exists r3. split; [done|].
      split; [congruence|split; congruence].
    + intros i Hi. by apply H23, H12.
    + intros i s Hi. by apply H23, H12.
Qed.

Lemma progress_steady lab_id t t' : progress lab_id t t' → steady t t'.
Proof.
  intros [Hw Hl Hr Hs Hrk Hrn Hf Hfd]. split; [done| | |done|by rewrite Hr|by rewrite Hs].
  - intros i l Hi. exists l. by rewrite Hl.
  - intros i l Hi. exists l. by rewrite <- Hl.
Qed.

Lemma alter_lab_steady t lab_id l status count run now :
  labs t !! lab_id = Some l → status ∈ LAB_STATUSES → (status ∈ ["fixing"; "ready"] → accepted t lab_id l) →
  steady t (on_labs (alter (set_lab_run status count run now) lab_id) t).
Proof.
  intros Hl Hst Hacc. split; simpl; try done.
  - by eapply alter_lab_wf.
  - intros i a Hi. destruct (decide (i = lab_id)) as [->|].
    + rewrite lookup_alter_eq, Hi. simpl. by eexists.
    + rewrite lookup_alter_ne by done. by exists a.
  - intros i a. destruct (decide (i = lab_id)) as [->|].
    + rewrite lookup_alter_eq. intros (a0 & Ha0 & ->)%fmap_Some. by exists a0.
    + rewrite lookup_alter_ne by done. by exists a.
  - intros i r Hi. by exists r.
Qed.

Lemma runs_steady t m :
  (∀ i, is_Some (reconcile_runs t !! i) → is_Some (m !! i)) →
  (lab_wf t → ∀ i r, m !! i = Some r → is_Some (labs t !! rr_lab_id r)) →
  steady t (on_reconcile_runs (λ _, m) t).
Proof.
  intros Hm Hl. split; simpl; try done.
  - intros Hw. by apply set_runs_wf; [done|apply Hl|].
  - intros i l Hi. by exists l.
  - intros i l Hi. by exists l.
  - intros i r Hi. by exists r.
Qed.

Lemma snapshot_steady t i s :
  is_Some (labs t !! sn_lab_id s) → snapshots t !! i = None → steady t (on_snapshots <[i := s]> t).
Proof.
  intros Hl Hi. split; simpl; try done.
  - by apply insert_snapshot_wf.
  - intros j l Hj. by exists l.
  - intros j l Hj. by exists l.
  - intros j r Hj. by exists r.
  - intros j s' Hj. rewrite lookup_insert_ne; [done|congruence].
Qed.

Lemma reconcile_status_valid status attempt : _lab_status_from_reconcile_status status attempt ∈ LAB_STATUSES.
Proof.
  unfold _lab_status_from_reconcile_status. repeat case_decide; try case_match; try done; unfold LAB_STATUSES; set_solver.
Qed.

Lemma reconcile_status_standing status attempt :
  _lab_status_from_reconcile_status status attempt ∈ ["fixing"; "ready"] → status ∈ ["fixing"; "ready"].
Proof.
  unfold _lab_status_from_reconcile_status. repeat case_decide; try case_match; try done; set_solver.
Qed.

Section sweep.
Context `{LE : LabEnv} `{!LabEnvLaws LE} {W : Type} `{PX : Proxmox W}.

#[local] Notation C := (lab_conn W).
#[local] Notation M := (eff (lab_conn W)).

Lemma steady_lab t t' i l : steady t t' → labs t !! i = Some l → is_Some (labs t' !! i).
Proof. intros Hs Hl. destruct (sd_labs _ _ Hs i l Hl) as (l' & Hl' & _). eauto. Qed.

Lemma adds_event_steady lab_id t t' : is_Some (labs t !! lab_id) → adds_event lab_id t t' → steady t t'.
Proof. intros Hl He. by apply (progress_steady lab_id), adds_event_progress. Qed.

(** A run is started: the lab is being validated. *)
Record started (lab_id : string) (attempt : Z) (c : C) (row : string * reconcile_run) (c' : C) : Prop := {
  sr_run : reconcile_runs (seen c') !! row.1 = Some row.2;
  sr_lab : rr_lab_id row.2 = lab_id;
  sr_attempt : rr_attempt row.2 = attempt;
  sr_synced : synced c';
  sr_fixes : fix_actions (seen c') = fix_actions (seen c);
  sr_reservations : reservations (seen c') = reservations (seen c)
}.

Lemma runs_start E lab_id l attempt (c : C) :
  ready_conn c → labs (seen c) !! lab_id = Some l →
  runs E steady (start_reconcile_run lab_id attempt) c (started lab_id attempt c).
Proof.
  intros Hc Hl. unfold start_reconcile_run.
  eapply (runs_bind _ _ _ _ _ (λ _ c', seen c' = seen c)).
  { apply runs_now; [apply _|done|]. by intros. }
  intros now c1 [H1 _] Hs1.
  eapply (runs_bind _ _ _ _ _ (λ id c', seen c' = seen c ∧ fresh_id id c')).
  { apply runs_new_id; [apply _|done|]. intros id c' _ Hs _ Hf _. by rewrite Hs. }
  intros id c2 [H2 _] [Hs2 [Hu Hh]]. apply not_used in Hu as (_ & _ & _ & _ & Hu & _). rewrite Hs2 in Hu.
  set (r := ReconcileRun lab_id "running" attempt now None EmptyString).
  eapply (runs_bind _ _ _ _ _ (λ _ c', seen c' = on_reconcile_runs <[id := r]> (seen c))).
  { apply runs_statement; [done| |].
    - intros ex. rewrite Hs2. unfold first_violation. simpl. by rewrite pk_fresh, lab_fk_ok by eauto.
    - intros _. rewrite Hs2. split; [|split; [|split; [by left|by intros]]].
      + apply runs_steady.
        * intros i Hi. destruct (decide (i = id)) as [->|]; [rewrite lookup_insert_eq; eauto|].
          by rewrite lookup_insert_ne by done.
        * intros Hw i r' [[-> <-]|[_ Hi]]%lookup_insert_Some; [simpl; eauto|by eapply (lw_run _ Hw)].
      + intros k. unfold used; simpl. intros Hk. destruct (decide (k = id)) as [->|]; [by right|].
        rewrite lookup_insert_ne in Hk by done. by left. }
  intros [] c3 [H3 _] Hs3.
  eapply (runs_bind _ _ _ _ _ (λ _ c', seen c' =
    on_labs (alter (set_lab_run "validating" Datatypes.id id now) lab_id) (on_reconcile_runs <[id := r]> (seen c)))).
  { apply runs_statement; [done|done|]. intros _. rewrite Hs3. split; [|split; [|split; [by left|by intros]]].
    - apply alter_lab_steady with l; [done|unfold LAB_STATUSES; set_solver|set_solver].
    - intros k. unfold used; simpl. rewrite lookup_alter_is_Some. by left. }
  intros [] c4 [H4 _] Hs4.
  eapply (runs_bind _ _ _ _ _ (λ _ c', adds_event lab_id (seen c4) (seen c') ∧ synced c')).
  { apply runs_step. eapply runs_mono; [apply runs_record_event; [done|]|].
    - rewrite Hs4. simpl. rewrite lookup_alter_eq, Hl. simpl. eauto.
    - intros ev c' _ [Hev Hcm]. split; [|done]. eapply adds_event_steady; [|exact Hev].
      rewrite Hs4. simpl. rewrite lookup_alter_eq, Hl. simpl. eauto. }
  intros ev c5 [H5 _] [Hev _].
  eapply (runs_bind _ _ _ _ _ (λ _ c', seen c' = seen c5 ∧ synced c')).
  { apply runs_commit; [apply _|done|]. intros c' _ Hs Hd _. split; [done|]. unfold synced. congruence. }
  intros [] c6 [H6 _] [Hs6 Hsy]. apply runs_ret; [apply _|done|].
  destruct Hev as (i & e & Hev & _). split; simpl; try done; rewrite Hs6, Hev, Hs4; simpl; [|done..].
  by rewrite lookup_insert_eq.
Qed.

(** A run is finished: its lab takes the status of the run. *)
Lemma runs_finish E run_id r l status summary (c : C) :
  ready_conn c → reconcile_runs (seen c) !! run_id = Some r → labs (seen c) !! rr_lab_id r = Some l →
  (status ∈ ["fixing"; "ready"] → accepted (seen c) (rr_lab_id r) l) →
  runs E steady (finish_reconcile_run run_id status summary) c
    (λ _ c', synced c' ∧ fix_actions (seen c') = fix_actions (seen c) ∧
       reservations (seen c') = reservations (seen c) ∧
       ∃ l', labs (seen c') !! rr_lab_id r = Some l' ∧ same_lab l l' ∧
             lab_status l' = _lab_status_from_reconcile_status status (rr_attempt r) ∧
             lab_retry_count l' = rr_attempt r ∧ lab_last_reconcile_run_id l' = Some run_id).
Proof.
  intros Hc Hr Hl Hacc. unfold finish_reconcile_run.
  eapply (runs_bind _ _ _ _ _ (λ _ c', seen c' = seen c)).
  { apply runs_now; [apply _|done|]. by intros. }
  intros now c1 [H1 _] Hs1.
  set (g := λ r, ReconcileRun (rr_lab_id r) status (rr_attempt r) (rr_started_at r) (Some now) summary).
  eapply (runs_bind _ _ _ _ _ (λ _ c', seen c' = on_reconcile_runs (alter g run_id) (seen c))).
  { apply runs_statement; [done|done|]. intros _. rewrite Hs1. split; [|split; [|split; [by left|by intros]]].
    - apply runs_steady.
      + intros i. by rewrite lookup_alter_is_Some.
      + intros Hw i r'. destruct (decide (i = run_id)) as [->|].
        * rewrite lookup_alter_eq. intros (r0 & Hr0 & ->)%fmap_Some. simpl. by eapply (lw_run _ Hw).
        * rewrite lookup_alter_ne by done. by eapply (lw_run _ Hw).
    - intros k. unfold used; simpl. rewrite lookup_alter_is_Some. by left. }
  intros [] c2 [H2 _] Hs2.
  eapply (runs_bind _ _ _ _ _ (λ row c', row = Some (g r) ∧ c' = c2)).
  { apply runs_query; [apply _|done|]. split; [|done]. rewrite Hs2. simpl. by rewrite lookup_alter_eq, Hr. }
  intros row c3 _ [-> ->].
  eapply (runs_bind _ _ _ _ _ (λ x c', x = g r ∧ c' = c2)).
  { apply runs_assert; [apply _|done|by intros a [= <-]|done]. }
  intros x c4 _ [-> ->]. cbn [g rr_lab_id rr_attempt].
  set (h := set_lab_run (_lab_status_from_reconcile_status status (rr_attempt r)) (λ _, rr_attempt r) run_id now).
  assert (accepted (seen c) (rr_lab_id r) l = accepted (seen c2) (rr_lab_id r) l) as Heq by (by rewrite Hs2).
  eapply (runs_bind _ _ _ _ _ (λ _ c', seen c' = on_labs (alter h (rr_lab_id r)) (seen c2))).
  { apply runs_statement; [done|done|]. intros _. split; [|split; [|split; [by left|by intros]]].
    - apply alter_lab_steady with l; [by rewrite Hs2|apply reconcile_status_valid|].
      intros Hst. rewrite <- Heq. by apply Hacc, (reconcile_status_standing _ (rr_attempt r)).
    - intros k. unfold used; simpl. rewrite lookup_alter_is_Some. by left. }
  intros [] c5 [H5 _] Hs5.
  assert (labs (seen c5) !! rr_lab_id r = Some (h l)) as Hl5.
  { rewrite Hs5, Hs2. simpl. by rewrite lookup_alter_eq, Hl. }
  eapply (runs_bind _ _ _ _ _ (λ _ c', adds_event (rr_lab_id r) (seen c5) (seen c'))).
  { apply runs_step. eapply runs_mono; [apply runs_record_event; [done|by rewrite Hl5; eauto]|].
    intros ev c' _ [Hev _]. split; [|done]. eapply adds_event_steady; [|exact Hev]. by rewrite Hl5; eauto. }
  intros ev c6 [H6 _] Hev.
  eapply (runs_bind _ _ _ _ _ (λ _ c', seen c' = seen c6 ∧ synced c')).
  { apply runs_commit; [apply _|done|]. intros c' _ Hs Hd _. split; [done|]. unfold synced. congruence. }
  intros [] c7 [H7 _] [Hs7 Hsy]. apply runs_ret; [apply _|done|].
  destruct Hev as (i & e & Hev & _). rewrite Hs7, Hev. simpl. rewrite Hs5. simpl. rewrite Hs2. simpl.
  split; [done|]. split; [done|]. split; [done|]. exists (h l).
  split; [by rewrite lookup_alter_eq, Hl|]. by split_and!.
Qed.

(** ** Executing an action *)

(** A change that leaves actions, reservations, snapshots, labs and runs alone. *)
Record beside (t t' : lab_tables) : Prop := {
  be_steady : steady t t';
  be_fixes : fix_actions t' = fix_actions t;
  be_reservations : reservations t' = reservations t;
  be_snapshots : snapshots t' = snapshots t;
  be_labs : labs t' = labs t;
  be_runs : reconcile_runs t' = reconcile_runs t
}.

#[export] Instance beside_preorder : PreOrder beside.
Proof.
  split; [by intros t; split|]. intros t1 t2 t3 [] []. split; try congruence. by etrans.
Qed.

(** Where an action is being executed. *)
Record executing (fid : string) (f : fix_action) (l : lab) (c : C) : Prop := {
  ex_ready : ready_conn c;
  ex_wf : lab_wf (seen c);
  ex_fix : fix_actions (seen c) !! fid = Some f;
  ex_lab : labs (seen c) !! fx_lab_id f = Some l
}.

Lemma executing_beside fid f l c c' : executing fid f l c → moves beside c c' → executing fid f l c'.
Proof.
  intros [Hr Hw Hf Hl] [Hr' Hb]. split; [done|by apply Hb|by rewrite (be_fixes _ _ Hb)|by rewrite (be_labs _ _ Hb)].
Qed.

Lemma runs_sync_beside E fid f l inv status (c : C) :
  executing fid f l c →
  runs E beside (_sync_boundary_state (fx_lab_id f) l inv status) c (λ _ _, True).
Proof.
  intros Hex. apply runs_step. unfold _sync_boundary_state.
  eapply (runs_mono _ any_change).
  - pose proof (sync_progress E (fx_lab_id f) l inv status false c (ex_ready _ _ _ _ Hex) (ex_wf _ _ _ _ Hex)
      (ex_lab _ _ _ _ Hex)) as Hs.
    eapply runs_weaken; [|exact Hs]. done.
  - intros [] c' _ [Hrm _]. split; [|done]. split; try by destruct Hrm.
    by apply (progress_steady (fx_lab_id f)), remodels_progress.
Qed.

Lemma runs_event_beside E fid f l action_type seen_ verification (c : C) :
  executing fid f l c →
  runs E beside (_record_verification_event (fx_lab_id f) fid action_type seen_ verification) c (λ _ _, True).
Proof.
  intros Hex. unfold _record_verification_event.
  eapply (runs_bind _ _ _ _ _ (λ _ _, True)).
  - apply runs_step. eapply runs_mono; [apply runs_record_event; [apply Hex|rewrite (ex_lab _ _ _ _ Hex); eauto]|].
    intros ev c' _ [Hev _]. split; [|done]. pose proof Hev as (i & e & Heq & _). split; try by rewrite Heq.
    eapply adds_event_steady; [|exact Hev]. rewrite (ex_lab _ _ _ _ Hex). eauto.
  - intros ev c' [Hr _] _. by apply runs_ret; [apply _|done|].
Qed.

Lemma runs_resolve_beside E fid f l action_type (c : C) :
  executing fid f l c → runs E beside (resolve_finding_of (fx_lab_id f) action_type) c (λ _ _, True).
Proof.
  intros Hex. unfold resolve_finding_of. destruct (ACTION_FINDING_TYPES action_type) as [ty|];
    [|by apply runs_ret; [apply _|apply Hex|]].
  unfold resolve_open_finding.
  eapply (runs_bind _ _ _ _ _ (λ _ c', seen c' = seen c)).
  { apply runs_now; [apply _|apply Hex|]. by intros. }
  intros now c1 [H1 _] Hs1.
  eapply (runs_bind _ _ _ _ _ (λ _ _, True)).
  { apply runs_statement; [done|done|]. intros _. rewrite Hs1. split; [|split; [|split; [by left|by intros]]].
    - split; try done. apply (progress_steady (fx_lab_id f)).
      apply findings_progress; [rewrite (ex_lab _ _ _ _ Hex); eauto| |].
      + intros i fd (f0 & Hf0 & [[(<- & _) ->]|[_ ->]])%lookup_update_where_Some; [|by left].
        right. split; [done|]. by apply (lw_finding _ (ex_wf _ _ _ _ Hex) i f0).
      + intros i fd Hi Hf. rewrite lookup_update_where, Hi. simpl. by rewrite decide_False by naive_solver.
    - intros k. unfold used; simpl. rewrite lookup_update_where, fmap_is_Some. by left. }
  intros [] c2 [H2 _] _. by apply runs_ret; [apply _|done|].
Qed.

Lemma runs_failure_beside E fid f l action_type request verification (c : C) :
  executing fid f l c →
  runs E beside (_record_verification_failure_finding (fx_lab_id f) (fx_run_id f) action_type request verification) c
    (λ _ _, True).
Proof.
  intros Hex. unfold _record_verification_failure_finding.
  eapply (runs_bind _ _ _ _ _ (λ _ _, True)).
  - apply runs_step.
    pose proof (runs_record_finding E (fx_lab_id f) (fx_run_id f) "proxmox"
      (action_type +:+ "_verification_failed") "blocked"
      ("Verification did not observe the expected object after " +:+ action_type +:+ ".")
      request JNull verification false c (ex_ready _ _ _ _ Hex)) as Hf.
    assert (snapshots (seen c) = snapshots (seen c)) by done.
    unfold runs in *. destruct (record_finding _ _ _ _ _ _ _ _ _ _ _ c) as [[row|e] c'].
    + destruct Hf as [[Hr Hp] (_ & _ & _ & _ & _ & _ & Hfx & Hrs & _)].
      { rewrite (ex_lab _ _ _ _ Hex). eauto. } { by apply (lw_fix _ (ex_wf _ _ _ _ Hex) fid f), Hex. }
      split; [by split|]. split; [|done]. split; [by eapply progress_steady|done|done| | |]; apply Hp.
    + apply Hf; [rewrite (ex_lab _ _ _ _ Hex); eauto|]. by apply (lw_fix _ (ex_wf _ _ _ _ Hex) fid f), Hex.
  - intros row c' [Hr _] _. by apply runs_ret; [apply _|done|].
Qed.

(** The row an action is settled as. *)
Record settled_as (fid status sid : string) (c : C) (row : string * fix_action) (c' : C) : Prop := {
  ss_id : row.1 = fid;
  ss_status : fx_status row.2 = status;
  ss_snapshot : fx_snapshot_id row.2 = Some sid;
  ss_row : fix_actions (seen c') = <[fid := row.2]> (fix_actions (seen c));
  ss_reservations : reservations (seen c') = reservations (seen c);
  ss_snapshots : snapshots (seen c') = snapshots (seen c);
  ss_synced : synced c'
}.

Lemma fix_steady t fid f f' :
  fix_actions t !! fid = Some f → fx_lab_id f' = fx_lab_id f → fx_status f' ≠ "pending" →
  (lab_wf t → fix_ok t f') → steady t (on_fix_actions <[fid := f']> t).
Proof.
  intros Hf Hlab Hst Hok.
  assert (progress (fx_lab_id f) t (on_fix_actions <[fid := f']> t)) as Hp; [|by eapply progress_steady].
  apply fixes_progress.
  - intros i g [[-> <-]|[_ Hi]]%lookup_insert_Some; [by right|by left].
  - intros i g Hi Hg. rewrite lookup_insert_ne; [done|]. intros ->. congruence.
  - intros Hw. split.
    + intros i g [[-> <-]|[_ Hi]]%lookup_insert_Some; [by apply Hok|by apply (lw_fix _ Hw i)].
    + intros i j g h Hi Hj Hg Hh. apply lookup_insert_Some in Hi as [[-> <-]|[_ Hi]]; [done|].
      apply lookup_insert_Some in Hj as [[-> <-]|[_ Hj]]; [done|]. by apply (lw_pending _ Hw).
Qed.

Lemma runs_settle E fid f l status result sid (c : C) :
  executing fid f l c → status ∈ ["fixed"; "failed"] → pre_fix_snapshot (seen c) (fx_lab_id f) sid →
  runs E steady (settle_fix fid status result sid) c (settled_as fid status sid c).
Proof.
  intros Hex Hst Hsnap. unfold settle_fix, update_fix_action.
  eapply (runs_bind _ _ _ _ _ (λ row c', row = Some f ∧ c' = c)).
  { apply runs_query; [apply _|apply Hex|]. split; [apply Hex|done]. }
  intros row c0 _ [-> ->].
  assert (effective_snapshot (Some sid) (fx_snapshot_id f) = Some sid) as ->.
  { destruct Hsnap as [Hne _]. by destruct sid. }
  rewrite (bool_decide_eq_false_2 (Some sid = None)), andb_false_r by done.
  eapply (runs_bind _ _ _ _ _ (λ _ c', seen c' = seen c)).
  { apply runs_now; [apply _|apply Hex|]. by intros. }
  intros now c1 [H1 _] Hs1.
  set (f' := settled_fix status (Some (JObj result)) (Some sid) now f).
  eapply (runs_bind _ _ _ _ _ (λ _ c', seen c' = on_fix_actions <[fid := f']> (seen c))).
  { apply runs_statement; [done|done|]. intros _. rewrite Hs1. split; [|split; [|split; [by left|by intros]]].
    - apply fix_steady with f; [apply Hex|done|simpl; set_solver|].
      intros Hw. destruct (lw_fix _ Hw fid f (ex_fix _ _ _ _ Hex)). split; try done; simpl; [set_solver|].
      intros _. exists sid. split; [done|]. exact Hsnap.
    - intros k. unfold used; simpl. intros Hk. left. destruct (decide (k = fid)) as [->|].
      + do 6 right. left. rewrite (ex_fix _ _ _ _ Hex). eauto.
      + rewrite lookup_insert_ne in Hk by done. done. }
  intros [] c2 [H2 _] Hs2.
  assert (is_Some (labs (seen c2) !! fx_lab_id f')) as Hl2 by (rewrite Hs2; simpl; rewrite (ex_lab _ _ _ _ Hex); eauto).
  eapply (runs_bind _ _ _ _ _ (λ _ c', adds_event (fx_lab_id f') (seen c2) (seen c'))).
  { apply runs_step. eapply runs_mono; [by apply runs_record_event|].
    intros ev c' _ [Hev _]. split; [|done]. by eapply adds_event_steady. }
  intros ev c3 [H3 _] (i & e & Hev & _).
  eapply (runs_bind _ _ _ _ _ (λ _ c', seen c' = seen c3 ∧ synced c')).
  { apply runs_commit; [apply _|done|]. intros c' _ Hs Hd _. split; [done|]. unfold synced. congruence. }
  intros [] c4 [H4 _] [Hs4 Hsy]. apply runs_ret; [apply _|done|].
  split; simpl; try done; by rewrite Hs4, Hev, Hs2.
Qed.

Lemma runs_record_snapshot E lab_id l snapshot action_type (c : C) :
  ready_conn c → labs (seen c) !! lab_id = Some l →
  runs E steady (record_provider_snapshot lab_id "proxmox" "pre_fix" (texts [("action_type", action_type)]) snapshot) c
    (λ row c', synced c' ∧ seen c' = on_snapshots <[row.1 := row.2]> (seen c) ∧ sn_snapshot row.2 = snapshot ∧
       pre_fix_snapshot (seen c') lab_id row.1).
Proof.
  intros Hc Hl. unfold record_provider_snapshot.
  eapply (runs_bind _ _ _ _ _ (λ id c', seen c' = seen c ∧ fresh_id id c' ∧ id ≠ EmptyString)).
  { apply runs_new_id; [apply _|done|]. intros id c' _ Hs _ Hf Hne. by rewrite Hs. }
  intros id c1 [H1 _] (Hs1 & [Hu Hh] & Hne). apply not_used in Hu as (_ & _ & _ & _ & _ & _ & _ & Hu).
  rewrite Hs1 in Hu.
  eapply (runs_bind _ _ _ _ _ (λ _ c', seen c' = seen c ∧ handed (handed_out c') id)).
  { apply runs_now; [apply _|done|]. intros n c' _ Hs _ Hho. rewrite Hho. split; [congruence|done]. }
  intros now c2 [H2 _] [Hs2 Hh2].
  set (s := ProviderSnapshot lab_id "proxmox" "pre_fix" (texts [("action_type", action_type)]) snapshot now).
  eapply (runs_bind _ _ _ _ _ (λ _ c', seen c' = on_snapshots <[id := s]> (seen c))).
  { apply runs_statement; [done| |].
    - intros ex. rewrite Hs2. unfold first_violation. simpl. by rewrite pk_fresh, lab_fk_ok by eauto.
    - intros _. rewrite Hs2. split; [|split; [|split; [by left|by intros]]].
      + apply snapshot_steady; [simpl; eauto|done].
      + intros k. unfold used; simpl. intros Hk. destruct (decide (k = id)) as [->|]; [by right|].
        rewrite lookup_insert_ne in Hk by done. by left. }
  intros [] c3 [H3 _] Hs3.
  eapply (runs_bind _ _ _ _ _ (λ _ c', seen c' = seen c3 ∧ synced c')).
  { apply runs_commit; [apply _|done|]. intros c' _ Hs Hd _. split; [done|]. unfold synced. congruence. }
  intros [] c4 [H4 _] [Hs4 Hsy]. apply runs_ret; [apply _|done|]. simpl.
  split; [done|]. split; [congruence|]. split; [done|]. split; [done|].
  exists s. rewrite Hs4, Hs3. simpl. by rewrite lookup_insert_eq.
Qed.
End sweep.
