(* ===== verification/LabExecute.v ===== *)
(** * Managed labs: executing and sweeping

    What executing one action, all pending actions, and a sweep over the labs amount to. *)

From stdpp Require Import base gmap list strings pretty sorting.
From Stdlib Require Import ZArith Lia Ascii.
From S2P Require Import Prelude Json Text IpNetwork ProxmoxSdn LabData LabStore LabRecords LabNetwork LabReconciler LabLogic LabModel LabInvariant LabOps LabPlan LabSweep.

#[local] Open Scope Z_scope.

(** The request of an action as [dict(fix.get("request") or {})]. *)
Definition fix_request (f : fix_action) : json := jor (fx_request f) (JObj []).

Section execute.
Context `{LE : LabEnv} `{!LabEnvLaws LE} {W : Type} `{PX : Proxmox W}.

#[local] Notation C := (lab_conn W).
#[local] Notation M := (eff (lab_conn W)).

Definition set_world (w : W) (c : C) : C :=
  LabConn (seen c) (durable c) (spoiled c) (event_serial c) (readings c) (handed_out c) w.

Lemma ready_set_world w c : ready_conn c → ready_conn (set_world w c).
Proof. by intros [? ? ?]. Qed.

(** How an action ends, and what Proxmox is then: an object that was there is left alone. *)
Definition fix_outcome (action_type : string) (request inv : json) (w : W) : string * W :=
  if target_present action_type request inv then ("fixed", w)
  else match change_and_look action_type request w with
       | (Ret (_, after), w') => (if (_verification_rows action_type request after).1 then "fixed" else "failed", w')
       | (Exc _, w') => ("failed", w')
       end.

Lemma existing_iff_present action_type request inv :
  match _existing_create_result action_type request inv with
  | Some _ => target_present action_type request inv = true
  | None => target_present action_type request inv = false
  end.
Proof.
  unfold _existing_create_result. destruct (target_present action_type request inv) eqn:E; [|done].
  unfold target_present in E. unfold _already_present_result. by repeat case_decide.
Qed.

Lemma supported_stripped ty : ty ∈ SUPPORTED_ACTIONS → PyStr.strip ty = ty.
Proof. unfold SUPPORTED_ACTIONS. intros Hty. set_unfold in Hty. by destruct_or!; subst. Qed.

Lemma validate_pending t f :
  fix_ok t f → fx_status f = "pending" →
  _validate_fix_scope f = Ret (fx_lab_id f, fx_action_type f, fix_request f).
Proof.
  intros Hok Hst. unfold _validate_fix_scope. rewrite Hst, (fo_provider _ _ Hok).
  rewrite (supported_stripped _ (fo_type _ _ Hok)).
  change (PyStr.strip "proxmox") with "proxmox". change (PyStr.strip "pending") with "pending".
  rewrite (decide_False (P := "proxmox" ≠ "proxmox")), (decide_False (P := "pending" ≠ "pending")) by naive_solver.
  rewrite decide_False; [done|]. intros Hn. apply Hn, Hok.
Qed.

(** ** The database part *)

Record settled (fid : string) (f : fix_action) (sid status : string) (c : C) (row : string * fix_action) (c' : C) : Prop := {
  st_id : row.1 = fid;
  st_status : fx_status row.2 = status;
  st_snapshot : fx_snapshot_id row.2 = Some sid;
  st_row : fix_actions (seen c') = <[fid := row.2]> (fix_actions (seen c));
  st_reservations : reservations (seen c') = reservations (seen c);
  st_snapshots : snapshots (seen c') = snapshots (seen c);
  st_synced : synced c'
}.

Lemma moves_beside_steady (c c' : C) : moves beside c c' → moves steady c c'.
Proof. intros [Hr Hb]. split; [done|apply Hb]. Qed.

Lemma pre_fix_beside t t' lab_id sid : beside t t' → pre_fix_snapshot t lab_id sid → pre_fix_snapshot t' lab_id sid.
Proof. intros Hb [Hne (s & ?)]. split; [done|]. exists s. by rewrite (be_snapshots _ _ Hb). Qed.

Lemma settled_beside fid f sid status c c1 row c' :
  moves beside c c1 → settled_as fid status sid c1 row c' → settled fid f sid status c row c'.
Proof.
  intros [_ Hb] [? ? ? Hrow Hrs Hsn ?]. split; try done.
  - by rewrite Hrow, (be_fixes _ _ Hb).
  - by rewrite Hrs, (be_reservations _ _ Hb).
  - by rewrite Hsn, (be_snapshots _ _ Hb).
Qed.

Lemma runs_then_settle E {A} (m : M A) fid f l sid status result (c : C) :
  executing fid f l c → pre_fix_snapshot (seen c) (fx_lab_id f) sid → status ∈ ["fixed"; "failed"] →
  runs E beside m c (λ _ _, True) →
  runs E steady (m ;; settle_fix fid status result sid) c (settled fid f sid status c).
Proof.
  intros Hex Hsnap Hst Hm. unfold runs in *. rewrite run_bind. destruct (m c) as [[a|e] c1]; [|done].
  destruct Hm as [Hmv _].
  pose proof (runs_settle E fid f l status result sid c1 (executing_beside _ _ _ _ _ Hex Hmv) Hst
    (pre_fix_beside _ _ _ _ (mv_tables _ _ _ Hmv) Hsnap)) as Hs.
  unfold runs in Hs. destruct (settle_fix fid status result sid c1) as [[row|e] c']; [|done].
  destruct Hs as [Hm2 Hs]. split; [|by eapply settled_beside].
  eapply (moves_trans steady); [by apply moves_beside_steady|done].
Qed.

Lemma bind_assoc {A B D} (m : M A) (f : A → M B) (g : B → M D) c :
  ((m ≫= f) ≫= g) c = (m ≫= λ a, f a ≫= g) c.
Proof. rewrite !run_bind. by destruct (m c) as [[a|e] c']. Qed.

Lemma runs_ext E R {A} (m m' : M A) c Q : m c = m' c → runs E R m c Q → runs E R m' c Q.
Proof. unfold runs. by intros ->. Qed.

Lemma runs_sync_event E fid f l inv status action_type seen_ verification (c : C) :
  executing fid f l c →
  runs E beside (_sync_boundary_state (fx_lab_id f) l inv status ;;
    _record_verification_event (fx_lab_id f) fid action_type seen_ verification) c (λ _ _, True).
Proof.
  intros Hex. eapply runs_bind; [apply _|by eapply runs_sync_beside|].
  intros [] c1 Hm1 _. eapply runs_event_beside. by eapply executing_beside.
Qed.

Lemma runs_settle_present E fid f l action_type request before existing sid (c : C) :
  executing fid f l c → pre_fix_snapshot (seen c) (fx_lab_id f) sid →
  runs E steady (settle_present (fx_lab_id f) l fid action_type request before existing sid) c
    (settled fid f sid "fixed" c).
Proof.
  intros Hex Hsnap. unfold settle_present. destruct (_verification_rows _ _ _) as [seen_ verification].
  eapply (runs_ext _ _ ((_sync_boundary_state (fx_lab_id f) l before "fixing" ;;
    _record_verification_event (fx_lab_id f) fid action_type seen_ verification ;;
    resolve_finding_of (fx_lab_id f) action_type) ;; _)).
  { rewrite bind_assoc. rewrite !run_bind. destruct (_sync_boundary_state _ _ _ _ c) as [[[]|e] c1]; [|done].
    by rewrite bind_assoc. }
  apply runs_then_settle with l; [done|done|set_solver|].
  eapply runs_bind; [apply _|by eapply runs_sync_beside|]. intros [] c1 Hm1 _.
  pose proof (executing_beside _ _ _ _ _ Hex Hm1) as Hex1.
  eapply runs_bind; [apply _|by eapply runs_event_beside|]. intros [] c2 Hm2 _.
  eapply runs_resolve_beside. by eapply executing_beside.
Qed.

(** The status an outcome is settled as. *)
Definition change_status (action_type : string) (request : json) (outcome : (json * json) + string) : string :=
  match outcome with
  | inl (_, after) => if (_verification_rows action_type request after).1 then "fixed" else "failed"
  | inr _ => "failed"
  end.

Lemma runs_settle_change E fid f l action_type request outcome sid (c : C) :
  executing fid f l c → pre_fix_snapshot (seen c) (fx_lab_id f) sid →
  runs E steady (settle_change (fx_lab_id f) l fid (fx_run_id f) action_type request outcome sid) c
    (settled fid f sid (change_status action_type request outcome) c).
Proof.
  intros Hex Hsnap. unfold settle_change, change_status. destruct outcome as [[res after]|error].
  - destruct (_verification_rows action_type request after) as [[] verification]; simpl.
    + eapply (runs_ext _ _ ((_sync_boundary_state (fx_lab_id f) l after (if bool_decide (action_type = "apply_sdn") && true then "ready" else "fixing") ;;
        _record_verification_event (fx_lab_id f) fid action_type true verification ;;
        resolve_finding_of (fx_lab_id f) action_type) ;; _)).
      { rewrite bind_assoc. rewrite !run_bind. destruct (_sync_boundary_state _ _ _ _ c) as [[[]|e] c1]; [|done].
        by rewrite bind_assoc. }
      apply runs_then_settle with l; [done|done|set_solver|].
      eapply runs_bind; [apply _|by eapply runs_sync_beside|]. intros [] c1 Hm1 _.
      pose proof (executing_beside _ _ _ _ _ Hex Hm1) as Hex1.
      eapply runs_bind; [apply _|by eapply runs_event_beside|]. intros [] c2 Hm2 _.
      eapply runs_resolve_beside. by eapply executing_beside.
    + eapply (runs_ext _ _ ((_sync_boundary_state (fx_lab_id f) l after (if bool_decide (action_type = "apply_sdn") && false then "ready" else "fixing") ;;
        _record_verification_event (fx_lab_id f) fid action_type false verification ;;
        _record_verification_failure_finding (fx_lab_id f) (fx_run_id f) action_type request verification) ;; _)).
      { rewrite bind_assoc. rewrite !run_bind. destruct (_sync_boundary_state _ _ _ _ c) as [[[]|e] c1]; [|done].
        by rewrite bind_assoc. }
      apply runs_then_settle with l; [done|done|set_solver|].
      eapply runs_bind; [apply _|by eapply runs_sync_beside|]. intros [] c1 Hm1 _.
      pose proof (executing_beside _ _ _ _ _ Hex Hm1) as Hex1.
      eapply runs_bind; [apply _|by eapply runs_event_beside|]. intros [] c2 Hm2 _.
      eapply runs_failure_beside. by eapply executing_beside.
  - pose proof (runs_then_settle E (mret tt) fid f l sid "failed" [("ok", JBool false); ("error", JStr error)] c Hex Hsnap) as Hs.
    apply Hs; [set_solver|]. by apply runs_ret; [apply _|apply Hex|].
Qed.

(** ** One action *)

(** What executing the pending action [f] did, when the inventory was [inv] and Proxmox
    [w] after it was read. *)
Record executed (fid : string) (f : fix_action) (inv : json) (w : W) (c : C)
    (row : string * fix_action) (c' : C) : Prop := {
  ed_id : row.1 = fid;
  ed_status : fx_status row.2 = (fix_outcome (fx_action_type f) (fix_request f) inv w).1;
  ed_world : world c' = (fix_outcome (fx_action_type f) (fix_request f) inv w).2;
  ed_rows : fix_actions (seen c') = <[fid := row.2]> (fix_actions (seen c));
  ed_snapshot : ∃ sid s, fx_snapshot_id row.2 = Some sid ∧ snapshots (seen c') !! sid = Some s ∧
                  sn_lab_id s = fx_lab_id f ∧ sn_snapshot s = inv;
  ed_reservations : reservations (seen c') = reservations (seen c);
  ed_synced : synced c'
}.

Lemma fix_outcome_status action_type request inv w :
  (fix_outcome action_type request inv w).1 ∈ ["fixed"; "failed"].
Proof.
  unfold fix_outcome. repeat case_match; simpl; set_solver.
Qed.

(** The reads at the start of an execution. *)
Lemma execute_prefix fid f l (c : C) :
  executing fid f l c → fx_status f = "pending" →
  execute_fix_action fid c =
    (snapshot ← _record_snapshot (fx_lab_id f) (fx_action_type f);
     match _existing_create_result (fx_action_type f) (fix_request f) (sn_snapshot snapshot.2) with
     | Some existing =>
         settle_present (fx_lab_id f) l fid (fx_action_type f) (fix_request f) (sn_snapshot snapshot.2)
           existing snapshot.1
     | None =>
         outcome ← outside_or_error (change_and_look (fx_action_type f) (fix_request f));
         settle_change (fx_lab_id f) l fid (fx_run_id f) (fx_action_type f) (fix_request f) outcome snapshot.1
     end) c.
Proof.
  intros Hex Hst. unfold execute_fix_action, _get_fix, get_fix_action, _get_lab, get_lab.
  assert (∀ {A} (g : lab_tables → A), query g c = (Ret (g (seen c)), c)) as Hq
    by (intros; unfold query; by rewrite (rc_spoiled _ (ex_ready _ _ _ _ Hex))).
  rewrite run_bind, run_bind, Hq, (ex_fix _ _ _ _ Hex). cbn.
  rewrite run_bind. unfold lift_outcome.
  rewrite (validate_pending (seen c)) by (done || (eapply lw_fix; apply Hex)). cbn.
  rewrite run_bind, run_bind, Hq, (ex_lab _ _ _ _ Hex). done.
Qed.

(** The snapshot step, when the inventory can be read. *)
Lemma record_snapshot_run fid f l inv w (c : C) :
  executing fid f l c → inventory (world c) = (Ret inv, w) →
  ∃ row c', _record_snapshot (fx_lab_id f) (fx_action_type f) c = (Ret row, c') ∧
    moves steady c c' ∧ executing fid f l c' ∧ world c' = w ∧ sn_snapshot row.2 = inv ∧
    pre_fix_snapshot (seen c') (fx_lab_id f) row.1 ∧
    seen c' = on_snapshots <[row.1 := row.2]> (seen c).
Proof.
  intros Hex Hinv. unfold _record_snapshot.
  pose proof (runs_record_snapshot False (fx_lab_id f) l inv (fx_action_type f) (set_world w c)
    (ready_set_world _ _ (ex_ready _ _ _ _ Hex)) (ex_lab _ _ _ _ Hex)) as Hs.
  apply runs_total in Hs as (row & c' & Hrun & Hm & Hsy & Hseen & Hsn & Hpre).
  exists row, c'. rewrite run_bind. unfold outside. rewrite Hinv.
  change (LabConn (seen c) (durable c) (spoiled c) (event_serial c) (readings c) (handed_out c) w)
    with (set_world w c). split; [done|].
  split; [destruct Hm; by split|]. split; [|split; [|done]].
  - split; [apply Hm|by apply (mv_tables _ _ _ Hm), (ex_wf _ _ _ _ Hex)|rewrite Hseen; apply Hex|].
    rewrite Hseen. apply Hex.
  - pose proof (world_snapshot (fx_lab_id f) "proxmox" "pre_fix" (texts [("action_type", fx_action_type f)]) inv
      (set_world w c)) as Hw. rewrite Hrun in Hw. exact Hw.
Qed.

Lemma moves_set_world R w (c c' : C) : moves R (set_world w c) c' → moves R c c'.
Proof. intros [? ?]. by split. Qed.

Lemma execute_run fid f l inv w (c : C) :
  executing fid f l c → fx_status f = "pending" → inventory (world c) = (Ret inv, w) →
  ∃ row c', execute_fix_action fid c = (Ret row, c') ∧ moves steady c c' ∧ executed fid f inv w c row c'.
Proof.
  intros Hex Hst Hinv. rewrite (execute_prefix fid f l c Hex Hst), run_bind.
  destruct (record_snapshot_run fid f l inv w c Hex Hinv)
    as (srow & c1 & -> & Hm1 & Hex1 & Hw1 & Hsn & Hpre & Hseen1).
  rewrite Hsn. pose proof (existing_iff_present (fx_action_type f) (fix_request f) inv) as Hpresent.
  assert (∀ status row c', settled fid f srow.1 status c1 row c' →
    fix_actions (seen c') = <[fid := row.2]> (fix_actions (seen c)) ∧
    (∃ sid s, fx_snapshot_id row.2 = Some sid ∧ snapshots (seen c') !! sid = Some s ∧
       sn_lab_id s = fx_lab_id f ∧ sn_snapshot s = inv) ∧
    reservations (seen c') = reservations (seen c)) as Hrest.
  { intros status row c' [_ _ Hsid Hrow Hres Hsnaps _].
    split; [by rewrite Hrow, Hseen1|]. split; [|by rewrite Hres, Hseen1].
    exists srow.1, srow.2. rewrite Hsnaps. destruct Hpre as (_ & s & Hs & Hl & _).
    assert (s = srow.2) as -> by (rewrite Hseen1 in Hs; simpl in Hs; rewrite lookup_insert_eq in Hs; congruence).
    done. }
  destruct (_existing_create_result _ _ _) as [existing|].
  - pose proof (runs_settle_present False fid f l (fx_action_type f) (fix_request f) inv existing srow.1 c1 Hex1 Hpre) as Hs.
    apply runs_total in Hs as (row & c' & Hrun & Hm2 & Hset). exists row, c'. split; [exact Hrun|].
    split; [by eapply (moves_trans steady)|]. destruct (Hrest _ _ _ Hset) as (? & ? & ?).
    destruct Hset. split; try done; unfold fix_outcome; rewrite Hpresent; [done|].
    pose proof (world_settle_present (fx_lab_id f) l fid (fx_action_type f) (fix_request f) inv existing srow.1 c1) as Hw.
    rewrite Hrun in Hw. unfold same in *; simpl in *; congruence.
  - rewrite run_bind.
    set (o := change_and_look (fx_action_type f) (fix_request f) w).
    assert (∃ outcome, outside_or_error (change_and_look (fx_action_type f) (fix_request f)) c1 =
        (Ret outcome, set_world o.2 c1) ∧
      change_status (fx_action_type f) (fix_request f) outcome =
        (fix_outcome (fx_action_type f) (fix_request f) inv w).1 ∧
      o.2 = (fix_outcome (fx_action_type f) (fix_request f) inv w).2) as (outcome & -> & Hout & Hw2).
    { unfold outside_or_error, outside. rewrite Hw1. fold o. unfold fix_outcome. rewrite Hpresent. fold o.
      destruct o as [[[res after]|e] w']; eexists; (split; [reflexivity|]); done. }
    assert (executing fid f l (set_world o.2 c1)) as Hex2 by (destruct Hex1; by split; [apply ready_set_world|..]).
    pose proof (runs_settle_change False fid f l (fx_action_type f) (fix_request f) outcome srow.1
      (set_world o.2 c1) Hex2 Hpre) as Hs.
    apply runs_total in Hs as (row & c' & Hrun & Hm2 & Hset). exists row, c'. split; [exact Hrun|].
    split; [eapply (moves_trans steady); [done|by eapply moves_set_world]|].
    assert (settled fid f srow.1 (change_status (fx_action_type f) (fix_request f) outcome) c1 row c') as Hset'
      by (by destruct Hset).
    destruct (Hrest _ _ _ Hset') as (? & ? & ?). destruct Hset'. split; try done; [congruence|].
    pose proof (world_settle_change (fx_lab_id f) l fid (fx_run_id f) (fx_action_type f) (fix_request f) outcome srow.1
      (set_world o.2 c1)) as Hw. rewrite Hrun in Hw. unfold same in *; simpl in *; congruence.
Qed.

(** When Proxmox cannot be asked, nothing is written. *)
Lemma execute_unreadable fid f l e w (c : C) :
  executing fid f l c → fx_status f = "pending" → inventory (world c) = (Exc e, w) →
  execute_fix_action fid c = (Exc e, set_world w c).
Proof.
  intros Hex Hst Hinv. rewrite (execute_prefix fid f l c Hex Hst), run_bind. unfold _record_snapshot.
  rewrite run_bind. unfold outside. by rewrite Hinv.
Qed.

(** ** Between requests *)

(** A connection between two operations that committed. *)
Record tidy (c : C) : Prop := {
  td_ready : ready_conn c;
  td_wf : lab_wf (seen c);
  td_synced : synced c
}.

(** An operation that leaves the connection tidy, whether it returns or raises. *)
Definition clean {A} (m : M A) (c : C) : Prop := tidy (m c).2 ∧ steady (seen c) (seen (m c).2).

Lemma clean_bind {A B} (m : M A) (f : A → M B) (c : C) :
  clean m c → (∀ a c', m c = (Ret a, c') → tidy c' → steady (seen c) (seen c') → clean (f a) c') →
  clean (m ≫= f) c.
Proof.
  unfold clean. rewrite run_bind. destruct (m c) as [[a|e] c'] eqn:E; [|done].
  intros [Ht Hs] Hf. destruct (Hf a c' eq_refl Ht Hs) as [Ht' Hs']. split; [done|]. by etrans.
Qed.

Lemma clean_ret {A} (a : A) (c : C) : tidy c → clean (mret a) c.
Proof. intros Hc. split; [exact Hc|simpl; reflexivity]. Qed.

Lemma tidy_set_world w c : tidy c → tidy (set_world w c).
Proof. intros [? ? ?]. split; [by apply ready_set_world|done|done]. Qed.

Lemma clean_same {A} (m : M A) (c : C) w : tidy c → (m c).2 = set_world w c → clean m c.
Proof. intros Hc Hm. unfold clean. rewrite Hm. split; [by apply tidy_set_world|simpl; reflexivity]. Qed.

Lemma set_world_same c : set_world (world c) c = c.
Proof. by destruct c. Qed.

Lemma clean_stay {A} (m : M A) (c : C) : tidy c → (m c).2 = c → clean m c.
Proof. intros Hc Hm. apply (clean_same m c (world c) Hc). by rewrite set_world_same. Qed.

Lemma clean_query {A} (f : lab_tables → A) (c : C) : tidy c → clean (query f) c.
Proof. intros Hc. apply clean_stay; [done|]. unfold query. by case_match. Qed.

(** An action that is not pending is refused. *)
Lemma execute_refused fid f (c : C) :
  tidy c → fix_actions (seen c) !! fid = Some f → fx_status f ≠ "pending" →
  ∃ e, execute_fix_action fid c = (Exc e, c).
Proof.
  intros Hc Hf Hst. unfold execute_fix_action, _get_fix, get_fix_action.
  rewrite run_bind, run_bind. unfold query. rewrite (rc_spoiled _ (td_ready _ Hc)), Hf. cbn.
  rewrite run_bind. unfold lift_outcome.
  assert (∃ e, _validate_fix_scope f = Exc e) as [e ->]; [|by exists e].
  assert (PyStr.strip (fx_status f) ≠ "pending") as Hs.
  { pose proof (fo_status _ _ (lw_fix _ (td_wf _ Hc) fid f Hf)) as Hin. set_unfold in Hin.
    destruct_or!; rewrite Hin; done. }
  unfold _validate_fix_scope. repeat (case_decide; [eauto|]). by destruct Hs.
Qed.

(** Executing any action: pending ones are settled, others are refused. *)
Lemma clean_execute fid (c : C) : tidy c → clean (execute_fix_action fid) c.
Proof.
  intros Hc. destruct (fix_actions (seen c) !! fid) as [f|] eqn:Hf.
  - destruct (decide (fx_status f = "pending")) as [Hst|Hst].
    + pose proof (lw_fix _ (td_wf _ Hc) fid f Hf) as Hok. destruct (fo_lab _ _ Hok) as [l Hl].
      assert (executing fid f l c) as Hex by (split; try done; apply Hc).
      destruct (inventory (world c)) as [[inv|e] w] eqn:Hinv.
      * destruct (execute_run fid f l inv w c Hex Hst Hinv) as (row & c' & Hrun & [Hr Hs] & Hed).
        unfold clean. rewrite Hrun. split; [|done]. split; [done|by apply Hs, Hc|apply Hed].
      * apply (clean_same _ c w Hc). by rewrite (execute_unreadable fid f l e w c).
    + apply clean_stay; [done|]. by destruct (execute_refused fid f c Hc Hf Hst) as [e ->].
  - apply clean_stay; [done|]. unfold execute_fix_action, _get_fix, get_fix_action.
    rewrite run_bind, run_bind. unfold query. by rewrite (rc_spoiled _ (td_ready _ Hc)), Hf.
Qed.

Lemma clean_execute_fixes fixes acc (c : C) : tidy c → clean (execute_fixes fixes acc) c.
Proof.
  revert acc c. induction fixes as [|kr fixes IH]; intros acc c Hc; simpl; [by apply clean_ret|].
  apply clean_bind; [by apply clean_execute|]. intros r c' _ Hc' _. by apply IH.
Qed.

Lemma clean_execute_pending lab_id limit (c : C) : tidy c → clean (execute_pending_network_fixes lab_id limit) c.
Proof.
  intros Hc. apply clean_bind; [by apply clean_query|]. intros rows c' _ Hc' _. by apply clean_execute_fixes.
Qed.

Lemma clean_attempt {A} (m : M A) (c : C) : clean m c → clean (attempt m) c.
Proof. unfold clean, attempt. by destruct (m c) as [[a|e] c']. Qed.

(** ** One lab *)

Lemma expected_same lab_id l l' inv t t' :
  same_lab l l' → reservations t' = reservations t →
  expected_status lab_id l' inv t' = expected_status lab_id l inv t ∧
  expected_fixes l' inv = expected_fixes l inv.
Proof.
  intros Hsame Hr. assert (overlaps_of (lab_network_cidr l') lab_id t' = overlaps_of (lab_network_cidr l') lab_id t)
    as Ho by (unfold overlaps_of, active_cidrs; by rewrite Hr).
  unfold expected_status, expected_fixes. rewrite Ho. clear Ho Hr. destruct l, l'.
  unfold same_lab, lab_identity in Hsame. simpl in Hsame. simplify_eq. done.
Qed.

(** The plan of a run, up to its end: what both the sweep and the handler do. *)
Record run_planned (lab_id : string) (l : lab) (inv : json) (t : lab_tables) (res : plan_result) (c : C) : Prop := {
  rp_status : plan_status res = expected_status lab_id l inv t;
  rp_pending : pends lab_id (seen c) (plan_fixes res);
  rp_fixes : fix_summary <$> plan_fixes res = if decide (plan_status res = "fixing") then expected_fixes l inv else [];
  rp_lab : ∃ l', labs (seen c) !! lab_id = Some l' ∧ same_lab l l' ∧ lab_status l' = plan_status res;
  rp_accepted : plan_status res ∈ ["fixing"; "ready"] → accepted (seen c) lab_id l;
  rp_tidy : tidy c
}.

Lemma expected_is_status lab_id l inv t attempt :
  _lab_status_from_reconcile_status (expected_status lab_id l inv t) attempt = expected_status lab_id l inv t.
Proof. unfold expected_status. repeat case_match; done. Qed.

(** A run was started for lab [l], called [l1] since. *)
Record run_started (lab_id : string) (l l1 : lab) (t : lab_tables) (run : string * reconcile_run) (c : C) : Prop := {
  rs_tidy : tidy c;
  rs_steady : steady t (seen c);
  rs_lab : labs (seen c) !! lab_id = Some l1;
  rs_same : same_lab l l1;
  rs_run : reconcile_runs (seen c) !! run.1 = Some run.2;
  rs_run_lab : rr_lab_id run.2 = lab_id;
  rs_reservations : reservations (seen c) = reservations t
}.

Lemma start_run lab_id l attempt (c : C) :
  tidy c → labs (seen c) !! lab_id = Some l →
  ∃ run l1 c1, start_reconcile_run lab_id attempt c = (Ret run, c1) ∧
    run_started lab_id l l1 (seen c) run c1 ∧ world c1 = world c.
Proof.
  intros Hc Hl.
  destruct (runs_total _ _ _ _ (runs_start False lab_id l attempt c (td_ready _ Hc) Hl))
    as (run & c1 & Hrun1 & Hm1 & [Hrun Hrlab Hratt Hsy1 Hfx1 Hrs1]).
  destruct (sd_labs _ _ (mv_tables _ _ _ Hm1) lab_id l Hl) as (l1 & Hl1 & Hsame1).
  exists run, l1, c1. split; [done|]. split.
  - split; try done; [|apply Hm1]. split; [apply Hm1|by apply Hm1, Hc|done].
  - pose proof (world_start lab_id attempt c) as W1. rewrite Hrun1 in W1. exact W1.
Qed.

Lemma run_started_world lab_id l l1 t run w (c : C) :
  run_started lab_id l l1 t run c → run_started lab_id l l1 t run (set_world w c).
Proof. intros [Ht ? ? ? ? ? ?]. split; try done. by apply tidy_set_world. Qed.

(** Finishing a run that was started. *)
Lemma finish_run lab_id l l1 t run status summary (c : C) :
  ready_conn c → lab_wf (seen c) → labs (seen c) !! lab_id = Some l1 → same_lab l l1 →
  reconcile_runs (seen c) !! run.1 = Some run.2 → rr_lab_id run.2 = lab_id → steady t (seen c) →
  (status ∈ ["fixing"; "ready"] → accepted (seen c) lab_id l1) →
  ∃ row c', finish_reconcile_run run.1 status summary c = (Ret row, c') ∧ tidy c' ∧ steady t (seen c') ∧
    fix_actions (seen c') = fix_actions (seen c) ∧ reservations (seen c') = reservations (seen c) ∧
    world c' = world c ∧
    ∃ l', labs (seen c') !! lab_id = Some l' ∧ same_lab l l' ∧
          lab_status l' = _lab_status_from_reconcile_status status (rr_attempt run.2).
Proof.
  intros Hc Hw Hl Hsame Hr Hrl Hst Hacc.
  destruct (runs_total _ _ _ _ (runs_finish False run.1 run.2 l1 status summary c Hc Hr
    (eq_ind_r (λ i, labs (seen c) !! i = Some l1) Hl Hrl)
    (eq_ind_r (λ i, _ → accepted (seen c) i l1) Hacc Hrl)))
    as (row & c3 & Hrun3 & Hm3 & Hsy3 & Hfx3 & Hrs3 & l3 & Hl3 & Hsame3 & Hst3 & _).
  assert (steady t (seen c3)) as Hs3 by (etrans; [exact Hst|apply Hm3]).
  exists row, c3. split; [done|]. split; [split; [apply Hm3|by apply Hm3|done]|].
  split; [done|]. split; [done|]. split; [done|]. split.
  - pose proof (world_finish run.1 status summary c) as W3. rewrite Hrun3 in W3. exact W3.
  - exists l3. rewrite Hrl in Hl3. split; [done|]. split; [unfold same_lab in *; congruence|done].
Qed.

Lemma plan_finish lab_id l l1 inv t run (summary : plan_result → string) (c : C) :
  run_started lab_id l l1 t run c →
  ∃ res c2 row c3,
    plan_network_reconcile lab_id inv (Some run.1) c = (Ret res, c2) ∧
    finish_reconcile_run run.1 (plan_status res) (summary res) c2 = (Ret row, c3) ∧
    steady t (seen c3) ∧ run_planned lab_id l inv t res c3 ∧ world c3 = world c.
Proof.
  intros [Htd Hst Hl1 Hsame Hrun Hrlab Hrs].
  assert (planning lab_id l1 (Some run.1) c) as Hpl by (split; [apply Htd|apply Htd|done|simpl; eauto]).
  destruct (runs_total _ _ _ _ (runs_plan False lab_id l1 inv (Some run.1) c Hpl))
    as (res & c2 & Hrun2 & Hm2 & [Hsy2 Hst2 Hp2 Hfx2 Hacc2]).
  destruct (expected_same lab_id l l1 inv t (seen c) Hsame Hrs) as [Hes Hef].
  destruct (finish_run lab_id l l1 t run (plan_status res) (summary res) c2)
    as (row & c3 & Hrun3 & Htd3 & Hst3 & Hfx3 & Hrs3 & Hw3 & Hl3).
  - apply Hm2.
  - apply Hm2, Htd.
  - by rewrite (pg_labs _ _ _ (mv_tables _ _ _ Hm2)).
  - done.
  - by rewrite (pg_runs _ _ _ (mv_tables _ _ _ Hm2)).
  - done.
  - etrans; [exact Hst|]. by eapply progress_steady, Hm2.
  - exact Hacc2.
  - exists res, c2, row, c3. split; [done|]. split; [done|]. split; [done|]. split.
    + split.
      * by rewrite Hst2, Hes.
      * unfold pends in *. by rewrite Hfx3.
      * by rewrite Hfx2, Hef.
      * destruct Hl3 as (l3 & ? & ? & Hls). exists l3. split; [done|]. split; [done|].
        by rewrite Hls, Hst2, expected_is_status.
      * intros Hin. apply Hacc2 in Hin. unfold accepted, holds_cidr in *. rewrite Hrs3.
        assert (lab_network_cidr l = lab_network_cidr l1) as -> by (unfold same_lab, lab_identity in Hsame; congruence).
        done.
      * done.
    + rewrite Hw3. pose proof (world_plan lab_id inv (Some run.1) c) as W2. rewrite Hrun2 in W2. exact W2.
Qed.

(** A pass over one lab never raises, whatever its applying does. *)
Lemma reconcile_once_run lab_id l0 l inv auto_apply apply_fn (c : C) :
  tidy c → labs (seen c) !! lab_id = Some l →
  (∀ apply c', apply_fn = Some apply → tidy c' → clean (apply lab_id) c') →
  ∃ s c' res c1, reconcile_lab_once (lab_id, l0) inv auto_apply apply_fn c = (Ret s, c') ∧
    sm_lab_id s = lab_id ∧ sm_plan s = Some res ∧
    steady (seen c) (seen c1) ∧ run_planned lab_id l inv (seen c) res c1 ∧ world c1 = world c ∧
    tidy c' ∧ steady (seen c1) (seen c') ∧
    (auto_apply = false ∨ apply_fn = None ∨ plan_status res ≠ "fixing" → c' = c1 ∧ sm_status s = plan_status res).
Proof.
  intros Hc Hl Happly.
  destruct (start_run lab_id l (lab_retry_count l0 + 1) c Hc Hl) as (run & l1 & c1 & E1 & Hrs & Hw1).
  destruct (plan_finish lab_id l l1 inv (seen c) run
    (λ res, "Reconcile sweep finished with status " +:+ plan_status res +:+ ".") c1 Hrs)
    as (res & c2 & row & c3 & E2 & E3 & Hsteady & Hrp & Hw3).
  assert (world c3 = world c) as Hw by congruence.
  unfold reconcile_lab_once. rewrite run_bind, E1, run_bind. unfold attempt at 1. rewrite E2, run_bind, E3.
  destruct apply_fn as [apply|].
  - destruct (auto_apply && bool_decide (plan_status res = "fixing")) eqn:Eb.
    + specialize (Happly apply c3 eq_refl (rp_tidy _ _ _ _ _ _ Hrp)) as [Ht Hs].
      apply andb_true_iff in Eb as [-> Eb%bool_decide_eq_true]. rewrite run_bind. unfold attempt.
      destruct (apply lab_id c3) as [[a|e] c4]; eexists _, _, res, c3; (split; [reflexivity|]);
        (split; [done|split; [done|split; [done|split; [done|split; [done|split; [done|split; [done|]]]]]]]);
        intros [?|[?|?]]; done.
    + eexists _, _, res, c3. split; [reflexivity|].
      do 4 (split; [done|]). split; [done|]. split; [apply Hrp|]. split; [reflexivity|]. done.
  - eexists _, _, res, c3. split; [reflexivity|].
    do 4 (split; [done|]). split; [done|]. split; [apply Hrp|]. split; [reflexivity|]. done.
Qed.
End execute.
