(* ===== verification/LabCreate.v ===== *)
(** * Managed labs: creating a lab

    What [post_lab] does: either the lab is there with its boundary model and its
    reservations, or nothing is. *)

From stdpp Require Import base gmap list strings pretty sorting.
From Stdlib Require Import ZArith Lia Ascii.
From S2P Require Import Prelude Json Text IpNetwork ProxmoxSdn LabData LabStore LabRecords LabNetwork LabReconciler LabLogic LabModel LabInvariant LabOps LabPlan LabSweep LabExecute.

#[local] Open Scope Z_scope.

(** ** Names that are filled in *)

Lemma slug_char_plain c : is_slug_char c = true → PyStr.is_space c = false.
Proof.
  unfold is_slug_char, PyStr.is_space, PyStr.code. rewrite bool_decide_eq_true, bool_decide_eq_false. lia.
Qed.

Lemma keep_slug_plain s : plain (keep_slug_chars s) = true.
Proof.
  induction s as [|c s IH]; [done|]. simpl. destruct (is_slug_char c) eqn:E; [|done].
  simpl. by rewrite (slug_char_plain c E), IH.
Qed.

Lemma strip_named s : PyStr.strip s = EmptyString ∨ PyStr.strip s ≠ EmptyString.
Proof. destruct (PyStr.strip s); auto. Qed.

(** ** A lab is added *)

Definition with_lab (id : string) (l : lab) (t : lab_tables) : lab_tables := on_labs <[id := l]> t.

Lemma with_lab_some id l (m : gmap string lab) i : is_Some (m !! i) → is_Some (<[id := l]> m !! i).
Proof. intros Hi. apply lookup_insert_is_Some'. by right. Qed.

Lemma with_lab_model id l t : model_wf t → model_wf (with_lab id l t).
Proof.
  intros [? ? ? Hb Ho ? ?]. split; simpl; try done; intros; apply with_lab_some; eauto.
Qed.

Lemma draft_not_standing l : lab_status l = "draft" → ¬ standing l.
Proof. unfold standing. intros ->. set_solver. Qed.

(** With its boundary model the new lab is as the invariant asks. *)
Lemma created_wf id l t t' :
  lab_wf t → labs t !! id = None → id ≠ EmptyString → lab_ok l → lab_status l = "draft" →
  (∀ i a, labs t !! i = Some a → lab_slug a ≠ lab_slug l) →
  remodels (with_lab id l t) t' → (∀ s, s ∈ object_specs l → holds_object t' id s) → lab_wf t'.
Proof.
  intros Hw Hid Hne Hok Hst Hslug [Hl Hr Hru Hf Hfx Hsn Hev Hm _ _ Hk] Hspecs. simpl in *.
  assert (∀ i, is_Some (labs t !! i) → is_Some (labs t' !! i)) as Hsome.
  { intros i Hi. rewrite Hl. by apply with_lab_some. }
  assert (∀ i a, labs t' !! i = Some a → i = id ∧ a = l ∨ i ≠ id ∧ labs t !! i = Some a) as Hinv.
  { intros i a. rewrite Hl. intros [[-> <-]|[? ?]]%lookup_insert_Some; auto. }
  pose proof (with_lab_model id l t (lw_model _ Hw)) as Hwm.
  split; rewrite ?Hr, ?Hru, ?Hf, ?Hfx, ?Hsn, ?Hev; try apply Hw.
  - by apply Hm.
  - intros i a [[-> ->]|[_ Hi]]%Hinv; [done|by apply (lw_lab _ Hw)].
  - intros i j a b Hi Hj Hab.
    destruct (Hinv i a Hi) as [[-> ->]|[Hni Hi']], (Hinv j b Hj) as [[-> ->]|[Hnj Hj']]; try done.
    + by destruct (Hslug j b Hj').
    + by destruct (Hslug i a Hi').
    + by eapply (lw_slug _ Hw).
  - intros i a s Hi Hs. destruct (Hinv i a Hi) as [[-> ->]|[Hni Hi']]; [by apply Hspecs|].
    apply (Hk Hwm i a s); [by rewrite lookup_insert_ne|done|]. exact (lw_specs _ Hw i a s Hi' Hs).
  - intros i r Hi. destruct (lw_reservation _ Hw i r Hi). auto.
  - intros i r Hi. eapply Hsome, (lw_run _ Hw); eauto.
  - intros i f Hi. destruct (lw_finding _ Hw i f Hi) as [? Hrun]. split; [auto|].
    unfold run_exists in *. by rewrite Hru.
  - intros i f Hi. apply (fix_ok_change t); [auto|by rewrite Hru|by rewrite Hsn|by eapply (lw_fix _ Hw)].
  - intros i a Hi. eapply Hsome, (lw_snapshot _ Hw); eauto.
  - intros i a Hi. eapply Hsome, (lw_event _ Hw); eauto.
  - intros i a Hi Hs. destruct (Hinv i a Hi) as [[-> ->]|[Hni Hi']]; [by apply draft_not_standing in Hst|].
    unfold holds_cidr. rewrite Hr. by apply (lw_standing _ Hw).
  - intros i j a b Hi Hj Hij Ha Hb.
    destruct (Hinv i a Hi) as [[-> ->]|[_ Hi']]; [by apply draft_not_standing in Hst|].
    destruct (Hinv j b Hj) as [[-> ->]|[_ Hj']]; [by apply draft_not_standing in Hst|].
    by eapply (lw_disjoint _ Hw i j).
Qed.

Section create.
Context `{LE : LabEnv} `{!LabEnvLaws LE} {W : Type} `{PX : Proxmox W}.

#[local] Notation C := (lab_conn W).
#[local] Notation M := (eff (lab_conn W)).

(** A step that reads, with what else is known of every step. *)
Lemma runs_and_observes E R {A} (m : M A) (U : relation C) `{!Untouched U} (c : C) Q :
  observes U m → runs E R m c Q → runs E R m c (λ a c', Q a c' ∧ U c c').
Proof.
  intros HU. specialize (HU c). unfold runs. destruct (m c) as [[a|e] c']; [|done]. intros [? ?]. done.
Qed.

(** Between the identifier's handing out and its use: no table changes. *)
Record awaiting (id : string) (t : lab_tables) (c : C) : Prop := {
  aw_ready : ready_conn c;
  aw_seen : seen c = t;
  aw_fresh : ¬ used id t;
  aw_handed : handed (handed_out c) id
}.

Lemma awaiting_keeps id t c c' :
  awaiting id t c → ready_conn c' → seen c' = t → uncommitted c c' → awaiting id t c'.
Proof. intros [? ? ? Hh] ? ? Hu. split; try done. eapply handed_mono; [apply Hu|done]. Qed.

(** Computing values: nothing is written. *)
Definition reads {A} (m : M A) (Q : A → Prop) : Prop :=
  ∀ c, ready_conn c → runs True any_change m c (λ a c', seen c' = seen c ∧ Q a) ∧ observes uncommitted m.

Lemma reads_ret {A} (a : A) (Q : A → Prop) : Q a → reads (mret a) Q.
Proof. intros HQ c Hc. split; [by apply runs_ret; [apply _| |]|]. observe. Qed.

Lemma reads_lift {A} (o : outcome A) (Q : A → Prop) : (∀ a, o = Ret a → Q a) → reads (lift_outcome o) Q.
Proof.
  intros HQ c Hc. split; [|observe]. apply runs_lift; [apply _|done|..|done]. intros a Ha. split; [done|auto].
Qed.

Lemma reads_new_id (Q : string → Prop) : (∀ n, Q (lab_uuid4 n)) → reads _new_id Q.
Proof.
  intros HQ c Hc. split; [|observe]. pose proof (runs_new_id True any_change c (λ _ c', seen c' = seen c) Hc) as Hr.
  unfold runs in *. simpl in *. destruct Hr as [Hm Hs]; [by intros|]. split; [done|]. split; [done|apply HQ].
Qed.

Lemma reads_bind {A B} (m : M A) (f : A → M B) Q Q' :
  reads m Q → (∀ a, Q a → reads (f a) Q') → (∀ a, observes uncommitted (f a)) → reads (m ≫= f) Q'.
Proof.
  intros Hm Hf Hu c Hc. destruct (Hm c Hc) as [Hr Hum]. split; [|by apply observes_bind; [apply _| |]].
  eapply runs_bind; [apply _|exact Hr|]. intros a c' [Hc' _] [Hs HQ].
  destruct (Hf a HQ c' Hc') as [Hr' _]. eapply runs_mono; [exact Hr'|]. intros b c'' _ [? ?]. split; [congruence|done].
Qed.

Definition sdn_name_ok (s : string) : Prop := PyStr.strip s = s ∧ s ≠ EmptyString.

Lemma reads_id_part short : reads (_proxmox_sdn_id_part short) (λ s, plain s = true).
Proof.
  unfold _proxmox_sdn_id_part. case_decide as E.
  - eapply reads_bind; [apply (reads_new_id (λ s, plain s = true)); apply lab_uuid4_plain| |intros; observe].
    intros id Hid. by apply reads_ret, plain_prefix.
  - apply reads_ret, keep_slug_plain.
Qed.

Lemma app_named s t : t ≠ EmptyString → s +:+ t ≠ EmptyString.
Proof. by destruct s. Qed.

Lemma reads_sdn_name short n suffix value :
  plain suffix = true → suffix ≠ EmptyString →
  reads (or_compute (PyStr.strip value)
    (part ← _proxmox_sdn_id_part short; mret (String.substring 0 n part +:+ suffix))) sdn_name_ok.
Proof.
  intros Hp Hne. unfold or_compute. case_decide as E; [|by apply reads_ret; split; [apply PyStr.strip_idem|]].
  eapply reads_bind; [apply reads_id_part| |intros; observe]. intros part Hpart.
  apply reads_ret. split; [|by apply app_named]. apply strip_plain. by rewrite plain_app, plain_prefix.
Qed.

Lemma step_reads id t E {A B} (m : M A) (f : A → M B) Q (Q' : B → C → Prop) (c : C) :
  E = True → reads m Q → awaiting id t c →
  (∀ a c', awaiting id t c' → Q a → runs E any_change (f a) c' Q') → runs E any_change (m ≫= f) c Q'.
Proof.
  intros -> Hm Haw Hf. destruct (Hm c (aw_ready _ _ _ Haw)) as [Hr Hu].
  eapply runs_bind; [apply _|apply (runs_and_observes True any_change m uncommitted c _ Hu Hr)|].
  intros a c' [Hc' _] [[Hs HQ] Hun]. apply Hf; [|done].
  eapply awaiting_keeps; try done. rewrite Hs. apply Haw.
Qed.

(** ** Writing the lab *)

(** The tables [t'] are those of [t] with the new lab [l]. *)
Record created (id : string) (l : lab) (t t' : lab_tables) : Prop := {
  cr_wf : lab_wf t';
  cr_new : labs t !! id = None;
  cr_labs : labs t' = <[id := l]> (labs t);
  cr_reserved i r : reservations t !! i = Some r → ∃ r', reservations t' !! i = Some r' ∧ same_reservation r r';
  cr_fixes : fix_actions t' = fix_actions t;
  cr_runs : reconcile_runs t' = reconcile_runs t;
  cr_snapshots : snapshots t' = snapshots t
}.

Lemma created_progress id l t t1 t2 :
  created id l t t1 → progress id t1 t2 → fix_actions t2 = fix_actions t1 → created id l t t2.
Proof.
  intros [Hw Hn Hl Hr Hf Hru Hs] Hp Hf2. split.
  - by apply (pg_wf _ _ _ Hp).
  - done.
  - by rewrite (pg_labs _ _ _ Hp).
  - intros i r Hi. destruct (Hr i r Hi) as (r1 & Hr1 & ? & ? & ?).
    destruct (pg_reserved _ _ _ Hp i r1 Hr1) as (r2 & Hr2 & ? & ? & ?). exists r2.
    split; [done|]. split; [congruence|split; congruence].
  - congruence.
  - by rewrite (pg_runs _ _ _ Hp).
  - by rewrite (pg_snapshots _ _ _ Hp).
Qed.

Lemma runs_insert_lab id l t (c : C) :
  lab_wf t → awaiting id t c → id ≠ EmptyString → lab_ok l → lab_status l = "draft" →
  runs True any_change (insert_lab id l ;; ensure_lab_boundary_model id l false) c
    (λ _ c', created id l t (seen c')).
Proof.
  intros Hw [Hc Hs Hfresh Hh] Hne Hok Hst.
  assert (labs t !! id = None) as Hnew by (apply not_used in Hfresh; by destruct Hfresh).
  eapply (runs_bind _ _ _ _ _ (λ _ c', seen c' = with_lab id l t ∧
    ∀ i a, labs t !! i = Some a → lab_slug a ≠ lab_slug l)).
  { apply runs_statement; [done|done|]. rewrite Hs. unfold first_violation. simpl.
    rewrite pk_fresh by done. simpl. destruct (exists_where _ _) eqn:Eex; [done|]. intros _.
    split; [done|]. split; [|split; [by left|]].
    - intros k. unfold used; simpl. intros Hk. destruct (decide (k = id)) as [->|]; [by right|].
      rewrite lookup_insert_ne in Hk by done. by left.
    - intros c' _ Hs' _ _. split; [done|]. intros i a Hi Heq.
      apply not_true_iff_false in Eex. apply Eex, exists_where_true. by exists i, a. }
  intros [] c1 [Hc1 _] [Hs1 Hslug].
  assert (modelling True id l [] [] [] c1) as Hmd.
  { split; try done; try (by intros ? Hin; apply not_elem_of_nil in Hin).
    - rewrite Hs1. by apply with_lab_model, Hw.
    - rewrite Hs1. apply lookup_insert_eq.
    - by left. }
  pose proof (runs_ensure True id l c1 Hmd (ok_named _ Hok)) as Hr. unfold runs in *.
  destruct (ensure_lab_boundary_model id l false c1) as [[[]|e] c2]; [|done].
  destruct Hr as [[Hc2 Hrm] [Hspecs _]]. rewrite Hs1 in Hrm. split; [by split|]. split.
  - by apply (created_wf id l t).
  - done.
  - apply Hrm.
  - intros i r Hi. exists r. by rewrite (rm_reservations _ _ Hrm).
  - apply Hrm.
  - apply Hrm.
  - apply Hrm.
Qed.

(** What a lab made from a body is. *)
Record as_requested (b : lab_body) (l : lab) : Prop := {
  ar_name : lab_name l = PyStr.strip (lb_name b);
  ar_short_code : lab_short_code l = PyStr.lower (PyStr.strip (lb_short_code b));
  ar_group_tag : lab_group_tag l = PyStr.strip (lb_group_tag b);
  ar_cidr : lab_network_cidr l = PyStr.strip (lb_network_cidr b);
  ar_status : lab_status l = "draft";
  ar_ok : lab_ok l;
  ar_desktops n : lb_desktop_count b = Some n → device_count "desktop" l = Ret n;
  ar_servers n : lb_server_count b = Some n → device_count "server" l = Ret n
}.

Lemma counts_of_lab_desired b template policy desktops servers zone vnet subnet name slug sc tag st cidr gw mode n rc run created_at :
  let l := Lab name slug sc tag st cidr gw mode zone vnet subnet n run
             (lab_desired b template policy desktops servers zone vnet subnet) rc created_at in
  device_count "desktop" l = Ret desktops ∧ device_count "server" l = Ret servers.
Proof.
  assert (∀ n, py_int (jor (JInt n) (JInt 0)) = Ret n) as Hn.
  { intros m. unfold jor, truthy. by destruct (m =? 0) eqn:E; [apply Z.eqb_eq in E as ->|]. }
  split; exact (Hn _).
Qed.

Lemma runs_create_lab b (c : C) :
  ready_conn c → lab_wf (seen c) → valid_cidr (PyStr.strip (lb_network_cidr b)) →
  runs True any_change (create_lab b false) c
    (λ kr c', created kr.1 kr.2 (seen c) (seen c') ∧ as_requested b kr.2).
Proof.
  intros Hc Hw Hv. unfold create_lab.
  eapply (runs_bind _ _ _ _ _ (λ _ c', seen c' = seen c)).
  { by apply runs_now; [apply _|done|]. }
  intros now c1 [H1 _] Hs1.
  eapply (runs_bind _ _ _ _ _ (λ id c', awaiting id (seen c) c' ∧ id ≠ EmptyString)).
  { apply runs_new_id; [apply _|done|]. intros id c' Hc' Hs _ [Hu Hh] Hne. rewrite Hs1 in Hs.
    split; [|done]. split; try done. by rewrite <- Hs. }
  intros id c2 _ [Haw Hne].
  eapply (step_reads id (seen c)); [done|apply (reads_lift _ (λ _, True)); done|exact Haw|]. clear Haw.
  intros template c3 Haw _. cbv zeta.
  eapply (step_reads id (seen c)); [done|apply (reads_sdn_name _ 6 "z" (lb_sdn_zone b)); done|exact Haw|]. clear Haw.
  intros zone c4 Haw Hzone.
  eapply (step_reads id (seen c)); [done|apply (reads_sdn_name _ 6 "vn" (lb_sdn_vnet b)); done|exact Haw|]. clear Haw.
  intros vnet c5 Haw Hvnet.
  eapply (step_reads id (seen c)); [done|apply (reads_lift _ (λ n, ∀ m, lb_desktop_count b = Some m → n = m))|exact Haw|].
  { unfold resolved_count. intros n Hn m Hm. rewrite Hm in Hn. congruence. }
  clear Haw. intros desktops c6 Haw Hd.
  eapply (step_reads id (seen c)); [done|apply (reads_lift _ (λ n, ∀ m, lb_server_count b = Some m → n = m))|exact Haw|].
  { unfold resolved_count. intros n Hn m Hm. rewrite Hm in Hn. congruence. }
  clear Haw. intros servers c7 Haw Hsv.
  eapply (step_reads id (seen c) _ _ _ (λ _, True)); [done| |exact Haw|].
  { destruct (_ || _)%bool; [|by apply reads_ret]. intros c' Hc'. by split; [|observe]. }
  clear Haw. intros [] c8 Haw _.
  eapply (step_reads id (seen c) _ (_slug (lb_name b)) _ (λ _, True)); [done| |exact Haw|].
  { unfold _slug. case_decide; [|by apply reads_ret].
    eapply reads_bind; [by apply (reads_new_id (λ _, True))| |intros; observe]. intros; by apply reads_ret. }
  clear Haw. intros slug c9 Haw _.
  set (l := Lab _ _ _ _ _ _ _ _ _ _ _ _ _ _ _ _).
  assert (as_requested b l) as Har.
  { pose proof (counts_of_lab_desired b template
      (py_str (jor (jget "naming_policy" (jor (jget "defaults" (default JNull template)) (JObj [])))
        (JStr "{lab_short}-{role}-{index}"))) desktops servers zone vnet
      (PyStr.strip (PyStr.or_else (lb_sdn_subnet b) (lb_network_cidr b))) (PyStr.strip (lb_name b)) slug
      (PyStr.lower (PyStr.strip (lb_short_code b))) (PyStr.strip (lb_group_tag b)) "draft"
      (PyStr.strip (lb_network_cidr b)) (PyStr.strip (lb_gateway_ip b))
      (PyStr.or_else (PyStr.strip (lb_network_mode b)) "sdn") 0 now None now) as [Hcd Hcs].
    split; try done.
    - destruct Hzone, Hvnet. split; simpl; try done; [apply PyStr.strip_idem..|].
      unfold LAB_STATUSES. by left.
    - intros n Hn. rewrite <- (Hd n Hn). exact Hcd.
    - intros n Hn. rewrite <- (Hsv n Hn). exact Hcs. }
  eapply (runs_ext _ _ ((insert_lab id l ;; ensure_lab_boundary_model id l false) ;; _)).
  { by rewrite bind_assoc. }
  eapply runs_bind; [apply _|apply (runs_insert_lab id l (seen c) c9); try done; apply Har|].
  intros [] c10 [H10 _] Hcr.
  eapply (runs_bind _ _ _ _ _ (λ _ c', adds_event id (seen c10) (seen c') ∧ commits false c10 c')).
  { apply runs_record_event; [done|]. rewrite (cr_labs _ _ _ _ Hcr), lookup_insert_eq. eauto. }
  intros ev c11 [H11 _] [Hev _].
  eapply (runs_bind _ _ _ _ _ (λ _ c', c' = c11)).
  { simpl. by apply runs_ret; [apply _| |]. }
  intros [] c12 _ ->. apply runs_ret; [apply _|done|]. split; [|done].
  eapply created_progress; [done| |by destruct Hev as (? & ? & -> & _)].
  eapply adds_event_progress; [|exact Hev]. rewrite (cr_labs _ _ _ _ Hcr), lookup_insert_eq. eauto.
Qed.

(** ** Reservations *)

Lemma reserved_progress lab_id i t t' ty value :
  progress lab_id t t' → reserved_by t i ty value → reserved_by t' i ty value.
Proof.
  intros Hp (k & r & Hk & Hl & Hty & Hv). destruct (pg_reserved _ _ _ Hp k r Hk) as (r' & Hk' & ? & ? & ?).
  exists k, r'. split; [done|]. split; [congruence|split; congruence].
Qed.

(** A reservation made for the new lab. *)
Definition reserving (id : string) (l : lab) (t : lab_tables) (c : C) : Prop :=
  ready_conn c ∧ created id l t (seen c).

Lemma runs_reserve_created id l t ty value metadata (c : C) :
  reserving id l t c → (ty = "cidr" → valid_cidr (PyStr.strip value)) →
  runs True (progress id) (reserve_value id ty value metadata false) c
    (λ _ c', reserving id l t c' ∧ reserved_by (seen c') id ty (PyStr.strip value)).
Proof.
  intros [Hc Hcr] Hv.
  assert (is_Some (labs (seen c) !! id)) as Hlab by (rewrite (cr_labs _ _ _ _ Hcr), lookup_insert_eq; eauto).
  eapply runs_mono; [by apply (runs_reserve True id ty value metadata false c); [..|left]|].
  intros row c' [Hc' Hp] (Hres & Hfx & _). split; [|done]. split; [done|]. by eapply created_progress.
Qed.

Definition names_reserved (id short_code role : string) (indices : list Z) (t : lab_tables) : Prop :=
  ∀ i, i ∈ indices → reserved_by t id "hostname" (PyStr.strip (hostname short_code role i)) ∧
       (String.length (hostname short_code role i) ≤ 15)%nat.

Lemma runs_reserve_names id l t short role indices (c : C) :
  reserving id l t c →
  runs True (progress id) (reserve_names id short role indices) c
    (λ _ c', reserving id l t c' ∧ names_reserved id short role indices (seen c')).
Proof.
  revert c. induction indices as [|i indices IH]; intros c Hc; simpl.
  { apply runs_ret; [apply _|apply Hc|]. split; [done|]. by intros i ?%not_elem_of_nil. }
  destruct (_ <? _)%nat eqn:Elen; [done|]. apply Nat.ltb_ge in Elen.
  eapply (runs_bind _ _ _ _ _ (λ _ c', reserving id l t c')); [by apply runs_ret; [apply _|apply Hc|]|].
  intros [] c1 _ Hc1. eapply runs_bind; [apply _|by apply (runs_reserve_created id l t "hostname")|].
  intros row c2 _ [Hc2 Hrow]. eapply runs_bind; [apply _|by apply IH|].
  intros rows c3 [_ Hp] [Hc3 Hrows]. apply runs_ret; [apply _|apply Hc3|]. split; [done|].
  intros j [->|Hj]%elem_of_cons; [|by apply Hrows]. split; [|done]. by eapply reserved_progress.
Qed.

Lemma runs_reserve_names_of id l t role count (c : C) :
  reserving id l t c →
  runs True (progress id) (reserve_names_of (id, l) role count) c
    (λ _ c', reserving id l t c' ∧ names_reserved id (lab_short_code l) role (seqZ 1 count) (seen c')).
Proof.
  intros Hc. unfold reserve_names_of. case_decide as E.
  - subst count. apply runs_ret; [apply _|apply Hc|]. split; [done|]. by intros i ?%elem_of_seqZ; lia.
  - unfold reserve_default_names. simpl.
    eapply (runs_bind _ _ _ _ _ (λ _ c', reserving id l t c' ∧
      names_reserved id (lab_short_code l) role (seqZ 1 count) (seen c'))).
    + eapply runs_bind; [apply _|by apply (runs_reserve_names id l t)|]. intros rows c1 _ [Hc1 Hn].
      by apply runs_ret; [apply _|apply Hc1|].
    + intros rows c1 _ [Hc1 Hn]. by apply runs_ret; [apply _|apply Hc1|].
Qed.

Lemma names_progress lab_id id short role indices t t' :
  progress lab_id t t' → names_reserved id short role indices t → names_reserved id short role indices t'.
Proof. intros Hp Hn i Hi. destruct (Hn i Hi). split; [|done]. by eapply reserved_progress. Qed.

(** ** The handler *)

(** The lab is there as requested, with its names, its range and its boundary model. *)
Record lab_created (b : lab_body) (kr : string * lab) (t t' : lab_tables) : Prop := {
  lc_created : created kr.1 kr.2 t t';
  lc_requested : as_requested b kr.2;
  lc_tag : reserved_by t' kr.1 "group_tag" (PyStr.strip (lb_group_tag b));
  lc_cidr : reserved_by t' kr.1 "cidr" (PyStr.strip (lb_network_cidr b));
  lc_desktops n : lb_desktop_count b = Some n →
    names_reserved kr.1 (lab_short_code kr.2) "wks" (seqZ 1 n) t';
  lc_servers n : lb_server_count b = Some n →
    names_reserved kr.1 (lab_short_code kr.2) "srv" (seqZ 1 n) t'
}.

Lemma runs_create_and_reserve b (c : C) :
  ready_conn c → lab_wf (seen c) → valid_cidr (PyStr.strip (lb_network_cidr b)) →
  runs True any_change (create_and_reserve b) c
    (λ kr c', lab_created b kr (seen c) (seen c') ∧ synced c').
Proof.
  intros Hc Hw Hv. unfold create_and_reserve.
  eapply runs_bind; [apply _|by apply runs_create_lab|]. intros [id l] c1 [Hc1 _] [Hcr Har]. simpl in *.
  apply (runs_weaken True (progress id)); [done|].
  assert (PyStr.strip (lab_network_cidr l) = PyStr.strip (lb_network_cidr b)) as Hcidr
    by (by rewrite (ar_cidr _ _ Har), PyStr.strip_idem).
  eapply runs_bind; [apply _|by apply (runs_reserve_created id l (seen c) "group_tag")|].
  intros ? c2 _ [Hc2 Htag]. rewrite (ar_group_tag _ _ Har), PyStr.strip_idem in Htag.
  eapply runs_bind; [apply _|by apply (runs_reserve_created id l (seen c) "cidr"); [|rewrite Hcidr]|].
  intros ? c3 [_ Hp3] [Hc3 Hres]. rewrite Hcidr in Hres.
  eapply (runs_bind _ _ _ _ _ (λ n c', device_count "desktop" l = Ret n ∧ c' = c3)).
  { apply runs_lift; [apply _|apply Hc3|done|done]. }
  intros desktops c3' _ [Hd ->].
  eapply (runs_bind _ _ _ _ _ (λ n c', device_count "server" l = Ret n ∧ c' = c3)).
  { apply runs_lift; [apply _|apply Hc3|done|done]. }
  intros servers c3' _ [Hs ->].
  eapply runs_bind; [apply _|by apply (runs_reserve_names_of id l (seen c))|]. intros [] c4 [_ Hp4] [Hc4 Hwks].
  eapply runs_bind; [apply _|by apply (runs_reserve_names_of id l (seen c))|]. intros [] c5 [_ Hp5] [Hc5 Hsrv].
  eapply (runs_bind _ _ _ _ _ (λ _ c', seen c' = seen c5 ∧ synced c')).
  { apply runs_commit; [apply _|apply Hc5|]. intros c' _ Hs' Hd' _. split; [done|]. unfold synced. congruence. }
  intros [] c6 [Hc6 _] [Hs6 Hsy]. apply runs_ret; [apply _|done|]. split; [|done]. rewrite Hs6.
  assert (∀ ty v, reserved_by (seen c3) id ty v → reserved_by (seen c5) id ty v) as Hkeep.
  { intros ty v Hrv. eapply reserved_progress; [exact Hp5|]. by eapply reserved_progress. }
  split; simpl; [apply Hc5|done|..].
  - apply Hkeep. by eapply reserved_progress.
  - by apply Hkeep.
  - intros n Hn. rewrite (ar_desktops _ _ Har n Hn) in Hd. injection Hd as <-. by eapply names_progress.
  - intros n Hn. rewrite (ar_servers _ _ Har n Hn) in Hs. by injection Hs as <-.
Qed.

(** Until it commits, creating changes nothing that is committed. *)
Lemma observes_create_lab b : observes uncommitted (create_lab b false : M _).
Proof.
  unfold create_lab, insert_lab, _slug. cbv zeta. simpl. observe.
Qed.

Lemma observes_names_of kr role n : observes uncommitted (reserve_names_of kr role n : M _).
Proof.
  unfold reserve_names_of, reserve_default_names. case_decide; [observe|]. simpl. observe.
  induction (seqZ 1 n); simpl; observe.
Qed.

(** What commits last: when it raises, nothing was committed. *)
Definition commits_last {A} (m : M A) : Prop := ∀ c,
  match m c with
  | (Ret _, c') => world c' = world c
  | (Exc _, c') => uncommitted c c'
  end.

Lemma commits_last_bind {A B} (m : M A) (f : A → M B) :
  observes uncommitted m → (∀ a, commits_last (f a)) → commits_last (m ≫= f).
Proof.
  intros Hm Hf c. rewrite run_bind. specialize (Hm c). destruct (m c) as [[a|e] c1]; [|done]. simpl in Hm.
  specialize (Hf a c1). destruct (f a c1) as [[b|e] c2].
  - rewrite Hf. apply Hm.
  - by etrans.
Qed.

Lemma create_and_reserve_commits_last b : commits_last (create_and_reserve b).
Proof.
  pose proof observes_create_lab. pose proof observes_names_of. unfold create_and_reserve.
  repeat (apply commits_last_bind; [by observe|intro]). by intros c.
Qed.

(** The body of the handler: done and committed, or nothing that is committed has changed. *)
Lemma create_and_reserve_run b (c : C) :
  tidy c → valid_cidr (PyStr.strip (lb_network_cidr b)) →
  match create_and_reserve b c with
  | (Ret kr, c') => tidy c' ∧ world c' = world c ∧ lab_created b kr (seen c) (seen c')
  | (Exc e, c') => uncommitted c c'
  end.
Proof.
  intros Hc Hv. pose proof (runs_create_and_reserve b c (td_ready _ Hc) (td_wf _ Hc) Hv) as Hr.
  pose proof (create_and_reserve_commits_last b c) as Hl. unfold runs in Hr.
  destruct (create_and_reserve b c) as [[kr|e] c']; [|done].
  destruct Hr as [[Hc' _] [Hlc Hsy]]. split; [|done]. split; [done|apply Hlc|done].
Qed.

Lemma rollback_tidy (c c' : C) : tidy c → uncommitted c c' →
  tidy (LabConn (durable c') (durable c') false (event_serial c') (readings c') (handed_out c') (world c')).
Proof.
  intros [[Hsp Hi He] Hw Hsy] [Hd Hwd Hh Hs]. unfold synced in Hsy. rewrite Hd, Hsy. split; [|done|done].
  split; simpl; [done|..].
  - intros k Hk. eapply handed_mono; [exact Hh|by apply Hi].
  - intros i Hk. etrans; [by apply He|done].
Qed.

(** The handler: the lab is there, or it answers 409 or 500 and the tables are as before. *)
Lemma post_lab_run b (c : C) :
  tidy c → valid_cidr (PyStr.strip (lb_network_cidr b)) →
  let '(o, c') := post_lab b c in
  tidy c' ∧ world c' = world c ∧
  match o with
  | Ret kr => lab_created b kr (seen c) (seen c')
  | Exc e => (∃ status detail, e = lab_http status detail ∧ status ∈ [409; 500]) ∧
             seen c' = seen c ∧ durable c' = durable c
  end.
Proof.
  intros Hc Hv. pose proof (create_and_reserve_run b c Hc Hv) as Hr.
  unfold post_lab, with_lab_connection, try_except.
  destruct (create_and_reserve b c) as [[kr|e] c1].
  - destruct Hr as ([[Hsp Hi He] Hw Hsy] & Hwd & Hlc). destruct c1; simpl in *. subst. simpl.
    split; [|done]. by split; [split| |].
  - cbn. split; [by apply (rollback_tidy c c1)|]. destruct Hr as [Hd Hwd _ _].
    split; [done|]. split; [|by rewrite Hd, (td_synced _ Hc)].
    destruct e; eexists _, _; (split; [reflexivity|]); set_solver.
Qed.
End create.
