(* ===== verification/LabService.v ===== *)
(** * Managed labs: the requests

    Sweeps and handlers keep the invariant, whatever Proxmox answers and whether they
    return or raise; the states of the service between requests. *)

From stdpp Require Import base gmap list strings pretty sorting.
From Stdlib Require Import ZArith Lia Ascii.
From S2P Require Import Prelude Json Text IpNetwork ProxmoxSdn LabData LabStore LabRecords LabNetwork LabReconciler LabLogic LabModel LabInvariant LabOps LabPlan LabSweep LabExecute LabCreate.

#[local] Open Scope Z_scope.

Section service.
Context `{LE : LabEnv} `{!LabEnvLaws LE} {W : Type} `{PX : Proxmox W}.

#[local] Notation C := (lab_conn W).
#[local] Notation M := (eff (lab_conn W)).

(** ** Sweeps *)

(** What a sweep says about one lab. *)
Definition swept (t : lab_tables) (kr : string * lab) (s : lab_summary) : Prop :=
  sm_lab_id s = kr.1 ∧ ∃ res l, labs t !! kr.1 = Some l ∧ sm_plan s = Some res.

Lemma reconcile_each_run rows inv auto_apply apply_fn (c : C) :
  tidy c → (∀ kr, kr ∈ rows → is_Some (labs (seen c) !! kr.1)) →
  (∀ apply lab_id c', apply_fn = Some apply → tidy c' → clean (apply lab_id) c') →
  ∃ ss c', reconcile_each rows inv auto_apply apply_fn c = (Ret ss, c') ∧
    tidy c' ∧ steady (seen c) (seen c') ∧ Forall2 (swept (seen c)) rows ss.
Proof.
  revert c. induction rows as [|[lab_id l0] rows IH]; intros c Hc Hrows Happly.
  { exists [], c. split; [done|]. split; [done|]. split; [reflexivity|constructor]. }
  destruct (Hrows (lab_id, l0)) as [l Hl]; [by left|]. simpl in Hl.
  destruct (reconcile_once_run lab_id l0 l inv auto_apply apply_fn c Hc Hl) as
    (s & c1 & res & c0 & Hrun & Hid & Hplan & Hs0 & _ & _ & Hc1 & Hs1 & _).
  { intros apply c' Ha Hc'. by apply (Happly apply). }
  assert (steady (seen c) (seen c1)) as Hs by (by etrans).
  destruct (IH c1 Hc1) as (ss & c2 & Hrun2 & Hc2 & Hs2 & Hall); [|done|].
  { intros kr Hkr. destruct (Hrows kr) as [a Ha]; [by right|]. by eapply steady_lab. }
  exists (s :: ss), c2. cbn [reconcile_each]. rewrite run_bind, Hrun, run_bind, Hrun2. split; [done|]. split; [done|].
  split; [by etrans|]. constructor; [split; [done|by exists res, l]|].
  eapply Forall2_impl; [exact Hall|]. intros kr s' (Hid' & res' & l' & Hl' & Hp').
  split; [done|]. destruct (sd_labs_back _ _ Hs _ _ Hl') as (l'' & Hl'' & _). by exists res', l''.
Qed.

Lemma list_labs_run (c : C) : tidy c → ∃ rows, list_labs c = (Ret rows, c) ∧
  ∀ kr, kr ∈ rows ↔ labs (seen c) !! kr.1 = Some kr.2.
Proof.
  intros Hc. unfold list_labs, query. rewrite (rc_spoiled _ (td_ready _ Hc)).
  eexists. split; [reflexivity|]. intros [i l]. rewrite elem_of_isort. apply elem_of_map_to_list.
Qed.

Lemma reconcile_all_run inv auto_apply apply_fn lab_ids (c : C) :
  tidy c → (∀ apply lab_id c', apply_fn = Some apply → tidy c' → clean (apply lab_id) c') →
  ∃ sw c', reconcile_all_labs inv auto_apply apply_fn lab_ids c = (Ret sw, c') ∧
    tidy c' ∧ steady (seen c) (seen c') ∧ sw_lab_count sw = length (sw_labs sw) ∧
    ∀ i, i ∈ sm_lab_id <$> sw_labs sw ↔
         is_Some (labs (seen c) !! i) ∧ match lab_ids with Some ids => i ∈ ids | None => True end.
Proof.
  intros Hc Happly. unfold reconcile_all_labs.
  destruct (list_labs_run c Hc) as (rows & Hrows & Hin). rewrite run_bind, Hrows.
  set (wanted_rows := match lab_ids with Some wanted => filter (λ kr, kr.1 ∈ wanted) rows | None => rows end).
  assert (∀ kr, kr ∈ wanted_rows ↔ labs (seen c) !! kr.1 = Some kr.2 ∧
    match lab_ids with Some ids => kr.1 ∈ ids | None => True end) as Hw.
  { intros kr. unfold wanted_rows. destruct lab_ids; rewrite ?list_elem_of_filter, Hin; naive_solver. }
  destruct (reconcile_each_run wanted_rows inv auto_apply apply_fn c Hc) as (ss & c' & Hrun & Hc' & Hs & Hall).
  { intros kr [Hkr _]%Hw. eauto. }
  { done. }
  rewrite run_bind, Hrun. destruct (foldl _ _ _) as [n counts]. eexists _, c'. split; [reflexivity|].
  split; [done|]. split; [done|]. simpl. split; [by eapply Forall2_length|].
  assert (sm_lab_id <$> ss = wanted_rows.*1) as ->.
  { clear -Hall. induction Hall as [|kr s rs ss [Hid _] _ IH]; [done|]. rewrite fmap_cons, Hid, IH. done. }
  intros i. rewrite list_elem_of_fmap. split.
  - intros ([j l] & -> & [? ?]%Hw). simpl in *. eauto.
  - intros [[l Hl] Hi]. exists (i, l). split; [done|]. by apply Hw.
Qed.

(** ** Requests *)

Lemma tidy_commit (c : C) : tidy c → (lab_commit c).2 = c ∧ (lab_rollback c).2 = c.
Proof.
  intros [[Hsp _ _] _ Hsy]. unfold synced in Hsy. unfold lab_commit, lab_rollback. destruct c; simpl in *.
  by subst.
Qed.

(** A request whose operations leave the connection tidy. *)
Lemma with_connection_clean {A} (m : M A) (c : C) : clean m c → with_lab_connection m c = m c.
Proof.
  intros [Hc Hs]. unfold with_lab_connection. destruct (m c) as [[a|e] c'] eqn:E; simpl in *;
    destruct (tidy_commit c' Hc) as [H1 H2]; rewrite run_bind.
  - unfold lab_commit in *. simpl in *. by rewrite H1.
  - unfold lab_rollback in *. simpl in *. by rewrite H2.
Qed.

Lemma clean_outside {A} (m : W → outcome A * W) (c : C) : tidy c → clean (outside m) c.
Proof.
  intros Hc. apply (clean_same _ c (m (world c)).2 Hc). unfold outside. by destruct (m (world c)).
Qed.

Lemma clean_raise {A} e (c : C) : tidy c → clean (raise e : M A) c.
Proof. intros Hc. by apply clean_stay. Qed.

Lemma clean_lab_or_404 lab_id (c : C) : tidy c → clean (_get_lab_or_404 lab_id) c.
Proof.
  intros Hc. apply clean_bind; [by apply clean_query|]. intros [l|] c' _ Hc' _; [by apply clean_ret|by apply clean_raise].
Qed.

Lemma lab_or_404 lab_id (c : C) : tidy c →
  _get_lab_or_404 lab_id c =
    (match labs (seen c) !! lab_id with Some l => Ret l | None => Exc (lab_http 404 "lab not found") end, c).
Proof.
  intros Hc. unfold _get_lab_or_404, get_lab. rewrite run_bind. unfold query.
  rewrite (rc_spoiled _ (td_ready _ Hc)). by destruct (labs (seen c) !! lab_id).
Qed.

(** The request that plans one lab: 404 without it, 500 when Proxmox cannot be read, and
    otherwise the plan. *)
Lemma reconcile_lab_run lab_id (c : C) :
  tidy c →
  match labs (seen c) !! lab_id with
  | None => reconcile_lab lab_id c = (Exc (lab_http 404 "lab not found"), c)
  | Some l =>
      ∃ c', tidy c' ∧ steady (seen c) (seen c') ∧
      match inventory (world c) with
      | (Ret inv, w) => world c' = w ∧
          ∃ res, reconcile_lab lab_id c = (Ret res, c') ∧ run_planned lab_id l inv (seen c) res c'
      | (Exc _, w) => world c' = w ∧
          reconcile_lab lab_id c = (Exc (lab_http 500 "managed lab reconcile failed"), c')
      end
  end.
Proof.
  intros Hc. destruct (labs (seen c) !! lab_id) as [l|] eqn:Hl.
  2: { unfold reconcile_lab. rewrite with_connection_clean.
       - by rewrite run_bind, lab_or_404, Hl.
       - apply clean_stay; [done|]. by rewrite run_bind, lab_or_404, Hl. }
  destruct (start_run lab_id l (lab_retry_count l + 1) c Hc Hl) as (run & l1 & c1 & E1 & Hrs & Hw1).
  destruct (inventory (world c)) as [[inv|e] w] eqn:Hinv.
  - pose proof (run_started_world _ _ _ _ _ w _ Hrs) as Hrs'.
    destruct (plan_finish lab_id l l1 inv (seen c) run
      (λ res, "Managed labs network reconcile finished with status " +:+ plan_status res +:+ ".") _ Hrs')
      as (res & c2 & row & c3 & E2 & E3 & Hst & Hrp & Hw3).
    exists c3. split; [apply Hrp|]. split; [done|]. split; [done|]. exists res. split; [|done].
    unfold reconcile_lab.
    assert ((l ← _get_lab_or_404 lab_id;
      run ← start_reconcile_run lab_id (lab_retry_count l + 1);
      result ← try_except (inv ← outside inventory; plan_network_reconcile lab_id inv (Some run.1))
        (λ e, finish_reconcile_run run.1 "failed" ("Managed labs network reconcile failed: " +:+ exc_str e) ;;
              raise (lab_http 500 "managed lab reconcile failed"));
      finish_reconcile_run run.1 (plan_status result)
        ("Managed labs network reconcile finished with status " +:+ plan_status result +:+ ".") ;;
      mret result) c = (Ret res, c3)) as Hrun.
    { rewrite run_bind, lab_or_404, Hl by done. rewrite run_bind, E1, run_bind. unfold try_except at 1.
      rewrite run_bind. unfold outside. rewrite Hw1, Hinv.
      change (LabConn _ _ _ _ _ _ w) with (set_world w c1). rewrite E2, run_bind, E3. done. }
    rewrite with_connection_clean; [exact Hrun|]. unfold clean. rewrite Hrun. split; [apply Hrp|done].
  - pose proof (run_started_world _ _ _ _ _ w _ Hrs) as [Htd Hst Hl1 Hsame Hrun Hrlab Hrv].
    destruct (finish_run lab_id l l1 (seen c) run "failed" ("Managed labs network reconcile failed: " +:+ exc_str e)
      (set_world w c1)) as (row & c3 & E3 & Htd3 & Hst3 & _ & _ & Hw3 & _); try done; [apply Htd..|set_solver|].
    exists c3. split; [done|]. split; [done|]. split; [done|].
    unfold reconcile_lab.
    assert ((l ← _get_lab_or_404 lab_id;
      run ← start_reconcile_run lab_id (lab_retry_count l + 1);
      result ← try_except (inv ← outside inventory; plan_network_reconcile lab_id inv (Some run.1))
        (λ e, finish_reconcile_run run.1 "failed" ("Managed labs network reconcile failed: " +:+ exc_str e) ;;
              raise (lab_http 500 "managed lab reconcile failed"));
      finish_reconcile_run run.1 (plan_status result)
        ("Managed labs network reconcile finished with status " +:+ plan_status result +:+ ".") ;;
      mret result) c = (Exc (lab_http 500 "managed lab reconcile failed"), c3)) as Hrun'.
    { rewrite run_bind, lab_or_404, Hl by done. rewrite run_bind, E1, run_bind. unfold try_except at 1.
      rewrite run_bind. unfold outside. rewrite Hw1, Hinv.
      change (LabConn _ _ _ _ _ _ w) with (set_world w c1). rewrite run_bind, E3. done. }
    rewrite with_connection_clean; [exact Hrun'|]. unfold clean. rewrite Hrun'. done.
Qed.

Lemma clean_apply auto_apply apply lab_id (c : C) :
  apply_fn_of auto_apply = Some apply → tidy c → clean (apply lab_id) c.
Proof. destruct auto_apply; [|done]. intros [= <-] Hc. by apply clean_execute_pending. Qed.

(** A sweep returns unless Proxmox cannot be read, with one summary for every lab. *)
Lemma reconcile_sweep_run auto_apply (c : C) :
  tidy c →
  ∃ c', tidy c' ∧ steady (seen c) (seen c') ∧
  match inventory (world c) with
  | (Ret inv, w) => ∃ sw, reconcile_sweep auto_apply c = (Ret sw, c') ∧
      sw_lab_count sw = length (sw_labs sw) ∧ ∀ i, i ∈ sm_lab_id <$> sw_labs sw ↔ is_Some (labs (seen c) !! i)
  | (Exc e, w) => reconcile_sweep auto_apply c = (Exc e, set_world w c)
  end.
Proof.
  intros Hc. unfold reconcile_sweep.
  set (m := inv ← outside inventory; reconcile_all_labs inv auto_apply (apply_fn_of auto_apply) None).
  destruct (inventory (world c)) as [[inv|e] w] eqn:Hinv.
  - destruct (reconcile_all_run inv auto_apply (apply_fn_of auto_apply) None (set_world w c)) as
      (sw & c' & Hrun & Hc' & Hs & Hcount & Hin).
    { by apply tidy_set_world. }
    { intros. by eapply clean_apply. }
    assert (m c = (Ret sw, c')) as Hm.
    { unfold m. rewrite run_bind. unfold outside. rewrite Hinv. exact Hrun. }
    exists c'. split; [done|]. split; [done|]. exists sw.
    split; [|split; [done|intros i; rewrite Hin; naive_solver]].
    rewrite with_connection_clean; [done|]. unfold clean. by rewrite Hm.
  - exists (set_world w c). assert (m c = (Exc e, set_world w c)) as Hm.
    { unfold m. rewrite run_bind. unfold outside. by rewrite Hinv. }
    pose proof (tidy_set_world w c Hc). split; [done|]. split; [simpl; reflexivity|].
    rewrite with_connection_clean; [done|]. unfold clean. rewrite Hm. split; [done|simpl; reflexivity].
Qed.

Lemma clean_with {A} (m : M A) (c : C) : clean m c → clean (with_lab_connection m) c.
Proof. intros Hm. unfold clean. by rewrite with_connection_clean. Qed.

Lemma clean_run_pending lab_id (c : C) : tidy c → clean (run_pending_fixes lab_id) c.
Proof.
  intros Hc. apply clean_with, clean_bind; [by apply clean_lab_or_404|]. intros l c' _ Hc' _.
  by apply clean_execute_pending.
Qed.

Lemma clean_run_fix lab_id fix_id (c : C) : tidy c → clean (run_fix lab_id fix_id) c.
Proof.
  intros Hc. apply clean_with, clean_bind; [by apply clean_lab_or_404|]. intros l c1 _ H1 _.
  apply clean_bind.
  - unfold _get_fix_for_lab_or_404, get_fix_action. apply clean_bind; [by apply clean_query|].
    intros [f|] c2 _ H2 _; [|by apply clean_raise]. case_decide; [by apply clean_ret|by apply clean_raise].
  - intros f c2 _ H2 _. by apply clean_execute.
Qed.

(** ** The service *)

(** Before the first request. *)
Definition service_start (w : W) : C := LabConn no_labs no_labs false 0 0 0 w.

(** One request, or a change of Proxmox that is not the service's. *)
Inductive lab_request : C → C → Prop :=
| req_create raw body c : validate_body raw = Some body → lab_request c (post_lab body c).2
| req_reconcile lab_id c : lab_request c (reconcile_lab lab_id c).2
| req_sweep auto_apply c : lab_request c (reconcile_sweep auto_apply c).2
| req_run_pending lab_id c : lab_request c (run_pending_fixes lab_id c).2
| req_run_fix lab_id fix_id c : lab_request c (run_fix lab_id fix_id c).2
| req_read {A} (f : lab_tables → A) c : lab_request c (with_lab_connection (query f) c).2
| req_proxmox w c : lab_request c (set_world w c).

(** The states of the service. *)
Definition served (c : C) : Prop := ∃ w, rtc lab_request (service_start w) c.

Lemma validate_body_cidr raw body : validate_body raw = Some body →
  valid_cidr (PyStr.strip (lb_network_cidr body)).
Proof.
  unfold validate_body. destruct (ip_network (PyStr.strip (lb_network_cidr raw))) as [n|e] eqn:E; [|done].
  destruct (_ && _)%bool; [|done]. intros [= <-]. simpl. rewrite PyStr.strip_idem. by exists n.
Qed.

Lemma start_tidy w : tidy (service_start w).
Proof.
  split; [split; [done|..]|apply no_labs_wf|done].
  - intros k Hk. unfold used in Hk. simpl in Hk. rewrite !lookup_empty in Hk.
    destruct_or!; by destruct Hk.
  - intros i [e Hi]. simpl in Hi. by rewrite lookup_empty in Hi.
Qed.

Lemma request_tidy (c c' : C) : lab_request c c' → tidy c → tidy c'.
Proof.
  intros Hr Hc. destruct Hr as [raw body c Hb|lab_id c|auto_apply c|lab_id c|lab_id fix_id c|A f c|w c].
  - pose proof (post_lab_run body c Hc (validate_body_cidr _ _ Hb)) as Hp.
    destruct (post_lab body c) as [o c']. apply Hp.
  - pose proof (reconcile_lab_run lab_id c Hc) as Hp. destruct (labs (seen c) !! lab_id).
    + destruct Hp as (c' & Hc' & _ & Hp). destruct (inventory (world c)) as [[inv|e] w].
      * destruct Hp as (_ & res & -> & _). done.
      * by destruct Hp as (_ & ->).
    + by rewrite Hp.
  - destruct (reconcile_sweep_run auto_apply c Hc) as (c' & Hc' & _ & Hp).
    destruct (inventory (world c)) as [[inv|e] w].
    + by destruct Hp as (sw & -> & _).
    + rewrite Hp. by apply tidy_set_world.
  - by apply clean_run_pending.
  - by apply clean_run_fix.
  - by apply clean_with, clean_query.
  - by apply tidy_set_world.
Qed.

Lemma served_tidy (c : C) : served c → tidy c.
Proof.
  intros [w Hr]. pose proof (start_tidy w) as Hs. induction Hr as [|c1 c2 c3 H12 _ IH]; [done|].
  by apply IH, (request_tidy c1).
Qed.
End service.
