(* ===== verification/LabConverge.v ===== *)
(** * Managed labs: a plan that is carried out is the last one

    Under a Proxmox that lists what it has created, a lab's zone, virtual network and subnet
    are created in an order in which each finds what it depends on, and the next plan finds
    the lab ready. *)

From stdpp Require Import base gmap list strings pretty sorting.
From Stdlib Require Import ZArith Lia Ascii.
From S2P Require Import Prelude Json Text IpNetwork ProxmoxSdn LabData LabStore LabRecords LabNetwork LabReconciler LabLogic LabModel LabInvariant LabOps LabPlan LabSweep LabExecute LabCreate LabService.

#[local] Open Scope Z_scope.

(** ** The objects of a lab in Proxmox *)

Inductive sdn_object : Type := TheZone | TheVnet | TheSubnet.

#[export] Instance sdn_object_eq_dec : EqDecision sdn_object.
Proof. solve_decision. Defined.

Definition parent (o : sdn_object) : option sdn_object :=
  match o with TheZone => None | TheVnet => Some TheZone | TheSubnet => Some TheVnet end.

Definition lab_subnet (l : lab) : string := PyStr.or_else (lab_sdn_subnet l) (lab_network_cidr l).

Definition object_action (o : sdn_object) : string :=
  match o with TheZone => "create_sdn_zone" | TheVnet => "create_sdn_vnet" | TheSubnet => "create_sdn_subnet" end.

Definition object_priority (o : sdn_object) : Z :=
  match o with TheZone => 10 | TheVnet => 20 | TheSubnet => 30 end.

Definition object_request (l : lab) (o : sdn_object) : json :=
  match o with
  | TheZone => texts [("zone", lab_sdn_zone l); ("type", "simple")]
  | TheVnet => texts [("vnet", lab_sdn_vnet l); ("zone", lab_sdn_zone l); ("alias", lab_name l)]
  | TheSubnet => JObj [("vnet", JStr (lab_sdn_vnet l)); ("subnet", JStr (lab_subnet l));
                       ("gateway", JStr (lab_gateway_ip l)); ("snat", JBool true)]
  end.

(** The object is in the inventory, by any of the names the program looks at. *)
Definition there (l : lab) (o : sdn_object) (inv : json) : Prop :=
  target_present (object_action o) (object_request l o) inv = true.

#[export] Instance there_dec l o inv : Decision (there l o inv).
Proof. unfold there. apply _. Defined.

(** A row of the inventory carries the object's name. *)
Definition lists (l : lab) (o : sdn_object) (inv : json) : Prop :=
  match o with
  | TheZone => ∃ row, row ∈ rows_of "zones" inv ∧ jget "zone" row = JStr (lab_sdn_zone l)
  | TheVnet => ∃ row, row ∈ rows_of "vnets" inv ∧ jget "vnet" row = JStr (lab_sdn_vnet l)
  | TheSubnet => ∃ row, row ∈ subnet_rows (lab_sdn_vnet l) inv ∧ jget "subnet" row = JStr (lab_subnet l)
  end.

Definition missing_list (l : lab) (inv : json) : list sdn_object :=
  filter (λ o, ¬ there l o inv) [TheZone; TheVnet; TheSubnet].

Definition apply_request : json := JObj [("allow_pending", JBool true)].

(** ** Names *)

Lemma text_field_of key s o : assoc key o = Some (JStr s) → PyStr.strip s = s → text_field key (JObj o) = s.
Proof.
  intros Ho Hs. unfold text_field. cbn [jget]. rewrite Ho. unfold jor. cbn [default id truthy].
  destruct s; [done|exact Hs].
Qed.

Record named_objects (l : lab) : Prop := {
  no_zone : PyStr.strip (lab_sdn_zone l) = lab_sdn_zone l;
  no_zone_named : lab_sdn_zone l ≠ EmptyString;
  no_vnet : PyStr.strip (lab_sdn_vnet l) = lab_sdn_vnet l;
  no_vnet_named : lab_sdn_vnet l ≠ EmptyString;
  no_subnet : PyStr.strip (lab_subnet l) = lab_subnet l;
  no_subnet_named : lab_subnet l ≠ EmptyString
}.

Lemma ok_objects l : lab_ok l → named_objects l.
Proof.
  intros [? ? ? ? Hs Hc [n Hn] _]. split; try done; unfold lab_subnet, PyStr.or_else.
  - by destruct (lab_sdn_subnet l).
  - destruct (lab_sdn_subnet l); [|done]. intros He. rewrite He in Hn. vm_compute in Hn. discriminate Hn.
Qed.

Section names.
Context (l : lab) (Hl : named_objects l).

Lemma object_fields o :
  match o with
  | TheZone => text_field "zone" (object_request l o) = lab_sdn_zone l
  | TheVnet => text_field "vnet" (object_request l o) = lab_sdn_vnet l
  | TheSubnet => text_field "vnet" (object_request l o) = lab_sdn_vnet l ∧
                 text_field "subnet" (object_request l o) = lab_subnet l
  end.
Proof.
  destruct o; [..|split]; apply text_field_of; (reflexivity || apply Hl).
Qed.

Lemma there_ids o inv :
  there l o inv ↔
  match o with
  | TheZone => in_ids (lab_sdn_zone l) (rows_of "zones" inv) ["zone"]
  | TheVnet => in_ids (lab_sdn_vnet l) (rows_of "vnets" inv) ["vnet"]
  | TheSubnet => _subnet_exists inv (lab_sdn_vnet l) (lab_subnet l)
  end = true.
Proof.
  unfold there, target_present. pose proof (object_fields o) as Hf.
  destruct o; cbn [object_action object_request] in *.
  - rewrite decide_True by done. rewrite Hf. unfold nonempty. rewrite bool_decide_true; [done|apply Hl].
  - rewrite decide_False, decide_True by done. rewrite Hf. unfold nonempty.
    rewrite bool_decide_true; [done|apply Hl].
  - destruct Hf as [Hv Hs]. rewrite decide_False, decide_False, decide_True by done.
    rewrite Hv, Hs. unfold nonempty. rewrite !bool_decide_true; [done|apply Hl..].
Qed.

(** What the plan finds missing. *)
Lemma lab_missing_list inv :
  (λ w, (w_action_type w, w_priority w, w_request w)) <$> lab_missing l inv =
  (λ o, (object_action o, object_priority o, object_request l o)) <$> missing_list l inv.
Proof.
  unfold lab_missing, missing_objects, missing_list.
  change (PyStr.or_else (lab_sdn_subnet l) (lab_network_cidr l)) with (lab_subnet l).
  pose proof (there_ids TheZone inv) as Hz. pose proof (there_ids TheVnet inv) as Hv.
  pose proof (there_ids TheSubnet inv) as Hs. cbv beta iota in Hz, Hv, Hs.
  assert (∀ (o : sdn_object) (b : bool) os w, (there l o inv ↔ b = true) →
    (w_action_type w, w_priority w, w_request w) = (object_action o, object_priority o, object_request l o) →
    ∀ ws, (λ w, (w_action_type w, w_priority w, w_request w)) <$> ws =
      (λ o, (object_action o, object_priority o, object_request l o)) <$> filter (λ o, ¬ there l o inv) os →
    (λ w, (w_action_type w, w_priority w, w_request w)) <$> ((if b then [] else [w]) ++ ws) =
    (λ o, (object_action o, object_priority o, object_request l o)) <$> filter (λ o, ¬ there l o inv) (o :: os))
    as Hstep.
  { intros o b os w Hb Hw ws IH. destruct b.
    - rewrite filter_cons_False; [exact IH|]. intros Hn. by apply Hn, Hb.
    - rewrite filter_cons_True by (by rewrite Hb). cbn [app fmap list_fmap]. by rewrite Hw, IH. }
  apply Hstep; [exact Hz|done|]. apply Hstep; [exact Hv|done|].
  rewrite <- (app_nil_r (if _subnet_exists _ _ _ then _ else _)). by apply Hstep; [exact Hs|..].
Qed.

(** A row that is listed is recognised. *)
Lemma in_row_ids s keys rows row key :
  row ∈ rows → key ∈ keys → jget key row = JStr s → PyStr.strip s = s → s ≠ EmptyString →
  in_ids s rows keys = true.
Proof.
  intros Hrow Hkey Hget Hs Hne. apply bool_decide_eq_true. unfold _ids. apply list_elem_of_bind.
  exists row. split; [|done]. unfold row_ids. apply list_elem_of_omap. exists key. split; [by right|].
  rewrite Hget. cbv beta iota zeta. change (py_str (JStr s)) with s. rewrite Hs. by rewrite decide_False.
Qed.

Lemma lists_there o inv : lists l o inv → there l o inv.
Proof.
  intros Ho. apply there_ids. destruct o; destruct Ho as (row & Hrow & Hget).
  - eapply in_row_ids; [done|by left|done|apply Hl..].
  - eapply in_row_ids; [done|by left|done|apply Hl..].
  - eapply in_row_ids; [done|by left|done|apply Hl..].
Qed.

(** ** What is created is seen *)

Lemma next_row_truthy (P : json → bool) rows row :
  row ∈ rows → P row = true → (∀ r, P r = true → truthy r = true) → truthy (next_row P rows) = true.
Proof.
  intros Hin HP Ht. unfold next_row.
  assert (row ∈ filter (λ r, P r = true) rows) as Hf by (by apply list_elem_of_filter).
  destruct (filter _ rows) as [|r rest] eqn:E; [by apply not_elem_of_nil in Hf|]. simpl. apply Ht.
  assert (r ∈ filter (λ r, P r = true) rows) as [? _]%list_elem_of_filter by (rewrite E; by left). done.
Qed.

Lemma empty_row_name key row : truthy row = false → row_name key row = EmptyString.
Proof.
  unfold row_name. destruct row as [| | | | |o]; try done. cbn [truthy]. intros Ho%bool_decide_eq_false.
  apply dec_stable in Ho. by subst.
Qed.

Lemma row_name_get key s row : jget key row = JStr s → PyStr.strip s = s → s ≠ EmptyString → row_name key row = s.
Proof.
  intros Hg Hs Hne. unfold row_name. rewrite Hg. unfold jor at 1. cbn [truthy].
  rewrite bool_decide_true by done. exact Hs.
Qed.

Lemma empty_row_ids keys row : truthy row = false → row_ids keys row = [].
Proof.
  unfold row_ids. intros Hr. assert (∀ key, jget key row = JNull) as Hg.
  { intros key. destruct row as [| | | | |o]; try done. cbn [truthy] in Hr. apply bool_decide_eq_false in Hr.
    apply dec_stable in Hr. by subst. }
  generalize ("id" :: keys). intros ks. induction ks as [|k ks IH]; [done|]. simpl. by rewrite Hg.
Qed.

Lemma lists_verified o inv :
  lists l o inv → (_verification_rows (object_action o) (object_request l o) inv).1 = true.
Proof.
  unfold _verification_rows. pose proof (object_fields o) as Hf.
  destruct o; cbn [object_action object_request] in *; intros (row & Hrow & Hget).
  - rewrite decide_True by done. rewrite Hf. cbn [fst seen_row].
    eapply next_row_truthy; [exact Hrow|apply bool_decide_eq_true, row_name_get; [done|apply Hl..]|].
    intros r Hr%bool_decide_eq_true. destruct (truthy r) eqn:E; [done|].
    rewrite empty_row_name in Hr by done. by destruct (no_zone_named l Hl).
  - rewrite decide_False, decide_True by done. rewrite Hf. cbn [fst seen_row].
    eapply next_row_truthy; [exact Hrow|apply bool_decide_eq_true, row_name_get; [done|apply Hl..]|].
    intros r Hr%bool_decide_eq_true. destruct (truthy r) eqn:E; [done|].
    rewrite empty_row_name in Hr by done. by destruct (no_vnet_named l Hl).
  - destruct Hf as [Hv Hs]. rewrite decide_False, decide_False, decide_True by done. rewrite Hv, Hs.
    cbn [fst seen_row]. unfold find_subnet_row. eapply next_row_truthy; [exact Hrow| |].
    + eapply in_row_ids; [by left|by left|exact Hget|apply Hl..].
    + intros r Hr%bool_decide_eq_true. destruct (truthy r) eqn:E; [done|].
      unfold _ids in Hr. simpl in Hr. rewrite empty_row_ids in Hr by done. by apply not_elem_of_nil in Hr.
Qed.
End names.

(** ** A Proxmox that serves a lab *)

Section serving.
Context {W : Type} `{PX : Proxmox W}.

(** The call that creates an object. *)
Definition create_object (l : lab) (o : sdn_object) : eff W json :=
  match o with
  | TheZone => create_zone (object_request l TheZone)
  | TheVnet => create_vnet (object_request l TheVnet)
  | TheSubnet => create_subnet (lab_sdn_vnet l) (subnet_body (object_request l TheSubnet))
  end.

(** Nothing of the lab goes away. *)
Definition keeps (l : lab) (w w' : W) : Prop :=
  ∀ inv inv', inventory w = (Ret inv, w) → inventory w' = (Ret inv', w') →
    ∀ o, there l o inv → there l o inv'.

(** In the states [ok], the inventory can be read and reading changes nothing; an object is
    created when what it lies in is there, and is listed afterwards; the lock can be taken
    and changes applied; nothing of the lab goes away by this. *)
Record serves (l : lab) (ok : W → Prop) : Prop := {
  sv_reads w : ok w → ∃ inv, inventory w = (Ret inv, w);
  sv_creates w inv o : ok w → inventory w = (Ret inv, w) → ¬ there l o inv →
    (∀ p, parent o = Some p → there l p inv) →
    ∃ r w' inv', create_object l o w = (Ret r, w') ∧ ok w' ∧ inventory w' = (Ret inv', w') ∧
      lists l o inv' ∧ keeps l w w';
  sv_lock w : ok w → ∃ lock w', acquire_lock true w = (Ret lock, w') ∧
    _lock_token_from_response lock ≠ EmptyString ∧ ok w' ∧ keeps l w w';
  sv_apply w token : ok w → ∃ r w', apply_sdn token false w = (Ret r, w') ∧ ok w' ∧ keeps l w w';
  sv_release w token : ok w → ∃ r w', release_lock token false w = (Ret r, w') ∧ ok w' ∧ keeps l w w'
}.

Lemma keeps_trans l ok w1 w2 w3 : serves l ok → ok w2 → keeps l w1 w2 → keeps l w2 w3 → keeps l w1 w3.
Proof.
  intros Hs Hok H12 H23 inv1 inv3 Hi1 Hi3 o Ho. destruct (sv_reads _ _ Hs w2 Hok) as [inv2 Hi2].
  exact (H23 inv2 inv3 Hi2 Hi3 o (H12 inv1 inv2 Hi1 Hi2 o Ho)).
Qed.

Lemma object_mutation l o : named_objects l → mutation (object_action o) (object_request l o) = create_object l o.
Proof.
  intros Hl. destruct o; [done|done|]. unfold mutation. cbn [object_action].
  rewrite decide_False, decide_False, decide_True by done.
  destruct (object_fields l Hl TheSubnet) as [-> _]. rewrite decide_False; [done|]. apply (no_vnet_named l Hl).
Qed.

Lemma apply_mutation l ok w :
  serves l ok → ok w → ∃ r w', mutation "apply_sdn" apply_request w = (Ret r, w') ∧ ok w' ∧ keeps l w w'.
Proof.
  intros Hs Hok. change (mutation "apply_sdn" apply_request) with (apply_changes apply_request).
  unfold apply_changes. change (allow_pending apply_request) with true.
  destruct (sv_lock _ _ Hs w Hok) as (lock & w1 & E1 & Ht & Hok1 & Hk1). rewrite run_bind, E1.
  rewrite decide_False by done. unfold holding.
  destruct (sv_apply _ _ Hs w1 (_lock_token_from_response lock) Hok1) as (r & w2 & E2 & Hok2 & Hk2).
  destruct (sv_release _ _ Hs w2 (_lock_token_from_response lock) Hok2) as (r' & w3 & E3 & Hok3 & Hk3).
  exists r, w3. rewrite run_bind, E2, run_bind, E3. split; [done|]. split; [done|].
  eapply keeps_trans; [done|exact Hok1|done|]. eapply keeps_trans; [done|exact Hok2|done|done].
Qed.
End serving.

(** ** Carrying out a plan *)

Section carrying.
Context `{LE : LabEnv} `{!LabEnvLaws LE} {W : Type} `{PX : Proxmox W}.
Context (l : lab) (ok : W → Prop) (Hl : named_objects l) (Hs : serves l ok).

#[local] Notation C := (lab_conn W).
#[local] Notation M := (eff (lab_conn W)).

(** Between two actions: what is still to do is pending, Proxmox is in order and has the
    inventory [inv]. *)
Record carrying (fs : list (string * fix_action)) (inv : json) (c : C) : Prop := {
  ca_tidy : tidy c;
  ca_ok : ok (world c);
  ca_inv : inventory (world c) = (Ret inv, world c);
  ca_nodup : NoDup fs.*1;
  ca_pending i f : (i, f) ∈ fs → fix_actions (seen c) !! i = Some f ∧ fx_status f = "pending"
}.

(** An action was fixed: what was there is there. *)
Record carried (c : C) (inv : json) (row : string * fix_action) (inv' : json) (c' : C) : Prop := {
  cd_fixed : fx_status row.2 = "fixed";
  cd_steady : steady (seen c) (seen c');
  cd_reservations : reservations (seen c') = reservations (seen c);
  cd_there o : there l o inv → there l o inv'
}.

Lemma carry_executed i f fs inv (c : C) w' inv' :
  carrying ((i, f) :: fs) inv c →
  fix_outcome (fx_action_type f) (fix_request f) inv (world c) = ("fixed", w') →
  ok w' → inventory w' = (Ret inv', w') → (∀ o, there l o inv → there l o inv') →
  ∃ row c', execute_fix_action i c = (Ret row, c') ∧ carrying fs inv' c' ∧ carried c inv row inv' c'.
Proof.
  intros [Htd Hok Hinv Hnd Hp] Hout Hok' Hinv' Hkeep. destruct (Hp i f) as [Hi Hst]; [by left|].
  destruct (fo_lab _ _ (lw_fix _ (td_wf _ Htd) i f Hi)) as [l0 Hl0].
  assert (executing i f l0 c) as Hex by (split; try done; apply Htd).
  destruct (execute_run i f l0 inv (world c) c Hex Hst Hinv) as (row & c' & Hrun & [Hr Hsd] & Hed).
  exists row, c'. split; [done|]. destruct Hed as [Hid Hstat Hw Hrows _ Hres Hsy].
  rewrite Hout in Hstat, Hw. simpl in *. apply NoDup_cons in Hnd as [Hni Hnd].
  split; [split|]; try done.
  - split; [done|by apply Hsd, Htd|done].
  - by rewrite Hw.
  - by rewrite Hw.
  - intros j g Hj. rewrite Hrows. destruct (Hp j g) as [Hj' Hg]; [by right|]. split; [|done].
    rewrite lookup_insert_ne; [done|]. intros ->. apply Hni. apply list_elem_of_fmap. by exists (j, g).
Qed.

Lemma carry_object o i f fs inv (c : C) :
  carrying ((i, f) :: fs) inv c → fx_action_type f = object_action o → fx_request f = object_request l o →
  (∀ p, parent o = Some p → there l p inv) →
  ∃ row c' inv', execute_fix_action i c = (Ret row, c') ∧ carrying fs inv' c' ∧ carried c inv row inv' c' ∧
    there l o inv'.
Proof.
  intros Hca Hty Hrq Hpar.
  assert (fix_request f = object_request l o) as Hreq by (unfold fix_request; rewrite Hrq; by destruct o).
  destruct (decide (there l o inv)) as [Ho|Ho].
  - destruct (carry_executed i f fs inv c (world c) inv Hca) as (row & c' & Hrun & Hca' & Hcd); [|apply Hca..|done|].
    + unfold fix_outcome. rewrite Hty, Hreq. unfold there in Ho. by rewrite Ho.
    + by exists row, c', inv.
  - destruct (sv_creates _ _ Hs (world c) inv o (ca_ok _ _ _ Hca) (ca_inv _ _ _ Hca) Ho Hpar)
      as (r & w' & inv' & Hcr & Hok' & Hinv' & Hlist & Hkeep).
    destruct (carry_executed i f fs inv c w' inv' Hca) as (row & c' & Hrun & Hca' & Hcd); try done.
    + unfold fix_outcome. rewrite Hty, Hreq. unfold there in Ho. apply not_true_is_false in Ho. rewrite Ho.
      unfold change_and_look. rewrite run_bind, object_mutation, Hcr by done. rewrite run_bind, Hinv'.
      change (match (if (_verification_rows (object_action o) (object_request l o) inv').1 then "fixed" else "failed", w')
              with x => x end = ("fixed", w')). by rewrite lists_verified.
    + intros o' Ho'. eapply Hkeep; [apply Hca|exact Hinv'|done].
    + exists row, c', inv'. split; [done|]. split; [done|]. split; [done|]. by apply lists_there.
Qed.

Lemma carry_apply i f fs inv (c : C) :
  carrying ((i, f) :: fs) inv c → fx_action_type f = "apply_sdn" → fx_request f = apply_request →
  ∃ row c' inv', execute_fix_action i c = (Ret row, c') ∧ carrying fs inv' c' ∧ carried c inv row inv' c'.
Proof.
  intros Hca Hty Hrq. destruct (apply_mutation l ok (world c) Hs (ca_ok _ _ _ Hca)) as (r & w' & Hm & Hok' & Hk).
  destruct (sv_reads _ _ Hs w' Hok') as [inv' Hinv'].
  destruct (carry_executed i f fs inv c w' inv' Hca) as (row & c' & ? & ? & ?); try done.
  - unfold fix_outcome, fix_request. rewrite Hty, Hrq.
    change (jor apply_request (JObj [])) with apply_request.
    change (target_present "apply_sdn" apply_request inv) with false. cbv beta iota.
    unfold change_and_look. rewrite run_bind, Hm, run_bind, Hinv'. done.
  - intros o Ho. eapply Hk; [apply Hca|done|done].
  - by exists row, c', inv'.
Qed.

(** The objects can be made in this order. *)
Fixpoint feasible (have : sdn_object → Prop) (os : list sdn_object) : Prop :=
  match os with
  | [] => True
  | o :: os => (∀ p, parent o = Some p → have p) ∧ feasible (λ x, x = o ∨ have x) os
  end.

Lemma feasible_mono (P Q : sdn_object → Prop) os : (∀ o, P o → Q o) → feasible P os → feasible Q os.
Proof.
  revert P Q. induction os as [|o os IH]; intros P Q HPQ; simpl; [done|]. intros [Hp Hf].
  split; [naive_solver|]. eapply IH; [|exact Hf]. naive_solver.
Qed.

Lemma missing_feasible inv : feasible (λ o, there l o inv) (missing_list l inv).
Proof.
  unfold missing_list. rewrite !filter_cons, filter_nil.
  repeat case_decide; simpl; split_and?; try done; intros p [= <-];
    repeat match goal with H : ¬ ¬ _ |- _ => apply dec_stable in H end; auto.
Qed.

(** The actions of a plan: one for each of the objects, and the one that applies them. *)
Definition plan_actions (os : list sdn_object) (fs : list (string * fix_action)) : Prop :=
  fix_summary <$> fs =
    ((λ o, (object_action o, object_priority o, object_request l o)) <$> os) ++ [("apply_sdn", 90, apply_request)].

Lemma carry_plan os fs inv (c : C) acc :
  carrying fs inv c → plan_actions os fs → feasible (λ o, there l o inv) os →
  ∃ c' inv' rows, execute_fixes fs acc c = (Ret (Applied (ap_fixed acc ++ rows) (ap_blocked acc) (ap_failed acc)), c') ∧
    length rows = length fs ∧ carrying [] inv' c' ∧
    steady (seen c) (seen c') ∧ reservations (seen c') = reservations (seen c) ∧
    ∀ o, there l o inv ∨ o ∈ os → there l o inv'.
Proof.
  revert fs inv c acc. induction os as [|o os IH]; intros fs inv c acc Hca Hpl Hf.
  - unfold plan_actions in Hpl. destruct fs as [|[i f] [|]]; [done| |done].
    injection Hpl as Hty _ Hrq.
    destruct (carry_apply i f [] inv c Hca Hty Hrq) as (row & c' & inv' & Hrun & Hca' & Hcd).
    exists c', inv', [row]. cbn [execute_fixes fst]. rewrite run_bind, Hrun.
    split; [unfold sort_result; by rewrite decide_True by apply Hcd|]. split; [done|]. split; [done|].
    split; [apply Hcd|]. split; [apply Hcd|]. intros o [Ho|Ho]; [by apply Hcd|by apply not_elem_of_nil in Ho].
  - unfold plan_actions in Hpl. destruct fs as [|[i f] fs]; [done|]. injection Hpl as Hty _ Hrq Hpl.
    destruct Hf as [Hpar Hf].
    destruct (carry_object o i f fs inv c Hca Hty Hrq Hpar) as (row & c1 & inv1 & Hrun & Hca1 & Hcd & Ho).
    destruct (IH fs inv1 c1 (Applied (ap_fixed acc ++ [row]) (ap_blocked acc) (ap_failed acc)) Hca1 Hpl)
      as (c2 & inv2 & rows & Hrun2 & Hlen & Hca2 & Hst2 & Hrs2 & Hth).
    { eapply feasible_mono; [|exact Hf]. intros o' [->|Ho']; [done|by apply Hcd]. }
    exists c2, inv2, (row :: rows). cbn [execute_fixes fst]. rewrite run_bind, Hrun.
    unfold sort_result at 1. rewrite decide_True by apply Hcd. rewrite Hrun2. cbn [ap_fixed ap_blocked ap_failed].
    split; [by rewrite <- app_assoc|]. split; [simpl; by rewrite Hlen|]. split; [done|].
    split; [etrans; [apply Hcd|done]|]. split; [rewrite Hrs2; apply Hcd|].
    intros o' [Ho'|[->|Ho']%elem_of_cons]; apply Hth; [left; by apply Hcd|by left|by right].
Qed.
End carrying.

(** ** The order of the pending actions *)

#[local] Instance fix_order_total : OrdCmp fix_order.
Proof. unfold fix_order. apply _. Qed.

Definition priorities (fs : list (string * fix_action)) : list Z := (λ kr, fx_priority kr.2) <$> fs.

Lemma priorities_inv x fs : StronglySorted Z.lt (priorities (x :: fs)) →
  StronglySorted Z.lt (priorities fs) ∧ ∀ y, y ∈ fs → fx_priority x.2 < fx_priority y.2.
Proof.
  intros [H1 H2]%StronglySorted_inv. split; [exact H1|]. intros y Hy. rewrite Forall_forall in H2.
  apply H2, list_elem_of_fmap. by exists y.
Qed.

Lemma fix_order_lt a b : fx_priority a.2 < fx_priority b.2 → fix_order a b = Lt.
Proof.
  intros H. unfold fix_order, cmp_then, cmp_on, cmp_Z. by rewrite (proj2 (Z.compare_lt_iff _ _) H).
Qed.

Lemma priorities_sorted fs : StronglySorted Z.lt (priorities fs) → Sorted (λ x y, fix_order x y ≠ Gt) fs.
Proof.
  intros H. apply StronglySorted_Sorted. induction fs as [|x fs IH]; [constructor|].
  apply priorities_inv in H as [H1 H2]. constructor; [by apply IH|].
  apply Forall_forall. intros y Hy. by rewrite fix_order_lt by (by apply H2).
Qed.

Lemma priorities_distinct fs x y :
  StronglySorted Z.lt (priorities fs) → x ∈ fs → y ∈ fs → fx_priority x.2 = fx_priority y.2 → x = y.
Proof.
  induction fs as [|z fs IH]; [by intros _ ?%not_elem_of_nil|].
  intros [H1 H2]%priorities_inv.
  intros [->|Hx]%elem_of_cons [->|Hy]%elem_of_cons He; [done|..].
  - specialize (H2 y Hy). lia.
  - specialize (H2 x Hx). lia.
  - by apply IH.
Qed.

Lemma fix_order_eq x y : fix_order x y = Eq → fx_priority x.2 = fx_priority y.2.
Proof.
  unfold fix_order, cmp_then, cmp_on, cmp_Z. destruct (_ ?= _) eqn:E; [|done..]. intros _.
  by apply Z.compare_eq in E.
Qed.

Lemma pending_in_order lab_id t fs :
  pends lab_id t fs → StronglySorted Z.lt (priorities fs) →
  isort fix_order (select_where (λ kr, fx_lab_id kr.2 = lab_id ∧ fx_status kr.2 ∈ ["pending"]) (fix_actions t)) = fs.
Proof.
  intros [Hnd Hp] Hs. rewrite <- (isort_sorted_id fix_order fs) by (by apply priorities_sorted).
  symmetry. apply isort_perm_eq; [apply _|..].
  - apply NoDup_Permutation.
    + by eapply NoDup_fmap_1.
    + apply NoDup_select_where.
    + intros [i f]. rewrite Hp, elem_of_select_where. simpl. rewrite list_elem_of_singleton. naive_solver.
  - intros x y Hx Hy Heq. apply (priorities_distinct fs); [done|done|done|by apply fix_order_eq].
Qed.

Lemma missing_increasing l inv : StronglySorted Z.lt ((object_priority <$> missing_list l inv) ++ [90]).
Proof.
  unfold missing_list. rewrite !filter_cons, filter_nil.
  repeat case_decide; repeat constructor.
Qed.

(** ** Reconciling, carrying out, reconciling *)

Lemma filter_every {A} (P : A → Prop) `{∀ x, Decision (P x)} (xs : list A) : (∀ x, x ∈ xs → P x) → filter P xs = xs.
Proof.
  induction xs as [|x xs IH]; intros H0; [done|].
  rewrite filter_cons_True by (apply H0; by left). f_equal. apply IH. intros y Hy. apply H0. by right.
Qed.

Lemma filter_none {A} (P : A → Prop) `{∀ x, Decision (P x)} (xs : list A) : (∀ x, x ∈ xs → ¬ P x) → filter P xs = [].
Proof.
  intros H0. destruct (filter P xs) as [|x rest] eqn:E; [done|].
  assert (x ∈ filter P xs) as [? Hx]%list_elem_of_filter by (rewrite E; by left). by destruct (H0 x).
Qed.

Lemma accepted_no_overlap t lab_id l :
  accepted t lab_id l → lab_id ≠ EmptyString → overlaps_of (lab_network_cidr l) lab_id t = [].
Proof.
  intros [_ Hd] Hne. destruct (overlaps_of _ _ _) as [|[i r] rest] eqn:E; [done|]. exfalso.
  assert ((i, r) ∈ overlaps_of (lab_network_cidr l) lab_id t) as Hin by (rewrite E; by left).
  unfold overlaps_of in Hin. rewrite !list_elem_of_filter, elem_of_active_cidrs in Hin.
  destruct Hin as (Hm & Hex & Hi & Hty & _). unfold meets in Hm. cbn [snd] in Hm.
  destruct (ip_network (lab_network_cidr l)) as [m|] eqn:Em; [|done].
  destruct (ip_network (rv_value r)) as [n|] eqn:En; [|done].
  unfold excluded in Hex. apply bool_decide_eq_false in Hex. cbn [snd] in Hex.
  rewrite (Hd i r Hi Hty) with (m := m) (n := n) in Hm by (done || naive_solver). done.
Qed.

Lemma expected_ready lab_id l inv t :
  overlaps_of (lab_network_cidr l) lab_id t = [] → lab_network_mode l = "sdn" → lab_missing l inv = [] →
  expected_status lab_id l inv t = "ready".
Proof. intros Ho Hm Hmiss. unfold expected_status. rewrite Ho, Hmiss. by rewrite decide_True. Qed.

Lemma missing_nil l inv : named_objects l → (missing_list l inv = [] ↔ lab_missing l inv = []).
Proof.
  intros Hl. pose proof (lab_missing_list l Hl inv) as H.
  destruct (lab_missing l inv), (missing_list l inv); try done.
Qed.

Section converging.
Context `{LE : LabEnv} `{!LabEnvLaws LE} {W : Type} `{PX : Proxmox W}.

#[local] Notation C := (lab_conn W).
#[local] Notation M := (eff (lab_conn W)).

(** What a plan leaves is executed in its order. *)
Lemma run_pending_is lab_id l inv t res (c : C) :
  run_planned lab_id l inv t res c → StronglySorted Z.lt (priorities (plan_fixes res)) →
  (length (plan_fixes res) ≤ 10)%nat → is_Some (labs (seen c) !! lab_id) →
  run_pending_fixes lab_id c = execute_fixes (plan_fixes res) (Applied [] [] []) c.
Proof.
  intros Hrp Hsort Hlen [l0 Hl0]. pose proof (rp_tidy _ _ _ _ _ _ Hrp) as Hc.
  assert ((_get_lab_or_404 lab_id ;; execute_pending_network_fixes lab_id 10) c =
    execute_fixes (plan_fixes res) (Applied [] [] []) c) as Hrun.
  { rewrite run_bind, lab_or_404, Hl0 by done. unfold execute_pending_network_fixes.
    rewrite run_bind. unfold list_pending_fix_actions, list_fix_actions, query.
    rewrite (rc_spoiled _ (td_ready _ Hc)).
    rewrite (pending_in_order lab_id _ (plan_fixes res) (rp_pending _ _ _ _ _ _ Hrp) Hsort).
    assert (filter (λ kr, supported kr = true) (plan_fixes res) = plan_fixes res) as ->.
    { apply filter_every. intros [i f] Hf. apply bool_decide_eq_true. simpl.
      apply (rp_pending _ _ _ _ _ _ Hrp) in Hf as (Hf & _ & _).
      pose proof (lw_fix _ (td_wf _ Hc) i f Hf) as Hok. rewrite (fo_provider _ _ Hok).
      rewrite (supported_stripped _ (fo_type _ _ Hok)). split; [done|apply Hok]. }
    by rewrite take_ge. }
  unfold run_pending_fixes. rewrite with_connection_clean; [exact Hrun|].
  apply clean_bind; [by apply clean_lab_or_404|]. intros a c' _ Hc' _. by apply clean_execute_pending.
Qed.

Lemma reconcile_carried lab_id l ok inv (c : C) :
  tidy c → labs (seen c) !! lab_id = Some l → serves l ok → ok (world c) →
  inventory (world c) = (Ret inv, world c) → expected_status lab_id l inv (seen c) ≠ "blocked" →
  ∃ res c1 ap c2 res' c3,
    reconcile_lab lab_id c = (Ret res, c1) ∧ run_pending_fixes lab_id c1 = (Ret ap, c2) ∧
    reconcile_lab lab_id c2 = (Ret res', c3) ∧
    length (ap_fixed ap) = length (plan_fixes res) ∧ ap_blocked ap = [] ∧ ap_failed ap = [] ∧
    plan_status res' = "ready" ∧ plan_fixes res' = [] ∧
    ∃ l', labs (seen c3) !! lab_id = Some l' ∧ lab_status l' = "ready".
Proof.
  intros Hc Hlab Hs Hok Hinv Hnb.
  destruct (lw_lab _ (td_wf _ Hc) lab_id l Hlab) as [Hid Hlok]. pose proof (ok_objects l Hlok) as Hl.
  pose proof (reconcile_lab_run lab_id c Hc) as Hr1. rewrite Hlab, Hinv in Hr1.
  destruct Hr1 as (c1 & Hc1 & Hst1 & Hw1 & res & Hrun1 & Hrp).
  pose proof Hrp as [Hstat Hpend Hfix _ Hacc _].
  assert (plan_status res ∈ ["fixing"; "ready"] ∧ lab_network_mode l = "sdn" ∧
    (plan_status res = "fixing" → lab_missing l inv ≠ [])) as (Hstat2 & Hmode & Hmiss).
  { rewrite Hstat in *. unfold expected_status in *. destruct (overlaps_of _ _ _); [|done].
    case_decide; [|done]. destruct (lab_missing l inv); set_solver. }
  assert (lab_missing l inv = [] ∧ plan_fixes res = [] ∨ plan_actions l (missing_list l inv) (plan_fixes res)) as Hplan.
  { case_decide as Hfixing.
    - right. unfold plan_actions. rewrite Hfix. unfold expected_fixes.
      specialize (Hmiss Hfixing). rewrite <- (lab_missing_list l Hl inv). by destruct (lab_missing l inv).
    - left. split; [|by destruct (plan_fixes res)]. rewrite Hstat in Hfixing. unfold expected_status in Hfixing, Hnb.
      destruct (overlaps_of _ _ _); [|done]. rewrite decide_True in Hfixing by done.
      by destruct (lab_missing l inv). }
  assert (carrying ok (plan_fixes res) inv c1) as Hca.
  { split; [done|by rewrite Hw1|by rewrite Hw1|apply Hpend|]. intros i f Hf. by apply Hpend in Hf as (? & _ & ?). }
  assert (StronglySorted Z.lt (priorities (plan_fixes res)) ∧ (length (plan_fixes res) ≤ 10)%nat) as [Hsort Hlen].
  { destruct Hplan as [[_ ->]|Hplan]; [split; [constructor|simpl; lia]|]. split.
    - assert (priorities (plan_fixes res) = (λ x, x.1.2) <$> (fix_summary <$> plan_fixes res)) as ->
        by (unfold priorities; by rewrite <- list_fmap_compose).
      rewrite Hplan, fmap_app, <- list_fmap_compose. apply missing_increasing.
    - rewrite <- (length_fmap fix_summary), Hplan, length_app, length_fmap. unfold missing_list.
      pose proof (length_filter (λ o, ¬ there l o inv) [TheZone; TheVnet; TheSubnet]). simpl in *. lia. }
  assert (∃ c2 inv2 rows,
    execute_fixes (plan_fixes res) (Applied [] [] []) c1 = (Ret (Applied rows [] []), c2) ∧
    length rows = length (plan_fixes res) ∧ carrying ok [] inv2 c2 ∧ steady (seen c1) (seen c2) ∧
    reservations (seen c2) = reservations (seen c1) ∧ lab_missing l inv2 = []) as
    (c2 & inv2 & rows & Hrun2 & Hrows & Hca2 & Hst2 & Hrs2 & Hmiss2).
  { destruct Hplan as [[Hm Hnil]|Hplan].
    - exists c1, inv, []. rewrite Hnil in *. by split_and!.
    - destruct (carry_plan l ok Hl Hs (missing_list l inv) (plan_fixes res) inv c1 (Applied [] [] []) Hca Hplan
        (missing_feasible l inv)) as (c2 & inv2 & rows & ? & ? & ? & ? & ? & Hth).
      exists c2, inv2, rows. split_and!; try done. apply missing_nil; [done|].
      unfold missing_list. apply filter_none. intros o Ho Hno. apply Hno, Hth.
      destruct (decide (there l o inv)); [by left|right]. by apply list_elem_of_filter. }
  destruct (sd_labs _ _ Hst1 lab_id l Hlab) as (l1 & Hl1 & Hsame1).
  destruct (sd_labs _ _ Hst2 lab_id l1 Hl1) as (l2 & Hl2 & Hsame2).
  assert (same_lab l l2) as Hsame by (unfold same_lab in *; congruence).
  pose proof (reconcile_lab_run lab_id c2 (ca_tidy _ _ _ _ Hca2)) as Hr3.
  rewrite Hl2, (ca_inv _ _ _ _ Hca2) in Hr3.
  destruct Hr3 as (c3 & Hc3 & _ & _ & res' & Hrun3 & [Hstat3 _ Hfix3 (l3 & Hl3 & _ & Hls3) _ _]).
  destruct (expected_same lab_id l l2 inv2 (seen c1) (seen c2) Hsame Hrs2) as [He _].
  rewrite He, (expected_ready lab_id l inv2 (seen c1)) in Hstat3; [|by apply accepted_no_overlap; [apply Hacc|]|done|done].
  exists res, c1, (Applied rows [] []), c2, res', c3. split; [done|]. split.
  { rewrite (run_pending_is lab_id l inv (seen c) res c1) by eauto. done. }
  split; [done|]. split; [done|]. split; [done|]. split; [done|]. split; [done|]. split.
  - rewrite Hstat3, decide_False in Hfix3 by done. by destruct (plan_fixes res').
  - exists l3. split; [done|]. congruence.
Qed.
End converging.
