(* ===== verification/LabExamples.v ===== *)
(** * Managed labs: a concrete service

    A clock, identifiers, and a small Proxmox that keeps zones, virtual networks and
    subnets.  They show that what the theorems assume can be had. *)

From stdpp Require Import base gmap list strings pretty sorting.
From Stdlib Require Import ZArith Lia Ascii.
From S2P Require Import Prelude Json Text IpNetwork ProxmoxSdn LabData LabStore LabRecords LabNetwork LabReconciler LabLogic LabModel LabInvariant LabOps LabPlan LabSweep LabExecute LabCreate LabService LabConverge.

#[local] Open Scope Z_scope.

(** ** Time and identifiers *)

Fixpoint unary (n : nat) : string :=
  match n with
  | O => "u"
  | S n => String "a" (unary n)
  end.

#[export] Instance ticking : LabEnv := {
  lab_clock n := Z.of_nat n;
  lab_uuid4 := unary;
  isoformat n := pretty n
}.

#[export] Instance ticking_laws : LabEnvLaws ticking.
Proof.
  split; simpl.
  - intros n. induction n as [|n IH]; intros [|m] H; try done.
    injection H as H. f_equal. by apply IH.
  - by intros [].
  - induction n as [|n IH]; [done|exact IH].
Qed.

(** ** A small Proxmox *)

Record cluster : Type := Cluster {
  cl_zones : list (list (string * json));
  cl_vnets : list (list (string * json));
  cl_subnets : list (string * list (string * json));
  cl_sent : list (string * string * json)
}.

Definition rows_json (rows : list (list (string * json))) : json := JArr (JObj <$> rows).

Definition body_of (data : json) : list (string * json) := match data with JObj o => o | _ => [] end.

Definition cluster_get (path : string) (w : cluster) : json :=
  if decide (path = "/cluster/sdn/zones") then rows_json (cl_zones w)
  else if decide (path = "/cluster/sdn/vnets") then rows_json (cl_vnets w)
  else rows_json ((filter (λ x, x.1 = path) (cl_subnets w)).*2).

Definition cluster_post (path : string) (data : json) (w : cluster) : json * cluster :=
  let sent := cl_sent w ++ [(path, "POST", data)] in
  if decide (path = "/cluster/sdn/zones") then
    (JNull, Cluster (cl_zones w ++ [body_of data]) (cl_vnets w) (cl_subnets w) sent)
  else if decide (path = "/cluster/sdn/vnets") then
    (JNull, Cluster (cl_zones w) (cl_vnets w ++ [body_of data]) (cl_subnets w) sent)
  else if decide (path = "/cluster/sdn/lock") then
    (JObj [("lock-token", JStr "t1")], Cluster (cl_zones w) (cl_vnets w) (cl_subnets w) sent)
  else (JNull, Cluster (cl_zones w) (cl_vnets w) (cl_subnets w ++ [(path, body_of data)]) sent).

#[export] Instance small_proxmox : Proxmox cluster := {
  pve_api path method data w :=
    if decide (method = "GET") then (inl (cluster_get path w), w)
    else let '(v, w') := cluster_post path data w in (inl v, w');
  pve_put path data w :=
    (inl JNull, Cluster (cl_zones w) (cl_vnets w) (cl_subnets w) (cl_sent w ++ [(path, "PUT", data)]));
  pve_delete path w :=
    (inl JNull, Cluster (cl_zones w) (cl_vnets w) (cl_subnets w) (cl_sent w ++ [(path, "DELETE", JNull)]))
}.

Definition empty_cluster : cluster := Cluster [] [] [] [].

(** ** A lab *)

Definition id01 : string := unary 0.
Definition id02 : string := unary 29.
Definition id03 : string := unary 55.

Definition lab01 : lab_body :=
  LabBody "Lab One" "LAB01" "LAB01-Managed" "10.50.20.7/24" "10.50.20.1" EmptyString EmptyString EmptyString EmptyString "standard-hybrid-lab"
    (Some 2) (Some 1).

(** One beside it, and one in its range. *)
Definition lab02 : lab_body :=
  LabBody "Lab Two" "lab02" "LAB02" "10.50.21.0/24" EmptyString "sdn" "z2" "v2" EmptyString EmptyString (Some 0) (Some 0).
Definition lab03 : lab_body :=
  LabBody "Lab Three" "lab03" "LAB03" "10.50.20.128/25" EmptyString "sdn" "z3" "v3" EmptyString EmptyString (Some 0) (Some 0).

Definition started : lab_conn cluster := service_start empty_cluster.
Definition created01 : lab_conn cluster := (post_lab lab01 started).2.
Definition planned01 : lab_conn cluster := (reconcile_lab id01 created01).2.
Definition created02 : lab_conn cluster := (post_lab lab02 planned01).2.
Definition planned02 : lab_conn cluster := (reconcile_lab id02 created02).2.
Definition created03 : lab_conn cluster := (post_lab lab03 planned02).2.

(** The row of a lab, of an action, and of a range that is known to be there. *)
Definition no_lab : lab := Lab EmptyString EmptyString EmptyString EmptyString EmptyString EmptyString EmptyString EmptyString EmptyString EmptyString EmptyString 0 None JNull 0 0.
Definition lab_at (i : string) (c : lab_conn cluster) : lab := default no_lab (labs (seen c) !! i).
Definition range_of (s : string) : network :=
  match ip_network s with Ret n => n | Exc _ => Network IPv4 0 0 end.

Lemma served_next (c c' : lab_conn cluster) : served c → lab_request c c' → served c'.
Proof. intros [w Hr] Hn. exists w. by eapply rtc_r. Qed.

Lemma served_started : served started.
Proof. exists empty_cluster. apply rtc_refl. Qed.


Lemma served_created01 : served created01.
Proof. apply (served_next started); [exact served_started|]. by apply (req_create lab01). Qed.
Lemma served_planned01 : served planned01.
Proof. apply (served_next created01); [exact served_created01|]. apply req_reconcile. Qed.
Lemma served_created02 : served created02.
Proof. apply (served_next planned01); [exact served_planned01|]. by apply (req_create lab02). Qed.
Lemma served_planned02 : served planned02.
Proof. apply (served_next created02); [exact served_created02|]. apply req_reconcile. Qed.

(** ** The small Proxmox serves the first lab *)

Definition lab_one : lab := lab_at id01 created01.

Definition zone_row : list (string * json) := body_of (object_request lab_one TheZone).
Definition vnet_row : list (string * json) := body_of (object_request lab_one TheVnet).
Definition subnet_row : string * list (string * json) :=
  (subnets_path (lab_sdn_vnet lab_one), body_of (_clean (subnet_body (object_request lab_one TheSubnet)))).

(** Which of the lab's objects the cluster has. *)
Definition cluster_of (z v s : bool) (sent : list (string * string * json)) : cluster :=
  Cluster (if z then [zone_row] else []) (if v then [vnet_row] else []) (if s then [subnet_row] else []) sent.

Definition serving_one (w : cluster) : Prop := ∃ z v s sent, w = cluster_of z v s sent.

Definition inventory_of (z v s : bool) : json :=
  match (inventory (cluster_of z v s [])).1 with Ret inv => inv | Exc _ => JNull end.

Lemma inventory_cluster z v s sent :
  inventory (cluster_of z v s sent) = (Ret (inventory_of z v s), cluster_of z v s sent).
Proof. destruct z, v, s; vm_compute; reflexivity. Qed.

Definition has_object (o : sdn_object) (z v s : bool) : bool :=
  match o with TheZone => z | TheVnet => v | TheSubnet => v && s end.

Lemma there_cluster o z v s : there lab_one o (inventory_of z v s) ↔ has_object o z v s = true.
Proof. unfold there. destruct o, z, v, s; vm_compute; tauto. Qed.

Lemma keeps_cluster z v s sent z' v' s' sent' :
  (∀ o, has_object o z v s = true → has_object o z' v' s' = true) →
  keeps lab_one (cluster_of z v s sent) (cluster_of z' v' s' sent').
Proof.
  intros Hk inv inv'. rewrite !inventory_cluster. intros [= <-] [= <-] o Ho%there_cluster.
  apply there_cluster. by apply Hk.
Qed.

Lemma cluster_serves : serves lab_one serving_one.
Proof.
  split.
  - intros w (z & v & s & sent & ->). rewrite inventory_cluster. eauto.
  - intros w inv o (z & v & s & sent & ->). rewrite inventory_cluster. intros [= <-] Hno Hpar.
    rewrite there_cluster in Hno.
    assert (∀ p, parent o = Some p → has_object p z v s = true) as Hpar'
      by (intros p Hp; apply there_cluster; by apply Hpar).
    clear Hpar.
    assert (∃ r z' v' s' sent', create_object lab_one o (cluster_of z v s sent) = (Ret r, cluster_of z' v' s' sent') ∧
      lists lab_one o (inventory_of z' v' s') ∧
      (∀ o, has_object o z v s = true → has_object o z' v' s' = true)) as (r & z' & v' & s' & sent' & H1 & H2 & H3).
    { destruct o.
      - exists (JObj []), true, v, s. eexists. split; [|split; [|by intros []; destruct z]].
        + destruct z; [done|]. vm_compute. reflexivity.
        + destruct v, s; eexists; (split; [by left|vm_compute; reflexivity]).
      - exists (JObj []), z, true, s. eexists. split; [|split; [|by intros []; destruct v, s]].
        + destruct v; [done|]. vm_compute. reflexivity.
        + destruct z, s; eexists; (split; [by left|vm_compute; reflexivity]).
      - specialize (Hpar' TheVnet eq_refl). simpl in Hpar'. subst v.
        exists (JObj []), z, true, true. eexists. split; [|split; [|by intros []; destruct s]].
        + destruct s; [done|]. vm_compute. reflexivity.
        + destruct z; eexists; (split; [by left|vm_compute; reflexivity]). }
    exists r, (cluster_of z' v' s' sent'), (inventory_of z' v' s'). split; [done|].
    split; [by repeat eexists|]. split; [apply inventory_cluster|]. split; [done|]. by apply keeps_cluster.
  - intros w (z & v & s & sent & ->). eexists _, (cluster_of z v s _). split; [reflexivity|].
    split; [done|]. split; [by repeat eexists|]. by apply keeps_cluster.
  - intros w token (z & v & s & sent & ->). eexists _, (cluster_of z v s _). split; [reflexivity|].
    split; [by repeat eexists|]. by apply keeps_cluster.
  - intros w token (z & v & s & sent & ->). eexists _, (cluster_of z v s _). split; [reflexivity|].
    split; [by repeat eexists|]. by apply keeps_cluster.
Qed.

(** ** What the service lets happen *)

Definition plan_of (r : outcome plan_result * lab_conn cluster) : option string :=
  match r.1 with Ret res => Some (plan_status res) | Exc _ => None end.

(** A lab whose range lies in the range of another is created all the same; from then on
    neither can be planned, not even the one that was there first. *)
Example overlapping_labs_block_each_other :
  plan_of (reconcile_lab id01 planned02) = Some "fixing" ∧
  plan_of (reconcile_lab id01 created03) = Some "blocked" ∧
  plan_of (reconcile_lab id03 created03) = Some "blocked".
Proof. vm_compute. auto. Qed.

(** A second lab with the same name is refused by a constraint of the schema, before the
    reservation that would answer 409. *)
Example duplicate_lab_is_a_server_error :
  (post_lab lab01 created01).1 = Exc (lab_http 500 "managed lab create failed").
Proof. vm_compute. reflexivity. Qed.
