(* ===== verification/LabTheorems.v ===== *)
(** * Managed labs: what holds of the service

    The properties of the labs, over the states the service can be in, each with a concrete
    case. *)

From stdpp Require Import base gmap list strings pretty sorting.
From Stdlib Require Import ZArith Lia Ascii.
From S2P Require Import Prelude Json Text IpNetwork ProxmoxSdn LabData LabStore LabRecords LabNetwork LabReconciler LabLogic LabModel LabInvariant LabOps LabPlan LabSweep LabExecute LabCreate LabService LabConverge LabExamples.

#[local] Open Scope Z_scope.

(** C23. Whatever requests were made and whatever Proxmox did in between, two labs in good
    standing (their networks are being built or ready) have no address in common. *)
Theorem labs_in_standing_disjoint `{LE : LabEnv} `{!LabEnvLaws LE} {W} `{PX : Proxmox W}
    (c : lab_conn W) i j a b m n x :
  served c → labs (seen c) !! i = Some a → labs (seen c) !! j = Some b → i ≠ j →
  lab_status a ∈ ["fixing"; "ready"] → lab_status b ∈ ["fixing"; "ready"] →
  ip_network (lab_network_cidr a) = Ret m → ip_network (lab_network_cidr b) = Ret n →
  net_version m = net_version n → ¬ (in_range m x ∧ in_range n x).
Proof.
  intros Hc Ha Hb Hij Hsa Hsb Hm Hn Hv [Hxm Hxn].
  pose proof (lw_disjoint _ (td_wf _ (served_tidy c Hc)) i j a b Ha Hb Hij Hsa Hsb m n Hm Hn) as Hd.
  apply not_true_iff_false in Hd. apply Hd, overlaps_iff; [by eapply ip_network_wf..|]. by split; [|exists x].
Qed.

Lemma labs_in_standing_disjoint_witness :
  ¬ (in_range (range_of "10.50.20.7/24") 171054596 ∧ in_range (range_of "10.50.21.0/24") 171054596).
Proof.
  apply (labs_in_standing_disjoint planned02 id01 id02 (lab_at id01 planned02) (lab_at id02 planned02)).
  - exact served_planned02.
  - vm_compute. reflexivity.
  - vm_compute. reflexivity.
  - done.
  - eapply bool_decide_unpack. vm_compute. exact I.
  - eapply bool_decide_unpack. vm_compute. exact I.
  - vm_compute. reflexivity.
  - vm_compute. reflexivity.
  - vm_compute. reflexivity.
Defined.

(** C26. Creating a lab is all or nothing: the handler either answers with the lab, which then
    is stored as requested with its boundary model, and holds its group tag, its range and
    one name of at most 15 characters per device, all rows of before being kept; or it
    answers 409 or 500 and the database is as before.  Proxmox is not called. *)
Theorem post_lab_all_or_nothing `{LE : LabEnv} `{!LabEnvLaws LE} {W} `{PX : Proxmox W}
    raw body (c : lab_conn W) :
  validate_body raw = Some body → served c →
  let '(o, c') := post_lab body c in
  world c' = world c ∧
  match o with
  | Ret kr => lab_created body kr (seen c) (seen c') ∧ durable c' = seen c' ∧
      ∀ s, s ∈ object_specs kr.2 → holds_object (seen c') kr.1 s
  | Exc e => (∃ status detail, e = lab_http status detail ∧ status ∈ [409; 500]) ∧
      seen c' = seen c ∧ durable c' = durable c
  end.
Proof.
  intros Hb Hc. pose proof (post_lab_run body c (served_tidy c Hc) (validate_body_cidr _ _ Hb)) as Hp.
  destruct (post_lab body c) as [[kr|e] c']; destruct Hp as (Htd & Hw & Hp); (split; [done|]); [|done].
  split; [done|]. split; [apply Htd|]. intros s Hs. eapply (lw_specs _ (td_wf _ Htd)); [|done].
  rewrite (cr_labs _ _ _ _ (lc_created _ _ _ _ Hp)). apply lookup_insert_eq.
Qed.

Lemma post_lab_all_or_nothing_witness :
  (post_lab lab01 created01).1 = Exc (lab_http 500 "managed lab create failed") ∧
  seen (post_lab lab01 created01).2 = seen created01.
Proof.
  pose proof (post_lab_all_or_nothing lab01 lab01 created01 eq_refl served_created01) as H.
  assert ((post_lab lab01 created01).1 = Exc (lab_http 500 "managed lab create failed")) as E
    by (vm_compute; reflexivity).
  destruct (post_lab lab01 created01) as [o c']. cbn [fst snd] in *. subst o.
  destruct H as (_ & _ & H & _). split; [reflexivity|exact H].
Defined.

(** Reconciling a stored lab, when the inventory of Proxmox can be read, returns the
    plan the inventory calls for: [blocked] when another lab has reserved an address of its
    range or the network is no software-defined one, [ready] when zone, virtual network and
    subnet are there, and otherwise [fixing], with one pending action per missing object in
    the order of their dependencies and one that applies them.  The lab takes the plan's
    status, the pending actions of the lab are the plan's, and Proxmox is only read. *)
Theorem reconcile_lab_plans `{LE : LabEnv} `{!LabEnvLaws LE} {W} `{PX : Proxmox W}
    lab_id l inv w (c : lab_conn W) :
  served c → labs (seen c) !! lab_id = Some l → inventory (world c) = (Ret inv, w) →
  ∃ res c', reconcile_lab lab_id c = (Ret res, c') ∧ world c' = w ∧
    plan_status res = expected_status lab_id l inv (seen c) ∧
    (fix_summary <$> plan_fixes res) =
      (if decide (plan_status res = "fixing")
       then ((λ o, (object_action o, object_priority o, object_request l o)) <$> missing_list l inv) ++
            [("apply_sdn", 90, apply_request)]
       else []) ∧
    (∀ i f, (i, f) ∈ plan_fixes res ↔
       fix_actions (seen c') !! i = Some f ∧ fx_lab_id f = lab_id ∧ fx_status f = "pending") ∧
    ∃ l', labs (seen c') !! lab_id = Some l' ∧ lab_status l' = plan_status res.
Proof.
  intros Hsv Hl Hinv. pose proof (served_tidy c Hsv) as Hc.
  pose proof (reconcile_lab_run lab_id c Hc) as Hr. rewrite Hl, Hinv in Hr.
  destruct Hr as (c' & _ & _ & Hw & res & Hrun & [Hst [_ Hp] Hfix (l' & Hl' & _ & Hls) _ _]).
  exists res, c'. split; [done|]. split; [done|]. split; [done|]. split; [|split; [exact Hp|by exists l']].
  rewrite Hfix. case_decide as Hfixing; [|done]. unfold expected_fixes.
  pose proof (lab_missing_list l (ok_objects l (proj2 (lw_lab _ (td_wf _ Hc) lab_id l Hl))) inv) as Hm.
  rewrite <- Hm. destruct (lab_missing l inv) eqn:E; [|done]. exfalso.
  rewrite Hst in Hfixing. unfold expected_status in Hfixing. rewrite E in Hfixing. by repeat case_match.
Qed.

Lemma reconcile_lab_plans_witness :
  ∃ res c', reconcile_lab id01 created01 = (Ret res, c') ∧ plan_status res = "fixing" ∧
            length (plan_fixes res) = 4%nat.
Proof.
  destruct (reconcile_lab_plans id01 lab_one (inventory_of false false false) empty_cluster created01) as
    (res & c' & Hrun & _ & Hst & Hfix & _).
  - exact served_created01.
  - vm_compute. reflexivity.
  - vm_compute. reflexivity.
  - assert (plan_status res = "fixing") as E by (rewrite Hst; vm_compute; reflexivity).
    exists res, c'. split; [exact Hrun|]. split; [exact E|].
    rewrite <- (length_fmap fix_summary), Hfix, E. vm_compute. reflexivity.
Defined.

(** A pending action is executed once.  When the inventory can be read, executing it
    records the inventory as a snapshot and settles the action: [fixed] when its object is
    there already, and then Proxmox is left alone, or when the object is seen after the
    change; [failed] otherwise.  No other action and no reservation changes, and executing
    it again is refused and changes nothing. *)
Theorem execute_settles_once `{LE : LabEnv} `{!LabEnvLaws LE} {W} `{PX : Proxmox W}
    fid f inv w (c : lab_conn W) :
  served c → fix_actions (seen c) !! fid = Some f → fx_status f = "pending" →
  inventory (world c) = (Ret inv, w) →
  ∃ row c' sid s e, execute_fix_action fid c = (Ret row, c') ∧ row.1 = fid ∧
    (fx_status row.2, world c') = fix_outcome (fx_action_type f) (fix_request f) inv w ∧
    (target_present (fx_action_type f) (fix_request f) inv = true → fx_status row.2 = "fixed" ∧ world c' = w) ∧
    fix_actions (seen c') = <[fid := row.2]> (fix_actions (seen c)) ∧
    reservations (seen c') = reservations (seen c) ∧
    fx_snapshot_id row.2 = Some sid ∧ snapshots (seen c') !! sid = Some s ∧ sn_snapshot s = inv ∧
    durable c' = seen c' ∧ execute_fix_action fid c' = (Exc e, c').
Proof.
  intros Hsv Hf Hst Hinv. pose proof (served_tidy c Hsv) as Hc.
  destruct (fo_lab _ _ (lw_fix _ (td_wf _ Hc) fid f Hf)) as [l Hl].
  assert (executing fid f l c) as Hex by (split; try done; apply Hc).
  destruct (execute_run fid f l inv w c Hex Hst Hinv) as (row & c' & Hrun & [Hr Hs] & Hed).
  destruct Hed as [Hid Hstat Hw Hrows (sid & s & Hsid & Hsn & _ & Hsinv) Hres Hsy].
  assert (tidy c') as Hc' by (split; [done|by apply Hs, Hc|done]).
  destruct (execute_refused fid row.2 c' Hc') as [e He].
  { rewrite Hrows. apply lookup_insert_eq. }
  { rewrite Hstat. pose proof (fix_outcome_status (fx_action_type f) (fix_request f) inv w) as Hin.
    set_unfold in Hin. by destruct Hin as [->|[->|[]]]. }
  exists row, c', sid, s, e. split; [done|]. split; [done|]. split; [by rewrite Hstat, Hw; destruct (fix_outcome _ _ _ _)|].
  split; [|done]. intros Ht. rewrite Hstat, Hw. unfold fix_outcome. by rewrite Ht.
Qed.

(** The first pending action of the first lab. *)
Definition first_fix : string * fix_action :=
  default (EmptyString, FixAction EmptyString None EmptyString EmptyString EmptyString 0 EmptyString JNull JNull None 0 0 None)
    (head (filter (λ kr, fx_action_type kr.2 = "create_sdn_zone") (map_to_list (fix_actions (seen planned01))))).

Lemma execute_settles_once_witness :
  ∃ row c', execute_fix_action first_fix.1 planned01 = (Ret row, c') ∧ fx_status row.2 = "fixed" ∧
    (fst <$> cl_sent (world c')) = [("/cluster/sdn/zones", "POST")].
Proof.
  destruct (execute_settles_once first_fix.1 first_fix.2 (inventory_of false false false) empty_cluster planned01)
    as (row & c' & sid & s & e & Hrun & _ & Hout & _).
  - exact served_planned01.
  - vm_compute. reflexivity.
  - vm_compute. reflexivity.
  - vm_compute. reflexivity.
  - exists row, c'. split; [exact Hrun|].
    assert (fix_outcome (fx_action_type first_fix.2) (fix_request first_fix.2) (inventory_of false false false)
      empty_cluster = ("fixed", Cluster [zone_row] [] [] [("/cluster/sdn/zones", "POST", JObj zone_row)])) as E
      by (vm_compute; reflexivity).
    rewrite E in Hout. injection Hout as -> ->. split; reflexivity.
Defined.

(** C24. Reconciling comes to an end.  Under a Proxmox that lists what it has created (see
    [serves]), a plan that is not blocked is carried out by one run of the pending actions,
    every action being fixed, and the next plan is [ready] and leaves nothing to do. *)
Theorem reconcile_converges `{LE : LabEnv} `{!LabEnvLaws LE} {W} `{PX : Proxmox W}
    lab_id l ok inv (c : lab_conn W) :
  served c → labs (seen c) !! lab_id = Some l → serves l ok → ok (world c) →
  inventory (world c) = (Ret inv, world c) → expected_status lab_id l inv (seen c) ≠ "blocked" →
  ∃ res c1 ap c2 res' c3,
    reconcile_lab lab_id c = (Ret res, c1) ∧ run_pending_fixes lab_id c1 = (Ret ap, c2) ∧
    reconcile_lab lab_id c2 = (Ret res', c3) ∧
    length (ap_fixed ap) = length (plan_fixes res) ∧ ap_blocked ap = [] ∧ ap_failed ap = [] ∧
    plan_status res' = "ready" ∧ plan_fixes res' = [] ∧
    ∃ l', labs (seen c3) !! lab_id = Some l' ∧ lab_status l' = "ready".
Proof.
  intros Hsv Hl Hs Hok Hinv Hnb.
  exact (reconcile_carried lab_id l ok inv c (served_tidy c Hsv) Hl Hs Hok Hinv Hnb).
Qed.

Lemma reconcile_converges_witness :
  ∃ res c1 ap c2 res' c3,
    reconcile_lab id01 created01 = (Ret res, c1) ∧ run_pending_fixes id01 c1 = (Ret ap, c2) ∧
    reconcile_lab id01 c2 = (Ret res', c3) ∧ plan_status res' = "ready".
Proof.
  destruct (reconcile_converges id01 lab_one serving_one (inventory_of false false false) created01) as
    (res & c1 & ap & c2 & res' & c3 & H1 & H2 & H3 & _ & _ & _ & H4 & _).
  - exact served_created01.
  - vm_compute. reflexivity.
  - exact cluster_serves.
  - by exists false, false, false, [].
  - vm_compute. reflexivity.
  - vm_compute. discriminate.
  - exists res, c1, ap, c2, res', c3. split; [exact H1|]. split; [exact H2|]. split; [exact H3|exact H4].
Defined.

(** C38. Looking for overlapping reservations finds exactly the active ranges of other labs
    that have an address in common with the one asked for. *)
Theorem find_overlapping_exact `{LE : LabEnv} `{!LabEnvLaws LE} {W} `{PX : Proxmox W}
    cidr n exclude (c : lab_conn W) :
  served c → ip_network cidr = Ret n →
  ∃ rows, find_overlapping_cidr_reservations cidr exclude c = (Ret rows, c) ∧
    ∀ i r, (i, r) ∈ rows ↔
      reservations (seen c) !! i = Some r ∧ rv_type r = "cidr" ∧
      (exclude = EmptyString ∨ rv_lab_id r ≠ exclude) ∧
      ∃ m, ip_network (rv_value r) = Ret m ∧ net_version m = net_version n ∧
           ∃ x, in_range m x ∧ in_range n x.
Proof.
  intros Hsv Hn. pose proof (served_tidy c Hsv) as Hc.
  exists (overlaps_of cidr exclude (seen c)). split.
  { apply find_overlapping_run; [apply Hc|apply Hc|by exists n]. }
  intros i r. unfold overlaps_of. rewrite !list_elem_of_filter, elem_of_active_cidrs.
  unfold meets, excluded. cbn [snd]. rewrite Hn, bool_decide_eq_false.
  assert (∀ m, ip_network (rv_value r) = Ret m → (overlaps n m = true ↔
    net_version m = net_version n ∧ ∃ x, in_range m x ∧ in_range n x)) as Hov.
  { intros m Hm. rewrite overlaps_iff by (by eapply ip_network_wf). naive_solver. }
  split.
  - intros (Hm & He & Hi & Hty & Hst). split; [done|]. split; [done|]. split.
    { destruct (decide (exclude = EmptyString)); [by left|right; naive_solver]. }
    destruct (ip_network (rv_value r)) as [m|]; [|done]. exists m. split; [done|]. by apply Hov.
  - intros (Hi & Hty & He & m & Hm & Hx). rewrite Hm in *. split; [by apply Hov|].
    split; [naive_solver|]. split; [done|]. split; [done|]. by apply (lw_reservation _ (td_wf _ Hc) i).
Qed.

Lemma find_overlapping_exact_witness :
  ∃ rows, find_overlapping_cidr_reservations "10.50.20.192/26" EmptyString planned02 = (Ret rows, planned02) ∧
    ∀ i r, (i, r) ∈ rows → rv_type r = "cidr".
Proof.
  destruct (find_overlapping_exact "10.50.20.192/26" (range_of "10.50.20.192/26") EmptyString planned02) as (rows & Hrun & Hin).
  - exact served_planned02.
  - vm_compute. reflexivity.
  - exists rows. split; [exact Hrun|]. intros i r Hr. apply Hin in Hr. apply Hr.
Defined.
