(* ===== verification/CloudNames.v ===== *)
(** * Names, configurations and reports of CloudOSD

    The functions of [web/cloudosd_pg.py] that compute on values: names of machines, the
    configuration of a domain join and what a heartbeat says of it, the milestones events
    belong to, what an operator is told of the steps of a deployment, and the settings the
    preinstallation environment is given. *)

From stdpp Require Import base gmap list strings pretty sorting.
From Stdlib Require Import ZArith Lia Ascii.
From S2P Require Import Prelude Json JsonParse Text CloudData TsData Conditions Content OsdeployRoles OsdeployRuns IpNetwork.

(** ** Constants *)

Definition DEFAULT_OS_VERSION : string := "Windows 11 25H2".
Definition DEFAULT_OS_ACTIVATION : string := "Volume".
Definition DEFAULT_OS_EDITION : string := "Enterprise".
Definition DEFAULT_OS_LANGUAGE : string := "en-us".
Definition DEFAULT_ARCHITECTURE : string := "amd64".
Definition DEFAULT_DRIVER_PACK_POLICY : string := "None".

Definition OS_VERSION_CATALOG : list string :=
  [DEFAULT_OS_VERSION; "Windows 11 24H2"; "Windows 11 23H2"; "Windows 11 22H2"; "Windows 11 21H2";
   "Windows 10 22H2"].
Definition OS_ACTIVATION_CATALOG : list string := ["Volume"; "Retail"].
Definition OS_EDITION_CATALOG : list string :=
  ["Home"; "Home N"; "Education"; "Education N"; "Pro"; "Pro N"; DEFAULT_OS_EDITION; "Enterprise N"].
Definition OS_LANGUAGE_CATALOG : list string :=
  ["ar-sa"; "bg-bg"; "cs-cz"; "da-dk"; "de-de"; "el-gr"; "en-gb"; DEFAULT_OS_LANGUAGE; "es-es"; "es-mx";
   "et-ee"; "fi-fi"; "fr-ca"; "fr-fr"; "he-il"; "hr-hr"; "hu-hu"; "it-it"; "ja-jp"; "ko-kr"; "lt-lt";
   "lv-lv"; "nb-no"; "nl-nl"; "pl-pl"; "pt-br"; "pt-pt"; "ro-ro"; "ru-ru"; "sk-sk"; "sl-si"; "sr-latn-rs";
   "sv-se"; "th-th"; "tr-tr"; "uk-ua"; "zh-cn"; "zh-tw"].

Definition MIN_VM_MEMORY_MB : Z := 6144.
Definition RECOMMENDED_VM_MEMORY_MB : Z := 8192.
Definition MIN_VM_DISK_SIZE_GB : Z := 80.

Definition CLOUDOSD_MILESTONE_LABELS : list string :=
  ["controller"; "Proxmox playbook"; "PE bridge"; "Cache"; "OSDCloud"; "Quality updates";
   "offline validation"; "Domain join"; "SetupComplete"; "first boot"; "AutopilotAgent"].

Definition CLOUDOSD_PE_STEP_KINDS : list string :=
  ["cloudosd_preflight"; "cloudosd_deploy_os"; "cloudosd_validate_offline_os";
   "stage_ad_domain_join_unattend"; "stage_osd_client"; "stage_autopilot_agent"].
Definition CLOUDOSD_HEARTBEAT_STEP_KINDS : list string := CLOUDOSD_PE_STEP_KINDS ++ ["wait_agent_heartbeat"].
Definition CLOUDOSD_DOMAIN_VERIFY_STEP_KINDS : list string := ["verify_ad_domain_join"].

(** [str.casefold]: the sharp s folds to two letters.  The micro sign folds to a character
    above 255, which nothing here compares with; it stands for itself. *)
Fixpoint casefold (s : string) : string :=
  match s with
  | EmptyString => EmptyString
  | String c s =>
      if is_char 223 c then String "s" (String "s" (casefold s))
      else String (PyStr.lower_char c) (casefold s)
  end.

(** ** Names of machines *)

(** The name Windows will have. *)
Definition normalize_windows_computer_name (value : option string) : string :=
  let text := PyStr.strip (default EmptyString value) in
  let normalized := String.substring 0 15 (keep_name_chars text) in
  if is_digits normalized then String.substring 0 15 ("PVE-" +:+ normalized) else normalized.

(** [^(?P<base>.+?)-(?P<idx>\d+)$] on a text without spaces at its end.  The index
    follows a dash and reaches to the end, so the dash is the last one; a base has at least
    one character and no line break. *)
Definition index_after_dash (s : string) : option string :=
  match s with
  | String d r => if is_char 45 d && is_digits r then Some r else None
  | EmptyString => None
  end.

Fixpoint indexed_name (s : string) : option (string * string) :=
  match s with
  | EmptyString => None
  | String c s =>
      if is_char 10 c then None
      else match index_after_dash s with
           | Some idx => Some (String c EmptyString, idx)
           | None => (λ bi, (String c bi.1, bi.2)) <$> indexed_name s
           end
  end.

Fixpoint zeros (n : nat) : string := match n with O => EmptyString | S n => String "0" (zeros n) end.

(** [f"{i:0{width}d}"] *)
Definition padded (width : nat) (i : Z) : string :=
  let digits := pretty i in zeros (width - String.length digits) +:+ digits.

Definition candidate_name (base : string) (width : nat) (i : nat) : string :=
  base +:+ "-" +:+ padded width (Z.of_nat i).

(** The set of the names that are taken. *)
Definition taken_names (taken : list string) : list string :=
  (λ t, PyStr.lower (PyStr.strip t)) <$> filter (λ t, PyStr.strip t ≠ EmptyString) taken.

(** The base and the width a candidate is built of. *)
Definition name_base (requested : string) : string * nat :=
  match indexed_name requested with
  | Some (base, idx) => (base, Nat.max (String.length idx) 2)
  | None => (requested, 2%nat)
  end.

Definition next_free_indexed_name (requested : string) (taken : list string) (max_index : nat) : string :=
  let taken_lower := taken_names taken in
  let req := PyStr.strip requested in
  if decide (req = EmptyString ∨ PyStr.lower req ∉ taken_lower) then req
  else
    let '(base, width) := name_base req in
    default req (head (filter (λ n, PyStr.lower n ∉ taken_lower)
      (candidate_name base width <$> seq 1 max_index))).

Record name_report : Type := NameReport {
  nr_requested_name : option string;
  nr_expected_computer_name : string;
  nr_pve_name : option string;
  nr_heartbeat_computer_name : option string;
  nr_pve_normalized : string;
  nr_heartbeat_normalized : string;
  nr_requested_was_normalized : bool;
  nr_truncated : bool;
  nr_mismatch : bool;
  nr_pve_mismatch : bool;
  nr_heartbeat_mismatch : bool
}.

Definition name_mismatch (normalized expected : string) : bool :=
  bool_decide (normalized ≠ EmptyString) && bool_decide (expected ≠ EmptyString) &&
  bool_decide (casefold normalized ≠ casefold expected).

Definition name_comparison (requested_name pve_name heartbeat_name : option string) : name_report :=
  let expected := normalize_windows_computer_name requested_name in
  let stripped_requested := PyStr.strip (default EmptyString requested_name) in
  let stripped_chars := keep_name_chars stripped_requested in
  let pve_normalized := normalize_windows_computer_name pve_name in
  let heartbeat_normalized := normalize_windows_computer_name heartbeat_name in
  let pve_mismatch := name_mismatch pve_normalized expected in
  let heartbeat_mismatch := name_mismatch heartbeat_normalized expected in
  NameReport requested_name expected pve_name heartbeat_name pve_normalized heartbeat_normalized
    (bool_decide (stripped_requested ≠ EmptyString) && bool_decide (expected ≠ stripped_requested))
    (bool_decide (stripped_requested ≠ EmptyString) && (15 <? String.length stripped_chars)%nat)
    (pve_mismatch || heartbeat_mismatch) pve_mismatch heartbeat_mismatch.

(** ** Milestones *)

Definition milestone_label_for_event (event_phase event_type : string) : string :=
  let phase := PyStr.strip event_phase in
  let phase_key := casefold phase in
  let event_key := casefold (PyStr.strip event_type) in
  if bool_decide (phase_key = "controller" ∨ event_key ∈ ["run_created"; "identity_recorded"]) then "controller"
  else if bool_decide (phase_key ∈ ["proxmox_playbook"; "proxmox playbook"]) ||
          PyStr.contains "playbook" event_key || bool_decide (event_key = "provision_job_status")
       then "Proxmox playbook"
  else if bool_decide (event_key = "pe_registered") then "PE bridge"
  else if PyStr.contains "cache" event_key || bool_decide (phase_key = "cache") then "Cache"
  else if PyStr.contains "quality_update" event_key ||
          bool_decide (phase_key ∈ ["quality_update"; "quality updates"]) then "Quality updates"
  else if PyStr.contains "osdcloud" event_key then "OSDCloud"
  else if PyStr.contains "validation" event_key || bool_decide (phase_key = "offline_validation")
       then "offline validation"
  else if PyStr.contains "domain_join" event_key || bool_decide (phase_key ∈ ["domain_join"; "domain join"])
       then "Domain join"
  else if PyStr.contains "setupcomplete" event_key ||
          bool_decide (phase_key ∈ ["setupcomplete"; "setup_complete"]) then "SetupComplete"
  else if PyStr.contains "firstboot" event_key || bool_decide (phase_key ∈ ["first_boot"; "first boot"])
       then "first boot"
  else if PyStr.contains "autopilotagent" event_key || bool_decide (phase_key = "full_os")
       then "AutopilotAgent"
  else if bool_decide (phase_key = "pe") then "PE bridge"
  else PyStr.or_else phase "controller".

(** [groups.setdefault(label, []).append(event)]: a dictionary keeps its order. *)
Fixpoint file_under (label : string) (e : cloud_event) (groups : list (string * list cloud_event)) :
    list (string * list cloud_event) :=
  match groups with
  | [] => [(label, [e])]
  | (l, es) :: gs => if decide (l = label) then (l, es ++ [e]) :: gs else (l, es) :: file_under label e gs
  end.

Definition milestone_event_groups (events : list cloud_event) : list (string * list cloud_event) :=
  foldl (λ groups e, file_under (milestone_label_for_event (ce_phase e) (ce_event_type e)) e groups)
    ((λ label, (label, [])) <$> CLOUDOSD_MILESTONE_LABELS) events.

(** ** Joining a domain *)

Definition _domain_join_enabled (domain_join : json) : bool := truthy (jget "enabled" domain_join).

(** The loop of [_unique_text] with the keys it has seen. *)
Fixpoint unique_from (seen : list string) (values : list json) : list string :=
  match values with
  | [] => []
  | v :: vs =>
      let item := PyStr.strip (py_str (jor v (JStr EmptyString))) in
      let key := casefold item in
      if decide (item = EmptyString ∨ key ∈ seen) then unique_from seen vs
      else item :: unique_from (key :: seen) vs
  end.

Definition _unique_text (values : list json) : list string := unique_from [] values.

(** [list(raw.get("acceptable_domain_names") or [])] raises on a number. *)
Definition _sanitize_domain_join (domain_join : json) (expected_computer_name : option string) :
    outcome json :=
  if truthy (jget "enabled" domain_join) then
    let domain_fqdn := text_field "domain_fqdn" domain_join in
    let credential_domain := text_field "credential_domain" domain_join in
    names ← py_iter (jor (jget "acceptable_domain_names" domain_join) (JArr []));
    Ret (JObj
      [("enabled", JBool true);
       ("source_sequence_id", jget "source_sequence_id" domain_join);
       ("credential_id", jget "credential_id" domain_join);
       ("domain_fqdn", JStr domain_fqdn);
       ("credential_domain", JStr credential_domain);
       ("domain_controller_ipv4", JStr (text_field "domain_controller_ipv4" domain_join));
       ("ou_path", JStr (text_field "ou_path" domain_join));
       ("acceptable_domain_names",
        JArr (JStr <$> _unique_text (names ++ [JStr domain_fqdn; JStr credential_domain])));
       ("expected_computer_name",
        JStr (match expected_computer_name with
              | None | Some EmptyString => text_field "expected_computer_name" domain_join
              | Some n => n
              end))])
  else Ret (JObj [("enabled", JBool false)]).

(** A configuration that is read back was sanitized when it was stored, so that the names
    are a list and nothing raises. *)
Definition stored_domain_join (domain_join : json) (expected_computer_name : option string) : json :=
  match _sanitize_domain_join domain_join expected_computer_name with
  | Ret config => config
  | Exc _ => JObj [("enabled", JBool false)]
  end.

(** The newest heartbeat of a run, as [agent_telemetry_pg.latest_for_run] returns it. *)
Record agent_heartbeat : Type := AgentHeartbeat {
  ah_received_at : Z;
  ah_domain_name : option string;
  ah_domain_joined : option bool;
  ah_computer_name : option string
}.

Record join_verification : Type := JoinVerification {
  jv_matched : bool;
  jv_reason : string;
  jv_expected_domain_names : list string;
  jv_observed_domain_name : string;
  jv_domain_joined : bool
}.

Definition domain_join_verification (domain_join : json) (hb : option agent_heartbeat) : join_verification :=
  let config := stored_domain_join domain_join None in
  let observed := PyStr.strip (default EmptyString (hb ≫= ah_domain_name)) in
  let joined := default false (hb ≫= ah_domain_joined) in
  let expected := _unique_text
    match jget "acceptable_domain_names" config with JArr l => l | _ => [] end in
  let observed_key := casefold observed in
  let listed := bool_decide (observed_key ∈ (casefold <$> expected)) in
  let matched := _domain_join_enabled config && joined && bool_decide (observed_key ≠ EmptyString) && listed in
  JoinVerification matched
    (if negb joined then "heartbeat_not_domain_joined"
     else if bool_decide (observed = EmptyString) then "heartbeat_missing_domain_name"
     else if bool_decide (expected ≠ []) && negb listed then "heartbeat_domain_mismatch"
     else if matched then "matched" else "waiting_for_domain_membership")
    expected observed joined.

(** The verification as the data of an event. *)
Definition verification_json (v : join_verification) : json :=
  JObj [("matched", JBool (jv_matched v)); ("reason", JStr (jv_reason v));
        ("expected_domain_names", JArr (JStr <$> jv_expected_domain_names v));
        ("observed_domain_name", JStr (jv_observed_domain_name v));
        ("domain_joined", JBool (jv_domain_joined v))].

(** ** What an operator is told *)

Definition AGENT_OPERATOR_RETRY_KINDS : list string :=
  ["capture_autopilot_hash"; "join_domain_role"; "verify_ad_domain_join"].

Definition _v2_step_wait_reason (st : step_row) : string :=
  let kind := ps_kind (st_plan st) in
  let error := PyStr.strip (default EmptyString (st_last_error st)) in
  let claimed_by := PyStr.strip (default EmptyString (st_claimed_by st)) in
  match st_state st with
  | Failed => "failed: " +:+ PyStr.or_else error "no error message reported"
  | Pending =>
      if decide (ps_phase (st_plan st) = "full_os") then "waiting for AutopilotAgent to claim " +:+ kind
      else "pending"
  | TsData.Running =>
      if decide (claimed_by ≠ EmptyString) then "claimed by " +:+ claimed_by +:+ ", waiting for result"
      else "running, waiting for result"
  | AwaitingReboot => "waiting for reboot completion"
  | Done => "complete"
  | Skipped => "skipped"
  end.

(** A step with what [enrich_v2_steps_for_operator] adds to it. *)
Record operator_step : Type := OperatorStep {
  os_id : string;
  os_row : step_row;
  os_wait_reason : string;
  os_retryable : bool
}.

Definition enrich_v2_step (kr : string * step_row) : operator_step :=
  OperatorStep kr.1 kr.2 (_v2_step_wait_reason kr.2)
    (bool_decide (st_state kr.2 = Failed ∧ ps_phase (st_plan kr.2) = "full_os" ∧
                  ps_kind (st_plan kr.2) ∈ AGENT_OPERATOR_RETRY_KINDS)).

Definition enrich_v2_steps_for_operator (steps : list (string * step_row)) : list operator_step :=
  enrich_v2_step <$> steps.

Record completion_status : Type := CompletionStatus {
  cs_ready : bool;
  cs_required : list string;
  cs_missing : list string;
  cs_states : list (string * string)
}.

Record operator_status : Type := OperatorStatus {
  op_state : string;
  op_summary : string;
  op_failed_steps : list operator_step;
  op_waiting_steps : list operator_step;
  op_missing : list string;
  op_next_actions : list string
}.

Definition v2_operator_status (steps : list (string * step_row)) (completion : completion_status)
    (heartbeat_seen : bool) : operator_status :=
  let enriched := enrich_v2_steps_for_operator steps in
  let failed_steps := filter (λ s, st_state (os_row s) = Failed) enriched in
  let missing := cs_missing completion in
  let waiting_steps := filter (λ s, ps_kind (st_plan (os_row s)) ∈ missing) enriched in
  let actions_failed := (λ s, (if os_retryable s then "Retry " else "Review failed ") +:+
    ps_kind (st_plan (os_row s))) <$> failed_steps in
  let actions_missing :=
    if decide (missing ≠ [] ∧ failed_steps = []) then
      (if heartbeat_seen then [] else ["Wait for AutopilotAgent heartbeat"]) ++
      ((λ kind, "Wait for " +:+ kind) <$> missing)
    else [] in
  let actions_none := if decide (missing = [] ∧ failed_steps = []) then ["No operator action required"] else [] in
  let '(state, summary) :=
    if decide (failed_steps ≠ []) then
      ("blocked", pretty (length failed_steps) +:+ " v2 step(s) failed")
    else if decide (missing ≠ []) then ("waiting", "Waiting for " +:+ PyStr.join ", " missing)
    else ("ready", "v2 full-OS gate satisfied") in
  OperatorStatus state summary failed_steps waiting_steps missing
    (actions_failed ++ actions_missing ++ actions_none).

(** ** Settings for the preinstallation environment *)

Definition edition_ids : list (string * string) :=
  [("Home", "Core"); ("Home N", "CoreN"); ("Education", "Education"); ("Education N", "EducationN");
   ("Pro", "Professional"); ("Pro N", "ProfessionalN"); ("Enterprise", "Enterprise");
   ("Enterprise N", "EnterpriseN")].

Definition one_choice (value : string) (values : list json) : json :=
  JObj [("default", JStr value); ("values", JArr values)].

Definition os_settings (q : cloud_request) : json :=
  let edition := cq_os_edition q in
  JObj [("OperatingSystem", one_choice (cq_os_version q) [JStr (cq_os_version q)]);
        ("OSActivation", one_choice (cq_os_activation q) (JStr <$> OS_ACTIVATION_CATALOG));
        ("OSEdition", one_choice edition
          [JObj [("Edition", JStr edition); ("EditionId", JStr (default edition (assoc edition edition_ids)))]]);
        ("OSLanguageCode", one_choice (cq_os_language q) [JStr (cq_os_language q)])].

Definition user_settings (q : cloud_request) : json :=
  JObj [("DriverPacks", JObj
          [("Default", JStr (cq_driver_pack_policy q)); ("MicrosoftUpdateCatalog", JBool false);
           ("OSDCloud", JBool (bool_decide (cq_driver_pack_policy q ≠ "None")))]);
        ("UpdateDiskDrivers", JBool false); ("UpdateNetworkDrivers", JBool false);
        ("UpdateScsiDrivers", JBool false);
        ("UpdateSystemFirmware", JBool (cq_firmware_updates_enabled q));
        ("WinpeRestart", JBool false); ("WinpeShutdown", JBool false);
        ("Analytics", JBool (cq_analytics_enabled q))].

Definition task_settings (q : cloud_request) : json :=
  let firmware := cq_firmware_updates_enabled q in
  JObj [("name", JStr (if firmware then "osdcloud" else "osdcloud-nofirmware"));
        ("workflow", JStr (cq_workflow_name q)); ("cli", JBool true);
        ("firmware_updates_enabled", JBool firmware); ("validate_windows_image_hash", JBool true);
        ("winpe_oob_driver_export_apply", JBool true)].

(** ** A free name

    When a candidate is free, a free name is returned: the requested one, or else the first
    free candidate. *)

Lemma head_filter_first {A} (P : A → Prop) `{∀ x, Decision (P x)} (l : list A) x :
  head (filter P l) = Some x ↔
  ∃ i, l !! i = Some x ∧ P x ∧ ∀ j y, (j < i)%nat → l !! j = Some y → ¬ P y.
Proof.
  induction l as [|a l IH]; [split; [done|intros (i & Hi & _); by rewrite lookup_nil in Hi]|].
  rewrite filter_cons. case_decide as Ha; simpl.
  - split.
    + intros [= ->]. exists 0%nat. split_and!; [done..|lia].
    + intros ([|i] & Hi & _ & Hj); [done|]. exfalso. apply (Hj 0%nat a); [lia|done..].
  - rewrite IH. split.
    + intros (i & Hi & Hx & Hj). exists (S i). split_and!; [done..|].
      intros [|j] y Hlt Hy; [by simplify_eq/=|]. apply (Hj j y); [lia|done].
    + intros ([|i] & Hi & Hx & Hj); [by simplify_eq/=|]. exists i. split_and!; [done..|].
      intros j y Hlt Hy. apply (Hj (S j) y); [lia|done].
Qed.

(** A batch that is deployed again gets free names.  A name that is not taken is kept;
    for a name that is taken, the numbers from 1 up are tried in its place - a trailing
    number is replaced, at its width - and the least one whose name is free is chosen.  The
    requested name is given back only when all numbers are taken. *)
Theorem next_free_indexed_name_spec (requested : string) (taken : list string) (max_index : nat) :
  let req := PyStr.strip requested in
  let free n := PyStr.lower n ∉ taken_names taken in
  let candidate := candidate_name (name_base req).1 (name_base req).2 in
  let result := next_free_indexed_name requested taken max_index in
  (req = EmptyString ∨ free req → result = req) ∧
  (req ≠ EmptyString → ¬ free req →
   (∀ i, (1 ≤ i ≤ max_index)%nat → free (candidate i) →
      ∃ j, (1 ≤ j ≤ i)%nat ∧ result = candidate j ∧ free (candidate j) ∧
           ∀ k, (1 ≤ k < j)%nat → ¬ free (candidate k)) ∧
   ((∀ i, (1 ≤ i ≤ max_index)%nat → ¬ free (candidate i)) → result = req)).
Proof.
  cbv zeta. unfold next_free_indexed_name.
  set (req := PyStr.strip requested). set (tk := taken_names taken).
  split; [intros Hf; by rewrite decide_True|]. intros Hne Hnf. rewrite decide_False by naive_solver.
  destruct (name_base req) as [base width]. simpl.
  set (cs := candidate_name base width <$> seq 1 max_index).
  assert (∀ i x, cs !! i = Some x ↔ (i < max_index)%nat ∧ x = candidate_name base width (S i)) as Hcs.
  { intros i x. unfold cs. rewrite list_lookup_fmap, fmap_Some. setoid_rewrite lookup_seq. naive_solver lia. }
  destruct (head (filter _ cs)) as [x|] eqn:E; simpl.
  - apply head_filter_first in E as (j & [Hj ->]%Hcs & Hx & Hleast). split.
    + intros i Hi Hfree. exists (S j). split_and!; [lia| |done|done|].
      * destruct (decide (S j ≤ i)%nat); [lia|]. exfalso.
        apply (Hleast (Nat.pred i) (candidate_name base width i)); [lia| |done].
        apply Hcs. destruct i; [lia|]. simpl. split; [lia|done].
      * intros [|k] Hk; [lia|]. apply (Hleast k); [lia|]. apply Hcs. split; [lia|done].
    + intros Hall. exfalso. apply (Hall (S j)); [lia|done].
  - split; [|done]. intros i Hi Hfree. exfalso.
    assert (candidate_name base width i ∈ filter (λ n, PyStr.lower n ∉ tk) cs) as Hin.
    { apply list_elem_of_filter. split; [done|]. apply list_elem_of_lookup. exists (Nat.pred i).
      apply Hcs. destruct i; [lia|]. simpl. split; [lia|done]. }
    destruct (filter _ cs); [set_solver|done].
Qed.
