(* ===== verification/Bubbles.v ===== *)
(** * Lab bubbles

    [web/lab_bubbles_pg.py]: bubbles (labs or tenants whose machines belong together), the
    machines and services in them, the audit trail of every change, and the gate that says
    whether a machine may be launched into a bubble.  The second
    part holds the handlers of [web/app.py] that change them and the reports of domain
    controllers. *)

From stdpp Require Import base gmap list strings pretty sorting.
From Stdlib Require Import ZArith Lia Ascii.
From S2P Require Import Prelude Json Text JsonParse Digest CloudData OsdeployData TsData Conditions Sequences Content OsdeployRoles OsdeployRuns OsdeployService.

(** ** Texts *)

(** [re.sub(r"[^a-z0-9]+", "-", s)]: [inside] a run of other characters. *)
Fixpoint dash_runs (inside : bool) (s : string) : string :=
  match s with
  | EmptyString => EmptyString
  | String c s =>
      let n := N_of_ascii c in
      if bool_decide ((48 ≤ n ≤ 57) ∨ (97 ≤ n ≤ 122))%N then String c (dash_runs false s)
      else if inside then dash_runs true s else String "-" (dash_runs true s)
  end.

Definition slug_text (value : string) : string :=
  lstrip_dashes (rstrip_dashes (dash_runs false (PyStr.lower (PyStr.strip value)))).

(** ** Statements *)

Definition on_lab (f : bubble_tables → bubble_tables) : eff session unit :=
  on_osdeploy (set_cloud (set_lab f)).

Definition lab_of (d : db) : bubble_tables := lab (cloud (osdeploy d)).

Definition same_name_or_slug (id : string) (b : bubble) (kr : string * bubble) : Prop :=
  kr.1 ≠ id ∧ (bb_name kr.2 = bb_name b ∨ bb_slug kr.2 = bb_slug b).

#[export] Instance same_name_or_slug_dec id b kr : Decision (same_name_or_slug id b kr).
Proof. unfold same_name_or_slug. apply _. Defined.

(** PRIMARY KEY, UNIQUE (name) and UNIQUE (slug) *)
Definition insert_bubble (id : string) (b : bubble) : eff session unit :=
  t ← query lab_of;
  checked (negb (known (lab_bubbles t) id) && negb (exists_where (same_name_or_slug id b) (lab_bubbles t)))
    "lab_bubbles" (set_osdeploy (set_cloud (set_lab (set_lab_bubbles (<[id := b]>))))).

(** UNIQUE (name) and UNIQUE (slug) *)
Definition store_bubble (id : string) (b : bubble) : eff session unit :=
  t ← query lab_of;
  checked (negb (exists_where (same_name_or_slug id b) (lab_bubbles t)))
    "lab_bubbles" (set_osdeploy (set_cloud (set_lab (set_lab_bubbles (<[id := b]>))))).

(** PRIMARY KEY and the reference to the bubble *)
Definition insert_asset (id : string) (a : bubble_asset) : eff session unit :=
  t ← query lab_of;
  checked (negb (known (bubble_assets t) id) && known (lab_bubbles t) (ba_bubble_id a))
    "lab_bubble_assets" (set_osdeploy (set_cloud (set_lab (set_bubble_assets (<[id := a]>))))).

(** The reference to the bubble *)
Definition store_asset (id : string) (a : bubble_asset) : eff session unit :=
  t ← query lab_of;
  checked (known (lab_bubbles t) (ba_bubble_id a))
    "lab_bubble_assets_bubble_id_fkey" (set_osdeploy (set_cloud (set_lab (set_bubble_assets (<[id := a]>))))).

(** PRIMARY KEY and the references to the bubble and the asset *)
Definition insert_service (id : string) (v : bubble_service) : eff session unit :=
  t ← query lab_of;
  checked (negb (known (bubble_services t) id) && known (lab_bubbles t) (bs_bubble_id v) &&
           known_or_null (bubble_assets t) (bs_provider_asset_id v))
    "lab_bubble_services" (set_osdeploy (set_cloud (set_lab (set_bubble_services (<[id := v]>))))).

(** The reference to the asset *)
Definition store_service (id : string) (v : bubble_service) : eff session unit :=
  t ← query lab_of;
  checked (known_or_null (bubble_assets t) (bs_provider_asset_id v))
    "lab_bubble_services_provider_asset_id_fkey"
    (set_osdeploy (set_cloud (set_lab (set_bubble_services (<[id := v]>))))).

(** The references to the bubble and the asset *)
Definition insert_audit (e : audit_event) : eff session unit :=
  t ← query lab_of;
  checked (known (lab_bubbles t) (au_bubble_id e) && known_or_null (bubble_assets t) (au_asset_id e))
    "lab_bubble_audit_events" (set_osdeploy (set_cloud (set_lab (set_audit_events (λ es, es ++ [e]))))).

Definition set_provider (p : option string) (v : bubble_service) : bubble_service :=
  BubbleService (bs_bubble_id v) (bs_service_kind v) (bs_service_name v) (bs_scope v) p (bs_consumer_refs v)
    (bs_readiness_state v) (bs_last_evidence_at v) (bs_evidence_summary v) (bs_created_at v)
    (bs_updated_at v).

Definition set_audit_asset (a : option string) (e : audit_event) : audit_event :=
  AuditEvent (au_bubble_id e) a (au_actor e) (au_action e) (au_reason e) (au_old_values e)
    (au_new_values e) (au_created_at e).

(** A reference to a row that is gone becomes NULL. *)
Definition still_there {R} (t : gmap string R) (id : option string) : option string :=
  match id with Some i => if known t i then id else None | None => None end.

(** [DELETE FROM lab_bubbles WHERE id = %s] with its cascades: assets, services and audit
    events of the bubble go, other references to its assets become NULL. *)
Definition delete_bubble_rows (id : string) (t : bubble_tables) : bubble_tables :=
  let assets := filter (λ kr : string * bubble_asset, ba_bubble_id kr.2 ≠ id) (bubble_assets t) in
  BubbleTables (delete id (lab_bubbles t)) assets
    ((λ v, set_provider (still_there assets (bs_provider_asset_id v)) v) <$>
       filter (λ kr : string * bubble_service, bs_bubble_id kr.2 ≠ id) (bubble_services t))
    ((λ e, set_audit_asset (still_there assets (au_asset_id e)) e) <$>
       filter (λ e, au_bubble_id e ≠ id) (audit_events t)).

Section bubbles.
Context `{Env}.

(** [uuid.uuid4().hex[:8]] when nothing of the name is left. *)
Definition _slug (value : string) : eff session string :=
  let cleaned := slug_text value in
  if decide (cleaned ≠ EmptyString) then mret cleaned
  else
    id ← new_id;
    mret ("bubble-" +:+ String.substring 0 8 (replace "-" EmptyString id)).

(** ** Bubbles *)

(** The arguments of [create_bubble]. *)
Record bubble_args : Type := BubbleArgs {
  bg_name : string;
  bg_description : string;
  bg_domain_name : string;
  bg_netbios_name : string;
  bg_cidr : string;
  bg_gateway_ip : string;
  bg_planned_bridge : string;
  bg_planned_vlan : option Z;
  bg_lifecycle_state : string;
  bg_isolation_status : string;
  bg_dhcp_scope : string;
  bg_dhcp_pool_start : string;
  bg_dhcp_pool_end : string
}.

(** The columns that are not given have the defaults of the schema. *)
Definition new_bubble (a : bubble_args) (slug : string) (now : Z) : bubble :=
  Bubble (PyStr.strip (bg_name a)) slug (PyStr.strip (bg_description a))
    (PyStr.or_else (PyStr.strip (bg_lifecycle_state a)) "planned")
    (PyStr.lower (PyStr.strip (bg_domain_name a))) (upper (PyStr.strip (bg_netbios_name a)))
    (PyStr.strip (bg_cidr a)) (PyStr.strip (bg_gateway_ip a)) (PyStr.strip (bg_planned_bridge a))
    (bg_planned_vlan a) (PyStr.or_else (PyStr.strip (bg_isolation_status a)) "planned")
    (PyStr.strip (bg_dhcp_scope a)) (PyStr.strip (bg_dhcp_pool_start a)) (PyStr.strip (bg_dhcp_pool_end a))
    None false false false false true true true now now.

Definition create_bubble (a : bubble_args) : eff session (string * bubble) :=
  now ← now;
  id ← new_id;
  slug ← _slug (bg_name a);
  let b := new_bubble a slug now in
  insert_bubble id b ;;
  commit ;;
  mret (id, b).

Definition get_bubble (bubble_id : string) : eff session (option bubble) :=
  query (λ d, lab_bubbles (lab_of d) !! bubble_id).

(** The fields [update_bubble] is given. *)
Record bubble_patch : Type := BubblePatch {
  bp_name : option string;
  bp_description : option string;
  bp_lifecycle_state : option string;
  bp_domain_name : option string;
  bp_netbios_name : option string;
  bp_cidr : option string;
  bp_gateway_ip : option string;
  bp_planned_bridge : option string;
  bp_planned_vlan : option (option Z);
  bp_isolation_status : option string;
  bp_dhcp_scope : option string;
  bp_dhcp_pool_start : option string;
  bp_dhcp_pool_end : option string;
  bp_dhcp_owner_asset_id : option (option string);
  bp_dc_ready : option bool;
  bp_dns_ready : option bool;
  bp_dhcp_ready : option bool;
  bp_workload_ready : option bool;
  bp_allow_early_workgroup_launch : option bool;
  bp_require_domain_ready : option bool;
  bp_require_multi_domain_ready : option bool
}.

#[export] Instance bubble_patch_eq_dec : EqDecision bubble_patch.
Proof. solve_decision. Defined.

Definition no_patch : bubble_patch :=
  BubblePatch None None None None None None None None None None None None None None None None None None
    None None None.

Definition patched_bubble (p : bubble_patch) (slug : option string) (now : Z) (b : bubble) : bubble :=
  Bubble (default (bb_name b) (bp_name p)) (default (bb_slug b) slug)
    (default (bb_description b) (bp_description p)) (default (bb_lifecycle_state b) (bp_lifecycle_state p))
    (default (bb_domain_name b) ((λ n, PyStr.lower (PyStr.strip n)) <$> bp_domain_name p))
    (default (bb_netbios_name b) ((λ n, upper (PyStr.strip n)) <$> bp_netbios_name p))
    (default (bb_cidr b) (bp_cidr p)) (default (bb_gateway_ip b) (bp_gateway_ip p))
    (default (bb_planned_bridge b) (bp_planned_bridge p)) (default (bb_planned_vlan b) (bp_planned_vlan p))
    (default (bb_isolation_status b) (bp_isolation_status p)) (default (bb_dhcp_scope b) (bp_dhcp_scope p))
    (default (bb_dhcp_pool_start b) (bp_dhcp_pool_start p)) (default (bb_dhcp_pool_end b) (bp_dhcp_pool_end p))
    (default (bb_dhcp_owner_asset_id b) (bp_dhcp_owner_asset_id p))
    (default (bb_dc_ready b) (bp_dc_ready p)) (default (bb_dns_ready b) (bp_dns_ready p))
    (default (bb_dhcp_ready b) (bp_dhcp_ready p)) (default (bb_workload_ready b) (bp_workload_ready p))
    (default (bb_allow_early_workgroup_launch b) (bp_allow_early_workgroup_launch p))
    (default (bb_require_domain_ready b) (bp_require_domain_ready p))
    (default (bb_require_multi_domain_ready b) (bp_require_multi_domain_ready p)) (bb_created_at b) now.

Definition update_bubble (bubble_id : string) (commit_ : bool) (p : bubble_patch) : eff session bubble :=
  slug ← match bp_name p with
         | None => mret None
         | Some n => s ← _slug n; mret (Some s)
         end;
  current ← get_bubble bubble_id;
  if decide (p = no_patch) then
    match current with None => raise (ValueError "bubble not found") | Some b => mret b end
  else
    now ← now;
    match current with
    | None => raise (ValueError "bubble not found")
    | Some b =>
        let b := patched_bubble p slug now b in
        store_bubble bubble_id b ;;
        (if commit_ : bool then commit else mret tt) ;;
        mret b
    end.

Definition delete_bubble (bubble_id : string) : eff session bool :=
  was_there ← query (λ d, known (lab_bubbles (lab_of d)) bubble_id);
  on_lab (delete_bubble_rows bubble_id) ;;
  commit ;;
  mret was_there.

(** ** The audit trail *)

Definition record_audit_event (bubble_id action actor : string) (asset_id : option string)
    (reason : string) (old_values new_values : audit_value) : eff session unit :=
  now ← now;
  insert_audit (AuditEvent bubble_id asset_id actor action reason old_values new_values now).

Definition list_audit_events (bubble_id : string) : eff session (list audit_event) :=
  query (λ d, filter (λ e, au_bubble_id e = bubble_id) (audit_events (lab_of d))).

(** ** Assets *)

Definition nonempty_id (v : option string) : option string :=
  match v with Some EmptyString => None | _ => v end.

Definition add_asset (bubble_id asset_type asset_role : string) (vmid : option Z)
    (vm_uuid run_id agent_id service_id : option string)
    (membership_state evidence_state notes actor : string) : eff session (string * bubble_asset) :=
  now ← now;
  id ← new_id;
  let a := BubbleAsset bubble_id asset_type asset_role vmid vm_uuid (nonempty_id run_id) agent_id
             (nonempty_id service_id) membership_state evidence_state notes now now in
  insert_asset id a ;;
  record_audit_event bubble_id "asset_added" actor (Some id) EmptyString NoValue (AuditAsset id a) ;;
  commit ;;
  mret (id, a).

(** Newest first. *)
Definition newest_asset : string * bubble_asset → string * bubble_asset → comparison :=
  cmp_then (cmp_desc (cmp_on (λ kr, ba_updated_at kr.2) cmp_Z))
           (cmp_desc (cmp_on (λ kr, ba_created_at kr.2) cmp_Z)).

Definition get_asset_for_run (run_id : string) : eff session (option (string * bubble_asset)) :=
  query (λ d, head (isort newest_asset
    (select_where (λ kr : string * bubble_asset, ba_run_id kr.2 = Some run_id) (bubble_assets (lab_of d))))).

Definition asset_for_agent (bubble_id agent_id : string) : eff session (option (string * bubble_asset)) :=
  query (λ d, head (isort newest_asset
    (select_where (λ kr : string * bubble_asset, ba_bubble_id kr.2 = bubble_id ∧
       ba_agent_id kr.2 = Some agent_id ∧ ba_membership_state kr.2 ∈ ["active"; "provisioning"])
       (bubble_assets (lab_of d))))).

Definition _require_asset_in_bubble (asset_id bubble_id : string) (role : option string)
    (active_only : bool) : eff session bubble_asset :=
  t ← query lab_of;
  match bubble_assets t !! asset_id with
  | Some a =>
      if decide (ba_bubble_id a = bubble_id ∧ (role = None ∨ role = Some (ba_asset_role a)) ∧
                 (active_only = false ∨ ba_membership_state a ∈ ["active"; "provisioning"]))
      then mret a else raise (ValueError "asset not found in bubble")
  | None => raise (ValueError "asset not found in bubble")
  end.

(** The fields [update_asset] is given. *)
Record asset_patch : Type := AssetPatch {
  xp_asset_role : option string;
  xp_vmid : option (option Z);
  xp_vm_uuid : option (option string);
  xp_run_id : option (option string);
  xp_agent_id : option (option string);
  xp_service_id : option (option string);
  xp_membership_state : option string;
  xp_evidence_state : option string;
  xp_notes : option string
}.

#[export] Instance asset_patch_eq_dec : EqDecision asset_patch.
Proof. solve_decision. Defined.

Definition no_asset_patch : asset_patch := AssetPatch None None None None None None None None None.

Definition patched_asset (p : asset_patch) (now : Z) (a : bubble_asset) : bubble_asset :=
  BubbleAsset (ba_bubble_id a) (ba_asset_type a) (default (ba_asset_role a) (xp_asset_role p))
    (default (ba_vmid a) (xp_vmid p)) (default (ba_vm_uuid a) (xp_vm_uuid p))
    (default (ba_run_id a) (xp_run_id p)) (default (ba_agent_id a) (xp_agent_id p))
    (default (ba_service_id a) (xp_service_id p)) (default (ba_membership_state a) (xp_membership_state p))
    (default (ba_evidence_state a) (xp_evidence_state p)) (default (ba_notes a) (xp_notes p))
    (ba_created_at a) now.

Definition update_asset (asset_id : string) (p : asset_patch) : eff session bubble_asset :=
  t ← query lab_of;
  match bubble_assets t !! asset_id with
  | None => raise (ValueError "asset not found")
  | Some old =>
      if decide (p = no_asset_patch) then mret old
      else
        now ← now;
        let a := patched_asset p now old in
        store_asset asset_id a ;;
        record_audit_event (ba_bubble_id a) "asset_updated" "system" (Some asset_id) EmptyString
          (AuditAsset asset_id old) (AuditAsset asset_id a) ;;
        commit ;;
        mret a
  end.

Definition set_asset_bubble (bubble_id : string) (now : Z) (a : bubble_asset) : bubble_asset :=
  BubbleAsset bubble_id (ba_asset_type a) (ba_asset_role a) (ba_vmid a) (ba_vm_uuid a) (ba_run_id a)
    (ba_agent_id a) (ba_service_id a) (ba_membership_state a) (ba_evidence_state a) (ba_notes a)
    (ba_created_at a) now.

Definition move_asset (asset_id bubble_id reason actor : string) : eff session bubble_asset :=
  t ← query lab_of;
  match bubble_assets t !! asset_id with
  | None => raise (ValueError "asset not found")
  | Some old =>
      if exists_where (λ kr : string * bubble_service,
           bs_provider_asset_id kr.2 = Some asset_id ∧ bs_bubble_id kr.2 ≠ bubble_id) (bubble_services t)
      then raise (ValueError "asset provides services in another bubble")
      else
        now ← now;
        let a := set_asset_bubble bubble_id now old in
        store_asset asset_id a ;;
        record_audit_event bubble_id "asset_moved" actor (Some asset_id) reason
          (AuditAsset asset_id old) (AuditAsset asset_id a) ;;
        commit ;;
        mret a
  end.

(** [ORDER BY asset_role, vmid NULLS LAST, agent_id], where a missing agent comes last. *)
Definition cmp_nulls_last {A} (c : A → A → comparison) (x y : option A) : comparison :=
  cmp_desc (cmp_nulls_first (cmp_desc c)) x y.

Definition asset_order : string * bubble_asset → string * bubble_asset → comparison :=
  cmp_then (cmp_on (λ kr, ba_asset_role kr.2) cmp_str)
    (cmp_then (cmp_on (λ kr, ba_vmid kr.2) (cmp_nulls_last cmp_Z))
              (cmp_on (λ kr, ba_agent_id kr.2) (cmp_nulls_last cmp_str))).

Definition list_assets (bubble_id : option string) : eff session (list (string * bubble_asset)) :=
  query (λ d, isort asset_order (select_where (λ kr : string * bubble_asset,
    nonempty_id bubble_id = None ∨ nonempty_id bubble_id = Some (ba_bubble_id kr.2))
    (bubble_assets (lab_of d)))).

(** ** Services *)

Definition add_service (bubble_id service_kind service_name scope : string)
    (provider_asset_id : option string) (consumer_refs : list json) (readiness_state : string)
    (evidence_summary : json) (actor : string) : eff session (string * bubble_service) :=
  (match provider_asset_id with
   | None => mret tt
   | Some a => _require_asset_in_bubble a bubble_id None false ;; mret tt
   end) ;;
  now_ ← now;
  id ← new_id;
  evidence_at ← (if decide (readiness_state ≠ "unknown") then at_ ← now; mret (Some at_) else mret None);
  let v := BubbleService bubble_id service_kind service_name scope provider_asset_id consumer_refs
             readiness_state evidence_at (jor evidence_summary (JObj [])) now_ now_ in
  insert_service id v ;;
  record_audit_event bubble_id "service_added" actor None EmptyString NoValue (AuditService id v) ;;
  commit ;;
  mret (id, v).

Definition service_order : string * bubble_service → string * bubble_service → comparison :=
  cmp_then (cmp_on (λ kr, bs_service_kind kr.2) cmp_str) (cmp_on (λ kr, bs_service_name kr.2) cmp_str).

Definition list_services (bubble_id : string) : eff session (list (string * bubble_service)) :=
  query (λ d, isort service_order (select_where (λ kr : string * bubble_service,
    bs_bubble_id kr.2 = bubble_id) (bubble_services (lab_of d)))).

(** A service that is ready comes first, then the newest. *)
Definition entra_order : string * bubble_service → string * bubble_service → comparison :=
  cmp_then (cmp_on (λ kr, if decide (bs_readiness_state kr.2 = "ready") then 0%Z else 1%Z) cmp_Z)
    (cmp_then (cmp_desc (cmp_on (λ kr, bs_updated_at kr.2) cmp_Z))
              (cmp_desc (cmp_on (λ kr, bs_created_at kr.2) cmp_Z))).

Definition get_entra_service_for_bubble (bubble_id : string) : eff session (option (string * bubble_service)) :=
  query (λ d, head (isort entra_order (select_where (λ kr : string * bubble_service,
    bs_bubble_id kr.2 = bubble_id ∧ bs_service_kind kr.2 ∈ ["entra"; "m365"; "intune"])
    (bubble_services (lab_of d))))).

(** The fields [update_service] is given. *)
Record service_patch : Type := ServicePatch {
  sp_service_kind : option string;
  sp_service_name : option string;
  sp_scope : option string;
  sp_provider_asset_id : option (option string);
  sp_consumer_refs : option (list json);
  sp_readiness_state : option string;
  sp_evidence_summary : option json
}.

#[export] Instance service_patch_eq_dec : EqDecision service_patch.
Proof. solve_decision. Defined.

Definition no_service_patch : service_patch := ServicePatch None None None None None None None.

Definition patched_service (p : service_patch) (evidence_at : option Z) (now : Z) (v : bubble_service) :
    bubble_service :=
  BubbleService (bs_bubble_id v) (default (bs_service_kind v) (sp_service_kind p))
    (default (bs_service_name v) (sp_service_name p)) (default (bs_scope v) (sp_scope p))
    (default (bs_provider_asset_id v) (sp_provider_asset_id p))
    (default (bs_consumer_refs v) (sp_consumer_refs p))
    (default (bs_readiness_state v) (sp_readiness_state p)) (coalesce evidence_at (bs_last_evidence_at v))
    (default (bs_evidence_summary v) ((λ e, jor e (JObj [])) <$> sp_evidence_summary p))
    (bs_created_at v) now.

Definition update_service (service_id : string) (p : service_patch) : eff session bubble_service :=
  t ← query lab_of;
  match bubble_services t !! service_id with
  | None => raise (ValueError "service not found")
  | Some old =>
      (match sp_provider_asset_id p with
       | Some (Some a) => _require_asset_in_bubble a (bs_bubble_id old) None false ;; mret tt
       | _ => mret tt
       end) ;;
      evidence_at ← match sp_readiness_state p with
                    | None => mret None
                    | Some _ => at_ ← now; mret (Some at_)
                    end;
      if decide (p = no_service_patch) then mret old
      else
        now ← now;
        let v := patched_service p evidence_at now old in
        store_service service_id v ;;
        record_audit_event (bs_bubble_id v) "service_updated" "system" None EmptyString
          (AuditService service_id old) (AuditService service_id v) ;;
        commit ;;
        mret v
  end.

Definition delete_service (service_id actor : string) : eff session bool :=
  t ← query lab_of;
  match bubble_services t !! service_id with
  | None => mret false
  | Some old =>
      on_lab (set_bubble_services (delete service_id)) ;;
      record_audit_event (bs_bubble_id old) "service_deleted" actor None EmptyString
        (AuditService service_id old) NoValue ;;
      commit ;;
      mret true
  end.

(** ** Readiness *)

(** What a domain controller reports. *)
Definition evidence_patch (dc_asset_id : string) (evidence : json) : bubble_patch :=
  let dc := truthy (jget "ad_ds_ready" evidence) in
  let dns := truthy (jget "dns_ready" evidence) in
  let dhcp := truthy (jget "dhcp_ready" evidence) in
  let text k := py_str (jor (jget k evidence) (JStr EmptyString)) in
  BubblePatch None None None None None None None None None None (Some (text "dhcp_scope"))
    (Some (text "dhcp_pool_start")) (Some (text "dhcp_pool_end")) (Some (Some dc_asset_id)) (Some dc)
    (Some dns) (Some dhcp) (Some (dc && dns && dhcp)) None None None.

Definition update_readiness_from_dc_evidence (bubble_id dc_asset_id : string) (evidence : json) :
    eff session bubble :=
  _require_asset_in_bubble dc_asset_id bubble_id (Some "domain_controller") true ;;
  b ← update_bubble bubble_id false (evidence_patch dc_asset_id evidence);
  record_audit_event bubble_id "readiness_evidence_updated" "agent" (Some dc_asset_id) EmptyString NoValue
    (AuditEvidence (jor evidence (JObj []))) ;;
  commit ;;
  mret b.

Record launch_gate : Type := LaunchGate {
  lg_state : string;
  lg_allowed : bool;
  lg_reasons : list string
}.

Definition configmgr_ready (bubble_id : string) (t : bubble_tables) : bool :=
  exists_where (λ kr : string * bubble_service, bs_bubble_id kr.2 = bubble_id ∧
    bs_service_kind kr.2 ∈ ["configmgr"; "mecm"] ∧ bs_readiness_state kr.2 = "ready") (bubble_services t).

Definition evaluate_launch_gate (bubble_id : string)
    (requires_domain_join requires_configmgr multi_bubble multi_domain : bool) : eff session launch_gate :=
  t ← query lab_of;
  match lab_bubbles t !! bubble_id with
  | None => mret (LaunchGate "blocked" false ["bubble not found"])
  | Some b =>
      let ready := bb_dc_ready b && bb_dns_ready b && bb_dhcp_ready b in
      let reasons :=
        (if bb_dc_ready b then [] else ["DC agent has not reported AD DS readiness"]) ++
        (if bb_dns_ready b then [] else ["DC agent has not reported DNS readiness"]) ++
        (if bb_dhcp_ready b then [] else ["DC agent has not reported DHCP scope readiness"]) ++
        (if requires_configmgr && negb (configmgr_ready bubble_id t)
         then ["ConfigMgr service readiness is missing"] else []) in
      let hard_requires_ready :=
        (requires_domain_join && bb_require_domain_ready b) || requires_configmgr ||
        (multi_bubble && bb_require_multi_domain_ready b) ||
        (multi_domain && bb_require_multi_domain_ready b) in
      if hard_requires_ready && bool_decide (reasons ≠ []) then mret (LaunchGate "blocked" false reasons)
      else if negb ready && bool_decide (reasons ≠ []) then
        mret (LaunchGate "warning" (bb_allow_early_workgroup_launch b) reasons)
      else mret (LaunchGate "allowed" true [])
  end.

End bubbles.

(** * Requests about bubbles

    The handlers of [web/app.py] under [/api/bubbles] that change them, and the heartbeats
    by which a domain controller reports that it is ready ([web/agent_v1_endpoints.py]). *)

Section service.
Context `{Env}.

(** [except ValueError as exc: raise HTTPException(status_code=404, detail=str(exc))] *)
Definition value_error_404 {A} (m : eff session A) : eff session A := λ s,
  match m s with
  | (Exc (ValueError message), s') => (Exc (http_error 404 message), s')
  | r => r
  end.

(** [except psycopg.errors.UniqueViolation: raise HTTPException(status_code=409, ...)] *)
Definition unique_409 {A} (detail : string) (m : eff session A) : eff session A := λ s,
  match m s with
  | (Exc (IntegrityError _), s') => (Exc (http_error 409 detail), s')
  | r => r
  end.

Definition _api_bubble_or_404 (bubble_id : string) : eff session bubble :=
  b ← get_bubble bubble_id;
  match b with Some b => mret b | None => raise (http_error 404 "bubble not found") end.

Definition _api_asset_in_bubble_or_404 (bubble_id asset_id : string) : eff session bubble_asset :=
  assets ← list_assets (Some bubble_id);
  match filter (λ kr : string * bubble_asset, kr.1 = asset_id) assets with
  | kr :: _ => mret kr.2
  | [] => raise (http_error 404 "asset not found in bubble")
  end.

Definition _api_service_in_bubble_or_404 (bubble_id service_id : string) : eff session bubble_service :=
  services ← list_services bubble_id;
  match filter (λ kr : string * bubble_service, kr.1 = service_id) services with
  | kr :: _ => mret kr.2
  | [] => raise (http_error 404 "service not found in bubble")
  end.

Definition api_bubbles_create (a : bubble_args) : eff session (string * bubble) :=
  unique_409 "bubble already exists" (create_bubble a).

(** A body holds no null but in the columns that may be null. *)
Definition api_bubbles_patch (bubble_id : string) (p : bubble_patch) : eff session bubble :=
  value_error_404 (update_bubble bubble_id true p).

Definition api_bubbles_delete (bubble_id : string) : eff session unit :=
  there ← delete_bubble bubble_id;
  if there : bool then mret tt else raise (http_error 404 "bubble not found").

Definition api_bubbles_assets_create (bubble_id asset_type asset_role : string) (vmid : option Z)
    (vm_uuid run_id agent_id service_id : option string) (membership_state evidence_state notes : string) :
    eff session (string * bubble_asset) :=
  _api_bubble_or_404 bubble_id ;;
  value_error_400 (add_asset bubble_id asset_type asset_role vmid vm_uuid run_id agent_id service_id
    membership_state evidence_state notes "operator").

Definition api_bubbles_assets_patch (bubble_id asset_id : string) (p : asset_patch) :
    eff session bubble_asset :=
  value_error_400 (
    _api_bubble_or_404 bubble_id ;;
    _api_asset_in_bubble_or_404 bubble_id asset_id ;;
    update_asset asset_id p).

Definition api_bubbles_assets_move (bubble_id asset_id target_bubble_id reason : string) :
    eff session bubble_asset :=
  value_error_400 (
    _api_bubble_or_404 bubble_id ;;
    _api_asset_in_bubble_or_404 bubble_id asset_id ;;
    _api_bubble_or_404 target_bubble_id ;;
    move_asset asset_id target_bubble_id reason "operator").

Definition api_bubbles_services_create (bubble_id service_kind service_name scope : string)
    (provider_asset_id : option string) (consumer_refs : list json) (readiness_state : string)
    (evidence_summary : json) : eff session (string * bubble_service) :=
  _api_bubble_or_404 bubble_id ;;
  value_error_400 (add_service bubble_id service_kind service_name scope provider_asset_id consumer_refs
    readiness_state evidence_summary "system").

Definition api_bubbles_services_patch (bubble_id service_id : string) (p : service_patch) :
    eff session bubble_service :=
  value_error_400 (
    _api_bubble_or_404 bubble_id ;;
    _api_service_in_bubble_or_404 bubble_id service_id ;;
    update_service service_id p).

Definition api_bubbles_services_delete (bubble_id service_id : string) : eff session unit :=
  _api_bubble_or_404 bubble_id ;;
  _api_service_in_bubble_or_404 bubble_id service_id ;;
  there ← delete_service service_id "operator";
  if there : bool then mret tt else raise (http_error 404 "service not found").

(** The part of [heartbeat] that is about bubbles. *)
Definition dc_heartbeat (bubble_id : option string) (agent_id : string) (dc_readiness : json) :
    eff session unit :=
  match nonempty_id bubble_id with
  | None => mret tt
  | Some bubble_id =>
      if negb (truthy dc_readiness) then mret tt
      else
        dc_asset ← asset_for_agent bubble_id agent_id;
        match dc_asset with
        | None => mret tt
        | Some (id, a) =>
            if decide (ba_asset_role a = "domain_controller")
            then update_readiness_from_dc_evidence bubble_id id dc_readiness ;; mret tt
            else mret tt
        end
  end.

(** ** All requests *)

Inductive bubble_request : Type :=
| ReqCreateBubble (a : bubble_args)
| ReqPatchBubble (bubble_id : string) (p : bubble_patch)
| ReqDeleteBubble (bubble_id : string)
| ReqCreateAsset (bubble_id asset_type asset_role : string) (vmid : option Z)
    (vm_uuid run_id agent_id service_id : option string) (membership_state evidence_state notes : string)
| ReqPatchAsset (bubble_id asset_id : string) (p : asset_patch)
| ReqMoveAsset (bubble_id asset_id target_bubble_id reason : string)
| ReqCreateService (bubble_id service_kind service_name scope : string) (provider_asset_id : option string)
    (consumer_refs : list json) (readiness_state : string) (evidence_summary : json)
| ReqPatchService (bubble_id service_id : string) (p : service_patch)
| ReqDeleteService (bubble_id service_id : string)
| ReqDcHeartbeat (bubble_id : option string) (agent_id : string) (dc_readiness : json).

Definition serve_bubbles (r : bubble_request) : eff session unit :=
  match r with
  | ReqCreateBubble a => api_bubbles_create a ;; mret tt
  | ReqPatchBubble b p => api_bubbles_patch b p ;; mret tt
  | ReqDeleteBubble b => api_bubbles_delete b
  | ReqCreateAsset b t r v u i a s m e n => api_bubbles_assets_create b t r v u i a s m e n ;; mret tt
  | ReqPatchAsset b a p => api_bubbles_assets_patch b a p ;; mret tt
  | ReqMoveAsset b a t r => api_bubbles_assets_move b a t r ;; mret tt
  | ReqCreateService b k n s p c r e => api_bubbles_services_create b k n s p c r e ;; mret tt
  | ReqPatchService b s p => api_bubbles_services_patch b s p ;; mret tt
  | ReqDeleteService b s => api_bubbles_services_delete b s
  | ReqDcHeartbeat b a d => dc_heartbeat b a d
  end.
End service.
