(* ===== verification/BubbleInvariant.v ===== *)
(** * What requests about bubbles keep

    The statements the handlers of bubbles are made of, as an interface: an invariant of the
    database that all of them keep is kept by every request ([BubbleStatements]).  The rules
    of the tables of bubbles ([wf_bubbles]) are one, and so is everything that does not look
    at bubbles. *)

From stdpp Require Import base gmap list strings pretty sorting relations.
From Stdlib Require Import ZArith Lia.
From S2P Require Import Prelude Json Text JsonParse Digest CloudData OsdeployData TsData Conditions Tree Sequences Content Runs RunState Engine OsdeployRoles OsdeployRuns OsdeployPlan OsdeployService OsdeployInvariant CloudNames Bubbles.

Section invariant.
Context `{Env}.

(** ** Bubbles *)

(** The provider of every service stays in the bubble of the service. *)
Definition keeps_providers (id bubble_id : string) (t : bubble_tables) : Prop :=
  ∀ sid v, bubble_services t !! sid = Some v → bs_provider_asset_id v = Some id → bs_bubble_id v = bubble_id.

Definition provider_ok (bubble_id : string) (provider : option string) (t : bubble_tables) : Prop :=
  ∀ id, provider = Some id → ∃ a, bubble_assets t !! id = Some a ∧ ba_bubble_id a = bubble_id.

(** What a statement about bubbles must keep.  An asset that is stored is there, and either
    stays in its bubble or provides for no other one; so for the provider of a service. *)
Class BubbleStatements (I : db → Prop) : Prop := {
  bs_insert_bubble id b : preserves I (insert_bubble id b);
  bs_store_bubble id b : preserves I (store_bubble id b);
  bs_insert_asset id a : preserves I (insert_asset id a);
  bs_store_asset id a old s : bubble_assets (lab_of (cur s)) !! id = Some old →
    ba_bubble_id a = ba_bubble_id old ∨ keeps_providers id (ba_bubble_id a) (lab_of (cur s)) →
    holds_in I s → holds_in I (store_asset id a s).2;
  bs_insert_service id v s : provider_ok (bs_bubble_id v) (bs_provider_asset_id v) (lab_of (cur s)) →
    holds_in I s → holds_in I (insert_service id v s).2;
  bs_store_service id v old s : bubble_services (lab_of (cur s)) !! id = Some old →
    bs_bubble_id v = bs_bubble_id old →
    bs_provider_asset_id v = bs_provider_asset_id old ∨
      provider_ok (bs_bubble_id v) (bs_provider_asset_id v) (lab_of (cur s)) →
    holds_in I s → holds_in I (store_service id v s).2;
  bs_insert_audit e : preserves I (insert_audit e);
  bs_delete_bubble id : preserves I (on_lab (delete_bubble_rows id));
  bs_delete_service id : preserves I (on_lab (set_bubble_services (delete id)))
}.

Lemma preserves_then {A B} (I : db → Prop) (m : eff session A) (f : A → eff session B) s :
  holds_in I (m s).2 → (∀ a, preserves I (f a)) → holds_in I ((m ≫= f) s).2.
Proof. intros Hm Hf. rewrite run_bind. destruct (m s) as [[a|e] s']; [by apply Hf|done]. Qed.

Lemma preserves_value_error_404 {A} (I : db → Prop) (m : eff session A) :
  preserves I m → preserves I (value_error_404 m).
Proof. intros Hm s Hs. unfold value_error_404. specialize (Hm s Hs). by destruct (m s) as [[a|[]] s']. Qed.

Lemma preserves_unique_409 {A} (I : db → Prop) d (m : eff session A) :
  preserves I m → preserves I (unique_409 d m).
Proof. intros Hm s Hs. unfold unique_409. specialize (Hm s Hs). by destruct (m s) as [[a|[]] s']. Qed.

Section bubbles.
Context (I : db → Prop) `{!BubbleStatements I}.

Lemma kept_record_audit b a c i r o n : preserves I (record_audit_event b a c i r o n).
Proof. pose proof bs_insert_audit. unfold record_audit_event. preserves_solve. Qed.

Lemma kept_slug n : preserves I (_slug n).
Proof. unfold _slug. cbv zeta. preserves_solve. Qed.

Lemma kept_update_bubble id c p : preserves I (update_bubble id c p).
Proof.
  pose proof bs_store_bubble. pose proof kept_slug. unfold update_bubble, get_bubble. preserves_solve.
Qed.

Lemma kept_add_asset b t r v u i a x m e n c : preserves I (add_asset b t r v u i a x m e n c).
Proof.
  pose proof bs_insert_asset. pose proof kept_record_audit. unfold add_asset. preserves_solve.
Qed.

Lemma kept_update_asset id p : preserves I (update_asset id p).
Proof.
  pose proof kept_record_audit. intros s Hs. unfold update_asset. rewrite run_bind, run_query.
  destruct (_ !! id) as [old|] eqn:E; [|done]. destruct (decide _); [done|].
  rewrite run_bind, run_now. cbv zeta. apply preserves_then; [|intros; preserves_solve].
  by apply (bs_store_asset id _ old); [|left|].
Qed.

Lemma kept_move_asset id b r c : preserves I (move_asset id b r c).
Proof.
  pose proof kept_record_audit. intros s Hs. unfold move_asset. rewrite run_bind, run_query.
  destruct (_ !! id) as [old|] eqn:E; [|done]. destruct (exists_where _ _) eqn:Hno; [done|].
  rewrite run_bind, run_now. cbv zeta. apply preserves_then; [|intros; preserves_solve].
  rewrite exists_where_false in Hno.
  apply (bs_store_asset id _ old); [done|right|done]. intros sid v Hv Hp. simpl.
  destruct (decide (bs_bubble_id v = b)); [done|]. exfalso. by apply (Hno sid v).
Qed.

(** What [_require_asset_in_bubble] lets through. *)
Lemma run_require_asset id b s :
  (∃ a, _require_asset_in_bubble id b None false s = (Ret a, s) ∧
     bubble_assets (lab_of (cur s)) !! id = Some a ∧ ba_bubble_id a = b) ∨
  ∃ e, _require_asset_in_bubble id b None false s = (Exc e, s).
Proof.
  unfold _require_asset_in_bubble. rewrite run_bind, run_query.
  destruct (_ !! id) as [a|] eqn:E; [|right; eauto]. case_decide as Ha; [|right; eauto]. left. naive_solver.
Qed.

Lemma kept_add_service b k n sc p c r e a : preserves I (add_service b k n sc p c r e a).
Proof.
  pose proof kept_record_audit. intros s Hs. unfold add_service.
  rewrite run_bind. set (check := match p with None => _ | Some _ => _ end).
  assert ((check s).2 = s ∧ ∀ u, (check s).1 = Ret u → provider_ok b p (lab_of (cur s))) as [E Hok].
  { unfold check. destruct p as [id|]; [|split; [done|]; by intros ? _ ? ?].
    rewrite run_bind. destruct (run_require_asset id b s) as [(x & -> & Hx & Hb)|[x ->]]; [|done].
    split; [done|]. intros _ _ i [= <-]. eauto. }
  destruct (check s) as [[u|x] s0]; simpl in *; subst s0; [|done]. specialize (Hok u eq_refl).
  rewrite run_bind, run_now, run_bind, run_new_id. rewrite run_bind.
  destruct (decide _); [rewrite run_bind, run_now, run_ret|rewrite run_ret]; cbv zeta;
    (apply preserves_then; [by apply bs_insert_service|intros; preserves_solve]).
Qed.

Lemma kept_update_service id p : preserves I (update_service id p).
Proof.
  pose proof kept_record_audit. intros s Hs. unfold update_service. rewrite run_bind, run_query.
  destruct (_ !! id) as [old|] eqn:E; [|done].
  rewrite run_bind. set (check := match sp_provider_asset_id p with None => _ | Some _ => _ end).
  assert ((check s).2 = s ∧ ∀ u, (check s).1 = Ret u →
    ∀ q, sp_provider_asset_id p = Some q → provider_ok (bs_bubble_id old) q (lab_of (cur s))) as [Hc Hok].
  { unfold check. destruct (sp_provider_asset_id p) as [[a|]|]; [|split; [done|]..].
    - rewrite run_bind. destruct (run_require_asset a (bs_bubble_id old) s) as [(x & -> & Hx & Hb)|[x ->]]; [|done].
      split; [done|]. intros _ _ q [= <-] i [= <-]. eauto.
    - by intros _ _ q [= <-] ? ?.
    - done. }
  destruct (check s) as [[u|x] s0]; simpl in *; subst s0; [|done]. specialize (Hok u eq_refl). clear check.
  rewrite run_bind.
  assert (∀ ev s0, cur s0 = cur s → holds_in I s0 → holds_in I ((if decide (p = no_service_patch) then mret old
    else now ← now; let v := patched_service p ev now old in
      store_service id v ;;
      record_audit_event (bs_bubble_id v) "service_updated" "system" None EmptyString
        (AuditService id old) (AuditService id v) ;; commit ;; mret v) s0).2) as Hrest.
  { intros ev s0 Hcur Hs0. destruct (decide _); [done|]. rewrite run_bind, run_now. cbv zeta.
    apply preserves_then; [|intros; preserves_solve].
    apply (bs_store_service id _ old); simpl; [by rewrite Hcur|done| |done].
    destruct (sp_provider_asset_id p) as [q|]; [right|by left]. rewrite Hcur. by apply Hok. }
  destruct (sp_readiness_state p); run; by apply Hrest.
Qed.

Lemma kept_evidence b a e : preserves I (update_readiness_from_dc_evidence b a e).
Proof.
  pose proof kept_record_audit. pose proof kept_update_bubble.
  unfold update_readiness_from_dc_evidence, _require_asset_in_bubble. preserves_solve.
Qed.

(** Every request about bubbles keeps what their statements keep. *)
#[export] Instance serve_bubbles_keeps : Keeps serve_bubbles I.
Proof.
  pose proof bs_insert_bubble. pose proof bs_delete_bubble. pose proof bs_delete_service.
  pose proof kept_slug. pose proof kept_record_audit. pose proof kept_update_bubble. pose proof kept_add_asset.
  pose proof kept_update_asset. pose proof kept_move_asset. pose proof kept_add_service.
  pose proof kept_update_service. pose proof kept_evidence.
  intros []; simpl; unfold api_bubbles_create, api_bubbles_patch, api_bubbles_delete,
    api_bubbles_assets_create, api_bubbles_assets_patch, api_bubbles_assets_move,
    api_bubbles_services_create, api_bubbles_services_patch, api_bubbles_services_delete, dc_heartbeat,
    asset_for_agent, _api_bubble_or_404, _api_asset_in_bubble_or_404, _api_service_in_bubble_or_404,
    delete_bubble, delete_service, create_bubble, get_bubble, list_assets, list_services; cbv zeta;
    preserves_solve;
    first [apply preserves_unique_409; preserves_solve|apply preserves_value_error_404; preserves_solve
          |apply (preserves_value_error I); preserves_solve|idtac].
Qed.
End bubbles.

(** ** What does not look at bubbles *)

Lemma bubble_statements_free (I : db → Prop) :
  (∀ f d, I d → I (set_osdeploy (set_cloud (set_lab f)) d)) → BubbleStatements I.
Proof.
  intros Hfree.
  assert (∀ f, preserves I (on_lab f)) as Hon.
  { intros f. by apply preserves_execute, Hfree. }
  assert (∀ ok c f s, holds_in I s →
    holds_in I ((t ← query lab_of; checked (ok t) c (set_osdeploy (set_cloud (set_lab f)))) s).2) as Hst.
  { intros ok c f s [Hc Hm]. rewrite run_bind, run_query, run_checked. destruct (ok _); split; simpl; auto. }
  split; intros; try apply Hon; try (by apply (Hst _ _ _ s)); intros s Hs; by apply (Hst _ _ _ s).
Qed.

(** ** The rules of the tables *)

(** Names and slugs are of one bubble each; assets, services and audit events are in
    bubbles that exist; the provider of a service is an asset in the bubble of the service,
    and the asset of an audit event exists. *)
Record wf_lab (t : bubble_tables) : Prop := WfLab {
  wl_name i j b1 b2 : lab_bubbles t !! i = Some b1 → lab_bubbles t !! j = Some b2 →
    bb_name b1 = bb_name b2 ∨ bb_slug b1 = bb_slug b2 → i = j;
  wl_asset i a : bubble_assets t !! i = Some a → known (lab_bubbles t) (ba_bubble_id a) = true;
  wl_service i v : bubble_services t !! i = Some v →
    known (lab_bubbles t) (bs_bubble_id v) = true ∧ provider_ok (bs_bubble_id v) (bs_provider_asset_id v) t;
  wl_audit e : e ∈ audit_events t →
    known (lab_bubbles t) (au_bubble_id e) = true ∧ known_or_null (bubble_assets t) (au_asset_id e) = true
}.

Definition wf_bubbles (d : db) : Prop := wf_lab (lab_of d).

Lemma empty_wf_bubbles : wf_bubbles empty_db.
Proof. split; simpl; intros *; try (by rewrite lookup_empty); set_solver. Qed.

Lemma wf_lab_bubble id b t :
  wf_lab t → (∀ i b', lab_bubbles t !! i = Some b' → ¬ same_name_or_slug id b (i, b')) →
  wf_lab (set_lab_bubbles (<[id := b]>) t).
Proof.
  intros [Hn Ha Hs Hau] Hfree. unfold same_name_or_slug in Hfree. simpl in Hfree. split; simpl.
  - intros i j b1 b2 [[<- <-]|[Hi Hb1]]%lookup_insert_Some [[<- <-]|[Hj Hb2]]%lookup_insert_Some Hor;
      [done| | |by eapply Hn]; exfalso; eapply Hfree; eauto; naive_solver.
  - intros i a Hi. eauto using known_insert.
  - intros i v Hi. destruct (Hs i v Hi). eauto using known_insert.
  - intros e He. destruct (Hau e He). eauto using known_insert.
Qed.

Lemma known_or_null_insert {R} (t : gmap string R) i r o :
  known_or_null t o = true → known_or_null (<[i := r]> t) o = true.
Proof. destruct o; simpl; [apply known_insert|done]. Qed.

(** An asset that is new, or whose services stay with it. *)
Lemma wf_lab_asset id a t :
  wf_lab t → known (lab_bubbles t) (ba_bubble_id a) = true → keeps_providers id (ba_bubble_id a) t →
  wf_lab (set_bubble_assets (<[id := a]>) t).
Proof.
  intros [Hn Ha Hs Hau] Hb Hk. split; simpl; [done|..].
  - intros i a' [[<- <-]|[_ Hi]]%lookup_insert_Some; eauto.
  - intros i v Hi. destruct (Hs i v Hi) as [Hv Hp]. split; [done|]. intros k Hkp. simpl.
    destruct (decide (k = id)) as [->|Hne]; [rewrite lookup_insert_eq|rewrite lookup_insert_ne by done; by apply Hp].
    exists a. split; [done|]. symmetry. by apply (Hk i).
  - intros e He. destruct (Hau e He). eauto using known_or_null_insert.
Qed.

Lemma wf_lab_service id v t :
  wf_lab t → known (lab_bubbles t) (bs_bubble_id v) = true →
  provider_ok (bs_bubble_id v) (bs_provider_asset_id v) t → wf_lab (set_bubble_services (<[id := v]>) t).
Proof.
  intros [Hn Ha Hs Hau] Hb Hp. split; simpl; try done.
  intros i v' [[<- <-]|[_ Hi]]%lookup_insert_Some; [done|by apply (Hs i)].
Qed.

(** Deleting a bubble deletes what is in it. *)
Lemma wf_lab_delete id t : wf_lab t → wf_lab (delete_bubble_rows id t).
Proof.
  intros [Hn Ha Hs Hau].
  assert (∀ k, k ≠ id → known (lab_bubbles t) k = true → known (delete id (lab_bubbles t)) k = true) as Hk.
  { intros k Hne. unfold known. by rewrite lookup_delete_ne. }
  unfold delete_bubble_rows. split; simpl.
  - intros i j b1 b2 [_ H1']%lookup_delete_Some [_ H2']%lookup_delete_Some. by apply Hn.
  - intros i a [Hi Hne]%map_lookup_filter_Some. eauto.
  - intros i v Hi. rewrite lookup_fmap in Hi. apply fmap_Some in Hi as (v0 & Hv0 & ->).
    apply map_lookup_filter_Some in Hv0 as [Hv0 Hne]. destruct (Hs i v0 Hv0) as [Hb Hp].
    split; [by apply Hk|]. intros k Hkp. simpl in *.
    destruct (bs_provider_asset_id v0) as [k'|] eqn:E; simpl in Hkp; [|done].
    destruct (known _ k') eqn:Hkn; [|done]. simplify_eq. apply known_true in Hkn as [a Hka].
    exists a. split; [done|]. apply map_lookup_filter_Some in Hka as [Hka _].
    destruct (Hp k eq_refl) as (a' & Ha' & Hba). congruence.
  - intros e He. apply list_elem_of_fmap in He as (e0 & -> & [Hne He]%list_elem_of_filter).
    destruct (Hau e0 He) as [Hb _]. split; [by apply Hk|]. simpl.
    destruct (au_asset_id e0) as [k|]; simpl; [|done]. by destruct (known _ k) eqn:E.
Qed.

Lemma wf_lab_checked (ok : bubble_tables → bool) c f s :
  (ok (lab_of (cur s)) = true → wf_lab (lab_of (cur s)) → wf_lab (f (lab_of (cur s)))) → holds_in wf_bubbles s →
  holds_in wf_bubbles ((t ← query lab_of; checked (ok t) c (set_osdeploy (set_cloud (set_lab f)))) s).2.
Proof.
  intros Hf [Hc Hm]. rewrite run_bind, run_query, run_checked. destruct (ok _) eqn:E; split; simpl; auto.
  by apply Hf.
Qed.

#[export] Instance bubble_statements : BubbleStatements wf_bubbles.
Proof.
  split.
  - intros id b s Hs. apply (wf_lab_checked (λ t, _)); [|done]. rewrite andb_true_iff, !negb_true_iff, exists_where_false.
    intros [_ Hfree] Hw. by apply wf_lab_bubble.
  - intros id b s Hs. apply (wf_lab_checked (λ t, _)); [|done]. rewrite negb_true_iff, exists_where_false.
    intros Hfree Hw. by apply wf_lab_bubble.
  - intros id a s Hs. apply (wf_lab_checked (λ t, _)); [|done]. rewrite andb_true_iff, negb_true_iff, known_false.
    intros [Hno Hb] Hw. apply wf_lab_asset; [done..|]. intros sid v Hv Hp.
    destruct (wl_service _ Hw sid v Hv) as [_ Hok]. destruct (Hok id Hp) as (a' & Ha' & _). congruence.
  - intros id a old s Hid Hor Hs. apply (wf_lab_checked (λ t, _)); [|done]. intros Hb Hw.
    apply wf_lab_asset; [done..|]. destruct Hor as [Heq|Hk]; [|done]. intros sid v Hv Hp.
    destruct (wl_service _ Hw sid v Hv) as [_ Hok]. destruct (Hok id Hp) as (a' & Ha' & <-). congruence.
  - intros id v s Hp Hs. apply (wf_lab_checked (λ t, _)); [|done]. rewrite !andb_true_iff.
    intros [[_ Hb] _] Hw. by apply wf_lab_service.
  - intros id v old s Hid Heq Hor Hs. apply (wf_lab_checked (λ t, _)); [|done]. intros _ Hw.
    destruct (wl_service _ Hw id old Hid) as [Hb Hok]. apply wf_lab_service; [done|by rewrite Heq|].
    destruct Hor as [-> |Hp]; [by rewrite Heq|done].
  - intros e s Hs. apply (wf_lab_checked (λ t, _)); [|done]. rewrite andb_true_iff. intros [Hb Ha] [Hn Has Hsv Hau].
    split; simpl; try done. intros e' [Hin| ->%list_elem_of_singleton]%elem_of_app; auto.
  - intros id. apply preserves_execute. intros d. apply wf_lab_delete.
  - intros id. apply preserves_execute. intros d [Hn Ha Hs Hau]. split; simpl; try done.
    intros i v [_ Hi]%lookup_delete_Some. by apply (Hs i).
Qed.
End invariant.
