(* ===== verification/CloudRuns.v ===== *)
(** * Deployments of Windows clients

    [web/cloudosd_pg.py]: boot media, deployments and their events, the registration of
    their machines with Autopilot, and the pause Graph asks for.  A deployment is a run of
    the task sequence engine over a sequence generated for it; what the preinstallation
    environment, the agent and the controller report moves both.  The second part
    is what creating a deployment leaves. *)

From stdpp Require Import base gmap list strings pretty sorting.
From Stdlib Require Import ZArith Lia Ascii.
From S2P Require Import Prelude Json Text JsonParse Digest CloudData OsdeployData TsData Conditions Tree Sequences Content Runs RunState Progress Generated OsdeployRoles OsdeployRuns CloudNames Bubbles.

(** ** Statements *)

Definition cloud_of (d : db) : cloud_tables := cloud (osdeploy d).

Definition on_cloud (f : cloud_tables → cloud_tables) : eff session unit := on_osdeploy (set_cloud f).

(** PRIMARY KEY *)
Definition insert_cloud_artifact (id : string) (a : cloud_artifact) : eff session unit :=
  t ← query cloud_of;
  checked (negb (known (cloud_artifacts t) id)) "cloudosd_artifacts_pkey"
    (set_osdeploy (set_cloud (set_cloud_artifacts (<[id := a]>)))).

(** PRIMARY KEY, the references to the engine's run and to the artifact, and
    UNIQUE (workflow_name) *)
Definition insert_cloud_run (id : string) (r : cloud_run) : eff session unit :=
  d ← query (λ d, d);
  checked (negb (known (cloud_runs (cloud_of d)) id) && known (runs d) id &&
           known (cloud_artifacts (cloud_of d)) (cq_artifact_id (cr_request r)) &&
           negb (exists_where (λ kr : string * cloud_run,
             cq_workflow_name (cr_request kr.2) = cq_workflow_name (cr_request r)) (cloud_runs (cloud_of d))))
    "cloudosd_runs" (set_osdeploy (set_cloud (set_cloud_runs (<[id := r]>)))).

(** The reference to the deployment *)
Definition insert_cloud_event (e : cloud_event) : eff session unit :=
  t ← query cloud_of;
  checked (known (cloud_runs t) (ce_run_id e)) "cloudosd_run_events_run_id_fkey"
    (set_osdeploy (set_cloud (set_cloud_events (λ es, es ++ [e])))).

(** [INSERT ... ON CONFLICT (run_id) DO UPDATE] of all columns, with the reference to the
    deployment *)
Definition store_autopilot (run_id : string) (r : autopilot_readiness) : eff session unit :=
  t ← query cloud_of;
  checked (known (cloud_runs t) run_id) "cloudosd_autopilot_readiness_run_id_fkey"
    (set_osdeploy (set_cloud (set_autopilot (<[run_id := r]>)))).

(** The reference to the deployment *)
Definition insert_upload_attempt (a : upload_attempt) : eff session unit :=
  t ← query cloud_of;
  checked (known (cloud_runs t) (ua_run_id a)) "cloudosd_autopilot_upload_attempts_run_id_fkey"
    (set_osdeploy (set_cloud (set_upload_attempts (λ l, l ++ [a])))).

(** [UPDATE cloudosd_runs SET ... WHERE run_id = %s RETURNING *] *)
Definition update_cloud_run (run_id : string) (f : cloud_run → cloud_run) : eff session (option cloud_run) :=
  on_cloud (set_cloud_runs (alter f run_id)) ;;
  query (λ d, cloud_runs (cloud_of d) !! run_id).

(** ** Rows of a deployment that change *)

Definition set_cr_state (state : cloud_state) (now : Z) (r : cloud_run) : cloud_run :=
  CloudRun (cr_request r) state (cr_node r) (cr_pve_vm_name r) (cr_vmid r) (cr_vm_uuid r) (cr_mac r)
    (cr_pe_registered_at r) (cr_osdcloud_started_at r) (cr_osdcloud_finished_at r)
    (cr_first_heartbeat_at r) (cr_archived_at r) (cr_archived_by r) (cr_archive_reason r) now.

Definition set_cr_identity (vmid : option Z) (vm_uuid mac node pve_vm_name : option string) (r : cloud_run) :
    cloud_run :=
  CloudRun (cr_request r) (cr_state r) (coalesce node (cr_node r)) (coalesce pve_vm_name (cr_pve_vm_name r))
    vmid vm_uuid mac (cr_pe_registered_at r) (cr_osdcloud_started_at r) (cr_osdcloud_finished_at r)
    (cr_first_heartbeat_at r) (cr_archived_at r) (cr_archived_by r) (cr_archive_reason r) (cr_updated_at r).

(** [column = COALESCE(column, value)] for the times a deployment reaches. *)
Definition reach_times (registered started finished heartbeat : option Z) (now : Z) (r : cloud_run) :
    cloud_run :=
  CloudRun (cr_request r) (cr_state r) (cr_node r) (cr_pve_vm_name r) (cr_vmid r) (cr_vm_uuid r) (cr_mac r)
    (coalesce (cr_pe_registered_at r) registered) (coalesce (cr_osdcloud_started_at r) started)
    (coalesce (cr_osdcloud_finished_at r) finished) (coalesce (cr_first_heartbeat_at r) heartbeat)
    (cr_archived_at r) (cr_archived_by r) (cr_archive_reason r) now.

Definition set_cr_archive (at_ : option Z) (by_ reason : option string) (now : Z) (r : cloud_run) : cloud_run :=
  CloudRun (cr_request r) (cr_state r) (cr_node r) (cr_pve_vm_name r) (cr_vmid r) (cr_vm_uuid r) (cr_mac r)
    (cr_pe_registered_at r) (cr_osdcloud_started_at r) (cr_osdcloud_finished_at r)
    (cr_first_heartbeat_at r) at_ by_ reason now.

(** [datetime.isoformat] *)
Class IsoTime : Type := isoformat : Z → string.

Section operations.
Context `{Env} `{Sha256} `{StrSet} `{Secrets} `{IsoTime}.

(** ** Artifacts *)

(** [given] holds the arguments of the call; its times are not read. *)
Definition create_artifact (given : cloud_artifact) (built_at : option Z) :
    eff session (string * cloud_artifact) :=
  now ← now;
  id ← new_id;
  let a := CloudArtifact (ca_architecture given) (ca_osdcloud_module_version given) (ca_build_sha given)
    (ca_iso_path given) (ca_wim_path given) (ca_manifest_path given) (PyStr.lower (ca_iso_sha256 given))
    (PyStr.lower (ca_wim_sha256 given)) (ca_built_by_host given) (default now built_at)
    (ca_proxmox_volid given) (ca_build_job_id given) (ca_publish_job_id given) now in
  insert_cloud_artifact id a ;;
  commit ;;
  mret (id, a).

Definition artifact_order : string * cloud_artifact → string * cloud_artifact → comparison :=
  cmp_then (cmp_desc (cmp_on (λ kr, ca_built_at kr.2) cmp_Z))
           (cmp_desc (cmp_on (λ kr, ca_created_at kr.2) cmp_Z)).

Definition list_artifacts (architecture : option string) : eff session (list (string * cloud_artifact)) :=
  query (λ d, isort artifact_order (select_where (λ kr : string * cloud_artifact,
    nonempty_id architecture = None ∨ nonempty_id architecture = Some (ca_architecture kr.2))
    (cloud_artifacts (cloud_of d)))).

Definition get_artifact (artifact_id : string) : eff session (option cloud_artifact) :=
  query (λ d, cloud_artifacts (cloud_of d) !! artifact_id).

Definition update_artifact_proxmox_volid (artifact_id volid : string) (publish_job_id : option string) :
    eff session (option cloud_artifact) :=
  on_cloud (set_cloud_artifacts (alter (λ a,
    CloudArtifact (ca_architecture a) (ca_osdcloud_module_version a) (ca_build_sha a) (ca_iso_path a)
      (ca_wim_path a) (ca_manifest_path a) (ca_iso_sha256 a) (ca_wim_sha256 a) (ca_built_by_host a)
      (ca_built_at a) (Some volid) (ca_build_job_id a) (coalesce publish_job_id (ca_publish_job_id a))
      (ca_created_at a)) artifact_id)) ;;
  commit ;;
  get_artifact artifact_id.

(** ** Events *)

Definition append_event (run_id phase event_type severity : string) (message : option string)
    (data : json) : eff session cloud_event :=
  now ← now;
  let e := CloudEvent run_id phase event_type severity message (jor data (JObj [])) now in
  insert_cloud_event e ;;
  commit ;;
  mret e.

Definition events_of (run_id : string) (d : db) : list cloud_event :=
  isort (cmp_on ce_created_at cmp_Z) (filter (λ e, ce_run_id e = run_id) (cloud_events (cloud_of d))).

Definition list_events (run_id : string) : eff session (list cloud_event) := query (events_of run_id).

(** ** The sequence of a deployment *)

Definition _step_params_for_cloudosd_sequence (kind : string) (domain_join : json) (vm_group_tag : string) :
    json :=
  if decide (kind ∈ ["stage_ad_domain_join_unattend"; "join_domain_role"; "verify_ad_domain_join"])
  then domain_join
  else if decide (kind = "capture_autopilot_hash" ∧ vm_group_tag ≠ EmptyString)
  then JObj [("group_tag", JStr vm_group_tag)]
  else JObj [].

(** The machine joins its domain in the installed Windows when a controller is named, and
    offline, by its unattended setup, when none is. *)
Definition steps_of_deployment (domain_join : json) : list step_spec :=
  let domain_enabled := _domain_join_enabled domain_join in
  let full_os_domain_join := truthy (jget "domain_controller_ipv4" domain_join) in
  [StepSpec "OSDCloud PE preflight" "cloudosd_preflight" "pe";
   StepSpec "Run OSDCloud workflow" "cloudosd_deploy_os" "pe"] ++
  (if domain_enabled && negb full_os_domain_join
   then [StepSpec "Stage AD domain join unattend" "stage_ad_domain_join_unattend" "pe"] else []) ++
  [StepSpec "Validate offline Windows" "cloudosd_validate_offline_os" "pe";
   StepSpec "Stage OSD client" "stage_osd_client" "pe";
   StepSpec "Stage AutopilotAgent" "stage_autopilot_agent" "pe";
   StepSpec "Wait for AutopilotAgent heartbeat" "wait_agent_heartbeat" "full_os"] ++
  (if domain_enabled then
     (if full_os_domain_join then [StepSpec "Join AD domain" "join_domain_role" "full_os"] else []) ++
     [StepSpec "Verify AD domain membership" "verify_ad_domain_join" "full_os"]
   else []) ++
  [StepSpec "Capture Autopilot hardware hash" "capture_autopilot_hash" "full_os"].

Definition step_retries (kind : string) : Z :=
  if decide (kind = "verify_ad_domain_join") then 60
  else if decide (kind = "capture_autopilot_hash") then 2 else 0.
Definition step_delay (kind : string) : Z := if decide (kind = "verify_ad_domain_join") then 30 else 10.
Definition step_reboot (kind : string) : string :=
  if decide (kind = "join_domain_role") then "required" else "none".

(** One round of the loop that adds the steps. *)
Definition add_generated_step (sequence_id : string) (domain_join : json) (vm_group_tag : string)
    (ps : nat * step_spec) : eff session unit :=
  let kind := ss_kind ps.2 in
  add_step sequence_id None (ss_name ps.2) kind (ss_phase ps.2) (Z.of_nat ps.1) true JNull JNull
    (_step_params_for_cloudosd_sequence kind domain_join vm_group_tag) [] false (step_retries kind)
    (step_delay kind) None (step_reboot kind) ;;
  mret tt.

Definition _create_sequence_for_run (name : string) (domain_join : json) (vm_group_tag : string) :
    eff session string :=
  sequence_id ← create_sequence name "Generated OSDCloud deployment sequence" "windows" (Some "cloudosd");
  for_each (imap pair (steps_of_deployment domain_join))
    (add_generated_step sequence_id domain_join vm_group_tag) ;;
  compile_sequence sequence_id (Some "cloudosd").

(** ** Creating a deployment *)

(** The arguments of [create_run]. *)
Record cloud_args : Type := CloudArgs {
  cg_artifact_id : string;
  cg_vm_name : string;
  cg_node : option string;
  cg_iso_storage : option string;
  cg_storage : option string;
  cg_network_bridge : option string;
  cg_requested_vmid : option Z;
  cg_architecture : string;
  cg_os_version : string;
  cg_os_activation : string;
  cg_os_edition : string;
  cg_os_language : string;
  cg_vm_cores : Z;
  cg_vm_memory_mb : Z;
  cg_vm_disk_size_gb : Z;
  cg_vm_group_tag : string;
  cg_vm_oem_profile : string;
  cg_chassis_type_override : Z;
  cg_source_surface : string;
  cg_source_sequence_id : option Z;
  cg_tpm_enabled : bool;
  cg_secure_boot : bool;
  cg_firmware_updates_enabled : bool;
  cg_driver_pack_policy : string;
  cg_analytics_enabled : bool;
  cg_outbound_policy : json;
  cg_domain_join : json;
  cg_local_admin : json
}.

(** [value or None] *)
Definition zero_is_none (z : Z) : option Z := if decide (z = 0%Z) then None else Some z.

Definition new_cloud_run (a : cloud_args) (run_id computer_name : string) (domain_join local_admin : json)
    (now : Z) : cloud_run :=
  CloudRun (CloudRequest (cg_artifact_id a) ("pveautopilot-" +:+ run_id) (cg_architecture a)
      (cg_os_version a) (cg_os_activation a) (cg_os_edition a) (cg_os_language a) (cg_vm_name a)
      (Some (cg_vm_name a)) (Some computer_name) (cg_requested_vmid a) (cg_iso_storage a) (cg_storage a)
      (cg_network_bridge a) (cg_vm_cores a) (cg_vm_memory_mb a) (cg_vm_disk_size_gb a)
      (nonempty_id (Some (cg_vm_group_tag a))) (nonempty_id (Some (cg_vm_oem_profile a)))
      (zero_is_none (cg_chassis_type_override a)) (nonempty_id (Some (cg_source_surface a)))
      (cg_source_sequence_id a) (cg_tpm_enabled a) (cg_secure_boot a) (cg_firmware_updates_enabled a)
      (cg_driver_pack_policy a) (cg_analytics_enabled a) (jor (cg_outbound_policy a) (JObj [])) domain_join
      local_admin now)
    CloudCreated (cg_node a) None None None None None None None None None None None now.

(** What the engine's run records of the request. *)
Definition target_of (a : cloud_args) (computer_name : string) : json :=
  JObj [("computer_name", JStr computer_name); ("requested_name", JStr (cg_vm_name a));
        ("architecture", JStr (cg_architecture a)); ("cloudosd", JBool true)].

Definition variables_of (a : cloud_args) (domain_join local_admin : json) : json :=
  JObj [("deployment_path", JStr "cloudosd"); ("artifact_id", JStr (cg_artifact_id a));
        ("vm_group_tag", JStr (cg_vm_group_tag a)); ("vm_oem_profile", JStr (cg_vm_oem_profile a));
        ("chassis_type_override", JInt (cg_chassis_type_override a));
        ("source_surface", JStr (PyStr.or_else (cg_source_surface a) "cloudosd"));
        ("source_sequence_id", json_of_option JInt (cg_source_sequence_id a));
        ("os_version", JStr (cg_os_version a)); ("os_activation", JStr (cg_os_activation a));
        ("os_edition", JStr (cg_os_edition a)); ("os_language", JStr (cg_os_language a));
        ("driver_pack_policy", JStr (cg_driver_pack_policy a));
        ("firmware_updates_enabled", JBool (cg_firmware_updates_enabled a));
        ("domain_join", domain_join); ("local_admin", local_admin)].

(** The row as a dictionary for the callers. *)
Definition _run_row (r : cloud_run) : cloud_run :=
  let q := cr_request r in
  let requested_name := text_or (cq_requested_vm_name q) (cq_vm_name q) in
  let expected_name := text_or (cq_expected_computer_name q)
    (normalize_windows_computer_name (Some requested_name)) in
  CloudRun (CloudRequest (cq_artifact_id q) (cq_workflow_name q) (cq_architecture q) (cq_os_version q)
      (cq_os_activation q) (cq_os_edition q) (cq_os_language q) (cq_vm_name q) (Some requested_name)
      (Some expected_name) (cq_requested_vmid q) (cq_iso_storage q) (cq_storage q) (cq_network_bridge q)
      (cq_vm_cores q) (cq_vm_memory_mb q) (cq_vm_disk_size_gb q) (cq_vm_group_tag q) (cq_vm_oem_profile q)
      (cq_chassis_type_override q) (cq_source_surface q) (cq_source_sequence_id q) (cq_tpm_enabled q)
      (cq_secure_boot q) (cq_firmware_updates_enabled q) (cq_driver_pack_policy q) (cq_analytics_enabled q)
      (jor (cq_outbound_policy q) (JObj [])) (stored_domain_join (cq_domain_join q) (Some expected_name))
      (_sanitize_local_admin 0 (cq_local_admin q) false) (cq_created_at q))
    (cr_state r) (cr_node r) (cr_pve_vm_name r) (cr_vmid r) (cr_vm_uuid r) (cr_mac r)
    (cr_pe_registered_at r) (cr_osdcloud_started_at r) (cr_osdcloud_finished_at r)
    (cr_first_heartbeat_at r) (cr_archived_at r) (cr_archived_by r) (cr_archive_reason r)
    (cr_updated_at r).

Definition get_run (run_id : string) : eff session (option cloud_run) :=
  query (λ d, _run_row <$> cloud_runs (cloud_of d) !! run_id).

Definition create_run (a : cloud_args) : eff session (string * cloud_run) :=
  artifact ← get_artifact (cg_artifact_id a);
  match artifact with
  | None => raise (ValueError ("OSDCloud artifact not found: " +:+ cg_artifact_id a))
  | Some artifact =>
      if decide (ca_architecture artifact ≠ cg_architecture a) then
        raise (ValueError "OSDCloud artifact architecture does not match requested run")
      else
        let computer_name := normalize_windows_computer_name (Some (cg_vm_name a)) in
        if decide (computer_name = EmptyString) then
          raise (ValueError "OSDCloud requested VM name does not produce a valid Windows computer name")
        else
          domain_join ← lift_outcome (_sanitize_domain_join (cg_domain_join a) (Some computer_name));
          moment ← password_moment;
          let local_admin := _sanitize_local_admin moment (cg_local_admin a) true in
          version_id ← _create_sequence_for_run ("OSDCloud deployment for " +:+ cg_vm_name a) domain_join
                         (cg_vm_group_tag a);
          run_id ← create_run_from_version version_id (target_of a computer_name)
                     (variables_of a domain_join local_admin) (Some "cloudosd") false;
          now ← now;
          let row := new_cloud_run a run_id computer_name domain_join local_admin now in
          insert_cloud_run run_id row ;;
          update_ts_run run_id (λ r, set_ts_run (RunNamed "cloudosd_created") (Some "cloudosd")
            (rn_finished_at r) (rn_last_error r) r) ;;
          commit ;;
          append_event run_id "controller" "run_created" "info" (Some "OSDCloud run created") JNull ;;
          mret (run_id, _run_row row)
  end.

Definition run_order : string * cloud_run → string * cloud_run → comparison :=
  cmp_desc (cmp_on (λ kr, cq_created_at (cr_request kr.2)) cmp_Z).

Definition surface (r : cloud_run) : string := default "cloudosd" (cq_source_surface (cr_request r)).

(** The conditions of the listing; [stale_before] is the time of the last one. *)
Definition listed_run (include_archived active_only : bool) (source_surface : option string)
    (stale_before : option Z) (r : cloud_run) : Prop :=
  (include_archived = true ∨ cr_archived_at r = None) ∧
  (source_surface = None ∨ source_surface = Some (surface r)) ∧
  (active_only = false ∨ cr_state r ∉ [CloudComplete; CloudFailed]) ∧
  from_option (λ b, cr_state r = CloudFailed ∧ (cr_updated_at r ≤ b)%Z) True stale_before.

#[export] Instance listed_run_dec include_archived active_only source_surface stale_before r :
  Decision (listed_run include_archived active_only source_surface stale_before r).
Proof. unfold listed_run. destruct stale_before; simpl; apply _. Defined.

Definition list_runs (limit : nat) (include_archived : bool) (source_surface : option string)
    (active_only : bool) (stale_failed_hours : option Z) : eff session (list (string * cloud_run)) :=
  stale_before ← match stale_failed_hours with
                 | None => mret None
                 | Some h => now ← now; mret (Some (now - hours h)%Z)
                 end;
  query (λ d, (λ kr, (kr.1, _run_row kr.2)) <$> take limit (isort run_order
    (select_where (λ kr : string * cloud_run,
      listed_run include_archived active_only source_surface stale_before kr.2) (cloud_runs (cloud_of d))))).

(** The runs whose registration with Autopilot is still watched. *)
Definition watched (t : cloud_tables) (kr : string * cloud_run) : Prop :=
  cr_archived_at kr.2 = None ∧ cr_state kr.2 ≠ CloudFailed ∧
  from_option ap_state EmptyString (autopilot t !! kr.1)
    ∉ ["enrolled"; "upload_failed"; "group_tag_mismatch"; "blocked"].

#[export] Instance watched_dec t kr : Decision (watched t kr).
Proof. unfold watched. apply _. Defined.

Definition watch_order : string * cloud_run → string * cloud_run → comparison :=
  cmp_then (cmp_desc (cmp_on (λ kr, cr_updated_at kr.2) cmp_Z)) run_order.

(** [max(1, min(int(limit or 100), 500))] *)
Definition watch_limit (limit : Z) : nat :=
  Z.to_nat (Z.max 1 (Z.min (if decide (limit = 0%Z) then 100 else limit) 500)).

Definition list_readiness_watch_runs (limit : Z) : eff session (list (string * cloud_run)) :=
  query (λ d, (λ kr, (kr.1, _run_row kr.2)) <$> take (watch_limit limit) (isort watch_order
    (select_where (watched (cloud_of d)) (cloud_runs (cloud_of d))))).

(** ** Progress *)

(** The kinds of steps the evidence of a deployment shows to be done. *)
Definition done_kinds (run : cloud_run) (events : list cloud_event) : list string :=
  let event_types := (λ e, casefold (ce_event_type e)) <$> events in
  let phases := (λ e, casefold (ce_phase e)) <$> events in
  (if decide (is_Some (cr_pe_registered_at run) ∨ "pe_registered" ∈ event_types)
   then ["cloudosd_preflight"] else []) ++
  (if decide ("osdcloud_start" ∈ event_types) then ["cloudosd_preflight"] else []) ++
  (if decide ("offline_validation_ok" ∈ event_types ∨ "offline validation" ∈ phases ∨
              "offline_validation" ∈ phases)
   then ["cloudosd_deploy_os"; "cloudosd_validate_offline_os"] else []) ++
  (if decide (is_Some (cr_osdcloud_finished_at run) ∨ "cloudosd_pe_complete" ∈ event_types)
   then CLOUDOSD_PE_STEP_KINDS else []) ++
  (if decide (is_Some (cr_first_heartbeat_at run) ∨ cr_state run = CloudComplete ∨
              "autopilotagent_heartbeat" ∈ event_types ∨
              "autopilotagent_heartbeat_visible" ∈ event_types ∨ "firstboot_complete" ∈ event_types)
   then CLOUDOSD_HEARTBEAT_STEP_KINDS else []) ++
  (if decide ("domain_join_verified" ∈ event_types) then CLOUDOSD_DOMAIN_VERIFY_STEP_KINDS else []).

Definition sync_ts_progress_for_run (run_id : string) : eff session nat :=
  run ← get_run run_id;
  match run with
  | None => mret 0%nat
  | Some run =>
      events ← list_events run_id;
      match done_kinds run events with
      | [] => mret 0%nat
      | kinds =>
          mark_steps_done_by_kind run_id kinds "cloudosd-controller"
            (Some "OSDCloud lifecycle evidence advanced this v2 run step")
            (JObj [("source", JStr "cloudosd_lifecycle")])
      end
  end.

Definition sync_all_ts_progress : eff session unit :=
  rows ← query (λ d, isort run_order (map_to_list (cloud_runs (cloud_of d))));
  for_each rows (λ kr, sync_ts_progress_for_run kr.1 ;; mret tt).

Definition active_evidence : asset_patch :=
  AssetPatch None None None None None None (Some "active") (Some "confirmed") None.

Definition mark_lab_assets_complete_for_run (run_id : string) : eff session nat :=
  rows ← query (λ d, select_where (λ kr : string * bubble_asset,
    ba_run_id kr.2 = Some run_id ∧ ba_membership_state kr.2 = "provisioning") (bubble_assets (lab_of d)));
  for_each rows (λ kr, update_asset kr.1 active_evidence ;; mret tt) ;;
  mret (length rows).

(** What the installed Windows must have done. *)
Definition required_kinds (domain_join : json) : list string :=
  ["capture_autopilot_hash"; "wait_agent_heartbeat"] ++
  (if _domain_join_enabled domain_join then ["verify_ad_domain_join"] else []).

(** Later steps of a kind override earlier ones; the states are listed in the order of
    [required]. *)
Definition completion_of (required : list string) (steps : list (string * step_row)) : completion_status :=
  let states := foldl (λ o kr, if decide (ps_kind (st_plan kr.2) ∈ required)
      then <[ps_kind (st_plan kr.2) := st_state kr.2]> o else o) (∅ : gmap string step_state) steps in
  let missing := filter (λ kind, states !! kind ≠ Some Done) required in
  CompletionStatus (bool_decide (missing = [])) required missing
    (omap (λ kind, (λ st, (kind, step_state_text st)) <$> states !! kind) required).

Definition v2_completion_status (run_id : string) (domain_join : json) : eff session completion_status :=
  steps ← list_run_steps run_id;
  mret (completion_of (required_kinds domain_join) steps).

Definition completion_json (s : completion_status) : json :=
  JObj [("ready", JBool (cs_ready s)); ("required", JArr (JStr <$> cs_required s));
        ("missing", JArr (JStr <$> cs_missing s));
        ("states", JObj ((λ kv, (kv.1, JStr kv.2)) <$> cs_states s))].

(** ** What is reported *)

Definition set_run_identity (run_id : string) (vmid : Z) (vm_uuid mac : string)
    (node computer_name : option string) : eff session (option cloud_run) :=
  now ← now;
  let uuid := _normalize_uuid (Some vm_uuid) in
  let mac := _normalize_mac (Some mac) in
  let name := nonempty_id (PyStr.strip <$> computer_name) in
  row ← update_cloud_run run_id
    (λ r, set_cr_state CloudAwaitingPe now (set_cr_identity (Some vmid) uuid mac node name r));
  match row with
  | None => commit ;; mret None
  | Some row =>
      let resolved := text_or (cr_pve_vm_name row)
        (text_or (cq_expected_computer_name (cr_request row)) (cq_vm_name (cr_request row))) in
      update_ts_run run_id (λ r,
        Run (rn_sequence_id r) (rn_sequence_version_id r) (RunNamed "awaiting_pe") (Some "pe")
          (rn_cursor_step_id r) (JInt vmid) (json_of_option JStr uuid) (JStr resolved)
          (rn_serial_number r) (rn_deployment_target r) (rn_run_variables r) (rn_started_at r)
          (rn_finished_at r) (rn_last_error r) (rn_created_by r)) ;;
      commit ;;
      append_event run_id "controller" "identity_recorded" "info" (Some "OSDCloud VM identity recorded")
        (JObj [("vmid", JInt vmid); ("vm_uuid", json_of_option JStr uuid);
               ("mac", json_of_option JStr mac);
               ("computer_name", JStr (text_or (cr_pve_vm_name row) (cq_vm_name (cr_request row))))]) ;;
      mret (Some (_run_row row))
  end.

(** The runs that wait for their machine to report; the comparison with a missing value is
    never true. *)
Definition matches_identity (vm_uuid mac architecture build_sha : option string) (t : cloud_tables)
    (r : cloud_run) : Prop :=
  (vm_uuid ≠ None ∧ cr_vm_uuid r = vm_uuid) ∧ (mac ≠ None ∧ cr_mac r = mac) ∧
  is_Some (cloud_artifacts t !! cq_artifact_id (cr_request r)) ∧
  (architecture = None ∨ architecture = Some (cq_architecture (cr_request r))) ∧
  (build_sha = None ∨ (ca_build_sha <$> cloud_artifacts t !! cq_artifact_id (cr_request r)) = build_sha) ∧
  cr_state r ∈ [CloudAwaitingPe; CloudCreated; CloudPeRegistered].

#[export] Instance cloud_identity_dec vm_uuid mac architecture build_sha t r :
  Decision (matches_identity vm_uuid mac architecture build_sha t r).
Proof. unfold matches_identity. apply _. Defined.

Definition find_run_by_identity (vm_uuid mac : string) (architecture build_sha : option string) :
    eff session (option (string * cloud_run)) :=
  query (λ d, (λ kr, (kr.1, _run_row kr.2)) <$> head (isort run_order
    (select_where (λ kr : string * cloud_run,
       matches_identity (_normalize_uuid (Some vm_uuid)) (_normalize_mac (Some mac)) architecture
         build_sha (cloud_of d) kr.2) (cloud_runs (cloud_of d))))).

Definition mark_pe_registered (run_id : string) : eff session (option cloud_run) :=
  now ← now;
  row ← update_cloud_run run_id (λ r, set_cr_state CloudPeRegistered now (reach_times (Some now) None None None now r));
  match row with
  | None => commit ;; mret None
  | Some row =>
      update_ts_run run_id (λ r, set_ts_run (RunNamed "pe_registered") (Some "pe")
        (rn_finished_at r) (rn_last_error r) r) ;;
      commit ;;
      append_event run_id "pe" "pe_registered" "info" (Some "OSDCloud PE bridge registered") JNull ;;
      mret (Some (_run_row row))
  end.

(** [WHERE run_id = %s AND state <> 'failed' RETURNING *]: no row is returned for a
    deployment that failed. *)
Definition update_unless (state : cloud_state) (run_id : string) (f : cloud_run → cloud_run) :
    eff session (option cloud_run) :=
  before ← query (λ d, cloud_runs (cloud_of d) !! run_id);
  match before with
  | None => mret None
  | Some r => if decide (cr_state r = state) then mret None else update_cloud_run run_id f
  end.

(** The engine's run waits, unless it is done. *)
Definition ts_waiting (name : string) (r : run_row) : run_row :=
  set_ts_run (if decide (rn_state r = RunDone) then RunDone else RunNamed name) (Some "full_os")
    (rn_finished_at r) (rn_last_error r) r.

Definition ts_finished (at_ : Z) (r : run_row) : run_row :=
  set_ts_run RunDone (Some "full_os") (coalesce (rn_finished_at r) (Some at_)) (rn_last_error r) r.

(** The deployment waits, unless it is complete. *)
Definition cloud_waiting (state : cloud_state) (heartbeat_at now : Z) (r : cloud_run) : cloud_run :=
  set_cr_state (if decide (cr_state r = CloudComplete) then CloudComplete else state) now
    (reach_times None None None (Some heartbeat_at) now r).

Definition heartbeat_event (run_id : string) (heartbeat_at : Z) : eff session cloud_event :=
  append_event run_id "full_os" "autopilotagent_heartbeat" "info"
    (Some "AutopilotAgent heartbeat observed for OSDCloud run")
    (JObj [("first_heartbeat_at", JStr (isoformat heartbeat_at))]).

(** The heartbeat does not show the machine in its domain. *)
Definition wait_for_domain (run_id : string) (heartbeat_at now : Z) (v : join_verification) :
    eff session (option cloud_run) :=
  row ← update_unless CloudFailed run_id (cloud_waiting WaitingDomainJoin heartbeat_at now);
  match row with
  | None => commit ;; mret None
  | Some row =>
      update_ts_run run_id (ts_waiting "full_os_waiting_domain_join") ;;
      commit ;;
      heartbeat_event run_id heartbeat_at ;;
      append_event run_id "domain_join" "domain_join_pending" "warning"
        (Some "Waiting for AutopilotAgent heartbeat to report expected AD domain membership")
        (verification_json v) ;;
      sync_ts_progress_for_run run_id ;;
      mret (Some (_run_row row))
  end.

(** The gate of the steps in the installed Windows. *)
Definition completion_gate (run_id : string) (heartbeat_at now : Z) (domain_join : json) (row : cloud_run) :
    eff session (option cloud_run) :=
  status ← v2_completion_status run_id domain_join;
  if negb (cs_ready status) then
    append_event run_id "full_os" "cloudosd_v2_waiting" "info"
      (Some "Waiting for AutopilotAgent v2 full-OS steps before OSDCloud completion")
      (completion_json status) ;;
    mret (Some (_run_row row))
  else
    complete ← update_unless CloudFailed run_id (set_cr_state CloudComplete now);
    match complete with
    | None => mret (Some (_run_row row))
    | Some complete =>
        update_ts_run run_id (ts_finished heartbeat_at) ;;
        commit ;;
        mark_lab_assets_complete_for_run run_id ;;
        append_event run_id "full_os" "cloudosd_v2_completion_gate_satisfied" "info"
          (Some "AutopilotAgent v2 full-OS steps and heartbeat gate are complete")
          (completion_json status) ;;
        mret (Some (_run_row complete))
    end.

Definition mark_complete_from_heartbeat (run_id : string) (heartbeat_at : Z) (hb : option agent_heartbeat) :
    eff session (option cloud_run) :=
  now ← now;
  current ← query (λ d, cloud_runs (cloud_of d) !! run_id);
  match current with
  | None => mret None
  | Some current =>
      if decide (cr_state current = CloudFailed) then mret (Some (_run_row current))
      else
        let domain_join := stored_domain_join (cq_domain_join (cr_request current)) None in
        let verification := domain_join_verification domain_join hb in
        if _domain_join_enabled domain_join && negb (jv_matched verification) then
          wait_for_domain run_id heartbeat_at now verification
        else
          row ← update_unless CloudFailed run_id (cloud_waiting WaitingV2 heartbeat_at now);
          match row with
          | None => commit ;; mret None
          | Some row =>
              update_ts_run run_id (ts_waiting "full_os_waiting_v2") ;;
              commit ;;
              heartbeat_event run_id heartbeat_at ;;
              sync_ts_progress_for_run run_id ;;
              completion_gate run_id heartbeat_at now domain_join row
          end
  end.

Definition mark_failed (run_id : string) (message : option string) : eff session (option cloud_run) :=
  now ← now;
  row ← update_unless CloudComplete run_id (set_cr_state CloudFailed now);
  (match row with
   | None => mret tt
   | Some _ => update_ts_run run_id (λ r, set_ts_run RunFailed (coalesce (rn_phase r) (Some "pe"))
       (coalesce (rn_finished_at r) (Some now)) (coalesce message (rn_last_error r)) r)
   end) ;;
  commit ;;
  mret (_run_row <$> row).

Definition mark_osdcloud_started (run_id : string) : eff session (option cloud_run) :=
  now ← now;
  row ← update_cloud_run run_id (reach_times None (Some now) None None now);
  commit ;;
  mret (_run_row <$> row).

Definition mark_osdcloud_finished (run_id : string) : eff session (option cloud_run) :=
  now ← now;
  row ← update_cloud_run run_id (reach_times None None (Some now) None now);
  commit ;;
  mret (_run_row <$> row).

Definition requeue_agent_v2_step (run_id step_id requested_by : string) : eff session step_row :=
  step ← get_step step_id;
  if decide (ps_run_id (st_plan step) ≠ run_id) then raise (ValueError "step/run mismatch")
  else if decide (ps_phase (st_plan step) ≠ "full_os" ∨
                  ps_kind (st_plan step) ∉ AGENT_OPERATOR_RETRY_KINDS) then
    raise (ValueError "only failed agent-owned OSDCloud full-OS steps can be requeued")
  else
    updated ← requeue_step run_id step_id requested_by
      (Some ("Operator requeued OSDCloud v2 step " +:+ ps_kind (st_plan step)));
    now ← now;
    update_unless CloudComplete run_id (set_cr_state WaitingV2 now) ;;
    commit ;;
    append_event run_id
      (if decide (ps_kind (st_plan updated) = "verify_ad_domain_join") then "domain_join" else "AutopilotAgent")
      "cloudosd_v2_step_requeued" "warning" (Some ("Operator requeued " +:+ ps_kind (st_plan updated)))
      (JObj [("step_id", JStr step_id); ("kind", JStr (ps_kind (st_plan updated)));
             ("requested_by", JStr requested_by)]) ;;
    mret updated.

(** ** The archive *)

Definition archive_run (run_id archived_by reason : string) : eff session (option cloud_run) :=
  now ← now;
  row ← update_cloud_run run_id (λ r,
    set_cr_archive (coalesce (cr_archived_at r) (Some now)) (coalesce (cr_archived_by r) (Some archived_by))
      (coalesce (nonempty_id (cr_archive_reason r)) (nonempty_id (Some reason))) now r);
  commit ;;
  mret (_run_row <$> row).

Definition unarchive_run (run_id : string) : eff session (option cloud_run) :=
  now ← now;
  row ← update_cloud_run run_id (set_cr_archive None None None now);
  commit ;;
  mret (_run_row <$> row).

Definition archivable (states : list string) (before : Z) (source_surface : option string)
    (kr : string * cloud_run) : Prop :=
  cr_archived_at kr.2 = None ∧ cloud_state_text (cr_state kr.2) ∈ states ∧
  (cr_updated_at kr.2 ≤ before)%Z ∧ (source_surface = None ∨ source_surface = Some (surface kr.2)).

#[export] Instance archivable_dec states before source_surface kr :
  Decision (archivable states before source_surface kr).
Proof. unfold archivable. apply _. Defined.

Definition archive_runs_by_filter (states : list string) (older_than_hours : Z) (archived_by reason : string)
    (source_surface : option string) : eff session (list (string * cloud_run)) :=
  if decide (states = []) then mret []
  else
    now_ ← now;
    at_ ← now;
    let stale := archivable states (at_ - hours older_than_hours) source_surface in
    let archived := set_cr_archive (Some now_) (Some archived_by) (nonempty_id (Some reason)) now_ in
    rows ← query (λ d, select_where stale (cloud_runs (cloud_of d)));
    on_cloud (set_cloud_runs (update_where stale archived)) ;;
    commit ;;
    mret ((λ kr, (kr.1, _run_row (archived kr.2))) <$> rows).

(** ** Autopilot *)

Definition get_autopilot_readiness (run_id : string) : eff session (option autopilot_readiness) :=
  query (λ d, autopilot (cloud_of d) !! run_id).

(** [given] holds the arguments of the call; its times of observation are not read. *)
Definition upsert_autopilot_readiness (run_id : string) (given : autopilot_readiness) :
    eff session autopilot_readiness :=
  now ← now;
  let r := AutopilotReadiness (ap_state given) (ap_expected_group_tag given) (ap_hash_status given)
    (ap_hash_filename given) (ap_hash_sha256 given) (ap_hash_serial given) (ap_upload_status given)
    (ap_upload_job_id given) (ap_upload_started_at given) (ap_upload_finished_at given)
    (ap_upload_error given) (ap_autopilot_device_id given) (ap_imported_serial given)
    (ap_imported_group_tag given) (ap_assignment_status given) (ap_enrollment_status given)
    (ap_contact_state given) (ap_cache_status given) (ap_cache_synced_at given) (Some now)
    (ap_errors given) now in
  store_autopilot run_id r ;;
  commit ;;
  mret r.

(** [given] holds the arguments of the call; its time is not read. *)
Definition record_autopilot_upload_attempt (given : upload_attempt) : eff session upload_attempt :=
  now ← now;
  let a := UploadAttempt (ua_run_id given) (ua_job_id given) (ua_hash_filename given)
    (ua_expected_group_tag given) (ua_status given) (ua_started_at given) (ua_finished_at given)
    (ua_error given) (ua_stdout_tail given) (ua_stderr_tail given) now in
  insert_upload_attempt a ;;
  commit ;;
  mret a.

(** Newest first; of two of the same time the one inserted later. *)
Definition latest_autopilot_upload_attempt (run_id : string) : eff session (option upload_attempt) :=
  query (λ d, head (isort (cmp_desc (cmp_on ua_created_at cmp_Z))
    (reverse (filter (λ a, ua_run_id a = run_id) (upload_attempts (cloud_of d)))))).

(** ** The pause Graph asks for *)

Definition get_graph_sync_state (key : string) : eff session (option graph_sync) :=
  query (λ d, graph_sync_state (cloud_of d) !! key).

Definition set_graph_sync_backoff (key : string) (retry_after_until : Z) (last_error : string) :
    eff session unit :=
  now ← now;
  on_cloud (set_graph_sync_state (partial_alter (λ old,
    Some (GraphSync (Some retry_after_until) (from_option (λ g, gs_backoff_attempts g + 1) 1 old)%Z
            (Some last_error) now)) key)) ;;
  commit.

Definition clear_graph_sync_backoff (key : string) : eff session unit :=
  now ← now;
  on_cloud (set_graph_sync_state (<[key := GraphSync None 0 None now]>)) ;;
  commit.

Definition graph_sync_backoff_active (key : string) : eff session (option graph_sync) :=
  now ← now;
  g ← get_graph_sync_state key;
  mret match g with
       | Some g => if from_option (λ t, bool_decide (now < t)%Z) false (gs_retry_after_until g) then Some g else None
       | None => None
       end.
End operations.

(** * Creating a deployment of CloudOSD

    What [create_run] leaves: the plan of the generated sequence in the engine, the
    deployment with what was asked for, and its first event. *)

Section plan.
Context `{Env} `{Sha256} `{StrSet} `{Secrets} `{IsoTime}.

(** ** The generated sequence *)

Definition generated_of (domain_join : json) (vm_group_tag : string) (spec : step_spec) : generated_step :=
  let kind := ss_kind spec in
  GeneratedStep (ss_name spec) kind (ss_phase spec)
    (_step_params_for_cloudosd_sequence kind domain_join vm_group_tag) (step_retries kind)
    (step_delay kind) (step_reboot kind).

Definition plan_of (domain_join : json) (vm_group_tag : string) : list generated_step :=
  generated_of domain_join vm_group_tag <$> steps_of_deployment domain_join.

Lemma cloud_sequence_generate name domain_join vm_group_tag s :
  _create_sequence_for_run name domain_join vm_group_tag s =
  generate name "Generated OSDCloud deployment sequence" "cloudosd" (plan_of domain_join vm_group_tag) s.
Proof.
  unfold _create_sequence_for_run, generate, plan_of. rewrite !run_bind.
  destruct (create_sequence _ _ _ _ s) as [[sid|e] s1]; [|done].
  by rewrite !run_bind, imap_pair_fmap, for_each_fmap.
Qed.

(** ** Events *)

Definition event_of (run_id phase event_type severity : string) (message : option string) (data : json)
    (at_ : Z) : cloud_event :=
  CloudEvent run_id phase event_type severity message (jor data (JObj [])) at_.

Definition with_event (e : cloud_event) (d : db) : db :=
  set_osdeploy (set_cloud (set_cloud_events (λ es, es ++ [e]))) d.

Lemma run_append_cloud_event run_id phase et sev msg data s :
  append_event run_id phase et sev msg data s =
  if known (cloud_runs (cloud_of (cur s))) run_id then
    let e := event_of run_id phase et sev msg data (clock (tick s)) in
    let d := with_event e (cur s) in (Ret e, Session d d (S (tick s)) (issued s))
  else (Exc (IntegrityError "cloudosd_run_events_run_id_fkey"),
        Session (cur s) (committed s) (S (tick s)) (issued s)).
Proof.
  unfold append_event, insert_cloud_event. run. by destruct (known _ run_id).
Qed.

(** ** What is created *)

Definition created_tables (a : cloud_args) (run_id : string) (config local_admin : json) (now event_at : Z)
    (t : cloud_tables) : cloud_tables :=
  set_cloud_events (λ es, es ++
    [event_of run_id "controller" "run_created" "info" (Some "OSDCloud run created") JNull event_at])
  (set_cloud_runs (<[run_id := new_cloud_run a run_id
      (normalize_windows_computer_name (Some (cg_vm_name a))) config local_admin now]>) t).

Lemma create_cloud_run a s s' run_id row :
  sequences_known (cur s) →
  (∀ id st, steps (cur s) !! id = Some st → known (runs (cur s)) (ps_run_id (st_plan st)) = true) →
  create_run a s = (Ret (run_id, row), s') →
  ∃ artifact config moment r now event_at,
    cloud_artifacts (cloud_of (cur s)) !! cg_artifact_id a = Some artifact ∧
    ca_architecture artifact = cg_architecture a ∧
    normalize_windows_computer_name (Some (cg_vm_name a)) ≠ EmptyString ∧
    _sanitize_domain_join (cg_domain_join a)
      (Some (normalize_windows_computer_name (Some (cg_vm_name a)))) = Ret config ∧
    Forall2 (is_planned run_id) (imap pair (plan_of config (cg_vm_group_tag a)))
      (run_steps run_id (cur s')).*2 ∧
    runs (cur s) !! run_id = None ∧ cloud_runs (cloud_of (cur s)) !! run_id = None ∧
    runs (cur s') = <[run_id := r]> (runs (cur s)) ∧ rn_state r = RunNamed "cloudosd_created" ∧
    osdeploy (cur s') = set_cloud (created_tables a run_id config
      (_sanitize_local_admin moment (cg_local_admin a) true) now event_at) (osdeploy (cur s)) ∧
    (∀ id st, steps (cur s) !! id = Some st → steps (cur s') !! id = Some st) ∧
    committed s' = cur s'.
Proof.
  intros Hseq Hsteps. unfold create_run. rewrite run_bind. unfold get_artifact. rewrite run_query.
  destruct (cloud_artifacts _ !! _) as [artifact|] eqn:Ha; [|done].
  case_decide as Harch; [done|]. cbv zeta. case_decide as Hname; [done|].
  rewrite run_bind. unfold lift_outcome. destruct (_sanitize_domain_join _ _) as [config|] eqn:Hconf; [|done].
  rewrite run_bind. cbn [password_moment]. rewrite run_bind, cloud_sequence_generate.
  destruct (generate _ _ _ _ s) as [[vid|e] s1] eqn:E1; [|done].
  rewrite run_bind. destruct (create_run_from_version _ _ _ _ _ s1) as [[rid|e] s2] eqn:E2; [|done].
  destruct (generate_create_run _ _ _ _ _ _ _ _ _ _ _ _ Hseq Hsteps E1 E2)
    as (Hplan & Hnew & (r & Hr2 & _ & _) & Ho2 & Hst2 & Hc2).
  rewrite run_bind, run_now. unfold insert_cloud_run, update_ts_run.
  set (row0 := new_cloud_run _ _ _ _ _ _).
  rewrite !run_bind, run_query, run_checked. destruct (_ && _ && _ && _) eqn:Hok; [|done].
  rewrite !andb_true_iff, !negb_true_iff, !known_false in Hok. destruct Hok as [[[Hno _] _] _].
  rewrite run_bind, run_execute, run_bind, run_commit, run_bind, run_append_cloud_event.
  assert (known (cloud_runs (cloud_of (set_runs (alter (λ r0, set_ts_run (RunNamed "cloudosd_created")
    (Some "cloudosd") (rn_finished_at r0) (rn_last_error r0) r0) rid)
    (set_osdeploy (set_cloud (set_cloud_runs (<[rid := row0]>))) (cur s2))))) rid = true) as Hk.
  { apply known_true. simpl. rewrite lookup_insert_eq. eauto. }
  cbn [on_cur cur tick issued committed] in *. rewrite Hk. cbv zeta. intros [= <- <- <-]. cbn [cur committed].
  assert (cloud_of (cur s2) = cloud_of (cur s)) as Hcl by (unfold cloud_of; by rewrite Ho2).
  rewrite Hcl in Hno.
  eexists artifact, config, (issued s), _, (clock (tick s2)), (clock (S (tick s2))). split_and!; try done.
  - simpl. by rewrite Hr2, alter_insert_eq.
  - done.
  - simpl. by rewrite Ho2.
Qed.
End plan.
