(* ===== verification/CloudScripts.v ===== *)
(** * The scripts CloudOSD runs in a guest

    The texts of [web/cloudosd_domain_join.py]: the PowerShell scripts that ask a machine
    whether it is in a domain, join it, and read its hardware hash; what their output says;
    and the calls to the API of Proxmox that run a script in a guest and wait for it. *)

From stdpp Require Import base gmap list strings pretty sorting.
From Stdlib Require Import ZArith Lia Ascii.
From S2P Require Import Prelude Json JsonParse Text CloudNames.

(** ** Output *)

(** [str(result.get(key) or "")] *)
Definition output (key : string) (result : json) : string := py_str (jor (jget key result) (JStr EmptyString)).

(** [(result or {}).get("out-data")] of what was printed. *)
Definition probe_is_domain_joined (exec_result : json) : bool :=
  PyStr.contains "DOMAIN=True" (output "out-data" exec_result).

Definition join_succeeded (exec_result : json) : bool :=
  py_eq (jget "exitcode" exec_result) (JInt 0) && PyStr.contains "JOIN_OK" (output "out-data" exec_result).

(** ** Texts

    Scripts hold names from outside, so their texts are all that Python has: sequences of
    code points.  The texts of the rest of the model are those of code points below 256. *)

Definition text : Type := list N.

Definition points (s : string) : text := N_of_ascii <$> String.list_ascii_of_string s.

(** A code point that is a character; the surrogates are none. *)
Definition scalar (c : N) : Prop := (c < 55296 ∨ 57344 ≤ c < 1114112)%N.

#[export] Instance scalar_dec c : Decision (scalar c).
Proof. unfold scalar. apply _. Defined.

(** The units of UTF-16: characters above U+FFFF are a pair of surrogates. *)
Definition utf16_units (c : N) : list N :=
  (if decide (c < 65536) then [c] else [55296 + (c - 65536) / 1024; 56320 + (c - 65536) mod 1024])%N.

Definition little_endian (u : N) : list N := [u mod 256; u / 256]%N.

(** [s.encode("utf-16-le")], which refuses surrogates. *)
Definition utf_16_le (t : text) : outcome (list N) :=
  if decide (Forall scalar t) then Ret (flat_map little_endian (flat_map utf16_units t))
  else Exc (ValueError "surrogates not allowed").

(** ** Scripts *)

(** [str(value or "").replace("'", "''")] of a text. *)
Definition _ps_quote (value : text) : text := flat_map (λ c, if decide (c = 39%N) then [c; c] else [c]) value.

Definition _PROBE_PS : text := points (
  "$cs = Get-CimInstance Win32_ComputerSystem; " +:+
  "[Console]::Out.WriteLine('DOMAIN=' + $cs.PartOfDomain + ';NAME=' + $cs.Domain " +:+
  "+ ';HOST=' + $env:COMPUTERNAME)").

Definition _REBOOT_PS : text := points "Restart-Computer -Force".

Definition encode_powershell (script : text) : outcome string := bs ← utf_16_le script; Ret (base64 bs).

Definition qualify_user (username : string) (domain_join : json) : string :=
  let username := PyStr.strip username in
  if decide (username = EmptyString) then username
  else if has_char 92 username || has_char 64 username then username
  else
    let domain := PyStr.strip (py_str (jor (jget "credential_domain" domain_join)
      (jor (jget "domain_fqdn" domain_join) (JStr EmptyString)))) in
    if decide (domain = EmptyString) then username else username +:+ "@" +:+ domain.

Definition build_join_powershell (username password domain ou_path : text) : outcome text :=
  let ou_clause := if decide (ou_path = []) then []
                   else points " -OUPath '" ++ _ps_quote ou_path ++ points "'" in
  bs ← utf_16_le password;
  let password_b64 := base64 bs in
  Ret (points "$ErrorActionPreference='Stop';" ++
    points "$pw = ConvertTo-SecureString ([Text.Encoding]::Unicode.GetString(" ++
    points "[Convert]::FromBase64String('" ++ points password_b64 ++ points "'))) -AsPlainText -Force;" ++
    points "$c = New-Object System.Management.Automation.PSCredential('" ++ _ps_quote username ++ points "',$pw);" ++
    points "Add-Computer -DomainName '" ++ _ps_quote domain ++ points "'" ++ ou_clause ++
    points " -Credential $c -Force;" ++ points "Write-Output 'JOIN_OK'").

Definition _HASH_CAPTURE_PS : text := points (
  "$ErrorActionPreference='Stop';$ProgressPreference='SilentlyContinue';" +:+
  "$serial=(Get-CimInstance -Class Win32_BIOS).SerialNumber;" +:+
  "$h=(Get-CimInstance -Namespace root/cimv2/mdm/dmmap -Class MDM_DevDetail_Ext01 " +:+
  "-Filter " +:+ quote_mark +:+ "InstanceID='Ext' AND ParentID='./DevDetail'" +:+ quote_mark +:+
  ").DeviceHardwareData;" +:+
  "[Console]::Out.WriteLine('SERIAL=' + $serial);" +:+
  "[Console]::Out.WriteLine('HASH=' + $h)").

(** ** The hardware hash *)

(** The characters at which [str.splitlines] ends a line. *)
Definition is_line_break (c : ascii) : bool :=
  let n := N_of_ascii c in
  bool_decide ((10 ≤ n ≤ 13) ∨ (28 ≤ n ≤ 30) ∨ n = 133)%N.

(** [str.splitlines()]: a carriage return and a line feed after it end one line. *)
Fixpoint splitlines (s : string) : list string :=
  match s with
  | EmptyString => []
  | String c s =>
      if is_line_break c then
        EmptyString :: (match s with
                        | String d s' => if is_char 13 c && is_char 10 d then splitlines s' else splitlines s
                        | EmptyString => []
                        end)
      else match splitlines s with
           | [] => [String c EmptyString]
           | w :: ws => String c w :: ws
           end
  end.

(** [line[len(prefix):].strip()] when [line.startswith(prefix)] *)
Definition after_prefix (prefix line : string) : option string :=
  if String.prefix prefix line
  then Some (PyStr.strip (String.substring (String.length prefix) (String.length line) line))
  else None.

(** The serial number, the parts of the hash, and whether a hash was begun. *)
Definition hash_scan : Type := string * list string * bool.

Definition hash_line (st : hash_scan) (raw_line : string) : hash_scan :=
  let '(serial, hash_parts, in_hash) := st in
  let line := PyStr.strip raw_line in
  match after_prefix "SERIAL=" line, after_prefix "HASH=" line with
  | Some serial, _ => (serial, hash_parts, false)
  | None, Some part => (serial, [part], true)
  | None, None =>
      if in_hash && bool_decide (line ≠ EmptyString) then (serial, hash_parts ++ [line], in_hash) else st
  end.

Definition parse_hash_output (exec_result : json) : string * string :=
  let '(serial, hash_parts, _) :=
    foldl hash_line (EmptyString, [], false) (splitlines (output "out-data" exec_result)) in
  (serial, PyStr.join EmptyString hash_parts).

Definition _MIN_HARDWARE_HASH_LENGTH : nat := 512.

(** Why what was read is not a hash that can be stored. *)
Definition hash_problem (serial hardware_hash : string) : string :=
  if decide (serial = EmptyString) then "no serial in guest output"
  else if decide (hardware_hash = EmptyString) then "no hardware hash in guest output"
  else if decide (String.length hardware_hash < _MIN_HARDWARE_HASH_LENGTH)%nat then
    "hardware hash is " +:+ pretty (String.length hardware_hash) +:+ " chars, expected at least " +:+
    pretty _MIN_HARDWARE_HASH_LENGTH +:+ " (truncated capture)"
  else EmptyString.

(** ** Running a script in a guest *)

(** The API of Proxmox and the clock, in microseconds; a call may raise. *)
Class GuestApi (W : Type) : Type := {
  api_post : string → json → eff W json;
  api_get : string → eff W json;
  api_monotonic : eff W Z;
  api_sleep : Z → eff W unit
}.

Definition seconds (n : Z) : Z := (n * 1000000)%Z.

(** [value.get] raises when the value is no dictionary. *)
Definition dict_of {S} (v : json) : eff S json :=
  match v with JObj _ => mret v | _ => raise AttributeError end.

(** [f"{vmid}"] *)
Definition vmid_text (vmid : option Z) : string := from_option pretty "None" vmid.

Section exec.
Context {W : Type} `{!GuestApi W}.

Definition exec_timeout (pid node vmid : string) (timeout : Z) : exc :=
  CustomError "GuestExecTimeout" ("agent-exec pid=" +:+ pid +:+ " on " +:+ node +:+ "/" +:+ vmid +:+
    " did not exit within " +:+ pretty timeout +:+ "s").

(** The loop; [None] when the fuel is used up. *)
Fixpoint poll (fuel : nat) (status_path : string) (late : exc) (deadline : Z) : eff W (option json) :=
  match fuel with
  | O => mret None
  | S fuel =>
      answer ← api_get status_path;
      status ← dict_of answer;
      if truthy (jget "exited" status) then mret (Some status)
      else
        time ← api_monotonic;
        if decide (deadline ≤ time)%Z then raise late
        else
          api_sleep 2 ;;
          poll fuel status_path late deadline
  end.

(** What is done with the command; [timeout] is in seconds. *)
Definition exec_command (fuel : nat) (node : string) (vmid : option Z) (timeout : Z) (command : string) :
    eff W (option json) :=
  let machine := "/nodes/" +:+ node +:+ "/qemu/" +:+ vmid_text vmid +:+ "/agent/" in
  answer ← api_post (machine +:+ "exec")
    (JObj [("command", JArr (JStr <$> ["powershell"; "-NoProfile"; "-EncodedCommand"; command]))]);
  started ← dict_of answer;
  let pid := py_str (jget "pid" started) in
  start ← api_monotonic;
  poll fuel (machine +:+ "exec-status?pid=" +:+ pid) (exec_timeout pid node (vmid_text vmid) timeout)
    (start + seconds timeout)%Z.

Definition guest_exec_via_proxmox (fuel : nat) (node : string) (vmid : option Z) (script : text)
    (timeout : Z) : eff W (option json) :=
  command ← lift_outcome (encode_powershell script);
  exec_command fuel node vmid timeout command.
End exec.
