(* ===== verification/CloudService.v ===== *)
(** * Requests about deployments of Windows clients

    The handlers of [web/cloudosd_endpoints.py] that change deployments, the result of a
    step as [web/osd_v2_endpoints.py] passes it on, and the writes of the reconciliation
    with Autopilot.  Tokens and the checks of the preflight are not modelled: a request that
    passes them is any request.  What telemetry knows of a run - its newest heartbeat - is
    an argument of the requests that read it. *)

From stdpp Require Import base gmap list strings pretty sorting relations.
From Stdlib Require Import ZArith Lia.
From S2P Require Import Prelude Json Text JsonParse Digest CloudData OsdeployData TsData Conditions Tree Sequences Content Runs RunState Engine OsdeployRoles OsdeployRuns OsdeployService CloudNames Bubbles CloudRuns.

Section service.
Context `{Env} `{Sha256} `{StrSet} `{Secrets} `{IsoTime}.

(** [if not run: raise HTTPException(status_code=404, ...)] *)
Definition found_run {A} (run : option A) : eff session A :=
  match run with
  | None => raise (http_error 404 "CloudOSD run not found")
  | Some run => mret run
  end.

(** [except ValueError as exc: raise HTTPException(status_code=409, detail=str(exc))] *)
Definition value_error_409 {A} (m : eff session A) : eff session A := λ s,
  match m s with
  | (Exc (ValueError message), s') => (Exc (http_error 409 message), s')
  | r => r
  end.

(** ** Creating *)

Definition _MIN_CLOUDOSD_MEMORY_MB : Z := 6144.

(** A body: the arguments of [create_run], and where the machine belongs. *)
Record run_body : Type := RunBody {
  rb_args : cloud_args;
  rb_bubble_id : option string;
  rb_asset_role : string
}.

(** [value.strip()] of the texts that are stripped. *)
Definition stripped_args (a : cloud_args) (source_surface : string) (domain_join : json) : cloud_args :=
  CloudArgs (cg_artifact_id a) (cg_vm_name a) (cg_node a) (cg_iso_storage a) (cg_storage a)
    (cg_network_bridge a) (cg_requested_vmid a) (cg_architecture a) (cg_os_version a) (cg_os_activation a)
    (cg_os_edition a) (cg_os_language a) (cg_vm_cores a) (cg_vm_memory_mb a) (cg_vm_disk_size_gb a)
    (PyStr.strip (cg_vm_group_tag a)) (PyStr.strip (cg_vm_oem_profile a)) (cg_chassis_type_override a)
    source_surface (cg_source_sequence_id a) (cg_tpm_enabled a) (cg_secure_boot a)
    (cg_firmware_updates_enabled a) (cg_driver_pack_policy a) (cg_analytics_enabled a)
    (cg_outbound_policy a) domain_join JNull.

(** The artifact must have been uploaded. *)
Definition published_artifact (artifact_id : string) : eff session cloud_artifact :=
  artifact ← get_artifact artifact_id;
  match artifact with
  | None => raise (http_error 404 "CloudOSD artifact not found")
  | Some a =>
      if decide (nonempty_id (ca_proxmox_volid a) = None)
      then raise (http_error 409 "CloudOSD artifact is not uploaded to Proxmox ISO storage")
      else mret a
  end.

Definition known_bubble (bubble_id : option string) : eff session unit :=
  match nonempty_id bubble_id with
  | None => mret tt
  | Some b =>
      found ← get_bubble b;
      match found with None => raise (http_error 404 "Bubble not found") | Some _ => mret tt end
  end.

(** The deployment, and the machine in its bubble.  [vmid] is what the number of the
    machine falls back on. *)
Definition create_in_bubble (a : cloud_args) (bubble_id : option string) (asset_role : string) :
    eff session (string * cloud_run) :=
  value_error_400 (
    run ← create_run a;
    (match nonempty_id bubble_id with
     | None => mret tt
     | Some b =>
         add_asset b "vm" asset_role (cg_requested_vmid a) None (Some run.1) None None "provisioning" "unknown"
           EmptyString "cloudosd" ;; mret tt
     end) ;;
    mret run).

(** [clear]: the preflight has no blocking checks.  This handler gives no domain. *)
Definition post_run (clear : bool) (b : run_body) : eff session (string * cloud_run) :=
  if decide (cg_vm_memory_mb (rb_args b) < _MIN_CLOUDOSD_MEMORY_MB)%Z then
    raise (http_error 400 ("CloudOSD Proxmox VMs need at least " +:+ pretty _MIN_CLOUDOSD_MEMORY_MB +:+ " MB RAM"))
  else if negb clear then raise (http_error 409 "CloudOSD blocking preflight checks failed")
  else
    known_bubble (rb_bubble_id b) ;;
    published_artifact (cg_artifact_id (rb_args b)) ;;
    create_in_bubble
      (stripped_args (rb_args b) (PyStr.or_else (PyStr.strip (cg_source_surface (rb_args b))) "cloudosd") JNull)
      (rb_bubble_id b)
      (PyStr.or_else (PyStr.strip (PyStr.or_else (rb_asset_role b) "workstation")) "workstation").

(** ** The machine *)

Definition post_identity (run_id : string) (vmid : Z) (vm_uuid mac : string) (node computer_name : option string) :
    eff session cloud_run :=
  run ← set_run_identity run_id vmid vm_uuid mac node computer_name;
  found_run run.

Definition pe_register (vm_uuid mac architecture : string) (build_sha : option string) : eff session cloud_run :=
  run ← find_run_by_identity vm_uuid mac (Some architecture) build_sha;
  match run with
  | None => raise (http_error 404 "matching CloudOSD run not found")
  | Some run =>
      run ← mark_pe_registered run.1;
      match run with Some run => mret run | None => raise TypeError end
  end.

Definition post_event (run_id phase event_type severity : string) (message : option string) (data : json) :
    eff session cloud_event :=
  run ← get_run run_id;
  found_run run ;;
  event ← append_event run_id phase event_type severity message data;
  (if decide (event_type = "osdcloud_start") then mark_osdcloud_started run_id ;; mret tt
   else if decide (event_type = "cloudosd_pe_complete") then mark_osdcloud_finished run_id ;; mret tt
   else mret tt) ;;
  (if decide (PyStr.lower severity = "error")
   then mark_failed run_id (Some (text_or message event_type)) ;; mret tt
   else mret tt) ;;
  sync_ts_progress_for_run run_id ;;
  mret event.

(** ** Looking at a deployment

    The page of a run, which completes it when its heartbeat shows that it is; [hb] is its
    newest heartbeat. *)
Definition view_run (run_id : string) (hb : option agent_heartbeat) : eff session cloud_run :=
  run ← get_run run_id;
  run ← found_run run;
  run ← match hb with
        | Some h =>
            if decide (cr_state run = CloudComplete) then mret (Some run)
            else mark_complete_from_heartbeat run_id (ah_received_at h) hb
        | None => mret (Some run)
        end;
  match run with
  | None => raise TypeError
  | Some run => sync_ts_progress_for_run run_id ;; mret run
  end.

Definition list_run_events (run_id : string) : eff session (list cloud_event) :=
  run ← get_run run_id;
  found_run run ;;
  sync_ts_progress_for_run run_id ;;
  list_events run_id.

Definition retry_v2_step (run_id step_id : string) : eff session step_row :=
  run ← get_run run_id;
  found_run run ;;
  step ← value_error_409 (requeue_agent_v2_step run_id step_id "operator");
  sync_ts_progress_for_run run_id ;;
  mret step.

(** ** Results of steps *)

Definition step_event (kind : string) : option (string * string * string) :=
  assoc kind
    [("capture_autopilot_hash",
       ("AutopilotAgent", "autopilotagent_v2_hash_capture_complete",
        "AutopilotAgent v2 reported Autopilot hardware hash capture complete"));
     ("wait_agent_heartbeat",
       ("AutopilotAgent", "autopilotagent_v2_heartbeat_confirmed",
        "AutopilotAgent v2 confirmed full-OS heartbeat"));
     ("verify_ad_domain_join",
       ("domain_join", "domain_join_verified", "AD domain membership verified by AutopilotAgent v2"))].

(** [{"step_id": ..., "agent_id": ..., **(data or {})}] *)
Definition step_event_data (step_id agent_id : string) (data : json) : json :=
  merge (JObj [("step_id", JStr step_id); ("agent_id", JStr agent_id)]) (jor data (JObj [])).

Definition _sync_cloudosd_after_step_result (run_id step_id agent_id status : string)
    (message : option string) (data : json) (step : step_row) (hb : option agent_heartbeat) :
    eff session unit :=
  match step_event (ps_kind (st_plan step)) with
  | Some (phase, event_type, default_message) =>
      if decide (status ≠ "success") then mret tt
      else
        try_or_rollback
          (run ← get_run run_id;
           match run with
           | None => mret tt
           | Some _ =>
               append_event run_id phase event_type "info" (Some (text_or message default_message))
                 (step_event_data step_id agent_id data) ;;
               match hb with
               | None => mret tt
               | Some h => mark_complete_from_heartbeat run_id (ah_received_at h) hb ;; mret tt
               end
           end)
  | None => mret tt
  end.

(** The result of a step of any run, as CloudOSD and OSDeploy are told of it. *)
Definition post_step_result (run_id step_id agent_id phase status : string) (message : option string)
    (data : json) (hb : option agent_heartbeat) : eff session step_row :=
  step ← query (λ d, steps d !! step_id);
  match step with
  | None => raise (http_error 404 "step not found")
  | Some step =>
      if decide (ps_run_id (st_plan step) ≠ run_id) then raise (http_error 403 "step/run mismatch")
      else if decide (ps_phase (st_plan step) ∉ [phase; "any"]) then
        raise (http_error 409 "step phase mismatch")
      else
        updated ← value_error_400 (complete_step run_id step_id agent_id status message data);
        _sync_cloudosd_after_step_result run_id step_id agent_id status message data step hb ;;
        _sync_osdeploy_after_step_result run_id agent_id status message data step updated ;;
        mret updated
  end.

(** ** The archive *)

Definition post_archive (run_id reason : string) : eff session cloud_run :=
  run ← archive_run run_id "operator" reason;
  run ← found_run run;
  append_event run_id "controller" "run_archived" "info" (Some "CloudOSD run hidden from default history")
    (JObj [("reason", JStr reason)]) ;;
  mret run.

Definition post_unarchive (run_id : string) : eff session cloud_run :=
  run ← unarchive_run run_id;
  run ← found_run run;
  append_event run_id "controller" "run_unarchived" "info"
    (Some "CloudOSD run restored to default history") JNull ;;
  mret run.

Definition _archive_runs_bulk (states : list string) (older_than_hours : Z) (reason event_type : string) :
    eff session (list (string * cloud_run)) :=
  runs ← archive_runs_by_filter states older_than_hours "operator" reason None;
  for_each runs (λ kr, append_event kr.1 "controller" event_type "info"
    (Some "CloudOSD run hidden from default history")
    (JObj [("reason", JStr reason); ("bulk", JBool true)]) ;; mret tt) ;;
  mret runs.

(** [max(1, int(hours or default))] *)
Definition hours_or (default hours : Z) : Z := Z.max 1 (if decide (hours = 0%Z) then default else hours).

Definition archive_stale_failed_runs (older_than_hours : Z) : eff session (list (string * cloud_run)) :=
  _archive_runs_bulk ["failed"] (hours_or 12 older_than_hours) "stale failed CloudOSD run"
    "stale_failed_runs_archived".

Definition archive_completed_old_runs (older_than_hours : Z) : eff session (list (string * cloud_run)) :=
  _archive_runs_bulk ["complete"] (hours_or 24 older_than_hours) "completed CloudOSD run hidden from default history"
    "completed_old_runs_archived".
End service.
