(* ===== verification/CloudInvariant.v ===== *)
(** * What deployments of Windows clients keep

    The statements the handlers of CloudOSD are made of, as an interface: an invariant of
    the database that all of them keep is kept by every request ([CloudStatements]).  The
    invariants of the engine and of OSDeploy are among them, but a deployment may be done
    while steps of its run are not.  The second part holds the rules of the
    tables of CloudOSD ([wf_cloud]). *)

From stdpp Require Import base gmap list strings pretty sorting relations.
From Stdlib Require Import ZArith Lia Ascii.
From S2P Require Import Prelude Json Text JsonParse Digest CloudData OsdeployData TsData Conditions Tree Sequences Content Runs RunState Engine OsdeployRoles OsdeployRuns OsdeployPlan OsdeployService OsdeployInvariant OsdeployTables IpNetwork CloudNames Bubbles BubbleInvariant CloudRuns CloudService.

Section invariant.
Context `{Env} `{Sha256} `{StrSet} `{Secrets} `{IsoTime}.

(** ** All requests *)

Inductive cloud_request_op : Type :=
| CloudArtifactBuilt (given : cloud_artifact) (built_at : option Z)
| CloudVolid (artifact_id volid : string) (job_id : option string)
| CloudPostRun (clear : bool) (b : run_body)
| CloudCreate (a : cloud_args) (bubble_id : option string) (asset_role : string)
| CloudIdentity (run_id : string) (vmid : Z) (vm_uuid mac : string) (node computer_name : option string)
| CloudRegister (vm_uuid mac architecture : string) (build_sha : option string)
| CloudPostEvent (run_id phase event_type severity : string) (message : option string) (data : json)
| CloudView (run_id : string) (hb : option agent_heartbeat)
| CloudListEvents (run_id : string)
| CloudRetry (run_id step_id : string)
| CloudStepResult (run_id step_id agent_id phase status : string) (message : option string) (data : json)
    (hb : option agent_heartbeat)
| CloudSyncAll
| CloudNote (run_id phase event_type severity : string) (message : option string) (data : json)
| CloudReadiness (run_id : string) (given : autopilot_readiness)
| CloudAttempt (given : upload_attempt)
| CloudBackoff (key : string) (retry_after_until : Z) (last_error : string)
| CloudClearBackoff (key : string)
| CloudArchive (run_id reason : string)
| CloudUnarchive (run_id : string)
| CloudArchiveStale (hours : Z)
| CloudArchiveCompleted (hours : Z)
| CloudStepDone (run_id : string) (kinds : list string) (agent_id : string) (message : option string) (data : json)
| CloudBubbles (r : bubble_request).

(** [CloudComplete] is a round of a batch, and the statements of the passes over the guests
    are [CloudStepDone], [CloudNote] and [CloudView]. *)
Definition serve_cloud (r : cloud_request_op) : eff session unit :=
  match r with
  | CloudArtifactBuilt g b => create_artifact g b ;; mret tt
  | CloudVolid a v j => update_artifact_proxmox_volid a v j ;; mret tt
  | CloudPostRun c b => post_run c b ;; mret tt
  | CloudCreate a b r => create_in_bubble a b r ;; mret tt
  | CloudIdentity r v u m n c => post_identity r v u m n c ;; mret tt
  | CloudRegister u m a b => pe_register u m a b ;; mret tt
  | CloudPostEvent r p e sv m d => post_event r p e sv m d ;; mret tt
  | CloudView r hb => view_run r hb ;; mret tt
  | CloudListEvents r => list_run_events r ;; mret tt
  | CloudRetry r st => retry_v2_step r st ;; mret tt
  | CloudStepResult r st a p s m d hb => post_step_result r st a p s m d hb ;; mret tt
  | CloudSyncAll => sync_all_ts_progress
  | CloudNote r p e sv m d => append_event r p e sv m d ;; mret tt
  | CloudReadiness r g => upsert_autopilot_readiness r g ;; mret tt
  | CloudAttempt g => record_autopilot_upload_attempt g ;; mret tt
  | CloudBackoff k u e => set_graph_sync_backoff k u e
  | CloudClearBackoff k => clear_graph_sync_backoff k
  | CloudArchive r rs => post_archive r rs ;; mret tt
  | CloudUnarchive r => post_unarchive r ;; mret tt
  | CloudArchiveStale h => archive_stale_failed_runs h ;; mret tt
  | CloudArchiveCompleted h => archive_completed_old_runs h ;; mret tt
  | CloudStepDone r ks a m d => mark_steps_done_by_kind r ks a m d ;; mret tt
  | CloudBubbles r => serve_bubbles r
  end.

(** ** Statements *)

Class CloudStatements (I : db → Prop) : Prop := {
  ct_artifact id a : preserves I (insert_cloud_artifact id a);
  ct_artifacts f id : preserves I (on_cloud (set_cloud_artifacts (alter f id)));
  ct_event e : preserves I (insert_cloud_event e);
  ct_run id f : (∀ r, cr_request (f r) = cr_request r) → preserves I (on_cloud (set_cloud_runs (alter f id)));
  ct_archive (P : string * cloud_run → Prop) `{∀ x, Decision (P x)} f : (∀ r, cr_request (f r) = cr_request r) →
    preserves I (on_cloud (set_cloud_runs (update_where P f)));
  ct_readiness id r : preserves I (store_autopilot id r);
  ct_attempt a : preserves I (insert_upload_attempt a);
  ct_graph f : preserves I (on_cloud (set_graph_sync_state f));
  ct_ts_run id g : unfinished g → preserves I (update_ts_run id g);
  ct_ts_done id g s : known (cloud_runs (cloud_of (cur s))) id = true → (∀ r, run_ok r → run_ok (g r)) →
    holds_in I s → holds_in I (update_ts_run id g s).2;
  ct_create a : preserves I (create_run a)
}.

Lemma preserves_value_error_409 {A} (I : db → Prop) (m : eff session A) :
  preserves I m → preserves I (value_error_409 m).
Proof. intros Hm s Hs. unfold value_error_409. specialize (Hm s Hs). by destruct (m s) as [[a|[]] s']. Qed.

Section kept.
Context (I : db → Prop) `{!CloudStatements I, !BubbleStatements I, !Keeps serve_run I, !Statements I}.

Lemma kept_update_cloud_run id f : (∀ r, cr_request (f r) = cr_request r) → preserves I (update_cloud_run id f).
Proof. intros Hf. pose proof (ct_run id f Hf). unfold update_cloud_run. preserves_solve. Qed.

Lemma kept_update_unless st id f : (∀ r, cr_request (f r) = cr_request r) → preserves I (update_unless st id f).
Proof. intros Hf. pose proof (kept_update_cloud_run id f Hf). unfold update_unless. preserves_solve. Qed.

Lemma kept_cloud_event r p e sv m d : preserves I (append_event r p e sv m d).
Proof. pose proof ct_event. unfold append_event. preserves_solve. Qed.

Lemma kept_sync_progress id : preserves I (sync_ts_progress_for_run id).
Proof.
  pose proof (kept_mark I). unfold sync_ts_progress_for_run, get_run, list_events. preserves_solve.
Qed.

Lemma kept_lab_assets id : preserves I (mark_lab_assets_complete_for_run id).
Proof. pose proof (kept_update_asset I). unfold mark_lab_assets_complete_for_run. preserves_solve. Qed.

(** A row that was updated is there. *)
Lemma update_unless_known st id f s r s' :
  update_unless st id f s = (Ret (Some r), s') → known (cloud_runs (cloud_of (cur s'))) id = true.
Proof.
  unfold update_unless, update_cloud_run. rewrite run_bind, run_query.
  destruct (cloud_runs _ !! id) as [r0|] eqn:E; [|done]. case_decide; [done|]. run.
  intros [= Hr <-]. apply known_true. eauto.
Qed.

Lemma kept_unless_then st id f {A} (rest : option cloud_run → eff session A) :
  (∀ r, cr_request (f r) = cr_request r) → preserves I (rest None) →
  (∀ r s, known (cloud_runs (cloud_of (cur s))) id = true → holds_in I s → holds_in I (rest (Some r) s).2) →
  preserves I (update_unless st id f ≫= rest).
Proof.
  intros Hf Hn Hr s Hs. rewrite run_bind. pose proof (kept_update_unless st id f Hf s Hs) as Hu.
  destruct (update_unless st id f s) as [[[r|]|e] s'] eqn:E; [|by apply Hn|done].
  apply Hr; [by eapply update_unless_known|done].
Qed.

Lemma ts_waiting_unfinished name : unfinished (ts_waiting name).
Proof.
  split; intros r; unfold ts_waiting, run_ok; simpl; case_decide as E; [done|done| |by intros _ [?|?]].
  by rewrite E.
Qed.

Lemma ts_finished_ok at_ r : run_ok r → run_ok (ts_finished at_ r).
Proof. intros _ _. unfold ts_finished. simpl. destruct (rn_finished_at r); simpl; eauto. Qed.

Lemma kept_gate id at_ now dj row : preserves I (completion_gate id at_ now dj row).
Proof.
  pose proof kept_cloud_event. pose proof kept_lab_assets.
  unfold completion_gate, v2_completion_status, list_run_steps.
  apply preserves_bind; [preserves_solve|intros status].
  destruct (negb _); [preserves_solve|].
  apply kept_unless_then; [done|preserves_solve|]. intros r s Hk Hs.
  rewrite run_bind. pose proof (ct_ts_done id (ts_finished at_) s Hk (ts_finished_ok at_) Hs) as Hd.
  unfold update_ts_run in *. rewrite run_execute in *. revert Hd.
  match goal with |- _ → holds_in I ((?m ≫= ?k) ?x).2 => assert (preserves I (m ≫= k)) as Hp by preserves_solve end.
  apply Hp.
Qed.

Lemma kept_cloud_heartbeat id at_ hb : preserves I (mark_complete_from_heartbeat id at_ hb).
Proof.
  pose proof kept_cloud_event. pose proof kept_sync_progress. pose proof kept_gate.
  pose proof (λ n, ct_ts_run id _ (ts_waiting_unfinished n)).
  assert (∀ st w now, preserves I (update_unless st id (cloud_waiting w at_ now))) by
    (intros; by apply kept_update_unless).
  unfold mark_complete_from_heartbeat, wait_for_domain, heartbeat_event. preserves_solve.
Qed.

Lemma kept_mark_failed id m : preserves I (mark_failed id m).
Proof.
  unfold mark_failed. pose proof (λ st w now, kept_update_unless st id (set_cr_state w now) (λ r, eq_refl)).
  preserves_solve. apply ct_ts_run. split; intros r; unfold run_ok; simpl; [done|].
  intros _ _. destruct (rn_finished_at r); simpl; eauto.
Qed.

Lemma kept_cloud_identity r v u m n c : preserves I (set_run_identity r v u m n c).
Proof.
  pose proof kept_cloud_event. unfold set_run_identity. preserves_solve.
  - by apply kept_update_cloud_run.
  - apply ct_ts_run. split; [done|]. intros ? _ [?|?]; done.
Qed.

Lemma kept_cloud_registered r : preserves I (mark_pe_registered r).
Proof.
  pose proof kept_cloud_event. unfold mark_pe_registered. preserves_solve.
  - by apply kept_update_cloud_run.
  - apply ct_ts_run. split; [done|]. intros ? _ [?|?]; done.
Qed.

Lemma kept_requeue r st by_ m : preserves I (requeue_step r st by_ m).
Proof. apply preserves_forget. exact (keeps (ReqRequeue r st by_ m)). Qed.

Lemma kept_cloud_requeue r st by_ : preserves I (requeue_agent_v2_step r st by_).
Proof.
  pose proof kept_cloud_event. pose proof kept_requeue.
  pose proof (λ st id now, kept_update_unless st id (set_cr_state WaitingV2 now) (λ r, eq_refl)).
  unfold requeue_agent_v2_step, get_step. preserves_solve.
Qed.

Lemma kept_in_bubble a b r : preserves I (create_in_bubble a b r).
Proof.
  pose proof ct_create. pose proof (kept_add_asset I).
  unfold create_in_bubble. apply (preserves_value_error I). preserves_solve.
Qed.

(** Every request of CloudOSD keeps what its statements keep. *)
#[export] Instance serve_cloud_keeps : Keeps serve_cloud I.
Proof.
  pose proof ct_artifact. pose proof ct_artifacts. pose proof ct_readiness. pose proof ct_attempt.
  pose proof ct_graph. pose proof kept_cloud_event. pose proof kept_sync_progress.
  pose proof kept_cloud_heartbeat. pose proof kept_mark_failed. pose proof kept_cloud_identity.
  pose proof kept_cloud_registered. pose proof kept_cloud_requeue. pose proof kept_in_bubble.
  pose proof (kept_complete I). pose proof (kept_role_step I). pose proof (kept_mark I).
  assert (∀ A (o : option A), preserves I (found_run o)) by (intros ? []; unfold found_run; preserves_solve).
  assert (∀ r, preserves I (serve_bubbles r)) by (intros r; apply keeps).
  intros []; simpl; unfold create_artifact, update_artifact_proxmox_volid, get_artifact, post_run,
    known_bubble, published_artifact, post_identity, pe_register, find_run_by_identity, post_event,
    mark_osdcloud_started, mark_osdcloud_finished, view_run, list_run_events, list_events,
    get_run, retry_v2_step, post_step_result, _sync_cloudosd_after_step_result,
    _sync_osdeploy_after_step_result, sync_all_ts_progress,
    upsert_autopilot_readiness, record_autopilot_upload_attempt, set_graph_sync_backoff,
    clear_graph_sync_backoff, post_archive, archive_run, post_unarchive, unarchive_run,
    archive_stale_failed_runs, archive_completed_old_runs, _archive_runs_bulk, archive_runs_by_filter;
    cbv zeta; preserves_solve.
  all: first [by apply kept_update_cloud_run|apply preserves_value_error_409; preserves_solve
             |apply (preserves_value_error I); preserves_solve
             |apply (preserves_try I); unfold get_run; preserves_solve|by apply ct_archive].
Qed.
End kept.

(** ** Invariants of the engine and of OSDeploy *)

(** Deployments are never deleted, and the bubbles are others' business. *)
Definition cloud_grows (g : cloud_tables → cloud_tables) : Prop :=
  ∀ t, lab (g t) = lab t ∧ ∀ id, known (cloud_runs t) id = true → known (cloud_runs (g t)) id = true.

(** Generating the sequence of a deployment is authoring. *)
Lemma kept_cloud_sequence I `{!Keeps serve_authoring I} name dj tag :
  preserves I (_create_sequence_for_run name dj tag).
Proof.
  pose proof (λ n d t c, preserves_forget I _ (keeps (ReqCreateSequence n d t c))).
  pose proof (λ s pa n k ph p e c v pr refs coe rc rd tm rb,
    preserves_forget I _ (keeps (ReqAddStep s pa n k ph p e c v pr refs coe rc rd tm rb))).
  pose proof (λ s c, preserves_forget I _ (keeps (ReqCompile s c))).
  unfold _create_sequence_for_run, add_generated_step. cbv zeta. preserves_solve.
Qed.

Section engine.
Context (I : db → Prop) `{!Keeps serve_authoring I, !Keeps serve_run I}.
Hypothesis tables : ∀ g d, cloud_grows g → I d → I (set_osdeploy (set_cloud g) d).
Hypothesis ts_run : ∀ id g d, unfinished g → I d → I (set_runs (alter g id) d).
Hypothesis ts_done : ∀ id g d, known (cloud_runs (cloud_of d)) id = true →
  (∀ r, run_ok r → run_ok (g r)) → I d → I (set_runs (alter g id) d).

Lemma preserves_cloud_checked (ok : cloud_tables → bool) c g :
  cloud_grows g → preserves I (t ← query cloud_of; checked (ok t) c (set_osdeploy (set_cloud g))).
Proof.
  intros Hg s [Hc Hm]. rewrite run_bind, run_query, run_checked. destruct (ok _); split; simpl; auto.
Qed.

Lemma cloud_grows_same g : (∀ t, lab (g t) = lab t ∧ cloud_runs (g t) = cloud_runs t) → cloud_grows g.
Proof. intros Hg t. destruct (Hg t) as [Hl Hr]. split; [done|]. intros id. by rewrite Hr. Qed.

Lemma cloud_statements_engine : CloudStatements I.
Proof.
  assert (∀ g, cloud_grows g → preserves I (on_cloud g)) as Hon.
  { intros g Hg. apply preserves_execute. intros d. by apply tables. }
  assert (∀ e, preserves I (insert_cloud_event e)) as Hev by
    (intros e; by apply preserves_cloud_checked, cloud_grows_same).
  split.
  - intros id a. by apply preserves_cloud_checked, cloud_grows_same.
  - intros f id. by apply Hon, cloud_grows_same.
  - done.
  - intros id f _. apply Hon. intros t. split; [done|]. intros k. simpl. by rewrite known_alter.
  - intros P HP f _. apply Hon. intros t. split; [done|]. intros k. simpl. rewrite !known_true. intros [r Hr].
    rewrite lookup_update_where, Hr. by eexists.
  - intros id r. by apply preserves_cloud_checked, cloud_grows_same.
  - intros a. by apply preserves_cloud_checked, cloud_grows_same.
  - intros f. by apply Hon, cloud_grows_same.
  - intros id g Hg. apply preserves_execute. intros d. by apply ts_run.
  - intros id g s Hk Hg [Hc Hm]. unfold update_ts_run. rewrite run_execute. split; simpl; [by apply ts_done|done].
  - intros a. pose proof (kept_cloud_sequence I). pose proof (kept_engine_run I).
    assert (∀ id r, preserves I (insert_cloud_run id r)).
    { intros id r. apply preserves_query_checked. intros d Hd _. apply tables; [|done].
      intros t. split; [done|]. intros k. simpl. apply known_insert. }
    unfold create_run, get_artifact, append_event. cbv zeta. preserves_solve.
    + by intros s Hs.
    + apply preserves_execute. intros d. apply ts_run. split; [done|]. intros r _ [?|?]; done.
Qed.
End engine.

#[export] Instance cloud_nodes : CloudStatements wf_nodes.
Proof. apply (cloud_statements_engine _); intros; by eapply wf_nodes_ext; [..|eassumption]. Qed.
#[export] Instance cloud_numbered : CloudStatements versions_numbered.
Proof. apply (cloud_statements_engine _); intros; by eapply numbered_ext; [..|eassumption]. Qed.
#[export] Instance cloud_hashes : CloudStatements hashes_match.
Proof. apply (cloud_statements_engine _); intros; by eapply hashes_ext; [..|eassumption]. Qed.
#[export] Instance cloud_versions_known : CloudStatements versions_known.
Proof. apply (cloud_statements_engine _); intros; (eapply versions_known_ext; [..|eassumption]); done. Qed.
#[export] Instance cloud_content : CloudStatements wf_content.
Proof.
  apply (cloud_statements_engine _); intros; eapply wf_content_ext; try eassumption; try done;
    intros k; simpl; by rewrite ?known_alter.
Qed.

(** The rules of OSDeploy do not look at CloudOSD. *)
Lemma wf_osdeploy_cloud g d : wf_osdeploy d → wf_osdeploy (set_osdeploy (set_cloud g) d).
Proof.
  intros [Hq He Hr Hev Hb Hc Hp Hone]. split; simpl; try done. intros id r Hid. by destruct (Hq id r Hid).
Qed.

#[export] Instance cloud_osdeploy : CloudStatements wf_osdeploy.
Proof.
  apply (cloud_statements_engine _); intros; [by apply wf_osdeploy_cloud|..];
    (eapply wf_osdeploy_ext; [..|eassumption]; [done|intros k; simpl; by rewrite known_alter]).
Qed.

(** A deployment may be done before its steps are: the invariant leaves it out. *)
Lemma wf_runs_cloud g d :
  (∀ t id, known (cloud_runs t) id = true → known (cloud_runs (g t)) id = true) → wf_runs d → wf_runs (set_osdeploy (set_cloud g) d).
Proof.
  intros Hg [Hs Ho Hr Hd]. split; simpl; [done..|]. intros id r sid st Hno. apply Hd.
  apply not_true_iff_false. intros Hk. unfold deployed in *. simpl in Hno. rewrite orb_false_iff in Hno.
  rewrite orb_true_iff in Hk. destruct Hno as [H1' H2'], Hk as [Hk|Hk]; [congruence|].
  apply (Hg (cloud (osdeploy d))) in Hk. congruence.
Qed.

#[export] Instance cloud_wf_runs : CloudStatements wf_runs.
Proof.
  apply (cloud_statements_engine _).
  - intros g d Hg. apply wf_runs_cloud. intros t. apply (Hg t).
  - intros id g d [Hg Hok] [Hs Ho Hr Hd]. split; simpl; [|done|..].
    + intros sid st Hst. rewrite known_alter. by apply (Hs sid).
    + intros k r [(r0 & -> & H' & ->)|[_ H']]%lookup_alter_Some_inv; eauto.
    + intros k r sid st Hno [(r0 & -> & H' & ->)|[_ H']]%lookup_alter_Some_inv; eauto.
  - intros id g d Hk Hok [Hs Ho Hr Hd]. split; simpl; [|done|..].
    + intros sid st Hst. rewrite known_alter. by apply (Hs sid).
    + intros k r [(r0 & -> & H' & ->)|[_ H']]%lookup_alter_Some_inv; eauto.
    + intros k r sid st Hno [(r0 & -> & H' & ->)|[_ H']]%lookup_alter_Some_inv; eauto.
      unfold deployed in Hno. unfold cloud_of in Hk. rewrite Hk, orb_true_r in Hno. done.
Qed.

#[export] Instance bubble_nodes : BubbleStatements wf_nodes.
Proof. apply bubble_statements_free. intros; by eapply wf_nodes_ext; [..|eassumption]. Qed.
#[export] Instance bubble_numbered : BubbleStatements versions_numbered.
Proof. apply bubble_statements_free. intros; by eapply numbered_ext; [..|eassumption]. Qed.
#[export] Instance bubble_hashes : BubbleStatements hashes_match.
Proof. apply bubble_statements_free. intros; by eapply hashes_ext; [..|eassumption]. Qed.
#[export] Instance bubble_versions_known : BubbleStatements versions_known.
Proof. apply bubble_statements_free. intros; (eapply versions_known_ext; [..|eassumption]); done. Qed.
#[export] Instance bubble_content : BubbleStatements wf_content.
Proof. apply bubble_statements_free. intros; by eapply wf_content_ext; [..|eassumption]. Qed.
#[export] Instance bubble_osdeploy : BubbleStatements wf_osdeploy.
Proof. apply bubble_statements_free. intros. by apply wf_osdeploy_cloud. Qed.
#[export] Instance bubble_wf_runs : BubbleStatements wf_runs.
Proof. apply bubble_statements_free. intros f d. apply wf_runs_cloud. by intros t id. Qed.
End invariant.

(** * The tables of CloudOSD

    The rules the rows of CloudOSD's tables obey ([wf_cloud]), and that every request to
    the engine, to OSDeploy and to CloudOSD keeps them and those of the bubbles. *)

(** ** Computer names *)

(** A name Windows accepts, but for dashes at its ends. *)
Definition cloud_name_ok (name : string) : Prop :=
  name ≠ EmptyString ∧ (String.length name ≤ 15)%nat ∧
  Forall (λ c, is_name_char c = true) (String.list_ascii_of_string name) ∧ is_digits name = false.

Lemma cloud_normalize_ok name :
  CloudNames.normalize_windows_computer_name name ≠ EmptyString →
  cloud_name_ok (CloudNames.normalize_windows_computer_name name).
Proof.
  unfold CloudNames.normalize_windows_computer_name. cbv zeta.
  set (k := keep_name_chars _). destruct (substring_prefix _ 15 k (keep_name_chars_ok _)) as [Hc Hl].
  destruct (is_digits (String.substring 0 15 k)) eqn:Hd; intros Hne; [|by split].
  assert (Forall (λ c, is_name_char c = true)
    (String.list_ascii_of_string ("PVE-" +:+ String.substring 0 15 k))) as Hall by (simpl; repeat constructor; done).
  destruct (substring_prefix _ 15 _ Hall) as [Hc' Hl']. split_and!; [done..|]. done.
Qed.

Section tables.
Context `{Env} `{Sha256} `{StrSet} `{Secrets} `{IsoTime}.

(** ** The rules *)

(** What a deployment asks for. *)
Record cloud_request_ok (d : db) (id : string) (q : CloudData.cloud_request) : Prop := CloudRequestOk {
  cro_artifact : known (cloud_artifacts (cloud_of d)) (cq_artifact_id q) = true;
  cro_workflow : cq_workflow_name q = "pveautopilot-" +:+ id;
  cro_computer : ∃ name, cq_expected_computer_name q = Some name ∧ cloud_name_ok name ∧
    ∃ given, _sanitize_domain_join given (Some name) = Ret (cq_domain_join q);
  cro_admin : ∃ moment given, cq_local_admin q = _sanitize_local_admin moment given true
}.

(** Every deployment has a run of the engine; events, readiness and attempts are of
    deployments. *)
Record wf_cloud (d : db) : Prop := WfCloud {
  wc_request id r : cloud_runs (cloud_of d) !! id = Some r → cloud_request_ok d id (cr_request r);
  wc_engine id : known (cloud_runs (cloud_of d)) id = true → known (runs d) id = true;
  wc_event e : e ∈ cloud_events (cloud_of d) → known (cloud_runs (cloud_of d)) (ce_run_id e) = true;
  wc_ready id : known (autopilot (cloud_of d)) id = true → known (cloud_runs (cloud_of d)) id = true;
  wc_attempt a : a ∈ upload_attempts (cloud_of d) → known (cloud_runs (cloud_of d)) (ua_run_id a) = true
}.

Lemma empty_wf_cloud : wf_cloud empty_db.
Proof. split; simpl; intros *; try (by rewrite lookup_empty); set_solver. Qed.

Lemma wf_cloud_ext d d' :
  cloud_of d' = cloud_of d → (∀ k, known (runs d) k = true → known (runs d') k = true) →
  wf_cloud d → wf_cloud d'.
Proof.
  intros Hc Hk [Hq He Hev Hr Ha]. split; rewrite ?Hc; try done.
  - intros id r Hid. destruct (Hq id r Hid). by split; rewrite ?Hc.
  - intros id Hid. by apply Hk, He.
Qed.

Lemma cloud_of_osdeploy d d' : osdeploy d' = osdeploy d → cloud_of d' = cloud_of d.
Proof. unfold cloud_of. congruence. Qed.

#[export] Instance authoring_wf_cloud : Keeps serve_authoring wf_cloud.
Proof.
  apply authoring_keeps; [|intros; apply compile_keeps]; intros;
    eapply wf_cloud_ext; try eassumption; try congruence; by apply cloud_of_osdeploy.
Qed.

#[export] Instance content_wf_cloud : Keeps serve_content wf_cloud.
Proof.
  apply content_keeps; intros; eapply wf_cloud_ext; try eassumption; try congruence; by apply cloud_of_osdeploy.
Qed.

#[export] Instance run_wf_cloud : Keeps serve_run wf_cloud.
Proof.
  apply run_keeps; [|intros; apply resolve_keeps]; intros;
    eapply wf_cloud_ext; try eassumption; try congruence; by apply cloud_of_osdeploy.
Qed.

(** OSDeploy leaves CloudOSD alone. *)
#[export] Instance statements_wf_cloud : Statements wf_cloud.
Proof.
  apply (statements_engine _).
  - intros f d Hf. apply wf_cloud_ext; [|done]. unfold cloud_of. simpl. apply Hf.
  - intros id g d _. apply wf_cloud_ext; [done|]. intros k. simpl. by rewrite known_alter.
  - intros id g d _ _. apply wf_cloud_ext; [done|]. intros k. simpl. by rewrite known_alter.
Qed.

Lemma wf_bubbles_ext d d' : lab_of d' = lab_of d → wf_bubbles d → wf_bubbles d'.
Proof. unfold wf_bubbles. by intros ->. Qed.

Lemma lab_of_osdeploy d d' : osdeploy d' = osdeploy d → lab_of d' = lab_of d.
Proof. unfold lab_of. congruence. Qed.

#[export] Instance authoring_wf_bubbles : Keeps serve_authoring wf_bubbles.
Proof.
  apply authoring_keeps; [|intros; apply compile_keeps]; intros;
    (eapply wf_bubbles_ext; [|eassumption]); by apply lab_of_osdeploy.
Qed.

#[export] Instance content_wf_bubbles : Keeps serve_content wf_bubbles.
Proof. apply content_keeps; intros; (eapply wf_bubbles_ext; [|eassumption]); by apply lab_of_osdeploy. Qed.

#[export] Instance run_wf_bubbles : Keeps serve_run wf_bubbles.
Proof.
  apply run_keeps; [|intros; apply resolve_keeps]; intros;
    (eapply wf_bubbles_ext; [|eassumption]); by apply lab_of_osdeploy.
Qed.

#[export] Instance statements_wf_bubbles : Statements wf_bubbles.
Proof.
  apply (statements_engine _); [|done|done].
  intros f d Hf. apply wf_bubbles_ext. unfold lab_of. simpl. by rewrite (proj1 (Hf _)).
Qed.

#[export] Instance cloud_wf_bubbles : CloudStatements wf_bubbles.
Proof.
  apply (cloud_statements_engine _); [|done|done].
  intros g d Hg. apply wf_bubbles_ext. unfold lab_of. simpl. apply (proj1 (Hg _)).
Qed.

(** ** The statements *)

(** Two tables with the same requests, whose rows refer to deployments. *)
Record same_deployments (t t' : cloud_tables) : Prop := SameDeployments {
  sd_request id : cr_request <$> cloud_runs t' !! id = cr_request <$> cloud_runs t !! id;
  sd_artifact id : known (cloud_artifacts t) id = true → known (cloud_artifacts t') id = true;
  sd_event e : e ∈ cloud_events t' → e ∈ cloud_events t ∨ known (cloud_runs t) (ce_run_id e) = true;
  sd_ready id : known (autopilot t') id = true →
    known (autopilot t) id = true ∨ known (cloud_runs t) id = true;
  sd_attempt a : a ∈ upload_attempts t' → a ∈ upload_attempts t ∨ known (cloud_runs t) (ua_run_id a) = true
}.

Lemma wf_same_deployments g d :
  same_deployments (cloud_of d) (g (cloud_of d)) → wf_cloud d → wf_cloud (set_osdeploy (set_cloud g) d).
Proof.
  intros [Hr Ha Hev Hrd Hat] [Hq He Hevs Hready Hatt].
  pose proof (λ id, known_fmap _ _ _ _ id (Hr id)) as Hk.
  change (cloud_of (set_osdeploy (set_cloud g) d)) with (g (cloud_of d)) in *. split.
  - intros id r Hid. change (cloud_of (set_osdeploy (set_cloud g) d)) with (g (cloud_of d)) in Hid.
    specialize (Hr id). rewrite Hid in Hr. simpl in Hr. symmetry in Hr.
    apply fmap_Some in Hr as (r' & Hr' & E). rewrite E. destruct (Hq id r' Hr'). split; try done. by apply Ha.
  - intros id. change (cloud_of (set_osdeploy (set_cloud g) d)) with (g (cloud_of d)). rewrite Hk. apply He.
  - intros e. change (cloud_of (set_osdeploy (set_cloud g) d)) with (g (cloud_of d)). rewrite Hk.
    intros [Hin|Hin]%Hev; [by apply Hevs|done].
  - intros id. change (cloud_of (set_osdeploy (set_cloud g) d)) with (g (cloud_of d)). rewrite Hk.
    intros [Hin|Hin]%Hrd; [by apply Hready|done].
  - intros a. change (cloud_of (set_osdeploy (set_cloud g) d)) with (g (cloud_of d)). rewrite Hk.
    intros [Hin|Hin]%Hat; [by apply Hatt|done].
Qed.

Lemma wf_on_cloud g : (∀ t, same_deployments t (g t)) → preserves wf_cloud (on_cloud g).
Proof. intros Hg. apply preserves_execute. intros d. by apply wf_same_deployments. Qed.

Lemma wf_cloud_checked (ok : cloud_tables → bool) c g :
  (∀ t, ok t = true → same_deployments t (g t)) →
  preserves wf_cloud (t ← query cloud_of; checked (ok t) c (set_osdeploy (set_cloud g))).
Proof.
  intros Hg s [Hc Hm]. rewrite run_bind, run_query, run_checked.
  destruct (ok _) eqn:Hok; split; simpl; auto. apply wf_same_deployments; auto.
Qed.

(** The tables after a deployment was stored. *)
Lemma wf_cloud_stored id row d :
  wf_cloud d → cloud_runs (cloud_of d) !! id = None → known (runs d) id = true →
  cloud_request_ok d id (cr_request row) →
  wf_cloud (set_osdeploy (set_cloud (set_cloud_runs (<[id := row]>))) d).
Proof.
  intros [Hq He Hevs Hready Hatt] Hno Hrun Hok. split; cbn.
  - intros k r [[<- <-]|[_ Hk]]%lookup_insert_Some; [destruct Hok; by split|]. by destruct (Hq k r Hk).
  - intros k [Hk| ->]%known_insert_inv; [by apply He|done].
  - intros e Hin. by apply known_insert, Hevs.
  - intros k Hk. by apply known_insert, Hready.
  - intros a Hin. by apply known_insert, Hatt.
Qed.

Lemma wf_update_cloud_ts id g : preserves wf_cloud (update_ts_run id g).
Proof.
  apply preserves_execute. intros d. apply wf_cloud_ext; [done|]. intros k. simpl. by rewrite known_alter.
Qed.

Lemma kept_insert_cloud_event e : preserves wf_cloud (insert_cloud_event e).
Proof.
  apply wf_cloud_checked. intros t Hk. split; simpl; auto.
  intros e' [?| ->%list_elem_of_singleton]%elem_of_app; auto.
Qed.

Lemma kept_create_cloud_run a : preserves wf_cloud (create_run a).
Proof.
  pose proof wf_update_cloud_ts. pose proof kept_insert_cloud_event.
  intros s Hs. unfold create_run. rewrite run_bind. unfold get_artifact. rewrite run_query.
  destruct (cloud_artifacts _ !! _) as [artifact|] eqn:Ha; [|done].
  case_decide; [done|]. cbv zeta. case_decide as Hname; [done|].
  rewrite run_bind. unfold lift_outcome. destruct (_sanitize_domain_join _ _) as [config|] eqn:Hconf; [|done].
  rewrite run_bind. cbn [password_moment]. rewrite run_bind.
  pose proof (kept_cloud_sequence wf_cloud ("OSDCloud deployment for " +:+ cg_vm_name a) config
    (cg_vm_group_tag a) s Hs) as H1s.
  destruct (_create_sequence_for_run _ _ _ s) as [[vid|e] s1]; [|done]. rewrite run_bind.
  pose proof (kept_engine_run wf_cloud vid
    (target_of a (CloudNames.normalize_windows_computer_name (Some (cg_vm_name a))))
    (variables_of a config (_sanitize_local_admin (issued s) (cg_local_admin a) true)) (Some "cloudosd") false
    s1 H1s) as H2s.
  destruct (create_run_from_version _ _ _ _ _ s1) as [[rid|e] s2]; [|done].
  rewrite run_bind, run_now. apply preserves_then.
  - unfold insert_cloud_run. rewrite run_bind, run_query, run_checked.
    destruct (_ && _ && _ && _) eqn:Hok; [|exact H2s]. cbn [snd] in *.
    rewrite !andb_true_iff, !negb_true_iff, !known_false in Hok. destruct Hok as [[[Hno Hrun] Hart] _].
    destruct H2s as [Hw Hm]. split; [|done]. apply wf_cloud_stored; [done..|].
    split; simpl; [done|done| |eauto]. eexists. split; [done|]. split; [by apply cloud_normalize_ok|eauto].
  - intros _. unfold append_event. preserves_solve.
Qed.

#[export] Instance cloud_statements : CloudStatements wf_cloud.
Proof.
  split.
  - intros id a. apply wf_cloud_checked. intros t _. split; simpl; auto using known_insert.
  - intros f id. apply wf_on_cloud. intros t. split; simpl; auto. intros k. by rewrite known_alter.
  - apply kept_insert_cloud_event.
  - intros id f Hf. apply wf_on_cloud. intros t. split; simpl; auto. intros k.
    rewrite lookup_alter. case_decide; [subst k|done]. destruct (cloud_runs t !! id); simpl; by rewrite ?Hf.
  - intros P HP f Hf. apply wf_on_cloud. intros t. split; simpl; auto. intros k.
    rewrite lookup_update_where. destruct (cloud_runs t !! k) as [r|]; simpl; [|done].
    case_decide; [by rewrite Hf|done].
  - intros id r. apply wf_cloud_checked. intros t Hk. split; simpl; auto.
    intros k [?| ->]%known_insert_inv; auto.
  - intros a. apply wf_cloud_checked. intros t Hk. split; simpl; auto.
    intros a' [?| ->%list_elem_of_singleton]%elem_of_app; auto.
  - intros f. apply wf_on_cloud. intros t. split; simpl; auto.
  - intros id g _. apply wf_update_cloud_ts.
  - intros id g s _ _. apply wf_update_cloud_ts.
  - apply kept_create_cloud_run.
Qed.

#[export] Instance bubble_wf_cloud : BubbleStatements wf_cloud.
Proof.
  apply bubble_statements_free. intros f d. apply wf_same_deployments. split; simpl; auto.
Qed.
End tables.
