(* ===== verification/CloudJoin.v ===== *)
(** * Joining machines to their domains

    The three passes of [web/cloudosd_domain_join.py] and the tick of
    [web/monitor_main.py] that makes them: machines of deployments are joined to their
    domain, their hardware hash is read, and deployments that wait are asked again whether
    they are complete.  What is outside of the database - guests, credentials, the clock -
    is a world [W] with the operations the passes are given. *)

From stdpp Require Import base gmap list strings pretty sorting.
From Stdlib Require Import ZArith Lia Ascii.
From S2P Require Import Prelude Json JsonParse Text Digest CloudData OsdeployData TsData Conditions Sequences Content Runs OsdeployRoles OsdeployRuns CloudNames Bubbles CloudRuns CloudScripts.

(** ** The world *)

Class Guests (W : Type) : Type := {
  guest_exec : string → option Z → text → Z → eff W json;
  resolve_credential : Z → eff W json;
  resolve_node : option Z → eff W (option string);
  persist_hash : Z → string → string → string → eff W unit;
  monotonic : eff W Z
}.

(** A step of the database, and one of the world. *)
Definition db_op {W A} (m : eff session A) : eff (session * W) A := λ sw,
  let '(o, s) := m sw.1 in (o, (s, sw.2)).
Definition io {W A} (m : eff W A) : eff (session * W) A := λ sw,
  let '(o, w) := m sw.2 in (o, (sw.1, w)).

(** [try: m except Exception as exc] *)
Definition attempt {S A} (m : eff S A) : eff S (outcome A) := λ s,
  let '(o, s') := m s in (Ret o, s').

(** [str(exc)] *)
Definition exc_str (e : exc) : string :=
  match e with
  | ValueError m | CustomError _ m | IntegrityError m => m
  | KeyError k => repr_string k
  | TypeError | AttributeError => EmptyString
  end.

(** ** Candidates *)

Definition _TERMINAL_RUN_STATES : list cloud_state := [CloudComplete; CloudFailed].

Definition _DEFAULT_HEARTBEAT_MAX_AGE_SECONDS : Z := 1800.
Definition _REBOOT_TIMEOUT_SECONDS : Z := 5.
(** What [guest_exec] waits when it is not told. *)
Definition default_timeout : Z := 90.

Definition heartbeat_cutoff (max_age_seconds : option Z) (now : Z) : option Z :=
  (λ age, now - seconds age)%Z <$> max_age_seconds.

Definition _heartbeat_is_stale (heartbeat_at cutoff : option Z) : bool :=
  match cutoff with
  | None => false
  | Some c => match heartbeat_at with Some t => bool_decide (t < c)%Z | None => true end
  end.

Record candidate : Type := Candidate {
  cd_run_id : string;
  cd_vmid : option Z;
  cd_node : option string;
  cd_domain_join : json;
  cd_vm_name : string;
  cd_group_tag : string;
  cd_heartbeat_at : option Z
}.

(** The newest heartbeat of a run, in [agent_heartbeats]. *)
Definition heartbeats : Type := string → option agent_heartbeat.

Definition heartbeat_time (hb : heartbeats) (run_id : string) : option Z := ah_received_at <$> hb run_id.

(** [hb.received_at IS NOT NULL AND (cutoff IS NULL OR hb.received_at >= cutoff)] *)
Definition fresh (hb : heartbeats) (cutoff : option Z) (kr : string * cloud_run) : Prop :=
  match heartbeat_time hb kr.1 with
  | None => False
  | Some t => from_option (λ c, c ≤ t)%Z True cutoff
  end.

#[export] Instance fresh_dec hb cutoff kr : Decision (fresh hb cutoff kr).
Proof. unfold fresh. destruct (heartbeat_time hb kr.1), cutoff; simpl; apply _. Defined.

(** [_HEARTBEAT_FRESH_FIRST] *)
Definition fresh_first (hb : heartbeats) (cutoff : option Z) :
    string * cloud_run → string * cloud_run → comparison :=
  cmp_then (cmp_on (λ kr, if decide (fresh hb cutoff kr) then 0%Z else 1%Z) cmp_Z)
           (cmp_on (λ kr, cq_created_at (cr_request kr.2)) cmp_Z).

(** [EXISTS (SELECT 1 FROM ts_run_plan_steps WHERE run_id = ... AND kind IN ... AND state = ...)] *)
Definition has_step (d : db) (run_id : string) (kinds : list string) (state : step_state) : bool :=
  exists_where (λ kr : string * step_row, ps_run_id (st_plan kr.2) = run_id ∧
    ps_kind (st_plan kr.2) ∈ kinds ∧ st_state kr.2 = state) (steps d).

(** [COALESCE(value, '') <> ''], where [value] is the text of a JSON value. *)
Definition has_text (j : json) : Prop :=
  match j with JArr _ | JObj _ => True | j => default EmptyString (json_text j) ≠ EmptyString end.

#[export] Instance has_text_dec j : Decision (has_text j).
Proof. destruct j; simpl; apply _. Defined.

Definition wants_join (d : db) (kr : string * cloud_run) : Prop :=
  let dj := cq_domain_join (cr_request kr.2) in
  json_text (jget "enabled" dj) = Some "true" ∧ has_text (jget "domain_controller_ipv4" dj) ∧
  cr_state kr.2 ∉ _TERMINAL_RUN_STATES ∧
  has_step d kr.1 ["wait_agent_heartbeat"] Done = true ∧
  has_step d kr.1 ["join_domain_role"; "verify_ad_domain_join"] Pending = true.

#[export] Instance wants_join_dec d kr : Decision (wants_join d kr).
Proof. unfold wants_join. cbv zeta. apply _. Defined.

Definition candidate_of (hb : heartbeats) (kr : string * cloud_run) : candidate :=
  Candidate kr.1 (cr_vmid kr.2) (cr_node kr.2) (cq_domain_join (cr_request kr.2)) (cq_vm_name (cr_request kr.2))
    (default EmptyString (cq_vm_group_tag (cr_request kr.2))) (heartbeat_time hb kr.1).

Definition is_dict (j : json) : Prop := match j with JObj _ => True | _ => False end.

#[export] Instance is_dict_dec j : Decision (is_dict j).
Proof. destruct j; simpl; apply _. Defined.

Section passes.
Context `{Env} `{Sha256} `{StrSet} `{Secrets} `{IsoTime}.

Definition find_join_candidates (hb : heartbeats) (limit : nat) (cutoff : option Z) : eff session (list candidate) :=
  query (λ d, filter (λ c, is_dict (cd_domain_join c)) (candidate_of hb <$>
    take limit (isort (fresh_first hb cutoff) (select_where (wants_join d) (cloud_runs (cloud_of d)))))).

(** A row for every pending step, and a run has at most one of the kind. *)
Definition wants_hash (d : db) (kr : string * cloud_run) : Prop :=
  has_step d kr.1 ["capture_autopilot_hash"] Pending = true ∧ cr_state kr.2 ∉ _TERMINAL_RUN_STATES ∧
  has_step d kr.1 ["wait_agent_heartbeat"] Done = true.

#[export] Instance wants_hash_dec d kr : Decision (wants_hash d kr).
Proof. unfold wants_hash. apply _. Defined.

Definition find_hash_candidates (hb : heartbeats) (limit : nat) (cutoff : option Z) : eff session (list candidate) :=
  query (λ d, candidate_of hb <$>
    take limit (isort (fresh_first hb cutoff) (select_where (wants_hash d) (cloud_runs (cloud_of d))))).

(** ** One machine *)

Record pass_result : Type := PassResult {
  pr_vmid : option Z;
  pr_run_id : string;
  pr_status : string;
  pr_error : option string;
  pr_rebooted : bool
}.

Definition plain_result (c : candidate) (status : string) : pass_result :=
  PassResult (cd_vmid c) (cd_run_id c) status None false.
Definition error_result (c : candidate) (status error : string) : pass_result :=
  PassResult (cd_vmid c) (cd_run_id c) status (Some error) false.

Definition cut (n : nat) (s : string) : string := String.substring 0 n s.

Definition vmid_json (vmid : option Z) : json := json_of_option JInt vmid.

(** [candidate.get("vm_name") or vmid] *)
Definition machine_text (c : candidate) : string := PyStr.or_else (cd_vm_name c) (vmid_text (cd_vmid c)).

Definition _mark_steps (run_id : string) (kinds : list string) (message : string) (data : json) : eff session unit :=
  mark_steps_done_by_kind run_id kinds "cloudosd-domain-join" (Some message) data ;; mret tt.

Context {W : Type} `{!Guests W}.

(** [candidate.get("node") or resolve_node(vmid)] *)
Definition node_of (c : candidate) : eff (session * W) (option string) :=
  match nonempty_id (cd_node c) with
  | Some n => mret (Some n)
  | None => n ← io (resolve_node (cd_vmid c)); mret (nonempty_id n)
  end.

Definition join_event (c : candidate) (event_type severity message : string) (data : json) :
    eff (session * W) unit :=
  db_op (append_event (cd_run_id c) "domain_join" event_type severity (Some message) data ;; mret tt).

Definition confirm_joined (c : candidate) : eff (session * W) pass_result :=
  let data := JObj [("vmid", vmid_json (cd_vmid c)); ("source", JStr "probe")] in
  db_op (_mark_steps (cd_run_id c) ["join_domain_role"; "verify_ad_domain_join"]
    "Guest confirmed in AD domain via PartOfDomain probe" data) ;;
  join_event c "domain_join_verified" "info" "Guest confirmed joined to the AD domain" data ;;
  mret (plain_result c "already_joined").

(** The name a credential logs on with: [(username or "").strip()] raises when it is no
    text. *)
Definition credential_user (cred domain_join : json) : eff (session * W) string :=
  match jor (jget "username" cred) (JStr EmptyString) with
  | JStr username => mret (qualify_user username domain_join)
  | _ => raise AttributeError
  end.

Definition join_script (c : candidate) (username password : string) : outcome text :=
  build_join_powershell (points username) (points password)
    (points (py_str (jor (jget "domain_fqdn" (cd_domain_join c)) (JStr EmptyString))))
    (points (py_str (jor (jget "ou_path" (cd_domain_join c)) (JStr EmptyString)))).

Definition join_machine (node : string) (c : candidate) (username password : string) :
    eff (session * W) pass_result :=
  script ← lift_outcome (join_script c username password);
  tried ← attempt (io (guest_exec node (cd_vmid c) script default_timeout));
  match tried with
  | Exc e => mret (error_result c "unreachable" (cut 200 (exc_str e)))
  | Ret result =>
      if negb (join_succeeded result) then
        let err := cut 300 (py_str (jor (jget "err-data" result) (JStr (output "out-data" result)))) in
        join_event c "domain_join_failed" "warning" "Add-Computer did not report success"
          (JObj [("error", JStr err); ("vmid", vmid_json (cd_vmid c))]) ;;
        mret (error_result c "failed" err)
      else
        attempt (io (guest_exec node (cd_vmid c) _REBOOT_PS _REBOOT_TIMEOUT_SECONDS)) ;;
        db_op (_mark_steps (cd_run_id c) ["join_domain_role"] "Server-side Add-Computer AD join completed"
          (JObj [("vmid", vmid_json (cd_vmid c)); ("source", JStr "add_computer")])) ;;
        join_event c "domain_join_executed" "info"
          ("Joined " +:+ machine_text c +:+ " to " +:+ py_str (jget "domain_fqdn" (cd_domain_join c)))
          (JObj [("vmid", vmid_json (cd_vmid c))]) ;;
        mret (PassResult (cd_vmid c) (cd_run_id c) "joined" None true)
  end.

Definition join_with_credential (node : string) (c : candidate) : eff (session * W) pass_result :=
  let raw_credential_id := jget "credential_id" (cd_domain_join c) in
  match py_int raw_credential_id with
  | Exc _ =>
      join_event c "domain_join_failed" "warning"
        "Domain join is enabled but no usable credential_id is stored"
        (JObj [("vmid", vmid_json (cd_vmid c)); ("credential_id", JStr (py_str raw_credential_id))]) ;;
      mret (plain_result c "no_credential")
  | Ret credential_id =>
      answer ← io (resolve_credential credential_id);
      cred ← dict_of (jor answer (JObj []));
      username ← credential_user cred (cd_domain_join c);
      let password := jget "password" cred in
      if bool_decide (username = EmptyString) || negb (truthy password) then
        join_event c "domain_join_failed" "warning" "Domain-join credential missing username/password"
          (JObj [("vmid", vmid_json (cd_vmid c)); ("credential_id", JInt credential_id)]) ;;
        mret (plain_result c "no_credential")
      else join_machine node c username (py_str password)
  end.

Definition execute_join_for_run (c : candidate) : eff (session * W) pass_result :=
  node ← node_of c;
  match node with
  | None => mret (plain_result c "no_node")
  | Some node =>
      tried ← attempt (io (guest_exec node (cd_vmid c) _PROBE_PS default_timeout));
      match tried with
      | Exc e => mret (error_result c "unreachable" (cut 200 (exc_str e)))
      | Ret probe =>
          if probe_is_domain_joined probe then confirm_joined c
          else if negb (PyStr.contains "DOMAIN=False" (output "out-data" probe)) then
            mret (error_result c "unreachable"
              ("unexpected probe output: " +:+ cut 120 (output "out-data" probe)))
          else join_with_credential node c
      end
  end.

Definition hash_event (c : candidate) (event_type severity message : string) (data : json) :
    eff (session * W) unit :=
  db_op (append_event (cd_run_id c) "full_os" event_type severity (Some message) data ;; mret tt).

(** [int(vmid)] raises for a missing number, which is caught with what [persist_hash]
    raises. *)
Definition store_hash (c : candidate) (serial hardware_hash : string) : eff (session * W) unit :=
  match cd_vmid c with
  | None => raise TypeError
  | Some vmid => io (persist_hash vmid serial hardware_hash (cd_group_tag c))
  end.

Definition execute_hash_capture_for_run (c : candidate) : eff (session * W) pass_result :=
  node ← node_of c;
  match node with
  | None => mret (plain_result c "no_node")
  | Some node =>
      tried ← attempt (io (guest_exec node (cd_vmid c) _HASH_CAPTURE_PS default_timeout));
      match tried with
      | Exc e => mret (error_result c "unreachable" (cut 200 (exc_str e)))
      | Ret result =>
          let '(serial, hardware_hash) := parse_hash_output result in
          let problem := hash_problem serial hardware_hash in
          if decide (problem ≠ EmptyString) then
            let err := cut 300 (py_str (jor (jget "err-data" result) (JStr (output "out-data" result)))) in
            hash_event c "autopilot_hash_capture_failed" "warning"
              ("Could not read a usable hardware hash from guest: " +:+ problem)
              (JObj [("error", JStr err); ("problem", JStr problem); ("vmid", vmid_json (cd_vmid c))]) ;;
            mret (error_result c "failed" problem)
          else
            stored ← attempt (store_hash c serial hardware_hash);
            match stored with
            | Exc e => mret (error_result c "failed" ("persist failed: " +:+ cut 150 (exc_str e)))
            | Ret _ =>
                let data := JObj [("vmid", vmid_json (cd_vmid c)); ("serial", JStr serial)] in
                db_op (mark_steps_done_by_kind (cd_run_id c) ["capture_autopilot_hash"] "cloudosd-hash-capture"
                  (Some "Server-side Autopilot hardware-hash capture completed") data ;; mret tt) ;;
                hash_event c "autopilot_hash_captured" "info"
                  ("Captured Autopilot hardware hash for " +:+ machine_text c) data ;;
                mret (plain_result c "captured")
            end
      end
  end.

(** ** The passes *)

(** What a pass does with a candidate: the result, or that it is left for the next time. *)
Inductive visit : Type :=
| Visited (r : pass_result)
| Deferred.

(** [candidates] are visited in turn; [skip] gives the result of those that are passed
    over, and what a visit raises is its result. *)
Fixpoint sweep (skip : candidate → option pass_result) (deadline : option Z)
    (execute : candidate → eff (session * W) pass_result) (candidates : list candidate) :
    eff (session * W) (list visit) :=
  match candidates with
  | [] => mret []
  | c :: candidates =>
      visit ← match skip c with
              | Some r => mret (Visited r)
              | None =>
                  late ← match deadline with
                         | None => mret false
                         | Some t => time ← io monotonic; mret (bool_decide (t ≤ time)%Z)
                         end;
                  if late : bool then mret Deferred
                  else
                    tried ← attempt (execute c);
                    mret (Visited match tried with
                                  | Ret r => r
                                  | Exc e => error_result c "failed" (cut 200 (exc_str e))
                                  end)
              end;
      rest ← sweep skip deadline execute candidates;
      mret (visit :: rest)
  end.

(** The summary, whose counts are those of the visits. *)
Record sweep_summary : Type := SweepSummary {
  ss_candidates : nat;
  ss_visits : list visit
}.

Definition results (s : sweep_summary) : list pass_result :=
  omap (λ v, match v with Visited r => Some r | Deferred => None end) (ss_visits s).

Definition counted (status : string) (s : sweep_summary) : nat :=
  length (filter (λ r, pr_status r = status) (results s)).

(** Of the visits that tried, those without any of the outcomes that are counted. *)
Definition skipped (outcomes : list string) (s : sweep_summary) : nat :=
  length (filter (λ r, pr_status r ∉ outcomes) (results s)).

Definition deferred (s : sweep_summary) : nat := length (ss_visits s) - length (results s).

Definition rebooted_run_ids (s : sweep_summary) : list string :=
  pr_run_id <$> filter (λ r, pr_rebooted r = true ∧ pr_run_id r ≠ EmptyString) (results s).

Definition stale_result (cutoff : option Z) (c : candidate) : option pass_result :=
  if _heartbeat_is_stale (cd_heartbeat_at c) cutoff then Some (plain_result c "stale_no_heartbeat") else None.

(** [deadline = None if max_seconds is None else monotonic() + max_seconds] *)
Definition deadline_of (max_seconds : option Z) : eff (session * W) (option Z) :=
  match max_seconds with
  | None => mret None
  | Some m => time ← io monotonic; mret (Some (time + seconds m)%Z)
  end.

Definition run_pending_joins (hb : heartbeats) (max_heartbeat_age_seconds max_seconds : option Z) (limit : nat) :
    eff (session * W) sweep_summary :=
  now ← db_op now;
  let cutoff := heartbeat_cutoff max_heartbeat_age_seconds now in
  candidates ← db_op (find_join_candidates hb limit cutoff);
  deadline ← deadline_of max_seconds;
  visits ← sweep (stale_result cutoff) deadline execute_join_for_run candidates;
  mret (SweepSummary (length candidates) visits).

Definition rebooting_result (cutoff : option Z) (rebooting : list string) (c : candidate) : option pass_result :=
  match stale_result cutoff c with
  | Some r => Some r
  | None => if decide (cd_run_id c ∈ rebooting) then Some (plain_result c "rebooting_after_join") else None
  end.

Definition run_pending_hash_captures (hb : heartbeats) (max_heartbeat_age_seconds max_seconds : option Z)
    (skip_run_ids : list string) (limit : nat) : eff (session * W) sweep_summary :=
  now ← db_op now;
  let cutoff := heartbeat_cutoff max_heartbeat_age_seconds now in
  candidates ← db_op (find_hash_candidates hb limit cutoff);
  deadline ← deadline_of max_seconds;
  visits ← sweep (rebooting_result cutoff skip_run_ids) deadline execute_hash_capture_for_run candidates;
  mret (SweepSummary (length candidates) visits).

(** ** Completing what waits *)

Definition waiting_states : list cloud_state := [WaitingDomainJoin; WaitingV2].

(** A round of the loop says whether the deployment waits no more. *)
Definition advance_run (hb : heartbeats) (cutoff : option Z) (run_id : string) : eff session bool :=
  if _heartbeat_is_stale (heartbeat_time hb run_id) cutoff then mret false
  else
    match hb run_id with
    | None => mret false
    | Some h =>
        tried ← attempt (mark_complete_from_heartbeat run_id (ah_received_at h) (Some h));
        mret match tried with
             | Ret (Some run) => bool_decide (cr_state run ∉ waiting_states)
             | _ => false
             end
    end.

Fixpoint advance_each (hb : heartbeats) (cutoff : option Z) (run_ids : list string) : eff session nat :=
  match run_ids with
  | [] => mret 0%nat
  | id :: ids =>
      advanced ← advance_run hb cutoff id;
      n ← advance_each hb cutoff ids;
      mret (if advanced : bool then S n else n)
  end.

(** How many wait, and how many of them advanced. *)
Definition advance_domain_joined_runs (hb : heartbeats) (max_heartbeat_age_seconds : option Z) (limit : nat) :
    eff session (nat * nat) :=
  now ← now;
  let cutoff := heartbeat_cutoff max_heartbeat_age_seconds now in
  rows ← query (λ d, take limit (isort (fresh_first hb cutoff) (select_where
    (λ kr : string * cloud_run, cr_state kr.2 ∈ waiting_states) (cloud_runs (cloud_of d)))));
  advanced ← advance_each hb cutoff rows.*1;
  mret (length rows, advanced).

(** [max(10.0, 120.0 / 3.0)] seconds *)
Definition sweep_budget : Z := 40.

(** The tick of the monitor; it returns the summary of the joins, the number of hashes
    that were captured and the number of deployments that advanced. *)
Definition _do_cloudosd_domain_join_tick (hb : heartbeats) (limit : nat) :
    eff (session * W) (sweep_summary * nat * nat) :=
  summary ← run_pending_joins hb (Some _DEFAULT_HEARTBEAT_MAX_AGE_SECONDS) (Some sweep_budget) limit;
  hashes ← run_pending_hash_captures hb (Some _DEFAULT_HEARTBEAT_MAX_AGE_SECONDS) (Some sweep_budget)
    (rebooted_run_ids summary) limit;
  advance ← db_op (advance_domain_joined_runs hb (Some _DEFAULT_HEARTBEAT_MAX_AGE_SECONDS) limit);
  mret (summary, counted "captured" hashes, advance.2).
End passes.
