(* ===== verification/CloudBatch.v ===== *)
(** * What a legacy sequence asks of a deployment

    [web/cloudosd_sequence.py]: a legacy task sequence that only joins a domain becomes the
    configuration of a domain join, which is stored with the deployment.  The names and the
    secrets a join needs stay with the credential.  The second part provisions machines
    in batches. *)

From stdpp Require Import base gmap list strings pretty sorting.
From Stdlib Require Import ZArith Lia Ascii.
From S2P Require Import Prelude Json Text JsonParse Digest CloudData OsdeployData TsData Conditions Sequences Content Runs OsdeployRoles OsdeployRuns OsdeployService SequenceCompiler CloudNames Bubbles CloudRuns CloudScripts CloudService CloudJoin.

(** [resolve_credential]: a row with its payload, if there is one; it may raise. *)
Definition credential_source : Type := Z → outcome (option dict).

Definition sequence_error (message : string) : exc := CustomError "CloudOSDSequenceError" message.

Definition _SUPPORTED_ENABLED_STEPS : list string := ["join_ad_domain"].

Definition is_enabled (s : seq_step) : Prop := SequenceCompiler.st_enabled s = true.
#[export] Instance is_enabled_dec s : Decision (is_enabled s).
Proof. unfold is_enabled. apply _. Defined.

Definition unsupported_enabled_steps (steps : list seq_step) : list string :=
  isort cmp_str (remove_dups (SequenceCompiler.st_type <$>
    filter (λ s, is_enabled s ∧ SequenceCompiler.st_type s ∉ _SUPPORTED_ENABLED_STEPS) steps)).

Definition no_join : json := JObj [("enabled", JBool false)].

(** [credential.get("payload") or credential] *)
Definition payload_of (credential : dict) : outcome dict :=
  match jor (get "payload" credential) (JObj credential) with
  | JObj o => Ret o
  | _ => Exc AttributeError
  end.

(** The configuration of the join step [params] asks for, with the credential [payload]. *)
Definition join_intent (sequence_id credential_id : Z) (params payload : dict) : outcome json :=
  domain_fqdn ← text_of "domain_fqdn" payload;
  raw_username ← text_of "username" payload;
  if bool_decide (domain_fqdn = EmptyString) || bool_decide (raw_username = EmptyString) ||
     negb (truthy (get "password" payload))
  then Exc (sequence_error "OSDCloud join_ad_domain credential is missing domain_fqdn, username, or password.")
  else
    let credential_domain := PyStr.or_else (split_domain_user raw_username).1 domain_fqdn in
    ou_path ← PyStr.strip <$> as_text (jor (get "ou_path" params) (jor (get "ou_hint" payload) (JStr EmptyString)));
    controller ← PyStr.strip <$> as_text (jor (get "domain_controller_ipv4" params)
                   (jor (get "domain_controller_ipv4" payload) (JStr EmptyString)));
    Ret (JObj ([("enabled", JBool true);
                ("source_sequence_id", JInt sequence_id);
                ("credential_id", JInt credential_id);
                ("domain_fqdn", JStr domain_fqdn);
                ("credential_domain", JStr credential_domain);
                ("ou_path", JStr ou_path);
                ("acceptable_domain_names",
                  JArr (JStr <$> _unique_text [JStr domain_fqdn; JStr credential_domain]))] ++
               (if decide (controller = EmptyString) then []
                else [("domain_controller_ipv4", JStr controller)]))).

(** The number of the sequence and its steps, if one is selected. *)
Definition compile_cloudosd_sequence_intent (sequence : option (Z * list seq_step))
    (resolve_credential : credential_source) : outcome json :=
  match sequence with
  | None => Ret no_join
  | Some (sequence_id, steps) =>
      let unsupported := unsupported_enabled_steps steps in
      if decide (unsupported ≠ []) then
        Exc (sequence_error ("OSDCloud selected sequence is not OSDCloud-compatible yet; " +:+
          "unsupported enabled step(s): " +:+ PyStr.join ", " unsupported))
      else
        match filter (λ s, is_enabled s ∧ SequenceCompiler.st_type s = "join_ad_domain") steps with
        | [] => Ret no_join
        | [step] =>
            let params := SequenceCompiler.st_params step in
            if negb (truthy (get "credential_id" params)) then
              Exc (sequence_error "OSDCloud join_ad_domain step has no credential_id set.")
            else
              credential_id ← py_int (get "credential_id" params);
              credential ← resolve_credential credential_id;
              match credential with
              | None | Some [] =>
                  Exc (sequence_error ("OSDCloud join_ad_domain credential id=" +:+
                    py_str (get "credential_id" params) +:+ " was not found."))
              | Some credential =>
                  payload ← payload_of credential;
                  join_intent sequence_id credential_id params payload
              end
        | _ =>
            Exc (sequence_error ("OSDCloud selected sequence has multiple enabled join_ad_domain steps; " +:+
              "use exactly one."))
        end
  end.

(** ** What is stored holds no password *)

(** A credential with its passwords taken out: what is left says whether there is one. *)
Definition redact_item (kv : string * json) : string * json :=
  if decide (kv.1 = "password") then (kv.1, JBool (truthy kv.2)) else kv.

Definition redact_payload (kv : string * json) : string * json :=
  if decide (kv.1 = "payload")
  then (kv.1, match kv.2 with JObj o => JObj (redact_item <$> o) | v => v end) else kv.

Definition redact (credential : dict) : dict := redact_item <$> (redact_payload <$> credential).

Definition redacted (resolve : credential_source) : credential_source :=
  λ id, match resolve id with Ret c => Ret (redact <$> c) | Exc e => Exc e end.

Lemma get_redact_item k o : k ≠ "password" → get k (redact_item <$> o) = get k o.
Proof.
  intros Hk. unfold get. f_equal. induction o as [|[k' v] o IH]; [done|]. csimpl. unfold redact_item at 1. simpl.
  destruct (decide (k' = "password")) as [->|]; simpl; rewrite IH; case_decide; by simplify_eq.
Qed.

Lemma get_redact_password o : truthy (get "password" (redact_item <$> o)) = truthy (get "password" o).
Proof.
  unfold get. induction o as [|[k v] o IH]; [done|]. csimpl. unfold redact_item at 1. simpl.
  destruct (decide (k = "password")) as [->|]; simpl; [by destruct (truthy v)|].
  rewrite decide_False by congruence. by rewrite decide_False by congruence.
Qed.

Lemma join_intent_redacted sid cid params o :
  join_intent sid cid params (redact_item <$> o) = join_intent sid cid params o.
Proof.
  unfold join_intent, text_of. by rewrite !(get_redact_item "domain_fqdn"), (get_redact_item "username"),
    get_redact_password, (get_redact_item "ou_hint"), (get_redact_item "domain_controller_ipv4") by done.
Qed.

Lemma get_redact_payload k o : k ≠ "payload" → get k (redact_payload <$> o) = get k o.
Proof.
  intros Hk. unfold get. f_equal. induction o as [|[k' v] o IH]; [done|]. csimpl. unfold redact_payload at 1. simpl.
  destruct (decide (k' = "payload")) as [->|]; simpl; rewrite IH; case_decide; by simplify_eq.
Qed.

Lemma get_redacted_payload o :
  get "payload" (redact_payload <$> o) = match get "payload" o with JObj p => JObj (redact_item <$> p) | v => v end.
Proof.
  unfold get. induction o as [|[k v] o IH]; [done|]. csimpl. unfold redact_payload at 1. simpl.
  destruct (decide (k = "payload")) as [->|]; simpl; [done|].
  rewrite !decide_False by congruence. exact IH.
Qed.

Lemma join_intent_redact sid cid params o :
  join_intent sid cid params (redact o) = join_intent sid cid params o.
Proof.
  unfold redact. rewrite join_intent_redacted. unfold join_intent, text_of.
  by rewrite !(get_redact_payload "domain_fqdn"), (get_redact_payload "username"),
    (get_redact_payload "password"), (get_redact_payload "ou_hint"),
    (get_redact_payload "domain_controller_ipv4") by done.
Qed.

Lemma payload_redacted sid cid params o :
  (payload_of (redact o) ≫= join_intent sid cid params) = (payload_of o ≫= join_intent sid cid params).
Proof.
  unfold payload_of.
  assert (get "payload" (redact o) =
    match get "payload" o with JObj p => JObj (redact_item <$> p) | v => v end) as ->.
  { unfold redact. by rewrite get_redact_item, get_redacted_payload by done. }
  unfold jor. destruct (get "payload" o) as [|b|z|t|l|[|kv p]]; cbn [truthy];
    repeat case_match; try done; simplify_eq; try (by apply join_intent_redact).
  apply (join_intent_redacted sid cid params (kv :: p)).
Qed.

(** C19. What is stored of a domain join holds no password: the configuration compiled from a
    sequence, and whether it compiles, is the same when every password in every credential
    is replaced by the fact that there is one. *)
Theorem intent_holds_no_password (sequence : option (Z * list seq_step)) (resolve : credential_source) :
  compile_cloudosd_sequence_intent sequence (redacted resolve) =
  compile_cloudosd_sequence_intent sequence resolve.
Proof.
  unfold compile_cloudosd_sequence_intent. destruct sequence as [[sid steps]|]; [|done].
  case_decide; [done|]. destruct (filter _ steps) as [|step [|]]; [done| |done].
  cbv zeta. destruct (negb _); [done|]. destruct (py_int _) as [cid|e]; [|done].
  cbn [mbind outcome_bind]. unfold redacted. destruct (resolve cid) as [[[|kv c]|]|e]; try done.
  cbn -[payload_of join_intent redact]. apply (payload_redacted sid cid _ (kv :: c)).
Qed.

Example intent_example :
  compile_cloudosd_sequence_intent
    (Some (7%Z, [Step "join_ad_domain" true [("credential_id", JInt 3); ("ou_path", JStr " OU=Lab ")]]))
    (λ _, Ret (Some [("payload", JObj [("domain_fqdn", JStr "corp.example"); ("username", JStr "CORP\join");
                                       ("password", JStr "hunter2")])])) =
  Ret (JObj [("enabled", JBool true); ("source_sequence_id", JInt 7); ("credential_id", JInt 3);
             ("domain_fqdn", JStr "corp.example"); ("credential_domain", JStr "CORP");
             ("ou_path", JStr "OU=Lab");
             ("acceptable_domain_names", JArr [JStr "corp.example"; JStr "CORP"])]).
Proof. by vm_compute. Qed.

(** * Deployments in batches

    The part of [web/app.py] that provisions several machines at once: numbers for them that
    nobody uses or has reserved, names of a pattern that are free and different, and the
    deployments, each with its machine in a bubble.  An advisory lock keeps batches apart,
    so that one is served after the other. *)

(** ** Numbers of machines *)

(** The loop: [count] more numbers from [candidate] on; [None] when the fuel is used up. *)
Fixpoint next_vmids (fuel : nat) (candidate : Z) (used : gset Z) (count : nat) : option (list Z) :=
  match count with
  | O => Some []
  | S count' =>
      match fuel with
      | O => None
      | S fuel =>
          if decide (candidate ∈ used) then next_vmids fuel (candidate + 1)%Z used count
          else cons candidate <$> next_vmids fuel (candidate + 1)%Z ({[candidate]} ∪ used) count'
      end
  end.

(** Every candidate that is passed over is one of those in use. *)
Definition vmids_fuel (used : gset Z) (count : nat) : nat := count + size used.

(** [{int(row["vmid"]) for row in rows if row.get("vmid") is not None}] *)
Fixpoint vmids_in_use (rows : list json) : outcome (gset Z) :=
  match rows with
  | [] => Ret ∅
  | JObj o :: rows =>
      match jget "vmid" (JObj o) with
      | JNull => vmids_in_use rows
      | v => n ← py_int v; used ← vmids_in_use rows; Ret ({[n]} ∪ used)
      end
  | _ :: _ => Exc AttributeError
  end.

(** ** Names *)

(** [\{[^{}]*\}] at an opening brace whose rest is given: what is inside and after it. *)
Fixpoint placeholder_end (s : string) : option (string * string) :=
  match s with
  | EmptyString => None
  | String c s =>
      if is_char 125 c then Some (EmptyString, s)
      else if is_char 123 c then None
      else (λ ir, (String c ir.1, ir.2)) <$> placeholder_end s
  end.

(** [re.findall] and [re.sub(..., "", pattern)]: the insides of the placeholders, and what
    is left without them; [skip] characters belong to the last one. *)
Fixpoint placeholders (skip : nat) (s : string) : list string * string :=
  match s with
  | EmptyString => ([], EmptyString)
  | String c s =>
      match skip with
      | S skip => placeholders skip s
      | O =>
          match (if is_char 123 c then placeholder_end s else None) with
          | Some (inside, _) =>
              let '(found, rest) := placeholders (S (String.length inside)) s in (inside :: found, rest)
          | None => let '(found, rest) := placeholders 0 s in (found, String c rest)
          end
      end
  end.

Definition allowed_placeholders : list string := ["index"; "serial"; "vmid"].

Definition valid_pattern (pattern : string) : bool :=
  let '(found, rest) := placeholders 0 pattern in
  forallb (λ p, bool_decide (PyStr.lower p ∈ allowed_placeholders)) found &&
  negb (has_char 123 rest) && negb (has_char 125 rest).

(** [re.search(r"\{token\}", pattern, re.IGNORECASE)] for a pattern that is valid. *)
Definition _cloudosd_pattern_has_token (pattern token : string) : bool :=
  bool_decide (token ∈ (PyStr.lower <$> (placeholders 0 pattern).1)).

(** [re.sub(r"\{token\}", value, pattern, flags=re.IGNORECASE)] *)
Fixpoint replace_token_from (token value : string) (skip : nat) (s : string) : string :=
  match s with
  | EmptyString => EmptyString
  | String c s' =>
      match skip with
      | S skip => replace_token_from token value skip s'
      | O =>
          if String.prefix ("{" +:+ token +:+ "}") (PyStr.lower s)
          then value +:+ replace_token_from token value (S (String.length token)) s'
          else String c (replace_token_from token value 0 s')
      end
  end.
Definition _replace_cloudosd_token (pattern token value : string) : string :=
  replace_token_from token value 0 pattern.

(** [[A-Za-z0-9](?:[A-Za-z0-9-]{0,61}[A-Za-z0-9])?] *)
Definition is_plain_alnum (c : ascii) : bool := is_name_char c && negb (is_char 45 c).

Fixpoint last_char (s : string) : option ascii :=
  match s with
  | EmptyString => None
  | String c EmptyString => Some c
  | String _ s => last_char s
  end.

Definition valid_vm_name (name : string) : bool :=
  (String.length name <=? 63)%nat &&
  forallb is_name_char (String.list_ascii_of_string name) &&
  match String.get 0 name, last_char name with
  | Some a, Some b => is_plain_alnum a && is_plain_alnum b
  | _, _ => false
  end.

Record batch_plan : Type := BatchPlan {
  bt_name : string;
  bt_serial : string;
  bt_requested_vmid : Z
}.

Section batch.
Context `{Env} `{Sha256} `{StrSet} `{Secrets} `{IsoTime}.

(** [uuid4().hex[:8].upper()] behind the prefix *)
Definition _cloudosd_generate_serial (serial_prefix : string) : eff session string :=
  let prefix := lstrip_dashes (rstrip_dashes (keep_name_chars (rstrip_dashes (PyStr.strip serial_prefix)))) in
  id ← new_id;
  let suffix := upper (String.substring 0 8 (replace "-" EmptyString id)) in
  mret (if decide (prefix = EmptyString) then suffix else prefix +:+ "-" +:+ suffix).

(** A name of the pattern, before it is moved to a free number. *)
Definition name_of_pattern (pattern : string) (index : nat) (vmid : Z) (serial : string) : string :=
  let i := padded 2 (Z.of_nat index) in
  PyStr.strip (_replace_cloudosd_token (_replace_cloudosd_token (_replace_cloudosd_token pattern "index" i)
    "vmid" (pretty vmid)) "serial" serial).

(** The rounds of the loop from [index] on; [taken] are the names in use, in lower case. *)
Fixpoint batch_names (pattern serial_prefix : string) (uses_index : bool) (taken : list string) (index : nat)
    (vmids : list Z) : eff session (list batch_plan) :=
  match vmids with
  | [] => mret []
  | vmid :: vmids =>
      serial ← _cloudosd_generate_serial serial_prefix;
      let name := name_of_pattern pattern index vmid serial in
      if decide (name = EmptyString) then raise (http_error 400 "OSDCloud VM name is empty")
      else
        let name := if uses_index then next_free_indexed_name name taken 999 else name in
        if negb (valid_vm_name name) then
          raise (http_error 400 ("OSDCloud hostname pattern produced invalid Proxmox VM name " +:+
            repr_string name +:+ ". Use letters, numbers, and hyphens only; the name cannot start or end with a hyphen."))
        else
          plans ← batch_names pattern serial_prefix uses_index
                    (if uses_index then PyStr.lower name :: taken else taken) (S index) vmids;
          mret (BatchPlan name serial vmid :: plans)
  end.

(** The pattern a batch of several machines is named by. *)
Definition batch_pattern (hostname_pattern : string) (count : nat) : string :=
  let pattern := PyStr.or_else (PyStr.strip hostname_pattern) "cloudosd-{index}" in
  if (1 <? count)%nat &&
     negb (existsb (_cloudosd_pattern_has_token pattern) allowed_placeholders)
  then pattern +:+ "-{index}" else pattern.

(** The states an active deployment is not in. *)
Definition is_active (state : cloud_state) : Prop := state ≠ CloudComplete ∧ state ≠ CloudFailed.
#[export] Instance is_active_dec state : Decision (is_active state).
Proof. unfold is_active. apply _. Defined.

(** The numbers active deployments have asked for; zero is no number. *)
Definition reserved_vmids (d : db) : gset Z :=
  list_to_set (omap (λ kr : string * cloud_run,
    if decide (is_active (cr_state kr.2)) then cq_requested_vmid (cr_request kr.2) ≫= zero_is_none else None)
    (map_to_list (cloud_runs (cloud_of d)))).

Definition _cloudosd_active_reserved_vmids : eff session (gset Z) := query reserved_vmids.

(** ** The world *)

Context {W : Type} `{!GuestApi W}.

(** [_proxmox_api(...) or []] of a list. *)
Definition rows_of (answer : json) : outcome (list json) :=
  match jor answer (JArr []) with
  | JArr l => Ret l
  | JObj o => Ret (JStr <$> o.*1)
  | JStr s => Ret (map (λ c, JStr (String c EmptyString)) (String.list_ascii_of_string s))
  | _ => Exc TypeError
  end.

Definition resources : string := "/cluster/resources?type=vm".

(** The numbers in use; those reserved alone when Proxmox does not tell. *)
Definition used_vmids (reserved : gset Z) : eff W (gset Z) :=
  tried ← attempt (answer ← api_get resources; rows ← lift_outcome (rows_of answer); lift_outcome (vmids_in_use rows));
  mret match tried with Ret used => reserved ∪ used | Exc _ => reserved end.

Definition _cloudosd_candidate_vmids (count : nat) (reserved : gset Z) : eff W (list Z) :=
  answer ← api_get "/cluster/nextid";
  first ← lift_outcome (py_int answer);
  used ← used_vmids reserved;
  mret (default [] (next_vmids (vmids_fuel used count) first used count)).

(** [str(row.get("name") or "").strip()] of every row, in lower case, without the empty
    ones. *)
Fixpoint names_of_rows (rows : list json) : outcome (list string) :=
  match rows with
  | [] => Ret []
  | JObj o :: rows =>
      names ← names_of_rows rows;
      let name := PyStr.strip (output "name" (JObj o)) in
      Ret (if decide (name = EmptyString) then names else PyStr.lower name :: names)
  | _ :: _ => Exc AttributeError
  end.

Definition _cloudosd_existing_vm_names_lower : eff W (list string) :=
  tried ← attempt (answer ← api_get resources; rows ← lift_outcome (rows_of answer); lift_outcome (names_of_rows rows));
  mret match tried with Ret names => names | Exc _ => [] end.

Definition _cloudosd_batch_names (hostname_pattern serial_prefix : string) (count : nat)
    (requested_vmids : list Z) : eff (session * W) (list batch_plan) :=
  if negb (valid_pattern (PyStr.or_else (PyStr.strip hostname_pattern) "cloudosd-{index}")) then
    raise (http_error 400 ("OSDCloud hostname pattern contains an invalid placeholder. " +:+
      "Use only {index}, {serial}, and {vmid}."))
  else
    let pattern := batch_pattern hostname_pattern count in
    let uses_index := _cloudosd_pattern_has_token pattern "index" in
    if decide (length requested_vmids ≠ count) then
      raise (http_error 500 "OSDCloud VMID reservation returned the wrong number of VMIDs")
    else
      taken ← (if uses_index then io _cloudosd_existing_vm_names_lower else mret []);
      plans ← db_op (batch_names pattern serial_prefix uses_index taken 1 requested_vmids);
      if decide (NoDup ((λ p, PyStr.lower (bt_name p)) <$> plans)) then mret plans
      else raise (http_error 400 "OSDCloud hostname pattern produced duplicate VM names").

(** ** The batch *)

(** What the form gives: [ba_count] is [int(count or 1)], where 0 stands for the negative
    numbers; [ba_args] holds what is the same for all machines, and [ba_sequence] the
    sequence that is selected with its steps, if it is there. *)
Record batch_args : Type := BatchArgs {
  ba_count : nat;
  ba_artifact_id : string;
  ba_hostname_pattern : string;
  ba_serial_prefix : string;
  ba_sequence : option (Z * option (list SequenceCompiler.seq_step));
  ba_args : cloud_args;
  ba_bubble : option string;
  ba_role : string
}.

(** What the selected sequence asks for. *)
Definition batch_intent (resolve_credential : credential_source) (b : batch_args) :
    eff (session * W) json :=
  match ba_sequence b with
  | None => mret no_join
  | Some (id, None) => raise (http_error 404 ("sequence " +:+ pretty id +:+ " not found"))
  | Some (id, Some steps) =>
      match compile_cloudosd_sequence_intent (Some (id, steps)) resolve_credential with
      | Ret dj => mret dj
      | Exc (CustomError class message) =>
          if decide (class = "CloudOSDSequenceError") then raise (http_error 400 message)
          else raise (CustomError class message)
      | Exc e => raise e
      end
  end.

(** [int(value or 0) or default] *)
Definition or_default (d value : Z) : Z := if decide (value = 0%Z) then d else value.
Definition DEFAULT_VM_CORES : Z := 4.
Definition DEFAULT_VM_MEMORY_MB : Z := RECOMMENDED_VM_MEMORY_MB.
Definition DEFAULT_VM_DISK_SIZE_GB : Z := 80.

(** The arguments of one deployment. *)
Definition plan_args (b : batch_args) (artifact_id : string) (domain_join : json) (p : batch_plan) : cloud_args :=
  let a := ba_args b in
  stripped_args
    (CloudArgs artifact_id (bt_name p) (cg_node a) (cg_iso_storage a) (cg_storage a) (cg_network_bridge a)
      (Some (bt_requested_vmid p)) DEFAULT_ARCHITECTURE (PyStr.or_else (cg_os_version a) DEFAULT_OS_VERSION)
      (PyStr.or_else (cg_os_activation a) DEFAULT_OS_ACTIVATION)
      (PyStr.or_else (cg_os_edition a) DEFAULT_OS_EDITION)
      (PyStr.or_else (cg_os_language a) DEFAULT_OS_LANGUAGE) (or_default DEFAULT_VM_CORES (cg_vm_cores a))
      (or_default DEFAULT_VM_MEMORY_MB (cg_vm_memory_mb a))
      (or_default DEFAULT_VM_DISK_SIZE_GB (cg_vm_disk_size_gb a)) (cg_vm_group_tag a) (cg_vm_oem_profile a) (cg_chassis_type_override a)
      (cg_source_surface a) (fst <$> ba_sequence b) (cg_tpm_enabled a) (cg_secure_boot a)
      (cg_firmware_updates_enabled a) (PyStr.or_else (cg_driver_pack_policy a) DEFAULT_DRIVER_PACK_POLICY)
      (cg_analytics_enabled a) (cg_outbound_policy a) JNull JNull)
    "provision" domain_join.

(** One round of the loop over the machines; [start_job] starts the playbook. *)
Definition provision_one (start_job : string → batch_plan → eff W unit) (b : batch_args) (artifact_id : string)
    (domain_join : json) (p : batch_plan) : eff (session * W) string :=
  db_op (published_artifact artifact_id) ;;
  run ← db_op (create_in_bubble (plan_args b artifact_id domain_join p) (ba_bubble b)
          (PyStr.or_else (PyStr.strip (PyStr.or_else (ba_role b) "workstation")) "workstation"));
  io (start_job run.1 p) ;;
  mret run.1.

Fixpoint provision_each (start_job : string → batch_plan → eff W unit) (b : batch_args) (artifact_id : string)
    (domain_join : json) (plans : list batch_plan) : eff (session * W) (list string) :=
  match plans with
  | [] => mret []
  | p :: plans =>
      id ← provision_one start_job b artifact_id domain_join p;
      ids ← provision_each start_job b artifact_id domain_join plans;
      mret (id :: ids)
  end.

(** [finally: _cloudosd_unlock_vmid_reservations(conn)] ends the transaction: work that is
    left is committed, unless a statement was refused. *)
Definition unlocking {A} (m : eff (session * W) A) : eff (session * W) A := λ sw,
  match m sw with
  | (Exc (IntegrityError c), sw') => (db_op rollback ;; raise (IntegrityError c)) sw'
  | (o, sw') => (db_op commit ;; lift_outcome o) sw'
  end.

(** The newest artifact that is ready. *)
Definition _auto_select_cloudosd_artifact_id (ready : string * cloud_artifact → bool) : eff session string :=
  artifacts ← list_artifacts (Some "amd64");
  match filter (λ kr : string * cloud_artifact, ready kr = true ∧ kr.1 ≠ EmptyString) artifacts with
  | kr :: _ => mret kr.1
  | [] => raise (http_error 409 "No ready OSDCloud artifact is available to provision. Build and publish one first.")
  end.

(** [ready] says of an artifact whether its files are there; [objection] is what the
    preflight of the plans and the permissions of Proxmox object. *)
Definition _start_cloudosd_provision_batch (start_job : string → batch_plan → eff W unit)
    (resolve_credential : credential_source) (ready : string * cloud_artifact → bool)
    (objection : list batch_plan → option exc) (b : batch_args) : eff (session * W) (list string) :=
  let memory := or_default DEFAULT_VM_MEMORY_MB (cg_vm_memory_mb (ba_args b)) in
  let disk := or_default DEFAULT_VM_DISK_SIZE_GB (cg_vm_disk_size_gb (ba_args b)) in
  if decide (ba_count b < 1 ∨ 50 < ba_count b)%nat then
    raise (http_error 400 "OSDCloud count must be between 1 and 50")
  else if decide (memory < MIN_VM_MEMORY_MB)%Z then
    raise (http_error 400 ("OSDCloud Proxmox VMs need at least " +:+ pretty MIN_VM_MEMORY_MB +:+ " MB RAM"))
  else if decide (disk < MIN_VM_DISK_SIZE_GB)%Z then
    raise (http_error 400 ("OSDCloud VMs need at least " +:+ pretty MIN_VM_DISK_SIZE_GB +:+ " GB disk"))
  else
    domain_join ← batch_intent resolve_credential b;
    db_op (known_bubble (ba_bubble b)) ;;
    artifact_id ← (if decide (ba_artifact_id b = EmptyString)
                   then db_op (_auto_select_cloudosd_artifact_id ready) else mret (ba_artifact_id b));
    unlocking (
      reserved ← db_op _cloudosd_active_reserved_vmids;
      vmids ← io (_cloudosd_candidate_vmids (ba_count b) reserved);
      plans ← _cloudosd_batch_names (ba_hostname_pattern b) (ba_serial_prefix b) (ba_count b) vmids;
      match objection plans with
      | Some e => raise e
      | None => provision_each start_job b artifact_id domain_join plans
      end).
End batch.
