(* ===== verification/CloudReach.v ===== *)
(** * Reachable states of the system

    The engine, OSDeploy, CloudOSD, the bubbles, batches of deployments and the passes over
    the guests work on one database.  Every state they can reach together is well-formed. *)

From stdpp Require Import base gmap list strings relations.
From Stdlib Require Import ZArith Lia.
From S2P Require Import Prelude Json Text JsonParse Digest CloudData OsdeployData TsData Conditions Tree Sequences Content Runs RunState Engine Generated OsdeployRoles OsdeployRuns OsdeployPlan OsdeployService OsdeployInvariant OsdeployTables CloudNames Bubbles BubbleInvariant CloudRuns CloudScripts CloudService CloudInvariant CloudJoin CloudBatch.

Section reach.
Context `{Env} `{Sha256} `{StrSet} `{Secrets} `{IsoTime}.

(** ** Work that reads the world *)

Section world.
Context {W : Type} (I : db → Prop).

(** [keeps_in m]: whatever the world does, [I] holds after [m] if it held before. *)
Definition keeps_in {A} (m : eff (session * W) A) : Prop :=
  ∀ sw, holds_in I sw.1 → holds_in I (m sw).2.1.

Lemma keeps_in_bind {A B} (m : eff (session * W) A) (f : A → eff (session * W) B) :
  keeps_in m → (∀ a, keeps_in (f a)) → keeps_in (m ≫= f).
Proof.
  intros Hm Hf sw Hs. rewrite run_bind. specialize (Hm sw Hs). destruct (m sw) as [[a|e] sw']; [by apply Hf|done].
Qed.

Lemma keeps_ret {A} (a : A) : keeps_in (mret a).
Proof. by intros sw Hs. Qed.
Lemma keeps_raise {A} e : keeps_in (raise (A:=A) e).
Proof. by intros sw Hs. Qed.
Lemma keeps_lift {A} (o : outcome A) : keeps_in (lift_outcome o).
Proof. by intros sw Hs. Qed.
Lemma keeps_io {A} (m : eff W A) : keeps_in (io m).
Proof. intros [s w] Hs. unfold io. simpl. by destruct (m w). Qed.
Lemma keeps_db {A} (m : eff session A) : preserves I m → keeps_in (db_op m).
Proof. intros Hm [s w] Hs. specialize (Hm s Hs). unfold db_op. simpl. by destruct (m s). Qed.
Lemma keeps_attempt {A} (m : eff (session * W) A) : keeps_in m → keeps_in (attempt m).
Proof. intros Hm sw Hs. specialize (Hm sw Hs). unfold attempt. by destruct (m sw). Qed.
End world.

Hint Resolve keeps_ret keeps_raise keeps_lift keeps_io : keeps_in.

Ltac keeps_step :=
  match goal with
  | |- keeps_in _ (mbind _ _) => apply keeps_in_bind; [|intros]
  | |- keeps_in _ (attempt _) => apply keeps_attempt
  | |- keeps_in _ (match ?x with _ => _ end) => destruct x eqn:?
  | |- keeps_in _ (let _ := _ in _) => cbv zeta
  | |- keeps_in _ (db_op _) => apply keeps_db; solve [preserves_solve]
  | |- keeps_in _ _ => solve [eauto with keeps_in]
  end.
Ltac keeps_solve := repeat keeps_step.

Section passes.
Context (I : db → Prop) `{!CloudStatements I, !BubbleStatements I, !Keeps serve_run I, !Statements I}.

Lemma keeps_execute_join {W} `{!Guests W} c : keeps_in (W:=W) I (execute_join_for_run c).
Proof.
  pose proof (kept_mark I). pose proof (kept_cloud_event I).
  unfold execute_join_for_run, node_of, confirm_joined, join_with_credential, join_machine, join_event,
    credential_user, dict_of, _mark_steps. keeps_solve.
Qed.

Lemma keeps_execute_hash {W} `{!Guests W} c : keeps_in (W:=W) I (execute_hash_capture_for_run c).
Proof.
  pose proof (kept_mark I). pose proof (kept_cloud_event I).
  unfold execute_hash_capture_for_run, node_of, store_hash, hash_event. keeps_solve.
Qed.

Lemma keeps_sweep {W} `{!Guests W} skip deadline execute l :
  (∀ c, keeps_in (W:=W) I (execute c)) → keeps_in I (sweep skip deadline execute l).
Proof. intros He. induction l as [|c l IH]; simpl; keeps_solve. Qed.

Lemma preserves_attempt {A} (m : eff session A) : preserves I m → preserves I (attempt m).
Proof. intros Hm s Hs. specialize (Hm s Hs). unfold attempt. by destruct (m s). Qed.

Lemma kept_advance hb cutoff l : preserves I (advance_each hb cutoff l).
Proof.
  induction l as [|id l IH]; simpl; [apply preserves_ret|]. unfold advance_run. preserves_solve.
  by apply preserves_attempt, kept_cloud_heartbeat.
Qed.

Lemma keeps_tick {W} `{!Guests W} hb limit : keeps_in (W:=W) I (_do_cloudosd_domain_join_tick hb limit).
Proof.
  pose proof kept_advance.
  assert (∀ skip deadline l, keeps_in (W:=W) I (sweep skip deadline execute_join_for_run l)) by
    (intros; apply keeps_sweep, keeps_execute_join).
  assert (∀ skip deadline l, keeps_in (W:=W) I (sweep skip deadline execute_hash_capture_for_run l)) by
    (intros; apply keeps_sweep, keeps_execute_hash).
  unfold _do_cloudosd_domain_join_tick, run_pending_joins, run_pending_hash_captures, deadline_of,
    find_join_candidates, find_hash_candidates, advance_domain_joined_runs. keeps_solve.
Qed.

Lemma keeps_unlocking {W A} (m : eff (session * W) A) : keeps_in I m → keeps_in I (unlocking m).
Proof.
  intros Hm sw Hs. specialize (Hm sw Hs). unfold unlocking.
  destruct (m sw) as [[a|[]] [s w]]; destruct Hm as [Hc Hm]; by split.
Qed.

Lemma kept_batch_names pt sp ui tk i vs : preserves I (batch_names pt sp ui tk i vs).
Proof.
  revert tk i. induction vs as [|v vs IH]; intros tk i; simpl; [apply preserves_ret|].
  unfold _cloudosd_generate_serial. cbv zeta. preserves_solve.
Qed.

Lemma keeps_provision {W} (start_job : string → batch_plan → eff W unit) b aid dj ps :
  keeps_in I (provision_each start_job b aid dj ps).
Proof.
  pose proof (kept_in_bubble I).
  induction ps as [|p ps IH]; simpl; [apply keeps_ret|].
  unfold provision_one, published_artifact, get_artifact. keeps_solve.
Qed.

Lemma keeps_batch {W} `{!GuestApi W} start_job rc ready obj b :
  keeps_in (W:=W) I (_start_cloudosd_provision_batch start_job rc ready obj b).
Proof.
  pose proof kept_batch_names. pose proof (λ sj b a d p, keeps_provision (W:=W) sj b a d p).
  unfold _start_cloudosd_provision_batch, batch_intent, known_bubble, get_bubble,
    _auto_select_cloudosd_artifact_id, list_artifacts, _cloudosd_active_reserved_vmids, _cloudosd_batch_names.
  keeps_solve. apply keeps_unlocking. keeps_solve.
Qed.
End passes.

(** ** The system *)

(** A request in a transaction of its own, which another part of the world may take part
    in, or time that passes. *)
Definition with_connection_in {W A} (m : eff (session * W) A) (s : session) (w : W) : session :=
  match m (s, w) with
  | (Ret _, sw') => (commit sw'.1).2
  | (Exc _, sw') => (rollback sw'.1).2
  end.

Inductive system_step (s : session) : session → Prop :=
| SystemServe r : system_step s (with_connection (serve_all r) s).2
| SystemCloud r : system_step s (with_connection (serve_cloud r) s).2
| SystemTick W (G : Guests W) (w : W) hb limit :
    system_step s (with_connection_in (_do_cloudosd_domain_join_tick hb limit) s w)
| SystemBatch W (G : GuestApi W) (w : W) start_job rc ready obj b :
    system_step s (with_connection_in (_start_cloudosd_provision_batch start_job rc ready obj b) s w)
| SystemIdle n m : (tick s ≤ n)%nat → (issued s ≤ m)%nat →
    system_step s (Session (cur s) (committed s) n m).

Definition in_system (s : session) : Prop := rtc system_step initial s.

Lemma with_connection_in_keeps I {W A} (m : eff (session * W) A) s w :
  keeps_in I m → holds_in I s → holds_in I (with_connection_in m s w).
Proof.
  intros Hm Hs. unfold with_connection_in. specialize (Hm (s, w) Hs).
  destruct (m (s, w)) as [[a|e] [s' w']]; destruct Hm as [Hc Hm]; by split.
Qed.

(** An invariant of every request and every statement holds in every reachable state. *)
Lemma in_system_keeps I s :
  Keeps serve_all I → Keeps serve_run I → Statements I → CloudStatements I → BubbleStatements I →
  I empty_db → in_system s → I (cur s) ∧ I (committed s).
Proof.
  intros H1' H2' H3' H4' H5' Hempty Hr. assert (holds_in I initial) as Hi by by split.
  induction Hr as [s|s s1 s2 Hstep _ IH]; [done|]. apply IH. destruct Hstep as [r|r|W G w hb l|W G w sj rc rd ob b|n m].
  - by apply (with_connection_keeps I (serve_all r)).
  - apply (with_connection_keeps I (serve_cloud r)); [|done]. apply (serve_cloud_keeps I).
  - apply with_connection_in_keeps; [by apply keeps_tick|done].
  - apply with_connection_in_keeps; [by apply keeps_batch|done].
  - done.
Qed.

(** C9. The engine, OSDeploy, CloudOSD and the bubbles share a database.  In every state
    that their requests, batches of deployments and the passes over the guests can reach -
    in any order, whether they succeed or raise, and whatever guests answer - all tables are
    well-formed.  The engine's rules hold as without deployments.  Every deployment has a
    run of the engine, boot media, a workflow name of its own and a name Windows accepts,
    and stores a configuration of its domain that was sanitized for that name; events,
    readiness and attempts are of deployments that exist.  Bubbles have names and slugs of
    their own, what is in a bubble refers to it, and an asset that provides a service is in
    the bubble of the service, however assets are moved. *)
Theorem system_well_formed (s : session) :
  in_system s →
  wf_nodes (cur s) ∧ versions_numbered (cur s) ∧ hashes_match (cur s) ∧ wf_content (cur s) ∧
  wf_runs (cur s) ∧ wf_osdeploy (cur s) ∧ wf_cloud (cur s) ∧ wf_bubbles (cur s).
Proof.
  intros Hs. split_and!.
  - by apply (in_system_keeps wf_nodes s _ _ _ _ _ empty_nodes).
  - by apply (in_system_keeps versions_numbered s _ _ _ _ _ empty_numbered).
  - by apply (in_system_keeps hashes_match s _ _ _ _ _ empty_hashes).
  - by apply (in_system_keeps wf_content s _ _ _ _ _ empty_content).
  - by apply (in_system_keeps wf_runs s _ _ _ _ _ empty_runs).
  - by apply (in_system_keeps wf_osdeploy s _ _ _ _ _ empty_wf_osdeploy).
  - by apply (in_system_keeps wf_cloud s _ _ _ _ _ empty_wf_cloud).
  - by apply (in_system_keeps wf_bubbles s _ _ _ _ _ empty_wf_bubbles).
Qed.

Lemma system_tables s : in_system s → holds_in wf_cloud s ∧ holds_in wf_bubbles s.
Proof.
  intros Hs. split; [by apply (in_system_keeps wf_cloud s _ _ _ _ _ empty_wf_cloud)|
    by apply (in_system_keeps wf_bubbles s _ _ _ _ _ empty_wf_bubbles)].
Qed.

Lemma in_service_system s : in_service s → in_system s.
Proof.
  intros Hs. unfold in_system. induction Hs as [s|s s1 s2 Hstep _ IH]; [done|].
  eapply rtc_l; [|exact IH]. destruct Hstep; [apply SystemServe|by apply SystemIdle].
Qed.

(** What creating a deployment needs of the database. *)
Lemma system_ready s :
  in_system s → sequences_known (cur s) ∧
  (∀ id st, steps (cur s) !! id = Some st → known (runs (cur s)) (ps_run_id (st_plan st)) = true).
Proof.
  intros Hs. split.
  - apply sequences_known_of.
    + by apply (in_system_keeps wf_nodes s _ _ _ _ _ empty_nodes).
    + by apply (in_system_keeps versions_known s _ _ _ _ _ empty_versions_known).
  - intros id st. destruct (in_system_keeps wf_runs s _ _ _ _ _ empty_runs Hs) as [Hw _]. apply (wr_step _ Hw).
Qed.
End reach.
