(* ===== verification/CloudComplete.v ===== *)
(** * When a deployment is complete

    What a heartbeat does to a deployment of CloudOSD ([mark_complete_from_heartbeat]): it
    is complete exactly when the machine is in its domain, if it has one, and the steps in
    the installed Windows are done.  Also what creating a deployment plans. *)

From stdpp Require Import base gmap list strings pretty sorting relations.
From Stdlib Require Import ZArith Lia.
From S2P Require Import Prelude Json Text JsonParse Digest CloudData OsdeployData TsData Conditions Tree Sequences Content Runs RunState Progress Engine Generated OsdeployRoles OsdeployRuns OsdeployService OsdeployInvariant CloudNames Bubbles BubbleInvariant CloudRuns CloudService CloudInvariant CloudReach.

Section complete.
Context `{Env} `{Sha256} `{StrSet} `{Secrets} `{IsoTime}.

(** ** The steps that are required *)

(** The state of the last step of a kind. *)
Definition last_state (kind : string) (l : list (string * step_row)) : option step_state :=
  (λ kr, st_state kr.2) <$> last (filter (λ kr : string * step_row, ps_kind (st_plan kr.2) = kind) l).

Lemma completion_states (required : list string) l kind :
  kind ∈ required →
  foldl (λ o kr, if decide (ps_kind (st_plan kr.2) ∈ required)
    then <[ps_kind (st_plan kr.2) := st_state kr.2]> o else o) (∅ : gmap string step_state) l !! kind
  = last_state kind l.
Proof.
  intros Hk. unfold last_state. induction l as [|kr l IH] using rev_ind; [done|].
  rewrite foldl_app, filter_app. simpl. rewrite filter_cons, filter_nil.
  destruct (decide (ps_kind (st_plan kr.2) = kind)) as [Heq|Hne].
  - rewrite decide_True by congruence. rewrite Heq, lookup_insert_eq, last_snoc. done.
  - rewrite app_nil_r. case_decide; [by rewrite lookup_insert_ne|done].
Qed.

Lemma completion_ready (required : list string) l :
  cs_ready (completion_of required l) = true ↔ ∀ kind, kind ∈ required → last_state kind l = Some Done.
Proof.
  unfold completion_of. simpl. rewrite bool_decide_eq_true. split.
  - intros Hnil kind Hk. rewrite <- (completion_states required l kind Hk).
    destruct (decide (foldl (λ o kr, if decide (ps_kind (st_plan kr.2) ∈ required)
      then <[ps_kind (st_plan kr.2) := st_state kr.2]> o else o) (∅ : gmap string step_state) l !! kind = Some Done))
      as [|Hn]; [done|].
    exfalso. eapply (not_elem_of_nil (A:=string) kind). rewrite <- Hnil. by apply list_elem_of_filter.
  - intros Hall. apply elem_of_nil_inv. intros kind [Hn Hk]%list_elem_of_filter.
    apply Hn. by rewrite completion_states, Hall.
Qed.

(** The steps a deployment needs are done. *)
Definition required_done (run_id : string) (config : json) (d : db) : Prop :=
  ∀ kind, kind ∈ required_kinds config → last_state kind (run_steps run_id d) = Some Done.

(** ** Machines in bubbles *)

(** [d'] is [d] but for the bubbles. *)
Definition same_but_lab (d d' : db) : Prop := ∃ f, d' = set_osdeploy (set_cloud (set_lab f)) d.

Lemma same_but_lab_refl d : same_but_lab d d.
Proof. exists (λ t, t). unfold set_osdeploy, set_cloud, set_lab. by destruct d as [? ? ? ? ? ? ? ? ? ? [? ? ? ? ? ? []]]. Qed.

Lemma same_but_lab_trans d1 d2 d3 : same_but_lab d1 d2 → same_but_lab d2 d3 → same_but_lab d1 d3.
Proof. intros [f ->] [g ->]. by exists (λ t, g (f t)). Qed.

Lemma lab_of_set f d : lab_of (set_osdeploy (set_cloud (set_lab f)) d) = f (lab_of d).
Proof. done. Qed.

(** Updating an asset that is there does not raise. *)
Lemma run_update_asset id p old s :
  wf_bubbles (cur s) → bubble_assets (lab_of (cur s)) !! id = Some old →
  ∃ a s', update_asset id p s = (Ret a, s') ∧ same_but_lab (cur s) (cur s') ∧
    ∀ k, known (bubble_assets (lab_of (cur s))) k = true → known (bubble_assets (lab_of (cur s'))) k = true.
Proof.
  intros Hwf Hold. unfold update_asset. rewrite run_bind, run_query, Hold.
  case_decide; [eexists _, _; split; [done|]; split; [apply same_but_lab_refl|done]|].
  rewrite run_bind, run_now. cbv zeta. unfold store_asset, record_audit_event, insert_audit.
  pose proof (wl_asset _ Hwf id old Hold) as Hb.
  rewrite !run_bind, run_query, run_checked. cbn [cur patched_asset ba_bubble_id]. rewrite Hb.
  rewrite !run_bind, run_now, run_bind, run_query, run_checked.
  unfold on_cur. cbn [cur tick committed issued]. rewrite lab_of_set.
  cbn [set_bubble_assets lab_bubbles bubble_assets known_or_null au_bubble_id au_asset_id patched_asset
    ba_bubble_id]. rewrite Hb.
  rewrite (proj2 (known_true (<[id := _]> _) id)) by (rewrite lookup_insert_eq; eauto). simpl.
  eexists _, (Session _ _ _ _). split; [done|]. split.
  - eexists (λ t, set_audit_events _ (set_bubble_assets _ t)). done.
  - intros k. apply known_insert.
Qed.

Lemma run_lab_assets id s :
  holds_in wf_bubbles s →
  ∃ n s', mark_lab_assets_complete_for_run id s = (Ret n, s') ∧ same_but_lab (cur s) (cur s').
Proof.
  intros Hwf. unfold mark_lab_assets_complete_for_run. rewrite run_bind, run_query.
  set (rows := select_where _ _).
  assert (∀ kr, kr ∈ rows → known (bubble_assets (lab_of (cur s))) kr.1 = true) as Hrows.
  { intros [k a] [_ Hk]%elem_of_select_where. apply known_true. eauto. }
  rewrite run_bind.
  assert (∀ l s0, (∀ kr, kr ∈ l → kr ∈ rows) → holds_in wf_bubbles s0 → same_but_lab (cur s) (cur s0) →
    (∀ k, known (bubble_assets (lab_of (cur s))) k = true → known (bubble_assets (lab_of (cur s0))) k = true) →
    ∃ s', for_each l (λ kr : string * bubble_asset, update_asset kr.1 active_evidence ;; mret tt) s0 = (Ret tt, s') ∧
      same_but_lab (cur s) (cur s')) as Hloop.
  { clear Hwf. induction l as [|kr l IH]; intros s0 Hl Hwf Hsame Hk; simpl; [eauto|].
    pose proof (Hk _ (Hrows kr ltac:(apply Hl; set_solver))) as [old Hold]%known_true.
    pose proof (kept_update_asset wf_bubbles kr.1 active_evidence s0 Hwf) as Hwf1.
    destruct (run_update_asset kr.1 active_evidence old s0 (proj1 Hwf) Hold) as (a & s1 & E & Hs1 & Hk1).
    rewrite run_bind, run_bind. rewrite E in *. rewrite run_ret.
    apply IH; [set_solver|done|by eapply same_but_lab_trans|auto]. }
  destruct (Hloop rows s (λ _ p, p) Hwf (same_but_lab_refl _) (λ _ p, p)) as (s' & -> & Hs').
  eexists _, _. by split.
Qed.

(** ** Statements that do not raise *)

(** A deployment with its run of the engine. *)
Definition deployment (id : string) (r : cloud_run) (d : db) : Prop :=
  cloud_runs (cloud_of d) !! id = Some r ∧ known (runs d) id = true.

Lemma deployment_same id r d d' :
  cloud_runs (cloud_of d') = cloud_runs (cloud_of d) → runs d' = runs d → deployment id r d → deployment id r d'.
Proof. unfold deployment. by intros -> ->. Qed.

(** The event is appended. *)
Lemma run_event id r phase et sev msg data s :
  deployment id r (cur s) →
  ∃ e s', append_event id phase et sev msg data s = (Ret e, s') ∧ cur s' = with_event e (cur s).
Proof. intros [Hr _]. rewrite run_append_cloud_event, (proj2 (known_true _ id)) by eauto. cbv zeta. eauto. Qed.

Lemma deployment_event e id r d : deployment id r d → deployment id r (with_event e d).
Proof. done. Qed.

(** [d'] is [d] but for steps that were marked and the state of the run. *)
Record advanced (id : string) (d d' : db) : Prop := Advanced {
  av_osdeploy : osdeploy d' = osdeploy d;
  av_runs k : known (runs d') k = known (runs d) k
}.

Lemma run_sync_progress id r s :
  deployment id r (cur s) →
  ∃ n s', sync_ts_progress_for_run id s = (Ret n, s') ∧ advanced id (cur s) (cur s').
Proof.
  intros [Hr Hk]. unfold sync_ts_progress_for_run, get_run, list_events.
  rewrite run_bind, run_query, Hr. simpl. rewrite run_bind, run_query.
  destruct (done_kinds _ _) as [|k ks]; [by eexists _, _|].
  destruct (run_mark_steps id (k :: ks) "cloudosd-controller"
    (Some "OSDCloud lifecycle evidence advanced this v2 run step")
    (JObj [("source", JStr "cloudosd_lifecycle")]) s Hk) as (n & s' & -> & [[_ ->]|(_ & _ & [_ Ho (g & Hg & _)])]);
    eexists _, _; (split; [done|]); split; try done.
  intros j. by rewrite Hg, known_alter.
Qed.

Lemma deployment_advanced id r d d' : advanced id d d' → deployment id r d → deployment id r d'.
Proof. intros [Ho Hk] [Hr Hr']. split; [|by rewrite Hk]. unfold cloud_of in *. by rewrite Ho. Qed.

Definition with_cloud_run (id : string) (f : cloud_run → cloud_run) (d : db) : db :=
  set_osdeploy (set_cloud (set_cloud_runs (alter f id))) d.

Lemma run_update_unless st id f r s :
  deployment id r (cur s) → cr_state r ≠ st →
  update_unless st id f s = (Ret (Some (f r)), on_cur (with_cloud_run id f) s) ∧
  deployment id (f r) (with_cloud_run id f (cur s)).
Proof.
  intros [Hr Hk] Hne.
  assert (cloud_runs (cloud_of (with_cloud_run id f (cur s))) !! id = Some (f r)) as Hr'.
  { unfold cloud_of, with_cloud_run in *. simpl. by rewrite lookup_alter_eq, Hr. }
  split; [|by split]. unfold update_unless, update_cloud_run, on_cloud, on_osdeploy.
  rewrite run_bind, run_query, Hr, decide_False by done. rewrite run_bind, run_execute, run_query.
  unfold on_cur. cbn [cur]. f_equal. f_equal. exact Hr'.
Qed.

Lemma run_ts_update id g r s :
  deployment id r (cur s) →
  update_ts_run id g s = (Ret tt, on_cur (set_runs (alter g id)) s) ∧
  deployment id r (set_runs (alter g id) (cur s)).
Proof. intros [Hr Hk]. split; [done|]. split; [done|]. simpl. by rewrite known_alter. Qed.

(** ** The two ends of a heartbeat *)

Definition waits (state : cloud_state) (r : cloud_run) : cloud_state :=
  if decide (cr_state r = CloudComplete) then CloudComplete else state.

Lemma run_wait_for_domain id r at_ now v s :
  deployment id r (cur s) → cr_state r ≠ CloudFailed →
  ∃ row s' r', wait_for_domain id at_ now v s = (Ret (Some row), s') ∧ deployment id r' (cur s') ∧
    cr_state row = cr_state r' ∧ cr_state r' = waits WaitingDomainJoin r.
Proof.
  intros Hr Hf. unfold wait_for_domain. rewrite run_bind.
  destruct (run_update_unless CloudFailed id (cloud_waiting WaitingDomainJoin at_ now) r s Hr Hf) as [-> Hr1].
  rewrite run_bind. set (s1 := on_cur _ s).
  destruct (run_ts_update id (ts_waiting "full_os_waiting_domain_join") _ s1 Hr1) as [-> Hr2].
  rewrite run_bind, run_commit. rewrite run_bind. unfold heartbeat_event.
  match goal with |- context [append_event id ?a ?b ?c ?m ?dt ?x] =>
    destruct (run_event id _ a b c m dt x Hr2) as (e & s3 & -> & Hs3) end.
  rewrite run_bind.
  match goal with |- context [append_event id ?a ?b ?c ?m ?dt s3] =>
    destruct (run_event id (cloud_waiting WaitingDomainJoin at_ now r) a b c m dt s3) as (e' & s4 & -> & Hs4) end.
  { rewrite Hs3. exact Hr2. }
  rewrite run_bind. destruct (run_sync_progress id (cloud_waiting WaitingDomainJoin at_ now r) s4) as (n & s5 & -> & Ha).
  { rewrite Hs4, Hs3. exact Hr2. }
  rewrite run_ret. eexists _, s5, (cloud_waiting WaitingDomainJoin at_ now r). split; [done|]. split; [|done].
  eapply deployment_advanced; [exact Ha|]. rewrite Hs4, Hs3. exact Hr2.
Qed.

Lemma run_completion_gate id row at_ now config s :
  deployment id row (cur s) → cr_state row ≠ CloudFailed → holds_in wf_bubbles s →
  ∃ out s' r', completion_gate id at_ now config row s = (Ret (Some out), s') ∧ deployment id r' (cur s') ∧
    steps (cur s') = steps (cur s) ∧ cr_state out = cr_state r' ∧
    (required_done id config (cur s) ∧ cr_state r' = CloudComplete ∧
       (∃ q, runs (cur s') !! id = Some q ∧ rn_state q = RunDone) ∨
     ¬ required_done id config (cur s) ∧ cr_state r' = cr_state row).
Proof.
  intros Hr Hf Hwf. unfold completion_gate, v2_completion_status, list_run_steps.
  rewrite !run_bind, run_query, run_ret.
  pose proof (completion_ready (required_kinds config) (run_steps id (cur s))) as Hready.
  change (∀ kind, kind ∈ required_kinds config → _) with (required_done id config (cur s)) in Hready.
  destruct (cs_ready _) eqn:E; cbn [negb].
  - rewrite run_bind.
    destruct (run_update_unless CloudFailed id (set_cr_state CloudComplete now) row s Hr Hf) as [-> Hr1].
    set (s1 := on_cur _ s) in *. rewrite run_bind.
    destruct (run_ts_update id (ts_finished at_) _ s1 Hr1) as [-> Hr2]. rewrite run_bind, run_commit.
    set (s2 := Session _ _ _ _). rewrite run_bind.
    destruct (run_lab_assets id s2) as (n & s3 & -> & [f Hs3]).
    { destruct Hwf as [Hw _]. by split. }
    rewrite run_bind.
    match goal with |- context [append_event id ?a ?b ?c ?m ?dt s3] =>
      destruct (run_event id (set_cr_state CloudComplete now row) a b c m dt s3) as (e & s4 & -> & Hs4) end.
    { rewrite Hs3. exact Hr2. }
    rewrite run_ret. eexists _, s4, (set_cr_state CloudComplete now row). split; [done|].
    rewrite Hs4, Hs3. split; [exact Hr2|]. split; [done|]. split; [done|]. left. split; [by apply Hready|].
    split; [done|]. destruct Hr as [_ [q Hq]%known_true]. exists (ts_finished at_ q). split; [|done].
    simpl. by rewrite lookup_alter_eq, Hq.
  - rewrite run_bind.
    match goal with |- context [append_event id ?a ?b ?c ?m ?dt s] =>
      destruct (run_event id row a b c m dt s Hr) as (e & s1 & -> & Hs1) end.
    rewrite run_ret. eexists _, s1, row. split; [done|]. rewrite Hs1. split; [exact Hr|].
    split; [done|]. split; [done|]. right. split; [|done]. intros Hd. apply Hready in Hd. congruence.
Qed.

(** C11. A heartbeat completes a deployment exactly when it is complete.  For a deployment in
    a state the system can reach, the heartbeat never raises; it leaves a failed deployment
    alone; and afterwards the deployment is complete if and only if it was already, or the
    heartbeat shows the machine in the domain it was to join - when it was to join one -
    and every step the installed Windows must do is done, counting those that the
    deployment's own events show to be done.  Then the engine's run is done as well.
    Otherwise the deployment waits for what is missing: its domain first. *)
Theorem heartbeat_completes_exactly (s : session) (id : string) (at_ : Z) (hb : agent_heartbeat) (r : cloud_run) :
  in_system s → cloud_runs (cloud_of (cur s)) !! id = Some r →
  let config := stored_domain_join (cq_domain_join (cr_request r)) None in
  let verified := _domain_join_enabled config = false ∨
    jv_matched (domain_join_verification config (Some hb)) = true in
  ∃ row s' r', mark_complete_from_heartbeat id at_ (Some hb) s = (Ret (Some row), s') ∧
    cloud_runs (cloud_of (cur s')) !! id = Some r' ∧ cr_state row = cr_state r' ∧
    (cr_state r = CloudFailed → s' = Session (cur s) (committed s) (S (tick s)) (issued s)) ∧
    (cr_state r' = CloudComplete ↔ cr_state r = CloudComplete ∨
       cr_state r ≠ CloudFailed ∧ verified ∧ required_done id config (cur s')) ∧
    (cr_state r' = CloudComplete → cr_state r ≠ CloudComplete →
       ∃ q, runs (cur s') !! id = Some q ∧ rn_state q = RunDone) ∧
    (cr_state r' ≠ CloudComplete → cr_state r ≠ CloudFailed →
       cr_state r' = WaitingV2 ∧ verified ∨ cr_state r' = WaitingDomainJoin ∧ ¬ verified).
Proof.
  intros Hs Hr. cbv zeta. set (config := stored_domain_join _ _).
  assert (deployment id r (cur s)) as Hdep.
  { split; [done|]. destruct (system_tables s Hs) as [[Hw _] _]. apply (wc_engine _ Hw), known_true. eauto. }
  destruct (system_tables s Hs) as [_ Hwf].
  unfold mark_complete_from_heartbeat. rewrite run_bind, run_now, run_bind, run_query. cbn [cur]. rewrite Hr.
  set (s0 := Session _ _ _ _). destruct (decide (cr_state r = CloudFailed)) as [Hf|Hf].
  { eexists _, s0, r. split; [done|]. split; [done|]. split; [done|]. rewrite Hf. naive_solver. }
  fold config. destruct (_domain_join_enabled config && negb (jv_matched _)) eqn:Ev.
  - apply andb_true_iff in Ev as [Een Em]. apply negb_true_iff in Em.
    destruct (run_wait_for_domain id r at_ (clock (tick s)) (domain_join_verification config (Some hb)) s0 Hdep Hf)
      as (row & s' & r' & -> & [Hr' _] & Hrow & Hst).
    exists row, s', r'. split_and!; try done.
    + rewrite Hst. unfold waits. case_decide; [naive_solver|]. rewrite Een, Em. naive_solver.
    + rewrite Hst. unfold waits. by case_decide.
    + rewrite Hst. unfold waits. case_decide; [done|]. intros _ _. right. split; [done|].
      rewrite Een, Em. naive_solver.
  - assert (_domain_join_enabled config = false ∨ jv_matched (domain_join_verification config (Some hb)) = true)
      as Hver by (apply andb_false_iff in Ev as [?|?%negb_false_iff]; auto).
    rewrite run_bind.
    destruct (run_update_unless CloudFailed id (cloud_waiting WaitingV2 at_ (clock (tick s))) r s0 Hdep Hf) as [-> Hr1].
    set (s1 := on_cur _ s0) in *. rewrite run_bind.
    destruct (run_ts_update id (ts_waiting "full_os_waiting_v2") _ s1 Hr1) as [-> Hr2].
    rewrite run_bind, run_commit. set (s2 := Session _ _ _ _). rewrite run_bind. unfold heartbeat_event.
    assert (holds_in wf_bubbles s2) as Hwf2 by (destruct Hwf as [Hw _]; by split).
    match goal with |- context [append_event id ?a ?b ?c ?m ?dt s2] =>
      destruct (run_event id _ a b c m dt s2 Hr2) as (e & s3 & E3 & Hs3);
      pose proof (kept_cloud_event wf_bubbles id a b c m dt s2 Hwf2) as Hwf3 end.
    rewrite E3 in Hwf3 |- *. rewrite run_bind.
    set (row := cloud_waiting WaitingV2 at_ (clock (tick s)) r) in *.
    destruct (run_sync_progress id row s3) as (n & s4 & E4 & Ha); [rewrite Hs3; exact Hr2|]. rewrite E4.
    assert (deployment id row (cur s4)) as Hr4.
    { eapply deployment_advanced; [exact Ha|]. rewrite Hs3. exact Hr2. }
    assert (cr_state row = waits WaitingV2 r) as Hrow by done.
    pose proof (kept_sync_progress wf_bubbles id s3 Hwf3) as Hwf4. rewrite E4 in Hwf4.
    destruct (run_completion_gate id row at_ (clock (tick s)) config s4 Hr4) as
      (out & s' & r' & -> & [Hr' _] & Hst & Hout & Hcase); [|done|].
    { rewrite Hrow. unfold waits. by case_decide. }
    exists out, s', r'. split_and!; try done.
    + assert (required_done id config (cur s') ↔ required_done id config (cur s4)) as ->.
      { unfold required_done, run_steps. by rewrite Hst. }
      clear -Hcase Hrow Hver Hf. rewrite Hrow in Hcase. unfold waits in Hcase.
      destruct Hcase as [(Hd & -> & _)|[Hd ->]]; [|case_decide]; naive_solver.
    + clear -Hcase Hrow Hver Hf. rewrite Hrow in Hcase. unfold waits in Hcase.
      destruct Hcase as [(Hd & -> & Hq)|[Hd ->]]; [|case_decide]; naive_solver.
    + clear -Hcase Hrow Hver Hf. rewrite Hrow in Hcase. unfold waits in Hcase.
      destruct Hcase as [(Hd & -> & Hq)|[Hd ->]]; [|case_decide]; naive_solver.
Qed.
End complete.

(** * What a deployment of CloudOSD is planned to do

    The plan that creating a deployment leaves in the engine, and that it fits what the
    deployment needs to be complete. *)

(** The kinds of the steps of a plan, and the phase of each. *)
Definition planned_kinds (l : list step_row) : list (string * string) :=
  (λ st, (ps_phase (st_plan st), ps_kind (st_plan st))) <$> l.

(** A machine joins when its configuration is enabled: in the installed Windows when a
    domain controller is named, and by its unattended setup when none is. *)
Definition joins_online (config : json) : Prop :=
  _domain_join_enabled config = true ∧ truthy (jget "domain_controller_ipv4" config) = true.
Definition joins_offline (config : json) : Prop :=
  _domain_join_enabled config = true ∧ truthy (jget "domain_controller_ipv4" config) = false.

(** Decides what is in a list that is written out. *)
Ltac listed :=
  split;
  [intros Hin; first [done|exfalso; revert Hin; by apply (bool_decide_unpack _); vm_compute]
  |intros [? ?]; first [done|by apply (bool_decide_unpack _); vm_compute]].

Section create.
Context `{Env} `{Sha256} `{StrSet} `{Secrets} `{IsoTime}.

Lemma planned_kinds_of run_id config tag rows :
  Forall2 (is_planned run_id) (imap pair (plan_of config tag)) rows →
  planned_kinds rows = (λ spec, (ss_phase spec, ss_kind spec)) <$> steps_of_deployment config.
Proof.
  intros Hall. unfold planned_kinds. apply list_eq. intros i. rewrite !list_lookup_fmap.
  destruct (rows !! i) as [st|] eqn:E; simpl.
  - destruct (Forall2_lookup_r _ _ _ _ _ Hall E) as (ix & Hix & Hst).
    unfold plan_of in Hix. rewrite list_lookup_imap, list_lookup_fmap in Hix.
    destruct (steps_of_deployment config !! i) as [spec|]; [|done]. simpl in *. simplify_eq. f_equal.
    destruct Hst as (_ & _ & _ & _ & _ & _ & -> & -> & _). done.
  - pose proof (Forall2_length _ _ _ Hall) as Hlen. unfold plan_of in Hlen. rewrite length_imap, length_fmap in Hlen.
    apply lookup_ge_None in E. rewrite <- Hlen in E. by apply lookup_ge_None in E as ->.
Qed.

(** C10. Creating a deployment plans what it needs to be complete.  When [create_run] returns,
    in any state the system can reach, there is a new deployment and a new run of the
    engine under the same id, and the plan of the run is the generated sequence, each step
    pending with its position and parameters.  Every step the completion gate asks for is
    planned exactly once, for the installed Windows; the hash is captured last, so that
    nothing waits for it; a machine that joins a domain does so either in the installed
    Windows or by its unattended setup, never both, and before its membership is verified;
    a machine that joins none has no such step.  Other deployments, runs and steps are as
    they were. *)
Theorem cloud_deployment_planned (s s' : session) (a : cloud_args) (run_id : string) (row : cloud_run) :
  in_system s → create_run a s = (Ret (run_id, row), s') →
  ∃ config r engine_run,
    _sanitize_domain_join (cg_domain_join a) (Some (normalize_windows_computer_name (Some (cg_vm_name a)))) = Ret config ∧
    cloud_runs (cloud_of (cur s')) = <[run_id := r]> (cloud_runs (cloud_of (cur s))) ∧
    cloud_runs (cloud_of (cur s)) !! run_id = None ∧
    cr_state r = CloudCreated ∧ cq_domain_join (cr_request r) = config ∧
    runs (cur s') = <[run_id := engine_run]> (runs (cur s)) ∧ runs (cur s) !! run_id = None ∧
    steps (cur s) ⊆ steps (cur s') ∧ committed s' = cur s' ∧
    let rows := (run_steps run_id (cur s')).*2 in
    let kinds := planned_kinds rows in
    Forall2 (is_planned run_id) (imap pair (plan_of config (cg_vm_group_tag a))) rows ∧
    (∀ kind, kind ∈ required_kinds config → length (filter (λ pk, pk.2 = kind) kinds) = 1%nat ∧ ("full_os", kind) ∈ kinds) ∧
    last kinds = Some ("full_os", "capture_autopilot_hash") ∧
    (("pe", "stage_ad_domain_join_unattend") ∈ kinds ↔ joins_offline config) ∧
    (("full_os", "join_domain_role") ∈ kinds ↔ joins_online config) ∧
    (joins_online config → ∃ before, kinds = before ++ [("full_os", "join_domain_role");
       ("full_os", "verify_ad_domain_join"); ("full_os", "capture_autopilot_hash")]).
Proof.
  intros Hs Hrun. destruct (system_ready s Hs) as [Hseq Hsteps].
  apply create_cloud_run in Hrun as (artifact & config & moment & er & now & eat & _ & _ & _ & Hconf & Hplan &
    Hfresh & Hnew & Hruns & _ & Ho & Hkeep & Hc); [|done..].
  eexists config, _, er. cbv zeta. split; [done|]. split; [unfold cloud_of; rewrite Ho; done|]. split_and!; try done.
  - by apply map_subseteq_spec.
  - rewrite (planned_kinds_of _ _ _ _ Hplan). unfold required_kinds, steps_of_deployment.
    destruct (_domain_join_enabled config), (truthy (jget "domain_controller_ipv4" config)); simpl; intros kind Hk;
      repeat (apply elem_of_cons in Hk as [->|Hk]; [split; [by vm_compute|by apply (bool_decide_unpack _); vm_compute]|]); by apply elem_of_nil in Hk.
  - rewrite (planned_kinds_of _ _ _ _ Hplan). unfold steps_of_deployment.
    by destruct (_domain_join_enabled config), (truthy (jget "domain_controller_ipv4" config)).
  - rewrite (planned_kinds_of _ _ _ _ Hplan). unfold joins_offline, steps_of_deployment.
    destruct (_domain_join_enabled config), (truthy (jget "domain_controller_ipv4" config)); simpl; listed.
  - rewrite (planned_kinds_of _ _ _ _ Hplan). unfold joins_online, steps_of_deployment.
    destruct (_domain_join_enabled config), (truthy (jget "domain_controller_ipv4" config)); simpl; listed.
  - rewrite (planned_kinds_of _ _ _ _ Hplan). intros [He Hd]. unfold steps_of_deployment. rewrite He, Hd.
    by eexists [_; _; _; _; _; _].
Qed.
End create.
