(* ===== verification/CloudReader.v ===== *)
(** * What a guest reads and what it prints

    A guest decodes the command it is sent and reads it as PowerShell.  A script is code
    with single-quoted literals in it: whatever the texts are that a script is built from,
    the guest finds the code of the template, and the texts in its literals.  The hardware
    hash that a guest prints is read back, also when its console breaks the lines.
    And waiting for a guest ends. *)

From stdpp Require Import base gmap list strings pretty sorting.
From Stdlib Require Import ZArith NArith Lia Ascii.
From S2P Require Import Prelude Json Text JsonParse CloudNames CloudScripts.

(** ** Code and literals *)

(** PowerShell takes all five for single quotes: the apostrophe and the typographic marks from
    U+2018 to U+201B. *)
Definition quotes : list N := [39; 8216; 8217; 8218; 8219]%N.

Inductive ps_piece : Type :=
| Code (s : text)
| Literal (s : text).

(** Where the reader is; [AfterQuote]: a quote was read in a literal, which ends it unless
    another one follows, whichever of the marks, which then belongs to the literal. *)
Inductive ps_reader : Type :=
| InCode (acc : text)
| InLiteral (acc : text)
| AfterQuote (acc : text).

Definition ps_step (st : ps_reader) (c : N) : list ps_piece * ps_reader :=
  let quote := bool_decide (c ∈ quotes) in
  match st with
  | InCode acc => if quote then ([Code acc], InLiteral []) else ([], InCode (acc ++ [c]))
  | InLiteral acc => if quote then ([], AfterQuote acc) else ([], InLiteral (acc ++ [c]))
  | AfterQuote acc =>
      if quote then ([], InLiteral (acc ++ [c])) else ([Literal acc], InCode [c])
  end.

Fixpoint ps_feed (st : ps_reader) (s : text) : list ps_piece * ps_reader :=
  match s with
  | [] => ([], st)
  | c :: s => let '(ps, st) := ps_step st c in let '(qs, st) := ps_feed st s in (ps ++ qs, st)
  end.

(** The pieces of a script; [None] when a literal does not end. *)
Definition ps_read (s : text) : option (list ps_piece) :=
  match ps_feed (InCode []) s with
  | (ps, InCode acc) => Some (ps ++ [Code acc])
  | (ps, AfterQuote acc) => Some (ps ++ [Literal acc])
  | (_, InLiteral _) => None
  end.

Lemma ps_feed_app st a b :
  ps_feed st (a ++ b) =
  let '(ps, st) := ps_feed st a in let '(qs, st) := ps_feed st b in (ps ++ qs, st).
Proof.
  revert st. induction a as [|c a IH]; intros st; [simpl; by destruct (ps_feed st b)|].
  cbn [ps_feed app]. destruct (ps_step st c) as [ps st1]. rewrite IH.
  destruct (ps_feed st1 a) as [qs st2]. destruct (ps_feed st2 b) as [rs st3]. by rewrite (assoc_L (++)).
Qed.

(** A text without typographic quotes. *)
Definition plain_quotes (t : text) : Prop := Forall (λ c, c ∉ [8216; 8217; 8218; 8219]%N) t.

Lemma quote_twice acc : ps_feed (InLiteral acc) [39; 39]%N = ([], InLiteral (acc ++ [39%N])).
Proof. reflexivity. Qed.

Lemma no_quote_feed acc c : c ∉ quotes → ps_feed (InLiteral acc) [c] = ([], InLiteral (acc ++ [c])).
Proof. intros Hc. cbn [ps_feed ps_step]. by rewrite bool_decide_eq_false_2. Qed.

(** An escaped text is read as itself. *)
Lemma ps_quote_feed v acc : plain_quotes v → ps_feed (InLiteral acc) (_ps_quote v) = ([], InLiteral (acc ++ v)).
Proof.
  intros Hv. revert acc. induction Hv as [|c v Hc _ IH]; intros acc; [by rewrite (right_id_L [] (++))|].
  unfold _ps_quote in *. cbn [flat_map]. rewrite ps_feed_app. destruct (decide (c = 39%N)) as [->|Hne].
  - rewrite quote_twice, IH. by rewrite <- (assoc_L (++)).
  - rewrite no_quote_feed by (unfold quotes; set_solver). rewrite IH. by rewrite <- (assoc_L (++)).
Qed.

Lemma unquoted_feed v acc : Forall (λ c, c ∉ quotes) v → ps_feed (InLiteral acc) v = ([], InLiteral (acc ++ v)).
Proof.
  intros Hv. revert acc. induction Hv as [|c v Hc _ IH]; intros acc; [by rewrite (right_id_L [] (++))|].
  change (c :: v) with ([c] ++ v). rewrite ps_feed_app, no_quote_feed, IH by done. by rewrite <- (assoc_L (++)).
Qed.

(** ** What the guest decodes *)

Fixpoint units_of (bs : list N) : option (list N) :=
  match bs with
  | [] => Some []
  | lo :: hi :: bs => cons (lo + 256 * hi)%N <$> units_of bs
  | _ => None
  end.

Definition high_surrogate (u : N) : Prop := (55296 ≤ u < 56320)%N.
Definition low_surrogate (u : N) : Prop := (56320 ≤ u < 57344)%N.
#[local] Instance high_surrogate_dec u : Decision (high_surrogate u).
Proof. unfold high_surrogate. apply _. Defined.
#[local] Instance low_surrogate_dec u : Decision (low_surrogate u).
Proof. unfold low_surrogate. apply _. Defined.

(** A high surrogate and the low one after it are one character; alone they are none. *)
Fixpoint text_of_units (us : list N) : option text :=
  match us with
  | [] => Some []
  | u :: us =>
      if decide (high_surrogate u) then
        match us with
        | v :: us => if decide (low_surrogate v)
                     then cons (65536 + (u - 55296) * 1024 + (v - 56320))%N <$> text_of_units us
                     else None
        | [] => None
        end
      else if decide (low_surrogate u) then None
      else cons u <$> text_of_units us
  end.

(** A guest is given a command in base64 of UTF-16. *)
Definition decode_command (s : string) : option text :=
  bs ← base64_decode s; us ← units_of bs; text_of_units us.

Lemma units_roundtrip us : Forall (λ u, u < 65536)%N us → units_of (flat_map little_endian us) = Some us.
Proof.
  induction 1 as [|u us Hu _ IH]; [done|]. cbn [flat_map little_endian app units_of]. rewrite IH. simpl. do 2 f_equal.
  pose proof (N.div_mod' u 256). lia.
Qed.

Lemma utf16_units_bound c : scalar c → Forall (λ u, u < 65536)%N (utf16_units c).
Proof.
  unfold scalar, utf16_units. intros Hc. case_decide; [by repeat constructor|].
  assert ((c - 65536) / 1024 < 1024)%N by (apply N.Div0.div_lt_upper_bound; lia).
  pose proof (N.mod_lt (c - 65536) 1024 ltac:(lia)). repeat constructor; lia.
Qed.

Lemma text_roundtrip t : Forall scalar t → text_of_units (flat_map utf16_units t) = Some t.
Proof.
  induction 1 as [|c t Hc _ IH]; [done|]. cbn [flat_map]. unfold utf16_units at 1.
  unfold scalar in Hc. destruct (decide (c < 65536)%N) as [Hlt|Hge]; cbn [app text_of_units].
  - rewrite decide_False by (unfold high_surrogate; lia). rewrite decide_False by (unfold low_surrogate; lia).
    by rewrite IH.
  - assert ((c - 65536) / 1024 < 1024)%N by (apply N.Div0.div_lt_upper_bound; lia).
    pose proof (N.mod_lt (c - 65536) 1024 ltac:(lia)). pose proof (N.div_mod' (c - 65536) 1024).
    set (q := ((c - 65536) / 1024)%N) in *. set (r := ((c - 65536) mod 1024)%N) in *. clearbody q r.
    rewrite decide_True by (unfold high_surrogate; lia). rewrite decide_True by (unfold low_surrogate; lia).
    rewrite IH. simpl. do 2 f_equal. lia.
Qed.

(** A text without surrogates is encoded, and decoded to itself. *)
Lemma encode_roundtrip t :
  Forall scalar t → ∃ bs, utf_16_le t = Ret bs ∧ decode_command (base64 bs) = Some t.
Proof.
  intros Ht. unfold utf_16_le. rewrite decide_True by done. eexists. split; [done|]. unfold decode_command.
  assert (Forall (λ u, u < 65536)%N (flat_map utf16_units t)) as Hus.
  { induction Ht as [|c t Hc _ IH]; [constructor|]. cbn [flat_map]. apply Forall_app. split; [by apply utf16_units_bound|done]. }
  rewrite base64_roundtrip.
  - simpl. rewrite units_roundtrip by done. simpl. by apply text_roundtrip.
  - induction Hus as [|u us Hu _ IH]; [constructor|]. cbn [flat_map little_endian app].
    repeat constructor; [by apply N.mod_lt|by apply N.Div0.div_lt_upper_bound|done].
Qed.

(** ** Base64 holds no quotes *)

Lemma base64_char_plain n : is_char 39 (base64_char n) = false.
Proof.
  assert (Forall (λ k, is_char 39 (base64_char (N.of_nat k)) = false) (seq 0 65)) as Hall.
  { repeat (constructor; [by vm_compute|]). constructor. }
  rewrite Forall_forall in Hall. destruct (decide (n < 64)%N) as [Hn|Hn].
  - specialize (Hall (N.to_nat n)). rewrite N2Nat.id in Hall. apply Hall, elem_of_seq. lia.
  - unfold base64_char. assert (String.get (N.to_nat n) base64_alphabet = None) as ->; [|done].
    assert (∀ s m, (String.length s ≤ m)%nat → String.get m s = None) as Hget.
    { intros s. induction s as [|c s IH]; intros [|m] Hm; simpl in *; try done; [lia|]. apply IH. lia. }
    apply Hget. change (String.length base64_alphabet) with 64%nat. lia.
Qed.

Lemma base64_plain bs : has_char 39 (base64 bs) = false.
Proof.
  induction bs as [|a|a b|a b c bs IH] using three_ind; [done|..];
    cbn [base64 has_char]; rewrite !base64_char_plain; [done..|]. exact IH.
Qed.

(** A character of a string is below 256, so the only quote it can be is the apostrophe. *)
Lemma points_unquoted s : has_char 39 s = false → Forall (λ c, c ∉ quotes) (points s).
Proof.
  unfold points. induction s as [|c s IH]; cbn; [constructor|]. intros [Hc Hs]%orb_false_iff.
  constructor; [|by apply IH]. pose proof (N_ascii_bounded c). unfold is_char in Hc. apply bool_decide_eq_false in Hc.
  intros Hin. unfold quotes in Hin. repeat (apply elem_of_cons in Hin as [Hin|Hin]; [lia|]). by apply elem_of_nil in Hin.
Qed.

(** ** The script that joins a machine *)

(** The pieces of the template around the texts. *)
Definition join_pieces (username domain ou_path : text) (password_b64 : string) : list ps_piece :=
  [Code (points "$ErrorActionPreference="); Literal (points "Stop");
   Code (points ";$pw = ConvertTo-SecureString ([Text.Encoding]::Unicode.GetString([Convert]::FromBase64String(");
   Literal (points password_b64);
   Code (points "))) -AsPlainText -Force;$c = New-Object System.Management.Automation.PSCredential(");
   Literal username; Code (points ",$pw);Add-Computer -DomainName "); Literal domain] ++
  (if decide (ou_path = []) then [] else [Code (points " -OUPath "); Literal ou_path]) ++
  [Code (points " -Credential $c -Force;Write-Output "); Literal (points "JOIN_OK")].

(** Reads a script that is put together from constants and texts. *)
Ltac ps_reads :=
  rewrite <- ?(assoc_L (++));
  repeat (cbn beta iota; match goal with
  | H : plain_quotes ?v |- context [ps_feed ?st (_ps_quote ?v)] => rewrite (ps_quote_feed v) by exact H
  | H : Forall _ ?v |- context [ps_feed ?st ?v] => rewrite (unquoted_feed v) by exact H
  | |- context [ps_feed ?st []] => change (ps_feed st []) with (@nil ps_piece, st)
  | |- context [ps_feed ?st (?a ++ ?b)] => rewrite (ps_feed_app st a b)
  | |- context [ps_feed ?st (points ?s)] =>
      let r := eval vm_compute in (ps_feed st (points s)) in
      change (ps_feed st (points s)) with r
  end); cbn beta iota.

Lemma quote_scalar t : Forall scalar t → Forall scalar (_ps_quote t).
Proof.
  induction 1 as [|c t Hc _ IH]; [constructor|]. unfold _ps_quote in *. cbn [flat_map]. apply Forall_app.
  split; [case_decide; auto using Forall_nil_2, Forall_cons_2|done].
Qed.

Lemma points_scalar s : Forall scalar (points s).
Proof.
  apply Forall_fmap, Forall_forall. intros c _. pose proof (N_ascii_bounded c). unfold compose, scalar. lia.
Qed.

(** C17. No ordinary quote can break out of the script that joins a machine to its domain.  For
    all texts of Unicode characters, if none of the name, the domain and the organisational
    unit has a typographic single quote (U+2018 to U+201B), the script is built and encoded;
    the guest decodes the command it is sent to the script; it reads the code of the template
    and finds the texts, unchanged, in the literals they belong in, the password, which may
    have any characters, behind its encoding.  The typographic quotes are excluded because
    they do break out ([typographic_quote_breaks_out]). *)
Theorem join_script_reads_back (username password domain ou_path : text) :
  Forall (Forall scalar) [username; password; domain; ou_path] →
  Forall plain_quotes [username; domain; ou_path] →
  ∃ script command password_b64,
    build_join_powershell username password domain ou_path = Ret script ∧
    encode_powershell script = Ret command ∧ decode_command command = Some script ∧
    ps_read script = Some (join_pieces username domain ou_path password_b64) ∧
    decode_command password_b64 = Some password.
Proof.
  intros [Hu [Hp [Hd [Ho _]%Forall_cons]%Forall_cons]%Forall_cons]%Forall_cons
    [Qu [Qd [Qo _]%Forall_cons]%Forall_cons]%Forall_cons.
  destruct (encode_roundtrip password Hp) as (bs & Hbs & Hback).
  unfold build_join_powershell. cbv zeta. rewrite Hbs. cbn [mbind outcome_bind].
  match goal with |- ∃ script command b64, Ret ?x = Ret script ∧ _ => set (script := x) end.
  assert (Forall scalar script) as Hscript.
  { unfold script. repeat (apply Forall_app; split); auto using points_scalar, quote_scalar.
    case_decide; repeat (apply Forall_app; split); auto using points_scalar, quote_scalar. }
  destruct (encode_roundtrip script Hscript) as (cs & Hcs & Hcback).
  exists script, (base64 cs), (base64 bs). unfold encode_powershell. rewrite Hcs. cbn [mbind outcome_bind].
  split_and!; [done|done|done| |done]. clear Hscript Hcs Hcback.
  unfold ps_read, script, join_pieces. pose proof (points_unquoted _ (base64_plain bs)) as Hplain.
  clear script Hbs Hback. generalize dependent (points (base64 bs)). intros encoded Hplain.
  case_decide; ps_reads; done.
Qed.

(** A name with both an apostrophe and characters that are not Latin. *)
Definition tricky_name : text := points "O'Brien" ++ [1078; 128512]%N.

Lemma join_script_reads_back_witness :
  ∃ script command password_b64,
    build_join_powershell tricky_name [8217; 39]%N (points "corp.example") (points "OU=O'Brien,DC=corp") = Ret script ∧
    encode_powershell script = Ret command ∧ decode_command command = Some script ∧
    ps_read script = Some (join_pieces tricky_name (points "corp.example") (points "OU=O'Brien,DC=corp") password_b64) ∧
    decode_command password_b64 = Some [8217; 39]%N.
Proof.
  apply (join_script_reads_back tricky_name [8217; 39]%N (points "corp.example") (points "OU=O'Brien,DC=corp"));
    apply (bool_decide_unpack _); by vm_compute.
Defined.

(** A typographic quote ends the literal it is put in: what follows it in the name of the
    organisational unit is code of the script. *)
Example typographic_quote_breaks_out :
  match build_join_powershell (points "join") (points "secret") (points "corp.example")
          (points "OU=x" ++ [8217]%N ++ points ";Stop-Computer;" ++ [8216]%N) with
  | Ret script =>
      match ps_read script with
      | Some pieces => Literal (points "OU=x") ∈ pieces ∧ Code (points ";Stop-Computer;") ∈ pieces
      | None => False
      end
  | Exc _ => False
  end.
Proof. vm_compute. split; repeat first [left; reflexivity | right]. Qed.

(** ** The hardware hash a guest prints *)

Fixpoint every (P : ascii → bool) (s : string) : bool :=
  match s with EmptyString => true | String c s => P c && every P s end.

(** No character at which a line ends, and no space. *)
Definition one_line (s : string) : bool := every (λ c, negb (is_line_break c)) s.
Definition solid (s : string) : bool := every (λ c, negb (PyStr.is_space c)) s.

(** The end of a line on Windows, and elsewhere. *)
Definition crlf : string := String (ascii_of_N 13) (String (ascii_of_N 10) EmptyString).
Definition newline : string := String (ascii_of_N 10) EmptyString.

(** What a console shows of a list of lines. *)
Definition printed (ending : string) (lines : list string) : string :=
  foldr (λ l r, l +:+ ending +:+ r) EmptyString lines.

(** The lines of the capture script, when the hash comes in several pieces. *)
Definition hash_lines (serial first : string) (more : list string) : list string :=
  ["SERIAL=" +:+ serial; "HASH=" +:+ first] ++ more.

(** A piece of the hash that is not taken for the start of another value. *)
Definition continues (piece : string) : Prop :=
  piece ≠ EmptyString ∧ solid piece = true ∧
  String.prefix "SERIAL=" piece = false ∧ String.prefix "HASH=" piece = false.

Lemma solid_one_line s : solid s = true → one_line s = true.
Proof.
  unfold solid, one_line. induction s as [|c s IH]; [done|]. cbn [every].
  rewrite !andb_true_iff, !negb_true_iff. intros [Hc Hs]. split; [|by apply IH].
  unfold is_line_break, PyStr.is_space, PyStr.code in *. cbv zeta in *.
  apply bool_decide_eq_false in Hc. apply bool_decide_eq_false. clear -Hc. lia.
Qed.

Lemma splitlines_line l ending rest :
  one_line l = true → ending = crlf ∨ ending = newline →
  splitlines (l +:+ ending +:+ rest) = l :: splitlines rest.
Proof.
  unfold one_line. intros Hl He. induction l as [|c l IH].
  - rewrite app_nil. destruct He as [-> | ->]; [done|]. by destruct rest.
  - cbn [every] in Hl. rewrite andb_true_iff, negb_true_iff in Hl. destruct Hl as [Hc Hl].
    rewrite app_cons. cbn [splitlines]. by rewrite Hc, IH.
Qed.

Lemma splitlines_printed ending lines :
  ending = crlf ∨ ending = newline → Forall (λ l, one_line l = true) lines →
  splitlines (printed ending lines) = lines.
Proof.
  intros He. induction 1 as [|l lines Hl _ IH]; [done|].
  change (printed ending (l :: lines)) with (l +:+ ending +:+ printed ending lines).
  by rewrite splitlines_line, IH.
Qed.

Lemma rstrip_solid c s : PyStr.is_space c = false → PyStr.rstrip (String c s) = String c (PyStr.rstrip s).
Proof. intros Hc. rewrite PyStr.rstrip_String, Hc. by destruct (PyStr.rstrip s). Qed.

Lemma strip_solid s : solid s = true → PyStr.strip s = s.
Proof.
  unfold PyStr.strip. intros Hs. assert (PyStr.rstrip s = s) as ->.
  { induction s as [|c s IH]; [done|]. cbn in Hs. apply andb_true_iff in Hs as [Hc%negb_true_iff Hs].
    by rewrite rstrip_solid, IH. }
  destruct s as [|c s]; [done|]. cbn in Hs. apply andb_true_iff in Hs as [Hc%negb_true_iff _]. simpl. by rewrite Hc.
Qed.

(** A line that begins with one of the markers. *)
Lemma strip_marked p s :
  p ≠ EmptyString → solid p = true → PyStr.strip (p +:+ s) = p +:+ PyStr.rstrip s.
Proof.
  unfold PyStr.strip. intros Hne Hp. assert (PyStr.rstrip (p +:+ s) = p +:+ PyStr.rstrip s) as ->.
  { clear Hne. induction p as [|c p IH]; [done|]. cbn in Hp.
    apply andb_true_iff in Hp as [Hc%negb_true_iff Hp]. by rewrite !app_cons, rstrip_solid, IH. }
  destruct p as [|c p]; [done|]. cbn in Hp. apply andb_true_iff in Hp as [Hc%negb_true_iff _].
  rewrite app_cons. simpl. by rewrite Hc.
Qed.

Lemma substring_all s n : (String.length s ≤ n)%nat → String.substring 0 n s = s.
Proof. revert n. induction s as [|c s IH]; intros [|n]; simpl; intros Hn; try done; [lia|]. by rewrite IH by lia. Qed.

Lemma after_marker p s : after_prefix p (p +:+ s) = Some (PyStr.strip s).
Proof.
  unfold after_prefix. assert (String.prefix p (p +:+ s) = true ∧
    ∀ n, (String.length s ≤ n)%nat → String.substring (String.length p) n (p +:+ s) = s) as [-> Hsub].
  { induction p as [|c p [IH1 IH2]]; [rewrite app_nil; split; [by destruct s|apply substring_all]|].
    rewrite app_cons. simpl. destruct (ascii_dec c c); [|done]. by split. }
  f_equal. f_equal. apply Hsub. clear Hsub. induction p as [|c p IH]; [done|]. rewrite app_cons. simpl. lia.
Qed.

Lemma strip_rstrip s : PyStr.strip (PyStr.rstrip s) = PyStr.strip s.
Proof. unfold PyStr.strip. by rewrite PyStr.rstrip_idem. Qed.

Lemma hash_line_serial st serial :
  hash_line st ("SERIAL=" +:+ serial) = (PyStr.strip serial, st.1.2, false).
Proof.
  destruct st as [[s ps] b]. unfold hash_line.
  by rewrite strip_marked, after_marker, strip_rstrip by done.
Qed.

Lemma hash_line_first serial ps b piece :
  hash_line (serial, ps, b) ("HASH=" +:+ piece) = (serial, [PyStr.strip piece], true).
Proof.
  unfold hash_line. rewrite strip_marked by done.
  assert (after_prefix "SERIAL=" ("HASH=" +:+ PyStr.rstrip piece) = None) as -> by done.
  by rewrite after_marker, strip_rstrip.
Qed.

Lemma hash_lines_more serial ps more :
  Forall continues more → foldl hash_line (serial, ps, true) more = (serial, ps ++ more, true).
Proof.
  intros Hm. revert ps. induction Hm as [|p more (Hne & Hp & Hs & Hh) _ IH]; intros ps; [by rewrite app_nil_r|].
  cbn [foldl]. assert (hash_line (serial, ps, true) p = (serial, ps ++ [p], true)) as ->.
  { unfold hash_line, after_prefix. rewrite strip_solid, Hs, Hh by done. by rewrite bool_decide_eq_true_2. }
  by rewrite IH, <- (assoc_L (++)).
Qed.

(** C35. The hardware hash a guest prints is read back.  The serial number, without spaces
    around it, and the whole hash are found, also when the console breaks the hash into
    lines, whatever the ends of lines are, as long as no piece looks like the start of
    another value; and they are accepted exactly when there is a serial number and the hash
    has at least 512 characters. *)
Theorem hash_output_reads_back (ending serial first : string) (more : list string) (result : json) :
  ending = crlf ∨ ending = newline → one_line serial = true → solid first = true → Forall continues more →
  jget "out-data" result = JStr (printed ending (hash_lines serial first more)) →
  let hardware_hash := PyStr.join EmptyString (first :: more) in
  parse_hash_output result = (PyStr.strip serial, hardware_hash) ∧
  (hash_problem (PyStr.strip serial) hardware_hash = EmptyString ↔
     PyStr.strip serial ≠ EmptyString ∧ (512 ≤ String.length hardware_hash)%nat).
Proof.
  intros He Hserial Hfirst Hmore Hout. cbv zeta. split.
  - unfold parse_hash_output, output. rewrite Hout.
    assert (py_str (jor (JStr (printed ending (hash_lines serial first more))) (JStr EmptyString)) =
      printed ending (hash_lines serial first more)) as -> by done.
    rewrite splitlines_printed; [|done|].
    + unfold hash_lines. rewrite foldl_app. cbn [foldl].
      rewrite hash_line_serial, hash_line_first, (strip_solid first), hash_lines_more by done. done.
    + unfold hash_lines. apply Forall_app. split.
      * repeat constructor; [exact Hserial|]. exact (solid_one_line first Hfirst).
      * eapply Forall_impl; [exact Hmore|]. intros p (_ & Hp & _). by apply solid_one_line.
  - unfold hash_problem, _MIN_HARDWARE_HASH_LENGTH.
    generalize (PyStr.strip serial) (PyStr.join EmptyString (first :: more)). intros sn hh.
    destruct (decide (sn = EmptyString)) as [->|]; [split; [done|naive_solver]|].
    destruct (decide (hh = EmptyString)) as [->|]; [split; [done|simpl; lia]|].
    destruct (decide (String.length hh < 512)%nat); [split; [done|lia]|]. split; [|done]. intros _. split; [done|lia].
Qed.

(** A console of four columns. *)
Lemma hash_output_reads_back_witness :
  parse_hash_output (JObj [("exited", JInt 1);
    ("out-data", JStr (printed crlf (hash_lines "PF-1 " "AAAA" ["BBBB"; "CC=="])))]) = ("PF-1", "AAAABBBBCC==").
Proof.
  refine (proj1 (hash_output_reads_back crlf "PF-1 " "AAAA" ["BBBB"; "CC=="] _ _ _ _ _ _)); try reflexivity; [by left|].
  repeat constructor; by vm_compute.
Defined.

(** A piece that looks like the start of a hash is one: the characters before it, which
    belong to the same hash in base64, are lost. *)
Example hash_wrap_lost :
  parse_hash_output (JObj [("out-data", JStr (printed crlf (hash_lines "PF-1" "AAA" ["HASH="])))]) =
    ("PF-1", EmptyString) ∧ is_Some (base64_decode "AAAHASH=").
Proof. vm_compute. repeat split; eauto. Qed.

(** * Waiting for a guest

    The loop that waits for a script ends: the clock goes on while it sleeps, so that the
    time that is given runs out. *)

(** What [time.monotonic] and [time.sleep] promise: the clock never goes back, it is what is
    read, and a sleep of two seconds takes two seconds at least. *)
Class Clock (W : Type) `{!GuestApi W} : Type := {
  clock_at : W → Z;
  clock_read w : ∃ w', api_monotonic w = (Ret (clock_at w'), w') ∧ (clock_at w ≤ clock_at w')%Z;
  clock_sleep w : ∃ w', api_sleep 2 w = (Ret tt, w') ∧ (clock_at w + seconds 2 ≤ clock_at w')%Z;
  clock_get p w : (clock_at w ≤ clock_at (api_get p w).2)%Z;
  clock_post p d w : (clock_at w ≤ clock_at (api_post p d w).2)%Z
}.

Section polling.
Context {W : Type} `{!GuestApi W, !Clock W}.

(** An exception that the API raised on the way. *)
Definition api_raised (e : exc) : Prop :=
  (∃ p d w w', api_post p d w = (Exc e, w')) ∨ (∃ p w w', api_get p w = (Exc e, w')).

(** How waiting ends that began at [start]. *)
Definition waited (late : exc) (deadline : Z) (ow : outcome (option json) * W) : Prop :=
  match ow with
  | (Ret None, _) => False
  | (Ret (Some status), _) => is_Some (match status with JObj o => Some o | _ => None end) ∧
      truthy (jget "exited" status) = true
  | (Exc e, w') => api_raised e ∨ e = AttributeError ∨ e = late ∧ (deadline ≤ clock_at w')%Z
  end.

(** A round of the loop: how it ends, or the world in which the next one begins. *)
Definition round (path : string) (late : exc) (deadline : Z) (w : W) : (outcome (option json) * W) + W :=
  match api_get path w with
  | (Exc e, w) => inl (Exc e, w)
  | (Ret answer, w) =>
      match answer with
      | JObj _ =>
          if truthy (jget "exited" answer) then inl (Ret (Some answer), w)
          else let '(_, w) := api_monotonic w in
               if decide (deadline ≤ clock_at w)%Z then inl (Exc late, w) else inr (api_sleep 2 w).2
      | _ => inl (Exc AttributeError, w)
      end
  end.

Lemma poll_round fuel path late deadline w :
  poll (S fuel) path late deadline w =
  match round path late deadline w with inl r => r | inr w' => poll fuel path late deadline w' end.
Proof.
  cbn [poll]. unfold round. rewrite run_bind. destruct (api_get path w) as [[answer|e] w1]; [|done].
  rewrite run_bind. destruct answer as [| | | | |o]; cbn [dict_of]; try done. rewrite run_ret.
  destruct (truthy _); [done|]. rewrite run_bind. destruct (clock_read w1) as (w2 & -> & _).
  case_decide; [done|]. rewrite run_bind. destruct (clock_sleep w2) as (w3 & -> & _). done.
Qed.

Lemma round_ends path late deadline w r : round path late deadline w = inl r → waited late deadline r.
Proof.
  unfold round. destruct (api_get path w) as [[answer|e] w1] eqn:E; [|intros [= <-]; left; right; eauto].
  destruct answer as [| | | | |o]; try (intros [= <-]; by right; left).
  destruct (truthy _) eqn:Ex; [intros [= <-]; split; [eauto|done]|].
  destruct (clock_read w1) as (w2 & -> & _). case_decide; [|done]. intros [= <-]. by right; right.
Qed.

Lemma round_goes_on path late deadline w w' :
  round path late deadline w = inr w' → (clock_at w < deadline ∧ clock_at w + seconds 2 ≤ clock_at w')%Z.
Proof.
  unfold round. pose proof (clock_get path w) as Hget. destruct (api_get path w) as [[answer|e] w1]; [|done].
  destruct answer as [| | | | |o]; try done. destruct (truthy _); [done|]. simpl in Hget.
  destruct (clock_read w1) as (w2 & -> & Hw2). case_decide; [done|]. intros [= <-].
  destruct (clock_sleep w2) as (w3 & -> & Hw3). simpl. lia.
Qed.

(** Rounds enough to reach the deadline are enough. *)
Lemma poll_waits fuel path late deadline w :
  (deadline ≤ clock_at w + seconds 2 * Z.of_nat fuel)%Z →
  waited late deadline (poll (S fuel) path late deadline w) ∧
  ∀ more, poll (S fuel + more) path late deadline w = poll (S fuel) path late deadline w.
Proof.
  revert w. induction fuel as [|fuel IH]; intros w Hw; rewrite poll_round;
    destruct (round path late deadline w) as [r|w'] eqn:E.
  - split; [by eapply round_ends|]. intros more. cbn [Nat.add]. by rewrite poll_round, E.
  - apply round_goes_on in E. lia.
  - split; [by eapply round_ends|]. intros more. cbn [Nat.add]. by rewrite poll_round, E.
  - apply round_goes_on in E as Hw'. unfold seconds in *. destruct (IH w') as [Hd Hmore]; [lia|].
    split; [exact Hd|]. intros more. change (S (S fuel) + more)%nat with (S (S fuel + more)).
    by rewrite poll_round, E, Hmore.
Qed.

(** What is done with a command ends. *)
Lemma exec_command_ends (fuel : nat) (node command : string) (vmid : option Z) (timeout : Z) (w : W) :
  (Z.to_nat (timeout / 2) + 2 ≤ fuel)%nat →
  let run fuel := exec_command fuel node vmid timeout command w in
  (∀ more, run (fuel + more)%nat = run fuel) ∧
  match run fuel with
  | (Ret None, _) => False
  | (Ret (Some status), _) => truthy (jget "exited" status) = true
  | (Exc e, w') => api_raised e ∨ e = AttributeError ∨
      (∃ pid, e = exec_timeout pid node (vmid_text vmid) timeout) ∧ (clock_at w + seconds timeout ≤ clock_at w')%Z
  end.
Proof.
  intros Hfuel. cbv zeta. unfold exec_command. cbv zeta.
  match goal with |- context [api_post ?p ?d] => pose proof (clock_post p d w) as Hpost; set (path := p) in *; set (data := d) in * end.
  rewrite run_bind. destruct (api_post path data w) as [[answer|e] w1] eqn:E.
  2: { split; [intros more; by rewrite run_bind, E|]. left. left. eauto. }
  simpl in Hpost. rewrite run_bind.
  destruct (dict_of answer w1) as [[started|e] w2] eqn:Ed.
  2: { split; [intros more; by rewrite run_bind, E, run_bind, Ed|]. right. left. by destruct answer; inversion Ed. }
  assert (w2 = w1) as -> by (by destruct answer; inversion Ed).
  rewrite run_bind. destruct (clock_read w1) as (w3 & E3 & Hw3). rewrite E3.
  set (late := exec_timeout _ _ _ _). destruct fuel as [|fuel]; [lia|].
  match goal with |- context [poll (S fuel) ?p] =>
    destruct (poll_waits fuel p late (clock_at w3 + seconds timeout)%Z w3) as [Hd Hmore] end.
  { unfold seconds. pose proof (Z.div_mod timeout 2). pose proof (Z.mod_pos_bound timeout 2). lia. }
  split; [intros more; by rewrite run_bind, E, run_bind, Ed, run_bind, E3, Hmore|].
  destruct (poll _ _ _ _ w3) as [[[status|]|e] w4]; simpl in Hd; [naive_solver|done|].
  destruct Hd as [?|[?|[-> Hl]]]; [by left|by right; left|]. right. right. split; [by eexists|]. lia.
Qed.
(** C18. Running a script of characters in a guest ends.  However the guest and the API behave, if the
    clock goes on, half as many rounds as seconds are given - and two more - are enough, and
    more change nothing: the answer says that the script has exited; or an exception of the
    API ends the wait, or an answer that is no dictionary; or the time is over, which is
    never said before it is. *)
Theorem guest_exec_ends (fuel : nat) (node : string) (vmid : option Z) (script : text) (timeout : Z) (w : W) :
  Forall scalar script → (Z.to_nat (timeout / 2) + 2 ≤ fuel)%nat →
  let run fuel := guest_exec_via_proxmox fuel node vmid script timeout w in
  (∀ more, run (fuel + more)%nat = run fuel) ∧
  match run fuel with
  | (Ret None, _) => False
  | (Ret (Some status), _) => truthy (jget "exited" status) = true
  | (Exc e, w') => api_raised e ∨ e = AttributeError ∨
      (∃ pid, e = exec_timeout pid node (vmid_text vmid) timeout) ∧ (clock_at w + seconds timeout ≤ clock_at w')%Z
  end.
Proof.
  intros Hs Hfuel. destruct (encode_roundtrip script Hs) as (bs & Hbs & _).
  assert (∀ fuel, guest_exec_via_proxmox fuel node vmid script timeout w =
    exec_command fuel node vmid timeout (base64 bs) w) as Hrun.
  { intros n. unfold guest_exec_via_proxmox, encode_powershell. by rewrite Hbs. }
  destruct (exec_command_ends fuel node (base64 bs) vmid timeout w Hfuel) as [Hmore Hend].
  cbv beta zeta. rewrite Hrun. split; [intros more; rewrite Hrun; apply Hmore|exact Hend].
Qed.
End polling.

(** ** A guest that takes its time

    A world of a clock, in microseconds, and the number of rounds after which the script
    has exited. *)
#[local] Instance slow_guest : GuestApi (Z * nat) := {|
  api_post _ _ := λ w, (Ret (JObj [("pid", JInt 7)]), w);
  api_get _ := λ w,
    match w.2 with
    | O => (Ret (JObj [("exited", JInt 1); ("exitcode", JInt 0)]), w)
    | S n => (Ret (JObj [("exited", JInt 0)]), (w.1, n))
    end;
  api_monotonic := λ w, (Ret w.1, w);
  api_sleep n := λ w, (Ret tt, ((w.1 + seconds n)%Z, w.2))
|}.

#[local] Instance slow_clock : Clock (Z * nat).
Proof.
  refine {| clock_at := fst |}; simpl.
  - intros w. exists w. split; [done|lia].
  - intros w. eexists. split; [done|]. simpl. lia.
  - intros p w. destruct w as [t [|n]]; simpl; lia.
  - intros p d w. simpl. lia.
Defined.

(** A script that exits in the third round, and one that never does in five seconds. *)
Lemma guest_exec_ends_witness :
  (∃ w', guest_exec_via_proxmox 47 "pve" (Some 101%Z) (points "x") 90 (0%Z, 2%nat) =
    (Ret (Some (JObj [("exited", JInt 1); ("exitcode", JInt 0)])), w')) ∧
  (let '(o, w') := guest_exec_via_proxmox 4 "pve" (Some 101%Z) (points "x") 5 (0%Z, 9%nat) in
   (∀ more, guest_exec_via_proxmox (4 + more) "pve" (Some 101%Z) (points "x") 5 (0%Z, 9%nat) = (o, w')) ∧
   w' = (6000000%Z, 5%nat)).
Proof.
  split; [eexists; by vm_compute|].
  pose proof (guest_exec_ends 4 "pve" (Some 101%Z) (points "x") 5 (0%Z, 9%nat) (points_scalar "x") ltac:(vm_compute; lia)) as [Hmore _].
  assert (guest_exec_via_proxmox 4 "pve" (Some 101%Z) (points "x") 5 (0%Z, 9%nat) =
    (Exc (exec_timeout "7" "pve" "101" 5), (6000000%Z, 5%nat))) as E by (by vm_compute).
  rewrite E in *. split; [exact Hmore|done].
Defined.
