(* ===== verification/CloudPasses.v ===== *)
(** * What the passes do to guests

    The pass that joins machines sends scripts to guests and marks steps done.  Every script
    and every mark is justified by what the guest answered before: a machine is joined only
    after it has just said that it is in no domain, it is restarted only after the join has
    succeeded, and a step is done only when the guest shows that it is. *)

From stdpp Require Import base gmap list strings pretty sorting.
From Stdlib Require Import ZArith Lia Ascii.
From S2P Require Import Prelude Json Text JsonParse Digest CloudData OsdeployData TsData Conditions Tree Sequences Content Runs RunState Progress OsdeployRoles OsdeployRuns CloudNames Bubbles CloudRuns CloudScripts CloudService CloudInvariant CloudJoin CloudReach CloudComplete.

(** ** Calls *)

(** A script that was sent to a guest, and what came of it. *)
Record call : Type := Call {
  cl_node : string;
  cl_vmid : option Z;
  cl_script : text;
  cl_answer : outcome json
}.

(** A world that keeps a log of the calls. *)
#[export] Instance logged {W} `{!Guests W} : Guests (W * list call) := {|
  guest_exec node vmid script timeout := λ wl,
    let '(o, w) := guest_exec node vmid script timeout wl.1 in (o, (w, wl.2 ++ [Call node vmid script o]));
  resolve_credential id := λ wl, let '(o, w) := resolve_credential id wl.1 in (o, (w, wl.2));
  resolve_node vmid := λ wl, let '(o, w) := resolve_node vmid wl.1 in (o, (w, wl.2));
  persist_hash vmid serial hash tag := λ wl,
    let '(o, w) := persist_hash vmid serial hash tag wl.1 in (o, (w, wl.2));
  monotonic := λ wl, let '(o, w) := monotonic wl.1 in (o, (w, wl.2))
|}.

(** The guest says that it is in a domain, that it is in none, that it was joined. *)
Definition in_domain (k : call) : Prop :=
  cl_script k = _PROBE_PS ∧ ∃ a, cl_answer k = Ret a ∧ probe_is_domain_joined a = true.
Definition in_no_domain (k : call) : Prop :=
  cl_script k = _PROBE_PS ∧ ∃ a, cl_answer k = Ret a ∧ probe_is_domain_joined a = false ∧
    PyStr.contains "DOMAIN=False" (output "out-data" a) = true.
Definition was_joined (k : call) : Prop :=
  (∃ c user password, join_script c user password = Ret (cl_script k)) ∧
  ∃ a, cl_answer k = Ret a ∧ join_succeeded a = true.

(** What a script may be sent after: a guest is probed at any time, joined after it said
    that it is in no domain, and restarted after it was joined. *)
Definition justified (before : list call) (k : call) : Prop :=
  cl_script k = _PROBE_PS ∨
  ∃ l p, before = l ++ [p] ∧ cl_node p = cl_node k ∧ cl_vmid p = cl_vmid k ∧
    (in_no_domain p ∧ (∃ c user password, join_script c user password = Ret (cl_script k)) ∨
     was_joined p ∧ cl_script k = _REBOOT_PS).

Definition all_justified (log : list call) : Prop := ∀ l k r, log = l ++ k :: r → justified l k.

(** What of the calls shows that a step of a kind is done on a machine. *)
Definition shown (log : list call) (vmid : option Z) (kind : string) : Prop :=
  ∃ k, k ∈ log ∧ cl_vmid k = vmid ∧
    (in_domain k ∧ kind ∈ ["join_domain_role"; "verify_ad_domain_join"] ∨
     was_joined k ∧ kind = "join_domain_role").

Lemma all_justified_snoc log k : all_justified log → justified log k → all_justified (log ++ [k]).
Proof.
  intros Hlog Hk l k' r Hr. destruct r as [|x r _] using rev_ind.
  - by apply app_inj_tail in Hr as [-> ->].
  - rewrite app_comm_cons, (assoc_L (++)) in Hr. apply app_inj_tail in Hr as [-> _]. by eapply Hlog.
Qed.

Lemma shown_more log calls vmid kind : shown log vmid kind → shown (log ++ calls) vmid kind.
Proof. intros (k & Hk & Hv). exists k. split; [|done]. apply elem_of_app. by left. Qed.

(** The calls of one visit and the kinds of steps it marks. *)
Inductive join_visit (c : candidate) : list call → list string → Prop :=
| VisitNone : join_visit c [] []
| VisitProbe node a : join_visit c [Call node (cd_vmid c) _PROBE_PS a] []
| VisitJoined node a :
    in_domain (Call node (cd_vmid c) _PROBE_PS a) →
    join_visit c [Call node (cd_vmid c) _PROBE_PS a] ["join_domain_role"; "verify_ad_domain_join"]
| VisitTried node a user password script b :
    in_no_domain (Call node (cd_vmid c) _PROBE_PS a) → join_script c user password = Ret script →
    join_visit c [Call node (cd_vmid c) _PROBE_PS a; Call node (cd_vmid c) script b] []
| VisitJoins node a script b r :
    in_no_domain (Call node (cd_vmid c) _PROBE_PS a) →
    was_joined (Call node (cd_vmid c) script b) →
    join_visit c [Call node (cd_vmid c) _PROBE_PS a; Call node (cd_vmid c) script b;
                  Call node (cd_vmid c) _REBOOT_PS r] ["join_domain_role"].

Section passes.
Context `{Env} `{Sha256} `{StrSet} `{Secrets} `{IsoTime}.
Context {W : Type} `{!Guests W}.

(** [d'] is [d] with the steps of the kinds marked. *)
Record marks (run_id : string) (kinds : list string) (d d' : db) : Prop := Marks {
  ms_deployments : cloud_runs (cloud_of d') = cloud_runs (cloud_of d);
  ms_runs k : known (runs d') k = known (runs d) k;
  ms_steps : ∃ at_, steps d' = mark_step run_id kinds "cloudosd-domain-join" at_ <$> steps d
}.

Lemma marks_nothing run_id d d' :
  cloud_runs (cloud_of d') = cloud_runs (cloud_of d) → runs d' = runs d → steps d' = steps d →
  marks run_id [] d d'.
Proof.
  intros Hc Hr Hs. split; [done|by intros k; rewrite Hr|]. exists 0%Z. rewrite Hs. apply map_eq. intros k.
  rewrite lookup_fmap. destruct (steps d !! k) as [st|]; [|done]. simpl. unfold mark_step.
  rewrite decide_False by set_solver. done.
Qed.

(** Marking the steps of a deployment and recording it. *)
Lemma run_marked c kinds message data phase et sev msg ev s :
  known (runs (cur s)) (cd_run_id c) = true → known (cloud_runs (cloud_of (cur s))) (cd_run_id c) = true →
  normalized_supported kinds ≠ [] →
  ∃ s' s'', _mark_steps (cd_run_id c) kinds message data s = (Ret tt, s') ∧
    (append_event (cd_run_id c) phase et sev msg ev ;; mret tt) s' = (Ret tt, s'') ∧
    marks (cd_run_id c) (normalized_supported kinds) (cur s) (cur s'').
Proof.
  intros Hr Hc Hk. unfold _mark_steps. rewrite run_bind.
  destruct (run_mark_steps (cd_run_id c) kinds "cloudosd-domain-join" (Some message) data s Hr)
    as (n & s' & -> & [[? _]|(_ & _ & [Hst Ho (g & Hg & _)])]); [done|].
  assert (cloud_of (cur s') = cloud_of (cur s)) as Hcl by (unfold cloud_of; by rewrite Ho).
  eexists s', _. split; [done|]. rewrite run_bind, run_append_cloud_event, Hcl, Hc. cbv zeta. split; [done|].
  split; [exact (f_equal cloud_runs Hcl)|intros k; simpl; by rewrite Hg, known_alter|eauto].
Qed.

(** An event alone marks nothing. *)
Lemma run_noted c phase et sev msg ev s :
  known (cloud_runs (cloud_of (cur s))) (cd_run_id c) = true →
  ∃ s', (append_event (cd_run_id c) phase et sev msg ev ;; mret tt) s = (Ret tt, s') ∧
    marks (cd_run_id c) [] (cur s) (cur s').
Proof.
  intros Hc. rewrite run_bind, run_append_cloud_event, Hc. cbv zeta. eexists. split; [done|]. by apply marks_nothing.
Qed.
(** The run and the deployment of a candidate. *)
Definition stands (c : candidate) (d : db) : Prop :=
  known (runs d) (cd_run_id c) = true ∧ known (cloud_runs (cloud_of d)) (cd_run_id c) = true.

(** A visit is one of those above, and marks what it says. *)
Definition visited (c : candidate) (sw sw' : session * (W * list call)) : Prop :=
  ∃ calls kinds, sw'.2.2 = sw.2.2 ++ calls ∧ join_visit c calls kinds ∧
    marks (cd_run_id c) kinds (cur sw.1) (cur sw'.1).

Lemma visited_nothing c s w w' log : visited c (s, (w, log)) (s, (w', log)).
Proof. exists [], []. split; [by rewrite app_nil_r|]. split; [constructor|by apply marks_nothing]. Qed.

Lemma join_machine_visited node c a user password s w log :
  stands c (cur s) → in_no_domain (Call node (cd_vmid c) _PROBE_PS a) →
  let probe := Call node (cd_vmid c) _PROBE_PS a in
  ∃ calls kinds, let sw' := (join_machine node c user password (s, (w, log ++ [probe]))).2 in
    sw'.2.2 = log ++ calls ∧ join_visit c calls kinds ∧ marks (cd_run_id c) kinds (cur s) (cur sw'.1).
Proof.
  intros [Hr Hc] Ha. cbv zeta. unfold join_machine. rewrite run_bind. unfold lift_outcome.
  destruct (join_script c user password) as [script|e] eqn:Es.
  2: { exists [Call node (cd_vmid c) _PROBE_PS a], []. split; [done|]. split; [constructor|by apply marks_nothing]. }
  rewrite run_bind. unfold attempt, io. cbn [fst snd]. cbn [guest_exec logged fst snd].
  destruct (guest_exec node (cd_vmid c) script default_timeout w) as [b w1] eqn:Eb.
  cbn [fst snd]. set (probe := Call node _ _PROBE_PS a). set (join := Call node _ script b).
  assert ((log ++ [probe]) ++ [join] = log ++ [probe; join]) as Hlog by by rewrite <- (assoc_L (++)).
  destruct b as [b|e].
  2: { exists [probe; join], []. cbn. split; [done|]. split; [by eapply VisitTried|by apply marks_nothing]. }
  destruct (join_succeeded b) eqn:Hb; cbn [negb].
  - rewrite run_bind. cbn [fst snd guest_exec logged].
    destruct (guest_exec node (cd_vmid c) _REBOOT_PS _REBOOT_TIMEOUT_SECONDS w1) as [r w2]. cbn [fst snd].
    set (reboot := Call node _ _REBOOT_PS r).
    rewrite run_bind. unfold join_event, db_op. cbn [fst snd].
    destruct (run_marked c ["join_domain_role"] "Server-side Add-Computer AD join completed"
      (JObj [("vmid", vmid_json (cd_vmid c)); ("source", JStr "add_computer")]) "domain_join"
      "domain_join_executed" "info" (Some ("Joined " +:+ machine_text c +:+ " to " +:+
        py_str (jget "domain_fqdn" (cd_domain_join c)))) (JObj [("vmid", vmid_json (cd_vmid c))]) s Hr Hc)
      as (s1 & s2 & E1 & E2 & Hm); [done|].
    rewrite E1. rewrite run_bind. cbn [fst snd]. rewrite E2. cbn.
    exists [probe; join; reboot], ["join_domain_role"]. split; [by rewrite <- !(assoc_L (++))|].
    split; [apply VisitJoins; [done|split; [by eexists _, _, _|by exists b]]|done].
  - rewrite run_bind. unfold join_event, db_op. cbn [fst snd].
    match goal with |- context [append_event _ ?p ?e ?v ?m ?d] =>
      destruct (run_noted c p e v m d s Hc) as (s1 & -> & Hm) end.
    cbn. exists [probe; join], []. split; [done|]. split; [by eapply VisitTried|done].
Qed.

(** Visiting a candidate whose run is there, whatever comes of it. *)
Lemma execute_join_visited c s w log :
  stands c (cur s) → visited c (s, (w, log)) (execute_join_for_run c (s, (w, log))).2.
Proof.
  intros [Hr Hc]. unfold execute_join_for_run. rewrite run_bind.
  assert (∃ o w', node_of c (s, (w, log)) = (o, (s, (w', log)))) as (o & w' & ->).
  { unfold node_of. destruct (nonempty_id (cd_node c)); [by eexists _, _|]. rewrite run_bind. unfold io.
    cbn [fst snd resolve_node logged]. destruct (resolve_node (cd_vmid c) w) as [[n|e] w']; by eexists _, _. }
  destruct o as [[node|]|e]; try apply visited_nothing.
  rewrite run_bind. unfold attempt, io. cbn [fst snd guest_exec logged].
  destruct (guest_exec node (cd_vmid c) _PROBE_PS default_timeout w') as [a w1]. cbn [fst snd].
  set (probe := Call node (cd_vmid c) _PROBE_PS a).
  assert (∀ (w2 : W), visited c (s, (w, log)) (s, (w2, log ++ [probe]))) as Hprobe.
  { intros w2. exists [probe], []. split; [done|]. split; [constructor|by apply marks_nothing]. }
  assert (∀ w2 et sev msg data (o' : pass_result), visited c (s, (w, log))
    ((join_event c et sev msg data ;; (mret o' : eff (session * (W * list call)) _)) (s, (w2, log ++ [probe]))).2) as Hnote.
  { intros w2 et sev msg data o'. rewrite run_bind. unfold join_event, db_op. cbn [fst snd].
    destruct (run_noted c "domain_join" et sev (Some msg) data s Hc) as (s1 & -> & Hm). cbn.
    exists [probe], []. split; [done|]. split; [constructor|done]. }
  destruct a as [a|e]; [|apply Hprobe].
  destruct (probe_is_domain_joined a) eqn:Hin.
  - unfold confirm_joined. cbv zeta. rewrite run_bind. unfold join_event, db_op. cbn [fst snd].
    match goal with |- context [_mark_steps _ ?ks ?m ?d] => match goal with |- context [append_event _ ?p ?e ?v ?m2 ?d2] =>
      destruct (run_marked c ks m d p e v m2 d2 s Hr Hc) as (s1 & s2 & E1 & E2 & Hm); [done|] end end.
    rewrite E1, run_bind. cbn [fst snd]. rewrite E2. cbn.
    eexists [probe], _. split; [done|]. split; [apply VisitJoined; split; [done|by exists a]|exact Hm].
  - destruct (PyStr.contains "DOMAIN=False" _) eqn:Hout; cbn [negb]; [|apply Hprobe].
    assert (in_no_domain probe) as Ha by (split; [done|]; by exists a).
    unfold join_with_credential. cbv zeta. destruct (py_int _) as [cid|e]; [|apply Hnote].
    rewrite run_bind. unfold io at 1. cbn [fst snd resolve_credential logged].
    destruct (resolve_credential cid w1) as [[answer|e] w2]; cbn [fst snd]; [|apply Hprobe].
    rewrite run_bind. unfold dict_of. destruct (jor answer (JObj [])) as [| | | | |kvs]; try apply Hprobe.
    cbn. rewrite run_bind. unfold credential_user. destruct (jor (jget "username" _) _); try apply Hprobe.
    cbn [mret eff_ret]. destruct (_ || _); [apply Hnote|].
    destruct (join_machine_visited node c (Ret a) (qualify_user s0 (cd_domain_join c))
      (py_str (jget "password" (JObj kvs))) s w2 log (conj Hr Hc) Ha) as (calls & kinds & Hv). exists calls, kinds. exact Hv.
Qed.

(** ** The pass *)

(** What holds of the session and the log during a pass that began with [s0]. *)
Record during (s0 : session) (sw : session * (W * list call)) : Prop := During {
  dr_deployments : cloud_runs (cloud_of (cur sw.1)) = cloud_runs (cloud_of (cur s0));
  dr_runs k : known (runs (cur sw.1)) k = known (runs (cur s0)) k;
  dr_calls : all_justified sw.2.2;
  dr_steps id st' : steps (cur sw.1) !! id = Some st' →
    steps (cur s0) !! id = Some st' ∨
    st_state st' = Done ∧ ∃ r, cloud_runs (cloud_of (cur s0)) !! ps_run_id (st_plan st') = Some r ∧
      shown sw.2.2 (cr_vmid r) (ps_kind (st_plan st'))
}.

Lemma visit_justified c calls kinds log :
  join_visit c calls kinds → all_justified log → all_justified (log ++ calls).
Proof.
  assert (∀ l node a, all_justified l → all_justified (l ++ [Call node (cd_vmid c) _PROBE_PS a])) as Hprobe.
  { intros l node a Hl. apply all_justified_snoc; [done|by left]. }
  assert (∀ l node a u p c' script b, all_justified l → in_no_domain (Call node (cd_vmid c) _PROBE_PS a) →
    join_script c' u p = Ret script →
    all_justified ((l ++ [Call node (cd_vmid c) _PROBE_PS a]) ++ [Call node (cd_vmid c) script b])) as Hjoin.
  { intros l node a u p c' script b Hl Ha Hs. apply all_justified_snoc; [by apply Hprobe|]. right. eexists l, _.
    split_and!; [done..|]. left. split; [done|by eexists _, _, _]. }
  intros Hv Hlog. destruct Hv as [|node a|node a _|node a u p script b Ha Hs|node a script b r Ha Hb].
  - by rewrite app_nil_r.
  - by apply Hprobe.
  - by apply Hprobe.
  - match goal with |- all_justified (_ ++ [?x; ?y]) => rewrite (app_assoc log [x] [y] : log ++ [x; y] = _) end.
    by eapply Hjoin.
  - destruct Hb as [(c' & u & p & Hs) Hb'] eqn:Eb. match goal with |- all_justified (_ ++ [?x; ?y; ?z]) =>
      rewrite (app_assoc log [x] [y; z] : log ++ [x; y; z] = _), (app_assoc (log ++ [x]) [y] [z] : _ ++ [y; z] = _) end.
    apply all_justified_snoc; [by eapply Hjoin|].
    right. eexists _, _. split_and!; [done..|]. by right.
Qed.

(** A kind that is marked was shown. *)
Lemma visit_shown c calls kinds kind log :
  join_visit c calls kinds → kind ∈ kinds → shown (log ++ calls) (cd_vmid c) kind.
Proof.
  intros Hv Hk. destruct Hv as [|node a|node a Ha|node a u p script b Ha Hs|node a script b r Ha Hb];
    try (by apply elem_of_nil in Hk).
  - eexists. split; [by apply elem_of_app; right; left|]. split; [done|]. by left.
  - apply list_elem_of_singleton in Hk as ->. eexists. split; [apply elem_of_app; right; right; left|].
    split; [done|]. by right.
Qed.

Lemma visited_during s0 c r sw sw' :
  cloud_runs (cloud_of (cur s0)) !! cd_run_id c = Some r → cd_vmid c = cr_vmid r →
  during s0 sw → visited c sw sw' → during s0 sw'.
Proof.
  intros Hr Hvm [Hcl Hru Hlog Hst] (calls & kinds & Hcalls & Hv & [Hcl' Hru' [at_ Hst']]). split.
  - by rewrite Hcl'.
  - intros k. by rewrite Hru'.
  - rewrite Hcalls. by eapply visit_justified.
  - intros id st'. rewrite Hst', lookup_fmap, Hcalls. destruct (steps (cur sw.1) !! id) as [st|] eqn:E; [|done].
    simpl. unfold mark_step. case_decide as Hm; intros [= <-].
    + right. destruct Hm as (Hrun & Hkind & _). split; [done|]. exists r.
      change (st_plan (done_from_evidence _ _ st)) with (st_plan st). rewrite Hrun, <- Hvm.
      split; [done|]. by eapply visit_shown.
    + destruct (Hst id st E) as [?|(Hd & r' & Hr' & Hs)]; [by left|]. right. split; [done|]. exists r'.
      split; [done|]. by apply shown_more.
Qed.

Lemma sweep_during s0 skip deadline l sw :
  Forall (λ c, known (runs (cur s0)) (cd_run_id c) = true ∧
    ∃ r, cloud_runs (cloud_of (cur s0)) !! cd_run_id c = Some r ∧ cd_vmid c = cr_vmid r) l →
  during s0 sw → during s0 (sweep skip deadline execute_join_for_run l sw).2.
Proof.
  intros Hl. revert sw. induction Hl as [|c l (Hk & r & Hr & Hvm) _ IH]; intros sw Hsw; [done|].
  cbn [sweep]. rewrite run_bind.
  assert (∀ m : eff (session * (W * list call)) visit, during s0 (m sw).2 →
    during s0 (match m sw with
      | (Ret a, sw1) => (rest ← sweep skip deadline execute_join_for_run l; mret (a :: rest)) sw1
      | (Exc e, sw1) => (Exc e, sw1) end).2) as Hthen.
  { intros m Hm. destruct (m sw) as [[v|e] sw1]; [|done]. rewrite run_bind. specialize (IH sw1 Hm).
    by destruct (sweep _ _ _ l sw1) as [[vs|e] sw2]. }
  apply Hthen. destruct (skip c); [done|]. rewrite run_bind.
  assert (∀ late (sw1 : session * (W * list call)), during s0 sw1 →
    during s0 ((if late : bool then mret Deferred
      else tried ← attempt (execute_join_for_run c);
        mret (Visited match tried with Ret r => r | Exc e => error_result c "failed" (cut 200 (exc_str e)) end)) sw1).2) as Hvisit.
  { intros late [s1 [w1 log1]] Hd1. destruct late; [done|]. rewrite run_bind. unfold attempt.
    assert (visited c (s1, (w1, log1)) (execute_join_for_run c (s1, (w1, log1))).2) as Hv.
    { apply execute_join_visited. destruct Hd1 as [Hcl Hru _ _]. split; [simpl in *; by rewrite Hru|].
      simpl in *. rewrite Hcl. apply known_true. eauto. }
    destruct (execute_join_for_run c (s1, (w1, log1))) as [o sw2]. by eapply visited_during. }
  destruct deadline as [t|]; [|rewrite run_ret; by apply (Hvisit false)]. rewrite run_bind. unfold io. destruct sw as [s1 [w1 log1]].
  cbn [fst snd monotonic logged]. destruct (monotonic w1) as [[time|e] w2]; cbn [fst snd]; [apply Hvisit|];
    destruct Hsw; by split.
Qed.

(** C12. Nothing is done to a guest, and no step is marked done, without evidence.  In every
    state the system can reach, and whatever the guests answer and whenever calls fail, a
    pass sends a guest the script that joins it to its domain only directly after the same
    guest has answered the probe that it is in no domain, and restarts it only directly
    after it reported that the join succeeded.  A step that the pass completes is either of
    the two domain steps of a machine that answered that it is in a domain, or the join of a
    machine on which the join succeeded; all other steps are as before. *)
Theorem joins_are_justified (hb : heartbeats) (age budget : option Z) (limit : nat) (s : session) (w : W) :
  in_system s →
  let '(_, (s', (_, log))) := run_pending_joins hb age budget limit (s, (w, [])) in
  all_justified log ∧
  ∀ id st', steps (cur s') !! id = Some st' →
    steps (cur s) !! id = Some st' ∨
    st_state st' = Done ∧ ∃ r, cloud_runs (cloud_of (cur s)) !! ps_run_id (st_plan st') = Some r ∧
      shown log (cr_vmid r) (ps_kind (st_plan st')).
Proof.
  intros Hs. destruct (system_tables s Hs) as [[Hwf _] _].
  assert (during s (run_pending_joins hb age budget limit (s, (w, []))).2) as Hd.
  { unfold run_pending_joins. rewrite run_bind. unfold db_op at 1. cbn [fst snd]. rewrite run_now.
    set (s1 := Session _ _ _ _). rewrite run_bind. unfold db_op at 1. cbn [fst snd].
    unfold find_join_candidates. rewrite run_query. cbn [cur s1]. set (l := filter _ _).
    assert (during s (s1, (w, []))) as Hd1.
    { split; [done..| |by left]. intros l' k r Hl. by destruct l'. }
    assert (Forall (λ c, known (runs (cur s)) (cd_run_id c) = true ∧
      ∃ r, cloud_runs (cloud_of (cur s)) !! cd_run_id c = Some r ∧ cd_vmid c = cr_vmid r) l) as Hl.
    { apply Forall_forall. intros c [_ Hc]%list_elem_of_filter. apply list_elem_of_fmap in Hc as ([id r] & -> & Hc).
      apply elem_of_take in Hc as (i & Hc & _). apply list_elem_of_lookup_2 in Hc. rewrite isort_perm in Hc.
      apply elem_of_select_where in Hc as [_ Hr]. simpl in *. split; [|by exists r].
      apply (wc_engine _ Hwf), known_true. eauto. }
    clearbody l s1. rewrite run_bind.
    assert (∀ deadline w1, during s ((visits ← sweep (stale_result (heartbeat_cutoff age (clock (tick s)))) deadline
      execute_join_for_run l; mret (SweepSummary (length l) visits)) (s1, (w1, []))).2) as Hsweep.
    { intros deadline w1. rewrite run_bind. assert (during s (s1, (w1, []))) as Hd1' by (destruct Hd1; by split).
      pose proof (sweep_during s (stale_result (heartbeat_cutoff age (clock (tick s)))) deadline l _ Hl Hd1') as Hsw.
      by destruct (sweep _ _ _ _ _) as [[vs|e] sw]. }
    destruct budget as [m|]; [|apply Hsweep]. cbn [deadline_of]. rewrite run_bind. unfold io. cbn [fst snd monotonic logged].
    destruct (monotonic w) as [[t|e] w1]; cbn [fst snd]; [apply Hsweep|destruct Hd1; by split]. }
  destruct (run_pending_joins _ _ _ _ _) as [o [s' [w' log]]]. destruct Hd as [_ _ Hlog Hst]. by split.
Qed.
End passes.
