(* ===== verification/CloudReserve.v ===== *)
(** * What a batch reserves

    The deployments a batch makes: one for every machine, under the least numbers,
    from the first that Proxmox gave, that no deployment has reserved and no machine that
    Proxmox lists has, and under names that Proxmox
    accepts and that differ. *)

From stdpp Require Import base gmap list strings pretty sorting.
From Stdlib Require Import ZArith Lia Ascii.
From S2P Require Import Prelude Json Text JsonParse Digest CloudData OsdeployData TsData Conditions Tree Sequences Content Runs RunState Progress Engine Generated OsdeployRoles OsdeployRuns OsdeployService OsdeployInvariant OsdeployTables CloudNames Bubbles BubbleInvariant CloudRuns CloudScripts CloudService CloudInvariant CloudJoin CloudBatch CloudReach CloudComplete.

(** ** Numbers *)

(** The numbers in use from [candidate] on, which the loop may have to pass over. *)
Definition ahead (candidate : Z) (used : gset Z) : gset Z := filter (λ x, candidate ≤ x)%Z used.

Lemma ahead_used candidate used :
  candidate ∈ used → size (ahead candidate used) = S (size (ahead (candidate + 1) used)).
Proof.
  intros Hc. assert (ahead candidate used = {[candidate]} ∪ ahead (candidate + 1) used) as ->.
  { apply set_eq. intros x. unfold ahead. rewrite elem_of_union, elem_of_singleton, !elem_of_filter.
    destruct (decide (x = candidate)) as [->|]; [naive_solver lia|]. naive_solver lia. }
  rewrite size_union; [by rewrite size_singleton|]. unfold ahead. intros x. rewrite elem_of_singleton, elem_of_filter.
  intros -> [? _]. lia.
Qed.

Lemma ahead_free candidate used :
  size (ahead (candidate + 1) ({[candidate]} ∪ used)) ≤ size (ahead candidate used).
Proof.
  apply subseteq_size. intros x. unfold ahead. rewrite !elem_of_filter, elem_of_union, elem_of_singleton.
  intros [? [->|?]]; [lia|]. split; [lia|done].
Qed.

(** The [count] least numbers from [first] on that are not in use. *)
Definition least_free (first : Z) (used : gset Z) (count : nat) (l : list Z) : Prop :=
  length l = count ∧ StronglySorted Z.lt l ∧ Forall (λ v, (first ≤ v)%Z ∧ v ∉ used) l ∧
  ∀ x v, (first ≤ x)%Z → x ∉ used → v ∈ l → (x < v)%Z → x ∈ l.

Lemma next_vmids_least fuel candidate used count :
  count + size (ahead candidate used) ≤ fuel →
  ∃ l, next_vmids fuel candidate used count = Some l ∧ least_free candidate used count l.
Proof.
  revert candidate used count. induction fuel as [|fuel IH]; intros candidate used [|count] Hf.
  - exists []. split; [done|]. split_and!; [done|constructor|constructor|]. intros x v _ _ Hv. by apply elem_of_nil in Hv.
  - lia.
  - exists []. split; [done|]. split_and!; [done|constructor|constructor|]. intros x v _ _ Hv. by apply elem_of_nil in Hv.
  - cbn [next_vmids]. destruct (decide (candidate ∈ used)) as [Hin|Hout].
    + rewrite ahead_used in Hf by done. destruct (IH (candidate + 1)%Z used (S count)) as (l & -> & Hn & Hs & Hall & Hl); [lia|].
      exists l. split; [done|]. split_and!; [done..| |].
      * eapply Forall_impl; [exact Hall|]. naive_solver lia.
      * intros x v Hx Hu. assert (x ≠ candidate) by congruence. apply Hl; [lia|done].
    + pose proof (ahead_free candidate used).
      destruct (IH (candidate + 1)%Z ({[candidate]} ∪ used) count) as (l & -> & Hn & Hs & Hall & Hl); [lia|].
      exists (candidate :: l). split; [done|]. split_and!.
      * simpl. by rewrite Hn.
      * constructor; [done|]. eapply Forall_impl; [exact Hall|]. intros v [? _]. lia.
      * constructor; [split; [lia|done]|]. eapply Forall_impl; [exact Hall|]. intros v [? Hv]. set_solver by lia.
      * intros x v Hx Hu Hv Hlt. destruct (decide (x = candidate)) as [->|Hne]; [by left|]. right.
        apply elem_of_cons in Hv as [->|Hv]; [lia|]. apply (Hl x v); [lia|set_solver|done|done].
Qed.

Lemma vmids_fuel_enough first used count :
  ∃ l, next_vmids (vmids_fuel used count) first used count = Some l ∧ least_free first used count l.
Proof.
  apply next_vmids_least. unfold vmids_fuel, ahead.
  assert (size (filter (λ x, first ≤ x)%Z used) ≤ size used) by (apply subseteq_size; set_solver). lia.
Qed.

Lemma least_free_NoDup first used count l : least_free first used count l → NoDup l.
Proof.
  intros (_ & Hs & _). induction Hs as [|v l _ IH Hv]; constructor; [|done].
  intros Hin. rewrite Forall_forall in Hv. specialize (Hv v Hin). lia.
Qed.

Section batch.
Context `{Env} `{Sha256} `{StrSet} `{Secrets} `{IsoTime}.

(** ** Names *)

Lemma batch_names_vmids pattern prefix uses taken index vmids s plans s' :
  batch_names pattern prefix uses taken index vmids s = (Ret plans, s') →
  cur s' = cur s ∧ committed s' = committed s ∧ bt_requested_vmid <$> plans = vmids ∧
  Forall (λ p, valid_vm_name (bt_name p) = true) plans.
Proof.
  revert taken index s plans. induction vmids as [|v vmids IH]; intros taken index s plans; cbn [batch_names].
  { intros [= <- <-]. by repeat split. }
  unfold _cloudosd_generate_serial. cbv zeta. rewrite run_bind, run_bind, run_new_id, run_ret.
  case_decide; [done|]. destruct (negb (valid_vm_name _)) eqn:Hv; [done|]. rewrite run_bind.
  destruct (batch_names _ _ _ _ _ vmids _) as [[ps|e] s1] eqn:E; [|done]. intros [= <- <-].
  apply IH in E as (-> & -> & <- & Hall). split_and!; [done..|]. constructor; [|done].
  by apply negb_false_iff in Hv.
Qed.

(** ** Deployments *)

(** The rows that creating a deployment reads are consistent. *)
Record fit (s : session) : Prop := Fit {
  ft_nodes : holds_in wf_nodes s;
  ft_versions : holds_in versions_known s;
  ft_runs : holds_in wf_runs s
}.

Lemma fit_kept {A} (m : eff session A) s :
  (∀ I, CloudStatements I → BubbleStatements I → Keeps serve_run I → Statements I → preserves I m) → fit s → fit (m s).2.
Proof. intros Hm [Hn Hv Hr]. split; by apply (Hm _ _ _ _ _ s). Qed.

Lemma fit_facts s :
  fit s → sequences_known (cur s) ∧
  (∀ id st, steps (cur s) !! id = Some st → known (runs (cur s)) (ps_run_id (st_plan st)) = true).
Proof.
  intros [[Hn _] [Hv _] [Hr _]]. split; [by apply sequences_known_of|].
  intros id st Hst. by apply (wr_step _ Hr id st).
Qed.

Lemma add_asset_same b ty role vmid uuid rid agent sid ms es nt actor s a s' :
  add_asset b ty role vmid uuid rid agent sid ms es nt actor s = (Ret a, s') → same_but_lab (cur s) (cur s').
Proof.
  unfold add_asset, insert_asset, record_audit_event, insert_audit. cbv zeta.
  rewrite run_bind, run_now, run_bind, run_new_id, !run_bind, run_query, run_checked.
  destruct (_ && _); [|done]. rewrite !run_bind, run_now, run_bind, run_query, run_checked.
  destruct (_ && _); [|done]. rewrite run_bind, run_commit, run_ret. intros [= _ <-]. simpl.
  by eexists (λ t, set_audit_events _ (set_bubble_assets _ t)).
Qed.

(** A deployment of a batch: the number and the name that were planned for it. *)
Definition provisioned (d : db) (p : batch_plan) (id : string) : Prop :=
  ∃ r, cloud_runs (cloud_of d) !! id = Some r ∧ cr_state r = CloudCreated ∧
    cq_requested_vmid (cr_request r) = Some (bt_requested_vmid p) ∧ cq_vm_name (cr_request r) = bt_name p.

Lemma create_in_bubble_provisioned b aid dj p bubble role s id row s' :
  fit s → create_in_bubble (plan_args b aid dj p) bubble role s = (Ret (id, row), s') →
  fit s' ∧ provisioned (cur s') p id ∧ cloud_runs (cloud_of (cur s)) !! id = None ∧
  ∀ k r, cloud_runs (cloud_of (cur s)) !! k = Some r → cloud_runs (cloud_of (cur s')) !! k = Some r.
Proof.
  intros Hfit E. split.
  { pose proof (fit_kept (create_in_bubble (plan_args b aid dj p) bubble role) s) as Hk. rewrite E in Hk. apply Hk; [|done].
    intros I ? ? ? ?. by apply kept_in_bubble. }
  unfold create_in_bubble, value_error_400 in E.
  match type of E with context [match ?o with _ => _ end] => destruct o as [[rr|e] s1] eqn:E1 end;
    [|by destruct e; simplify_eq]. simplify_eq. rewrite run_bind in E1.
  destruct (create_run _ s) as [[[id' row'] |e] s1] eqn:Ec; [|done]. rewrite run_bind in E1.
  destruct (fit_facts s Hfit) as [Hseq Hsteps].
  destruct (create_cloud_run _ _ _ _ _ Hseq Hsteps Ec) as
    (art & config & mo & ts & now & eat & _ & _ & _ & _ & _ & _ & Hnew & _ & _ & Ho & _ & _).
  set (run := new_cloud_run (plan_args b aid dj p) id'
    (normalize_windows_computer_name (Some (cg_vm_name (plan_args b aid dj p)))) config
    (_sanitize_local_admin mo (cg_local_admin (plan_args b aid dj p)) true) now).
  assert (cloud_runs (cloud_of (cur s1)) = <[id' := run]> (cloud_runs (cloud_of (cur s)))) as Hruns.
  { unfold cloud_of. by rewrite Ho. }
  assert (∀ o s2, cloud_runs (cloud_of (cur s2)) = cloud_runs (cloud_of (cur s1)) →
    (Ret (id', row'), s2) = (Ret (id, row), o) →
    provisioned (cur s2) p id ∧ cloud_runs (cloud_of (cur s)) !! id = None ∧
    ∀ k r, cloud_runs (cloud_of (cur s)) !! k = Some r → cloud_runs (cloud_of (cur s2)) !! k = Some r) as Hdone.
  { intros o s2 H2' [= -> _ _]. rewrite H2', Hruns. split_and!; [|done|].
    - exists run. rewrite H2', Hruns, lookup_insert_eq. by repeat split.
    - intros k r Hk. rewrite lookup_insert_ne; [done|]. intros ->. congruence. }
  destruct (nonempty_id bubble) as [bb|].
  - rewrite run_bind in E1. destruct (add_asset _ _ _ _ _ _ _ _ _ _ _ _ s1) as [[a|e] s2] eqn:Ea; [|done].
    rewrite !run_ret in E1. apply add_asset_same in Ea as [f Hf]. simplify_eq. eapply Hdone; [|done]. by rewrite Hf.
  - rewrite !run_ret in E1. simplify_eq. by eapply Hdone.
Qed.

Context {W : Type} `{!GuestApi W}.

Lemma provision_each_provisioned start_job b aid dj ps s (w : W) ids s' w' :
  fit s → provision_each start_job b aid dj ps (s, w) = (Ret ids, (s', w')) →
  NoDup ids ∧ Forall2 (provisioned (cur s')) ps ids ∧
  Forall (λ id, cloud_runs (cloud_of (cur s)) !! id = None) ids ∧
  ∀ k r, cloud_runs (cloud_of (cur s)) !! k = Some r → cloud_runs (cloud_of (cur s')) !! k = Some r.
Proof.
  revert s w ids. induction ps as [|p ps IH]; intros s w ids Hfit; cbn [provision_each].
  { intros [= <- <- _]. by repeat constructor. }
  unfold provision_one. rewrite run_bind, run_bind. unfold db_op at 1. cbn [fst snd].
  unfold published_artifact, get_artifact. rewrite run_bind, run_query.
  destruct (cloud_artifacts _ !! _) as [a|]; [|done]. case_decide; [done|]. rewrite run_ret, run_bind.
  unfold db_op at 1. cbn [fst snd].
  destruct (create_in_bubble _ _ _ s) as [[[id row]|e] s1] eqn:E1; [|done]. rewrite run_bind. unfold io. cbn [fst snd].
  destruct (start_job _ p w) as [[[]|e] w1]; [|done]. rewrite run_ret, run_bind.
  destruct (provision_each _ _ _ _ ps _) as [[ids'|e] [s2 w2]] eqn:E2; [|done]. rewrite run_ret. intros [= <- <- <-].
  apply create_in_bubble_provisioned in E1 as (Hfit1 & (r & Hr & Hp) & Hnew & Hkeep); [|done].
  destruct (IH _ _ _ Hfit1 E2) as (Hnd & Hall & Hnone & Hkeep').
  rewrite Forall_forall in Hnone. split_and!.
  - constructor; [|done]. intros Hin. specialize (Hnone id Hin). congruence.
  - constructor; [|done]. exists r. split; [by apply Hkeep'|done].
  - constructor; [done|]. apply Forall_forall. intros k Hk. specialize (Hnone k Hk).
    destruct (cloud_runs (cloud_of (cur s)) !! k) as [r'|] eqn:Er; [|done]. apply Hkeep in Er. congruence.
  - intros k r' Hk. by apply Hkeep', Hkeep.
Qed.

(** ** The batch *)

(** An active deployment has asked for the number [v]; zero is no number. *)
Definition reserved_by (d : db) (v : Z) : Prop :=
  ∃ id r, cloud_runs (cloud_of d) !! id = Some r ∧ is_active (cr_state r) ∧
    cq_requested_vmid (cr_request r) = Some v ∧ v ≠ 0%Z.

Lemma reserved_vmids_by d v : v ∈ reserved_vmids d ↔ reserved_by d v.
Proof.
  unfold reserved_vmids, reserved_by. rewrite elem_of_list_to_set, list_elem_of_omap. split.
  - intros ([id r] & Hin%elem_of_map_to_list & Hv). simpl in Hv. case_decide; [|done].
    destruct (cq_requested_vmid (cr_request r)) as [n|] eqn:En; [|done]. unfold zero_is_none in Hv. simpl in Hv.
    case_decide; [done|]. injection Hv as ->. by exists id, r.
  - intros (id & r & Hr & Ha & Hv & Hz). exists (id, r). split; [by apply elem_of_map_to_list|]. simpl.
    rewrite decide_True, Hv by done. unfold zero_is_none. simpl. by rewrite decide_False.
Qed.

(** The number of a machine in a row of the list of machines: none when the row has none,
    and an error when the row is no dictionary or its number cannot be read. *)
Definition row_vmid (row : json) : outcome (option Z) :=
  match row with
  | JObj o => match default JNull (assoc "vmid" o) with JNull => Ret None | v => Some <$> py_int v end
  | _ => Exc AttributeError
  end.

Definition readable (row : json) : bool := match row_vmid row with Ret _ => true | Exc _ => false end.

(** The machines that Proxmox lists when it is asked in the world [w]; none when it does not
    answer, or when one row cannot be read. *)
Definition machines_told (w : W) : option (list json) :=
  match (api_get resources w).1 with
  | Ret answer => match rows_of answer with
                  | Ret rows => if forallb readable rows then Some rows else None
                  | Exc _ => None
                  end
  | Exc _ => None
  end.

(** Proxmox, asked in the world [w], lists a machine under the number [v]. *)
Definition used_by_machine (w : W) (v : Z) : Prop :=
  ∃ rows row, machines_told w = Some rows ∧ row ∈ rows ∧ row_vmid row = Ret (Some v).

Lemma vmids_in_use_spec rows :
  match vmids_in_use rows with
  | Ret used => forallb readable rows = true ∧ ∀ v, v ∈ used ↔ ∃ row, row ∈ rows ∧ row_vmid row = Ret (Some v)
  | Exc _ => forallb readable rows = false
  end.
Proof.
  induction rows as [|row rows IH]; cbn [vmids_in_use forallb].
  { split; [done|]. intros v. split; [set_solver|]. intros (row & Hrow & _). by apply elem_of_nil in Hrow. }
  assert (∀ o : outcome (option Z), row_vmid row = o →
    match o with
    | Exc _ => vmids_in_use (row :: rows) = Exc AttributeError ∨ ∃ e, vmids_in_use (row :: rows) = Exc e
    | Ret None => vmids_in_use (row :: rows) = vmids_in_use rows
    | Ret (Some n) => vmids_in_use (row :: rows) = (used ← vmids_in_use rows; Ret ({[n]} ∪ used))
    end) as Hrow.
  { intros o <-. destruct row as [| | | | |d]; cbn [row_vmid vmids_in_use]; try by left. unfold jget.
    destruct (default JNull (assoc "vmid" d)); try done;
      match goal with |- context [py_int ?j] => destruct (py_int j) end; cbn; eauto. }
  specialize (Hrow _ eq_refl). cbn [vmids_in_use] in Hrow. unfold readable at 1 3.
  destruct (row_vmid row) as [[n|]|e] eqn:Er.
  - rewrite Hrow. destruct (vmids_in_use rows) as [used|e]; simpl; [|done]. destruct IH as [Hr Hu].
    split; [done|]. intros v. rewrite elem_of_union, elem_of_singleton, Hu. split.
    + intros [->|(r & Hin & Hv)]; [exists row; split; [by left|done]|exists r; split; [by right|done]].
    + intros (r & [->|Hin]%elem_of_cons & Hv); [left; congruence|right; by exists r].
  - rewrite Hrow. destruct (vmids_in_use rows) as [used|e]; [|done]. destruct IH as [Hr Hu]. split; [done|].
    intros v. rewrite Hu. split.
    + intros (r & Hin & Hv). exists r. split; [by right|done].
    + intros (r & [->|Hin]%elem_of_cons & Hv); [congruence|by exists r].
  - by destruct Hrow as [->|[e' ->]].
Qed.

(** The numbers are the least that no reservation has and no machine that Proxmox lists. *)
Lemma candidate_vmids_least count reserved w vmids w' :
  _cloudosd_candidate_vmids count reserved w = (Ret vmids, w') →
  ∃ answer w1 first taken, api_get "/cluster/nextid" w = (Ret answer, w1) ∧ py_int answer = Ret first ∧
    (∀ v, v ∈ taken ↔ v ∈ reserved ∨ used_by_machine w1 v) ∧ least_free first taken count vmids.
Proof.
  unfold _cloudosd_candidate_vmids, used_vmids. rewrite run_bind.
  destruct (api_get "/cluster/nextid" w) as [[answer|e] w1] eqn:En; [|done]. rewrite run_bind.
  destruct (py_int answer) as [first|e] eqn:Ei; [|done]. cbn [lift_outcome]. rewrite run_bind, run_bind.
  assert (∀ used, least_free first used count (default [] (next_vmids (vmids_fuel used count) first used count))) as Hleast.
  { intros used. by destruct (vmids_fuel_enough first used count) as (l & -> & Hl). }
  assert (machines_told w1 = None → ∀ v, v ∈ reserved ↔ v ∈ reserved ∨ used_by_machine w1 v) as Hnone.
  { intros Hn v. split; [by left|]. intros [?|(rows & row & Hrows & _)]; [done|congruence]. }
  assert (∃ m, machines_told w1 = m) as [m Hm] by eauto. pose proof Hm as Hm'. unfold machines_told in Hm.
  unfold attempt. rewrite run_bind.
  destruct (api_get resources w1) as [[listed|e] w2] eqn:Eg; cbv zeta; simpl in Hm;
    [rewrite run_bind; unfold lift_outcome; destruct (rows_of listed) as [rows|e] eqn:Er;
      [pose proof (vmids_in_use_spec rows) as Hspec; destruct (vmids_in_use rows) as [in_use|e] eqn:Eu|]|];
    intros [= <- <-]; exists answer, w1, first; try rewrite Hspec in Hm; subst m.
  2-4: exists reserved; split_and!; [done..|by apply Hnone|apply Hleast].
  destruct Hspec as [Hr Hu]. rewrite Hr in Hm'. exists (reserved ∪ in_use). split_and!; [done..| |apply Hleast].
  intros v. rewrite elem_of_union, Hu. unfold used_by_machine. rewrite Hm'. split.
  - intros [?|(row & Hin & Hv)]; [by left|right; eauto].
  - intros [?|(rs & row & [= <-] & Hin & Hv)]; [by left|right; eauto].
Qed.

Lemma intent_same rc b s (w : W) dj s1 w1 :
  batch_intent rc b (s, w) = (Ret dj, (s1, w1)) → s1 = s ∧ w1 = w.
Proof. unfold batch_intent. repeat case_match; intros E; by inversion E. Qed.

Lemma known_bubble_same bubble s s1 : known_bubble bubble s = (Ret tt, s1) → s1 = s.
Proof.
  unfold known_bubble, get_bubble. destruct (nonempty_id _); [|by intros [= ->]].
  rewrite run_bind, run_query. destruct (_ !! _); by intros [= ->].
Qed.

Lemma artifact_same (b : batch_args) ready s (w : W) aid s1 w1 :
  (if decide (ba_artifact_id b = EmptyString) then db_op (_auto_select_cloudosd_artifact_id ready)
   else mret (ba_artifact_id b)) (s, w) = (Ret aid, (s1, w1)) → s1 = s ∧ w1 = w.
Proof.
  case_decide; [|by intros [= _ -> ->]]. unfold _auto_select_cloudosd_artifact_id, list_artifacts, db_op.
  cbn [fst snd]. rewrite run_bind, run_query. destruct (filter _ _); by intros [= _ -> ->].
Qed.

Lemma names_spec pattern prefix count vmids s (w : W) plans s' w' :
  _cloudosd_batch_names pattern prefix count vmids (s, w) = (Ret plans, (s', w')) →
  cur s' = cur s ∧ committed s' = committed s ∧ bt_requested_vmid <$> plans = vmids ∧
  Forall (λ p, valid_vm_name (bt_name p) = true) plans ∧ NoDup ((λ p, PyStr.lower (bt_name p)) <$> plans).
Proof.
  unfold _cloudosd_batch_names. destruct (negb _); [done|]. cbv zeta. case_decide; [done|].
  rewrite run_bind.
  match goal with |- context [match (if ?c then ?x else ?y) ?sw with _ => _ end] =>
    assert (∀ l sw1, (if c then x else y) sw = (Ret l, sw1) → sw1.1 = s) as Htaken;
    [|destruct ((if c then x else y) sw) as [[taken|e] [s1 w1]] eqn:Et; [|done]] end.
  { intros l sw1. destruct (_cloudosd_pattern_has_token _ _); [|by intros [= _ <-]]. unfold io. cbn [fst snd].
    destruct (_cloudosd_existing_vm_names_lower w) as [o w1]. by intros [= _ <-]. }
  assert (s1 = s) as -> by exact (Htaken _ _ eq_refl). clear Htaken Et. rewrite run_bind. unfold db_op. cbn [fst snd].
  destruct (batch_names _ _ _ _ _ vmids s) as [[ps|e] s2] eqn:E; [|done]. apply batch_names_vmids in E as (? & ? & ? & ?).
  case_decide; [|done]. intros [= <- <- _]. by split_and!.
Qed.

Lemma system_fit s : in_system s → fit s.
Proof.
  intros Hs. split.
  - by apply (in_system_keeps wf_nodes s _ _ _ _ _ empty_nodes).
  - by apply (in_system_keeps versions_known s _ _ _ _ _ empty_versions_known).
  - by apply (in_system_keeps wf_runs s _ _ _ _ _ empty_runs).
Qed.

(** C13. A batch reserves machines of its own.  When a batch succeeds, it has made exactly as
    many deployments as were asked for.  Their numbers are the least ones, from the number
    that Proxmox called the next free one, that are not taken, where a number is taken when an
    active deployment has reserved it or Proxmox, asked right after, lists a machine under it;
    when Proxmox does not list its machines, or a row of the list cannot be read, the
    reservations alone count.  The names are names Proxmox accepts and differ without regard to
    case, and no deployment that was there is touched. *)
Theorem batch_reserves (start_job : string → batch_plan → eff W unit) (rc : credential_source)
    (ready : string * cloud_artifact → bool) (objection : list batch_plan → option exc) (b : batch_args)
    (s s' : session) (w w' : W) (ids : list string) :
  in_system s →
  _start_cloudosd_provision_batch start_job rc ready objection b (s, w) = (Ret ids, (s', w')) →
  ∃ plans answer w1 first taken,
    api_get "/cluster/nextid" w = (Ret answer, w1) ∧ py_int answer = Ret first ∧
    (∀ v, v ∈ taken ↔ reserved_by (cur s) v ∨ used_by_machine w1 v) ∧
    least_free first taken (ba_count b) (bt_requested_vmid <$> plans) ∧
    Forall (λ p, valid_vm_name (bt_name p) = true) plans ∧
    NoDup ((λ p, PyStr.lower (bt_name p)) <$> plans) ∧
    NoDup ids ∧ Forall2 (provisioned (cur s')) plans ids ∧
    Forall (λ id, cloud_runs (cloud_of (cur s)) !! id = None) ids ∧
    ∀ k r, cloud_runs (cloud_of (cur s)) !! k = Some r → cloud_runs (cloud_of (cur s')) !! k = Some r.
Proof.
  intros Hs. unfold _start_cloudosd_provision_batch. cbv zeta. do 3 (case_decide; [done|]).
  rewrite run_bind. destruct (batch_intent rc b (s, w)) as [[dj|e] [s1 w1]] eqn:Ei; [|done].
  apply intent_same in Ei as [-> ->]. rewrite run_bind. unfold db_op at 1. cbn [fst snd].
  destruct (known_bubble (ba_bubble b) s) as [[[]|e] s1] eqn:Eb; [|done]. apply known_bubble_same in Eb as ->.
  rewrite run_bind.
  match goal with |- context [match (if ?c then ?x else ?y) ?sw with _ => _ end] =>
    destruct ((if c then x else y) sw) as [[aid|e] [s1 w2]] eqn:Ea; [|done] end.
  apply artifact_same in Ea as [-> ->]. unfold unlocking.
  match goal with |- (match ?m with _ => _ end) = _ → _ => destruct m as [[r|e] [s1 w3]] eqn:Em end.
  2: { destruct e; cbn; done. }
  intros E. unfold db_op, commit, execute in E. simpl in E. inversion E. subst r s' w'. clear E.
  cbn [cur] in *. rewrite run_bind in Em. unfold db_op at 1, _cloudosd_active_reserved_vmids in Em.
  cbn [fst snd] in Em. rewrite run_query, run_bind in Em. unfold io at 1 in Em. cbn [fst snd] in Em.
  destruct (_cloudosd_candidate_vmids _ _ _) as [[vmids|e] w4] eqn:Ev; [|done]. rewrite run_bind in Em.
  destruct (_cloudosd_batch_names _ _ _ vmids _) as [[plans|e] [s2 w5]] eqn:En; [|done].
  destruct (objection plans); [done|].
  apply candidate_vmids_least in Ev as (answer & w0 & first & taken & Hnext & Hfirst & Htaken & Hleast).
  apply names_spec in En as (Hcur & Hcom & <- & Hvalid & Hnd).
  assert (fit s2) as Hfit by (split; unfold holds_in; rewrite Hcur, Hcom; apply system_fit, Hs).
  destruct (provision_each_provisioned _ _ _ _ _ _ _ _ _ _ Hfit Em) as (Hids & Hall & Hnew & Hkeep).
  rewrite Hcur in Hnew, Hkeep. exists plans, answer, w0, first, taken. split_and!; try done.
  intros v. by rewrite Htaken, reserved_vmids_by.
Qed.
End batch.
