(* ===== verification/CloudExamples.v ===== *)
(** * Deployments of Windows clients, end to end

    A batch of two machines that join a domain: instances of the theorems about CloudOSD and
    the bubbles, and the behaviours that modelling brought to light. *)

From stdpp Require Import base gmap list strings pretty sorting relations.
From Stdlib Require Import ZArith Lia Ascii.
From S2P Require Import Prelude Json Text JsonParse Digest CloudData OsdeployData TsData Conditions Tree Sequences Content Runs RunState Progress Engine Generated OsdeployRoles OsdeployRuns OsdeployService OsdeployInvariant OsdeployTables OsdeployExamples SequenceCompiler CloudNames Bubbles BubbleInvariant CloudRuns CloudScripts CloudService CloudInvariant CloudJoin CloudBatch CloudReach CloudComplete CloudPasses CloudReserve.
Import AuthoringExample.

#[export] Instance plain_time : IsoTime := λ t, pretty t.

(** ** Playing requests *)

Definition play_cloud (rs : list cloud_request_op) (s : session) : session :=
  foldl (λ s r, (with_connection (serve_cloud r) s).2) s rs.

Lemma play_cloud_in_system rs s : in_system s → in_system (play_cloud rs s).
Proof.
  revert s. induction rs as [|r rs IH]; intros s Hs; simpl; [done|].
  apply IH. eapply rtc_r; [exact Hs|]. apply SystemCloud.
Qed.

(** ** A batch *)

Definition pe_media : cloud_artifact :=
  CloudArtifact "amd64" "26.4.17.1" "sha" "iso" "wim" "manifest" "A0" "B0" "builder" 0 None None None 0.

Definition client : cloud_args :=
  CloudArgs EmptyString EmptyString (Some "pve1") None None None None "amd64" EmptyString EmptyString EmptyString
    EmptyString 0 0 0 "Sales" EmptyString 0 EmptyString None true true false EmptyString false JNull JNull JNull.

(** A cluster in which the numbers 100 and 101 are used and one machine has a name that the
    pattern gives. *)
#[export] Instance small_cluster : GuestApi unit := {|
  api_post _ _ := λ w, (Ret JNull, w);
  api_get path := λ w, (Ret (if decide (path = "/cluster/nextid") then JStr "100"
    else JArr [JObj [("vmid", JInt 100)]; JObj [("vmid", JInt 101); ("name", JStr "Lab-01")]]), w);
  api_monotonic := λ w, (Ret 0%Z, w);
  api_sleep _ := λ w, (Ret tt, w)
|}.

Definition join_sequence : list seq_step :=
  [Step "join_ad_domain" true [("credential_id", JInt 3); ("domain_controller_ipv4", JStr "10.0.0.5")]].
Definition join_credential : credential_source := λ _,
  Ret (Some [("payload", JObj [("domain_fqdn", JStr "corp.example"); ("username", JStr "CORP\join");
                               ("password", JStr "hunter2")])]).

Definition ring : batch_args := BatchArgs 2 EmptyString "lab-{index}" EmptyString (Some (7%Z, Some join_sequence)) client None EmptyString.

Definition batch (b : batch_args) : eff (session * unit) (list string) :=
  _start_cloudosd_provision_batch (λ _ _ w, (Ret tt, w)) join_credential (λ _, true) (λ _, None) b.

Definition published : session := play_cloud [CloudArtifactBuilt pe_media None; CloudVolid "id0" "local:iso/pe.iso" None] initial.
Definition batched : session := with_connection_in (batch ring) published tt.

Lemma published_in_system : in_system published.
Proof. by apply play_cloud_in_system, rtc_refl. Qed.

Lemma batched_in_system : in_system batched.
Proof. eapply rtc_r; [exact published_in_system|]. apply SystemBatch. Qed.

(** ** A machine of the batch *)

(** Windows PE of the first machine is done, and its agent reports from the installed
    Windows. *)
Definition first_report : agent_heartbeat := AgentHeartbeat 1000 (Some "WORKGROUP") (Some false) (Some "lab-02").
Definition installed : session := play_cloud
  [CloudIdentity "id14" 102 "6a0e0f0a-0000-4000-8000-000000000102" "bc:24:11:00:01:02" (Some "pve1") (Some "lab-02");
   CloudRegister "6A0E0F0A-0000-4000-8000-000000000102" "BC-24-11-00-01-02" "amd64" None;
   CloudPostEvent "id14" "pe" "cloudosd_pe_complete" "info" None JNull;
   CloudView "id14" (Some first_report)] batched.

Definition deployment_state (id : string) (s : session) : option cloud_state := cr_state <$> cloud_runs (cloud_of (cur s)) !! id.
Definition step_states (id : string) (s : session) : list (string * step_state) :=
  (λ kr : string * step_row, (ps_kind (st_plan kr.2), st_state kr.2)) <$> run_steps id (cur s).

(** A guest that is in no domain, joins, and restarts before the call returns. *)
#[export] Instance willing_guest : Guests Z := {|
  guest_exec node vmid script timeout := λ t,
    (if decide (script = _PROBE_PS) then Ret (JObj [("exitcode", JInt 0); ("out-data", JStr "DOMAIN=False")])
     else if decide (script = _REBOOT_PS) then Exc (CustomError "TimeoutError" "timed out")
     else Ret (JObj [("exitcode", JInt 0); ("out-data", JStr "JOIN_OK")]), (t + 1)%Z);
  resolve_credential id := λ t, (Ret (JObj [("username", JStr "join"); ("password", JStr "hunter2")]), t);
  resolve_node vmid := λ t, (Ret (Some "pve1"), t);
  persist_hash vmid serial hash tag := λ t, (Ret tt, t);
  monotonic := λ t, (Ret t, t)
|}.


(** The domain of a guest. *)
Definition report (t : Z) : agent_heartbeat := AgentHeartbeat t (Some "Corp.Example") (Some true) (Some "lab-02").

Definition full_hash : string := String.string_of_list_ascii (repeat "A"%char 512).

(** The same guest after the restart, with a hardware hash of 512 characters. *)
Definition member_guest : Guests Z := {|
  guest_exec node vmid script timeout := λ t,
    (Ret (JObj [("exitcode", JInt 0); ("out-data", JStr (
       if decide (script = _PROBE_PS) then "DOMAIN=True"
       else "SERIAL=PF-1" +:+ String "010" EmptyString +:+ "HASH=" +:+ full_hash))]), (t + 1)%Z);
  resolve_credential id := λ t, (Exc (KeyError "credential"), t);
  resolve_node vmid := λ t, (Ret (Some "pve1"), t);
  persist_hash vmid serial hash tag := λ t, (Ret tt, t);
  monotonic := λ t, (Ret t, t)
|}.

Definition joined : session :=
  with_connection_in (_do_cloudosd_domain_join_tick (λ _, Some first_report) 10) installed 0%Z.
Definition completed : session :=
  with_connection_in (_do_cloudosd_domain_join_tick (Guests0:=member_guest) (λ _, Some (report 2000)) 10) joined 0%Z.


Lemma installed_in_system : in_system installed.
Proof. apply play_cloud_in_system, batched_in_system. Qed.

(** ** Instances of the theorems *)

Lemma system_well_formed_witness : wf_runs (cur completed) ∧ wf_cloud (cur completed) ∧ wf_bubbles (cur completed).
Proof.
  assert (in_system completed) as Hs.
  { do 2 (eapply rtc_r; [|apply SystemTick]). exact installed_in_system. }
  destruct (system_well_formed completed Hs) as (_ & _ & _ & _ & H1 & _ & H2 & H3). by split_and!.
Defined.

(** Two machines, under the numbers 102 and 103: Proxmox calls 100 the next free number and
    lists machines under 100 and 101. *)
Lemma batch_reserves_witness :
  match batch ring (published, tt) with
  | (Ret ids, (s', _)) => ∃ plans taken, length plans = 2%nat ∧
      (∀ v, v ∈ taken ↔ reserved_by (cur published) v ∨ used_by_machine tt v) ∧
      least_free 100 taken 2 (bt_requested_vmid <$> plans) ∧ 100%Z ∈ taken ∧ 101%Z ∈ taken ∧
      NoDup ids ∧ Forall2 (provisioned (cur s')) plans ids
  | _ => False
  end.
Proof.
  assert (is_Some (match (batch ring (published, tt)).1 with Ret ids => Some ids | Exc _ => None end)) as [x Hx]
    by (vm_compute; eauto).
  unfold batch in *. destruct (_start_cloudosd_provision_batch _ _ _ _ ring (published, tt)) as [[ids|e] [s' w']] eqn:E; [|done].
  destruct (batch_reserves _ _ _ _ _ _ _ _ _ _ published_in_system E)
    as (plans & answer & w1 & first & taken & H0 & H1 & H2 & H3 & _ & _ & H4 & H5 & _).
  injection H0 as <- <-.
  assert (py_int (JStr "100") = Ret 100%Z) as Hi by by vm_compute. rewrite Hi in H1. injection H1 as <-.
  exists plans, taken.
  pose proof (proj1 H3) as Hlen. rewrite length_fmap in Hlen.
  split; [exact Hlen|]. split; [exact H2|]. split; [exact H3|]. split; [|split; [|split; [exact H4|exact H5]]].
  - apply H2. right. eexists _, (JObj [("vmid", JInt 100)]). split; [by vm_compute|]. split; [by left|by vm_compute].
  - apply H2. right. eexists _, (JObj [("vmid", JInt 101); ("name", JStr "Lab-01")]).
    split; [by vm_compute|]. split; [by right; left|by vm_compute].
Defined.

(** When Proxmox answers which number is free but not which machines there are, every number
    after the first may be that of a machine. *)
Definition silent_cluster : GuestApi unit := {|
  api_post _ _ := λ w, (Ret JNull, w);
  api_get path := λ w, (if decide (path = "/cluster/nextid") then Ret (JStr "100")
    else Exc (CustomError "ReadTimeout" "timed out"), w);
  api_monotonic := λ w, (Ret 0%Z, w);
  api_sleep _ := λ w, (Ret tt, w)
|}.

Example numbers_fail_open :
  (_cloudosd_candidate_vmids (GuestApi0:=small_cluster) 2 ∅ tt).1 = Ret [102; 103]%Z ∧
  (_cloudosd_candidate_vmids (GuestApi0:=silent_cluster) 2 ∅ tt).1 = Ret [100; 101]%Z.
Proof. split; by vm_compute. Qed.

Definition alone : cloud_args := plan_args ring "id0"
  (JObj [("enabled", JBool true); ("credential_id", JInt 3); ("domain_fqdn", JStr "corp.example");
         ("domain_controller_ipv4", JStr "10.0.0.5")]) (BatchPlan "alone-1" "SN1" 120).

Lemma cloud_deployment_planned_witness :
  match create_run alone published with
  | (Ret (id, _), s') => last (planned_kinds (run_steps id (cur s')).*2) = Some ("full_os", "capture_autopilot_hash")
  | _ => False
  end.
Proof.
  destruct (create_run alone published) as [[[id row]|e] s'] eqn:E.
  - destruct (cloud_deployment_planned _ _ _ _ _ published_in_system E)
      as (config & r & er & _ & _ & _ & _ & _ & _ & _ & _ & _ & _ & _ & H1 & _). exact H1.
  - exfalso. assert (is_Some (result (create_run alone) published)) as [x Hx] by (vm_compute; eauto).
    unfold result in Hx. by rewrite E in Hx.
Defined.

(** Whether a deployment joins a domain, and whether a heartbeat is from it. *)
Definition verdict (hb : agent_heartbeat) (r : cloud_run) : bool * bool :=
  let config := stored_domain_join (cq_domain_join (cr_request r)) None in
  (_domain_join_enabled config, jv_matched (domain_join_verification config (Some hb))).

(** The machine has not joined its domain yet: the deployment waits. *)
Lemma heartbeat_completes_exactly_witness :
  match mark_complete_from_heartbeat "id14" 1000 (Some first_report) installed with
  | (Ret (Some row), s') => cr_state row ≠ CloudComplete
  | _ => False
  end.
Proof.
  assert (known (cloud_runs (cloud_of (cur installed))) "id14" = true) as [r Hr]%known_true by by vm_compute.
  destruct (heartbeat_completes_exactly installed "id14" 1000 first_report r installed_in_system Hr)
    as (row & s' & r' & -> & _ & -> & _ & H1 & _). intros [H2|(_ & H2 & _)]%H1.
  - assert (deployment_state "id14" installed = Some WaitingDomainJoin) as Hst by by vm_compute.
    unfold deployment_state in Hst. rewrite Hr in Hst. simpl in Hst. congruence.
  - assert (verdict first_report <$> cloud_runs (cloud_of (cur installed)) !! "id14" = Some (true, false)) as Hv by by vm_compute.
    rewrite Hr in Hv. assert (verdict first_report r = (true, false)) as [H3 H4]%pair_eq by by apply (inj Some).
    destruct H2 as [H2|H2]; [by rewrite H2 in H3|by rewrite H2 in H4].
Defined.

(** The step that the pass completes was shown by the join that succeeded. *)
Lemma joins_are_justified_witness :
  let '(_, (s', (_, log))) := run_pending_joins (λ _, Some first_report) None None 10 (installed, (0%Z, [])) in
  all_justified log ∧ length log = 3%nat ∧ step_states "id14" s' !! 6%nat = Some ("join_domain_role", Done).
Proof.
  assert (let '(_, (s', (_, log))) := run_pending_joins (λ _, Some first_report) None None 10 (installed, (0%Z, [])) in
    length log = 3%nat ∧ step_states "id14" s' !! 6%nat = Some ("join_domain_role", Done)) as Hl by (by vm_compute).
  pose proof (joins_are_justified (λ _, Some first_report) None None 10 installed 0%Z installed_in_system) as Hj.
  destruct (run_pending_joins _ _ _ _ _) as [o [s' [w' log]]]. destruct Hj as [Hj _]. by split.
Defined.

(** ** Behaviours *)

(** The machine of a batch from its creation to its end. *)
Example batch_machine_completes :
  deployment_state "id14" batched = Some CloudCreated ∧ deployment_state "id14" installed = Some WaitingDomainJoin ∧
  deployment_state "id14" joined = Some WaitingDomainJoin ∧ deployment_state "id14" completed = Some CloudComplete ∧
  deployment_state "id35" completed = Some CloudCreated.
Proof. by vm_compute. Qed.

(** A late report of the identity reopens a deployment that is complete: only its heartbeat
    column tells that it was. *)
Example identity_reopens_complete :
  let s := play_cloud [CloudIdentity "id14" 102 "6a0e0f0a-0000-4000-8000-000000000102" "bc:24:11:00:01:02" None None] completed in
  deployment_state "id14" s = Some CloudAwaitingPe ∧
  engine_state_of "id14" completed = Some RunDone ∧ engine_state_of "id14" s = Some (RunNamed "awaiting_pe").
Proof. by vm_compute. Qed.

(** Two bubbles; the domain controller of the first reports that it is ready and is then
    moved to the second.  The first may still launch machines that join its domain. *)
Definition bubble_named (name : string) : bubble_args :=
  BubbleArgs name EmptyString "corp.example" "CORP" EmptyString EmptyString EmptyString None EmptyString EmptyString EmptyString EmptyString EmptyString.

Definition ready_bubble : session := play_cloud (CloudBubbles <$>
  [ReqCreateBubble (bubble_named "One"); ReqCreateBubble (bubble_named "Two");
   ReqCreateAsset "id0" "vm" "domain_controller" (Some 200%Z) None None (Some "dc-agent") None "active" "confirmed" EmptyString;
   ReqDcHeartbeat (Some "id0") "dc-agent"
     (JObj [("ad_ds_ready", JBool true); ("dns_ready", JBool true); ("dhcp_ready", JBool true)])]) initial.

Definition gate (id : string) (s : session) : option bool := lg_allowed <$> result (evaluate_launch_gate id true false false false) s.

Example readiness_outlives_controller :
  gate "id0" ready_bubble = Some true ∧
  let s := play_cloud [CloudBubbles (ReqMoveAsset "id0" "id2" "id1" "rebuilt")] ready_bubble in
  (ba_bubble_id <$> bubble_assets (lab_of (cur s)) !! "id2") = Some "id1" ∧ gate "id0" s = Some true ∧
  gate "id1" s = Some false.
Proof. by vm_compute. Qed.

(** The names and numbers of the batch: of the numbers from 100 on, 100 and 101 are in use,
    and the name that Proxmox told of is passed over. *)
Example batch_names_and_numbers :
  (λ id, (λ r, (cq_vm_name (cr_request r), cq_requested_vmid (cr_request r))) <$> cloud_runs (cloud_of (cur batched)) !! id)
    <$> ["id14"; "id35"] = [Some ("lab-02", Some 102%Z); Some ("lab-03", Some 103%Z)].
Proof. by vm_compute. Qed.
